(* ===== verification/_CoqProject ===== *)
-Q . S2P
Prelude.v
Memory.v
CString.v
Heap.v
KernelMemory.v
PhysMem.v
Paging.v
Alloc.v
KernelAlloc.v
Module.v
Vfs.v
Tmpfs.v
Devfs.v
Ports.v
Ata.v
Partitions.v
Pci.v
Ext4.v
VfsInit.v
Sched.v
Timer.v
Graphics.v
UserSpace.v
Interrupts.v
Keyboard.v
Buffer.v
Font.v
Display.v
Console.v
Mouse.v
Window.v
Kedit.v
Desktop.v
Terminal.v
GuiPrograms.v
Gui.v
GuiDraw.v
Shell.v
FileCommands.v
Serial.v
Cmos.v
Cpu.v
SystemCommands.v
E1000.v
Network.v
UsbInput.v
Acpi.v
FontFiles.v
Lkm.v
Boot.v
LocalApic.v
Panic.v
VgaText.v
UsbHost.v
Uhci.v
Ohci.v
Ehci.v
Xhci.v
Bitmaps.v
