(* ===== verification/Prelude.v ===== *)
(** * A model of the KernixOS kernel in Rocq

    KernixOS is a 64-bit kernel in C, under [src/core] with shared routines in [src/common].
    This library translates the parts that carry its logic into executable definitions and
    proves what makes them correct.  This file holds what the parts share.

    ** How the code is modelled

    Integers are [Z] with their wrap-around written out ([u8] ... [u64], [i32]); the
    coordinates of the desktop are added and subtracted in 32 bits ([⊕], [⊖] of [Desktop]).
    A function that reads or writes state is a computation of the monad [M S A]: it returns a
    value and the next state, or is [Stuck]: it panics, halts for ever ([Halted]), makes an
    access outside the storage the model owns ([Fault]), leaves the range of an [int] where
    the model watches for it ([Overflow], in [Mouse]), goes on with headers of the heap that
    a controller has written over ([Overwritten]), or runs out of the model's fuel ([NoFuel]).
    [while] loops are [iterM] with fuel, [for] loops [for_range]; [wp] is total correctness,
    so a theorem stated with it, or with [= Done r s'], also says that the code returns.
    Fuel is a bound that the code cannot exceed: the number of headers of a heap, of entries
    of a table, or the length of what is scanned; where it is an argument of a definition
    the theorems say how much is enough.  Names are those of the source.

    ** The parts

    Memory.  [Memory]: the routines of [drivers/memory/mem.c] on byte-addressed memory;
    [CString]: [common/string/string.c] on top of it.  [Heap]: the block heap
    [mem/heap/heap.c], its headers kept by address, with the abstract list of blocks
    ([heap_rep]) every operation refines.  [KernelMemory]: the accounted heap of
    [mem/kernel_memory], the slab set-up.  [PhysMem]: the frame allocator of [mem/phys].
    [Paging]: the page tables of [mem/paging], against the translation ([walk]) the
    processor makes, huge pages included; the code does not look for these, and the theorems
    are about tables without them.

    Interfaces.  [Alloc] states as the class [Allocator] what the other parts rely on when
    they allocate (live payloads are disjoint, in memory, and keep their bytes);
    [KernelAlloc] proves it for the kernel's heap.  [Ports] is the class [PortIO] of the port
    instructions, which are hardware and a parameter; [Ata] adds the law [AtaDrive], the
    protocol a drive follows.

    Components and files.  [Module]: the component registry of [kernel/module/module.c].
    [Vfs], [Tmpfs], [Devfs], [Ext4]: the virtual file system and its file systems under
    [fs], over the [Allocator] interface; [VfsInit] mounts them.

    Devices.  [Ata], [Partitions], [Pci]: the disk driver, the partition table, the PCI bus.
    [Serial], [Cmos]: the serial line [kernel/communication/serial.c] and the clock.
    [E1000], [Network]: the network card and the answers to ARP and echo requests
    ([drivers/ethernet], [shell/commands/network.c]).  [UsbHost] is what [Uhci], [Ohci],
    [Ehci] and [Xhci], the four drivers under [drivers/usb], have in common; [UsbInput] is
    the USB keyboard and mouse.

    Processors and time.  [Sched]: [cpu/smp.c], [per_cpu.c], [spinlock.c] and the scheduler;
    [Timer]: the timer and its events; [Interrupts]: the descriptor tables [cpu/gdt.c] and
    [idt.c], the dispatch of interrupts and the old interrupt controller; [LocalApic]:
    [cpu/apic.c], [cpu/ioapic.c] and the start of the other processors; [Acpi]: the tables
    of the firmware, [cpu/acpi.c] and [cpu/mp.c]; [Cpu]: what [cpuid] tells; [Panic]: the end.

    Screen and processes.  [Graphics]: the graphics manager with its workspaces, sessions
    and key buffers; [UserSpace]: the processes, over [PhysMem], [Paging] and [Graphics].

    Text screen.  [Buffer] is the string routines on arrays of fixed length, which what
    follows is written with.  [Font], [Display]: the fonts and the frame buffer
    ([kernel/display]); [FontFiles]: fonts from files; [Console]: [common/outputs];
    [VgaText]: the window of the text mode.

    Shell.  [Keyboard], [Mouse]: the PS/2 drivers.  [Window]: the console's window and its
    cursor; [Shell]: the line editor and the parser; [Kedit]: the text editor;
    [FileCommands], [SystemCommands]: the commands.

    Desktop.  [Desktop] is the state the window manager and its programs share, [Gui] and
    [GuiDraw] the window manager [gui/gui.c], [Terminal] and [GuiPrograms] the programs;
    [Bitmaps]: the loaders of pictures.

    Start.  [Lkm]: the loader of kernel modules ([kernel/module/elf_loader.c], [lkm.c]);
    [Boot]: the start-up [kernel.c], as the sequence of calls it makes to the others.

    ** How the parts meet

    A part that calls another one is written against a class, and its theorems use the laws
    of the class alone.  [Allocator] has the kernel's heap as its instance ([KernelAlloc]);
    [TextScreen], what the shell draws with, has the console's window ([Window]); [Painter]
    and [Screen], what the desktop and the mouse draw with, have the frame buffer
    ([Display]); [IrqController] has the interrupts' state.  The classes [Files], [Session],
    [SystemInfo], [Printers], [Directories] and the two called [Kernel] (in [Desktop] and in
    [Boot]) are the calls a client makes to several parts at once; the theorems about a
    client state what they need of them as laws ([CommandLaws], [SessionLaws], [FileLaws],
    ...), and a concrete instance shows that the laws can hold.  Hardware is a parameter:
    [PortIO], [RegIO], [MsrIO], [cpuid], and the memory a USB controller writes
    ([Controller], which may write all of it; [HeapData] tells which bytes hold headers of the
    heap); [AtaDrive], [RealTimeClock], [SerialLine], [IoApicHw] and [LocalApicHw]
    state the documented behaviour of a device.

    ** What the theorems show

    - Memory: [malloc] is best fit and complete, [free] coalesces the whole run around a
      block, both keep the heap well formed; the accounted heap zeroes what it hands out and
      its blocks never overlap; the frame allocator is first fit, never frees what the
      memory map does not offer, and allocation and release cancel out; mapping a page
      changes the processor's translation of that page alone; a region is mapped to
      consecutive frames and cleared; the byte and string routines agree with the
      functions on lists they stand for, and numbers survive being printed and read.
    - Files: paths resolve component by component; a file of the memory file system reads
      back what was written, through growth; names are not made twice; descriptors are given
      back on close; ext4 finds a block through its extents, those of depth 0, and refuses bad
      superblocks.
    - Devices: a sector read from a drive that follows the protocol is the drive's sector;
      the partition table is that of the MBR; the PCI scan fills its table; the formatted
      output to the serial line is the text of the values; an echo request with its type as
      the network has it is ignored, and one with the type as the code tests it is answered
      with its data and right checksums; frames go round the rings of the card in order, and
      the tail register follows.
    - USB: a control transfer gives its memory back on every way out, whatever the controller
      does short of writing over the heap's headers; requests are posted in order on the ring,
      word by word as listed; the strokes of a text give the text; the reader of HID reports
      ends whatever the device sends.
    - Scheduling: the ready queues are FIFO, every process gets its turn; tasks of which each
      has been switched away from go round in order, while the first switch to a new task
      loads a context nobody has saved; a timer interrupt runs exactly the events that are due; delays end; whatever the timer
      is asked, its state stays well formed.
    - Processor tables: the processor decodes the segments and the interrupt gates that
      were meant, but for the gates of the exceptions, which are not present.
    - Interrupt lines are routed one at a time, masked while half set, with polarity and
      trigger exchanged; the walks of the
      firmware's tables end and list the processors that are enabled.
    - Screen and processes: a commit shows exactly the dirty boxes, text stays in its
      session; processes never share addresses.
    - Text screen and shell: figures are drawn as specified and clipped, printing stays in
      the frame buffer; every key of the shell's line editor, and of the text editor, refines
      a step of an editor on strings, but for the carriage return of the first; a file survives being loaded and saved; [cd] finds its
      directory.  The pointer stays on the screen whatever bytes the mouse sends.
    - Desktop: any sequence of operations on windows of at most 2^28 refines the same
      operations on a stack of windows; a terminal shows the last hundred lines, wrapped, and
      a line of 512 characters leaves its array.
    - Start: with a frame buffer the start comes to its end, whatever the parts answer, and
      makes the calls that depend on conditions in the order they should have; the table of
      modules is a list, and relocations change nothing outside their module.

    Some lemmas state a defect exactly as the code has it, among them: a write to a drive
    always reports failure ([Ata]), a key read from a buffer blocks it ([Graphics]), an
    unlinked device stays reachable ([Devfs]), the PCI scan wraps round ([Pci]), a usage is
    looked for in the wrong item, so that no USB keyboard is recognised ([UsbHost]), a huge page
    is taken for a table ([Paging]), the
    desktop's loader refuses every bitmap that ends with its pixels ([Bitmaps]).

    ** Not modelled

    The assembly that switches contexts (but for the return address it keeps, [Sched]), enters
    interrupts and loads the tables; the requests
    to the boot loader ([include/defs.c]), which are declarations only; most messages to the
    log, where a part's output is not what it is for.  What the hardware does is a parameter.
    The code is run as one processor runs it: several processors at once are not modelled, a
    spin lock that is taken stays taken; an interrupt is an operation between two others. *)

From Stdlib Require Import ZArith Lia String.
From stdpp Require Import base gmap list strings numbers.

Set Default Goal Selector "!".

Declare Scope kx_scope.
Delimit Scope kx_scope with kx.
Open Scope Z_scope.

(** Sizes. *)
Notation "n 'KiB'" := (n * 1024)%Z (at level 1, format "n  'KiB'") : kx_scope.

(** The facts that close the common side conditions. *)
Create HintDb kx.

(** ** Machine words *)

(** Reduction of a mathematical integer to the unsigned C types, and the
    two's-complement value of the signed ones. *)
Definition u8 (z : Z) : Z := z mod 2 ^ 8.
Definition u16 (z : Z) : Z := z mod 2 ^ 16.
Definition u32 (z : Z) : Z := z mod 2 ^ 32.
Definition u64 (z : Z) : Z := z mod 2 ^ 64.
Definition i8 (z : Z) : Z := (z + 2 ^ 7) mod 2 ^ 8 - 2 ^ 7.
Definition i32 (z : Z) : Z := (z + 2 ^ 31) mod 2 ^ 32 - 2 ^ 31.
Definition i64 (z : Z) : Z := (z + 2 ^ 63) mod 2 ^ 64 - 2 ^ 63.

Lemma u8_range z : 0 ≤ u8 z < 2 ^ 8.
Proof. apply Z.mod_pos_bound. lia. Qed.
Lemma u16_range z : 0 ≤ u16 z < 2 ^ 16.
Proof. apply Z.mod_pos_bound. lia. Qed.
Lemma u32_range z : 0 ≤ u32 z < 2 ^ 32.
Proof. apply Z.mod_pos_bound. lia. Qed.
Lemma u64_range z : 0 ≤ u64 z < 2 ^ 64.
Proof. apply Z.mod_pos_bound. lia. Qed.
#[export] Hint Resolve u8_range u16_range u32_range u64_range : kx.

(** A value an [int] can hold stays as it is. *)
Lemma i32_id z : - 2 ^ 31 ≤ z < 2 ^ 31 → i32 z = z.
Proof. unfold i32. intros. rewrite Z.mod_small; lia. Qed.

(** A C condition: any non-zero value is true. *)
Definition truthy (z : Z) : bool := negb (z =? 0).
(** The [int] a C comparison returns. *)
Definition b2z (b : bool) : Z := if b then 1 else 0.

(** Bit complement of an unsigned word of [w] bits. *)
Definition unot (w z : Z) : Z := Z.land (Z.lnot z) (Z.ones w).

(** The null pointer. *)
Definition NULL : Z := 0.

(** A C string as the list of its characters, and the list a literal stands for. *)
Abbreviation str := (list Z).
Definition chars (s : string) : str := (λ c, Z.of_N (Ascii.N_of_ascii c)) <$> list_ascii_of_string s.

(** ** Stuck computations

    A C function either returns or gets stuck: it panics, spins for ever with
    the processor halted, makes an access outside the storage the model owns,
    computes an [int] out of range, goes on with data of its own that the hardware
    has written over, or (in the model only) runs out of fuel. *)
Inductive stuck :=
| Panic (msg : string)
| Halted
| Fault
| Overflow
| Overwritten
| NoFuel.

Inductive outcome (S A : Type) :=
| Done (a : A) (s : S)
| Stuck (why : stuck).
Arguments Done {S A} a s.
Arguments Stuck {S A} why.

(** The state-and-failure monad all the operations are written in. *)
Definition M (S A : Type) : Type := S → outcome S A.

#[global] Instance M_ret S : MRet (M S) := λ A a s, Done a s.
#[global] Instance M_bind S : MBind (M S) := λ A B f m s,
  match m s with
  | Done a s' => f a s'
  | Stuck w => Stuck w
  end.

Definition get {S} : M S S := λ s, Done s s.
Definition put {S} (s : S) : M S unit := λ _, Done tt s.
Definition gets {S A} (f : S → A) : M S A := λ s, Done (f s) s.
Definition modify {S} (f : S → S) : M S unit := λ s, Done tt (f s).
Definition stuck_with {S A} (w : stuck) : M S A := λ _, Stuck w.
Definition panic {S A} (msg : string) : M S A := stuck_with (Panic msg).
Definition fault {S A} : M S A := stuck_with Fault.
Definition of_option {S A} (o : option A) : M S A :=
  match o with Some a => mret a | None => fault end.

(** [if (b) m;] *)
Definition whenM {S} (b : bool) (m : M S unit) : M S unit :=
  if b then m else mret tt.

(** Running an operation of a sub-component on the part of the state it owns. *)
Definition zoom {S T A} (get_ : S → T) (set_ : T → S → S) (m : M T A) : M S A :=
  λ s, match m (get_ s) with
       | Done a t => Done a (set_ t s)
       | Stuck w => Stuck w
       end.

(** A [while] loop over the loop variables [L]: [step] returns the next values
    ([inl]) or the value the loop leaves with ([inr]). *)
Fixpoint iterM {S L R} (fuel : nat) (step : L → M S (L + R)) (l : L) : M S R :=
  match fuel with
  | O => stuck_with NoFuel
  | Datatypes.S n =>
      r ← step l;
      match r with
      | inl l' => iterM n step l'
      | inr x => mret x
      end
  end.

(** [for (i = lo; i < lo + n; i++) body(i);] *)
Fixpoint for_range {S} (n : nat) (lo : Z) (body : Z → M S unit) : M S unit :=
  match n with
  | O => mret tt
  | Datatypes.S n' => body lo;; for_range n' (lo + 1) body
  end.

(** [for (i = lo; i < hi; i++) body(i);] *)
Definition for_to {S} (lo hi : Z) (body : Z → M S unit) : M S unit :=
  for_range (Z.to_nat (hi - lo)) lo body.

(** ** Total correctness *)

Definition wp {S A} (m : M S A) (Q : A → S → Prop) (s : S) : Prop :=
  match m s with
  | Done a s' => Q a s'
  | Stuck _ => False
  end.

Section wp_rules.
  Context {S : Type}.

Lemma wp_ret {A} (a : A) (Q : A → S → Prop) s : Q a s → wp (mret a) Q s.
Proof. intros H. exact H. Qed.

Lemma wp_bind {A B} (m : M S A) (f : A → M S B) Q s :
  wp m (λ a s', wp (f a) Q s') s → wp (m ≫= f) Q s.
Proof. unfold wp, mbind, M_bind. by destruct (m s). Qed.

Lemma wp_mono {A} (m : M S A) (P Q : A → S → Prop) s :
  wp m P s → (∀ a s', P a s' → Q a s') → wp m Q s.
Proof. unfold wp. destruct (m s); naive_solver. Qed.

Lemma wp_run {A} (m : M S A) (Q : A → S → Prop) s :
  wp m Q s ↔ ∃ a s', m s = Done a s' ∧ Q a s'.
Proof. unfold wp. destruct (m s); naive_solver. Qed.

Lemma wp_get (Q : S → S → Prop) s : Q s s → wp get Q s.
Proof. intros H. exact H. Qed.

Lemma wp_gets {A} (f : S → A) (Q : A → S → Prop) s : Q (f s) s → wp (gets f) Q s.
Proof. intros H. exact H. Qed.

Lemma wp_modify f (Q : unit → S → Prop) s : Q tt (f s) → wp (modify f) Q s.
Proof. intros H. exact H. Qed.

Lemma wp_whenM b (m : M S unit) (Q : unit → S → Prop) s :
  (b = true → wp m Q s) → (b = false → Q tt s) → wp (whenM b m) Q s.
Proof. destruct b; intros H1 H2; [by apply H1|by apply wp_ret, H2]. Qed.

Lemma wp_of_option {A} (o : option A) a (Q : A → S → Prop) s :
  o = Some a → Q a s → wp (of_option o) Q s.
Proof. intros -> H. exact H. Qed.

(** A counted loop keeps an invariant indexed by the loop variable. *)
Lemma wp_for_range (I : Z → S → Prop) n lo body s :
  I lo s →
  (∀ i s', lo ≤ i < lo + Z.of_nat n → I i s' → wp (body i) (λ _, I (i + 1)) s') →
  wp (for_range n lo body) (λ _, I (lo + Z.of_nat n)) s.
Proof.
  revert lo s; induction n as [|n IH]; intros lo s Hlo Hstep; simpl.
  - apply wp_ret. by rewrite Z.add_0_r.
  - apply wp_bind. eapply wp_mono; [apply Hstep; [lia|done]|].
    intros [] s' HI. eapply wp_mono.
    + apply IH; [done|]. intros i s'' Hi. apply Hstep. lia.
    + intros [] s''. replace (lo + 1 + Z.of_nat n) with (lo + Z.of_nat (Datatypes.S n)) by lia.
      done.
Qed.

Lemma wp_for_to (I : Z → S → Prop) lo hi body s :
  lo ≤ hi → I lo s →
  (∀ i s', lo ≤ i < hi → I i s' → wp (body i) (λ _, I (i + 1)) s') →
  wp (for_to lo hi body) (λ _, I hi) s.
Proof.
  intros Hle Hlo Hstep. unfold for_to.
  eapply wp_mono.
  - apply wp_for_range with (I := I); [done|]. intros i s' Hi. apply Hstep. lia.
  - intros [] s'. replace (lo + Z.of_nat (Z.to_nat (hi - lo))) with hi by lia. done.
Qed.

(** A [while] loop with an invariant and a measure that fits the fuel. *)
Lemma wp_iterM {L R} (I : L → S → Prop) (μ : L → nat) fuel
    (step : L → M S (L + R)) (Q : R → S → Prop) l s :
  I l s → (μ l < fuel)%nat →
  (∀ l s, I l s → wp (step l) (λ r s', match r with
     | inl l' => I l' s' ∧ (μ l' < μ l)%nat
     | inr x => Q x s' end) s) →
  wp (iterM fuel step l) Q s.
Proof.
  revert l s; induction fuel as [|fuel IH]; intros l s HI Hμ Hstep; simpl; [lia|].
  apply wp_bind. eapply wp_mono; [by apply Hstep|].
  intros [l'|x] s' HQ; simpl in *.
  - apply IH; [tauto|lia|done].
  - done.
Qed.

End wp_rules.

(** One pass of a loop. *)
Lemma iterM_S {St L R} (k : nat) (body : L → M St (L + R)) (l : L) (s : St) :
  iterM (Datatypes.S k) body l s =
    match body l s with
    | Done (inl l') s' => iterM k body l' s'
    | Done (inr r) s' => Done r s'
    | Stuck w => Stuck w
    end.
Proof. cbn [iterM]. unfold mbind, M_bind. by destruct (body l s) as [[?|?]|]. Qed.

#[export] Hint Resolve wp_ret wp_get wp_gets wp_modify : kx.

(** The stepping tactic of the wp proofs. *)
Ltac wp_step :=
  lazymatch goal with
  | |- wp (mbind _ _) _ _ => apply wp_bind
  | |- wp (mret _) _ _ => apply wp_ret
  | |- wp get _ _ => apply wp_get
  | |- wp (gets _) _ _ => apply wp_gets
  | |- wp (modify _) _ _ => apply wp_modify
  | |- wp (whenM _ _) _ _ => apply wp_whenM; intros
  end.
Ltac wp_steps := repeat (wp_step; cbv beta).

(** ** Bytes and little-endian words *)

(** [le_combine bs] is the little-endian number the bytes [bs] store;
    [le_split n z] the [n] bytes that store [z]. *)
Fixpoint le_combine (bs : list Z) : Z :=
  match bs with
  | [] => 0
  | b :: bs' => b + 2 ^ 8 * le_combine bs'
  end.

Fixpoint le_split (n : nat) (z : Z) : list Z :=
  match n with
  | O => []
  | S n' => z mod 2 ^ 8 :: le_split n' (z / 2 ^ 8)
  end.

Definition is_byte (b : Z) : Prop := 0 ≤ b < 2 ^ 8.
#[global] Instance is_byte_dec b : Decision (is_byte b).
Proof. unfold is_byte. apply _. Defined.

Lemma length_le_split n z : length (le_split n z) = n.
Proof. revert z; induction n as [|n IH]; intros z; simpl; [done|by rewrite IH]. Qed.

Lemma le_split_bytes n z : Forall is_byte (le_split n z).
Proof.
  revert z; induction n as [|n IH]; intros z; simpl; constructor; [|apply IH].
  apply Z.mod_pos_bound. lia.
Qed.

Lemma le_split_combine bs :
  Forall is_byte bs → le_split (length bs) (le_combine bs) = bs.
Proof.
  induction 1 as [|b bs Hb _ IH]; [done|]; cbn [length le_combine le_split].
  unfold is_byte in Hb. change (2 ^ 8) with 256 in *.
  rewrite (Z.mul_comm 256), Z_mod_plus_full, Z.div_add by lia.
  by rewrite Z.mod_small, Z.div_small, Z.add_0_l, IH by lia.
Qed.

Lemma le_combine_split n z : le_combine (le_split n z) = z mod 2 ^ (8 * Z.of_nat n).
Proof.
  revert z; induction n as [|n IH]; intros z; cbn [le_split le_combine].
  - by rewrite Z.mod_1_r.
  - rewrite IH. replace (8 * Z.of_nat (S n)) with (8 + 8 * Z.of_nat n) by lia.
    rewrite Z.pow_add_r, Z.rem_mul_r by lia. lia.
Qed.

Lemma le_combine_bound bs :
  Forall is_byte bs → 0 ≤ le_combine bs < 2 ^ (8 * Z.of_nat (length bs)).
Proof.
  intros H. rewrite <-(le_split_combine bs H), le_combine_split, length_le_split.
  apply Z.mod_pos_bound. lia.
Qed.

(** The [n]-byte little-endian field at offset [off] of a buffer, when it lies inside. *)
Definition field (n off : nat) (bs : list Z) : option Z :=
  if (off + n <=? length bs)%nat then Some (le_combine (take n (drop off bs))) else None.

Lemma field_inside n off (bs : list Z) : (off + n ≤ length bs)%nat → is_Some (field n off bs).
Proof. intros H. unfold field. rewrite (proj2 (Nat.leb_le _ _)) by done. eauto. Qed.

Lemma field_bound n off bs z :
  Forall is_byte bs → field n off bs = Some z → 0 ≤ z < 2 ^ (8 * Z.of_nat n).
Proof.
  intros Hb. unfold field. destruct (Nat.leb_spec (off + n) (length bs)); [|done]. intros [= <-].
  pose proof (le_combine_bound (take n (drop off bs))) as Hc.
  rewrite length_take_le in Hc by (rewrite length_drop; lia).
  apply Hc. by apply Forall_take, Forall_drop.
Qed.

(** Joining two halves of a word. *)
Lemma lor_shiftl_add lo hi k : 0 ≤ k → 0 ≤ lo < 2 ^ k → Z.lor lo (Z.shiftl hi k) = lo + 2 ^ k * hi.
Proof.
  intros Hk Hlo. rewrite Z.shiftl_mul_pow2 by done. rewrite (Z.mul_comm (2 ^ k)).
  symmetry. rewrite <-Z.lxor_lor, Z.add_nocarry_lxor; [done|..].
  all: apply Z.bits_inj_0; intros i; rewrite Z.land_spec; destruct (Z.lt_ge_cases i k).
  all: try (rewrite (Z.mul_pow2_bits_low hi) by lia; apply andb_false_r).
  all: destruct (Z.eq_dec lo 0) as [->|]; [by rewrite Z.bits_0|].
  all: rewrite (Z.bits_above_log2 lo); [done|lia|]; apply Z.lt_le_trans with k; [|lia].
  all: apply Z.log2_lt_pow2; lia.
Qed.

(** ** Facts about bytes by enumeration *)

Lemma byte_ind (P : Z → bool) :
  forallb P (seqZ 0 256) = true → ∀ b, is_byte b → P b = true.
Proof.
  intros H b Hb. unfold is_byte in Hb. rewrite forallb_forall in H. apply H.
  apply list_elem_of_In, elem_of_seqZ. lia.
Qed.

(** Clearing the low [k] bits of a 64-bit word. *)
Lemma land_align k z : 0 ≤ k ≤ 64 → 0 ≤ z < 2 ^ 64 →
  Z.land z (u64 (Z.lnot (Z.ones k))) = 2 ^ k * (z / 2 ^ k).
Proof.
  intros Hk Hz. transitivity (Z.ldiff z (Z.ones k)).
  - apply Z.bits_inj'. intros i Hi. rewrite Z.land_spec, Z.ldiff_spec. unfold u64.
    destruct (Z.lt_ge_cases i 64).
    + rewrite Z.mod_pow2_bits_low, Z.lnot_spec by lia. done.
    + assert (Z.testbit z i = false) as ->; [|done].
      destruct (Z.eq_dec z 0) as [->|]; [by rewrite Z.bits_0|].
      apply Z.bits_above_log2; [lia|]. apply Z.lt_le_trans with 64; [|lia].
      apply Z.log2_lt_pow2; lia.
  - rewrite Z.ldiff_ones_r, Z.shiftl_mul_pow2, Z.shiftr_div_pow2 by lia. lia.
Qed.

Lemma truthy_true z : truthy z = true ↔ z ≠ 0.
Proof. unfold truthy. rewrite negb_true_iff. apply Z.eqb_neq. Qed.

Lemma truthy_false z : truthy z = false ↔ z = 0.
Proof. unfold truthy. rewrite negb_false_iff. apply Z.eqb_eq. Qed.

Lemma wp_done {S A} (m : M S A) a s s' : wp m (λ a' t, a' = a ∧ t = s') s ↔ m s = Done a s'.
Proof. rewrite wp_run. naive_solver. Qed.

(** Reduces the monad's operations in the goal, and nothing else; [mrun H] makes
    the step that the equation [H] describes. *)
Ltac mred := cbv beta iota delta [mbind mret M_bind M_ret].
Tactic Notation "mrun" uconstr(H) := mred; rewrite H; mred.

(** Decides a closed decidable goal by evaluation. *)
Ltac eval_decide := apply (bool_decide_unpack _); vm_compute; exact I.
