(* ===== verification/Memory.v ===== *)
(** * Flat memory and the routines of [core/drivers/memory/mem.c]

    Memory is a finite map from addresses to bytes; an access outside the
    mapped addresses faults.  [memset], [memcpy], [memmove] and [memcmp] are the
    source's loops, the word-at-a-time phases included. *)

From Stdlib Require Import ZArith Lia.
From stdpp Require Import base gmap list numbers fin_maps.
From S2P Require Import Prelude.
Open Scope Z_scope.
Set Default Goal Selector "!".

Abbreviation mem := (gmap Z Z).

Definition load8 (a : Z) : M mem Z := λ m,
  match m !! a with Some b => Done b m | None => Stuck Fault end.

Definition store8 (a v : Z) : M mem unit := λ m,
  match m !! a with Some _ => Done tt (<[a := u8 v]> m) | None => Stuck Fault end.

(** Little-endian accesses of [n] bytes. *)
Fixpoint load_bytes (n : nat) (a : Z) : M mem (list Z) :=
  match n with
  | O => mret []
  | S n' => b ← load8 a; bs ← load_bytes n' (a + 1); mret (b :: bs)
  end.

Fixpoint store_bytes (a : Z) (bs : list Z) : M mem unit :=
  match bs with
  | [] => mret tt
  | b :: bs' => store8 a b;; store_bytes (a + 1) bs'
  end.

Definition load32 (a : Z) : M mem Z := bs ← load_bytes 4 a; mret (le_combine bs).
Definition store32 (a v : Z) : M mem unit := store_bytes a (le_split 4 v).

(** ** The routines *)

(** [while (n && ((uintptr_t)p & 3)) { *p++ = val; n--; }] *)
Definition memset_head (val : Z) (l : Z * Z) : M mem (Z * Z + Z * Z) :=
  let '(p, n) := l in
  if truthy n && truthy (Z.land p 3)
  then store8 p val;; mret (inl (p + 1, n - 1))
  else mret (inr (p, n)).

(** [while (n32--) { *p32++ = val32; }] *)
Definition memset_words (val32 : Z) (l : Z * Z) : M mem (Z * Z + Z) :=
  let '(p, n32) := l in
  if truthy n32 then store32 p val32;; mret (inl (p + 4, n32 - 1)) else mret (inr p).

(** [while (n--) { *p++ = val; }] *)
Definition memset_tail (val : Z) (l : Z * Z) : M mem (Z * Z + unit) :=
  let '(p, n) := l in
  if truthy n then store8 p val;; mret (inl (p + 1, n - 1)) else mret (inr tt).

Definition memset (ptr val n : Z) : M mem unit :=
  let fuel := S (Z.to_nat n) in
  let val32 := u32 (Z.lor (Z.lor (Z.lor val (Z.shiftl val 8)) (Z.shiftl val 16))
                      (Z.shiftl val 24)) in
  '(p, n) ← iterM fuel (memset_head val) (ptr, n);
  p ← iterM fuel (memset_words val32) (p, n / 4);
  iterM fuel (memset_tail val) (p, n mod 4).

Definition memcpy_head (l : Z * Z * Z) : M mem (Z * Z * Z + Z * Z * Z) :=
  let '(d, s, n) := l in
  if truthy n && truthy (Z.land d 3)
  then b ← load8 s; store8 d b;; mret (inl (d + 1, s + 1, n - 1))
  else mret (inr (d, s, n)).

Definition memcpy_words (l : Z * Z * Z) : M mem (Z * Z * Z + Z * Z) :=
  let '(d, s, n32) := l in
  if truthy n32
  then w ← load32 s; store32 d w;; mret (inl (d + 4, s + 4, n32 - 1))
  else mret (inr (d, s)).

Definition memcpy_tail (l : Z * Z * Z) : M mem (Z * Z * Z + unit) :=
  let '(d, s, n) := l in
  if truthy n
  then b ← load8 s; store8 d b;; mret (inl (d + 1, s + 1, n - 1))
  else mret (inr tt).

Definition memcpy (dst src n : Z) : M mem unit :=
  let fuel := S (Z.to_nat n) in
  '(d, s, n) ← iterM fuel memcpy_head (dst, src, n);
  '(d, s) ← iterM fuel memcpy_words (d, s, n / 4);
  iterM fuel memcpy_tail (d, s, n mod 4).

(** [for (i = n; i > 0; i--) d[i-1] = s[i-1];] *)
Fixpoint memmove_back (d s : Z) (n : nat) : M mem unit :=
  match n with
  | O => mret tt
  | S i =>
      b ← load8 (s + Z.of_nat i);
      store8 (d + Z.of_nat i) b;;
      memmove_back d s i
  end.

Definition memmove (dst src n : Z) : M mem unit :=
  if dst <? src then
    for_to 0 n (λ i, b ← load8 (src + i); store8 (dst + i) b)
  else memmove_back dst src (Z.to_nat n).

(** [for (i = 0; i < n; i++) if (pa[i] != pb[i]) return pa[i] - pb[i]; return 0;] *)
Fixpoint memcmp_from (a b : Z) (n : nat) : M mem Z :=
  match n with
  | O => mret 0
  | S n' =>
      x ← load8 a; y ← load8 b;
      if x =? y then memcmp_from (a + 1) (b + 1) n' else mret (x - y)
  end.

Definition memcmp (a b n : Z) : M mem Z := memcmp_from a b (Z.to_nat n).

(** ** What memory holds *)

(** All of [[p, p + n)] is mapped. *)
Definition mapped (p n : Z) (m : mem) : Prop := ∀ a, p ≤ a < p + n → is_Some (m !! a).

(** The bytes [bs] are stored from [p] on. *)
Definition bytes_at (p : Z) (bs : list Z) (m : mem) : Prop :=
  ∀ i b, bs !! i = Some b → m !! (p + Z.of_nat i) = Some b.

(** The memory [m] with [bs] stored from [p] on, and no other byte changed. *)
Fixpoint mem_write (p : Z) (bs : list Z) (m : mem) : mem :=
  match bs with
  | [] => m
  | b :: bs' => mem_write (p + 1) bs' (<[p := b]> m)
  end.

Lemma lookup_mem_write p bs m a :
  mem_write p bs m !! a =
    if bool_decide (p ≤ a < p + Z.of_nat (length bs))
    then bs !! Z.to_nat (a - p) else m !! a.
Proof.
  revert p m; induction bs as [|b bs IH]; intros p m; cbn [mem_write length].
  - by rewrite bool_decide_eq_false_2 by lia.
  - rewrite IH. case_bool_decide as H1; case_bool_decide as H2; try lia.
    + replace (Z.to_nat (a - p)) with (S (Z.to_nat (a - (p + 1)))) by lia. done.
    + assert (a = p) as -> by lia. by rewrite lookup_insert_eq, Z.sub_diag.
    + by rewrite lookup_insert_ne by lia.
Qed.

Lemma lookup_mem_write_out p bs m a :
  ¬ (p ≤ a < p + Z.of_nat (length bs)) → mem_write p bs m !! a = m !! a.
Proof. intros H. by rewrite lookup_mem_write, bool_decide_eq_false_2. Qed.

Lemma lookup_mem_write_in p bs m i b :
  bs !! i = Some b → mem_write p bs m !! (p + Z.of_nat i) = Some b.
Proof.
  intros H. pose proof (lookup_lt_Some _ _ _ H).
  rewrite lookup_mem_write, bool_decide_eq_true_2 by lia.
  by replace (Z.to_nat (p + Z.of_nat i - p)) with i by lia.
Qed.

Lemma bytes_at_write p bs m : bytes_at p bs (mem_write p bs m).
Proof. intros i b. apply lookup_mem_write_in. Qed.

Lemma bytes_at_frame p bs q cs m :
  bytes_at p bs m →
  p + Z.of_nat (length bs) ≤ q ∨ q + Z.of_nat (length cs) ≤ p →
  bytes_at p bs (mem_write q cs m).
Proof.
  intros H Hd i b Hi. pose proof (lookup_lt_Some _ _ _ Hi).
  rewrite lookup_mem_write_out by lia. by apply H.
Qed.

Lemma mapped_write p n q bs m : mapped p n m → mapped p n (mem_write q bs m).
Proof.
  intros H a Ha. rewrite lookup_mem_write. case_bool_decide; [|by apply H].
  apply lookup_lt_is_Some. lia.
Qed.

Lemma is_Some_write p bs m a : is_Some (m !! a) → is_Some (mem_write p bs m !! a).
Proof.
  intros H. rewrite lookup_mem_write. case_bool_decide; [|done]. apply lookup_lt_is_Some. lia.
Qed.

Lemma mapped_insert p n a v m : mapped p n m → mapped p n (<[a := v]> m).
Proof. intros H. exact (mapped_write p n a [v] m H). Qed.

Lemma mapped_sub p n q k m : mapped p n m → p ≤ q → q + k ≤ p + n → mapped q k m.
Proof. intros H ?? a Ha. apply H. lia. Qed.

Lemma bytes_at_mapped p bs m : bytes_at p bs m → mapped p (Z.of_nat (length bs)) m.
Proof.
  intros H a Ha. destruct (lookup_lt_is_Some_2 bs (Z.to_nat (a - p))) as [b Hb]; [lia|].
  exists b. rewrite <-(H _ _ Hb). f_equal. lia.
Qed.

Lemma bytes_at_app p xs ys m :
  bytes_at p (xs ++ ys) m ↔ bytes_at p xs m ∧ bytes_at (p + Z.of_nat (length xs)) ys m.
Proof.
  split.
  - intros H. split; intros i b Hi.
    + apply H. by apply lookup_app_l_Some.
    + rewrite <-Z.add_assoc, <-Nat2Z.inj_add. apply H.
      rewrite lookup_app_r by lia. by rewrite Nat.add_comm, Nat.add_sub.
  - intros [H1 H2] i b [Hi|[Hl Hi]]%lookup_app_Some; [by apply H1|].
    apply H2 in Hi. rewrite <-Hi. f_equal. lia.
Qed.

Lemma bytes_at_cons p x xs m :
  bytes_at p (x :: xs) m ↔ m !! p = Some x ∧ bytes_at (p + 1) xs m.
Proof.
  change (x :: xs) with ([x] ++ xs). rewrite bytes_at_app. simpl. split.
  - intros [H1 H2]. split; [|done]. specialize (H1 0%nat x eq_refl). by rewrite Z.add_0_r in H1.
  - intros [H1 H2]. split; [|done]. intros [|i] b; simpl; [|done].
    intros [= <-]. by rewrite Z.add_0_r.
Qed.

Lemma mem_write_app p xs ys m :
  mem_write p (xs ++ ys) m = mem_write (p + Z.of_nat (length xs)) ys (mem_write p xs m).
Proof.
  revert p m; induction xs as [|x xs IH]; intros p m; cbn [mem_write app length].
  - by rewrite Z.add_0_r.
  - rewrite IH. f_equal. lia.
Qed.

Lemma mem_write_take_S p bs k b m :
  bs !! k = Some b →
  mem_write p (take (S k) bs) m = <[p + Z.of_nat k := b]> (mem_write p (take k bs) m).
Proof.
  intros H. pose proof (lookup_lt_Some _ _ _ H).
  rewrite (take_S_r _ _ _ H), mem_write_app, length_take_le by lia. done.
Qed.

Lemma mem_write_take_add p bs k n m :
  (k ≤ length bs)%nat →
  mem_write p (take (k + n) bs) m =
    mem_write (p + Z.of_nat k) (take n (drop k bs)) (mem_write p (take k bs) m).
Proof. intros H. by rewrite <-take_take_drop, mem_write_app, length_take_le by lia. Qed.

(** ** Runs of single accesses *)

Lemma load8_run a b m : m !! a = Some b → load8 a m = Done b m.
Proof. unfold load8. by intros ->. Qed.

Lemma store8_run a v m : is_Some (m !! a) → is_byte v → store8 a v m = Done tt (<[a := v]> m).
Proof.
  unfold store8, is_byte, u8. intros [b ->] Hv. by rewrite Z.mod_small.
Qed.

Lemma load_bytes_run p bs m :
  bytes_at p bs m → load_bytes (length bs) p m = Done bs m.
Proof.
  revert p; induction bs as [|b bs IH]; intros p H; [done|].
  apply bytes_at_cons in H as [Hb H]. simpl. unfold mbind, M_bind.
  by rewrite (load8_run _ _ _ Hb), (IH _ H).
Qed.

Lemma store_bytes_run p bs m :
  mapped p (Z.of_nat (length bs)) m → Forall is_byte bs →
  store_bytes p bs m = Done tt (mem_write p bs m).
Proof.
  revert p m; induction bs as [|b bs IH]; intros p m Hm Hb; [done|].
  inversion_clear Hb. cbn [store_bytes mem_write length] in *. unfold mbind, M_bind.
  rewrite store8_run; [|apply Hm; lia|done]. apply IH; [|done].
  apply mapped_insert. by eapply mapped_sub; [apply Hm|lia|lia].
Qed.

(** ** Functional correctness *)

(** The four bytes of the repeated word are the byte itself. *)
Lemma memset_word_bytes val :
  is_byte val →
  le_split 4 (u32 (Z.lor (Z.lor (Z.lor val (Z.shiftl val 8)) (Z.shiftl val 16))
                     (Z.shiftl val 24))) = replicate 4 val.
Proof.
  intros Hv.
  apply (bool_decide_eq_true_1 (le_split 4 (u32 (Z.lor (Z.lor (Z.lor val (Z.shiftl val 8))
    (Z.shiftl val 16)) (Z.shiftl val 24))) = replicate 4 val)).
  revert val Hv. apply byte_ind. by vm_compute.
Qed.

Section copy.
  (** [bs] is being stored at [dst], [k] bytes of it are. *)
  Context (dst : Z) (bs : list Z) (m : mem).
  Context (Hdst : mapped dst (Z.of_nat (length bs)) m).
  Context (Hbs : Forall is_byte bs).

Lemma store8_next k b :
  bs !! k = Some b →
  store8 (dst + Z.of_nat k) b (mem_write dst (take k bs) m)
    = Done tt (mem_write dst (take (S k) bs) m).
Proof.
  intros Hk. pose proof (lookup_lt_Some _ _ _ Hk).
  rewrite (mem_write_take_S _ _ _ _ _ Hk). apply store8_run.
  - apply (mapped_write dst (Z.of_nat (length bs))); [done|lia].
  - by eapply Forall_lookup_1.
Qed.

Lemma store32_next k w :
  (k + 4 ≤ length bs)%nat → le_split 4 w = take 4 (drop k bs) →
  store32 (dst + Z.of_nat k) w (mem_write dst (take k bs) m)
    = Done tt (mem_write dst (take (k + 4) bs) m).
Proof.
  intros Hk Hw. rewrite mem_write_take_add by lia. unfold store32. rewrite Hw.
  apply store_bytes_run.
  - rewrite length_take, length_drop. apply mapped_write.
    eapply mapped_sub; [apply Hdst|lia|lia].
  - by apply Forall_take, Forall_drop.
Qed.

End copy.

Section memset.
  Context (ptr val : Z) (N : nat) (m : mem).
  Context (Hval : is_byte val) (Hptr : mapped ptr (Z.of_nat N) m).
Let bs := replicate N val.
Let at_ (k : nat) := mem_write ptr (take k bs) m.

#[local] Lemma memset_bytes : Forall is_byte bs.
Proof. by apply Forall_replicate. Qed.

#[local] Lemma memset_len : length bs = N.
Proof. apply length_replicate. Qed.

#[local] Lemma memset_at k : (k < N)%nat → bs !! k = Some val.
Proof. intros H. by apply lookup_replicate_2. Qed.

#[local] Lemma memset_mapped : mapped ptr (Z.of_nat (length bs)) m.
Proof. by rewrite memset_len. Qed.

Lemma memset_head_wp fuel :
  (N < fuel)%nat →
  wp (iterM fuel (memset_head val) (ptr, Z.of_nat N))
     (λ '(p, n) s, ∃ k, (k ≤ N)%nat ∧ p = ptr + Z.of_nat k ∧ n = Z.of_nat (N - k)
                        ∧ s = at_ k) m.
Proof.
  intros Hf.
  eapply (wp_iterM (λ '(p, n) s, ∃ k, (k ≤ N)%nat ∧ p = ptr + Z.of_nat k
            ∧ n = Z.of_nat (N - k) ∧ s = at_ k) (λ '(p, n), Z.to_nat n)).
  - exists 0%nat. repeat split; lia || (unfold at_; done).
  - lia.
  - intros [p n] s (k & Hk & -> & -> & ->). unfold memset_head.
    destruct (truthy (Z.of_nat (N - k))) eqn:Hn; cbn [andb]; [|apply wp_ret; cbv beta iota; by exists k].
    destruct (truthy (Z.land _ _)); [|apply wp_ret; cbv beta iota; by exists k].
    apply truthy_true in Hn. apply wp_bind, wp_run. exists tt, (at_ (S k)). split.
    + apply (store8_next ptr bs m memset_mapped memset_bytes), memset_at. lia.
    + apply wp_ret; cbv beta iota. split; [|lia]. exists (S k). repeat split; lia.
Qed.

Lemma memset_words_wp fuel k w :
  (w < fuel)%nat → (k + 4 * w ≤ N)%nat →
  iterM fuel (memset_words (u32 (Z.lor (Z.lor (Z.lor val (Z.shiftl val 8)) (Z.shiftl val 16))
      (Z.shiftl val 24)))) (ptr + Z.of_nat k, Z.of_nat w) (at_ k)
    = Done (ptr + Z.of_nat (k + 4 * w)) (at_ (k + 4 * w)).
Proof.
  revert fuel k; induction w as [|w IH]; intros fuel k Hf Hk; (destruct fuel; [lia|]);
    cbn [iterM]; unfold mbind, M_bind at 1, memset_words at 1.
  - change (truthy (Z.of_nat 0)) with false. cbn. by rewrite Nat.add_0_r.
  - assert (truthy (Z.of_nat (S w)) = true) as -> by (apply truthy_true; lia).
    unfold mbind, M_bind at 1. unfold at_ at 1. fold bs.
    rewrite (store32_next ptr bs m memset_mapped memset_bytes k).
    + cbn -[Z.of_nat]. replace (ptr + Z.of_nat k + 4) with (ptr + Z.of_nat (k + 4)) by lia.
      replace (Z.of_nat (S w) - 1) with (Z.of_nat w) by lia.
      unfold at_ in IH. rewrite IH by lia. by replace (k + 4 + 4 * w)%nat with (k + 4 * S w)%nat by lia.
    + rewrite memset_len. lia.
    + rewrite memset_word_bytes by done. unfold bs.
      by rewrite drop_replicate, take_replicate, Nat.min_l by lia.
Qed.

Lemma memset_tail_wp fuel k n :
  (n < fuel)%nat → (k + n ≤ N)%nat →
  iterM fuel (memset_tail val) (ptr + Z.of_nat k, Z.of_nat n) (at_ k)
    = Done tt (at_ (k + n)).
Proof.
  revert fuel k; induction n as [|n IH]; intros fuel k Hf Hk; (destruct fuel; [lia|]);
    cbn [iterM]; unfold mbind, M_bind at 1, memset_tail at 1.
  - change (truthy (Z.of_nat 0)) with false. cbn. by rewrite Nat.add_0_r.
  - assert (truthy (Z.of_nat (S n)) = true) as -> by (apply truthy_true; lia).
    unfold mbind, M_bind at 1. unfold at_ at 1. fold bs.
    rewrite (store8_next ptr bs m memset_mapped memset_bytes k) by (apply memset_at; lia).
    cbn -[Z.of_nat]. replace (ptr + Z.of_nat k + 1) with (ptr + Z.of_nat (S k)) by lia.
    replace (Z.of_nat (S n) - 1) with (Z.of_nat n) by lia.
    unfold at_ in IH. rewrite IH by lia. by replace (S k + n)%nat with (k + S n)%nat by lia.
Qed.

End memset.

Lemma memset_run ptr val n m :
  0 ≤ n → is_byte val → mapped ptr n m →
  memset ptr val n m = Done tt (mem_write ptr (replicate (Z.to_nat n) val) m).
Proof.
  intros Hn Hv Hm. rewrite <-(Z2Nat.id n Hn) in Hm |- * at 1.
  set (N := Z.to_nat n) in *. apply wp_done. unfold memset. rewrite Nat2Z.id.
  apply wp_bind. eapply wp_mono; [by apply memset_head_wp; [..|lia]|].
  intros [p k0] s (k & Hk & -> & -> & ->).
  assert (Z.of_nat (N - k) / 4 = Z.of_nat ((N - k) / 4)) as -> by (by rewrite Nat2Z.inj_div).
  assert (Z.of_nat (N - k) mod 4 = Z.of_nat ((N - k) mod 4)) as -> by (by rewrite Nat2Z.inj_mod).
  pose proof (Nat.div_mod_eq (N - k) 4). pose proof (Nat.mod_upper_bound (N - k) 4).
  apply wp_bind, wp_run. do 2 eexists. split; [apply memset_words_wp; done || lia|].
  apply wp_run. do 2 eexists. split; [apply memset_tail_wp; done || lia|].
  split; [done|]. rewrite take_replicate, Nat.min_r by lia. done.
Qed.

(** [memset] stores [n] copies of the byte and touches nothing else. *)
Theorem memset_correct ptr val n m :
  0 ≤ n → is_byte val → mapped ptr n m →
  memset ptr val n m = Done tt (mem_write ptr (replicate (Z.to_nat n) val) m).
Proof. apply memset_run. Qed.

Section memcpy.
  Context (dst src : Z) (bs : list Z) (m : mem).
  Context (Hbs : Forall is_byte bs).
  Context (Hsrc : bytes_at src bs m) (Hdst : mapped dst (Z.of_nat (length bs)) m).
  Context (Hdisj : src + Z.of_nat (length bs) ≤ dst ∨ dst + Z.of_nat (length bs) ≤ src).
Let N := length bs.
Let at_ (k : nat) := mem_write dst (take k bs) m.

#[local] Lemma memcpy_src k : bytes_at src bs (at_ k).
Proof. apply bytes_at_frame; [done|]. rewrite length_take. lia. Qed.

#[local] Lemma memcpy_byte k b : bs !! k = Some b → load8 (src + Z.of_nat k) (at_ k) = Done b (at_ k).
Proof. intros H. apply load8_run. by apply memcpy_src. Qed.

#[local] Lemma memcpy_word k :
  (k + 4 ≤ N)%nat →
  load32 (src + Z.of_nat k) (at_ k) = Done (le_combine (take 4 (drop k bs))) (at_ k).
Proof.
  intros Hk. unfold load32, mbind, M_bind.
  assert (length (take 4 (drop k bs)) = 4%nat) as Hl
    by (rewrite length_take, length_drop; unfold N in *; lia).
  pose proof (memcpy_src k) as H.
  rewrite <-(take_drop k bs), <-(take_drop 4 (drop k bs)) in H.
  apply bytes_at_app in H as [_ H]. apply bytes_at_app in H as [H _].
  rewrite length_take_le in H by (unfold N in *; lia).
  pose proof (load_bytes_run _ _ _ H) as Hrun.
  rewrite Hl in Hrun. by rewrite Hrun.
Qed.

#[local] Lemma memcpy_word_split k :
  (k + 4 ≤ N)%nat →
  le_split 4 (le_combine (take 4 (drop k bs))) = take 4 (drop k bs).
Proof.
  intros Hk. rewrite <-(le_split_combine (take 4 (drop k bs))) at 2
    by (by apply Forall_take, Forall_drop).
  by rewrite length_take_le by (rewrite length_drop; unfold N in *; lia).
Qed.

Lemma memcpy_head_wp fuel :
  (N < fuel)%nat →
  wp (iterM fuel memcpy_head (dst, src, Z.of_nat N))
     (λ '(d, s, n) t, ∃ k, (k ≤ N)%nat ∧ d = dst + Z.of_nat k ∧ s = src + Z.of_nat k
                           ∧ n = Z.of_nat (N - k) ∧ t = at_ k) m.
Proof.
  intros Hf.
  eapply (wp_iterM (λ '(d, s, n) t, ∃ k, (k ≤ N)%nat ∧ d = dst + Z.of_nat k
            ∧ s = src + Z.of_nat k ∧ n = Z.of_nat (N - k) ∧ t = at_ k) (λ '(_, _, n), Z.to_nat n)).
  - exists 0%nat. repeat split; lia || (unfold at_; done).
  - lia.
  - intros [[d s] n] t (k & Hk & -> & -> & -> & ->). unfold memcpy_head.
    destruct (truthy (Z.of_nat (N - k))) eqn:Hn; cbn [andb];
      [|apply wp_ret; cbv beta iota; by exists k].
    destruct (truthy (Z.land _ _)); [|apply wp_ret; cbv beta iota; by exists k].
    apply truthy_true in Hn.
    destruct (lookup_lt_is_Some_2 bs k) as [b Hb]; [fold N; lia|].
    apply wp_bind, wp_run. exists b, (at_ k). split; [by apply memcpy_byte|].
    apply wp_bind, wp_run. exists tt, (at_ (S k)). split; [by apply store8_next|].
    apply wp_ret; cbv beta iota. split; [|lia]. exists (S k). repeat split; lia.
Qed.

Lemma memcpy_words_run fuel k w :
  (w < fuel)%nat → (k + 4 * w ≤ N)%nat →
  iterM fuel memcpy_words (dst + Z.of_nat k, src + Z.of_nat k, Z.of_nat w) (at_ k)
    = Done (dst + Z.of_nat (k + 4 * w), src + Z.of_nat (k + 4 * w)) (at_ (k + 4 * w)).
Proof.
  revert fuel k; induction w as [|w IH]; intros fuel k Hf Hk; (destruct fuel; [lia|]);
    cbn [iterM]; unfold mbind, M_bind at 1, memcpy_words at 1.
  - change (truthy (Z.of_nat 0)) with false. cbn. by rewrite Nat.add_0_r.
  - assert (truthy (Z.of_nat (S w)) = true) as -> by (apply truthy_true; lia).
    unfold mbind, M_bind at 1. rewrite memcpy_word by lia.
    unfold M_bind at 1. unfold at_ at 1.
    rewrite (store32_next dst bs m Hdst Hbs k) by (apply memcpy_word_split || fold N; lia).
    cbn -[Z.of_nat]. replace (dst + Z.of_nat k + 4) with (dst + Z.of_nat (k + 4)) by lia.
    replace (src + Z.of_nat k + 4) with (src + Z.of_nat (k + 4)) by lia.
    replace (Z.of_nat (S w) - 1) with (Z.of_nat w) by lia.
    unfold at_ in IH. rewrite IH by lia.
    by replace (k + 4 + 4 * w)%nat with (k + 4 * S w)%nat by lia.
Qed.

Lemma memcpy_tail_run fuel k n :
  (n < fuel)%nat → (k + n ≤ N)%nat →
  iterM fuel memcpy_tail (dst + Z.of_nat k, src + Z.of_nat k, Z.of_nat n) (at_ k)
    = Done tt (at_ (k + n)).
Proof.
  revert fuel k; induction n as [|n IH]; intros fuel k Hf Hk; (destruct fuel; [lia|]);
    cbn [iterM]; unfold mbind, M_bind at 1, memcpy_tail at 1.
  - change (truthy (Z.of_nat 0)) with false. cbn. by rewrite Nat.add_0_r.
  - assert (truthy (Z.of_nat (S n)) = true) as -> by (apply truthy_true; lia).
    destruct (lookup_lt_is_Some_2 bs k) as [b Hb]; [fold N; lia|].
    unfold mbind, M_bind at 1. rewrite (memcpy_byte _ _ Hb).
    unfold M_bind at 1. unfold at_ at 1.
    rewrite (store8_next dst bs m Hdst Hbs k b Hb).
    cbn -[Z.of_nat]. replace (dst + Z.of_nat k + 1) with (dst + Z.of_nat (S k)) by lia.
    replace (src + Z.of_nat k + 1) with (src + Z.of_nat (S k)) by lia.
    replace (Z.of_nat (S n) - 1) with (Z.of_nat n) by lia.
    unfold at_ in IH. rewrite IH by lia. by replace (S k + n)%nat with (k + S n)%nat by lia.
Qed.

Lemma memcpy_run : memcpy dst src (Z.of_nat N) m = Done tt (mem_write dst bs m).
Proof.
  apply wp_done. unfold memcpy. rewrite Nat2Z.id.
  apply wp_bind. eapply wp_mono; [apply memcpy_head_wp; lia|].
  intros [[d s] n] t (k & Hk & -> & -> & -> & ->).
  assert (Z.of_nat (N - k) / 4 = Z.of_nat ((N - k) / 4)) as -> by (by rewrite Nat2Z.inj_div).
  assert (Z.of_nat (N - k) mod 4 = Z.of_nat ((N - k) mod 4)) as -> by (by rewrite Nat2Z.inj_mod).
  pose proof (Nat.div_mod_eq (N - k) 4). pose proof (Nat.mod_upper_bound (N - k) 4).
  apply wp_bind, wp_run. do 2 eexists. split; [apply memcpy_words_run; lia|].
  apply wp_run. do 2 eexists. split; [apply memcpy_tail_run; lia|].
  split; [done|]. unfold at_. by rewrite take_ge by (fold N; lia).
Qed.

End memcpy.

Section memmove.
  Context (dst src : Z) (bs : list Z) (m : mem).
  Context (Hbs : Forall is_byte bs).
  Context (Hsrc : bytes_at src bs m) (Hdst : mapped dst (Z.of_nat (length bs)) m).

(** Copying upwards never overwrites a source byte before it is read when the
    destination is below the source. *)
Lemma memmove_forward :
  dst < src →
  for_to 0 (Z.of_nat (length bs))
    (λ i, b ← load8 (src + i); store8 (dst + i) b) m = Done tt (mem_write dst bs m).
Proof.
  intros Hlt. apply wp_done. eapply wp_mono.
  - apply (wp_for_to (λ i t, t = mem_write dst (take (Z.to_nat i) bs) m)); [lia|done|].
    intros i t Hi ->. destruct (lookup_lt_is_Some_2 bs (Z.to_nat i)) as [b Hb]; [lia|].
    replace i with (Z.of_nat (Z.to_nat i)) by lia. rewrite Nat2Z.id.
    apply wp_bind, wp_run. exists b. eexists. split.
    + apply load8_run. rewrite lookup_mem_write_out by (rewrite length_take; lia).
      by apply Hsrc.
    + apply wp_run. exists tt. eexists. split; [by apply store8_next|].
      by replace (Z.to_nat (Z.of_nat (Z.to_nat i) + 1)) with (S (Z.to_nat i)) by lia.
  - intros [] t ->. by rewrite Nat2Z.id, take_ge.
Qed.

(** Copying downwards is safe when the destination is at or above it. *)
Lemma memmove_back_run k :
  src ≤ dst → (k ≤ length bs)%nat →
  memmove_back dst src k (mem_write (dst + Z.of_nat k) (drop k bs) m)
    = Done tt (mem_write dst bs m).
Proof.
  intros Hle. induction k as [|k IH]; intros Hk; cbn [memmove_back].
  - rewrite Z.add_0_r. done.
  - destruct (lookup_lt_is_Some_2 bs k) as [b Hb]; [lia|].
    unfold mbind, M_bind. rewrite (load8_run _ b).
    + rewrite store8_run; [|by apply (mapped_write dst (Z.of_nat (length bs))); [|lia]
                           |by eapply Forall_lookup_1].
      rewrite <-IH by lia. f_equal. rewrite (drop_S _ _ _ Hb). cbn [mem_write].
      replace (dst + Z.of_nat (S k)) with (dst + Z.of_nat k + 1) by lia.
      apply map_eq. intros a. rewrite lookup_insert, !lookup_mem_write.
      case_decide; subst; rewrite ?lookup_insert_eq, ?lookup_insert_ne by done;
        case_bool_decide; done || lia.
    + rewrite lookup_mem_write_out by lia. by apply Hsrc.
Qed.

Lemma memmove_run : memmove dst src (Z.of_nat (length bs)) m = Done tt (mem_write dst bs m).
Proof.
  unfold memmove. destruct (Z.ltb_spec dst src).
  - by apply memmove_forward.
  - rewrite Nat2Z.id. pose proof (memmove_back_run (length bs)) as H'.
    rewrite drop_all in H'. by apply H'.
Qed.

End memmove.

(** [memcpy] over disjoint regions, and [memmove] over any two regions,
    leave the source's bytes at the destination and change nothing else. *)
Theorem memcpy_correct dst src bs m :
  Forall is_byte bs → bytes_at src bs m → mapped dst (Z.of_nat (length bs)) m →
  memmove dst src (Z.of_nat (length bs)) m = Done tt (mem_write dst bs m) ∧
  (src + Z.of_nat (length bs) ≤ dst ∨ dst + Z.of_nat (length bs) ≤ src →
   memcpy dst src (Z.of_nat (length bs)) m = Done tt (mem_write dst bs m)).
Proof. intros ???. split; [by apply memmove_run|]. intros. by apply memcpy_run. Qed.

(** The lexicographic comparison [memcmp] computes. *)
Lemma memcmp_from_run a b xs ys m :
  length xs = length ys → bytes_at a xs m → bytes_at b ys m →
  (xs = ys ∧ memcmp_from a b (length xs) m = Done 0 m) ∨
  (∃ i x y, take i xs = take i ys ∧ xs !! i = Some x ∧ ys !! i = Some y ∧ x ≠ y
     ∧ memcmp_from a b (length xs) m = Done (x - y) m).
Proof.
  revert a b ys; induction xs as [|x xs IH]; intros a b [|y ys] Hl Ha Hb;
    [by left|done|done|injection Hl as Hl].
  apply bytes_at_cons in Ha as [Hx Ha], Hb as [Hy Hb]. cbn [length memcmp_from].
  unfold mbind, M_bind. rewrite (load8_run _ _ _ Hx), (load8_run _ _ _ Hy).
  destruct (Z.eqb_spec x y) as [->|Hne].
  - destruct (IH _ _ _ Hl Ha Hb) as [[-> H]|(i & u & v & H1 & H2 & H3 & H4 & H5)]; [by left|].
    right. exists (S i), u, v. simpl. by rewrite H1.
  - right. by exists 0%nat, x, y.
Qed.

(** [memcmp] returns 0 exactly on equal regions; otherwise the difference of
    the first two bytes that differ, which is not 0. *)
Theorem memcmp_correct a b xs ys m :
  length xs = length ys → bytes_at a xs m → bytes_at b ys m →
  ∃ r, memcmp a b (Z.of_nat (length xs)) m = Done r m ∧ (r = 0 ↔ xs = ys) ∧
    (r ≠ 0 → ∃ i x y, take i xs = take i ys ∧ xs !! i = Some x ∧ ys !! i = Some y ∧ r = x - y).
Proof.
  intros Hl Ha Hb. unfold memcmp. rewrite Nat2Z.id.
  destruct (memcmp_from_run _ _ _ _ _ Hl Ha Hb) as [[-> H]|(i & x & y & H1 & H2 & H3 & H4 & H5)].
  - exists 0. naive_solver.
  - exists (x - y). split; [done|]. split; [|naive_solver].
    split; [lia|]. intros ->. congruence.
Qed.

(** ** Witnesses *)

(** A slice of a memory image. *)
Lemma image_at p l1 cs l2 m :
  bytes_at (p + Z.of_nat (length l1)) cs (mem_write p (l1 ++ cs ++ l2) m).
Proof.
  pose proof (bytes_at_write p (l1 ++ cs ++ l2) m) as H.
  apply bytes_at_app in H as [_ H]. by apply bytes_at_app in H as [H _].
Qed.

Definition demo_image : mem := mem_write 100 [5; 6; 7; 8; 9; 0; 0; 0; 0; 0] ∅.

Lemma demo_image_mapped : mapped 100 10 demo_image.
Proof. apply (bytes_at_mapped 100 [5; 6; 7; 8; 9; 0; 0; 0; 0; 0]), bytes_at_write. Qed.

Lemma memset_correct_witness :
  memset 101 3 6 demo_image = Done tt (mem_write 101 [3; 3; 3; 3; 3; 3] demo_image).
Proof.
  apply (memset_correct 101 3 6 demo_image); [lia|unfold is_byte; lia|].
  eapply mapped_sub; [apply demo_image_mapped|lia|lia].
Defined.

Lemma memcpy_correct_witness :
  memmove 102 100 5 demo_image = Done tt (mem_write 102 [5; 6; 7; 8; 9] demo_image) ∧
  memcpy 105 100 5 demo_image = Done tt (mem_write 105 [5; 6; 7; 8; 9] demo_image).
Proof.
  assert (∀ q, 100 ≤ q ≤ 105 → mapped q 5 demo_image) as Hm.
  { intros q Hq. eapply mapped_sub; [apply demo_image_mapped|lia|lia]. }
  split.
  - apply (memcpy_correct 102 100 [5; 6; 7; 8; 9] demo_image);
      [eval_decide|exact (image_at 100 [] [5; 6; 7; 8; 9] [0; 0; 0; 0; 0] ∅)|apply Hm; lia].
  - apply (memcpy_correct 105 100 [5; 6; 7; 8; 9] demo_image);
      [eval_decide|exact (image_at 100 [] [5; 6; 7; 8; 9] [0; 0; 0; 0; 0] ∅)|apply Hm; lia|left; simpl; lia].
Defined.

Lemma memcmp_correct_witness :
  ∃ r, memcmp 100 102 3 demo_image = Done r demo_image ∧ (r = 0 ↔ [5; 6; 7] = [7; 8; 9]).
Proof.
  destruct (memcmp_correct 100 102 [5; 6; 7] [7; 8; 9] demo_image eq_refl
    (image_at 100 [] [5; 6; 7] [8; 9; 0; 0; 0; 0; 0] ∅)
    (image_at 100 [5; 6] [7; 8; 9] [0; 0; 0; 0; 0] ∅)) as (r & E & Hr & _).
  exists r. split; [exact E|exact Hr].
Defined.
