(* ===== verification/CString.v ===== *)
(** * The string library, [common/string/string.c]

    Every routine is the source's pointer walk over the flat memory of
    [Memory.v].  A walk over a string can make at most as many steps as memory
    has bytes before it meets the terminating NUL or faults, so each walk takes
    its fuel from the size of memory ([with_fuel]).  A local array of the source
    ([temp_buffer]) is a region whose address, chosen by the compiler, is a
    parameter [tmp] of the model. *)

From Stdlib Require Import ZArith Lia.
From stdpp Require Import base gmap list numbers fin_maps.
From S2P Require Import Prelude Memory.
Open Scope Z_scope.
Set Default Goal Selector "!".

Definition with_fuel {A} (f : nat → M mem A) : M mem A := λ m, f (S (size m)) m.

(** [while ( *p ) p++;] *)
Fixpoint skip_to_nul (fuel : nat) (p : Z) : M mem Z :=
  match fuel with
  | O => stuck_with NoFuel
  | S f => b ← load8 p; if truthy b then skip_to_nul f (p + 1) else mret p
  end.

(** [while (( *dest_ptr++ = *src_ptr++ ));] *)
Fixpoint copy_nul (fuel : nat) (d s : Z) : M mem unit :=
  match fuel with
  | O => stuck_with NoFuel
  | S f =>
      b ← load8 s;
      store8 d b;;
      if truthy b then copy_nul f (d + 1) (s + 1) else mret tt
  end.

Definition str_copy (destination source : Z) : M mem unit :=
  with_fuel (λ f, copy_nul f destination source).

Definition str_append (destination source : Z) : M mem unit :=
  dest_ptr ← with_fuel (λ f, skip_to_nul f destination);
  with_fuel (λ f, copy_nul f dest_ptr source).

(** The recursion divides by ten, so ten calls exhaust a [u32]. *)
Fixpoint add_digits (fuel : nat) (buffer number position : Z) : M mem Z :=
  match fuel with
  | O => stuck_with NoFuel
  | S f =>
      position ← (if 10 <=? number then add_digits f buffer (number / 10) position
                  else mret position);
      store8 (buffer + position) (48 + number mod 10);;
      mret (position + 1)
  end.

Definition str_append_uint (tmp destination number : Z) : M mem unit :=
  pos ← (if number =? 0 then store8 tmp 48;; mret 1
         else add_digits 10 tmp number 0);
  store8 (tmp + pos) 0;;
  str_append destination tmp.

(** The body of [for (shift = 15; shift >= 0; shift--)], [n] digits to go. *)
Fixpoint hex_digits (tmp number : Z) (n : nat) (pos : Z) : M mem Z :=
  match n with
  | O => mret pos
  | S shift =>
      let digit_value := Z.land (Z.shiftr number (Z.of_nat shift * 4)) 15 in
      if truthy digit_value || truthy pos then
        store8 (tmp + pos) (if digit_value <? 10 then 48 + digit_value
                            else 97 + (digit_value - 10));;
        hex_digits tmp number shift (pos + 1)
      else hex_digits tmp number shift pos
  end.

Definition str_append_hex (tmp destination number : Z) : M mem unit :=
  pos ← (if number =? 0 then store8 tmp 48;; mret 1
         else hex_digits tmp number 16 0);
  store8 (tmp + pos) 0;;
  str_append destination tmp.

Definition str_len (input_string : Z) : M mem Z :=
  ptr ← with_fuel (λ f, skip_to_nul f input_string);
  mret (ptr - input_string).

Fixpoint starts_with_walk (fuel : nat) (s prefix : Z) : M mem Z :=
  match fuel with
  | O => stuck_with NoFuel
  | S f =>
      b ← load8 prefix;
      if truthy b then
        a ← load8 s;
        if a =? b then starts_with_walk f (s + 1) (prefix + 1) else mret 0
      else mret 1
  end.

Definition str_starts_with (input_string prefix_string : Z) : M mem Z :=
  if (input_string =? NULL) || (prefix_string =? NULL) then mret 0
  else with_fuel (λ f, starts_with_walk f input_string prefix_string).

Fixpoint equals_walk (fuel : nat) (p q : Z) : M mem Z :=
  match fuel with
  | O => stuck_with NoFuel
  | S f =>
      a ← load8 p; b ← load8 q;
      if truthy a && truthy b && negb (truthy (Z.lxor a b))
      then equals_walk f (p + 1) (q + 1)
      else mret (b2z (negb (truthy (Z.lxor a b))))
  end.

Definition str_equals (first_string second_string : Z) : M mem Z :=
  if (first_string =? NULL) || (second_string =? NULL) then mret 0
  else with_fuel (λ f, equals_walk f first_string second_string).

(** The walk of [str_to_upper] and [str_to_lower]: every byte is replaced. *)
Fixpoint map_walk (fuel : nat) (g : Z → Z) (p : Z) : M mem unit :=
  match fuel with
  | O => stuck_with NoFuel
  | S f =>
      b ← load8 p;
      if truthy b then store8 p (g b);; map_walk f g (p + 1) else mret tt
  end.

Definition str_to_upper (input_string : Z) : M mem unit :=
  if input_string =? NULL then mret tt
  else with_fuel (λ f, map_walk f (λ b, Z.land b (Z.lnot 32)) input_string).

Definition str_to_lower (input_string : Z) : M mem unit :=
  if input_string =? NULL then mret tt
  else with_fuel (λ f, map_walk f (λ b, Z.lor b 32) input_string).

(** [' '], ['\t'] or ['\n'] *)
Definition is_space (b : Z) : bool := (b =? 32) || (b =? 9) || (b =? 10).

Fixpoint trim_start (fuel : nat) (p : Z) : M mem Z :=
  match fuel with
  | O => stuck_with NoFuel
  | S f => b ← load8 p; if truthy b && is_space b then trim_start f (p + 1) else mret p
  end.

(** [while (end_pos > start_pos && isspace( *end_pos )) end_pos--;] *)
Fixpoint trim_end (n : nat) (start_pos end_pos : Z) : M mem Z :=
  match n with
  | O => mret end_pos
  | S n' =>
      if start_pos <? end_pos then
        b ← load8 end_pos;
        if is_space b then trim_end n' start_pos (end_pos - 1) else mret end_pos
      else mret end_pos
  end.

(** [while (start_pos < end_pos) *dest_ptr++ = *start_pos++;] *)
Fixpoint copy_up (n : nat) (dest_ptr start_pos : Z) : M mem Z :=
  match n with
  | O => mret dest_ptr
  | S n' =>
      b ← load8 start_pos;
      store8 dest_ptr b;;
      copy_up n' (dest_ptr + 1) (start_pos + 1)
  end.

Definition str_trim (input_string : Z) : M mem unit :=
  if input_string =? NULL then mret tt else
  start_pos ← with_fuel (λ f, trim_start f input_string);
  end_pos ← with_fuel (λ f, skip_to_nul f start_pos);
  end_pos ← (if start_pos <? end_pos then
               e ← trim_end (Z.to_nat (end_pos - 1 - start_pos)) start_pos (end_pos - 1);
               mret (e + 1)
             else mret end_pos);
  dest_ptr ← copy_up (Z.to_nat (end_pos - start_pos)) input_string start_pos;
  store8 dest_ptr 0.

(** [while (input_string < end_ptr) { xor-swap; input_string++; end_ptr--; }] *)
Fixpoint reverse_walk (n : nat) (lo hi : Z) : M mem unit :=
  match n with
  | O => mret tt
  | S n' =>
      if lo <? hi then
        a ← load8 lo; b ← load8 hi; store8 lo (Z.lxor a b);;
        b ← load8 hi; a ← load8 lo; store8 hi (Z.lxor b a);;
        a ← load8 lo; b ← load8 hi; store8 lo (Z.lxor a b);;
        reverse_walk n' (lo + 1) (hi - 1)
      else mret tt
  end.

Definition str_reverse (input_string : Z) : M mem unit :=
  if input_string =? NULL then mret tt else
  end_ptr ← with_fuel (λ f, skip_to_nul f input_string);
  reverse_walk (Z.to_nat (end_ptr - input_string)) input_string (end_ptr - 1).

(** [while ( *ptr == ' ' || *ptr == '\t') ptr++;] *)
Fixpoint skip_blank (fuel : nat) (p : Z) : M mem Z :=
  match fuel with
  | O => stuck_with NoFuel
  | S f => b ← load8 p; if (b =? 32) || (b =? 9) then skip_blank f (p + 1) else mret p
  end.

(** Signed overflow wraps, as the generated code does. *)
Fixpoint digits_walk (fuel : nat) (p result_value : Z) : M mem Z :=
  match fuel with
  | O => stuck_with NoFuel
  | S f =>
      b ← load8 p;
      if (48 <=? b) && (b <=? 57)
      then digits_walk f (p + 1) (i32 (i32 (result_value * 10) + (b - 48)))
      else mret result_value
  end.

Definition str_to_int (input_string : Z) : M mem Z :=
  if input_string =? NULL then mret 0 else
  ptr ← with_fuel (λ f, skip_blank f input_string);
  b ← load8 ptr;
  let '(sign_value, ptr) :=
    if b =? 45 then (-1, ptr + 1) else if b =? 43 then (1, ptr + 1) else (1, ptr) in
  result_value ← with_fuel (λ f, digits_walk f ptr 0);
  mret (i32 (result_value * sign_value)).

(** The [do ... while (value)] loop; C division truncates towards zero and an
    [int] has at most ten digits. *)
Fixpoint from_int_walk (fuel : nat) (buf_ptr value : Z) : M mem Z :=
  match fuel with
  | O => stuck_with NoFuel
  | S f =>
      store8 buf_ptr (48 + Z.rem value 10);;
      let value := Z.quot value 10 in
      if truthy value then from_int_walk f (buf_ptr + 1) value else mret (buf_ptr + 1)
  end.

Definition str_from_int (buffer value : Z) : M mem unit :=
  if buffer =? NULL then mret tt else
  let is_negative := value <? 0 in
  let value := if is_negative then i32 (- value) else value in
  buf_ptr ← from_int_walk 10 buffer value;
  buf_ptr ← (if is_negative then store8 buf_ptr 45;; mret (buf_ptr + 1) else mret buf_ptr);
  store8 buf_ptr 0;;
  str_reverse buffer.

(** The inner loop of [str_contains]: where the match at [temp_ptr] stops. *)
Fixpoint match_walk (fuel : nat) (temp_ptr sub_ptr : Z) : M mem Z :=
  match fuel with
  | O => stuck_with NoFuel
  | S f =>
      a ← load8 temp_ptr;
      if truthy a then
        b ← load8 sub_ptr;
        if truthy b && (a =? b) then match_walk f (temp_ptr + 1) (sub_ptr + 1)
        else mret sub_ptr
      else mret sub_ptr
  end.

Fixpoint contains_walk (fuel : nat) (str_ptr substring : Z) : M mem Z :=
  match fuel with
  | O => stuck_with NoFuel
  | S f =>
      b ← load8 str_ptr;
      if truthy b then
        sub_ptr ← with_fuel (λ f', match_walk f' str_ptr substring);
        e ← load8 sub_ptr;
        if truthy e then contains_walk f (str_ptr + 1) substring else mret 1
      else mret 0
  end.

Definition str_contains (input_string substring : Z) : M mem Z :=
  if (input_string =? NULL) || (substring =? NULL) then mret 0
  else with_fuel (λ f, contains_walk f input_string substring).

(** ** Strings in memory *)

Definition is_char (b : Z) : Prop := 0 < b < 2 ^ 8.
#[global] Instance is_char_dec b : Decision (is_char b).
Proof. unfold is_char. apply _. Defined.

(** The NUL-terminated string [s] is stored at [p]. *)
Definition cstr_at (p : Z) (s : list Z) (m : mem) : Prop :=
  Forall is_char s ∧ bytes_at p (s ++ [0]) m.

(** Region [[p, p + n)] lies outside [[q, q + k)]. *)
Definition disjoint (p n q k : Z) : Prop := p + n ≤ q ∨ q + k ≤ p.

Lemma is_char_truthy b : is_char b → truthy b = true.
Proof. unfold is_char. intros. apply truthy_true. lia. Qed.

Lemma chars_bytes s : Forall is_char s → Forall is_byte (s ++ [0]).
Proof.
  intros H. apply Forall_app. split; [|by repeat constructor].
  eapply Forall_impl; [done|]. unfold is_char, is_byte. lia.
Qed.

Lemma cstr_nil p m : cstr_at p [] m ↔ m !! p = Some 0.
Proof.
  unfold cstr_at. simpl. rewrite bytes_at_cons. split; [tauto|].
  intros H. split; [constructor|]. split; [done|]. by intros i b.
Qed.

Lemma cstr_cons p x s m : cstr_at p (x :: s) m ↔ is_char x ∧ m !! p = Some x ∧ cstr_at (p + 1) s m.
Proof. unfold cstr_at. cbn [app]. rewrite bytes_at_cons, Forall_cons. tauto. Qed.

Lemma cstr_app p s t m : cstr_at p (s ++ t) m → cstr_at (p + Z.of_nat (length s)) t m.
Proof.
  intros [H1 H2]. rewrite <-app_assoc in H2. apply bytes_at_app in H2 as [_ H2].
  apply Forall_app in H1 as [_ H1]. done.
Qed.

Lemma cstr_mapped p s m : cstr_at p s m → mapped p (Z.of_nat (length s) + 1) m.
Proof.
  intros [_ H]. apply bytes_at_mapped in H. rewrite length_app in H. simpl in H.
  by replace (Z.of_nat (length s) + 1) with (Z.of_nat (length s + 1)) by lia.
Qed.

Lemma cstr_write p s m : Forall is_char s → cstr_at p s (mem_write p (s ++ [0]) m).
Proof. intros H. split; [done|apply bytes_at_write]. Qed.

Lemma cstr_frame p s q bs m :
  cstr_at p s m → disjoint p (Z.of_nat (length s) + 1) q (Z.of_nat (length bs)) →
  cstr_at p s (mem_write q bs m).
Proof.
  intros [H1 H2] Hd. split; [done|]. apply bytes_at_frame; [done|].
  rewrite length_app. simpl. unfold disjoint in Hd. lia.
Qed.

(** A mapped region is no longer than memory is large. *)
Lemma mapped_size p n m : mapped p (Z.of_nat n) m → (n ≤ size m)%nat.
Proof.
  intros H. rewrite <-size_dom.
  assert (list_to_set (seqZ p (Z.of_nat n)) ⊆ dom m) as Hsub.
  { intros a. rewrite elem_of_list_to_set, elem_of_seqZ, elem_of_dom. apply H. }
  apply subseteq_size in Hsub. rewrite size_list_to_set in Hsub by apply NoDup_seqZ.
  by rewrite length_seqZ, Nat2Z.id in Hsub.
Qed.

Lemma cstr_fuel p s m : cstr_at p s m → (length s < S (size m))%nat.
Proof.
  intros H%cstr_mapped.
  replace (Z.of_nat (length s) + 1) with (Z.of_nat (S (length s))) in H by lia.
  apply mapped_size in H. lia.
Qed.

(** ** Walks *)

Lemma skip_to_nul_run fuel p s m :
  cstr_at p s m → (length s < fuel)%nat →
  skip_to_nul fuel p m = Done (p + Z.of_nat (length s)) m.
Proof.
  revert fuel p; induction s as [|x s IH]; intros [|fuel] p H Hf; simpl in Hf; try lia;
    cbn [skip_to_nul length]; unfold mbind, M_bind.
  - apply cstr_nil in H. rewrite (load8_run _ _ _ H). cbn. by rewrite Z.add_0_r.
  - apply cstr_cons in H as (Hx & Hp & H). rewrite (load8_run _ _ _ Hp), is_char_truthy by done.
    rewrite IH by (done || lia). f_equal. lia.
Qed.

Lemma str_len_run p s m : cstr_at p s m → str_len p m = Done (Z.of_nat (length s)) m.
Proof.
  intros H. unfold str_len, with_fuel, mbind, M_bind.
  rewrite (skip_to_nul_run _ _ _ _ H) by by eapply cstr_fuel.
  unfold mret, M_ret. f_equal. lia.
Qed.

Lemma copy_nul_run fuel d p s m :
  cstr_at p s m → mapped d (Z.of_nat (length s) + 1) m →
  disjoint p (Z.of_nat (length s) + 1) d (Z.of_nat (length s) + 1) →
  (length s < fuel)%nat →
  copy_nul fuel d p m = Done tt (mem_write d (s ++ [0]) m).
Proof.
  revert fuel d p m; induction s as [|x s IH]; intros [|fuel] d p m H Hm Hd Hf; simpl in Hf;
    try lia; cbn [copy_nul length app mem_write] in *; unfold mbind, M_bind.
  - apply cstr_nil in H. rewrite (load8_run _ _ _ H).
    rewrite store8_run by ((apply Hm; lia) || done). done.
  - apply cstr_cons in H as (Hx & Hp & H). rewrite (load8_run _ _ _ Hp).
    rewrite store8_run by ((apply Hm; lia) || (unfold is_char, is_byte in *; lia)).
    rewrite is_char_truthy by done. unfold disjoint in Hd. apply IH; [| | |lia].
    + apply (cstr_frame _ _ d [x]); [done|]. unfold disjoint. simpl. lia.
    + apply mapped_insert. eapply mapped_sub; [apply Hm|lia|lia].
    + unfold disjoint. lia.
Qed.

Lemma str_copy_run d p s m :
  cstr_at p s m → mapped d (Z.of_nat (length s) + 1) m →
  disjoint p (Z.of_nat (length s) + 1) d (Z.of_nat (length s) + 1) →
  str_copy d p m = Done tt (mem_write d (s ++ [0]) m).
Proof. intros. apply copy_nul_run; [done..|by eapply cstr_fuel]. Qed.

Lemma str_append_run d s p t m :
  cstr_at d s m → cstr_at p t m →
  mapped d (Z.of_nat (length s + length t) + 1) m →
  disjoint p (Z.of_nat (length t) + 1) d (Z.of_nat (length s + length t) + 1) →
  str_append d p m = Done tt (mem_write (d + Z.of_nat (length s)) (t ++ [0]) m).
Proof.
  intros Hs Ht Hm Hd. unfold str_append, with_fuel, mbind, M_bind.
  rewrite (skip_to_nul_run _ _ _ _ Hs) by by eapply cstr_fuel.
  apply copy_nul_run; [done| | |by eapply cstr_fuel].
  - eapply mapped_sub; [apply Hm|lia|lia].
  - unfold disjoint in *. lia.
Qed.

(** [str_copy] leaves the source string at the destination, and [str_append]
    leaves the concatenation there; no byte outside the destination changes. *)
Theorem str_append_correct d s p t m :
  cstr_at d s m → cstr_at p t m →
  mapped d (Z.of_nat (length s + length t) + 1) m →
  disjoint p (Z.of_nat (length t) + 1) d (Z.of_nat (length s + length t) + 1) →
  ∃ m1 m2, str_copy d p m = Done tt m1 ∧ cstr_at d t m1 ∧
    str_append d p m = Done tt m2 ∧ cstr_at d (s ++ t) m2 ∧
    ∀ a, ¬ (d ≤ a < d + Z.of_nat (length s + length t) + 1) → m1 !! a = m !! a ∧ m2 !! a = m !! a.
Proof.
  intros Hs Ht Hm Hd. eexists _, _. split; [|split; [|split; [|split]]].
  - apply str_copy_run; [done| |unfold disjoint in *; lia].
    eapply mapped_sub; [apply Hm|lia|lia].
  - apply cstr_write, Ht.
  - by apply str_append_run.
  - destruct Hs as [Hs1 Hs2], Ht as [Ht1 _]. split; [by apply Forall_app|].
    rewrite <-app_assoc. apply bytes_at_app. split; [|apply bytes_at_write].
    apply bytes_at_app in Hs2 as [Hs2 _]. apply bytes_at_frame; [done|lia].
  - intros a Ha. split; apply lookup_mem_write_out; rewrite length_app; simpl; lia.
Qed.

(** ** Decimal numerals *)

Definition is_digit (b : Z) : Prop := 48 ≤ b ≤ 57.

(** The number a digit string denotes, read as the loop of [str_to_int] reads it. *)
Definition dec_from (acc : Z) (ds : list Z) : Z := fold_left (λ a d, a * 10 + (d - 48)) ds acc.
Definition dec_value (ds : list Z) : Z := dec_from 0 ds.

(** A numeral with no superfluous leading zero. *)
Definition canonical (ds : list Z) : Prop :=
  Forall is_digit ds ∧ ds ≠ [] ∧ (head ds = Some 48 → ds = [48]).

Fixpoint dec_digits (fuel : nat) (n : Z) : list Z :=
  match fuel with
  | O => []
  | S f => (if 10 <=? n then dec_digits f (n / 10) else []) ++ [48 + n mod 10]
  end.

Lemma dec_from_app acc xs ys : dec_from acc (xs ++ ys) = dec_from (dec_from acc xs) ys.
Proof. apply fold_left_app. Qed.

Lemma dec_digits_digits fuel n : Forall is_digit (dec_digits fuel n).
Proof.
  revert n; induction fuel as [|f IH]; intros n; [constructor|]. cbn [dec_digits].
  apply Forall_app; split.
  - by destruct (10 <=? n).
  - constructor; [|done]. unfold is_digit. pose proof (Z.mod_pos_bound n 10). lia.
Qed.

Lemma length_dec_digits fuel n : (length (dec_digits fuel n) ≤ fuel)%nat.
Proof.
  revert n; induction fuel as [|f IH]; intros n; [done|]. cbn [dec_digits].
  rewrite length_app. simpl. destruct (10 <=? n); simpl; [specialize (IH (n / 10))|]; lia.
Qed.

Lemma dec_digits_value fuel n :
  0 ≤ n < 10 ^ Z.of_nat fuel → dec_value (dec_digits fuel n) = n.
Proof.
  unfold dec_value. revert n; induction fuel as [|f IH]; intros n Hn; [simpl in *; lia|].
  rewrite Nat2Z.inj_succ, Z.pow_succ_r in Hn by lia. cbn [dec_digits]. rewrite dec_from_app.
  destruct (Z.leb_spec 10 n).
  - rewrite IH by (split; [apply Z.div_pos; lia|apply Z.div_lt_upper_bound; lia]).
    cbn. pose proof (Z.div_mod n 10). lia.
  - cbn. rewrite Z.mod_small by lia. lia.
Qed.

Lemma dec_digits_canonical fuel n :
  (0 < fuel)%nat → 0 ≤ n < 10 ^ Z.of_nat fuel → canonical (dec_digits fuel n).
Proof.
  intros Hf Hn. split; [apply dec_digits_digits|].
  revert n Hf Hn; induction fuel as [|f IH]; intros n Hf Hn; [lia|].
  rewrite Nat2Z.inj_succ, Z.pow_succ_r in Hn by lia. cbn [dec_digits].
  split; [by destruct (if _ : bool then _ else _)|].
  destruct (Z.leb_spec 10 n) as [Hle|Hlt]; [|by simpl; intros [= ->]].
  assert (1 ≤ n / 10) by (apply Z.div_le_lower_bound; lia).
  assert (n / 10 < 10 ^ Z.of_nat f) by (apply Z.div_lt_upper_bound; lia).
  destruct (IH (n / 10)) as [Hne Hz]; [destruct f; [simpl in *|]; lia|lia|].
  pose proof (dec_digits_value f (n / 10)) as Hv.
  destruct (dec_digits f (n / 10)) as [|d ds]; [done|]. cbn [head app] in *. intros Hd.
  rewrite (Hz Hd) in Hv. change (dec_value [48]) with 0 in Hv.
  lia.
Qed.

Lemma digits_chars ds : Forall is_digit ds → Forall is_char ds.
Proof. intros H. eapply Forall_impl; [done|]. unfold is_digit, is_char. lia. Qed.

Lemma digits_bytes ds : Forall is_digit ds → Forall is_byte ds.
Proof. intros H. eapply Forall_impl; [done|]. unfold is_digit, is_byte. lia. Qed.

Lemma add_digits_run fuel buf n pos m :
  (0 < fuel)%nat → 0 ≤ n < 10 ^ Z.of_nat fuel → mapped (buf + pos) (Z.of_nat (length (dec_digits fuel n))) m →
  add_digits fuel buf n pos m
    = Done (pos + Z.of_nat (length (dec_digits fuel n))) (mem_write (buf + pos) (dec_digits fuel n) m).
Proof.
  revert n pos m; induction fuel as [|f IH]; intros n pos m Hf Hn Hm; [lia|].
  rewrite Nat2Z.inj_succ, Z.pow_succ_r in Hn by lia. cbn [add_digits dec_digits] in *.
  pose proof (Z.mod_pos_bound n 10). unfold mbind, M_bind.
  rewrite length_app in *. simpl length in *. rewrite mem_write_app.
  destruct (Z.leb_spec 10 n).
  - assert (1 ≤ n / 10) by (apply Z.div_le_lower_bound; lia).
    assert (n / 10 < 10 ^ Z.of_nat f) by (apply Z.div_lt_upper_bound; lia).
    rewrite IH; [|destruct f; [simpl in *|]; lia|lia|eapply mapped_sub; [apply Hm|lia|lia]].
    rewrite store8_run; [|apply mapped_write with (1 := Hm); lia|unfold is_byte; lia].
    unfold mret, M_ret. simpl. f_equal; [lia|]. f_equal. lia.
  - unfold mret, M_ret. cbv beta iota. rewrite store8_run; [|apply Hm; simpl; lia|unfold is_byte; lia].
    unfold mret, M_ret. simpl. f_equal. by rewrite Z.add_0_r.
Qed.

(** The numeral [str_append_uint] and [print_uint] write. *)
Definition u32_digits (n : Z) : list Z := dec_digits 10 n.

Lemma u32_digits_zero : u32_digits 0 = [48].
Proof. done. Qed.

Lemma u32_digits_canonical n :
  0 ≤ n < 2 ^ 32 → canonical (u32_digits n) ∧ dec_value (u32_digits n) = n.
Proof.
  intros Hn. assert (0 ≤ n < 10 ^ Z.of_nat 10) by lia.
  split; [by apply dec_digits_canonical; [lia|]|by apply dec_digits_value].
Qed.

(** [str_append_uint] appends the canonical decimal numeral of its argument. *)
Theorem str_append_uint_correct tmp d s n m :
  0 ≤ n < 2 ^ 32 → cstr_at d s m → mapped tmp 20 m →
  mapped d (Z.of_nat (length s) + 11) m → disjoint tmp 20 d (Z.of_nat (length s) + 11) →
  ∃ m' ds, str_append_uint tmp d n m = Done tt m' ∧ cstr_at d (s ++ ds) m' ∧
    canonical ds ∧ dec_value ds = n ∧
    ∀ a, ¬ (d ≤ a < d + Z.of_nat (length s) + 11) → ¬ (tmp ≤ a < tmp + 20) → m' !! a = m !! a.
Proof.
  intros Hn Hs Ht Hd Hdis. destruct (u32_digits_canonical n Hn) as [Hc Hv].
  set (ds := u32_digits n) in *. assert (length ds ≤ 10)%nat as Hlen by apply length_dec_digits.
  assert (Forall is_char ds) as Hch by apply digits_chars, dec_digits_digits.
  pose (m1 := mem_write tmp (ds ++ [0]) m).
  assert (length (ds ++ [0]) = S (length ds)) as Hl0 by (rewrite length_app; simpl; lia).
  unfold disjoint in *.
  assert (cstr_at d s m1) as Hs1 by (apply cstr_frame; [done|unfold disjoint; rewrite Hl0; lia]).
  assert (cstr_at tmp ds m1) as Ht1 by by apply cstr_write.
  destruct (str_append_correct d s tmp ds m1 Hs1 Ht1) as (m1' & m2 & _ & _ & Hrun & Hcs & Hout).
  { apply mapped_write. eapply mapped_sub; [apply Hd|lia|lia]. }
  { unfold disjoint. lia. }
  exists m2, ds. split; [|split; [done|split; [done|split; [done|]]]].
  - apply wp_done. unfold str_append_uint. apply wp_bind, wp_run.
    exists (Z.of_nat (length ds)), (mem_write tmp ds m). split.
    { destruct (Z.eqb_spec n 0) as [Hz|].
      - unfold ds. rewrite Hz. unfold mbind, M_bind. rewrite store8_run; [done|apply Ht; lia|done].
      - rewrite add_digits_run; [|lia|lia|].
        + rewrite Z.add_0_r. done.
        + fold (u32_digits n). fold ds. eapply mapped_sub; [apply Ht|lia|lia]. }
    apply wp_bind, wp_run. exists tt, m1. split.
    { rewrite store8_run; [|apply mapped_write with (1 := Ht); lia|done].
      unfold m1. by rewrite mem_write_app. }
    by apply wp_done.
  - intros a Ha1 Ha2. destruct (Hout a) as [_ ->]; [lia|].
    apply lookup_mem_write_out. rewrite Hl0. lia.
Qed.

(** ** Comparisons *)

Lemma lxor_eq_iff a b : truthy (Z.lxor a b) = negb (a =? b).
Proof.
  destruct (Z.eqb_spec a b) as [->|Hne]; simpl.
  - by rewrite Z.lxor_nilpotent.
  - apply truthy_true. intros H. by apply Z.lxor_eq in H.
Qed.

Lemma equals_walk_run fuel p q s t m :
  cstr_at p s m → cstr_at q t m → (length s < fuel)%nat →
  equals_walk fuel p q m = Done (b2z (bool_decide (s = t))) m.
Proof.
  revert fuel p q t; induction s as [|x s IH]; intros [|fuel] p q t Hs Ht Hf; simpl in Hf;
    try lia; cbn [equals_walk]; unfold mbind, M_bind.
  - apply cstr_nil in Hs. mrun (load8_run _ _ _ Hs). destruct t as [|y t].
    + apply cstr_nil in Ht. by mrun (load8_run _ _ _ Ht).
    + apply cstr_cons in Ht as (Hy & Ht & _). mrun (load8_run _ _ _ Ht); rewrite lxor_eq_iff.
      assert ((0 =? y) = false) as -> by (unfold is_char in Hy; lia). done.
  - apply cstr_cons in Hs as (Hx & Hsp & Hs). mrun (load8_run _ _ _ Hsp).
    rewrite (is_char_truthy _ Hx). destruct t as [|y t].
    + apply cstr_nil in Ht. mrun (load8_run _ _ _ Ht). rewrite lxor_eq_iff.
      assert ((x =? 0) = false) as -> by (unfold is_char in Hx; lia). done.
    + apply cstr_cons in Ht as (Hy & Htq & Ht). mrun (load8_run _ _ _ Htq).
      rewrite (is_char_truthy _ Hy), lxor_eq_iff, negb_involutive.
      destruct (Z.eqb_spec x y) as [->|Hne]; cbn [andb].
      * rewrite (IH _ _ _ _ Hs Ht) by lia. do 2 f_equal.
        apply bool_decide_ext. split; [by intros ->|by intros [=]].
      * unfold mret, M_ret. rewrite bool_decide_eq_false_2; [done|congruence].
Qed.

Lemma starts_with_walk_run fuel p q s t m :
  cstr_at p s m → cstr_at q t m → (length t < fuel)%nat →
  starts_with_walk fuel p q m = Done (b2z (bool_decide (t `prefix_of` s))) m.
Proof.
  revert fuel p q s; induction t as [|y t IH]; intros [|fuel] p q s Hs Ht Hf; simpl in Hf;
    try lia; cbn [starts_with_walk]; unfold mbind, M_bind.
  - apply cstr_nil in Ht. mrun (load8_run _ _ _ Ht). change (truthy 0) with false. mred.
    unfold mret, M_ret. by rewrite bool_decide_eq_true_2 by apply prefix_nil.
  - apply cstr_cons in Ht as (Hy & Htq & Ht). mrun (load8_run _ _ _ Htq); rewrite is_char_truthy by done.
    destruct s as [|x s].
    + apply cstr_nil in Hs. mrun (load8_run _ _ _ Hs).
      assert ((0 =? y) = false) as -> by (unfold is_char in Hy; lia).
      unfold mret, M_ret. by rewrite bool_decide_eq_false_2 by apply prefix_nil_not.
    + apply cstr_cons in Hs as (Hx & Hsp & Hs). mrun (load8_run _ _ _ Hsp).
      destruct (Z.eqb_spec x y) as [->|Hne].
      * rewrite (IH _ _ _ _ Hs Ht) by lia. do 2 f_equal. apply bool_decide_ext.
        split; [apply prefix_cons|apply prefix_cons_inv_2].
      * unfold mret, M_ret. rewrite bool_decide_eq_false_2; [done|].
        intros H%prefix_cons_inv_1. congruence.
Qed.

Lemma match_walk_run fuel p q s t m :
  cstr_at p s m → cstr_at q t m → (length t < fuel)%nat →
  ∃ r u, match_walk fuel p q m = Done r m ∧ cstr_at r u m ∧ (u = [] ↔ t `prefix_of` s).
Proof.
  revert fuel p q s; induction t as [|y t IH]; intros [|fuel] p q s Hs Ht Hf; simpl in Hf;
    try lia; cbn [match_walk]; unfold mbind, M_bind.
  - exists q, []. assert (m !! q = Some 0) as Hq by by apply cstr_nil.
    split; [|split; [done|split; [intros; apply prefix_nil|done]]].
    destruct s as [|x s].
    + apply cstr_nil in Hs. by mrun (load8_run _ _ _ Hs).
    + apply cstr_cons in Hs as (Hx & Hsp & Hs).
      mrun (load8_run _ _ _ Hsp). rewrite is_char_truthy by done. by mrun (load8_run _ _ _ Hq).
  - destruct s as [|x s].
    + exists q, (y :: t). apply cstr_nil in Hs. mrun (load8_run _ _ _ Hs). change (truthy 0) with false. mred.
      split; [done|]. split; [done|]. split; [done|]. by intros H%prefix_nil_not.
    + pose proof Ht as Ht'. apply cstr_cons in Ht as (Hy & Htq & Ht), Hs as (Hx & Hsp & Hs).
      mrun (load8_run _ _ _ Hsp); rewrite is_char_truthy by done; mrun (load8_run _ _ _ Htq); rewrite is_char_truthy by done.
      simpl. destruct (Z.eqb_spec x y) as [->|Hne].
      * destruct (IH fuel _ _ _ Hs Ht) as (r & u & H1 & H2 & H3); [lia|].
        exists r, u. split; [done|]. split; [done|]. rewrite H3.
        split; [apply prefix_cons|apply prefix_cons_inv_2].
      * exists q, (y :: t). split; [done|]. split; [done|]. split; [done|].
        intros H%prefix_cons_inv_1. congruence.
Qed.

(** [t] occurs in [s] at some position before the end of [s]. *)
Definition occurs (t s : list Z) : Prop :=
  ∃ u v, s = u ++ v ∧ v ≠ [] ∧ t `prefix_of` v.

Lemma contains_walk_run fuel p q s t m :
  cstr_at p s m → cstr_at q t m → (length s < fuel)%nat →
  ∃ r, contains_walk fuel p q m = Done r m ∧ ((r = 1 ∧ occurs t s) ∨ (r = 0 ∧ ¬ occurs t s)).
Proof.
  revert fuel p; induction s as [|x s IH]; intros [|fuel] p Hs Ht Hf; simpl in Hf;
    try lia; cbn [contains_walk]; unfold mbind, M_bind.
  - apply cstr_nil in Hs. mrun (load8_run _ _ _ Hs). exists 0. split; [done|]. right.
    split; [done|]. intros (u & v & Hu & Hv & _). by destruct u, v.
  - pose proof Hs as Hs'. apply cstr_cons in Hs as (Hx & Hsp & Hs).
    mrun (load8_run _ _ _ Hsp); rewrite is_char_truthy by done.
    destruct (match_walk_run (S (size m)) p q (x :: s) t m Hs' Ht) as (r & u & Hr & Hu & Hpre);
      [by eapply cstr_fuel|].
    unfold with_fuel. rewrite Hr. destruct u as [|y u].
    + apply cstr_nil in Hu. mrun (load8_run _ _ _ Hu). exists 1. split; [done|]. left.
      split; [done|]. exists [], (x :: s). naive_solver.
    + apply cstr_cons in Hu as (Hy & Hu & _). mrun (load8_run _ _ _ Hu); rewrite is_char_truthy by done.
      destruct (IH fuel _ Hs Ht) as (r' & -> & Hcase); [lia|].
      exists r'. split; [done|]. destruct Hcase as [[-> (v & w & -> & Hw & Hp)]|[-> Hno]].
      * left. split; [done|]. exists (x :: v), w. naive_solver.
      * right. split; [done|]. intros ([|z v] & w & Heq & Hw & Hp); simpl in Heq.
        { subst w. apply Hpre in Hp. done. }
        { apply Hno. exists v, w. naive_solver. }
Qed.

(** The three string predicates decide equality, the prefix relation and
    occurrence of a substring (which the code looks for only at positions before
    the terminator, so nothing occurs in the empty string). *)
Theorem str_predicates_correct p q s t m :
  cstr_at p s m → cstr_at q t m → p ≠ NULL → q ≠ NULL →
  str_equals p q m = Done (b2z (bool_decide (s = t))) m ∧
  str_starts_with p q m = Done (b2z (bool_decide (t `prefix_of` s))) m ∧
  ∃ r, str_contains p q m = Done r m ∧ ((r = 1 ∧ occurs t s) ∨ (r = 0 ∧ ¬ occurs t s)).
Proof.
  intros Hs Ht Hp%Z.eqb_neq Hq%Z.eqb_neq.
  unfold str_equals, str_starts_with, str_contains. rewrite Hp, Hq. simpl.
  split; [|split].
  - apply equals_walk_run; [done..|by eapply cstr_fuel].
  - apply starts_with_walk_run; [done..|by eapply cstr_fuel].
  - apply contains_walk_run; [done..|by eapply cstr_fuel].
Qed.

(** ** Rewriting in place *)

Lemma map_walk_run fuel g p s m :
  (∀ b, is_char b → is_byte (g b)) → cstr_at p s m → (length s < fuel)%nat →
  map_walk fuel g p m = Done tt (mem_write p (map g s) m).
Proof.
  intros Hg. revert fuel p m; induction s as [|x s IH]; intros [|fuel] p m Hs Hf; simpl in Hf;
    try lia; cbn [map_walk map mem_write].
  - apply cstr_nil in Hs. by mrun (load8_run _ _ _ Hs).
  - apply cstr_cons in Hs as (Hx & Hp & Hs). mrun (load8_run _ _ _ Hp).
    rewrite is_char_truthy by done. mrun (store8_run p (g x) m ltac:(eauto) (Hg _ Hx)).
    apply IH; [|lia]. apply (cstr_frame _ _ p [g x]); [done|]. unfold disjoint. simpl. lia.
Qed.

Lemma upper_byte b : is_char b → is_byte (Z.land b (Z.lnot 32)).
Proof.
  unfold is_char. intros Hb.
  pose proof (byte_ind (λ b, bool_decide (is_byte (Z.land b (Z.lnot 32)))) ltac:(by vm_compute) b
    ltac:(unfold is_byte; lia)) as H. by apply bool_decide_eq_true_1 in H.
Qed.

Lemma lower_byte b : is_char b → is_byte (Z.lor b 32).
Proof.
  unfold is_char. intros Hb.
  pose proof (byte_ind (λ b, bool_decide (is_byte (Z.lor b 32))) ltac:(by vm_compute) b
    ltac:(unfold is_byte; lia)) as H. by apply bool_decide_eq_true_1 in H.
Qed.

(** The case conversion of the routines' names on the letters. *)
Definition is_upper (b : Z) : bool := (65 <=? b) && (b <=? 90).
Definition is_lower (b : Z) : bool := (97 <=? b) && (b <=? 122).

(** On letters [str_to_upper] and [str_to_lower] convert case, but they clear
    and set bit 5 of every byte: in particular [str_to_upper] turns the first
    space into the terminator, so what follows it is cut off. *)
Theorem str_to_upper_truncates p s t m :
  p ≠ NULL → cstr_at p (s ++ 32 :: t) m → Forall (λ b, is_lower b = true) s →
  ∃ m', str_to_upper p m = Done tt m' ∧ cstr_at p (map (λ b, b - 32) s) m'.
Proof.
  intros Hp%Z.eqb_neq Hc Hs. unfold str_to_upper. rewrite Hp.
  eexists. split; [apply map_walk_run; [apply upper_byte|done|by eapply cstr_fuel]|].
  assert (map (λ b, Z.land b (Z.lnot 32)) s = map (λ b, b - 32) s) as Heq.
  { clear Hc. induction Hs as [|b s Hb _ IH]; [done|]. simpl. rewrite IH. f_equal.
    assert (is_byte b) as Hbb by (unfold is_lower, is_byte in *; lia).
    pose proof (byte_ind (λ b, implb (is_lower b) (Z.land b (Z.lnot 32) =? b - 32)) ltac:(by vm_compute) b Hbb)
      as H. simpl in H. rewrite Hb in H. simpl in H. lia. }
  rewrite map_app, Heq. cbn [map]. change (Z.land 32 (Z.lnot 32)) with 0.
  split.
  - apply Forall_map. eapply Forall_impl; [done|]. unfold is_lower, is_char. lia.
  - rewrite (cons_middle 0 _ (map _ t)), app_assoc. rewrite mem_write_app.
    apply bytes_at_frame; [apply bytes_at_write|]. lia.
Qed.

(** *** Reversal *)

Lemma bytes_at_ext p bs m1 m2 :
  (∀ a, p ≤ a < p + Z.of_nat (length bs) → m1 !! a = m2 !! a) →
  bytes_at p bs m1 → bytes_at p bs m2.
Proof.
  intros He H i b Hi. rewrite <-He; [by apply H|]. apply lookup_lt_Some in Hi. lia.
Qed.

Lemma lxor_swap a b : Z.lxor b (Z.lxor a b) = a ∧ Z.lxor (Z.lxor a b) a = b.
Proof.
  split.
  - by rewrite Z.lxor_comm, Z.lxor_assoc, Z.lxor_nilpotent, Z.lxor_0_r.
  - by rewrite (Z.lxor_comm a b), Z.lxor_assoc, Z.lxor_nilpotent, Z.lxor_0_r.
Qed.

Lemma lxor_byte a b : is_byte a → is_byte b → is_byte (Z.lxor a b).
Proof.
  unfold is_byte. intros Ha Hb. split; [apply Z.lxor_nonneg; lia|].
  destruct (Z.eq_dec (Z.lxor a b) 0) as [->|Hne]; [lia|].
  assert (0 ≤ Z.lxor a b) by (apply Z.lxor_nonneg; lia).
  apply Z.log2_lt_pow2; [lia|]. eapply Z.le_lt_trans; [apply Z.log2_lxor; lia|].
  apply Z.max_lub_lt.
  - destruct (Z.eq_dec a 0) as [->|]; [done|]. apply Z.log2_lt_pow2; lia.
  - destruct (Z.eq_dec b 0) as [->|]; [done|]. apply Z.log2_lt_pow2; lia.
Qed.

Lemma reverse_walk_run n p s m :
  Forall is_byte s → bytes_at p s m → (length s ≤ n)%nat →
  reverse_walk n p (p + Z.of_nat (length s) - 1) m = Done tt (mem_write p (rev s) m).
Proof.
  revert n p m. induction s as [s IH] using (induction_ltof1 _ (@length Z)). intros n p m Hb Hm Hn.
  destruct n as [|n]; [destruct s; [done|simpl in *; lia]|]. cbn [reverse_walk].
  destruct s as [|x s]; [by rewrite (proj2 (Z.ltb_ge _ _)) by (simpl; lia)|].
  destruct s as [|y s] using rev_ind.
  { rewrite (proj2 (Z.ltb_ge _ _)) by (simpl; lia). simpl. unfold mret, M_ret. f_equal.
    symmetry. apply insert_id. by apply bytes_at_cons in Hm as [? _]. }
  clear IHs. rewrite length_cons, length_app in *. change (length [y]) with 1%nat in *.
  set (hi := p + Z.of_nat (S (length s + 1)) - 1) in *.
  assert (hi = p + 1 + Z.of_nat (length s)) as Hhi by lia.
  apply bytes_at_cons in Hm as [Hx Hm]. apply bytes_at_app in Hm as [Hs Hy].
  apply bytes_at_cons in Hy as [Hy _]. rewrite <-Hhi in Hy.
  apply Forall_cons in Hb as [Hbx Hb]. apply Forall_app in Hb as [Hbs [Hby _]%Forall_cons].
  rewrite (proj2 (Z.ltb_lt _ _)) by lia. destruct (lxor_swap x y) as [Hsw1 Hsw2].
  mrun (load8_run _ _ _ Hx). mrun (load8_run _ _ _ Hy).
  mrun (store8_run p (Z.lxor x y) m ltac:(eauto) (lxor_byte _ _ Hbx Hby)).
  assert (<[p:=Z.lxor x y]> m !! hi = Some y) as E1 by (by rewrite lookup_insert_ne by lia).
  mrun (load8_run _ _ _ E1). mrun (load8_run p (Z.lxor x y) _ (lookup_insert_eq _ _ _)).
  rewrite Hsw1. mrun (store8_run hi x (<[p:=Z.lxor x y]> m) ltac:(eauto) Hbx).
  assert (<[hi:=x]> (<[p:=Z.lxor x y]> m) !! p = Some (Z.lxor x y)) as E2
    by (by rewrite lookup_insert_ne, lookup_insert_eq by lia).
  mrun (load8_run _ _ _ E2). mrun (load8_run hi x _ (lookup_insert_eq _ _ _)).
  rewrite Hsw2. mrun (store8_run p y (<[hi:=x]> (<[p:=Z.lxor x y]> m)) ltac:(eauto) Hby).
  replace (hi - 1) with (p + 1 + Z.of_nat (length s) - 1) by lia.
  rewrite IH.
  - f_equal. simpl rev. rewrite rev_app_distr. simpl.
    apply map_eq. intros a. rewrite mem_write_app, !lookup_mem_write, !length_rev.
    simpl length. destruct (decide (a = hi)) as [->|Hah]; [|destruct (decide (a = p)) as [->|Hap]].
    + rewrite bool_decide_eq_false_2, lookup_insert_ne, lookup_insert_eq by lia.
      rewrite bool_decide_eq_true_2 by lia. by replace (hi - (p + 1 + Z.of_nat (length s))) with 0 by lia.
    + rewrite !bool_decide_eq_false_2, !lookup_insert_eq by lia. done.
    + rewrite (bool_decide_eq_false_2 (_ ≤ a < _ + Z.of_nat 1)) by lia.
      case_bool_decide; [done|]. by rewrite !lookup_insert_ne by lia.
  - unfold ltof. simpl. rewrite length_app. simpl. lia.
  - done.
  - eapply bytes_at_ext; [|exact Hs]. intros a Ha. by rewrite !lookup_insert_ne by lia.
  - lia.
Qed.

Lemma str_reverse_run p s m :
  p ≠ NULL → cstr_at p s m → str_reverse p m = Done tt (mem_write p (rev s) m).
Proof.
  intros Hp%Z.eqb_neq Hs. unfold str_reverse, with_fuel. rewrite Hp.
  mrun (skip_to_nul_run _ _ _ _ Hs (cstr_fuel _ _ _ Hs)).
  apply reverse_walk_run.
  - destruct Hs as [Hs _]. eapply Forall_impl; [done|]. unfold is_char, is_byte. lia.
  - destruct Hs as [_ Hs]. by apply bytes_at_app in Hs as [Hs _].
  - lia.
Qed.

(** *** Integers *)

Lemma skip_blank_run fuel p bl s m :
  Forall (λ b, b = 32 ∨ b = 9) bl → head s ≠ Some 32 → head s ≠ Some 9 →
  cstr_at p (bl ++ s) m → (length bl < fuel)%nat →
  skip_blank fuel p m = Done (p + Z.of_nat (length bl)) m.
Proof.
  intros Hbl H32 H9. revert fuel p; induction Hbl as [|x bl Hx _ IH]; intros [|fuel] p Hc Hf;
    simpl in Hf; try lia; cbn [skip_blank app length] in *.
  - rewrite Z.add_0_r. destruct s as [|x s].
    + apply cstr_nil in Hc. by mrun (load8_run _ _ _ Hc).
    + apply cstr_cons in Hc as (Hx & Hp & _). mrun (load8_run _ _ _ Hp). simpl in *.
      destruct (Z.eqb_spec x 32), (Z.eqb_spec x 9); congruence || done.
  - apply cstr_cons in Hc as (Hxc & Hp & Hc). mrun (load8_run _ _ _ Hp).
    assert ((x =? 32) || (x =? 9) = true) as -> by (destruct Hx; subst; done).
    rewrite (IH fuel _ Hc) by lia. f_equal. lia.
Qed.

Lemma dec_from_mono acc ds : 0 ≤ acc → Forall is_digit ds → acc ≤ dec_from acc ds.
Proof.
  intros Ha Hd. revert acc Ha; induction Hd as [|d ds Hd _ IH]; intros acc Ha; [done|].
  unfold dec_from in *. simpl. unfold is_digit in Hd. specialize (IH (acc * 10 + (d - 48))). lia.
Qed.

Lemma digits_walk_run fuel p acc ds s m :
  Forall is_digit ds → (∀ b, head s = Some b → ¬ is_digit b) →
  0 ≤ acc → dec_from acc ds < 2 ^ 31 →
  cstr_at p (ds ++ s) m → (length ds < fuel)%nat →
  digits_walk fuel p acc m = Done (dec_from acc ds) m.
Proof.
  intros Hds Hs. revert fuel p acc; induction Hds as [|d ds Hd Hds IH]; intros [|fuel] p acc Ha Hv Hc Hf;
    simpl in Hf; try lia; cbn [digits_walk app] in *.
  - destruct s as [|x s].
    + apply cstr_nil in Hc. by mrun (load8_run _ _ _ Hc).
    + apply cstr_cons in Hc as (_ & Hp & _). mrun (load8_run _ _ _ Hp).
      specialize (Hs x eq_refl). unfold is_digit in Hs.
      assert ((48 <=? x) && (x <=? 57) = false) as -> by lia. done.
  - apply cstr_cons in Hc as (_ & Hp & Hc). mrun (load8_run _ _ _ Hp).
    unfold is_digit in Hd. assert ((48 <=? d) && (d <=? 57) = true) as -> by lia.
    change (dec_from acc (d :: ds)) with (dec_from (acc * 10 + (d - 48)) ds) in *.
    pose proof (dec_from_mono (acc * 10 + (d - 48)) ds) as Hmono.
    specialize (Hmono ltac:(lia) Hds).
    rewrite (i32_id (acc * 10)), i32_id by lia. apply IH; done || lia.
Qed.

(** The sign a numeral may carry. *)
Inductive sign_of : list Z → Z → Prop :=
| sign_none : sign_of [] 1
| sign_plus : sign_of [43] 1
| sign_minus : sign_of [45] (-1).

(** [str_to_int] reads blanks, an optional sign and the digits that follow,
    and returns the signed value whenever it fits an [int]. *)
Theorem str_to_int_correct p bl sg σ ds rest m :
  p ≠ NULL → Forall (λ b, b = 32 ∨ b = 9) bl → sign_of sg σ → Forall is_digit ds →
  ds ≠ [] → (∀ b, head rest = Some b → ¬ is_digit b) → dec_value ds < 2 ^ 31 →
  cstr_at p (bl ++ sg ++ ds ++ rest) m →
  str_to_int p m = Done (σ * dec_value ds) m.
Proof.
  intros Hp%Z.eqb_neq Hbl Hsg Hds Hne Hrest Hv Hc. unfold str_to_int, with_fuel. rewrite Hp.
  destruct ds as [|d ds]; [done|]. pose proof (Forall_inv Hds) as Hd. unfold is_digit in Hd.
  assert (∀ b, head (sg ++ (d :: ds) ++ rest) = Some b → b = 43 ∨ b = 45 ∨ b = d) as Hh.
  { destruct Hsg; simpl; intros b [= <-]; auto. }
  pose proof (cstr_fuel _ _ _ Hc) as Hf. rewrite length_app in Hf.
  mrun (skip_blank_run (S (size m)) p bl (sg ++ (d :: ds) ++ rest) m Hbl
    ltac:(intros H; apply Hh in H; lia) ltac:(intros H; apply Hh in H; lia) Hc ltac:(lia)).
  apply cstr_app in Hc. set (q := p + _) in *.
  pose proof (dec_from_mono 0 (d :: ds) ltac:(lia) Hds).
  unfold dec_value in *.
  destruct Hsg; cbn [app] in *; pose proof Hc as Hc'; apply cstr_cons in Hc as (_ & Hq & Hc);
    mrun (load8_run _ _ _ Hq).
  - assert ((d =? 45) = false) as -> by lia. assert ((d =? 43) = false) as -> by lia.
    mrun (digits_walk_run (S (size m)) q 0 (d :: ds) rest m Hds Hrest ltac:(lia) Hv Hc'
            ltac:(apply cstr_fuel in Hc'; rewrite ?length_app in *; simpl in *; rewrite ?length_app in *; lia)).
    rewrite Z.mul_1_r, Z.mul_1_l, i32_id by lia. done.
  - change (43 =? 45) with false. change (43 =? 43) with true.
    mrun (digits_walk_run (S (size m)) (q + 1) 0 (d :: ds) rest m Hds Hrest ltac:(lia) Hv Hc
            ltac:(apply cstr_fuel in Hc; simpl in *; rewrite ?length_app in *; lia)).
    rewrite Z.mul_1_r, Z.mul_1_l, i32_id by lia. done.
  - change (45 =? 45) with true.
    mrun (digits_walk_run (S (size m)) (q + 1) 0 (d :: ds) rest m Hds Hrest ltac:(lia) Hv Hc
            ltac:(apply cstr_fuel in Hc; simpl in *; rewrite ?length_app in *; lia)).
    rewrite i32_id by lia. f_equal. lia.
Qed.

Lemma from_int_walk_run fuel p v m :
  (0 < fuel)%nat → 0 ≤ v < 10 ^ Z.of_nat fuel →
  mapped p (Z.of_nat (length (dec_digits fuel v))) m →
  from_int_walk fuel p v m
    = Done (p + Z.of_nat (length (dec_digits fuel v))) (mem_write p (rev (dec_digits fuel v)) m).
Proof.
  revert p v m; induction fuel as [|f IH]; intros p v m Hf Hv Hm; [lia|].
  rewrite Nat2Z.inj_succ, Z.pow_succ_r in Hv by lia. cbn [from_int_walk dec_digits] in *.
  rewrite Z.rem_mod_nonneg, Z.quot_div_nonneg by lia. pose proof (Z.mod_pos_bound v 10).
  rewrite rev_app_distr. cbn [rev app]. rewrite length_app in *. simpl length in *.
  mrun (store8_run p (48 + v mod 10) m ltac:(apply Hm; lia) ltac:(unfold is_byte; lia)).
  destruct (Z.leb_spec 10 v).
  - assert (1 ≤ v / 10) by (apply Z.div_le_lower_bound; lia).
    assert (v / 10 < 10 ^ Z.of_nat f) by (apply Z.div_lt_upper_bound; lia).
    assert (truthy (v / 10) = true) as -> by (apply truthy_true; lia).
    rewrite IH; [|destruct f; [simpl in *|]; lia|lia|].
    + cbn [mem_write]. f_equal. lia.
    + apply mapped_insert. eapply mapped_sub; [apply Hm|lia|lia].
  - rewrite Z.div_small by lia. done.
Qed.

(** The text [str_from_int] leaves for [v]. *)
Definition int_text (v : Z) : list Z :=
  (if v <? 0 then [45] else []) ++ dec_digits 10 (Z.abs v).

Lemma str_from_int_run p v m :
  p ≠ NULL → - 2 ^ 31 < v < 2 ^ 31 → mapped p 12 m →
  ∃ m', str_from_int p v m = Done tt m' ∧ cstr_at p (int_text v) m' ∧
    ∀ a, ¬ (p ≤ a < p + 12) → m' !! a = m !! a.
Proof.
  intros Hp Hv Hm. pose proof (length_dec_digits 10 (Z.abs v)) as Hlen.
  pose proof (dec_digits_digits 10 (Z.abs v)) as Hdig.
  set (ds := dec_digits 10 (Z.abs v)) in *.
  pose (txt := rev ds ++ (if v <? 0 then [45] else [])).
  assert (length (txt ++ [0%Z]) ≤ 12)%nat as Htl.
  { unfold txt. rewrite !length_app, length_rev. destruct (v <? 0); simpl; lia. }
  assert (Forall is_char txt) as Htc.
  { unfold txt. apply Forall_app. split; [by apply Forall_rev, digits_chars|].
    destruct (v <? 0); repeat constructor; done. }
  pose (m1 := mem_write p (txt ++ [0]) m).
  assert (cstr_at p txt m1) as Hc by by apply cstr_write.
  exists (mem_write p (rev txt) m1). split; [|split].
  - rewrite <-(str_reverse_run p txt m1 Hp Hc). unfold str_from_int.
    rewrite (proj2 (Z.eqb_neq _ _) Hp).
    assert ((if v <? 0 then i32 (- v) else v) = Z.abs v) as ->
      by (destruct (Z.ltb_spec v 0); rewrite ?i32_id; lia).
    mrun (from_int_walk_run 10 p (Z.abs v) m ltac:(lia) ltac:(lia)
            ltac:(eapply mapped_sub; [apply Hm|lia|fold ds; lia])). fold ds.
    unfold m1, txt. destruct (v <? 0).
    + mrun (store8_run (p + Z.of_nat (length ds)) 45 (mem_write p (rev ds) m)
        ltac:(apply mapped_write with (1 := Hm); lia) ltac:(done)).
      mrun (store8_run (p + Z.of_nat (length ds) + 1) 0 (<[p + Z.of_nat (length ds) := 45]> (mem_write p (rev ds) m))
        ltac:(apply mapped_insert with (n := 12) (p := p); [by apply mapped_write|lia]) ltac:(done)).
      by rewrite <-app_assoc, mem_write_app, length_rev.
    + mrun (store8_run (p + Z.of_nat (length ds)) 0 (mem_write p (rev ds) m)
        ltac:(apply mapped_write with (1 := Hm); lia) ltac:(done)).
      by rewrite app_nil_r, mem_write_app, length_rev.
  - assert (int_text v = rev txt) as ->.
    { unfold txt, int_text. rewrite rev_app_distr, rev_involutive. by destruct (v <? 0). }
    split; [by apply Forall_rev|]. apply bytes_at_app. split; [apply bytes_at_write|].
    rewrite length_rev. apply bytes_at_frame; [|rewrite length_rev; lia].
    apply bytes_at_app with (xs := txt), bytes_at_write.
  - intros a Ha. rewrite length_app in Htl. simpl in Htl.
    unfold m1. rewrite !lookup_mem_write_out; rewrite ?length_rev, ?length_app; simpl; done || lia.
Qed.

(** Reading back what [str_from_int] wrote gives the number, for every [int]
    but the least one. *)
Theorem str_from_int_roundtrip p v m :
  p ≠ NULL → - 2 ^ 31 < v < 2 ^ 31 → mapped p 12 m →
  ∃ m', str_from_int p v m = Done tt m' ∧ str_to_int p m' = Done v m'.
Proof.
  intros Hp Hv Hm. destruct (str_from_int_run p v m Hp Hv Hm) as (m' & Hrun & Hc & _).
  exists m'. split; [done|]. unfold int_text in Hc.
  assert (Z.abs v < 10 ^ Z.of_nat 10) by lia.
  destruct (dec_digits_canonical 10 (Z.abs v)) as (Hd & Hne & _); [lia|lia|].
  pose proof (dec_digits_value 10 (Z.abs v) ltac:(lia)) as Hval.
  rewrite (str_to_int_correct p [] (if v <? 0 then [45] else []) (if v <? 0 then -1 else 1)
    (dec_digits 10 (Z.abs v)) [] m'); rewrite ?app_nil_r, ?Hval; try done; try lia.
  - f_equal. destruct (Z.ltb_spec v 0); lia.
  - destruct (v <? 0); constructor.
Qed.

(** On the least [int], whose negation overflows, [str_from_int] writes a text
    without a single digit. *)
Theorem str_from_int_min_garbage :
  ∃ m' s, str_from_int 1 (- 2 ^ 31) (mem_write 1 (replicate 12 0) ∅) = Done tt m' ∧
    cstr_at 1 s m' ∧ length s = 11%nat ∧ Forall (λ b, ¬ is_digit b) s.
Proof.
  eexists _, [45; 46; 47; 44; 41; 44; 40; 45; 42; 44; 40]. split; [by vm_compute|].
  split; [split; [repeat constructor; done|]|split; [done|]].
  - intros i b Hi. do 12 (destruct i as [|i]; [injection Hi as <-; by vm_compute|]). done.
  - unfold is_digit. repeat constructor; lia.
Qed.

(** ** Trimming *)

Lemma trim_start_run fuel p s m :
  cstr_at p s m → (length s < fuel)%nat →
  ∃ lead t, s = lead ++ t ∧ Forall (λ b, is_space b = true) lead ∧
    (∀ b, head t = Some b → is_space b = false) ∧
    trim_start fuel p m = Done (p + Z.of_nat (length lead)) m.
Proof.
  revert fuel p; induction s as [|x s IH]; intros [|fuel] p Hc Hf; simpl in Hf; try lia;
    cbn [trim_start].
  - exists [], []. apply cstr_nil in Hc. mrun (load8_run _ _ _ Hc).
    rewrite Z.add_0_r. by repeat split.
  - apply cstr_cons in Hc as (Hx & Hp & Hc). mrun (load8_run _ _ _ Hp).
    rewrite (is_char_truthy _ Hx). simpl. destruct (is_space x) eqn:Hsp.
    + destruct (IH fuel _ Hc) as (lead & t & -> & Hl & Ht & ->); [lia|].
      exists (x :: lead), t. repeat split; auto. simpl. f_equal. lia.
    + exists [], (x :: s). rewrite Z.add_0_r. repeat split; [done|]. by intros b [= <-].
Qed.

Lemma trim_end_run n st t m :
  t ≠ [] → bytes_at st t m → (length t ≤ S n)%nat →
  ∃ mid trail, t = mid ++ trail ∧ mid ≠ [] ∧ Forall (λ b, is_space b = true) trail ∧
    (∀ b, last mid = Some b → (length mid > 1)%nat → is_space b = false) ∧
    trim_end n st (st + Z.of_nat (length t) - 1) m = Done (st + Z.of_nat (length mid) - 1) m.
Proof.
  revert t; induction n as [|n IH]; intros t Hne Hb Hn.
  - exists t, []. rewrite app_nil_r. repeat split; [done..|]. intros b _ Hl. lia.
  - cbn [trim_end]. destruct (Z.ltb_spec st (st + Z.of_nat (length t) - 1)).
    + destruct t as [|y t _] using rev_ind; [done|]. rewrite length_app in *. simpl in *.
      pose proof Hb as Hb'. apply bytes_at_app in Hb as [Hb Hy]. apply bytes_at_cons in Hy as [Hy _].
      replace (st + Z.of_nat (length t + 1) - 1) with (st + Z.of_nat (length t)) by lia.
      mrun (load8_run _ _ _ Hy). destruct (is_space y) eqn:Hsp.
      * destruct (IH t) as (mid & trail & -> & H1 & H2 & H3 & ->); [destruct t; [simpl in *; lia|done]|done|lia|].
        exists mid, (trail ++ [y]). rewrite app_assoc. repeat split; auto.
        apply Forall_app; auto.
      * exists (t ++ [y]), []. rewrite app_nil_r. split; [done|]. split; [by destruct t|].
        split; [done|]. split; [by rewrite last_snoc; intros b [= <-]|].
        rewrite length_app. simpl. f_equal. lia.
    + exists t, []. rewrite app_nil_r. repeat split; [done..|]. intros b _ Hl. lia.
Qed.

Lemma copy_up_run d p bs m :
  d ≤ p → Forall is_byte bs → bytes_at p bs m → mapped d (Z.of_nat (length bs)) m →
  copy_up (length bs) d p m = Done (d + Z.of_nat (length bs)) (mem_write d bs m).
Proof.
  intros Hle Hbs. revert d p m Hle; induction Hbs as [|b bs Hb _ IH]; intros d p m Hle Hp Hd;
    cbn [copy_up length mem_write] in *; [by rewrite Z.add_0_r|].
  apply bytes_at_cons in Hp as [Hpb Hp]. mrun (load8_run _ _ _ Hpb).
  mrun (store8_run d b m ltac:(apply Hd; lia) Hb). rewrite IH.
  - f_equal. lia.
  - lia.
  - apply (bytes_at_frame _ _ d [b]); [done|simpl; lia].
  - apply mapped_insert. eapply mapped_sub; [apply Hd|lia|lia].
Qed.

(** [str_trim] leaves the string without its leading and trailing white space. *)
Theorem str_trim_correct p s m :
  p ≠ NULL → cstr_at p s m →
  ∃ lead mid trail m', s = lead ++ mid ++ trail ∧
    Forall (λ b, is_space b = true) lead ∧ Forall (λ b, is_space b = true) trail ∧
    (∀ b, head mid = Some b ∨ last mid = Some b → is_space b = false) ∧
    str_trim p m = Done tt m' ∧ cstr_at p mid m'.
Proof.
  intros Hp%Z.eqb_neq Hc. unfold str_trim, with_fuel. rewrite Hp.
  destruct (trim_start_run (S (size m)) p s m Hc) as (lead & t & -> & Hl & Ht & Hrun);
    [by eapply cstr_fuel|].
  pose proof (cstr_app _ _ _ _ Hc) as Hct. pose proof (cstr_mapped _ _ _ Hc) as Hm.
  rewrite length_app in Hm. set (st := p + Z.of_nat (length lead)) in *.
  mrun Hrun. mrun (skip_to_nul_run (S (size m)) st t m Hct (cstr_fuel _ _ _ Hct)).
  destruct t as [|x t].
  { exists lead, [], []. change (Z.of_nat (@length Z [])) with 0 in *.
    rewrite Z.add_0_r, Z.ltb_irrefl. mred. rewrite Z.sub_diag. eexists.
    split; [done|]. split; [done|]. split; [done|]. split; [by intros b [?|?]|]. split.
    - change (Z.to_nat 0) with 0%nat. cbn [copy_up]. mred. apply store8_run; [apply Hm; simpl; lia|done].
    - apply cstr_nil, lookup_insert_eq. }
  rewrite (proj2 (Z.ltb_lt _ _)) by (simpl; lia).
  destruct Hct as [Hch Hbt]. apply bytes_at_app in Hbt as [Hbt _].
  destruct (trim_end_run (Z.to_nat (st + Z.of_nat (length (x :: t)) - 1 - st)) st (x :: t) m)
    as (mid & trail & Heq & Hmid & Htr & Hlast & Hend); [done|done|simpl length; lia|].
  mrun Hend. rewrite Heq in *. exists lead, mid, trail, (mem_write p (mid ++ [0]) m).
  apply Forall_app in Hch as [Hcm _]. apply bytes_at_app in Hbt as [Hbm _]. rewrite length_app in Hm.
  assert (Forall is_byte mid) as Hmb
    by (eapply Forall_impl; [exact Hcm|]; unfold is_char, is_byte; lia).
  split; [done|]. split; [done|]. split; [done|]. split; [|split; [|by apply cstr_write]].
  - intros b Hb. destruct mid as [|y [|z mid]]; [done| |]; simpl in Ht, Hb.
    + apply Ht. destruct Hb as [?|?]; done.
    + destruct Hb as [Hb|Hb]; [by apply Ht|]. apply Hlast; [done|simpl; lia].
  - replace (Z.to_nat (st + Z.of_nat (length mid) - 1 + 1 - st)) with (length mid) by lia.
    mrun (copy_up_run p st mid m ltac:(lia) Hmb Hbm ltac:(eapply mapped_sub; [apply Hm|lia|lia])).
    rewrite store8_run; [by rewrite mem_write_app|apply mapped_write with (1 := Hm); lia|done].
Qed.

(** ** Witnesses *)

(** ["ab"] at 100, ["c"] at 103 with room behind it, and a second area at 200. *)
Definition demo_text : mem :=
  mem_write 200 (replicate 24 0)
    (mem_write 100 ([97; 98] ++ [0] ++ [99] ++ [0] ++ replicate 19 0) ∅).

Lemma demo_text_ab : cstr_at 100 [97; 98] demo_text.
Proof.
  split; [eval_decide|]. apply bytes_at_frame; [|simpl; lia].
  exact (image_at 100 [] [97; 98; 0] ([99] ++ [0] ++ replicate 19 0) ∅).
Qed.

Lemma demo_text_c : cstr_at 103 [99] demo_text.
Proof.
  split; [eval_decide|]. apply bytes_at_frame; [|simpl; lia].
  exact (image_at 100 [97; 98; 0] [99; 0] (replicate 19 0) ∅).
Qed.

Lemma demo_text_mapped : mapped 100 24 demo_text.
Proof.
  apply mapped_write.
  apply (bytes_at_mapped 100 ([97; 98] ++ [0] ++ [99] ++ [0] ++ replicate 19 0)), bytes_at_write.
Qed.

Lemma demo_text_mapped2 : mapped 200 24 demo_text.
Proof. apply (bytes_at_mapped 200 (replicate 24 0)), bytes_at_write. Qed.

Lemma str_append_correct_witness :
  ∃ m1 m2, str_copy 103 100 demo_text = Done tt m1 ∧ cstr_at 103 [97; 98] m1 ∧
    str_append 103 100 demo_text = Done tt m2 ∧ cstr_at 103 [99; 97; 98] m2.
Proof.
  destruct (str_append_correct 103 [99] 100 [97; 98] demo_text demo_text_c demo_text_ab)
    as (m1 & m2 & H1 & H2 & H3 & H4 & _).
  - eapply mapped_sub; [apply demo_text_mapped|lia|simpl; lia].
  - left. simpl. lia.
  - exists m1, m2. split; [exact H1|]. split; [exact H2|]. split; [exact H3|exact H4].
Defined.

Lemma str_append_uint_correct_witness :
  ∃ m' ds, str_append_uint 200 103 305 demo_text = Done tt m' ∧ cstr_at 103 ([99] ++ ds) m' ∧
    canonical ds ∧ dec_value ds = 305.
Proof.
  destruct (str_append_uint_correct 200 103 [99] 305 demo_text) as (m' & ds & H1 & H2 & H3 & H4 & _).
  - lia.
  - exact demo_text_c.
  - eapply mapped_sub; [apply demo_text_mapped2|lia|lia].
  - eapply mapped_sub; [apply demo_text_mapped|lia|simpl; lia].
  - right. simpl. lia.
  - exists m', ds. split; [exact H1|]. split; [exact H2|]. split; [exact H3|exact H4].
Defined.

Lemma str_predicates_correct_witness :
  str_equals 100 103 demo_text = Done (b2z (bool_decide ([97; 98] = [99]))) demo_text.
Proof.
  apply (str_predicates_correct 100 103 [97; 98] [99] demo_text demo_text_ab demo_text_c); discriminate.
Defined.

Lemma str_to_upper_truncates_witness :
  ∃ m', str_to_upper 300 (mem_write 300 ([97; 98; 32; 99] ++ [0]) ∅) = Done tt m' ∧
        cstr_at 300 [65; 66] m'.
Proof.
  apply (str_to_upper_truncates 300 [97; 98] [99]); [discriminate| |eval_decide].
  apply cstr_write. eval_decide.
Defined.

Lemma str_to_int_correct_witness :
  str_to_int 300 (mem_write 300 ([32; 45; 52; 50; 120] ++ [0]) ∅)
  = Done (-1 * dec_value [52; 50]) (mem_write 300 ([32; 45; 52; 50; 120] ++ [0]) ∅).
Proof.
  apply (str_to_int_correct 300 [32] [45] (-1) [52; 50] [120]).
  - discriminate.
  - eval_decide.
  - constructor.
  - unfold is_digit. eval_decide.
  - discriminate.
  - intros b [= <-]. unfold is_digit. lia.
  - vm_compute. reflexivity.
  - apply cstr_write. eval_decide.
Defined.

Lemma str_from_int_roundtrip_witness :
  ∃ m', str_from_int 200 (-907) demo_text = Done tt m' ∧ str_to_int 200 m' = Done (-907) m'.
Proof.
  apply str_from_int_roundtrip; [discriminate|lia|].
  eapply mapped_sub; [apply demo_text_mapped2|lia|lia].
Defined.

Lemma str_trim_correct_witness :
  ∃ lead mid trail m', [32; 97; 32] = lead ++ mid ++ trail ∧
    str_trim 300 (mem_write 300 ([32; 97; 32] ++ [0]) ∅) = Done tt m' ∧ cstr_at 300 mid m'.
Proof.
  destruct (str_trim_correct 300 [32; 97; 32] (mem_write 300 ([32; 97; 32] ++ [0]) ∅))
    as (lead & mid & trail & m' & E & _ & _ & _ & H1 & H2).
  - discriminate.
  - apply cstr_write. eval_decide.
  - exists lead, mid, trail, m'. split; [exact E|]. split; [exact H1|exact H2].
Defined.
