(* ===== verification/Heap.v ===== *)
(** * The block heap, [core/kernel/mem/heap/heap.c] and [heap.h]

    The heap is a doubly linked list of block headers laid out in the memory they
    manage.  The model keeps the headers by address, as the typed view of that
    memory: [state] maps an address to the [heap_block_t] stored there.  A header
    that merging absorbs stays in the map, as its bytes stay in memory; a read
    through a pointer to no header faults. *)

From Stdlib Require Import ZArith Lia.
From stdpp Require Import base gmap list numbers fin_maps.
From S2P Require Import Prelude.
Open Scope Z_scope.
Set Default Goal Selector "!".

Definition BLOCK_MAGIC : Z := 0xDEADBEEF.

Record heap_block := mk_block {
  magic : Z;   (* u32 *)
  size : Z;    (* u64 *)
  next : Z;    (* address or NULL *)
  prev : Z;    (* address or NULL *)
  used : Z;    (* u8 *)
}.

(** [sizeof(heap_block_t)] under the x86-64 ABI: 4 (+4 of padding) + 8 + 8 + 8 + 1 (+7). *)
Definition SIZEOF_BLOCK : Z := 40.

Abbreviation heap := (gmap Z heap_block).

Definition set_size (v : Z) (b : heap_block) := mk_block (magic b) v (next b) (prev b) (used b).
Definition set_next (v : Z) (b : heap_block) := mk_block (magic b) (size b) v (prev b) (used b).
Definition set_prev (v : Z) (b : heap_block) := mk_block (magic b) (size b) (next b) v (used b).
Definition set_used (v : Z) (b : heap_block) := mk_block (magic b) (size b) (next b) (prev b) v.

(** [*p] and an assignment to a field of [*p]. *)
Definition get_block (p : Z) : M heap heap_block := λ h,
  match h !! p with Some b => Done b h | None => Stuck Fault end.

Definition upd_block (p : Z) (f : heap_block → heap_block) : M heap unit := λ h,
  match h !! p with Some b => Done tt (<[p := f b]> h) | None => Stuck Fault end.

(** A header written over raw memory. *)
Definition put_block (p : Z) (b : heap_block) : M heap unit := modify (<[p := b]>).

(** [if (q) { if (q->magic == BLOCK_MAGIC) q->prev = p; }] *)
Definition relink_prev (q p : Z) : M heap unit :=
  if q =? NULL then mret tt else
  b ← get_block q;
  if magic b =? BLOCK_MAGIC then upd_block q (set_prev p) else mret tt.

(** [q && !q->used && q->magic == BLOCK_MAGIC] *)
Definition mergeable (q : Z) : M heap bool :=
  if q =? NULL then mret false else
  b ← get_block q;
  mret ((used b =? 0) && (magic b =? BLOCK_MAGIC)).

(** The loop that absorbs the free blocks after [current]. *)
Fixpoint merge_next (fuel : nat) (current ret : Z) : M heap Z :=
  match fuel with
  | O => stuck_with NoFuel
  | S f =>
      cur ← get_block current;
      ok ← mergeable (next cur);
      if (ok : bool) then
        nb ← get_block (next cur);
        upd_block current (set_size (u64 (size cur + u64 (SIZEOF_BLOCK + size nb))));;
        upd_block current (set_next (next nb));;
        relink_prev (next nb) current;;
        merge_next f current (ret + 1)
      else mret ret
  end.

(** The loop that lets the free blocks before [current] absorb it. *)
Fixpoint merge_prev (fuel : nat) (current ret : Z) : M heap Z :=
  match fuel with
  | O => stuck_with NoFuel
  | S f =>
      cur ← get_block current;
      ok ← mergeable (prev cur);
      if (ok : bool) then
        let p := prev cur in
        pb ← get_block p;
        upd_block p (set_size (u64 (size pb + u64 (SIZEOF_BLOCK + size cur))));;
        upd_block p (set_next (next cur));;
        relink_prev (next cur) p;;
        merge_prev f p (ret + 1)
      else mret ret
  end.

(** Both loops shorten the list, which holds no more blocks than the map. *)
Definition heap_fuel : M heap nat := gets (λ h, S (base.size h)).

Definition heap_merge_free_blocks (block : Z) : M heap Z :=
  b ← get_block block;
  if negb (magic b =? BLOCK_MAGIC) then mret 0 else
  f ← heap_fuel;
  ret ← merge_next f block 0;
  merge_prev f block ret.

(** The search of [malloc]: the loop variables are [current], [best_fit] and
    [best_size]. *)
Fixpoint find_best (fuel : nat) (sz current best_fit best_size : Z) : M heap Z :=
  match fuel with
  | O => stuck_with NoFuel
  | S f =>
      if current =? NULL then mret best_fit else
      cur ← get_block current;
      if (used cur =? 0) && (sz <=? size cur) && (size cur <? best_size) then
        if size cur =? sz then mret current
        else find_best f sz (next cur) current (size cur)
      else find_best f sz (next cur) best_fit best_size
  end.

Definition SIZE_MAX : Z := 2 ^ 64 - 1.

(** [(size + 15) & ~15] on a [u64]. *)
Definition round16 (sz : Z) : Z := Z.land (u64 (sz + 15)) (u64 (Z.lnot 15)).

(** The part of [malloc] that splits the chosen block when the rest of it can
    hold a header and sixteen bytes. *)
Definition split_block (best_fit sz : Z) : M heap unit :=
  best ← get_block best_fit;
  if u64 (sz + SIZEOF_BLOCK + 16) <=? size best then
    let new_block := best_fit + SIZEOF_BLOCK + sz in
    put_block new_block
      (mk_block BLOCK_MAGIC (u64 (size best - sz - SIZEOF_BLOCK)) (next best) best_fit 0);;
    (if next best =? NULL then mret tt else upd_block (next best) (set_prev new_block));;
    upd_block best_fit (set_size sz);;
    upd_block best_fit (set_next new_block)
  else mret tt.

Definition malloc (heap_ sz : Z) : M heap Z :=
  if (heap_ =? NULL) || (sz =? 0) then mret NULL else
  let sz := round16 sz in
  f ← heap_fuel;
  best_fit ← find_best f sz heap_ NULL SIZE_MAX;
  if best_fit =? NULL then mret NULL else
  split_block best_fit sz;;
  upd_block best_fit (set_used 1);;
  mret (best_fit + SIZEOF_BLOCK).

Definition free (ptr : Z) : M heap Z :=
  if ptr =? NULL then mret 0 else
  let blk := ptr - SIZEOF_BLOCK in
  b ← get_block blk;
  if negb (magic b =? BLOCK_MAGIC) then mret 0 else
  if used b =? 0 then mret 0 else
  (* [if (!blk->size > (1ULL < 40))], as C reads it *)
  if b2z (1 <? 40) <? b2z (negb (truthy (size b))) then mret 0 else
  upd_block blk (set_used 0);;
  heap_merge_free_blocks blk.

(** ** The block list

    A segment of the heap as a list of (size, used?) pairs: the blocks lie one
    after the other, each header holding the links to its neighbours. *)
Abbreviation blocks := (list (Z * bool)).

Definition after (p : Z) (l : blocks) : Z := foldl (λ a '(s, _), a + SIZEOF_BLOCK + s) p l.
Definition addr (p : Z) (l : blocks) (i : nat) : Z := after p (take i l).

Definition header (s nxt prv : Z) (us : bool) : heap_block :=
  mk_block BLOCK_MAGIC s nxt prv (b2z us).

Fixpoint seg (h : heap) (prv p : Z) (l : blocks) (nxt : Z) : Prop :=
  match l with
  | [] => True
  | (s, us) :: l' =>
      h !! p = Some (header s (if l' is [] then nxt else p + SIZEOF_BLOCK + s) prv us) ∧
      seg h p (p + SIZEOF_BLOCK + s) l' nxt
  end.

(** The last header of a segment, [prv] when there is none. *)
Fixpoint last_hdr (prv p : Z) (l : blocks) : Z :=
  match l with
  | [] => prv
  | (s, _) :: l' => last_hdr p (p + SIZEOF_BLOCK + s) l'
  end.

Definition sized (l : blocks) : Prop := Forall (λ b, 0 ≤ b.1) l.

(** The heap at [p] is the block list [l], which fits the address space. *)
Record heap_rep (h : heap) (p : Z) (l : blocks) : Prop := {
  rep_seg : seg h NULL p l NULL;
  rep_sized : sized l;
  rep_base : 16 ≤ p;
  rep_end : after p l < 2 ^ 64;
  rep_nonempty : l ≠ [];
}.

Lemma after_app p l1 l2 : after p (l1 ++ l2) = after (after p l1) l2.
Proof. apply foldl_app. Qed.

Lemma after_cons p s u l : after p ((s, u) :: l) = after (p + SIZEOF_BLOCK + s) l.
Proof. done. Qed.

Lemma after_le p l : sized l → p + SIZEOF_BLOCK * Z.of_nat (length l) ≤ after p l.
Proof.
  unfold sized, SIZEOF_BLOCK. revert p; induction l as [|[s u] l IH]; intros p Hl; [simpl; lia|].
  apply Forall_cons in Hl as [Hs Hl]. rewrite after_cons, length_cons.
  specialize (IH (p + 40 + s) Hl). unfold SIZEOF_BLOCK. simpl in Hs. lia.
Qed.

Lemma after_ge p l : sized l → p ≤ after p l.
Proof. intros H. pose proof (after_le p l H). unfold SIZEOF_BLOCK in *. lia. Qed.

Lemma last_hdr_app prv p l1 l2 :
  last_hdr prv p (l1 ++ l2) = last_hdr (last_hdr prv p l1) (after p l1) l2.
Proof. revert prv p; induction l1 as [|[s u] l1 IH]; intros prv p; [done|apply IH]. Qed.

Lemma seg_app h prv p l1 l2 nxt :
  seg h prv p (l1 ++ l2) nxt ↔
  seg h prv p l1 (if l2 is [] then nxt else after p l1) ∧
  seg h (last_hdr prv p l1) (after p l1) l2 nxt.
Proof.
  revert prv p; induction l1 as [|[s u] l1 IH]; intros prv p; [simpl; tauto|].
  cbn [app seg last_hdr]. rewrite after_cons, IH.
  destruct l1 as [|[s1 u1] l1], l2 as [|[s2 u2] l2]; simpl; tauto.
Qed.

(** A segment only depends on the headers inside its range. *)
Lemma seg_ext h h' prv p l nxt :
  sized l → (∀ a, p ≤ a < after p l → h' !! a = h !! a) →
  seg h prv p l nxt → seg h' prv p l nxt.
Proof.
  unfold sized. revert prv p; induction l as [|[s u] l IH]; intros prv p Hl Ha; [done|].
  apply Forall_cons in Hl as [Hs Hl]. simpl in Hs. intros [Hp Hseg].
  rewrite after_cons in Ha. pose proof (after_ge (p + SIZEOF_BLOCK + s) l Hl).
  unfold SIZEOF_BLOCK in *. split.
  - rewrite Ha; [done|lia].
  - apply IH; [done| |done]. intros a Ha2. apply Ha. split; [|apply Ha2]. transitivity (p + 40 + s); [lia|apply Ha2].
Qed.

Lemma seg_insert h prv p l nxt a b :
  sized l → a < p ∨ after p l ≤ a →
  seg h prv p l nxt → seg (<[a := b]> h) prv p l nxt.
Proof. intros Hl Ha. apply seg_ext; [done|]. intros c Hc. apply lookup_insert_ne. lia. Qed.

(** Relinking the first header of a segment. *)
Lemma seg_relink h prv prv' p l nxt b :
  sized l → h !! p = Some b →
  seg h prv p l nxt → seg (<[p := set_prev prv' b]> h) prv' p l nxt.
Proof.
  destruct l as [|[s u] l]; intros Hl Hp; [done|]. intros [Hb Hseg].
  apply Forall_cons in Hl as [Hs Hl]. simpl in Hs. simplify_eq. split.
  - by rewrite lookup_insert_eq.
  - apply seg_insert; [done| |done]. left. unfold SIZEOF_BLOCK. lia.
Qed.

(** The segment in front of a block does not see which block follows it. *)
Lemma seg_elem h prv p l nxt i s u :
  seg h prv p l nxt → l !! i = Some (s, u) →
  ∃ nx pv, h !! addr p l i = Some (header s nx pv u).
Proof.
  unfold addr. revert prv p i; induction l as [|[s' u'] l IH]; intros prv p [|i] Hseg Hi;
    simplify_eq/=; destruct Hseg as [Hp Hseg].
  - eauto.
  - by eapply IH.
Qed.

(** Distinct blocks have distinct headers, so the map has room for the fuel. *)
Lemma seg_length h prv p l nxt : sized l → seg h prv p l nxt → (length l ≤ base.size h)%nat.
Proof.
  revert h prv p; induction l as [|[s u] l IH]; intros h prv p Hl Hseg; [simpl; lia|].
  destruct Hseg as [Hp Hseg]. apply Forall_cons in Hl as [Hs Hl]. simpl in Hs.
  assert (length l ≤ base.size (delete p h))%nat as Hlen.
  { eapply IH; [done|]. eapply seg_ext; [done| |exact Hseg].
    intros a Ha. apply lookup_delete_ne. unfold SIZEOF_BLOCK in *. lia. }
  rewrite (map_size_delete_Some _ _ (ex_intro _ _ Hp)) in Hlen. simpl.
  assert (base.size h ≠ 0)%nat; [|lia].
  intros E. apply map_size_empty_inv in E. subst. done.
Qed.

(** ** [malloc] *)

(** [a] is the first of the smallest free blocks that hold [n] bytes, [bs] its
    size; [NULL] and [SIZE_MAX] when there is none. *)
Inductive is_best (n p : Z) (l : blocks) : Z → Z → Prop :=
| best_none :
    (∀ j s, l !! j = Some (s, false) → s < n) →
    is_best n p l NULL SIZE_MAX
| best_some i s :
    l !! i = Some (s, false) → n ≤ s →
    (∀ j s', l !! j = Some (s', false) → n ≤ s' → s ≤ s' ∧ ((j < i)%nat → s < s')) →
    is_best n p l (addr p l i) s.

Lemma addr_app p l1 l2 i : (i ≤ length l1)%nat → addr p (l1 ++ l2) i = addr p l1 i.
Proof. intros Hi. unfold addr. by rewrite take_app_le. Qed.

Lemma addr_length p l1 l2 : addr p (l1 ++ l2) (length l1) = after p l1.
Proof. unfold addr. by rewrite take_app_length. Qed.

Lemma addr_pos p l i : 0 < p → sized l → 0 < addr p l i.
Proof.
  intros Hp Hl. unfold addr. pose proof (after_ge p (take i l) (Forall_take _ _ _ Hl)). lia.
Qed.

(** A block that does not beat the candidate. *)
Lemma is_best_keep n p l a bs s u :
  is_best n p l a bs → s < SIZE_MAX →
  (u = false → n ≤ s → bs ≤ s) → is_best n p (l ++ [(s, u)]) a bs.
Proof.
  intros [Hnone|i s0 Hi Hn Hmin] Hs Hu.
  - apply best_none. intros j s' Hj. apply lookup_app_Some in Hj as [Hj|[Hj1 Hj2]]; [eauto|].
    apply list_lookup_singleton_Some in Hj2 as [_ Hj2]. simplify_eq. unfold SIZE_MAX in *.
    destruct (Z.lt_ge_cases s' n); [done|]. specialize (Hu eq_refl). lia.
  - pose proof (lookup_lt_Some _ _ _ Hi). rewrite <-(addr_app _ _ [(s, u)]) by lia.
    apply best_some; [by apply lookup_app_l_Some|done|].
    intros j s' Hj Hs'. apply lookup_app_Some in Hj as [Hj|[Hj1 Hj2]]; [eauto|].
    apply list_lookup_singleton_Some in Hj2 as [Hj0 Hj2]. simplify_eq.
    split; [by apply Hu|]. lia.
Qed.

(** A block that does. *)
Lemma is_best_take n p l a bs s :
  is_best n p l a bs → n ≤ s → s < bs →
  is_best n p (l ++ [(s, false)]) (after p l) s.
Proof.
  intros Hb Hn Hlt. rewrite <-(addr_length p l [(s, false)]). apply best_some.
  - apply list_lookup_middle. done.
  - done.
  - intros j s' Hj Hs'. apply lookup_app_Some in Hj as [Hj|[Hj1 Hj2]].
    + destruct Hb as [Hnone|i s0 Hi Hn' Hmin]; [specialize (Hnone _ _ Hj); lia|].
      destruct (Hmin _ _ Hj Hs'). lia.
    + apply list_lookup_singleton_Some in Hj2 as [Hj0 Hj2]. simplify_eq. lia.
Qed.

(** The rest of a list after an exact fit does not matter. *)
Lemma is_best_exact n p l a l2 : is_best n p l a n → n < SIZE_MAX → is_best n p (l ++ l2) a n.
Proof.
  intros Hb Hn. inversion Hb as [H|i s Hi Hs Hmin]; subst; [lia|].
  pose proof (lookup_lt_Some _ _ _ Hi). rewrite <-(addr_app _ _ l2) by lia.
  apply best_some; [by apply lookup_app_l_Some|done|].
  intros j s' Hj Hs'. split; [done|]. intros Hji.
  rewrite lookup_app_l in Hj by lia. by apply (Hmin j s').
Qed.

Lemma get_block_run p b h : h !! p = Some b → get_block p h = Done b h.
Proof. unfold get_block. by intros ->. Qed.

Lemma upd_block_run p f b h : h !! p = Some b → upd_block p f h = Done tt (<[p := f b]> h).
Proof. unfold upd_block. by intros ->. Qed.

Lemma is_best_found n p l a bs : is_best n p l a bs → a = NULL → 0 < p → sized l → bs = SIZE_MAX.
Proof.
  intros [?|i s Hi Hs Hmin] Ha Hp Hl; [done|].
  pose proof (addr_pos p l i Hp Hl). unfold NULL in *. lia.
Qed.

Lemma find_best_run n p l1 l2 h a bs fuel :
  seg h (last_hdr NULL p l1) (after p l1) l2 NULL →
  sized (l1 ++ l2) → 0 < p → n < SIZE_MAX →
  Forall (λ b, b.1 < SIZE_MAX) l2 →
  is_best n p l1 a bs → (length l2 < fuel)%nat →
  ∃ a' bs', find_best fuel n (if l2 is [] then NULL else after p l1) a bs h = Done a' h ∧
            is_best n p (l1 ++ l2) a' bs'.
Proof.
  revert l1 a bs fuel; induction l2 as [|[s u] l2 IH];
    intros l1 a bs [|fuel] Hseg Hl Hp Hn Hmax Hb Hf; try (simpl in Hf; lia).
  { exists a, bs. rewrite app_nil_r. done. }
  destruct Hseg as [Hq Hseg]. apply Forall_cons in Hmax as [Hs Hmax]. simpl in Hs.
  cbn [find_best].
  assert (sized l1) as Hl1 by (by apply Forall_app in Hl as [? _]).
  pose proof (after_ge p l1 Hl1).
  rewrite (proj2 (Z.eqb_neq (after p l1) NULL)) by (unfold NULL; lia).
  mrun (get_block_run _ _ _ Hq). cbn [header used size next].
  assert (l1 ++ (s, u) :: l2 = (l1 ++ [(s, u)]) ++ l2) as E by (by rewrite <-app_assoc).
  rewrite E in Hl |- *.
  assert (∀ a bs, is_best n p (l1 ++ [(s, u)]) a bs →
    ∃ a' bs', find_best fuel n (if l2 is [] then NULL else after p l1 + SIZEOF_BLOCK + s) a bs h
                = Done a' h ∧ is_best n p ((l1 ++ [(s, u)]) ++ l2) a' bs') as Hgo.
  { intros a0 bs0 Hb0.
    replace (after p l1 + SIZEOF_BLOCK + s) with (after p (l1 ++ [(s, u)]))
      by (by rewrite after_app).
    eapply IH; try done.
    - rewrite last_hdr_app, after_app. exact Hseg.
    - simpl in Hf. lia. }
  destruct ((b2z u =? 0) && (n <=? s) && (s <? bs)) eqn:C.
  - assert (u = false ∧ n ≤ s < bs) as (-> & Hns & Hsb) by (destruct u; simpl in C; [done|lia]).
    pose proof (is_best_take _ _ _ _ _ _ Hb Hns Hsb) as Ht.
    destruct (s =? n) eqn:Es; [|by apply Hgo].
    apply Z.eqb_eq in Es. subst s. exists (after p l1), n. split; [done|].
    by apply is_best_exact.
  - apply Hgo, is_best_keep; [done|done|]. intros -> Hns. simpl in C. lia.
Qed.

(** [round16] is the least multiple of 16 that is not below its argument, up to
    the last fifteen sizes, where the sum wraps. *)
Lemma round16_small sz : 0 ≤ sz ≤ 2 ^ 64 - 16 →
  (16 | round16 sz) ∧ sz ≤ round16 sz < sz + 16 ∧ round16 sz ≤ 2 ^ 64 - 16.
Proof.
  intros Hsz. unfold round16, u64. rewrite (Z.mod_small (sz + 15)) by lia.
  assert (Z.land (sz + 15) (Z.lnot 15 mod 2 ^ 64) = 16 * ((sz + 15) / 16)) as ->
    by (apply (land_align 4); lia).
  split; [apply Z.divide_factor_l|].
  pose proof (Z.div_mod (sz + 15) 16). pose proof (Z.mod_pos_bound (sz + 15) 16). lia.
Qed.

(** What becomes of a chosen block of [s] bytes when [n] are taken from it. *)
Definition carve (n s : Z) : blocks :=
  if n + SIZEOF_BLOCK + 16 <=? s then [(n, true); (s - n - SIZEOF_BLOCK, false)]
  else [(s, true)].

Lemma after_carve p n s l : after p (carve n s ++ l) = after p ((s, true) :: l).
Proof.
  unfold carve. destruct (_ <=? s); [|done]. unfold SIZEOF_BLOCK.
  simpl. f_equal. unfold SIZEOF_BLOCK. lia.
Qed.

Lemma sized_carve n s : 0 ≤ n → n ≤ s → sized (carve n s).
Proof.
  intros Hn Hs. unfold carve, sized. destruct (Z.leb_spec (n + SIZEOF_BLOCK + 16) s);
    unfold SIZEOF_BLOCK in *; repeat constructor; simpl; lia.
Qed.

Lemma seg_middle h p l1 s u l2 :
  seg h NULL p (l1 ++ (s, u) :: l2) NULL ↔
  seg h NULL p l1 (after p l1) ∧
  h !! after p l1 = Some (header s (if l2 is [] then NULL else after p l1 + SIZEOF_BLOCK + s)
                            (last_hdr NULL p l1) u) ∧
  seg h (after p l1) (after p l1 + SIZEOF_BLOCK + s) l2 NULL.
Proof. apply seg_app. Qed.

Lemma rep_bounds h p l1 s u l2 :
  heap_rep h p (l1 ++ (s, u) :: l2) →
  let q := after p l1 in
  sized l1 ∧ sized l2 ∧ 0 ≤ s ∧ 16 ≤ p ≤ q ∧
  q + SIZEOF_BLOCK + s ≤ after (q + SIZEOF_BLOCK + s) l2 < 2 ^ 64.
Proof.
  intros [_ Hl Hp He _] q. apply Forall_app in Hl as [H1 H2].
  apply Forall_cons in H2 as [Hs H2]. simpl in Hs.
  rewrite after_app, after_cons in He. fold q in He.
  pose proof (after_ge p l1 H1). pose proof (after_ge (q + SIZEOF_BLOCK + s) l2 H2). tauto.
Qed.

Section carving.
  Context (h : heap) (p : Z) (l1 l2 : blocks) (s n : Z).
  Context (Hrep : heap_rep h p (l1 ++ (s, false) :: l2)).
  Context (Hn : 0 ≤ n) (Hns : n ≤ s).
Let q := after p l1.

(** The chosen block taken whole. *)
Lemma take_whole h' b :
  h' = <[q := set_used 1 b]> h → h !! q = Some b →
  seg h' NULL p (l1 ++ (s, true) :: l2) NULL.
Proof.
  intros -> Hb. destruct (rep_bounds _ _ _ _ _ _ Hrep) as (Hl1 & Hl2 & Hs & Hp & He).
  fold q in Hp, He.
  destruct Hrep as [Hseg _ _ _ _]. apply seg_middle in Hseg as (S1 & S2 & S3).
  unfold SIZEOF_BLOCK in *. apply seg_middle. fold q in S1, S2, S3. fold q. split_and!.
  - apply seg_insert; [done|right; unfold q; lia|done].
  - rewrite lookup_insert_eq. by simplify_eq.
  - apply seg_insert; [done| |done]. unfold SIZEOF_BLOCK. lia.
Qed.

Lemma split_block_run :
  ∃ h', (split_block q n;; upd_block q (set_used 1);; mret (q + SIZEOF_BLOCK)) h
          = Done (q + SIZEOF_BLOCK) h' ∧
        seg h' NULL p (l1 ++ carve n s ++ l2) NULL.
Proof.
  destruct (rep_bounds _ _ _ _ _ _ Hrep) as (Hl1 & Hl2 & Hs & Hp & He).
  fold q in Hp, He.
  pose proof (rep_seg _ _ _ Hrep) as Hseg. apply seg_middle in Hseg as (S1 & S2 & S3).
  fold q in S1, S2, S3. unfold split_block, carve.
  mrun (get_block_run _ _ _ S2). cbn [header size next].
  unfold u64 at 1. change SIZEOF_BLOCK with 40 in *.
  destruct (Z.leb_spec (n + 40 + 16) s) as [Hfit|Hfit].
  - rewrite Z.mod_small by lia. rewrite (proj2 (Z.leb_le _ _)) by lia.
    unfold put_block, modify. mred.
    set (r := q + 40 + s) in *. set (nb := q + 40 + n).
    unfold u64. rewrite Z.mod_small by lia.
    set (b1 := mk_block _ (s - n - 40) _ _ _).
    set (h1 := <[nb := b1]> h).
    assert (∃ h2, (if (if l2 is [] then NULL else r) =? NULL then mret tt
                   else upd_block (if l2 is [] then NULL else r) (set_prev nb)) h1 = Done tt h2 ∧
            h2 !! q = h !! q ∧ seg h2 q nb [(s - n - 40, false)] (if l2 is [] then NULL else r) ∧
            seg h2 nb r l2 NULL ∧ seg h2 NULL p l1 q) as (h2 & E2 & Hq2 & Hnb2 & Hr2 & Hl2').
    { destruct l2 as [|[s2 u2] l2'].
      - exists h1. unfold h1, b1. split_and!; [done| | |done|].
        + apply lookup_insert_ne. lia.
        + simpl. by rewrite lookup_insert_eq.
        + apply seg_insert; [done|lia|done].
      - assert (∃ b, h1 !! r = Some b) as [b Hb].
        { destruct S3 as [S3 _]. unfold h1. rewrite lookup_insert_ne by lia. eauto. }
        rewrite (proj2 (Z.eqb_neq r NULL)) by (unfold NULL; lia).
        eexists. rewrite (upd_block_run _ _ _ _ Hb). split; [done|]. split_and!.
        + unfold h1. rewrite !lookup_insert_ne by lia. done.
        + simpl. unfold h1, b1. rewrite lookup_insert_ne, lookup_insert_eq by lia. done.
        + eapply seg_relink; [done|done|]. apply seg_insert; [done|lia|done].
        + apply seg_insert; [done|lia|]. apply seg_insert; [done|lia|done]. }
    unfold mret, M_ret in E2. mrun E2.
    assert (h2 !! q = Some (header s (if l2 is [] then NULL else r) (last_hdr NULL p l1) false))
      as Hb by congruence.
    mrun (upd_block_run _ _ _ _ Hb).
    mrun (upd_block_run _ _ _ _ (lookup_insert_eq _ _ _)).
    mrun (upd_block_run _ _ _ _ (lookup_insert_eq _ _ _)).
    eexists. split; [done|]. rewrite !insert_insert_eq. simpl.
    apply seg_middle. fold q. split_and!.
    + apply seg_insert; [done|lia|done].
    + rewrite lookup_insert_eq. done.
    + replace (q + SIZEOF_BLOCK + n) with nb by done. split.
      * destruct Hnb2 as [Hnb2 _]. rewrite lookup_insert_ne by lia. rewrite Hnb2.
        replace (nb + SIZEOF_BLOCK + (s - n - 40)) with r by (unfold SIZEOF_BLOCK; lia). done.
      * replace (nb + SIZEOF_BLOCK + (s - n - 40)) with r by (unfold SIZEOF_BLOCK; lia).
        apply seg_insert; [done|lia|done].
  - rewrite Z.mod_small by lia. rewrite (proj2 (Z.leb_gt _ _)) by lia. mred.
    mrun (upd_block_run _ _ _ _ S2). eexists. split; [done|]. by eapply take_whole.
Qed.
End carving.

Lemma rep_small h p l j s u : heap_rep h p l → l !! j = Some (s, u) → 0 ≤ s < SIZE_MAX.
Proof.
  intros [_ Hl Hp He _] Hj. apply list_elem_of_split_length in Hj as (l1 & l2 & -> & _).
  apply Forall_app in Hl as [H1 H2]. apply Forall_cons in H2 as [Hs H2]. simpl in Hs.
  rewrite after_app, after_cons in He.
  pose proof (after_ge p l1 H1). pose proof (after_ge (after p l1 + SIZEOF_BLOCK + s) l2 H2).
  unfold SIZE_MAX, SIZEOF_BLOCK in *. lia.
Qed.

Lemma heap_fuel_run h : heap_fuel h = Done (S (base.size h)) h.
Proof. done. Qed.

Lemma malloc_run h p l sz n :
  heap_rep h p l → sz ≠ 0 → round16 sz = n → 0 ≤ n ≤ 2 ^ 64 - 16 →
  (malloc p sz h = Done NULL h ∧ ∀ j s, l !! j = Some (s, false) → s < n) ∨
  (∃ l1 s l2 h',
    l = l1 ++ (s, false) :: l2 ∧ n ≤ s ∧
    (∀ j s', l !! j = Some (s', false) → n ≤ s' → s ≤ s' ∧ ((j < length l1)%nat → s < s')) ∧
    malloc p sz h = Done (after p l1 + SIZEOF_BLOCK) h' ∧
    heap_rep h' p (l1 ++ carve n s ++ l2)).
Proof.
  intros Hrep Hsz Hr Hn.
  pose proof Hrep as [Hseg Hl Hp He Hne]. unfold malloc.
  rewrite (proj2 (Z.eqb_neq p NULL)), (proj2 (Z.eqb_neq sz 0)) by (unfold NULL; lia).
  cbn [orb]. rewrite Hr. mrun (heap_fuel_run h).
  assert (∃ a bs, find_best (S (base.size h)) n p NULL SIZE_MAX h = Done a h ∧ is_best n p l a bs)
    as (a & bs & E & Hb).
  { destruct (find_best_run n p [] l h NULL SIZE_MAX (S (base.size h))) as (a & bs & E & Hb);
      [done|done|lia|unfold SIZE_MAX; lia| | | |by destruct l; eauto].
    - apply Forall_lookup. intros j [s u] Hj. by eapply rep_small.
    - apply best_none. intros j s Hj. done.
    - pose proof (seg_length _ _ _ _ _ Hl Hseg). lia. }
  mrun E. destruct Hb as [Hnone|i s Hi Hs Hmin].
  - left. done.
  - right. rewrite (proj2 (Z.eqb_neq _ NULL))
      by (pose proof (addr_pos p l i ltac:(lia) Hl); unfold NULL; lia).
    apply list_elem_of_split_length in Hi as (l1 & l2 & -> & ->).
    rewrite addr_length in *.
    destruct (split_block_run h p l1 l2 s n Hrep) as (h' & Eh' & Hseg'); [lia|lia|].
    exists l1, s, l2, h'. split_and!; [done|done|done|done|].
    apply Forall_app in Hl as [Hl1 Hl2]. apply Forall_cons in Hl2 as [Hs0 Hl2].
    constructor; [done| |done| |].
    + apply Forall_app. split; [done|]. apply Forall_app. split; [|done].
      apply sized_carve; lia.
    + rewrite after_app, after_carve. by rewrite after_app in He.
    + unfold carve. destruct l1; [|done]. by destruct (_ <=? s).
Qed.

(** C1: [malloc] is a best-fit allocator.  On a well-formed heap and a size whose
    rounding does not wrap it either returns [NULL], exactly when no free block holds
    the size rounded up to sixteen, and leaves the heap alone; or it takes the first
    of the smallest free blocks that do, splits off the rest of it when the rest can
    hold a header and sixteen bytes, returns the address after its header, and leaves
    every other block as it was in a well-formed heap. *)
Theorem malloc_best_fit h p l sz :
  heap_rep h p l → 0 < sz ≤ 2 ^ 64 - 16 →
  let n := round16 sz in
  (malloc p sz h = Done NULL h ∧ ∀ j s, l !! j = Some (s, false) → s < n) ∨
  (∃ l1 s l2 h',
    l = l1 ++ (s, false) :: l2 ∧ n ≤ s ∧
    (∀ j s', l !! j = Some (s', false) → n ≤ s' → s ≤ s' ∧ ((j < length l1)%nat → s < s')) ∧
    malloc p sz h = Done (after p l1 + SIZEOF_BLOCK) h' ∧
    heap_rep h' p (l1 ++ carve n s ++ l2)).
Proof.
  intros Hrep Hsz n. destruct (round16_small sz) as (_ & Hn & Hn64); [lia|].
  apply malloc_run; [done|lia|done|]. fold n in Hn, Hn64. lia.
Qed.

(** The sum in [malloc]'s rounding wraps for the last fifteen sizes: a request of
    nearly [2^64] bytes is answered, on a heap of one free block, with a payload of
    zero bytes instead of [NULL]. *)
Theorem malloc_huge_wraps h p s sz :
  heap_rep h p [(s, false)] → SIZEOF_BLOCK + 16 ≤ s → 2 ^ 64 - 16 < sz < 2 ^ 64 →
  ∃ h', malloc p sz h = Done (p + SIZEOF_BLOCK) h' ∧
        heap_rep h' p [(0, true); (s - SIZEOF_BLOCK, false)].
Proof.
  intros Hrep Hs Hsz. assert (round16 sz = 0) as Hr.
  { unfold round16, u64. replace (sz + 15) with (sz - (2 ^ 64 - 15) + 1 * 2 ^ 64) by lia.
    rewrite Z_mod_plus_full, Z.mod_small by lia.
    assert (0 ≤ sz - (2 ^ 64 - 15) < 16) as Hlt by lia. revert Hlt.
    generalize (sz - (2 ^ 64 - 15)). intros k Hk.
    assert (forallb (λ k, Z.land k (Z.lnot 15 mod 2 ^ 64) =? 0) (seqZ 0 16) = true) as Hall
      by (vm_compute; reflexivity).
    rewrite forallb_forall in Hall. apply Z.eqb_eq, Hall, list_elem_of_In, elem_of_seqZ. lia. }
  destruct (malloc_run h p _ sz 0 Hrep) as [[E Hnone]|(l1 & s1 & l2 & h' & El & _ & _ & E & Hrep')];
    [lia|done|lia| |].
  - specialize (Hnone 0%nat s eq_refl). unfold SIZEOF_BLOCK in *. lia.
  - destruct l1 as [|? [|]]; simplify_eq/=. exists h'. split; [done|].
    unfold carve in Hrep'. rewrite (proj2 (Z.leb_le _ _)) in Hrep' by (unfold SIZEOF_BLOCK in *; lia).
    by rewrite Z.sub_0_r in Hrep'.
Qed.

(** ** [free] *)

(** What both merging loops do to a block and the one after it. *)
Definition absorb (q s g r : Z) : M heap unit :=
  upd_block q (set_size (u64 (s + u64 (SIZEOF_BLOCK + g))));;
  upd_block q (set_next r);;
  relink_prev r q.

(** A run of [absorb] in front of the rest of a loop. *)
Ltac absorb_step E :=
  revert E; unfold absorb; mred;
  repeat match goal with
    |- match ?x with Done _ _ => _ | Stuck _ => _ end = _ → _ =>
      destruct x as [[] ?|]; [|intros E; discriminate E]
  end;
  intros E; rewrite E; clear E.

Definition nexthdr (q s : Z) (l : blocks) : Z := if l is [] then NULL else q + SIZEOF_BLOCK + s.

Lemma absorb_run h p l1 s u g v l2 :
  heap_rep h p (l1 ++ (s, u) :: (g, v) :: l2) →
  let q := after p l1 in
  ∃ h', absorb q s g (nexthdr (q + SIZEOF_BLOCK + s) g l2) h = Done tt h' ∧
        heap_rep h' p (l1 ++ (s + SIZEOF_BLOCK + g, u) :: l2).
Proof.
  intros [Hseg Hl Hp He _] q. apply seg_middle in Hseg as (S1 & S2 & S3).
  apply Forall_app in Hl as [Hl1 Hl]. apply Forall_cons in Hl as [Hs Hl].
  apply Forall_cons in Hl as [Hg Hl2]. simpl in Hs, Hg.
  rewrite after_app, !after_cons in He. fold q in S1, S2, S3, He.
  pose proof (after_ge p l1 Hl1). fold q in H.
  set (t := q + SIZEOF_BLOCK + s) in *. destruct S3 as [S3 S4].
  pose proof (after_ge (t + SIZEOF_BLOCK + g) l2 Hl2).
  unfold absorb. mrun (upd_block_run _ _ _ _ S2).
  mrun (upd_block_run _ _ _ _ (lookup_insert_eq _ _ _)). rewrite insert_insert_eq. simpl.
  change SIZEOF_BLOCK with 40 in *.
  unfold u64. rewrite (Z.mod_small (40 + g)), Z.mod_small by (unfold t in *; lia).
  unfold set_size, set_next, header. simpl.
  set (h1 := <[q := _]> h).
  assert (seg h1 NULL p l1 q) as T1 by (apply seg_insert; [done|lia|done]).
  assert (seg h1 t (t + 40 + g) l2 NULL) as T3 by (apply seg_insert; [done|unfold t; lia|done]).
  set (r := nexthdr t g l2).
  assert (∃ h', relink_prev r q h1 = Done tt h' ∧ h' !! q = h1 !! q ∧
          seg h' NULL p l1 q ∧ seg h' q (t + 40 + g) l2 NULL) as (h' & E & Eq & U1 & U3).
  { unfold relink_prev, r. destruct l2 as [|[s2 u2] l2]; [eauto 6|]. unfold nexthdr.
    change SIZEOF_BLOCK with 40.
    rewrite (proj2 (Z.eqb_neq (t + 40 + g) NULL)) by (unfold NULL, t; lia).
    destruct T3 as [T3 T4]. mrun (get_block_run _ _ _ T3). cbn [header magic].
    rewrite Z.eqb_refl, (upd_block_run _ _ _ _ T3). eexists. split; [done|]. split_and!.
    - rewrite lookup_insert_ne by (unfold t; lia). done.
    - apply seg_insert; [done|unfold t; lia|done].
    - eapply seg_relink; [done|done|]. split; [done|]. done. }
  exists h'. split; [done|]. constructor.
  - apply seg_middle. fold q. change SIZEOF_BLOCK with 40.
    replace (q + 40 + (s + 40 + g)) with (t + 40 + g) by (unfold t; lia). split_and!; [done| |done].
    rewrite Eq. unfold h1. rewrite lookup_insert_eq. unfold header, r, nexthdr. do 2 f_equal. lia.
  - apply Forall_app. split; [done|]. constructor; [simpl; lia|done].
  - done.
  - rewrite after_app, after_cons. fold q. change SIZEOF_BLOCK with 40.
    replace (q + 40 + (s + 40 + g)) with (t + 40 + g) by (unfold t; lia). done.
  - by destruct l1.
Qed.

Definition all_free (l : blocks) : Prop := Forall (λ b, b.2 = false) l.
(** No free block at the start, and none at the end, of a list. *)
Definition used_first (l : blocks) : Prop := if l is (_, u) :: _ then u = true else True.
Definition used_last (l : blocks) : Prop := ∀ l' s u, l = l' ++ [(s, u)] → u = true.

(** The bytes of a run of blocks, headers included. *)
Definition span (l : blocks) : Z := after 0 l.

Lemma after_span p l : after p l = p + span l.
Proof.
  unfold span. revert p; induction l as [|[s u] l IH]; intros p; [simpl; lia|].
  rewrite !after_cons, IH, (IH (0 + SIZEOF_BLOCK + s)). lia.
Qed.

Lemma span_app l1 l2 : span (l1 ++ l2) = span l1 + span l2.
Proof. unfold span at 1. rewrite after_app, !after_span. lia. Qed.

Lemma span_cons s u l : span ((s, u) :: l) = SIZEOF_BLOCK + s + span l.
Proof. unfold span at 1. rewrite after_cons, after_span. lia. Qed.

Lemma mergeable_run q b h :
  h !! q = Some b → q ≠ NULL →
  mergeable q h = Done ((used b =? 0) && (magic b =? BLOCK_MAGIC)) h.
Proof.
  intros Hb Hq. unfold mergeable. rewrite (proj2 (Z.eqb_neq _ _) Hq).
  by mrun (get_block_run _ _ _ Hb).
Qed.

Lemma seg_last h prv p l1 s u nxt :
  seg h prv p (l1 ++ [(s, u)]) nxt →
  last_hdr prv p (l1 ++ [(s, u)]) = after p l1 ∧ ∃ nx pv, h !! after p l1 = Some (header s nx pv u).
Proof.
  intros H. rewrite last_hdr_app. split; [done|].
  apply seg_app in H as [_ [H _]]. eauto.
Qed.

Lemma merge_next_run fuel h p l1 s u gs l2 ret :
  heap_rep h p (l1 ++ (s, u) :: gs ++ l2) → all_free gs → used_first l2 →
  (length gs < fuel)%nat →
  ∃ h', merge_next fuel (after p l1) ret h = Done (ret + Z.of_nat (length gs)) h' ∧
        heap_rep h' p (l1 ++ (s + span gs, u) :: l2).
Proof.
  revert h s gs ret; induction fuel as [|fuel IH]; intros h s gs ret Hrep Hg Hu Hf; [lia|].
  pose proof (rep_seg _ _ _ Hrep) as Hseg. apply seg_middle in Hseg as (S1 & S2 & S3).
  pose proof (rep_bounds _ _ _ _ _ _ Hrep) as (Hl1 & Hl2 & Hs & Hp & He).
  set (q := after p l1) in *. cbn [merge_next]. mrun (get_block_run _ _ _ S2). cbn [header next].
  destruct gs as [|[g v] gs].
  - simpl in S3, S2 |- *. rewrite Z.add_0_r. exists h. unfold span, after. simpl.
    rewrite Z.add_0_r. split; [|done]. destruct l2 as [|[s2 u2] l2]; [done|].
    simpl in Hu. subst u2. destruct S3 as [S3 _].
    by mrun (mergeable_run _ _ _ S3 ltac:(unfold NULL, SIZEOF_BLOCK in *; lia)).
  - apply Forall_cons in Hg as [Hv Hg]. simpl in Hv. subst v. destruct S3 as [S3 S4].
    change (((g, false) :: gs) ++ l2) with ((g, false) :: (gs ++ l2)) in *. cbv iota.
    set (t := q + SIZEOF_BLOCK + s) in *.
    assert (t ≠ NULL) as Ht by (unfold t, NULL, SIZEOF_BLOCK in *; lia).
    mrun (mergeable_run _ _ _ S3 Ht). cbn [header used magic b2z].
    change ((0 =? 0) && (BLOCK_MAGIC =? BLOCK_MAGIC)) with true. cbv iota.
    mrun (get_block_run _ _ _ S3). cbn [header size next].
    destruct (absorb_run _ _ _ _ _ _ _ _ Hrep) as (h' & E & Hrep'). fold q t in E.
    unfold nexthdr in E. absorb_step E.
    destruct (IH h' _ gs (ret + 1) Hrep' Hg Hu) as (h2 & E2 & Hrep2); [simpl in Hf; lia|].
    exists h2. rewrite length_cons, span_cons. split.
    + fold q in E2. rewrite E2. f_equal. lia.
    + by replace (s + (SIZEOF_BLOCK + g + span gs)) with (s + SIZEOF_BLOCK + g + span gs) by lia.
Qed.

Lemma merge_prev_run fuel h p l1 fs s l2 ret :
  heap_rep h p (l1 ++ fs ++ (s, false) :: l2) → all_free fs → used_last l1 →
  (length fs < fuel)%nat →
  ∃ h', merge_prev fuel (after p (l1 ++ fs)) ret h = Done (ret + Z.of_nat (length fs)) h' ∧
        heap_rep h' p (l1 ++ (span fs + s, false) :: l2).
Proof.
  revert h s fs ret; induction fuel as [|fuel IH]; intros h s fs ret Hrep Hg Hu Hf; [lia|].
  rewrite app_assoc in Hrep. pose proof (rep_seg _ _ _ Hrep) as Hseg.
  apply seg_middle in Hseg as (S1 & S2 & S3).
  cbn [merge_prev]. mrun (get_block_run _ _ _ S2). cbn [header prev next size].
  induction fs as [|[f v] fs _] using rev_ind.
  - rewrite app_nil_r in *. exists h. simpl. rewrite Z.add_0_r. split; [|done].
    induction l1 as [|[x v] l1 _] using rev_ind; [done|].
    rewrite (Hu l1 x v eq_refl) in *.
    destruct (seg_last _ _ _ _ _ _ _ S1) as (-> & nx & pv & Hb).
    rewrite <-app_assoc in Hrep. pose proof (rep_bounds _ _ _ _ _ _ Hrep) as (_ & _ & _ & Hp & _).
    by mrun (mergeable_run _ _ _ Hb ltac:(unfold NULL; lia)).
  - apply Forall_app in Hg as [Hg Hv]. apply Forall_cons in Hv as [Hv _]. simpl in Hv. subst v.
    rewrite app_assoc in S1, S2, S3, Hrep |- *.
    destruct (seg_last _ _ _ _ _ _ _ S1) as (Elast & nx & pv & Hb). rewrite Elast.
    rewrite <-(app_assoc (l1 ++ fs)) in Hrep.
    change ([(f, false)] ++ (s, false) :: l2) with ((f, false) :: (s, false) :: l2) in Hrep.
    pose proof (rep_bounds _ _ _ _ _ _ Hrep) as (_ & _ & _ & Hp & _).
    mrun (mergeable_run _ _ _ Hb ltac:(unfold NULL; lia)). cbn [header used magic b2z].
    change ((0 =? 0) && (BLOCK_MAGIC =? BLOCK_MAGIC)) with true. cbv iota.
    mrun (get_block_run _ _ _ Hb). cbn [header size next].
    destruct (absorb_run _ _ _ _ _ _ _ _ Hrep) as (h' & E & Hrep').
    unfold nexthdr in E. rewrite (after_app p (l1 ++ fs) [(f, false)]), after_cons. simpl (after _ []).
    absorb_step E.
    rewrite <-app_assoc in Hrep'.
    destruct (IH h' _ fs (ret + 1) Hrep' Hg Hu) as (h2 & E2 & Hrep2).
    { rewrite length_app in Hf. simpl in Hf. lia. }
    exists h2. rewrite length_app, span_app, span_cons. split.
    + rewrite E2. f_equal. simpl. lia.
    + replace (span fs + (SIZEOF_BLOCK + f + span []) + s) with (span fs + (f + SIZEOF_BLOCK + s)); [done|].
      unfold span at 3. simpl. lia.
Qed.

Lemma free_run h p pre fs s gs post :
  heap_rep h p (pre ++ fs ++ (s, true) :: gs ++ post) →
  all_free fs → all_free gs → used_last pre → used_first post →
  ∃ h', free (after p (pre ++ fs) + SIZEOF_BLOCK) h
          = Done (Z.of_nat (length fs + length gs)) h' ∧
        heap_rep h' p (pre ++ (span fs + s + span gs, false) :: post).
Proof.
  intros Hrep Hfs Hgs Hpre Hpost.
  assert (length (pre ++ fs ++ (s, true) :: gs ++ post) ≤ base.size h)%nat as Hlen
    by (eapply seg_length; [eapply rep_sized|eapply rep_seg]; exact Hrep).
  rewrite !length_app, length_cons, length_app in Hlen.
  rewrite app_assoc in Hrep. pose proof (rep_bounds _ _ _ _ _ _ Hrep) as (Hl1 & Hl2 & Hs & Hp & He).
  pose proof (rep_seg _ _ _ Hrep) as Hseg. apply seg_middle in Hseg as (S1 & S2 & S3).
  set (q := after p (pre ++ fs)) in *. unfold free.
  rewrite (proj2 (Z.eqb_neq _ NULL)) by (unfold NULL, SIZEOF_BLOCK in *; lia).
  rewrite Z.add_simpl_r. mrun (get_block_run _ _ _ S2). cbn [header magic used size b2z].
  rewrite Z.eqb_refl. cbn [negb Z.eqb].
  replace (b2z (1 <? 40) <? b2z (negb (truthy s))) with false
    by (destruct (negb (truthy s)); done).
  assert (heap_rep (<[q := set_used 0 (header s (if gs ++ post is [] then NULL else q + SIZEOF_BLOCK + s)
            (last_hdr NULL p (pre ++ fs)) true)]> h) p ((pre ++ fs) ++ (s, false) :: gs ++ post)) as Hrep1.
  { destruct Hrep as [Hseg Hl Hp0 He0 Hne]. constructor.
    - apply seg_middle. fold q. rewrite lookup_insert_eq. unfold SIZEOF_BLOCK in *. split_and!; [| done |].
      + apply seg_insert; [done|lia|done].
      + apply seg_insert; [done|unfold SIZEOF_BLOCK; lia|done].
    - apply Forall_app in Hl as [? Hl]. apply Forall_app. split; [done|].
      apply Forall_cons in Hl as [? Hl]. by apply Forall_cons.
    - done.
    - rewrite after_app in *. done.
    - by destruct (pre ++ fs). }
  mrun (upd_block_run _ _ _ _ S2).
  set (h1 := <[q := _]> h) in *. unfold heap_merge_free_blocks.
  assert (get_block q h1 = Done (set_used 0 (header s (if gs ++ post is [] then NULL
     else q + SIZEOF_BLOCK + s) (last_hdr NULL p (pre ++ fs)) true)) h1) as Hq1
    by (apply get_block_run, lookup_insert_eq).
  mrun Hq1. cbn [set_used header magic]. rewrite Z.eqb_refl. cbn [negb].
  mrun (heap_fuel_run h1).
  assert (base.size h1 = base.size h) as Hsz.
  { unfold h1. apply map_size_insert_Some. eauto. }
  rewrite Hsz.
  destruct (merge_next_run (S (base.size h)) _ _ _ _ _ _ _ 0 Hrep1 Hgs Hpost)
    as (h2 & E2 & Hrep2); [lia|]. fold q in E2. mrun E2.
  rewrite <-app_assoc in Hrep2.
  destruct (merge_prev_run (S (base.size h)) _ _ _ _ _ _ (0 + Z.of_nat (length gs)) Hrep2 Hfs Hpre)
    as (h3 & E3 & Hrep3); [lia|]. fold q in E3. rewrite E3.
  exists h3. split; [f_equal; lia|].
  by replace (span fs + s + span gs) with (span fs + (s + span gs)) by lia.
Qed.

(** C3: [free] releases exactly the block it is given and coalesces it with the whole run
    of free blocks around it: given the payload address of a used block of a well-formed heap, it returns
    the number of headers absorbed and leaves one free block spanning the run, every
    block outside the run as it was. *)
Theorem free_coalesces h p pre fs s gs post :
  heap_rep h p (pre ++ fs ++ (s, true) :: gs ++ post) →
  all_free fs → all_free gs → used_last pre → used_first post →
  ∃ h', free (after p (pre ++ fs) + SIZEOF_BLOCK) h
          = Done (Z.of_nat (length fs + length gs)) h' ∧
        heap_rep h' p (pre ++ (span fs + s + span gs, false) :: post).
Proof. apply free_run. Qed.

Lemma free_refuses h ptr b :
  h !! (ptr - SIZEOF_BLOCK) = Some b → magic b ≠ BLOCK_MAGIC ∨ used b = 0 →
  free ptr h = Done 0 h.
Proof.
  intros Hb Hc. unfold free. destruct (ptr =? NULL); [done|]. mrun (get_block_run _ _ _ Hb).
  destruct (Z.eqb_spec (magic b) BLOCK_MAGIC), (Z.eqb_spec (used b) 0); cbn [negb]; try done.
  tauto.
Qed.

(** [free] refuses what it can recognise: the null pointer, an address with no
    block header before it, and a block that is free already; it returns [0] and
    changes nothing. *)
Theorem free_rejects h ptr :
  (ptr = NULL ∨ ∃ b, h !! (ptr - SIZEOF_BLOCK) = Some b ∧ (magic b ≠ BLOCK_MAGIC ∨ used b = 0)) →
  free ptr h = Done 0 h.
Proof. intros [->|(b & Hb & Hc)]; [done|]. by eapply free_refuses. Qed.

(** ** Witnesses *)

Definition demo_heap : heap := {[ 4096 := header 1000 NULL NULL false ]}.
Definition demo_heap2 : heap :=
  <[4096 := header 64 (4096 + 104) NULL false]> (
  <[4200 := header 32 (4200 + 72) 4096 true]> {[ 4272 := header 500 NULL 4200 false ]}).

Lemma malloc_best_fit_witness :
  heap_rep demo_heap 4096 [(1000, false)] ∧
  ∃ h', malloc 4096 100 demo_heap = Done (4096 + SIZEOF_BLOCK) h' ∧
        heap_rep h' 4096 [(112, true); (848, false)].
Proof.
  assert (heap_rep demo_heap 4096 [(1000, false)]) as H.
  { constructor; [done|unfold sized; eval_decide|lia|done|done]. }
  split; [exact H|].
  destruct (malloc_best_fit _ _ _ 100 H ltac:(lia)) as [[_ Hn]|(l1 & s & l2 & h' & El & _ & _ & E & Hr)].
  - specialize (Hn 0%nat 1000 eq_refl). vm_compute in Hn. discriminate.
  - destruct l1 as [|? [|]]; simplify_eq/=. eauto.
Defined.

Lemma malloc_huge_wraps_witness :
  ∃ h', malloc 4096 (2 ^ 64 - 1) demo_heap = Done (4096 + SIZEOF_BLOCK) h' ∧
        heap_rep h' 4096 [(0, true); (1000 - SIZEOF_BLOCK, false)].
Proof.
  apply malloc_huge_wraps; [|unfold SIZEOF_BLOCK; lia|lia].
  constructor; [done|unfold sized; eval_decide|lia|done|done].
Defined.

Lemma free_coalesces_witness :
  ∃ h', free (4200 + SIZEOF_BLOCK) demo_heap2 = Done 2 h' ∧
        heap_rep h' 4096 [(64 + 40 + 32 + 40 + 500, false)].
Proof.
  apply (free_coalesces demo_heap2 4096 [] [(64, false)] 32 [(500, false)] []).
  - constructor; [done|unfold sized; eval_decide|lia|done|done].
  - unfold all_free; eval_decide.
  - unfold all_free; eval_decide.
  - intros [|] ? ?; done.
  - done.
Defined.

Lemma free_rejects_witness : free (4096 + SIZEOF_BLOCK) demo_heap = Done 0 demo_heap.
Proof.
  apply free_rejects. right. eexists. split; [reflexivity|]. right. reflexivity.
Defined.
