(* ===== verification/KernelMemory.v ===== *)
(** * Accounted heaps: [core/kernel/mem/kernel_memory] and [core/kernel/mem/slab]

    A [kernel_memory_t] lays out one 32 MiB region (slab metadata, slab data, I/O,
    DMA, heap) and counts the bytes its heap has handed out.  The graphics manager
    keeps a heap and a counter of its own with the same three operations, so they
    are defined here once, on the state [arena_state]: the fields the operations
    read, the headers of the heap ([Heap.v]) and the payload bytes ([Memory.v]). *)

From Stdlib Require Import ZArith Lia String.
From stdpp Require Import base gmap list numbers fin_maps.
From S2P Require Import Prelude Memory Heap.
Open Scope Z_scope.
Set Default Goal Selector "!".

Record arena_state := mk_arena {
  start_heap : Z;
  total_heap : Z;   (* u64 *)
  used_heap : Z;    (* u64 *)
  headers : heap;
  ram : mem;
}.

Definition set_used_heap (v : Z) (a : arena_state) :=
  mk_arena (start_heap a) (total_heap a) v (headers a) (ram a).
Definition set_headers (h : heap) (a : arena_state) :=
  mk_arena (start_heap a) (total_heap a) (used_heap a) h (ram a).
Definition set_ram (m : mem) (a : arena_state) :=
  mk_arena (start_heap a) (total_heap a) (used_heap a) (headers a) m.

Definition on_heap {A} (m : M heap A) : M arena_state A := zoom headers set_headers m.
Definition on_ram {A} (m : M mem A) : M arena_state A := zoom ram set_ram m.

(** [used_heap += block->size + sizeof(heap_block_t)] for the block before [ptr]. *)
Definition account (ptr : Z) : M arena_state unit :=
  block ← on_heap (get_block (ptr - SIZEOF_BLOCK));
  modify (λ a, set_used_heap (u64 (used_heap a + u64 (size block + SIZEOF_BLOCK))) a).

Definition arena_create (self sz : Z) : M arena_state Z :=
  if (self =? NULL) || (sz =? 0) then mret NULL else
  a ← get;
  ptr ← on_heap (malloc (start_heap a) sz);
  if ptr =? NULL then mret NULL else
  account ptr;;
  mret ptr.

Definition arena_alloc (self sz count : Z) : M arena_state Z :=
  if (self =? NULL) || (sz =? 0) then mret NULL else
  let total := u64 (count * sz) in
  a ← get;
  ptr ← on_heap (malloc (start_heap a) total);
  if ptr =? NULL then mret NULL else
  on_ram (memset ptr 0 total);;
  account ptr;;
  mret ptr.

Definition arena_free (self ptr : Z) : M arena_state unit :=
  if (self =? NULL) || (ptr =? NULL) then mret tt else
  block ← on_heap (get_block (ptr - SIZEOF_BLOCK));
  modify (λ a, set_used_heap (u64 (used_heap a - size block)) a);;
  merged ← on_heap (free ptr);
  modify (λ a, set_used_heap (u64 (used_heap a - u64 (SIZEOF_BLOCK * merged))) a).

Definition arena_get_free_size (a : arena_state) : Z := u64 (total_heap a - used_heap a).

(** ** [slab.c] *)

Definition SLAB_CACHE_COUNT : nat := 7.

(** [slab_init]: the checks and the [memset] of the seven sizes. *)
Definition slab_init (ptr_slab ptr_slab_meta ptr_slab_data : Z) : M (list Z) unit :=
  if ptr_slab =? NULL then panic "Invalid ptr slab" else
  if ptr_slab_meta =? NULL then panic "Invalid ptr slab meta" else
  if ptr_slab_data =? NULL then panic "Invalid ptr slab data" else
  put (replicate SLAB_CACHE_COUNT 0).

(** ** [kernel_memory.c] *)

Definition PAGE_SIZE : Z := 4096.
Definition HEAP_SIZE : Z := 1024 * 1024 * 32.
Definition KERNEL_MEMORY_SIZE_SLAB : Z := 1024 * 1024 * 8.
Definition KERNEL_MEMORY_SIZE_IO : Z := 1024 * 1024 * 4.
Definition KERNEL_MEMORY_SIZE_DMA : Z := 1024 * 1024 * 2.
Definition KERNEL_MEMORY_SIZE_NOTHEAP : Z :=
  PAGE_SIZE + PAGE_SIZE + KERNEL_MEMORY_SIZE_SLAB + KERNEL_MEMORY_SIZE_IO + KERNEL_MEMORY_SIZE_DMA.
Definition KERNEL_MEMORY_SIZE_HEAP : Z := HEAP_SIZE - KERNEL_MEMORY_SIZE_NOTHEAP.
Definition KERNEL_MEMORY_OFFSET_SLAB_META : Z := PAGE_SIZE.
Definition KERNEL_MEMORY_OFFSET_SLAB_DATA : Z := KERNEL_MEMORY_OFFSET_SLAB_META + PAGE_SIZE.
Definition KERNEL_MEMORY_OFFSET_IO : Z := KERNEL_MEMORY_OFFSET_SLAB_DATA + KERNEL_MEMORY_SIZE_SLAB.
Definition KERNEL_MEMORY_OFFSET_DMA : Z := KERNEL_MEMORY_OFFSET_IO + KERNEL_MEMORY_SIZE_IO.
Definition KERNEL_MEMORY_OFFSET_HEAP : Z := KERNEL_MEMORY_OFFSET_DMA + KERNEL_MEMORY_SIZE_DMA.

Record kernel_memory := mk_kernel_memory {
  start_slab_meta : Z;
  start_slab_data : Z;
  start_io : Z;
  start_dma : Z;
  slab_allocator : list Z;
  km_arena : arena_state;
}.

(** The region before [kernel_memory_init] is raw: [m] are its bytes. The slab allocator is the
    member at offset 40 of the structure. *)
Definition kernel_memory_init (ptr sz : Z) (m : mem) : outcome kernel_memory Z :=
  if (ptr =? NULL) || (sz <? SIZEOF_BLOCK) then
    Stuck (Panic "ERROR: Invalid kernel_memory initializing") else
  let start_heap := u64 (ptr + KERNEL_MEMORY_OFFSET_HEAP) in
  let total := u64 (KERNEL_MEMORY_SIZE_HEAP - SIZEOF_BLOCK) in
  let slab_meta := u64 (ptr + KERNEL_MEMORY_OFFSET_SLAB_META) in
  let slab_data := u64 (ptr + KERNEL_MEMORY_OFFSET_SLAB_DATA) in
  match slab_init (ptr + 40) slab_meta slab_data [] with
  | Done _ slabs =>
      Done ptr (mk_kernel_memory slab_meta slab_data
        (u64 (ptr + KERNEL_MEMORY_OFFSET_IO)) (u64 (ptr + KERNEL_MEMORY_OFFSET_DMA)) slabs
        (mk_arena start_heap total 0
           {[ start_heap := mk_block BLOCK_MAGIC total NULL NULL 0 ]} m))
  | Stuck w => Stuck w
  end.

Definition set_km_arena (a : arena_state) (k : kernel_memory) :=
  mk_kernel_memory (start_slab_meta k) (start_slab_data k) (start_io k) (start_dma k)
    (slab_allocator k) a.
Definition on_km {A} (m : M arena_state A) : M kernel_memory A := zoom km_arena set_km_arena m.

Definition kernel_memory_create (self sz : Z) : M kernel_memory Z := on_km (arena_create self sz).
Definition kernel_memory_alloc (self sz count : Z) : M kernel_memory Z :=
  on_km (arena_alloc self sz count).
Definition kernel_memory_free (self ptr : Z) : M kernel_memory unit := on_km (arena_free self ptr).
Definition kernel_memory_get_total_size (k : kernel_memory) : Z := total_heap (km_arena k).
Definition kernel_memory_get_used_size (k : kernel_memory) : Z := used_heap (km_arena k).
Definition kernel_memory_get_free_size (k : kernel_memory) : Z := arena_get_free_size (km_arena k).

(** ** The state and what the counter should say *)

Definition user_bytes (l : blocks) : Z := foldr (λ '(s, u) acc, (if u : bool then s else 0) + acc) 0 l.

(** The payload in use, and the headers beyond the first. *)
Definition acct (l : blocks) : Z := user_bytes l + SIZEOF_BLOCK * (Z.of_nat (length l) - 1).

(** The arena holds the block list [l], its payloads are mapped and its counter is
    [d] bytes above what the list accounts for. *)
Record arena_rep (a : arena_state) (l : blocks) (d : Z) : Prop := {
  ar_heap : heap_rep (headers a) (start_heap a) l;
  ar_ram : mapped (start_heap a) (after (start_heap a) l - start_heap a) (ram a);
  ar_used : used_heap a = u64 (acct l + d);
}.

Lemma user_bytes_app l1 l2 : user_bytes (l1 ++ l2) = user_bytes l1 + user_bytes l2.
Proof. induction l1 as [|[s []] l1 IH]; simpl; lia. Qed.

Lemma user_bytes_free l : all_free l → user_bytes l = 0.
Proof. induction 1 as [|[s u] l Hu _ IH]; [done|]. simpl in *. subst. lia. Qed.

Lemma acct_carve l1 n s l2 :
  acct (l1 ++ carve n s ++ l2) =
  acct (l1 ++ (s, false) :: l2) +
  (if n + SIZEOF_BLOCK + 16 <=? s then n + SIZEOF_BLOCK else s).
Proof.
  unfold acct, carve. rewrite !user_bytes_app, !length_app.
  destruct (_ <=? s); simpl; unfold SIZEOF_BLOCK; lia.
Qed.

Lemma u64_add_l a b : u64 (u64 a + b) = u64 (a + b).
Proof. unfold u64. apply Zplus_mod_idemp_l. Qed.
Lemma u64_add_r a b : u64 (a + u64 b) = u64 (a + b).
Proof. unfold u64. apply Zplus_mod_idemp_r. Qed.
Lemma u64_sub_l a b : u64 (u64 a - b) = u64 (a - b).
Proof. unfold u64. apply Zminus_mod_idemp_l. Qed.
Lemma u64_sub_r a b : u64 (a - u64 b) = u64 (a - b).
Proof. unfold u64. apply Zminus_mod_idemp_r. Qed.

(** The header of the block [malloc] returned. *)
Lemma carve_head h p l1 n s l2 :
  heap_rep h p (l1 ++ carve n s ++ l2) →
  ∃ b, h !! after p l1 = Some b ∧ size b = (if n + SIZEOF_BLOCK + 16 <=? s then n else s) ∧ 0 < after p l1.
Proof.
  intros H. pose proof (rep_seg _ _ _ H) as Hs. unfold carve in *.
  destruct (_ <=? s); apply seg_middle in Hs as (_ & Hb & _); eexists; split; try exact Hb;
    apply rep_bounds in H; split; [done|lia|done|lia].
Qed.

Lemma account_run a l1 n s l2 :
  heap_rep (headers a) (start_heap a) (l1 ++ carve n s ++ l2) →
  account (after (start_heap a) l1 + SIZEOF_BLOCK) a =
  Done tt (set_used_heap (u64 (used_heap a + ((if n + SIZEOF_BLOCK + 16 <=? s then n else s) + SIZEOF_BLOCK))) a).
Proof.
  intros H. destruct (carve_head _ _ _ _ _ _ H) as (b & Hb & Hs & _).
  unfold account, on_heap, zoom. rewrite Z.add_simpl_r. mred.
  rewrite (get_block_run _ _ _ Hb). rewrite Hs. destruct a. unfold modify, set_used_heap. simpl.
  by rewrite u64_add_r.
Qed.

Definition carve_drift (n s : Z) : Z := if n + SIZEOF_BLOCK + 16 <=? s then 0 else SIZEOF_BLOCK.

(** The state after [malloc] answered with the block after [l1]. *)
Lemma arena_took a l1 s l2 n h' d :
  arena_rep a (l1 ++ (s, false) :: l2) d →
  heap_rep h' (start_heap a) (l1 ++ carve n s ++ l2) →
  ∀ m, (∀ x, is_Some (ram a !! x) → is_Some (m !! x)) →
  arena_rep (set_used_heap
       (u64 (used_heap a + ((if n + SIZEOF_BLOCK + 16 <=? s then n else s) + SIZEOF_BLOCK)))
       (set_ram m (set_headers h' a)))
    (l1 ++ carve n s ++ l2) (d + carve_drift n s).
Proof.
  intros [Hh Hm Hu] Hh' m Hmap. constructor; simpl; [done| |].
  - intros x Hx. apply Hmap, Hm. rewrite after_app, after_carve in Hx. by rewrite after_app, after_cons.
  - rewrite Hu, u64_add_l, acct_carve. unfold carve_drift. f_equal.
    destruct (_ <=? s); unfold SIZEOF_BLOCK; lia.
Qed.

(** The [n] bytes asked for fit in the payload taken. *)
Lemma payload_inside h p l1 s l2 n :
  heap_rep h p (l1 ++ (s, false) :: l2) → n ≤ s →
  p ≤ after p l1 + SIZEOF_BLOCK ∧ after p l1 + SIZEOF_BLOCK + n ≤ after p (l1 ++ (s, false) :: l2).
Proof.
  intros H Hn. apply rep_bounds in H as (_ & Hl2 & _ & Hp & He).
  rewrite after_app, after_cons. unfold SIZEOF_BLOCK in *. lia.
Qed.

Lemma kernel_memory_alloc_run k self sz count l d :
  arena_rep (km_arena k) l d → self ≠ NULL → sz ≠ 0 →
  let total := u64 (count * sz) in
  let p := start_heap (km_arena k) in
  0 < total ≤ 2 ^ 64 - 16 →
  (kernel_memory_alloc self sz count k = Done NULL k ∧
   ∀ j s, l !! j = Some (s, false) → s < round16 total) ∨
  (∃ l1 s l2 a',
    l = l1 ++ (s, false) :: l2 ∧ round16 total ≤ s ∧
    let q := after p l1 + SIZEOF_BLOCK in
    kernel_memory_alloc self sz count k = Done q (set_km_arena a' k) ∧
    arena_rep a' (l1 ++ carve (round16 total) s ++ l2) (d + carve_drift (round16 total) s) ∧
    start_heap a' = p ∧ ram a' = mem_write q (replicate (Z.to_nat total) 0) (ram (km_arena k))).
Proof.
  intros Hrep Hself Hsz total p Htot.
  destruct (round16_small total) as (_ & Hr & Hr64); [lia|].
  set (a := km_arena k) in *. pose proof Hrep as [Hh Hm Hu]. fold p in Hh, Hm.
  assert (∀ x, arena_alloc self sz count a = x → kernel_memory_alloc self sz count k =
    match x with Done r a' => Done r (set_km_arena a' k) | Stuck w => Stuck w end) as Hk
    by (by intros x <-).
  unfold arena_alloc, on_heap, zoom, get in Hk. fold total in Hk.
  rewrite (proj2 (Z.eqb_neq _ _) Hself), (proj2 (Z.eqb_neq _ _) Hsz) in Hk. cbn [orb] in Hk.
  unfold mbind, M_bind in Hk. fold p in Hk.
  destruct (malloc_run _ _ _ total (round16 total) Hh)
    as [[E Hnone]|(l1 & s & l2 & h' & -> & Hs & _ & E & Hh')]; [lia|done|lia| |];
    rewrite E in Hk; clear E.
  - left. split; [|done]. rewrite (Hk _ eq_refl). unfold a, set_km_arena, set_headers.
    by destruct k as [? ? ? ? ? []].
  - right. pose proof (payload_inside _ _ _ _ _ total Hh) as Hin.
    pose proof (rep_bounds _ _ _ _ _ _ Hh) as (_ & _ & _ & Hp & _).
    set (q := after p l1 + SIZEOF_BLOCK) in *.
    rewrite (proj2 (Z.eqb_neq q NULL)) in Hk by (unfold q, NULL, SIZEOF_BLOCK; lia).
    unfold on_ram, zoom in Hk. change (ram (set_headers h' a)) with (ram a) in Hk.
    assert (mapped q total (ram a)) as Hq.
    { intros x Hx. apply Hm. lia. }
    rewrite (memset_run q 0 total (ram a)) in Hk by (done || lia || (unfold is_byte; lia)).
    set (m' := mem_write q _ (ram a)) in *.
    pose proof (account_run (set_ram m' (set_headers h' a)) l1 (round16 total) s l2 Hh') as Ea.
    change (start_heap (set_ram m' (set_headers h' a))) with p in Ea. fold q in Ea.
    rewrite Ea in Hk. unfold mret, M_ret in Hk.
    specialize (Hk _ eq_refl). simpl in Hk.
    eexists l1, s, l2, _. split; [done|]. split; [done|]. split; [exact Hk|].
    split; [|done]. eapply arena_took; [done|done|]. intros x Hx. by apply is_Some_write.
Qed.

(** C26: an allocation that succeeds returns the payload of a block that was free and is
    large enough, all of its bytes zero and every other byte of memory and every other
    block as it was; one that fails changes nothing.  The counter grows by the block
    and a header, which is forty bytes too much exactly when the block was taken whole
    and no header was made. *)
Theorem kernel_memory_alloc_correct k self sz count l d :
  arena_rep (km_arena k) l d → self ≠ NULL → sz ≠ 0 →
  let total := u64 (count * sz) in
  let p := start_heap (km_arena k) in
  0 < total ≤ 2 ^ 64 - 16 →
  (kernel_memory_alloc self sz count k = Done NULL k ∧
   ∀ j s, l !! j = Some (s, false) → s < round16 total) ∨
  (∃ l1 s l2 a',
    l = l1 ++ (s, false) :: l2 ∧ round16 total ≤ s ∧
    let q := after p l1 + SIZEOF_BLOCK in
    kernel_memory_alloc self sz count k = Done q (set_km_arena a' k) ∧
    arena_rep a' (l1 ++ carve (round16 total) s ++ l2) (d + carve_drift (round16 total) s) ∧
    start_heap a' = p ∧ ram a' = mem_write q (replicate (Z.to_nat total) 0) (ram (km_arena k))).
Proof. apply kernel_memory_alloc_run. Qed.

Lemma user_bytes_cons s u l : user_bytes ((s, u) :: l) = (if u then s else 0) + user_bytes l.
Proof. done. Qed.

Lemma acct_release pre fs s gs post :
  all_free fs → all_free gs →
  acct (pre ++ (span fs + s + span gs, false) :: post) =
  acct (pre ++ fs ++ (s, true) :: gs ++ post) - s - SIZEOF_BLOCK * Z.of_nat (length fs + length gs).
Proof.
  intros Hf Hg. unfold acct.
  rewrite !user_bytes_app, !user_bytes_cons, !user_bytes_app, !length_app, !length_cons, !length_app.
  rewrite (user_bytes_free fs), (user_bytes_free gs) by done. unfold SIZEOF_BLOCK. lia.
Qed.

(** The header read by [kernel_memory_free], before the heap is asked. *)
Lemma arena_free_run self ptr a b r h' :
  self ≠ NULL → ptr ≠ NULL →
  headers a !! (ptr - SIZEOF_BLOCK) = Some b →
  free ptr (headers a) = Done r h' →
  arena_free self ptr a =
  Done tt (set_used_heap (u64 (used_heap a - size b - SIZEOF_BLOCK * r)) (set_headers h' a)).
Proof.
  intros Hself Hptr Hb Hf. unfold arena_free.
  rewrite (proj2 (Z.eqb_neq _ _) Hself), (proj2 (Z.eqb_neq _ _) Hptr). cbn [orb].
  unfold on_heap, zoom, modify. mred. rewrite (get_block_run _ _ _ Hb).
  destruct a as [sh th uh hh rr]. unfold set_headers, set_used_heap in *. simpl in *. rewrite Hf. simpl.
  by rewrite u64_sub_l, u64_sub_r.
Qed.

Lemma kernel_memory_free_run k self pre fs s gs post d :
  arena_rep (km_arena k) (pre ++ fs ++ (s, true) :: gs ++ post) d →
  all_free fs → all_free gs → used_last pre → used_first post → self ≠ NULL →
  let p := start_heap (km_arena k) in
  ∃ a', kernel_memory_free self (after p (pre ++ fs) + SIZEOF_BLOCK) k = Done tt (set_km_arena a' k) ∧
        arena_rep a' (pre ++ (span fs + s + span gs, false) :: post) d ∧
        start_heap a' = p ∧ ram a' = ram (km_arena k).
Proof.
  intros [Hh Hm Hu] Hf Hg Hpre Hpost Hself p. fold p in Hh, Hm.
  destruct (free_run _ _ _ _ _ _ _ Hh Hf Hg Hpre Hpost) as (h' & Ef & Hh').
  pose proof Hh as Hh0. rewrite app_assoc in Hh0.
  pose proof (rep_bounds _ _ _ _ _ _ Hh0) as (_ & _ & _ & Hp & _).
  pose proof (rep_seg _ _ _ Hh0) as Hs. apply seg_middle in Hs as (_ & Hb & _).
  rewrite <-(Z.add_simpl_r (after p (pre ++ fs)) SIZEOF_BLOCK) in Hb at 1.
  eexists. split.
  - unfold kernel_memory_free, on_km, zoom.
    erewrite arena_free_run by (done || (unfold NULL, SIZEOF_BLOCK; lia)). reflexivity.
  - split; [|done]. constructor; [done| |].
    + simpl. intros x Hx. apply Hm. fold p in Hx |- *.
      rewrite !after_span, !span_app, !span_cons, !span_app in *. lia.
    + simpl. rewrite Hu, acct_release by done. unfold header. simpl.
      unfold u64. rewrite <-Z.sub_add_distr, Zminus_mod_idemp_l. f_equal. lia.
Qed.

(** Freeing a block in use gives its bytes, and a header for every block merged
    away, back to the counter: what the counter was above the block list it stays
    above the coalesced list, so a drift made by an allocation is never undone. *)
Theorem kernel_memory_free_accounts k self pre fs s gs post d :
  arena_rep (km_arena k) (pre ++ fs ++ (s, true) :: gs ++ post) d →
  all_free fs → all_free gs → used_last pre → used_first post → self ≠ NULL →
  let p := start_heap (km_arena k) in
  ∃ a', kernel_memory_free self (after p (pre ++ fs) + SIZEOF_BLOCK) k = Done tt (set_km_arena a' k) ∧
        arena_rep a' (pre ++ (span fs + s + span gs, false) :: post) d ∧
        start_heap a' = p ∧ ram a' = ram (km_arena k).
Proof. apply kernel_memory_free_run. Qed.

(** A second free of the same block is refused by the heap but not by the counter,
    which loses the block's bytes a second time. *)
Theorem kernel_memory_double_free k self l i s d :
  arena_rep (km_arena k) l d → l !! i = Some (s, false) → self ≠ NULL →
  let p := start_heap (km_arena k) in
  ∃ a', kernel_memory_free self (addr p l i + SIZEOF_BLOCK) k = Done tt (set_km_arena a' k) ∧
        arena_rep a' l (d - s).
Proof.
  intros [Hh Hm Hu] Hi Hself p. fold p in Hh, Hm.
  pose proof (addr_pos p l i ltac:(pose proof (rep_base _ _ _ Hh); lia) (rep_sized _ _ _ Hh)) as Hpos.
  destruct (seg_elem _ _ _ _ _ _ _ _ (rep_seg _ _ _ Hh) Hi) as (nx & pv & Hb).
  rewrite <-(Z.add_simpl_r (addr p l i) SIZEOF_BLOCK) in Hb.
  assert (free (addr p l i + SIZEOF_BLOCK) (headers (km_arena k)) = Done 0 (headers (km_arena k))) as Ef.
  { eapply free_refuses; [exact Hb|]. right. done. }
  eexists. split.
  - unfold kernel_memory_free, on_km, zoom.
    erewrite arena_free_run by (done || (unfold NULL, SIZEOF_BLOCK; lia)). reflexivity.
  - constructor; [done|done|]. simpl. rewrite Hu. unfold u64.
    rewrite Z.mul_0_r, Z.sub_0_r, Zminus_mod_idemp_l. f_equal. lia.
Qed.

(** Initialisation lays the areas out one after the other inside the 32 MiB
    region, in order and without overlap, the heap being one free block that ends
    with the region; it does so whatever size it is told, if that is at least forty. *)
Theorem kernel_memory_init_layout ptr sz m :
  0 < ptr → ptr + HEAP_SIZE < 2 ^ 64 → SIZEOF_BLOCK ≤ sz → mapped ptr HEAP_SIZE m →
  ∃ k, kernel_memory_init ptr sz m = Done ptr k ∧
    ptr + PAGE_SIZE = start_slab_meta k ∧
    start_slab_meta k + PAGE_SIZE = start_slab_data k ∧
    start_slab_data k + KERNEL_MEMORY_SIZE_SLAB = start_io k ∧
    start_io k + KERNEL_MEMORY_SIZE_IO = start_dma k ∧
    start_dma k + KERNEL_MEMORY_SIZE_DMA = start_heap (km_arena k) ∧
    after (start_heap (km_arena k)) [(total_heap (km_arena k), false)] = ptr + HEAP_SIZE ∧
    arena_rep (km_arena k) [(total_heap (km_arena k), false)] 0 ∧
    kernel_memory_get_free_size k = kernel_memory_get_total_size k.
Proof.
  intros Hp Hend Hsz Hm. unfold HEAP_SIZE in *. unfold kernel_memory_init.
  rewrite (proj2 (Z.eqb_neq ptr NULL)), (proj2 (Z.ltb_ge sz _)) by (unfold NULL; lia). cbn [orb].
  assert (∀ o, 0 ≤ o ≤ 1024 * 1024 * 32 → u64 (ptr + o) = ptr + o) as Hu.
  { intros o Ho. apply Z.mod_small. lia. }
  rewrite !Hu by (vm_compute; split; discriminate).
  unfold slab_init, KERNEL_MEMORY_OFFSET_HEAP, KERNEL_MEMORY_OFFSET_DMA, KERNEL_MEMORY_OFFSET_IO,
    KERNEL_MEMORY_OFFSET_SLAB_DATA, KERNEL_MEMORY_OFFSET_SLAB_META, KERNEL_MEMORY_SIZE_DMA,
    KERNEL_MEMORY_SIZE_IO, KERNEL_MEMORY_SIZE_SLAB, PAGE_SIZE.
  rewrite !(proj2 (Z.eqb_neq _ NULL)) by (unfold NULL; lia).
  change (u64 (KERNEL_MEMORY_SIZE_HEAP - SIZEOF_BLOCK)) with 18866136.
  eexists. split; [reflexivity|]. cbn [start_slab_meta start_slab_data start_io start_dma km_arena
    start_heap total_heap].
  unfold kernel_memory_get_free_size, kernel_memory_get_total_size, arena_get_free_size.
  cbn [km_arena total_heap used_heap].
  split_and!; try lia; [unfold SIZEOF_BLOCK; simpl; unfold SIZEOF_BLOCK; lia| |done].
  constructor; cbn [headers start_heap used_heap ram].
  - constructor; [|unfold sized; eval_decide|lia|simpl; unfold SIZEOF_BLOCK; lia|done].
    split; [|done]. apply lookup_singleton_eq.
  - intros x Hx. apply Hm. simpl in Hx. unfold SIZEOF_BLOCK in Hx. lia.
  - done.
Qed.

(** ** Witnesses *)

Definition demo_ram (p n : Z) : mem := mem_write p (replicate (Z.to_nat n) 7) ∅.

Lemma demo_ram_mapped p n : mapped p n (demo_ram p n).
Proof.
  intros a Ha. unfold demo_ram. rewrite lookup_mem_write, length_replicate, bool_decide_eq_true_2 by lia.
  apply lookup_lt_is_Some. rewrite length_replicate. lia.
Qed.

Definition demo_km (h : heap) (used n : Z) : kernel_memory :=
  mk_kernel_memory 0 0 0 0 [] (mk_arena 4096 10000 used h (demo_ram 4096 n)).

Lemma demo_km_rep : arena_rep (km_arena (demo_km demo_heap 0 1040)) [(1000, false)] 0.
Proof.
  constructor; [|apply demo_ram_mapped|done].
  constructor; [done|unfold sized; eval_decide|simpl; lia|done|done].
Qed.

Lemma demo_km2_rep :
  arena_rep (km_arena (demo_km demo_heap2 112 716)) [(64, false); (32, true); (500, false)] 0.
Proof.
  constructor; [|apply demo_ram_mapped|done].
  constructor; [done|unfold sized; eval_decide|simpl; lia|done|done].
Qed.

Lemma kernel_memory_alloc_correct_witness :
  ∃ a', kernel_memory_alloc 1 10 10 (demo_km demo_heap 0 1040)
          = Done (4096 + SIZEOF_BLOCK) (set_km_arena a' (demo_km demo_heap 0 1040)) ∧
        arena_rep a' [(112, true); (848, false)] (0 + carve_drift 112 1000) ∧
        ram a' = mem_write (4096 + SIZEOF_BLOCK) (replicate 100 0) (demo_ram 4096 1040).
Proof.
  destruct (kernel_memory_alloc_correct _ 1 10 10 _ _ demo_km_rep) as
    [[_ Hn]|(l1 & s & l2 & a' & El & _ & E & Hr & _ & Hm)]; [done|done|done| |].
  - specialize (Hn 0%nat 1000 eq_refl). vm_compute in Hn. discriminate.
  - change (u64 (10 * 10)) with 100 in *. change (round16 100) with 112 in *.
    change (Z.to_nat 100) with 100%nat in *.
    destruct l1 as [|? [|]]; [|discriminate El|discriminate El]. injection El as <- <-.
    exists a'. split; [exact E|]. split; [exact Hr|exact Hm].
Defined.

Lemma kernel_memory_free_accounts_witness :
  ∃ a', kernel_memory_free 1 (4200 + SIZEOF_BLOCK) (demo_km demo_heap2 112 716)
          = Done tt (set_km_arena a' (demo_km demo_heap2 112 716)) ∧
        arena_rep a' [(676, false)] 0.
Proof.
  destruct (kernel_memory_free_accounts (demo_km demo_heap2 112 716) 1 [] [(64, false)] 32 [(500, false)] [] 0)
    as (a' & E & Hr & _); [..|by exists a'].
  - apply demo_km2_rep.
  - unfold all_free; eval_decide.
  - unfold all_free; eval_decide.
  - intros [|] ? ?; done.
  - done.
  - done.
Defined.

Lemma kernel_memory_double_free_witness :
  ∃ a', kernel_memory_free 1 (4096 + SIZEOF_BLOCK) (demo_km demo_heap2 112 716)
          = Done tt (set_km_arena a' (demo_km demo_heap2 112 716)) ∧
        arena_rep a' [(64, false); (32, true); (500, false)] (0 - 64).
Proof.
  apply (kernel_memory_double_free (demo_km demo_heap2 112 716) 1 _ 0%nat 64 0 demo_km2_rep); done.
Defined.

Lemma kernel_memory_init_layout_witness :
  ∃ k, kernel_memory_init 4096 40 (demo_ram 4096 HEAP_SIZE) = Done 4096 k ∧
       4096 + PAGE_SIZE = start_slab_meta k ∧
       arena_rep (km_arena k) [(total_heap (km_arena k), false)] 0.
Proof.
  destruct (kernel_memory_init_layout 4096 40 (demo_ram 4096 HEAP_SIZE))
    as (k & E & H1 & _ & _ & _ & _ & _ & H2 & _); [lia|unfold HEAP_SIZE; lia|done|apply demo_ram_mapped|].
  eauto.
Defined.
