(* ===== verification/PhysMem.v ===== *)
(** * The physical page allocator, [core/kernel/mem/phys/physmem.c]

    The allocator keeps a bitmap with one bit per 4 KiB frame (set: in use) and an
    array of frame descriptors.  The state holds the file's static variables, the
    bitmap's bytes and the descriptors by index; an index outside the bitmap or the
    array faults. *)

From Stdlib Require Import ZArith Lia String.
From stdpp Require Import base gmap list numbers fin_maps.
From S2P Require Import Prelude.
Open Scope Z_scope.
Set Default Goal Selector "!".

Definition PAGE_SIZE : Z := 4096.
Definition FRAME_FREE : Z := 0x00.
Definition FRAME_USED : Z := 0x01.
Definition FRAME_KERNEL : Z := 0x02.

(** [physmem_pageframe_t], eight bytes. *)
Record pageframe := mk_pageframe { rc : Z; flags : Z }.
Definition SIZEOF_PAGEFRAME : Z := 8.

(** A memory map entry and the kinds the code tells apart. *)
Inductive memmap_type := MEMMAP_USABLE | MEMMAP_BOOTLOADER_RECLAIMABLE | MEMMAP_OTHER.
Record memmap_entry := mk_entry { base_ : Z; length_ : Z; type_ : memmap_type }.

Definition is_usable (e : memmap_entry) : bool :=
  match type_ e with MEMMAP_USABLE => true | _ => false end.
Definition is_reclaimable (e : memmap_entry) : bool :=
  match type_ e with MEMMAP_BOOTLOADER_RECLAIMABLE => true | _ => false end.

Record physmem := mk_physmem {
  physmem_pageframes : Z;          (* the array's address, NULL before initialisation *)
  physmem_total : Z;
  bitmap_size : Z;
  physmem_addr_highest : Z;
  bitmap : gmap Z Z;
  frames : gmap Z pageframe;
}.

Definition set_bitmap (b : gmap Z Z) (s : physmem) :=
  mk_physmem (physmem_pageframes s) (physmem_total s) (bitmap_size s) (physmem_addr_highest s) b (frames s).
Definition set_frames (f : gmap Z pageframe) (s : physmem) :=
  mk_physmem (physmem_pageframes s) (physmem_total s) (bitmap_size s) (physmem_addr_highest s) (bitmap s) f.

(** [bitmap[i]] and [bitmap[i] = v]. *)
Definition bitmap_get (i : Z) : M physmem Z := λ s,
  match bitmap s !! i with Some b => Done b s | None => Stuck Fault end.
Definition bitmap_put (i v : Z) : M physmem unit := λ s,
  match bitmap s !! i with
  | Some _ => Done tt (set_bitmap (<[i := u8 v]> (bitmap s)) s)
  | None => Stuck Fault
  end.

Definition bitmap_test (idx : Z) : M physmem bool :=
  b ← bitmap_get (Z.shiftr idx 3);
  mret (truthy (Z.land (Z.shiftr b (Z.land idx 7)) 1)).

Definition bitmap_set (idx : Z) : M physmem unit :=
  b ← bitmap_get (Z.shiftr idx 3);
  bitmap_put (Z.shiftr idx 3) (Z.lor b (Z.shiftl 1 (Z.land idx 7))).

Definition bitmap_clear (idx : Z) : M physmem unit :=
  b ← bitmap_get (Z.shiftr idx 3);
  bitmap_put (Z.shiftr idx 3) (Z.land b (Z.lnot (Z.shiftl 1 (Z.land idx 7)))).

(** [physmem_pageframes[frame].rc = r; physmem_pageframes[frame].flags = f;] *)
Definition set_frame (frame : Z) (v : pageframe) : M physmem unit := λ s,
  if (0 <=? frame) && (frame <? physmem_total s)
  then Done tt (set_frames (<[frame := v]> (frames s)) s)
  else Stuck Fault.

Definition take_frame (fl frame : Z) : M physmem unit :=
  bitmap_set frame;; set_frame frame (mk_pageframe 1 fl).
Definition release_frame (frame : Z) : M physmem unit :=
  bitmap_clear frame;; set_frame frame (mk_pageframe 0 FRAME_FREE).

Definition need_pageframes (msg : string) : M physmem unit :=
  s ← get; if physmem_pageframes s =? NULL then panic msg else mret tt.

(** One pass of the loop over the memory map. *)
Definition mark_entry (e : memmap_entry) : M physmem unit :=
  s ← get;
  let frame_start := base_ e / PAGE_SIZE in
  if physmem_total s <=? frame_start then mret tt else
  let frame_end := u64 (base_ e + length_ e) / PAGE_SIZE in
  let frame_end := if physmem_total s <? frame_end then physmem_total s else frame_end in
  if is_usable e then for_to frame_start frame_end release_frame
  else for_to frame_start frame_end (take_frame (Z.lor FRAME_USED FRAME_KERNEL)).

Fixpoint mark_entries (mpr : list memmap_entry) : M physmem unit :=
  match mpr with
  | [] => mret tt
  | e :: mpr' => mark_entry e;; mark_entries mpr'
  end.

Definition physmem_addr_mark (mpr : list memmap_entry) : M physmem unit :=
  need_pageframes "PHYSMEM ADDR MARK PHYSMEM PAGEFRAMES NULL";;
  mark_entries mpr.

Definition frame_range (total physmem_addr count : Z) : Z * Z :=
  let frame_start := physmem_addr / PAGE_SIZE in
  let frame_end := u64 (frame_start + count) in
  (frame_start, if total <? frame_end then total else frame_end).

Definition physmem_addr_mark_used (physmem_addr count : Z) : M physmem unit :=
  need_pageframes "PHYSMEM ADDR MARK USED PHYSMEM PAGEFRAMES NULL";;
  s ← get;
  let '(lo, hi) := frame_range (physmem_total s) physmem_addr count in
  for_to lo hi (take_frame FRAME_USED).

Definition physmem_addr_mark_free (physmem_addr count : Z) : M physmem unit :=
  need_pageframes "PHYSMEM ADDR MARK FREE PHYSMEM PAGEFRAMES NULL";;
  s ← get;
  let '(lo, hi) := frame_range (physmem_total s) physmem_addr count in
  for_to lo hi release_frame.

(** The first usable entry of [size] bytes that starts at [low] or above. *)
Fixpoint first_usable (mpr : list memmap_entry) (sz low : Z) : option Z :=
  match mpr with
  | [] => None
  | e :: mpr' =>
      if is_usable e && (sz <=? length_ e) && (low <=? base_ e) then Some (base_ e)
      else first_usable mpr' sz low
  end.

Definition physmem_addr_get_tracking (mpr : list memmap_entry) (sz : Z) : Z :=
  match first_usable mpr sz 0x1000000 with
  | Some a => a
  | None =>
      match first_usable mpr sz 0x100000 with
      | Some a => a
      | None => match first_usable mpr sz 0 with Some a => a | None => NULL end
      end
  end.

Definition used_bytes_to_frame_count (sz : Z) : Z := u64 (sz + PAGE_SIZE - 1) / PAGE_SIZE.

(** One pass of the loop of [physmem_init] that looks for the highest address. *)
Definition highest_step (highest : Z) (e : memmap_entry) : Z :=
  if is_usable e || is_reclaimable e then
    let end_addr := u64 (base_ e + length_ e) in
    if highest <? end_addr then end_addr else highest
  else highest.

Definition highest_address (mpr : list memmap_entry) : Z := foldl highest_step 0 mpr.

(** [n] bytes that [memset] has filled with [v]. *)
Definition filled (v n : Z) : gmap Z Z := list_to_map ((λ i, (i, v)) <$> seqZ 0 n).

Definition physmem_init (mpr : list memmap_entry) (hhdm_offset : Z) : M physmem unit :=
  let highest := highest_address mpr in
  let total := highest / PAGE_SIZE in
  let physmem_size := u64 (total * SIZEOF_PAGEFRAME) in
  let bsize := u64 (total + 7) / 8 in
  let pageframe_addr := physmem_addr_get_tracking mpr (u64 (physmem_size + bsize)) in
  if pageframe_addr =? NULL then panic "No usable memory found for physmem_pageframes" else
  put (mk_physmem (u64 (pageframe_addr + hhdm_offset)) total bsize highest (filled 0xFF bsize) ∅);;
  physmem_addr_mark mpr;;
  physmem_addr_mark_used pageframe_addr (used_bytes_to_frame_count (u64 (physmem_size + bsize))).

Definition physmem_get_total : M physmem Z := gets physmem_total.

(** The search of [physmem_alloc_to] for [count] clear bits in a row, from [frame]
    on; [n] frames are left. *)
Fixpoint find_run (n : nat) (frame count consecutive start_frame : Z) : M physmem (option Z) :=
  match n with
  | O => mret None
  | S n' =>
      t ← bitmap_test frame;
      if (t : bool) then find_run n' (frame + 1) count 0 start_frame
      else
        let start_frame := if consecutive =? 0 then frame else start_frame in
        if count <=? consecutive + 1 then mret (Some start_frame)
        else find_run n' (frame + 1) count (consecutive + 1) start_frame
  end.

Definition physmem_alloc_to (count : Z) : M physmem Z :=
  if count =? 0 then mret 0 else
  s ← get;
  r ← find_run (Z.to_nat (physmem_total s - 512)) 512 count 0 0;
  match r with
  | Some start_frame =>
      let physmem_addr := u64 (start_frame * PAGE_SIZE) in
      physmem_addr_mark_used physmem_addr count;;
      mret physmem_addr
  | None => mret 0
  end.

Definition physmem_free_to (physmem_addr count : Z) : M physmem unit :=
  if count =? 0 then mret tt else physmem_addr_mark_free physmem_addr count.

(** The clear bits among the [n] frames from [frame] on, added to [count]. *)
Fixpoint count_clear (n : nat) (frame count : Z) : M physmem Z :=
  match n with
  | O => mret count
  | S n' => t ← bitmap_test frame;
            count_clear n' (frame + 1) (if (t : bool) then count else count + 1)
  end.

Definition physmem_free_get : M physmem Z :=
  s ← get; count_clear (Z.to_nat (physmem_total s)) 0 0.

(** ** The allocator as a set of taken frames *)

(** The bit of frame [f]. *)
Definition taken (s : physmem) (f : Z) : bool :=
  Z.testbit (default 0 (bitmap s !! (f / 8))) (f mod 8).

(** The allocator is initialised: the bitmap has a byte for each eight frames. *)
Record pm_wf (s : physmem) : Prop := {
  wf_ptr : physmem_pageframes s ≠ NULL;
  wf_total : 0 ≤ physmem_total s < 2 ^ 52;
  wf_bitmap : ∀ f, 0 ≤ f < physmem_total s → ∃ b, bitmap s !! (f / 8) = Some b ∧ is_byte b;
}.

(** [s'] differs from [s] in the bits of the frames in [[lo, hi)], which are [v],
    and in their descriptors, which are [d]. *)
Record marked (lo hi : Z) (v : bool) (d : pageframe) (s s' : physmem) : Prop := {
  mk_wf : pm_wf s';
  mk_total : physmem_total s' = physmem_total s;
  mk_ptr : physmem_pageframes s' = physmem_pageframes s;
  mk_taken : ∀ f, 0 ≤ f < physmem_total s →
    taken s' f = if (lo <=? f) && (f <? hi) then v else taken s f;
  mk_frames : ∀ f, frames s' !! f = if (lo <=? f) && (f <? hi) then Some d else frames s !! f;
}.

Lemma shiftr3 f : Z.shiftr f 3 = f / 8.
Proof. by rewrite Z.shiftr_div_pow2. Qed.
Lemma land7 f : Z.land f 7 = f mod 8.
Proof. change 7 with (Z.ones 3). by rewrite Z.land_ones. Qed.

Lemma mod8_bound f : 0 ≤ f mod 8 < 8.
Proof. apply Z.mod_pos_bound. lia. Qed.

Lemma bitmap_test_run s f :
  pm_wf s → 0 ≤ f < physmem_total s → bitmap_test f s = Done (taken s f) s.
Proof.
  intros H Hf. destruct (wf_bitmap _ H f Hf) as (b & Hb & _).
  unfold bitmap_test, bitmap_get, taken. rewrite shiftr3, land7. mred. rewrite Hb. simpl. f_equal.
  pose proof (mod8_bound f).
  assert (Z.land (Z.shiftr b (f mod 8)) 1 = b2z (Z.testbit b (f mod 8))) as ->.
  { apply Z.bits_inj'. intros i Hi. rewrite Z.land_spec, Z.shiftr_spec by done.
    destruct (decide (i = 0)) as [->|].
    - rewrite Z.add_0_l. by destruct (Z.testbit b (f mod 8)).
    - rewrite (Z.bits_above_log2 1) by (simpl; lia). rewrite andb_false_r.
      destruct (Z.testbit b (f mod 8)); simpl; [|by rewrite Z.bits_0].
      rewrite (Z.bits_above_log2 1); [done|lia|simpl; lia]. }
  by destruct (Z.testbit b (f mod 8)).
Qed.

Lemma u8_testbit z j : 0 ≤ j < 8 → Z.testbit (u8 z) j = Z.testbit z j.
Proof. intros Hj. unfold u8. by rewrite Z.mod_pow2_bits_low by lia. Qed.

(** Two frames share a byte and a bit only when they are the same. *)
Lemma frame_bits f g : f / 8 = g / 8 → f mod 8 = g mod 8 → f = g.
Proof. intros H1 H2. rewrite (Z.div_mod f 8), (Z.div_mod g 8) by lia. congruence. Qed.

(** One frame written: the byte becomes [w b]. *)
Lemma write_bit_run s f w v d :
  pm_wf s → 0 ≤ f < physmem_total s →
  (∀ b j, 0 ≤ j < 8 → Z.testbit (w b) j = if j =? f mod 8 then v else Z.testbit b j) →
  ∃ s', (b ← bitmap_get (Z.shiftr f 3); bitmap_put (Z.shiftr f 3) (w b);; set_frame f d) s
          = Done tt s' ∧ marked f (f + 1) v d s s'.
Proof.
  intros H Hf Hw. pose proof (wf_bitmap _ H f Hf) as (b & Hb & Hbb).
  unfold bitmap_get, bitmap_put, set_frame. rewrite shiftr3. mred. rewrite Hb. rewrite Hb. simpl.
  rewrite (proj2 (Z.leb_le 0 f)), (proj2 (Z.ltb_lt f _)) by lia. simpl.
  eexists. split; [done|]. destruct H as [Hp Ht Hm]. constructor; simpl; try done.
  - constructor; simpl; [done|done|]. intros g Hg.
    destruct (decide (f / 8 = g / 8)) as [<-|Hne].
    + rewrite lookup_insert_eq. eexists. split; [done|]. apply Z.mod_pos_bound. lia.
    + rewrite lookup_insert_ne by done. by apply Hm.
  - intros g Hg. unfold taken. simpl. pose proof (mod8_bound g).
    destruct (decide (f / 8 = g / 8)) as [E|Hne].
    + rewrite <-E, lookup_insert_eq, Hb. simpl. rewrite u8_testbit, Hw by done.
      destruct (Z.eqb_spec (g mod 8) (f mod 8)) as [E2|E2].
      * assert (g = f) as -> by (by apply frame_bits).
        rewrite Z.leb_refl, (proj2 (Z.ltb_lt _ _)) by lia. done.
      * destruct (Z.leb_spec f g), (Z.ltb_spec g (f + 1)); try done.
        assert (g = f) as -> by lia. done.
    + rewrite lookup_insert_ne by done.
      destruct (Z.leb_spec f g), (Z.ltb_spec g (f + 1)); try done.
      assert (g = f) as -> by lia. done.
  - intros g. destruct (Z.leb_spec f g), (Z.ltb_spec g (f + 1)); simpl.
    + assert (g = f) as -> by lia. by rewrite lookup_insert_eq.
    + rewrite lookup_insert_ne by lia. done.
    + rewrite lookup_insert_ne by lia. done.
    + rewrite lookup_insert_ne by lia. done.
Qed.

Lemma lor_bit b k j : 0 ≤ j < 8 → 0 ≤ k < 8 →
  Z.testbit (Z.lor b (Z.shiftl 1 k)) j = if j =? k then true else Z.testbit b j.
Proof.
  intros Hj Hk. rewrite Z.lor_spec, Z.shiftl_1_l, Z.pow2_bits_eqb by lia.
  rewrite Z.eqb_sym. destruct (j =? k); [apply orb_true_r|apply orb_false_r].
Qed.

Lemma land_bit b k j : 0 ≤ j < 8 → 0 ≤ k < 8 →
  Z.testbit (Z.land b (Z.lnot (Z.shiftl 1 k))) j = if j =? k then false else Z.testbit b j.
Proof.
  intros Hj Hk. rewrite Z.land_spec, Z.lnot_spec, Z.shiftl_1_l, Z.pow2_bits_eqb by lia.
  rewrite Z.eqb_sym. destruct (j =? k); [apply andb_false_r|apply andb_true_r].
Qed.

Lemma take_frame_run s f fl :
  pm_wf s → 0 ≤ f < physmem_total s →
  ∃ s', take_frame fl f s = Done tt s' ∧ marked f (f + 1) true (mk_pageframe 1 fl) s s'.
Proof.
  intros H Hf.
  destruct (write_bit_run s f (λ b, Z.lor b (Z.shiftl 1 (Z.land f 7))) true (mk_pageframe 1 fl))
    as (s' & E & Hm); [done|done| |].
  { intros b j Hj. rewrite land7. apply lor_bit; [done|apply mod8_bound]. }
  exists s'. split; [|done]. rewrite <-E. unfold take_frame, bitmap_set. mred.
  by destruct (bitmap_get _ s).
Qed.

Lemma release_frame_run s f :
  pm_wf s → 0 ≤ f < physmem_total s →
  ∃ s', release_frame f s = Done tt s' ∧ marked f (f + 1) false (mk_pageframe 0 FRAME_FREE) s s'.
Proof.
  intros H Hf.
  destruct (write_bit_run s f (λ b, Z.land b (Z.lnot (Z.shiftl 1 (Z.land f 7)))) false
              (mk_pageframe 0 FRAME_FREE)) as (s' & E & Hm); [done|done| |].
  { intros b j Hj. rewrite land7. apply land_bit; [done|apply mod8_bound]. }
  exists s'. split; [|done]. rewrite <-E. unfold release_frame, bitmap_clear. mred.
  by destruct (bitmap_get _ s).
Qed.

Lemma marked_refl s lo v d : pm_wf s → marked lo lo v d s s.
Proof.
  intros H. constructor; try done; intros f.
  - intros _. destruct (Z.leb_spec lo f), (Z.ltb_spec f lo); try done. lia.
  - destruct (Z.leb_spec lo f), (Z.ltb_spec f lo); try done. lia.
Qed.

Lemma marked_snoc s s1 s2 lo hi v d :
  lo ≤ hi → marked lo hi v d s s1 → marked hi (hi + 1) v d s1 s2 → marked lo (hi + 1) v d s s2.
Proof.
  intros Hle [W1 T1 P1 K1 F1] [W2 T2 P2 K2 F2]. constructor; [done|congruence|congruence| |].
  - intros f Hf. rewrite K2, K1 by congruence.
    destruct (Z.leb_spec lo f), (Z.ltb_spec f hi), (Z.leb_spec hi f), (Z.ltb_spec f (hi + 1));
      simpl; done || lia.
  - intros f. rewrite F2, F1.
    destruct (Z.leb_spec lo f), (Z.ltb_spec f hi), (Z.leb_spec hi f), (Z.ltb_spec f (hi + 1));
      simpl; done || lia.
Qed.

(** A marking loop over a range of frames. *)
Lemma mark_loop_run s lo hi v d body :
  pm_wf s → 0 ≤ lo → hi ≤ physmem_total s →
  (∀ s f, pm_wf s → 0 ≤ f < physmem_total s →
     ∃ s', body f s = Done tt s' ∧ marked f (f + 1) v d s s') →
  ∃ s', for_to lo hi body s = Done tt s' ∧ marked lo (lo `max` hi) v d s s'.
Proof.
  intros H Hlo Hhi Hbody. destruct (Z.le_gt_cases lo hi) as [Hle|Hgt].
  - rewrite Z.max_r by done.
    assert (wp (for_to lo hi body) (λ _, marked lo hi v d s) s) as Hwp.
    { apply (wp_for_to (λ i, marked lo i v d s)); [done|by apply marked_refl|].
      intros i s1 Hi Hs1. destruct (Hbody s1 i) as (s2 & E & Hs2).
      { by destruct Hs1. }
      { rewrite (mk_total _ _ _ _ _ _ Hs1). lia. }
      apply wp_run. exists tt, s2. split; [done|]. apply marked_snoc with s1; [lia|done|done]. }
    apply wp_run in Hwp as ([] & s' & E & Hs'). eauto.
  - rewrite Z.max_l by lia. exists s. split; [|by apply marked_refl].
    unfold for_to. by replace (Z.to_nat (hi - lo)) with 0%nat by lia.
Qed.

(** The clamped range of [physmem_addr_mark_used] and [physmem_addr_mark_free]. *)
Lemma mark_used_run s a count :
  pm_wf s → 0 ≤ a → 0 ≤ count → a / PAGE_SIZE + count ≤ physmem_total s →
  ∃ s', physmem_addr_mark_used a count s = Done tt s' ∧
        marked (a / PAGE_SIZE) (a / PAGE_SIZE + count) true (mk_pageframe 1 FRAME_USED) s s'.
Proof.
  intros H Ha Hc Hle. assert (0 ≤ a / PAGE_SIZE) by (apply Z.div_pos; unfold PAGE_SIZE; lia).
  pose proof (wf_total _ H).
  destruct (mark_loop_run s (a / PAGE_SIZE) (a / PAGE_SIZE + count) true (mk_pageframe 1 FRAME_USED)
              (take_frame FRAME_USED)) as (s' & E & Hs'); [done|done|done| |].
  { intros. by apply take_frame_run. }
  rewrite Z.max_r in Hs' by lia. exists s'. split; [|done].
  unfold physmem_addr_mark_used, need_pageframes, frame_range, get. mred.
  rewrite (proj2 (Z.eqb_neq _ _) (wf_ptr _ H)). unfold u64. rewrite Z.mod_small by lia.
  by rewrite (proj2 (Z.ltb_ge _ _)) by lia.
Qed.

Lemma mark_free_run s a count :
  pm_wf s → 0 ≤ a → 0 ≤ count → a / PAGE_SIZE + count ≤ physmem_total s →
  ∃ s', physmem_addr_mark_free a count s = Done tt s' ∧
        marked (a / PAGE_SIZE) (a / PAGE_SIZE + count) false (mk_pageframe 0 FRAME_FREE) s s'.
Proof.
  intros H Ha Hc Hle. assert (0 ≤ a / PAGE_SIZE) by (apply Z.div_pos; unfold PAGE_SIZE; lia).
  pose proof (wf_total _ H).
  destruct (mark_loop_run s (a / PAGE_SIZE) (a / PAGE_SIZE + count) false (mk_pageframe 0 FRAME_FREE)
              release_frame) as (s' & E & Hs'); [done|done|done| |].
  { intros. by apply release_frame_run. }
  rewrite Z.max_r in Hs' by lia. exists s'. split; [|done].
  unfold physmem_addr_mark_free, need_pageframes, frame_range, get. mred.
  rewrite (proj2 (Z.eqb_neq _ _) (wf_ptr _ H)). unfold u64. rewrite Z.mod_small by lia.
  by rewrite (proj2 (Z.ltb_ge _ _)) by lia.
Qed.

(** ** The search *)

(** [count] frames from [g] on are free. *)
Definition run_free (s : physmem) (g count : Z) : Prop := ∀ f, g ≤ f < g + count → taken s f = false.

(** The loop invariant: the [consecutive] frames before [frame] are free and start at
    [start_frame], and no run that started earlier is long enough. *)
Lemma find_run_correct s count n frame consecutive start_frame :
  pm_wf s → 0 < count → 512 ≤ frame → frame + Z.of_nat n = physmem_total s →
  0 ≤ consecutive < count → 512 ≤ frame - consecutive →
  (consecutive ≠ 0 → start_frame = frame - consecutive) →
  run_free s (frame - consecutive) consecutive →
  (∀ g, 512 ≤ g < frame - consecutive → ¬ run_free s g count) →
  ∃ r, find_run n frame count consecutive start_frame s = Done r s ∧
    match r with
    | Some g => 512 ≤ g ∧ g + count ≤ physmem_total s ∧ run_free s g count ∧
                ∀ g', 512 ≤ g' < g → ¬ run_free s g' count
    | None => ∀ g, 512 ≤ g → g + count ≤ physmem_total s → ¬ run_free s g count
    end.
Proof.
  intros H Hc. revert frame consecutive start_frame.
  induction n as [|n IH]; intros frame cons st Hf Ht Hcons Hbase Hst Hrun Hno.
  { exists None. split; [done|]. intros g Hg Hgt. apply Hno. lia. }
  cbn [find_run]. mrun (bitmap_test_run s frame H ltac:(lia)).
  destruct (taken s frame) eqn:Et.
  - apply IH; try lia.
    + intros f Hf'. lia.
    + intros g Hg Hrg. destruct (Z.lt_ge_cases g (frame - cons)); [by eapply Hno; [|done]; lia|].
      rewrite (Hrg frame) in Et by lia. done.
  - assert ((if cons =? 0 then frame else st) = frame - cons) as ->.
    { destruct (Z.eqb_spec cons 0); [lia|auto]. }
    assert (run_free s (frame - cons) (cons + 1)) as Hrun'.
    { intros f Hf'. destruct (decide (f = frame)) as [->|]; [done|]. apply Hrun. lia. }
    destruct (Z.leb_spec count (cons + 1)).
    + exists (Some (frame - cons)). split; [done|]. split_and!; [done|lia| |done].
      intros f Hf'. apply Hrun'. lia.
    + apply IH; try lia.
      * intros f Hf'. apply Hrun'. lia.
      * intros g Hg. apply Hno. lia.
Qed.

(** The frames that are free, as a number. *)
Definition count_free (s : physmem) : Z :=
  Z.of_nat (length (filter (λ f, taken s f = false) (seqZ 0 (physmem_total s)))).

Lemma count_clear_run s n frame count :
  pm_wf s → 0 ≤ frame → frame + Z.of_nat n ≤ physmem_total s →
  count_clear n frame count s =
  Done (count + Z.of_nat (length (filter (λ f, taken s f = false) (seqZ frame (Z.of_nat n))))) s.
Proof.
  intros H. revert frame count; induction n as [|n IH]; intros frame count Hf Hn.
  { simpl. by rewrite Z.add_0_r. }
  cbn [count_clear]. mrun (bitmap_test_run s frame H ltac:(lia)).
  rewrite seqZ_cons by lia. replace (Z.pred (Z.of_nat (S n))) with (Z.of_nat n) by lia.
  rewrite IH by lia. rewrite filter_cons. f_equal.
  destruct (taken s frame) eqn:Et.
  - by rewrite decide_False.
  - rewrite decide_True by done. rewrite length_cons. unfold Z.succ. lia.
Qed.

Lemma free_get_run s : pm_wf s → physmem_free_get s = Done (count_free s) s.
Proof.
  intros H. pose proof (wf_total _ H). unfold physmem_free_get, get. mred.
  rewrite count_clear_run by (done || lia). rewrite Z2Nat.id by lia. done.
Qed.

Lemma filter_all (P : Z → Prop) `{!∀ x, Decision (P x)} l : Forall P l → filter P l = l.
Proof. induction 1 as [|x l Hx _ IH]; [done|]. by rewrite filter_cons_True, IH. Qed.

Lemma filter_none (P : Z → Prop) `{!∀ x, Decision (P x)} l : Forall (λ x, ¬ P x) l → filter P l = [].
Proof. induction 1 as [|x l Hx _ IH]; [done|]. by rewrite filter_cons_False. Qed.

Lemma filter_ext_Forall (P Q : Z → Prop) `{!∀ x, Decision (P x)} `{!∀ x, Decision (Q x)} l :
  Forall (λ x, P x ↔ Q x) l → filter P l = filter Q l.
Proof.
  induction 1 as [|x l Hx _ IH]; [done|]. rewrite !filter_cons, IH.
  destruct (decide (P x)), (decide (Q x)); tauto || done.
Qed.

Lemma count_free_marked s s' lo hi d :
  marked lo hi true d s s' → 0 ≤ lo ≤ hi → hi ≤ physmem_total s → run_free s lo (hi - lo) →
  count_free s' = count_free s - (hi - lo).
Proof.
  intros [W T _ K _] Hlo Hhi Hrun. unfold count_free. rewrite T.
  assert (∀ a n, 0 ≤ a → a + n ≤ lo ∨ hi ≤ a → a + n ≤ physmem_total s →
    filter (λ f, taken s' f = false) (seqZ a n) = filter (λ f, taken s f = false) (seqZ a n)) as Hsame.
  { intros a n Ha Hn Ht. apply filter_ext_Forall, Forall_forall. intros f Hf.
    apply elem_of_seqZ in Hf. rewrite K by lia.
    destruct (Z.leb_spec lo f), (Z.ltb_spec f hi); simpl; done || lia. }
  replace (seqZ 0 (physmem_total s)) with
    (seqZ 0 lo ++ seqZ lo (hi - lo) ++ seqZ hi (physmem_total s - hi)).
  2:{ replace (physmem_total s) with (lo + ((hi - lo) + (physmem_total s - hi))) at 2 by lia.
      rewrite !seqZ_app by lia. rewrite Z.add_0_l. by replace (lo + (hi - lo)) with hi by lia. }
  rewrite !filter_app, !length_app, (Hsame 0 lo), (Hsame hi (physmem_total s - hi)) by lia.
  rewrite (filter_none (λ f, taken s' f = false) (seqZ lo (hi - lo))).
  2:{ apply Forall_forall. intros f Hf. apply elem_of_seqZ in Hf. rewrite K by lia.
      rewrite (proj2 (Z.leb_le _ _)), (proj2 (Z.ltb_lt _ _)) by lia. done. }
  rewrite (filter_all (λ f, taken s f = false) (seqZ lo (hi - lo))).
  2:{ apply Forall_forall. intros f Hf. apply elem_of_seqZ in Hf. apply Hrun. lia. }
  rewrite length_seqZ. simpl. lia.
Qed.

Lemma alloc_run s count :
  pm_wf s → 0 < count →
  (physmem_alloc_to count s = Done 0 s ∧
   ∀ g, 512 ≤ g → g + count ≤ physmem_total s → ¬ run_free s g count) ∨
  (∃ g s', physmem_alloc_to count s = Done (g * PAGE_SIZE) s' ∧
     512 ≤ g ∧ g + count ≤ physmem_total s ∧ run_free s g count ∧
     (∀ g', 512 ≤ g' < g → ¬ run_free s g' count) ∧
     marked g (g + count) true (mk_pageframe 1 FRAME_USED) s s').
Proof.
  intros H Hc. pose proof (wf_total _ H) as Ht.
  unfold physmem_alloc_to, get. rewrite (proj2 (Z.eqb_neq count 0)) by lia.
  assert (∃ r, find_run (Z.to_nat (physmem_total s - 512)) 512 count 0 0 s = Done r s ∧
    match r with
    | Some g => 512 ≤ g ∧ g + count ≤ physmem_total s ∧ run_free s g count ∧
                ∀ g', 512 ≤ g' < g → ¬ run_free s g' count
    | None => ∀ g, 512 ≤ g → g + count ≤ physmem_total s → ¬ run_free s g count
    end) as (r & E & Hr).
  { destruct (Z.le_gt_cases 512 (physmem_total s)).
    - apply find_run_correct; try lia; try done; intros ? ?; lia.
    - replace (Z.to_nat (physmem_total s - 512)) with 0%nat by lia.
      exists None. split; [done|]. intros g. lia. }
  destruct r as [g|]; [right|left].
  - destruct Hr as (Hg & Hgt & Hrun & Hfirst).
    assert (g * PAGE_SIZE / PAGE_SIZE = g) as Eg by (apply Z.div_mul; done).
    destruct (mark_used_run s (g * PAGE_SIZE) count) as (s' & E' & Hs');
      [done|unfold PAGE_SIZE; lia|lia|by rewrite Eg|]. rewrite Eg in Hs'.
    exists g, s'. split; [|done]. mrun E.
    unfold u64. rewrite Z.mod_small by (unfold PAGE_SIZE; lia). by mrun E'.
  - split; [|done]. by mrun E.
Qed.

(** C7: the page allocator is first fit from frame 512 on: it returns [0], changing
    nothing, exactly when no run of [count] free frames exists there; otherwise it
    returns the address of the first such run, marks exactly these frames used, and
    the number of free frames drops by [count]. *)
Theorem physmem_alloc_first_fit s count :
  pm_wf s → 0 < count →
  (physmem_alloc_to count s = Done 0 s ∧
   ∀ g, 512 ≤ g → g + count ≤ physmem_total s → ¬ run_free s g count) ∨
  (∃ g s', physmem_alloc_to count s = Done (g * PAGE_SIZE) s' ∧
     512 ≤ g ∧ g + count ≤ physmem_total s ∧ run_free s g count ∧
     (∀ g', 512 ≤ g' < g → ¬ run_free s g' count) ∧
     marked g (g + count) true (mk_pageframe 1 FRAME_USED) s s' ∧
     physmem_free_get s = Done (count_free s) s ∧
     physmem_free_get s' = Done (count_free s - count) s').
Proof.
  intros H Hc. destruct (alloc_run s count H Hc) as [|(g & s' & E & Hg & Ht & Hr & Hf & Hm)]; [by left|].
  right. exists g, s'. split_and!; try done.
  - by apply free_get_run.
  - rewrite free_get_run by (by destruct Hm). f_equal.
    rewrite (count_free_marked _ _ _ _ _ Hm); [lia|lia|lia|].
    by replace (g + count - g) with count by lia.
Qed.

(** C20: Freeing what an allocation returned puts every bit of the bitmap, and the
    count of free frames, back. *)
Theorem physmem_alloc_free_roundtrip s count a s1 :
  pm_wf s → 0 < count → physmem_alloc_to count s = Done a s1 → a ≠ 0 →
  ∃ s2, physmem_free_to a count s1 = Done tt s2 ∧ pm_wf s2 ∧
        (∀ f, 0 ≤ f < physmem_total s → taken s2 f = taken s f) ∧
        physmem_free_get s2 = Done (count_free s) s2.
Proof.
  intros H Hc E Ha.
  destruct (alloc_run s count H Hc) as [[E' _]|(g & s' & E' & Hg & Ht & Hr & Hf & Hm)];
    [congruence|]. rewrite E' in E. simplify_eq.
  pose proof Hm as [W1 T1 _ K1 _].
  assert (g * PAGE_SIZE / PAGE_SIZE = g) as Eg by (apply Z.div_mul; done).
  destruct (mark_free_run s1 (g * PAGE_SIZE) count) as (s2 & E2 & [W2 T2 _ K2 _]);
    [done|unfold PAGE_SIZE; lia|lia|rewrite Eg; lia|]. rewrite Eg in K2.
  assert (∀ f, 0 ≤ f < physmem_total s → taken s2 f = taken s f) as Hsame.
  { intros f Hf'. rewrite K2, K1 by lia.
    destruct (Z.leb_spec g f), (Z.ltb_spec f (g + count)); simpl; try done.
    symmetry. apply Hr. lia. }
  exists s2. unfold physmem_free_to. rewrite (proj2 (Z.eqb_neq count 0)) by lia.
  split_and!; [done|done|done|].
  rewrite free_get_run by done. f_equal. unfold count_free. rewrite T2, T1.
  do 2 f_equal. apply filter_ext_Forall, Forall_forall. intros f Hf'.
  apply elem_of_seqZ in Hf'. by rewrite Hsame by lia.
Qed.

(** ** Initialisation *)

(** The bootloader's promise: entries lie in the address space, and the usable ones
    consist of whole pages. *)
Definition entry_ok (e : memmap_entry) : Prop :=
  0 ≤ base_ e ∧ 0 ≤ length_ e ∧ base_ e + length_ e < 2 ^ 64 ∧
  (is_usable e = true → base_ e mod PAGE_SIZE = 0 ∧ length_ e mod PAGE_SIZE = 0).
#[global] Instance entry_ok_dec e : Decision (entry_ok e).
Proof. unfold entry_ok. apply _. Defined.

Definition covers (e : memmap_entry) (f : Z) : bool :=
  (base_ e / PAGE_SIZE <=? f) && (f <? (base_ e + length_ e) / PAGE_SIZE).

(** What the last entry that covers [f] says of it: usable entries clear the bit. *)
Definition last_mark (mpr : list memmap_entry) (init : bool) (f : Z) : bool :=
  foldl (λ acc e, if covers e f then negb (is_usable e) else acc) init mpr.

Lemma mark_entry_run s e :
  pm_wf s → entry_ok e →
  ∃ s', mark_entry e s = Done tt s' ∧ pm_wf s' ∧ physmem_total s' = physmem_total s ∧
        ∀ f, 0 ≤ f < physmem_total s →
          taken s' f = if covers e f then negb (is_usable e) else taken s f.
Proof.
  intros H (Hb & Hl & He & _). unfold mark_entry, get. mred.
  assert (0 ≤ base_ e / PAGE_SIZE) by (apply Z.div_pos; unfold PAGE_SIZE; lia).
  unfold u64. rewrite Z.mod_small by lia. set (lo := base_ e / PAGE_SIZE) in *.
  set (hi := (base_ e + length_ e) / PAGE_SIZE).
  destruct (Z.leb_spec (physmem_total s) lo) as [Hlo|Hlo].
  { exists s. split_and!; try done. intros f Hf. unfold covers. fold lo.
    by rewrite (proj2 (Z.leb_gt _ _)) by lia. }
  set (hi' := if physmem_total s <? hi then physmem_total s else hi).
  assert (hi' ≤ physmem_total s ∧ hi' ≤ hi ∧ (hi' < hi → hi' = physmem_total s)) as Hhi.
  { subst hi'. destruct (Z.ltb_spec (physmem_total s) hi); lia. }
  assert (∀ v d s', marked lo (lo `max` hi') v d s s' → v = negb (is_usable e) →
    ∀ f, 0 ≤ f < physmem_total s → taken s' f = if covers e f then negb (is_usable e) else taken s f) as Hk.
  { intros v d s' [_ _ _ K _] -> f Hf. rewrite K by done. unfold covers. fold lo hi.
    destruct (Z.leb_spec lo f), (Z.ltb_spec f (lo `max` hi')), (Z.ltb_spec f hi); simpl; done || lia. }
  destruct (is_usable e) eqn:Eu.
  - destruct (mark_loop_run s lo hi' false (mk_pageframe 0 FRAME_FREE) release_frame)
      as (s' & E & Hs'); [done|done|lia|intros; by apply release_frame_run|].
    exists s'. split; [done|]. pose proof Hs' as [W T _ _ _].
    split; [done|]. split; [done|]. by eapply Hk.
  - destruct (mark_loop_run s lo hi' true (mk_pageframe 1 (Z.lor FRAME_USED FRAME_KERNEL))
      (take_frame (Z.lor FRAME_USED FRAME_KERNEL)))
      as (s' & E & Hs'); [done|done|lia|intros; by apply take_frame_run|].
    exists s'. split; [done|]. pose proof Hs' as [W T _ _ _].
    split; [done|]. split; [done|]. by eapply Hk.
Qed.

Lemma mark_entries_run s mpr :
  pm_wf s → Forall entry_ok mpr →
  ∃ s', mark_entries mpr s = Done tt s' ∧ pm_wf s' ∧ physmem_total s' = physmem_total s ∧
        ∀ f, 0 ≤ f < physmem_total s → taken s' f = last_mark mpr (taken s f) f.
Proof.
  intros H Hok. revert s H; induction Hok as [|e mpr He _ IH]; intros s H; [by exists s|].
  destruct (mark_entry_run s e H He) as (s1 & E1 & W1 & T1 & K1).
  destruct (IH s1 W1) as (s2 & E2 & W2 & T2 & K2).
  exists s2. simpl. mrun E1. split; [done|]. split; [done|]. split; [congruence|].
  intros f Hf. rewrite K2, K1 by congruence. done.
Qed.

Lemma highest_step_spec h e :
  0 ≤ h < 2 ^ 64 →
  0 ≤ highest_step h e < 2 ^ 64 ∧ h ≤ highest_step h e ∧
  (is_usable e = true → u64 (base_ e + length_ e) ≤ highest_step h e).
Proof.
  intros Hh. unfold highest_step, u64. pose proof (Z.mod_pos_bound (base_ e + length_ e) (2 ^ 64)).
  destruct (is_usable e), (is_reclaimable e); simpl; try (split_and!; [lia|lia|lia|done]);
    destruct (Z.ltb_spec h ((base_ e + length_ e) mod 2 ^ 64)); split_and!; intros; lia.
Qed.

Lemma highest_bound mpr :
  0 ≤ highest_address mpr < 2 ^ 64 ∧
  ∀ e, e ∈ mpr → is_usable e = true → u64 (base_ e + length_ e) ≤ highest_address mpr.
Proof.
  unfold highest_address.
  assert (∀ h, 0 ≤ h < 2 ^ 64 → h ≤ foldl highest_step h mpr < 2 ^ 64 ∧
    ∀ e, e ∈ mpr → is_usable e = true → u64 (base_ e + length_ e) ≤ foldl highest_step h mpr) as Hgo;
    [|apply Hgo; lia].
  induction mpr as [|e mpr IH]; intros h Hh; simpl.
  { split; [lia|]. intros e He. by apply elem_of_nil in He. }
  destruct (highest_step_spec h e Hh) as (Hh1 & Hle & Hu).
  destruct (IH _ Hh1) as [IH1 IH2]. split; [lia|].
  intros e' He' Hu'. apply elem_of_cons in He' as [->|He']; [|by apply IH2].
  specialize (Hu Hu'). lia.
Qed.

Lemma first_usable_spec mpr sz low a :
  first_usable mpr sz low = Some a →
  ∃ e, e ∈ mpr ∧ is_usable e = true ∧ sz ≤ length_ e ∧ low ≤ a ∧ base_ e = a.
Proof.
  induction mpr as [|e mpr IH]; simpl; [done|]. intros E.
  destruct (is_usable e) eqn:Eu, (Z.leb_spec sz (length_ e)), (Z.leb_spec low (base_ e));
    simplify_eq/=; [exists e; split_and!; [constructor|done..]|..];
    destruct (IH E) as (e' & He & ?); exists e'; (split; [by constructor|done]).
Qed.

Lemma tracking_spec mpr sz a :
  physmem_addr_get_tracking mpr sz = a → a ≠ NULL →
  ∃ e, e ∈ mpr ∧ is_usable e = true ∧ sz ≤ length_ e ∧ base_ e = a.
Proof.
  unfold physmem_addr_get_tracking. intros <-.
  destruct (first_usable mpr sz 0x1000000) eqn:E1.
  { intros _. apply first_usable_spec in E1 as (e & ? & ? & ? & _ & ?). eauto. }
  destruct (first_usable mpr sz 0x100000) eqn:E2.
  { intros _. apply first_usable_spec in E2 as (e & ? & ? & ? & _ & ?). eauto. }
  destruct (first_usable mpr sz 0) eqn:E3; [|done].
  intros _. apply first_usable_spec in E3 as (e & ? & ? & ? & _ & ?). eauto.
Qed.

Lemma filled_lookup v n i : 0 ≤ i < n → filled v n !! i = Some v.
Proof.
  intros Hi. unfold filled. apply elem_of_list_to_map.
  - rewrite <-list_fmap_compose. simpl. rewrite list_fmap_id. apply NoDup_seqZ.
  - apply list_elem_of_fmap. exists i. split; [done|]. apply elem_of_seqZ. lia.
Qed.

(** A clear bit comes from a usable entry. *)
Lemma last_mark_usable mpr f :
  last_mark mpr true f = false → ∃ e, e ∈ mpr ∧ is_usable e = true ∧ covers e f = true.
Proof.
  unfold last_mark. induction mpr as [|e mpr IH] using rev_ind; [done|].
  rewrite foldl_app. simpl. destruct (covers e f) eqn:Ec; intros H.
  - exists e. apply negb_false_iff in H. split_and!; [apply elem_of_app; right; by constructor|done|done].
  - destruct (IH H) as (e' & He & ?). exists e'. split; [apply elem_of_app; by left|done].
Qed.

(** The number of frames, and of bytes of the bitmap. *)
Lemma frame_total_bounds mpr (total := highest_address mpr / PAGE_SIZE) :
  0 ≤ total < 2 ^ 52 ∧ 0 ≤ (total + 7) / 8 ≤ total + 7.
Proof.
  destruct (highest_bound mpr) as [Hh _].
  assert (0 ≤ total < 2 ^ 52).
  { subst total. unfold PAGE_SIZE. split; [apply Z.div_pos; lia|apply Z.div_lt_upper_bound; lia]. }
  split; [done|]. split; [apply Z.div_pos; lia|apply Z.div_le_upper_bound; lia].
Qed.

(** The place found for the tracking structures lies among the frames. *)
Lemma tracking_fits mpr bytes a :
  Forall entry_ok mpr → physmem_addr_get_tracking mpr bytes = a → a ≠ NULL → 0 ≤ bytes →
  0 ≤ a ∧ a mod PAGE_SIZE = 0 ∧ a / PAGE_SIZE + (bytes + PAGE_SIZE - 1) / PAGE_SIZE ≤ highest_address mpr / PAGE_SIZE.
Proof.
  intros Hok Ea Ha Hby. destruct (highest_bound mpr) as [Hh Hent].
  destruct (tracking_spec mpr bytes a Ea Ha) as (e & He & Hu & Hlen & Hbase).
  assert (entry_ok e) as (He1 & He2 & He3 & He4) by (by eapply Forall_forall in Hok).
  destruct (He4 Hu) as [Hal Hll]. rewrite Hbase in *.
  specialize (Hent e He Hu). rewrite Hbase in Hent. unfold u64 in Hent. rewrite Z.mod_small in Hent by lia.
  split; [lia|]. split; [done|].
  apply Z.mod_divide in Hal as [x Hx]; [|done]. apply Z.mod_divide in Hll as [y Hy]; [|done].
  rewrite Hx, Hy in Hent. rewrite Hx, Hy in *.
  rewrite Z.div_mul by done. unfold PAGE_SIZE in *.
  assert ((bytes + 4096 - 1) / 4096 < y + 1) by (apply Z.div_lt_upper_bound; lia).
  assert (x + y ≤ highest_address mpr / 4096) by (apply Z.div_le_lower_bound; lia). lia.
Qed.

(** The byte of the bitmap a frame is in. *)
Lemma bitmap_byte_in total f : 0 ≤ f < total → 0 ≤ f / 8 < (total + 7) / 8.
Proof.
  intros Hf. split; [apply Z.div_pos; lia|]. apply Z.div_lt_upper_bound; [lia|].
  pose proof (Z.div_mod (total + 7) 8). pose proof (Z.mod_pos_bound (total + 7) 8). lia.
Qed.

(** C15: after initialisation the bitmap says of each frame what the last memory-map
    entry that covers it says, frames no entry covers and the frames of the tracking
    structures themselves being in use; so a frame handed out later is always RAM
    the bootloader reported usable and never part of the allocator's own tables. *)
Theorem physmem_init_sound mpr off s0 :
  Forall entry_ok mpr →
  let total := highest_address mpr / PAGE_SIZE in
  let bytes := total * SIZEOF_PAGEFRAME + (total + 7) / 8 in
  let a := physmem_addr_get_tracking mpr bytes in
  a ≠ NULL → u64 (a + off) ≠ NULL →
  let own f := (a / PAGE_SIZE <=? f) && (f <? a / PAGE_SIZE + (bytes + PAGE_SIZE - 1) / PAGE_SIZE) in
  ∃ s, physmem_init mpr off s0 = Done tt s ∧ pm_wf s ∧ physmem_total s = total ∧
    ∀ f, 0 ≤ f < total →
      taken s f = own f || last_mark mpr true f ∧
      (taken s f = false → own f = false ∧ ∃ e, e ∈ mpr ∧ is_usable e = true ∧ covers e f = true).
Proof.
  intros Hok total bytes a Ha Hoff own.
  destruct (frame_total_bounds mpr) as [Htot Hb]. fold total in Htot, Hb.
  destruct (tracking_fits mpr bytes a Hok eq_refl Ha) as (Ha0 & Hal & Hfit);
    [unfold bytes, SIZEOF_PAGEFRAME; lia|]. fold total in Hfit.
  unfold physmem_init. fold total.
  assert (u64 (total * SIZEOF_PAGEFRAME) = total * SIZEOF_PAGEFRAME) as ->
    by (apply Z.mod_small; unfold SIZEOF_PAGEFRAME; lia).
  assert (u64 (total + 7) = total + 7) as -> by (apply Z.mod_small; lia).
  fold bytes. assert (u64 bytes = bytes) as ->
    by (apply Z.mod_small; unfold bytes, SIZEOF_PAGEFRAME; lia). fold a.
  rewrite (proj2 (Z.eqb_neq _ _) Ha). unfold put. mred.
  set (s1 := mk_physmem _ _ _ _ _ _).
  assert (pm_wf s1) as W1.
  { constructor; simpl; [done|done|]. intros f Hf. exists 0xFF. split; [|done].
    by apply filled_lookup, bitmap_byte_in. }
  destruct (mark_entries_run s1 mpr W1 Hok) as (s2 & E2 & W2 & T2 & K2).
  unfold physmem_addr_mark, need_pageframes, get. mred.
  change (physmem_pageframes s1) with (u64 (a + off)). rewrite (proj2 (Z.eqb_neq _ _) Hoff), E2.
  unfold used_bytes_to_frame_count, u64.
  rewrite (Z.mod_small (bytes + PAGE_SIZE - 1))
    by (unfold bytes, SIZEOF_PAGEFRAME, PAGE_SIZE; lia).
  change (physmem_total s1) with total in T2, K2.
  destruct (mark_used_run s2 a ((bytes + PAGE_SIZE - 1) / PAGE_SIZE)) as (s3 & E3 & [W3 T3 _ K3 _]);
    [done|lia|apply Z.div_pos; unfold bytes, SIZEOF_PAGEFRAME, PAGE_SIZE; lia|lia|].
  exists s3. split; [done|]. split; [done|]. split; [congruence|]. intros f Hf.
  assert (taken s3 f = own f || last_mark mpr true f) as Et.
  { rewrite K3, K2 by lia. unfold own.
    destruct (_ && _); [done|]. simpl. f_equal.
    unfold taken, s1. simpl. rewrite filled_lookup.
    - simpl. change 255 with (Z.ones 8). apply Z.ones_spec_low, mod8_bound.
    - by apply bitmap_byte_in. }
  split; [done|]. rewrite Et. intros Hf0. apply orb_false_iff in Hf0 as [Ho Hl]. split; [done|].
  by apply last_mark_usable.
Qed.

(** ** Witnesses *)

Definition demo_pm : physmem := mk_physmem 1 520 65 (520 * PAGE_SIZE) (filled 0 65) ∅.

Lemma demo_pm_wf : pm_wf demo_pm.
Proof.
  constructor; simpl; [done|lia|]. intros f Hf. exists 0. split; [|unfold is_byte; lia].
  apply filled_lookup. split; [apply Z.div_pos; lia|apply Z.div_lt_upper_bound; lia].
Qed.

Lemma physmem_alloc_first_fit_witness :
  ∃ s', physmem_alloc_to 4 demo_pm = Done (512 * PAGE_SIZE) s' ∧
        marked 512 516 true (mk_pageframe 1 FRAME_USED) demo_pm s'.
Proof.
  destruct (physmem_alloc_first_fit demo_pm 4 demo_pm_wf) as [[_ Hn]|(g & s' & E & Hg & _ & _ & _ & Hm & _)];
    [lia| |].
  - destruct (Hn 512); [lia|simpl; lia|]. intros f Hf.
    assert (f ∈ seqZ 512 4) as Hin by (apply elem_of_seqZ; lia).
    change (seqZ 512 4) with [512; 513; 514; 515] in Hin.
    repeat (apply elem_of_cons in Hin as [->|Hin]; [reflexivity|]). by apply elem_of_nil in Hin.
  - assert (physmem_alloc_to 4 demo_pm = Done (512 * PAGE_SIZE) s') as E'.
    { rewrite E. f_equal. assert (g * PAGE_SIZE = 512 * PAGE_SIZE) as ->; [|done].
      assert (match physmem_alloc_to 4 demo_pm with Done a _ => a = 512 * PAGE_SIZE | _ => False end)
        as Ha by (vm_compute; reflexivity).
      by rewrite E in Ha. }
    exists s'. split; [exact E'|]. rewrite E in E'. unfold PAGE_SIZE in E'.
    assert (g = 512) as -> by (injection E'; lia). exact Hm.
Defined.

Lemma physmem_alloc_free_roundtrip_witness :
  match physmem_alloc_to 3 demo_pm with
  | Done a s1 => ∃ s2, physmem_free_to a 3 s1 = Done tt s2 ∧ pm_wf s2 ∧
      (∀ f, 0 ≤ f < 520 → taken s2 f = taken demo_pm f) ∧
      physmem_free_get s2 = Done (count_free demo_pm) s2
  | Stuck _ => False
  end.
Proof.
  assert (match physmem_alloc_to 3 demo_pm with Done a _ => a = 512 * PAGE_SIZE | _ => False end)
    as Ha by (vm_compute; reflexivity).
  destruct (physmem_alloc_to 3 demo_pm) as [a s1|] eqn:E; [|exact Ha].
  apply (physmem_alloc_free_roundtrip demo_pm 3 a s1 demo_pm_wf); [lia|exact E|subst a; discriminate].
Defined.

Definition demo_mmap : list memmap_entry :=
  [mk_entry 0 0x9F000 MEMMAP_USABLE; mk_entry 0xF0000 0x10000 MEMMAP_OTHER;
   mk_entry 0x100000 0x200000 MEMMAP_USABLE].

Lemma physmem_init_sound_witness :
  ∃ s, physmem_init demo_mmap 0x1000 demo_pm = Done tt s ∧ pm_wf s ∧ physmem_total s = 768 ∧
       taken s 0xF0 = true ∧ taken s 0x100 = true ∧ taken s 0x150 = false.
Proof.
  destruct (physmem_init_sound demo_mmap 0x1000 demo_pm) as (s & E & W & T & K).
  - eval_decide.
  - vm_compute. discriminate.
  - vm_compute. discriminate.
  - change (highest_address demo_mmap / PAGE_SIZE) with 768 in *. exists s. split; [exact E|].
    split; [exact W|]. split; [exact T|]. split_and!.
    + rewrite (proj1 (K 0xF0 ltac:(lia))). vm_compute. reflexivity.
    + rewrite (proj1 (K 0x100 ltac:(lia))). vm_compute. reflexivity.
    + rewrite (proj1 (K 0x150 ltac:(lia))). vm_compute. reflexivity.
Defined.
