(* ===== verification/Paging.v ===== *)
(** * Page tables, [core/kernel/mem/paging/paging.c]

    Physical memory is byte addressed ([Memory.v]); the kernel reaches a physical
    address [a] at the virtual address [a + off] of the direct map (the
    [hpr->offset] of the source).  The four-level tables live in that memory and
    their frames come from [PhysMem.v].  [walk] is the processor's translation, with
    pages of 4 KiB, 2 MiB and 1 GiB; the code knows only the first. *)

From Stdlib Require Import ZArith Lia String.
From stdpp Require Import base gmap list numbers fin_maps.
From S2P Require Import Prelude Memory PhysMem.
Open Scope Z_scope.
Set Default Goal Selector "!".

Definition PTE_PRESENT : Z := 1.
Definition PTE_WRITABLE : Z := 2.
Definition PTE_HUGE : Z := 128.
Definition ADDR_MASK : Z := 0x000FFFFFFFFFF000.

Record vm := mk_vm {
  pm : physmem;
  ram_ : mem;
  kernel_pml4 : Z;   (* direct-map address of the root table *)
}.

Definition on_pm {A} (m : M physmem A) : M vm A :=
  zoom pm (λ p v, mk_vm p (ram_ v) (kernel_pml4 v)) m.
Definition on_ram {A} (m : M mem A) : M vm A :=
  zoom ram_ (λ r v, mk_vm (pm v) r (kernel_pml4 v)) m.

Section paging.
  (** [hpr->offset] *)
  Context (off : Z).

Definition phys_to_virt (phys_addr : Z) : Z := u64 (phys_addr + off).
Definition virt_to_phys (virt_addr : Z) : Z := u64 (virt_addr - off).

(** [table->entries[i]], read and written through the direct map. *)
Definition load_entry (table i : Z) : M vm Z :=
  on_ram (bs ← load_bytes 8 (virt_to_phys (table + 8 * i)); mret (le_combine bs)).
Definition store_entry (table i v : Z) : M vm unit :=
  on_ram (store_bytes (virt_to_phys (table + 8 * i)) (le_split 8 v)).

Definition level_index (virtual_addr shift : Z) : Z := Z.land (Z.shiftr virtual_addr shift) 0x1FF.

(** One level of [paging_map_page]: the table the entry points to, made if absent. *)
Definition next_table (table i : Z) (msg : string) : M vm Z :=
  e ← load_entry table i;
  if Z.land e PTE_PRESENT =? 0 then
    phys ← on_pm (physmem_alloc_to 1);
    if phys =? 0 then panic msg else
    store_entry table i (Z.lor (Z.lor (Z.land phys ADDR_MASK) PTE_PRESENT) PTE_WRITABLE);;
    on_ram (memset (virt_to_phys (phys_to_virt phys)) 0 PAGE_SIZE);;
    mret (phys_to_virt phys)
  else
    e ← load_entry table i;
    mret (phys_to_virt (Z.land e ADDR_MASK)).

Definition paging_map_page (virtual_addr physical_addr flags : Z) : M vm unit :=
  let pml4_index := level_index virtual_addr 39 in
  let pdp_index := level_index virtual_addr 30 in
  let pd_index := level_index virtual_addr 21 in
  let pt_index := level_index virtual_addr 12 in
  v ← get;
  pdpt ← next_table (kernel_pml4 v) pml4_index "Could not allocate PDPT!";
  pd ← next_table pdpt pdp_index "Could not allocate PD!";
  pt ← next_table pd pd_index "Could not allocate PT!";
  store_entry pt pt_index (Z.lor (Z.land physical_addr ADDR_MASK) flags).

Definition paging_init (cr3 : Z) : M vm unit :=
  modify (λ v, mk_vm (pm v) (ram_ v) (phys_to_virt (Z.land cr3 ADDR_MASK))).

(** The three checks of [is_page_mapped] before the last. *)
Definition follow (table i : Z) (k : Z → M vm bool) : M vm bool :=
  e ← load_entry table i;
  if Z.land e PTE_PRESENT =? 0 then mret false else
  e ← load_entry table i;
  k (phys_to_virt (Z.land e ADDR_MASK)).

Definition is_page_mapped (virtual_addr : Z) : M vm bool :=
  v ← get;
  follow (kernel_pml4 v) (level_index virtual_addr 39) (λ pdpt,
  follow pdpt (level_index virtual_addr 30) (λ pd,
  follow pd (level_index virtual_addr 21) (λ pt,
  e ← load_entry pt (level_index virtual_addr 12);
  mret (negb (Z.land e PTE_PRESENT =? 0))))).

(** ** The processor's view *)

(** The eight bytes of an entry, as the table walker reads them. *)
Definition word_at (m : mem) (a : Z) : option Z :=
  match load_bytes 8 a m with Done bs _ => Some (le_combine bs) | Stuck _ => None end.

(** The entry of a directory that is itself a mapping. *)
Definition huge (w : Z) : bool := negb (Z.land w PTE_PRESENT =? 0) && negb (Z.land w PTE_HUGE =? 0).
(** The table an entry of a directory leads to. *)
Definition next_of (w : Z) : option Z :=
  if Z.land w PTE_PRESENT =? 0 then None else if huge w then None else Some (Z.land w ADDR_MASK).

(** The entry that translates [va], found in a table of the level with the first of the
    shifts, and the shift of the page it maps.  The bit of a huge page is reserved in the
    entries of the root. *)
Fixpoint walk_from (m : mem) (va : Z) (shifts : list Z) (table : Z) : option (Z * Z) :=
  match shifts with
  | [] => None
  | sh :: shifts' =>
      e ← word_at m (table + 8 * level_index va sh);
      if Z.land e PTE_PRESENT =? 0 then None
      else if sh =? 12 then Some (e, sh)
      else if huge e then if sh =? 39 then None else Some (e, sh)
      else walk_from m va shifts' (Z.land e ADDR_MASK)
  end.
Definition walk (m : mem) (root va : Z) : option (Z * Z) := walk_from m va [39; 30; 21; 12] root.

(** The physical address behind [va]. *)
Definition translate (m : mem) (root va : Z) : option Z :=
  '(e, sh) ← walk m root va; Some (Z.shiftl (Z.shiftr (Z.land e ADDR_MASK) sh) sh + va mod 2 ^ sh).

(** [*(u8 * )va = v] through the page tables. *)
Definition virt_store8 (va v : Z) : M vm unit := λ s,
  match translate (ram_ s) (virt_to_phys (kernel_pml4 s)) va with
  | Some pa => on_ram (store8 pa v) s
  | None => Stuck Fault
  end.

(** [memset((u64 * )virt, 0, size)] on a mapped region. *)
Definition virt_memset0 (virt sz : Z) : M vm unit :=
  for_to 0 sz (λ i, virt_store8 (u64 (virt + i)) 0).

Definition map_region (phys virt sz : Z) : M vm unit :=
  let frames := sz / PAGE_SIZE in
  for_to 0 frames (λ i,
    paging_map_page (u64 (virt + i * PAGE_SIZE)) (u64 (phys + i * PAGE_SIZE))
      (Z.lor PTE_PRESENT PTE_WRITABLE));;
  virt_memset0 virt sz.

Definition map_region_alloc (virt sz : Z) : M vm Z :=
  phys ← on_pm (physmem_alloc_to (sz / PAGE_SIZE));
  if phys =? 0 then panic "ERROR: Could not allocate physmem in lime request" else
  map_region phys virt sz;;
  mret phys.

Definition ULIME_START : Z := 0xFFFF800000000000 + 1024 * 1024 * 32 + 1024 * 1024 * 32.

Definition map_user_space_region (phys_start sz : Z) : M vm unit :=
  if negb (ULIME_START mod PAGE_SIZE =? 0) then panic "ULIME_START not page aligned!" else
  if negb (phys_start mod PAGE_SIZE =? 0) then panic "ULime physical start not page aligned!" else
  let pages := u64 (sz + PAGE_SIZE - 1) / PAGE_SIZE in
  for_to 0 pages (λ i,
    let virt_addr := u64 (ULIME_START + i * PAGE_SIZE) in
    let phys_addr := u64 (phys_start + i * PAGE_SIZE) in
    mapped ← is_page_mapped virt_addr;
    if (mapped : bool) then mret tt
    else paging_map_page virt_addr phys_addr (Z.lor PTE_PRESENT PTE_WRITABLE)).

End paging.

(** ** Words in memory *)

Definition page_ok (m : mem) (t : Z) : Prop :=
  ∀ a, t ≤ a < t + PAGE_SIZE → ∃ b, m !! a = Some b ∧ is_byte b.

Lemma page_bytes m t i n :
  page_ok m t → 0 ≤ i → i + Z.of_nat n ≤ PAGE_SIZE →
  ∃ bs, length bs = n ∧ bytes_at (t + i) bs m ∧ Forall is_byte bs.
Proof.
  intros Hp. revert i; induction n as [|n IH]; intros i Hi Hn.
  - exists []. split_and!; [done| |done]. intros j b Hj. done.
  - destruct (Hp (t + i)) as (b & Hb & Hbb); [lia|].
    destruct (IH (i + 1)) as (bs & Hl & Hbs & Hf); [lia|lia|].
    exists (b :: bs). split_and!; [simpl; lia| |by constructor].
    apply bytes_at_cons. split; [done|]. by rewrite <-Z.add_assoc.
Qed.

Lemma word_at_bytes m a bs : bytes_at a bs m → length bs = 8%nat → word_at m a = Some (le_combine bs).
Proof. intros H Hl. unfold word_at. rewrite <-Hl. by rewrite (load_bytes_run _ _ _ H). Qed.

Lemma word_at_page m t i : page_ok m t → 0 ≤ i < 512 → ∃ w, word_at m (t + 8 * i) = Some w.
Proof.
  intros Hp Hi. destruct (page_bytes m t (8 * i) 8 Hp) as (bs & Hl & Hb & _); [lia|unfold PAGE_SIZE; lia|].
  eexists. by apply word_at_bytes.
Qed.

Lemma word_at_write m a v : word_at (mem_write a (le_split 8 v) m) a = Some (u64 v).
Proof.
  rewrite (word_at_bytes _ _ (le_split 8 v)); [|apply bytes_at_write|apply length_le_split].
  by rewrite le_combine_split.
Qed.

(** Words elsewhere do not change. *)
Lemma word_at_frame m m' a :
  (∀ x, a ≤ x < a + 8 → m' !! x = m !! x) → word_at m' a = word_at m a.
Proof.
  intros H. unfold word_at.
  assert (∀ n a, (∀ x, a ≤ x < a + Z.of_nat n → m' !! x = m !! x) →
    match load_bytes n a m' with Done bs _ => Some bs | Stuck _ => None end =
    match load_bytes n a m with Done bs _ => Some bs | Stuck _ => None end) as Hgo.
  { clear. induction n as [|n IH]; intros a H; [done|].
    specialize (IH (a + 1) ltac:(intros; apply H; lia)). revert IH. simpl. unfold load8. mred.
    rewrite (H a) by lia. destruct (m !! a); [|done].
    destruct (load_bytes n (a + 1) m'), (load_bytes n (a + 1) m); naive_solver. }
  specialize (Hgo 8%nat a H). revert Hgo.
  destruct (load_bytes 8 a m'), (load_bytes 8 a m); naive_solver.
Qed.

Lemma page_ok_write m t p bs : page_ok m t → Forall is_byte bs → page_ok (mem_write p bs m) t.
Proof.
  intros Hp Hb a Ha. rewrite lookup_mem_write. case_bool_decide as Hc; [|by apply Hp].
  destruct (bs !! Z.to_nat (a - p)) as [b|] eqn:E.
  - exists b. split; [done|]. by eapply Forall_lookup.
  - apply lookup_ge_None in E. lia.
Qed.

Lemma page_ok_mapped m t i n : page_ok m t → 0 ≤ i → i + n ≤ PAGE_SIZE → mapped (t + i) n m.
Proof. intros Hp Hi Hn a Ha. destruct (Hp a) as (b & Hb & _); [lia|]. eauto. Qed.

(** ** Entries *)

Lemma u64_land z : u64 z = Z.land z (Z.ones 64).
Proof. unfold u64. by rewrite Z.land_ones. Qed.

Lemma u64_land_mask z : Z.land (u64 z) ADDR_MASK = Z.land z ADDR_MASK.
Proof. by rewrite u64_land, <-Z.land_assoc. Qed.
Lemma u64_land_1 z : Z.land (u64 z) PTE_PRESENT = Z.land z PTE_PRESENT.
Proof. by rewrite u64_land, <-Z.land_assoc. Qed.

Lemma u64_land_huge z : Z.land (u64 z) PTE_HUGE = Z.land z PTE_HUGE.
Proof. by rewrite u64_land, <-Z.land_assoc. Qed.

Lemma high_bits f n i : 0 ≤ f < 2 ^ n → n ≤ i → Z.testbit f i = false.
Proof.
  intros Hf Hi. destruct (decide (f = 0)) as [->|]; [apply Z.bits_0|].
  apply Z.bits_above_log2; [lia|]. apply Z.log2_lt_pow2; [lia|].
  eapply Z.lt_le_trans; [apply Hf|]. apply Z.pow_le_mono_r; lia.
Qed.

Lemma land_mask f fl :
  0 ≤ f < 2 ^ 40 → 0 ≤ fl < 2 ^ 12 → Z.land (Z.lor (f * PAGE_SIZE) fl) ADDR_MASK = f * PAGE_SIZE.
Proof.
  intros Hf Hfl. replace (f * PAGE_SIZE) with (Z.shiftl f 12) by (by rewrite Z.shiftl_mul_pow2).
  change ADDR_MASK with (Z.shiftl (Z.ones 40) 12).
  apply Z.bits_inj'. intros i Hi. rewrite Z.land_spec, Z.lor_spec, !Z.shiftl_spec by done.
  destruct (Z.lt_ge_cases i 12).
  - rewrite !(Z.testbit_neg_r _ (i - 12)) by lia. by rewrite andb_false_r.
  - rewrite (high_bits fl 12 i) by done. rewrite orb_false_r.
    destruct (Z.lt_ge_cases i 52).
    + rewrite Z.ones_spec_low by lia. apply andb_true_r.
    + by rewrite (high_bits f 40 (i - 12)) by lia.
Qed.

Lemma lor_present z : Z.land (Z.lor (Z.lor z PTE_PRESENT) PTE_WRITABLE) PTE_PRESENT = 1.
Proof.
  rewrite !Z.land_lor_distr_l. change (Z.land PTE_PRESENT PTE_PRESENT) with 1.
  change (Z.land PTE_WRITABLE PTE_PRESENT) with 0. rewrite Z.lor_0_r.
  unfold PTE_PRESENT. apply Z.bits_inj'. intros i Hi. rewrite Z.lor_spec, Z.land_spec.
  destruct (Z.testbit 1 i); [apply orb_true_r|by rewrite andb_false_r].
Qed.

Lemma table_entry f :
  0 ≤ f < 2 ^ 40 →
  let w := u64 (Z.lor (Z.lor (Z.land (f * PAGE_SIZE) ADDR_MASK) PTE_PRESENT) PTE_WRITABLE) in
  Z.land w PTE_PRESENT ≠ 0 ∧ Z.land w ADDR_MASK = f * PAGE_SIZE ∧ huge w = false.
Proof.
  intros Hf w. subst w. rewrite u64_land_1, u64_land_mask, lor_present. split; [done|].
  pose proof (land_mask f 0 Hf ltac:(lia)) as E. rewrite Z.lor_0_r in E. rewrite E. split.
  - rewrite <-Z.lor_assoc. by apply land_mask.
  - unfold huge. rewrite u64_land_huge, !Z.land_lor_distr_l, <-E, <-Z.land_assoc, Z.land_0_r. by rewrite andb_false_r.
Qed.

Lemma level_index_bound va sh : 0 ≤ level_index va sh < 512.
Proof.
  unfold level_index. change 0x1FF with (Z.ones 9). rewrite Z.land_ones by lia.
  apply Z.mod_pos_bound. lia.
Qed.

(** ** The table tree *)

(** The tables reachable from the root, by the indices that lead to them. *)
Abbreviation tables := (gmap (list Z) Z).

Definition in_page (t a : Z) : Prop := t ≤ a < t + PAGE_SIZE.

Section tree.
  Context (off root : Z).

(** The structure all of the kernel's mapping keeps: the tables are distinct frames
    in use, an entry of a directory that is present and no huge page leads to a table of
    the tree, and free frames are backed by memory. *)
Record pt_rep (s : vm) (T : tables) : Prop := {
  pr_pm : pm_wf (pm s);
  pr_total : physmem_total (pm s) ≤ 2 ^ 40;
  pr_root : T !! [] = Some root;
  pr_pml4 : kernel_pml4 s = phys_to_virt off root;
  pr_free : ∀ f, 512 ≤ f < physmem_total (pm s) → taken (pm s) f = false →
            page_ok (ram_ s) (f * PAGE_SIZE);
  pr_frame : ∀ p t, T !! p = Some t → page_ok (ram_ s) t ∧
             ∃ f, t = f * PAGE_SIZE ∧ 0 ≤ f < physmem_total (pm s) ∧ taken (pm s) f = true;
  pr_inj : ∀ p q t, T !! p = Some t → T !! q = Some t → p = q;
  pr_closed : ∀ p i t, T !! (p ++ [i]) = Some t →
              (length p < 3)%nat ∧ 0 ≤ i < 512 ∧ is_Some (T !! p);
  pr_link : ∀ p t i w, T !! p = Some t → (length p < 3)%nat → 0 ≤ i < 512 →
            word_at (ram_ s) (t + 8 * i) = Some w →
            T !! (p ++ [i]) = next_of w;
}.

(** Memory in use that is no table. *)
Definition other_used (s : vm) (T : tables) (a : Z) : Prop :=
  0 ≤ a < physmem_total (pm s) * PAGE_SIZE ∧
  taken (pm s) (a / PAGE_SIZE) = true ∧ ∀ p t, T !! p = Some t → ¬ in_page t a.

(** How one mapping step extends the tree: old tables keep their place, old leaf
    tables their entries, huge pages theirs, new leaf tables are empty, other memory in use is
    left alone. *)
Record extends (s : vm) (T : tables) (s' : vm) (T' : tables) : Prop := {
  ex_sub : T ⊆ T';
  ex_total : physmem_total (pm s') = physmem_total (pm s);
  ex_taken : ∀ f, 0 ≤ f < physmem_total (pm s) → taken (pm s) f = true → taken (pm s') f = true;
  ex_leaf : ∀ p t j, length p = 3%nat → T' !! p = Some t → 0 ≤ j < 512 →
     word_at (ram_ s') (t + 8 * j) =
     match T !! p with Some _ => word_at (ram_ s) (t + 8 * j) | None => Some 0 end;
  ex_huge : ∀ p t j w, T' !! p = Some t → (length p < 3)%nat → 0 ≤ j < 512 → huge w = true →
     word_at (ram_ s') (t + 8 * j) = Some w ↔ T !! p = Some t ∧ word_at (ram_ s) (t + 8 * j) = Some w;
  ex_other : ∀ a, other_used s T a → ram_ s' !! a = ram_ s !! a ∧ other_used s' T' a;
}.

Lemma extends_refl s T : extends s T s T.
Proof.
  constructor; try done.
  - intros p t j _ Hp _. by rewrite Hp.
  - intros p t j w Hp _ _ _. naive_solver.
Qed.

Lemma extends_trans s1 T1 s2 T2 s3 T3 :
  extends s1 T1 s2 T2 → extends s2 T2 s3 T3 → extends s1 T1 s3 T3.
Proof.
  intros [A1 A2 A3 A4 A6 A5] [B1 B2 B3 B4 B6 B5]. constructor.
  - by etransitivity.
  - congruence.
  - intros f Hf Ht. apply B3; [congruence|]. by apply A3.
  - intros p t j Hl Hp Hj. rewrite (B4 _ _ _ Hl Hp Hj).
    destruct (T2 !! p) as [t2|] eqn:E2.
    + assert (t2 = t) as -> by (pose proof (lookup_weaken _ _ _ _ E2 B1); congruence).
      apply A4; done.
    + destruct (T1 !! p) as [t1|] eqn:E1; [|done].
      pose proof (lookup_weaken _ _ _ _ E1 A1). congruence.
  - intros p t j w Hp Hl Hj Hw. rewrite (B6 _ _ _ _ Hp Hl Hj Hw). split.
    + intros [H2 Hm]. by apply (A6 _ _ _ _ H2 Hl Hj Hw).
    + intros [H1 Hm]. pose proof (lookup_weaken _ _ _ _ H1 A1) as H2. split; [done|]. by apply (A6 _ _ _ _ H2 Hl Hj Hw).
  - intros a Ha. destruct (A5 a Ha) as [E Ha']. destruct (B5 a Ha') as [E' Ha''].
    split; [congruence|done].
Qed.

Lemma page_disjoint f g i j :
  f ≠ g → 0 ≤ i < PAGE_SIZE → 0 ≤ j < PAGE_SIZE → f * PAGE_SIZE + i ≠ g * PAGE_SIZE + j.
Proof. unfold PAGE_SIZE. intros. nia. Qed.

Lemma direct_map f i : 0 ≤ f < 2 ^ 40 → 0 ≤ i < PAGE_SIZE →
  virt_to_phys off (phys_to_virt off (f * PAGE_SIZE) + i) = f * PAGE_SIZE + i.
Proof.
  intros Hf Hi. unfold virt_to_phys, phys_to_virt, u64.
  replace ((f * PAGE_SIZE + off) mod 2 ^ 64 + i - off)
    with ((f * PAGE_SIZE + off) mod 2 ^ 64 + (i - off)) by lia.
  rewrite Zplus_mod_idemp_l.
  replace (f * PAGE_SIZE + off + (i - off)) with (f * PAGE_SIZE + i) by lia.
  apply Z.mod_small. unfold PAGE_SIZE in *. lia.
Qed.

Lemma load_entry_run s T p t i :
  pt_rep s T → T !! p = Some t → 0 ≤ i < 512 →
  ∃ w, word_at (ram_ s) (t + 8 * i) = Some w ∧
       load_entry off (phys_to_virt off t) i s = Done w s.
Proof.
  intros H Hp Hi. destruct (pr_frame _ _ H _ _ Hp) as (Hok & _).
  destruct (page_bytes (ram_ s) t (8 * i) 8 Hok) as (bs & Hl & Hb & _); [lia|unfold PAGE_SIZE; lia|].
  exists (le_combine bs). split; [by apply word_at_bytes|]. pose proof (pr_total _ _ H).
  destruct (pr_frame _ _ H _ _ Hp) as (_ & f & -> & Hf & _).
  unfold load_entry, on_ram, zoom. rewrite direct_map by (unfold PAGE_SIZE; lia).
  rewrite <-Hl. mred. rewrite (load_bytes_run _ _ _ Hb). by destruct s.
Qed.

Lemma store_entry_run s f i v :
  page_ok (ram_ s) (f * PAGE_SIZE) → 0 ≤ f < 2 ^ 40 → 0 ≤ i < 512 →
  store_entry off (phys_to_virt off (f * PAGE_SIZE)) i v s =
  Done tt (mk_vm (pm s) (mem_write (f * PAGE_SIZE + 8 * i) (le_split 8 v) (ram_ s)) (kernel_pml4 s)).
Proof.
  intros Hok Hf Hi.
  unfold store_entry, on_ram, zoom. rewrite direct_map by (unfold PAGE_SIZE; lia).
  rewrite store_bytes_run; [done| |apply le_split_bytes].
  rewrite length_le_split. eapply page_ok_mapped; [done|lia|unfold PAGE_SIZE; lia].
Qed.

Lemma in_page_frame g a : in_page (g * PAGE_SIZE) a ↔ a / PAGE_SIZE = g.
Proof.
  unfold in_page, PAGE_SIZE. pose proof (Z.div_mod a 4096). pose proof (Z.mod_pos_bound a 4096). lia.
Qed.

(** Memory after an entry was written and a page zeroed. *)
Record fresh_ram (m : mem) (e v new : Z) (m2 : mem) : Prop := {
  fr_outside : ∀ a, ¬ (e ≤ a < e + 8) → ¬ in_page new a → m2 !! a = m !! a;
  fr_ok : ∀ x, page_ok m x → page_ok m2 x;
  fr_entry : word_at m2 e = Some (u64 v);
  fr_new : ∀ j, 0 ≤ j < 512 → word_at m2 (new + 8 * j) = Some 0;
}.

Lemma fresh_ram_intro m e v new :
  (∀ x, e ≤ x < e + 8 → ¬ in_page new x) →
  fresh_ram m e v new
    (mem_write new (replicate (Z.to_nat PAGE_SIZE) 0) (mem_write e (le_split 8 v) m)).
Proof.
  intros Hd. assert (0 ≤ PAGE_SIZE) as Hps by (unfold PAGE_SIZE; lia). constructor.
  - intros a H1 H2. rewrite lookup_mem_write_out.
    + apply lookup_mem_write_out. by rewrite length_le_split.
    + by rewrite length_replicate, Z2Nat.id.
  - intros x Hx. apply page_ok_write; [|apply Forall_replicate; unfold is_byte; lia].
    apply page_ok_write; [done|apply le_split_bytes].
  - rewrite <-(word_at_write m e v). apply word_at_frame. intros x Hx.
    apply lookup_mem_write_out. rewrite length_replicate, Z2Nat.id by done. by apply Hd.
  - intros j Hj. rewrite (word_at_bytes _ _ (replicate 8 0)); [done| |done].
    intros k b Hk. apply lookup_replicate in Hk as [-> Hk].
    replace (new + 8 * j + Z.of_nat k) with (new + Z.of_nat (Z.to_nat (8 * j) + k)) by lia.
    apply lookup_mem_write_in. apply lookup_replicate. split; [done|].
    apply Nat2Z.inj_lt. rewrite Z2Nat.id by done. unfold PAGE_SIZE. lia.
Qed.

#[local] Opaque word_at mem_write load_bytes memset.

(** The state after a directory entry was pointed at the fresh frame [g]. *)
Section fresh.
  Context (s : vm) (T : tables) (p : list Z) (t i g : Z) (pm1 : physmem).
  Context (H : pt_rep s T) (Hp : T !! p = Some t) (Hlen : (length p < 3)%nat) (Hi : 0 ≤ i < 512).
  Context (Hnone : T !! (p ++ [i]) = None).
  Context (Hold : ∀ w, word_at (ram_ s) (t + 8 * i) = Some w → huge w = false).
  Context (Hg : 512 ≤ g < physmem_total (pm s)) (Hfree : taken (pm s) g = false).
  Context (Hm : marked g (g + 1) true (mk_pageframe 1 FRAME_USED) (pm s) pm1).
Let new := g * PAGE_SIZE.
Let v := Z.lor (Z.lor (Z.land new ADDR_MASK) PTE_PRESENT) PTE_WRITABLE.
  Context (ram2 : mem) (Hr : fresh_ram (ram_ s) (t + 8 * i) v new ram2).
Let s' := mk_vm pm1 ram2 (kernel_pml4 s).
Let T' := <[p ++ [i] := new]> T.

#[local] Lemma fresh_taken f : 0 ≤ f < physmem_total (pm s) →
  taken pm1 f = if f =? g then true else taken (pm s) f.
Proof.
  intros Hf. rewrite (mk_taken _ _ _ _ _ _ Hm f Hf).
  destruct (Z.eqb_spec f g), (Z.leb_spec g f), (Z.ltb_spec f (g + 1)); simpl; done || lia.
Qed.

#[local] Lemma fresh_table q t' : T !! q = Some t' →
  ∃ f, t' = f * PAGE_SIZE ∧ 0 ≤ f < physmem_total (pm s) ∧ taken (pm s) f = true ∧ f ≠ g ∧
       page_ok (ram_ s) t'.
Proof.
  intros Hq. destruct (pr_frame _ _ H _ _ Hq) as (Hok & f & -> & Hf & Ht).
  exists f. split_and!; try done; [lia|lia|]. intros ->. congruence.
Qed.

#[local] Lemma fresh_old_word q t' j : T !! q = Some t' → 0 ≤ j < 512 → (q, j) ≠ (p, i) →
  word_at ram2 (t' + 8 * j) = word_at (ram_ s) (t' + 8 * j).
Proof.
  intros Hq Hj Hne. apply word_at_frame. intros x Hx.
  destruct (fresh_table _ _ Hq) as (f & -> & Hf & _ & Hfg & _).
  destruct (fresh_table _ _ Hp) as (ft & Et & Hft & _ & Hftg & _).
  apply (fr_outside _ _ _ _ _ Hr).
  - intros Hx2. rewrite Et in Hx2.
    destruct (decide (f = ft)) as [->|Hd]; [|unfold PAGE_SIZE in *; nia].
    rewrite Et in Hp. assert (q = p) as -> by (by eapply (pr_inj _ _ H)).
    apply Hne. f_equal. lia.
  - unfold in_page, new, PAGE_SIZE in *. nia.
Qed.

#[local] Lemma fresh_lookup q : T' !! q = if decide (q = p ++ [i]) then Some new else T !! q.
Proof.
  unfold T'. case_decide as Hd; [subst; apply lookup_insert_eq|by apply lookup_insert_ne].
Qed.

#[local] Lemma fresh_link q tq j w :
  T' !! q = Some tq → (length q < 3)%nat → 0 ≤ j < 512 → word_at ram2 (tq + 8 * j) = Some w →
  T' !! (q ++ [j]) = next_of w.
Proof.
  intros Hq Hlq Hj Hw. unfold next_of. rewrite fresh_lookup in Hq. rewrite fresh_lookup.
  destruct (decide (q = p ++ [i])) as [->|Hqn].
  - injection Hq as <-. rewrite (fr_new _ _ _ _ _ Hr j Hj) in Hw. injection Hw as <-.
    rewrite Z.land_0_l, Z.eqb_refl. case_decide as Hd; [apply (f_equal length) in Hd; rewrite !length_app in Hd; simpl in Hd; lia|].
    destruct (T !! ((p ++ [i]) ++ [j])) eqn:E; [|done].
    destruct (pr_closed _ _ H _ _ _ E) as (_ & _ & [? Hx]). congruence.
  - case_decide as Hd.
    + apply app_inj_2 in Hd as [-> Hd]; [|done]. injection Hd as ->.
      assert (tq = t) as -> by congruence.
      rewrite (fr_entry _ _ _ _ _ Hr) in Hw. injection Hw as <-.
      destruct (table_entry g) as (E1 & E2 & E3); [pose proof (pr_total _ _ H); lia|].
      fold new in E1, E2, E3. fold v in E1, E2, E3. by rewrite (proj2 (Z.eqb_neq _ _) E1), E2, E3.
    + rewrite (fresh_old_word q) in Hw; [rewrite (pr_link _ _ H _ _ _ _ Hq Hlq Hj Hw); done|done|done|]. intros E. injection E as -> ->. exact (Hd eq_refl).
Qed.

Lemma fresh_rep : pt_rep s' T'.
Proof.
  pose proof Hm as [W1 T1 _ _ _]. constructor; simpl; rewrite ?T1.
  - done.
  - by apply (pr_total _ _ H).
  - rewrite fresh_lookup, decide_False; [by apply (pr_root _ _ H)|]. by destruct p.
  - by apply (pr_pml4 _ _ H).
  - intros f Hf Ht. rewrite fresh_taken in Ht by lia. destruct (f =? g); [done|].
    apply (fr_ok _ _ _ _ _ Hr). by apply (pr_free _ _ H).
  - intros q tq Hq. rewrite fresh_lookup in Hq. case_decide; [injection Hq as <-|].
    + split; [apply (fr_ok _ _ _ _ _ Hr); by apply (pr_free _ _ H)|]. exists g. split_and!; [done|lia|lia|].
      rewrite fresh_taken by lia. by rewrite Z.eqb_refl.
    + destruct (fresh_table _ _ Hq) as (f & -> & Hf & Ht & Hfg & Hok).
      split; [by apply (fr_ok _ _ _ _ _ Hr)|]. exists f. split_and!; [done|lia|lia|].
      rewrite fresh_taken by lia. by destruct (f =? g).
  - intros q1 q2 tq Hq1 Hq2. rewrite fresh_lookup in Hq1, Hq2.
    assert (∀ q, T !! q = Some new → False) as Hnew.
    { intros q Hq. destruct (fresh_table _ _ Hq) as (f & E & _ & _ & Hfg & _).
      unfold new, PAGE_SIZE in E. lia. }
    destruct (decide (q1 = p ++ [i])) as [->|], (decide (q2 = p ++ [i])) as [->|]; [done|..].
    + injection Hq1 as <-. by destruct (Hnew q2).
    + injection Hq2 as <-. by destruct (Hnew q1).
    + by eapply (pr_inj _ _ H).
  - intros q j tq Hq. rewrite fresh_lookup in Hq. case_decide as Hd.
    + apply app_inj_2 in Hd as [-> Hd]; [|done]. injection Hd as ->. split_and!; [done|lia|lia|].
      rewrite fresh_lookup. case_decide; eauto.
    + destruct (pr_closed _ _ H _ _ _ Hq) as (Hl & Hj & [x Hx]). split_and!; [done|lia|lia|].
      rewrite fresh_lookup. case_decide; eauto.
  - intros q tq j w. apply fresh_link.
Qed.

Lemma fresh_extends : extends s T s' T'.
Proof.
  pose proof Hm as [W1 T1 _ _ _]. constructor; simpl.
  - by apply insert_subseteq.
  - done.
  - intros f Hf Ht. rewrite fresh_taken by done. by destruct (f =? g).
  - intros q tq j Hl Hq Hj. rewrite fresh_lookup in Hq. case_decide as Hd.
    + injection Hq as <-. subst q. rewrite Hnone. by apply (fr_new _ _ _ _ _ Hr).
    + rewrite Hq. apply fresh_old_word with q; [done|done|]. intros E. injection E as -> ->. lia.
  - intros q tq j w Hq Hl Hj Hw. rewrite fresh_lookup in Hq. case_decide as Hd.
    + injection Hq as <-. subst q. rewrite Hnone, (fr_new _ _ _ _ _ Hr j Hj).
      split; [intros [= <-]; by vm_compute in Hw|by intros []].
    + rewrite Hq. destruct (decide ((q, j) = (p, i))) as [E|E].
      * injection E as -> ->. assert (tq = t) as -> by congruence. rewrite (fr_entry _ _ _ _ _ Hr).
        destruct (table_entry g) as (_ & _ & E3); [pose proof (pr_total _ _ H); lia|]. fold new v in E3.
        split; [intros [= <-]; congruence|]. intros [_ E]. apply Hold in E. congruence.
      * rewrite (fresh_old_word q) by done. naive_solver.
  - intros a (Ha & Hat & Hno).
    assert (a / PAGE_SIZE ≠ g) as Hag by congruence.
    assert (¬ in_page new a) as Hnew by (unfold new; by rewrite in_page_frame).
    split.
    + apply (fr_outside _ _ _ _ _ Hr); [|done]. intros Hx. apply (Hno _ _ Hp). unfold in_page, PAGE_SIZE. lia.
    + split; [simpl; by rewrite T1|]. simpl. split.
      * rewrite fresh_taken; [by destruct (_ =? g)|].
        unfold PAGE_SIZE in *. split; [apply Z.div_pos; lia|apply Z.div_lt_upper_bound; lia].
      * intros q tq Hq. rewrite fresh_lookup in Hq. case_decide; [by injection Hq as <-|by eapply Hno].
Qed.
End fresh.

Lemma next_table_run s T p t i msg :
  pt_rep s T → T !! p = Some t → (length p < 3)%nat → 0 ≤ i < 512 →
  (∀ w, word_at (ram_ s) (t + 8 * i) = Some w → huge w = false) →
  (next_table off (phys_to_virt off t) i msg s = Stuck (Panic msg) ∧
   ∀ f, 512 ≤ f < physmem_total (pm s) → taken (pm s) f = true) ∨
  (∃ t' s' T', next_table off (phys_to_virt off t) i msg s = Done (phys_to_virt off t') s' ∧
     pt_rep s' T' ∧ extends s T s' T' ∧ T' !! (p ++ [i]) = Some t' ∧
     ∃ g, ∀ f, 0 ≤ f < physmem_total (pm s) → f ≠ g → taken (pm s') f = taken (pm s) f).
Proof.
  intros H Hp Hlen Hi Hsmall. destruct (load_entry_run s T p t i H Hp Hi) as (w & Hw & El).
  pose proof (pr_link _ _ H _ _ _ _ Hp Hlen Hi Hw) as Hnext. unfold next_of in Hnext. rewrite (Hsmall w Hw) in Hnext.
  unfold next_table. mrun El.
  destruct (Z.land w PTE_PRESENT =? 0).
  2:{ right. exists (Z.land w ADDR_MASK), s, T. mrun El.
      split_and!; [done|done|apply extends_refl|done|by exists 0]. }
  unfold on_pm, zoom. mred.
  destruct (alloc_run (pm s) 1 (pr_pm _ _ H)) as [[-> Hno]|(g & pm1 & -> & Hg & Hgt & Hrun & _ & Hm)];
    [done|left|right]; simpl.
  { split; [done|]. intros f Hf. apply not_false_is_true. intros E.
    apply (Hno f); [lia|lia|]. intros f' Hf'. by replace f' with f by lia. }
  set (s1 := mk_vm pm1 (ram_ s) (kernel_pml4 s)).
  assert (taken (pm s) g = false) as Hfree by (apply Hrun; lia).
  rewrite (proj2 (Z.eqb_neq (g * PAGE_SIZE) 0)) by (unfold PAGE_SIZE; lia).
  pose proof (pr_total _ _ H) as Htot.
  destruct (pr_frame _ _ H _ _ Hp) as (Hok & f & -> & Hf & Hft).
  assert (f ≠ g) as Hfg by congruence.
  rewrite (store_entry_run s1) by (done || lia). simpl.
  pose proof (direct_map g 0 ltac:(lia) ltac:(unfold PAGE_SIZE; lia)) as Hdm. rewrite !Z.add_0_r in Hdm.
  unfold on_ram, zoom. simpl. rewrite Hdm.
  set (v := Z.lor (Z.lor (Z.land (g * PAGE_SIZE) ADDR_MASK) PTE_PRESENT) PTE_WRITABLE).
  assert (mapped (g * PAGE_SIZE) PAGE_SIZE (mem_write (f * PAGE_SIZE + 8 * i) (le_split 8 v) (ram_ s))) as Hmp.
  { apply mapped_write. intros a Ha. destruct (pr_free _ _ H g) with a as (b & Hb & _); [lia|done|lia|eauto]. }
  rewrite memset_run; [|unfold PAGE_SIZE; lia|unfold is_byte; lia|done].
  pose proof (fresh_ram_intro (ram_ s) (f * PAGE_SIZE + 8 * i) v (g * PAGE_SIZE)) as Hr.
  specialize (Hr ltac:(unfold in_page, PAGE_SIZE; nia)).
  eexists (g * PAGE_SIZE), _, (<[p ++ [i] := g * PAGE_SIZE]> T).
  split; [reflexivity|]. split_and!.
  - exact (fresh_rep s T p _ i g pm1 H Hp Hlen Hi Hnext ltac:(lia) Hfree Hm _ Hr).
  - exact (fresh_extends s T p _ i g pm1 H Hp Hlen Hi Hnext Hsmall ltac:(lia) Hfree Hm _ Hr).
  - apply lookup_insert_eq.
  - exists g. intros f' Hf' Hne. simpl. rewrite (mk_taken _ _ _ _ _ _ Hm f' Hf').
    destruct (Z.leb_spec g f'), (Z.ltb_spec f' (g + 1)); simpl; done || lia.
Qed.

(** ** Mapping a page *)

(** At least [n] frames can still be allocated. *)
Definition has_free (s : vm) (n : nat) : Prop :=
  ∃ l, NoDup l ∧ length l = n ∧
       Forall (λ f, 512 ≤ f < physmem_total (pm s) ∧ taken (pm s) f = false) l.

Lemma has_free_drop (l : list Z) n g :
  NoDup l → length l = S n → ∃ l', NoDup l' ∧ length l' = n ∧ l' ⊆ l ∧ g ∉ l'.
Proof.
  intros Hl Hn. destruct (decide (g ∈ l)) as [Hg|Hg].
  - apply elem_of_Permutation in Hg as [k Hk]. rewrite Hk in Hl. apply NoDup_cons in Hl as [Hgk Hk'].
    apply Permutation_length in Hk as Hlen. simpl in Hlen.
    exists k. split_and!; [done|lia| |done]. intros x Hx. rewrite Hk. by right.
  - destruct l as [|x k]; [done|]. apply NoDup_cons in Hl as [_ Hk]. simpl in Hn.
    exists k. split_and!; [done|lia|by right|]. intros Hgk. apply Hg. by right.
Qed.

Lemma next_table_ok s T p t i msg n :
  pt_rep s T → T !! p = Some t → (length p < 3)%nat → 0 ≤ i < 512 →
  (∀ w, word_at (ram_ s) (t + 8 * i) = Some w → huge w = false) → has_free s (S n) →
  ∃ t' s' T', next_table off (phys_to_virt off t) i msg s = Done (phys_to_virt off t') s' ∧
     pt_rep s' T' ∧ extends s T s' T' ∧ T' !! (p ++ [i]) = Some t' ∧ has_free s' n.
Proof.
  intros H Hp Hl Hi Hs (l & Hnd & Hlen & Hfree).
  destruct (next_table_run s T p t i msg H Hp Hl Hi Hs)
    as [[_ Hno]|(t' & s' & T' & E & H' & Hex & Ht' & g & Hg)].
  - destruct l as [|f l]; [done|]. apply Forall_cons in Hfree as [[Hf Hft] _].
    rewrite Hno in Hft by done. done.
  - exists t', s', T'. split_and!; try done.
    destruct (has_free_drop l n g Hnd Hlen) as (l' & Hnd' & Hlen' & Hsub & Hgl).
    exists l'. split_and!; [done|done|]. apply Forall_forall. intros f Hf.
    rewrite Forall_forall in Hfree. destruct (Hfree f (Hsub _ Hf)) as [Hr Ht].
    rewrite (ex_total _ _ _ _ Hex). split; [done|]. rewrite Hg; [done|lia|]. by intros ->.
Qed.

(** Writing an entry of a leaf table. *)
Lemma leaf_store_rep s T p t i v :
  pt_rep s T → T !! p = Some t → length p = 3%nat → 0 ≤ i < 512 →
  let s' := mk_vm (pm s) (mem_write (t + 8 * i) (le_split 8 v) (ram_ s)) (kernel_pml4 s) in
  pt_rep s' T ∧
  (∀ q tq j, T !! q = Some tq → 0 ≤ j < 512 →
     word_at (ram_ s') (tq + 8 * j) =
     if decide (q = p ∧ j = i) then Some (u64 v) else word_at (ram_ s) (tq + 8 * j)) ∧
  (∀ a, other_used s T a → ram_ s' !! a = ram_ s !! a ∧ other_used s' T a).
Proof.
  intros H Hp Hl Hi s'.
  destruct (pr_frame _ _ H _ _ Hp) as (Hok & ft & Et & Hft & Htt).
  assert (∀ q tq j, T !! q = Some tq → 0 ≤ j < 512 →
     word_at (ram_ s') (tq + 8 * j) =
     if decide (q = p ∧ j = i) then Some (u64 v) else word_at (ram_ s) (tq + 8 * j)) as Hw.
  { intros q tq j Hq Hj. case_decide as Hd.
    - destruct Hd as [-> ->]. assert (tq = t) as -> by congruence. apply word_at_write.
    - apply word_at_frame. intros x Hx. apply lookup_mem_write_out. rewrite length_le_split.
      intros Hx2. apply Hd. destruct (pr_frame _ _ H _ _ Hq) as (_ & f & Ef & Hf & _).
      destruct (decide (f = ft)) as [->|]; [|unfold PAGE_SIZE in *; nia].
      assert (tq = t) as -> by congruence.
      split; [exact (pr_inj _ _ H _ _ _ Hq Hp)|lia]. }
  split_and!; [|done|].
  - destruct H. constructor; try done.
    + intros f Hf Htf. apply page_ok_write; [by apply pr_free0|apply le_split_bytes].
    + intros q tq Hq. destruct (pr_frame0 _ _ Hq) as [Hq1 Hq2]. split; [|done].
      apply page_ok_write; [done|apply le_split_bytes].
    + intros q tq j w Hq Hlq Hj Hwq. rewrite (Hw _ _ _ Hq Hj), decide_False in Hwq.
      * by eapply pr_link0.
      * intros [-> _]. lia.
  - intros a (Ha & Hta & Hno). split; [|done]. apply lookup_mem_write_out.
    rewrite length_le_split. intros Hx. apply (Hno _ _ Hp). unfold in_page, PAGE_SIZE. lia.
Qed.


Definition path (va : Z) : list Z := [level_index va 39; level_index va 30; level_index va 21].

Lemma closed_below s T q i : pt_rep s T → T !! q = None → T !! (q ++ [i]) = None.
Proof.
  intros H Hq. destruct (T !! (q ++ [i])) eqn:E; [|done].
  destruct (pr_closed _ _ H _ _ _ E) as (_ & _ & [? Hx]). congruence.
Qed.

(** A step of the walk in a directory follows the tree or ends with a huge page. *)
Lemma walk_step s T q t va sh shs w :
  pt_rep s T → T !! q = Some t → (length q < 3)%nat → sh ≠ 12 → word_at (ram_ s) (t + 8 * level_index va sh) = Some w →
  walk_from (ram_ s) va (sh :: shs) t =
  if huge w then if sh =? 39 then None else Some (w, sh)
  else T !! (q ++ [level_index va sh]) ≫= walk_from (ram_ s) va shs.
Proof.
  intros H Hq Hl Hsh Hw. cbn [walk_from]. rewrite Hw. cbn [mbind option_bind].
  rewrite (pr_link _ _ H _ _ _ _ Hq Hl (level_index_bound va sh) Hw), (proj2 (Z.eqb_neq sh 12) Hsh). unfold next_of, huge.
  by destruct (Z.land w PTE_PRESENT =? 0), (Z.land w PTE_HUGE =? 0).
Qed.

Lemma walk_last s t va w : word_at (ram_ s) (t + 8 * level_index va 12) = Some w →
  walk_from (ram_ s) va [12] t = if Z.land w PTE_PRESENT =? 0 then None else Some (w, 12).
Proof. intros Hw. cbn [walk_from]. by rewrite Hw. Qed.

(** The walk of an address whose directories are all in the tree. *)
Lemma walk_hit s T va pt w :
  pt_rep s T → T !! path va = Some pt → word_at (ram_ s) (pt + 8 * level_index va 12) = Some w →
  walk (ram_ s) root va = if Z.land w PTE_PRESENT =? 0 then None else Some (w, 12).
Proof.
  intros H Hpt Hw. unfold path in Hpt.
  assert (∀ q i t, T !! (q ++ [i]) = Some t → ∃ tq, T !! q = Some tq ∧ (length q < 3)%nat ∧ 0 ≤ i < 512 ∧
    ∃ w, word_at (ram_ s) (tq + 8 * i) = Some w ∧ huge w = false) as Hdown.
  { intros q i t Hq. destruct (pr_closed _ _ H _ _ _ Hq) as (Hl & Hi & [tq Htq]).
    destruct (load_entry_run s T q tq i H Htq Hi) as (x & Hx & _). exists tq. split_and!; [done|done|lia|lia|].
    exists x. split; [done|]. pose proof (pr_link _ _ H _ _ _ _ Htq Hl Hi Hx) as E. unfold next_of in E.
    rewrite Hq in E. by destruct (Z.land x PTE_PRESENT =? 0), (huge x). }
  destruct (Hdown [_; _] _ _ Hpt) as (pd & Hpd & _ & _ & w3 & Hw3 & E3).
  destruct (Hdown [_] _ _ Hpd) as (pdpt & Hpdpt & _ & _ & w2 & Hw2 & E2).
  destruct (Hdown [] _ _ Hpdpt) as (r & Hr & _ & _ & w1 & Hw1 & E1).
  rewrite (pr_root _ _ H) in Hr. injection Hr as <-. unfold walk.
  rewrite (walk_step s T [] root va 39 _ w1 H (pr_root _ _ H)) by (done || (simpl; lia)). rewrite E1. cbn [app]. rewrite Hpdpt. cbn [mbind option_bind].
  rewrite (walk_step s T _ pdpt va 30 _ w2 H Hpdpt) by (done || (simpl; lia)). rewrite E2. cbn [app]. rewrite Hpd. cbn [mbind option_bind].
  rewrite (walk_step s T _ pd va 21 _ w3 H Hpd) by (done || (simpl; lia)). rewrite E3. cbn [app]. rewrite Hpt. cbn [mbind option_bind].
  by apply walk_last.
Qed.

(** The walk of [va] is the same when the tree grows, keeps its huge pages, and the leaf
    entry is the same, or nothing where there was no table. *)
Lemma walk_same s T s' T' va :
  pt_rep s T → pt_rep s' T' → T ⊆ T' →
  (∀ p t j w, T' !! p = Some t → (length p < 3)%nat → 0 ≤ j < 512 → huge w = true →
     word_at (ram_ s') (t + 8 * j) = Some w ↔ T !! p = Some t ∧ word_at (ram_ s) (t + 8 * j) = Some w) →
  (∀ t, T' !! path va = Some t → word_at (ram_ s') (t + 8 * level_index va 12) =
     match T !! path va with Some _ => word_at (ram_ s) (t + 8 * level_index va 12) | None => Some 0 end) →
  walk (ram_ s') root va = walk (ram_ s) root va.
Proof.
  intros H H' Hsub Hhuge Hleaf.
  assert (∀ shs pre, [39; 30; 21; 12] = pre ++ shs →
    (T' !! (level_index va <$> pre) ≫= walk_from (ram_ s') va shs) =
    (T !! (level_index va <$> pre) ≫= walk_from (ram_ s) va shs)) as Hgo.
  { induction shs as [|sh shs IH]; intros pre E.
    { by destruct (T' !! (level_index va <$> pre)), (T !! (level_index va <$> pre)). }
    specialize (IH (pre ++ [sh])). rewrite <-app_assoc in IH. specialize (IH E). rewrite fmap_app in IH. cbn [fmap list_fmap] in IH.
    set (q := level_index va <$> pre) in *. assert (length q = length pre) as Hlq by (unfold q; by rewrite length_fmap).
    pose proof (f_equal length E) as Hl. rewrite length_app in Hl. cbn [length] in Hl.
    destruct (T' !! q) as [t'|] eqn:Et'; cbn [mbind option_bind].
    2:{ destruct (T !! q) eqn:Et; [|done]. pose proof (lookup_weaken _ _ _ _ Et Hsub). congruence. }
    pose proof (level_index_bound va sh) as Hb.
    destruct (load_entry_run s' T' q t' _ H' Et' Hb) as (w' & Hw' & _).
    destruct shs as [|sh' shs].
    - (* the leaf table *)
      assert (pre = [39; 30; 21] ∧ sh = 12) as [-> ->].
      { assert (length pre = 3%nat) as Hp by (cbn [length] in Hl; lia).
        destruct pre as [|a [|b [|c [|]]]]; try discriminate. injection E as <- <- <- <-. done. }
      rewrite (walk_last s' t' va w' Hw'). change q with (path va) in *. specialize (Hleaf t' Et').
      destruct (T !! path va) as [t|] eqn:Et; cbn [mbind option_bind].
      + assert (t = t') as -> by (pose proof (lookup_weaken _ _ _ _ Et Hsub); congruence).
        by rewrite (walk_last s t' va w') by congruence.
      + assert (w' = 0) as -> by congruence. done.
    - assert (length q < 3)%nat as Hq3 by (cbn [length] in Hl; lia).
      assert (sh ≠ 12) as Hsh.
      { intros ->. destruct pre as [|a [|b [|c [|]]]]; [..|cbn [length] in Hl; lia]; cbn [app] in E; congruence. }
      rewrite (walk_step s' T' q t' va sh _ w' H' Et' Hq3 Hsh Hw'), IH.
      destruct (T !! q) as [t|] eqn:Et; cbn [mbind option_bind].
      + assert (t = t') as -> by (pose proof (lookup_weaken _ _ _ _ Et Hsub); congruence).
        destruct (load_entry_run s T q t' _ H Et Hb) as (w & Hw & _).
        rewrite (walk_step s T q t' va sh _ w H Et Hq3 Hsh Hw).
        destruct (huge w') eqn:Ew'.
        * destruct (proj1 (Hhuge q t' _ w' Et' Hq3 Hb Ew') Hw') as [_ E2]. assert (w' = w) as -> by congruence. by rewrite Ew'.
        * destruct (huge w) eqn:Ew; [|done]. pose proof (proj2 (Hhuge q t' _ w Et' Hq3 Hb Ew) (conj Et Hw)). congruence.
      + rewrite (closed_below s T q _ H Et). cbn [mbind option_bind]. destruct (huge w') eqn:Ew'; [|done].
        destruct (proj1 (Hhuge q t' _ w' Et' Hq3 Hb Ew') Hw') as [E2 _]. congruence. }
  pose proof (Hgo [39; 30; 21; 12] [] eq_refl) as E. cbn [fmap list_fmap] in E.
  by rewrite (pr_root _ _ H), (pr_root _ _ H') in E.
Qed.

(** No directory on the way to [va] holds a huge page. *)
Definition no_huge (s : vm) (T : tables) (va : Z) : Prop :=
  ∀ q i t w, (q ++ [i]) `prefix_of` path va → T !! q = Some t → word_at (ram_ s) (t + 8 * i) = Some w → huge w = false.

Lemma no_huge_dirs va q i : (q ++ [i]) `prefix_of` path va → (length q < 3)%nat ∧ 0 ≤ i < 512.
Proof.
  intros Hp. pose proof (prefix_length _ _ Hp) as Hl. rewrite length_app in Hl. cbn in Hl. split; [lia|].
  assert (i ∈ path va) as Hi. { destruct Hp as [k ->]. set_solver. }
  unfold path in Hi. rewrite !elem_of_cons in Hi. destruct Hi as [->|[->|[->|Hi]]]; [apply level_index_bound..|by apply elem_of_nil in Hi].
Qed.

Lemma no_huge_extends s T s' T' va : extends s T s' T' → no_huge s T va → no_huge s' T' va.
Proof.
  intros X Hn q i t w Hp Hq Hw. destruct (no_huge_dirs va q i Hp) as [Hl Hi].
  destruct (huge w) eqn:E; [|done]. destruct (proj1 (ex_huge _ _ _ _ X _ _ _ _ Hq Hl Hi E) Hw) as [Hq0 Hw0].
  rewrite <-E. by eapply Hn.
Qed.

(** The code takes a huge page for a table: the memory it maps is read and written as one. *)
Lemma huge_page_taken_for_table t i msg s w : load_entry off t i s = Done w s → huge w = true →
  next_table off t i msg s = Done (phys_to_virt off (Z.land w ADDR_MASK)) s.
Proof.
  intros E Hw. unfold huge in Hw. unfold next_table. mrun E.
  destruct (Z.land w PTE_PRESENT =? 0); [done|]. by mrun E.
Qed.

(** Two addresses with the same indices lie in the same page (of the 48-bit space). *)
Lemma level_indices_eq va va' :
  path va = path va' → level_index va 12 = level_index va' 12 →
  Z.land (Z.shiftr va 12) (Z.ones 36) = Z.land (Z.shiftr va' 12) (Z.ones 36).
Proof.
  unfold path. intros [= H1 H2 H3] H4. unfold level_index in *. change 0x1FF with (Z.ones 9) in *.
  apply Z.bits_inj'. intros i Hi. rewrite !Z.land_spec, !Z.shiftr_spec by done.
  destruct (Z.lt_ge_cases i 36); [|by rewrite !(Z.ones_spec_high 36), !andb_false_r by lia].
  f_equal.
  assert (∀ sh k, Z.land (Z.shiftr va sh) (Z.ones 9) = Z.land (Z.shiftr va' sh) (Z.ones 9) →
    0 ≤ k < 9 → Z.testbit va (k + sh) = Z.testbit va' (k + sh)) as Hbit.
  { intros sh k E Hk. apply (f_equal (λ z, Z.testbit z k)) in E.
    rewrite !Z.land_spec, !Z.shiftr_spec, !Z.ones_spec_low, !andb_true_r in E by lia. done. }
  destruct (Z.lt_ge_cases i 9); [by apply Hbit|].
  destruct (Z.lt_ge_cases i 18); [replace (i + 12) with (i - 9 + 21) by lia; apply Hbit; [done|lia]|].
  destruct (Z.lt_ge_cases i 27); [replace (i + 12) with (i - 18 + 30) by lia; apply Hbit; [done|lia]|].
  replace (i + 12) with (i - 27 + 39) by lia. apply Hbit; [done|lia].
Qed.

(** The page of an address: bits 12 to 47. *)
Definition vpage (va : Z) : Z := Z.land (Z.shiftr va 12) (Z.ones 36).

Lemma page_indices va va' :
  vpage va = vpage va' → path va = path va' ∧ level_index va 12 = level_index va' 12.
Proof.
  unfold vpage. intros E.
  assert (∀ sh, 12 ≤ sh ≤ 39 → level_index va sh = level_index va' sh) as Hl.
  { intros sh Hsh. unfold level_index. change 0x1FF with (Z.ones 9). apply Z.bits_inj'. intros i Hi.
    rewrite !Z.land_spec, !Z.shiftr_spec by done.
    destruct (Z.lt_ge_cases i 9); [|by rewrite !(Z.ones_spec_high 9), !andb_false_r by lia].
    f_equal. apply (f_equal (λ z, Z.testbit z (i + sh - 12))) in E.
    rewrite !Z.land_spec, !Z.shiftr_spec, !Z.ones_spec_low, !andb_true_r in E by lia.
    by replace (i + sh - 12 + 12) with (i + sh) in E by lia. }
  unfold path. by rewrite !Hl by lia.
Qed.

(** What the walk finds is preserved by the extension of the tree. *)
Lemma walk_extends s T s' T' va :
  pt_rep s T → pt_rep s' T' → extends s T s' T' → walk (ram_ s') root va = walk (ram_ s) root va.
Proof.
  intros H H' Hex. apply (walk_same s T s' T'); [done|done|by apply (ex_sub _ _ _ _ Hex)|by apply (ex_huge _ _ _ _ Hex)|].
  intros t Ht. apply (ex_leaf _ _ _ _ Hex (path va) t); [done|done|apply level_index_bound].
Qed.

(** The result of mapping one page. *)
Record page_mapped (s : vm) (T : tables) (va w : Z) (s' : vm) (T' : tables) : Prop := {
  pg_rep : pt_rep s' T';
  pg_walk : ∀ va', walk (ram_ s') root va' =
    if decide (vpage va' = vpage va)
    then if Z.land w PTE_PRESENT =? 0 then None else Some (w, 12)
    else walk (ram_ s) root va';
  pg_huge : ∀ va', no_huge s T va' → no_huge s' T' va';
  pg_total : physmem_total (pm s') = physmem_total (pm s);
  pg_other : ∀ a, other_used s T a → ram_ s' !! a = ram_ s !! a ∧ other_used s' T' a;
}.

Lemma map_page_run s T va pa fl n :
  pt_rep s T → no_huge s T va → has_free s (S (S (S n))) →
  ∃ s' T', paging_map_page off va pa fl s = Done tt s' ∧
    page_mapped s T va (u64 (Z.lor (Z.land pa ADDR_MASK) fl)) s' T' ∧ has_free s' n.
Proof.
  intros H Hsm Hf. unfold paging_map_page, get. mred. rewrite (pr_pml4 _ _ H).
  pose proof (level_index_bound va 39) as B1. pose proof (level_index_bound va 30) as B2.
  pose proof (level_index_bound va 21) as B3. pose proof (level_index_bound va 12) as B4.
  destruct (next_table_ok s T [] root (level_index va 39) "Could not allocate PDPT!" _ H (pr_root _ _ H)
    ltac:(simpl; lia) B1 ltac:(intros w; apply (Hsm []); [by eexists [_; _]|by apply (pr_root _ _ H)]) Hf) as (pdpt & s1 & T1 & E1 & H1 & X1 & L1 & F1). rewrite E1.
  destruct (next_table_ok s1 T1 _ pdpt (level_index va 30) "Could not allocate PD!" _ H1 L1
    ltac:(simpl; lia) B2 ltac:(intros w; apply (no_huge_extends _ _ _ _ _ X1 Hsm [level_index va 39]); [by eexists [_]|exact L1]) F1) as (pd & s2 & T2 & E2 & H2 & X2 & L2 & F2). rewrite E2.
  destruct (next_table_ok s2 T2 _ pd (level_index va 21) "Could not allocate PT!" _ H2 L2
    ltac:(simpl; lia) B3 ltac:(intros w; apply (no_huge_extends _ _ _ _ _ (extends_trans _ _ _ _ _ _ X1 X2) Hsm [level_index va 39; level_index va 30]); [by eexists []|exact L2]) F2) as (pt & s3 & T3 & E3 & H3 & X3 & L3 & F3). rewrite E3.
  change (([] ++ [level_index va 39] ++ [level_index va 30]) ++ [level_index va 21]) with (path va) in L3.
  assert (extends s T s3 T3) as X by (eapply extends_trans; [|done]; by eapply extends_trans).
  change (T3 !! path va = Some pt) in L3.
  set (w := Z.lor (Z.land pa ADDR_MASK) fl).
  destruct (leaf_store_rep s3 T3 (path va) pt (level_index va 12) w H3 L3 eq_refl B4) as (H4 & W4 & O4).
  destruct (pr_frame _ _ H3 _ _ L3) as (Hok & f & Ef & Hf3 & _). pose proof (pr_total _ _ H3).
  pose proof (store_entry_run s3 f (level_index va 12) w) as Es. rewrite <-Ef in Es.
  specialize (Es Hok ltac:(lia) B4).
  set (s4 := mk_vm (pm s3) _ _) in *. exists s4, T3. split; [exact Es|].
  split; [|exact F3]. constructor.
  - exact H4.
  - intros va'. pose proof (level_index_bound va' 12) as B4'. case_decide as Hd.
    + destruct (page_indices _ _ Hd) as [Ep Ei]. rewrite <-Ep in L3. apply (walk_hit s4 T3 va' pt); [done..|].
      by rewrite Ei, (W4 _ _ _ L3 B4), decide_True by (by rewrite ?Ep).
    + rewrite <-(walk_extends s T s3 T3 va' H H3 X). apply (walk_same s3 T3 s4 T3); [done..| |].
      * intros q t j x Hq Hl Hj _. rewrite (W4 _ _ _ Hq Hj), decide_False; [naive_solver|]. intros [-> _]. cbn in Hl. lia.
      * intros t Ht. rewrite Ht, (W4 _ _ _ Ht B4'), decide_False; [done|].
        intros [Hpath Hidx]. apply Hd. unfold vpage. by apply level_indices_eq.
  - intros va' Hn q i t x Hp Hq Hx. destruct (no_huge_dirs va' q i Hp) as [Hl Hi].
    rewrite (W4 _ _ _ Hq Hi), decide_False in Hx; [by eapply (no_huge_extends s T s3 T3 va' X Hn)|]. intros [-> _]. cbn in Hl. lia.
  - apply (ex_total _ _ _ _ X).
  - intros a Ha. destruct (ex_other _ _ _ _ X a Ha) as [R1 Ha1]. destruct (O4 a Ha1) as [R2 Ha2].
    split; [congruence|done].
Qed.
End tree.

(** C4: mapping a page whose directories hold no huge page makes the processor translate that
    page, as one of 4 KiB, to the given frame with the given flags: with three frames to spare
    it never panics, intermediate tables are made where they are missing, every other
    translation, those of huge pages included, is what it was, the tree of tables stays well
    formed, and no memory in use other than the tables is written.  The code does not look at
    the bit of a huge page ([huge_page_taken_for_table]). *)
Theorem paging_map_page_correct off root s T va pa fl :
  pt_rep off root s T → no_huge s T va → has_free s 3 →
  let w := u64 (Z.lor (Z.land pa ADDR_MASK) fl) in
  ∃ s' T', paging_map_page off va pa fl s = Done tt s' ∧ pt_rep off root s' T' ∧
    (∀ va', walk (ram_ s') root va' =
       if decide (vpage va' = vpage va)
       then if Z.land w PTE_PRESENT =? 0 then None else Some (w, 12)
       else walk (ram_ s) root va') ∧
    (∀ a, other_used s T a → ram_ s' !! a = ram_ s !! a).
Proof.
  intros H Hn Hf w. destruct (map_page_run off root s T va pa fl 0 H Hn Hf) as (s' & T' & E & [R W _ _ O] & _).
  exists s', T'. split_and!; [done|done|done|]. intros a Ha. by destruct (O a Ha).
Qed.

(** Where no directory holds a huge page, [is_page_mapped] is the processor's opinion: it
    answers yes exactly when the walk of the current tables finds a present entry, and changes
    nothing. *)
Theorem is_page_mapped_correct off root s T va :
  pt_rep off root s T → no_huge s T va →
  is_page_mapped off va s = Done (bool_decide (is_Some (walk (ram_ s) root va))) s.
Proof.
  intros H Hn. unfold is_page_mapped, get. mred. rewrite (pr_pml4 _ _ _ _ H).
  assert (∀ q t sh shs k, T !! q = Some t → (length q < 3)%nat → sh ≠ 12 → (q ++ [level_index va sh]) `prefix_of` path va →
    (∀ t', T !! (q ++ [level_index va sh]) = Some t' →
      k (phys_to_virt off t') s = Done (bool_decide (is_Some (walk_from (ram_ s) va shs t'))) s) →
    follow off (phys_to_virt off t) (level_index va sh) k s =
    Done (bool_decide (is_Some (walk_from (ram_ s) va (sh :: shs) t))) s) as Hfol.
  { intros q t sh shs k Hq Hl Hsh Hp Hk. destruct (load_entry_run off root s T q t _ H Hq (level_index_bound va sh)) as (w & Hw & E).
    pose proof (pr_link _ _ _ _ H _ _ _ _ Hq Hl (level_index_bound va sh) Hw) as Hnext.
    rewrite (walk_step off root s T q t va sh shs w H Hq Hl Hsh Hw), (Hn _ _ _ _ Hp Hq Hw).
    unfold next_of in Hnext. rewrite (Hn _ _ _ _ Hp Hq Hw) in Hnext. unfold follow. mrun E.
    destruct (Z.land w PTE_PRESENT =? 0); [by rewrite Hnext|]. mrun E. rewrite Hnext. by apply Hk. }
  apply (Hfol [] root 39); [by apply (pr_root _ _ _ _ H)|simpl; lia|done|by eexists [_; _]|]. intros pdpt L1.
  apply (Hfol [level_index va 39] pdpt 30); [done|simpl; lia|done|by eexists [_]|]. intros pd L2.
  apply (Hfol [level_index va 39; level_index va 30] pd 21); [done|simpl; lia|done|by eexists []|]. intros pt L3.
  destruct (load_entry_run off root s T _ pt _ H L3 (level_index_bound va 12)) as (w & Hw & E).
  mrun E. rewrite (walk_last s pt va w Hw). by destruct (Z.land w PTE_PRESENT =? 0).
Qed.

(** ** Mapping a region *)

Lemma vpage_page vp q r : 0 ≤ vp → 0 ≤ q → 0 ≤ r < PAGE_SIZE →
  vpage (vp * PAGE_SIZE + q * PAGE_SIZE + r) = (vp + q) mod 2 ^ 36.
Proof.
  intros Hv Hq Hr. unfold vpage. rewrite Z.land_ones, Z.shiftr_div_pow2 by lia. f_equal.
  unfold PAGE_SIZE in *. change (2 ^ 12) with 4096.
  replace (vp * 4096 + q * 4096 + r) with (r + (vp + q) * 4096) by lia.
  rewrite Z.div_add, Z.div_small by lia. lia.
Qed.

Lemma mod_distinct a i j n : 0 < n → 0 ≤ i < n → 0 ≤ j < n → (a + i) mod n = (a + j) mod n → i = j.
Proof.
  intros Hn Hi Hj E. assert ((i - j) mod n = 0) as Hd.
  { replace (i - j) with ((a + i) - (a + j)) by lia. rewrite Zminus_mod, E, Z.sub_diag. apply Z.mod_0_l. lia. }
  apply Z.mod_divide in Hd as [k Hk]; [|lia]. assert (k = 0) by nia. lia.
Qed.

Section region.
  Context (off root : Z) (s : vm) (T : tables) (g vp n : Z).
  Context (H : pt_rep off root s T).
  Context (Hg : 0 ≤ g) (Hn : 0 ≤ n ≤ 2 ^ 36) (Hgn : g + n ≤ physmem_total (pm s)).
  Context (Hvp : 0 ≤ vp) (Hvn : (vp + n) * PAGE_SIZE ≤ 2 ^ 64).
  Context (Hother : ∀ a, g * PAGE_SIZE ≤ a < (g + n) * PAGE_SIZE → other_used s T a).
  Context (Hsmall : ∀ j, 0 ≤ j < n → no_huge s T (vp * PAGE_SIZE + j * PAGE_SIZE)).
Let phys := g * PAGE_SIZE.
Let virt := vp * PAGE_SIZE.

(** The entry for page [j] of the region. *)
Definition region_pte (j : Z) : Z :=
  u64 (Z.lor (Z.land (phys + j * PAGE_SIZE) ADDR_MASK) (Z.lor PTE_PRESENT PTE_WRITABLE)).

Lemma region_pte_spec j : 0 ≤ j < n →
  (Z.land (region_pte j) PTE_PRESENT =? 0) = false ∧ Z.land (region_pte j) ADDR_MASK = phys + j * PAGE_SIZE.
Proof.
  intros Hj. pose proof (pr_total _ _ _ _ H). unfold region_pte. subst phys.
  replace (g * PAGE_SIZE + j * PAGE_SIZE) with ((g + j) * PAGE_SIZE) by lia.
  rewrite Z.lor_assoc. destruct (table_entry (g + j)) as (E1 & E2 & _); [lia|].
  split; [by apply Z.eqb_neq|exact E2].
Qed.

Lemma region_frame j : Z.shiftl (Z.shiftr (phys + j * PAGE_SIZE) 12) 12 = phys + j * PAGE_SIZE.
Proof.
  unfold phys. rewrite <-Z.mul_add_distr_r, Z.shiftl_mul_pow2, Z.shiftr_div_pow2 by lia.
  change PAGE_SIZE with (2 ^ 12). by rewrite Z.div_mul.
Qed.

(** After [i] pages are mapped. *)
Record region_inv (i : Z) (s' : vm) : Prop := {
  ri_rep : ∃ T', pt_rep off root s' T' ∧
    (∀ a, other_used s T a → ram_ s' !! a = ram_ s !! a ∧ other_used s' T' a) ∧
    (∀ va, no_huge s T va → no_huge s' T' va);
  ri_total : physmem_total (pm s') = physmem_total (pm s);
  ri_free : has_free s' (Z.to_nat (3 * (n - i)));
  ri_in : ∀ va j, 0 ≤ j < i → vpage va = (vp + j) mod 2 ^ 36 → walk (ram_ s') root va = Some (region_pte j, 12);
  ri_out : ∀ va, (∀ j, 0 ≤ j < i → vpage va ≠ (vp + j) mod 2 ^ 36) →
    walk (ram_ s') root va = walk (ram_ s) root va;
}.

Lemma region_maps :
  has_free s (Z.to_nat (3 * n)) →
  wp (for_to 0 n (λ i, paging_map_page off (u64 (virt + i * PAGE_SIZE)) (u64 (phys + i * PAGE_SIZE))
        (Z.lor PTE_PRESENT PTE_WRITABLE))) (λ _, region_inv n) s.
Proof.
  intros Hf. apply wp_for_to; [lia| |].
  { constructor; [exists T; split_and!; done|done|by rewrite Z.sub_0_r| |done]. intros ? ? ?. lia. }
  intros i s1 Hi [(T1 & R1 & O1 & N1) Tot1 F1 In1 Out1].
  replace (Z.to_nat (3 * (n - i))) with (S (S (S (Z.to_nat (3 * (n - (i + 1))))))) in F1 by lia.
  pose proof (pr_total _ _ _ _ H).
  assert (u64 (phys + i * PAGE_SIZE) = phys + i * PAGE_SIZE) as ->
    by (apply Z.mod_small; unfold phys, PAGE_SIZE in *; lia).
  assert (u64 (virt + i * PAGE_SIZE) = virt + i * PAGE_SIZE) as ->
    by (apply Z.mod_small; unfold virt, PAGE_SIZE in *; nia).
  destruct (map_page_run off root s1 T1 (virt + i * PAGE_SIZE) (phys + i * PAGE_SIZE)
    (Z.lor PTE_PRESENT PTE_WRITABLE) _ R1 (N1 _ (Hsmall i Hi)) F1) as (s2 & T2 & E & [R2 W2 N2 Tot2 O2] & F2).
  fold (region_pte i) in W2. destruct (region_pte_spec i Hi) as [Hpres _]. rewrite Hpres in W2.
  assert (vpage (virt + i * PAGE_SIZE) = (vp + i) mod 2 ^ 36) as Ev.
  { rewrite <-(Z.add_0_r (virt + i * PAGE_SIZE)). apply vpage_page; [done|lia|unfold PAGE_SIZE; lia]. }
  rewrite Ev in W2. apply wp_run. exists tt, s2. split; [done|]. constructor.
  - exists T2. split_and!; [done| |by auto]. intros a Ha. destruct (O1 a Ha) as [A1 A2], (O2 a (proj2 (O1 a Ha))).
    split; [congruence|done].
  - congruence.
  - done.
  - intros va j Hj Hva. rewrite W2, Hva. case_decide as Hd.
    + apply mod_distinct in Hd; [by subst|lia|lia|lia].
    + apply In1; [|done]. destruct (decide (j = i)); [by subst|lia].
  - intros va Hva. rewrite W2, decide_False by (apply Hva; lia). apply Out1. intros j Hj. apply Hva. lia.
Qed.

(** Writing a byte of memory in use that is no table changes no translation. *)
Lemma rep_other_write s1 T1 a b :
  pt_rep off root s1 T1 → other_used s1 T1 a → is_byte b →
  let s2 := mk_vm (pm s1) (<[a := b]> (ram_ s1)) (kernel_pml4 s1) in
  pt_rep off root s2 T1 ∧ ∀ va, walk (ram_ s2) root va = walk (ram_ s1) root va.
Proof.
  intros R (Ha & Hat & Hno) Hb s2.
  assert (∀ x, page_ok (ram_ s1) x → page_ok (ram_ s2) x) as Hok.
  { intros x Hx c Hc. simpl. destruct (decide (c = a)) as [->|].
    - rewrite lookup_insert_eq. eauto.
    - rewrite lookup_insert_ne by done. by apply Hx. }
  assert (∀ p t j, T1 !! p = Some t → 0 ≤ j < 512 →
    word_at (ram_ s2) (t + 8 * j) = word_at (ram_ s1) (t + 8 * j)) as Hw.
  { intros p t j Hp Hj. apply word_at_frame. intros x Hx. simpl. apply lookup_insert_ne.
    intros ->. apply (Hno _ _ Hp). unfold in_page, PAGE_SIZE. lia. }
  assert (pt_rep off root s2 T1) as R2.
  { destruct R. constructor; try done.
    - intros f Hf Hft. apply Hok. by apply pr_free0.
    - intros p t Hp. destruct (pr_frame0 _ _ Hp). split; [by apply Hok|done].
    - intros p t i w Hp Hl Hi Hwi. rewrite (Hw _ _ _ Hp Hi) in Hwi. by eapply pr_link0. }
  split; [done|]. intros va. apply (walk_same off root s1 T1 s2 T1); [done..| |].
  - intros p t j w Hp _ Hj _. rewrite (Hw _ _ _ Hp Hj). naive_solver.
  - intros t Ht. rewrite Ht. apply (Hw _ _ _ Ht), level_index_bound.
Qed.

(** After the first [i] bytes of the region are cleared. *)
Record clear_inv (s1 : vm) (i : Z) (s' : vm) : Prop := {
  ci_rep : ∃ T', pt_rep off root s' T' ∧ ∀ a, other_used s T a → other_used s' T' a;
  ci_walk : ∀ va, walk (ram_ s') root va = walk (ram_ s1) root va;
  ci_zero : ∀ a, phys ≤ a < phys + i → ram_ s' !! a = Some 0;
  ci_rest : ∀ a, ¬ (phys ≤ a < phys + i) → ram_ s' !! a = ram_ s1 !! a;
}.

Lemma region_clears s1 :
  region_inv n s1 → (∀ a, phys ≤ a < phys + n * PAGE_SIZE → is_Some (ram_ s !! a)) →
  wp (virt_memset0 off virt (n * PAGE_SIZE)) (λ _, clear_inv s1 (n * PAGE_SIZE)) s1.
Proof.
  intros [(T1 & R1 & O1 & _) Tot1 _ In1 _] Hram.
  assert (0 ≤ n * PAGE_SIZE) by (unfold PAGE_SIZE; lia).
  pose proof (pr_total _ _ _ _ H) as Htot.
  apply wp_for_to; [done| |].
  { constructor; [exists T1; split; [done|]; intros a Ha; by apply O1|done| |done]. intros a. lia. }
  intros i s2 Hi [(T2 & R2 & O2) W2 Z2 Rest2].
  assert (u64 (virt + i) = virt + i) as -> by (apply Z.mod_small; unfold virt, PAGE_SIZE in *; nia).
  pose proof (Z.div_mod i PAGE_SIZE ltac:(done)) as Edm.
  pose proof (Z.mod_pos_bound i PAGE_SIZE ltac:(done)) as Hr.
  set (q := i / PAGE_SIZE) in *. set (r := i mod PAGE_SIZE) in *.
  assert (0 ≤ q < n) as Hq by (unfold PAGE_SIZE in *; lia).
  assert (translate (ram_ s2) root (virt + i) = Some (phys + i)) as Etr.
  { unfold translate. rewrite W2, (In1 (virt + i) q Hq).
    - cbn [mbind option_bind]. rewrite (proj2 (region_pte_spec q Hq)), region_frame. f_equal.
      assert ((virt + i) mod 2 ^ 12 = r) as ->; [|lia].
      unfold virt, r. rewrite Z.add_comm. apply Z_mod_plus_full.
    - replace (virt + i) with (vp * PAGE_SIZE + q * PAGE_SIZE + r) by (unfold virt; lia).
      apply vpage_page; lia. }
  assert (virt_to_phys off (kernel_pml4 s2) = root) as Eroot.
  { destruct (pr_frame _ _ _ _ R2 _ _ (pr_root _ _ _ _ R2)) as (_ & f & Ef & Hf & _).
    pose proof (pr_total _ _ _ _ R2). rewrite (pr_pml4 _ _ _ _ R2), Ef.
    pose proof (direct_map off f 0 ltac:(lia) ltac:(unfold PAGE_SIZE; lia)) as Hdm.
    by rewrite !Z.add_0_r in Hdm. }
  assert (other_used s T (phys + i)) as Ho by (apply Hother; unfold phys, PAGE_SIZE in *; lia).
  assert (is_Some (ram_ s2 !! (phys + i))) as Hs.
  { rewrite Rest2 by lia. rewrite (proj1 (O1 _ Ho)). apply Hram. lia. }
  destruct (rep_other_write s2 T2 (phys + i) 0 R2 (O2 _ Ho) ltac:(unfold is_byte; lia)) as [R3 W3].
  apply wp_run. eexists tt, _. split.
  { unfold virt_store8. rewrite Eroot, Etr. unfold on_ram, zoom.
    rewrite store8_run; [reflexivity|done|unfold is_byte; lia]. }
  constructor; simpl.
  - exists T2. split; [exact R3|]. intros a Ha. apply (O2 a Ha).
  - intros va. by rewrite W3, W2.
  - intros a Ha. destruct (decide (a = phys + i)) as [->|]; [by rewrite lookup_insert_eq|].
    rewrite lookup_insert_ne by done. apply Z2. lia.
  - intros a Ha. rewrite lookup_insert_ne by lia. apply Rest2. lia.
Qed.
End region.

(** C25: [map_region] maps [n] whole pages of memory in use, page by page, to consecutive
    frames, present and writable, leaves every other translation alone, and then
    clears exactly the bytes of these frames through the new mapping; the directories of the
    region hold no huge pages. *)
Theorem map_region_correct off root s T g vp n :
  pt_rep off root s T → 0 ≤ g → 0 ≤ n ≤ 2 ^ 36 → g + n ≤ physmem_total (pm s) →
  0 ≤ vp → (vp + n) * PAGE_SIZE ≤ 2 ^ 64 →
  (∀ a, g * PAGE_SIZE ≤ a < (g + n) * PAGE_SIZE → other_used s T a ∧ is_Some (ram_ s !! a)) →
  (∀ j, 0 ≤ j < n → no_huge s T (vp * PAGE_SIZE + j * PAGE_SIZE)) → has_free s (Z.to_nat (3 * n)) →
  ∃ s' T', map_region off (g * PAGE_SIZE) (vp * PAGE_SIZE) (n * PAGE_SIZE) s = Done tt s' ∧
    pt_rep off root s' T' ∧
    (∀ j o, 0 ≤ j < n → 0 ≤ o < PAGE_SIZE →
       translate (ram_ s') root (vp * PAGE_SIZE + j * PAGE_SIZE + o) = Some (g * PAGE_SIZE + j * PAGE_SIZE + o)) ∧
    (∀ va, (∀ j, 0 ≤ j < n → vpage va ≠ (vp + j) mod 2 ^ 36) →
       walk (ram_ s') root va = walk (ram_ s) root va) ∧
    (∀ a, g * PAGE_SIZE ≤ a < (g + n) * PAGE_SIZE → ram_ s' !! a = Some 0).
Proof.
  intros H Hg Hn Hgn Hvp Hvn Hother Hsmall Hfree.
  assert (∀ a, g * PAGE_SIZE ≤ a < (g + n) * PAGE_SIZE → other_used s T a) as Ho
    by (intros a Ha; by apply Hother).
  pose proof (region_maps off root s T g vp n H Hg Hn Hgn Hvp Hvn Hsmall Hfree) as W1.
  apply wp_run in W1 as ([] & s1 & E1 & R1).
  pose proof (region_clears off root s T g vp n H Hg Hn Hgn Hvp Hvn Ho s1 R1) as W2.
  specialize (W2 ltac:(intros a Ha; apply Hother; lia)).
  apply wp_run in W2 as ([] & s2 & E2 & [(T2 & R2 & _) Wk Z2 _]).
  exists s2, T2. unfold map_region. rewrite Z.div_mul by done. split_and!.
  - mrun E1. exact E2.
  - done.
  - intros j o Hj Hoo. unfold translate. rewrite Wk, (ri_in _ _ _ _ _ _ _ _ _ R1 _ j).
    + cbn [mbind option_bind]. rewrite (proj2 (region_pte_spec off root s T g vp n H Hg Hgn j Hj)).
      pose proof (region_frame g j) as Ef. cbv zeta in Ef. rewrite Ef. change (2 ^ 12) with PAGE_SIZE.
      replace (vp * PAGE_SIZE + j * PAGE_SIZE + o) with (o + (vp + j) * PAGE_SIZE) by lia.
      by rewrite Z_mod_plus_full, (Z.mod_small o) by done.
    + done.
    + by apply vpage_page; [|lia|].
  - intros va Hva. rewrite Wk. by apply (ri_out _ _ _ _ _ _ _ _ _ R1).
  - intros a Ha. apply Z2. lia.
Qed.

(** ** Witnesses *)

(** 520 frames of zeroes, the root table in frame 1 and a page in use in frame 2. *)
Definition demo_bytes : nat := Z.to_nat (520 * PAGE_SIZE).
Definition demo_pm2 : physmem :=
  mk_physmem 1 520 65 (520 * PAGE_SIZE) (<[0 := 6]> (filled 0 65)) ∅.
Definition demo_vm : vm :=
  mk_vm demo_pm2 (mem_write 0 (replicate demo_bytes 0) ∅) (phys_to_virt 0x8000 4096).
Definition demo_tables : tables := {[ [] := 4096 ]}.

Lemma demo_bytes_Z : Z.of_nat demo_bytes = 520 * PAGE_SIZE.
Proof. unfold demo_bytes. apply Z2Nat.id. unfold PAGE_SIZE. lia. Qed.

#[local] Opaque demo_bytes.

Lemma zeros_lookup n a : 0 ≤ a < Z.of_nat n → mem_write 0 (replicate n 0) ∅ !! a = Some 0.
Proof.
  intros Ha. replace a with (0 + Z.of_nat (Z.to_nat a)) by lia. apply lookup_mem_write_in.
  apply lookup_replicate. split; [reflexivity|lia].
Qed.

Lemma demo_ram_lookup a : 0 ≤ a < 520 * PAGE_SIZE → ram_ demo_vm !! a = Some 0.
Proof. rewrite <-demo_bytes_Z. apply zeros_lookup. Qed.

Lemma demo_page_ok f : 0 ≤ f < 520 → page_ok (ram_ demo_vm) (f * PAGE_SIZE).
Proof.
  intros Hf a Ha. exists 0. split; [|unfold is_byte; lia]. apply demo_ram_lookup.
  unfold PAGE_SIZE in *. lia.
Qed.

Lemma demo_taken f : 0 ≤ f < 520 → taken demo_pm2 f = true ↔ f = 1 ∨ f = 2.
Proof.
  intros Hf. split; [|by intros [-> | ->]; vm_compute; reflexivity].
  unfold taken. change (bitmap demo_pm2) with (<[0 := 6]> (filled 0 65)).
  destruct (decide (f / 8 = 0)) as [E|E].
  - rewrite E, lookup_insert_eq. cbn [default]. intros Ht.
    assert (f ∈ [0; 1; 2; 3; 4; 5; 6; 7]) as Hin.
    { change [0; 1; 2; 3; 4; 5; 6; 7] with (seqZ 0 8).
      apply elem_of_seqZ. pose proof (Z.div_mod f 8). pose proof (mod8_bound f). lia. }
    repeat (apply elem_of_cons in Hin as [->|Hin];
      [first [by left | by right | discriminate Ht]|]). by apply elem_of_nil in Hin.
  - rewrite lookup_insert_ne, filled_lookup by
      (done || (split; [apply Z.div_pos; lia|apply Z.div_lt_upper_bound; lia])).
    cbn [default]. by rewrite Z.bits_0.
Qed.

#[local] Opaque mem_write replicate.

Lemma demo_pm2_wf : pm_wf demo_pm2.
Proof.
  constructor; [discriminate|change (physmem_total demo_pm2) with 520; lia|].
  change (physmem_total demo_pm2) with 520.
  change (bitmap demo_pm2) with (<[0 := 6]> (filled 0 65)). intros f Hf.
  destruct (decide (f / 8 = 0)) as [->|].
  - exists 6. rewrite lookup_insert_eq. split; [reflexivity|unfold is_byte; lia].
  - exists 0. rewrite lookup_insert_ne by done. split; [|unfold is_byte; lia].
    apply filled_lookup. split; [apply Z.div_pos; lia|apply Z.div_lt_upper_bound; lia].
Qed.

Lemma demo_rep : pt_rep 0x8000 4096 demo_vm demo_tables.
Proof.
  unfold demo_tables. constructor.
  - exact demo_pm2_wf.
  - change (physmem_total (pm demo_vm)) with 520. lia.
  - apply lookup_singleton_eq.
  - done.
  - intros f Hf _. apply demo_page_ok. change (physmem_total (pm demo_vm)) with 520 in Hf. lia.
  - intros p t Hp. apply lookup_singleton_Some in Hp as [<- <-].
    split; [apply (demo_page_ok 1); lia|]. exists 1. split_and!; [reflexivity|lia|change (physmem_total (pm demo_vm)) with 520; lia|].
    apply demo_taken; [lia|by left].
  - intros p q t Hp Hq. apply lookup_singleton_Some in Hp as [<- _], Hq as [<- _]. done.
  - intros p i t Hp. apply lookup_singleton_Some in Hp as [E _]. by destruct p.
  - intros p t i w Hp _ Hi Hw. apply lookup_singleton_Some in Hp as [<- <-].
    assert (w = 0) as ->.
    { rewrite (word_at_bytes _ _ (replicate 8 0)) in Hw; [by injection Hw as <-| |done].
      intros k b Hk. apply lookup_replicate in Hk as [-> Hk]. apply demo_ram_lookup.
      unfold PAGE_SIZE. lia. }
    change (next_of 0) with (@None Z). by apply lookup_singleton_ne.
Qed.

Lemma demo_no_huge va : no_huge demo_vm demo_tables va.
Proof.
  intros q i t w Hp Hq Hw. unfold demo_tables in Hq. apply lookup_singleton_Some in Hq as [<- <-]. destruct (no_huge_dirs _ _ _ Hp) as [_ Hi].
  rewrite (word_at_bytes _ _ (replicate 8 0)) in Hw; [by injection Hw as <-| |done].
  intros k b Hk. apply lookup_replicate in Hk as [-> Hk]. apply demo_ram_lookup. unfold PAGE_SIZE. lia.
Qed.

Lemma demo_has_free : has_free demo_vm 3.
Proof.
  exists [512; 513; 514]. split_and!; [eval_decide|done|].
  apply Forall_forall. intros f Hf.
  assert (512 ≤ f < 520) as Hr.
  { repeat (apply elem_of_cons in Hf as [->|Hf]; [lia|]). by apply elem_of_nil in Hf. }
  split; [exact Hr|]. apply not_true_is_false. intros Ht. apply demo_taken in Ht; lia.
Qed.

Lemma demo_other a : 2 * PAGE_SIZE ≤ a < 3 * PAGE_SIZE → other_used demo_vm demo_tables a.
Proof.
  intros Ha. unfold PAGE_SIZE in Ha. split; [|split].
  - change (physmem_total (pm demo_vm)) with 520. unfold PAGE_SIZE. lia.
  - apply demo_taken; [|right].
    + unfold PAGE_SIZE. split; [apply Z.div_pos; lia|apply Z.div_lt_upper_bound; lia].
    + symmetry. apply Z.div_unique with (a - 2 * 4096); unfold PAGE_SIZE; lia.
  - intros p t Hp. unfold demo_tables in Hp. apply lookup_singleton_Some in Hp as [<- <-]. unfold in_page, PAGE_SIZE. lia.
Qed.

Lemma paging_map_page_correct_witness :
  ∃ s' T', paging_map_page 0x8000 0xFFFF800000000000 0x2000 3 demo_vm = Done tt s' ∧
           pt_rep 0x8000 4096 s' T' ∧
           walk (ram_ s') 4096 0xFFFF800000000000 = Some (0x2003, 12).
Proof.
  destruct (paging_map_page_correct 0x8000 4096 demo_vm demo_tables 0xFFFF800000000000 0x2000 3
    demo_rep (demo_no_huge _) demo_has_free) as (s' & T' & E & R & W & _).
  exists s', T'. split; [exact E|]. split; [exact R|]. rewrite W, decide_True by reflexivity. reflexivity.
Defined.

Lemma is_page_mapped_correct_witness :
  is_page_mapped 0x8000 0xFFFF800000000000 demo_vm =
  Done (bool_decide (is_Some (walk (ram_ demo_vm) 4096 0xFFFF800000000000))) demo_vm.
Proof. exact (is_page_mapped_correct 0x8000 4096 demo_vm demo_tables 0xFFFF800000000000 demo_rep (demo_no_huge _)). Defined.

Lemma map_region_correct_witness :
  ∃ s' T', map_region 0x8000 (2 * PAGE_SIZE) (16 * PAGE_SIZE) (1 * PAGE_SIZE) demo_vm = Done tt s' ∧
           pt_rep 0x8000 4096 s' T' ∧
           translate (ram_ s') 4096 (16 * PAGE_SIZE + 0 * PAGE_SIZE + 5) = Some (2 * PAGE_SIZE + 0 * PAGE_SIZE + 5).
Proof.
  destruct (map_region_correct 0x8000 4096 demo_vm demo_tables 2 16 1) as (s' & T' & E & R & Htr & _).
  - exact demo_rep.
  - lia.
  - lia.
  - change (physmem_total (pm demo_vm)) with 520. lia.
  - lia.
  - unfold PAGE_SIZE. lia.
  - intros a Ha. split; [by apply demo_other|]. rewrite demo_ram_lookup; [eauto|]. unfold PAGE_SIZE in *. lia.
  - intros j Hj. apply demo_no_huge.
  - exact demo_has_free.
  - exists s', T'. split; [exact E|]. split; [exact R|]. apply (Htr 0 5); unfold PAGE_SIZE; lia.
Defined.
