(* ===== verification/Alloc.v ===== *)
(** * The allocator the kernel's subsystems rely on

    The file systems, the shell and the graphics code call
    [kernel_memory_create], [kernel_memory_alloc] and [kernel_memory_free].  Their
    models are written against this interface: the operations, the memory the
    payloads live in, and laws about the set of live payloads.  [KernelAlloc.v]
    discharges the laws for the kernel's block heap. *)

From Stdlib Require Import ZArith Lia.
From stdpp Require Import base gmap list numbers fin_maps.
From S2P Require Import Prelude Memory.
Open Scope Z_scope.
Set Default Goal Selector "!".

Class AllocOps (A : Type) := {
  al_create : Z → Z → M A Z;      (** [kernel_memory_create(self, size)] *)
  al_alloc : Z → Z → Z → M A Z;   (** [kernel_memory_alloc(self, size, count)] *)
  al_free : Z → Z → M A unit;     (** [kernel_memory_free(self, ptr)] *)
  al_ram : A → mem;
  al_set_ram : mem → A → A;
}.

(** The largest size whose rounding to sixteen does not wrap. *)
Definition AL_MAX : Z := 2 ^ 64 - 16.

Class Allocator (A : Type) `{!AllocOps A} := {
  (** The payloads in use: address and size. *)
  al_live : A → gmap Z Z → Prop;
  al_ram_set : ∀ m a, al_ram (al_set_ram m a) = m;
  al_set_ram_id : ∀ a, al_set_ram (al_ram a) a = a;
  live_range : ∀ a L p n, al_live a L → L !! p = Some n →
    0 < p ∧ 0 ≤ n ∧ p + n < 2 ^ 64 ∧ mapped p n (al_ram a);
  live_disjoint : ∀ a L p n q k, al_live a L → L !! p = Some n → L !! q = Some k → p ≠ q →
    p + n ≤ q ∨ q + k ≤ p;
  live_set_ram : ∀ a L m, al_live a L → (∀ x, is_Some (al_ram a !! x) → is_Some (m !! x)) →
    al_live (al_set_ram m a) L;
  create_spec : ∀ a L self sz, al_live a L → self ≠ NULL → 0 < sz ≤ AL_MAX →
    al_create self sz a = Done NULL a ∨
    ∃ p n a', al_create self sz a = Done p a' ∧ p ≠ NULL ∧ sz ≤ n ∧ L !! p = None ∧
              al_live a' (<[p := n]> L) ∧ al_ram a' = al_ram a;
  alloc_spec : ∀ a L self sz count, al_live a L → self ≠ NULL → 0 < sz → 0 < count →
    sz * count ≤ AL_MAX →
    al_alloc self sz count a = Done NULL a ∨
    ∃ p n a', al_alloc self sz count a = Done p a' ∧ p ≠ NULL ∧ sz * count ≤ n ∧ L !! p = None ∧
              al_live a' (<[p := n]> L) ∧
              al_ram a' = mem_write p (replicate (Z.to_nat (sz * count)) 0) (al_ram a);
  free_spec : ∀ a L self p n, al_live a L → self ≠ NULL → L !! p = Some n →
    ∃ a', al_free self p a = Done tt a' ∧ al_live a' (delete p L) ∧ al_ram a' = al_ram a;
}.

Arguments al_live {A _ _} _ _.

(** The bytes in which an allocator keeps data of its own, and which none of the payloads
    contains.  Whoever writes to memory past the processor must not touch them. *)
Class HeapData (A : Type) := al_held : A → Z → bool.
Class HeapDataLaw (A : Type) `{!AllocOps A} `{!Allocator A} `{!HeapData A} : Prop := {
  held_set_ram : ∀ m (a : A) x, al_held (al_set_ram m a) x = al_held a x;
  held_not_live : ∀ (a : A) L p n x, al_live a L → L !! p = Some n → p ≤ x < p + n → al_held a x = false;
}.
