(* ===== verification/KernelAlloc.v ===== *)
(** * The block heap satisfies the allocator interface

    The live payloads of a [kernel_memory_t] are the used blocks of its heap; the
    laws of [Alloc.v] follow from what [Heap.v] and [KernelMemory.v] prove. *)

From Stdlib Require Import ZArith Lia.
From stdpp Require Import base gmap list numbers fin_maps.
From S2P Require Import Prelude Memory Heap KernelMemory Alloc.
Open Scope Z_scope.
Set Default Goal Selector "!".

#[export] Instance kernel_alloc_ops : AllocOps kernel_memory := {|
  al_create := kernel_memory_create;
  al_alloc := kernel_memory_alloc;
  al_free := kernel_memory_free;
  al_ram k := ram (km_arena k);
  al_set_ram m k := set_km_arena (set_ram m (km_arena k)) k;
|}.

(** The used blocks of a list that starts at [p], by payload address. *)
Fixpoint live_blocks (p : Z) (l : blocks) : gmap Z Z :=
  match l with
  | [] => ∅
  | (s, u) :: l' =>
      let r := live_blocks (p + SIZEOF_BLOCK + s) l' in
      if u : bool then <[p + SIZEOF_BLOCK := s]> r else r
  end.

Lemma live_app p l1 l2 : live_blocks p (l1 ++ l2) = live_blocks p l1 ∪ live_blocks (after p l1) l2.
Proof.
  revert p; induction l1 as [|[s u] l1 IH]; intros p; simpl; [by rewrite map_empty_union|].
  rewrite IH. destruct u; [|done]. by rewrite insert_union_l.
Qed.

Lemma live_all_free p l : all_free l → live_blocks p l = ∅.
Proof.
  intros H. revert p; induction H as [|[s u] l Hu _ IH]; intros p; [done|].
  simpl in *. subst. apply IH.
Qed.

Lemma live_inv p l a n :
  live_blocks p l !! a = Some n → ∃ l1 l2, l = l1 ++ (n, true) :: l2 ∧ a = after p l1 + SIZEOF_BLOCK.
Proof.
  revert p; induction l as [|[s u] l IH]; intros p H; [done|]. simpl in H.
  assert (live_blocks (p + SIZEOF_BLOCK + s) l !! a = Some n →
    ∃ l1 l2, (s, u) :: l = l1 ++ (n, true) :: l2 ∧ a = after p l1 + SIZEOF_BLOCK) as Hgo.
  { intros H'. destruct (IH _ H') as (l1 & l2 & -> & ->). by exists ((s, u) :: l1), l2. }
  destruct u; [|by apply Hgo].
  apply lookup_insert_Some in H as [[<- <-]|[_ H]]; [|by apply Hgo]. by exists [], l.
Qed.

Lemma live_bounds p l a n : sized l → live_blocks p l !! a = Some n →
  p + SIZEOF_BLOCK ≤ a ∧ 0 ≤ n ∧ a + n ≤ after p l.
Proof.
  intros Hl H. apply live_inv in H as (l1 & l2 & -> & ->).
  apply Forall_app in Hl as [H1 H2]. apply Forall_cons in H2 as [Hn H2]. simpl in Hn.
  rewrite after_app, after_cons. pose proof (after_ge p l1 H1).
  pose proof (after_ge (after p l1 + SIZEOF_BLOCK + n) l2 H2). unfold SIZEOF_BLOCK in *. lia.
Qed.

(** The entries before, at and after a block do not overlap. *)
Lemma live_middle p l1 s u l2 : sized (l1 ++ (s, u) :: l2) →
  live_blocks p (l1 ++ (s, u) :: l2) =
  if u then <[after p l1 + SIZEOF_BLOCK := s]> (live_blocks p l1 ∪ live_blocks (after p l1 + SIZEOF_BLOCK + s) l2)
  else live_blocks p l1 ∪ live_blocks (after p l1 + SIZEOF_BLOCK + s) l2.
Proof.
  intros Hl. rewrite live_app. simpl. destruct u; [|done].
  apply Forall_app in Hl as [H1 _].
  apply map_eq. intros a. destruct (decide (a = after p l1 + SIZEOF_BLOCK)) as [->|Hne].
  - rewrite lookup_insert_eq. apply lookup_union_Some_raw. right.
    split; [|apply lookup_insert_eq].
    destruct (live_blocks p l1 !! (after p l1 + SIZEOF_BLOCK)) eqn:E; [|done].
    apply live_bounds in E; [|done]. unfold SIZEOF_BLOCK in *. lia.
  - rewrite lookup_insert_ne by done. rewrite !lookup_union. by rewrite lookup_insert_ne.
Qed.

Lemma live_fresh p l1 s l2 : sized (l1 ++ (s, false) :: l2) →
  live_blocks p (l1 ++ (s, false) :: l2) !! (after p l1 + SIZEOF_BLOCK) = None.
Proof.
  intros Hl. rewrite live_middle by done. apply Forall_app in Hl as [H1 H2].
  apply Forall_cons in H2 as [Hs H2]. simpl in Hs. apply lookup_union_None. split.
  - destruct (live_blocks p l1 !! _) eqn:E; [|done]. apply live_bounds in E; [|done].
    unfold SIZEOF_BLOCK in *. lia.
  - destruct (live_blocks _ l2 !! _) eqn:E; [|done]. apply live_bounds in E; [|done].
    unfold SIZEOF_BLOCK in *. lia.
Qed.

Lemma live_carve p l1 n s l2 : sized (l1 ++ (s, false) :: l2) → 0 ≤ n ≤ s →
  live_blocks p (l1 ++ carve n s ++ l2) =
  <[after p l1 + SIZEOF_BLOCK := if n + SIZEOF_BLOCK + 16 <=? s then n else s]>
    (live_blocks p (l1 ++ (s, false) :: l2)).
Proof.
  intros Hl Hn. rewrite (live_middle p l1 s false) by done.
  apply Forall_app in Hl as [H1 H2]. apply Forall_cons in H2 as [Hs H2]. simpl in Hs.
  unfold carve. destruct (Z.leb_spec (n + SIZEOF_BLOCK + 16) s).
  - change ([(n, true); (s - n - SIZEOF_BLOCK, false)] ++ l2)
      with ((n, true) :: (s - n - SIZEOF_BLOCK, false) :: l2).
    rewrite live_middle; simpl.
    + by replace (after p l1 + SIZEOF_BLOCK + n + SIZEOF_BLOCK + (s - n - SIZEOF_BLOCK))
        with (after p l1 + SIZEOF_BLOCK + s) by lia.
    + apply Forall_app. split; [done|].
      unfold SIZEOF_BLOCK in *. repeat (constructor; simpl; [lia|]). done.
  - change ([(s, true)] ++ l2) with ((s, true) :: l2). rewrite live_middle; [done|].
    apply Forall_app. split; [done|]. by constructor.
Qed.

(** Maximal runs of free blocks. *)
Lemma free_prefix (l : blocks) : ∃ gs post, l = gs ++ post ∧ all_free gs ∧ used_first post.
Proof.
  induction l as [|[s []] l (gs & post & -> & Hg & Hp)].
  - exists [], []. split_and!; [done|by constructor|done].
  - exists [], ((s, true) :: gs ++ post). split_and!; [done|by constructor|done].
  - exists ((s, false) :: gs), post. split_and!; [done|by constructor|done].
Qed.

Lemma free_suffix (l : blocks) : ∃ pre fs, l = pre ++ fs ∧ all_free fs ∧ used_last pre.
Proof.
  induction l as [|[s []] l (pre & fs & -> & Hf & Hp)] using rev_ind.
  - exists [], []. split_and!; [done|by constructor|]. by intros [] ? ?.
  - exists ((pre ++ fs) ++ [(s, true)]), []. split_and!; [by rewrite app_nil_r|by constructor|].
    intros l' s' u E. by apply app_inj_2 in E as [_ [= _ <-]].
  - exists pre, (fs ++ [(s, false)]). split_and!; [by rewrite app_assoc| |done].
    apply Forall_app. split; [done|by constructor].
Qed.

Definition kernel_live (k : kernel_memory) (L : gmap Z Z) : Prop :=
  ∃ l d, arena_rep (km_arena k) l d ∧ L = live_blocks (start_heap (km_arena k)) l.

(** [kernel_memory_create] is [malloc] with accounting. *)
Lemma kernel_memory_create_run k self sz l d :
  arena_rep (km_arena k) l d → self ≠ NULL → 0 < sz ≤ 2 ^ 64 - 16 →
  let p := start_heap (km_arena k) in
  kernel_memory_create self sz k = Done NULL k ∨
  (∃ l1 s l2 a',
    l = l1 ++ (s, false) :: l2 ∧ round16 sz ≤ s ∧
    kernel_memory_create self sz k = Done (after p l1 + SIZEOF_BLOCK) (set_km_arena a' k) ∧
    arena_rep a' (l1 ++ carve (round16 sz) s ++ l2) (d + carve_drift (round16 sz) s) ∧
    start_heap a' = p ∧ ram a' = ram (km_arena k)).
Proof.
  intros Hrep Hself Hsz p. destruct (round16_small sz) as (_ & Hr & Hr64); [lia|].
  set (a := km_arena k) in *. pose proof Hrep as [Hh Hm Hu]. fold p in Hh, Hm.
  assert (∀ x, arena_create self sz a = x → kernel_memory_create self sz k =
    match x with Done r a' => Done r (set_km_arena a' k) | Stuck w => Stuck w end) as Hk
    by (by intros x <-).
  unfold arena_create, on_heap, zoom, get in Hk.
  rewrite (proj2 (Z.eqb_neq _ _) Hself), (proj2 (Z.eqb_neq sz 0)) in Hk by lia. cbn [orb] in Hk.
  unfold mbind, M_bind in Hk. fold p in Hk.
  destruct (malloc_run _ _ _ sz (round16 sz) Hh)
    as [[E _]|(l1 & s & l2 & h' & -> & Hs & _ & E & Hh')]; [lia|done|lia| |]; rewrite E in Hk; clear E.
  - left. rewrite (Hk _ eq_refl). unfold a, set_km_arena, set_headers. by destruct k as [? ? ? ? ? []].
  - right. pose proof (rep_bounds _ _ _ _ _ _ Hh) as (_ & _ & _ & Hp & _).
    rewrite (proj2 (Z.eqb_neq _ NULL)) in Hk by (unfold NULL, SIZEOF_BLOCK; lia).
    pose proof (account_run (set_headers h' a) l1 (round16 sz) s l2 Hh') as Ea.
    change (start_heap (set_headers h' a)) with p in Ea.
    rewrite Ea in Hk. unfold mret, M_ret in Hk. specialize (Hk _ eq_refl). simpl in Hk.
    eexists l1, s, l2, _. split; [done|]. split; [done|]. split; [exact Hk|].
    split; [|done]. exact (arena_took a l1 s l2 _ h' d Hrep Hh' (ram a) (λ x H, H)).
Qed.

Lemma kernel_live_create k L l d l1 s l2 n a' d' :
  arena_rep (km_arena k) l d → L = live_blocks (start_heap (km_arena k)) l →
  l = l1 ++ (s, false) :: l2 → 0 ≤ n ≤ s →
  arena_rep a' (l1 ++ carve n s ++ l2) d' → start_heap a' = start_heap (km_arena k) →
  let p := after (start_heap (km_arena k)) l1 + SIZEOF_BLOCK in
  p ≠ NULL ∧ L !! p = None ∧ ∃ z, n ≤ z ∧ kernel_live (set_km_arena a' k) (<[p := z]> L).
Proof.
  intros [Hh _ _] -> -> Hn Ha' Hst p. pose proof (rep_sized _ _ _ Hh) as Hl.
  pose proof (rep_bounds _ _ _ _ _ _ Hh) as (_ & _ & _ & Hp & _).
  split; [unfold p, NULL, SIZEOF_BLOCK; lia|]. split; [by apply live_fresh|].
  exists (if n + SIZEOF_BLOCK + 16 <=? s then n else s). split; [destruct (_ <=? s); lia|].
  exists (l1 ++ carve n s ++ l2), d'. split; [done|]. simpl. by rewrite Hst, live_carve.
Qed.

#[export] Program Instance kernel_allocator : Allocator kernel_memory := {|
  al_live := kernel_live;
|}.
Next Obligation. done. Qed.
Next Obligation.
  intros k. unfold set_km_arena, set_ram. cbn. destruct k as [? ? ? ? ? a]. cbn. by destruct a.
Qed.
Next Obligation.
  intros k L p n (l & d & [Hh Hm _] & ->) Hp. pose proof (live_bounds _ _ _ _ (rep_sized _ _ _ Hh) Hp).
  destruct Hh as [_ _ Hb He _]. unfold SIZEOF_BLOCK in *. simpl. split_and!; [lia|lia|lia|].
  intros a Ha. apply Hm. lia.
Qed.
Next Obligation.
  intros k L p n q z (l & d & [Hh _ _] & ->) Hp Hq Hne.
  pose proof (rep_sized _ _ _ Hh) as Hl. pose proof Hp as Hp'.
  apply live_inv in Hp as (l1 & l2 & -> & ->). rewrite live_middle in Hq by done.
  rewrite lookup_insert_ne in Hq by done.
  apply Forall_app in Hl as [H1 H2]. apply Forall_cons in H2 as [_ H2].
  apply lookup_union_Some_raw in Hq as [Hq|[_ Hq]]; apply live_bounds in Hq; try done;
    unfold SIZEOF_BLOCK in *; lia.
Qed.
Next Obligation.
  intros k L m (l & d & [Hh Hm Hu] & ->) Hmap. exists l, d. split; [|done].
  constructor; simpl; [done| |done]. intros x Hx. by apply Hmap, Hm.
Qed.
Next Obligation.
  intros k L self sz (l & d & Hrep & HL) Hself Hsz. unfold AL_MAX in Hsz.
  destruct (round16_small sz) as (_ & Hr & _); [lia|].
  destruct (kernel_memory_create_run k self sz l d Hrep Hself Hsz)
    as [E|(l1 & s & l2 & a' & El & Hs & E & Ha' & Hst & Hram)]; [by left|right].
  destruct (kernel_live_create k L l d l1 s l2 (round16 sz) a' _ Hrep HL El ltac:(lia) Ha' Hst)
    as (Hp & Hf & z & Hz & Hlive).
  eexists _, z, _. split; [exact E|]. split_and!; [done|lia|done|done|done].
Qed.
Next Obligation.
  intros k L self sz count (l & d & Hrep & HL) Hself Hsz Hc Hmax. unfold AL_MAX in Hmax.
  assert (u64 (count * sz) = sz * count) as Et by (rewrite Z.mul_comm; apply Z.mod_small; lia).
  destruct (round16_small (sz * count)) as (_ & Hr & _); [lia|].
  destruct (kernel_memory_alloc_run k self sz count l d Hrep Hself ltac:(lia))
    as [[E _]|(l1 & s & l2 & a' & El & Hs & E & Ha' & Hst & Hram)]; rewrite ?Et in *; [lia|by left|right].
  destruct (kernel_live_create k L l d l1 s l2 (round16 (sz * count)) a' _ Hrep HL El ltac:(lia) Ha' Hst)
    as (Hp & Hf & z & Hz & Hlive).
  eexists _, z, _. split; [exact E|]. split_and!; [done|lia|done|done|done].
Qed.
Next Obligation.
  intros k L self p n (l & d & Hrep & ->) Hself Hp. pose proof (rep_sized _ _ _ (ar_heap _ _ _ Hrep)) as Hl.
  apply live_inv in Hp as (l1 & l2 & -> & ->).
  destruct (free_suffix l1) as (pre & fs & -> & Hf & Hpre).
  destruct (free_prefix l2) as (gs & post & -> & Hg & Hpost).
  pose proof Hrep as Hrep'. rewrite <-app_assoc in Hrep'.
  destruct (kernel_memory_free_run k self pre fs n gs post d Hrep' Hf Hg Hpre Hpost Hself)
    as (a' & E & Ha' & Hst & Hram).
  exists (set_km_arena a' k). split; [exact E|]. split; [|done].
  exists (pre ++ (span fs + n + span gs, false) :: post), d. split; [done|]. simpl. rewrite Hst.
  set (p := start_heap (km_arena k)).
  rewrite (live_middle p (pre ++ fs) n true) by done. rewrite delete_insert_id.
  - rewrite live_app, live_app, (live_all_free _ gs), map_empty_union by done. simpl.
    rewrite live_app, (live_all_free _ fs), map_union_empty by done.
    cbn [live_blocks].
    match goal with |- _ ∪ live_blocks ?X _ = _ ∪ live_blocks ?Y _ => replace X with Y; [done|] end.
    rewrite !after_span, span_app. unfold SIZEOF_BLOCK. lia.
  - rewrite <-(live_middle p (pre ++ fs) n false) by (apply Forall_app in Hl as [? Hl];
      apply Forall_app; split; [done|]; apply Forall_cons in Hl as [? Hl]; by constructor).
    apply live_fresh. apply Forall_app in Hl as [? Hl].
    apply Forall_app; split; [done|]; apply Forall_cons in Hl as [? Hl]; by constructor.
Qed.

(** ** The headers, as memory *)

(** The addresses of the headers from [p] on. *)
Fixpoint header_list (fuel : nat) (p : Z) (h : heap) : list Z :=
  match fuel with
  | O => []
  | S f => if p =? NULL then [] else match h !! p with Some b => p :: header_list f (next b) h | None => [] end
  end.
(** One of the [heap_block_t] of the list is at [x]. *)
#[export] Instance kernel_held : HeapData kernel_memory := λ k x,
  let h := headers (km_arena k) in
  existsb (λ p, (p <=? x) && (x <? p + SIZEOF_BLOCK)) (header_list (S (base.size h)) (start_heap (km_arena k)) h).

Fixpoint header_addrs (p : Z) (l : blocks) : list Z :=
  match l with [] => [] | (s, _) :: l' => p :: header_addrs (p + SIZEOF_BLOCK + s) l' end.

Lemma header_list_seg fuel prv p l h : sized l → 0 < p → seg h prv p l NULL → (length l < fuel)%nat → l ≠ [] →
  header_list fuel p h = header_addrs p l.
Proof.
  revert fuel prv p. induction l as [|[s u] l IH]; intros [|fuel] prv p Hl Hp Hseg Hf Hne; try done; [simpl in Hf; lia|].
  destruct Hseg as [Hb Hseg]. apply Forall_cons in Hl as [Hs Hl]. simpl in Hs, Hf. cbn [header_list header_addrs].
  rewrite (proj2 (Z.eqb_neq p NULL)) by (unfold NULL; lia). rewrite Hb. f_equal. destruct l as [|b l].
  - destruct fuel; [lia|]. done.
  - eapply IH; [done|unfold SIZEOF_BLOCK; lia|exact Hseg|lia|done].
Qed.

Lemma header_addrs_elem p l a : a ∈ header_addrs p l ↔ ∃ l1 s u l2, l = l1 ++ (s, u) :: l2 ∧ a = after p l1.
Proof.
  revert p; induction l as [|[s u] l IH]; intros p; cbn [header_addrs]; [split; [by intros ?%list.elem_of_nil|by intros ([|] & ? & ? & ? & ? & _)]|].
  rewrite list.elem_of_cons, IH. split.
  - intros [->|(l1 & s' & u' & l2 & -> & ->)]; [by exists [], s, u, l|by exists ((s, u) :: l1), s', u', l2].
  - intros ([|[s1 u1] l1] & s' & u' & l2 & E & ->); simplify_eq/=; [by left|right]. by exists l1, s', u', l2.
Qed.

(** The allocator's own data are the headers of its blocks, used and free. *)
Lemma kernel_held_true k l d x : arena_rep (km_arena k) l d →
  al_held k x = true ↔ ∃ l1 s u l2, l = l1 ++ (s, u) :: l2 ∧ after (start_heap (km_arena k)) l1 ≤ x < after (start_heap (km_arena k)) l1 + SIZEOF_BLOCK.
Proof.
  intros [[Hseg Hl Hb _ Hne] _ _]. unfold al_held, kernel_held. rewrite (header_list_seg _ NULL _ l); try done; [|lia|].
  - rewrite existsb_exists. setoid_rewrite <-list_elem_of_In. setoid_rewrite header_addrs_elem. split.
    + intros (a & (l1 & s & u & l2 & -> & ->) & Hx). exists l1, s, u, l2. split; [done|]. lia.
    + intros (l1 & s & u & l2 & -> & Hx). eexists. split; [by exists l1, s, u, l2|]. lia.
  - pose proof (seg_length _ _ _ _ _ Hl Hseg). lia.
Qed.

#[export] Instance kernel_held_law : HeapDataLaw kernel_memory.
Proof.
  split; [done|]. intros k L p n x (l & d & Hrep & ->) Hp Hx. pose proof (rep_sized _ _ _ (ar_heap _ _ _ Hrep)) as Hl.
  apply not_true_iff_false. rewrite (kernel_held_true _ _ _ _ Hrep). intros (l1 & s & u & l2 & -> & Hx').
  rewrite live_middle in Hp by done. apply Forall_app in Hl as [H1 H2]. apply Forall_cons in H2 as [H2 H3]. simpl in H2.
  assert (p = after (start_heap (km_arena k)) l1 + SIZEOF_BLOCK ∨
    (live_blocks (start_heap (km_arena k)) l1 ∪ live_blocks (after (start_heap (km_arena k)) l1 + SIZEOF_BLOCK + s) l2) !! p = Some n) as [->|Hu].
  { destruct u; [|by right]. apply lookup_insert_Some in Hp as [[<- _]|[_ Hp]]; [by left|by right]. }
  - lia.
  - apply lookup_union_Some_raw in Hu as [Hu|[_ Hu]]; apply live_bounds in Hu; try done; unfold SIZEOF_BLOCK in *; lia.
Qed.

(** Memory the kernel heap hands out never overlaps memory in use: a successful
    [kernel_memory_create] returns a payload of at least the size asked for, disjoint
    from every payload in use, all of which stay in use with their contents; a failed
    one changes nothing. *)
Theorem kernel_memory_create_disjoint k L self sz :
  kernel_live k L → self ≠ NULL → 0 < sz ≤ AL_MAX →
  kernel_memory_create self sz k = Done NULL k ∨
  ∃ p n k', kernel_memory_create self sz k = Done p k' ∧ p ≠ NULL ∧ sz ≤ n ∧
    kernel_live k' (<[p := n]> L) ∧ ram (km_arena k') = ram (km_arena k) ∧
    ∀ q z, L !! q = Some z → q + z ≤ p ∨ p + n ≤ q.
Proof.
  intros HL Hself Hsz. change (al_live k L) in HL. destruct (create_spec k L self sz HL Hself Hsz)
    as [E|(p & n & k' & E & Hp & Hn & Hf & HL' & Hram)]; [by left|right].
  exists p, n, k'. split_and!; [done|done|done|done|done|]. intros q z Hq.
  assert (p ≠ q) as Hne by congruence.
  destruct (live_disjoint k' _ p n q z HL') as [|]; [apply lookup_insert_eq| |done|lia|lia].
  by rewrite lookup_insert_ne.
Qed.

Lemma kernel_memory_create_disjoint_witness :
  ∃ p n k', kernel_memory_create 1 50 (demo_km demo_heap2 112 716) = Done p k' ∧ p ≠ NULL ∧ 50 ≤ n ∧
    kernel_live k' (<[p := n]> (live_blocks 4096 [(64, false); (32, true); (500, false)])) ∧
    ∀ q z, live_blocks 4096 [(64, false); (32, true); (500, false)] !! q = Some z →
           q + z ≤ p ∨ p + n ≤ q.
Proof.
  destruct (kernel_memory_create_disjoint (demo_km demo_heap2 112 716)
    (live_blocks 4096 [(64, false); (32, true); (500, false)]) 1 50)
    as [E|(p & n & k' & E & Hp & Hn & HL & _ & Hd)].
  - exists [(64, false); (32, true); (500, false)], 0. split; [exact demo_km2_rep|reflexivity].
  - discriminate.
  - unfold AL_MAX. lia.
  - exfalso. apply (f_equal (λ o, match o with Done p _ => p | Stuck _ => 0 end)) in E.
    vm_compute in E. discriminate.
  - exists p, n, k'. split; [exact E|]. split; [exact Hp|]. split; [exact Hn|]. split; [exact HL|exact Hd].
Defined.

(** A heap with five payloads in use, at 4136, 4304, 4376, 4432 and 4536, and a free
    block at 4704, for the witnesses of the clients. *)
Definition demo_blocks : blocks :=
  [(128, true); (32, true); (16, true); (64, true); (128, true); (700, false)].
Definition demo_used : kernel_memory :=
  demo_km (<[4096 := header 128 4264 NULL true]> (<[4264 := header 32 4336 4096 true]>
    (<[4336 := header 16 4392 4264 true]> (<[4392 := header 64 4496 4336 true]>
      (<[4496 := header 128 4664 4392 true]> {[ 4664 := header 700 NULL 4496 false ]})))))
    (acct demo_blocks) 1308.

Lemma demo_used_live : al_live demo_used (live_blocks 4096 demo_blocks).
Proof.
  exists demo_blocks, 0. split; [|done]. constructor; [|apply demo_ram_mapped|done].
  constructor; [done|unfold sized; eval_decide|simpl; lia|done|done].
Qed.
