(* ===== verification/Module.v ===== *)
(** * The component registry, [core/kernel/module/module.c]

    Drivers register a [component_handler]: a name, the path they want to appear at
    and callbacks.  The callbacks belong to the drivers; they are computations over
    the drivers' own state [W]. *)

From Stdlib Require Import ZArith Lia.
From stdpp Require Import base gmap list numbers fin_maps.
From S2P Require Import Prelude.
Open Scope Z_scope.
Set Default Goal Selector "!".

Definition COMPONENT_LIMIT : Z := 256.

Record component_handler (W : Type) := mk_handler {
  identifier : option str;
  attachment_point : option str;
  build_number : Z;
  startup : option (M W Z);
  shutdown : option (M W unit);
  access : option (str → M W Z);
  retrieve : option (Z → Z → M W (Z * list Z));
  store : option (Z → list Z → M W Z);
}.
Arguments mk_handler {W}.
Arguments identifier {W}.
Arguments attachment_point {W}.
Arguments build_number {W}.
Arguments startup {W}.
Arguments shutdown {W}.
Arguments access {W}.
Arguments retrieve {W}.
Arguments store {W}.

(** [registered_handlers] and [handler_total]; [handler_at] is the structures the
    pointers point to, [drivers] the drivers' state. *)
Record registry (W : Type) := mk_registry {
  registered_handlers : list Z;
  handler_total : Z;
  handler_at : gmap Z (component_handler W);
  drivers : W;
}.
Arguments mk_registry {W}.
Arguments registered_handlers {W}.
Arguments handler_total {W}.
Arguments handler_at {W}.
Arguments drivers {W}.

(** The comparison loop of [remove_component] and [locate_component]. *)
Fixpoint identical (first second : str) : bool :=
  match first, second with
  | a :: first', b :: second' => if a =? b then identical first' second' else false
  | [], [] => true
  | _, _ => false
  end.

Section registry.
  Context {W : Type}.

Definition set_handlers (l : list Z) (n : Z) (r : registry W) : registry W :=
  mk_registry l n (handler_at r) (drivers r).
Definition on_drivers {A} (m : M W A) : M (registry W) A :=
  zoom drivers (λ w r, mk_registry (registered_handlers r) (handler_total r) (handler_at r) w) m.

(** [registered_handlers[i]] and the assignment to it; the array has 256 slots. *)
Definition handler_slot (i : Z) : M (registry W) Z := λ r,
  if (0 <=? i) then
    match registered_handlers r !! Z.to_nat i with Some p => Done p r | None => Stuck Fault end
  else Stuck Fault.
Definition put_slot (i p : Z) : M (registry W) unit := λ r,
  if (0 <=? i) && (i <? Z.of_nat (length (registered_handlers r)))
  then Done tt (set_handlers (<[Z.to_nat i := p]> (registered_handlers r)) (handler_total r) r)
  else Stuck Fault.
Definition set_total (n : Z) : M (registry W) unit :=
  modify (λ r, set_handlers (registered_handlers r) n r).
Definition deref_handler (p : Z) : M (registry W) (component_handler W) := λ r,
  match handler_at r !! p with Some h => Done h r | None => Stuck Fault end.

Definition initialize_component_system : M (registry W) unit :=
  for_to 0 COMPONENT_LIMIT (λ idx, put_slot idx NULL);;
  set_total 0.

(** Is [handler] among the first [n] slots from [idx] on? *)
Fixpoint enrolled (n : nat) (idx handler : Z) : M (registry W) bool :=
  match n with
  | O => mret false
  | S n' =>
      p ← handler_slot idx;
      if p =? handler then mret true else enrolled n' (idx + 1) handler
  end.

Definition enroll_component (handler : Z) : M (registry W) Z :=
  r ← get;
  if (handler =? NULL) || (COMPONENT_LIMIT <=? handler_total r) then mret (-1) else
  dup ← enrolled (Z.to_nat (handler_total r)) 0 handler;
  if (dup : bool) then mret (-1) else
  h ← deref_handler handler;
  result ← match startup h with Some f => on_drivers f | None => mret 0 end;
  if negb (result =? 0) then mret result else
  r ← get;
  put_slot (handler_total r) handler;;
  set_total (handler_total r + 1);;
  mret 0.

(** The index of the first handler with the given name, among [n] slots from [idx]. *)
Fixpoint find_identifier (n : nat) (idx : Z) (name : str) : M (registry W) (option Z) :=
  match n with
  | O => mret None
  | S n' =>
      p ← handler_slot idx;
      found ← (if p =? NULL then mret false else
               h ← deref_handler p;
               match identifier h with
               | None => mret false
               | Some second => mret (identical name second)
               end);
      if (found : bool) then mret (Some idx) else find_identifier n' (idx + 1) name
  end.

Definition remove_component (name : option str) : M (registry W) unit :=
  match name with
  | None => mret tt
  | Some name =>
      r ← get;
      i ← find_identifier (Z.to_nat (handler_total r)) 0 name;
      match i with
      | None => mret tt
      | Some idx =>
          p ← handler_slot idx;
          h ← deref_handler p;
          match shutdown h with Some f => on_drivers f | None => mret tt end;;
          r ← get;
          for_to idx (handler_total r - 1) (λ shift,
            q ← handler_slot (shift + 1); put_slot shift q);;
          put_slot (handler_total r - 1) NULL;;
          set_total (handler_total r - 1)
      end
  end.

Definition locate_component (name : option str) : M (registry W) Z :=
  match name with
  | None => mret NULL
  | Some name =>
      r ← get;
      i ← find_identifier (Z.to_nat (handler_total r)) 0 name;
      match i with None => mret NULL | Some idx => handler_slot idx end
  end.

Definition count_components : M (registry W) Z := gets handler_total.

Definition component_at_position (position : Z) : M (registry W) Z :=
  r ← get;
  if (position <? 0) || (handler_total r <=? position) then mret NULL
  else handler_slot position.

(** ** The registry as a list of handlers *)

(** The first [handler_total] slots hold the distinct pointers [l] to structures, the
    rest are null. *)
Record reg_rep (r : registry W) (l : list Z) : Prop := {
  rr_slots : registered_handlers r = l ++ replicate (256 - length l) NULL;
  rr_total : handler_total r = Z.of_nat (length l);
  rr_cap : (length l ≤ 256)%nat;
  rr_nodup : NoDup l;
  rr_null : NULL ∉ l;
  rr_structs : Forall (λ p, is_Some (handler_at r !! p)) l;
}.

Lemma identical_eq a b : identical a b = bool_decide (a = b).
Proof.
  revert b; induction a as [|x a IH]; intros [|y b]; simpl; try done.
  destruct (Z.eqb_spec x y) as [->|Hne].
  - rewrite IH. apply bool_decide_ext. naive_solver.
  - symmetry. apply bool_decide_eq_false_2. congruence.
Qed.

Lemma slot_run r l i p : reg_rep r l → l !! i = Some p → handler_slot (Z.of_nat i) r = Done p r.
Proof.
  intros H Hi. unfold handler_slot. rewrite (proj2 (Z.leb_le _ _)) by lia.
  rewrite Nat2Z.id, (rr_slots _ _ H), (lookup_app_l_Some _ _ _ _ Hi). done.
Qed.

Lemma enrolled_run r l k n p :
  reg_rep r l → (k + n = length l)%nat →
  enrolled n (Z.of_nat k) p r = Done (bool_decide (p ∈ drop k l)) r.
Proof.
  intros H. revert k; induction n as [|n IH]; intros k Hk.
  - simpl. rewrite drop_ge by lia. rewrite bool_decide_eq_false_2; [done|apply not_elem_of_nil].
  - destruct (lookup_lt_is_Some_2 l k) as [q Hq]; [lia|].
    cbn [enrolled]. mrun (slot_run _ _ _ _ H Hq).
    rewrite (drop_S _ _ _ Hq). destruct (Z.eqb_spec q p) as [->|Hne].
    + rewrite bool_decide_eq_true_2; [done|by left].
    + replace (Z.of_nat k + 1) with (Z.of_nat (S k)) by lia. rewrite IH by lia. f_equal.
      apply bool_decide_ext. rewrite elem_of_cons. naive_solver.
Qed.

(** The name of the handler at [p]. *)
Definition name_of (r : registry W) (p : Z) : option str :=
  h ← handler_at r !! p; identifier h.

(** The first handler of the list with the given name. *)
Definition first_named (r : registry W) (name : str) (l : list Z) : option (nat * Z) :=
  list_find (λ p, name_of r p = Some name) l.

Lemma find_run r l k n name :
  reg_rep r l → (k + n = length l)%nat →
  find_identifier n (Z.of_nat k) name r =
  Done ((λ '(i, _), Z.of_nat (k + i)) <$> first_named r name (drop k l)) r.
Proof.
  intros H. revert k; induction n as [|n IH]; intros k Hk.
  - simpl. by rewrite drop_ge by lia.
  - destruct (lookup_lt_is_Some_2 l k) as [q Hq]; [lia|].
    cbn [find_identifier]. mrun (slot_run _ _ _ _ H Hq).
    rewrite (drop_S _ _ _ Hq). unfold first_named. cbn [list_find].
    assert (q ≠ NULL) as Hqn.
    { intros ->. apply (rr_null _ _ H). by eapply list_elem_of_lookup_2. }
    rewrite (proj2 (Z.eqb_neq _ _) Hqn).
    pose proof (rr_structs _ _ H) as Hs. rewrite Forall_lookup in Hs.
    destruct (Hs k q Hq) as [h Hh]. unfold deref_handler. rewrite Hh.
    replace (Z.of_nat k + 1) with (Z.of_nat (S k)) by lia.
    assert (name_of r q = identifier h) as En by (unfold name_of; by rewrite Hh).
    specialize (IH (S k) ltac:(lia)). unfold first_named in IH.
    destruct (identifier h) as [second|] eqn:Ei; simpl.
    + rewrite identical_eq. case_bool_decide as Hd.
      * subst. rewrite decide_True by done. simpl. by rewrite Nat.add_0_r.
      * rewrite decide_False by (rewrite En; congruence). rewrite IH.
        destruct (list_find _ _) as [[i p]|]; simpl; [|done]. by rewrite <-Nat.add_succ_comm.
    + rewrite decide_False by (rewrite En; congruence). rewrite IH.
      destruct (list_find _ _) as [[i p]|]; simpl; [|done]. by rewrite <-Nat.add_succ_comm.
Qed.

(** Writing the slot after the last handler. *)
Lemma put_slot_run r i p :
  (i < length (registered_handlers r))%nat →
  put_slot (Z.of_nat i) p r =
  Done tt (set_handlers (<[i := p]> (registered_handlers r)) (handler_total r) r).
Proof.
  intros Hi. unfold put_slot. rewrite (proj2 (Z.leb_le _ _)), (proj2 (Z.ltb_lt _ _)) by lia.
  simpl. by rewrite Nat2Z.id.
Qed.

Lemma rep_length r l : reg_rep r l → length (registered_handlers r) = 256%nat.
Proof.
  intros H. rewrite (rr_slots _ _ H), length_app, length_replicate. pose proof (rr_cap _ _ H). lia.
Qed.

Definition with_drivers (w : W) (r : registry W) : registry W :=
  mk_registry (registered_handlers r) (handler_total r) (handler_at r) w.

Lemma rep_drivers r l w : reg_rep r l → reg_rep (with_drivers w r) l.
Proof. intros []. by constructor. Qed.

(** The registry with the list [l'] in place of its own. *)
Definition with_list (l' : list Z) (r : registry W) : registry W :=
  set_handlers (l' ++ replicate (256 - length l') NULL) (Z.of_nat (length l')) r.

Lemma with_list_rep r l l' :
  reg_rep r l → (length l' ≤ 256)%nat → NoDup l' → NULL ∉ l' →
  Forall (λ p, is_Some (handler_at r !! p)) l' → reg_rep (with_list l' r) l'.
Proof. intros H Hc Hn Hz Hs. by constructor. Qed.

(** Enrolling a handler appends it to the registry after its start-up succeeded;
    null pointers, duplicates and a 257th handler are refused before the start-up
    runs, and a start-up that fails leaves the registry alone and its code is
    returned.  The list stays free of duplicates and null pointers. *)
Theorem enroll_component_correct r l p :
  reg_rep r l →
  (p = NULL ∨ length l = 256%nat ∨ p ∈ l → enroll_component p r = Done (-1) r) ∧
  (∀ h, p ≠ NULL → (length l < 256)%nat → p ∉ l → handler_at r !! p = Some h →
    (∀ w n, (match startup h with Some f => f | None => mret 0 end) (drivers r) = Done n w →
       if n =? 0
       then enroll_component p r = Done 0 (with_list (l ++ [p]) (with_drivers w r)) ∧
            reg_rep (with_list (l ++ [p]) (with_drivers w r)) (l ++ [p])
       else enroll_component p r = Done n (with_drivers w r))).
Proof.
  intros H. pose proof (rr_total _ _ H) as Ht. pose proof (rr_cap _ _ H) as Hc.
  unfold enroll_component, get. mred. rewrite Ht. unfold COMPONENT_LIMIT.
  assert (enrolled (Z.to_nat (Z.of_nat (length l))) 0 p r = Done (bool_decide (p ∈ l)) r) as E.
  { rewrite Nat2Z.id. by apply (enrolled_run r l 0). }
  split.
  - intros Hbad. destruct (Z.eqb_spec p NULL), (Z.leb_spec 256 (Z.of_nat (length l))); try done.
    cbn [orb]. rewrite E, bool_decide_eq_true_2; [done|]. destruct Hbad as [|[|]]; [done|lia|done].
  - intros h Hp Hl Hin Hh w n Hstart.
    rewrite (proj2 (Z.eqb_neq _ _) Hp), (proj2 (Z.leb_gt _ _)) by lia.
    cbn [orb]. rewrite E, bool_decide_eq_false_2 by done. unfold deref_handler. rewrite Hh.
    assert ((match startup h with Some f => on_drivers f | None => mret 0 end) r =
      Done n (with_drivers w r)) as Es.
    { unfold on_drivers, zoom. destruct (startup h) as [f|].
      - by rewrite Hstart.
      - unfold mret, M_ret in *. injection Hstart as <- <-. by destruct r. }
    unfold mret, M_ret in Es. rewrite Es. destruct (n =? 0); cbn [negb]; [|done].
    change (handler_total (with_drivers w r)) with (handler_total r). rewrite Ht.
    pose proof (rep_drivers r l w H) as H'. pose proof (rep_length _ _ H') as Hlen.
    rewrite put_slot_run by lia. unfold set_total, modify.
    assert (set_handlers (registered_handlers (set_handlers (<[length l := p]>
        (registered_handlers (with_drivers w r))) (handler_total (with_drivers w r)) (with_drivers w r)))
        (Z.of_nat (length l) + 1)
        (set_handlers (<[length l := p]> (registered_handlers (with_drivers w r)))
           (handler_total (with_drivers w r)) (with_drivers w r)) =
      with_list (l ++ [p]) (with_drivers w r)) as ->.
    { unfold with_list, set_handlers. simpl. rewrite (rr_slots _ _ H). f_equal.
      - rewrite insert_app_r_alt by lia. rewrite Nat.sub_diag, length_app. simpl.
        replace (256 - length l)%nat with (S (256 - (length l + 1))) by lia.
        simpl. by rewrite <-app_assoc.
      - rewrite length_app. simpl. lia. }
    split; [done|]. apply (with_list_rep _ l); [done| | | |].
    + rewrite length_app. simpl. lia.
    + apply NoDup_app. split_and!; [apply H|set_solver|apply NoDup_singleton].
    + rewrite elem_of_app, list_elem_of_singleton. pose proof (rr_null _ _ H). naive_solver.
    + apply Forall_app. split; [apply H|]. constructor; [simpl; eauto|done].
Qed.

(** The slots while [remove_component] closes the gap at [i]. *)
Definition shifted (l : list Z) (i j : nat) : list Z :=
  take j (delete i l) ++ drop j l ++ replicate (256 - length l) NULL.

Lemma shift_run r l i :
  reg_rep r l → (i < length l)%nat →
  for_to (Z.of_nat i) (Z.of_nat (length l) - 1) (λ shift,
    q ← handler_slot (shift + 1); put_slot shift q) r =
  Done tt (set_handlers (shifted l i (length l - 1)) (handler_total r) r).
Proof.
  intros H Hi. apply wp_done. pose proof (rr_cap _ _ H) as Hc.
  eapply wp_mono.
  - apply (wp_for_to (λ j r', r' = set_handlers (shifted l i (Z.to_nat j)) (handler_total r) r)).
    + lia.
    + rewrite Nat2Z.id. unfold shifted.
      assert (take i (delete i l) ++ drop i l = l) as E.
      { rewrite delete_take_drop, take_app_le, take_take, Nat.min_id, take_drop;
          [done|rewrite length_take; lia]. }
      rewrite app_assoc, E, <-(rr_slots _ _ H). by destruct r.
    + intros j r' Hj ->. set (n := Z.to_nat j). replace j with (Z.of_nat n) by lia.
      assert (i ≤ n ∧ S n < length l)%nat as Hn by lia.
      destruct (lookup_lt_is_Some_2 l (S n)) as [x Hx]; [lia|].
      destruct (lookup_lt_is_Some_2 l n) as [y Hy]; [lia|].
      assert (length (take n (delete i l)) = n) as Htl.
      { rewrite length_take, length_delete; [lia|]. apply lookup_lt_is_Some_2. lia. }
      apply wp_run. eexists tt, _. split.
      { unfold handler_slot. rewrite (proj2 (Z.leb_le _ _)) by lia. mred.
        change (registered_handlers (set_handlers ?s _ _)) with s.
        replace (Z.to_nat (Z.of_nat n + 1)) with (S n) by lia.
        assert (shifted l i n !! S n = Some x) as ->.
        { unfold shifted. rewrite lookup_app_r by lia. rewrite Htl.
          rewrite lookup_app_l, lookup_drop by (rewrite length_drop; lia).
          by replace (n + (S n - n))%nat with (S n) by lia. }
        rewrite put_slot_run; [reflexivity|]. simpl. unfold shifted.
        rewrite !length_app, Htl, length_drop, length_replicate. lia. }
      simpl. replace (Z.to_nat (Z.of_nat n + 1)) with (S n) by lia. unfold set_handlers. simpl. f_equal.
      unfold shifted. rewrite insert_app_r_alt by lia. rewrite Htl, Nat.sub_diag.
      rewrite (drop_S _ _ _ Hy). simpl.
      assert (delete i l !! n = Some x) as Hd by (rewrite list_lookup_delete_ge by lia; done).
      rewrite (take_S_r _ _ _ Hd), <-app_assoc. done.
  - intros [] r' ->. split; [done|]. by replace (Z.to_nat (Z.of_nat (length l) - 1)) with (length l - 1)%nat by lia.
Qed.

Lemma find_first r l name :
  reg_rep r l →
  find_identifier (Z.to_nat (handler_total r)) 0 name r =
  Done ((λ '(i, _), Z.of_nat i) <$> first_named r name l) r.
Proof.
  intros H. rewrite (rr_total _ _ H), Nat2Z.id. pose proof (find_run r l 0 (length l) name H eq_refl) as E.
  rewrite drop_0 in E. exact E.
Qed.

(** [locate_component] returns the first handler enrolled under the name, or null;
    [remove_component] runs that handler's shutdown and takes exactly that handler off
    the list, keeping the order of the others, and does nothing for an unknown name. *)
Theorem remove_component_correct r l name :
  reg_rep r l →
  match first_named r name l with
  | None => locate_component (Some name) r = Done NULL r ∧
            remove_component (Some name) r = Done tt r
  | Some (i, p) =>
      locate_component (Some name) r = Done p r ∧
      ∀ h w, handler_at r !! p = Some h →
        (match shutdown h with Some f => f | None => mret tt end) (drivers r) = Done tt w →
        remove_component (Some name) r = Done tt (with_list (delete i l) (with_drivers w r)) ∧
        reg_rep (with_list (delete i l) (with_drivers w r)) (delete i l)
  end.
Proof.
  intros H. pose proof (find_first r l name H) as Ef.
  unfold locate_component, remove_component, get. mred. rewrite Ef.
  destruct (first_named r name l) as [[i p]|] eqn:E; simpl; [|done].
  unfold first_named in E. apply list_find_Some in E as (Hi & Hname & _).
  pose proof (lookup_lt_Some _ _ _ Hi) as Hlt. pose proof (rr_cap _ _ H) as Hc.
  rewrite (slot_run _ _ _ _ H Hi). split; [done|]. intros h w Hh Hs.
  unfold deref_handler. rewrite Hh.
  assert ((match shutdown h with Some f => on_drivers f | None => mret tt end) r =
    Done tt (with_drivers w r)) as Es.
  { unfold on_drivers, zoom. destruct (shutdown h) as [f|].
    - by rewrite Hs.
    - unfold mret, M_ret in *. injection Hs as <-. by destruct r. }
  unfold mret, M_ret in Es. rewrite Es.
  pose proof (rep_drivers r l w H) as H'. rewrite (rr_total _ _ H').
  pose proof (shift_run _ l i H' Hlt) as Esh. unfold mbind, M_bind in Esh. rewrite Esh. clear Esh.
  replace (Z.of_nat (length l) - 1) with (Z.of_nat (length l - 1)) by lia.
  assert (length (delete i l) = length l - 1)%nat as Hdl.
  { rewrite length_delete; [lia|]. apply lookup_lt_is_Some_2. lia. }
  assert (length (take (length l - 1) (delete i l)) = length l - 1)%nat as Htl
    by (rewrite length_take; lia).
  rewrite put_slot_run.
  2:{ simpl. unfold shifted. rewrite !length_app, Htl, length_drop, length_replicate. lia. }
  unfold set_total, modify. split.
  - f_equal. unfold with_list, set_handlers. simpl. f_equal; [|by rewrite Hdl].
    unfold shifted. rewrite insert_app_r_alt by lia. rewrite Htl, Nat.sub_diag, Hdl.
    rewrite (take_ge (delete i l)) by lia. f_equal.
    destruct (lookup_lt_is_Some_2 l (length l - 1)) as [x Hx]; [lia|].
    rewrite (drop_S _ _ _ Hx), drop_ge by lia. simpl.
    by replace (256 - (length l - 1))%nat with (S (256 - length l)) by lia.
  - apply (with_list_rep _ l); [done|lia| | |].
    + eapply sublist_NoDup; [apply H|apply sublist_delete].
    + intros Hin. apply (rr_null _ _ H). by eapply elem_of_sublist; [|apply sublist_delete].
    + apply Forall_delete, H'.
Qed.
End registry.

(** ** Witnesses *)

(** Two handlers whose callbacks count. *)
Definition demo_handler (name : str) : component_handler Z :=
  mk_handler (Some name) None 0 (Some (λ w, Done 0 (w + 1))) (Some (λ w, Done tt (w - 1))) None None None.
Definition demo_registry : registry Z :=
  mk_registry ([8] ++ replicate 255 0) 1 {[8 := demo_handler [97]; 16 := demo_handler [98]]} 1.

Lemma demo_registry_rep : reg_rep demo_registry [8].
Proof.
  constructor; [reflexivity|reflexivity|simpl; lia|eval_decide|eval_decide|].
  constructor; [eexists; reflexivity|constructor].
Qed.

Lemma enroll_component_correct_witness :
  enroll_component 16 demo_registry = Done 0 (with_list [8; 16] (with_drivers 2 demo_registry)) ∧
  reg_rep (with_list [8; 16] (with_drivers 2 demo_registry)) [8; 16].
Proof.
  apply (proj2 (enroll_component_correct demo_registry [8] 16 demo_registry_rep) (demo_handler [98])
    ltac:(discriminate) ltac:(simpl; lia) ltac:(eval_decide) eq_refl 2 0 eq_refl).
Defined.

Lemma remove_component_correct_witness :
  locate_component (Some [97]) demo_registry = Done 8 demo_registry ∧
  remove_component (Some [97]) demo_registry = Done tt (with_list [] (with_drivers 0 demo_registry)).
Proof.
  destruct (remove_component_correct demo_registry [8] [97] demo_registry_rep) as [H1 H2].
  split; [exact H1|]. exact (proj1 (H2 (demo_handler [97]) 0 eq_refl eq_refl)).
Defined.
