(* ===== verification/Vfs.v ===== *)
(** * The virtual file system, [core/fs/vfs/vfs.c] and [core/fs/vfs/commands.c]

    Nodes, open files and the private data of the file systems are structures on the
    kernel heap: the state keeps each kind by address, and their storage comes from
    the allocator interface ([Alloc.v]), whose memory also holds the data of the
    files.  A pointer to no live structure faults, and so does a copy into a fixed
    buffer that is too small.  A file system is a table of operations; the tables are
    an argument of the generic layer ([Backends]).

    Paths and names are the lists of their characters.  A caller's buffer to be
    written out is the list of its bytes; what is stored into a caller's buffer is
    returned as a list of (offset, bytes). *)

From Stdlib Require Import ZArith Lia String.
From stdpp Require Import base gmap list numbers fin_maps.
From S2P Require Import Prelude Memory Alloc Module.
Open Scope Z_scope.
Set Default Goal Selector "!".

Definition FS_FILE : Z := 0x01.
Definition FS_DIR : Z := 0x02.
Definition FS_DEV : Z := 0x04.
Definition O_RDONLY : Z := 0x01.
Definition O_WRONLY : Z := 0x02.
Definition O_CREAT : Z := 0x04.
Definition FS_MAX_MNTS : Z := 20.
Definition FS_MAX_FDS : Z := 64.
Definition FS_MAX_PATH : Z := 200.

(** The static operation tables of the three file systems. *)
Inductive fs_id := Tmpfs | Devfs | Ext4.
#[global] Instance fs_id_eq_dec : EqDecision fs_id.
Proof. solve_decision. Defined.

Record fs_node := mk_node {
  n_name : str;          (* char[64] *)
  n_type : Z;
  n_size : Z;            (* u64 *)
  n_inode : Z;
  n_ops : option fs_id;  (* NULL or a table *)
  n_priv : Z;
  n_children : Z;
  n_next : Z;
  n_parent : Z;
}.
Definition SIZEOF_FS_NODE : Z := 128.

Record fs_file := mk_file { f_node : Z; f_pos : Z; f_flags : Z }.
Definition SIZEOF_FS_FILE : Z := 24.

Record fs_mnt := mk_mnt {
  m_path : str;          (* char[200] *)
  m_type : option fs_id;
  m_root : Z;
  m_priv : Z;
  m_active : bool;
}.

(** [tmpfs_data] and [devfs_data]. *)
Record tmpfs_data := mk_tdata { t_data : Z; t_cap : Z }.
Definition SIZEOF_TMPFS_DATA : Z := 16.
Record devfs_data := mk_ddata { d_handler : Z; d_handle : Z }.
Definition SIZEOF_DEVFS_DATA : Z := 16.

(** The whole state: [alloc] is the kernel heap, [reg] the component registry with the
    drivers' state, [ext] the state of the file system on disk. *)
Record vfs (A W X : Type) := mk_vfs {
  alloc : A;
  fs_kernel_memory : Z;
  nodes : gmap Z fs_node;
  files : gmap Z fs_file;
  tdatas : gmap Z tmpfs_data;
  ddatas : gmap Z devfs_data;
  mnts : list fs_mnt;
  fds : list Z;
  types : list (option fs_id);
  type_cnt : Z;
  devfs_root : Z;
  init_boot_log : Z;
  reg : registry W;
  ext : X;
}.
Arguments mk_vfs {A W X}.
Arguments alloc {A W X}.
Arguments fs_kernel_memory {A W X}.
Arguments nodes {A W X}.
Arguments files {A W X}.
Arguments tdatas {A W X}.
Arguments ddatas {A W X}.
Arguments mnts {A W X}.
Arguments fds {A W X}.
Arguments types {A W X}.
Arguments type_cnt {A W X}.
Arguments devfs_root {A W X}.
Arguments init_boot_log {A W X}.
Arguments reg {A W X}.
Arguments ext {A W X}.

(** [fs_ops]: a null member is [None]. *)
Record fs_ops (S : Type) := mk_ops {
  o_open : option (Z → Z → M S Z);
  o_close : option (Z → M S Z);
  o_read : option (Z → Z → M S (Z * list (Z * list Z)));
  o_write : option (Z → list Z → M S Z);
  o_lookup : option (Z → str → M S Z);
  o_create : option (Z → str → M S Z);
  o_mkdir : option (Z → str → M S Z);
}.
Arguments mk_ops {S}.
Arguments o_open {S}.
Arguments o_close {S}.
Arguments o_read {S}.
Arguments o_write {S}.
Arguments o_lookup {S}.
Arguments o_create {S}.
Arguments o_mkdir {S}.

(** [fs_type]: its name and its mount function (source, with the address of its
    characters; target; index of the mount). *)
Record fs_type (S : Type) := mk_type {
  ty_name : str;
  ty_mount : option (Z * str) → str → Z → M S Z;
}.
Arguments mk_type {S}.
Arguments ty_name {S}.
Arguments ty_mount {S}.

(** The tables linked into the kernel. *)
Class Backends (S : Type) := {
  ops_of : fs_id → fs_ops S;
  type_of : fs_id → fs_type S;
}.

Section updates.
  Context {A W X : Type}.
Abbreviation S := (vfs A W X).

Definition set_alloc (x : A) (v : S) : S := mk_vfs x (fs_kernel_memory v) (nodes v) (files v) (tdatas v) (ddatas v) (mnts v) (fds v) (types v) (type_cnt v) (devfs_root v) (init_boot_log v) (reg v) (ext v).
Definition set_kmem (x : Z) (v : S) : S := mk_vfs (alloc v) x (nodes v) (files v) (tdatas v) (ddatas v) (mnts v) (fds v) (types v) (type_cnt v) (devfs_root v) (init_boot_log v) (reg v) (ext v).
Definition set_nodes (x : gmap Z fs_node) (v : S) : S := mk_vfs (alloc v) (fs_kernel_memory v) x (files v) (tdatas v) (ddatas v) (mnts v) (fds v) (types v) (type_cnt v) (devfs_root v) (init_boot_log v) (reg v) (ext v).
Definition set_files (x : gmap Z fs_file) (v : S) : S := mk_vfs (alloc v) (fs_kernel_memory v) (nodes v) x (tdatas v) (ddatas v) (mnts v) (fds v) (types v) (type_cnt v) (devfs_root v) (init_boot_log v) (reg v) (ext v).
Definition set_tdatas (x : gmap Z tmpfs_data) (v : S) : S := mk_vfs (alloc v) (fs_kernel_memory v) (nodes v) (files v) x (ddatas v) (mnts v) (fds v) (types v) (type_cnt v) (devfs_root v) (init_boot_log v) (reg v) (ext v).
Definition set_ddatas (x : gmap Z devfs_data) (v : S) : S := mk_vfs (alloc v) (fs_kernel_memory v) (nodes v) (files v) (tdatas v) x (mnts v) (fds v) (types v) (type_cnt v) (devfs_root v) (init_boot_log v) (reg v) (ext v).
Definition set_mnts (x : list fs_mnt) (v : S) : S := mk_vfs (alloc v) (fs_kernel_memory v) (nodes v) (files v) (tdatas v) (ddatas v) x (fds v) (types v) (type_cnt v) (devfs_root v) (init_boot_log v) (reg v) (ext v).
Definition set_fds (x : list Z) (v : S) : S := mk_vfs (alloc v) (fs_kernel_memory v) (nodes v) (files v) (tdatas v) (ddatas v) (mnts v) x (types v) (type_cnt v) (devfs_root v) (init_boot_log v) (reg v) (ext v).
Definition set_types (x : list (option fs_id)) (n : Z) (v : S) : S := mk_vfs (alloc v) (fs_kernel_memory v) (nodes v) (files v) (tdatas v) (ddatas v) (mnts v) (fds v) x n (devfs_root v) (init_boot_log v) (reg v) (ext v).
Definition set_devfs_root (x : Z) (v : S) : S := mk_vfs (alloc v) (fs_kernel_memory v) (nodes v) (files v) (tdatas v) (ddatas v) (mnts v) (fds v) (types v) (type_cnt v) x (init_boot_log v) (reg v) (ext v).
Definition set_boot_log (x : Z) (v : S) : S := mk_vfs (alloc v) (fs_kernel_memory v) (nodes v) (files v) (tdatas v) (ddatas v) (mnts v) (fds v) (types v) (type_cnt v) (devfs_root v) x (reg v) (ext v).
Definition set_reg (x : registry W) (v : S) : S := mk_vfs (alloc v) (fs_kernel_memory v) (nodes v) (files v) (tdatas v) (ddatas v) (mnts v) (fds v) (types v) (type_cnt v) (devfs_root v) (init_boot_log v) x (ext v).
Definition set_ext (x : X) (v : S) : S := mk_vfs (alloc v) (fs_kernel_memory v) (nodes v) (files v) (tdatas v) (ddatas v) (mnts v) (fds v) (types v) (type_cnt v) (devfs_root v) (init_boot_log v) (reg v) x.

(** [*p] for the structures, and assignments through a pointer. *)
Definition get_node (p : Z) : M S fs_node := λ v,
  match nodes v !! p with Some n => Done n v | None => Stuck Fault end.
Definition put_node (p : Z) (n : fs_node) : M S unit := modify (λ v, set_nodes (<[p := n]> (nodes v)) v).
Definition get_file (p : Z) : M S fs_file := λ v,
  match files v !! p with Some n => Done n v | None => Stuck Fault end.
Definition put_file (p : Z) (n : fs_file) : M S unit := modify (λ v, set_files (<[p := n]> (files v)) v).
Definition get_tdata (p : Z) : M S tmpfs_data := λ v,
  match tdatas v !! p with Some n => Done n v | None => Stuck Fault end.
Definition put_tdata (p : Z) (n : tmpfs_data) : M S unit := modify (λ v, set_tdatas (<[p := n]> (tdatas v)) v).
Definition get_ddata (p : Z) : M S devfs_data := λ v,
  match ddatas v !! p with Some n => Done n v | None => Stuck Fault end.
Definition put_ddata (p : Z) (n : devfs_data) : M S unit := modify (λ v, set_ddatas (<[p := n]> (ddatas v)) v).
Definition get_mnt (i : Z) : M S fs_mnt := λ v,
  if i <? 0 then Stuck Fault else
  match mnts v !! Z.to_nat i with Some m => Done m v | None => Stuck Fault end.
Definition put_mnt (i : Z) (m : fs_mnt) : M S unit := λ v,
  if (0 <=? i) && (i <? Z.of_nat (length (mnts v)))
  then Done tt (set_mnts (<[Z.to_nat i := m]> (mnts v)) v) else Stuck Fault.

Definition on_alloc {B} (m : M A B) : M S B := zoom alloc set_alloc m.
Definition on_reg {B} (m : M (registry W) B) : M S B := zoom reg set_reg m.
Definition on_ext {B} (m : M X B) : M S B := zoom ext set_ext m.
End updates.

Section vfs.
  Context {A W X : Type} `{!AllocOps A} `{!Backends (vfs A W X)}.
Abbreviation S := (vfs A W X).

Definition kcreate (sz : Z) : M S Z := v ← get; on_alloc (al_create (fs_kernel_memory v) sz).
Definition kfree (p : Z) : M S unit := v ← get; on_alloc (al_free (fs_kernel_memory v) p).
(** A routine of [Memory.v] run on the allocator's memory. *)
Definition on_mem {B} (m : M mem B) : M S B := on_alloc (zoom al_ram al_set_ram m).

(** ** [vfs.c] *)

(** The loop of [find_mnt] over the mounts from index [i] on. *)
Fixpoint find_mnt_from (i : Z) (ms : list fs_mnt) (path : str) (best best_len : Z) : Z :=
  match ms with
  | [] => best
  | m :: ms' =>
      if negb (m_active m) then find_mnt_from (i + 1) ms' path best best_len else
      let len := Z.of_nat (length (m_path m)) in
      if (best_len <? len) && bool_decide (m_path m `prefix_of` path)
      then find_mnt_from (i + 1) ms' path i len
      else find_mnt_from (i + 1) ms' path best best_len
  end.

(** The index of the best mount; [-1] for the null pointer. *)
Definition find_mnt (path : str) : M S Z := gets (λ v, find_mnt_from 0 (mnts v) path (-1) 0).

Fixpoint first_free_fd (i : Z) (l : list Z) : option Z :=
  match l with
  | [] => None
  | p :: l' => if (3 <=? i) && (p =? NULL) then Some i else first_free_fd (i + 1) l'
  end.

Definition fs_alloc_fd (file : Z) : M S Z :=
  v ← get;
  match first_free_fd 0 (fds v) with
  | Some i => modify (set_fds (<[Z.to_nat i := file]> (fds v)));; mret i
  | None => mret (-1)
  end.

Definition fs_free_fd (fd : Z) : M S unit :=
  if (0 <=? fd) && (fd <? FS_MAX_FDS)
  then modify (λ v, set_fds (<[Z.to_nat fd := NULL]> (fds v)) v) else mret tt.

Definition fs_get_file (fd : Z) : M S Z :=
  if (fd <? 0) || (FS_MAX_FDS <=? fd) then mret NULL
  else gets (λ v, default NULL (fds v !! Z.to_nat fd)).

(** [file->node->ops], when it is not null. *)
Definition file_ops (file : Z) : M S (option (fs_ops S)) :=
  f ← get_file file;
  n ← get_node (f_node f);
  mret (ops_of <$> n_ops n).

Definition fs_read (fd cnt : Z) : M S (Z * list (Z * list Z)) :=
  file ← fs_get_file fd;
  if file =? NULL then mret (-1, []) else
  o ← file_ops file;
  match o ≫= o_read with
  | None => mret (-1, [])
  | Some read => read file cnt
  end.

Definition fs_write (fd : Z) (buf : list Z) : M S Z :=
  file ← fs_get_file fd;
  if file =? NULL then mret (-1) else
  o ← file_ops file;
  match o ≫= o_write with
  | None => mret (-1)
  | Some write => write file buf
  end.

(** [SYSTEM_PRINT]: besides the screen, the boot log when it is open. *)
Definition SYSTEM_PRINT (msg : str) : M S unit :=
  v ← get;
  if init_boot_log v <? 0 then mret tt else
  _ ← fs_write (init_boot_log v) msg; mret tt.

Definition fs_register (t : fs_id) : M S Z :=
  v ← get;
  if 8 <=? type_cnt v then mret (-1) else
  modify (set_types (<[Z.to_nat (type_cnt v) := Some t]> (types v)) (type_cnt v + 1));;
  SYSTEM_PRINT (chars "[FS] ");;
  SYSTEM_PRINT (chars "registered: ");;
  SYSTEM_PRINT (ty_name (type_of t));;
  SYSTEM_PRINT [10];;
  mret 0.

Fixpoint first_inactive (i : Z) (ms : list fs_mnt) : option Z :=
  match ms with
  | [] => None
  | m :: ms' => if m_active m then first_inactive (i + 1) ms' else Some i
  end.

(** The first registered type with the given name; an empty slot faults. *)
Fixpoint find_type (ts : list (option fs_id)) (name : str) : M S (option fs_id) :=
  match ts with
  | [] => mret None
  | None :: _ => fault
  | Some t :: ts' =>
      if bool_decide (ty_name (type_of t) = name) then mret (Some t) else find_type ts' name
  end.

Definition fs_mount (src : option (Z * str)) (tgt type_name : option str) : M S Z :=
  match tgt, type_name with
  | Some tgt, Some type_name =>
      v ← get;
      match first_inactive 0 (mnts v) with
      | None => mret (-1)
      | Some i =>
          t ← find_type (take (Z.to_nat (type_cnt v)) (types v)) type_name;
          match t with
          | None => mret (-1)
          | Some t =>
              if FS_MAX_PATH <=? Z.of_nat (length tgt) then fault else
              m ← get_mnt i;
              put_mnt i (mk_mnt tgt (Some t) NULL NULL (m_active m));;
              ret ← ty_mount (type_of t) src tgt i;
              if negb (ret =? 0) then mret ret else
              m ← get_mnt i;
              put_mnt i (mk_mnt (m_path m) (m_type m) (m_root m) (m_priv m) true);;
              SYSTEM_PRINT (chars "[FS] ");;
              SYSTEM_PRINT (chars "mount ");;
              SYSTEM_PRINT type_name;;
              SYSTEM_PRINT (chars " to ");;
              SYSTEM_PRINT tgt;;
              SYSTEM_PRINT [10];;
              mret 0
          end
      end
  | _, _ => mret (-1)
  end.

(** [cur->ops->lookup(cur, comp)], null when there is no such operation. *)
Definition node_lookup (cur : Z) (comp : str) : M S Z :=
  n ← get_node cur;
  match (ops_of <$> n_ops n) ≫= o_lookup with
  | None => mret NULL
  | Some lookup => lookup cur comp
  end.

(** The loop of [fs_resolve]: [comp] is the component read so far, at most 63
    characters of it. *)
Fixpoint resolve_walk (rel comp : str) (cur : Z) : M S Z :=
  match rel with
  | [] => if bool_decide (comp = []) then mret cur else node_lookup cur comp
  | c :: rel' =>
      if c =? 47 then
        if bool_decide (comp = []) then resolve_walk rel' [] cur else
        next ← node_lookup cur comp;
        if next =? NULL then mret NULL else resolve_walk rel' [] next
      else resolve_walk rel' (if Z.of_nat (length comp) <? 63 then comp ++ [c] else comp) cur
  end.

Definition fs_resolve (path : option str) : M S Z :=
  match path with
  | None => mret NULL
  | Some path =>
      if negb (bool_decide (head path = Some 47)) then mret NULL else
      i ← find_mnt path;
      if i =? -1 then mret NULL else
      m ← get_mnt i;
      if m_root m =? NULL then mret NULL else
      let rel := drop (length (m_path m)) path in
      let rel := if bool_decide (head rel = Some 47) then tail rel else rel in
      match rel with
      | [] => mret (m_root m)
      | _ => resolve_walk rel [] (m_root m)
      end
  end.

Definition fs_mknode (name : str) (type : Z) : M S Z :=
  node ← kcreate SIZEOF_FS_NODE;
  if node =? NULL then mret NULL else
  if 64 <=? Z.of_nat (length name) then fault else
  put_node node (mk_node name type 0 0 None NULL NULL NULL NULL);;
  mret node.

Definition fs_addchild (parent child : Z) : M S Z :=
  if (parent =? NULL) || (child =? NULL) then mret (-1) else
  p ← get_node parent;
  c ← get_node child;
  put_node child (mk_node (n_name c) (n_type c) (n_size c) (n_inode c) (n_ops c) (n_priv c)
                    (n_children c) (n_children p) parent);;
  p ← get_node parent;
  put_node parent (mk_node (n_name p) (n_type p) (n_size p) (n_inode p) (n_ops p) (n_priv p)
                     child (n_next p) (n_parent p));;
  mret 0.

Definition fs_init : M S unit :=
  SYSTEM_PRINT (chars "[FS] ");;
  SYSTEM_PRINT (chars "init generic VFS" ++ [10]);;
  modify (λ v, set_mnts ((λ m, mk_mnt (m_path m) (m_type m) (m_root m) (m_priv m) false) <$> mnts v) v);;
  modify (set_fds (replicate 64 NULL));;
  modify (set_types (replicate 8 None) 0).

(** The system's [off_t] is a signed 64-bit integer, a position an unsigned one. *)
Definition fs_lseek (fd offset whence : Z) : M S Z :=
  file ← fs_get_file fd;
  if file =? NULL then mret (-1) else
  f ← get_file file;
  pos ← (if whence =? 0 then mret (Some (u64 offset))
         else if whence =? 1 then mret (Some (u64 (f_pos f + offset)))
         else if whence =? 2 then n ← get_node (f_node f); mret (Some (u64 (n_size n + offset)))
         else mret None);
  match pos with
  | None => mret (-1)
  | Some pos => put_file file (mk_file (f_node f) pos (f_flags f));; mret (i64 pos)
  end.

(** ** [commands.c] *)

(** The position of the last slash, [0] when there is none. *)
Fixpoint last_slash (i last : nat) (path : str) : nat :=
  match path with
  | [] => last
  | c :: path' => last_slash (i + 1) (if c =? 47 then i else last) path'
  end.

(** The parent path and the last name, as the fixed buffers hold them. *)
Definition split_path (path : str) : M S (str * str) :=
  let last := last_slash 0 0 path in
  let plen := if (last =? 0)%nat then 1%nat else last in
  if FS_MAX_PATH <=? Z.of_nat plen then fault else
  match path with
  | [] => fault
  | _ =>
      let name := drop (last + 1) path in
      if 64 <=? Z.of_nat (length name) then fault else mret (take plen path, name)
  end.

(** Freeing an open file: its storage is no [fs_file] any more. *)
Definition free_file (file : Z) : M S unit :=
  kfree file;; modify (λ v, set_files (delete file (files v)) v).

Definition fs_open (path : str) (flags : Z) : M S Z :=
  node ← fs_resolve (Some path);
  node ← (if (node =? NULL) && truthy (Z.land flags O_CREAT) then
            '(ppath, fname) ← split_path path;
            parent ← fs_resolve (Some ppath);
            if parent =? NULL then mret node else
            p ← get_node parent;
            match (ops_of <$> n_ops p) ≫= o_create with
            | None => mret node
            | Some create => _ ← create parent fname; fs_resolve (Some path)
            end
          else mret node);
  if node =? NULL then mret (-1) else
  file ← kcreate SIZEOF_FS_FILE;
  if file =? NULL then mret (-1) else
  put_file file (mk_file node 0 (u32 flags));;
  n ← get_node node;
  ret ← match (ops_of <$> n_ops n) ≫= o_open with
        | None => mret 0
        | Some open_ => open_ node file
        end;
  if negb (ret =? 0) then free_file file;; mret (-1) else
  fd ← fs_alloc_fd file;
  if fd <? 0 then free_file file;; mret (-1) else
  mret fd.

Definition fs_close (fd : Z) : M S Z :=
  file ← fs_get_file fd;
  if file =? NULL then mret (-1) else
  o ← file_ops file;
  match o ≫= o_close with
  | None => mret tt
  | Some close => _ ← close file; mret tt
  end;;
  free_file file;;
  fs_free_fd fd;;
  mret 0.

Definition fs_mkdir (path : str) : M S Z :=
  '(ppath, dname) ← split_path path;
  parent ← fs_resolve (Some ppath);
  if parent =? NULL then mret (-1) else
  p ← get_node parent;
  match (ops_of <$> n_ops p) ≫= o_mkdir with
  | None => mret (-1)
  | Some mkdir =>
      ret ← mkdir parent dname;
      (if ret =? 0 then
         SYSTEM_PRINT (chars "     ");;
         SYSTEM_PRINT (chars "mkdir ");;
         SYSTEM_PRINT path;;
         SYSTEM_PRINT [10]
       else mret tt);;
      mret ret
  end.
End vfs.

(** ** The mount a path belongs to *)

Section find_mnt_facts.
  Context {A W X : Type}.

(** The mount [m] is a candidate for [path]. *)
Definition mnt_covers (m : fs_mnt) (path : str) : Prop :=
  m_active m = true ∧ m_path m ≠ [] ∧ m_path m `prefix_of` path.

Lemma find_mnt_from_spec ms0 path i best best_len ms :
  (0 ≤ best_len) → i = Z.of_nat (length ms0) →
  (best = -1 ∧ best_len = 0 ∧ (∀ k m, ms0 !! k = Some m → ¬ mnt_covers m path) ∨
   ∃ m, 0 ≤ best ∧ ms0 !! Z.to_nat best = Some m ∧ mnt_covers m path ∧
        best_len = Z.of_nat (length (m_path m)) ∧
        ∀ k m', ms0 !! k = Some m' → mnt_covers m' path →
          (length (m_path m') ≤ length (m_path m))%nat ∧
          ((k < Z.to_nat best)%nat → (length (m_path m') < length (m_path m))%nat)) →
  let r := find_mnt_from i ms path best best_len in
  (r = -1 ∧ (∀ k m, (ms0 ++ ms) !! k = Some m → ¬ mnt_covers m path) ∨
   ∃ m, 0 ≤ r ∧ (ms0 ++ ms) !! Z.to_nat r = Some m ∧ mnt_covers m path ∧
        ∀ k m', (ms0 ++ ms) !! k = Some m' → mnt_covers m' path →
          (length (m_path m') ≤ length (m_path m))%nat ∧
          ((k < Z.to_nat r)%nat → (length (m_path m') < length (m_path m))%nat)).
Proof.
  revert ms0 i best best_len; induction ms as [|m ms IH];
    intros ms0 i best bl Hbl Hi Hinv; cbn [find_mnt_from].
  { rewrite app_nil_r. destruct Hinv as [(-> & _ & H)|(m & ? & ? & ? & _ & H)]; [by left|].
    right. exists m. done. }
  replace (ms0 ++ m :: ms) with ((ms0 ++ [m]) ++ ms) by by rewrite <-app_assoc.
  assert (Hi' : i + 1 = Z.of_nat (length (ms0 ++ [m]))).
  { rewrite length_app. simpl. lia. }
  assert (Hsnoc : ∀ k m', (ms0 ++ [m]) !! k = Some m' →
    ms0 !! k = Some m' ∨ (k = length ms0 ∧ m' = m)).
  { intros k m' [H|[? H]]%lookup_app_Some; [by left|].
    apply list_lookup_singleton_Some in H. right. split; [lia|naive_solver]. }
  assert (Hkeep : (mnt_covers m path → Z.of_nat (length (m_path m)) ≤ bl) →
    best = -1 ∧ bl = 0 ∧ (∀ k m0, (ms0 ++ [m]) !! k = Some m0 → ¬ mnt_covers m0 path) ∨
   ∃ m0, 0 ≤ best ∧ (ms0 ++ [m]) !! Z.to_nat best = Some m0 ∧ mnt_covers m0 path ∧
        bl = Z.of_nat (length (m_path m0)) ∧
        ∀ k m', (ms0 ++ [m]) !! k = Some m' → mnt_covers m' path →
          (length (m_path m') ≤ length (m_path m0))%nat ∧
          ((k < Z.to_nat best)%nat → (length (m_path m') < length (m_path m0))%nat)).
  { intros Hm. destruct Hinv as [(-> & -> & H)|(m0 & Hb & Hl & Hc & -> & H)].
    - left. split_and!; [done..|]. intros k m' [Hk|[-> ->]]%Hsnoc Hcov; [by eapply H|].
      specialize (Hm Hcov). destruct Hcov as (_ & Hne & _). destruct (m_path m); [done|].
      simpl in Hm. lia.
    - right. exists m0. split_and!; [done|by apply lookup_app_l_Some|done..|].
      intros k m' [Hk|[-> ->]]%Hsnoc Hcov; [by eapply H|].
      specialize (Hm Hcov). split; [lia|]. intros Hlt.
      apply lookup_lt_Some in Hl. lia. }
  destruct (m_active m) eqn:Ha; cbn [negb].
  2:{ apply IH; [done|done|]. apply Hkeep. intros (? & _). congruence. }
  destruct ((bl <? Z.of_nat (length (m_path m))) && bool_decide (m_path m `prefix_of` path)) eqn:Hc.
  2:{ apply IH; [done|done|]. apply Hkeep. intros (_ & _ & Hp).
      rewrite (bool_decide_eq_true_2 _ Hp), andb_true_r in Hc. lia. }
  apply andb_prop in Hc as [Hlt%Z.ltb_lt Hp%bool_decide_eq_true_1].
  apply IH; [lia|done|]. right. exists m. subst i.
  assert (Hcm : mnt_covers m path).
  { split_and!; [done|intros E; rewrite E in Hlt; simpl in Hlt; lia|done]. }
  split_and!; [lia|by rewrite Nat2Z.id, list_lookup_middle|done|done|].
  intros k m' [Hk|[-> ->]]%Hsnoc Hcov; [|split; lia].
  destruct Hinv as [(_ & _ & H)|(m0 & _ & _ & _ & -> & H)].
  - exfalso. by eapply H.
  - destruct (H _ _ Hk Hcov). lia.
Qed.

(** The mount of a path.  [find_mnt] returns no mount exactly when no active mount
    with a non-empty path is a prefix of the path; otherwise the mount it returns is
    active, its path is a prefix, and it is the first of the longest such mounts.  No
    path component boundary is asked for: a mount on [/dev] covers [/device]. *)
Theorem find_mnt_longest (path : str) (v : vfs A W X) :
  ∃ i, find_mnt path v = Done i v ∧
    (i = -1 ∧ (∀ k m, mnts v !! k = Some m → ¬ mnt_covers m path) ∨
     ∃ m, 0 ≤ i ∧ mnts v !! Z.to_nat i = Some m ∧ mnt_covers m path ∧
          ∀ k m', mnts v !! k = Some m' → mnt_covers m' path →
            (length (m_path m') ≤ length (m_path m))%nat ∧
            ((k < Z.to_nat i)%nat → (length (m_path m') < length (m_path m))%nat)).
Proof.
  eexists. split; [done|].
  apply (find_mnt_from_spec [] path 0 (-1) 0); [done..|]. left. done.
Qed.
End find_mnt_facts.

(** ** The walk of a path *)

(** The non-empty components of a path, cut at 63 characters: the reference that the
    character loop of [fs_resolve] implements. *)
Fixpoint components_from (comp rel : str) : list str :=
  match rel with
  | [] => if bool_decide (comp = []) then [] else [take 63 comp]
  | c :: rel' =>
      if c =? 47
      then (if bool_decide (comp = []) then [] else [take 63 comp]) ++ components_from [] rel'
      else components_from (comp ++ [c]) rel'
  end.
Definition components (path : str) : list str := components_from [] path.

Section resolve_facts.
  Context {A W X : Type} `{!AllocOps A} `{!Backends (vfs A W X)}.
Abbreviation S := (vfs A W X).

(** Looking the components up one after the other, stopping at the first failure. *)
Fixpoint lookup_all (cs : list str) (cur : Z) : M S Z :=
  match cs with
  | [] => mret cur
  | c :: cs' =>
      next ← node_lookup cur c;
      if next =? NULL then mret NULL else lookup_all cs' next
  end.

Lemma resolve_walk_components rel comp cur v :
  resolve_walk rel (take 63 comp) cur v = lookup_all (components_from comp rel) cur v.
Proof.
  revert comp cur v; induction rel as [|c rel IH]; intros comp cur v;
    cbn [resolve_walk components_from].
  - assert (bool_decide (take 63 comp = []) = bool_decide (comp = [])) as ->
      by (apply bool_decide_ext; by destruct comp).
    case_bool_decide; [done|]. cbn [lookup_all]. mred.
    destruct (node_lookup cur (take 63 comp) v) as [x w|]; [|done].
    destruct (Z.eqb_spec x NULL) as [->|]; done.
  - assert (bool_decide (take 63 comp = []) = bool_decide (comp = [])) as ->
      by (apply bool_decide_ext; by destruct comp).
    destruct (c =? 47).
    + case_bool_decide; cbn [app].
      * apply (IH []).
      * cbn [lookup_all]. mred. destruct (node_lookup cur (take 63 comp) v) as [x w|]; [|done].
        destruct (x =? NULL); [done|]. apply (IH []).
    + rewrite <-IH. f_equal. rewrite length_take.
      destruct (Z.ltb_spec (Z.of_nat (63 `min` length comp)) 63).
      * rewrite take_ge by lia. rewrite take_ge; [done|]. rewrite length_app. simpl. lia.
      * rewrite take_app_le by lia. done.
Qed.

(** C18: path resolution.  For a path of an active mount with a root, [fs_resolve] looks
    up, from the root of the mount, the non-empty components of the rest of the path, each
    cut at 63 characters, in order, and stops with the null pointer at the first one that
    is missing; repeated and trailing slashes do not matter. *)
Theorem fs_resolve_components (path : str) (v : S) (m : fs_mnt) (i : Z)
    (Hslash : head path = Some 47) (Hi : find_mnt path v = Done i v) (Hi0 : 0 ≤ i)
    (Hm : mnts v !! Z.to_nat i = Some m) (Hroot : m_root m ≠ NULL) :
  fs_resolve (Some path) v =
    lookup_all (components (drop (length (m_path m)) path)) (m_root m) v.
Proof.
  unfold fs_resolve. rewrite bool_decide_eq_true_2 by done. cbn [negb].
  mrun Hi. rewrite (proj2 (Z.eqb_neq i (-1))) by lia.
  unfold get_mnt. rewrite (proj2 (Z.ltb_ge i 0)) by lia. mrun Hm.
  rewrite (proj2 (Z.eqb_neq _ _) Hroot).
  assert (Hcomp : ∀ rel, components (if bool_decide (head rel = Some 47) then tail rel else rel)
    = components rel).
  { intros rel. case_bool_decide as H; [|done]. destruct rel; [done|].
    simpl in H. by injection H as ->. }
  rewrite <-Hcomp. set (rel := if bool_decide _ then _ else _).
  transitivity (resolve_walk rel (take 63 []) (m_root m) v).
  - by destruct rel.
  - apply resolve_walk_components.
Qed.
End resolve_facts.
