(* ===== verification/Tmpfs.v ===== *)
(** * The memory file system, [core/fs/vfs/tmpfs/tmpfs.c]

    A directory is the linked list of its children; a file's bytes lie in one heap
    buffer that grows by whole pages. *)

From Stdlib Require Import ZArith Lia String.
From stdpp Require Import base gmap list numbers fin_maps.
From S2P Require Import Prelude Memory Heap KernelMemory Alloc KernelAlloc Module Vfs.
Open Scope Z_scope.
Set Default Goal Selector "!".

Section tmpfs.
  Context {A W X : Type} `{!AllocOps A}.
Abbreviation S := (vfs A W X).

Definition tmpfs_open (node file : Z) : M S Z := mret 0.
Definition tmpfs_close (file : Z) : M S Z := mret 0.

Definition tmpfs_read (file cnt : Z) : M S (Z * list (Z * list Z)) :=
  f ← get_file file;
  n ← get_node (f_node f);
  if negb (n_type n =? FS_FILE) then mret (-1, []) else
  if n_priv n =? NULL then mret (0, []) else
  d ← get_tdata (n_priv n);
  if t_data d =? NULL then mret (0, []) else
  if n_size n <=? f_pos f then mret (0, []) else
  let to_read := if n_size n <? u64 (f_pos f + cnt) then n_size n - f_pos f else cnt in
  bs ← on_mem (load_bytes (Z.to_nat to_read) (t_data d + f_pos f));
  put_file file (mk_file (f_node f) (u64 (f_pos f + to_read)) (f_flags f));;
  mret (to_read, [(0, bs)]).

(** [node->priv], made if there is none. *)
Definition tmpfs_priv (node : Z) : M S Z :=
  n ← get_node node;
  if negb (n_priv n =? NULL) then mret (n_priv n) else
  data ← kcreate SIZEOF_TMPFS_DATA;
  if data =? NULL then mret NULL else
  put_tdata data (mk_tdata NULL 0);;
  n ← get_node node;
  put_node node (mk_node (n_name n) (n_type n) (n_size n) (n_inode n) (n_ops n) data
                   (n_children n) (n_next n) (n_parent n));;
  mret data.

(** Room for [needed] bytes; [false] when there is no memory. *)
Definition tmpfs_grow (node data needed : Z) : M S bool :=
  d ← get_tdata data;
  if needed <=? t_cap d then mret true else
  let new_cap := Z.land (u64 (needed + 4095)) (u64 (Z.lnot 4095)) in
  new_data ← kcreate new_cap;
  if new_data =? NULL then mret false else
  n ← get_node node;
  (if negb (t_data d =? NULL) && (0 <? n_size n) then
     on_mem (memcpy new_data (t_data d) (n_size n));;
     kfree (t_data d)
   else mret tt);;
  put_tdata data (mk_tdata new_data new_cap);;
  mret true.

Definition tmpfs_write (file : Z) (buf : list Z) : M S Z :=
  let cnt := Z.of_nat (length buf) in
  f ← get_file file;
  let node := f_node f in
  n ← get_node node;
  if negb (n_type n =? FS_FILE) then mret (-1) else
  data ← tmpfs_priv node;
  if data =? NULL then mret (-1) else
  ok ← tmpfs_grow node data (u64 (f_pos f + cnt));
  if negb (ok : bool) then mret (-1) else
  d ← get_tdata data;
  on_mem (store_bytes (t_data d + f_pos f) buf);;
  let pos := u64 (f_pos f + cnt) in
  put_file file (mk_file node pos (f_flags f));;
  n ← get_node node;
  (if n_size n <? pos then
     put_node node (mk_node (n_name n) (n_type n) pos (n_inode n) (n_ops n) (n_priv n)
                      (n_children n) (n_next n) (n_parent n))
   else mret tt);;
  mret cnt.

(** The loop of [tmpfs_lookup] (and of [devfs_lookup]) over the children. *)
Fixpoint find_child (fuel : nat) (child : Z) (name : str) : M S Z :=
  match fuel with
  | O => stuck_with NoFuel
  | Datatypes.S fuel' =>
      if child =? NULL then mret NULL else
      c ← get_node child;
      if bool_decide (n_name c = name) then mret child
      else find_child fuel' (n_next c) name
  end.

(** A list of children has no more elements than there are nodes. *)
Definition child_fuel : M S nat := gets (λ v, Datatypes.S (base.size (nodes v))).

Definition tmpfs_lookup (dir : Z) (name : str) : M S Z :=
  n ← get_node dir;
  if negb (n_type n =? FS_DIR) then mret NULL else
  fuel ← child_fuel;
  find_child fuel (n_children n) name.

(** [node->ops = dir->ops]. *)
Definition inherit_ops (dir node : Z) : M S unit :=
  d ← get_node dir;
  n ← get_node node;
  put_node node (mk_node (n_name n) (n_type n) (n_size n) (n_inode n) (n_ops d) (n_priv n)
                   (n_children n) (n_next n) (n_parent n)).

(** [tmpfs_create] and [tmpfs_mkdir] differ in the type of the node they make. *)
Definition tmpfs_make (type dir : Z) (name : str) : M S Z :=
  n ← get_node dir;
  if negb (n_type n =? FS_DIR) then mret (-1) else
  old ← tmpfs_lookup dir name;
  if negb (old =? NULL) then mret (-1) else
  node ← fs_mknode name type;
  if node =? NULL then mret (-1) else
  inherit_ops dir node;;
  _ ← fs_addchild dir node;
  mret 0.

Definition tmpfs_create (dir : Z) (name : str) : M S Z := tmpfs_make FS_FILE dir name.
Definition tmpfs_mkdir (dir : Z) (name : str) : M S Z := tmpfs_make FS_DIR dir name.

Definition tmpfs_ops : fs_ops S :=
  mk_ops (Some tmpfs_open) (Some tmpfs_close) (Some tmpfs_read) (Some tmpfs_write)
    (Some tmpfs_lookup) (Some tmpfs_create) (Some tmpfs_mkdir).

Definition tmpfs_mount (src : option (Z * str)) (tgt : str) (mnt : Z) : M S Z :=
  root ← fs_mknode (chars "/") FS_DIR;
  if root =? NULL then mret (-1) else
  n ← get_node root;
  put_node root (mk_node (n_name n) (n_type n) (n_size n) (n_inode n) (Some Tmpfs) (n_priv n)
                   (n_children n) (n_next n) (n_parent n));;
  m ← get_mnt mnt;
  put_mnt mnt (mk_mnt (m_path m) (m_type m) root (m_priv m) (m_active m));;
  mret 0.

Definition tmpfs : fs_type S := mk_type (chars "tmpfs") tmpfs_mount.
End tmpfs.

(** ** What a memory file holds *)

(** What a payload of the allocator is used for: a node, an open file, the private data
    of a node, or the buffer of some private data. *)
Inductive owner := ONode | OFile | OData (node : Z) | OBuf (data : Z).

Section tmpfs_facts.
  Context {A W X : Type} `{Allocator A}.
Abbreviation S := (vfs A W X).

Definition ram (v : S) : mem := al_ram (alloc v).

Definition tmp_file (n : fs_node) : Prop := n_type n = FS_FILE ∧ n_ops n = Some Tmpfs.

(** The structures and buffers are payloads of their own: [L] is the payloads in use. *)
Record tmpfs_ok (v : S) (own : gmap Z owner) (L : gmap Z Z) : Prop := {
  ok_live : al_live (alloc v) L;
  ok_kmem : fs_kernel_memory v ≠ NULL;
  ok_own : ∀ p, is_Some (own !! p) → is_Some (L !! p);
  ok_node : ∀ p n, nodes v !! p = Some n → own !! p = Some ONode;
  ok_file : ∀ p f, files v !! p = Some f → own !! p = Some OFile;
  ok_tdata : ∀ p d, tdatas v !! p = Some d →
    (∃ n, own !! p = Some (OData n)) ∧ 0 ≤ t_cap d ∧ (t_data d = NULL → t_cap d = 0) ∧
    (t_data d ≠ NULL → own !! t_data d = Some (OBuf p) ∧
       ∃ k, L !! t_data d = Some k ∧ t_cap d ≤ k);
  ok_priv : ∀ p n, nodes v !! p = Some n → tmp_file n → n_priv n ≠ NULL →
    own !! n_priv n = Some (OData p) ∧ is_Some (tdatas v !! n_priv n);
}.

(** The node [p] is a memory file with the bytes [bs]. *)
Definition holds (v : S) (p : Z) (bs : list Z) : Prop :=
  ∃ n, nodes v !! p = Some n ∧ tmp_file n ∧ n_size n = Z.of_nat (length bs) ∧
       Forall is_byte bs ∧
       (bs = [] ∨ ∃ d, n_priv n ≠ NULL ∧ tdatas v !! n_priv n = Some d ∧ t_data d ≠ NULL ∧
                       Z.of_nat (length bs) ≤ t_cap d ∧ bytes_at (t_data d) bs (ram v)).

(** Every file holds what it held. *)
Definition keeps (v v' : S) : Prop := ∀ q cs, holds v q cs → holds v' q cs.

Lemma kcreate_run v own L sz :
  tmpfs_ok v own L → 0 < sz ≤ AL_MAX →
  kcreate sz v = Done NULL v ∨
  ∃ p k a', kcreate sz v = Done p (set_alloc a' v) ∧ p ≠ NULL ∧ sz ≤ k ∧ L !! p = None ∧
            own !! p = None ∧ al_live a' (<[p := k]> L) ∧ al_ram a' = ram v.
Proof.
  intros Hok Hsz.
  destruct (create_spec _ L (fs_kernel_memory v) sz (ok_live _ _ _ Hok) (ok_kmem _ _ _ Hok) Hsz)
    as [E|(p & k & a' & E & Hp & Hk & HL & Hlive & Hram)].
  - left. unfold kcreate, on_alloc, zoom, get. mred. rewrite E. by destruct v.
  - right. exists p, k, a'. split_and!; try done.
    + unfold kcreate, on_alloc, zoom, get. mred. by rewrite E.
    + destruct (own !! p) eqn:Eo; [|done].
      destruct (ok_own _ _ _ Hok p) as [? ?]; [done|congruence].
Qed.

Lemma kfree_run v own L p k :
  tmpfs_ok v own L → L !! p = Some k →
  ∃ a', kfree p v = Done tt (set_alloc a' v) ∧ al_live a' (delete p L) ∧ al_ram a' = ram v.
Proof.
  intros Hok Hp.
  destruct (free_spec _ L (fs_kernel_memory v) p k (ok_live _ _ _ Hok) (ok_kmem _ _ _ Hok) Hp)
    as (a' & E & Hlive & Hram).
  exists a'. split_and!; [|done|done]. unfold kfree, on_alloc, zoom, get. mred. by rewrite E.
Qed.

(** A routine of [Memory.v] that stores the bytes [bs] at [p]. *)
Lemma on_mem_run v own L p bs (m : M mem unit) :
  tmpfs_ok v own L → m (ram v) = Done tt (mem_write p bs (ram v)) →
  ∃ a', on_mem m v = Done tt (set_alloc a' v) ∧ al_live a' L ∧ al_ram a' = mem_write p bs (ram v).
Proof.
  intros Hok Hm. exists (al_set_ram (mem_write p bs (ram v)) (alloc v)). split_and!.
  - unfold on_mem, on_alloc, zoom. unfold ram in Hm. by rewrite Hm.
  - apply live_set_ram; [apply Hok|]. intros a. apply is_Some_write.
  - apply al_ram_set.
Qed.

(** A live buffer is mapped, and apart from every other one. *)
Lemma buf_mapped v own L p d :
  tmpfs_ok v own L → tdatas v !! p = Some d → t_data d ≠ NULL →
  mapped (t_data d) (t_cap d) (ram v) ∧ t_data d + t_cap d < 2 ^ 64 ∧ 0 < t_data d.
Proof.
  intros Hok Hd Hne. destruct (ok_tdata _ _ _ Hok _ _ Hd) as (_ & ? & _ & Hb).
  destruct (Hb Hne) as (_ & k & HL & ?).
  destruct (live_range _ _ _ _ (ok_live _ _ _ Hok) HL) as (? & ? & ? & Hm).
  split; [|lia]. by eapply mapped_sub; [apply Hm|lia|lia].
Qed.

Lemma holds_frame v v' q cs :
  holds v q cs → nodes v' !! q = nodes v !! q →
  (∀ n d, nodes v !! q = Some n → tmp_file n → n_priv n ≠ NULL → tdatas v !! n_priv n = Some d →
     t_data d ≠ NULL → Z.of_nat (length cs) ≤ t_cap d → bytes_at (t_data d) cs (ram v) →
     tdatas v' !! n_priv n = Some d ∧ bytes_at (t_data d) cs (ram v')) →
  holds v' q cs.
Proof.
  intros (n & Hn & Ht & Hs & Hb & Hd) En Hf. exists n. rewrite En. split_and!; try done.
  destruct Hd as [->|(d & Hp & Hd & Hne & Hc & Hat)]; [by left|]. right.
  destruct (Hf n d) as [? ?]; try done. exists d. done.
Qed.

(** Storing into the buffer of [data], within its room, touches no other file. *)
Lemma other_buffer v own L q n e data d p cs bs :
  tmpfs_ok v own L → tdatas v !! data = Some d → t_data d ≠ NULL →
  nodes v !! q = Some n → tmp_file n → n_priv n ≠ NULL → n_priv n ≠ data →
  tdatas v !! n_priv n = Some e → t_data e ≠ NULL → Z.of_nat (length cs) ≤ t_cap e →
  bytes_at (t_data e) cs (ram v) →
  t_data d ≤ p → p + Z.of_nat (length bs) ≤ t_data d + t_cap d →
  bytes_at (t_data e) cs (mem_write p bs (ram v)).
Proof.
  intros Hok Hd Hne Hn Ht Hp Hpd He Hene Hc Hat Hlo Hhi.
  apply bytes_at_frame; [done|].
  destruct (ok_tdata _ _ _ Hok _ _ Hd) as (_ & _ & _ & Hb). destruct (Hb Hne) as (Ho & k & HL & Hk).
  destruct (ok_tdata _ _ _ Hok _ _ He) as (_ & _ & _ & Hb'). destruct (Hb' Hene) as (Ho' & k' & HL' & Hk').
  destruct (live_disjoint _ _ _ _ _ _ (ok_live _ _ _ Hok) HL HL') as [?|?].
  - intros E. rewrite <-E in Ho'. congruence.
  - lia.
  - lia.
Qed.

Lemma ok_set_alloc v own L a' :
  tmpfs_ok v own L → al_live a' L → tmpfs_ok (set_alloc a' v) own L.
Proof. intros [] ?. by constructor. Qed.

(** A fresh payload may be given any use. *)
Lemma ok_extend v own L a' p k o :
  tmpfs_ok v own L → own !! p = None → L !! p = None → al_live a' (<[p := k]> L) →
  tmpfs_ok (set_alloc a' v) (<[p := o]> own) (<[p := k]> L).
Proof.
  intros [Hl Hk Ho Hn Hf Ht Hp] Hop HLp Hl'.
  assert (Hkeep : ∀ q x, own !! q = Some x → <[p := o]> own !! q = Some x).
  { intros q x Hq. rewrite lookup_insert_ne; [done|]. congruence. }
  constructor; cbn [alloc set_alloc nodes files tdatas fs_kernel_memory]; try done.
  - intros q. rewrite !lookup_insert_is_Some. naive_solver.
  - naive_solver.
  - naive_solver.
  - intros q d Hd. destruct (Ht _ _ Hd) as ([n Hq] & ? & ? & Hb). split_and!; [eauto|done|done|].
    intros Hne. destruct (Hb Hne) as (? & k' & ? & ?). split; [by apply Hkeep|].
    exists k'. rewrite lookup_insert_ne; [done|]. congruence.
  - intros q n Hq Hfi Hpr. destruct (Hp _ _ Hq Hfi Hpr). split; [by apply Hkeep|done].
Qed.

Lemma ok_set_tdata v own L p d n :
  tmpfs_ok v own L → own !! p = Some (OData n) → 0 ≤ t_cap d → (t_data d = NULL → t_cap d = 0) →
  (t_data d ≠ NULL → own !! t_data d = Some (OBuf p) ∧ ∃ k, L !! t_data d = Some k ∧ t_cap d ≤ k) →
  tmpfs_ok (set_tdatas (<[p := d]> (tdatas v)) v) own L.
Proof.
  intros [Hl Hk Ho Hn Hf Ht Hp] Hop Hc H0 Hb.
  constructor; cbn [alloc set_tdatas nodes files tdatas fs_kernel_memory]; try done.
  - intros q e. rewrite lookup_insert_Some. intros [[<- <-]|[? He]]; [eauto|by apply Ht].
  - intros q m Hq Hfi Hpr. destruct (Hp _ _ Hq Hfi Hpr). split; [done|].
    rewrite lookup_insert_is_Some. destruct (decide (p = n_priv m)); eauto.
Qed.

(** A node may be changed as long as its private data stay its own. *)
Lemma ok_set_node v own L p n :
  tmpfs_ok v own L → own !! p = Some ONode →
  (tmp_file n → n_priv n ≠ NULL → own !! n_priv n = Some (OData p) ∧ is_Some (tdatas v !! n_priv n)) →
  tmpfs_ok (set_nodes (<[p := n]> (nodes v)) v) own L.
Proof.
  intros [Hl Hk Ho Hn Hf Ht Hp] Hop Hpr.
  constructor; cbn [alloc set_nodes nodes files tdatas fs_kernel_memory]; try done.
  - intros q m. rewrite lookup_insert_Some. naive_solver.
  - intros q m. rewrite lookup_insert_Some. naive_solver.
Qed.

Lemma ok_set_file v own L p f :
  tmpfs_ok v own L → own !! p = Some OFile → tmpfs_ok (set_files (<[p := f]> (files v)) v) own L.
Proof.
  intros [Hl Hk Ho Hn Hf Ht Hp] Hop.
  constructor; cbn [alloc set_files nodes files tdatas fs_kernel_memory]; try done.
  intros q m. rewrite lookup_insert_Some. naive_solver.
Qed.

(** A buffer nobody points to may be given back. *)
Lemma ok_drop_buf v own L a' p data :
  tmpfs_ok v own L → own !! p = Some (OBuf data) → (∀ d, tdatas v !! data = Some d → t_data d ≠ p) →
  al_live a' (delete p L) → tmpfs_ok (set_alloc a' v) (delete p own) (delete p L).
Proof.
  intros [Hl Hk Ho Hn Hf Ht Hp] Hop Hno Hl'.
  assert (Hkeep : ∀ q x, own !! q = Some x → x ≠ OBuf data → delete p own !! q = Some x).
  { intros q x Hq Hx. rewrite lookup_delete_ne; [done|]. intros <-. congruence. }
  constructor; cbn [alloc set_alloc nodes files tdatas fs_kernel_memory]; try done.
  - intros q. rewrite !lookup_delete_is_Some. naive_solver.
  - intros q n Hq. by eapply Hkeep; [eapply Hn|].
  - intros q f Hq. by eapply Hkeep; [eapply Hf|].
  - intros q d Hd. destruct (Ht _ _ Hd) as ([n Hq] & ? & ? & Hb).
    split_and!; [by exists n; apply Hkeep|done|done|].
    intros Hne. destruct (Hb Hne) as (Hq' & k & ? & ?).
    assert (t_data d ≠ p).
    { intros E. rewrite E in Hq'. assert (q = data) as -> by congruence. by eapply Hno. }
    rewrite !lookup_delete_ne by done. eauto.
  - intros q n Hq Hfi Hpr. destruct (Hp _ _ Hq Hfi Hpr). split; [by apply Hkeep|done].
Qed.

(** [tmpfs_priv] makes empty private data when the file has none. *)
Lemma tmpfs_priv_run v own L p n :
  tmpfs_ok v own L → nodes v !! p = Some n → tmp_file n →
  ∃ data v' own' L', tmpfs_priv p v = Done data v' ∧ tmpfs_ok v' own' L' ∧
    keeps v v' ∧ files v' = files v ∧
    (data ≠ NULL → ∃ n', nodes v' !! p = Some n' ∧ tmp_file n' ∧ n_priv n' = data).
Proof.
  intros Hok Hn Ht. unfold tmpfs_priv. mred. unfold get_node at 1. rewrite Hn.
  destruct (Z.eqb_spec (n_priv n) NULL) as [E|E]; cbn [negb].
  2:{ exists (n_priv n), v, own, L. split_and!; [done|done|by intros ??|done|eauto]. }
  destruct (kcreate_run v own L SIZEOF_TMPFS_DATA Hok ltac:(done))
    as [Ec|(data & k & a' & Ec & Hne & Hk & HL & Ho & Hlive & Hram)].
  { mrun Ec. cbn. exists NULL, v, own, L. split_and!; [done|done|by intros ??|done|done]. }
  mrun Ec. rewrite (proj2 (Z.eqb_neq data NULL) Hne).
  pose proof (ok_extend _ _ _ _ _ _ (OData p) Hok Ho HL Hlive) as Hok1.
  unfold put_tdata, modify. mred.
  unfold get_node. cbn [nodes set_tdatas set_alloc]. rewrite Hn. unfold put_node, modify.
  do 4 eexists. split_and!; [done|..].
  - apply ok_set_node.
    + eapply ok_set_tdata; [exact Hok1|by rewrite lookup_insert_eq|done..].
    + rewrite lookup_insert_ne; [by eapply ok_node|]. intros ->.
      rewrite (ok_node _ _ _ Hok _ _ Hn) in Ho. done.
    + intros _ _. cbn. rewrite !lookup_insert_eq. done.
  - intros q cs Hq. destruct (decide (q = p)) as [->|Hqp].
    + destruct Hq as (n' & Hn' & ? & ? & ? & Hd). rewrite Hn in Hn'. injection Hn' as <-.
      eexists. cbn. rewrite lookup_insert_eq. split_and!; [done|done|done|done|].
      left. destruct Hd as [?|(d & ? & _)]; [done|]. by rewrite E in *.
    + eapply holds_frame; [exact Hq|..]; cbn.
      * by rewrite lookup_insert_ne.
      * intros m d Hm Hmt Hmp Hmd _ _ Hat. rewrite lookup_insert_ne.
        -- split; [done|]. unfold ram in *. cbn. by rewrite Hram.
        -- intros Em. destruct (ok_priv _ _ _ Hok _ _ Hm Hmt Hmp). congruence.
  - done.
  - intros _. eexists. cbn. rewrite lookup_insert_eq. done.
Qed.

Lemma round4096 z : 0 ≤ z ≤ 2 ^ 64 - 4096 →
  let c := Z.land (u64 (z + 4095)) (u64 (Z.lnot 4095)) in z ≤ c ≤ AL_MAX ∧ c < z + 4096.
Proof.
  intros Hz. unfold AL_MAX. change 4095 with (Z.ones 12) at 2 4 6. cbv zeta.
  unfold u64 at 1 3 5. rewrite (Z.mod_small (z + 4095)) by lia. rewrite land_align by lia.
  change (2 ^ 12) with 4096. pose proof (Z.div_mod (z + 4095) 4096).
  pose proof (Z.mod_pos_bound (z + 4095) 4096). lia.
Qed.

Lemma holds_size v p n cs : holds v p cs → nodes v !! p = Some n → n_size n = Z.of_nat (length cs).
Proof. intros (m & Hm & _ & Hs & _) Hn. by rewrite Hm in Hn; injection Hn as <-. Qed.

(** Giving the private data of [p] a new buffer [new] leaves the other files alone. *)
Lemma keeps_new_buf v v' own L p n data new k d' bs a1 :
  tmpfs_ok v own L → nodes v !! p = Some n → tmp_file n → n_priv n = data → data ≠ NULL →
  L !! new = None → al_live a1 (<[new := k]> L) →
  Z.of_nat (length bs) ≤ k →
  nodes v' = nodes v → tdatas v' = <[data := d']> (tdatas v) → ram v' = mem_write new bs (ram v) →
  (∀ cs, holds v p cs → holds v' p cs) → keeps v v'.
Proof.
  intros Hok Hn Ht Hpr Hd HL Hl Hk En Et Er Hp q cs Hq.
  destruct (decide (q = p)) as [->|Hqp]; [by apply Hp|].
  eapply holds_frame; [exact Hq|by rewrite En|].
  intros m e Hm Hmt Hmp He Hene Hc Hat. rewrite Et, Er.
  assert (n_priv m ≠ data).
  { intros E. destruct (ok_priv _ _ _ Hok _ _ Hm Hmt Hmp) as [H1 _].
    destruct (ok_priv _ _ _ Hok _ _ Hn Ht ltac:(congruence)) as [H2 _]. congruence. }
  rewrite lookup_insert_ne by done. split; [done|].
  apply bytes_at_frame; [done|].
  destruct (ok_tdata _ _ _ Hok _ _ He) as (_ & _ & _ & Hb). destruct (Hb Hene) as (_ & ke & HLe & Hke).
  assert (t_data e ≠ new) by congruence.
  destruct (live_disjoint a1 (<[new := k]> L) (t_data e) ke new k Hl); [..|lia|lia].
  - by rewrite lookup_insert_ne.
  - by rewrite lookup_insert_eq.
  - done.
Qed.

(** The file's bytes are copied and the old buffer given back. *)
Lemma grow_copy v own L new d data n bs k p :
  tmpfs_ok v own L → tdatas v !! data = Some d → t_data d ≠ NULL → own !! new = Some (OBuf data) →
  L !! new = Some k → new ≠ t_data d → new ≠ NULL → Z.of_nat (length bs) ≤ k →
  nodes v !! p = Some n → n_priv n = data → tmp_file n → n_priv n ≠ NULL → holds v p bs → bs ≠ [] →
  ∃ a2 a3, on_mem (memcpy new (t_data d) (n_size n)) v = Done tt (set_alloc a2 v) ∧
    kfree (t_data d) (set_alloc a2 v) = Done tt (set_alloc a3 v) ∧
    al_live a2 L ∧ al_live a3 (delete (t_data d) L) ∧
    al_ram a2 = mem_write new bs (ram v) ∧ al_ram a3 = mem_write new bs (ram v).
Proof.
  intros Hok Hd Hdn Ho HL Hne Hnn Hk Hn Hpr Ht Hpn (n' & Hn' & _ & Hs & Hby & Hd') Hbs.
  rewrite Hn in Hn'. injection Hn' as <-. destruct Hd' as [?|(d' & _ & Hd' & _ & Hc & Hat)]; [done|].
  rewrite Hpr, Hd in Hd'. injection Hd' as <-.
  destruct (ok_tdata _ _ _ Hok _ _ Hd) as (_ & _ & _ & Hb). destruct (Hb Hdn) as (_ & k' & HL' & Hk').
  destruct (live_range _ _ _ _ (ok_live _ _ _ Hok) HL) as (_ & _ & _ & Hm).
  destruct (on_mem_run v own L new bs (memcpy new (t_data d) (n_size n)) Hok) as (a2 & E2 & Hl2 & Er2).
  { rewrite Hs. apply memcpy_run; [done|done|by eapply mapped_sub; [apply Hm|lia|lia]|].
    destruct (live_disjoint _ _ _ _ _ _ (ok_live _ _ _ Hok) HL HL' Hne); lia. }
  destruct (kfree_run (set_alloc a2 v) own L (t_data d) k' (ok_set_alloc _ _ _ _ Hok Hl2) HL')
    as (a3 & E3 & Hl3 & Er3).
  exists a2, a3. split_and!; [done|exact E3|done|done|done|]. by rewrite Er3.
Qed.

(** A file holds one list of bytes. *)
Lemma holds_inj v p bs cs : holds v p bs → holds v p cs → bs = cs.
Proof.
  intros (n & Hn & _ & Hs & _ & Hb) (n' & Hn' & _ & Hs' & _ & Hc).
  rewrite Hn in Hn'. injection Hn' as <-. assert (Hl : length bs = length cs) by lia.
  destruct Hb as [->|(d & _ & Hd & _ & _ & Hb)]; [by destruct cs|].
  destruct Hc as [->|(d' & _ & Hd' & _ & _ & Hc)]; [by destruct bs|].
  rewrite Hd in Hd'. injection Hd' as <-. apply list_eq_same_length with (length bs); [done|done|].
  intros i x y _ Hx Hy. apply Hb in Hx. apply Hc in Hy. congruence.
Qed.

Section grow.
  Context (v : S) (own : gmap Z owner) (L : gmap Z Z) (p : Z) (n : fs_node) (bs : list Z).
  Context (data new k new_cap : Z) (a' : A) (d : tmpfs_data).
  Context (Hok : tmpfs_ok v own L) (Hn : nodes v !! p = Some n) (Ht : tmp_file n).
  Context (Hpr : n_priv n = data) (Hd0 : data ≠ NULL) (Hd : tdatas v !! data = Some d).
  Context (Hbs : holds v p bs) (Hne : new ≠ NULL) (Hk : new_cap ≤ k) (Hcap : t_cap d < new_cap).
  Context (HL : L !! new = None) (Ho : own !! new = None).
  Context (Hlive : al_live a' (<[new := k]> L)) (Hram : al_ram a' = ram v).
Let own1 := <[new := OBuf data]> own.
Let L1 := <[new := k]> L.
Let d1 := mk_tdata new new_cap.

Lemma grow_owner : own !! data = Some (OData p).
Proof. rewrite <-Hpr. apply (ok_priv _ _ _ Hok _ _ Hn Ht). congruence. Qed.

Lemma grow_cap : 0 ≤ t_cap d ∧ Z.of_nat (length bs) ≤ t_cap d.
Proof.
  destruct (ok_tdata _ _ _ Hok _ _ Hd) as (_ & Hc & _). split; [done|].
  destruct Hbs as (n0 & Hn0 & _ & _ & _ & [->|(d0 & _ & Hd0' & _ & Hc' & _)]); [done|].
  rewrite Hn in Hn0. injection Hn0 as <-. rewrite Hpr, Hd in Hd0'. by injection Hd0' as <-.
Qed.

Lemma grow_old : t_data d ≠ NULL → own !! t_data d = Some (OBuf data) ∧ t_data d ≠ new.
Proof.
  intros E. destruct (ok_tdata _ _ _ Hok _ _ Hd) as (_ & _ & _ & Hb). destruct (Hb E).
  split; [done|congruence].
Qed.

(** The state with the new buffer in place. *)
Lemma grow_ok : tmpfs_ok (set_tdatas (<[data := d1]> (tdatas v)) (set_alloc a' v)) own1 L1.
Proof.
  apply (ok_set_tdata (set_alloc a' v) own1 L1 data d1 p).
  - by apply ok_extend.
  - unfold own1. rewrite lookup_insert_ne; [apply grow_owner|]. pose proof grow_owner. congruence.
  - pose proof grow_cap. cbn. lia.
  - cbn. congruence.
  - intros _. cbn. unfold own1, L1. rewrite !lookup_insert_eq. eauto.
Qed.

(** Whatever the final allocator, if its memory has the bytes of the file in the buffer. *)
Lemma grow_keeps a3 :
  al_ram a3 = mem_write new bs (ram v) →
  keeps v (set_tdatas (<[data := d1]> (tdatas v)) (set_alloc a3 v)).
Proof.
  intros Hr. eapply keeps_new_buf with (bs := bs) (a1 := a'); try done; cbn.
  - pose proof grow_cap. lia.
  - intros cs Hcs. rewrite <-(holds_inj _ _ _ _ Hbs Hcs). destruct Hbs as (n0 & Hn0 & ? & ? & ? & _).
    exists n0. split_and!; try done. right. exists d1.
    rewrite Hn in Hn0. injection Hn0 as <-. cbn. rewrite Hpr, lookup_insert_eq.
    split_and!; [done|done|done|pose proof grow_cap; lia|].
    unfold ram. cbn. rewrite Hr. apply bytes_at_write.
Qed.
End grow.

Lemma tmpfs_grow_run v own L p n bs data needed :
  tmpfs_ok v own L → nodes v !! p = Some n → tmp_file n → n_priv n = data → data ≠ NULL →
  holds v p bs → 0 ≤ needed ≤ 2 ^ 64 - 4096 →
  ∃ b v' own' L', tmpfs_grow p data needed v = Done b v' ∧ tmpfs_ok v' own' L' ∧
    keeps v v' ∧ files v' = files v ∧ nodes v' = nodes v ∧
    (b = true → ∃ d, tdatas v' !! data = Some d ∧ needed ≤ t_cap d).
Proof.
  intros Hok Hn Ht Hpr Hd0 Hbs Hneed.
  destruct (ok_priv _ _ _ Hok _ _ Hn Ht ltac:(congruence)) as [_ [d Hd]]. rewrite Hpr in Hd.
  unfold tmpfs_grow. mred. unfold get_tdata. rewrite Hd.
  destruct (Z.leb_spec needed (t_cap d)).
  { exists true, v, own, L. split_and!; [done|done|by intros ??|done|done|eauto]. }
  destruct (round4096 needed Hneed) as [Hcap _]. set (new_cap := Z.land _ _) in *.
  destruct (grow_cap v own L p n bs data d) as [??]; try done.
  destruct (kcreate_run v own L new_cap Hok ltac:(lia))
    as [Ec|(new & k & a' & Ec & Hne & Hk & HL & Ho & Hlive & Hram)].
  { mrun Ec. cbn. exists false, v, own, L. split_and!; [done|done|by intros ??|done|done|done]. }
  mrun Ec. rewrite (proj2 (Z.eqb_neq new NULL) Hne).
  unfold get_node. cbn [nodes set_alloc]. rewrite Hn.
  pose proof (grow_ok v own L p n bs data new k new_cap a' d) as Hok2.
  pose proof (grow_keeps v own L p n bs data new k new_cap a' d) as Hkeeps.
  pose proof (holds_size _ _ _ _ Hbs Hn) as Hsz.
  destruct (negb (t_data d =? NULL) && (0 <? n_size n)) eqn:Ecopy.
  - apply andb_prop in Ecopy as [E0%negb_true_iff%Z.eqb_neq Hsz0%Z.ltb_lt].
    destruct (grow_old v own L data new d) as [Hold Hnew]; try done.
    destruct (grow_copy (set_alloc a' v) (<[new := OBuf data]> own) (<[new := k]> L) new d data n bs k p)
      as (a2 & a3 & E2 & E3 & Hl2 & Hl3 & Er2 & Er3); try done.
    + by apply ok_extend.
    + by rewrite lookup_insert_eq.
    + by rewrite lookup_insert_eq.
    + lia.
    + congruence.
    + eapply holds_frame; [exact Hbs|done|]. intros. unfold ram. cbn. by rewrite Hram.
    + intros ->. simpl in *. lia.
    + mred. rewrite E2, E3. unfold put_tdata, modify. mred.
      change (ram (set_alloc a' v)) with (al_ram a') in Er2, Er3. rewrite Hram in Er2, Er3.
      do 4 eexists. split_and!; [done|..].
      * refine (ok_drop_buf _ _ _ a3 (t_data d) data (Hok2 Hok Hn Ht Hpr Hd0 Hd Hbs Hne Hk ltac:(lia) HL Ho Hlive) _ _ Hl3).
        -- by rewrite lookup_insert_ne.
        -- cbn. rewrite lookup_insert_eq. intros ? [= <-]. cbn. done.
      * apply Hkeeps; done || lia.
      * done.
      * done.
      * intros _. eexists. cbn. rewrite lookup_insert_eq. split; [done|]. cbn. lia.
  - mred. unfold put_tdata, modify. mred.
    do 4 eexists. split_and!; [done|apply Hok2; done || lia|..|done|done|].
    + assert (bs = []) as ->.
      { destruct (Z.ltb_spec 0 (n_size n)); [|by destruct bs; simpl in *; [|lia]].
        rewrite andb_true_r, negb_false_iff, Z.eqb_eq in Ecopy.
        destruct (ok_tdata _ _ _ Hok _ _ Hd) as (_ & _ & Hcn & _). rewrite Hcn in * by done.
        destruct bs; simpl in *; [done|lia]. }
      apply Hkeeps; done || lia.
    + intros _. eexists. cbn. rewrite lookup_insert_eq. split; [done|]. cbn. lia.
Qed.
(** The bytes [bs] with [buf] written over them from [pos] on. *)
Definition overwrite (pos : Z) (buf bs : list Z) : list Z :=
  take (Z.to_nat pos) bs ++ buf ++ drop (Z.to_nat pos + length buf) bs.

Lemma length_overwrite pos buf bs : 0 ≤ pos ≤ Z.of_nat (length bs) →
  length (overwrite pos buf bs) = Nat.max (length bs) (Z.to_nat pos + length buf).
Proof. intros Hp. unfold overwrite. rewrite !length_app, length_take, length_drop. lia. Qed.

Lemma overwrite_bytes pos buf bs :
  Forall is_byte buf → Forall is_byte bs → Forall is_byte (overwrite pos buf bs).
Proof.
  intros H1 H2. unfold overwrite. rewrite !Forall_app. split_and!; [by apply Forall_take|done|by apply Forall_drop].
Qed.

Lemma bytes_at_overwrite t pos buf bs m :
  0 ≤ pos ≤ Z.of_nat (length bs) → bytes_at t bs m →
  bytes_at t (overwrite pos buf bs) (mem_write (t + pos) buf m).
Proof.
  intros Hp Hb. unfold overwrite.
  rewrite <-(take_drop (Z.to_nat pos) bs), bytes_at_app in Hb. destruct Hb as [H1 H2].
  rewrite length_take_le in H2 by lia. rewrite Z2Nat.id in H2 by lia.
  apply bytes_at_app. split; [|rewrite length_take_le, Z2Nat.id by lia; apply bytes_at_app; split].
  - apply bytes_at_frame; [done|]. rewrite length_take. lia.
  - apply bytes_at_write.
  - rewrite <-drop_drop.
    destruct (decide (length buf ≤ length (drop (Z.to_nat pos) bs))%nat) as [Hl|Hl].
    + rewrite <-(take_drop (length buf) (drop (Z.to_nat pos) bs)), bytes_at_app in H2.
      rewrite length_take_le in H2 by lia. apply bytes_at_frame; [apply H2|]. lia.
    + rewrite (drop_ge (drop _ _)) by lia. by intros ?? ?%lookup_nil_Some || intros i b; rewrite lookup_nil.
Qed.

(** Storing the bytes and updating the size. *)
Lemma tmpfs_store_run v own L p n d cs pos buf :
  tmpfs_ok v own L → nodes v !! p = Some n → tmp_file n → n_priv n ≠ NULL →
  tdatas v !! n_priv n = Some d → holds v p cs → 0 ≤ pos ≤ Z.of_nat (length cs) →
  pos + Z.of_nat (length buf) ≤ t_cap d → Forall is_byte buf →
  ∃ a', on_mem (store_bytes (t_data d + pos) buf) v = Done tt (set_alloc a' v) ∧
    tmpfs_ok (set_alloc a' v) own L ∧
    (∀ q ds, q ≠ p → holds v q ds → holds (set_alloc a' v) q ds) ∧
    (buf = [] ∨ t_data d ≠ NULL ∧ bytes_at (t_data d) (overwrite pos buf cs) (al_ram a')) ∧
    (cs = [] ∨ t_data d ≠ NULL ∧ bytes_at (t_data d) (overwrite pos buf cs) (al_ram a')).
Proof.
  intros Hok Hn Ht Hpn Hd Hcs Hpos Hcap Hby.
  assert (Hold : cs = [] ∨ t_data d ≠ NULL ∧ bytes_at (t_data d) cs (ram v)).
  { destruct Hcs as (n0 & Hn0 & _ & _ & _ & [->|(d0 & _ & Hd0 & ? & _ & ?)]); [by left|]. right.
    rewrite Hn in Hn0. injection Hn0 as <-. rewrite Hd in Hd0. by injection Hd0 as <-. }
  assert (Hat : ∀ m, ram v = m → bytes_at (t_data d) (overwrite pos buf cs) (mem_write (t_data d + pos) buf m)).
  { intros m <-. apply bytes_at_overwrite; [done|]. destruct Hold as [->|[_ ?]]; [|done].
    intros i b. by rewrite lookup_nil. }
  assert (Hnn : buf ≠ [] → t_data d ≠ NULL).
  { intros Hne E. destruct (ok_tdata _ _ _ Hok _ _ Hd) as (_ & _ & Hc & _). rewrite Hc in Hcap by done.
    destruct buf; [done|simpl in Hcap; lia]. }
  destruct (on_mem_run v own L (t_data d + pos) buf (store_bytes (t_data d + pos) buf) Hok) as (a' & E & Hl & Hr).
  { destruct (decide (buf = [])) as [->|Hne]; [done|]. apply store_bytes_run; [|done].
    destruct (buf_mapped _ _ _ _ _ Hok Hd (Hnn Hne)) as (Hm & _).
    eapply mapped_sub; [apply Hm|lia|lia]. }
  exists a'. split_and!; [done|by apply ok_set_alloc|..].
  - intros q ds Hq Hds. eapply holds_frame; [exact Hds|done|].
    intros m e Hm Hmt Hmp He Hene Hc Hbe. split; [done|]. unfold ram. cbn. rewrite Hr.
    destruct (decide (buf = [])) as [->|Hne]; [done|].
    eapply (other_buffer v own L q m e (n_priv n) d); try done; [by apply Hnn| |lia|lia].
    intros E'. destruct (ok_priv _ _ _ Hok _ _ Hm Hmt Hmp) as [H1 _].
    destruct (ok_priv _ _ _ Hok _ _ Hn Ht Hpn) as [H2 _]. congruence.
  - destruct (decide (buf = [])) as [->|Hne]; [by left|right]. rewrite Hr. auto.
  - destruct Hold as [->|[? _]]; [by left|right]. rewrite Hr. auto.
Qed.
(** The new size. *)
Lemma overwritten_holds v v' p n n' d pos buf cs :
  holds v p cs → nodes v !! p = Some n → tdatas v !! n_priv n = Some d → n_priv n ≠ NULL →
  0 ≤ pos ≤ Z.of_nat (length cs) → pos + Z.of_nat (length buf) ≤ t_cap d →
  Forall is_byte buf → nodes v' !! p = Some n' → tmp_file n' → n_priv n' = n_priv n →
  n_size n' = Z.max (n_size n) (pos + Z.of_nat (length buf)) → tdatas v' = tdatas v →
  (buf = [] ∨ t_data d ≠ NULL ∧ bytes_at (t_data d) (overwrite pos buf cs) (ram v')) →
  (cs = [] ∨ t_data d ≠ NULL ∧ bytes_at (t_data d) (overwrite pos buf cs) (ram v')) →
  holds v' p (overwrite pos buf cs).
Proof.
  intros Hcs Hn Hd Hpn Hpos Hcap Hby Hn' Ht' Hpr Hsz Et Hb1 Hb2. exists n'.
  pose proof (length_overwrite pos buf cs Hpos) as Hlen.
  pose proof (holds_size _ _ _ _ Hcs Hn) as Hs.
  destruct Hcs as (n0 & Hn0 & _ & _ & Hbs & Hd0). rewrite Hn in Hn0. injection Hn0 as <-.
  split_and!; [done|done|lia|by apply overwrite_bytes|].
  assert (Hlc : Z.of_nat (length cs) ≤ t_cap d).
  { destruct Hd0 as [->|(d0 & _ & Hd0 & _ & ? & _)]; [simpl; lia|].
    rewrite Hd in Hd0. by injection Hd0 as <-. }
  destruct (decide (buf = [])) as [->|Hbuf]; [destruct (decide (cs = [])) as [->|Hc]|].
  - left. unfold overwrite. by rewrite take_nil, drop_nil.
  - right. destruct Hb2 as [?|[??]]; [done|]. exists d. rewrite Et, Hpr. split_and!; try done. lia.
  - right. destruct Hb1 as [?|[??]]; [done|]. exists d. rewrite Et, Hpr. split_and!; try done. lia.
Qed.

(** The end of a write, once there is room: the bytes, the position and the size. *)
Lemma write_end_run (v : S) own L p n d cs file f buf (pos := f_pos f) (e := pos + Z.of_nat (length buf)) :
  tmpfs_ok v own L → nodes v !! p = Some n → tmp_file n → n_priv n ≠ NULL →
  tdatas v !! n_priv n = Some d → holds v p cs → 0 ≤ pos ≤ Z.of_nat (length cs) →
  e ≤ t_cap d → Forall is_byte buf → files v !! file = Some f →
  ∃ v', (∀ k : M S Z,
      (on_mem (store_bytes (t_data d + pos) buf);;
       put_file file (mk_file p e (f_flags f));;
       n ← get_node p;
       (if n_size n <? e then
          put_node p (mk_node (n_name n) (n_type n) e (n_inode n) (n_ops n) (n_priv n)
                        (n_children n) (n_next n) (n_parent n))
        else mret tt);;
       k) v = k v') ∧
    tmpfs_ok v' own L ∧ holds v' p (overwrite pos buf cs) ∧
    files v' = <[file := mk_file p e (f_flags f)]> (files v) ∧
    ∀ q ds, q ≠ p → holds v q ds → holds v' q ds.
Proof.
  intros Hok Hn Ht Hpr Hd Hcs Hpos Hcap Hby Hf. unfold e in *. clear e.
  destruct (tmpfs_store_run v own L p n d cs pos buf Hok Hn Ht Hpr Hd Hcs Hpos Hcap Hby)
    as (a' & E3 & Hok3 & Hframe & Hb3 & Hc3).
  pose proof (ok_file _ _ _ Hok file f Hf) as Hof.
  pose proof (ok_set_file _ _ _ file (mk_file p (pos + Z.of_nat (length buf)) (f_flags f)) Hok3 Hof) as Hok4.
  destruct (Z.ltb_spec (n_size n) (pos + Z.of_nat (length buf))) as [Hlt|Hge]; eexists; split.
  - intros k. mred. rewrite E3. unfold put_file, get_node, put_node, modify. cbn [nodes set_files set_alloc].
    rewrite Hn, (proj2 (Z.ltb_lt _ _) Hlt). reflexivity.
  - split_and!; [| |done|].
    + apply ok_set_node; [exact Hok4|by eapply ok_node|]. intros _ _. cbn. by eapply (ok_priv _ _ _ Hok).
    + eapply (overwritten_holds v); [done..| | | | |done|done|done]; cbn; [by rewrite lookup_insert_eq|done|done|cbn; lia].
    + intros q ds Hq Hds. eapply holds_frame; [by apply Hframe|cbn; by rewrite lookup_insert_ne|]. done.
  - intros k. mred. rewrite E3. unfold put_file, get_node, modify. cbn [nodes set_files set_alloc].
    rewrite Hn, (proj2 (Z.ltb_ge _ _) Hge). reflexivity.
  - split_and!; [exact Hok4| |done|].
    + eapply (overwritten_holds v); [done..| | | | |done|done|done]; cbn; [exact Hn|done|done|lia].
    + intros q ds Hq Hds. eapply holds_frame; [by apply Hframe|done|]. done.
Qed.

(** C2: writing to a memory file.  At a position inside the file, [tmpfs_write] either
    reports an error and changes no file and no open file, or stores all the bytes at the
    position, growing the buffer and the size as needed, and moves the position; every
    other file keeps its contents, and the invariant of the heap structures is kept. *)
Theorem tmpfs_write_correct (v : S) own L file f cs buf
    (Hok : tmpfs_ok v own L) (Hf : files v !! file = Some f) (Hcs : holds v (f_node f) cs)
    (Hpos : 0 ≤ f_pos f ≤ Z.of_nat (length cs)) (Hby : Forall is_byte buf)
    (Hmax : f_pos f + Z.of_nat (length buf) ≤ 2 ^ 64 - 4096) :
  ∃ r v' own' L', tmpfs_write file buf v = Done r v' ∧ tmpfs_ok v' own' L' ∧
    (r = -1 ∧ keeps v v' ∧ files v' = files v ∨
     r = Z.of_nat (length buf) ∧ holds v' (f_node f) (overwrite (f_pos f) buf cs) ∧
     files v' = <[file := mk_file (f_node f) (f_pos f + Z.of_nat (length buf)) (f_flags f)]> (files v) ∧
     ∀ q ds, q ≠ f_node f → holds v q ds → holds v' q ds).
Proof.
  assert (Hn := Hcs). destruct Hn as (n & Hn & Ht & _). set (p := f_node f) in *.
  unfold tmpfs_write. mred. unfold get_file at 1. rewrite Hf. unfold get_node at 1. fold p. rewrite Hn.
  rewrite (proj2 (Z.eqb_eq (n_type n) FS_FILE)) by apply Ht. cbn [negb].
  assert (Hu : u64 (f_pos f + Z.of_nat (length buf)) = f_pos f + Z.of_nat (length buf)).
  { apply Z.mod_small. lia. }
  destruct (tmpfs_priv_run v own L p n Hok Hn Ht)
    as (data & v1 & own1 & L1 & E1 & Hok1 & Hk1 & Hf1 & Hn1).
  mrun E1. destruct (Z.eqb_spec data NULL) as [->|Hdata].
  { exists (-1), v1, own1, L1. split_and!; [done|done|]. left. done. }
  destruct (Hn1 Hdata) as (n1 & Hnn1 & Ht1 & Hpr1). rewrite Hu.
  destruct (tmpfs_grow_run v1 own1 L1 p n1 cs data (f_pos f + Z.of_nat (length buf))
              Hok1 Hnn1 Ht1 Hpr1 Hdata (Hk1 _ _ Hcs) ltac:(lia))
    as (b & v2 & own2 & L2 & E2 & Hok2 & Hk2 & Hf2 & En2 & Hd2).
  mrun E2. destruct b; cbn [negb].
  2:{ exists (-1), v2, own2, L2. split_and!; [done|done|]. left. split_and!; [done| |congruence].
      intros q ds Hq. by apply Hk2, Hk1. }
  destruct (Hd2 eq_refl) as (d & Hd & Hcap). rewrite <-En2 in Hnn1. subst data.
  destruct (write_end_run v2 own2 L2 p n1 d cs file f buf Hok2 Hnn1 Ht1 Hdata Hd (Hk2 _ _ (Hk1 _ _ Hcs)) Hpos Hcap Hby)
    as (v3 & E3 & Hok3 & Hh3 & Hf3 & Hk3); [congruence|].
  unfold get_tdata. rewrite Hd. exists (Z.of_nat (length buf)), v3, own2, L2.
  split_and!; [apply E3|done|]. right. split_and!; [done|done|congruence|].
  intros q ds Hq Hds. apply Hk3; [done|]. by apply Hk2, Hk1.
Qed.

(** C5: reading a memory file.  [tmpfs_read] delivers the bytes from the position on, up
    to the count and to the end of the file, moves the position past them and changes
    nothing else; at or past the end it delivers nothing. *)
Theorem tmpfs_read_correct (v : S) own L file f cs cnt
    (Hok : tmpfs_ok v own L) (Hf : files v !! file = Some f) (Hcs : holds v (f_node f) cs)
    (Hpos : 0 ≤ f_pos f) (Hcnt : 0 ≤ cnt) (Hmax : f_pos f + cnt < 2 ^ 64) :
  let bs := take (Z.to_nat cnt) (drop (Z.to_nat (f_pos f)) cs) in
  ∃ out v', tmpfs_read file cnt v = Done (Z.of_nat (length bs), out) v' ∧
    (out = [(0, bs)] ∨ bs = [] ∧ out = []) ∧
    (v' = set_files (<[file := mk_file (f_node f) (f_pos f + Z.of_nat (length bs)) (f_flags f)]> (files v)) v
     ∨ bs = [] ∧ v' = v).
Proof.
  destruct Hcs as (n & Hn & Ht & Hsz & Hby & Hd). intros bs.
  unfold tmpfs_read. mred. unfold get_file. rewrite Hf. unfold get_node. rewrite Hn.
  rewrite (proj2 (Z.eqb_eq (n_type n) FS_FILE)) by apply Ht. cbn [negb].
  assert (Hnil : Z.of_nat (length cs) ≤ f_pos f → bs = []).
  { intros. subst bs. rewrite drop_ge by lia. apply take_nil. }
  destruct Hd as [->|(d & Hpn & Hd & Hdn & Hc & Hat)].
  { assert (bs = []) as Hbs by (apply Hnil; cbn; lia). rewrite Hbs. exists [], v.
    split_and!; [|by right|by right]. destruct (n_priv n =? NULL) eqn:E; [done|].
    apply Z.eqb_neq in E. destruct (ok_priv _ _ _ Hok _ _ Hn Ht E) as (_ & [d Hd]).
    unfold get_tdata. rewrite Hd. destruct (t_data d =? NULL); [done|].
    rewrite (proj2 (Z.leb_le (n_size n) (f_pos f))); [done|]. rewrite Hsz. cbn. lia. }
  rewrite (proj2 (Z.eqb_neq _ _) Hpn). unfold get_tdata. rewrite Hd.
  rewrite (proj2 (Z.eqb_neq _ _) Hdn).
  destruct (Z.leb_spec (n_size n) (f_pos f)).
  { rewrite Hnil by lia. exists [], v. split_and!; [done|by right|by right]. }
  assert (u64 (f_pos f + cnt) = f_pos f + cnt) as -> by (apply Z.mod_small; lia).
  set (to_read := if n_size n <? f_pos f + cnt then n_size n - f_pos f else cnt).
  assert (Hto : to_read = Z.of_nat (length bs)).
  { subst to_read bs. rewrite length_take, length_drop. destruct (Z.ltb_spec (n_size n) (f_pos f + cnt)); lia. }
  assert (Hload : on_mem (load_bytes (Z.to_nat to_read) (t_data d + f_pos f)) v = Done bs v).
  { unfold on_mem, on_alloc, zoom. rewrite Hto, Nat2Z.id. fold (ram v). rewrite load_bytes_run.
    - unfold ram. rewrite al_set_ram_id. by destruct v.
    - rewrite <-(take_drop (Z.to_nat (f_pos f)) cs), bytes_at_app in Hat. destruct Hat as [_ Hat].
      rewrite length_take_le, Z2Nat.id in Hat by lia.
      rewrite <-(take_drop (Z.to_nat cnt) (drop _ cs)), bytes_at_app in Hat. apply Hat. }
  rewrite Hload. unfold put_file, modify.
  exists [(0, bs)]. eexists. rewrite Hto. split_and!; [done|by left|left].
  unfold u64. rewrite Z.mod_small; [done|]. subst bs. rewrite length_take, length_drop. lia.
Qed.
(** ** Directories *)

(** The children of a directory whose list starts at [h]. *)
Fixpoint chain (ns : gmap Z fs_node) (h : Z) (l : list Z) : Prop :=
  match l with
  | [] => h = NULL
  | p :: l' => h = p ∧ p ≠ NULL ∧ ∃ n, ns !! p = Some n ∧ chain ns (n_next n) l'
  end.

(** The first of them with the given name. *)
Fixpoint named (ns : gmap Z fs_node) (name : str) (l : list Z) : Z :=
  match l with
  | [] => NULL
  | p :: l' =>
      match ns !! p with
      | Some n => if bool_decide (n_name n = name) then p else named ns name l'
      | None => NULL
      end
  end.

Lemma chain_det ns h l l' : chain ns h l → chain ns h l' → l = l'.
Proof.
  revert h l'; induction l as [|p l IH]; intros h [|q l']; cbn; [done|naive_solver|naive_solver|].
  intros (-> & ? & n & Hn & Hl) (-> & _ & n' & Hn' & Hl'). f_equal.
  rewrite Hn in Hn'. injection Hn' as <-. by eapply IH.
Qed.

Lemma chain_suffix ns h l1 p l2 : chain ns h (l1 ++ p :: l2) → chain ns p (p :: l2).
Proof.
  revert h; induction l1 as [|q l1 IH]; intros h; cbn [app].
  - intros Hc. pose proof Hc as [-> _]. done.
  - intros (_ & _ & n & _ & Hl). by eapply IH.
Qed.

(** A list that ends has no cycle, so it is no longer than the number of nodes. *)
Lemma chain_NoDup ns h l : chain ns h l → NoDup l.
Proof.
  revert h; induction l as [|p l IH]; intros h Hc; [constructor|].
  pose proof Hc as (-> & _ & n & _ & Hl). constructor; [|by eapply IH].
  intros (l1 & l2 & ->)%list_elem_of_split.
  pose proof (chain_det _ _ _ _ Hc (chain_suffix _ _ (p :: l1) p l2 Hc)) as E.
  injection E as E. apply (f_equal length) in E. rewrite length_app in E. simpl in E. lia.
Qed.

Lemma chain_dom ns h l : chain ns h l → ∀ p, p ∈ l → is_Some (ns !! p).
Proof.
  revert h; induction l as [|q l IH]; intros h; cbn; [intros _ p ?%elem_of_nil; done|].
  intros (-> & _ & n & Hn & Hl) p [->|Hp]%elem_of_cons; eauto.
Qed.

Lemma chain_length ns h l : chain ns h l → (length l ≤ base.size ns)%nat.
Proof.
  intros Hc. pose proof (chain_NoDup _ _ _ Hc) as Hd. rewrite <-size_dom.
  rewrite <-(size_list_to_set (C := gset Z) l Hd). apply subseteq_size.
  intros p Hp%elem_of_list_to_set. apply elem_of_dom. by eapply chain_dom.
Qed.

Lemma find_child_run fuel h l name (v : S) :
  chain (nodes v) h l → (length l < fuel)%nat →
  find_child fuel h name v = Done (named (nodes v) name l) v.
Proof.
  revert fuel h; induction l as [|p l IH]; intros [|fuel] h Hc Hf; [lia| |lia|]; cbn in Hc |- *.
  - by subst h.
  - destruct Hc as (-> & Hp & n & Hn & Hc). rewrite (proj2 (Z.eqb_neq _ _) Hp). mred.
    unfold get_node. rewrite Hn. case_bool_decide; [done|]. apply IH; [done|].
    cbn in Hf. lia.
Qed.

Lemma tmpfs_lookup_run dir d l name (v : S) :
  nodes v !! dir = Some d → n_type d = FS_DIR → chain (nodes v) (n_children d) l →
  tmpfs_lookup dir name v = Done (named (nodes v) name l) v.
Proof.
  intros Hd Ht Hc. unfold tmpfs_lookup. mred. unfold get_node. rewrite Hd, Ht. cbn [negb Z.eqb].
  rewrite Z.eqb_refl. unfold child_fuel, gets. mred. apply find_child_run; [done|].
  pose proof (chain_length _ _ _ Hc). lia.
Qed.

Lemma chain_ext ns ns' h l :
  (∀ q n, q ∈ l → ns !! q = Some n → ∃ n', ns' !! q = Some n' ∧ n_next n' = n_next n) →
  chain ns h l → chain ns' h l.
Proof.
  revert h; induction l as [|p l IH]; intros h He; cbn; [done|].
  intros (-> & ? & n & Hn & Hl). destruct (He p n) as (n' & Hn' & En); [by left|done|].
  split_and!; [done|done|]. exists n'. rewrite En. split; [done|]. apply IH; [|done].
  intros q m Hq. apply He. by right.
Qed.

Lemma named_ext ns ns' name l :
  (∀ q, q ∈ l → n_name <$> ns' !! q = n_name <$> ns !! q) → named ns' name l = named ns name l.
Proof.
  induction l as [|p l IH]; intros He; cbn; [done|].
  pose proof (He p ltac:(by left)) as Ep. rewrite IH by (intros q Hq; apply He; by right).
  destruct (ns' !! p), (ns !! p); simpl in Ep; try done. by injection Ep as ->.
Qed.
(** The state after a new node [p] has been put at the front of the list of [dir]. *)
Definition with_child (dir p : Z) (d n : fs_node) (v : S) : S :=
  set_nodes (<[dir := mk_node (n_name d) (n_type d) (n_size d) (n_inode d) (n_ops d) (n_priv d)
                        p (n_next d) (n_parent d)]> (<[p := n]> (nodes v))) v.

Lemma with_child_ok (v : S) own L dir p d n :
  tmpfs_ok v own L → own !! p = Some ONode → nodes v !! dir = Some d → dir ≠ p →
  n_priv n = NULL → (∀ q cs, holds v q cs → q ≠ p) →
  tmpfs_ok (with_child dir p d n v) own L ∧ keeps v (with_child dir p d n v).
Proof.
  intros Hok Hp Hd Hdp Hn Hfresh. split.
  - set (v1 := set_nodes (<[p := n]> (nodes v)) v).
    change (with_child dir p d n v) with (set_nodes (nodes (with_child dir p d n v)) v1).
    apply (ok_set_node v1).
    + apply ok_set_node; [done|done|]. by intros _ ?.
    + by eapply ok_node.
    + intros Ht. apply (ok_priv _ _ _ Hok _ _ Hd). exact Ht.
  - intros q cs Hq. pose proof (Hfresh _ _ Hq). destruct Hq as (m & Hm & Ht & Hs & Hb & Hdat).
    destruct (decide (q = dir)) as [->|Hqd].
    + rewrite Hd in Hm. injection Hm as <-. eexists. cbn. rewrite lookup_insert_eq.
      split_and!; [done|exact Ht|done|done|done].
    + exists m. cbn. rewrite !lookup_insert_ne by done. done.
Qed.

(** The list of [dir] in that state. *)
Lemma with_child_chain (v : S) dir p d n l name :
  nodes v !! dir = Some d → nodes v !! p = None → p ≠ NULL → chain (nodes v) (n_children d) l →
  n_next n = n_children d → n_type d = FS_DIR →
  let v' := with_child dir p d n v in
  chain (nodes v') p (p :: l) ∧
  tmpfs_lookup dir name v' =
    Done (if bool_decide (n_name n = name) then p else named (nodes v) name l) v'.
Proof.
  intros Hd Hp Hp0 Hc Hnext Ht v'.
  assert (Hdp : dir ≠ p) by congruence.
  assert (Hpl : ∀ q, q ∈ l → q ≠ p).
  { intros q Hq ->. destruct (chain_dom _ _ _ Hc _ Hq). congruence. }
  assert (Hc' : chain (nodes v') p (p :: l)).
  { split_and!; [done|done|]. exists n. cbn. rewrite lookup_insert_ne, lookup_insert_eq by done.
    split; [done|]. rewrite Hnext. eapply chain_ext; [|exact Hc]. intros q m Hq Hm.
    destruct (decide (q = dir)) as [->|].
    - rewrite lookup_insert_eq. eexists. split; [done|]. cbn. congruence.
    - rewrite !lookup_insert_ne by (done || by apply not_eq_sym, Hpl). eauto. }
  split; [done|]. erewrite tmpfs_lookup_run; [|by cbn; rewrite lookup_insert_eq|done|exact Hc'].
  cbn [named]. assert (nodes v' !! p = Some n) as ->.
  { cbn. by rewrite lookup_insert_ne, lookup_insert_eq. }
  case_bool_decide; [done|]. f_equal.
  apply named_ext. intros q Hq. cbn. destruct (decide (q = dir)) as [->|].
  - by rewrite lookup_insert_eq, Hd.
  - by rewrite !lookup_insert_ne by (done || by apply not_eq_sym, Hpl).
Qed.

(** C8: creating in a memory directory.  [tmpfs_create] and [tmpfs_mkdir] fail and change
    nothing when the directory has a child with the name or memory is short; otherwise the
    new node is an empty file or directory with the operations of its parent, the name
    now looks up to it, every other name to what it was, and all files keep their
    contents. *)
Theorem tmpfs_make_correct (v : S) own L type dir d l name
    (Hok : tmpfs_ok v own L) (Hd : nodes v !! dir = Some d) (Hdir : n_type d = FS_DIR)
    (Hc : chain (nodes v) (n_children d) l) (Hname : Z.of_nat (length name) < 64) :
  ∃ r v' own' L', tmpfs_make type dir name v = Done r v' ∧ tmpfs_ok v' own' L' ∧ keeps v v' ∧
    (r = -1 ∧ v' = v ∨
     r = 0 ∧ named (nodes v) name l = NULL ∧ ∃ p n', nodes v !! p = None ∧
       nodes v' !! p = Some n' ∧ n_name n' = name ∧ n_type n' = type ∧ n_size n' = 0 ∧
       n_ops n' = n_ops d ∧ n_parent n' = dir ∧ chain (nodes v') p (p :: l) ∧
       ∀ name', tmpfs_lookup dir name' v' =
         Done (if bool_decide (name = name') then p else named (nodes v) name' l) v').
Proof.
  unfold tmpfs_make. mred. unfold get_node at 1. rewrite Hd, Hdir. cbn [negb Z.eqb].
  rewrite Z.eqb_refl. cbn [negb]. rewrite (tmpfs_lookup_run _ _ _ _ _ Hd Hdir Hc).
  destruct (Z.eqb_spec (named (nodes v) name l) NULL) as [En|En]; cbn [negb].
  2:{ exists (-1), v, own, L. split_and!; [done|done|by intros ??|by left]. }
  unfold fs_mknode.
  destruct (kcreate_run v own L SIZEOF_FS_NODE Hok ltac:(done))
    as [Ec|(p & k & a' & Ec & Hne & Hk & HL & Ho & Hlive & Hram)].
  { mrun Ec. cbn. exists (-1), v, own, L. split_and!; [done|done|by intros ??|by left]. }
  mrun Ec. rewrite (proj2 (Z.eqb_neq p NULL) Hne), (proj2 (Z.leb_gt 64 _)) by lia.
  unfold put_node, modify. mred. rewrite (proj2 (Z.eqb_neq p NULL) Hne).
  assert (Hp : nodes v !! p = None).
  { destruct (nodes v !! p) eqn:E; [|done]. rewrite (ok_node _ _ _ Hok _ _ E) in Ho. done. }
  assert (Hdp : dir ≠ p) by congruence. assert (dir ≠ NULL) as Hd0.
  { intros ->. destruct (ok_own _ _ _ Hok NULL) as [x Hx]; [by rewrite (ok_node _ _ _ Hok _ _ Hd)|].
    destruct (live_range _ _ _ _ (ok_live _ _ _ Hok) Hx). done. }
  unfold inherit_ops, fs_addchild. mred.
  rewrite (proj2 (Z.eqb_neq p NULL) Hne), (proj2 (Z.eqb_neq dir NULL) Hd0). cbn [orb].
  unfold put_node, modify, get_node. mred.
  repeat (cbn [nodes set_nodes set_alloc]; rewrite ?lookup_insert_eq, ?(lookup_insert_ne _ p dir), ?Hd by done).
  cbn [n_name n_type n_size n_inode n_ops n_priv n_children n_next n_parent].
  set (n' := mk_node name type 0 0 (n_ops d) NULL NULL (n_children d) dir).
  match goal with |- context [Done 0 ?w] =>
    assert (w = with_child dir p d n' (set_alloc a' v)) as -> end.
  { unfold with_child, set_nodes. cbn. f_equal. by rewrite !insert_insert_eq. }
  pose proof (ok_extend _ _ _ _ _ _ ONode Hok Ho HL Hlive) as Hok1.
  destruct (with_child_ok (set_alloc a' v) _ _ dir p d n' Hok1) as [Hok2 Hk2]; try done.
  { by rewrite lookup_insert_eq. }
  { intros q cs (m & Hm & _) ->. cbn in Hm. congruence. }
  exists 0, (with_child dir p d n' (set_alloc a' v)). do 2 eexists. split_and!; [done|exact Hok2|..].
  { intros q cs Hq. apply Hk2. eapply holds_frame; [exact Hq|done|]. intros. unfold ram. cbn. by rewrite Hram. }
  right. split_and!; [done|done|]. exists p, n'. split_and!; try done.
  - cbn. by rewrite lookup_insert_ne, lookup_insert_eq.
  - by apply (with_child_chain (set_alloc a' v) dir p d n' l []).
  - intros name'. by apply (with_child_chain (set_alloc a' v) dir p d n' l name').
Qed.
End tmpfs_facts.

(** ** Opening and closing *)

Section open_close.
  Context {A W X : Type} `{Allocator A} `{!Backends (vfs A W X)}.
  Context (Hbackend : ops_of Tmpfs = tmpfs_ops).
Abbreviation S := (vfs A W X).

Lemma first_free_fd_spec i l : 0 ≤ i →
  match first_free_fd i l with
  | Some k => ∃ j : nat, k = i + Z.of_nat j ∧ 3 ≤ k ∧ l !! j = Some NULL ∧
                ∀ j', (j' < j)%nat → 3 ≤ i + Z.of_nat j' → l !! j' ≠ Some NULL
  | None => ∀ j : nat, 3 ≤ i + Z.of_nat j → l !! j ≠ Some NULL
  end.
Proof.
  revert i; induction l as [|p l IH]; intros i Hi; cbn [first_free_fd]; [done|].
  destruct (Z.leb_spec 3 i), (Z.eqb_spec p NULL) as [->|Hp]; cbn [andb].
  1:{ exists 0%nat. split_and!; [lia|lia|done|lia]. }
  all: specialize (IH (i + 1) ltac:(lia)); destruct (first_free_fd (i + 1) l) as [k|].
  all: try (destruct IH as (j & -> & ? & Hj & Hb); exists (Datatypes.S j);
    split_and!; [lia|lia|done|]; intros [|j'] ??; [cbn; (congruence || lia)|]; apply Hb; lia).
  all: intros [|j'] ?; [cbn; (congruence || lia)|]; apply IH; lia.
Qed.

Lemma ok_set_fds (v : S) own L l : tmpfs_ok v own L → tmpfs_ok (set_fds l v) own L.
Proof. intros []. by constructor. Qed.

Lemma delete_file_fresh (v : S) file f :
  files v !! file = None → delete file (<[file := f]> (files v)) = files v.
Proof. intros Hf. by rewrite delete_insert_id. Qed.

(** Closing a descriptor that leads to an open memory file. *)
Lemma fs_close_run (v : S) own L j file k f n :
  tmpfs_ok v own L → own !! file = Some OFile → L !! file = Some k → file ≠ NULL →
  fds v !! j = Some file → (j < 64)%nat → files v !! file = Some f → nodes v !! f_node f = Some n →
  n_ops n = Some Tmpfs →
  ∃ v', fs_close (Z.of_nat j) v = Done 0 v' ∧ nodes v' = nodes v ∧ fds v' = <[j := NULL]> (fds v) ∧
    files v' = delete file (files v) ∧ al_live (alloc v') (delete file L).
Proof.
  intros Hok Hown HL Hne Hj Hj64 Hf Hn Hops.
  unfold fs_close, fs_get_file, gets, free_file, fs_free_fd, modify, FS_MAX_FDS.
  rewrite (proj2 (Z.ltb_ge (Z.of_nat j) 0)), (proj2 (Z.leb_gt 64 _)) by lia.
  cbn [orb]. mred. rewrite Nat2Z.id, Hj. cbn [default from_option id].
  rewrite (proj2 (Z.eqb_neq file NULL) Hne).
  unfold file_ops, get_file, get_node. mred. rewrite Hf, Hn, Hops. cbn [fmap option_fmap option_map].
  rewrite Hbackend. cbn [mbind option_bind o_close tmpfs_ops]. unfold tmpfs_close. mred.
  destruct (kfree_run v _ _ file k Hok HL) as (a4 & E4 & Hl4 & _). rewrite E4.
  rewrite (proj2 (Z.leb_le 0 _)), (proj2 (Z.ltb_lt (Z.of_nat j) 64)) by lia. cbn [andb].
  eexists. by split_and!.
Qed.

(** C11: opening and closing a file.  Opening an existing memory file either fails, with
    descriptors, open files, nodes and heap payloads as before, or puts a fresh open file,
    at position 0 and with the flags given, into the lowest free descriptor from 3 on;
    closing that descriptor succeeds and gives back the descriptor, the open file and its
    storage. *)
Theorem fs_open_close (v : S) own L path flags node n
    (Hok : tmpfs_ok v own L) (Hres : fs_resolve (Some path) v = Done node v)
    (Hnode : node ≠ NULL) (Hn : nodes v !! node = Some n) (Hops : n_ops n = Some Tmpfs)
    (Hfds : length (fds v) = 64%nat) :
  ∃ fd v1, fs_open path flags v = Done fd v1 ∧ nodes v1 = nodes v ∧
    (fd = -1 ∧ fds v1 = fds v ∧ files v1 = files v ∧ al_live (alloc v1) L ∨
     ∃ file k, 3 ≤ fd < 64 ∧ fds v !! Z.to_nat fd = Some NULL ∧
       (∀ i, 3 ≤ i < fd → fds v !! Z.to_nat i ≠ Some NULL) ∧
       file ≠ NULL ∧ files v !! file = None ∧ fds v1 = <[Z.to_nat fd := file]> (fds v) ∧
       files v1 = <[file := mk_file node 0 (u32 flags)]> (files v) ∧
       al_live (alloc v1) (<[file := k]> L) ∧
       ∃ v2, fs_close fd v1 = Done 0 v2 ∧ nodes v2 = nodes v ∧ fds v2 = fds v ∧
         files v2 = files v ∧ al_live (alloc v2) L).
Proof.
  unfold fs_open. mrun Hres. rewrite (proj2 (Z.eqb_neq node NULL) Hnode). cbn [andb]. mred.
  rewrite (proj2 (Z.eqb_neq node NULL) Hnode).
  destruct (kcreate_run v own L SIZEOF_FS_FILE Hok ltac:(done))
    as [Ec|(file & k & a' & Ec & Hne & Hk & HL & Ho & Hlive & Hram)].
  { mrun Ec. cbn. exists (-1), v. split_and!; [done|done|left]. split_and!; [done..|apply Hok]. }
  mrun Ec. rewrite (proj2 (Z.eqb_neq file NULL) Hne).
  assert (Hf : files v !! file = None).
  { destruct (files v !! file) eqn:E; [|done]. rewrite (ok_file _ _ _ Hok _ _ E) in Ho. done. }
  set (f := mk_file node 0 (u32 flags)). unfold put_file, modify, get_node. mred.
  cbn [nodes set_files set_alloc]. rewrite Hn, Hops. cbn [fmap option_fmap option_map].
  rewrite Hbackend. cbn [mbind option_bind o_open tmpfs_ops]. unfold tmpfs_open. mred.
  cbn [negb Z.eqb]. unfold fs_alloc_fd, get. mred. cbn [fds set_files set_alloc].
  set (v0 := set_files _ _).
  assert (Hok0 : tmpfs_ok v0 (<[file := OFile]> own) (<[file := k]> L)).
  { apply (ok_set_file (set_alloc a' v)); [by apply ok_extend|by rewrite lookup_insert_eq]. }
  destruct (kfree_run v0 _ _ file k Hok0 (lookup_insert_eq _ _ _)) as (a3 & E3 & Hl3 & _).
  rewrite delete_insert_id in Hl3 by done.
  pose proof (first_free_fd_spec 0 (fds v) ltac:(lia)) as Hfree.
  destruct (first_free_fd 0 (fds v)) as [fd|].
  2:{ unfold free_file, modify. cbn [Z.ltb Z.compare]. mred. rewrite E3.
      exists (-1). eexists. split_and!; [done|done|left]. split_and!; [done|done| |exact Hl3].
      cbn. by apply delete_file_fresh. }
  destruct Hfree as (j & -> & H3 & Hj & Hbelow). rewrite Z.add_0_l in *.
  pose proof (lookup_lt_Some _ _ _ Hj). unfold modify. mred.
  rewrite (proj2 (Z.ltb_ge (Z.of_nat j) 0)) by lia. rewrite Nat2Z.id.
  exists (Z.of_nat j). eexists. split_and!; [done|done|right]. exists file, k.
  rewrite Nat2Z.id. cbn. split_and!; try done; [lia| |].
  { intros i Hi. apply Hbelow; lia. }
  destruct (fs_close_run (set_fds (<[j := file]> (fds v)) v0) _ _ j file k f n (ok_set_fds _ _ _ _ Hok0))
    as (v2 & E2 & Hn2 & Hd2 & Hf2 & Hl2); try done; cbn; rewrite ?lookup_insert_eq; try done; [|lia|].
  { by rewrite list_lookup_insert_eq. }
  exists v2. split_and!; [done|done|..].
  - rewrite Hd2. cbn. rewrite list_insert_insert_eq. by apply list_insert_id.
  - rewrite Hf2. cbn. by apply delete_file_fresh.
  - by rewrite delete_insert_id in Hl2.
Qed.
End open_close.

(** ** Witnesses *)

(** A directory at 4136 with one child, the file at 4536 of three bytes, open at 4304 with
    its position after the first byte. *)
Definition demo_dir : fs_node := mk_node (chars "/") FS_DIR 0 0 (Some Tmpfs) NULL 4536 NULL NULL.
Definition demo_node : fs_node := mk_node (chars "a") FS_FILE 3 0 (Some Tmpfs) 4376 NULL NULL 4136.
Definition demo_own : gmap Z owner :=
  <[4136 := ONode]> (<[4304 := OFile]> (<[4376 := OData 4536]> (<[4432 := OBuf 4376]> {[ 4536 := ONode ]}))).
Definition demo_vfs : vfs kernel_memory unit unit :=
  mk_vfs demo_used 1 (<[4136 := demo_dir]> {[ 4536 := demo_node ]}) {[ 4304 := mk_file 4536 1 0 ]}
    {[ 4376 := mk_tdata 4432 64 ]} ∅ [mk_mnt (chars "/") (Some Tmpfs) 4136 NULL true]
    (replicate 64 NULL) [] 0 NULL (-1) (mk_registry [] 0 ∅ tt) tt.

Ltac cases_in H :=
  first [ apply lookup_singleton_Some in H as [<- <-]
        | apply lookup_insert_Some in H as [[<- <-]|[_ H]]; [|cases_in H] ].

Lemma demo_vfs_ok : tmpfs_ok demo_vfs demo_own (live_blocks 4096 demo_blocks).
Proof.
  constructor.
  - exact demo_used_live.
  - done.
  - intros p [o Hp]. unfold demo_own in Hp. cases_in Hp; eexists; reflexivity.
  - intros p n Hp. cbn in Hp. cases_in Hp; reflexivity.
  - intros p n Hp. cbn in Hp. cases_in Hp; reflexivity.
  - intros p n Hp. cbn in Hp. cases_in Hp. split_and!; [eexists; reflexivity|done|done|].
    intros _. split; [reflexivity|]. exists 64. split; reflexivity.
  - intros p n Hp. cbn in Hp. cases_in Hp; [by intros []|]. intros _ _. split; [done|eexists; reflexivity].
Qed.

Lemma demo_vfs_holds : holds demo_vfs 4536 [7; 7; 7].
Proof.
  exists demo_node. split_and!; [done|done|done|eval_decide|].
  right. exists (mk_tdata 4432 64). split_and!; [done|done|done|done|].
  intros i b Hi. destruct i as [|[|[|]]]; cbn in Hi; try discriminate; injection Hi as <-; vm_compute; reflexivity.
Qed.

Lemma tmpfs_write_correct_witness : ∃ r v' own' L',
  tmpfs_write 4304 [1; 2; 3; 4] demo_vfs = Done r v' ∧ tmpfs_ok v' own' L' ∧
    (r = -1 ∧ keeps demo_vfs v' ∧ files v' = files demo_vfs ∨
     r = 4 ∧ holds v' 4536 [7; 1; 2; 3; 4] ∧
     files v' = <[4304 := mk_file 4536 5 0]> (files demo_vfs) ∧
     ∀ q ds, q ≠ 4536 → holds demo_vfs q ds → holds v' q ds).
Proof.
  apply (tmpfs_write_correct demo_vfs _ _ 4304 (mk_file 4536 1 0) [7; 7; 7] [1; 2; 3; 4] demo_vfs_ok).
  - reflexivity.
  - exact demo_vfs_holds.
  - cbn. lia.
  - eval_decide.
  - cbn. lia.
Defined.

Lemma tmpfs_read_correct_witness : ∃ out v',
  tmpfs_read 4304 10 demo_vfs = Done (2, out) v' ∧ (out = [(0, [7; 7])] ∨ [7; 7] = [] ∧ out = []) ∧
  (v' = set_files (<[4304 := mk_file 4536 3 0]> (files demo_vfs)) demo_vfs ∨ [7; 7] = [] ∧ v' = demo_vfs).
Proof.
  apply (tmpfs_read_correct demo_vfs _ _ 4304 (mk_file 4536 1 0) [7; 7; 7] 10 demo_vfs_ok).
  - reflexivity.
  - exact demo_vfs_holds.
  - cbn. lia.
  - lia.
  - cbn. lia.
Defined.

Lemma tmpfs_make_correct_witness : ∃ r v' own' L',
  tmpfs_make FS_FILE 4136 (chars "b") demo_vfs = Done r v' ∧ tmpfs_ok v' own' L' ∧ keeps demo_vfs v' ∧
    (r = -1 ∧ v' = demo_vfs ∨
     r = 0 ∧ named (nodes demo_vfs) (chars "b") [4536] = NULL ∧ ∃ p n', nodes demo_vfs !! p = None ∧
       nodes v' !! p = Some n' ∧ n_name n' = chars "b" ∧ n_type n' = FS_FILE ∧ n_size n' = 0 ∧
       n_ops n' = Some Tmpfs ∧ n_parent n' = 4136 ∧ chain (nodes v') p [p; 4536] ∧
       ∀ name', tmpfs_lookup 4136 name' v' =
         Done (if bool_decide (chars "b" = name') then p else named (nodes demo_vfs) name' [4536]) v').
Proof.
  apply (tmpfs_make_correct demo_vfs _ _ FS_FILE 4136 demo_dir [4536] (chars "b") demo_vfs_ok).
  - reflexivity.
  - reflexivity.
  - cbn. split_and!; [done|done|]. exists demo_node. split_and!; reflexivity.
  - reflexivity.
Defined.

(** The tables with the memory file system only. *)
#[local] Instance demo_tables : Backends (vfs kernel_memory unit unit) := {|
  ops_of i := match i with Tmpfs => tmpfs_ops | _ => mk_ops None None None None None None None end;
  type_of i := tmpfs;
|}.

Lemma fs_open_close_witness : ∃ fd v1,
  fs_open (chars "//a/") O_RDONLY demo_vfs = Done fd v1 ∧ nodes v1 = nodes demo_vfs ∧
    (fd = -1 ∧ fds v1 = fds demo_vfs ∧ files v1 = files demo_vfs ∧
     al_live (alloc v1) (live_blocks 4096 demo_blocks) ∨
     ∃ file k, 3 ≤ fd < 64 ∧ fds demo_vfs !! Z.to_nat fd = Some NULL ∧
       (∀ i, 3 ≤ i < fd → fds demo_vfs !! Z.to_nat i ≠ Some NULL) ∧
       file ≠ NULL ∧ files demo_vfs !! file = None ∧
       fds v1 = <[Z.to_nat fd := file]> (fds demo_vfs) ∧
       files v1 = <[file := mk_file 4536 0 1]> (files demo_vfs) ∧
       al_live (alloc v1) (<[file := k]> (live_blocks 4096 demo_blocks)) ∧
       ∃ v2, fs_close fd v1 = Done 0 v2 ∧ nodes v2 = nodes demo_vfs ∧ fds v2 = fds demo_vfs ∧
         files v2 = files demo_vfs ∧ al_live (alloc v2) (live_blocks 4096 demo_blocks)).
Proof.
  apply (fs_open_close (eq_refl : @ops_of _ demo_tables Tmpfs = tmpfs_ops) demo_vfs demo_own (live_blocks 4096 demo_blocks) (chars "//a/") O_RDONLY
           4536 demo_node demo_vfs_ok).
  - reflexivity.
  - discriminate.
  - reflexivity.
  - reflexivity.
  - reflexivity.
Defined.

Lemma fs_resolve_components_witness :
  fs_resolve (Some (chars "//a/")) demo_vfs = lookup_all [chars "a"] 4136 demo_vfs.
Proof.
  apply (fs_resolve_components (chars "//a/") demo_vfs (mk_mnt (chars "/") (Some Tmpfs) 4136 NULL true) 0).
  - reflexivity.
  - reflexivity.
  - lia.
  - reflexivity.
  - discriminate.
Defined.
