(* ===== verification/Devfs.v ===== *)
(** * The device file system, [core/fs/vfs/devfs/devfs.c]

    A device node forwards to the callbacks of the component that registered it. *)

From Stdlib Require Import ZArith Lia String.
From stdpp Require Import base gmap list numbers fin_maps.
From S2P Require Import Prelude Memory Heap KernelMemory Alloc KernelAlloc Module Vfs Tmpfs.
Open Scope Z_scope.
Set Default Goal Selector "!".

Section devfs.
  Context {A W X : Type} `{!AllocOps A} `{!Backends (vfs A W X)}.
Abbreviation S := (vfs A W X).

(** The private data of the node of an open file, and its handler when both exist. *)
Definition node_dev (node : Z) : M S (option (Z * devfs_data)) :=
  n ← get_node node;
  if n_priv n =? NULL then mret None else
  d ← get_ddata (n_priv n); mret (Some (n_priv n, d)).

Definition dev_handler (d : devfs_data) : M S (option (component_handler W)) :=
  if d_handler d =? NULL then mret None else
  h ← on_reg (deref_handler (d_handler d)); mret (Some h).

Definition devfs_open (node file : Z) : M S Z :=
  dev ← node_dev node;
  match dev with
  | None => mret (-1)
  | Some (p, d) =>
      h ← dev_handler d;
      match h with
      | None => mret (-1)
      | Some h =>
          match access h with
          | None => mret 0
          | Some acc =>
              n ← get_node node;
              handle ← on_reg (on_drivers (acc (n_name n)));
              put_ddata p (mk_ddata (d_handler d) handle);;
              mret (if handle =? NULL then -1 else 0)
          end
      end
  end.

Definition devfs_close (file : Z) : M S Z :=
  f ← get_file file;
  dev ← node_dev (f_node f);
  match dev with
  | None => mret (-1)
  | Some (p, d) => put_ddata p (mk_ddata (d_handler d) NULL);; mret 0
  end.

Definition devfs_read (file cnt : Z) : M S (Z * list (Z * list Z)) :=
  f ← get_file file;
  dev ← node_dev (f_node f);
  match dev with
  | None => mret (-1, [])
  | Some (p, d) =>
      h ← dev_handler d;
      match h ≫= retrieve with
      | None => mret (-1, [])
      | Some ret => '(r, bs) ← on_reg (on_drivers (ret (d_handle d) cnt)); mret (r, [(0, bs)])
      end
  end.

Definition devfs_write (file : Z) (buf : list Z) : M S Z :=
  f ← get_file file;
  dev ← node_dev (f_node f);
  match dev with
  | None => mret (-1)
  | Some (p, d) =>
      h ← dev_handler d;
      match h ≫= store with
      | None => mret (-1)
      | Some sto => on_reg (on_drivers (sto (d_handle d) buf))
      end
  end.

Definition devfs_lookup (dir : Z) (name : str) : M S Z :=
  n ← get_node dir;
  if negb (n_type n =? FS_DIR) then mret NULL else
  fuel ← child_fuel;
  find_child fuel (n_children n) name.

Definition devfs_ops : fs_ops S :=
  mk_ops (Some devfs_open) (Some devfs_close) (Some devfs_read) (Some devfs_write)
    (Some devfs_lookup) None None.

Definition devfs_mount (src : option (Z * str)) (tgt : str) (mnt : Z) : M S Z :=
  root ← fs_mknode (chars "dev") FS_DIR;
  if root =? NULL then mret (-1) else
  n ← get_node root;
  put_node root (mk_node (n_name n) (n_type n) (n_size n) (n_inode n) (Some Devfs) (n_priv n)
                   (n_children n) (n_next n) (n_parent n));;
  m ← get_mnt mnt;
  put_mnt mnt (mk_mnt (m_path m) (m_type m) root (m_priv m) (m_active m));;
  modify (set_devfs_root root);;
  mret 0.

Definition devfs : fs_type S := mk_type (chars "devfs") devfs_mount.

Definition devfs_register_device (handler : Z) : M S Z :=
  v ← get;
  if (handler =? NULL) || (devfs_root v =? NULL) then mret (-1) else
  h ← on_reg (deref_handler handler);
  path ← of_option (attachment_point h);
  let name := if bool_decide (chars "/dev/" `prefix_of` path) then drop 5 path else path in
  old ← devfs_lookup (devfs_root v) name;
  if negb (old =? NULL) then mret (-1) else
  node ← fs_mknode name FS_DEV;
  if node =? NULL then mret (-1) else
  data ← kcreate SIZEOF_DEVFS_DATA;
  if data =? NULL then kfree node;; mret (-1) else
  put_ddata data (mk_ddata handler NULL);;
  n ← get_node node;
  put_node node (mk_node (n_name n) (n_type n) (n_size n) (n_inode n) (Some Devfs) data
                   (n_children n) (n_next n) (n_parent n));;
  SYSTEM_PRINT (chars "[DevFS] ");;
  SYSTEM_PRINT (chars "registered ");;
  SYSTEM_PRINT name;;
  SYSTEM_PRINT [10];;
  mret 0.
End devfs.

Section devfs_facts.
  Context {A W X : Type} `{Allocator A} `{!Backends (vfs A W X)}.
Abbreviation S := (vfs A W X).

Lemma SYSTEM_PRINT_quiet msg (v : S) : init_boot_log v < 0 → SYSTEM_PRINT msg v = Done tt v.
Proof. intros Hl. unfold SYSTEM_PRINT, get. mred. by rewrite (proj2 (Z.ltb_lt _ _) Hl). Qed.

Lemma devfs_lookup_run dir d l name (v : S) :
  nodes v !! dir = Some d → n_type d = FS_DIR → chain (nodes v) (n_children d) l →
  devfs_lookup dir name v = Done (named (nodes v) name l) v.
Proof. exact (tmpfs_lookup_run dir d l name v). Qed.

(** A node outside the list of a directory is not found in it. *)
Lemma lookup_new_node (v v' : S) dir d l name p n :
  nodes v !! dir = Some d → n_type d = FS_DIR → chain (nodes v) (n_children d) l →
  nodes v !! p = None → nodes v' = <[p := n]> (nodes v) →
  devfs_lookup dir name v' = Done (named (nodes v) name l) v'.
Proof.
  intros Hd Ht Hc Hp E.
  assert (Hne : ∀ q, is_Some (nodes v !! q) → <[p := n]> (nodes v) !! q = nodes v !! q).
  { intros q [m Hm]. rewrite lookup_insert_ne; [done|]. congruence. }
  erewrite devfs_lookup_run with (l := l).
  - f_equal. rewrite E. apply named_ext. intros q Hq. rewrite Hne; [done|]. by eapply chain_dom.
  - rewrite E, Hne; [exact Hd|eauto].
  - done.
  - rewrite E. eapply chain_ext; [|exact Hc]. intros q m Hq Hm. rewrite Hne by eauto. eauto.
Qed.

(** Registering a device does not make it appear.  Whatever [devfs_register_device]
    returns, every name looks up in the root of the device file system to what it did
    before: the node it makes is linked to no directory, so the test for a device that
    exists never fires for a registered one and no path resolves to it. *)
Theorem devfs_register_device_unlinked (v : S) own L handler h path d l
    (Hok : tmpfs_ok v own L) (Hlog : init_boot_log v < 0) (Hh : handler ≠ NULL)
    (Hat : handler_at (reg v) !! handler = Some h) (Hpath : attachment_point h = Some path)
    (Hlen : Z.of_nat (length path) < 64) (Hroot : devfs_root v ≠ NULL)
    (Hd : nodes v !! devfs_root v = Some d) (Hdir : n_type d = FS_DIR)
    (Hc : chain (nodes v) (n_children d) l) :
  ∃ r v', devfs_register_device handler v = Done r v' ∧
    (r = -1 ∨ r = 0 ∧ ∃ p data, nodes v !! p = None ∧
       nodes v' !! p = Some (mk_node
         (if bool_decide (chars "/dev/" `prefix_of` path) then drop 5 path else path)
         FS_DEV 0 0 (Some Devfs) data NULL NULL NULL) ∧
       ddatas v' !! data = Some (mk_ddata handler NULL)) ∧
    ∀ name, devfs_lookup (devfs_root v) name v' = Done (named (nodes v) name l) v'.
Proof.
  unfold devfs_register_device, get. mred.
  rewrite (proj2 (Z.eqb_neq _ _) Hh), (proj2 (Z.eqb_neq _ _) Hroot). cbn [orb].
  unfold on_reg, zoom, deref_handler. rewrite Hat.
  assert (set_reg (reg v) v = v) as -> by by destruct v. rewrite Hpath. cbn [of_option]. mred.
  set (name := if bool_decide _ then _ else _).
  assert (Hname : Z.of_nat (length name) < 64).
  { subst name. case_bool_decide; [rewrite length_drop; lia|done]. }
  rewrite (devfs_lookup_run _ _ _ name _ Hd Hdir Hc).
  pose proof (λ nm, devfs_lookup_run _ _ _ nm _ Hd Hdir Hc) as Hlook.
  destruct (negb _); [exists (-1), v; split_and!; [done|by left|done]|].
  unfold fs_mknode.
  destruct (kcreate_run v own L SIZEOF_FS_NODE Hok ltac:(done))
    as [Ec|(p & k & a' & Ec & Hne & Hk & HL & Ho & Hlive & Hram)].
  { mrun Ec. cbn. exists (-1), v. split_and!; [done|by left|done]. }
  mrun Ec. rewrite (proj2 (Z.eqb_neq p NULL) Hne), (proj2 (Z.leb_gt 64 _)) by lia.
  unfold put_node, modify. mred. rewrite (proj2 (Z.eqb_neq p NULL) Hne).
  assert (Hp : nodes v !! p = None).
  { destruct (nodes v !! p) eqn:E; [|done]. rewrite (ok_node _ _ _ Hok _ _ E) in Ho. done. }
  set (n0 := mk_node name FS_DEV 0 0 None NULL NULL NULL NULL). set (v1 := set_nodes _ _).
  assert (Hok1 : tmpfs_ok v1 (<[p := ONode]> own) (<[p := k]> L)).
  { apply ok_set_node; [by apply ok_extend|by rewrite lookup_insert_eq|]. by intros []. }
  destruct (kcreate_run v1 _ _ SIZEOF_DEVFS_DATA Hok1 ltac:(done))
    as [Ed|(data & k2 & a2 & Ed & Hne2 & _)].
  - mrun Ed. cbn [Z.eqb NULL].
    destruct (kfree_run v1 _ _ p k Hok1 (lookup_insert_eq _ _ _)) as (a3 & E3 & _).
    rewrite E3. exists (-1), (set_alloc a3 v1). split_and!; [done|by left|].
    intros nm. by eapply lookup_new_node.
  - mrun Ed. rewrite (proj2 (Z.eqb_neq data NULL) Hne2). unfold put_ddata, modify, get_node. mred.
    cbn [nodes set_nodes set_alloc set_ddatas v1]. rewrite lookup_insert_eq.
    repeat (rewrite SYSTEM_PRINT_quiet by done; mred).
    do 2 eexists. split_and!; [done|right|].
    + split; [done|]. exists p, data. cbn. rewrite !lookup_insert_eq. done.
    + intros nm. eapply lookup_new_node; [done..|]. cbn. by rewrite insert_insert_eq.
Qed.
End devfs_facts.

(** ** Witness: a device registered in an empty root *)

#[local] Instance demo_tables : Backends (vfs kernel_memory unit unit) := {|
  ops_of i := match i with
              | Tmpfs => tmpfs_ops | Devfs => devfs_ops
              | Ext4 => mk_ops None None None None None None None
              end;
  type_of i := if decide (i = Devfs) then devfs else tmpfs;
|}.

Definition demo_device : component_handler unit :=
  mk_handler (Some (chars "tty")) (Some (chars "/dev/tty")) 0 None None None None None.
Definition demo_dev_root : fs_node := mk_node (chars "dev") FS_DIR 0 0 (Some Devfs) NULL NULL NULL NULL.
Definition demo_devfs : vfs kernel_memory unit unit :=
  mk_vfs demo_used 1 {[ 4136 := demo_dev_root ]} ∅ ∅ ∅ [mk_mnt (chars "/dev") (Some Devfs) 4136 NULL true]
    (replicate 64 NULL) [] 0 4136 (-1) (mk_registry [7] 1 {[ 7 := demo_device ]} tt) tt.

Lemma demo_devfs_ok : tmpfs_ok demo_devfs {[ 4136 := ONode ]} (live_blocks 4096 demo_blocks).
Proof.
  constructor.
  - exact demo_used_live.
  - done.
  - intros p [o [<- <-]%lookup_singleton_Some]. eexists; reflexivity.
  - intros p n Hp. cbn in Hp. apply lookup_singleton_Some in Hp as [<- <-]. reflexivity.
  - intros p n Hp. cbn in Hp. by rewrite lookup_empty in Hp.
  - intros p n Hp. cbn in Hp. by rewrite lookup_empty in Hp.
  - intros p n Hp. cbn in Hp. apply lookup_singleton_Some in Hp as [<- <-]. by intros [].
Qed.

Lemma devfs_register_device_unlinked_witness : ∃ r v', devfs_register_device 7 demo_devfs = Done r v' ∧
    (r = -1 ∨ r = 0 ∧ ∃ p data, nodes demo_devfs !! p = None ∧
       nodes v' !! p = Some (mk_node (chars "tty") FS_DEV 0 0 (Some Devfs) data NULL NULL NULL) ∧
       ddatas v' !! data = Some (mk_ddata 7 NULL)) ∧
    ∀ name, devfs_lookup 4136 name v' = Done NULL v'.
Proof.
  apply (devfs_register_device_unlinked demo_devfs {[ 4136 := ONode ]} (live_blocks 4096 demo_blocks) 7
           demo_device (chars "/dev/tty") demo_dev_root [] demo_devfs_ok).
  - reflexivity.
  - discriminate.
  - reflexivity.
  - reflexivity.
  - reflexivity.
  - discriminate.
  - reflexivity.
  - reflexivity.
  - reflexivity.
Defined.
