(* ===== verification/Ports.v ===== *)
(** * Port input and output, [core/kernel/include/io.h]

    The drivers talk to the hardware through the port instructions.  The devices are not
    part of the program: their state [D] and what the instructions do to it are a
    parameter of the drivers' models. *)

From Stdlib Require Import ZArith Lia.
From stdpp Require Import base list numbers.
From S2P Require Import Prelude.
Open Scope Z_scope.
Set Default Goal Selector "!".

Class PortIO (D : Type) := {
  read_port_byte : Z → M D Z;
  read_port_word : Z → M D Z;
  read_port_dword : Z → M D Z;
  write_port_byte : Z → Z → M D unit;
  write_port_word : Z → Z → M D unit;
  write_port_dword : Z → Z → M D unit;
}.

(** Registers of 32 bits at virtual addresses, which the hardware answers for. *)
Class RegIO (W : Type) := {
  reg_read : Z → M W Z;
  reg_write : Z → Z → M W unit;
}.

Section ports.
  Context {D : Type} `{!PortIO D}.

(** The macros, with the conversions of their arguments. *)
Definition inb (port : Z) : M D Z := read_port_byte (u16 port).
Definition inw (port : Z) : M D Z := read_port_word (u16 port).
Definition inl_ (port : Z) : M D Z := read_port_dword (u16 port).
Definition outb (port value : Z) : M D unit := write_port_byte (u16 port) (u8 value).
Definition outw (port value : Z) : M D unit := write_port_word (u16 port) (u16 value).
Definition outl (port value : Z) : M D unit := write_port_dword (u16 port) (u32 value).

(** A write to an unused port, which takes about a microsecond. *)
Definition pause_io : M D unit := outb 0x80 0.

(** [for (i = 0; i < n; i++) a[i] = inw(port);] *)
Fixpoint read_words (n : nat) (port : Z) : M D (list Z) :=
  match n with
  | O => mret []
  | S n' => w ← inw port; ws ← read_words n' port; mret (w :: ws)
  end.

(** [for (i = 0; i < n; i++) outw(port, a[i]);] *)
Fixpoint write_words (port : Z) (ws : list Z) : M D unit :=
  match ws with
  | [] => mret tt
  | w :: ws' => outw port w;; write_words port ws'
  end.
End ports.

(** A buffer of bytes as 16-bit words, and back. *)
Fixpoint words_of_bytes (bs : list Z) : list Z :=
  match bs with
  | lo :: hi :: bs' => (lo + 2 ^ 8 * hi) :: words_of_bytes bs'
  | _ => []
  end.
Definition bytes_of_words (ws : list Z) : list Z := w ← ws; [w mod 2 ^ 8; w / 2 ^ 8].

Lemma bytes_of_words_cons w ws :
  bytes_of_words (w :: ws) = w mod 2 ^ 8 :: w / 2 ^ 8 :: bytes_of_words ws.
Proof. done. Qed.

Lemma bytes_of_words_of_bytes n bs :
  Forall is_byte bs → length bs = (2 * n)%nat → bytes_of_words (words_of_bytes bs) = bs.
Proof.
  revert bs; induction n as [|n IH]; intros [|lo [|hi bs]] Hb Hl; simpl in Hl; try lia; [done|].
  apply Forall_cons_1 in Hb as [Hlo Hb]. apply Forall_cons_1 in Hb as [Hhi Hb]. unfold is_byte in *.
  cbn [words_of_bytes]. rewrite bytes_of_words_cons, IH by (done || lia). f_equal; [|f_equal].
  - rewrite (Z.mul_comm (2 ^ 8)), Z_mod_plus_full. apply Z.mod_small. lia.
  - rewrite (Z.mul_comm (2 ^ 8)), Z.div_add by lia. rewrite Z.div_small; lia.
Qed.

Lemma length_words_of_bytes n bs : length bs = (2 * n)%nat → length (words_of_bytes bs) = n.
Proof.
  revert bs; induction n as [|n IH]; intros [|lo [|hi bs]] Hl; simpl in *; try lia.
  by rewrite IH by lia.
Qed.
