(* ===== verification/Ata.v ===== *)
(** * The ATA disk driver, [core/drivers/ata/ata.c]

    A caller's buffer is the list of the 512 bytes to be written, or of the bytes stored
    into it ([[]] when none are).  The driver's own messages are left out. *)

From Stdlib Require Import ZArith Lia.
From stdpp Require Import base gmap list numbers fin_maps.
From S2P Require Import Prelude Ports.
Open Scope Z_scope.
Set Default Goal Selector "!".

Definition ATA_DATA : Z := 0.
Definition ATA_SECTOR_COUNT : Z := 2.
Definition ATA_LBA_LOW : Z := 3.
Definition ATA_LBA_MID : Z := 4.
Definition ATA_LBA_HIGH : Z := 5.
Definition ATA_DRIVE : Z := 6.
Definition ATA_STATUS : Z := 7.
Definition ATA_COMMAND : Z := 7.
Definition ATA_CMD_READ : Z := 0x20.
Definition ATA_CMD_WRITE : Z := 0x30.
Definition ATA_CMD_IDENTIFY : Z := 0xEC.
Definition ATA_CMD_READ_EXT : Z := 0x24.
Definition ATA_CMD_WRITE_EXT : Z := 0x34.
Definition ATA_CMD_FLUSH : Z := 0xE7.
Definition ATA_STATUS_BSY : Z := 0x80.
Definition ATA_STATUS_RDY : Z := 0x40.
Definition ATA_STATUS_DRQ : Z := 0x08.
Definition ATA_STATUS_ERR : Z := 0x01.
Definition ATA_STATUS_DF : Z := 0x20.
Definition TIMEOUT : nat := Z.to_nat 1000000.

(** The ports [ata_init] sets. *)
Record ata_ports := mk_ata_ports {
  ata_primary_io : Z;
  ata_primary_ctrl : Z;
  ata_secondary_io : Z;
  ata_secondary_ctrl : Z;
  ata_bm_primary : Z;
  ata_bm_secondary : Z;
}.
Definition ATA_DEFAULT : ata_ports := mk_ata_ports 0x1F0 0x3F6 0x170 0x376 0x1F0 0x170.

Section ata.
  Context {D : Type} `{!PortIO D}.

(** [while (inb(base + ATA_STATUS) & ATA_STATUS_BSY);] and its dual; the loops have no
    bound of their own. *)
Fixpoint ata_wait_bsy (fuel : nat) (base : Z) : M D unit :=
  match fuel with
  | O => stuck_with NoFuel
  | S fuel' =>
      s ← inb (base + ATA_STATUS);
      if truthy (Z.land s ATA_STATUS_BSY) then ata_wait_bsy fuel' base else mret tt
  end.

Fixpoint ata_wait_rdy (fuel : nat) (base : Z) : M D unit :=
  match fuel with
  | O => stuck_with NoFuel
  | S fuel' =>
      s ← inb (base + ATA_STATUS);
      if truthy (Z.land s ATA_STATUS_RDY) then mret tt else ata_wait_rdy fuel' base
  end.

Definition ata_select_drive (base drive : Z) : M D unit :=
  outb (base + ATA_DRIVE) (Z.lor 0xA0 (Z.shiftl drive 4));;
  _ ← inb (base + ATA_STATUS);
  _ ← inb (base + ATA_STATUS);
  _ ← inb (base + ATA_STATUS);
  _ ← inb (base + ATA_STATUS);
  mret tt.

Fixpoint poll_loop (timeout : nat) (base : Z) : M D Z :=
  match timeout with
  | O => mret (-2)
  | S timeout' =>
      status ← inb (base + ATA_STATUS);
      if negb (truthy (Z.land status ATA_STATUS_BSY)) then
        if truthy (Z.land status ATA_STATUS_ERR) then mret (-1) else
        if truthy (Z.land status ATA_STATUS_DF) then mret (-1) else
        if truthy (Z.land status ATA_STATUS_DRQ) then mret 0 else
        poll_loop timeout' base
      else poll_loop timeout' base
  end.

Definition ata_poll (base : Z) : M D Z := poll_loop TIMEOUT base.

(** The task file of a 28-bit command. *)
Definition lba28_setup (base drive lba : Z) : M D unit :=
  ata_select_drive base drive;;
  outb (base + ATA_SECTOR_COUNT) 1;;
  outb (base + ATA_LBA_LOW) (Z.land lba 0xFF);;
  outb (base + ATA_LBA_MID) (Z.land (Z.shiftr lba 8) 0xFF);;
  outb (base + ATA_LBA_HIGH) (Z.land (Z.shiftr lba 16) 0xFF);;
  outb (base + ATA_DRIVE)
    (Z.lor (Z.lor 0xE0 (Z.shiftl drive 4)) (Z.land (Z.shiftr lba 24) 0x0F)).

(** The task file of a 48-bit command. *)
Definition lba48_setup (base drive lba : Z) : M D unit :=
  ata_select_drive base drive;;
  outb (base + ATA_SECTOR_COUNT) 0;;
  outb (base + ATA_LBA_LOW) (Z.land (Z.shiftr lba 24) 0xFF);;
  outb (base + ATA_LBA_MID) (Z.land (Z.shiftr lba 32) 0xFF);;
  outb (base + ATA_LBA_HIGH) (Z.land (Z.shiftr lba 40) 0xFF);;
  outb (base + ATA_SECTOR_COUNT) 1;;
  outb (base + ATA_LBA_LOW) (Z.land lba 0xFF);;
  outb (base + ATA_LBA_MID) (Z.land (Z.shiftr lba 8) 0xFF);;
  outb (base + ATA_LBA_HIGH) (Z.land (Z.shiftr lba 16) 0xFF);;
  outb (base + ATA_DRIVE) (Z.lor 0x40 (Z.shiftl drive 4)).

Definition ata_read_sector_lba48 (base drive lba : Z) : M D (Z * list Z) :=
  lba48_setup base drive lba;;
  outb (base + ATA_COMMAND) ATA_CMD_READ_EXT;;
  r ← ata_poll base;
  if negb (r =? 0) then mret (-1, []) else
  ws ← read_words 256 (base + ATA_DATA);
  mret (0, bytes_of_words ws).

(** The writing of the data and the flush, which both write commands end with. *)
Definition write_data (base : Z) (buf : list Z) : M D Z :=
  r ← ata_poll base;
  if negb (r =? 0) then mret (-1) else
  write_words (base + ATA_DATA) (words_of_bytes buf);;
  outb (base + ATA_COMMAND) ATA_CMD_FLUSH;;
  r ← ata_poll base;
  if negb (r =? 0) then mret (-1) else
  mret 0.

Definition ata_write_sector_lba48 (base drive lba : Z) (buf : list Z) : M D Z :=
  lba48_setup base drive lba;;
  outb (base + ATA_COMMAND) ATA_CMD_WRITE_EXT;;
  write_data base buf.

(** The retry loop of [ata_read_sector]. *)
Fixpoint read_retry (retries : nat) (base drive lba : Z) : M D (Z * list Z) :=
  match retries with
  | O => mret (-1, [])
  | S retries' =>
      if 0x10000000 <=? lba then
        '(res, bs) ← ata_read_sector_lba48 base drive lba;
        if res =? 0 then mret (0, bs) else read_retry retries' base drive lba
      else
        lba28_setup base drive lba;;
        outb (base + ATA_COMMAND) ATA_CMD_READ;;
        poll_res ← ata_poll base;
        if negb (poll_res =? 0) then read_retry retries' base drive lba else
        ws ← read_words 256 (base + ATA_DATA);
        mret (0, bytes_of_words ws)
  end.

Definition ata_read_sector (base drive lba : Z) : M D (Z * list Z) := read_retry 3 base drive lba.

Definition ata_write_sector (base drive lba : Z) (buf : list Z) : M D Z :=
  if 0x10000000 <=? lba then ata_write_sector_lba48 base drive lba buf else
  lba28_setup base drive lba;;
  outb (base + ATA_COMMAND) ATA_CMD_WRITE;;
  write_data base buf.

(** [for (int i = 0; i < 4; i++) inb(0x80);] *)
Definition io_delay : M D unit :=
  _ ← inb 0x80; _ ← inb 0x80; _ ← inb 0x80; _ ← inb 0x80; mret tt.

Fixpoint identify_loop (timeout : nat) (base : Z) : M D (Z * list Z) :=
  match timeout with
  | O => mret (-1, [])
  | S timeout' =>
      status ← inb (base + ATA_STATUS);
      if negb (truthy (Z.land status ATA_STATUS_BSY)) then
        if truthy (Z.land status ATA_STATUS_ERR) then mret (-1, []) else
        if truthy (Z.land status ATA_STATUS_DRQ) then
          ws ← read_words 256 (base + ATA_DATA);
          mret (0, bytes_of_words ws)
        else identify_loop timeout' base
      else identify_loop timeout' base
  end.

Definition ata_identify (base drive : Z) : M D (Z * list Z) :=
  ata_select_drive base drive;;
  io_delay;;
  outb (base + ATA_SECTOR_COUNT) 0;;
  outb (base + ATA_LBA_LOW) 0;;
  outb (base + ATA_LBA_MID) 0;;
  outb (base + ATA_LBA_HIGH) 0;;
  outb (base + ATA_COMMAND) ATA_CMD_IDENTIFY;;
  io_delay;;
  status ← inb (base + ATA_STATUS);
  if status =? 0 then mret (-1, []) else
  identify_loop TIMEOUT base.

Definition ata_read_sector_dma (base drive lba : Z) : M D (Z * list Z) := ata_read_sector base drive lba.
Definition ata_write_sector_dma (base drive lba : Z) (buf : list Z) : M D Z :=
  ata_write_sector base drive lba buf.
End ata.

(** ** The drive

    What the driver relies on, from the ATA standard's PIO protocol, as a class: the
    hypotheses about a drive [drv] (0 or 1) behind the ports from [base] on.  Each task
    file register keeps the value before the current one, for the 48-bit commands. *)

Record taskfile := mk_taskfile {
  r_count : Z * Z;
  r_low : Z * Z;
  r_mid : Z * Z;
  r_high : Z * Z;
  r_dev : Z;
}.

Definition tf_set (k v : Z) (t : taskfile) : taskfile :=
  if k =? ATA_SECTOR_COUNT then mk_taskfile (v, (r_count t).1) (r_low t) (r_mid t) (r_high t) (r_dev t) else
  if k =? ATA_LBA_LOW then mk_taskfile (r_count t) (v, (r_low t).1) (r_mid t) (r_high t) (r_dev t) else
  if k =? ATA_LBA_MID then mk_taskfile (r_count t) (r_low t) (v, (r_mid t).1) (r_high t) (r_dev t) else
  if k =? ATA_LBA_HIGH then mk_taskfile (r_count t) (r_low t) (r_mid t) (v, (r_high t).1) (r_dev t) else
  mk_taskfile (r_count t) (r_low t) (r_mid t) (r_high t) v.

Definition tf_lba28 (t : taskfile) : Z :=
  (r_low t).1 + 2 ^ 8 * (r_mid t).1 + 2 ^ 16 * (r_high t).1 + 2 ^ 24 * (r_dev t mod 16).
Definition tf_lba48 (t : taskfile) : Z :=
  (r_low t).1 + 2 ^ 8 * (r_mid t).1 + 2 ^ 16 * (r_high t).1 +
  2 ^ 24 * (r_low t).2 + 2 ^ 32 * (r_mid t).2 + 2 ^ 40 * (r_high t).2.

(** The drive [drv] is selected, in the LBA mode. *)
Definition tf_selects (drv : Z) (t : taskfile) : Prop :=
  Z.testbit (r_dev t) 6 = true ∧ Z.b2z (Z.testbit (r_dev t) 4) = drv.

(** A data transfer first answers [busy] status reads with the busy bit. *)
Inductive phase :=
| Idle
| DataIn (busy : nat) (ws : list Z)
| DataOut (busy : nat) (lba : Z) (ws : list Z).

(** The sectors on the disk. *)
Definition image : Type := Z → list Z.
Definition img_set (lba : Z) (bs : list Z) (img : image) : image :=
  λ l, if l =? lba then bs else img l.

Class AtaDrive (D : Type) `{!PortIO D} (base drv : Z) := {
  drive_st : D → image → taskfile → phase → Prop;
  st_idle_status : ∀ d img t, drive_st d img t Idle →
    ∃ s d', inb (base + ATA_STATUS) d = Done s d' ∧ drive_st d' img t Idle ∧
      Z.land s ATA_STATUS_ERR = 0 ∧ Z.land s ATA_STATUS_DF = 0 ∧ Z.land s ATA_STATUS_DRQ = 0;
  st_register : ∀ d img t k v, drive_st d img t Idle → 2 ≤ k ≤ 6 → 0 ≤ v < 2 ^ 8 →
    ∃ d', outb (base + k) v d = Done tt d' ∧ drive_st d' img (tf_set k v t) Idle;
  st_read : ∀ d img t cmd lba, drive_st d img t Idle → tf_selects drv t → (r_count t).1 = 1 →
    cmd = ATA_CMD_READ ∧ lba = tf_lba28 t ∨ cmd = ATA_CMD_READ_EXT ∧ lba = tf_lba48 t →
    ∃ d' busy, outb (base + ATA_COMMAND) cmd d = Done tt d' ∧ (busy < TIMEOUT)%nat ∧
      drive_st d' img t (DataIn busy (words_of_bytes (img lba)));
  st_write : ∀ d img t cmd lba, drive_st d img t Idle → tf_selects drv t → (r_count t).1 = 1 →
    cmd = ATA_CMD_WRITE ∧ lba = tf_lba28 t ∨ cmd = ATA_CMD_WRITE_EXT ∧ lba = tf_lba48 t →
    ∃ d' busy, outb (base + ATA_COMMAND) cmd d = Done tt d' ∧ (busy < TIMEOUT)%nat ∧
      drive_st d' img t (DataOut busy lba []);
  st_flush : ∀ d img t, drive_st d img t Idle →
    ∃ d', outb (base + ATA_COMMAND) ATA_CMD_FLUSH d = Done tt d' ∧ drive_st d' img t Idle;
  st_busy_in : ∀ d img t n ws, drive_st d img t (DataIn (S n) ws) →
    ∃ s d', inb (base + ATA_STATUS) d = Done s d' ∧ truthy (Z.land s ATA_STATUS_BSY) = true ∧
      drive_st d' img t (DataIn n ws);
  st_busy_out : ∀ d img t n lba ws, drive_st d img t (DataOut (S n) lba ws) →
    ∃ s d', inb (base + ATA_STATUS) d = Done s d' ∧ truthy (Z.land s ATA_STATUS_BSY) = true ∧
      drive_st d' img t (DataOut n lba ws);
  st_ready : ∀ d img t p, drive_st d img t p →
    (∃ ws, p = DataIn 0 ws) ∨ (∃ lba ws, p = DataOut 0 lba ws) →
    ∃ s d', inb (base + ATA_STATUS) d = Done s d' ∧ drive_st d' img t p ∧
      Z.land s ATA_STATUS_BSY = 0 ∧ Z.land s ATA_STATUS_ERR = 0 ∧ Z.land s ATA_STATUS_DF = 0 ∧
      truthy (Z.land s ATA_STATUS_DRQ) = true;
  st_word_in : ∀ d img t w ws, drive_st d img t (DataIn 0 (w :: ws)) →
    ∃ d', inw (base + ATA_DATA) d = Done w d' ∧
      drive_st d' img t (if ws is [] then Idle else DataIn 0 ws);
  st_word_out : ∀ d img t lba ws w, drive_st d img t (DataOut 0 lba ws) → 0 ≤ w < 2 ^ 16 →
    ∃ d', outw (base + ATA_DATA) w d = Done tt d' ∧
      if (length ws =? 255)%nat
      then drive_st d' (img_set lba (bytes_of_words (ws ++ [w])) img) t Idle
      else drive_st d' img t (DataOut 0 lba (ws ++ [w]));
}.

Section ata_facts.
  Context {D : Type} `{!PortIO D} (base drv : Z) `{!AtaDrive D base drv}.
  Context (Hdrv : drv = 0 ∨ drv = 1).

Lemma poll_ready d img t p n timeout :
  (n < timeout)%nat →
  (∃ ws, p = DataIn 0 ws ∧ drive_st d img t (DataIn n ws)) ∨
  (∃ lba ws, p = DataOut 0 lba ws ∧ drive_st d img t (DataOut n lba ws)) →
  ∃ d', poll_loop timeout base d = Done 0 d' ∧ drive_st d' img t p.
Proof.
  revert d timeout; induction n as [|n IH]; intros d [|timeout] Hn Hp; [lia| |lia|]; cbn [poll_loop].
  - destruct (st_ready d img t p) as (s & d' & E & Hst & Hb & He & Hf & Hq).
    + destruct Hp as [(ws & -> & Hp)|(lba & ws & -> & Hp)]; exact Hp.
    + destruct Hp as [(ws & -> & Hp)|(lba & ws & -> & Hp)]; [left|right]; eauto.
    + mrun E. rewrite Hb, He, Hf, Hq. cbn. eauto.
  - assert (∃ s d', inb (base + ATA_STATUS) d = Done s d' ∧ truthy (Z.land s ATA_STATUS_BSY) = true ∧
      ((∃ ws, p = DataIn 0 ws ∧ drive_st d' img t (DataIn n ws)) ∨
       (∃ lba ws, p = DataOut 0 lba ws ∧ drive_st d' img t (DataOut n lba ws))))
      as (s & d' & E & Hb & Hp').
    { destruct Hp as [(ws & -> & Hp)|(lba & ws & -> & Hp)].
      - apply st_busy_in in Hp as (s & d' & E & Hb & Hst). exists s, d'. split_and!; [done|done|eauto].
      - apply st_busy_out in Hp as (s & d' & E & Hb & Hst). exists s, d'. split_and!; [done|done|].
        right. eauto. }
    mrun E. rewrite Hb. cbn. apply IH; [lia|done].
Qed.

(** An idle drive never asks for data, so polling it times out. *)
Lemma poll_idle d img t timeout :
  drive_st d img t Idle → ∃ d', poll_loop timeout base d = Done (-2) d' ∧ drive_st d' img t Idle.
Proof.
  revert d; induction timeout as [|timeout IH]; intros d Hst; cbn [poll_loop]; [by exists d|].
  apply st_idle_status in Hst as (s & d' & E & Hst & He & Hf & Hq).
  mrun E. rewrite He, Hf, Hq. cbn. destruct (negb _); by apply IH.
Qed.

Lemma read_words_run d img t ws :
  drive_st d img t (DataIn 0 ws) → ws ≠ [] →
  ∃ d', read_words (length ws) (base + ATA_DATA) d = Done ws d' ∧ drive_st d' img t Idle.
Proof.
  revert d; induction ws as [|w ws IH]; intros d Hst Hne; [done|]; cbn [length read_words].
  apply st_word_in in Hst as (d' & E & Hst). mrun E. destruct ws as [|w' ws].
  - exists d'. done.
  - destruct (IH d' Hst) as (d2 & E2 & Hst2); [done|]. rewrite E2. eauto.
Qed.

Lemma write_words_run d img t lba ws0 ws :
  drive_st d img t (DataOut 0 lba ws0) → ws ≠ [] → (length ws0 + length ws = 256)%nat →
  Forall (λ w, 0 ≤ w < 2 ^ 16) ws →
  ∃ d', write_words (base + ATA_DATA) ws d = Done tt d' ∧
    drive_st d' (img_set lba (bytes_of_words (ws0 ++ ws)) img) t Idle.
Proof.
  revert d ws0; induction ws as [|w ws IH]; intros d ws0 Hst Hne Hl Hw; [done|].
  apply Forall_cons_1 in Hw as [Hw Hws].
  cbn [write_words]. apply (st_word_out _ _ _ _ _ w) in Hst as (d' & E & Hst); [|done]. mrun E.
  cbn [length] in Hl. destruct ws as [|w' ws].
  - rewrite (proj2 (Nat.eqb_eq _ _)) in Hst by (cbn in Hl; lia). exists d'. done.
  - rewrite (proj2 (Nat.eqb_neq _ _)) in Hst by (cbn in Hl; lia).
    destruct (IH d' (ws0 ++ [w]) Hst) as (d2 & E2 & Hst2); [done| |done|].
    + rewrite length_app. cbn in *. lia.
    + rewrite E2. rewrite <-app_assoc in Hst2. eauto.
Qed.
Lemma select_run d img t :
  drive_st d img t Idle →
  ∃ d' v, ata_select_drive base drv d = Done tt d' ∧ drive_st d' img (tf_set 6 v t) Idle.
Proof.
  intros Hst. unfold ata_select_drive.
  destruct (st_register d img t ATA_DRIVE (Z.lor 0xA0 (Z.shiftl drv 4)) Hst) as (d1 & E1 & H1);
    [unfold ATA_DRIVE; lia|by destruct Hdrv as [->| ->]|]. mrun E1.
  do 4 (match goal with HS : drive_st ?x img _ Idle |- context [inb _ ?x] =>
    apply st_idle_status in HS as (? & ? & E & HS & _); rewrite E; clear E end).
  eauto.
Qed.

Lemma byte_of lba k : Z.land (Z.shiftr lba k) 0xFF = lba / 2 ^ k mod 2 ^ 8 ∨ k < 0.
Proof.
  destruct (Z.lt_ge_cases k 0); [by right|left].
  change 0xFF with (Z.ones 8). by rewrite Z.land_ones, Z.shiftr_div_pow2.
Qed.

(** The value the 28-bit commands put into the device register. *)
Lemma dev28 x : 0 ≤ x < 16 →
  let v := Z.lor (Z.lor 0xE0 (Z.shiftl drv 4)) x in
  0 ≤ v < 2 ^ 8 ∧ v mod 16 = x ∧ Z.testbit v 6 = true ∧ Z.b2z (Z.testbit v 4) = drv.
Proof.
  intros Hx. assert (Hall : Forall (λ x, let v := Z.lor (Z.lor 0xE0 (Z.shiftl drv 4)) x in
    0 ≤ v < 2 ^ 8 ∧ v mod 16 = x ∧ Z.testbit v 6 = true ∧ Z.b2z (Z.testbit v 4) = drv) (seqZ 0 16)).
  { destruct Hdrv as [->| ->]; repeat constructor; done. }
  rewrite Forall_forall in Hall. apply Hall, elem_of_seqZ. lia.
Qed.

Ltac out_reg Hst :=
  match goal with |- context [outb (base + ?k) ?v _] =>
    apply (st_register _ _ _ k v) in Hst as (? & E & Hst);
      [|unfold ATA_SECTOR_COUNT, ATA_LBA_LOW, ATA_LBA_MID, ATA_LBA_HIGH, ATA_DRIVE; lia|];
      [rewrite E; clear E|] end.

Lemma lba28_setup_run d img t lba :
  drive_st d img t Idle → 0 ≤ lba < 2 ^ 28 →
  ∃ d' t', lba28_setup base drv lba d = Done tt d' ∧ drive_st d' img t' Idle ∧
    tf_selects drv t' ∧ (r_count t').1 = 1 ∧ tf_lba28 t' = lba.
Proof.
  intros Hst Hlba. unfold lba28_setup. destruct (select_run d img t Hst) as (d1 & v & E & H1). mrun E. clear E Hst.
  assert (Hb0 : Z.land lba 0xFF = lba mod 2 ^ 8).
  { change 0xFF with (Z.ones 8). by rewrite Z.land_ones. }
  destruct (byte_of lba 8) as [Hb1|?]; [|lia]. destruct (byte_of lba 16) as [Hb2|?]; [|lia].
  assert (Hb3 : Z.land (Z.shiftr lba 24) 0x0F = lba / 2 ^ 24 mod 2 ^ 4).
  { change 0x0F with (Z.ones 4). by rewrite Z.land_ones, Z.shiftr_div_pow2. }
  rewrite Hb0, Hb1, Hb2, Hb3.
  destruct (dev28 (lba / 2 ^ 24 mod 2 ^ 4)) as (Hv & Hm & H6 & H4); [apply Z.mod_pos_bound; lia|].
  do 5 (out_reg H1; [|by first [lia | apply Z.mod_pos_bound; lia]]).
  do 2 eexists. split_and!; [done|exact H1|split; [exact H6|exact H4]|done|].
  unfold tf_lba28. cbn [r_low r_mid r_high r_dev fst tf_set ATA_SECTOR_COUNT ATA_LBA_LOW ATA_LBA_MID ATA_LBA_HIGH ATA_DRIVE Z.eqb Pos.eqb].
  rewrite Hm. change (2 ^ 4) with 16. change (2 ^ 8) with 256. change (2 ^ 16) with 65536. change (2 ^ 24) with 16777216 in *.
  Z.div_mod_to_equations. lia.
Qed.

Lemma lba48_setup_run d img t lba :
  drive_st d img t Idle → 0 ≤ lba < 2 ^ 48 →
  ∃ d' t', lba48_setup base drv lba d = Done tt d' ∧ drive_st d' img t' Idle ∧
    tf_selects drv t' ∧ (r_count t').1 = 1 ∧ tf_lba48 t' = lba.
Proof.
  intros Hst Hlba. unfold lba48_setup. destruct (select_run d img t Hst) as (d1 & v & E & H1). mrun E. clear E Hst.
  assert (Hb0 : Z.land lba 0xFF = lba mod 2 ^ 8).
  { change 0xFF with (Z.ones 8). by rewrite Z.land_ones. }
  rewrite Hb0. destruct (byte_of lba 8) as [->|?]; [|lia]. destruct (byte_of lba 16) as [->|?]; [|lia].
  destruct (byte_of lba 24) as [->|?]; [|lia]. destruct (byte_of lba 32) as [->|?]; [|lia].
  destruct (byte_of lba 40) as [->|?]; [|lia].
  assert (Hv : 0 ≤ Z.lor 0x40 (Z.shiftl drv 4) < 2 ^ 8 ∧
    tf_selects drv (mk_taskfile (0, 0) (0, 0) (0, 0) (0, 0) (Z.lor 0x40 (Z.shiftl drv 4)))).
  { by destruct Hdrv as [->| ->]. }
  destruct Hv as [Hv Hsel].
  do 9 (out_reg H1; [|by first [lia | apply Z.mod_pos_bound; lia]]).
  do 2 eexists. split_and!; [done|exact H1|exact Hsel|done|].
  unfold tf_lba48. cbn [r_low r_mid r_high r_dev fst snd tf_set ATA_SECTOR_COUNT ATA_LBA_LOW ATA_LBA_MID ATA_LBA_HIGH ATA_DRIVE Z.eqb Pos.eqb].
  rewrite (Z.mod_small (lba / 2 ^ 40)) by (split; [apply Z.div_pos; lia|apply Z.div_lt_upper_bound; lia]).
  change (2 ^ 8) with 256. change (2 ^ 16) with 65536. change (2 ^ 24) with 16777216.
  change (2 ^ 32) with 4294967296. change (2 ^ 40) with 1099511627776.
  Z.div_mod_to_equations. lia.
Qed.
(** The words of a sector arrive after the drive's busy time. *)
Lemma data_in_run d img t busy bs :
  drive_st d img t (DataIn busy (words_of_bytes bs)) → (busy < TIMEOUT)%nat →
  Forall is_byte bs → length bs = 512%nat →
  ∃ d1 d2, ata_poll base d = Done 0 d1 ∧
    read_words 256 (base + ATA_DATA) d1 = Done (words_of_bytes bs) d2 ∧
    bytes_of_words (words_of_bytes bs) = bs ∧ drive_st d2 img t Idle.
Proof.
  intros Hst Hb Hby Hl. pose proof (length_words_of_bytes 256 bs Hl) as Hw.
  destruct (poll_ready d img t _ busy TIMEOUT Hb (or_introl (ex_intro _ _ (conj eq_refl Hst)))) as (d1 & E1 & H1).
  destruct (read_words_run d1 img t _ H1) as (d2 & E2 & H2); [by intros Hnil; rewrite Hnil in Hw|].
  rewrite Hw in E2. exists d1, d2. split_and!; [done|done|by apply (bytes_of_words_of_bytes 256)|done].
Qed.

Lemma words_bound bs : Forall is_byte bs → Forall (λ w, 0 ≤ w < 2 ^ 16) (words_of_bytes bs).
Proof.
  intros Hb. induction bs as [bs IH] using (induction_ltof1 _ (@length Z)). unfold ltof in IH.
  destruct bs as [|lo [|hi bs]]; [constructor|constructor|]. cbn [words_of_bytes].
  apply Forall_cons_1 in Hb as [Hlo Hb]. apply Forall_cons_1 in Hb as [Hhi Hb]. unfold is_byte in *.
  constructor; [lia|]. apply IH; [simpl; lia|done].
Qed.

(** The data of a sector and the flush: the drive stores the sector, and the poll after the
    flush, which has no data phase to wait for, times out. *)
Lemma write_data_run d img t busy lba bs :
  drive_st d img t (DataOut busy lba []) → (busy < TIMEOUT)%nat →
  Forall is_byte bs → length bs = 512%nat →
  ∃ d', write_data base bs d = Done (-1) d' ∧ drive_st d' (img_set lba bs img) t Idle.
Proof.
  intros Hst Hb Hby Hl. pose proof (length_words_of_bytes 256 bs Hl) as Hw. unfold write_data, ata_poll.
  destruct (poll_ready d img t (DataOut 0 lba []) busy TIMEOUT Hb) as (d1 & E1 & H1); [right; eauto|].
  mrun E1. cbn [negb Z.eqb].
  destruct (write_words_run d1 img t lba [] (words_of_bytes bs) H1) as (d2 & E2 & H2);
    [by intros Hnil; rewrite Hnil in Hw|done|by apply words_bound|].
  rewrite E2. cbn [app] in H2. rewrite (bytes_of_words_of_bytes 256) in H2 by done.
  apply st_flush in H2 as (d3 & E3 & H3). rewrite E3.
  destruct (poll_idle d3 _ t TIMEOUT H3) as (d4 & E4 & H4). rewrite E4. cbn. eauto.
Qed.

Lemma read_sector_run d img t lba
    (Hst : drive_st d img t Idle) (Hlba : 0 ≤ lba < 2 ^ 48)
    (Hby : Forall is_byte (img lba)) (Hlen : length (img lba) = 512%nat) :
  ∃ d' t', ata_read_sector base drv lba d = Done (0, img lba) d' ∧ drive_st d' img t' Idle.
Proof.
  unfold ata_read_sector, read_retry. fold (@read_retry D _). unfold ata_read_sector_lba48.
  change 0x10000000 with (2 ^ 28). destruct (Z.leb_spec (2 ^ 28) lba).
  - destruct (lba48_setup_run d img t lba Hst Hlba) as (d1 & t1 & E1 & H1 & Hsel & Hc & Hl). mrun E1.
    destruct (st_read d1 img t1 ATA_CMD_READ_EXT lba H1 Hsel Hc) as (d2 & busy & E2 & Hb & H2); [eauto|].
    rewrite E2. destruct (data_in_run d2 img t1 busy _ H2 Hb Hby Hlen) as (d3 & d4 & E3 & E4 & E5 & H4).
    rewrite E3. cbn [negb Z.eqb]. rewrite E4, E5. cbn [Z.eqb]. eauto.
  - destruct (lba28_setup_run d img t lba Hst ltac:(lia)) as (d1 & t1 & E1 & H1 & Hsel & Hc & Hl). mrun E1.
    destruct (st_read d1 img t1 ATA_CMD_READ lba H1 Hsel Hc) as (d2 & busy & E2 & Hb & H2); [eauto|].
    rewrite E2. destruct (data_in_run d2 img t1 busy _ H2 Hb Hby Hlen) as (d3 & d4 & E3 & E4 & E5 & H4).
    rewrite E3. cbn [negb Z.eqb]. rewrite E4, E5. eauto.
Qed.

(** C32: Reading a sector.  With a drive that follows the ATA standard's PIO protocol,
    [ata_read_sector] returns the 512 bytes of the sector, by a 28-bit command below block
    2^28 and by a 48-bit one from there on, and leaves the disk as it was. *)
Theorem ata_read_sector_correct d img t lba
    (Hst : drive_st d img t Idle) (Hlba : 0 ≤ lba < 2 ^ 48)
    (Hby : Forall is_byte (img lba)) (Hlen : length (img lba) = 512%nat) :
  ∃ d' t', ata_read_sector base drv lba d = Done (0, img lba) d' ∧ drive_st d' img t' Idle.
Proof. by apply (read_sector_run d img t lba). Qed.

(** Writing a sector stores it and reports a failure.  With such a drive the sector on
    the disk becomes the buffer, no other changes, and [ata_write_sector] returns -1: the
    cache flush has no data phase, so the poll after it waits for a data request until it
    times out. *)
Theorem ata_write_sector_reports_failure d img t lba bs
    (Hst : drive_st d img t Idle) (Hlba : 0 ≤ lba < 2 ^ 48)
    (Hby : Forall is_byte bs) (Hlen : length bs = 512%nat) :
  ∃ d' t', ata_write_sector base drv lba bs d = Done (-1) d' ∧
    drive_st d' (img_set lba bs img) t' Idle.
Proof.
  unfold ata_write_sector, ata_write_sector_lba48.
  change 0x10000000 with (2 ^ 28). destruct (Z.leb_spec (2 ^ 28) lba).
  - destruct (lba48_setup_run d img t lba Hst Hlba) as (d1 & t1 & E1 & H1 & Hsel & Hc & Hl). mrun E1.
    destruct (st_write d1 img t1 ATA_CMD_WRITE_EXT lba H1 Hsel Hc) as (d2 & busy & E2 & Hb & H2); [eauto|].
    rewrite E2. destruct (write_data_run d2 img t1 busy lba bs H2 Hb Hby Hlen) as (d3 & E3 & H3). eauto.
  - destruct (lba28_setup_run d img t lba Hst ltac:(lia)) as (d1 & t1 & E1 & H1 & Hsel & Hc & Hl). mrun E1.
    destruct (st_write d1 img t1 ATA_CMD_WRITE lba H1 Hsel Hc) as (d2 & busy & E2 & Hb & H2); [eauto|].
    rewrite E2. destruct (write_data_run d2 img t1 busy lba bs H2 Hb Hby Hlen) as (d3 & E3 & H3). eauto.
Qed.
End ata_facts.

(** ** Witnesses: a drive at the primary ports that is busy for one status read *)

Record drive := mk_drive { dr_img : image; dr_tf : taskfile; dr_phase : phase }.

Definition drive_status (d : drive) : Z * drive :=
  match dr_phase d with
  | Idle => (0x50, d)
  | DataIn (S n) ws => (0xD0, mk_drive (dr_img d) (dr_tf d) (DataIn n ws))
  | DataOut (S n) lba ws => (0xD0, mk_drive (dr_img d) (dr_tf d) (DataOut n lba ws))
  | _ => (0x58, d)
  end.

Definition drive_command (cmd : Z) (d : drive) : drive :=
  mk_drive (dr_img d) (dr_tf d)
    (if cmd =? ATA_CMD_READ then DataIn 1 (words_of_bytes (dr_img d (tf_lba28 (dr_tf d)))) else
     if cmd =? ATA_CMD_READ_EXT then DataIn 1 (words_of_bytes (dr_img d (tf_lba48 (dr_tf d)))) else
     if cmd =? ATA_CMD_WRITE then DataOut 1 (tf_lba28 (dr_tf d)) [] else
     if cmd =? ATA_CMD_WRITE_EXT then DataOut 1 (tf_lba48 (dr_tf d)) [] else dr_phase d).

#[export] Instance drive_ports : PortIO drive := {|
  read_port_byte p d :=
    if p =? 0x1F7 then let '(s, d') := drive_status d in Done s d' else Done 0xFF d;
  read_port_word p d :=
    match dr_phase d with
    | DataIn O (w :: ws) => Done w (mk_drive (dr_img d) (dr_tf d) (if ws is [] then Idle else DataIn 0 ws))
    | _ => Done 0xFFFF d
    end;
  read_port_dword p d := Done 0xFFFFFFFF d;
  write_port_byte p v d :=
    if p =? 0x1F7 then Done tt (drive_command v d)
    else Done tt (mk_drive (dr_img d) (tf_set (p - 0x1F0) v (dr_tf d)) (dr_phase d));
  write_port_word p v d :=
    match dr_phase d with
    | DataOut O lba ws =>
        if (length ws =? 255)%nat
        then Done tt (mk_drive (img_set lba (bytes_of_words (ws ++ [v])) (dr_img d)) (dr_tf d) Idle)
        else Done tt (mk_drive (dr_img d) (dr_tf d) (DataOut 0 lba (ws ++ [v])))
    | _ => Done tt d
    end;
  write_port_dword p v d := Done tt d;
|}.

Lemma one_lt_timeout : (1 < TIMEOUT)%nat.
Proof. apply Nat2Z.inj_lt. unfold TIMEOUT. rewrite Z2Nat.id; lia. Qed.

#[export] Program Instance drive_ata : AtaDrive drive 0x1F0 0 := {|
  drive_st d img t p := d = mk_drive img t p;
|}.
Next Obligation. intros d img t ->. do 2 eexists. split; [reflexivity|done]. Qed.
Next Obligation.
  intros d img t k v -> Hk Hv. eexists. split; [|reflexivity]. unfold outb, u16, u8.
  rewrite (Z.mod_small v), (Z.mod_small (0x1F0 + k)) by lia. cbn -[Z.add].
  rewrite (proj2 (Z.eqb_neq _ _)) by lia. by replace (0x1F0 + k - 0x1F0) with k by lia.
Qed.
Next Obligation.
  intros d img t cmd lba -> Hs Hc [[-> ->]|[-> ->]]; do 2 eexists;
    (split_and!; [reflexivity|apply one_lt_timeout|reflexivity]).
Qed.
Next Obligation.
  intros d img t cmd lba -> Hs Hc [[-> ->]|[-> ->]]; do 2 eexists;
    (split_and!; [reflexivity|apply one_lt_timeout|reflexivity]).
Qed.
Next Obligation. intros d img t ->. eexists. split; reflexivity. Qed.
Next Obligation. intros d img t n ws ->. do 2 eexists. split_and!; reflexivity. Qed.
Next Obligation. intros d img t n lba ws ->. do 2 eexists. split_and!; reflexivity. Qed.
Next Obligation.
  intros d img t p -> [(ws & ->)|(lba & ws & ->)]; do 2 eexists; split_and!; reflexivity.
Qed.
Next Obligation. intros d img t w ws ->. eexists. split; [reflexivity|by destruct ws]. Qed.
Next Obligation.
  intros d img t lba ws w -> Hw. unfold outw, u16. rewrite (Z.mod_small w) by lia. cbn -[Nat.eqb].
  destruct (length ws =? 255)%nat; eexists; split; reflexivity.
Qed.

Definition demo_drive : drive :=
  mk_drive (λ lba, replicate 512 (lba mod 2 ^ 8)) (mk_taskfile (0, 0) (0, 0) (0, 0) (0, 0) 0) Idle.

Lemma demo_sector lba : Forall is_byte (dr_img demo_drive lba) ∧ length (dr_img demo_drive lba) = 512%nat.
Proof. split; [apply Forall_replicate, Z.mod_pos_bound; lia|apply length_replicate]. Qed.

Lemma ata_read_sector_correct_witness : ∃ d' t',
  ata_read_sector 0x1F0 0 70000 demo_drive = Done (0, dr_img demo_drive 70000) d' ∧
  drive_st d' (dr_img demo_drive) t' Idle.
Proof.
  apply (ata_read_sector_correct 0x1F0 0 (or_introl eq_refl) demo_drive (dr_img demo_drive) (dr_tf demo_drive) 70000).
  - reflexivity.
  - lia.
  - apply demo_sector.
  - apply demo_sector.
Defined.

Lemma ata_write_sector_reports_failure_witness : ∃ d' t',
  ata_write_sector 0x1F0 0 70000 (replicate 512 5) demo_drive = Done (-1) d' ∧
  drive_st d' (img_set 70000 (replicate 512 5) (dr_img demo_drive)) t' Idle.
Proof.
  apply (ata_write_sector_reports_failure 0x1F0 0 (or_introl eq_refl) demo_drive (dr_img demo_drive)
           (dr_tf demo_drive) 70000 (replicate 512 5)).
  - reflexivity.
  - lia.
  - apply Forall_replicate. unfold is_byte. lia.
  - apply length_replicate.
Defined.
