(* ===== verification/Partitions.v ===== *)
(** * Disk partitions, [core/drivers/partitions/partitions.c]

    The partition table of a drive, read from its first sector (MBR) or from the entries
    a GPT header there points to.  A field that would be read outside the 512 bytes of
    the sector faults. *)

From Stdlib Require Import ZArith Lia.
From stdpp Require Import base gmap list numbers fin_maps.
From S2P Require Import Prelude Ports Ata.
Open Scope Z_scope.
Set Default Goal Selector "!".

Definition MAX_PARTITIONS : Z := 16.
Definition MBR_SIGNATURE : Z := 0xAA55.
Definition GPT_SIGNATURE : Z := 0x5452415020494645.

Record partition_t := mk_partition {
  ata_base : Z;
  ata_drive : Z;
  start_lba : Z;
  p_size : Z;
  p_type : Z;
}.

(** [partitions] and [partition_count], and the hardware. *)
Record part_state (D : Type) := mk_part_state {
  partitions : list partition_t;
  partition_count : Z;
  hw : D;
}.
Arguments mk_part_state {D}.
Arguments partitions {D}.
Arguments partition_count {D}.
Arguments hw {D}.

(** The fields of [mbr_partition_entry_t], [gpt_header_t] and [gpt_partition_entry_t]. *)
Definition mbr_type (i : nat) (sector : list Z) : option Z := field 1 (446 + 16 * i + 4) sector.
Definition mbr_lba_start (i : nat) (sector : list Z) : option Z := field 4 (446 + 16 * i + 8) sector.
Definition mbr_sector_count (i : nat) (sector : list Z) : option Z := field 4 (446 + 16 * i + 12) sector.
Definition mbr_signature (sector : list Z) : option Z := field 2 510 sector.
Definition gpt_signature (sector : list Z) : option Z := field 8 0 sector.
Definition gpt_partition_array_lba (sector : list Z) : option Z := field 8 72 sector.
Definition gpt_partition_count (sector : list Z) : option Z := field 4 80 sector.
Definition gpt_partition_entry_size (sector : list Z) : option Z := field 4 84 sector.
Definition gpt_type_guid (off : nat) (sector : list Z) : option Z := field 16 off sector.
Definition gpt_first_lba (off : nat) (sector : list Z) : option Z := field 8 (off + 32) sector.
Definition gpt_last_lba (off : nat) (sector : list Z) : option Z := field 8 (off + 40) sector.

Section partitions.
  Context {D : Type} `{!PortIO D}.
Abbreviation S := (part_state D).

Definition on_hw {A} (m : M D A) : M S A :=
  zoom hw (λ d s, mk_part_state (partitions s) (partition_count s) d) m.

(** [partitions[partition_count] = p; partition_count++] *)
Definition add_partition (p : partition_t) : M S unit := λ s,
  if (0 <=? partition_count s) && (partition_count s <? Z.of_nat (length (partitions s)))
  then Done tt (mk_part_state (<[Z.to_nat (partition_count s) := p]> (partitions s))
                  (partition_count s + 1) (hw s))
  else Stuck Fault.

Fixpoint mbr_entries (n i : nat) (base drive : Z) (sector : list Z) : M S unit :=
  match n with
  | O => mret tt
  | Datatypes.S n' =>
      type ← of_option (mbr_type i sector);
      s ← get;
      (if negb (type =? 0) && (partition_count s <? MAX_PARTITIONS) then
         lba ← of_option (mbr_lba_start i sector);
         count ← of_option (mbr_sector_count i sector);
         add_partition (mk_partition base drive lba count type)
       else mret tt);;
      mbr_entries n' (i + 1) base drive sector
  end.

(** The entries of a GPT from [i] on; a read error ends the loop. *)
Fixpoint gpt_entries (n : nat) (i base drive array_lba entry_size per_sector : Z) : M S unit :=
  match n with
  | O => mret tt
  | Datatypes.S n' =>
      s ← get;
      if MAX_PARTITIONS <=? partition_count s then mret tt else
      if per_sector =? 0 then fault else
      let sector_num := u64 (array_lba + i / per_sector) in
      let offset := u32 (i mod per_sector * entry_size) in
      '(r, sector) ← on_hw (ata_read_sector base drive sector_num);
      if negb (r =? 0) then mret tt else
      guid ← of_option (gpt_type_guid (Z.to_nat offset) sector);
      (if negb (guid =? 0) then
         first ← of_option (gpt_first_lba (Z.to_nat offset) sector);
         last ← of_option (gpt_last_lba (Z.to_nat offset) sector);
         add_partition (mk_partition base drive first (u64 (last - first + 1)) 0)
       else mret tt);;
      gpt_entries n' (i + 1) base drive array_lba entry_size per_sector
  end.

Definition partitions_init (base drive : Z) : M S unit :=
  modify (λ s, mk_part_state (partitions s) 0 (hw s));;
  '(r, sector) ← on_hw (ata_read_sector base drive 0);
  if negb (r =? 0) then mret tt else
  sig ← of_option (mbr_signature sector);
  if sig =? MBR_SIGNATURE then mbr_entries 4 0 base drive sector else
  gsig ← of_option (gpt_signature sector);
  if gsig =? GPT_SIGNATURE then
    array_lba ← of_option (gpt_partition_array_lba sector);
    count ← of_option (gpt_partition_count sector);
    entry_size ← of_option (gpt_partition_entry_size sector);
    if entry_size =? 0 then fault else
    gpt_entries (Z.to_nat count) 0 base drive array_lba entry_size (512 / entry_size)
  else mret tt.

Definition partitions_get_count : M S Z := gets partition_count.

Definition partitions_get (index : Z) : M S (option partition_t) :=
  gets (λ s, if (0 <=? index) && (index <? partition_count s)
             then partitions s !! Z.to_nat index else None).

Definition partitions_read_sector (index lba : Z) : M S (Z * list Z) :=
  p ← partitions_get index;
  match p with
  | None => mret (-1, [])
  | Some p =>
      if p_size p <=? lba then mret (-1, []) else
      on_hw (ata_read_sector (ata_base p) (ata_drive p) (u64 (start_lba p + lba)))
  end.

Definition partitions_write_sector (index lba : Z) (buf : list Z) : M S Z :=
  p ← partitions_get index;
  match p with
  | None => mret (-1)
  | Some p =>
      if p_size p <=? lba then mret (-1) else
      on_hw (ata_write_sector (ata_base p) (ata_drive p) (u64 (start_lba p + lba)) buf)
  end.

(** ** The MBR *)

(** The entries of the table that are in use, as partitions of the drive. *)
Fixpoint mbr_list (n i : nat) (base drive : Z) (sector : list Z) : list partition_t :=
  match n with
  | O => []
  | Datatypes.S n' =>
      match mbr_type i sector, mbr_lba_start i sector, mbr_sector_count i sector with
      | Some type, Some lba, Some count =>
          if type =? 0 then mbr_list n' (i + 1) base drive sector
          else mk_partition base drive lba count type :: mbr_list n' (i + 1) base drive sector
      | _, _, _ => []
      end
  end.

Lemma mbr_entries_run n i base drive sector (s : S) ps :
  (i + n ≤ 4)%nat → length sector = 512%nat → length (partitions s) = 16%nat →
  partition_count s = Z.of_nat (length ps) → take (length ps) (partitions s) = ps →
  (length ps ≤ i)%nat →
  ∃ s', mbr_entries n i base drive sector s = Done tt s' ∧ hw s' = hw s ∧
    length (partitions s') = 16%nat ∧
    let ps' := ps ++ mbr_list n i base drive sector in
    partition_count s' = Z.of_nat (length ps') ∧ take (length ps') (partitions s') = ps'.
Proof.
  revert i s ps; induction n as [|n IH]; intros i s ps Hi Hl H16 Hc Ht Hps; cbn [mbr_entries mbr_list].
  { exists s. rewrite app_nil_r. done. }
  destruct (field_inside 1 (446 + 16 * i + 4) sector ltac:(lia)) as [type Ety].
  destruct (field_inside 4 (446 + 16 * i + 8) sector ltac:(lia)) as [lba Elb].
  destruct (field_inside 4 (446 + 16 * i + 12) sector ltac:(lia)) as [count Eco].
  unfold mbr_type, mbr_lba_start, mbr_sector_count. rewrite Ety, Elb, Eco.
  cbn [of_option]. unfold get. mred.
  rewrite (proj2 (Z.ltb_lt (partition_count s) MAX_PARTITIONS)) by (unfold MAX_PARTITIONS; lia).
  rewrite andb_true_r. destruct (type =? 0) eqn:E0; cbn [negb].
  { apply IH; [lia|done|done|done|done|lia]. }
  unfold add_partition.
  rewrite (proj2 (Z.leb_le 0 _)), (proj2 (Z.ltb_lt (partition_count s) _)) by lia. cbn [andb].
  rewrite Hc, Nat2Z.id. set (p := mk_partition _ _ _ _ _).
  replace (ps ++ p :: mbr_list n (i + 1) base drive sector)
    with ((ps ++ [p]) ++ mbr_list n (i + 1) base drive sector) by by rewrite <-app_assoc.
  apply (IH (i + 1)%nat (mk_part_state _ _ _) (ps ++ [p])); cbn [partitions partition_count].
  - lia.
  - done.
  - by rewrite length_insert.
  - rewrite length_app. simpl. lia.
  - rewrite length_app, Nat.add_1_r. erewrite take_S_r by (apply list_lookup_insert_eq; lia).
    by rewrite take_insert_ge, Ht.
  - rewrite length_app. simpl. lia.
Qed.
End partitions.

Section partition_facts.
  Context {D : Type} `{!PortIO D} (base drv : Z) `{!AtaDrive D base drv}.
  Context (Hdrv : drv = 0 ∨ drv = 1).

(** Reading a partition table.  When the first sector of the drive carries the MBR
    signature, [partitions_init] makes the table consist of exactly the entries of that
    sector with a non-zero type, in order; what was known of other drives is forgotten. *)
Theorem partitions_init_mbr s img t
    (Hst : drive_st (hw s) img t Idle) (Hby : Forall is_byte (img 0))
    (Hlen : length (img 0) = 512%nat) (H16 : length (partitions s) = 16%nat)
    (Hsig : mbr_signature (img 0) = Some MBR_SIGNATURE) :
  ∃ s' t', partitions_init base drv s = Done tt s' ∧ drive_st (hw s') img t' Idle ∧
    let ps := mbr_list 4 0 base drv (img 0) in
    partition_count s' = Z.of_nat (length ps) ∧ take (length ps) (partitions s') = ps.
Proof.
  destruct (read_sector_run base drv Hdrv (hw s) img t 0 Hst ltac:(lia) Hby Hlen) as (d' & t' & E & Hst').
  unfold partitions_init, modify, on_hw, zoom. mred. cbn [hw partitions partition_count]. rewrite E.
  cbn [negb Z.eqb]. rewrite Hsig. cbn [of_option]. mred.
  destruct (mbr_entries_run 4 0 base drv (img 0) (mk_part_state (partitions s) 0 d') [])
    as (s' & E' & Hhw & _ & Hc & Ht); [done..|]. cbn [app] in Hc, Ht.
  exists s', t'. split_and!; [exact E'|by rewrite Hhw|done|done].
Qed.

Lemma partition_sector_run s img t index lba
    (Hst : drive_st (hw s) img t Idle) (Hby : ∀ l, Forall is_byte (img l))
    (Hlen : ∀ l, length (img l) = 512%nat) (Hcount : partition_count s ≤ Z.of_nat (length (partitions s)))
    (Hown : ∀ i p, partitions s !! i = Some p → ata_base p = base ∧ ata_drive p = drv ∧
       0 ≤ start_lba p ∧ start_lba p + p_size p ≤ 2 ^ 48) (Hlba : 0 ≤ lba) :
  (∃ p, 0 ≤ index < partition_count s ∧ partitions s !! Z.to_nat index = Some p ∧ lba < p_size p ∧
     ∃ s' t', partitions_read_sector index lba s = Done (0, img (start_lba p + lba)) s' ∧
       drive_st (hw s') img t' Idle ∧ partitions s' = partitions s) ∨
  partitions_read_sector index lba s = Done (-1, []) s.
Proof.
  unfold partitions_read_sector, partitions_get, gets. mred.
  destruct (Z.leb_spec 0 index), (Z.ltb_spec index (partition_count s)); cbn [andb]; try by right.
  destruct (partitions s !! Z.to_nat index) as [p|] eqn:Ep; [|by right].
  destruct (Z.leb_spec (p_size p) lba); [by right|left]. exists p. split_and!; [lia|lia|done|lia|].
  destruct (Hown _ _ Ep) as (Eb & Ed & Hs & Hb).
  destruct (read_sector_run base drv Hdrv (hw s) img t (start_lba p + lba) Hst ltac:(lia) (Hby _) (Hlen _))
    as (d' & t' & E & Hst').
  unfold on_hw, zoom. rewrite Eb, Ed. unfold u64. rewrite Z.mod_small by lia. rewrite E.
  do 2 eexists. split_and!; [done|exact Hst'|done].
Qed.

(** Sectors of a partition.  [partitions_read_sector] refuses an index without a
    partition and a sector outside it, without touching the hardware; otherwise it returns
    the bytes of the drive's sector at that distance from the start of the partition. *)
Theorem partitions_read_sector_correct s img t index lba
    (Hst : drive_st (hw s) img t Idle) (Hby : ∀ l, Forall is_byte (img l))
    (Hlen : ∀ l, length (img l) = 512%nat) (Hcount : partition_count s ≤ Z.of_nat (length (partitions s)))
    (Hown : ∀ i p, partitions s !! i = Some p → ata_base p = base ∧ ata_drive p = drv ∧
       0 ≤ start_lba p ∧ start_lba p + p_size p ≤ 2 ^ 48) (Hlba : 0 ≤ lba) :
  (∃ p, 0 ≤ index < partition_count s ∧ partitions s !! Z.to_nat index = Some p ∧ lba < p_size p ∧
     ∃ s' t', partitions_read_sector index lba s = Done (0, img (start_lba p + lba)) s' ∧
       drive_st (hw s') img t' Idle ∧ partitions s' = partitions s) ∨
  partitions_read_sector index lba s = Done (-1, []) s.
Proof. by apply (partition_sector_run s img t index lba). Qed.
End partition_facts.

(** ** Witnesses *)

(** Two entries in use, of 100 sectors from block 63 and of 50 from block 163. *)
Definition demo_mbr : list Z :=
  replicate 446 0 ++
  [0; 0; 0; 0; 0x83; 0; 0; 0; 63; 0; 0; 0; 100; 0; 0; 0] ++ replicate 16 0 ++
  [0; 0; 0; 0; 0x82; 0; 0; 0; 163; 0; 0; 0; 50; 0; 0; 0] ++ replicate 16 0 ++ [0x55; 0xAA].
Definition demo_image : image := λ lba, if lba =? 0 then demo_mbr else replicate 512 (lba mod 2 ^ 8).
Definition demo_parts : part_state drive :=
  mk_part_state (replicate 16 (mk_partition 0x1F0 0 7 9 1)) 3
    (mk_drive demo_image (mk_taskfile (0, 0) (0, 0) (0, 0) (0, 0) 0) Idle).

Lemma demo_image_sector lba : Forall is_byte (demo_image lba) ∧ length (demo_image lba) = 512%nat.
Proof.
  unfold demo_image. destruct (lba =? 0); [split; [eval_decide|reflexivity]|].
  split; [apply Forall_replicate, Z.mod_pos_bound; lia|apply length_replicate].
Qed.

Lemma partitions_init_mbr_witness : ∃ s' t',
  partitions_init 0x1F0 0 demo_parts = Done tt s' ∧ drive_st (hw s') demo_image t' Idle ∧
  partition_count s' = 2 ∧
  take 2 (partitions s') = [mk_partition 0x1F0 0 63 100 0x83; mk_partition 0x1F0 0 163 50 0x82].
Proof.
  apply (partitions_init_mbr 0x1F0 0 (or_introl eq_refl) demo_parts demo_image (dr_tf (hw demo_parts))).
  - reflexivity.
  - apply demo_image_sector.
  - apply demo_image_sector.
  - reflexivity.
  - reflexivity.
Defined.

Lemma partitions_read_sector_correct_witness :
  (∃ p, 0 ≤ 2 < 3 ∧ partitions demo_parts !! 2%nat = Some p ∧ 5 < p_size p ∧
     ∃ s' t', partitions_read_sector 2 5 demo_parts = Done (0, demo_image (start_lba p + 5)) s' ∧
       drive_st (hw s') demo_image t' Idle ∧ partitions s' = partitions demo_parts) ∨
  partitions_read_sector 2 5 demo_parts = Done (-1, []) demo_parts.
Proof.
  apply (partitions_read_sector_correct 0x1F0 0 (or_introl eq_refl) demo_parts demo_image
           (dr_tf (hw demo_parts)) 2 5).
  - reflexivity.
  - intros l. apply demo_image_sector.
  - intros l. apply demo_image_sector.
  - cbn. lia.
  - intros i p Hp. apply lookup_replicate in Hp as [-> _]. cbn. lia.
  - lia.
Defined.
