(* ===== verification/Pci.v ===== *)
(** * The PCI bus, [core/drivers/pci], and the start of the ATA driver, [ata_init]

    [crazy_device_list] is modelled by its first [crazy_count] entries. *)

From Stdlib Require Import ZArith Lia String.
From stdpp Require Import base gmap list numbers fin_maps.
From S2P Require Import Prelude Ports Ata Partitions.
Open Scope Z_scope.
Set Default Goal Selector "!".

Definition BUS_CFG_ADDR_PORT : Z := 0xCF8.
Definition BUS_CFG_DATA_PORT : Z := 0xCFC.
Definition BUS_REG_VENDOR_ID : Z := 0x00.
Definition BUS_REG_STATUS : Z := 0x06.
Definition BUS_REG_CLASS_REV : Z := 0x08.
Definition BUS_REG_HEADER_TYPE : Z := 0x0E.
Definition BUS_REG_BAR0 : Z := 0x10.
Definition BUS_REG_CAP_PTR : Z := 0x34.
Definition BUS_REG_SEC_BUS : Z := 0x19.
Definition DEVICE_CAP : Z := 256.
Definition KEY_PCIE : Z := 0x10.

Record pci_device_t := mk_pci_device {
  manufacturer_id : Z;
  product_id : Z;
  bus_number : Z;
  slot_number : Z;
  function_number : Z;
  device_class : Z;
  device_subclass : Z;
  prog_interface : Z;
  revision_id : Z;
  header_format : Z;
  is_multifunction : Z;
  base_addresses : list Z;
}.

Inductive pcie_link_speed_t :=
| PCIE_LINK_SPEED_UNKNOWN | PCIE_LINK_SPEED_GEN1 | PCIE_LINK_SPEED_GEN2
| PCIE_LINK_SPEED_GEN3 | PCIE_LINK_SPEED_GEN4 | PCIE_LINK_SPEED_GEN5.

(** The table of devices and the hardware. *)
Record pci_state (D : Type) := mk_pci_state { devices : list pci_device_t; pci_hw : D }.
Arguments mk_pci_state {D}.
Arguments devices {D}.
Arguments pci_hw {D}.

(** ** [configuration.c] *)
Section config.
  Context {D : Type} `{!PortIO D}.

Definition config_addr (bus_num dev_num func_num reg_offset : Z) : Z :=
  u32 (Z.lor (Z.lor (Z.lor (Z.lor (Z.shiftl bus_num 16) (Z.shiftl dev_num 11))
         (Z.shiftl func_num 8)) (Z.land reg_offset 0xFC)) 0x80000000).

Definition bus_config_read_dword (bus_num dev_num func_num reg_offset : Z) : M D Z :=
  outl BUS_CFG_ADDR_PORT (config_addr bus_num dev_num func_num reg_offset);;
  inl_ BUS_CFG_DATA_PORT.

Definition bus_config_write_dword (bus_num dev_num func_num reg_offset data : Z) : M D unit :=
  outl BUS_CFG_ADDR_PORT (config_addr bus_num dev_num func_num reg_offset);;
  outl BUS_CFG_DATA_PORT data.

Definition bus_config_read_word (bus_num dev_num func_num reg_offset : Z) : M D Z :=
  full_value ← bus_config_read_dword bus_num dev_num func_num (Z.land reg_offset 0xFC);
  mret (Z.land (Z.shiftr full_value (Z.land reg_offset 2 * 8)) 0xFFFF).

Definition bus_config_read_byte (bus_num dev_num func_num reg_offset : Z) : M D Z :=
  full_value ← bus_config_read_dword bus_num dev_num func_num (Z.land reg_offset 0xFC);
  mret (Z.land (Z.shiftr full_value (Z.land reg_offset 3 * 8)) 0xFF).

Definition bus_config_write_word (bus_num dev_num func_num reg_offset data : Z) : M D unit :=
  current_value ← bus_config_read_dword bus_num dev_num func_num (Z.land reg_offset 0xFC);
  let shift_amount := Z.land reg_offset 2 * 8 in
  let mask := u32 (Z.shiftl 0xFFFF shift_amount) in
  let updated_value := Z.lor (Z.land current_value (unot 32 mask)) (u32 (Z.shiftl data shift_amount)) in
  bus_config_write_dword bus_num dev_num func_num (Z.land reg_offset 0xFC) updated_value.

Definition bus_config_write_byte (bus_num dev_num func_num reg_offset data : Z) : M D unit :=
  current_value ← bus_config_read_dword bus_num dev_num func_num (Z.land reg_offset 0xFC);
  let shift_amount := Z.land reg_offset 3 * 8 in
  let mask := u32 (Z.shiftl 0xFF shift_amount) in
  let updated_value := Z.lor (Z.land current_value (unot 32 mask)) (u32 (Z.shiftl data shift_amount)) in
  bus_config_write_dword bus_num dev_num func_num (Z.land reg_offset 0xFC) updated_value.

(** ** [express_pci.c] *)

Definition bus_pcie_speed_description (thing : pcie_link_speed_t) : string :=
  match thing with
  | PCIE_LINK_SPEED_GEN1 => "2.5 gt/s gen1"
  | PCIE_LINK_SPEED_GEN2 => "5.0 gt/s gen2"
  | PCIE_LINK_SPEED_GEN3 => "8.0 gt/s gen3"
  | PCIE_LINK_SPEED_GEN4 => "16.0 gt/s gen4"
  | PCIE_LINK_SPEED_GEN5 => "32.0 gt/s gen5"
  | PCIE_LINK_SPEED_UNKNOWN => "unknown speed"
  end.

(** The walk of the capability list that the three functions share: the offset of the PCI
    Express capability.  The list is the device's, so the loop has no bound of its own. *)
Fixpoint find_pcie (fuel : nat) (path spot role walker : Z) : M D (option Z) :=
  match fuel with
  | O => stuck_with NoFuel
  | Datatypes.S fuel' =>
      if walker =? 0 then mret None else
      current ← bus_config_read_byte path spot role walker;
      if current =? KEY_PCIE then mret (Some walker) else
      next ← bus_config_read_byte path spot role (u8 (walker + 1));
      find_pcie fuel' path spot role next
  end.

Definition pcie_capability (fuel : nat) (path spot role : Z) : M D (option Z) :=
  state ← bus_config_read_word path spot role BUS_REG_STATUS;
  if negb (truthy (Z.land state 0x10)) then mret None else
  walker ← bus_config_read_byte path spot role BUS_REG_CAP_PTR;
  find_pcie fuel path spot role walker.

Definition bus_pcie_get_width (fuel : nat) (path spot role : Z) : M D Z :=
  c ← pcie_capability fuel path spot role;
  match c with
  | None => mret 0
  | Some walker =>
      info ← bus_config_read_word path spot role (u8 (walker + 0x12));
      mret (Z.land (Z.shiftr info 4) 0x3F)
  end.

Definition bus_pcie_check_device (fuel : nat) (path spot role : Z) : M D Z :=
  c ← pcie_capability fuel path spot role;
  mret (if c is Some _ then 1 else 0).

Definition bus_pcie_get_speed (fuel : nat) (path spot role : Z) : M D pcie_link_speed_t :=
  c ← pcie_capability fuel path spot role;
  match c with
  | None => mret PCIE_LINK_SPEED_UNKNOWN
  | Some walker =>
      info ← bus_config_read_word path spot role (u8 (walker + 0x12));
      let value := Z.land info 0x0F in
      mret (if value =? 1 then PCIE_LINK_SPEED_GEN1 else if value =? 2 then PCIE_LINK_SPEED_GEN2
            else if value =? 3 then PCIE_LINK_SPEED_GEN3 else if value =? 4 then PCIE_LINK_SPEED_GEN4
            else if value =? 5 then PCIE_LINK_SPEED_GEN5 else PCIE_LINK_SPEED_UNKNOWN)
  end.
End config.

(** ** [devices.c] *)
Section devices.
  Context {D : Type} `{!PortIO D}.
Abbreviation S := (pci_state D).

Definition on_pci_hw {A} (m : M D A) : M S A := zoom pci_hw (λ d s, mk_pci_state (devices s) d) m.

(** [base_addresses[0..5]] *)
Fixpoint read_bars (n : nat) (bar_loop bus slot func : Z) : M D (list Z) :=
  match n with
  | O => mret []
  | Datatypes.S n' =>
      b ← bus_config_read_dword bus slot func (BUS_REG_BAR0 + bar_loop * 4);
      bs ← read_bars n' (bar_loop + 1) bus slot func;
      mret (b :: bs)
  end.

(** The entry of a function that answers with the identification [id_twist]. *)
Definition read_device (bus slot func id_twist : Z) : M D pci_device_t :=
  class_horror ← bus_config_read_dword bus slot func BUS_REG_CLASS_REV;
  header_nightmare ← bus_config_read_dword bus slot func BUS_REG_HEADER_TYPE;
  bars ← read_bars 6 0 bus slot func;
  mret (mk_pci_device (Z.land id_twist 0xFFFF) (Z.land (Z.shiftr id_twist 16) 0xFFFF) bus slot func
          (Z.land (Z.shiftr class_horror 24) 0xFF) (Z.land (Z.shiftr class_horror 16) 0xFF)
          (Z.land (Z.shiftr class_horror 8) 0xFF) (Z.land class_horror 0xFF)
          (Z.land (Z.shiftr header_nightmare 16) 0x7F) (Z.land (Z.shiftr header_nightmare 16) 0x80) bars).

(** The end of the outer loop's body, and its condition. *)
Definition next_slot (slot : Z) : Z * Z + unit :=
  let slot' := u8 (slot + 1) in if slot' <? 32 then inl (slot', 0) else inr tt.

(** One pass of the inner loop, at the slot and function.  The [continue] for a slot
    without a device is the inner loop's: the next slot is tried without the outer
    loop's condition. *)
Definition scan_step (bus : Z) (l : Z * Z) : M S (Z * Z + unit) :=
  let '(slot, func) := l in
  if negb (func <? 8) then mret (next_slot slot) else
  id_twist ← on_pci_hw (bus_config_read_dword bus slot func BUS_REG_VENDOR_ID);
  if Z.land id_twist 0xFFFF =? 0xFFFF then
    if func =? 0 then mret (inl (u8 (slot + 1), func)) else mret (inl (slot, func + 1))
  else
  s ← get;
  if DEVICE_CAP <=? Z.of_nat (length (devices s)) then mret (inr tt) else
  mad_entry ← on_pci_hw (read_device bus slot func id_twist);
  modify (λ s, mk_pci_state (devices s ++ [mad_entry]) (pci_hw s));;
  if (func =? 0) && negb (truthy (is_multifunction mad_entry)) then mret (next_slot slot)
  else mret (inl (slot, func + 1)).

Definition bus_device_scan_bus (fuel : nat) (bus : Z) : M S unit :=
  iterM fuel (scan_step bus) (0, 0).

(** The loop over the devices found, which the scans inside it extend. *)
Definition bridge_step (fuel : nat) (bridge_hunt : Z) : M S (Z + unit) :=
  s ← get;
  match devices s !! Z.to_nat bridge_hunt with
  | None => mret (inr tt)
  | Some d =>
      (if (device_class d =? 0x06) && (device_subclass d =? 0x04) then
         bridge_magic ← on_pci_hw (bus_config_read_dword (bus_number d) (slot_number d)
                                     (function_number d) BUS_REG_SEC_BUS);
         let next_bus := Z.land (Z.shiftr bridge_magic 8) 0xFF in
         if 0 <? next_bus then bus_device_scan_bus fuel next_bus else mret tt
       else mret tt);;
      mret (inl (bridge_hunt + 1))
  end.

Definition bus_device_initialize (fuel : nat) : M S unit :=
  modify (λ s, mk_pci_state [] (pci_hw s));;
  bus_device_scan_bus fuel 0;;
  iterM (Datatypes.S (Z.to_nat DEVICE_CAP)) (bridge_step fuel) 0.

Definition bus_device_count : M S Z := gets (λ s, Z.of_nat (length (devices s))).

Definition bus_device_get (chaos_index : Z) : M S (option pci_device_t) :=
  gets (λ s, if 0 <=? chaos_index then devices s !! Z.to_nat chaos_index else None).

Fixpoint first_device (f : pci_device_t → bool) (l : list pci_device_t) : option pci_device_t :=
  match l with
  | [] => None
  | d :: l' => if f d then Some d else first_device f l'
  end.

Definition bus_device_find_by_class (class_quest subclass_quest : Z) : M S (option pci_device_t) :=
  gets (λ s, first_device (λ d, (device_class d =? class_quest) &&
    ((subclass_quest =? 0xFF) || (device_subclass d =? subclass_quest))) (devices s)).

Definition bus_device_find_by_vendor (vendor_void device_void : Z) : M S (option pci_device_t) :=
  gets (λ s, first_device (λ d, (manufacturer_id d =? vendor_void) &&
    ((device_void =? 0xFFFF) || (product_id d =? device_void))) (devices s)).

Definition weird_class_names (chaos_code : Z) : string :=
  default "Void"%string (["Chaos"; "Disks"; "Wires"; "Pixels"; "Sounds"; "RAM"; "Links"; "Talk";
    "Core"; "Keys"; "Ports"; "Brain"; "Lines"; "Air"; "Flow"; "Sky"; "Lock"; "Probe"]%string
    !! Z.to_nat chaos_code).

Definition bus_device_class_description (chaos_device : option pci_device_t) : string :=
  match chaos_device with
  | Some d => weird_class_names (device_class d)
  | None => "Empty void"
  end.

(** The loop of [bus_pci_initialize] that counts the PCI Express devices. *)
Fixpoint count_pcie (fuel : nat) (l : list pci_device_t) (found : Z) : M S Z :=
  match l with
  | [] => mret found
  | d :: l' =>
      r ← on_pci_hw (bus_pcie_check_device fuel (bus_number d) (slot_number d) (function_number d));
      count_pcie fuel l' (if truthy r then found + 1 else found)
  end.

(** The messages are left out; the result is the number printed. *)
Definition bus_pci_initialize (fuel : nat) : M S Z :=
  bus_device_initialize fuel;;
  s ← get;
  count_pcie fuel (devices s) 0.

Definition bus_pci_device_total : M S Z := bus_device_count.
Definition bus_pci_device_at (index : Z) : M S (option pci_device_t) := bus_device_get index.
End devices.

(** ** [ata_init] *)
Section ata_init.
  Context {D : Type} `{!PortIO D}.
Abbreviation S := (ata_ports * part_state D)%type.

Definition on_parts {A} (m : M (part_state D) A) : M S A := zoom snd (λ p s, (s.1, p)) m.

(** The ports of the IDE controller, when it uses ports of its own. *)
Definition ata_ports_of (dev : option pci_device_t) (p : ata_ports) : ata_ports :=
  match dev with
  | None => p
  | Some dev =>
      let bar i := default 0 (base_addresses dev !! i) in
      let port b := u16 (Z.land b (unot 32 1)) in
      if negb (Z.land (bar 0%nat) 1 =? 0)
      then mk_ata_ports (port (bar 0%nat)) (port (bar 1%nat)) (port (bar 2%nat)) (port (bar 3%nat))
             (port (bar 4%nat)) (u16 (Z.land (bar 4%nat) (unot 32 1) + 8))
      else p
  end.

(** A drive that identifies itself has its partitions read. *)
Definition probe (base drive : Z) : M S unit :=
  '(r, _) ← on_parts (on_hw (ata_identify base drive));
  if r =? 0 then on_parts (partitions_init base drive) else mret tt.

(** [dev] is the device the PCI bus found for the class of IDE controllers. *)
Definition ata_init (dev : option pci_device_t) : M S Z :=
  modify (λ s, (ata_ports_of dev s.1, s.2));;
  s ← get;
  probe (ata_primary_io s.1) 0;;
  probe (ata_primary_io s.1) 1;;
  probe (ata_secondary_io s.1) 0;;
  probe (ata_secondary_io s.1) 1;;
  on_parts partitions_get_count.
End ata_init.

(** ** The scan of a bus *)
Section scan.
  Context {D : Type} `{!PortIO D}.
  (** The configuration space, by the value of the address port: reading it has no effect
      that a later read could see. *)
  Context (cfg : Z → Z) (quiet : D → Prop).
  Context (Hcfg : ∀ d bus slot func reg, quiet d →
    ∃ d', bus_config_read_dword bus slot func reg d = Done (cfg (config_addr bus slot func reg)) d' ∧
          quiet d').
Abbreviation S := (pci_state D).

Definition vendor (bus slot func : Z) : Z :=
  Z.land (cfg (config_addr bus slot func BUS_REG_VENDOR_ID)) 0xFFFF.

(** The entry for a function that is there. *)
Definition device_at (bus slot func : Z) : pci_device_t :=
  let reg r := cfg (config_addr bus slot func r) in
  mk_pci_device (Z.land (reg BUS_REG_VENDOR_ID) 0xFFFF)
    (Z.land (Z.shiftr (reg BUS_REG_VENDOR_ID) 16) 0xFFFF) bus slot func
    (Z.land (Z.shiftr (reg BUS_REG_CLASS_REV) 24) 0xFF) (Z.land (Z.shiftr (reg BUS_REG_CLASS_REV) 16) 0xFF)
    (Z.land (Z.shiftr (reg BUS_REG_CLASS_REV) 8) 0xFF) (Z.land (reg BUS_REG_CLASS_REV) 0xFF)
    (Z.land (Z.shiftr (reg BUS_REG_HEADER_TYPE) 16) 0x7F)
    (Z.land (Z.shiftr (reg BUS_REG_HEADER_TYPE) 16) 0x80)
    ((λ i, reg (BUS_REG_BAR0 + i * 4)) <$> [0; 1; 2; 3; 4; 5]).

Lemma on_pci_hw_cfg bus slot func reg (s : S) : quiet (pci_hw s) →
  ∃ d, on_pci_hw (bus_config_read_dword bus slot func reg) s
         = Done (cfg (config_addr bus slot func reg)) (mk_pci_state (devices s) d) ∧ quiet d.
Proof.
  intros Hq. destruct (Hcfg _ bus slot func reg Hq) as (d & E & Hd). exists d.
  unfold on_pci_hw, zoom. by rewrite E.
Qed.

Lemma read_device_run bus slot func d : quiet d →
  ∃ d', read_device bus slot func (cfg (config_addr bus slot func BUS_REG_VENDOR_ID)) d
          = Done (device_at bus slot func) d' ∧ quiet d'.
Proof.
  intros Hq. unfold read_device.
  destruct (Hcfg d bus slot func BUS_REG_CLASS_REV Hq) as (d1 & E1 & Hq1). mrun E1.
  destruct (Hcfg d1 bus slot func BUS_REG_HEADER_TYPE Hq1) as (d2 & E2 & Hq2). rewrite E2.
  cbn [read_bars Z.add Pos.add Pos.add_carry Pos.succ]. mred.
  do 6 (match goal with HQ : quiet ?x |- context [bus_config_read_dword bus slot func ?r ?x] =>
    let d' := fresh "d" in let E := fresh "E" in let Hn := fresh "Hq" in
    destruct (Hcfg x bus slot func r HQ) as (d' & E & Hn); rewrite E; clear E HQ end).
  eexists. split; [reflexivity|eassumption].
Qed.

Lemma step_absent bus slot (s : S) : quiet (pci_hw s) → vendor bus slot 0 = 0xFFFF →
  ∃ d, scan_step bus (slot, 0) s = Done (inl (u8 (slot + 1), 0)) (mk_pci_state (devices s) d) ∧ quiet d.
Proof.
  intros Hq Hv. destruct (on_pci_hw_cfg bus slot 0 BUS_REG_VENDOR_ID s Hq) as (d & E & Hd).
  exists d. split; [|done]. unfold scan_step. cbn [negb Z.ltb Z.compare]. mrun E.
  unfold vendor in Hv. by rewrite Hv.
Qed.

Lemma step_single bus slot (s : S) : quiet (pci_hw s) → vendor bus slot 0 ≠ 0xFFFF →
  is_multifunction (device_at bus slot 0) = 0 →
  ∃ d, quiet d ∧ scan_step bus (slot, 0) s =
    if DEVICE_CAP <=? Z.of_nat (length (devices s))
    then Done (inr tt) (mk_pci_state (devices s) d)
    else Done (next_slot slot) (mk_pci_state (devices s ++ [device_at bus slot 0]) d).
Proof.
  intros Hq Hv Hm. destruct (on_pci_hw_cfg bus slot 0 BUS_REG_VENDOR_ID s Hq) as (d & E & Hd).
  destruct (read_device_run bus slot 0 d Hd) as (d1 & E1 & Hd1).
  exists (if DEVICE_CAP <=? Z.of_nat (length (devices s)) then d else d1).
  split; [by destruct (_ <=? _)|]. unfold scan_step. cbn [negb Z.ltb Z.compare]. mrun E.
  unfold vendor in Hv. rewrite (proj2 (Z.eqb_neq _ _) Hv). unfold get. cbn [devices].
  destruct (DEVICE_CAP <=? Z.of_nat (length (devices s))); [done|].
  unfold on_pci_hw, zoom. cbn [pci_hw]. rewrite E1. unfold modify. mred. by rewrite Hm.
Qed.

(** From an empty slot to slot 255 there is nothing, and then the slot number wraps. *)
Lemma scan_absent bus k (s : S) :
  (∀ slot, 1 ≤ slot < 256 → vendor bus slot 0 = 0xFFFF) → quiet (pci_hw s) → (k ≤ 255)%nat →
  ∃ d, quiet d ∧ ∀ n, iterM (k + n) (scan_step bus) (u8 (256 - Z.of_nat k), 0) s
         = iterM n (scan_step bus) (0, 0) (mk_pci_state (devices s) d).
Proof.
  intros Habs. revert s; induction k as [|k IH]; intros s Hq Hk.
  { exists (pci_hw s). split; [done|]. by destruct s. }
  unfold u8 at 1. rewrite Z.mod_small by lia.
  destruct (step_absent bus (256 - Z.of_nat (Datatypes.S k)) s Hq) as (d & E & Hd); [apply Habs; lia|].
  destruct (IH (mk_pci_state (devices s) d)) as (d' & Hd' & Hn); [done|lia|].
  exists d'. split; [done|]. intros n. cbn [Nat.add iterM]. mrun E. rewrite <-Hn.
  by replace (256 - Z.of_nat (Datatypes.S k) + 1) with (256 - Z.of_nat k) by lia.
Qed.

(** The scan does not stop after the last device.  On a bus whose only device is a
    single-function one in slot 0 (no other slot number, up to 255, answers), the scan
    wraps round to slot 0 again and again: it returns only when the table of 256 entries
    is full, and all the entries it adds are that one device. *)
Theorem bus_device_scan_bus_fills bus (s : S)
    (Hq : quiet (pci_hw s)) (Hlen : Z.of_nat (length (devices s)) ≤ DEVICE_CAP)
    (Hthere : vendor bus 0 0 ≠ 0xFFFF) (Hsingle : is_multifunction (device_at bus 0 0) = 0)
    (Habs : ∀ slot, 1 ≤ slot < 256 → vendor bus slot 0 = 0xFFFF) :
  ∃ fuel s', bus_device_scan_bus fuel bus s = Done tt s' ∧ quiet (pci_hw s') ∧
    length (devices s') = 256%nat ∧
    devices s' = devices s ++ replicate (256 - length (devices s)) (device_at bus 0 0).
Proof.
  unfold bus_device_scan_bus, DEVICE_CAP in *. remember (256 - length (devices s))%nat as n eqn:Hn.
  revert s Hq Hlen Hn; induction n as [|n IH]; intros s Hq Hlen Hn;
    destruct (step_single bus 0 s Hq Hthere Hsingle) as (d & Hd & E); unfold DEVICE_CAP in E.
  - rewrite (proj2 (Z.leb_le 256 _)) in E by lia.
    exists 1%nat, (mk_pci_state (devices s) d). cbn [iterM]. mrun E. cbn [replicate].
    rewrite app_nil_r. split_and!; [done|done|cbn; lia|done].
  - rewrite (proj2 (Z.leb_gt 256 _)) in E by lia.
    set (s1 := mk_pci_state (devices s ++ [device_at bus 0 0]) d) in *.
    destruct (scan_absent bus 255 s1 Habs Hd ltac:(lia)) as (d2 & Hd2 & Hround).
    destruct (IH (mk_pci_state (devices s1) d2)) as (fuel & s' & Ef & Hq' & Hl' & Hdev);
      [done|cbn; rewrite length_app; simpl; lia|cbn; rewrite length_app; simpl; lia|].
    exists (Datatypes.S (255 + fuel)), s'. split_and!; [|done|done|].
    + rewrite <-Ef, <-Hround. cbn [iterM]. mrun E. done.
    + rewrite Hdev. cbn. by rewrite <-app_assoc.
Qed.
End scan.

(** ** Witness: a bus with one device *)

(** The address latch of a configuration mechanism. *)
Definition demo_cfg (a : Z) : Z :=
  if (0x80000000 <=? a) && (a <? 0x80000100) then (if a mod 256 =? 0 then 0x12378086 else 0) else 0xFFFFFFFF.

#[export] Instance latch_ports : PortIO Z := {|
  read_port_byte p d := Done 0xFF d;
  read_port_word p d := Done 0xFFFF d;
  read_port_dword p d := Done (if p =? BUS_CFG_DATA_PORT then demo_cfg d else 0xFFFFFFFF) d;
  write_port_byte p v d := Done tt d;
  write_port_word p v d := Done tt d;
  write_port_dword p v d := Done tt (if p =? BUS_CFG_ADDR_PORT then v else d);
|}.

Lemma bus_device_scan_bus_fills_witness : ∃ fuel s',
  bus_device_scan_bus fuel 0 (mk_pci_state [] 0) = Done tt s' ∧ True ∧ length (devices s') = 256%nat ∧
  devices s' = [] ++ replicate 256 (device_at demo_cfg 0 0 0).
Proof.
  apply (bus_device_scan_bus_fills demo_cfg (λ _, True)) with (bus := 0) (s := mk_pci_state [] 0).
  - intros d bus slot func reg _. eexists. split; [|exact I]. unfold bus_config_read_dword, outl, inl_. mred.
    cbn. do 2 f_equal. unfold config_addr, u32. by rewrite Z.mod_mod by lia.
  - exact I.
  - unfold DEVICE_CAP. cbn. lia.
  - vm_compute. discriminate.
  - reflexivity.
  - intros slot Hs. assert (Hall : Forall (λ slot, vendor demo_cfg 0 slot 0 = 0xFFFF) (seqZ 1 255)).
    { apply (bool_decide_unpack _). vm_compute. exact I. }
    rewrite Forall_forall in Hall. apply Hall, elem_of_seqZ. lia.
Defined.
