(* ===== verification/Ext4.v ===== *)
(** * The disk file system, [core/fs/ext4/ext4.c]

    The private data of a mount is kept by address in the state of the file system;
    block buffers and the group descriptors are bytes of the allocator's memory.  An
    inode on the stack is the list of its 156 bytes: [stack] is what an uninitialised
    one holds.  The messages of [ext4_mount] are left out. *)

From Stdlib Require Import ZArith Lia String.
From stdpp Require Import base gmap list numbers fin_maps.
From S2P Require Import Prelude Memory Heap KernelMemory CString Alloc KernelAlloc Module Vfs Ports Ata Partitions.
Open Scope Z_scope.
Set Default Goal Selector "!".

Definition EXT4_EXTENTS_FL : Z := 0x80000.
Definition SIZEOF_EXT4_EXTENT : Z := 12.
Definition SIZEOF_EXT4_EXTENT_HEADER : Z := 12.
Definition SIZEOF_EXT4_INODE : nat := 156.
Definition SIZEOF_EXT4_GROUP_DESC : Z := 60.
Definition SIZEOF_EXT4_SUPERBLOCK : nat := 1024.
Definition SIZEOF_EXT4_DATA : Z := 1072.

(** The fields of the superblock that the code reads. *)
Definition s_inodes_count (sb : list Z) : option Z := field 4 0 sb.
Definition s_blocks_count (sb : list Z) : option Z := field 4 4 sb.
Definition s_first_data_block (sb : list Z) : option Z := field 4 20 sb.
Definition s_log_block_size (sb : list Z) : option Z := field 4 24 sb.
Definition s_blocks_per_group (sb : list Z) : option Z := field 4 32 sb.
Definition s_inodes_per_group (sb : list Z) : option Z := field 4 40 sb.
Definition s_magic (sb : list Z) : option Z := field 2 56 sb.
Definition s_inode_size (sb : list Z) : option Z := field 2 88 sb.

(** The fields of an inode. *)
Definition i_mode (ino : list Z) : option Z := field 2 0 ino.
Definition i_size_lo (ino : list Z) : option Z := field 4 4 ino.
Definition i_flags (ino : list Z) : option Z := field 4 32 ino.
Definition I_BLOCK : nat := 40.
Definition i_block (k : nat) (ino : list Z) : option Z := field 4 (I_BLOCK + 4 * k) ino.

(** The extent header in [i_block] and the extents after it. *)
Definition eh_magic (ino : list Z) : option Z := field 2 I_BLOCK ino.
Definition eh_entries (ino : list Z) : option Z := field 2 (I_BLOCK + 2) ino.
Definition ee_block (i : nat) (ino : list Z) : option Z := field 4 (I_BLOCK + 12 + 12 * i) ino.
Definition ee_len (i : nat) (ino : list Z) : option Z := field 2 (I_BLOCK + 12 + 12 * i + 4) ino.
Definition ee_start_hi (i : nat) (ino : list Z) : option Z := field 2 (I_BLOCK + 12 + 12 * i + 6) ino.
Definition ee_start_lo (i : nat) (ino : list Z) : option Z := field 4 (I_BLOCK + 12 + 12 * i + 8) ino.

(** Offsets of the group descriptor's fields. *)
Definition BG_INODE_BITMAP_LO : Z := 4.
Definition BG_INODE_TABLE_LO : Z := 8.

Record ext4_data := mk_ext4_data {
  device : Z;
  sb : list Z;
  gd : Z;
  block_size : Z;
  inode_size : Z;
  is_ata : Z;
  partition_index : Z;
}.

(** The mounts' data by address, and the partitions below. *)
Record ext4_state (D : Type) := mk_ext4_state {
  e_datas : gmap Z ext4_data;
  e_parts : part_state D;
}.
Arguments mk_ext4_state {D}.
Arguments e_datas {D}.
Arguments e_parts {D}.

(** A C string stored in a buffer: its characters, when its end is inside. *)
Fixpoint buf_cstr (bs : list Z) : option (list Z) :=
  match bs with
  | [] => None
  | b :: bs' => if b =? 0 then Some [] else cons b <$> buf_cstr bs'
  end.

(** [str_copy] of the string [s] to the start of the buffer [bs]. *)
Definition buf_copy (s bs : list Z) : option (list Z) :=
  if (length s <? length bs)%nat then Some (s ++ 0 :: drop (length s + 1) bs) else None.

(** The string in memory at [p]. *)
Fixpoint load_str_from (fuel : nat) (p : Z) : M mem (list Z) :=
  match fuel with
  | O => stuck_with NoFuel
  | Datatypes.S fuel' =>
      b ← load8 p;
      if b =? 0 then mret [] else s ← load_str_from fuel' (p + 1); mret (b :: s)
  end.
Definition load_str (p : Z) : M mem (list Z) := with_fuel (λ n, load_str_from n p).

(** ** The block of a file *)

Section extents.
Open Scope Z_scope.

(** The loop over [n] extents from the [i]-th on. *)
Fixpoint find_extent (n i : nat) (ino : list Z) (block_index : Z) : option Z :=
  match n with
  | O => Some 0
  | Datatypes.S n' =>
      b ← ee_block i ino;
      len ← ee_len i ino;
      if (b <=? block_index) && (block_index <? u32 (b + len)) then
        hi ← ee_start_hi i ino;
        lo ← ee_start_lo i ino;
        Some (u64 (Z.lor lo (Z.shiftl hi 32) + (block_index - b)))
      else find_extent n' (i + 1) ino block_index
  end.

(** [None]: a read outside the inode. *)
Definition ext4_get_block_from_extents (ino : list Z) (block_index : Z) : option Z :=
  flags ← i_flags ino;
  if negb (truthy (Z.land flags EXT4_EXTENTS_FL)) then
    if block_index <? 12 then i_block (Z.to_nat block_index) ino else Some 0
  else
  magic ← eh_magic ino;
  if negb (magic =? 0xF30A) then Some 0 else
  entries ← eh_entries ino;
  find_extent (Z.to_nat entries) 0 ino block_index.
End extents.

Section ext4.
  Context {A W D : Type} `{!AllocOps A} `{!PortIO D} `{!Backends (vfs A W (ext4_state D))}.
  Context (stack : list Z).
Abbreviation S := (vfs A W (ext4_state D)).

Definition kalloc (sz count : Z) : M S Z := v ← get; on_alloc (al_alloc (fs_kernel_memory v) sz count).
Definition on_disk {B} (m : M (part_state D) B) : M S B :=
  on_ext (zoom e_parts (λ p e, mk_ext4_state (e_datas e) p) m).
Definition get_data (p : Z) : M S ext4_data := λ v,
  match e_datas (ext v) !! p with Some d => Done d v | None => Stuck Fault end.
Definition put_data (p : Z) (d : ext4_data) : M S unit :=
  modify (λ v, set_ext (mk_ext4_state (<[p := d]> (e_datas (ext v))) (e_parts (ext v))) v).

(** Sectors [i, i + n) of the block, to memory and from it. *)
Fixpoint read_sectors (n : nat) (i idx first buf : Z) : M S Z :=
  match n with
  | O => mret 0
  | Datatypes.S n' =>
      '(r, bs) ← on_disk (partitions_read_sector idx (u64 (first + i)));
      if negb (r =? 0) then mret (-1) else
      on_mem (store_bytes (buf + i * 512) bs);;
      read_sectors n' (i + 1) idx first buf
  end.

Fixpoint write_sectors (n : nat) (i idx first buf : Z) : M S Z :=
  match n with
  | O => mret 0
  | Datatypes.S n' =>
      bs ← on_mem (load_bytes 512 (buf + i * 512));
      r ← on_disk (partitions_write_sector idx (u64 (first + i)) bs);
      if negb (r =? 0) then mret (-1) else
      write_sectors n' (i + 1) idx first buf
  end.

Definition ext4_read_block (data : ext4_data) (block buf : Z) : M S Z :=
  if 0 <=? partition_index data then
    let sectors_per_block := block_size data / 512 in
    read_sectors (Z.to_nat sectors_per_block) 0 (partition_index data) (u64 (block * sectors_per_block)) buf
  else
    let offset := u64 (block * block_size data) in
    on_mem (for_to 0 (block_size data) (λ i, b ← load8 (device data + offset + i); store8 (buf + i) b));;
    mret 0.

Definition ext4_write_block (data : ext4_data) (block buf : Z) : M S Z :=
  if 0 <=? partition_index data then
    let sectors_per_block := block_size data / 512 in
    write_sectors (Z.to_nat sectors_per_block) 0 (partition_index data) (u64 (block * sectors_per_block)) buf
  else
    let offset := u64 (block * block_size data) in
    on_mem (for_to 0 (block_size data) (λ i, b ← load8 (buf + i); store8 (device data + offset + i) b));;
    mret 0.

(** A division by zero is a processor exception. *)
Definition checked_div (a b : Z) : M S (Z * Z) := if b =? 0 then fault else mret (a / b, a mod b).

(** The block of the inode table with the inode, and the offset in it. *)
Definition inode_location (data : ext4_data) (inode_num : Z) : M S (Z * Z) :=
  per_group ← of_option (s_inodes_per_group (sb data));
  '(group, index) ← checked_div (u32 (inode_num - 1)) per_group;
  table ← on_mem (load32 (gd data + group * SIZEOF_EXT4_GROUP_DESC + BG_INODE_TABLE_LO));
  '(q, offset) ← checked_div (u32 (index * inode_size data)) (block_size data);
  mret (u32 (table + q), offset).

(** The result and the bytes the caller's inode has afterwards. *)
Definition ext4_read_inode (data : ext4_data) (inode_num : Z) (inode : list Z) : M S (Z * list Z) :=
  '(block, offset) ← inode_location data inode_num;
  buf ← kalloc (block_size data) 1;
  if buf =? NULL then mret (-1, inode) else
  r ← ext4_read_block data block buf;
  if r <? 0 then kfree buf;; mret (-1, inode) else
  s ← on_mem (load_str (buf + offset));
  inode ← of_option (buf_copy s inode);
  kfree buf;;
  mret (0, inode).

Definition ext4_write_inode (data : ext4_data) (inode_num : Z) (inode : list Z) : M S Z :=
  '(block, offset) ← inode_location data inode_num;
  buf ← kalloc (block_size data) 1;
  if buf =? NULL then mret (-1) else
  r ← ext4_read_block data block buf;
  if r <? 0 then kfree buf;; mret (-1) else
  s ← of_option (buf_cstr inode);
  on_mem (store_bytes (buf + offset) (s ++ [0]));;
  r ← ext4_write_block data block buf;
  if r <? 0 then kfree buf;; mret (-1) else
  kfree buf;;
  mret 0.

(** A null node is written through. *)
Definition ext4_create_node (p inode_num : Z) (name : str) : M S Z :=
  data ← get_data p;
  '(r, inode) ← ext4_read_inode data inode_num stack;
  if r <? 0 then mret NULL else
  mode ← of_option (i_mode inode);
  node ← fs_mknode name (if truthy (Z.land mode 0x4000) then FS_DIR else FS_FILE);
  sz ← of_option (i_size_lo inode);
  n ← get_node node;
  put_node node (mk_node (n_name n) (n_type n) sz inode_num (n_ops n) p (n_children n) (n_next n) (n_parent n));;
  mret node.

Definition ext4_open (node file : Z) : M S Z :=
  f ← get_file file;
  put_file file (mk_file node 0 (f_flags f));;
  mret 0.

Definition ext4_close (file : Z) : M S Z := mret 0.

Definition move_pos (file n : Z) : M S unit :=
  f ← get_file file;
  put_file file (mk_file (f_node f) (u64 (f_pos f + n)) (f_flags f)).

(** The loop of [ext4_read]; [out] is what has been stored into the caller's buffer, whose
    pointer moves together with the index [read]. *)
Definition read_loop (file : Z) (data : ext4_data) (inode : list Z)
    (l : Z * Z * list (Z * list Z)) : M S (Z * Z * list (Z * list Z) + Z * list (Z * list Z)) :=
  let '(cnt, read, out) := l in
  if negb (0 <? cnt) then mret (inr (read, out)) else
  f ← get_file file;
  '(block_index, offset) ← checked_div (f_pos f) (block_size data);
  block ← of_option (ext4_get_block_from_extents inode block_index);
  if block =? 0 then mret (inr (read, out)) else
  let to_read := Z.min (block_size data - offset) cnt in
  block_buf ← kalloc (block_size data) 1;
  if block_buf =? NULL then mret (inr (-1, out)) else
  r ← ext4_read_block data block block_buf;
  if r <? 0 then kfree block_buf;; mret (inr (-1, out)) else
  bs ← on_mem (load_bytes (Z.to_nat to_read) (block_buf + offset));
  kfree block_buf;;
  move_pos file to_read;;
  mret (inl (cnt - to_read, read + to_read, out ++ [(read + read, bs)])).

Definition ext4_read (file cnt : Z) : M S (Z * list (Z * list Z)) :=
  f ← get_file file;
  n ← get_node (f_node f);
  data ← get_data (n_priv n);
  '(r, inode) ← ext4_read_inode data (n_inode n) stack;
  if r <? 0 then mret (-1, []) else
  size ← of_option (i_size_lo inode);
  if size <=? f_pos f then mret (0, []) else
  let cnt := if size <? u64 (f_pos f + cnt) then size - f_pos f else cnt in
  iterM (Datatypes.S (Z.to_nat cnt)) (read_loop file data inode) (cnt, 0, []).

(** The loop of [ext4_write]: the bytes come from the index [written] of a pointer that has
    moved by [written] already. *)
Definition write_loop (file : Z) (data : ext4_data) (inode buf : list Z) (l : Z * Z) : M S (Z * Z + Z) :=
  let '(cnt, written) := l in
  if negb (0 <? cnt) then mret (inr written) else
  f ← get_file file;
  '(block_index, offset) ← checked_div (f_pos f) (block_size data);
  block ← of_option (ext4_get_block_from_extents inode block_index);
  if block =? 0 then mret (inr written) else
  let to_write := Z.min (block_size data - offset) cnt in
  block_buf ← kalloc (block_size data) 1;
  if block_buf =? NULL then mret (inr (-1)) else
  r ← ext4_read_block data block block_buf;
  if r <? 0 then kfree block_buf;; mret (inr (-1)) else
  let bs := take (Z.to_nat to_write) (drop (Z.to_nat (written + written)) buf) in
  if Z.of_nat (length bs) <? to_write then fault else
  on_mem (store_bytes (block_buf + offset) bs);;
  r ← ext4_write_block data block block_buf;
  if r <? 0 then kfree block_buf;; mret (inr (-1)) else
  kfree block_buf;;
  move_pos file to_write;;
  mret (inl (cnt - to_write, written + to_write)).

Definition set_i_size_lo (sz : Z) (inode : list Z) : list Z :=
  take 4 inode ++ le_split 4 (u32 sz) ++ drop 8 inode.

Definition ext4_write (file : Z) (buf : list Z) : M S Z :=
  let cnt := Z.of_nat (length buf) in
  f ← get_file file;
  n ← get_node (f_node f);
  data ← get_data (n_priv n);
  '(r, inode) ← ext4_read_inode data (n_inode n) stack;
  if r <? 0 then mret (-1) else
  written ← iterM (Datatypes.S (Z.to_nat cnt)) (write_loop file data inode buf) (cnt, 0);
  if written =? -1 then mret (-1) else
  f ← get_file file;
  size ← of_option (i_size_lo inode);
  (if size <? f_pos f then
     n ← get_node (f_node f);
     _ ← ext4_write_inode data (n_inode n) (set_i_size_lo (f_pos f) inode); mret tt
   else mret tt);;
  mret written.

(** The entries of a directory block: a name, its end, and a 4-byte inode number. *)
Fixpoint find_entry (fuel : nat) (entry : Z) (name : str) : M S (option Z) :=
  match fuel with
  | O => stuck_with NoFuel
  | Datatypes.S fuel' =>
      s ← on_mem (load_str entry);
      match s with
      | [] => mret None
      | _ =>
          if bool_decide (s = name) then
            ino ← on_mem (load32 (entry + Z.of_nat (length s) + 1)); mret (Some ino)
          else find_entry fuel' (entry + Z.of_nat (length s) + 5) name
      end
  end.

Definition mem_fuel : M S nat := gets (λ v, Datatypes.S (base.size (al_ram (alloc v)))).

Definition ext4_lookup (dir : Z) (name : str) : M S Z :=
  n ← get_node dir;
  data ← get_data (n_priv n);
  '(r, inode) ← ext4_read_inode data (n_inode n) stack;
  if r <? 0 then mret NULL else
  block ← of_option (i_block 0 inode);
  buf ← kalloc (block_size data) 1;
  if buf =? NULL then mret NULL else
  r ← ext4_read_block data block buf;
  if r <? 0 then kfree buf;; mret NULL else
  fuel ← mem_fuel;
  e ← find_entry fuel buf name;
  kfree buf;;
  match e with
  | None => mret NULL
  | Some inode_num => ext4_create_node (n_priv n) inode_num name
  end.

(** The loop of [ext4_alloc_inode] over [n] inode numbers from [ino] on. *)
Fixpoint alloc_inode_from (n : nat) (ino : Z) (data : ext4_data) : M S Z :=
  match n with
  | O => mret 0
  | Datatypes.S n' =>
      per_group ← of_option (s_inodes_per_group (sb data));
      '(group, index) ← checked_div (ino - 1) per_group;
      bitmap_block ← on_mem (load32 (gd data + group * SIZEOF_EXT4_GROUP_DESC + BG_INODE_BITMAP_LO));
      bitmap ← kalloc (block_size data) 1;
      if bitmap =? NULL then mret 0 else
      r ← ext4_read_block data bitmap_block bitmap;
      if r <? 0 then kfree bitmap;; mret 0 else
      b ← on_mem (load8 (bitmap + index / 8));
      if negb (truthy (Z.land b (Z.shiftl 1 (index mod 8)))) then
        on_mem (store8 (bitmap + index / 8) (Z.lor b (Z.shiftl 1 (index mod 8))));;
        _ ← ext4_write_block data bitmap_block bitmap;
        kfree bitmap;;
        mret ino
      else
      kfree bitmap;;
      alloc_inode_from n' (ino + 1) data
  end.

Definition ext4_alloc_inode (data : ext4_data) : M S Z :=
  count ← of_option (s_inodes_count (sb data));
  alloc_inode_from (Z.to_nat (count - 12)) 12 data.

(** The bytes of [new_inode]: mode 0x81A4, one link, everything else zero. *)
Definition new_inode : list Z :=
  [0xA4; 0x81] ++ replicate 24 0 ++ [1; 0] ++ replicate 128 0.

(** The end of the entries of a directory block. *)
Fixpoint skip_entries (fuel : nat) (entry : Z) : M S Z :=
  match fuel with
  | O => stuck_with NoFuel
  | Datatypes.S fuel' =>
      s ← on_mem (load_str entry);
      match s with
      | [] => mret entry
      | _ => skip_entries fuel' (entry + Z.of_nat (length s) + 5)
      end
  end.

Definition ext4_create (dir : Z) (name : str) : M S Z :=
  n ← get_node dir;
  data ← get_data (n_priv n);
  new_ino ← ext4_alloc_inode data;
  if new_ino =? 0 then mret (-1) else
  _ ← ext4_write_inode data new_ino new_inode;
  '(r, dir_inode) ← ext4_read_inode data (n_inode n) stack;
  if r <? 0 then mret (-1) else
  block ← of_option (ext4_get_block_from_extents dir_inode 0);
  buf ← kalloc (block_size data) 1;
  if buf =? NULL then mret (-1) else
  r ← ext4_read_block data block buf;
  if r <? 0 then kfree buf;; mret (-1) else
  fuel ← mem_fuel;
  entry ← skip_entries fuel buf;
  on_mem (store_bytes entry (name ++ [0]));;
  on_mem (store32 (entry + Z.of_nat (length name) + 1) new_ino);;
  r ← ext4_write_block data block buf;
  if r <? 0 then kfree buf;; mret (-1) else
  kfree buf;;
  node ← ext4_create_node (n_priv n) new_ino name;
  _ ← fs_addchild dir node;
  mret 0.

Definition ext4_mkdir (dir : Z) (name : str) : M S Z := ext4_create dir name.

Definition ext4_ops : fs_ops S :=
  mk_ops (Some ext4_open) (Some ext4_close) (Some ext4_read) (Some ext4_write)
    (Some ext4_lookup) (Some ext4_create) (Some ext4_mkdir).

(** The device or partition that the source names: [src[5] - '0'] for a source that starts
    with "ata"; a shorter one is read outside. *)
Definition ext4_source (src : option (Z * str)) : M S (Z * Z) :=
  match src with
  | None => mret (NULL, -1)
  | Some (p, s) =>
      if bool_decide (chars "ata" `prefix_of` s) then
        c ← of_option ((s ++ [0]) !! 5%nat); mret (NULL, i8 c - 48)
      else mret (p, -1)
  end.

(** The first 512 bytes of the superblock from a partition; all 1024 from memory. *)
Definition read_superblock (data : ext4_data) (sb_buf : Z) : M S Z :=
  if 0 <=? partition_index data then
    '(r, bs) ← on_disk (partitions_read_sector (partition_index data) 2);
    if negb (r =? 0) then mret (-1) else
    on_mem (store_bytes sb_buf bs);; mret 0
  else
    on_mem (for_to 0 1024 (λ i, b ← load8 (device data + 1024 + i); store8 (sb_buf + i) b));;
    mret 0.

(** Group descriptors: a whole block is read to the address of each. *)
Fixpoint read_groups (n : nat) (i gd_block : Z) (data : ext4_data) : M S unit :=
  match n with
  | O => mret tt
  | Datatypes.S n' =>
      _ ← ext4_read_block data (u64 (gd_block + i)) (gd data + i * SIZEOF_EXT4_GROUP_DESC);
      read_groups n' (i + 1) gd_block data
  end.

Definition ext4_mount (src : option (Z * str)) (tgt : str) (mnt : Z) : M S Z :=
  p ← kalloc SIZEOF_EXT4_DATA 1;
  if p =? NULL then mret (-1) else
  '(dev, part) ← ext4_source src;
  put_data p (mk_ext4_data dev (replicate SIZEOF_EXT4_SUPERBLOCK 0) NULL 0 0 0 part);;
  sb_buf ← kalloc 1024 1;
  if sb_buf =? NULL then kfree p;; mret (-1) else
  data ← get_data p;
  r ← read_superblock data sb_buf;
  if negb (r =? 0) then kfree sb_buf;; kfree p;; mret (-1) else
  s ← on_mem (load_str sb_buf);
  sb' ← of_option (buf_copy s (sb data));
  put_data p (mk_ext4_data dev sb' NULL 0 0 0 part);;
  kfree sb_buf;;
  magic ← of_option (s_magic sb');
  if negb (magic =? 0xEF53) then kfree p;; mret (-1) else
  log ← of_option (s_log_block_size sb');
  isize ← of_option (s_inode_size sb');
  blocks ← of_option (s_blocks_count sb');
  per_group ← of_option (s_blocks_per_group sb');
  first ← of_option (s_first_data_block sb');
  '(gd_blocks, _) ← checked_div (u32 (blocks + per_group - 1)) per_group;
  let bsize := u32 (Z.shiftl 1024 (log mod 32)) in
  gdp ← kalloc (gd_blocks * SIZEOF_EXT4_GROUP_DESC) 1;
  if gdp =? NULL then kfree p;; mret (-1) else
  let data := mk_ext4_data dev sb' gdp bsize isize 0 part in
  put_data p data;;
  read_groups (Z.to_nat gd_blocks) 0 (u32 (first + 1)) data;;
  root ← ext4_create_node p 2 tgt;
  m ← get_mnt mnt;
  put_mnt mnt (mk_mnt (m_path m) (m_type m) root p (m_active m));;
  mret 0.

Definition ext4_type : fs_type S := mk_type (chars "ext4") ext4_mount.
End ext4.

(** ** The block map of a file *)

(** Record [i] of the inode, read as an extent, covers the block: it has fields, and the block lies in
    it.  The code reads every record so: it looks neither at [eh_depth], with which they could be
    the index of a deeper tree, nor at the bit of [ee_len] that marks an extent not yet written. *)
Definition covers (ino : list Z) (idx : Z) (i : nat) : Prop :=
  ∃ b len, ee_block i ino = Some b ∧ ee_len i ino = Some len ∧ b ≤ idx < b + len.

Lemma find_extent_spec ino idx n i :
  (I_BLOCK + 12 + 12 * (i + n) ≤ length ino)%nat → Forall is_byte ino →
  (∀ k b len, (i ≤ k < i + n)%nat → ee_block k ino = Some b → ee_len k ino = Some len → b + len < 2 ^ 32) →
  (∃ k b hi lo, (i ≤ k < i + n)%nat ∧ covers ino idx k ∧ (∀ j, (i ≤ j < k)%nat → ¬ covers ino idx j) ∧
     ee_block k ino = Some b ∧ ee_start_hi k ino = Some hi ∧ ee_start_lo k ino = Some lo ∧
     find_extent n i ino idx = Some (u64 (Z.lor lo (Z.shiftl hi 32) + (idx - b)))) ∨
  (∀ k, (i ≤ k < i + n)%nat → ¬ covers ino idx k) ∧ find_extent n i ino idx = Some 0.
Proof.
  revert i; induction n as [|n IH]; intros i Hl Hby Hov; cbn [find_extent].
  { right. split; [|done]. intros k Hk. lia. }
  destruct (field_inside 4 (I_BLOCK + 12 + 12 * i) ino ltac:(lia)) as [b Eb].
  destruct (field_inside 2 (I_BLOCK + 12 + 12 * i + 4) ino ltac:(lia)) as [len El].
  destruct (field_inside 2 (I_BLOCK + 12 + 12 * i + 6) ino ltac:(lia)) as [hi Eh].
  destruct (field_inside 4 (I_BLOCK + 12 + 12 * i + 8) ino ltac:(lia)) as [lo Elo].
  unfold ee_block, ee_len, ee_start_hi, ee_start_lo in *. rewrite Eb, El. cbn [mbind option_bind].
  pose proof (field_bound _ _ _ _ Hby Eb). pose proof (field_bound _ _ _ _ Hby El).
  assert (u32 (b + len) = b + len) as ->.
  { unfold u32. apply Z.mod_small. specialize (Hov i b len ltac:(lia) Eb El). lia. }
  destruct (Z.leb_spec b idx), (Z.ltb_spec idx (b + len)); cbn [andb].
  { left. exists i, b, hi, lo. rewrite Eh, Elo. split_and!; try done; try lia. exists b, len. done. }
  all: assert (Hno : ¬ covers ino idx i) by
    (intros (b' & len' & Eb' & El' & ?); unfold ee_block, ee_len in *; simplify_eq; lia).
  all: destruct (IH (i + 1)%nat) as [(k & b' & hi' & lo' & ? & ? & Hj & ?)|[Hn ?]];
    [lia|done|intros k ? ? ?; apply Hov; lia|left|right].
  all: try (exists k, b', hi', lo'; split_and!; [lia|lia|done| |tauto|tauto|tauto|tauto];
    intros j ?; destruct (decide (j = i)) as [->|]; [done|apply Hj; lia]).
  all: split; [|done]; intros k ?; destruct (decide (k = i)) as [->|]; [done|apply Hn; lia].
Qed.

(** C33: The block map.  For an inode with at most four records, taken as extents whose ends do not
    wrap whatever the depth the header gives, [ext4_get_block_from_extents] never reads outside the
    inode and returns the disk block of the first extent that covers the file block, and 0, a
    hole, when none does. *)
Theorem ext4_extents_correct ino idx flags entries
    (Hby : Forall is_byte ino) (Hlen : length ino = SIZEOF_EXT4_INODE)
    (Hflags : i_flags ino = Some flags) (Hext : Z.land flags EXT4_EXTENTS_FL ≠ 0)
    (Hmagic : eh_magic ino = Some 0xF30A) (Hent : eh_entries ino = Some entries)
    (H4 : entries ≤ 4) (Hov : ∀ k b len, Z.of_nat k < entries → ee_block k ino = Some b →
       ee_len k ino = Some len → b + len < 2 ^ 32) :
  (∃ k b hi lo, Z.of_nat k < entries ∧ covers ino idx k ∧ (∀ j, (j < k)%nat → ¬ covers ino idx j) ∧
     ee_block k ino = Some b ∧ ee_start_hi k ino = Some hi ∧ ee_start_lo k ino = Some lo ∧
     ext4_get_block_from_extents ino idx = Some (lo + 2 ^ 32 * hi + (idx - b))) ∨
  (∀ k, Z.of_nat k < entries → ¬ covers ino idx k) ∧ ext4_get_block_from_extents ino idx = Some 0.
Proof.
  unfold ext4_get_block_from_extents. rewrite Hflags. cbn [mbind option_bind].
  rewrite (proj2 (truthy_true _) Hext), Hmagic. cbn [negb mbind option_bind Z.eqb]. rewrite Hent.
  cbn [mbind option_bind]. change (43850 =? 43850) with true. cbn [negb].
  unfold eh_entries in Hent. pose proof (field_bound _ _ _ _ Hby Hent).
  destruct (find_extent_spec ino idx (Z.to_nat entries) 0) as [(k & b & hi & lo & Hk & Hc & Hj & Eb & Eh & El & E)|[Hn E]].
  - rewrite Hlen. unfold I_BLOCK, SIZEOF_EXT4_INODE. lia.
  - done.
  - intros k b len Hk. apply Hov. lia.
  - left. exists k, b, hi, lo. split_and!; try done; [lia|intros j Hjk; apply Hj; lia|]. rewrite E. f_equal.
    unfold ee_start_hi, ee_start_lo, ee_block in *.
    pose proof (field_bound _ _ _ _ Hby Eh). pose proof (field_bound _ _ _ _ Hby El).
    destruct Hc as (b' & len & Eb' & El' & Hb). unfold ee_block, ee_len in Eb', El'. rewrite Eb in Eb'.
    injection Eb' as <-. pose proof (field_bound _ _ _ _ Hby El'). simpl in *.
    rewrite lor_shiftl_add by lia. unfold u64. rewrite Z.mod_small; lia.
  - right. split; [|done]. intros k Hk. apply Hn. lia.
Qed.

(** ** Mounting *)

Section ext4_mount.
  Context {A W D : Type} `{Allocator A} `{!PortIO D} `{!Backends (vfs A W (ext4_state D))}.
  Context (stack : list Z).
Abbreviation S := (vfs A W (ext4_state D)).

Lemma kalloc_run (v : S) L sz :
  al_live (alloc v) L → fs_kernel_memory v ≠ NULL → 0 < sz ≤ AL_MAX →
  kalloc sz 1 v = Done NULL v ∨
  ∃ p n a', kalloc sz 1 v = Done p (set_alloc a' v) ∧ p ≠ NULL ∧ sz ≤ n ∧ L !! p = None ∧
    al_live a' (<[p := n]> L).
Proof.
  intros HL Hk Hsz. destruct (alloc_spec _ L (fs_kernel_memory v) sz 1 HL Hk) as [E|(p & n & a' & E & ? & ? & ? & ? & _)];
    [lia|lia|lia| |].
  - left. unfold kalloc, on_alloc, zoom, get. mred. rewrite E. by destruct v.
  - right. exists p, n, a'. split_and!; [|done|lia|done|done].
    unfold kalloc, on_alloc, zoom, get. mred. by rewrite E.
Qed.

Lemma kfree_live (v : S) L p n :
  al_live (alloc v) L → fs_kernel_memory v ≠ NULL → L !! p = Some n →
  ∃ a', kfree p v = Done tt (set_alloc a' v) ∧ al_live a' (delete p L).
Proof.
  intros HL Hk Hp. destruct (free_spec _ L (fs_kernel_memory v) p n HL Hk Hp) as (a' & E & Hl & _).
  exists a'. split; [|done]. unfold kfree, on_alloc, zoom, get. mred. by rewrite E.
Qed.

(** Loading the string in front of the first zero byte. *)
Lemma load_str_from_run (bs : list Z) p i m fuel :
  bytes_at p bs m → bs !! i = Some 0 → (i < fuel)%nat →
  ∃ s, load_str_from fuel p m = Done s m ∧ (length s ≤ i)%nat.
Proof.
  revert p i fuel; induction bs as [|b bs IH]; intros p i [|fuel] Hb Hi Hf; [done|done|lia|].
  apply bytes_at_cons in Hb as [Hp Hb]. cbn [load_str_from]. mred. rewrite (load8_run _ _ _ Hp).
  destruct (Z.eqb_spec b 0) as [->|Hne]; [exists []; split; [done|simpl; lia]|].
  destruct i as [|i]; [by injection Hi as ->|].
  destruct (IH (p + 1) i fuel Hb Hi ltac:(lia)) as (s & E & Hs). rewrite E.
  exists (b :: s). split; [done|simpl; lia].
Qed.

Lemma bytes_at_size p bs m : bytes_at p bs m → (length bs ≤ base.size m)%nat.
Proof. intros Hb. eapply mapped_size, bytes_at_mapped, Hb. Qed.

Lemma load_str_run (bs : list Z) p i m :
  bytes_at p bs m → bs !! i = Some 0 → ∃ s, load_str p m = Done s m ∧ (length s ≤ i)%nat.
Proof.
  intros Hb Hi. unfold load_str, with_fuel. eapply load_str_from_run; [done|done|].
  apply lookup_lt_Some in Hi. pose proof (bytes_at_size _ _ _ Hb). lia.
Qed.
(** The superblock kept by the mount has no magic number when the copy stops before it. *)
Lemma magic_lost s : (length s < 56)%nat →
  ∃ sb', buf_copy s (replicate SIZEOF_EXT4_SUPERBLOCK 0) = Some sb' ∧ s_magic sb' = Some 0.
Proof.
  intros Hs. unfold buf_copy, SIZEOF_EXT4_SUPERBLOCK. rewrite length_replicate.
  rewrite (proj2 (Nat.ltb_lt _ _)) by lia. eexists. split; [done|].
  rewrite drop_replicate. change (0 :: replicate (1024 - (length s + 1)) 0) with (replicate (Datatypes.S (1024 - (length s + 1))) 0).
  unfold s_magic, field. rewrite length_app, length_replicate, (proj2 (Nat.leb_le _ _)) by lia.
  rewrite drop_app_ge by lia. rewrite drop_replicate, take_replicate.
  by replace (2 `min` _)%nat with 2%nat by lia.
Qed.

Lemma on_mem_store (v : S) L p n bs :
  al_live (alloc v) L → L !! p = Some n → Z.of_nat (length bs) ≤ n → Forall is_byte bs →
  ∃ a', on_mem (store_bytes p bs) v = Done tt (set_alloc a' v) ∧ al_live a' L ∧
    bytes_at p bs (al_ram a').
Proof.
  intros HL Hp Hn Hb. destruct (live_range _ _ _ _ HL Hp) as (_ & _ & _ & Hm).
  exists (al_set_ram (mem_write p bs (al_ram (alloc v))) (alloc v)). split_and!.
  - unfold on_mem, on_alloc, zoom. rewrite store_bytes_run; [done| |done].
    eapply mapped_sub; [exact Hm|lia|lia].
  - apply live_set_ram; [done|]. intros x. apply is_Some_write.
  - rewrite al_ram_set. apply bytes_at_write.
Qed.

Lemma on_mem_read {B} (v : S) (m : M mem B) x :
  m (al_ram (alloc v)) = Done x (al_ram (alloc v)) → on_mem m v = Done x v.
Proof.
  intros E. unfold on_mem, on_alloc, zoom. rewrite E, al_set_ram_id. by destruct v.
Qed.

(** No ext4 partition can be mounted.  Whenever the superblock of the partition has a
    zero byte before its magic number (every real one has: the counters in front of it
    are four bytes wide), [ext4_mount] fails, whatever the disk holds: the superblock is
    copied as a C string, which stops at that byte.  Nodes and mounts are unchanged and
    all memory is given back. *)
Theorem ext4_mount_rejects (v : S) L p s tgt mnt c bs ps i
    (HL : al_live (alloc v) L) (Hk : fs_kernel_memory v ≠ NULL)
    (Hata : chars "ata" `prefix_of` s) (Hc : (s ++ [0]) !! 5%nat = Some c) (Hpart : 48 ≤ i8 c)
    (Hread : partitions_read_sector (i8 c - 48) 2 (e_parts (ext v)) = Done (0, bs) ps)
    (Hlen : length bs = 512%nat) (Hby : Forall is_byte bs)
    (Hi : bs !! i = Some 0) (Hi56 : (i < 56)%nat) :
  ∃ v', ext4_mount stack (Some (p, s)) tgt mnt v = Done (-1) v' ∧
    nodes v' = nodes v ∧ mnts v' = mnts v ∧ al_live (alloc v') L.
Proof.
  unfold ext4_mount.
  destruct (kalloc_run v L SIZEOF_EXT4_DATA HL Hk ltac:(done)) as [E|(q & n & a1 & E & Hq & _ & HqL & H1)].
  { mrun E. cbn. eauto. }
  mrun E. rewrite (proj2 (Z.eqb_neq _ _) Hq). unfold ext4_source. rewrite bool_decide_eq_true_2 by done.
  rewrite Hc. cbn [of_option]. unfold put_data, modify. mred.
  set (data := mk_ext4_data _ _ _ _ _ _ _). set (v1 := set_ext _ (set_alloc a1 v)).
  destruct (kalloc_run v1 (<[q := n]> L) 1024 H1 Hk ltac:(done)) as [E2|(buf & n2 & a2 & E2 & Hb & Hn2 & HbL & H2)].
  { rewrite E2. rewrite Z.eqb_refl.
    destruct (kfree_live v1 (<[q := n]> L) q n H1 Hk (lookup_insert_eq _ _ _)) as (a3 & E3 & H3).
    rewrite E3. rewrite delete_insert_id in H3 by done. eexists. split_and!; [done|done|done|exact H3]. }
  rewrite E2. rewrite (proj2 (Z.eqb_neq _ _) Hb). unfold get_data at 1. cbn [ext set_ext set_alloc v1 e_datas].
  rewrite lookup_insert_eq. unfold read_superblock. cbn [partition_index data].
  rewrite (proj2 (Z.leb_le 0 _)) by lia. unfold on_disk, on_ext, zoom. mred. cbn [ext set_ext set_alloc v1 e_parts].
  rewrite Hread. cbn [negb Z.eqb]. set (v2 := set_ext _ _).
  destruct (on_mem_store v2 _ buf n2 bs H2 (lookup_insert_eq _ _ _) ltac:(lia) Hby) as (a3 & E3 & H3 & Hat).
  rewrite E3. cbn [negb Z.eqb].
  destruct (load_str_run bs buf i (al_ram a3) Hat Hi) as (str & Es & Hs).
  rewrite (on_mem_read (set_alloc a3 v2) _ str) by exact Es.
  destruct (magic_lost str ltac:(lia)) as (sb' & Esb & Hm). cbn [sb data]. rewrite Esb. cbn [of_option]. mred.
  set (v3 := set_ext _ (set_alloc a3 v2)).
  destruct (kfree_live v3 _ buf n2 H3 Hk (lookup_insert_eq _ _ _)) as (a4 & E4 & H4).
  rewrite E4. rewrite delete_insert_id in H4 by done. rewrite Hm. cbn [of_option]. mred. change (negb (0 =? 0xEF53)) with true. cbv iota beta.
  destruct (kfree_live (set_alloc a4 v3) _ q n H4 Hk (lookup_insert_eq _ _ _)) as (a5 & E5 & H5).
  rewrite E5. rewrite delete_insert_id in H5 by done. eexists. split_and!; [done|done|done|exact H5].
Qed.
End ext4_mount.

(** ** Witnesses *)

(** An inode with two extents: blocks 0 to 9 at 1000, blocks 10 to 14 at 5000. *)
Definition demo_inode : list Z :=
  [0xA4; 0x81; 0; 0; 0; 8; 0; 0] ++ replicate 24 0 ++ [0; 0; 8; 0] ++ replicate 4 0 ++
  [0x0A; 0xF3; 2; 0; 4; 0; 0; 0; 0; 0; 0; 0] ++
  [0; 0; 0; 0; 10; 0; 0; 0; 0xE8; 3; 0; 0] ++ [10; 0; 0; 0; 5; 0; 0; 0; 0x88; 0x13; 0; 0] ++
  replicate 80 0.

Lemma ext4_extents_correct_witness :
  (∃ k b hi lo, Z.of_nat k < 2 ∧ covers demo_inode 12 k ∧ (∀ j, (j < k)%nat → ¬ covers demo_inode 12 j) ∧
     ee_block k demo_inode = Some b ∧ ee_start_hi k demo_inode = Some hi ∧
     ee_start_lo k demo_inode = Some lo ∧
     ext4_get_block_from_extents demo_inode 12 = Some (lo + 2 ^ 32 * hi + (12 - b))) ∨
  (∀ k, Z.of_nat k < 2 → ¬ covers demo_inode 12 k) ∧ ext4_get_block_from_extents demo_inode 12 = Some 0.
Proof.
  apply (ext4_extents_correct demo_inode 12 EXT4_EXTENTS_FL 2).
  - eval_decide.
  - reflexivity.
  - reflexivity.
  - discriminate.
  - reflexivity.
  - reflexivity.
  - lia.
  - intros [|[|k]] b len Hk Eb El.
    + vm_compute in Eb, El. injection Eb as <-. injection El as <-. lia.
    + vm_compute in Eb, El. injection Eb as <-. injection El as <-. lia.
    + lia.
Defined.

(** A partition that starts at block 254 of the disk of [Partitions.v], whose sector 256 is
    all zeros. *)
Definition demo_zero_parts : part_state drive :=
  mk_part_state (replicate 16 (mk_partition 0x1F0 0 254 9 1)) 1
    (mk_drive demo_image (mk_taskfile (0, 0) (0, 0) (0, 0) (0, 0) 0) Idle).
Definition demo_ext4 : vfs kernel_memory unit (ext4_state drive) :=
  mk_vfs demo_used 1 ∅ ∅ ∅ ∅ [] (replicate 64 NULL) [] 0 NULL (-1) (mk_registry [] 0 ∅ tt)
    (mk_ext4_state ∅ demo_zero_parts).

Lemma demo_zero_read :
  ∃ s', partitions_read_sector (i8 48 - 48) 2 demo_zero_parts = Done (0, demo_image 256) s'.
Proof.
  change (i8 48 - 48) with 0. unfold partitions_read_sector, partitions_get, gets. mred.
  destruct (read_sector_run 0x1F0 0 (or_introl eq_refl) (hw demo_zero_parts) demo_image
    (dr_tf (hw demo_zero_parts)) 256) as (d' & t' & E & _).
  - reflexivity.
  - lia.
  - apply demo_image_sector.
  - apply demo_image_sector.
  - eexists. change (u64 (254 + 2)) with 256. unfold on_hw, zoom. cbn [ata_base ata_drive].
    change (partitions demo_zero_parts !! Z.to_nat 0) with (Some (mk_partition 0x1F0 0 254 9 1)).
    cbn [andb Z.leb Z.ltb Z.compare partition_count demo_zero_parts Pos.compare Pos.compare_cont p_size
         ata_base ata_drive start_lba].
    change (u64 (254 + 2)) with 256. mred. rewrite E. reflexivity.
Qed.

Lemma ext4_mount_rejects_witness : ∃ v',
  ext4_mount [] (Some (16, chars "ata0p0")) (chars "/mnt") 0 demo_ext4 = Done (-1) v' ∧
    nodes v' = ∅ ∧ mnts v' = [] ∧ al_live (alloc v') (live_blocks 4096 demo_blocks).
Proof.
  destruct demo_zero_read as [s' E].
  apply (ext4_mount_rejects [] demo_ext4 (live_blocks 4096 demo_blocks) 16 (chars "ata0p0") (chars "/mnt") 0 48
           (demo_image 256) s' 0).
  - exact demo_used_live.
  - discriminate.
  - exists (chars "0p0"). reflexivity.
  - reflexivity.
  - discriminate.
  - exact E.
  - apply demo_image_sector.
  - apply demo_image_sector.
  - reflexivity.
  - lia.
Defined.
