(* ===== verification/VfsInit.v ===== *)
(** * Bringing the file systems up, [core/fs/vfs/vfs_init.c]

    The boot loader's modules are given as the list of (path, bytes) of the response;
    [None] is a missing response. *)

From Stdlib Require Import ZArith Lia String.
From stdpp Require Import base gmap list numbers fin_maps.
From S2P Require Import Prelude Memory CString Alloc Module Vfs Tmpfs Devfs Ports Partitions Ext4.
Open Scope Z_scope.
Set Default Goal Selector "!".

Definition ROOTFS : str := chars "tmpfs".
Definition ROOT_MOUNT_DEFAULT : str := chars "/".
Definition TMP_DIRECTORY : str := chars "/tmp".
Definition DEVFS : str := chars "devfs".
Definition DEV_MOUNT_DEFAULT : str := chars "/dev".
Definition DEV_DIRECTORY : str := chars "/dev".
Definition _DEV : str := chars "/dev/".
Definition BOOT_DIRECTORY : str := chars "/boot".
Definition logpath : str := chars "/tmp/log".
Definition nl : str := [10].

Section vfs_init.
  Context {A W X : Type} `{!AllocOps A} `{!Backends (vfs A W X)}.
Abbreviation S := (vfs A W X).

(** [SYSTEM_PRINT_INT]: the number as an unsigned 32-bit decimal. *)
Definition SYSTEM_PRINT_INT (num : Z) : M S unit := SYSTEM_PRINT (u32_digits (u32 num)).

(** The part of a module's path after its last slash. *)
Fixpoint base_name (filename path : str) : str :=
  match path with
  | [] => filename
  | c :: path' => base_name (if c =? 47 then path' else filename) path'
  end.

(** One module of [load_limine_module]'s loop. *)
Definition load_module (module : str * list Z) : M S unit :=
  let '(path, bytes) := module in
  let vfs_path := chars "/boot/ui/assets/" ++ base_name path path in
  if 256 <=? Z.of_nat (length vfs_path) then fault else
  fd ← fs_open vfs_path (Z.lor O_CREAT O_WRONLY);
  if fd <? 0 then
    SYSTEM_PRINT (chars "  ERROR: cannot create ");;
    SYSTEM_PRINT vfs_path;;
    SYSTEM_PRINT nl
  else
  written ← fs_write fd bytes;
  _ ← fs_close fd;
  if 0 <? written then
    SYSTEM_PRINT (chars "  ");;
    SYSTEM_PRINT path;;
    SYSTEM_PRINT (chars " : ");;
    SYSTEM_PRINT vfs_path;;
    SYSTEM_PRINT (chars " with " ++ u32_digits (u32 written) ++ chars " bytes" ++ nl)
  else mret tt.

Fixpoint load_modules (modules : list (str * list Z)) : M S unit :=
  match modules with
  | [] => mret tt
  | module :: modules' => load_module module;; load_modules modules'
  end.

Definition load_limine_module (response : option (list (str * list Z))) : M S unit :=
  match response with
  | None | Some [] =>
      SYSTEM_PRINT (chars "[FS] ");;
      SYSTEM_PRINT (chars "no limine modules to copy" ++ nl)
  | Some modules =>
      SYSTEM_PRINT (chars "[FS] ");;
      SYSTEM_PRINT (chars "setting UI config..." ++ nl);;
      _ ← fs_mkdir (chars "/boot/ui");
      _ ← fs_mkdir (chars "/boot/ui/assets");
      SYSTEM_PRINT (chars "[FS] ");;
      SYSTEM_PRINT (chars "copying limine modules to VFS:" ++ nl);;
      load_modules modules
  end.

(** [fs_mkdir] of each path, its result ignored. *)
Fixpoint mkdirs (paths : list str) : M S unit :=
  match paths with
  | [] => mret tt
  | path :: paths' => _ ← fs_mkdir path; mkdirs paths'
  end.

Definition tmpfs_register : M S Z := fs_register Tmpfs.
Definition devfs_register : M S Z := fs_register Devfs.
Definition ext4_register : M S Z := fs_register Ext4.

Definition boot_directories : list str :=
  [DEV_DIRECTORY; TMP_DIRECTORY; BOOT_DIRECTORY; chars "/mnt"; chars "/home"; chars "/etc";
   chars "/bin"; chars "/usr"; chars "/usr/bin"; chars "/usr/lib"; chars "/var";
   chars "/var/log"; chars "/proc"; chars "/sys"; chars "/root"; chars "/opt"].

Definition fs_system_init (kernel_memory : Z) (response : option (list (str * list Z))) : M S unit :=
  modify (set_kmem kernel_memory);;
  fs_init;;
  _ ← tmpfs_register;
  _ ← devfs_register;
  _ ← ext4_register;
  SYSTEM_PRINT (chars "[FS] ");;
  SYSTEM_PRINT (chars "mounting roots: " ++ nl);;
  _ ← fs_mount None (Some ROOT_MOUNT_DEFAULT) (Some ROOTFS);
  mkdirs boot_directories;;
  fd ← fs_open logpath (Z.lor O_CREAT O_WRONLY);
  modify (set_boot_log fd);;
  if fd <? 0 then panic "Cannot open [logs]" else
  _ ← fs_mount None (Some DEV_MOUNT_DEFAULT) (Some DEVFS);
  load_limine_module response.

(** The component at [i] appears under [/dev] when its attachment point asks for it; the
    result is 1 for a device registered. *)
Definition register_mod (i : Z) : M S Z :=
  handler ← on_reg (component_at_position i);
  if handler =? NULL then mret 0 else
  h ← on_reg (deref_handler handler);
  match attachment_point h with
  | None => mret 0
  | Some path =>
      if bool_decide (_DEV `prefix_of` path)
      then r ← devfs_register_device handler; mret (b2z (r =? 0))
      else mret 0
  end.

Fixpoint register_mods (n : nat) (i dev_cnt : Z) : M S Z :=
  match n with
  | O => mret dev_cnt
  | Datatypes.S n' => r ← register_mod i; register_mods n' (i + 1) (dev_cnt + r)
  end.

Definition fs_register_mods : M S unit :=
  total ← on_reg count_components;
  SYSTEM_PRINT (chars "[FS] ");;
  SYSTEM_PRINT (chars "scann modules:" ++ nl);;
  dev_cnt ← register_mods (Z.to_nat total) 0 0;
  SYSTEM_PRINT (chars "[FS] ");;
  SYSTEM_PRINT (chars "registered ");;
  SYSTEM_PRINT_INT dev_cnt;;
  SYSTEM_PRINT (chars " device(s)" ++ nl).

Definition fs_create_test_file : M S unit :=
  fd ← fs_open (chars "/tmp/t") (Z.lor O_CREAT O_WRONLY);
  if fd <? 0 then
    SYSTEM_PRINT (chars "[FS] ");;
    SYSTEM_PRINT (chars "failed to create file" ++ nl)
  else
  _ ← fs_close fd;
  SYSTEM_PRINT (chars "[FS] ");;
  SYSTEM_PRINT (chars "created ");;
  SYSTEM_PRINT (chars "/tmp/t");;
  SYSTEM_PRINT nl.
End vfs_init.

(** The tables the kernel links in; [stack] is what an uninitialised inode on the stack holds. *)
Definition kernel_backends {A W D} `{!AllocOps A} `{!PortIO D} (stack : list Z) :
    Backends (vfs A W (ext4_state D)) := {|
  ops_of i := match i with Tmpfs => tmpfs_ops | Devfs => devfs_ops | Ext4 => ext4_ops stack end;
  type_of i := match i with Tmpfs => tmpfs | Devfs => devfs | Ext4 => ext4_type stack end;
|}.
