(* ===== verification/Sched.v ===== *)
(** * Processors and tasks: [core/kernel/cpu/smp.c], [per_cpu.c], [spinlock.c] and
    [core/kernel/processes/scheduler.c]

    A task pointer is an index into [task_pool], [None] for the null pointer.  The code of
    a task is its entry address.  The model runs one processor, the one with the APIC
    number [apic_now]; a lock that is taken makes it spin for ever.  Of a context the model
    keeps the return address, without which a switch does not come back: a task that has run
    before goes on where it was, which [switches] records, and a new one, whose context nobody
    fills, makes the processor return to address 0.  Switching to the idle task does not return
    either, because the scheduler calls its halt loop. *)

From Stdlib Require Import ZArith Lia String.
From stdpp Require Import base gmap list numbers fin_maps.
From S2P Require Import Prelude.
Open Scope Z_scope.
Set Default Goal Selector "!".

Definition MAX_CPUS : Z := 256.
Definition MAX_TASK_COUNT : Z := 256.
Definition MAX_PRIORITY_LEVELS : Z := 32.
Definition UINT32_MAX : Z := 2 ^ 32 - 1.
Definition STACK_WORDS : Z := 1024.
Definition time_slice_ticks : Z := 10.
(** The address of [idle_task_entry]. *)
Definition IDLE_ENTRY : Z := 1.
(** The address behind the call of [perform_task_switch], and the word of a context where the
    assembly saves it. *)
Definition AFTER_SWITCH : Z := 2.
Definition RETURN_WORD : nat := 17.

Inductive task_status_t :=
| TASK_STATE_READY | TASK_STATE_RUNNING | TASK_STATE_BLOCKED | TASK_STATE_TERMINATED.
#[global] Instance task_status_eq_dec : EqDecision task_status_t.
Proof. solve_decision. Defined.

Record task_t := mk_task {
  identifier : Z;
  status : task_status_t;
  priority_level : Z;
  stack_pointer : Z;      (* an index into [task_stacks], as is [stack_start] *)
  stack_start : Z;
  stack_capacity : Z;
  start_function : Z;
  execution_context : list Z;
  task_name : str;
  remaining_ticks : Z;
  assigned_cpu : Z;
}.

Record task_queue_t := mk_queue {
  task_list : list (option nat);
  item_count : Z;
  start_index : Z;
  end_index : Z;
}.

Record cpu_t := mk_cpu { c_apic_id : Z; processor_id : Z; enabled : Z; online : Z }.

(** The members the code uses. *)
Record per_cpu_data_t := mk_pcpu {
  cpu_id : Z;
  apic_id : Z;
  is_online : Z;
  current_task : option nat;
  idle_task : option nat;
  ready_queues : list task_queue_t;
  locked : Z;
  task_count : Z;
}.

(** [cpu_list] holds the [cpu_count] processors found; [task_stacks] the words of all the
    stacks, one array after the other. *)
Record sched := mk_sched {
  cpu_list : list cpu_t;
  per_cpu_data : list per_cpu_data_t;
  task_pool : list task_t;
  next_task_id : Z;
  stack_index : Z;
  task_stacks : gmap Z Z;
  apic_now : Z;
  switches : list (option nat * nat);
}.

Definition cpu_count (s : sched) : Z := Z.of_nat (length (cpu_list s)).

Definition set_cpu_list l s := mk_sched l (per_cpu_data s) (task_pool s) (next_task_id s) (stack_index s) (task_stacks s) (apic_now s) (switches s).
Definition set_per_cpu l s := mk_sched (cpu_list s) l (task_pool s) (next_task_id s) (stack_index s) (task_stacks s) (apic_now s) (switches s).
Definition set_pool l s := mk_sched (cpu_list s) (per_cpu_data s) l (next_task_id s) (stack_index s) (task_stacks s) (apic_now s) (switches s).
Definition set_ids n i s := mk_sched (cpu_list s) (per_cpu_data s) (task_pool s) n i (task_stacks s) (apic_now s) (switches s).
Definition set_stacks m s := mk_sched (cpu_list s) (per_cpu_data s) (task_pool s) (next_task_id s) (stack_index s) m (apic_now s) (switches s).
Definition set_switches l s := mk_sched (cpu_list s) (per_cpu_data s) (task_pool s) (next_task_id s) (stack_index s) (task_stacks s) (apic_now s) l.

(** [*task], [per_cpu_data[i]], and assignments to them. *)
Definition get_task (t : nat) : M sched task_t := λ s,
  match task_pool s !! t with Some x => Done x s | None => Stuck Fault end.
Definition put_task (t : nat) (x : task_t) : M sched unit := modify (λ s, set_pool (<[t := x]> (task_pool s)) s).
Definition get_pcpu (i : nat) : M sched per_cpu_data_t := λ s,
  match per_cpu_data s !! i with Some x => Done x s | None => Stuck Fault end.
Definition put_pcpu (i : nat) (x : per_cpu_data_t) : M sched unit :=
  modify (λ s, set_per_cpu (<[i := x]> (per_cpu_data s)) s).

Definition set_status (st : task_status_t) (x : task_t) : task_t :=
  mk_task (identifier x) st (priority_level x) (stack_pointer x) (stack_start x) (stack_capacity x) (start_function x) (execution_context x) (task_name x) (remaining_ticks x) (assigned_cpu x).
Definition set_ticks (n : Z) (x : task_t) : task_t :=
  mk_task (identifier x) (status x) (priority_level x) (stack_pointer x) (stack_start x) (stack_capacity x) (start_function x) (execution_context x) (task_name x) n (assigned_cpu x).
Definition set_context (l : list Z) (x : task_t) : task_t :=
  mk_task (identifier x) (status x) (priority_level x) (stack_pointer x) (stack_start x) (stack_capacity x) (start_function x) l (task_name x) (remaining_ticks x) (assigned_cpu x).
Definition set_current (t : option nat) (c : per_cpu_data_t) : per_cpu_data_t :=
  mk_pcpu (cpu_id c) (apic_id c) (is_online c) t (idle_task c) (ready_queues c) (locked c) (task_count c).
Definition set_idle (t : option nat) (c : per_cpu_data_t) : per_cpu_data_t :=
  mk_pcpu (cpu_id c) (apic_id c) (is_online c) (current_task c) t (ready_queues c) (locked c) (task_count c).
Definition set_queues (q : list task_queue_t) (c : per_cpu_data_t) : per_cpu_data_t :=
  mk_pcpu (cpu_id c) (apic_id c) (is_online c) (current_task c) (idle_task c) q (locked c) (task_count c).
Definition set_locked (l : Z) (c : per_cpu_data_t) : per_cpu_data_t :=
  mk_pcpu (cpu_id c) (apic_id c) (is_online c) (current_task c) (idle_task c) (ready_queues c) l (task_count c).
Definition set_task_count (n : Z) (c : per_cpu_data_t) : per_cpu_data_t :=
  mk_pcpu (cpu_id c) (apic_id c) (is_online c) (current_task c) (idle_task c) (ready_queues c) (locked c) n.
Definition set_online (b : Z) (c : per_cpu_data_t) : per_cpu_data_t :=
  mk_pcpu (cpu_id c) (apic_id c) b (current_task c) (idle_task c) (ready_queues c) (locked c) (task_count c).

(** ** [spinlock.c], on the lock word *)

Definition spinlock_init : Z := 0.
(** A taken lock is never released by anyone else here: the loop spins for ever. *)
Definition spinlock_acquire (locked : Z) : outcome Z unit := if locked =? 0 then Done tt 1 else Stuck Halted.
Definition spinlock_release (locked : Z) : outcome Z unit := Done tt 0.
Definition spinlock_try_acquire (locked : Z) : Z * Z := if locked =? 0 then (1, 1) else (0, locked).
Definition spinlock_is_locked (locked : Z) : Z := b2z (negb (locked =? 0)).

Definition with_lock (i : nat) (m : Z → outcome Z unit) : M sched unit :=
  c ← get_pcpu i;
  match m (locked c) with
  | Done _ l => put_pcpu i (set_locked l c)
  | Stuck w => stuck_with w
  end.

(** ** [smp.c] *)

Definition smp_add_cpu (apic processor : Z) : M sched unit := λ s,
  if MAX_CPUS <=? cpu_count s then Done tt s
  else Done tt (set_cpu_list (cpu_list s ++ [mk_cpu apic processor 1 0]) s).

Fixpoint smp_add_cpus (cpus : list (Z * Z)) : M sched unit :=
  match cpus with
  | [] => mret tt
  | (apic, processor) :: cpus' => smp_add_cpu apic processor;; smp_add_cpus cpus'
  end.

(** [response] is the boot loader's list of processors; its messages are left out. *)
Definition smp_init (response : option (list (Z * Z))) : M sched unit :=
  modify (set_cpu_list []);;
  match response with
  | Some ((_ :: _) as cpus) => smp_add_cpus cpus
  | _ => s ← get; smp_add_cpu (apic_now s) 0
  end;;
  modify (λ s, set_cpu_list
    (match cpu_list s with
     | [] => []
     | c :: l => mk_cpu (c_apic_id c) (processor_id c) (enabled c) 1 :: l
     end) s).

Definition smp_get_cpu_count : M sched Z := gets cpu_count.
Definition smp_get_online_cpus : M sched Z :=
  gets (λ s, Z.of_nat (length (filter (λ c, online c ≠ 0) (cpu_list s)))).
Definition smp_get_current_apic_id : M sched Z := gets apic_now.

(** ** [per_cpu.c] *)

Definition initialize_task_queue : task_queue_t :=
  mk_queue (replicate (Z.to_nat MAX_TASK_COUNT) None) 0 0 0.

Fixpoint per_cpu_entries (i : Z) (l : list cpu_t) : list per_cpu_data_t :=
  match l with
  | [] => []
  | c :: l' =>
      mk_pcpu i (c_apic_id c) (online c) None None
        (replicate (Z.to_nat MAX_PRIORITY_LEVELS) initialize_task_queue) spinlock_init 0
      :: per_cpu_entries (i + 1) l'
  end.

(** The entries past the processors found are all zero and not reachable. *)
Definition per_cpu_init : M sched unit := modify (λ s, set_per_cpu (per_cpu_entries 0 (cpu_list s)) s).

Definition per_cpu_get (id : Z) : M sched (option nat) :=
  gets (λ s, if cpu_count s <=? id then None else Some (Z.to_nat id)).

Fixpoint find_apic (i : nat) (l : list per_cpu_data_t) (apic : Z) : option nat :=
  match l with
  | [] => None
  | c :: l' => if apic_id c =? apic then Some i else find_apic (i + 1) l' apic
  end.

Definition per_cpu_current : M sched (option nat) :=
  gets (λ s, find_apic 0 (take (length (cpu_list s)) (per_cpu_data s)) (apic_now s)).

Definition per_cpu_set_online (id online : Z) : M sched unit :=
  s ← get;
  if cpu_count s <=? id then mret tt else
  c ← get_pcpu (Z.to_nat id);
  put_pcpu (Z.to_nat id) (set_online online c).

(** ** The queues of [scheduler.c] *)

(** An index outside the array faults. *)
Definition task_queue_push (queue : task_queue_t) (task : nat) : option task_queue_t :=
  if MAX_TASK_COUNT <=? item_count queue then Some queue else
  if (0 <=? end_index queue) && (end_index queue <? Z.of_nat (length (task_list queue))) then
    Some (mk_queue (<[Z.to_nat (end_index queue) := Some task]> (task_list queue))
            (u32 (item_count queue + 1)) (start_index queue)
            (u32 (end_index queue + 1) mod MAX_TASK_COUNT))
  else None.

Definition task_queue_pop (queue : task_queue_t) : option (option nat * task_queue_t) :=
  if item_count queue =? 0 then Some (None, queue) else
  if (0 <=? start_index queue) && (start_index queue <? Z.of_nat (length (task_list queue))) then
    Some (default None (task_list queue !! Z.to_nat (start_index queue)),
      mk_queue (<[Z.to_nat (start_index queue) := None]> (task_list queue))
        (item_count queue - 1) (u32 (start_index queue + 1) mod MAX_TASK_COUNT) (end_index queue))
  else None.

(** The first queue with an item gives it up; the queues afterwards. *)
Fixpoint task_queue_pop_priority (queues : list task_queue_t) : option (option nat * list task_queue_t) :=
  match queues with
  | [] => Some (None, [])
  | q :: queues' =>
      if 0 <? item_count q then
        '(t, q') ← task_queue_pop q; Some (t, q' :: queues')
      else
        '(t, qs) ← task_queue_pop_priority queues'; Some (t, q :: qs)
  end.

(** [task_queue_push(&pcpu->ready_queues[priority], task)]: a priority past the 32 queues
    is outside the array. *)
Definition push_ready (i : nat) (priority : Z) (task : nat) : M sched unit :=
  c ← get_pcpu i;
  q ← of_option (ready_queues c !! Z.to_nat priority);
  q' ← of_option (task_queue_push q task);
  put_pcpu i (set_queues (<[Z.to_nat priority := q']> (ready_queues c)) c).

(** ** Tasks *)

(** The loop that picks the online processor with the fewest tasks. *)
Fixpoint least_loaded (i : nat) (l : list per_cpu_data_t) (min_count : Z) (target : option nat) : option nat :=
  match l with
  | [] => target
  | c :: l' =>
      if negb (is_online c =? 0) && (task_count c <? min_count)
      then least_loaded (i + 1) l' (task_count c) (Some i)
      else least_loaded (i + 1) l' min_count target
  end.

Fixpoint free_task (i : nat) (l : list task_t) : option nat :=
  match l with
  | [] => None
  | t :: l' =>
      if bool_decide (status t = TASK_STATE_TERMINATED) || (identifier t =? 0)
      then Some i else free_task (i + 1) l'
  end.

(** [*(sp--) = w] for the words in turn; a word outside the stacks faults. *)
Fixpoint push_words (sp : Z) (ws : list Z) : M sched Z :=
  match ws with
  | [] => mret sp
  | w :: ws' =>
      if (0 <=? sp) && (sp <? MAX_TASK_COUNT * STACK_WORDS) then
        modify (λ s, set_stacks (<[sp := w]> (task_stacks s)) s);;
        push_words (sp - 1) ws'
      else fault
  end.

Definition create_new_task (name : str) (entry priority stack_size : Z) : M sched (option nat) :=
  s ← get;
  current ← per_cpu_current;
  let target := match least_loaded 0 (take (length (cpu_list s)) (per_cpu_data s)) UINT32_MAX None with
                | Some i => Some i
                | None => current
                end in
  match free_task 0 (task_pool s) with
  | None => mret None
  | Some t =>
      if MAX_TASK_COUNT <=? stack_index s then mret None else
      i ← of_option target;
      c ← get_pcpu i;
      x ← get_task t;
      if 32 <=? Z.of_nat (length name) then fault else
      let base := stack_index s * STACK_WORDS in
      sp ← push_words (base + stack_size / 8 - 1) [entry; 0; 0; 0; 0; 0; 0; 0x202];
      put_task t (mk_task (next_task_id s) TASK_STATE_READY priority sp base stack_size entry
                    (execution_context x) name time_slice_ticks (cpu_id c));;
      modify (set_ids (u32 (next_task_id s + 1)) (stack_index s + 1));;
      with_lock i spinlock_acquire;;
      push_ready i priority t;;
      c ← get_pcpu i;
      put_pcpu i (set_task_count (u32 (task_count c + 1)) c);;
      with_lock i spinlock_release;;
      mret (Some t)
  end.

(** [while (1) hlt;] *)
Definition idle_task_entry : M sched unit := stuck_with Halted.

(** [scheduler.asm]: the context of the old task is saved, that of the next one loaded.  The
    stack pointer goes behind the array of twenty words, into the name of the task. *)
Definition perform_task_switch (old : option nat) (next : nat) : M sched unit :=
  match old with
  | None => mret tt
  | Some o => x ← get_task o; put_task o (set_context (<[RETURN_WORD := AFTER_SWITCH]> (execution_context x)) x)
  end;;
  x ← get_task next;
  if nth RETURN_WORD (execution_context x) 0 =? 0 then fault
  else modify (λ s, set_switches (switches s ++ [(old, next)]) s).

Definition perform_scheduling : M sched unit :=
  pcpu ← per_cpu_current;
  match pcpu with
  | None => mret tt
  | Some i =>
      with_lock i spinlock_acquire;;
      c ← get_pcpu i;
      '(popped, qs) ← of_option (task_queue_pop_priority (ready_queues c));
      put_pcpu i (set_queues qs c);;
      with_lock i spinlock_release;;
      c ← get_pcpu i;
      next ← of_option (match popped with Some t => Some t | None => idle_task c end);
      if bool_decide (current_task c = Some next) then
        x ← get_task next; put_task next (set_ticks time_slice_ticks x)
      else
      let old := current_task c in
      match old with
      | None => mret tt
      | Some o =>
          x ← get_task o;
          if bool_decide (status x = TASK_STATE_RUNNING) then
            put_task o (set_status TASK_STATE_READY x);;
            with_lock i spinlock_acquire;;
            push_ready i (priority_level x) o;;
            with_lock i spinlock_release
          else mret tt
      end;;
      c ← get_pcpu i;
      put_pcpu i (set_current (Some next) c);;
      x ← get_task next;
      put_task next (set_ticks time_slice_ticks (set_status TASK_STATE_RUNNING x));;
      c ← get_pcpu i;
      if bool_decide (idle_task c = Some next) then idle_task_entry
      else perform_task_switch old next
  end.

(** The queues of the processor are emptied, a task made for its idle loop and started. *)
Definition start_scheduler (name : str) : M sched unit :=
  pcpu ← per_cpu_current;
  match pcpu with
  | None => stuck_with Halted
  | Some i =>
      c ← get_pcpu i;
      put_pcpu i (set_queues (replicate (Z.to_nat MAX_PRIORITY_LEVELS) initialize_task_queue) c);;
      t ← create_new_task name IDLE_ENTRY 0 4096;
      c ← get_pcpu i;
      put_pcpu i (set_idle t c);;
      match t with
      | None => stuck_with Halted
      | Some t =>
          c ← get_pcpu i;
          put_pcpu i (set_current (Some t) c);;
          x ← get_task t;
          put_task t (set_status TASK_STATE_RUNNING x)
      end
  end.
Definition initialize_scheduler : M sched unit := start_scheduler (chars "idle").
Definition initialize_ap_scheduler : M sched unit := start_scheduler (chars "idle_ap").

(** The processor's current task, when there are both. *)
Definition current_of : M sched (option nat) :=
  pcpu ← per_cpu_current;
  match pcpu with
  | None => mret None
  | Some i => c ← get_pcpu i; mret (current_task c)
  end.

Definition yield_current_task : M sched unit :=
  t ← current_of;
  match t with None => mret tt | Some _ => perform_scheduling end.

Definition handle_scheduler_timer : M sched unit :=
  t ← current_of;
  match t with
  | None => mret tt
  | Some t =>
      x ← get_task t;
      let ticks := if 0 <? remaining_ticks x then remaining_ticks x - 1 else remaining_ticks x in
      put_task t (set_ticks ticks x);;
      if ticks =? 0 then perform_scheduling else mret tt
  end.

Definition get_current_task : M sched (option nat) := current_of.

Definition block_current_task : M sched unit :=
  t ← current_of;
  match t with
  | None => mret tt
  | Some t =>
      x ← get_task t;
      put_task t (set_status TASK_STATE_BLOCKED x);;
      perform_scheduling
  end.

Definition unblock_task (task : option nat) : M sched unit :=
  match task with
  | None => mret tt
  | Some t =>
      x ← get_task t;
      if bool_decide (status x ≠ TASK_STATE_BLOCKED) then mret tt else
      target ← per_cpu_get (assigned_cpu x);
      match target with
      | None => mret tt
      | Some i =>
          with_lock i spinlock_acquire;;
          put_task t (set_status TASK_STATE_READY x);;
          push_ready i (priority_level x) t;;
          with_lock i spinlock_release
      end
  end.

Definition terminate_task (task : option nat) : M sched unit :=
  match task with
  | None => mret tt
  | Some t =>
      x ← get_task t;
      put_task t (set_status TASK_STATE_TERMINATED x);;
      target ← per_cpu_get (assigned_cpu x);
      match target with
      | None => mret tt
      | Some i => c ← get_pcpu i; put_pcpu i (set_task_count (u32 (task_count c - 1)) c)
      end;;
      pcpu ← per_cpu_current;
      match pcpu with
      | None => mret tt
      | Some i =>
          c ← get_pcpu i;
          if bool_decide (current_task c = Some t) then
            put_pcpu i (set_current None c);; perform_scheduling
          else mret tt
      end
  end.

(** ** The queues are first-in first-out *)

(** The queue holds the tasks [l], first to last. *)
Record queue_rep (q : task_queue_t) (l : list nat) : Prop := {
  qr_len : length (task_list q) = 256%nat;
  qr_count : item_count q = Z.of_nat (length l);
  qr_max : (length l ≤ 256)%nat;
  qr_start : 0 ≤ start_index q < 256;
  qr_end : end_index q = (start_index q + Z.of_nat (length l)) mod 256;
  qr_items : ∀ i t, l !! i = Some t →
    task_list q !! Z.to_nat ((start_index q + Z.of_nat i) mod 256) = Some (Some t);
}.

(** The abstract queue: 256 places, a push into a full one is lost. *)
Inductive queue_op := Push (t : nat) | Pop.

Definition fifo_step (op : queue_op) (l : list nat) : option nat * list nat :=
  match op with
  | Push t => (None, if (256 <=? length l)%nat then l else l ++ [t])
  | Pop => (head l, tail l)
  end.
Fixpoint fifo_run (ops : list queue_op) (l : list nat) : list (option nat) * list nat :=
  match ops with
  | [] => ([], l)
  | op :: ops' =>
      let '(r, l1) := fifo_step op l in
      let '(rs, l2) := fifo_run ops' l1 in (r :: rs, l2)
  end.

Definition queue_step (op : queue_op) (q : task_queue_t) : option (option nat * task_queue_t) :=
  match op with
  | Push t => q' ← task_queue_push q t; Some (None, q')
  | Pop => task_queue_pop q
  end.
Fixpoint queue_run (ops : list queue_op) (q : task_queue_t) : option (list (option nat) * task_queue_t) :=
  match ops with
  | [] => Some ([], q)
  | op :: ops' =>
      '(r, q1) ← queue_step op q;
      '(rs, q2) ← queue_run ops' q1;
      Some (r :: rs, q2)
  end.

Lemma queue_rep_init : queue_rep initialize_task_queue [].
Proof. constructor; [done|done|simpl; lia|cbn; lia|done|done]. Qed.

Lemma mod_shift a b : (a mod 256 + b) mod 256 = (a + b) mod 256.
Proof. by rewrite Zplus_mod_idemp_l. Qed.

(** Two places of the ring that are less than 256 apart differ. *)
Lemma ring_inj s i j : 0 ≤ i < 256 → 0 ≤ j < 256 → (s + i) mod 256 = (s + j) mod 256 → i = j.
Proof. intros Hi Hj E. Z.div_mod_to_equations. lia. Qed.

Lemma u32_small z : 0 ≤ z < 2 ^ 32 → u32 z = z.
Proof. apply Z.mod_small. Qed.

Lemma push_rep q l t : queue_rep q l →
  ∃ q', task_queue_push q t = Some q' ∧ queue_rep q' (fifo_step (Push t) l).2.
Proof.
  intros [Hl Hc Hm Hs He Hi]. unfold task_queue_push, MAX_TASK_COUNT. cbn [fifo_step snd].
  destruct (Nat.leb_spec 256 (length l)).
  { rewrite (proj2 (Z.leb_le _ _)) by lia. exists q. done. }
  rewrite (proj2 (Z.leb_gt _ _)) by lia.
  pose proof (Z.mod_pos_bound (start_index q + Z.of_nat (length l)) 256 ltac:(lia)) as Hb.
  rewrite <-He in Hb. rewrite (proj2 (Z.leb_le _ _)), (proj2 (Z.ltb_lt _ _)) by lia. cbn [andb].
  eexists. split; [done|]. constructor; cbn [task_list item_count start_index end_index].
  - by rewrite length_insert.
  - rewrite u32_small, length_app; simpl; lia.
  - rewrite length_app. simpl. lia.
  - done.
  - rewrite u32_small by lia. rewrite He, mod_shift, length_app. simpl. f_equal. lia.
  - intros i x [Hx|[Hge Hx]]%lookup_app_Some.
    + pose proof (lookup_lt_Some _ _ _ Hx). rewrite list_lookup_insert_ne; [by apply Hi|].
      rewrite He. intros E. apply Z2Nat.inj in E; try (apply Z.mod_pos_bound; lia).
      apply ring_inj in E; lia.
    + apply list_lookup_singleton_Some in Hx as [Hx <-].
      assert (i = length l) as -> by lia. rewrite <-He. apply list_lookup_insert_eq. lia.
Qed.

Lemma pop_rep q l : queue_rep q l →
  ∃ q', task_queue_pop q = Some (head l, q') ∧ queue_rep q' (tail l).
Proof.
  intros Hq. pose proof Hq as [Hl Hc Hm Hs He Hi]. unfold task_queue_pop.
  destruct l as [|t l]; cbn [head tail].
  { rewrite Hc. exists q. done. }
  rewrite (proj2 (Z.eqb_neq _ _)) by (simpl in Hc; lia).
  rewrite (proj2 (Z.leb_le _ _)), (proj2 (Z.ltb_lt _ _)) by lia. cbn [andb].
  pose proof (Hi 0%nat t eq_refl) as H0. rewrite Z.add_0_r, Z.mod_small in H0 by lia. rewrite H0.
  cbn [default from_option id]. eexists. split; [done|].
  constructor; cbn [task_list item_count start_index end_index length] in *.
  - by rewrite length_insert.
  - lia.
  - lia.
  - rewrite u32_small by lia. apply Z.mod_pos_bound. unfold MAX_TASK_COUNT. lia.
  - rewrite u32_small by lia. unfold MAX_TASK_COUNT. rewrite He, mod_shift. f_equal. lia.
  - intros i x Hx. rewrite u32_small by lia. unfold MAX_TASK_COUNT. rewrite mod_shift.
    pose proof (lookup_lt_Some _ _ _ Hx). rewrite list_lookup_insert_ne.
    + rewrite <-(Hi (Datatypes.S i) x Hx). do 2 f_equal. f_equal. lia.
    + intros E. apply (f_equal Z.of_nat) in E. rewrite Z2Nat.id in E by lia.
      rewrite Z2Nat.id in E by (apply Z.mod_pos_bound; lia).
      rewrite <-(Z.mod_small (start_index q) 256), <-(Z.add_0_r (start_index q)) in E at 1 by lia.
      rewrite <-Z.add_assoc in E. apply ring_inj in E; lia.
Qed.

(** C22: The ready queues refine a bounded first-in first-out queue: any sequence of pushes
    and pops on a ring of 256 places that holds the tasks [l] stays inside the array,
    gives the answers of the list [l], and ends in a ring that holds the final list. *)
Theorem task_queue_refines_fifo ops q l (Hrep : queue_rep q l) :
  ∃ q', queue_run ops q = Some ((fifo_run ops l).1, q') ∧ queue_rep q' (fifo_run ops l).2.
Proof.
  revert q l Hrep; induction ops as [|[t|] ops IH]; intros q l Hrep; cbn [queue_run fifo_run queue_step].
  - by exists q.
  - destruct (push_rep q l t Hrep) as (q1 & E1 & H1). rewrite E1. cbn [mbind option_bind fifo_step].
    cbn [fifo_step snd] in H1. destruct (IH _ _ H1) as (q2 & E2 & H2). rewrite E2.
    destruct (fifo_run ops _). cbn in *. eauto.
  - destruct (pop_rep q l Hrep) as (q1 & E1 & H1). rewrite E1. cbn [mbind option_bind fifo_step].
    destruct (IH _ _ H1) as (q2 & E2 & H2). rewrite E2. destruct (fifo_run ops _). cbn in *. eauto.
Qed.

Lemma task_queue_refines_fifo_witness :
  ∃ q', queue_run [Push 3; Push 5; Pop; Push 7; Pop; Pop; Pop] initialize_task_queue
          = Some ([None; None; Some 3%nat; None; Some 5%nat; Some 7%nat; None], q') ∧ queue_rep q' [].
Proof. apply (task_queue_refines_fifo [Push 3; Push 5; Pop; Push 7; Pop; Pop; Pop] _ [] queue_rep_init). Defined.

(** ** Round robin *)

Lemma pop_priority_run (qs : list task_queue_t) p q t l :
  (∀ j q0, (j < p)%nat → qs !! j = Some q0 → item_count q0 = 0) → qs !! p = Some q →
  queue_rep q (t :: l) →
  ∃ q', task_queue_pop_priority qs = Some (Some t, <[p := q']> qs) ∧ queue_rep q' l.
Proof.
  revert p; induction qs as [|q0 qs IH]; intros [|p] Hlow Hp Hq; [done|done|..].
  - injection Hp as ->. cbn [task_queue_pop_priority].
    destruct (pop_rep q (t :: l) Hq) as (q' & E & Hq'). exists q'.
    pose proof (qr_count _ _ Hq). rewrite (proj2 (Z.ltb_lt _ _)) by (simpl in *; lia).
    rewrite E. done.
  - cbn [task_queue_pop_priority].
    destruct (IH p) as (q' & E & Hq'); [|done|done|].
    { intros j q1 Hj. apply (Hlow (S j)). lia. }
    exists q'. rewrite (Hlow 0%nat q0 ltac:(lia) eq_refl). rewrite E. done.
Qed.

(** The states in which only processor [i] and the tasks differ from [s]. *)
Section at_cpu.
  Context (s : sched) (i : nat) (pc : per_cpu_data_t) (Hpc : per_cpu_data s !! i = Some pc).

Definition at_cpu (c : per_cpu_data_t) (pool : list task_t) : sched :=
  set_pool pool (set_per_cpu (<[i := c]> (per_cpu_data s)) s).

Lemma at_cpu_start : at_cpu pc (task_pool s) = s.
Proof. unfold at_cpu. cbn. rewrite (list_insert_id _ _ _ Hpc). by destruct s. Qed.

Lemma get_pcpu_at c pool : get_pcpu i (at_cpu c pool) = Done c (at_cpu c pool).
Proof.
  unfold get_pcpu, at_cpu. cbn. rewrite list_lookup_insert_eq; [done|]. by eapply lookup_lt_Some.
Qed.

Lemma put_pcpu_at c c' pool : put_pcpu i c' (at_cpu c pool) = Done tt (at_cpu c' pool).
Proof. unfold put_pcpu, modify, at_cpu, set_per_cpu, set_pool. cbn. by rewrite list_insert_insert_eq. Qed.

Lemma get_task_at t x c pool : pool !! t = Some x → get_task t (at_cpu c pool) = Done x (at_cpu c pool).
Proof. intros Hx. unfold get_task, at_cpu. cbn. by rewrite Hx. Qed.

Lemma put_task_at t x c pool : put_task t x (at_cpu c pool) = Done tt (at_cpu c (<[t := x]> pool)).
Proof. done. Qed.

Lemma acquire_at c pool : locked c = 0 →
  with_lock i spinlock_acquire (at_cpu c pool) = Done tt (at_cpu (set_locked 1 c) pool).
Proof.
  intros Hl. unfold with_lock. mred. rewrite get_pcpu_at. unfold spinlock_acquire. rewrite Hl.
  cbn [Z.eqb]. apply put_pcpu_at.
Qed.

Lemma acquire_start : locked pc = 0 →
  with_lock i spinlock_acquire s = Done tt (at_cpu (set_locked 1 pc) (task_pool s)).
Proof. intros Hl. rewrite <-(acquire_at _ _ Hl). by rewrite at_cpu_start. Qed.

Lemma release_at c pool :
  with_lock i spinlock_release (at_cpu c pool) = Done tt (at_cpu (set_locked 0 c) pool).
Proof. unfold with_lock. mred. rewrite get_pcpu_at. apply put_pcpu_at. Qed.

Lemma push_ready_at p t c q l pool :
  ready_queues c !! p = Some q → queue_rep q l → (length l < 256)%nat →
  ∃ q', push_ready i (Z.of_nat p) t (at_cpu c pool)
      = Done tt (at_cpu (set_queues (<[p := q']> (ready_queues c)) c) pool) ∧ queue_rep q' (l ++ [t]).
Proof.
  intros Hp Hq Hl. destruct (push_rep q l t Hq) as (q' & E & Hq'). exists q'.
  cbn [fifo_step snd] in Hq'. rewrite (proj2 (Nat.leb_gt _ _)) in Hq' by lia. split; [|done].
  unfold push_ready. mred. rewrite get_pcpu_at, Nat2Z.id, Hp. cbn [of_option]. mred. rewrite E.
  cbn [of_option]. mred. apply put_pcpu_at.
Qed.
End at_cpu.

(** Only the APIC numbers decide which processor is the current one. *)
Lemma find_apic_ext i l l' a : apic_id <$> l = apic_id <$> l' → find_apic i l a = find_apic i l' a.
Proof.
  revert i l'; induction l as [|c l IH]; intros i [|c' l'] E; try done.
  injection E as E0 E. cbn [find_apic]. rewrite E0. destruct (_ =? a); [done|]. by apply IH.
Qed.

Lemma find_apic_insert n i k c c' l a :
  l !! k = Some c → apic_id c' = apic_id c →
  find_apic i (take n (<[k := c']> l)) a = find_apic i (take n l) a.
Proof.
  intros Hk E. apply find_apic_ext. rewrite !fmap_take, list_fmap_insert. f_equal.
  apply list_insert_id. by rewrite list_lookup_fmap, Hk, E.
Qed.

(** Task [c] runs on processor [i], the tasks [l] wait in its queue of level [p], and no
    queue in front of it has a task; the idle task is none of them. *)
Record robin (s : sched) (i p c : nat) (l : list nat) : Prop := {
  rb_cur : find_apic 0 (take (length (cpu_list s)) (per_cpu_data s)) (apic_now s) = Some i;
  rb_pcpu : ∃ pc q, per_cpu_data s !! i = Some pc ∧ locked pc = 0 ∧ current_task pc = Some c ∧
    (∀ t, idle_task pc = Some t → t ∉ c :: l) ∧
    (∀ j q0, (j < p)%nat → ready_queues pc !! j = Some q0 → item_count q0 = 0) ∧
    ready_queues pc !! p = Some q ∧ queue_rep q l;
  rb_tasks : ∀ t, t ∈ c :: l → ∃ x, task_pool s !! t = Some x ∧ priority_level x = Z.of_nat p ∧
    (RETURN_WORD < length (execution_context x))%nat ∧ (t ≠ c → nth RETURN_WORD (execution_context x) 0 ≠ 0);
  rb_running : ∃ x, task_pool s !! c = Some x ∧ status x = TASK_STATE_RUNNING;
  rb_nodup : NoDup (c :: l);
}.

Lemma robin_step s i p c t l :
  robin s i p c (t :: l) →
  ∃ s', perform_scheduling s = Done tt s' ∧ robin s' i p t (l ++ [c]) ∧
    switches s' = switches s ++ [(Some c, t)].
Proof.
  intros [Hcur (pc & q & Hpc & Hlock & Hct & Hidle & Hlow & Hp & Hq) Htasks (xc & Hxc & Hrun) Hnd].
  destruct (pop_priority_run _ p q t l Hlow Hp Hq) as (q1 & Epop & Hq1).
  destruct (Htasks c) as (x0 & Hx0 & Hpc0 & Hctx & _); [by left|]. rewrite Hxc in Hx0. injection Hx0 as <-.
  destruct (Htasks t) as (xt & Hxt & Hpt & Hctxt & Hret); [by right; left|].
  assert (Hct' : c ≠ t).
  { intros ->. apply NoDup_cons in Hnd as [Hn _]. apply Hn. by left. }
  pose proof (lookup_lt_Some _ _ _ Hpc) as Hi.
  pose proof (qr_max _ _ Hq) as Hmax. cbn [length] in Hmax.
  unfold perform_scheduling, per_cpu_current, gets. mred. rewrite Hcur.
  rewrite (acquire_start s i pc Hpc Hlock). rewrite (get_pcpu_at s i pc Hpc).
  cbn [ready_queues set_locked]. rewrite Epop. cbn [of_option]. mred.
  rewrite put_pcpu_at, (release_at s i pc Hpc), (get_pcpu_at s i pc Hpc).
  cbn [of_option]. mred. cbn [current_task set_locked set_queues].
  rewrite bool_decide_eq_false_2 by (rewrite Hct; congruence). rewrite Hct.
  rewrite (get_task_at _ _ c xc _ _ Hxc), bool_decide_eq_true_2 by done.
  rewrite put_task_at, (acquire_at s i pc Hpc) by done. cbn [priority_level set_status].
  rewrite Hpc0.
  edestruct (push_ready_at s i pc Hpc p c) with (q := q1) (l := l) as (q2 & E2 & Hq2);
    [|exact Hq1|lia|rewrite E2].
  { cbn. apply list_lookup_insert_eq. by eapply lookup_lt_Some. }
  rewrite (release_at s i pc Hpc), (get_pcpu_at s i pc Hpc), put_pcpu_at.
  rewrite (get_task_at _ _ t xt) by (by rewrite list_lookup_insert_ne).
  rewrite put_task_at, (get_pcpu_at s i pc Hpc). cbn [idle_task set_current set_locked set_queues].
  rewrite bool_decide_eq_false_2 by (intros E; apply (Hidle _ E); right; by left).
  pose proof (lookup_lt_Some _ _ _ Hxc) as Hlc. pose proof (lookup_lt_Some _ _ _ Hxt) as Hlt.
  unfold perform_task_switch. mred. rewrite (get_task_at _ _ c (set_status TASK_STATE_READY xc))
    by (by rewrite list_lookup_insert_ne, list_lookup_insert_eq by congruence).
  rewrite put_task_at. rewrite (get_task_at _ _ t (set_ticks time_slice_ticks (set_status TASK_STATE_RUNNING xt)))
    by (by rewrite list_lookup_insert_ne, list_lookup_insert_eq by (rewrite ?length_insert; congruence)).
  cbn [execution_context set_ticks set_status]. rewrite (proj2 (Z.eqb_neq _ 0)) by (by apply Hret).
  unfold modify. eexists. split; [done|]. split; [|done].
  assert (Hperm : ∀ x, x ∈ t :: l ++ [c] → x ∈ c :: t :: l).
  { intros x. rewrite !elem_of_cons, elem_of_app, list_elem_of_singleton. tauto. }
  constructor; cbn [cpu_list per_cpu_data apic_now task_pool set_switches at_cpu set_pool set_per_cpu].
  - rewrite <-Hcur. by eapply find_apic_insert.
  - do 2 eexists. rewrite list_lookup_insert_eq by done. cbn. split_and!; try done.
    + intros x Hx Hin. by apply (Hidle x Hx), Hperm.
    + intros j q0 Hj. cbn. rewrite !list_lookup_insert_ne by lia. by apply Hlow.
    + cbn. rewrite list_lookup_insert_eq; [done|]. rewrite length_insert. by eapply lookup_lt_Some.
  - intros x Hx%Hperm. destruct (Htasks x Hx) as (y & Hy & Hpy & Hcy & Hry).
    destruct (decide (x = c)) as [->|Hxc']; [|destruct (decide (x = t)) as [->|Hxt']].
    + eexists. rewrite list_lookup_insert_eq by (by rewrite !length_insert). split; [done|]. cbn. rewrite length_insert.
      split_and!; [done|done|]. intros _. rewrite nth_lookup, list_lookup_insert_eq by done. done.
    + eexists. rewrite list_lookup_insert_ne, list_lookup_insert_eq by (congruence || by rewrite length_insert). done.
    + exists y. rewrite !list_lookup_insert_ne by congruence. split_and!; [done|done|done|]. intros _. by apply Hry.
  - eexists. rewrite list_lookup_insert_ne, list_lookup_insert_eq by (congruence || by rewrite length_insert). done.
  - rewrite app_comm_cons. apply NoDup_app. apply NoDup_cons in Hnd as [Hc Hnd].
    split_and!; [done| |apply NoDup_singleton]. intros x Hx ->%list_elem_of_singleton. done.
Qed.

(** [n] calls of the scheduler. *)
Fixpoint schedule (n : nat) : M sched unit :=
  match n with
  | O => mret tt
  | S n' => perform_scheduling;; schedule n'
  end.

(** The turns of tasks that have run before.  While only such tasks of one level compete (the
    lower levels are empty and none of them is the idle task), the task at place [k] of the
    queue is the one running after [k + 1] calls of the scheduler, none of which stops.  The
    kernel does not come this far: [first_switch_faults]. *)
Theorem round_robin_turn k s i p c l t
    (Hrobin : robin s i p c l) (Hk : l !! k = Some t) :
  ∃ s' x, schedule (S k) s = Done tt s' ∧ get_current_task s' = Done (Some t) s' ∧
    task_pool s' !! t = Some x ∧ status x = TASK_STATE_RUNNING.
Proof.
  revert s c l Hrobin Hk; induction k as [|k IH]; intros s c [|t0 l] Hrobin Hk; try done;
    destruct (robin_step s i p c t0 l Hrobin) as (s1 & E & H1 & _).
  - injection Hk as ->. destruct H1 as [Hcur (pc & q & Hpc & _ & Hct & _) _ (x & Hx & Hr) _].
    exists s1, x. split_and!; try done.
    + cbn [schedule]. mrun E. done.
    + unfold get_current_task, current_of, per_cpu_current, gets, get_pcpu. mred.
      by rewrite Hcur, Hpc, Hct.
  - destruct (IH s1 t0 (l ++ [c]) H1) as (s' & x & E' & Hc & Hx & Hr); [by apply lookup_app_l_Some|].
    exists s', x. split_and!; try done. cbn [schedule] in E' |- *. mrun E. exact E'.
Qed.

(** One processor that runs task 1 while tasks 2 and 3 wait at level 5. *)
Definition demo_task (st : task_status_t) : task_t := mk_task 7 st 5 0 0 4096 0 (<[RETURN_WORD := AFTER_SWITCH]> (replicate 20 0)) [] 10 0.
Definition demo_queue : task_queue_t :=
  mk_queue (<[0%nat := Some 3%nat]> (<[255%nat := Some 2%nat]> (task_list initialize_task_queue))) 2 255 1.
Definition demo_sched : sched :=
  mk_sched [mk_cpu 4 0 1 1]
    [mk_pcpu 0 4 1 (Some 1%nat) (Some 0%nat) (<[5%nat := demo_queue]> (replicate 32 initialize_task_queue)) 0 4]
    [demo_task TASK_STATE_READY; demo_task TASK_STATE_RUNNING; demo_task TASK_STATE_READY;
     demo_task TASK_STATE_READY] 9 4 ∅ 4 [].

Lemma round_robin_turn_witness :
  ∃ s' x, schedule 2 demo_sched = Done tt s' ∧ get_current_task s' = Done (Some 3%nat) s' ∧
    task_pool s' !! 3%nat = Some x ∧ status x = TASK_STATE_RUNNING.
Proof.
  apply (round_robin_turn 1 demo_sched 0 5 1 [2; 3]%nat 3); [|done]. constructor.
  - done.
  - do 2 eexists. split_and!; [done|done|done| | |done|].
    + intros t [= <-]. eval_decide.
    + intros [|[|[|[|[|j]]]]] q Hj; try (intros [= <-]; done). lia.
    + constructor; [done|done|simpl; lia|cbn; lia|done|].
      intros [|[|[|j]]] t [= <-]; done.
  - intros t Ht. repeat (apply elem_of_cons in Ht as [->|Ht]; [eexists; split; [reflexivity|]; split; [reflexivity|]; split; [vm_compute; lia|intros _; vm_compute; discriminate]|]).
    by apply elem_of_nil in Ht.
  - eexists. split; reflexivity.
  - eval_decide.
Defined.

(** ** The first switch *)

(** A task that has never run has a context of zeros: the switch to it faults. *)
Theorem first_switch_faults (old : option nat) (next : nat) (s : sched) (x : task_t)
    (Hold : ∀ o, old = Some o → o ≠ next ∧ is_Some (task_pool s !! o)) (Hx : task_pool s !! next = Some x)
    (Hzero : execution_context x = replicate 20 0) : perform_task_switch old next s = Stuck Fault.
Proof.
  unfold perform_task_switch. destruct old as [o|].
  - destruct (Hold o eq_refl) as [Hne [y Hy]]. unfold get_task, put_task, modify. mred. rewrite Hy. cbn.
    by rewrite list_lookup_insert_ne, Hx, Hzero by done.
  - unfold get_task. mred. by rewrite Hx, Hzero.
Qed.
(** After [initialize_scheduler] the first call only takes the idle task out of its queue; the
    second switches to the task that was made, and does not come back. *)
Definition new_sched : sched :=
  mk_sched [mk_cpu 4 0 1 1] [mk_pcpu 0 4 1 None None (replicate 32 initialize_task_queue) 0 0]
    (replicate 256 (mk_task 0 TASK_STATE_READY 0 0 0 0 0 (replicate 20 0) (replicate 32 0) 0 0)) 1 0 ∅ 4 [].
Example one_task : (initialize_scheduler;; create_new_task (chars "shell") 0x1000 5 4096;; perform_scheduling;; get_current_task) new_sched
  = (initialize_scheduler;; create_new_task (chars "shell") 0x1000 5 4096;; perform_scheduling;; mret (Some 0%nat)) new_sched.
Proof. vm_compute. reflexivity. Qed.
Example second_call_faults : (initialize_scheduler;; create_new_task (chars "shell") 0x1000 5 4096;; perform_scheduling;; perform_scheduling) new_sched = Stuck Fault.
Proof. vm_compute. reflexivity. Qed.
