(* ===== verification/Timer.v ===== *)
(** * The system timer, [core/kernel/interrupts/timer/timer.c]

    [subscribers] is modelled by its first [subscriber_count] entries.  A callback is a
    number; what calling it with its data does is a parameter.  A processor halted in a
    delay is woken by the timer interrupt.  The messages are left out. *)

From Stdlib Require Import ZArith Lia String.
From stdpp Require Import base gmap list numbers fin_maps.
From S2P Require Import Prelude CString Ports.
Open Scope Z_scope.
Set Default Goal Selector "!".

Definition TIMER_BASE_FREQUENCY : Z := 1193182.
Definition MAX_EVENT_SUBSCRIBERS : Z := 16.

Record timer_event_t := mk_event {
  id : Z;
  handler : Z;
  user_data : Z;
  interval_ticks : Z;
  next_trigger : Z;
  recurring : bool;
}.

Lemma insert_middle {A} (l r : list A) (x y : A) : <[length l := y]> (l ++ x :: r) = l ++ y :: r.
Proof. induction l as [|z l IH]; cbn; [done|]. f_equal. exact IH. Qed.
Lemma delete_middle {A} (l r : list A) (x : A) : delete (length l) (l ++ x :: r) = l ++ r.
Proof. induction l as [|z l IH]; cbn; [done|]. f_equal. exact IH. Qed.

(** The timer and the rest of the machine. *)
Record timer_system_t (D : Type) := mk_timer {
  total_ticks : Z;
  boot_time_ticks : Z;
  subscribers : list timer_event_t;
  t_hw : D;
}.
Arguments mk_timer {D}.
Arguments total_ticks {D}.
Arguments boot_time_ticks {D}.
Arguments subscribers {D}.
Arguments t_hw {D}.

Section timer.
  Context {D : Type} `{!PortIO D}.
Abbreviation S := (timer_system_t D).
  Context (call : Z → Z → M S unit).

Definition set_ticks (n : Z) (s : S) : S := mk_timer n (boot_time_ticks s) (subscribers s) (t_hw s).
Definition set_boot (n : Z) (s : S) : S := mk_timer (total_ticks s) n (subscribers s) (t_hw s).
Definition set_subs (l : list timer_event_t) (s : S) : S := mk_timer (total_ticks s) (boot_time_ticks s) l (t_hw s).
Definition on_hw {A} (m : M D A) : M S A :=
  zoom t_hw (λ d s, mk_timer (total_ticks s) (boot_time_ticks s) (subscribers s) d) m.

(** The event of index [i]: outside the entries in use nothing is modelled. *)
Definition get_event (i : nat) : M S timer_event_t := λ s,
  match subscribers s !! i with Some e => Done e s | None => Stuck Fault end.

(** One pass of the loop over the events; a removed event is replaced by the next one. *)
Definition event_step (i : nat) : M S (nat + unit) :=
  s ← get;
  if (length (subscribers s) <=? i)%nat then mret (inr tt) else
  event ← get_event i;
  if total_ticks s <? next_trigger event then mret (inl (i + 1)%nat) else
  (if handler event =? NULL then mret tt else call (handler event) (user_data event));;
  event ← get_event i;
  s ← get;
  if recurring event then
    modify (set_subs (<[i := mk_event (id event) (handler event) (user_data event)
      (interval_ticks event) (u64 (total_ticks s + interval_ticks event)) true]> (subscribers s)));;
    mret (inl (i + 1)%nat)
  else
    modify (set_subs (delete i (subscribers s)));;
    mret (inl i).

Definition timer_handle_interrupt (fuel : nat) : M S unit :=
  s ← get;
  if total_ticks s =? 0 then mret tt else
  modify (set_ticks (u64 (total_ticks s + 1)));;
  iterM fuel event_step 0%nat;;
  on_hw (outb 0x20 0x20).

(** The frequency that is set and its divisor. *)
Definition timer_frequency (target : Z) : Z :=
  if (target =? 0) || (TIMER_BASE_FREQUENCY <? target) then 300 else target.
Definition timer_divisor (target : Z) : Z :=
  let divisor := TIMER_BASE_FREQUENCY / timer_frequency target in
  let divisor := if divisor <? 1 then 1 else divisor in
  if 65535 <? divisor then 65535 else divisor.

Definition timer_system_initialize (target : Z) : M S unit :=
  modify (λ s, mk_timer 0 0 [] (t_hw s));;
  let divisor := timer_divisor target in
  on_hw (outb 0x43 0x36);;
  on_hw pause_io;;
  on_hw (outb 0x40 (Z.land divisor 0xFF));;
  on_hw pause_io;;
  on_hw (outb 0x40 (Z.land (Z.shiftr divisor 8) 0xFF));;
  on_hw pause_io;;
  modify (set_ticks 1).

(** [hlt] returns after a timer interrupt. *)
Definition delay_step (efuel : nat) (tick_count start : Z) (_ : unit) : M S (unit + unit) :=
  s ← get;
  if u64 (total_ticks s - start) <? tick_count
  then timer_handle_interrupt efuel;; mret (inl tt) else mret (inr tt).

Definition timer_delay_ticks (fuel efuel : nat) (tick_count : Z) : M S unit :=
  s ← get;
  if (total_ticks s =? 0) || (tick_count =? 0) then mret tt else
  iterM fuel (delay_step efuel tick_count (total_ticks s)) tt.

Definition timer_retrieve_current_ticks : M S Z := gets total_ticks.
Definition timer_calculate_elapsed_seconds : M S Z :=
  gets (λ s, if total_ticks s =? 0 then 0 else total_ticks s / 300).
Definition timer_calculate_elapsed_milliseconds : M S Z :=
  gets (λ s, if total_ticks s =? 0 then 0 else u64 (total_ticks s * 1000) / 300).

Definition timer_subscribe_event (callback data interval_ms : Z) (repeat : bool) : M S Z :=
  s ← get;
  let count := Z.of_nat (length (subscribers s)) in
  if (callback =? NULL) || (MAX_EVENT_SUBSCRIBERS <=? count) then mret (-1) else
  let ticks := u64 (interval_ms * 300) / 1000 in
  modify (set_subs (subscribers s ++
    [mk_event (count + 1) callback data ticks (u64 (total_ticks s + ticks)) repeat]));;
  mret (count + 1).

Fixpoint event_index (i : nat) (l : list timer_event_t) (subscription_id : Z) : option nat :=
  match l with
  | [] => None
  | e :: l' => if i32 (id e) =? subscription_id then Some i else event_index (i + 1) l' subscription_id
  end.

Definition timer_unsubscribe_event (subscription_id : Z) : M S unit :=
  s ← get;
  match event_index 0 (subscribers s) subscription_id with
  | None => mret tt
  | Some i => modify (set_subs (delete i (subscribers s)))
  end.

Definition timer_record_boot_timestamp : M S unit := modify (λ s, set_boot (total_ticks s) s).
Definition timer_get_system_uptime_seconds : M S Z :=
  gets (λ s, if total_ticks s =? 0 then 0 else u64 (total_ticks s - boot_time_ticks s) / 300).

(** The text that is displayed. *)
Definition two_digits (n : Z) : str := (if n <? 10 then chars "0" else []) ++ u32_digits (u32 n).
Definition timer_display_uptime_information : M S str :=
  uptime ← timer_get_system_uptime_seconds;
  mret (two_digits (uptime / 3600) ++ chars ":" ++ two_digits (uptime mod 3600 / 60) ++ chars ":" ++
        two_digits (uptime mod 60)).

(** ** The events of an interrupt *)

(** What becomes of an event at time [now]. *)
Definition due (now : Z) (e : timer_event_t) : bool := next_trigger e <=? now.
Definition after_tick (now : Z) (e : timer_event_t) : option timer_event_t :=
  if due now e then
    if recurring e
    then Some (mk_event (id e) (handler e) (user_data e) (interval_ticks e) (u64 (now + interval_ticks e)) true)
    else None
  else Some e.

(** Callbacks that leave the timer alone, with what they do to the machine. *)
Context (effect : Z → Z → D → D).
Context (Hcall : ∀ h d s, call h d s = Done tt (mk_timer (total_ticks s) (boot_time_ticks s)
  (subscribers s) (effect h d (t_hw s)))).
(** The controller is told of the end of the interrupt. *)
Context (eoi : D → D) (Heoi : ∀ d, outb 0x20 0x20 d = Done tt (eoi d)).

(** The effects of the callbacks that are due, in order. *)
Definition run_due (now : Z) (l : list timer_event_t) (d : D) : D :=
  foldl (λ d e, if due now e && negb (handler e =? NULL) then effect (handler e) (user_data e) d else d) d l.

Lemma events_run fuel now boot done todo d :
  (length todo < fuel)%nat →
  iterM fuel event_step (length done) (mk_timer now boot (done ++ todo) d) =
    Done tt (mk_timer now boot (done ++ omap (after_tick now) todo) (run_due now todo d)).
Proof.
  revert fuel done d; induction todo as [|e todo IH]; intros [|fuel] done d Hf; [lia| |lia|];
    cbn [iterM length] in *.
  - unfold event_step, get. mred. cbn [subscribers]. rewrite app_nil_r, Nat.leb_refl. cbn. by rewrite app_nil_r.
  - assert (Hstep : ∀ x d', d' = (if due now e && negb (handler e =? NULL) then effect (handler e) (user_data e) d else d) →
      event_step (length done) (mk_timer now boot (done ++ e :: todo) d) = x →
      x = match after_tick now e with
          | Some e' => Done (inl (length done + 1)%nat) (mk_timer now boot (done ++ e' :: todo) d')
          | None => Done (inl (length done)) (mk_timer now boot (done ++ todo) d')
          end).
    { intros x d' -> <-. unfold event_step, get, after_tick, due. mred. cbn [subscribers total_ticks].
      rewrite length_app. cbn [length]. rewrite (proj2 (Nat.leb_gt _ _)) by lia.
      unfold get_event at 1. cbn [subscribers]. rewrite list_lookup_middle by done.
      destruct (Z.ltb_spec now (next_trigger e)), (Z.leb_spec (next_trigger e) now); try lia; [done|].
      cbn [andb]. destruct (handler e =? NULL); cbn [negb]; rewrite ?Hcall; unfold get_event, modify;
        cbn [subscribers total_ticks boot_time_ticks t_hw]; rewrite list_lookup_middle by done;
        destruct (recurring e); unfold set_subs;
        cbn [subscribers total_ticks boot_time_ticks t_hw];
        by rewrite ?insert_middle, ?delete_middle. }
    mred. rewrite (Hstep _ _ eq_refl eq_refl).
    unfold run_due. cbn [omap list_omap foldl]. fold (run_due now todo).
    destruct (after_tick now e) as [e'|].
    + replace (done ++ e' :: todo) with ((done ++ [e']) ++ todo) by by rewrite <-app_assoc.
      replace (length done + 1)%nat with (length (done ++ [e'])) by by rewrite length_app.
      rewrite IH by lia. by rewrite <-app_assoc.
    + by rewrite IH by lia.
Qed.

Lemma interrupt_run fuel s :
  total_ticks s ≠ 0 → (length (subscribers s) < fuel)%nat →
  timer_handle_interrupt fuel s =
    let now := u64 (total_ticks s + 1) in
    Done tt (mk_timer now (boot_time_ticks s) (omap (after_tick now) (subscribers s))
      (eoi (run_due now (subscribers s) (t_hw s)))).
Proof.
  intros Ht Hf. unfold timer_handle_interrupt, get, modify. mred.
  rewrite (proj2 (Z.eqb_neq _ _) Ht). unfold set_ticks.
  pose proof (events_run fuel (u64 (total_ticks s + 1)) (boot_time_ticks s) [] (subscribers s) (t_hw s) Hf) as E.
  cbn [app length] in E. rewrite E. unfold on_hw, zoom. cbn [t_hw]. by rewrite Heoi.
Qed.

(** An interrupt.  Once the timer runs, a timer interrupt advances the time by one,
    calls exactly the callbacks that are due, in their order and each once, moves the
    repeating ones to their next time, drops the others, keeps the rest in order and
    acknowledges the interrupt. *)
Theorem timer_handle_interrupt_correct fuel s
    (Ht : total_ticks s ≠ 0) (Hf : (length (subscribers s) < fuel)%nat) :
  timer_handle_interrupt fuel s =
    let now := u64 (total_ticks s + 1) in
    Done tt (mk_timer now (boot_time_ticks s) (omap (after_tick now) (subscribers s))
      (eoi (run_due now (subscribers s) (t_hw s)))).
Proof. by apply interrupt_run. Qed.

Lemma omap_length {B} (f : B → option B) (l : list B) : (length (omap f l) ≤ length l)%nat.
Proof. induction l as [|x l IH]; cbn; [done|]. destruct (f x); cbn; lia. Qed.

Lemma delay_step_eq efuel tick_count start s :
  delay_step efuel tick_count start tt s =
    if u64 (total_ticks s - start) <? tick_count
    then match timer_handle_interrupt efuel s with Done _ s' => Done (inl tt) s' | Stuck w => Stuck w end
    else Done (inr tt) s.
Proof. unfold delay_step, get. mred. by destruct (_ <? _). Qed.

(** A delay ends.  Once the timer runs, [timer_delay_ticks] returns after exactly the
    given number of interrupts, whatever events they serve. *)
Theorem timer_delay_ticks_returns efuel tick_count s
    (Ht : 0 < total_ticks s) (Htc : 0 ≤ tick_count) (Hmax : total_ticks s + tick_count < 2 ^ 64)
    (Hf : (length (subscribers s) < efuel)%nat) :
  ∃ s', timer_delay_ticks (Datatypes.S (Z.to_nat tick_count)) efuel tick_count s = Done tt s' ∧
    total_ticks s' = total_ticks s + tick_count.
Proof.
  unfold timer_delay_ticks, get. mred. rewrite (proj2 (Z.eqb_neq (total_ticks s) 0)) by lia. cbn [orb].
  destruct (Z.eqb_spec tick_count 0) as [->|Hne]; [exists s; split; [done|lia]|].
  assert (Hgo : ∀ n s1, total_ticks s ≤ total_ticks s1 → (length (subscribers s1) < efuel)%nat →
    total_ticks s1 + Z.of_nat n = total_ticks s + tick_count →
    ∃ s', iterM (Datatypes.S n) (delay_step efuel tick_count (total_ticks s)) tt s1 = Done tt s' ∧
      total_ticks s' = total_ticks s + tick_count).
  { intros n. induction n as [|n IH]; intros s1 Hle Hf1 Hn; rewrite iterM_S, delay_step_eq;
      unfold u64 at 1; rewrite Z.mod_small by lia.
    - rewrite (proj2 (Z.ltb_ge _ _)) by lia. exists s1. split; [done|lia].
    - rewrite (proj2 (Z.ltb_lt _ _)) by lia. rewrite interrupt_run by lia. cbv zeta.
      assert (u64 (total_ticks s1 + 1) = total_ticks s1 + 1) as -> by (apply Z.mod_small; lia).
      apply IH; cbn [total_ticks subscribers]; [lia| |lia].
      pose proof (omap_length (after_tick (total_ticks s1 + 1)) (subscribers s1)). lia. }
  destruct (Hgo (Z.to_nat tick_count) s) as (s' & E & Hs'); [lia|done|lia|]. eauto.
Qed.
(** ** Well-formedness *)

Record event_typed (e : timer_event_t) : Prop := {
  et_id : 1 ≤ id e ≤ MAX_EVENT_SUBSCRIBERS;
  et_handler : handler e ≠ NULL;
  et_interval : 0 ≤ interval_ticks e < 2 ^ 64;
  et_next : 0 ≤ next_trigger e < 2 ^ 64;
}.

(** Every counter is a 64-bit word and the events fit the array. *)
Record timer_typed (s : S) : Prop := {
  tt_now : 0 ≤ total_ticks s < 2 ^ 64;
  tt_boot : 0 ≤ boot_time_ticks s < 2 ^ 64;
  tt_count : Z.of_nat (length (subscribers s)) ≤ MAX_EVENT_SUBSCRIBERS;
  tt_events : Forall event_typed (subscribers s);
}.

(** What the rest of the kernel asks of the timer. *)
Inductive timer_op :=
| Interrupt
| Subscribe (callback data interval_ms : Z) (repeat : bool)
| Unsubscribe (subscription_id : Z)
| RecordBoot
| Restart (target : Z).

(** A loop over the events needs one pass for each and one more to leave: 17. *)
Definition timer_run_op (op : timer_op) : M S unit :=
  match op with
  | Interrupt => timer_handle_interrupt 17
  | Subscribe cb data ms repeat => _ ← timer_subscribe_event cb data ms repeat; mret tt
  | Unsubscribe i => timer_unsubscribe_event i
  | RecordBoot => timer_record_boot_timestamp
  | Restart f => timer_system_initialize f
  end.

Fixpoint timer_run_ops (ops : list timer_op) : M S unit :=
  match ops with
  | [] => mret tt
  | op :: ops' => timer_run_op op;; timer_run_ops ops'
  end.

Lemma omap_Forall {B} (P : B → Prop) (f : B → option B) (l : list B) :
  Forall P l → (∀ x y, P x → f x = Some y → P y) → Forall P (omap f l).
Proof.
  intros H Hf. induction H as [|x l Hx _ IH]; cbn; [done|].
  destruct (f x) eqn:E; [|done]. constructor; [by eapply Hf|done].
Qed.

Lemma after_tick_typed now e e' : event_typed e → after_tick now e = Some e' → event_typed e'.
Proof.
  intros [H1 H2 H3 H4]. unfold after_tick. destruct (due now e); [destruct (recurring e)|]; intros [= <-];
    constructor; cbn; auto with kx.
Qed.

Lemma subscribe_typed cb data ms repeat s (n := Z.of_nat (length (subscribers s))) :
  timer_typed s →
  ∃ r s', timer_subscribe_event cb data ms repeat s = Done r s' ∧ timer_typed s' ∧
    r = (if (cb =? NULL) || (MAX_EVENT_SUBSCRIBERS <=? n) then -1 else n + 1).
Proof.
  intros Hs. pose proof Hs as [H1 H2 H3 H4]. unfold timer_subscribe_event, get, modify. mred.
  fold n in H3 |- *.
  destruct (Z.eqb_spec cb NULL); cbn [orb]; [by exists (-1), s|].
  destruct (Z.leb_spec MAX_EVENT_SUBSCRIBERS n); [by exists (-1), s|].
  do 2 eexists. split; [done|]. split; [|done]. constructor; cbn; [done|done| |].
  - rewrite length_app. cbn. lia.
  - apply Forall_app. split; [done|]. apply Forall_singleton. constructor; cbn; [lia|done| |auto with kx].
    pose proof (u64_range (ms * 300)). split; [apply Z.div_pos; lia|apply Z.div_lt_upper_bound; lia].
Qed.

Lemma unsubscribe_typed i s :
  timer_typed s → ∃ s', timer_unsubscribe_event i s = Done tt s' ∧ timer_typed s'.
Proof.
  intros Ht. unfold timer_unsubscribe_event, get, modify. mred.
  destruct (event_index _ _ _) as [k|]; [|by eexists]. eexists. split; [done|].
  destruct Ht as [H1 H2 H3 H4]. constructor; cbn; [done|done| |by apply Forall_delete].
  rewrite delete_take_drop, length_app, length_take, length_drop. lia.
Qed.

Lemma initialize_typed f s :
  (∀ p v d, ∃ d', outb p v d = Done tt d') →
  ∃ s', timer_system_initialize f s = Done tt s' ∧ timer_typed s'.
Proof.
  intros Hout. unfold timer_system_initialize, pause_io, modify, on_hw, zoom. mred. cbn [t_hw].
  destruct (Hout 0x43 0x36 (t_hw s)) as [d1 ->].
  do 5 edestruct Hout as [? ->].
  eexists. split; [done|]. by constructor.
Qed.

(** C23: The timer's state stays well formed: whatever sequence of interrupts, subscriptions,
    cancellations and restarts happens, no operation gets stuck or leaves the array of
    sixteen events, every counter stays a 64-bit word, and every event in use has a handler
    and an identifier between 1 and 16. *)
Theorem timer_stays_typed ops s
    (Hout : ∀ p v d, ∃ d', outb p v d = Done tt d') (Hs : timer_typed s) :
  ∃ s', timer_run_ops ops s = Done tt s' ∧ timer_typed s'.
Proof.
  revert s Hs; induction ops as [|op ops IH]; intros s Hs; cbn [timer_run_ops]; [by eexists|].
  assert (∃ s', timer_run_op op s = Done tt s' ∧ timer_typed s') as (s1 & E & H1); [|mrun E; by apply IH].
  destruct op as [|cb data ms repeat|i| |f]; cbn [timer_run_op].
  - destruct (decide (total_ticks s = 0)) as [E0|E0].
    { exists s. split; [|done]. unfold timer_handle_interrupt, get. mred. by rewrite E0. }
    destruct Hs as [H1 H2 H3 H4]. rewrite interrupt_run by (done || unfold MAX_EVENT_SUBSCRIBERS in *; lia).
    eexists. split; [done|]. constructor; cbn; [auto with kx|done| |].
    + pose proof (omap_length (after_tick (u64 (total_ticks s + 1))) (subscribers s)). lia.
    + eapply omap_Forall; [done|]. intros e e'. apply after_tick_typed.
  - destruct (subscribe_typed cb data ms repeat s Hs) as (r & s' & E & H' & _). exists s'. by mrun E.
  - by apply unsubscribe_typed.
  - eexists. split; [done|]. by destruct Hs.
  - by apply initialize_typed.
Qed.
End timer.

(** A machine that records what is written to its ports. *)
#[local] Instance log_ports : PortIO (list Z) := {|
  read_port_byte := λ _ d, Done 0 d;
  read_port_word := λ _ d, Done 0 d;
  read_port_dword := λ _ d, Done 0 d;
  write_port_byte := λ port v d, Done tt (d ++ [port; v]);
  write_port_word := λ port v d, Done tt (d ++ [port; v]);
  write_port_dword := λ port v d, Done tt (d ++ [port; v]);
|}.

(** Its callbacks record that they ran, and with which data. *)
Definition log_effect (h data : Z) (d : list Z) : list Z := d ++ [h; data].
Definition log_call (h data : Z) : M (timer_system_t (list Z)) unit := λ s,
  Done tt (mk_timer (total_ticks s) (boot_time_ticks s) (subscribers s) (log_effect h data (t_hw s))).

Definition log_eoi (d : list Z) : list Z := d ++ [0x20; 0x20].
Lemma log_eoi_done (d : list Z) : outb 0x20 0x20 d = Done tt (log_eoi d).
Proof. done. Qed.

(** Three events, two of them due at time 100. *)
Definition demo_timer : timer_system_t (list Z) :=
  mk_timer 99 1 [mk_event 1 0xAA 5 30 100 true; mk_event 2 0xBB 6 300 400 true; mk_event 3 0xCC 7 10 90 false] [].

Lemma timer_handle_interrupt_correct_witness :
  timer_handle_interrupt log_call 4 demo_timer =
    Done tt (mk_timer 100 1 [mk_event 1 0xAA 5 30 130 true; mk_event 2 0xBB 6 300 400 true]
      [0xAA; 5; 0xCC; 7; 0x20; 0x20]).
Proof.
  rewrite (timer_handle_interrupt_correct log_call log_effect (λ h d s, eq_refl)
    log_eoi log_eoi_done 4 demo_timer); [reflexivity|done|cbn; lia].
Defined.

Lemma timer_delay_ticks_returns_witness :
  ∃ s', timer_delay_ticks log_call 51 4 50 demo_timer = Done tt s' ∧ total_ticks s' = 149.
Proof.
  apply (timer_delay_ticks_returns log_call log_effect (λ h d s, eq_refl)
    log_eoi log_eoi_done 4 50 demo_timer); cbn; lia.
Defined.

Lemma timer_stays_typed_witness :
  ∃ s', timer_run_ops log_call
    [Restart 300; Subscribe 0xAA 1 10 true; Interrupt; Subscribe 0xBB 2 0 false; Unsubscribe 1; Interrupt]
    (mk_timer 0 0 [] []) = Done tt s' ∧ timer_typed s'.
Proof.
  apply (timer_stays_typed log_call log_effect (λ h d s, eq_refl) log_eoi log_eoi_done).
  - intros p v d. by eexists.
  - by constructor.
Defined.
