(* ===== verification/Graphics.v ===== *)
(** * The graphics manager, [core/kernel/mem/graphics_manager]

    The manager's heap is an accounted heap of [KernelMemory.v].  The objects the manager
    allocates there (workspaces, sessions, key buffers, arrays of pointers) are kept by
    their address; the frame buffer and the screen are maps from pixel indices to colours
    whose domain is the storage.  There is one manager, so a pointer to it is only tested
    for being null.  The glyphs are a parameter [font_8x16 c row], and the keyboard's ports
    are those of [Ports.v].  Messages are left out. *)

From Stdlib Require Import ZArith Lia String.
From stdpp Require Import base gmap list numbers fin_maps.
From S2P Require Import Prelude Memory Heap KernelMemory Ports.
Open Scope Z_scope.
Set Default Goal Selector "!".

Definition GRAPHICS_SIZE : Z := 1024 * 1024 * 32.
Definition GRAPHICS_SIZE_META : Z := PAGE_SIZE * 256.
Definition GRAPHICS_HEAP_SIZE : Z := GRAPHICS_SIZE - GRAPHICS_SIZE_META.
Definition GSESSION_LEN_MAX : Z := 16.
Definition SESSION_NAME_MAX : Z := 64.
Definition GWORKSPACE_NAME_MAX : Z := 64.
Definition DIRTY_BOXES_MAX : Z := 256.
(** The sizes of the structures. *)
Definition SIZEOF_GBOX : Z := 32.
Definition SIZEOF_GSESSION : Z := 112.
Definition SIZEOF_GWORKSPACE : Z := 128.
Definition SIZEOF_KEYBOARDRB : Z := 24.
Definition SIZEOF_KEY_EVENT : Z := 3.

Record gbox_t := mk_gbox { box_x : Z; box_y : Z; box_width : Z; box_height : Z }.
Record gsession_t := mk_gsession { s_gworkspace : Z; s_kbrb : Z; s_name : str; s_box : gbox_t }.
Record gworkspace_t := mk_gworkspace {
  w_manager : Z;
  w_name : str;
  pos_x : Z;
  pos_y : Z;
  gap_x : Z;
  w_sessions : Z;
  sessions_len : Z;
  sessions_total : Z;
  session_active : Z;
}.
Record key_event_t := mk_key { scancode : Z; modifiers : Z; pressed : Z }.
Record keyboardrb_t := mk_ring {
  kb_buf : list key_event_t;
  kb_len : Z;
  kb_head : Z;
  kb_tail : Z;
  kb_count : Z;
}.

(** [dirty_boxes] holds the first [dirty_boxes_len] of the 256 boxes at [boxes_ptr]. *)
Record graphics_manager_t (D : Type) := mk_gm {
  gm_arena : arena_state;
  glres_width : Z;
  glres_height : Z;
  glres_pitch : Z;
  framebuffer_len : Z;
  workspaces : Z;
  workspaces_len : Z;
  workspaces_total : Z;
  workspace_active : Z;
  boxes_ptr : Z;
  dirty_boxes : list gbox_t;
  frame : gmap Z Z;
  screen : gmap Z Z;
  cells : gmap Z Z;
  sessions_at : gmap Z gsession_t;
  workspaces_at : gmap Z gworkspace_t;
  rings_at : gmap Z keyboardrb_t;
  gm_hw : D;
}.
Arguments mk_gm {D}.
Arguments gm_arena {D}.
Arguments glres_width {D}.
Arguments glres_height {D}.
Arguments glres_pitch {D}.
Arguments framebuffer_len {D}.
Arguments workspaces {D}.
Arguments workspaces_len {D}.
Arguments workspaces_total {D}.
Arguments workspace_active {D}.
Arguments boxes_ptr {D}.
Arguments dirty_boxes {D}.
Arguments frame {D}.
Arguments screen {D}.
Arguments cells {D}.
Arguments sessions_at {D}.
Arguments workspaces_at {D}.
Arguments rings_at {D}.
Arguments gm_hw {D}.

(** ** The key buffer *)

(** [scancode_to_ascii]; the codes past [0x3A] are not named there and are 0. *)
Definition scancode_to_ascii : list Z :=
  [0; 0] ++ chars "1234567890" ++ [0x83; 0x27; 0x08; 0x09] ++ chars "qwertyuiop" ++ [0x82] ++ chars "+" ++
  [0x0A; 0] ++ chars "asdfghjkl" ++ [0x81; 0x80] ++ chars "<" ++ [0] ++ chars "#zxcvbnm,.-" ++ [0] ++
  chars "*" ++ [0] ++ chars " " ++ [0] ++ replicate 69 0.

Definition keyboard_event_to_char (event : key_event_t) : option Z :=
  scancode_to_ascii !! Z.to_nat (scancode event).

(** [buf] has [len] places: an index outside faults. *)
Definition keyboard_put (kbrb : keyboardrb_t) (event : key_event_t) : option (Z * keyboardrb_t) :=
  if kb_len kbrb <=? kb_count kbrb then Some (1, kbrb) else
  if kb_head kbrb <? Z.of_nat (length (kb_buf kbrb)) then
    Some (0, mk_ring (<[Z.to_nat (kb_head kbrb) := event]> (kb_buf kbrb)) (kb_len kbrb)
               (u32 (kb_head kbrb + 1) mod kb_len kbrb) (kb_tail kbrb) (u32 (kb_count kbrb + 1)))
  else None.

(** [if (kbrb->count = 0) return 1;] assigns 0 and goes on. *)
Definition keyboard_next (kbrb : keyboardrb_t) : option (Z * key_event_t * keyboardrb_t) :=
  out ← kb_buf kbrb !! Z.to_nat (kb_tail kbrb);
  Some (0, out, mk_ring (kb_buf kbrb) (kb_len kbrb) (kb_head kbrb)
                  (u32 (kb_tail kbrb + 1) mod kb_len kbrb) (u32 (0 - 1))).

(** ** Names *)

(** The copy of a name into an array of [max] bytes. *)
Definition copy_name (max : Z) (name : str) : str := take (Z.to_nat (max - 1)) name.

(** The comparison of the lookups: [wanted] is a prefix of [name]. *)
Fixpoint name_matches (wanted name : str) : bool :=
  match wanted, name with
  | [], _ => true
  | _ :: _, [] => false
  | c :: wanted', d :: name' => if d =? c then name_matches wanted' name' else false
  end.

Section graphics.
  Context {D : Type} `{!PortIO D} (font_8x16 : Z → Z → Z).
Abbreviation G := (graphics_manager_t D).

Definition set_arena (a : arena_state) (s : G) : G :=
  mk_gm a (glres_width s) (glres_height s) (glres_pitch s) (framebuffer_len s) (workspaces s) (workspaces_len s) (workspaces_total s) (workspace_active s) (boxes_ptr s) (dirty_boxes s) (frame s) (screen s) (cells s) (sessions_at s) (workspaces_at s) (rings_at s) (gm_hw s).
Definition set_workspaces (p len total active : Z) (s : G) : G :=
  mk_gm (gm_arena s) (glres_width s) (glres_height s) (glres_pitch s) (framebuffer_len s) p len total active (boxes_ptr s) (dirty_boxes s) (frame s) (screen s) (cells s) (sessions_at s) (workspaces_at s) (rings_at s) (gm_hw s).
Definition set_dirty (l : list gbox_t) (s : G) : G :=
  mk_gm (gm_arena s) (glres_width s) (glres_height s) (glres_pitch s) (framebuffer_len s) (workspaces s) (workspaces_len s) (workspaces_total s) (workspace_active s) (boxes_ptr s) l (frame s) (screen s) (cells s) (sessions_at s) (workspaces_at s) (rings_at s) (gm_hw s).
Definition set_boxes (p : Z) (s : G) : G :=
  mk_gm (gm_arena s) (glres_width s) (glres_height s) (glres_pitch s) (framebuffer_len s) (workspaces s) (workspaces_len s) (workspaces_total s) (workspace_active s) p [] (frame s) (screen s) (cells s) (sessions_at s) (workspaces_at s) (rings_at s) (gm_hw s).
Definition set_frame (m : gmap Z Z) (s : G) : G :=
  mk_gm (gm_arena s) (glres_width s) (glres_height s) (glres_pitch s) (framebuffer_len s) (workspaces s) (workspaces_len s) (workspaces_total s) (workspace_active s) (boxes_ptr s) (dirty_boxes s) m (screen s) (cells s) (sessions_at s) (workspaces_at s) (rings_at s) (gm_hw s).
Definition set_screen (m : gmap Z Z) (s : G) : G :=
  mk_gm (gm_arena s) (glres_width s) (glres_height s) (glres_pitch s) (framebuffer_len s) (workspaces s) (workspaces_len s) (workspaces_total s) (workspace_active s) (boxes_ptr s) (dirty_boxes s) (frame s) m (cells s) (sessions_at s) (workspaces_at s) (rings_at s) (gm_hw s).
Definition set_objects (c : gmap Z Z) (ss : gmap Z gsession_t) (ws : gmap Z gworkspace_t) (rs : gmap Z keyboardrb_t) (s : G) : G :=
  mk_gm (gm_arena s) (glres_width s) (glres_height s) (glres_pitch s) (framebuffer_len s) (workspaces s) (workspaces_len s) (workspaces_total s) (workspace_active s) (boxes_ptr s) (dirty_boxes s) (frame s) (screen s) c ss ws rs (gm_hw s).
Definition set_hw (d : D) (s : G) : G :=
  mk_gm (gm_arena s) (glres_width s) (glres_height s) (glres_pitch s) (framebuffer_len s) (workspaces s) (workspaces_len s) (workspaces_total s) (workspace_active s) (boxes_ptr s) (dirty_boxes s) (frame s) (screen s) (cells s) (sessions_at s) (workspaces_at s) (rings_at s) d.

(** Objects by their address. *)
Definition set_cell (a v : Z) (s : G) : G :=
  set_objects (<[a := v]> (cells s)) (sessions_at s) (workspaces_at s) (rings_at s) s.
Definition set_session (p : Z) (x : gsession_t) (s : G) : G :=
  set_objects (cells s) (<[p := x]> (sessions_at s)) (workspaces_at s) (rings_at s) s.
Definition set_workspace (p : Z) (w : gworkspace_t) (s : G) : G :=
  set_objects (cells s) (sessions_at s) (<[p := w]> (workspaces_at s)) (rings_at s) s.
Definition set_ring (p : Z) (r : keyboardrb_t) (s : G) : G :=
  set_objects (cells s) (sessions_at s) (workspaces_at s) (<[p := r]> (rings_at s)) s.
Definition get_session (p : Z) : M G gsession_t := λ s,
  match sessions_at s !! p with Some x => Done x s | None => Stuck Fault end.
Definition get_workspace (p : Z) : M G gworkspace_t := λ s,
  match workspaces_at s !! p with Some x => Done x s | None => Stuck Fault end.
Definition get_ring (p : Z) : M G keyboardrb_t := λ s,
  match rings_at s !! p with Some x => Done x s | None => Stuck Fault end.

(** [array[i]] of an array of pointers. *)
Definition read_cell (array i : Z) : M G Z := λ s,
  match cells s !! (array + 8 * i) with Some v => Done v s | None => Stuck Fault end.
Definition write_cell (array i v : Z) : M G unit := λ s,
  match cells s !! (array + 8 * i) with
  | Some _ => Done tt (set_cell (array + 8 * i) v s)
  | None => Stuck Fault
  end.
(** The [n] pointers of a new array. *)
Definition new_cells (array : Z) (n : nat) (s : G) : G :=
  set_objects (foldr (λ i m, <[array + 8 * i := NULL]> m) (cells s) (seqZ 0 (Z.of_nat n)))
    (sessions_at s) (workspaces_at s) (rings_at s) s.
Definition on_arena {A} (m : M arena_state A) : M G A := zoom gm_arena set_arena m.
Definition on_ports {A} (m : M D A) : M G A := zoom gm_hw set_hw m.

(** ** The manager's heap *)

Definition graphics_manager_create (self size : Z) : M G Z := on_arena (arena_create self size).
Definition graphics_manager_alloc (self size count : Z) : M G Z := on_arena (arena_alloc self size count).
Definition graphics_manager_free (self ptr : Z) : M G unit := on_arena (arena_free self ptr).
Definition graphics_manager_get_total_size (s : G) : Z := total_heap (gm_arena s).
Definition graphics_manager_get_used_size (s : G) : Z := used_heap (gm_arena s).
Definition graphics_manager_get_free_size (s : G) : Z := arena_get_free_size (gm_arena s).

(** The pixels that the memory holds at [p]. *)
Definition pixels_at (m : mem) (p : Z) (n : nat) : gmap Z Z :=
  list_to_map ((λ i, (i, le_combine ((λ k, default 0 (m !! (p + 4 * i + k))) <$> [0; 1; 2; 3])))
    <$> seqZ 0 (Z.of_nat n)).

(** The word at [a]: what a member nobody has set holds. *)
Definition raw_word (m : mem) (a : Z) : Z := le_combine ((λ k, default 0 (m !! (a + k))) <$> seqZ 0 8).

(** [gr] holds the width, height and pitch of the screen, [m] the raw memory, [scr] the
    screen's pixels. *)
Definition graphics_manager_init (gr : option (Z * Z * Z)) (ptr size : Z) (m : mem) (scr : gmap Z Z) (d : D)
    : outcome G Z :=
  match gr with
  | None => Stuck (Panic "ERROR: Invalid graphics_manager init graphics_manager response ptr is null")
  | Some (width, height, pitch) =>
      if ptr =? NULL then Stuck (Panic "ERROR: Invalid graphics_manager init ptr to memory is null") else
      let len := u64 (u64 (4 * width) * height) in
      if size <? u64 (SIZEOF_BLOCK + GRAPHICS_SIZE_META + len) then
        Stuck (Panic "ERROR: Invalid graphics_manager init size lt needed") else
      let total := u64 (GRAPHICS_HEAP_SIZE - SIZEOF_BLOCK - len) in
      let start := u64 (ptr + GRAPHICS_SIZE_META + len) in
      (framebuffer ← graphics_manager_create ptr len;
       if framebuffer =? NULL then panic "ERROR: Invalid graphics_manager init framebuffer is not initialized" else
       modify (set_frame (pixels_at m framebuffer (Z.to_nat (len / 4))));;
       ws ← graphics_manager_alloc ptr SIZEOF_GWORKSPACE 1;
       if ws =? NULL then panic "ERROR: Invalid graphics_manager init workspaces is not initialized" else
       modify (new_cells ws (Z.to_nat (SIZEOF_GWORKSPACE / 8)));;
       modify (set_workspaces ws 0 1 (raw_word m (ptr + 88)));;
       boxes ← graphics_manager_alloc ptr SIZEOF_GBOX DIRTY_BOXES_MAX;
       modify (set_boxes boxes);;
       mret ptr)
      (mk_gm (mk_arena start total 0 {[ start := mk_block BLOCK_MAGIC total NULL NULL 0 ]} m)
         width height pitch len NULL 0 0 0 NULL [] ∅ scr ∅ ∅ ∅ ∅ d)
  end.

(** ** Drawing *)

(** [for (u32 i = 0; i < n; i++)] with a 64-bit bound: never ends when the bound is no
    32-bit number. *)
Definition for_u32 (n : Z) (body : Z → M G unit) : M G unit :=
  if 2 ^ 32 <=? n then stuck_with Halted else for_range (Z.to_nat n) 0 body.

Definition put_pixel (i color : Z) : M G unit := λ s,
  match frame s !! i with
  | Some _ => Done tt (set_frame (<[i := color]> (frame s)) s)
  | None => Stuck Fault
  end.

(** The session's box, when it is attached to a workspace of a manager. *)
Definition drawable (gsession : Z) : M G (option gbox_t) :=
  if gsession =? NULL then mret None else
  x ← get_session gsession;
  if s_gworkspace x =? NULL then mret None else
  w ← get_workspace (s_gworkspace x);
  mret (if w_manager w =? NULL then None else Some (s_box x)).

Definition clear_pixel (b : gbox_t) (color dy dx : Z) : M G unit :=
  s ← get;
  let screen_y := u64 (box_y b + dy) in
  let screen_x := u64 (box_x b + dx) in
  if (screen_x <? glres_width s) && (screen_y <? glres_height s)
  then put_pixel (u64 (screen_y * glres_width s + screen_x)) color
  else mret tt.

Definition gsession_clear (gsession color : Z) : M G unit :=
  b ← drawable gsession;
  match b with
  | None => mret tt
  | Some b => for_u32 (box_height b) (λ dy, for_u32 (box_width b) (λ dx, clear_pixel b color dy dx))
  end.

(** One pixel of a glyph, at [posx] and [posy] in the session. *)
Definition glyph_pixel (b : gbox_t) (c posx posy color dy dx : Z) : M G unit :=
  s ← get;
  if Z.testbit (font_8x16 c dy) (7 - dx) then
    let screen_x := u64 (box_x b + posx + dx) in
    let screen_y := u64 (box_y b + posy + dy) in
    if (screen_x <? u64 (box_x b + box_width b)) && (screen_y <? u64 (box_y b + box_height b)) &&
       (screen_x <? glres_width s) && (screen_y <? glres_height s)
    then put_pixel (u64 (screen_y * glres_width s + screen_x)) color
    else mret tt
  else mret tt.

Definition put_glyph (b : gbox_t) (c posx posy color : Z) : M G unit :=
  for_range 8 0 (λ dy, for_range 8 0 (λ dx, glyph_pixel b c posx posy color dy dx)).

Fixpoint put_string (b : gbox_t) (string : str) (x posx posy color : Z) : M G unit :=
  match string with
  | [] => mret tt
  | c :: string' =>
      put_glyph b c posx posy color;;
      let '(posx, posy) :=
        if c =? 0x0A then (i32 x, i32 (posy + 10)) else
        if i32 (box_width b) <=? i32 (i32 (posx + 8) + 8) then (i32 x, i32 (posy + 10))
        else (i32 (posx + 8), posy) in
      if i32 (box_height b) <=? i32 (posy + 8) then mret tt
      else put_string b string' x posx posy color
  end.

Definition gsession_put_at_string_dummy (gsession : Z) (string : str) (x y color : Z) : M G unit :=
  b ← drawable gsession;
  match b with
  | None => mret tt
  | Some b => put_string b string x (i32 x) (i32 y) color
  end.

Definition gsession_put_at_char_dummy (gsession c x y color : Z) : M G unit :=
  b ← drawable gsession;
  match b with
  | None => mret tt
  | Some b => put_glyph b c x y color
  end.

(** ** The screen *)

Definition graphics_manager_dirtybox_append (x y width height : Z) : M G unit :=
  s ← get;
  if (boxes_ptr s =? NULL) || (DIRTY_BOXES_MAX <=? Z.of_nat (length (dirty_boxes s))) then fault else
  modify (set_dirty (dirty_boxes s ++ [mk_gbox x y width height])).

(** [memset] and [memcpy] of a row of [n] pixels of the screen. *)
Fixpoint clear_row (dst : Z) (n : nat) : M G unit :=
  match n with
  | O => mret tt
  | S n' =>
      s ← get;
      match screen s !! dst with
      | None => fault
      | Some _ => modify (set_screen (<[dst := 0]> (screen s)));; clear_row (dst + 1) n'
      end
  end.
Fixpoint copy_row (dst src : Z) (n : nat) : M G unit :=
  match n with
  | O => mret tt
  | S n' =>
      s ← get;
      match screen s !! dst, frame s !! src with
      | Some _, Some v => modify (set_screen (<[dst := v]> (screen s)));; copy_row (dst + 1) (src + 1) n'
      | _, _ => fault
      end
  end.

Definition commit_row (b : gbox_t) (y : Z) : M G unit :=
  s ← get;
  let src_offset := u32 ((box_y b + y) * glres_width s + box_x b) in
  let dst_offset := u32 ((box_y b + y) * (glres_pitch s / 4) + box_x b) in
  let n := Z.to_nat (u64 (box_width b * 4) / 4) in
  clear_row dst_offset n;;
  copy_row dst_offset src_offset n.

(** The rows are counted by an [int]: more than it can count is a fault. *)
Fixpoint commit_boxes (l : list gbox_t) : M G unit :=
  match l with
  | [] => mret tt
  | b :: l' =>
      if 2 ^ 31 <=? box_height b then fault else
      for_range (Z.to_nat (box_height b)) 0 (commit_row b);;
      commit_boxes l'
  end.

Definition graphics_manager_commit : M G unit :=
  s ← get;
  commit_boxes (dirty_boxes s);;
  modify (set_dirty []).

(** The flag nobody reads. *)
Definition graphics_manager_disable_double_buffering (double_buffering_enabled : Z) : Z := 0.

(** ** The keyboard *)

Definition graphics_manager_keyboard_init (self count : Z) : M G Z :=
  if (self =? NULL) || (count =? 0) then mret NULL else
  kbrb ← graphics_manager_create self SIZEOF_KEYBOARDRB;
  if kbrb =? NULL then mret NULL else
  buf ← graphics_manager_alloc self SIZEOF_KEY_EVENT count;
  if buf =? NULL then graphics_manager_free self kbrb;; mret NULL else
  modify (set_ring kbrb (mk_ring (replicate (Z.to_nat count) (mk_key 0 0 0)) (u32 count) 0 0 0));;
  mret kbrb.

(** One pass of the endless loop; [last] is the last code seen. *)
Definition graphics_manager_keyboard_handler (last : Z) : M G Z :=
  st ← on_ports (inb 0x64);
  if Z.land st 1 =? 0 then mret last else
  code ← on_ports (inb 0x60);
  if code =? last then mret last else
  let event := mk_key (Z.land code 0x7F) 0 (b2z (Z.land code 0x80 =? 0)) in
  s ← get;
  ws ← read_cell (workspaces s) (workspace_active s);
  w ← get_workspace ws;
  p ← read_cell (w_sessions w) (session_active w);
  x ← get_session p;
  kbrb ← get_ring (s_kbrb x);
  '(_, kbrb) ← of_option (keyboard_put kbrb event);
  modify (set_ring (s_kbrb x) kbrb);;
  c ← of_option (keyboard_event_to_char event);
  gsession_clear p 0;;
  graphics_manager_dirtybox_append (box_x (s_box x)) (box_y (s_box x)) 8 8;;
  gsession_put_at_char_dummy p c 0 0 0x00FFFFFF;;
  graphics_manager_commit;;
  mret code.

(** ** Workspaces and sessions

    A new workspace has no [sessions_len] of its own and a new session no workspace: the
    members hold what the memory held. *)

Definition gworkspace_init (self : Z) (name : str) (pos : Z) : M G Z :=
  if self =? NULL then mret 1 else
  s ← get;
  if workspaces_total s <? workspaces_len s then mret 1 else
  workspace ← graphics_manager_create self SIZEOF_GWORKSPACE;
  if workspace =? NULL then mret 1 else
  sessions ← graphics_manager_alloc self 8 GSESSION_LEN_MAX;
  if sessions =? NULL then mret 1 else
  modify (new_cells sessions (Z.to_nat GSESSION_LEN_MAX));;
  s ← get;
  modify (set_workspace workspace
    (mk_gworkspace self (copy_name GWORKSPACE_NAME_MAX name) 0 pos 10 sessions
      (raw_word (ram (gm_arena s)) (workspace + 104)) GSESSION_LEN_MAX 0));;
  s ← get;
  write_cell (workspaces s) (workspaces_len s) workspace;;
  modify (set_workspaces (workspaces s) (u64 (workspaces_len s + 1)) (workspaces_total s) (workspaces_len s));;
  mret 0.

(** The first of the [n] workspaces from the [i]-th on that passes the test. *)
Fixpoint find_workspace (n : nat) (i : Z) (test : gworkspace_t → bool) : M G Z :=
  match n with
  | O => mret NULL
  | S n' =>
      s ← get;
      ws ← read_cell (workspaces s) i;
      w ← get_workspace ws;
      if test w then mret ws else find_workspace n' (i + 1) test
  end.

Definition gworkspace_get_name (self : Z) (workspace_name : str) : M G Z :=
  if self =? NULL then mret NULL else
  s ← get;
  find_workspace (Z.to_nat (workspaces_total s)) 0 (λ w, name_matches workspace_name (w_name w)).

Definition gworkspace_get_pos (self pos : Z) : M G Z :=
  if self =? NULL then mret NULL else
  s ← get;
  find_workspace (Z.to_nat (workspaces_total s)) 0 (λ w, pos_y w =? pos).

Fixpoint sum_widths (n : nat) (i : Z) (w : gworkspace_t) (ret : Z) : M G Z :=
  match n with
  | O => mret ret
  | S n' =>
      p ← read_cell (w_sessions w) i;
      x ← get_session p;
      sum_widths n' (i + 1) w (u64 (ret + u64 (box_width (s_box x) + gap_x w)))
  end.

(** The result and what is stored at [out]. *)
Definition gworkspace_posx_get (gworkspace : Z) : M G (Z * option Z) :=
  if gworkspace =? NULL then mret (1, None) else
  w ← get_workspace gworkspace;
  if sessions_len w =? 0 then mret (0, Some 0) else
  ret ← sum_widths (Z.to_nat (sessions_len w)) 0 w 0;
  mret (0, Some ret).

Definition gsession_init (self : Z) (name : str) (width : Z) : M G Z :=
  if self =? NULL then mret NULL else
  session ← graphics_manager_create self SIZEOF_GSESSION;
  if session =? NULL then mret NULL else
  s ← get;
  kbrb ← graphics_manager_keyboard_init self 128;
  modify (set_session session
    (mk_gsession (raw_word (ram (gm_arena s)) session) kbrb (copy_name SESSION_NAME_MAX name) (mk_gbox 0 0 width (glres_height s))));;
  if kbrb =? NULL then graphics_manager_free self session;; mret NULL else mret session.

Definition gsession_attach (self gsession : Z) (workspace_name : option str) : M G Z :=
  match workspace_name with
  | None => mret 1
  | Some name =>
      if (self =? NULL) || (gsession =? NULL) then mret 1 else
      s ← get;
      ws ← find_workspace (Z.to_nat (workspaces_total s)) 0 (λ w, name_matches name (w_name w));
      if ws =? NULL then mret 1 else
      w ← get_workspace ws;
      if sessions_total w <? sessions_len w then mret 1 else
      write_cell (w_sessions w) (sessions_len w) gsession;;
      modify (set_workspace ws (mk_gworkspace (w_manager w) (w_name w) (pos_x w) (pos_y w) (gap_x w)
        (w_sessions w) (u64 (sessions_len w + 1)) (sessions_total w) (sessions_len w)));;
      x ← get_session gsession;
      modify (set_session gsession (mk_gsession ws (s_kbrb x) (s_name x) (s_box x)));;
      mret 0
  end.

(** The place of the first session from the [i]-th on whose name starts with [name]. *)
Fixpoint find_session (n : nat) (i : Z) (w : gworkspace_t) (name : str) : M G (option Z) :=
  match n with
  | O => mret None
  | S n' =>
      p ← read_cell (w_sessions w) i;
      x ← get_session p;
      if name_matches name (s_name x) then mret (Some i) else find_session n' (i + 1) w name
  end.

Definition gsession_detach (gworkspace gsession : Z) : M G Z :=
  if (gworkspace =? NULL) || (gsession =? NULL) then mret 1 else
  x ← get_session gsession;
  w ← get_workspace gworkspace;
  i ← find_session (Z.to_nat (sessions_total w)) 0 w (s_name x);
  match i with
  | None => mret 1
  | Some i =>
      write_cell (w_sessions w) i NULL;;
      modify (set_workspace gworkspace (mk_gworkspace (w_manager w) (w_name w) (pos_x w) (pos_y w) (gap_x w)
        (w_sessions w) (u64 (sessions_len w - 1)) (sessions_total w) (session_active w)));;
      gsession_clear gsession 0;;
      mret 0
  end.

(** ** Where a session draws *)

(** Pixel [i] of a buffer of [W] by [H] pixels lies in the box. *)
Definition in_box (b : gbox_t) (W H i : Z) : bool :=
  (0 <=? i) && (i / W <? H) && (box_y b <=? i / W) && (i / W <? box_y b + box_height b) &&
  (box_x b <=? i mod W) && (i mod W <? box_x b + box_width b).

(** The part of the box the first [dy] rows and [dx] pixels of the next one cover. *)
Definition in_part (b : gbox_t) (W H dy dx i : Z) : bool :=
  in_box b W H i && ((i / W <? box_y b + dy) || ((i / W =? box_y b + dy) && (i mod W <? box_x b + dx))).

(** A session that can be drawn on, with its box, and a frame buffer that is all there. *)
Record canvas (s : G) (gsession : Z) (b : gbox_t) : Prop := {
  cv_draw : drawable gsession s = Done (Some b) s;
  cv_size : 0 < glres_width s ∧ 0 ≤ glres_height s ∧ glres_width s * glres_height s < 2 ^ 64;
  cv_x : 0 ≤ box_x b ∧ 0 ≤ box_width b ∧ box_x b + box_width b < 2 ^ 64;
  cv_y : 0 ≤ box_y b ∧ 0 ≤ box_height b ∧ box_y b + box_height b < 2 ^ 64;
  cv_frame : ∀ i, 0 ≤ i < glres_width s * glres_height s → is_Some (frame s !! i);
}.

Lemma index_parts W i y x : 0 ≤ x < W → i = y * W + x ↔ i / W = y ∧ i mod W = x.
Proof.
  intros Hx. split.
  - intros ->. rewrite Z.add_comm, Z_mod_plus_full, Z.div_add by lia.
    rewrite Z.div_small, Z.mod_small; lia.
  - intros [<- <-]. pose proof (Z.div_mod i W). lia.
Qed.

Lemma index_range W H y x : 0 ≤ x < W → 0 ≤ y < H → 0 ≤ y * W + x < W * H.
Proof. nia. Qed.

(** [paints s P color s']: the frame buffer's pixels in [P] have got the colour. *)
Definition paints (s : G) (P : Z → bool) (color : Z) (s' : G) : Prop :=
  ∃ fb, s' = set_frame fb s ∧ ∀ i, fb !! i = if P i then Some color else frame s !! i.

Lemma paints_some s P color s' i : paints s P color s' → is_Some (frame s !! i) → is_Some (frame s' !! i).
Proof. intros (fb & -> & Hfb) Hi. cbn. rewrite Hfb. by destruct (P i). Qed.

Lemma put_pixel_paints i color s :
  is_Some (frame s !! i) →
  wp (put_pixel i color) (λ _ s', paints s (λ j, j =? i) color s') s.
Proof.
  intros [v Hv]. unfold wp, put_pixel. rewrite Hv. eexists. split; [done|]. intros j.
  destruct (Z.eqb_spec j i) as [->|]; [by rewrite lookup_insert_eq|by rewrite lookup_insert_ne].
Qed.

Lemma paints_trans s s1 s2 P Q R color :
  paints s P color s1 → paints s1 Q color s2 → (∀ i, R i = Q i || P i) → paints s R color s2.
Proof.
  intros (f1 & -> & H1) (f2 & -> & H2) HR. exists f2. split; [done|]. intros i.
  rewrite H2, HR. cbn. rewrite H1. by destruct (Q i).
Qed.

Lemma paints_refl s P color : (∀ i, P i = false) → paints s P color s.
Proof. intros HP. exists (frame s). split; [by destruct s|]. intros i. by rewrite HP. Qed.

Lemma clear_pixel_step gs b color s dy dx s1 :
  canvas s gs b → 0 ≤ dy < box_height b → 0 ≤ dx < box_width b →
  paints s (in_part b (glres_width s) (glres_height s) dy dx) color s1 →
  wp (clear_pixel b color dy dx)
    (λ _ s2, paints s (in_part b (glres_width s) (glres_height s) dy (dx + 1)) color s2) s1.
Proof.
  intros [_ Hsz Hx Hy Hfr] Hdy Hdx Hp. set (W := glres_width s) in *. set (H := glres_height s) in *.
  assert (glres_width s1 = W ∧ glres_height s1 = H) as [E1 E2] by (by destruct Hp as (fb & -> & _)).
  unfold clear_pixel. apply wp_bind, wp_get. rewrite E1, E2. unfold u64.
  rewrite !(Z.mod_small (box_y b + dy)), !(Z.mod_small (box_x b + dx)) by lia.
  assert (Hstep : ∀ i, box_x b + dx < W → i = (box_y b + dy) * W + (box_x b + dx) ↔
    i / W = box_y b + dy ∧ i mod W = box_x b + dx) by (intros; apply index_parts; lia).
  assert (HmodW : ∀ i, 0 ≤ i mod W < W) by (intros; apply Z.mod_pos_bound; lia).
  destruct (Z.ltb_spec (box_x b + dx) W) as [HxW|]; cbn [andb]; [destruct (Z.ltb_spec (box_y b + dy) H)|].
  - assert (0 ≤ (box_y b + dy) * W + (box_x b + dx) < W * H) by (apply index_range; lia).
    rewrite Z.mod_small by lia.
    eapply wp_mono; [apply put_pixel_paints; eapply paints_some; [done|apply Hfr; lia]|].
    intros [] s2 Hs2. eapply paints_trans; [done|done|]. intros i. cbn beta.
    specialize (Hstep i HxW). pose proof (HmodW i). pose proof (Z.div_mod i W).
    unfold in_part, in_box. apply eq_true_iff_eq. rewrite !orb_true_iff, !andb_true_iff, !orb_true_iff, !andb_true_iff,
      !Z.leb_le, !Z.ltb_lt, !Z.eqb_eq. nia.
  - apply wp_ret. destruct Hp as (fb & E & Hfb). exists fb. split; [done|]. intros i. rewrite Hfb.
    replace (in_part b W H dy (dx + 1) i) with (in_part b W H dy dx i); [done|].
    apply eq_true_iff_eq. unfold in_part, in_box.
    rewrite !andb_true_iff, !orb_true_iff, !andb_true_iff, !Z.leb_le, !Z.ltb_lt, !Z.eqb_eq. lia.
  - apply wp_ret. destruct Hp as (fb & E & Hfb). exists fb. split; [done|]. intros i. rewrite Hfb.
    replace (in_part b W H dy (dx + 1) i) with (in_part b W H dy dx i); [done|].
    pose proof (HmodW i). apply eq_true_iff_eq. unfold in_part, in_box.
    rewrite !andb_true_iff, !orb_true_iff, !andb_true_iff, !Z.leb_le, !Z.ltb_lt, !Z.eqb_eq. lia.
Qed.

Lemma in_part_row b W H dy i : in_part b W H dy (box_width b) i = in_part b W H (dy + 1) 0 i.
Proof.
  apply eq_true_iff_eq. unfold in_part, in_box.
  rewrite !andb_true_iff, !orb_true_iff, !andb_true_iff, !Z.leb_le, !Z.ltb_lt, !Z.eqb_eq. lia.
Qed.

Lemma in_part_none b W H i : in_part b W H 0 0 i = false.
Proof.
  apply not_true_iff_false. unfold in_part, in_box.
  rewrite !andb_true_iff, !orb_true_iff, !andb_true_iff, !Z.leb_le, !Z.ltb_lt, !Z.eqb_eq. lia.
Qed.

Lemma in_part_all b W H i : in_part b W H (box_height b) 0 i = in_box b W H i.
Proof.
  apply eq_true_iff_eq. unfold in_part, in_box.
  rewrite !andb_true_iff, !orb_true_iff, !andb_true_iff, !Z.leb_le, !Z.ltb_lt, !Z.eqb_eq. lia.
Qed.

Lemma paints_ext s P Q color s' : (∀ i, P i = Q i) → paints s P color s' → paints s Q color s'.
Proof. intros HPQ (fb & -> & Hfb). exists fb. split; [done|]. intros i. by rewrite Hfb, HPQ. Qed.

(** Clearing a session.  On a whole frame buffer, [gsession_clear] gives the colour to
    exactly the pixels of the session's box that are on the screen and changes nothing
    else, for every position of the box. *)
Theorem gsession_clear_correct s gs b color
    (Hcv : canvas s gs b) (Hw : box_width b < 2 ^ 32) (Hh : box_height b < 2 ^ 32) :
  ∃ fb, gsession_clear gs color s = Done tt (set_frame fb s) ∧
    ∀ i, fb !! i = if in_box b (glres_width s) (glres_height s) i then Some color else frame s !! i.
Proof.
  pose proof (cv_x _ _ _ Hcv). pose proof (cv_y _ _ _ Hcv).
  assert (wp (gsession_clear gs color)
    (λ _ s', paints s (in_box b (glres_width s) (glres_height s)) color s') s) as Hwp.
  { unfold gsession_clear. apply wp_bind. unfold wp at 1. rewrite (cv_draw _ _ _ Hcv).
    unfold for_u32 at 1. rewrite (proj2 (Z.leb_gt _ _)) by lia.
    eapply wp_mono; [apply (wp_for_range (λ dy s', paints s (in_part b (glres_width s) (glres_height s) dy 0) color s'))|].
    - apply paints_refl. intros i. apply in_part_none.
    - intros dy s1 Hdy H1. unfold for_u32. rewrite (proj2 (Z.leb_gt _ _)) by lia.
      eapply wp_mono; [apply (wp_for_range (λ dx s', paints s (in_part b (glres_width s) (glres_height s) dy dx) color s'));
        [done|]|].
      + intros dx s2 Hdx H2. eapply clear_pixel_step; [done|lia|lia|done].
      + intros [] s2. apply paints_ext. intros i. rewrite <-in_part_row. f_equal. lia.
    - intros [] s1. apply paints_ext. intros i. rewrite <-in_part_all. f_equal. lia. }
  apply wp_run in Hwp as ([] & s' & E & fb & -> & Hfb). eauto.
Qed.

(** ** Text stays inside the box *)

(** Only pixels of the box may have changed, and only to the colour. *)
Definition drawn_in (s : G) (b : gbox_t) (color : Z) (s' : G) : Prop :=
  ∃ P, (∀ i, P i = true → in_box b (glres_width s) (glres_height s) i = true) ∧ paints s P color s'.

Lemma drawn_refl s b color : drawn_in s b color s.
Proof. exists (λ _, false). split; [done|]. by apply paints_refl. Qed.

Lemma drawn_trans s b color s1 s2 :
  drawn_in s b color s1 → drawn_in s1 b color s2 → drawn_in s b color s2.
Proof.
  intros (P & HP & H1) (Q & HQ & H2). exists (λ i, Q i || P i). split.
  - assert (glres_width s1 = glres_width s ∧ glres_height s1 = glres_height s) as [E1 E2]
      by (by destruct H1 as (fb & -> & _)).
    rewrite E1, E2 in HQ. intros i [?|?]%orb_true_iff; auto.
  - by eapply paints_trans.
Qed.

Lemma glyph_pixel_drawn s gs b c posx posy color dy dx s1 :
  canvas s gs b → drawn_in s b color s1 → 0 ≤ posx < 2 ^ 32 → 0 ≤ posy < 2 ^ 32 → 0 ≤ dy < 8 → 0 ≤ dx < 8 →
  box_x b + box_width b < 2 ^ 63 → box_y b + box_height b < 2 ^ 63 →
  wp (glyph_pixel b c posx posy color dy dx) (λ _, drawn_in s b color) s1.
Proof.
  intros [_ Hsz Hx Hy Hfr] Hd Hpx Hpy Hdy Hdx Hbx Hby. unfold glyph_pixel. apply wp_bind, wp_get.
  destruct (Z.testbit _ _); [|by apply wp_ret].
  destruct (_ && _) eqn:Hin; [|by apply wp_ret]. rewrite !andb_true_iff, !Z.ltb_lt in Hin.
  unfold u64 in *. rewrite (Z.mod_small (box_x b + posx + dx)), (Z.mod_small (box_y b + posy + dy)) in * by lia.
  rewrite (Z.mod_small (box_x b + box_width b)), (Z.mod_small (box_y b + box_height b)) in Hin by lia.
  destruct Hd as (P & HP & Hp).
  assert (glres_width s1 = glres_width s ∧ glres_height s1 = glres_height s) as [E1 E2]
    by (by destruct Hp as (fb & -> & _)). rewrite E1, E2 in *.
  pose proof (index_range (glres_width s) (glres_height s) (box_y b + posy + dy) (box_x b + posx + dx)) as Hr.
  rewrite Z.mod_small by lia.
  eapply wp_mono; [apply put_pixel_paints; eapply paints_some; [done|apply Hfr; lia]|].
  intros [] s2 H2. eapply drawn_trans; [by exists P|]. eexists. split; [|exact H2].
  intros i ->%Z.eqb_eq. rewrite E1, E2. unfold in_box.
  destruct (proj1 (index_parts (glres_width s) _ (box_y b + posy + dy) (box_x b + posx + dx) ltac:(lia)) eq_refl)
    as [-> ->].
  rewrite !andb_true_iff, !Z.leb_le, !Z.ltb_lt. lia.
Qed.

Lemma put_glyph_drawn s gs b c posx posy color s1 :
  canvas s gs b → drawn_in s b color s1 → 0 ≤ posx < 2 ^ 32 → 0 ≤ posy < 2 ^ 32 →
  box_x b + box_width b < 2 ^ 63 → box_y b + box_height b < 2 ^ 63 →
  wp (put_glyph b c posx posy color) (λ _, drawn_in s b color) s1.
Proof.
  intros Hcv Hd Hpx Hpy Hbx Hby. apply (wp_for_range (λ _, drawn_in s b color)); [done|].
  intros dy s2 Hdy H2. apply (wp_for_range (λ _, drawn_in s b color)); [done|].
  intros dx s3 Hdx H3. eapply glyph_pixel_drawn; (done || lia).
Qed.

Lemma put_string_drawn s gs b string x posx posy color s1 :
  canvas s gs b → drawn_in s b color s1 → 0 ≤ x < 2 ^ 30 → 0 ≤ posx < 2 ^ 30 → 0 ≤ posy < 2 ^ 30 →
  box_width b < 2 ^ 30 → box_height b < 2 ^ 30 →
  box_x b + box_width b < 2 ^ 63 → box_y b + box_height b < 2 ^ 63 →
  wp (put_string b string x posx posy color) (λ _, drawn_in s b color) s1.
Proof.
  intros Hcv Hd Hx Hpx Hpy Hw Hh Hbx Hby. pose proof (cv_x _ _ _ Hcv). pose proof (cv_y _ _ _ Hcv).
  revert posx posy s1 Hd Hpx Hpy; induction string as [|c string IH]; intros posx posy s1 Hd Hpx Hpy;
    cbn [put_string]; [by apply wp_ret|].
  apply wp_bind. eapply wp_mono; [eapply put_glyph_drawn; (done || lia)|]. intros [] s2 H2.
  rewrite (i32_id x), (i32_id (posy + 10)), (i32_id (posx + 8)), (i32_id (box_width b)),
    (i32_id (posx + 8 + 8)), (i32_id (box_height b)) by lia.
  assert (Hnext : ∀ px py, 0 ≤ px < 2 ^ 30 → 0 ≤ py < 2 ^ 30 + 10 →
    wp (if box_height b <=? i32 (py + 8) then mret tt else put_string b string x px py color)
      (λ _, drawn_in s b color) s2).
  { intros px py Hx' Hy'. rewrite (i32_id (py + 8)) by lia.
    destruct (Z.leb_spec (box_height b) (py + 8)); [by apply wp_ret|]. apply IH; (done || lia). }
  destruct (c =? 0x0A); [apply Hnext; lia|].
  destruct (Z.leb_spec (box_width b) (posx + 8 + 8)); apply Hnext; lia.
Qed.

(** Text stays in its session.  Whatever the string, and wherever in the session it is
    put, [gsession_put_at_string_dummy] terminates without leaving the frame buffer; a pixel
    it changes is on the screen and in the session's box, and gets the given colour. *)
Theorem put_string_stays_inside s gs b string x y color
    (Hcv : canvas s gs b) (Hx : 0 ≤ x < 2 ^ 30) (Hy : 0 ≤ y < 2 ^ 30)
    (Hw : box_width b < 2 ^ 30) (Hh : box_height b < 2 ^ 30)
    (Hbx : box_x b + box_width b < 2 ^ 63) (Hby : box_y b + box_height b < 2 ^ 63) :
  ∃ fb, gsession_put_at_string_dummy gs string x y color s = Done tt (set_frame fb s) ∧
    ∀ i, fb !! i = frame s !! i ∨
      fb !! i = Some color ∧ in_box b (glres_width s) (glres_height s) i = true.
Proof.
  assert (wp (gsession_put_at_string_dummy gs string x y color) (λ _, drawn_in s b color) s) as Hwp.
  { unfold gsession_put_at_string_dummy. apply wp_bind. unfold wp at 1. rewrite (cv_draw _ _ _ Hcv).
    rewrite (i32_id x), (i32_id y) by lia. eapply put_string_drawn; (done || apply drawn_refl). }
  apply wp_run in Hwp as ([] & s' & E & P & HP & fb & -> & Hfb). exists fb. split; [done|].
  intros i. rewrite Hfb. destruct (P i) eqn:Ei; [right|by left]. auto.
Qed.

(** ** What a commit shows *)

(** The box lies inside [W] by [H] pixels. *)
Definition box_fits (W H : Z) (b : gbox_t) : Prop :=
  0 ≤ box_x b ∧ 0 ≤ box_width b ∧ box_x b + box_width b ≤ W ∧
  0 ≤ box_y b ∧ 0 ≤ box_height b ∧ box_y b + box_height b ≤ H.

Lemma clear_row_run n dst s :
  (∀ i, dst ≤ i < dst + Z.of_nat n → is_Some (screen s !! i)) →
  ∃ sc, clear_row dst n s = Done tt (set_screen sc s) ∧
    (∀ i, is_Some (screen s !! i) → is_Some (sc !! i)) ∧
    ∀ i, ¬ (dst ≤ i < dst + Z.of_nat n) → sc !! i = screen s !! i.
Proof.
  revert dst s; induction n as [|n IH]; intros dst s Hin; cbn [clear_row].
  - exists (screen s). by destruct s.
  - unfold get, modify. mred. destruct (Hin dst) as [v Hv]; [lia|]. rewrite Hv.
    edestruct (IH (dst + 1)) as (sc & E & Hsc & Hout); [|rewrite E; exists sc; split; [done|]].
    { intros i Hi. cbn. destruct (decide (i = dst)) as [->|]; [rewrite lookup_insert_eq; eauto|].
      rewrite lookup_insert_ne by done. apply Hin. lia. }
    cbn in Hsc, Hout. split.
    + intros i Hi. apply Hsc. destruct (decide (i = dst)) as [->|]; [rewrite lookup_insert_eq; eauto|].
      by rewrite lookup_insert_ne.
    + intros i Hi. rewrite Hout by lia. by rewrite lookup_insert_ne by lia.
Qed.

Lemma copy_row_run n dst src s :
  (∀ i, dst ≤ i < dst + Z.of_nat n → is_Some (screen s !! i)) →
  (∀ i, src ≤ i < src + Z.of_nat n → is_Some (frame s !! i)) →
  ∃ sc, copy_row dst src n s = Done tt (set_screen sc s) ∧
    ∀ i, sc !! i = if (dst <=? i) && (i <? dst + Z.of_nat n) then frame s !! (src + (i - dst)) else screen s !! i.
Proof.
  revert dst src s; induction n as [|n IH]; intros dst src s Hin Hfr; cbn [copy_row].
  - exists (screen s). split; [by destruct s|]. intros i.
    destruct (Z.leb_spec dst i), (Z.ltb_spec i (dst + Z.of_nat 0)); done || lia.
  - unfold get, modify. mred. destruct (Hin dst) as [v ->]; [lia|]. destruct (Hfr src) as [c Hc]; [lia|].
    rewrite Hc. edestruct (IH (dst + 1) (src + 1)) as (sc & E & Hsc); [| |rewrite E; exists sc; split; [done|]].
    { intros i Hi. cbn. destruct (decide (i = dst)) as [->|]; [rewrite lookup_insert_eq; eauto|].
      rewrite lookup_insert_ne by done. apply Hin. lia. }
    { intros i Hi. apply Hfr. lia. }
    intros i. rewrite Hsc. cbn. destruct (decide (i = dst)) as [->|Hne].
    + rewrite lookup_insert_eq, Z.leb_refl, Z.sub_diag, Z.add_0_r.
      rewrite (proj2 (Z.leb_gt (dst + 1) dst)), (proj2 (Z.ltb_lt dst (dst + Z.of_nat (S n)))) by lia. by cbn.
    + rewrite lookup_insert_ne by done.
      replace (src + 1 + (i - (dst + 1))) with (src + (i - dst)) by lia.
      destruct (Z.leb_spec (dst + 1) i), (Z.leb_spec dst i), (Z.ltb_spec i (dst + 1 + Z.of_nat n)),
        (Z.ltb_spec i (dst + Z.of_nat (S n))); done || lia.
Qed.

(** The pixel [i] of a screen of rows of [P] pixels, as a pixel of the frame buffer. *)
Definition frame_index (s : G) (P i : Z) : Z := i / P * glres_width s + i mod P.

(** [shows s P Q s']: the screen's pixels in [Q] show the frame buffer. *)
Definition shows (s : G) (P : Z) (Q : Z → bool) (s' : G) : Prop :=
  ∃ sc, s' = set_screen sc s ∧ (∀ i, is_Some (screen s !! i) → is_Some (sc !! i)) ∧
    ∀ i, sc !! i = if Q i then frame s !! frame_index s P i else screen s !! i.

(** A frame buffer and a screen that are all there, with pixel indices of 32 bits. *)
Record display (s : G) : Prop := {
  dp_size : 0 < glres_width s ∧ 0 ≤ glres_height s;
  dp_pitch : glres_width s ≤ glres_pitch s / 4;
  dp_max : glres_pitch s / 4 * glres_height s < 2 ^ 31;
  dp_frame : ∀ i, 0 ≤ i < glres_width s * glres_height s → is_Some (frame s !! i);
  dp_screen : ∀ i, 0 ≤ i < glres_pitch s / 4 * glres_height s → is_Some (screen s !! i);
}.

Definition in_row (b : gbox_t) (P y i : Z) : bool :=
  (i / P =? box_y b + y) && (box_x b <=? i mod P) && (i mod P <? box_x b + box_width b).

Lemma in_row_index b P y i :
  box_x b + box_width b ≤ P → 0 ≤ box_x b → 0 < P →
  in_row b P y i = (((box_y b + y) * P + box_x b <=? i) && (i <? (box_y b + y) * P + box_x b + box_width b)).
Proof.
  intros HP Hx HP0. apply eq_true_iff_eq. unfold in_row.
  rewrite !andb_true_iff, Z.eqb_eq, !Z.leb_le, !Z.ltb_lt. split.
  - intros [[<- H1] H2]. pose proof (Z.div_mod i P). lia.
  - intros [H1 H2].
    destruct (proj1 (index_parts P i (box_y b + y) (i - (box_y b + y) * P) ltac:(lia)) ltac:(lia)) as [-> ->]. lia.
Qed.

Lemma commit_row_shows b y s Q s1 (P := glres_pitch s / 4) :
  display s → box_fits (glres_width s) (glres_height s) b → 0 ≤ y < box_height b →
  shows s P Q s1 →
  wp (commit_row b y) (λ _ s2, shows s P (λ i, in_row b P y i || Q i) s2) s1.
Proof.
  intros Hd Hb Hy (sc1 & -> & Hdom & Hsc1). unfold box_fits in Hb.
  pose proof (dp_size _ Hd) as Hsz. pose proof (dp_pitch _ Hd) as HP. pose proof (dp_max _ Hd) as Hmax.
  fold P in HP, Hmax. unfold commit_row. apply wp_bind, wp_get. cbn [glres_width glres_pitch set_screen].
  assert (Hsrc : 0 ≤ (box_y b + y) * glres_width s + box_x b ∧
    (box_y b + y) * glres_width s + box_x b + box_width b ≤ glres_width s * glres_height s) by nia.
  assert (Hdst : 0 ≤ (box_y b + y) * P + box_x b ∧
    (box_y b + y) * P + box_x b + box_width b ≤ P * glres_height s) by nia.
  assert (glres_width s * glres_height s ≤ P * glres_height s) by nia.
  assert (Hw : u64 (box_width b * 4) / 4 = box_width b).
  { unfold u64. rewrite Z.mod_small, Z.div_mul by nia. done. }
  rewrite Hw. fold P. unfold u32. rewrite !Z.mod_small by lia.
  set (dst := (box_y b + y) * P + box_x b) in *. set (src := (box_y b + y) * glres_width s + box_x b) in *.
  destruct (clear_row_run (Z.to_nat (box_width b)) dst (set_screen sc1 s)) as (sc2 & E2 & Hdom2 & Hout2).
  { intros i Hi. cbn. apply Hdom, Hd. fold P. lia. }
  apply wp_bind. unfold wp at 1. rewrite E2.
  destruct (copy_row_run (Z.to_nat (box_width b)) dst src (set_screen sc2 (set_screen sc1 s))) as (sc3 & E3 & Hsc3).
  { intros i Hi. cbn. apply Hdom2, Hdom, Hd. fold P. lia. }
  { intros i Hi. cbn. apply Hd. lia. }
  cbn in Hdom2, Hout2, Hsc3. rewrite Z2Nat.id in Hsc3, Hout2 by lia.
  unfold wp. rewrite E3. exists sc3. split; [done|].
  assert (Hval : ∀ i, sc3 !! i = if in_row b P y i || Q i then frame s !! frame_index s P i else screen s !! i).
  { intros i. rewrite Hsc3, in_row_index by lia. fold dst.
    destruct (Z.leb_spec dst i), (Z.ltb_spec i (dst + box_width b)); cbn [andb orb];
      [|rewrite Hout2 by lia; apply Hsc1..].
    f_equal. unfold frame_index.
    destruct (proj1 (index_parts P i (box_y b + y) (i - (box_y b + y) * P) ltac:(lia)) ltac:(lia)) as [-> ->]. lia. }
  split; [|done]. intros i Hi. rewrite Hsc3.
  destruct (Z.leb_spec dst i), (Z.ltb_spec i (dst + box_width b)); cbn [andb]; [apply Hd; lia|..]; by apply Hdom2, Hdom.
Qed.

Definition in_rows (b : gbox_t) (P n i : Z) : bool :=
  (box_y b <=? i / P) && (i / P <? box_y b + n) && (box_x b <=? i mod P) && (i mod P <? box_x b + box_width b).

Lemma shows_ext s P Q R s' : (∀ i, Q i = R i) → shows s P Q s' → shows s P R s'.
Proof. intros HQ (sc & -> & H1 & H2). exists sc. split_and!; [done|done|]. intros i. by rewrite H2, HQ. Qed.

Lemma commit_boxes_shows l s Q s1 (P := glres_pitch s / 4) :
  display s → Forall (box_fits (glres_width s) (glres_height s)) l → shows s P Q s1 →
  wp (commit_boxes l) (λ _ s2, shows s P (λ i, existsb (λ b, in_rows b P (box_height b) i) l || Q i) s2) s1.
Proof.
  intros Hd Hl. revert Q s1; induction Hl as [|b l Hb Hl IH]; intros Q s1 Hs; cbn [commit_boxes existsb];
    [by apply wp_ret|].
  pose proof Hb as (_ & _ & _ & Hy0 & Hh0 & Hh1). pose proof (dp_max _ Hd) as Hmax. fold P in Hmax.
  assert (1 ≤ P) by (pose proof (dp_size _ Hd); pose proof (dp_pitch _ Hd) as HP; fold P in HP; lia).
  rewrite (proj2 (Z.leb_gt _ _)) by nia. apply wp_bind.
  eapply wp_mono; [apply (wp_for_range (λ n s2, shows s P (λ i, in_rows b P n i || Q i) s2))|].
  - eapply shows_ext; [|done]. intros i. unfold in_rows.
    destruct (Z.leb_spec (box_y b) (i / P)), (Z.ltb_spec (i / P) (box_y b + 0)); done || lia.
  - intros y s2 Hy H2. eapply wp_mono; [eapply (commit_row_shows b y s); [done|done|lia|exact H2]|].
    intros [] s3. apply shows_ext. intros i. rewrite orb_assoc. f_equal. apply eq_true_iff_eq.
    unfold in_row, in_rows. rewrite orb_true_iff, !andb_true_iff, !Z.eqb_eq, !Z.leb_le, !Z.ltb_lt. fold P. lia.
  - intros [] s2 H2. eapply wp_mono; [apply (IH _ _ H2)|]. intros [] s3. apply shows_ext. intros i.
    rewrite Z.add_0_l, Z2Nat.id by lia. by destruct (existsb _ l), (in_rows b P _ i), (Q i).
Qed.

(** C31: A commit.  When the dirty boxes lie on the screen, [graphics_manager_commit] copies
    exactly their pixels from the frame buffer to the screen, for any length of the screen's
    rows, changes no other pixel and leaves no dirty box. *)
Theorem graphics_manager_commit_correct s (P := glres_pitch s / 4)
    (Hd : display s) (Hl : Forall (box_fits (glres_width s) (glres_height s)) (dirty_boxes s)) :
  ∃ sc, graphics_manager_commit s = Done tt (set_dirty [] (set_screen sc s)) ∧
    ∀ i, sc !! i = if existsb (λ b, in_rows b P (box_height b) i) (dirty_boxes s)
                   then frame s !! frame_index s P i else screen s !! i.
Proof.
  assert (wp (commit_boxes (dirty_boxes s))
    (λ _ s2, shows s P (λ i, existsb (λ b, in_rows b P (box_height b) i) (dirty_boxes s) || false) s2) s) as Hwp.
  { apply commit_boxes_shows; [done|done|]. exists (screen s). split_and!; [by destruct s|done|done]. }
  apply wp_run in Hwp as ([] & s' & E & sc & -> & _ & Hsc). exists sc.
  unfold graphics_manager_commit, get, modify. mred. rewrite E. split; [done|].
  intros i. by rewrite Hsc, orb_false_r.
Qed.
End graphics.

(** Reading a key breaks the buffer.  Because of the assignment in its condition,
    [keyboard_next] answers 0 with the entry at the tail even when the buffer is empty, and
    leaves it full for ever: no later [keyboard_put] is accepted or changes it. *)
Theorem keyboard_next_blocks r code out r'
    (Hlen : 0 ≤ kb_len r < 2 ^ 32) (Hnext : keyboard_next r = Some (code, out, r')) :
  code = 0 ∧ kb_buf r !! Z.to_nat (kb_tail r) = Some out ∧
  ∀ e, keyboard_put r' e = Some (1, r').
Proof.
  unfold keyboard_next in Hnext. destruct (kb_buf r !! Z.to_nat (kb_tail r)) as [o|]; [|done].
  cbn in Hnext. injection Hnext as <- <- <-. split_and!; [done|done|]. intros e. unfold keyboard_put. cbn [kb_len kb_count].
  rewrite (proj2 (Z.leb_le _ _)); [done|]. change (u32 (0 - 1)) with (2 ^ 32 - 1). lia.
Qed.

Lemma keyboard_next_blocks_witness :
  ∃ r', keyboard_next (mk_ring [mk_key 30 0 1; mk_key 48 0 1] 2 0 1 0) = Some (0, mk_key 48 0 1, r') ∧
    ∀ e, keyboard_put r' e = Some (1, r').
Proof.
  eexists. split; [reflexivity|].
  apply (keyboard_next_blocks (mk_ring [mk_key 30 0 1; mk_key 48 0 1] 2 0 1 0) 0 (mk_key 48 0 1)); [cbn; lia|reflexivity].
Defined.

(** A manager of 8 by 4 pixels with a session whose box sticks out on the right; the screen's
    rows have ten pixels. *)
Definition demo_pixels (n : nat) (c : Z) : gmap Z Z := list_to_map ((λ i, (i, c + i)) <$> seqZ 0 (Z.of_nat n)).
Definition demo_box : gbox_t := mk_gbox 6 1 5 2.
Definition demo_gm : graphics_manager_t unit :=
  mk_gm (mk_arena 0 0 0 ∅ ∅) 8 4 40 128 0x100 1 1 0 0x180 [mk_gbox 1 0 2 2; mk_gbox 2 1 3 1]
    (demo_pixels 32 100) (demo_pixels 40 500) {[ 0x100 := 0x200 ]}
    {[ 0x300 := mk_gsession 0x200 NULL [] demo_box ]}
    {[ 0x200 := mk_gworkspace 1 [] 0 0 10 0x280 0 16 0 ]} ∅ tt.

Lemma demo_pixels_all n c i : 0 ≤ i < Z.of_nat n → is_Some (demo_pixels n c !! i).
Proof.
  intros Hi. exists (c + i). apply elem_of_list_to_map_1.
  - rewrite <-list_fmap_compose, list_fmap_id. apply NoDup_seqZ.
  - apply list_elem_of_fmap. exists i. split; [done|]. apply elem_of_seqZ. lia.
Qed.

Lemma demo_canvas : canvas demo_gm 0x300 demo_box.
Proof.
  constructor; cbn; try lia; [reflexivity|].
  intros i Hi. apply demo_pixels_all. lia.
Qed.

Lemma gsession_clear_correct_witness :
  ∃ fb, gsession_clear 0x300 0xFF demo_gm = Done tt (set_frame fb demo_gm) ∧
    ∀ i, fb !! i = if in_box demo_box 8 4 i then Some 0xFF else demo_pixels 32 100 !! i.
Proof. apply (gsession_clear_correct demo_gm 0x300 demo_box 0xFF demo_canvas); cbn; lia. Defined.

Lemma put_string_stays_inside_witness :
  ∃ fb, gsession_put_at_string_dummy (λ _ _, 0x81) 0x300 (chars "ok") 0 0 7 demo_gm =
      Done tt (set_frame fb demo_gm) ∧
    ∀ i, fb !! i = demo_pixels 32 100 !! i ∨ fb !! i = Some 7 ∧ in_box demo_box 8 4 i = true.
Proof.
  apply (put_string_stays_inside (λ _ _, 0x81) demo_gm 0x300 demo_box (chars "ok") 0 0 7 demo_canvas); cbn; lia.
Defined.

Lemma graphics_manager_commit_correct_witness :
  ∃ sc, graphics_manager_commit demo_gm = Done tt (set_dirty [] (set_screen sc demo_gm)) ∧
    sc !! 11 = Some 109 ∧ sc !! 10 = Some 510.
Proof.
  destruct (graphics_manager_commit_correct demo_gm) as (sc & E & Hsc).
  - constructor; [cbn; lia|by vm_compute|by vm_compute|intros i Hi; apply demo_pixels_all; cbn in Hi; lia|].
    intros i Hi. apply demo_pixels_all. change (0 ≤ i < 40) in Hi. lia.
  - repeat constructor; cbn; lia.
  - exists sc. split; [exact E|]. rewrite !Hsc. vm_compute. done.
Defined.
