(* ===== verification/UserSpace.v ===== *)
(** * Processes, [core/kernel/mem/user_space/user_space.c]

    The process records lie one after the other in the internal pool and are kept by their
    address; physical memory and the page tables are those of [Paging.v], the screen that
    of [Graphics.v].  There is one [user_space_t], so a pointer to it is only tested for
    being null.  A process that runs is not modelled.  Messages are left out. *)

From Stdlib Require Import ZArith Lia String.
From stdpp Require Import base gmap list numbers fin_maps.
From S2P Require Import Prelude Memory PhysMem Paging Graphics.
Open Scope Z_scope.
Set Default Goal Selector "!".

Definition ULIME_META_SIZE : Z := 1024 * 1024 * 2.
Definition SYS_EXIT : Z := 0.
Definition SYS_WRITE : Z := 1.
Definition SIZEOF_PROC : Z := 176.
Definition SIZEOF_USER_SPACE : Z := 2160.
(** [name[64]]. *)
Definition PROC_NAME_MAX : Z := 64.

Definition PROC_CREATED : Z := 1.
Definition PROC_READY : Z := 2.
Definition PROC_RUNNING : Z := 3.
Definition PROC_BLOCKED : Z := 4.
Definition PROC_ZOMBIE : Z := 5.

Record user_space_proc_t := mk_proc {
  pid : Z;
  p_name : str;
  state : Z;
  entry_point : Z;
  heap_base : Z;
  heap_size : Z;
  stack_base : Z;
  stack_size : Z;
  phys_heap : Z;
  phys_stack : Z;
  p_user_space : Z;
  p_next : Z;
  p_prev : Z;
}.

(** The system calls, by the function that serves them. *)
Inductive syscall_handler_t := H_exit | H_write.

Record user_space_t := mk_user_space {
  ptr_proc_list : Z;
  ptr_proc_curr : Z;
  pid_next : Z;
  tid_next : Z;
  hpr : Z;                  (* [hpr->offset] *)
  syscalls : gmap Z syscall_handler_t;
  internal_pool_base : Z;
  internal_pool_size : Z;
  internal_pool_used : Z;
  user_space_base : Z;
  user_space_size : Z;
  user_space_used : Z;
}.

Record ustate (D : Type) := mk_ustate {
  us : user_space_t;
  procs : gmap Z user_space_proc_t;
  u_vm : vm;
  u_gm : graphics_manager_t D;
}.
Arguments mk_ustate {D}.
Arguments us {D}.
Arguments procs {D}.
Arguments u_vm {D}.
Arguments u_gm {D}.

Definition set_state (v : Z) (x : user_space_proc_t) : user_space_proc_t :=
  mk_proc (pid x) (p_name x) v (entry_point x) (heap_base x) (heap_size x) (stack_base x) (stack_size x) (phys_heap x) (phys_stack x) (p_user_space x) (p_next x) (p_prev x).
Definition set_entry (v : Z) (x : user_space_proc_t) : user_space_proc_t :=
  mk_proc (pid x) (p_name x) (state x) v (heap_base x) (heap_size x) (stack_base x) (stack_size x) (phys_heap x) (phys_stack x) (p_user_space x) (p_next x) (p_prev x).
Definition set_phys (stack heap : Z) (x : user_space_proc_t) : user_space_proc_t :=
  mk_proc (pid x) (p_name x) (state x) (entry_point x) (heap_base x) (heap_size x) (stack_base x) (stack_size x) heap stack (p_user_space x) (p_next x) (p_prev x).
Definition set_pprev (v : Z) (x : user_space_proc_t) : user_space_proc_t :=
  mk_proc (pid x) (p_name x) (state x) (entry_point x) (heap_base x) (heap_size x) (stack_base x) (stack_size x) (phys_heap x) (phys_stack x) (p_user_space x) (p_next x) v.
Definition set_proc_curr (v : Z) (u : user_space_t) : user_space_t :=
  mk_user_space (ptr_proc_list u) v (pid_next u) (tid_next u) (hpr u) (syscalls u) (internal_pool_base u) (internal_pool_size u) (internal_pool_used u) (user_space_base u) (user_space_size u) (user_space_used u).
Definition set_syscalls (v : gmap Z syscall_handler_t) (u : user_space_t) : user_space_t :=
  mk_user_space (ptr_proc_list u) (ptr_proc_curr u) (pid_next u) (tid_next u) (hpr u) v (internal_pool_base u) (internal_pool_size u) (internal_pool_used u) (user_space_base u) (user_space_size u) (user_space_used u).

(** [None] is the null pointer. *)
Definition user_space_init (offset kernel_memory graphics_manager : Z) : option user_space_t :=
  if (kernel_memory =? NULL) || (graphics_manager =? NULL) then None else
  Some (mk_user_space NULL NULL 1 1 offset ∅ (ULIME_START + SIZEOF_USER_SPACE)
    (ULIME_META_SIZE - SIZEOF_USER_SPACE) 0 0x40000000 0xFFFFFFFF 0x40000000).

Section user_space.
  Context {D : Type} (font_8x16 : Z → Z → Z).
Abbreviation U := (ustate D).

Definition set_us (u : user_space_t) (s : U) : U := mk_ustate u (procs s) (u_vm s) (u_gm s).
Definition set_procs (m : gmap Z user_space_proc_t) (s : U) : U := mk_ustate (us s) m (u_vm s) (u_gm s).
Definition get_proc (p : Z) : M U user_space_proc_t := λ s,
  match procs s !! p with Some x => Done x s | None => Stuck Fault end.
Definition put_proc (p : Z) (x : user_space_proc_t) : M U unit := modify (λ s, set_procs (<[p := x]> (procs s)) s).
Definition on_vm {A} (m : M vm A) : M U A :=
  zoom u_vm (λ v s, mk_ustate (us s) (procs s) v (u_gm s)) m.
Definition on_gm {A} (m : M (graphics_manager_t D) A) : M U A :=
  zoom u_gm (λ g s, mk_ustate (us s) (procs s) (u_vm s) g) m.

(** The record is cleared after its [user_space] was set; a name that does not fit its array
    is a fault. *)
Definition user_space_proc_create (name : str) (entry : Z) : M U Z :=
  s ← get;
  let u := us s in
  if internal_pool_size u <? u64 (internal_pool_used u + SIZEOF_PROC) then mret NULL else
  if PROC_NAME_MAX <=? Z.of_nat (length name) then fault else
  let proc := u64 (internal_pool_base u + internal_pool_used u) in
  let stack := user_space_used u in
  let heap := u64 (stack + (16 KiB)%kx) in
  put_proc proc (mk_proc (pid_next u) name PROC_CREATED entry heap (64 KiB)%kx stack (16 KiB)%kx 0 0
    NULL (ptr_proc_list u) NULL);;
  (if ptr_proc_list u =? NULL then mret tt else
   x ← get_proc (ptr_proc_list u); put_proc (ptr_proc_list u) (set_pprev proc x));;
  modify (set_us (mk_user_space proc (ptr_proc_curr u) (u64 (pid_next u + 1)) (tid_next u) (hpr u) (syscalls u)
    (internal_pool_base u) (internal_pool_size u) (u64 (internal_pool_used u + SIZEOF_PROC))
    (user_space_base u) (user_space_size u) (u64 (heap + (64 KiB)%kx))));;
  mret proc.

Definition kill_step (wanted proc : Z) : M U (Z + Z) :=
  if proc =? NULL then mret (inr 1) else
  x ← get_proc proc;
  if pid x =? wanted then put_proc proc (set_state PROC_ZOMBIE x);; mret (inr 0) else mret (inl (p_next x)).

Definition user_space_proc_kill (fuel : nat) (wanted : Z) : M U Z :=
  s ← get;
  iterM fuel (kill_step wanted) (ptr_proc_list (us s)).

Definition user_space_proc_mmap (proc : Z) : M U Z :=
  s ← get;
  x ← get_proc proc;
  phys_stack_pos ← on_vm (Paging.on_pm (physmem_alloc_to (stack_size x / PAGE_SIZE)));
  if phys_stack_pos =? 0 then mret 1 else
  phys_heap_pos ← on_vm (Paging.on_pm (physmem_alloc_to (heap_size x / PAGE_SIZE)));
  if phys_heap_pos =? 0 then mret 1 else
  on_vm (map_region (hpr (us s)) phys_stack_pos (stack_base x) (stack_size x));;
  on_vm (map_region (hpr (us s)) phys_heap_pos (heap_base x) (heap_size x));;
  put_proc proc (set_phys phys_stack_pos phys_heap_pos x);;
  mret 0.

(** A process that is ready runs when its turn comes. *)
Definition start_ready : M U unit :=
  s ← get;
  x ← get_proc (ptr_proc_curr (us s));
  if state x =? PROC_READY then put_proc (ptr_proc_curr (us s)) (set_state PROC_RUNNING x) else mret tt.

Definition user_space_schedule : M U unit :=
  s ← get;
  let u := us s in
  if ptr_proc_list u =? NULL then mret tt else
  (if ptr_proc_curr u =? NULL then modify (set_us (set_proc_curr (ptr_proc_list u) u))
   else
     x ← get_proc (ptr_proc_curr u);
     modify (set_us (set_proc_curr (if p_next x =? NULL then ptr_proc_list u else p_next x) u)));;
  start_ready.

(** The columns of the list that is displayed. *)
Definition state_str (n : Z) : string :=
  if n =? PROC_CREATED then "CREATED" else if n =? PROC_READY then "READY"
  else if n =? PROC_RUNNING then "RUNNING" else if n =? PROC_BLOCKED then "BLOCKED"
  else if n =? PROC_ZOMBIE then "ZOMBIE" else "UNKNOWN".
Definition list_step (l : Z * list (Z * string * str * Z))
    : M U (Z * list (Z * string * str * Z) + list (Z * string * str * Z)) :=
  let '(current, acc) := l in
  if current =? NULL then mret (inr acc) else
  x ← get_proc current;
  mret (inl (p_next x, acc ++ [(pid x, state_str (state x), p_name x, entry_point x)])).
Definition user_space_proc_list (fuel : nat) : M U (list (Z * string * str * Z)) :=
  s ← get;
  iterM fuel list_step (ptr_proc_list (us s), []).

(** [memcpy] to the process's addresses, through the page tables. *)
Fixpoint virt_copy (off va : Z) (code : list Z) : M vm unit :=
  match code with
  | [] => mret tt
  | b :: code' => virt_store8 off (u64 va) b;; virt_copy off (va + 1) code'
  end.

Definition user_space_load_program (proc : Z) (code : list Z) : M U Z :=
  s ← get;
  x ← get_proc proc;
  if heap_size x <? Z.of_nat (length code) then mret 1 else
  on_vm (virt_copy (hpr (us s)) (heap_base x) code);;
  put_proc proc (set_entry (heap_base x) x);;
  mret 0.

Definition sys_exit (proc : Z) : M U Z :=
  x ← get_proc proc;
  put_proc proc (set_state PROC_ZOMBIE x);;
  mret 0.

(** [for (u64 i = 0; i < count; i++) count++;] *)
Definition count_step (l : Z * Z) : M U (Z * Z + Z) :=
  let '(i, count) := l in
  if i <? count then mret (inl (u64 (i + 1), u64 (count + 1))) else mret (inr count).

(** The string at a virtual address. *)
Fixpoint virt_string (fuel : nat) (off va : Z) : M vm str :=
  match fuel with
  | O => stuck_with NoFuel
  | S n => λ s,
      match pa ← translate (ram_ s) (virt_to_phys off (kernel_pml4 s)) (u64 va); ram_ s !! pa with
      | None => Stuck Fault
      | Some c => if c =? 0 then Done [] s else (l ← virt_string n off (va + 1); mret (c :: l)) s
      end
  end.

Definition sys_write (fuel : nat) (proc buf count : Z) : M U Z :=
  count ← iterM fuel count_step (0, count);
  x ← get_proc proc;
  if p_user_space x =? NULL then fault else
  s ← get;
  ws ← on_gm (read_cell (workspaces (u_gm s)) 0);
  w ← on_gm (get_workspace ws);
  session ← on_gm (read_cell (w_sessions w) 0);
  string ← on_vm (virt_string fuel (hpr (us s)) buf);
  on_gm (gsession_put_at_string_dummy font_8x16 session string 0 0 0x00FFFFFF);;
  mret count.

Definition user_space_init_syscalls : M U unit :=
  modify (λ s, set_us (set_syscalls (<[SYS_WRITE := H_write]> (<[SYS_EXIT := H_exit]> ∅)) (us s)) s).

(** ** The processes that exist *)

(** The [k]-th process made, and the link to it when there are [n]. *)
Definition proc_at (k : Z) : Z := ULIME_START + SIZEOF_USER_SPACE + SIZEOF_PROC * k.
Definition link (n k : Z) : Z := if (0 <=? k) && (k <? n) then proc_at k else NULL.
Definition PROC_SPAN : Z := (80 KiB)%kx.
(** The pool has room for fewer. *)
Definition PROC_MAX : Z := ULIME_META_SIZE / SIZEOF_PROC.

Record proc_ok (n k : Z) (x : user_space_proc_t) : Prop := {
  po_pid : pid x = k + 1;
  po_stack : stack_base x = 0x40000000 + PROC_SPAN * k;
  po_ssize : stack_size x = (16 KiB)%kx;
  po_heap : heap_base x = stack_base x + stack_size x;
  po_hsize : heap_size x = (64 KiB)%kx;
  po_next : p_next x = link n (k - 1);
  po_prev : p_prev x = link n (k + 1);
}.

Record us_ok (s : U) (n : Z) : Prop := {
  uo_n : 0 ≤ n ∧ SIZEOF_PROC * n ≤ ULIME_META_SIZE - SIZEOF_USER_SPACE;
  uo_head : ptr_proc_list (us s) = link n (n - 1);
  uo_curr : ptr_proc_curr (us s) = NULL ∨ ∃ k, 0 ≤ k < n ∧ ptr_proc_curr (us s) = proc_at k;
  uo_pid : pid_next (us s) = n + 1;
  uo_base : internal_pool_base (us s) = ULIME_START + SIZEOF_USER_SPACE;
  uo_size : internal_pool_size (us s) = ULIME_META_SIZE - SIZEOF_USER_SPACE;
  uo_pool : internal_pool_used (us s) = SIZEOF_PROC * n;
  uo_used : user_space_used (us s) = 0x40000000 + PROC_SPAN * n;
  uo_procs : ∀ k, 0 ≤ k < n → ∃ x, procs s !! proc_at k = Some x ∧ proc_ok n k x;
}.

Lemma proc_at_inj k j : proc_at k = proc_at j → k = j.
Proof. unfold proc_at, SIZEOF_PROC. lia. Qed.

Lemma proc_at_pos k : 0 ≤ k → proc_at k ≠ NULL.
Proof. unfold proc_at, SIZEOF_PROC, ULIME_START, SIZEOF_USER_SPACE, NULL. lia. Qed.

Lemma link_in n k : 0 ≤ k < n → link n k = proc_at k.
Proof. intros Hk. unfold link. by rewrite (proj2 (Z.leb_le 0 k)), (proj2 (Z.ltb_lt k n)) by lia. Qed.

Lemma link_out n k : k < 0 ∨ n ≤ k → link n k = NULL.
Proof.
  intros Hk. unfold link. destruct (Z.leb_spec 0 k), (Z.ltb_spec k n); try done. lia.
Qed.

Ltac link_cases := repeat ((rewrite link_in by lia) || (rewrite link_out by lia)).

Lemma uo_bound s n : us_ok s n → n < PROC_MAX.
Proof.
  intros H. pose proof (uo_n _ _ H) as Hn. change PROC_MAX with 11915.
  unfold SIZEOF_PROC, ULIME_META_SIZE, SIZEOF_USER_SPACE in Hn. lia.
Qed.

(** What the operations below do to a record keeps it in order. *)
Lemma us_ok_state s n k x v :
  us_ok s n → 0 ≤ k < n → procs s !! proc_at k = Some x →
  us_ok (set_procs (<[proc_at k := set_state v x]> (procs s)) s) n.
Proof.
  intros [] Hk Hx. constructor; cbn; try done. intros j Hj. destruct (decide (j = k)) as [->|Hne].
  - destruct (uo_procs0 k Hk) as (y & Hy & []). rewrite Hy in Hx. injection Hx as ->.
    eexists. rewrite lookup_insert_eq. split; [done|]. by constructor.
  - rewrite lookup_insert_ne by (by intros ?%proc_at_inj). by apply uo_procs0.
Qed.

Lemma us_ok_curr s n k : us_ok s n → 0 ≤ k < n → us_ok (set_us (set_proc_curr (proc_at k) (us s)) s) n.
Proof. intros [] Hk. constructor; cbn; try done. right. by exists k. Qed.

(** A record is put in front of the others. *)
Lemma procs_grow n (m : gmap Z user_space_proc_t) new y :
  0 < n → (∀ k, 0 ≤ k < n → ∃ x, m !! proc_at k = Some x ∧ proc_ok n k x) →
  proc_ok (n + 1) n new → m !! proc_at (n - 1) = Some y → proc_ok n (n - 1) y →
  ∀ k, 0 ≤ k < n + 1 → ∃ x,
    <[proc_at (n - 1) := set_pprev (proc_at n) y]> (<[proc_at n := new]> m) !! proc_at k = Some x ∧ proc_ok (n + 1) k x.
Proof.
  intros Hn Hprocs Hnew Hy [] k Hk.
  destruct (decide (k = n)) as [->|]; [|destruct (decide (k = n - 1)) as [->|]].
  - exists new. by rewrite lookup_insert_ne, lookup_insert_eq by (intros ?%proc_at_inj; lia).
  - eexists. rewrite lookup_insert_eq. split; [done|].
    constructor; cbn; try done; [rewrite po_next0|]; [|link_cases; f_equal; lia].
    destruct (decide (n = 1)) as [->|]; by link_cases.
  - destruct (Hprocs k) as (x & Hx & []); [lia|]. exists x.
    rewrite !lookup_insert_ne by (intros ?%proc_at_inj; lia). split; [done|].
    constructor; try done; [rewrite po_next1|rewrite po_prev1; by link_cases].
    destruct (decide (k = 0)) as [->|]; by link_cases.
Qed.

Lemma create_ok name entry s n :
  us_ok s n → Z.of_nat (length name) < PROC_NAME_MAX →
  ∃ p s' n', user_space_proc_create name entry s = Done p s' ∧ us_ok s' n' ∧
    (p = NULL ∧ s' = s ∧ n' = n ∨ p = proc_at n ∧ n' = n + 1).
Proof.
  intros Hok Hname. pose proof Hok as [Hn Hhead Hcurr Hpid Hbase Hsize Hpool Hused Hprocs].
  unfold user_space_proc_create, get. mred. rewrite Hsize, Hpool.
  assert (Hb : n < 11915) by (apply (uo_bound s n) in Hok; exact Hok).
  unfold SIZEOF_PROC, ULIME_META_SIZE, SIZEOF_USER_SPACE in *. unfold u64 at 1. rewrite Z.mod_small by lia.
  destruct (Z.ltb_spec (1024 * 1024 * 2 - 2160) (176 * n + 176)) as [_|Hroom]; [exists NULL, s, n; split_and!; [done|done|by left]|].
  rewrite (proj2 (Z.leb_gt _ _)) by done. rewrite Hbase, Hused, Hpid.
  assert (u64 (ULIME_START + 2160 + 176 * n) = proc_at n) as ->.
  { unfold u64, proc_at, SIZEOF_PROC, SIZEOF_USER_SPACE, ULIME_START. rewrite Z.mod_small; lia. }
  unfold PROC_SPAN in *. unfold u64. rewrite !Z.mod_small by lia.
  exists (proc_at n). unfold put_proc, modify, get_proc. mred. cbn [procs set_procs].
  destruct (Z.eqb_spec (ptr_proc_list (us s)) NULL) as [E0|E0]; mred.
  - assert (n = 0) as ->.
    { destruct (decide (n = 0)); [done|]. rewrite Hhead, link_in in E0 by lia. exfalso. apply (proc_at_pos (n - 1)); [lia|done]. }
    eexists _, (0 + 1). split; [done|]. split; [|by right].
    constructor; cbn.
    + unfold SIZEOF_PROC, ULIME_META_SIZE, SIZEOF_USER_SPACE. lia.
    + done.
    + destruct Hcurr as [?|(k & ? & _)]; [by left|lia].
    + done.
    + done.
    + done.
    + done.
    + done.
    + intros k Hk. assert (k = 0) as -> by lia. eexists. rewrite lookup_insert_eq. split; [done|].
      constructor; cbn; try done.
  - assert (0 < n) by (destruct (decide (n = 0)) as [->|]; [by rewrite Hhead in E0|lia]).
    rewrite Hhead, link_in by lia. destruct (Hprocs (n - 1)) as (y & Hy & Hyok); [lia|].
    cbn [procs set_procs]. rewrite lookup_insert_ne by (intros ?%proc_at_inj; lia). rewrite Hy.
    eexists _, (n + 1). split; [done|]. split; [|by right].
    constructor; cbn.
    + unfold SIZEOF_PROC, ULIME_META_SIZE, SIZEOF_USER_SPACE. lia.
    + by rewrite link_in by lia; f_equal; lia.
    + destruct Hcurr as [?|(k & ? & ?)]; [by left|]. right. exists k. split; [lia|done].
    + lia.
    + done.
    + done.
    + unfold SIZEOF_PROC. lia.
    + unfold PROC_SPAN. lia.
    + apply procs_grow; [done|done| |done|done]. constructor; cbn; try done; by link_cases.
Qed.

Lemma kill_ok fuel wanted s n k :
  us_ok s n → -1 ≤ k < n → k + 1 < Z.of_nat fuel →
  ∃ r s', iterM fuel (kill_step wanted) (link n k) s = Done r s' ∧ us_ok s' n.
Proof.
  revert k; induction fuel as [|fuel IH]; intros k Hok Hk Hf; [lia|].
  rewrite iterM_S. unfold kill_step at 1. destruct (decide (k = -1)) as [->|].
  - rewrite link_out by lia. by exists 1, s.
  - rewrite link_in by lia. destruct (uo_procs _ _ Hok k) as (x & Hx & Hxok); [lia|].
    rewrite (proj2 (Z.eqb_neq _ _)) by (apply proc_at_pos; lia). unfold get_proc, put_proc, modify. mred. rewrite Hx.
    destruct (pid x =? wanted).
    + exists 0. eexists. split; [done|]. apply us_ok_state; (done || lia).
    + rewrite (po_next _ _ _ Hxok). apply IH; (done || lia).
Qed.

Lemma schedule_step s n :
  us_ok s n → 0 < n →
  ∃ s' k, user_space_schedule s = Done tt s' ∧ us_ok s' n ∧ 0 ≤ k < n ∧ ptr_proc_curr (us s') = proc_at k ∧
    (ptr_proc_curr (us s) = NULL → k = n - 1) ∧
    ∀ j, 0 ≤ j < n → ptr_proc_curr (us s) = proc_at j → k = if j =? 0 then n - 1 else j - 1.
Proof.
  intros Hok Hn. pose proof (uo_head _ _ Hok) as Hhead. rewrite link_in in Hhead by lia.
  assert (Hgo : ∀ k, 0 ≤ k < n →
    ∃ s', start_ready (set_us (set_proc_curr (proc_at k) (us s)) s) = Done tt s' ∧ us_ok s' n ∧ ptr_proc_curr (us s') = proc_at k).
  { intros k Hk. pose proof (us_ok_curr s n k Hok Hk) as Hok'.
    destruct (uo_procs _ _ Hok' k Hk) as (x & Hx & _). unfold start_ready, get, get_proc, put_proc, modify. mred.
    cbn [us procs set_us ptr_proc_curr set_proc_curr] in Hx |- *. rewrite Hx.
    destruct (state x =? PROC_READY); eexists; (split; [done|]); [|done]. split; [|done].
    by apply (us_ok_state _ n k x PROC_RUNNING Hok' Hk). }
  unfold user_space_schedule, get, modify. mred. rewrite Hhead.
  rewrite (proj2 (Z.eqb_neq (proc_at (n - 1)) _)) by (apply proc_at_pos; lia).
  destruct (uo_curr _ _ Hok) as [Hc|(j & Hj & Hc)].
  - rewrite Hc. cbn [Z.eqb NULL]. destruct (Hgo (n - 1)) as (s' & E & Hok' & Hc'); [lia|].
    exists s', (n - 1). split; [exact E|]. split_and!; try done; [lia|lia|].
    intros i Hi Hi'. exfalso. apply (proc_at_pos i); [lia|done].
  - rewrite Hc, (proj2 (Z.eqb_neq _ _)) by (apply proc_at_pos; lia).
    destruct (uo_procs _ _ Hok j Hj) as (x & Hx & Hxok). unfold get_proc at 1. rewrite Hx.
    set (k := if j =? 0 then n - 1 else j - 1).
    assert (0 ≤ k < n) as Hk by (subst k; destruct (Z.eqb_spec j 0); lia).
    assert ((if p_next x =? NULL then proc_at (n - 1) else p_next x) = proc_at k) as ->.
    { rewrite (po_next _ _ _ Hxok). subst k. destruct (Z.eqb_spec j 0) as [->|]; [by rewrite link_out by lia|].
      rewrite link_in by lia. rewrite (proj2 (Z.eqb_neq _ _)); [done|]. apply proc_at_pos. lia. }
    destruct (Hgo k Hk) as (s' & E & Hok' & Hc'). exists s', k. split; [exact E|]. split_and!; try done; [lia|lia| |].
    + intros Hnull. exfalso. apply (proc_at_pos j); [lia|done].
    + intros i Hi ->%proc_at_inj. done.
Qed.

(** ** Runs *)

Inductive user_op := Create (name : str) (entry : Z) | Kill (pid : Z) | Schedule.

Definition user_run_op (op : user_op) : M U unit :=
  match op with
  | Create name entry => _ ← user_space_proc_create name entry; mret tt
  | Kill p => _ ← user_space_proc_kill (Z.to_nat PROC_MAX) p; mret tt
  | Schedule => user_space_schedule
  end.
Fixpoint user_run (ops : list user_op) : M U unit :=
  match ops with
  | [] => mret tt
  | op :: ops' => user_run_op op;; user_run ops'
  end.
(** The name fits its array. *)
Definition op_fits (op : user_op) : Prop :=
  match op with Create name _ => Z.of_nat (length name) < PROC_NAME_MAX | _ => True end.

Lemma run_op_ok op s n :
  us_ok s n → op_fits op → ∃ s' n', user_run_op op s = Done tt s' ∧ us_ok s' n'.
Proof.
  intros Hok Hop. destruct op as [name entry|p|]; cbn [user_run_op].
  - destruct (create_ok name entry s n Hok Hop) as (q & s' & n' & E & Hok' & _). mrun E. eauto.
  - unfold user_space_proc_kill, get. mred. rewrite (uo_head _ _ Hok).
    pose proof (uo_bound s n Hok). pose proof (uo_n _ _ Hok).
    destruct (kill_ok (Z.to_nat PROC_MAX) p s n (n - 1)) as (r & s' & E & Hok'); [done|lia|lia|].
    rewrite E. eauto.
  - destruct (decide (n = 0)) as [->|].
    + exists s, 0. split; [|done]. unfold user_space_schedule, get. mred. by rewrite (uo_head _ _ Hok).
    + pose proof (uo_n _ _ Hok). destruct (schedule_step s n Hok) as (s' & k & E & Hok' & _); [lia|]. eauto.
Qed.

Lemma run_ok ops s n :
  us_ok s n → Forall op_fits ops → ∃ s' n', user_run ops s = Done tt s' ∧ us_ok s' n'.
Proof.
  intros Hok Hops. revert s n Hok; induction Hops as [|op ops Hop _ IH]; intros s n Hok; cbn [user_run]; [eauto|].
  destruct (run_op_ok op s n Hok Hop) as (s1 & n1 & E & Hok1). mrun E. by eapply IH.
Qed.

Lemma init_ok offset km gm v g u :
  user_space_init offset km gm = Some u → us_ok (mk_ustate u ∅ v g) 0.
Proof.
  unfold user_space_init. destruct (_ || _); [done|]. intros [= <-].
  constructor; cbn; unfold SIZEOF_PROC, ULIME_META_SIZE, SIZEOF_USER_SPACE;
    (done || by left || (intros; lia)).
Qed.

(** The processes [l] in the order of the list that starts at [p]. *)
Fixpoint chain (m : gmap Z user_space_proc_t) (p : Z) (l : list Z) : Prop :=
  match l with
  | [] => p = NULL
  | a :: l' => p = a ∧ a ≠ NULL ∧ ∃ x, m !! a = Some x ∧ chain m (p_next x) l'
  end.

(** The stack and the heap of a process are one region of the user space ... *)
Definition proc_region (x : user_space_proc_t) : Prop :=
  heap_base x = stack_base x + stack_size x ∧ 0x40000000 ≤ stack_base x ∧ 0 < stack_size x ∧ 0 < heap_size x ∧
  heap_base x + heap_size x ≤ 0x80000000.
(** ... and those of two processes do not meet. *)
Definition proc_apart (x y : user_space_proc_t) : Prop :=
  heap_base x + heap_size x ≤ stack_base y ∨ heap_base y + heap_size y ≤ stack_base x.

Lemma chain_unique m p l1 l2 : chain m p l1 → chain m p l2 → l1 = l2.
Proof.
  revert p l2; induction l1 as [|a l1 IH]; intros p [|b l2]; cbn; try done.
  - by intros -> (<- & ? & _).
  - by intros (<- & ? & _) ->.
  - intros (<- & _ & x & Hx & H1) (<- & _ & y & Hy & H2). rewrite Hx in Hy. injection Hy as <-.
    f_equal. by eapply IH.
Qed.

Lemma ok_chain s n k :
  us_ok s n → 0 ≤ k ≤ n → chain (procs s) (link n (k - 1)) (proc_at <$> rev (seqZ 0 k)).
Proof.
  intros Hok Hk. revert Hk; generalize (Z.to_nat k), (Z2Nat.id k). intros m Hm Hk. specialize (Hm ltac:(lia)).
  subst k. induction m as [|m IH]; [by cbn; rewrite link_out by lia|].
  rewrite seqZ_S, rev_app_distr. cbn [rev app fmap list_fmap chain]. rewrite Z.add_0_l.
  replace (Z.of_nat (S m) - 1) with (Z.of_nat m) by lia. rewrite link_in by lia.
  destruct (uo_procs _ _ Hok (Z.of_nat m)) as (x & Hx & Hxok); [lia|].
  split_and!; [done|apply proc_at_pos; lia|]. exists x. split; [done|]. rewrite (po_next _ _ _ Hxok). apply IH. lia.
Qed.

(** C19: Processes do not share anything.  Start with [user_space_init] and create, kill and
    schedule in any order: nothing gets stuck, the process list ends, the process to run is
    on it or not chosen yet, and any two processes on it have different identifiers and
    stacks and heaps that do not meet, below 2 GiB. *)
Theorem processes_stay_apart offset km gm v g u ops
    (Hinit : user_space_init offset km gm = Some u) (Hops : Forall op_fits ops) :
  ∃ s l, user_run ops (mk_ustate u ∅ v g) = Done tt s ∧ chain (procs s) (ptr_proc_list (us s)) l ∧
    (ptr_proc_curr (us s) = NULL ∨ ptr_proc_curr (us s) ∈ l) ∧
    (∀ a x, a ∈ l → procs s !! a = Some x → proc_region x) ∧
    ∀ a b x y, a ∈ l → b ∈ l → a ≠ b → procs s !! a = Some x → procs s !! b = Some y →
      pid x ≠ pid y ∧ proc_apart x y.
Proof.
  destruct (run_ok ops _ 0 (init_ok offset km gm v g u Hinit) Hops) as (s & n & E & Hok).
  pose proof (uo_n _ _ Hok) as Hn. unfold SIZEOF_PROC, ULIME_META_SIZE, SIZEOF_USER_SPACE in Hn.
  exists s, (proc_at <$> rev (seqZ 0 n)). split; [done|].
  assert (Hin : ∀ a, a ∈ proc_at <$> rev (seqZ 0 n) ↔ ∃ k, a = proc_at k ∧ 0 ≤ k < n).
  { intros a. rewrite list_elem_of_fmap. split; intros (k & -> & Hk); exists k; (split; [done|]).
    - apply list_elem_of_In, in_rev, list_elem_of_In, elem_of_seqZ in Hk. lia.
    - apply list_elem_of_In, in_rev. rewrite rev_involutive. apply list_elem_of_In, elem_of_seqZ. lia. }
  split_and!.
  - rewrite (uo_head _ _ Hok). apply ok_chain; [done|lia].
  - destruct (uo_curr _ _ Hok) as [?|(k & Hk & ->)]; [by left|]. right. apply Hin. eauto.
  - intros a x (k & -> & Hk)%Hin Hx. destruct (uo_procs _ _ Hok k Hk) as (x' & Hx' & []).
    rewrite Hx in Hx'. injection Hx' as <-. unfold proc_region, PROC_SPAN in *. lia.
  - intros a b x y (k & -> & Hk)%Hin (j & -> & Hj)%Hin Hne Hx Hy.
    assert (k ≠ j) by congruence.
    destruct (uo_procs _ _ Hok k Hk) as (x' & Hx' & []). rewrite Hx in Hx'. injection Hx' as <-.
    destruct (uo_procs _ _ Hok j Hj) as (y' & Hy' & []). rewrite Hy in Hy'. injection Hy' as <-.
    unfold proc_apart, PROC_SPAN in *. lia.
Qed.

Fixpoint user_schedules (m : nat) : M U unit :=
  match m with
  | O => mret tt
  | S m' => user_space_schedule;; user_schedules m'
  end.

(** How many calls bring the process [k] up when [j] is current. *)
Definition turns (n j k : Z) : Z := if k <? j then j - k else j - k + n.

Lemma schedules_reach m s n j k :
  us_ok s n → 0 ≤ j < n → 0 ≤ k < n → ptr_proc_curr (us s) = proc_at j → turns n j k = Z.of_nat m →
  ∃ s', user_schedules m s = Done tt s' ∧ us_ok s' n ∧ ptr_proc_curr (us s') = proc_at k.
Proof.
  revert s j; induction m as [|m IH]; intros s j Hok Hj Hk Hc Hm; unfold turns in Hm.
  { destruct (Z.ltb_spec k j); lia. }
  destruct (schedule_step s n Hok) as (s1 & j1 & E & Hok1 & Hj1 & Hc1 & _ & Hnext); [lia|].
  specialize (Hnext j Hj Hc). cbn [user_schedules]. mrun E.
  destruct (decide (j1 = k)) as [->|Hne].
  - destruct m as [|m]; [by exists s1|].
    exfalso. destruct (Z.ltb_spec k j), (Z.eqb_spec j 0); lia.
  - apply (IH s1 j1); try done. unfold turns.
    destruct (Z.ltb_spec k j), (Z.eqb_spec j 0), (Z.ltb_spec k j1); lia.
Qed.

(** C40: Every process gets its turn.  After any history of creations, kills and scheduling,
    each process on the list becomes the current one within as many calls of
    [user_space_schedule] as there are processes. *)
Theorem every_process_gets_turn offset km gm v g u ops s p l
    (Hinit : user_space_init offset km gm = Some u) (Hops : Forall op_fits ops)
    (Hrun : user_run ops (mk_ustate u ∅ v g) = Done tt s)
    (Hl : chain (procs s) (ptr_proc_list (us s)) l) (Hp : p ∈ l) :
  ∃ m s', (0 < m ≤ length l)%nat ∧ user_schedules m s = Done tt s' ∧ ptr_proc_curr (us s') = p.
Proof.
  destruct (run_ok ops _ 0 (init_ok offset km gm v g u Hinit) Hops) as (s0 & n & E & Hok).
  rewrite Hrun in E. injection E as <-. pose proof (uo_n _ _ Hok) as [Hn _].
  assert (l = proc_at <$> rev (seqZ 0 n)) as ->.
  { eapply chain_unique; [exact Hl|]. rewrite (uo_head _ _ Hok). apply ok_chain; [done|lia]. }
  apply list_elem_of_fmap in Hp as (k & -> & Hk). apply list_elem_of_In, in_rev, list_elem_of_In, elem_of_seqZ in Hk.
  rewrite length_fmap, length_rev, length_seqZ.
  destruct (uo_curr _ _ Hok) as [Hc|(j & Hj & Hc)].
  - destruct (schedule_step s n Hok) as (s1 & j & E & Hok1 & Hj & Hc1 & Hfirst & _); [lia|].
    specialize (Hfirst Hc). subst j. destruct (decide (k = n - 1)) as [->|Hne].
    + exists 1%nat, s1. split; [lia|]. split; [|done]. cbn [user_schedules]. by mrun E.
    + destruct (schedules_reach (Z.to_nat (n - 1 - k)) s1 n (n - 1) k) as (s2 & E2 & _ & Hc2); [done|lia|lia|done| |].
      { unfold turns. rewrite (proj2 (Z.ltb_lt _ _)); lia. }
      exists (S (Z.to_nat (n - 1 - k))), s2. split; [lia|]. split; [|done]. cbn [user_schedules]. by mrun E.
  - assert (0 < turns n j k ≤ n) by (unfold turns; destruct (Z.ltb_spec k j); lia).
    destruct (schedules_reach (Z.to_nat (turns n j k)) s n j k) as (s2 & E2 & _ & Hc2); try done; [lia..|].
    exists (Z.to_nat (turns n j k)), s2. split; [lia|]. by split.
Qed.
End user_space.

(** A machine without memory or screen, which these operations do not use. *)
Definition demo_ops : list user_op :=
  [Create (chars "init") 0x1000; Create (chars "shell") 0x2000; Schedule; Kill 1; Create (chars "editor") 0x3000; Schedule].
Definition demo_u : user_space_t :=
  mk_user_space NULL NULL 1 1 0 ∅ (ULIME_START + SIZEOF_USER_SPACE) (ULIME_META_SIZE - SIZEOF_USER_SPACE)
    0 0x40000000 0xFFFFFFFF 0x40000000.
Definition demo_vm0 : vm := mk_vm (mk_physmem 0 0 0 0 ∅ ∅) ∅ 0.
Definition demo_gm0 : graphics_manager_t unit :=
  mk_gm (KernelMemory.mk_arena 0 0 0 ∅ ∅) 0 0 0 0 0 0 0 0 NULL [] ∅ ∅ ∅ ∅ ∅ ∅ tt.

Lemma demo_ops_fit : Forall op_fits demo_ops.
Proof. repeat constructor; cbn; unfold PROC_NAME_MAX; lia. Qed.

Lemma processes_stay_apart_witness :
  ∃ s l, user_run demo_ops (mk_ustate demo_u ∅ demo_vm0 demo_gm0) = Done tt s ∧
    chain (procs s) (ptr_proc_list (us s)) l.
Proof.
  destruct (processes_stay_apart 0 1 2 demo_vm0 demo_gm0 demo_u demo_ops eq_refl demo_ops_fit)
    as (s & l & E & Hl & _). eauto.
Defined.

Definition demo_creates : list user_op :=
  [Create (chars "init") 0x1000; Create (chars "shell") 0x2000; Schedule; Create (chars "editor") 0x3000].

Lemma demo_creates_fit : Forall op_fits demo_creates.
Proof. repeat constructor; cbn; unfold PROC_NAME_MAX; lia. Qed.

Lemma every_process_gets_turn_witness :
  ∃ s m s', user_run demo_creates (mk_ustate demo_u ∅ demo_vm0 demo_gm0) = Done tt s ∧
    (0 < m ≤ 3)%nat ∧ user_schedules m s = Done tt s' ∧ ptr_proc_curr (us s') = proc_at 1.
Proof.
  destruct (user_run demo_creates (mk_ustate demo_u ∅ demo_vm0 demo_gm0)) as [[] s|w] eqn:E.
  - destruct (every_process_gets_turn 0 1 2 demo_vm0 demo_gm0 demo_u demo_creates s (proc_at 1)
      [proc_at 2; proc_at 1; proc_at 0] eq_refl demo_creates_fit E) as (m & s' & Hm & Es & Hc).
    + vm_compute in E. injection E as <-. cbn [chain].
      do 3 (split; [reflexivity|]; split; [apply proc_at_pos; lia|]; eexists; split; [reflexivity|]; cbn [p_next]).
      reflexivity.
    + right. by left.
    + exists s, m, s'. exact (conj eq_refl (conj Hm (conj Es Hc))).
  - vm_compute in E. done.
Defined.
