(* ===== verification/Interrupts.v ===== *)
(** * Descriptor tables and interrupts: [core/kernel/cpu/gdt.c], [idt.c] and
    [core/kernel/interrupts]

    The tables are the bytes the processor reads.  The addresses of the entry points, which
    are assembly, and of the tables are parameters, as are the handlers that may be
    registered: a handler is a number and calling it is [call].  Loading a table register is
    recorded in [loaded].  [gate_at] and [segment_at] decode a descriptor as the processor
    does.  Messages are left out, and a panic is the outcome [Panic]. *)

From Stdlib Require Import ZArith Lia String.
From stdpp Require Import base gmap list numbers fin_maps.
From S2P Require Import Prelude Ports.
Open Scope Z_scope.
Set Default Goal Selector "!".

Definition IDT_ENTRIES : Z := 256.
Definition IDT_FLAG_PRESENT : Z := 0x80.
Definition IDT_FLAG_RING0 : Z := 0.
Definition IDT_FLAG_GATE_INT : Z := 0x0E.
Definition GDT_ENTRIES : Z := 7.
Definition GDT_PRESENT : Z := 0x80.
Definition GDT_RING0 : Z := 0.
Definition GDT_RING3 : Z := 0x60.
Definition GDT_CODE_DATA : Z := 0x10.
Definition GDT_EXECUTABLE : Z := 0x08.
Definition GDT_RW : Z := 0x02.
Definition GDT_GRANULAR : Z := 0x80.
Definition GDT_LONG_MODE : Z := 0x20.
Definition TSS_SELECTOR : Z := 0x28.
Definition SIZEOF_TSS : Z := 104.
Definition EXCEPTION_VECTORS_COUNT : Z := 32.
Definition PRIMARY_PIC_CMD : Z := 0x20.
Definition PRIMARY_PIC_DATA : Z := 0x21.
Definition SECONDARY_PIC_CMD : Z := 0xA0.
Definition SECONDARY_PIC_DATA : Z := 0xA1.
Definition EOI_SIGNAL : Z := 0x20.

(** The members of the saved state the code reads. *)
Record cpu_state_t := mk_cpu_state { int_no : Z; err_code : Z; rip : Z; rsp : Z }.

(** The members of the task state that are set. *)
Record tss_t := mk_tss { rsp0 : Z; iopb_offset : Z }.

(** What the processor was given: a table register with its limit and base, or the task
    register. *)
Inductive load := LoadGdt (limit base : Z) | LoadIdt (limit base : Z) | LoadTask (selector : Z).

(** [gdt] and [idt] are the bytes of the tables, [gdt_ptr] the limit and base for [lgdt]. *)
Record istate (D : Type) := mk_istate {
  gdt : list Z;
  gdt_ptr : Z * Z;
  tss : tss_t;
  idt : list Z;
  vector_callbacks : list Z;
  handlers_array : list Z;
  system_ready : Z;
  loaded : list load;
  i_hw : D;
}.
Arguments mk_istate {D}.
Arguments gdt {D}.
Arguments gdt_ptr {D}.
Arguments tss {D}.
Arguments idt {D}.
Arguments vector_callbacks {D}.
Arguments handlers_array {D}.
Arguments system_ready {D}.
Arguments loaded {D}.
Arguments i_hw {D}.

(** Bytes stored at an offset of a table. *)
Definition patch (off : nat) (bs table : list Z) : list Z :=
  take off table ++ bs ++ drop (off + length bs) table.

(** ** Descriptors *)

Record gdt_entry_t := mk_gdt_entry {
  g_limit_low : Z; g_base_low : Z; g_base_mid : Z; g_access : Z; g_granularity : Z; g_base_high : Z
}.
Definition gdt_entry_bytes (e : gdt_entry_t) : list Z :=
  le_split 2 (g_limit_low e) ++ le_split 2 (g_base_low e) ++
  [u8 (g_base_mid e); u8 (g_access e); u8 (g_granularity e); u8 (g_base_high e)].

Record gdt_tss_entry_t := mk_gdt_tss_entry {
  ts_entry : gdt_entry_t; ts_base_upper : Z; ts_reserved : Z
}.
Definition gdt_tss_entry_bytes (e : gdt_tss_entry_t) : list Z :=
  gdt_entry_bytes (ts_entry e) ++ le_split 4 (ts_base_upper e) ++ le_split 4 (ts_reserved e).

Record idt_entry_t := mk_idt_entry {
  i_offset_low : Z; i_selector : Z; i_ist : Z; i_flags : Z; i_offset_mid : Z; i_offset_high : Z; i_reserved : Z
}.
Definition idt_entry_bytes (e : idt_entry_t) : list Z :=
  le_split 2 (i_offset_low e) ++ le_split 2 (i_selector e) ++ [u8 (i_ist e); u8 (i_flags e)] ++
  le_split 2 (i_offset_mid e) ++ le_split 4 (i_offset_high e) ++ le_split 4 (i_reserved e).

Definition gdt_entry (base limit access gran : Z) : gdt_entry_t :=
  mk_gdt_entry (Z.land limit 0xFFFF) (Z.land base 0xFFFF) (Z.land (Z.shiftr base 16) 0xFF) access
    (Z.lor (Z.land (Z.shiftr limit 16) 0x0F) (Z.land gran 0xF0)) (Z.land (Z.shiftr base 24) 0xFF).

Definition tss_entry (base limit : Z) : gdt_tss_entry_t :=
  mk_gdt_tss_entry
    (mk_gdt_entry (Z.land limit 0xFFFF) (Z.land base 0xFFFF) (Z.land (Z.shiftr base 16) 0xFF) 0x89 0x00
       (Z.land (Z.shiftr base 24) 0xFF))
    (Z.land (Z.shiftr base 32) 0xFFFFFFFF) 0.

Definition idt_gate (handler flags : Z) : idt_entry_t :=
  mk_idt_entry (Z.land handler 0xFFFF) 0x08 0 flags (Z.land (Z.shiftr handler 16) 0xFFFF)
    (Z.land (Z.shiftr handler 32) 0xFFFFFFFF) 0.

(** ** The processor's reading of the tables *)

Record gate := mk_gate {
  ga_offset : Z;
  ga_selector : Z;
  ga_ist : Z;
  ga_type : Z;
  ga_dpl : Z;
  ga_present : bool;
}.
(** Gate [n] of an interrupt table. *)
Definition gate_at (table : list Z) (n : nat) : option gate :=
  let b := (16 * n)%nat in
  lo ← field 2 b table; sel ← field 2 (b + 2) table; ist ← field 1 (b + 4) table; fl ← field 1 (b + 5) table;
  mid ← field 2 (b + 6) table; hi ← field 4 (b + 8) table;
  Some (mk_gate (lo + 2 ^ 16 * mid + 2 ^ 32 * hi) sel ist (fl mod 16) (fl / 32 mod 4) (Z.testbit fl 7)).

Record segment := mk_segment { sg_base : Z; sg_limit : Z; sg_access : Z; sg_flags : Z }.
(** Segment [n] of a descriptor table. *)
Definition segment_at (table : list Z) (n : nat) : option segment :=
  let b := (8 * n)%nat in
  ll ← field 2 b table; bl ← field 2 (b + 2) table; bm ← field 1 (b + 4) table; ac ← field 1 (b + 5) table;
  gr ← field 1 (b + 6) table; bh ← field 1 (b + 7) table;
  Some (mk_segment (bl + 2 ^ 16 * bm + 2 ^ 24 * bh) (ll + 2 ^ 16 * (gr mod 16)) ac (gr / 16)).
(** The sixteen-byte descriptor of a task state at [n]: its base has an upper half. *)
Definition task_segment_at (table : list Z) (n : nat) : option segment :=
  sg ← segment_at table n; hi ← field 4 (8 * n + 8) table;
  Some (mk_segment (sg_base sg + 2 ^ 32 * hi) (sg_limit sg) (sg_access sg) (sg_flags sg)).

Lemma length_patch off bs t : (off + length bs ≤ length t)%nat → length (patch off bs t) = length t.
Proof. intros H. unfold patch. rewrite !length_app, length_take, length_drop. lia. Qed.

Lemma lookup_patch off bs t i :
  (off + length bs ≤ length t)%nat →
  patch off bs t !! i = if decide (off ≤ i < off + length bs)%nat then bs !! (i - off)%nat else t !! i.
Proof.
  intros H. unfold patch. destruct (decide (i < off)%nat) as [Hi|Hi].
  - rewrite lookup_app_l by (rewrite length_take; lia). rewrite lookup_take_lt by lia. by case_decide; [lia|].
  - assert (length (take off t) = off) as Hl by (rewrite length_take; lia).
    rewrite lookup_app_r, Hl by lia. case_decide.
    + by rewrite lookup_app_l by lia.
    + rewrite lookup_app_r by lia. rewrite lookup_drop. f_equal. lia.
Qed.

Lemma field_agree n o1 o2 (l1 l2 : list Z) :
  (o1 + n ≤ length l1)%nat → (o2 + n ≤ length l2)%nat →
  (∀ i, (i < n)%nat → l1 !! (o1 + i)%nat = l2 !! (o2 + i)%nat) → field n o1 l1 = field n o2 l2.
Proof.
  intros H1 H2 H. unfold field. rewrite !(proj2 (Nat.leb_le _ _)) by done. do 2 f_equal.
  apply list_eq. intros i. destruct (decide (i < n)%nat).
  - rewrite !lookup_take_lt, !lookup_drop by done. auto.
  - by rewrite !lookup_take_ge by lia.
Qed.

(** A field of a patched table is one of the patch or one of the old table. *)
Lemma field_patch n o off bs t :
  (off + length bs ≤ length t)%nat → (o + n ≤ length t)%nat →
  (off ≤ o ∧ o + n ≤ off + length bs ∨ o + n ≤ off ∨ off + length bs ≤ o)%nat →
  field n o (patch off bs t) = if decide (off ≤ o ∧ o + n ≤ off + length bs)%nat then field n (o - off) bs else field n o t.
Proof.
  intros Ht Ho Hc. case_decide as Hd; apply field_agree; rewrite ?length_patch; try lia;
    intros i Hi; rewrite lookup_patch by done.
  - rewrite decide_True by lia. f_equal. lia.
  - by rewrite decide_False by lia.
Qed.

Lemma gate_of_entry handler flags :
  0 ≤ handler < 2 ^ 64 → 0 ≤ flags < 2 ^ 8 →
  gate_at (idt_entry_bytes (idt_gate handler flags)) 0 =
    Some (mk_gate handler 8 0 (flags mod 16) (flags / 32 mod 4) (Z.testbit flags 7)).
Proof.
  intros Hh Hf. unfold gate_at.
  assert (E : field 2 0 (idt_entry_bytes (idt_gate handler flags)) = Some (le_combine (le_split 2 (Z.land handler 0xFFFF)))) by done.
  assert (E6 : field 2 6 (idt_entry_bytes (idt_gate handler flags)) = Some (le_combine (le_split 2 (Z.land (Z.shiftr handler 16) 0xFFFF)))) by done.
  assert (E8 : field 4 8 (idt_entry_bytes (idt_gate handler flags)) = Some (le_combine (le_split 4 (Z.land (Z.shiftr handler 32) 0xFFFFFFFF)))) by done.
  assert (E5 : field 1 5 (idt_entry_bytes (idt_gate handler flags)) = Some (u8 flags + 2 ^ 8 * 0)) by done.
  assert (E2 : field 2 2 (idt_entry_bytes (idt_gate handler flags)) = Some 8) by done.
  assert (E4 : field 1 4 (idt_entry_bytes (idt_gate handler flags)) = Some 0) by done.
  cbn [Nat.mul Nat.add]. rewrite E, E2, E4, E5, E6, E8. cbn -[le_combine le_split Z.pow Z.div Z.modulo Z.land Z.testbit Z.mul Z.add].
  rewrite !le_combine_split. change 0xFFFF with (Z.ones 16). change 0xFFFFFFFF with (Z.ones 32).
  rewrite !Z.land_ones, !Z.shiftr_div_pow2 by done.
  change (2 ^ (8 * Z.of_nat 2)) with (2 ^ 16). change (2 ^ (8 * Z.of_nat 4)) with (2 ^ 32).
  rewrite !Zmod_mod. unfold u8. rewrite Z.mul_0_r, Z.add_0_r, (Z.mod_small flags) by done.
  do 2 f_equal.
  rewrite (Z.mod_small (handler / 2 ^ 32)) by (split; [apply Z.div_pos; lia|apply Z.div_lt_upper_bound; lia]).
    change (2 ^ 32) with (2 ^ 16 * 2 ^ 16) at 2. rewrite <-Z.div_div by lia.
    pose proof (Z.div_mod handler (2 ^ 16)). pose proof (Z.div_mod (handler / 2 ^ 16) (2 ^ 16)). lia.
Qed.

Lemma gate_at_patch t k j bs :
  length bs = 16%nat → (16 * k + 16 ≤ length t)%nat → (16 * j + 16 ≤ length t)%nat →
  gate_at (patch (16 * k) bs t) j = if decide (j = k) then gate_at bs 0 else gate_at t j.
Proof.
  intros Hb Hk Hj. unfold gate_at. case_decide as Hjk.
  - subst j. rewrite !field_patch, !decide_True by lia.
    replace (16 * k - 16 * k)%nat with 0%nat by lia.
    by rewrite !Nat.add_sub_swap, !Nat.sub_diag by lia.
  - by rewrite !field_patch, !decide_False by lia.
Qed.

Lemma segment_at_patch n t k j bs :
  length t = n → (8 * k + length bs ≤ n)%nat → (8 * j + 8 ≤ n)%nat → (8 ≤ length bs)%nat →
  (j = k ∨ j < k ∨ 8 * k + length bs ≤ 8 * j)%nat →
  segment_at (patch (8 * k) bs t) j = if decide (j = k) then segment_at bs 0 else segment_at t j.
Proof.
  intros <- Hk Hj Hb Hjk. unfold segment_at. case_decide as Hd.
  - subst j. rewrite !field_patch, !decide_True by lia.
    by rewrite !Nat.add_sub_swap, !Nat.sub_diag by lia.
  - by rewrite !field_patch, !decide_False by lia.
Qed.

Lemma task_segment_patch n t k bs :
  length t = n → length bs = 16%nat → (8 * k + 16 ≤ n)%nat →
  task_segment_at (patch (8 * k) bs t) k = task_segment_at bs 0.
Proof.
  intros Ht Hb Hk. unfold task_segment_at. rewrite (segment_at_patch n), decide_True by lia.
  rewrite field_patch, decide_True by lia. by rewrite Nat.add_sub_swap, Nat.sub_diag by lia.
Qed.

Lemma tss_entry_decodes base : 0 ≤ base < 2 ^ 64 →
  task_segment_at (gdt_tss_entry_bytes (tss_entry base 103)) 0 = Some (mk_segment base 103 0x89 0).
Proof.
  intros Hb. unfold task_segment_at, segment_at.
  set (bs := gdt_tss_entry_bytes (tss_entry base 103)). cbn [Nat.mul Nat.add].
  assert (field 2 0 bs = Some 103) as -> by done.
  assert (field 2 2 bs = Some (le_combine (le_split 2 (Z.land base 0xFFFF)))) as -> by done.
  assert (field 1 4 bs = Some (u8 (Z.land (Z.shiftr base 16) 0xFF) + 2 ^ 8 * 0)) as -> by done.
  assert (field 1 5 bs = Some 0x89) as -> by done.
  assert (field 1 6 bs = Some 0) as -> by done.
  assert (field 1 7 bs = Some (u8 (Z.land (Z.shiftr base 24) 0xFF) + 2 ^ 8 * 0)) as -> by done.
  assert (field 4 8 bs = Some (le_combine (le_split 4 (Z.land (Z.shiftr base 32) 0xFFFFFFFF)))) as -> by done.
  cbn -[le_combine le_split Z.pow Z.div Z.modulo Z.land Z.mul Z.add Z.shiftr u8].
  rewrite !le_combine_split. change 0xFFFF with (Z.ones 16). change 0xFFFFFFFF with (Z.ones 32). change 0xFF with (Z.ones 8).
  rewrite !Z.land_ones, !Z.shiftr_div_pow2 by done. unfold u8.
  change (2 ^ (8 * Z.of_nat 2)) with (2 ^ 16). change (2 ^ (8 * Z.of_nat 4)) with (2 ^ 32).
  rewrite !Zmod_mod, !Z.mul_0_r, !Z.add_0_r.
  rewrite (Z.mod_small (base / 2 ^ 32)) by (split; [apply Z.div_pos; lia|apply Z.div_lt_upper_bound; lia]).
  do 2 f_equal. pose proof (Z.div_mod base (2 ^ 16)). pose proof (Z.div_mod (base / 2 ^ 16) (2 ^ 8)) as H1.
  pose proof (Z.div_mod (base / 2 ^ 24) (2 ^ 8)) as H2.
  rewrite Z.div_div in H1, H2 by lia. change (2 ^ 16 * 2 ^ 8) with (2 ^ 24) in H1.
  change (2 ^ 24 * 2 ^ 8) with (2 ^ 32) in H2. lia.
Qed.

Section interrupts.
  Context {D : Type} `{!PortIO D}.
  (** The addresses of [exception_n], [hardware_interrupt_n], [gdt], [idt] and [tss]. *)
  Context (exception_ hardware_interrupt_ : Z → Z) (gdt_addr idt_addr tss_addr : Z).
Abbreviation S := (istate D).
  Context (call : Z → cpu_state_t → M S unit).

Definition set_gdt (l : list Z) (s : S) : S :=
  mk_istate l (gdt_ptr s) (tss s) (idt s) (vector_callbacks s) (handlers_array s) (system_ready s) (loaded s) (i_hw s).
Definition set_gdt_ptr (p : Z * Z) (s : S) : S :=
  mk_istate (gdt s) p (tss s) (idt s) (vector_callbacks s) (handlers_array s) (system_ready s) (loaded s) (i_hw s).
Definition set_tss (t : tss_t) (s : S) : S :=
  mk_istate (gdt s) (gdt_ptr s) t (idt s) (vector_callbacks s) (handlers_array s) (system_ready s) (loaded s) (i_hw s).
Definition set_idt (l : list Z) (s : S) : S :=
  mk_istate (gdt s) (gdt_ptr s) (tss s) l (vector_callbacks s) (handlers_array s) (system_ready s) (loaded s) (i_hw s).
Definition set_callbacks (l : list Z) (s : S) : S :=
  mk_istate (gdt s) (gdt_ptr s) (tss s) (idt s) l (handlers_array s) (system_ready s) (loaded s) (i_hw s).
Definition set_handlers (l : list Z) (s : S) : S :=
  mk_istate (gdt s) (gdt_ptr s) (tss s) (idt s) (vector_callbacks s) l (system_ready s) (loaded s) (i_hw s).
Definition set_ready (v : Z) (s : S) : S :=
  mk_istate (gdt s) (gdt_ptr s) (tss s) (idt s) (vector_callbacks s) (handlers_array s) v (loaded s) (i_hw s).
Definition log_load (x : load) (s : S) : S :=
  mk_istate (gdt s) (gdt_ptr s) (tss s) (idt s) (vector_callbacks s) (handlers_array s) (system_ready s) (loaded s ++ [x]) (i_hw s).
Definition set_ihw (d : D) (s : S) : S :=
  mk_istate (gdt s) (gdt_ptr s) (tss s) (idt s) (vector_callbacks s) (handlers_array s) (system_ready s) (loaded s) d.
Definition on_ports {A} (m : M D A) : M S A := zoom i_hw set_ihw m.

(** ** [gdt.c] *)

Definition gdt_set_gate (num base limit access gran : Z) : M S unit :=
  modify (λ s, set_gdt (patch (8 * Z.to_nat num) (gdt_entry_bytes (gdt_entry base limit access gran)) (gdt s)) s).

Definition tss_set_entry : M S unit :=
  modify (λ s, set_gdt (patch 40 (gdt_tss_entry_bytes (tss_entry tss_addr (SIZEOF_TSS - 1))) (gdt s)) s).

Definition tss_init : M S unit := modify (set_tss (mk_tss 0 SIZEOF_TSS)).
Definition tss_set_stack (stack : Z) : M S unit := modify (λ s, set_tss (mk_tss stack (iopb_offset (tss s))) s).
Definition gdt_set_kernel_stack (stack : Z) : M S unit := tss_set_stack stack.

(** [gdt_flush(&gdt_ptr); tss_flush(TSS_SELECTOR);] *)
Definition gdt_load : M S unit :=
  s ← get;
  modify (log_load (LoadGdt (gdt_ptr s).1 (gdt_ptr s).2));;
  modify (log_load (LoadTask TSS_SELECTOR)).

Definition gdt_init : M S unit :=
  modify (set_gdt_ptr (8 * GDT_ENTRIES - 1, gdt_addr));;
  gdt_set_gate 0 0 0 0 0;;
  gdt_set_gate 1 0 0xFFFFF
    (Z.lor (Z.lor (Z.lor (Z.lor GDT_PRESENT GDT_RING0) GDT_CODE_DATA) GDT_EXECUTABLE) GDT_RW)
    (Z.lor GDT_GRANULAR GDT_LONG_MODE);;
  gdt_set_gate 2 0 0xFFFFF
    (Z.lor (Z.lor (Z.lor GDT_PRESENT GDT_RING0) GDT_CODE_DATA) GDT_RW) (Z.lor GDT_GRANULAR GDT_LONG_MODE);;
  gdt_set_gate 3 0 0xFFFFF
    (Z.lor (Z.lor (Z.lor (Z.lor GDT_PRESENT GDT_RING3) GDT_CODE_DATA) GDT_EXECUTABLE) GDT_RW)
    (Z.lor GDT_GRANULAR GDT_LONG_MODE);;
  gdt_set_gate 4 0 0xFFFFF
    (Z.lor (Z.lor (Z.lor GDT_PRESENT GDT_RING3) GDT_CODE_DATA) GDT_RW) (Z.lor GDT_GRANULAR GDT_LONG_MODE);;
  tss_init;;
  tss_set_entry;;
  gdt_load.

(** ** [idt.c] *)

Definition idt_set_gate (num handler flags : Z) : M S unit :=
  modify (λ s, set_idt (patch (16 * Z.to_nat (u8 num)) (idt_entry_bytes (idt_gate handler (u8 flags))) (idt s)) s).

Definition idt_load : M S unit := modify (log_load (LoadIdt (16 * IDT_ENTRIES - 1) idt_addr)).

(** ** [isr.c] *)

Definition isr_install : M S unit :=
  modify (set_callbacks (replicate (Z.to_nat EXCEPTION_VECTORS_COUNT) NULL));;
  for_range 32 0 (λ i, idt_set_gate i (exception_ i) 0).

Definition isr_register_handler (vector callback : Z) : M S unit :=
  if u8 vector <? EXCEPTION_VECTORS_COUNT
  then modify (λ s, set_callbacks (<[Z.to_nat (u8 vector) := callback]> (vector_callbacks s)) s)
  else mret tt.
Definition isr_unregister_handler (vector : Z) : M S unit := isr_register_handler vector NULL.

(** [fault_table]: the names of the first four faults, none for the others. *)
Definition fault_table : list (option string) :=
  [Some "Division By Zero"%string; Some "Page Fault"%string; Some "General Protection Fault"%string;
   Some "Unknown Fault"%string] ++ replicate 28 None.

(** What serves an interrupt that is no exception. *)
Inductive irq_service := ServeTimer | ServeKeyboard | ServeMouse | ServeNothing.

Definition irq_target (irq : Z) : irq_service :=
  if irq =? 0 then ServeTimer else if irq =? 1 then ServeKeyboard
  else if irq =? 12 then ServeMouse else ServeNothing.

  (** [timer_handle_interrupt], [keyboard_interrupt_handler], [mouse_interrupt_handler]. *)
  Context (serve : irq_service → cpu_state_t → M S unit).

Definition handle_cpu_interrupt (ctx : cpu_state_t) : M S unit :=
  let fault_code := u8 (int_no ctx) in
  if fault_code <? 32 then
    panic (default EmptyString (default None (fault_table !! Z.to_nat fault_code)))
  else if fault_code <? 48 then serve (irq_target (fault_code - 32)) ctx
  else panic "Unknown Fault".

Definition exception_processor (ctx : cpu_state_t) : M S unit :=
  s ← get;
  let vector_id := u8 (int_no ctx) in
  let callback := default NULL (vector_callbacks s !! Z.to_nat vector_id) in
  if (vector_id <? EXCEPTION_VECTORS_COUNT) && negb (callback =? NULL)
  then call callback ctx
  else handle_cpu_interrupt ctx.

(** ** [irq.c] *)

Definition irq_ack (num : Z) : M S unit :=
  (if 8 <=? u8 num then on_ports (outb SECONDARY_PIC_CMD EOI_SIGNAL) else mret tt);;
  on_ports (outb PRIMARY_PIC_CMD EOI_SIGNAL).

Definition interrupt_processor (ctx : cpu_state_t) : M S unit :=
  s ← get;
  if system_ready s =? 0 then mret tt else
  let interrupt_num := u8 (int_no ctx - 32) in
  let handler := default NULL (handlers_array s !! Z.to_nat interrupt_num) in
  (if (interrupt_num <? 16) && negb (handler =? NULL) then call handler ctx else mret tt);;
  irq_ack interrupt_num.

Definition outb_wait (port value : Z) : M S unit := on_ports (outb port value);; on_ports pause_io.

Definition reprogram_pic : M S unit :=
  outb_wait PRIMARY_PIC_CMD 0x11;;
  outb_wait SECONDARY_PIC_CMD 0x11;;
  outb_wait PRIMARY_PIC_DATA 0x20;;
  outb_wait SECONDARY_PIC_DATA 0x28;;
  outb_wait PRIMARY_PIC_DATA 0x04;;
  outb_wait SECONDARY_PIC_DATA 0x02;;
  outb_wait PRIMARY_PIC_DATA 0x01;;
  outb_wait SECONDARY_PIC_DATA 0x01;;
  outb_wait PRIMARY_PIC_DATA 0xFF;;
  outb_wait SECONDARY_PIC_DATA 0xFF.

Definition irq_set_mask (num enable : Z) : M S unit :=
  let num := u8 num in
  let '(port_addr, num) := if num <? 8 then (PRIMARY_PIC_DATA, num) else (SECONDARY_PIC_DATA, u8 (num - 8)) in
  old ← on_ports (inb port_addr);
  let current_mask :=
    if enable =? 0 then u8 (Z.land old (Z.lnot (Z.shiftl 1 num))) else u8 (Z.lor old (Z.shiftl 1 num)) in
  outb_wait port_addr current_mask.

Definition irq_register_handler (num routine : Z) : M S unit :=
  if u8 num <? 16 then
    modify (λ s, set_handlers (<[Z.to_nat (u8 num) := routine]> (handlers_array s)) s);;
    irq_set_mask num 0
  else mret tt.
Definition irq_unregister_handler (num : Z) : M S unit :=
  if u8 num <? 16 then
    modify (λ s, set_handlers (<[Z.to_nat (u8 num) := NULL]> (handlers_array s)) s);;
    irq_set_mask num 1
  else mret tt.

Definition irq_install : M S unit :=
  modify (set_handlers (replicate 16 NULL));;
  reprogram_pic;;
  for_range 16 32 (λ v, idt_set_gate v (hardware_interrupt_ (v - 32))
    (Z.lor (Z.lor IDT_FLAG_PRESENT IDT_FLAG_RING0) IDT_FLAG_GATE_INT));;
  irq_set_mask 0 0;;
  irq_set_mask 1 0;;
  irq_set_mask 12 0;;
  irq_set_mask 2 0;;
  modify (set_ready 1).

Definition idt_init : M S unit :=
  modify (set_idt (replicate (Z.to_nat (16 * IDT_ENTRIES)) 0));;
  isr_install;;
  irq_install;;
  idt_load.

(** ** The interrupt table that is installed *)

  (** A write to a port returns, and so does a read. *)
  Context (Hout : ∀ p v d, ∃ d', outb p v d = Done tt d').
  Context (Hin : ∀ p d, ∃ v d', inb p d = Done v d').

(** The operation returns and changes nothing but the devices. *)
Definition only_hw (m : M S unit) : Prop := ∀ s, ∃ d, m s = Done tt (set_ihw d s).

Lemma only_hw_ret : only_hw (mret tt).
Proof. intros s. exists (i_hw s). by destruct s. Qed.

Lemma only_hw_bind m1 m2 : only_hw m1 → only_hw m2 → only_hw (m1;; m2).
Proof. intros H1 H2 s. destruct (H1 s) as [d1 E1]. mrun E1. destruct (H2 (set_ihw d1 s)) as [d2 ->]. by exists d2. Qed.

Lemma only_hw_outb p v : only_hw (on_ports (outb p v)).
Proof. intros s. unfold on_ports, zoom. destruct (Hout p v (i_hw s)) as [d ->]. by exists d. Qed.

Lemma only_hw_wait p v : only_hw (outb_wait p v).
Proof. apply only_hw_bind; apply only_hw_outb. Qed.

Lemma only_hw_pic : only_hw reprogram_pic.
Proof. unfold reprogram_pic. repeat (apply only_hw_bind; [apply only_hw_wait|]). apply only_hw_wait. Qed.

Lemma only_hw_mask num enable : only_hw (irq_set_mask num enable).
Proof.
  intros s. unfold irq_set_mask. destruct (if u8 num <? 8 then _ else _) as [port n].
  unfold on_ports at 1, zoom. mred. destruct (Hin port (i_hw s)) as (v & d & ->).
  destruct (only_hw_wait port (if enable =? 0 then u8 (Z.land v (Z.lnot (Z.shiftl 1 n))) else u8 (Z.lor v (Z.shiftl 1 n)))
    (set_ihw d s)) as [d' E]. exists d'. exact E.
Qed.

Lemma set_gate_run num handler flags s : 0 ≤ num < 2 ^ 8 → 0 ≤ flags < 2 ^ 8 →
  idt_set_gate num handler flags s =
    Done tt (set_idt (patch (16 * Z.to_nat num) (idt_entry_bytes (idt_gate handler flags)) (idt s)) s).
Proof. intros Hn Hf. unfold idt_set_gate, modify, u8. by rewrite !Z.mod_small. Qed.

(** The gates from [lo] on, [n] of them, lead to [h]; the others are as before. *)
Lemma set_gates_run n lo h flags s :
  0 ≤ lo → lo + Z.of_nat n ≤ 256 → length (idt s) = 4096%nat → 0 ≤ flags < 2 ^ 8 →
  (∀ v, 0 ≤ h v < 2 ^ 64) →
  ∃ l, for_range n lo (λ v, idt_set_gate v (h v) flags) s = Done tt (set_idt l s) ∧ length l = 4096%nat ∧
    ∀ j, (j < 256)%nat → gate_at l j =
      if decide (lo ≤ Z.of_nat j < lo + Z.of_nat n)
      then Some (mk_gate (h (Z.of_nat j)) 8 0 (flags mod 16) (flags / 32 mod 4) (Z.testbit flags 7))
      else gate_at (idt s) j.
Proof.
  revert lo s; induction n as [|n IH]; intros lo s Hlo Hn Hl Hf Hh; cbn [for_range].
  { exists (idt s). split; [by destruct s|]. split; [done|]. intros j Hj. by rewrite decide_False by lia. }
  mrun (set_gate_run lo (h lo) flags s ltac:(lia) Hf).
  set (t := patch _ _ _).
  assert (length t = 4096%nat) as Ht by (subst t; rewrite length_patch; [done|]; cbn; rewrite Hl; lia).
  destruct (IH (lo + 1) (set_idt t s)) as (l & E & Hl' & Hg); [lia|lia|done|done|done|].
  exists l. split; [exact E|]. split; [done|]. intros j Hj. rewrite Hg by done. cbn [idt set_idt].
  subst t. rewrite gate_at_patch, gate_of_entry by (done || rewrite Hl; lia).
  repeat case_decide; try lia; try done. by replace lo with (Z.of_nat j) by lia.
Qed.

Lemma field_zero n o k : (o + n ≤ k)%nat → field n o (replicate k 0) = Some 0.
Proof.
  intros H. unfold field. rewrite length_replicate, (proj2 (Nat.leb_le _ _)) by done.
  rewrite drop_replicate, take_replicate. f_equal.
  generalize (n `min` (k - o))%nat. intros m. induction m as [|m IH]; [done|]. cbn. by rewrite IH.
Qed.

(** The interrupt table.  After [idt_init] the processor finds, at the vectors 32 to 47,
    present ring-0 interrupt gates to the entry points of the hardware interrupts in the
    kernel's code segment, and nothing from 48 on; but the gates of the exceptions 0 to 31,
    installed with no flags, lead to their entry points and are not present. *)
Theorem idt_init_gates (s : S)
    (He : ∀ v, 0 ≤ exception_ v < 2 ^ 64) (Hh : ∀ v, 0 ≤ hardware_interrupt_ v < 2 ^ 64) :
  ∃ s', idt_init s = Done tt s' ∧
    loaded s' = loaded s ++ [LoadIdt 4095 idt_addr] ∧ system_ready s' = 1 ∧
    ∀ j, (j < 256)%nat → gate_at (idt s') j = Some (
      if decide (j < 32)%nat then mk_gate (exception_ (Z.of_nat j)) 8 0 0 0 false
      else if decide (j < 48)%nat then mk_gate (hardware_interrupt_ (Z.of_nat j - 32)) 8 0 0xE 0 true
      else mk_gate 0 0 0 0 0 false).
Proof.
  unfold idt_init, isr_install, irq_install, idt_load, modify. mred.
  set (s1 := set_callbacks _ _).
  destruct (set_gates_run 32 0 exception_ 0 s1) as (l1 & E1 & Hl1 & Hg1); [lia|lia|done|lia|done|].
  rewrite E1. set (s2 := set_handlers _ _).
  destruct (only_hw_pic s2) as [d2 E2]. rewrite E2.
  destruct (set_gates_run 16 32 (λ v, hardware_interrupt_ (v - 32)) 0x8E (set_ihw d2 s2)) as (l3 & E3 & Hl3 & Hg3);
    [lia|lia|done|lia|intros; apply Hh|].
  change (Z.lor (Z.lor IDT_FLAG_PRESENT IDT_FLAG_RING0) IDT_FLAG_GATE_INT) with 0x8E. rewrite E3.
  destruct (only_hw_mask 0 0 (set_idt l3 (set_ihw d2 s2))) as [d4 ->].
  destruct (only_hw_mask 1 0 (set_ihw d4 (set_idt l3 (set_ihw d2 s2)))) as [d5 E5]. rewrite E5.
  edestruct (only_hw_mask 12 0) as [d6 E6]. rewrite E6. edestruct (only_hw_mask 2 0) as [d7 E7]. rewrite E7.
  eexists. split; [done|]. split; [done|]. split; [done|]. intros j Hj. cbn [idt log_load set_ready set_ihw set_idt].
  rewrite Hg3 by done. change (idt (set_ihw d2 s2)) with l1. rewrite Hg1 by done.
  destruct (decide (32 ≤ Z.of_nat j < 32 + Z.of_nat 16)); [by rewrite decide_False, decide_True by lia|].
  destruct (decide (0 ≤ Z.of_nat j < 0 + Z.of_nat 32)); [by rewrite decide_True by lia|].
  rewrite !decide_False by lia. cbn [idt s1 set_callbacks set_idt]. unfold gate_at.
  change (Z.to_nat (16 * IDT_ENTRIES)) with 4096%nat. by rewrite !field_zero by lia.
Qed.

(** The segments.  After [gdt_init] the processor finds the null descriptor, flat code and
    data segments of 4 GiB for ring 0 and for ring 3 at the selectors 8, 16, 24 and 32, and
    at 40 the task state with its true address and size; the table is loaded with its exact
    limit, then the task register. *)
Theorem gdt_init_segments (s : S) (Hlen : length (gdt s) = 56%nat) (Htss : 0 ≤ tss_addr < 2 ^ 64) :
  ∃ s', gdt_init s = Done tt s' ∧
    segment_at (gdt s') <$> [0; 1; 2; 3; 4]%nat = Some <$>
      [mk_segment 0 0 0 0; mk_segment 0 0xFFFFF 0x9A 0xA; mk_segment 0 0xFFFFF 0x92 0xA;
       mk_segment 0 0xFFFFF 0xFA 0xA; mk_segment 0 0xFFFFF 0xF2 0xA] ∧
    task_segment_at (gdt s') 5 = Some (mk_segment tss_addr (SIZEOF_TSS - 1) 0x89 0) ∧
    loaded s' = loaded s ++ [LoadGdt 55 gdt_addr; LoadTask TSS_SELECTOR].
Proof.
  unfold gdt_init, gdt_set_gate, tss_init, tss_set_entry, gdt_load, get, modify. mred.
  eexists. split; [reflexivity|]. cbn [gdt loaded log_load set_gdt set_gdt_ptr set_tss fst snd gdt_ptr].
  set (t0 := gdt s) in *.
  assert (Hp : ∀ k bs t, length t = 56%nat → (8 * k + length bs ≤ 56)%nat → length (patch (8 * k) bs t) = 56%nat).
  { intros k bs t Ht Hk. rewrite length_patch; lia. }
  change 40%nat with (8 * 5)%nat. split_and!; [| |by rewrite <-app_assoc].
  - cbn [fmap list_fmap]. repeat f_equal;
      (rewrite !(segment_at_patch 56) by (repeat (assumption || apply Hp); cbn; lia)); reflexivity.
  - rewrite (task_segment_patch 56); [by apply tss_entry_decodes| |done|lia].
    repeat (assumption || apply Hp); cbn; lia.
Qed.
End interrupts.

(** A machine whose ports do nothing. *)
#[local] Instance no_ports : PortIO unit := {|
  read_port_byte := λ _ d, Done 0xFF d;
  read_port_word := λ _ d, Done 0 d;
  read_port_dword := λ _ d, Done 0 d;
  write_port_byte := λ _ _ d, Done tt d;
  write_port_word := λ _ _ d, Done tt d;
  write_port_dword := λ _ _ d, Done tt d;
|}.

Definition demo_istate : istate unit :=
  mk_istate (replicate 56 0xCC) (0, 0) (mk_tss 0 0) [] [] [] 0 [] tt.

Lemma no_ports_out (p v : Z) (d : unit) : ∃ d', outb p v d = Done tt d'.
Proof. by exists d. Qed.
Lemma no_ports_in (p : Z) (d : unit) : ∃ v d', inb p d = Done v d'.
Proof. by exists 0xFF, d. Qed.

Lemma idt_init_gates_witness :
  ∃ s', idt_init (λ v, u64 (0x1000 + 16 * v)) (λ v, u64 (0x9000 + 16 * v)) 0x5000 demo_istate = Done tt s' ∧
    gate_at (idt s') 14 = Some (mk_gate 0x10E0 8 0 0 0 false) ∧
    gate_at (idt s') 33 = Some (mk_gate 0x9010 8 0 0xE 0 true).
Proof.
  destruct (idt_init_gates (λ v, u64 (0x1000 + 16 * v)) (λ v, u64 (0x9000 + 16 * v)) 0x5000
    no_ports_out no_ports_in demo_istate) as (s' & E & _ & _ & Hg); [intros; apply u64_range..|].
  exists s'. split; [exact E|]. split; (rewrite Hg by lia; vm_compute; reflexivity).
Defined.

Lemma gdt_init_segments_witness :
  ∃ s', gdt_init 0x4000 0xFFFFFFFF80012340 demo_istate = Done tt s' ∧
    task_segment_at (gdt s') 5 = Some (mk_segment 0xFFFFFFFF80012340 103 0x89 0).
Proof.
  destruct (gdt_init_segments 0x4000 0xFFFFFFFF80012340 demo_istate) as (s' & E & _ & Ht & _); [done|lia|].
  exists s'. split; [exact E|exact Ht].
Defined.
