(* ===== verification/Keyboard.v ===== *)
(** * The keyboard driver, [core/drivers/ps2/keyboard/keyboard.c]

    Scan codes arrive at port 0x60, in the interrupt handler, in the polling loop or by a
    direct read; each of the three translates them with its own copy of the code, and all
    share the state of the modifier keys.  Keys go to the console or, while the graphical
    desktop runs, to the desktop.  The world [W] holds the devices and those two clients:
    what they do with a key, and [hlt], are the parameters [KeyClients]. *)

From Stdlib Require Import ZArith Lia String.
From stdpp Require Import base list numbers.
From S2P Require Import Prelude Module Ports Interrupts.
Open Scope Z_scope.
Set Default Goal Selector "!".

(** The two tables: scan codes 0x00 to 0x3A, and nothing above. *)
Definition scancode_to_ascii : list Z :=
  [0; 0] ++ chars "1234567890-=" ++ [8; 9] ++ chars "qwertyuiop[]" ++ [10; 0] ++
  chars "asdfghjkl;'`" ++ [0] ++ chars "\zxcvbnm,./" ++ [0] ++ chars "*" ++ [0] ++ chars " " ++ [0] ++
  replicate 69 0.
Definition scancode_to_ascii_shift : list Z :=
  [0; 0] ++ chars "!@#$%^&*()_+" ++ [0; 0] ++ chars "QWERTYUIOP{}" ++ [10; 0] ++
  chars "ASDFGHJKL:" ++ [34] ++ chars "~" ++ [0] ++ chars "|ZXCVBNM<>?" ++ [0] ++ chars "*" ++ [0] ++
  chars " " ++ [0] ++ replicate 69 0.

Class KeyClients (W : Type) := {
  gui_running : W → Z;
  console_handle_key : Z → M W unit;
  gui_handle_key : Z → M W unit;
  hlt : M W unit;
}.

Record kstate (W : Type) := mk_kstate {
  shift_pressed : Z;
  caps_lock : Z;
  ctrl_pressed : Z;
  total_irq : Z;
  k_world : W;
}.
Arguments mk_kstate {W}.
Arguments shift_pressed {W}.
Arguments caps_lock {W}.
Arguments ctrl_pressed {W}.
Arguments total_irq {W}.
Arguments k_world {W}.

Definition is_lower (c : Z) : bool := (97 <=? c) && (c <=? 122).
Definition is_upper (c : Z) : bool := (65 <=? c) && (c <=? 90).

Section keyboard.
  Context {W : Type} `{!PortIO W, !KeyClients W}.
  Abbreviation S := (kstate W).

Definition on_world {A} (m : M W A) : M S A :=
  zoom k_world (λ w s, mk_kstate (shift_pressed s) (caps_lock s) (ctrl_pressed s) (total_irq s) w) m.
Definition set_shift (v : Z) : M S unit :=
  modify (λ s, mk_kstate v (caps_lock s) (ctrl_pressed s) (total_irq s) (k_world s)).
Definition set_caps (v : Z) : M S unit :=
  modify (λ s, mk_kstate (shift_pressed s) v (ctrl_pressed s) (total_irq s) (k_world s)).
Definition set_ctrl (v : Z) : M S unit :=
  modify (λ s, mk_kstate (shift_pressed s) (caps_lock s) v (total_irq s) (k_world s)).
Definition count_irq : M S unit :=
  modify (λ s, mk_kstate (shift_pressed s) (caps_lock s) (ctrl_pressed s) (i32 (total_irq s + 1)) (k_world s)).
(** [caps_lock = !caps_lock;] *)
Definition toggle_caps : M S unit := s ← get; set_caps (b2z (caps_lock s =? 0)).

(** [table[sc]]; the tables have 128 entries. *)
Definition table_at (table : list Z) (sc : Z) : M S Z := of_option (table !! Z.to_nat sc).

Definition keyboard_read_direct : M S Z :=
  status ← on_world (inb 0x64);
  if Z.land status 1 =? 0 then mret 0 else
  sc ← on_world (inb 0x60);
  if sc =? 0 then mret 0 else
  if truthy (Z.land sc 0x80) then
    let make := Z.land sc 0x7F in
    whenM ((make =? 0x2A) || (make =? 0x36)) (set_shift 0);;
    whenM (make =? 0x3A) toggle_caps;;
    mret 0
  else if (sc =? 0x2A) || (sc =? 0x36) then set_shift 1;; mret 0
  else if sc =? 0x3A then toggle_caps;; mret 0
  else
    s ← get;
    let caps := truthy (caps_lock s) in
    let shift := truthy (shift_pressed s) in
    key ← (if shift then table_at scancode_to_ascii_shift sc else table_at scancode_to_ascii sc);
    let key := if caps && negb shift && is_lower key then i8 (key - 32) else key in
    mret (if (caps && negb shift) || (negb caps && shift) then
            if is_lower key then i8 (key - 32) else if is_upper key then i8 (key + 32) else key
          else key).

(** [outb(0x20, 0x20);]: the end of the interrupt. *)
Definition end_of_interrupt : M S unit := on_world (outb 0x20 0x20).

(** The arrow keys, when there is no character. *)
Definition arrow_key (sc : Z) : M S unit :=
  if sc =? 0x48 then on_world (console_handle_key 0x80)
  else if sc =? 0x50 then on_world (console_handle_key 0x81)
  else if sc =? 0x4B then on_world (console_handle_key 0x82)
  else if sc =? 0x4D then on_world (console_handle_key 0x83)
  else mret tt.

(** A character, to the desktop or to the console. *)
Definition give_key (sc key : Z) : M S unit :=
  s ← get;
  if truthy (gui_running (k_world s)) then
    if sc =? 0x0E then on_world (gui_handle_key 8)
    else if sc =? 0x1C then on_world (gui_handle_key 10)
    else on_world (gui_handle_key key)
  else on_world (console_handle_key key).

(** The dispatch at the end of the handler and of the polling loop. *)
Definition dispatch_key (sc key : Z) : M S unit :=
  s ← get;
  if truthy (ctrl_pressed s) then
    if key =? 99 then on_world (console_handle_key 3) else mret tt
  else if truthy key then give_key sc key
  else if gui_running (k_world s) =? 0 then arrow_key sc
  else mret tt.

Definition keyboard_interrupt_handler (state : cpu_state_t) : M S unit :=
  count_irq;;
  sc ← on_world (inb 0x60);
  if sc =? 0 then end_of_interrupt else
  if truthy (Z.land sc 0x80) then
    let make_code := Z.land sc 0x7F in
    whenM ((make_code =? 0x2A) || (make_code =? 0x36)) (set_shift 0);;
    whenM (make_code =? 0x1D) (set_ctrl 0);;
    end_of_interrupt
  else if (sc =? 0x2A) || (sc =? 0x36) then set_shift 1;; end_of_interrupt
  else if sc =? 0x3A then toggle_caps;; end_of_interrupt
  else if sc =? 0x1D then set_ctrl 1;; end_of_interrupt
  else if sc =? 0x9D then set_ctrl 0;; end_of_interrupt
  else
    s ← get;
    let caps := truthy (caps_lock s) in
    let shift := truthy (shift_pressed s) in
    key ← (if shift then table_at scancode_to_ascii_shift sc else table_at scancode_to_ascii sc);
    let key := if caps && negb shift && is_lower key then i8 (key - 32) else key in
    dispatch_key sc key;;
    end_of_interrupt.

Definition keyboard_init : M S unit :=
  mask ← on_world (inb 0x21);
  on_world (outb 0x21 (Z.land mask (Z.lnot (Z.shiftl 1 1)))).

Definition keyboard_get_key : M S Z := mret 0.
Definition keyboard_has_key : M S Z := mret 0.
Definition keyboard_process_input : M S unit := mret tt.
Definition keyboard_get_interrupt_count : M S Z := mret 0.

(** One pass of [keyboard_poll]'s endless loop. *)
Definition keyboard_poll_pass : M S unit :=
  ready ← on_world (inb 0x64);
  if Z.land ready 1 =? 0 then on_world hlt else
  status ← on_world (inb 0x64);
  if truthy (Z.land status 0x20) then on_world (inb 0x60);; mret tt else
  sc ← on_world (inb 0x60);
  if sc =? 0 then mret tt else
  if truthy (Z.land sc 0x80) then
    let make := Z.land sc 0x7F in
    whenM ((make =? 0x2A) || (make =? 0x36)) (set_shift 0);;
    whenM (make =? 0x3A) toggle_caps;;
    whenM (make =? 0x1D) (set_ctrl 0)
  else if (sc =? 0x2A) || (sc =? 0x36) then set_shift 1
  else if sc =? 0x3A then toggle_caps
  else if sc =? 0x1D then set_ctrl 1
  else if sc =? 0x9D then set_ctrl 0
  else
    s ← get;
    let caps := truthy (caps_lock s) in
    let shift := truthy (shift_pressed s) in
    key ← (if shift || caps then table_at scancode_to_ascii_shift sc else table_at scancode_to_ascii sc);
    let key :=
      if (caps && negb shift) || (negb caps && shift) then
        if is_lower key then i8 (key - 97 + 65) else if is_upper key then i8 (key - 65 + 97) else key
      else key in
    dispatch_key sc key.

(** [n] passes of the loop. *)
Fixpoint keyboard_poll (n : nat) : M S unit :=
  match n with O => mret tt | Datatypes.S n' => keyboard_poll_pass;; keyboard_poll n' end.

Definition keyboard_handler_startup : M S Z := keyboard_init;; mret 0.
Definition keyboard_handler_shutdown : M S unit := mret tt.

(** [BUILD_VERSION(0, 1, 0, 0)]. *)
Definition BUILD_VERSION (maj min pat bld : Z) : Z :=
  Z.lor (Z.lor (Z.shiftl maj 24) (Z.shiftl min 16)) (Z.lor (Z.shiftl pat 8) bld).
Definition keyboard_handler : component_handler S :=
  mk_handler (Some (chars "ps2_keyboard")) (Some (chars "/dev/keyboard")) (BUILD_VERSION 0 1 0 0)
    (Some keyboard_handler_startup) (Some keyboard_handler_shutdown) None None None.

(** ** What a scan code means *)

Record modifiers := mk_modifiers { m_shift : bool; m_caps : bool; m_ctrl : bool }.
Definition no_modifiers : modifiers := mk_modifiers false false false.
Inductive key_action := ToNobody | ToConsole (key : Z) | ToDesktop (key : Z).

(** The character of a key: the second table under shift; without it, the first, its letters
    made capitals by caps lock. *)
Definition key_char (m : modifiers) (sc : Z) : Z :=
  let c := default 0 (scancode_to_ascii !! Z.to_nat sc) in
  if m_shift m then default 0 (scancode_to_ascii_shift !! Z.to_nat sc)
  else if m_caps m && is_lower c then c - 32 else c.

Definition arrow_char (sc : Z) : option Z :=
  if sc =? 0x48 then Some 0x80 else if sc =? 0x50 then Some 0x81
  else if sc =? 0x4B then Some 0x82 else if sc =? 0x4D then Some 0x83 else None.

Definition key_effect (m : modifiers) (gui : bool) (sc : Z) : key_action :=
  let c := key_char m sc in
  if m_ctrl m then if c =? 99 then ToConsole 3 else ToNobody
  else if c =? 0 then
    if gui then ToNobody else match arrow_char sc with Some a => ToConsole a | None => ToNobody end
  else if gui then ToDesktop (if sc =? 0x0E then 8 else if sc =? 0x1C then 10 else c)
  else ToConsole c.

Definition scan_effect (m : modifiers) (gui : bool) (sc : Z) : modifiers * key_action :=
  if sc =? 0 then (m, ToNobody)
  else if 128 <=? sc then
    let make := sc - 128 in
    (mk_modifiers (m_shift m && negb ((make =? 0x2A) || (make =? 0x36))) (m_caps m)
       (m_ctrl m && negb (make =? 0x1D)), ToNobody)
  else if (sc =? 0x2A) || (sc =? 0x36) then (mk_modifiers true (m_caps m) (m_ctrl m), ToNobody)
  else if sc =? 0x3A then (mk_modifiers (m_shift m) (negb (m_caps m)) (m_ctrl m), ToNobody)
  else if sc =? 0x1D then (mk_modifiers (m_shift m) (m_caps m) true, ToNobody)
  else (m, key_effect m gui sc).

(** The driver's state for some modifiers. *)
Definition with_modifiers (m : modifiers) (irqs : Z) (w : W) : S :=
  mk_kstate (b2z (m_shift m)) (b2z (m_caps m)) (b2z (m_ctrl m)) irqs w.

Definition act (a : key_action) : M W unit :=
  match a with
  | ToNobody => mret tt
  | ToConsole k => console_handle_key k
  | ToDesktop k => gui_handle_key k
  end.

Lemma high_bit b : is_byte b → truthy (Z.land b 0x80) = (128 <=? b).
Proof.
  intros H. apply eqb_prop. revert b H.
  apply (byte_ind (λ b, eqb (truthy (Z.land b 0x80)) (128 <=? b))). by vm_compute.
Qed.

Lemma make_code b : is_byte b → 128 ≤ b → Z.land b 0x7F = b - 128.
Proof.
  intros H Hb. change 0x7F with (Z.ones 7). rewrite Z.land_ones by lia.
  unfold is_byte in H. replace b with (b - 128 + 1 * 2 ^ 7) at 1 by lia.
  rewrite Z_mod_plus_full, Z.mod_small; lia.
Qed.

Lemma table_at_run l sc (s : S) : length l = 128%nat → 0 ≤ sc < 128 →
  table_at l sc s = Done (default 0 (l !! Z.to_nat sc)) s.
Proof.
  intros Hl Hs. unfold table_at. destruct (lookup_lt_is_Some_2 l (Z.to_nat sc)) as [x ->]; [lia|done].
Qed.

Lemma truthy_b2z b : truthy (b2z b) = b.
Proof. by destruct b. Qed.

Lemma i8_sub32 c : is_lower c = true → i8 (c - 32) = c - 32.
Proof.
  unfold is_lower, i8. intros H. apply andb_true_iff in H as [H1 H2].
  apply Z.leb_le in H1, H2. change (2 ^ 7) with 128. change (2 ^ 8) with 256. rewrite Z.mod_small; lia.
Qed.

(** The character both the handler and the specification compute. *)
Lemma handler_char {A} m sc irqs w (k : Z → M S A) : 0 ≤ sc < 128 →
  (key ← (if m_shift m then table_at scancode_to_ascii_shift sc else table_at scancode_to_ascii sc);
   k (if m_caps m && negb (m_shift m) && is_lower key then i8 (key - 32) else key)) (with_modifiers m irqs w)
  = k (key_char m sc) (with_modifiers m irqs w).
Proof.
  intros Hs. unfold key_char. destruct (m_shift m); mred; rewrite table_at_run by done; mred.
  - by rewrite andb_false_r.
  - rewrite andb_true_r. destruct (m_caps m); [cbn [andb]|done].
    destruct (is_lower _) eqn:E; [by rewrite i8_sub32|done].
Qed.

Lemma dispatch_run m sc irqs w :
  dispatch_key sc (key_char m sc) (with_modifiers m irqs w) =
    on_world (act (key_effect m (truthy (gui_running w)) sc)) (with_modifiers m irqs w).
Proof.
  unfold dispatch_key, key_effect, give_key, get. mred. cbn [ctrl_pressed with_modifiers k_world].
  rewrite truthy_b2z. destruct (m_ctrl m); [by destruct (key_char m sc =? 99)|].
  unfold truthy. destruct (key_char m sc =? 0); cbn [negb].
  - destruct (gui_running w =? 0); cbn [negb]; [|done]. unfold arrow_key, arrow_char.
    repeat (case_match; try done).
  - cbn [k_world with_modifiers]. destruct (gui_running w =? 0); cbn [negb]; [done|].
    by destruct (sc =? 14), (sc =? 28).
Qed.

(** The handler: the modifiers and the action of the scan code, then one end of interrupt,
    on every path. *)
Lemma handler_run ctx m irqs w sc w1 :
  read_port_byte 0x60 w = Done sc w1 → is_byte sc →
  let '(m', a) := scan_effect m (truthy (gui_running w1)) sc in
  keyboard_interrupt_handler ctx (with_modifiers m irqs w) =
    on_world (act a;; outb 0x20 0x20) (with_modifiers m' (i32 (irqs + 1)) w1).
Proof.
  intros Hr Hb. destruct (scan_effect m (truthy (gui_running w1)) sc) as [m' a] eqn:He.
  unfold keyboard_interrupt_handler, count_irq, modify, end_of_interrupt. mred.
  cbn [shift_pressed caps_lock ctrl_pressed total_irq k_world with_modifiers].
  unfold on_world at 1, zoom at 1. cbn [k_world]. change (inb 0x60 w) with (read_port_byte 0x60 w). rewrite Hr.
  cbn [shift_pressed caps_lock ctrl_pressed total_irq].
  change (mk_kstate _ _ _ _ w1) with (with_modifiers m (i32 (irqs + 1)) w1).
  unfold scan_effect in He. rewrite high_bit by done.
  destruct (sc =? 0); [by injection He as <- <-|].
  destruct (Z.leb_spec 128 sc).
  { rewrite make_code by done. injection He as <- <-. generalize (sc - 128). intros make.
    destruct m as [sh cp ct]. unfold whenM.
    by destruct sh, ct, (make =? 0x2A), (make =? 0x36), (make =? 0x1D). }
  destruct ((sc =? 0x2A) || (sc =? 0x36)); [by injection He as <- <-|].
  destruct (sc =? 0x3A); [injection He as <- <-; by destruct m as [? [] ?]|].
  destruct (sc =? 0x1D); [by injection He as <- <-|].
  rewrite (proj2 (Z.eqb_neq sc 0x9D)) by lia. injection He as <- <-. unfold get.
  cbn [shift_pressed caps_lock with_modifiers]. rewrite !truthy_b2z.
  unfold is_byte in Hb. etransitivity; [refine (handler_char m sc _ w1 (λ key, dispatch_key sc key;; _) _); lia|].
  mred. rewrite dispatch_run. unfold on_world, zoom. cbn [k_world with_modifiers].
  by destruct (act _ w1).
Qed.

(** ** The other two translations *)

Definition swap_case (c : Z) : Z := if is_lower c then c - 32 else if is_upper c then c + 32 else c.

(** What [keyboard_read_direct] returns for a key that is pressed. *)
Lemma read_direct_run m irqs w st w1 sc w2 :
  read_port_byte 0x64 w = Done st w1 → Z.land st 1 ≠ 0 →
  read_port_byte 0x60 w1 = Done sc w2 → 0 < sc < 128 → sc ∉ [0x2A; 0x36; 0x3A] →
  keyboard_read_direct (with_modifiers m irqs w) =
    Done (let c := key_char m sc in if xorb (m_caps m) (m_shift m) then swap_case c else c)
         (with_modifiers m irqs w2).
Proof.
  intros H1 Hst H2 Hs Hn. rewrite !not_elem_of_cons in Hn. destruct Hn as (N1 & N2 & N3 & _).
  unfold keyboard_read_direct. mred. unfold on_world at 1, zoom at 1. cbn [k_world with_modifiers].
  change (inb 0x64 w) with (read_port_byte 0x64 w). rewrite H1, (proj2 (Z.eqb_neq _ _) Hst).
  unfold on_world at 1, zoom at 1. cbn [k_world]. change (inb 0x60 w1) with (read_port_byte 0x60 w1). rewrite H2.
  rewrite high_bit by (unfold is_byte; lia).
  rewrite (proj2 (Z.eqb_neq sc 0)), (proj2 (Z.leb_gt 128 sc)) by lia.
  rewrite !(proj2 (Z.eqb_neq sc _)) by done. cbn [orb]. unfold get. cbn [shift_pressed caps_lock with_modifiers].
  rewrite !truthy_b2z.
  etransitivity; [refine (handler_char m sc _ w2 (λ key, mret (if (m_caps m && negb (m_shift m)) || (negb (m_caps m) && m_shift m) then if is_lower key then i8 (key - 32) else if is_upper key then i8 (key + 32) else key else key)) _); lia|].
  mred. f_equal. unfold swap_case. set (c := key_char m sc).
  replace (i8 (c + 32)) with (if is_upper c then c + 32 else i8 (c + 32)).
  2: { destruct (is_upper c) eqn:E; [|done]. unfold is_upper in E. apply andb_true_iff in E as [E1 E2].
       apply Z.leb_le in E1, E2. unfold i8. rewrite Z.mod_small; lia. }
  destruct (is_lower c) eqn:E; [rewrite i8_sub32 by done|]; by destruct (m_caps m), (m_shift m), (is_upper c).
Qed.

(** ** Typing on a United States keyboard *)

(** Where a character is in a table. *)
Fixpoint find_code (c : Z) (table : list Z) (sc : Z) : option Z :=
  match table with
  | [] => None
  | x :: table' => if x =? c then Some sc else find_code c table' (sc + 1)
  end.

(** The scan codes a typist sends for a character: the key down and up, between shift down
    and up when the character is only in the second table. *)
Definition strokes (c : Z) : option (list Z) :=
  match find_code c scancode_to_ascii 0 with
  | Some sc => Some [sc; sc + 128]
  | None => (λ sc, [0x2A; sc; sc + 128; 0xAA]) <$> find_code c scancode_to_ascii_shift 0
  end.

(** The effects of a sequence of scan codes. *)
Fixpoint scan_effects (m : modifiers) (gui : bool) (codes : list Z) : modifiers * list key_action :=
  match codes with
  | [] => (m, [])
  | sc :: codes' =>
      let '(m1, a) := scan_effect m gui sc in
      let '(m2, acts) := scan_effects m1 gui codes' in (m2, a :: acts)
  end.

Definition said (gui : bool) (a : key_action) : list Z :=
  match a with ToNobody => [] | ToConsole k => if gui then [] else [k] | ToDesktop k => if gui then [k] else [] end.

(** The keys that are typed: all characters, backspace, tabulator and newline. *)
Definition typeable : list Z := [8; 9; 10] ++ seqZ 32 95.

Definition strokes_ok (gui : bool) (c : Z) : bool :=
  match strokes c with
  | Some codes =>
      let '(m, acts) := scan_effects no_modifiers gui codes in
      bool_decide ((m_shift m, m_caps m, m_ctrl m) = (false, false, false)) &&
      bool_decide (acts ≫= said gui = [c]) && forallb (λ b, bool_decide (is_byte b)) codes &&
      forallb (λ a, match a with ToNobody => true | ToConsole _ => negb gui | ToDesktop _ => gui end) acts
  | None => false
  end.

Lemma strokes_all gui : forallb (strokes_ok gui) typeable = true.
Proof. destruct gui; by vm_compute. Qed.

(** A key is meant for the client that is running. *)
Definition for_client (gui : bool) (a : key_action) : Prop :=
  match a with ToNobody => True | ToConsole _ => gui = false | ToDesktop _ => gui = true end.

Lemma strokes_spec gui c : c ∈ typeable → ∃ codes acts,
  strokes c = Some codes ∧ scan_effects no_modifiers gui codes = (no_modifiers, acts) ∧
  acts ≫= said gui = [c] ∧ Forall is_byte codes ∧ Forall (for_client gui) acts.
Proof.
  intros Hc. pose proof (strokes_all gui) as H. rewrite forallb_forall in H.
  specialize (H c (proj1 (list_elem_of_In _ _) Hc)). unfold strokes_ok in H.
  destruct (strokes c) as [codes|]; [|done]. exists codes.
  destruct (scan_effects no_modifiers gui codes) as [[sh cp ct] acts]. exists acts. split; [done|].
  rewrite !andb_true_iff, !bool_decide_eq_true, !forallb_forall in H.
  destruct H as [[[[= -> -> ->] Ha] Hb] Hg]. split_and!; [done|done| |].
  - apply Forall_forall. intros b Hb'%Hb. by apply bool_decide_eq_true in Hb'.
  - apply Forall_forall. intros a Ha'%Hg. by destruct a, gui.
Qed.

(** What the devices and the clients show: the scan codes still to come, the keys the console
    and the desktop have been given, the interrupts that were acknowledged. *)
Record desk := mk_desk {
  pending : list Z; console_keys : list Z; desktop_keys : list Z; acknowledged : nat; desktop_on : bool
}.
Definition give (a : key_action) (d : desk) : desk :=
  match a with
  | ToNobody => d
  | ToConsole k => mk_desk (pending d) (console_keys d ++ [k]) (desktop_keys d) (acknowledged d) (desktop_on d)
  | ToDesktop k => mk_desk (pending d) (console_keys d) (desktop_keys d ++ [k]) (acknowledged d) (desktop_on d)
  end.

(** [n] interrupts, one after the other. *)
Fixpoint interrupts (n : nat) (ctx : cpu_state_t) : M S unit :=
  match n with O => mret tt | Datatypes.S n' => keyboard_interrupt_handler ctx;; interrupts n' ctx end.
End keyboard.

(** A controller that hands out the pending codes one by one, and clients that take note of
    every key they are given. *)
Class Typing (W : Type) `{!PortIO W, !KeyClients W} := {
  desk_of : W → desk;
  desk_on : ∀ w, truthy (gui_running w) = desktop_on (desk_of w);
  desk_read : ∀ w c cs, pending (desk_of w) = c :: cs →
    ∃ w', read_port_byte 0x60 w = Done c w' ∧
      desk_of w' = mk_desk cs (console_keys (desk_of w)) (desktop_keys (desk_of w))
                     (acknowledged (desk_of w)) (desktop_on (desk_of w));
  desk_ack : ∀ w, ∃ w', write_port_byte 0x20 0x20 w = Done tt w' ∧
    desk_of w' = mk_desk (pending (desk_of w)) (console_keys (desk_of w)) (desktop_keys (desk_of w))
                   (Datatypes.S (acknowledged (desk_of w))) (desktop_on (desk_of w));
  desk_console : ∀ w k, desktop_on (desk_of w) = false →
    ∃ w', console_handle_key k w = Done tt w' ∧ desk_of w' = give (ToConsole k) (desk_of w);
  desk_desktop : ∀ w k, desktop_on (desk_of w) = true →
    ∃ w', gui_handle_key k w = Done tt w' ∧ desk_of w' = give (ToDesktop k) (desk_of w);
}.

Section typing.
  Context {W : Type} `{!PortIO W, !KeyClients W, !Typing W}.
  Context (ctx : cpu_state_t).

Lemma act_run a w : for_client (desktop_on (desk_of w)) a →
  ∃ w', act a w = Done tt w' ∧ desk_of w' = give a (desk_of w).
Proof.
  destruct a as [|k|k]; cbn [for_client act]; intros H.
  - by exists w.
  - by apply desk_console.
  - by apply desk_desktop.
Qed.

(** The desk after the client that is running was given the keys [ks] for [n] scan codes,
    with [rest] to come. *)
Definition hear (ks : list Z) (n : nat) (rest : list Z) (d : desk) : desk :=
  mk_desk rest (if desktop_on d then console_keys d else console_keys d ++ ks)
    (if desktop_on d then desktop_keys d ++ ks else desktop_keys d) (acknowledged d + n) (desktop_on d).

Lemma hear_hear ks1 ks2 n1 n2 r1 r2 d : hear ks2 n2 r2 (hear ks1 n1 r1 d) = hear (ks1 ++ ks2) (n1 + n2) r2 d.
Proof. unfold hear. cbn. rewrite Nat.add_assoc. by destruct (desktop_on d); rewrite (assoc_L (++)). Qed.

(** One interrupt. *)
Lemma key_interrupt_run m irqs w sc rest :
  pending (desk_of w) = sc :: rest → is_byte sc →
  let gui := desktop_on (desk_of w) in
  let '(m', a) := scan_effect m gui sc in
  for_client gui a →
  ∃ w', keyboard_interrupt_handler ctx (with_modifiers m irqs w) = Done tt (with_modifiers m' (i32 (irqs + 1)) w') ∧
    desk_of w' = hear (said gui a) 1 rest (desk_of w).
Proof.
  intros Hp Hb gui. destruct (scan_effect m gui sc) as [m' a] eqn:He. intros Ha.
  destruct (desk_read w sc rest Hp) as (w1 & Hr & Hd1).
  pose proof (handler_run ctx m irqs w sc w1 Hr Hb) as Hrun.
  rewrite desk_on, Hd1 in Hrun. cbn [desktop_on] in Hrun. fold gui in Hrun. rewrite He in Hrun.
  destruct (act_run a w1) as (w2 & Ea & Hd2); [by rewrite Hd1|].
  destruct (desk_ack w2) as (w3 & Ew & Hd3). exists w3. split.
  - rewrite Hrun. unfold on_world, zoom. mred. cbn [k_world with_modifiers]. rewrite Ea.
    change (outb 0x20 0x20 w2) with (write_port_byte 0x20 0x20 w2). by rewrite Ew.
  - rewrite Hd3, Hd2, Hd1. unfold hear. subst gui. revert Ha.
    destruct a as [|k|k], (desktop_on (desk_of w)) eqn:E; cbn; intros; try done;
      by rewrite ?app_nil_r, Nat.add_comm.
Qed.

Lemma interrupts_app n1 n2 (s : kstate W) :
  interrupts (n1 + n2) ctx s = (interrupts n1 ctx;; interrupts n2 ctx) s.
Proof.
  revert s. induction n1 as [|n1 IH]; intros s; [done|]. cbn [interrupts Nat.add]. mred.
  destruct (keyboard_interrupt_handler ctx s) as [[] s1|]; [|done]. apply IH.
Qed.

Lemma interrupts_run codes m irqs w rest :
  pending (desk_of w) = codes ++ rest → Forall is_byte codes →
  let gui := desktop_on (desk_of w) in
  let '(m', acts) := scan_effects m gui codes in
  Forall (for_client gui) acts →
  ∃ w' irqs', interrupts (length codes) ctx (with_modifiers m irqs w) = Done tt (with_modifiers m' irqs' w') ∧
    desk_of w' = hear (acts ≫= said gui) (length codes) rest (desk_of w).
Proof.
  revert m irqs w. induction codes as [|sc codes IH]; intros m irqs w Hp Hb gui; cbn [scan_effects].
  { intros _. exists w, irqs. split; [done|]. unfold hear. destruct (desk_of w); cbn in *. subst.
    rewrite Nat.add_0_r. by destruct desktop_on0; rewrite app_nil_r. }
  apply Forall_cons_1 in Hb as [Hsc Hb].
  pose proof (key_interrupt_run m irqs w sc (codes ++ rest) Hp Hsc) as H1. cbv zeta in H1. fold gui in H1.
  destruct (scan_effect m gui sc) as [m1 a].
  destruct (scan_effects m1 gui codes) as [m2 acts] eqn:E2. intros [Ha Hacts]%Forall_cons_1.
  destruct (H1 Ha) as (w1 & E1 & Hd1).
  pose proof (IH m1 (i32 (irqs + 1)) w1) as H2. rewrite Hd1 in H2. cbn [desktop_on hear] in H2.
  fold gui in H2. rewrite E2 in H2. destruct (H2 eq_refl Hb Hacts) as (w2 & i2 & Er & Hd2).
  exists w2, i2. split; [cbn [interrupts length]; mrun E1; exact Er|].
  rewrite Hd2. change (mk_desk _ _ _ _ _) with (hear (said gui a) 1 (codes ++ rest) (desk_of w)).
  apply hear_hear.
Qed.

(** Typing.  When the modifier keys are up and caps lock is off, the interrupts of the
    strokes that type a text of printable characters, newlines, tabulators and backspaces
    give exactly that text, in order, to the console, or to the desktop while it runs;
    every interrupt is acknowledged exactly once, and the modifier keys are up again. *)
Theorem keyboard_types_text (text rest : list Z) (codes : list (list Z)) (irqs : Z) (w : W)
    (Htext : text ⊆ typeable) (Hcodes : mapM strokes text = Some codes)
    (Hpending : pending (desk_of w) = concat codes ++ rest) :
  ∃ w' irqs', interrupts (length (concat codes)) ctx (with_modifiers no_modifiers irqs w)
      = Done tt (with_modifiers no_modifiers irqs' w') ∧
    desk_of w' = hear text (length (concat codes)) rest (desk_of w).
Proof.
  revert codes irqs w Hcodes Hpending. induction text as [|c text IH]; intros codes irqs w Hcodes Hp.
  { injection Hcodes as <-. exact (interrupts_run [] no_modifiers irqs w rest Hp (Forall_nil_2 _) (Forall_nil_2 _)). }
  apply mapM_Some in Hcodes. inversion Hcodes as [|? cs ? codes' Hc Hrest]; subst.
  apply mapM_Some in Hrest. cbn [concat] in *. rewrite <-app_assoc in Hp.
  destruct (strokes_spec (desktop_on (desk_of w)) c) as (cs' & acts & Hc' & He & Hs & Hb & Hf); [apply Htext; constructor|].
  rewrite Hc in Hc'. injection Hc' as <-.
  pose proof (interrupts_run cs no_modifiers irqs w (concat codes' ++ rest) Hp Hb) as H1. cbv zeta in H1.
  rewrite He in H1. destruct (H1 Hf) as (w1 & i1 & E1 & Hd1). rewrite Hs in Hd1.
  destruct (IH ltac:(intros x Hx; apply Htext; by constructor) codes' i1 w1 Hrest) as (w2 & i2 & E2 & Hd2); [by rewrite Hd1|].
  exists w2, i2. rewrite Hd2, Hd1, hear_hear, length_app. split; [|done].
  rewrite interrupts_app. mrun E1. exact E2.
Qed.
End typing.

(** ** A desk to type at *)

#[local] Instance desk_ports : PortIO desk := {|
  read_port_byte := λ p d, if p =? 0x60 then
      match pending d with
      | c :: cs => Done c (mk_desk cs (console_keys d) (desktop_keys d) (acknowledged d) (desktop_on d))
      | [] => Done 0 d
      end
    else Done (b2z (negb (bool_decide (pending d = [])))) d;
  read_port_word := λ _ d, Done 0 d;
  read_port_dword := λ _ d, Done 0 d;
  write_port_byte := λ p v d,
    Done tt (mk_desk (pending d) (console_keys d) (desktop_keys d)
               (if p =? 0x20 then Datatypes.S (acknowledged d) else acknowledged d) (desktop_on d));
  write_port_word := λ _ _ d, Done tt d;
  write_port_dword := λ _ _ d, Done tt d;
|}.
#[local] Instance desk_clients : KeyClients desk := {|
  gui_running := λ d, b2z (desktop_on d);
  console_handle_key := λ k d, Done tt (give (ToConsole k) d);
  gui_handle_key := λ k d, Done tt (give (ToDesktop k) d);
  hlt := λ d, Done tt d;
|}.
#[local] Instance desk_typing : Typing desk.
Proof.
  refine {| desk_of := λ d : desk, d |}.
  - by intros [? ? ? ? []].
  - intros w c cs Hp. cbn. rewrite Hp. eauto.
  - eauto.
  - eauto.
  - eauto.
Defined.

Definition demo_desk : desk :=
  mk_desk [0x2A; 0x23; 0xA3; 0xAA; 0x17; 0x97; 0x2A; 0x02; 0x82; 0xAA; 0x1C; 0x9C; 0x01] [] [] 0 false.

Lemma keyboard_types_text_witness :
  ∃ w' irqs', interrupts 12 (mk_cpu_state 33 0 0 0) (with_modifiers no_modifiers 0 demo_desk)
      = Done tt (with_modifiers no_modifiers irqs' w') ∧
    w' = mk_desk [0x01] (chars "Hi!" ++ [10]) [] 12 false.
Proof.
  destruct (keyboard_types_text (mk_cpu_state 33 0 0 0) (chars "Hi!" ++ [10]) [0x01]
    [[0x2A; 0x23; 0xA3; 0xAA]; [0x17; 0x97]; [0x2A; 0x02; 0x82; 0xAA]; [0x1C; 0x9C]] 0 demo_desk)
    as (w' & i' & E & Hw).
  - apply (bool_decide_unpack _). by vm_compute.
  - by vm_compute.
  - by vm_compute.
  - exists w', i'. split; [exact E|]. transitivity (desk_of w'); [done|]. rewrite Hw. by vm_compute.
Defined.

(** Caps lock has no effect on a direct read: the letter is raised and then lowered again. *)
Example direct_caps_dead :
  keyboard_read_direct (with_modifiers (mk_modifiers false true false) 0 (mk_desk [0x1E] [] [] 0 false))
    = Done 97 (with_modifiers (mk_modifiers false true false) 0 (mk_desk [] [] [] 0 false)).
Proof. by vm_compute. Qed.
(** Shift gives a small letter in the polling loop, caps lock a symbol for a digit, and it
    lasts only while its key is down. *)
Example poll_shift_lowers :
  keyboard_poll 2 (with_modifiers no_modifiers 0 (mk_desk [0x2A; 0x1E] [] [] 0 false))
    = Done tt (with_modifiers (mk_modifiers true false false) 0 (mk_desk [] [97] [] 0 false)).
Proof. by vm_compute. Qed.
Example poll_caps_symbols :
  keyboard_poll 2 (with_modifiers no_modifiers 0 (mk_desk [0x3A; 0x02] [] [] 0 false))
    = Done tt (with_modifiers (mk_modifiers false true false) 0 (mk_desk [] [33] [] 0 false)).
Proof. by vm_compute. Qed.
Example poll_caps_released :
  keyboard_poll 2 (with_modifiers no_modifiers 0 (mk_desk [0x3A; 0xBA] [] [] 0 false))
    = Done tt (with_modifiers no_modifiers 0 (mk_desk [] [] [] 0 false)).
Proof. by vm_compute. Qed.
