(* ===== verification/Buffer.v ===== *)
(** * Arrays of characters

    The shell, the editor and the desktop keep text in arrays of fixed length.  An array is
    the list of its bytes; an index outside it is [None], which the operations turn into
    [Fault].  [str_len], [str_copy] and [str_append] are the routines of
    [common/string/string.c] on such arrays; [arrays_refine_memory] relates them to the
    pointer walks of [CString.v]. *)

From Stdlib Require Import ZArith Lia String.
From stdpp Require Import base gmap list numbers fin_maps.
From S2P Require Import Prelude Memory CString.
Open Scope Z_scope.
Set Default Goal Selector "!".

(** [a[i]] and [a[i] = v;]. *)
Definition arr_get (a : list Z) (i : Z) : option Z := if 0 <=? i then a !! Z.to_nat i else None.
Definition arr_set (a : list Z) (i v : Z) : option (list Z) :=
  if (0 <=? i) && (i <? Z.of_nat (length a)) then Some (<[Z.to_nat i := v]> a) else None.

Fixpoint str_len (a : list Z) : option Z :=
  match a with
  | [] => None
  | c :: a' => if c =? 0 then Some 0 else n ← str_len a'; Some (n + 1)
  end.

Fixpoint str_copy (destination source : list Z) : option (list Z) :=
  match destination, source with
  | _ :: destination', c :: source' =>
      if c =? 0 then Some (0 :: destination') else r ← str_copy destination' source'; Some (c :: r)
  | _, _ => None
  end.

Fixpoint str_append (destination source : list Z) : option (list Z) :=
  match destination with
  | [] => None
  | c :: destination' =>
      if c =? 0 then str_copy destination source else r ← str_append destination' source; Some (c :: r)
  end.

(** [*first == *second] from the two starts on, up to a difference or an end. *)
Fixpoint str_equals (first second : list Z) : option bool :=
  match first, second with
  | a :: first', b :: second' =>
      if (a =? 0) || (b =? 0) || negb (a =? b) then Some (a =? b) else str_equals first' second'
  | _, _ => None
  end.

(** The array begins with the characters of a string and its end, compared one after the other. *)
Fixpoint begins (a s : list Z) : option bool :=
  match s with
  | [] => Some true
  | y :: s' => match a with [] => None | x :: a' => if x =? y then begins a' s' else Some false end
  end.

(** A string literal. *)
Definition lit (s : string) : list Z := chars s ++ [0].

(** The array holds the string [s], and bytes that do not matter behind it. *)
Definition holds (a s : list Z) : Prop := Forall is_char s ∧ ∃ rest, a = s ++ 0 :: rest.

Lemma holds_length a s : holds a s → (length s < length a)%nat.
Proof. intros (_ & rest & ->). rewrite length_app. cbn. lia. Qed.

Lemma char_nonzero c : is_char c → (c =? 0) = false.
Proof. unfold is_char. intros. apply Z.eqb_neq. lia. Qed.

Lemma str_len_holds a s : holds a s → str_len a = Some (Z.of_nat (length s)).
Proof.
  intros (Hs & rest & ->). induction Hs as [|c s Hc Hs IH]; [done|]. cbn [str_len app length].
  rewrite char_nonzero, IH by done. cbn. f_equal. lia.
Qed.

Lemma str_copy_holds d a s : holds a s → (length s < length d)%nat →
  str_copy d a = Some (s ++ 0 :: drop (S (length s)) d).
Proof.
  intros (Hs & rest & ->). revert d. induction Hs as [|c s Hc Hs IH]; intros [|x d] Hd; cbn [length] in Hd; try lia.
  - done.
  - cbn [str_copy app length]. rewrite char_nonzero, IH by (done || lia). done.
Qed.

Lemma str_append_holds d a s t : holds d s → holds a t → (length s + length t < length d)%nat →
  str_append d a = Some (s ++ t ++ 0 :: drop (S (length s + length t)) d).
Proof.
  intros (Hs & rest & ->) Ha. induction Hs as [|c s Hc Hs IH]; intros Hd; cbn [length] in Hd.
  - cbn [str_append app length Nat.add]. rewrite Z.eqb_refl. cbn [app length] in Hd.
    by rewrite (str_copy_holds _ _ _ Ha) by (cbn [length]; lia).
  - cbn [str_append app length] in *. rewrite char_nonzero, IH by (done || lia). done.
Qed.

Lemma holds_intro s rest : Forall is_char s → holds (s ++ 0 :: rest) s.
Proof. intros H. split; [done|]. by exists rest. Qed.

Lemma str_equals_holds a b s t : holds a s → holds b t → str_equals a b = Some (bool_decide (s = t)).
Proof.
  intros (Hs & ra & ->) (Ht & rb & ->). revert t Ht. induction Hs as [|c s Hc Hs IH]; intros t Ht.
  - destruct Ht as [|x t Hx Ht]; [done|]. cbn [str_equals app]. rewrite Z.eqb_refl. cbn [orb].
    rewrite (Z.eqb_sym 0), char_nonzero by done. done.
  - destruct Ht as [|x t Hx Ht]; cbn [str_equals app].
    + rewrite Z.eqb_refl, orb_true_r. cbn [orb]. by rewrite char_nonzero.
    + rewrite !char_nonzero by done. cbn [orb]. destruct (Z.eqb_spec c x) as [->|Hne]; cbn [negb].
      * rewrite IH by done. f_equal. apply bool_decide_ext. split; [by intros ->|by intros [= ->]].
      * f_equal. symmetry. apply bool_decide_eq_false. by intros [= ->].
Qed.

Lemma arr_set_length a i v a' : arr_set a i v = Some a' → length a' = length a.
Proof. unfold arr_set. case_match; [|done]. intros [= <-]. by rewrite length_insert. Qed.

Lemma arr_set_inside a i v : 0 ≤ i < Z.of_nat (length a) → arr_set a i v = Some (<[Z.to_nat i := v]> a).
Proof. intros H. unfold arr_set. by rewrite (proj2 (Z.leb_le 0 i)), (proj2 (Z.ltb_lt i _)) by lia. Qed.

Lemma arr_get_inside a i : 0 ≤ i < Z.of_nat (length a) → ∃ v, arr_get a i = Some v ∧ a !! Z.to_nat i = Some v.
Proof.
  intros H. unfold arr_get. rewrite (proj2 (Z.leb_le 0 i)) by lia.
  destruct (lookup_lt_is_Some_2 a (Z.to_nat i)) as [v Hv]; [lia|]. eauto.
Qed.

Lemma arr_get_app s x rest : arr_get (s ++ x :: rest) (Z.of_nat (length s)) = Some x.
Proof. unfold arr_get. rewrite (proj2 (Z.leb_le _ _)), Nat2Z.id by lia. by apply list_lookup_middle. Qed.

Lemma arr_set_app s x rest v : arr_set (s ++ x :: rest) (Z.of_nat (length s)) v = Some (s ++ v :: rest).
Proof.
  rewrite arr_set_inside by (rewrite length_app; cbn; lia). rewrite Nat2Z.id. f_equal.
  by rewrite insert_app_r_alt, Nat.sub_diag by lia.
Qed.

(** An array position by position. *)
Lemma holds_lookup a s : holds a s ↔
  Forall is_char s ∧ (∀ i, (i < length s)%nat → a !! i = s !! i) ∧ a !! length s = Some 0.
Proof.
  split.
  - intros (Hs & rest & ->). split_and!; [done|intros i Hi; by rewrite lookup_app_l|by apply list_lookup_middle].
  - intros (Hs & Hi & H0). split; [done|]. exists (drop (S (length s)) a). rewrite <-(take_drop_middle a _ _ H0) at 1.
    f_equal. pose proof (lookup_lt_Some _ _ _ H0). apply list_eq_same_length with (length s); [done|by apply length_take_le; lia|].
    intros i x y Hl Hx Hy. rewrite lookup_take_lt, Hi in Hx by done. congruence.
Qed.

(** The two parts of a string that is cut. *)
Lemma holds_drop a s n : holds a s → (n ≤ length s)%nat → holds (drop n a) (drop n s).
Proof.
  intros (Hs & rest & ->) Hn. split; [by apply Forall_drop|]. exists rest. by rewrite drop_app_le.
Qed.

Lemma holds_take a s n : holds a s → (n ≤ length s)%nat → holds (<[n := 0]> a) (take n s).
Proof.
  intros H Hn. pose proof (holds_length _ _ H). apply holds_lookup in H as (Hs & Hi & Hend). apply holds_lookup.
  rewrite length_take_le by done. split_and!; [by apply Forall_take| |by rewrite list_lookup_insert_eq by lia].
  intros i Hl. rewrite list_lookup_insert_ne, lookup_take_lt by lia. apply Hi. lia.
Qed.

(** The numeral of an unsigned word, appended. *)
Definition str_append_uint (destination : list Z) (number : Z) : option (list Z) :=
  str_append destination (u32_digits (u32 number) ++ [0]).

(** [while ( *p == ' ') p++;] and the length of the word at the start. *)
Fixpoint skip_blanks (a : list Z) : option (list Z) :=
  match a with [] => None | c :: a' => if c =? 32 then skip_blanks a' else Some a end.
Fixpoint word_len (a : list Z) : option Z :=
  match a with [] => None | c :: a' => if (c =? 0) || (c =? 32) then Some 0 else n ← word_len a'; Some (n + 1) end.

(** The comparison of a command with a name. *)
Fixpoint cmd_match (a b : list Z) : option bool :=
  match a, b with
  | x :: a', y :: b' =>
      if truthy x && truthy y then (if negb (x =? y) then Some false else cmd_match a' b')
      else Some ((x =? 0) && (y =? 0))
  | _, _ => None
  end.

(** The number of the name that a command is, from [i] on. *)
Fixpoint find_cmd (i : Z) (names : list string) (name : list Z) : option (option Z) :=
  match names with
  | [] => Some None
  | n :: names' => b ← cmd_match name (lit n); if (b : bool) then Some (Some i) else find_cmd (i + 1) names' name
  end.

(** [for (i = 0; i < n; i++) dst[i] = src[from + i];] *)
Fixpoint copy_chars (n : nat) (i from : Z) (dst src : list Z) : option (list Z) :=
  match n with
  | O => Some dst
  | S n' => v ← arr_get src (from + i); dst ← arr_set dst i v; copy_chars n' (i + 1) from dst src
  end.

Lemma copy_chars_run n i from dst src s : (∀ j, (j < n)%nat → src !! (from + i + j)%nat = s !! j) → length s = n →
  (i + n ≤ length dst)%nat →
  copy_chars n (Z.of_nat i) (Z.of_nat from) dst src = Some (take i dst ++ s ++ drop (i + n) dst).
Proof.
  revert i dst s. induction n as [|n IH]; intros i dst s Hs Hl Hd; cbn [copy_chars].
  - destruct s; [|done]. by rewrite Nat.add_0_r, app_nil_l, take_drop.
  - destruct s as [|x s]; [done|]. injection Hl as Hl. pose proof (Hs 0%nat ltac:(lia)) as H0. rewrite Nat.add_0_r in H0.
    unfold arr_get. rewrite (proj2 (Z.leb_le _ _)), Z2Nat.inj_add, !Nat2Z.id, H0 by lia. cbn.
    rewrite arr_set_inside by lia. rewrite Nat2Z.id. cbn. replace (Z.of_nat i + 1) with (Z.of_nat (S i)) by lia.
    rewrite (IH (S i) _ s); [|intros j Hj; pose proof (Hs (S j) ltac:(lia)) as E; rewrite lookup_cons in E; rewrite <-E; f_equal; lia|done|rewrite length_insert; lia].
    f_equal. rewrite (take_S_r _ _ x), take_insert_ge, <-app_assoc by (rewrite ?list_lookup_insert_eq; lia || done).
    rewrite drop_insert_lt by lia. by replace (S i + n)%nat with (i + S n)%nat by lia.
Qed.

(** The array of [n] characters holds the string [s]. *)
Definition text_in (n : nat) (a s : list Z) : Prop := length a = n ∧ holds a s.

Lemma text_in_fits n a s : text_in n a s → (length s < n)%nat.
Proof. intros [<- H]. by apply holds_length. Qed.

Lemma text_in_intro n s rest : Forall is_char s → length (s ++ 0 :: rest) = n → text_in n (s ++ 0 :: rest) s.
Proof. intros Hs Hl. split; [done|by apply holds_intro]. Qed.

Lemma text_in_copy n d a s : length d = n → holds a s → (length s < n)%nat →
  ∃ d', str_copy d a = Some d' ∧ text_in n d' s.
Proof.
  intros <- Ha Hs. eexists. split; [by apply str_copy_holds|]. apply text_in_intro; [apply Ha|].
  rewrite length_app. cbn [length]. rewrite length_drop. lia.
Qed.

Lemma text_in_append n d a s t : text_in n d s → holds a t → (length s + length t < n)%nat →
  ∃ d', str_append d a = Some d' ∧ text_in n d' (s ++ t).
Proof.
  intros [<- Hd] Ha Hs. eexists. split; [by apply str_append_holds|]. rewrite (app_assoc s).
  apply text_in_intro; [apply Forall_app_2; [apply Hd|apply Ha]|].
  rewrite !length_app. cbn [length]. rewrite length_drop. lia.
Qed.

Lemma holds_lit (s : string) : Forall is_char (chars s) → holds (lit s) (chars s).
Proof. intros H. by apply (holds_intro _ []). Qed.

Lemma text_in_append_uint n d s v : text_in n d s → (length s + 10 < n)%nat →
  ∃ d' t, str_append_uint d v = Some d' ∧ text_in n d' (s ++ t) ∧ (length t ≤ 10)%nat.
Proof.
  intros Hd Hs. unfold str_append_uint. pose proof (length_dec_digits 10 (u32 v)) as Hl. fold (u32_digits (u32 v)) in Hl.
  destruct (text_in_append n d (u32_digits (u32 v) ++ [0]) s (u32_digits (u32 v)) Hd) as (d' & E & H); [|lia|eauto].
  apply (holds_intro _ []), digits_chars, dec_digits_digits.
Qed.

(** ** Words *)

(** Without the blanks at the start. *)
Fixpoint strip (s : str) : str := match s with c :: s' => if c =? 32 then strip s' else s | [] => [] end.

(** The word at the start and what follows it. *)
Fixpoint word (s : str) : str * str :=
  match s with
  | [] => ([], [])
  | c :: s' => if c =? 32 then ([], s) else let '(w, r) := word s' in (c :: w, r)
  end.

Lemma skip_blanks_run a s : holds a s → ∃ a', skip_blanks a = Some a' ∧ holds a' (strip s).
Proof.
  intros (Hs & rest & ->). induction Hs as [|c s Hc Hs IH]; cbn.
  - eexists. split; [done|]. by apply (holds_intro []).
  - destruct (c =? 32); [done|]. eexists. split; [done|]. apply (holds_intro (c :: s)). by constructor.
Qed.

Lemma word_len_run a s : holds a s → word_len a = Some (Z.of_nat (length (word s).1)) ∧ s = (word s).1 ++ (word s).2.
Proof.
  intros (Hs & rest & ->). induction Hs as [|c s Hc Hs [IH1 IH2]]; cbn; [done|]. rewrite (char_nonzero c Hc). cbn.
  destruct (c =? 32); [done|]. rewrite IH1. destruct (word s) as [w r]. cbn in *. split; [f_equal; lia|by f_equal].
Qed.

(** ** A hundred rows of 256 characters *)

(** The rows hold the strings [f], where it gives one. *)
Record rows (L : list (list Z)) (f : nat → option str) : Prop := {
  r_count : length L = 100%nat;
  r_size : Forall (λ a : list Z, length a = 256%nat) L;
  r_text : ∀ i s, f i = Some s → ∃ a, L !! i = Some a ∧ holds a s;
}.

Definition upd (f : nat → option str) (i : nat) (s : str) : nat → option str :=
  λ j, if decide (j = i) then Some s else f j.

Lemma rows_row L f i s : rows L f → f i = Some s → ∃ a, L !! i = Some a ∧ text_in 256 a s.
Proof.
  intros [_ Hs Ht] Hi. destruct (Ht i s Hi) as (a & Ha & H). exists a. split; [done|]. split; [|done].
  rewrite Forall_lookup in Hs. eauto.
Qed.

Lemma rows_put L f i a s : rows L f → (i < 100)%nat → text_in 256 a s → rows (<[i := a]> L) (upd f i s).
Proof.
  intros [Hl Hs Ht] Hi [Ha Hh]. split; [by rewrite length_insert|by apply Forall_insert|].
  intros j t. unfold upd. destruct (decide (j = i)) as [->|Hne].
  - intros [= <-]. exists a. by rewrite list_lookup_insert_eq by lia.
  - rewrite list_lookup_insert_ne by done. apply Ht.
Qed.

Lemma rows_ext L f g : rows L f → (∀ i s, g i = Some s → f i = Some s) → rows L g.
Proof. intros [Hl Hs Ht] H. split; [done..|]. eauto. Qed.

(** ** The arrays and memory *)

(** A copy that stays in its arrays has found the end of the source in it. *)
Lemma str_copy_some d a d' : Forall is_byte a → str_copy d a = Some d' →
  ∃ s rest, a = s ++ 0 :: rest ∧ Forall is_char s ∧ (length s < length d)%nat ∧ d' = s ++ 0 :: drop (S (length s)) d.
Proof.
  revert d d'. induction a as [|c a IH]; intros [|x d] d' Hb; cbn [str_copy]; try done.
  apply Forall_cons_1 in Hb as [Hc Hb]. destruct (Z.eqb_spec c 0) as [->|Hne].
  - intros [= <-]. exists [], a. by split_and!; try done; cbn; lia.
  - destruct (str_copy d a) as [r|] eqn:E; [|done]. intros [= <-].
    destruct (IH d r Hb E) as (s & rest & -> & Hs & Hl & ->). exists (c :: s), rest.
    split_and!; [done|constructor; [unfold is_char, is_byte in *; lia|done]|cbn; lia|done].
Qed.

(** Writing back what is in memory already changes nothing. *)
Lemma write_suffix p s rest m : bytes_at (p + Z.of_nat (length s)) rest m →
  mem_write p (s ++ rest) m = mem_write p s m.
Proof.
  intros Hr. apply map_eq. intros a. rewrite !lookup_mem_write, length_app.
  repeat case_bool_decide; try lia; [by rewrite lookup_app_l by lia| |done].
  rewrite lookup_app_r by lia.
  destruct (lookup_lt_is_Some_2 rest (Z.to_nat (a - p) - length s)) as [b Hb]; [lia|].
  rewrite Hb. symmetry. rewrite <-(Hr _ _ Hb). f_equal. lia.
Qed.

Lemma write_same p bs m : bytes_at p bs m → mem_write p bs m = m.
Proof. intros H. apply (write_suffix p [] bs m). cbn [length]. by rewrite Z.add_0_r. Qed.

Lemma app_cons_mid {A} (s : list A) x rest : s ++ x :: rest = (s ++ [x]) ++ rest.
Proof. by rewrite <-app_assoc. Qed.

Lemma bytes_at_drop p n xs m : bytes_at p xs m → bytes_at (p + Z.of_nat n) (drop n xs) m.
Proof. intros H i b. rewrite lookup_drop. intros Hi. rewrite <-(H _ _ Hi). f_equal. lia. Qed.

Lemma cstr_of_holds p s rest m : bytes_at p (s ++ 0 :: rest) m → Forall is_char s → cstr_at p s m.
Proof.
  intros H Hs. split; [done|]. intros i b Hi. apply H.
  replace (s ++ 0 :: rest) with ((s ++ [0]) ++ rest) by (by rewrite <-app_assoc).
  by rewrite lookup_app_l by (eapply lookup_lt_Some, Hi).
Qed.

Lemma str_len_some a n : Forall is_byte a → str_len a = Some n →
  ∃ s rest, a = s ++ 0 :: rest ∧ Forall is_char s ∧ n = Z.of_nat (length s).
Proof.
  revert n. induction a as [|c a IH]; intros n Hb; cbn [str_len]; [done|]. apply Forall_cons_1 in Hb as [Hc Hb].
  destruct (Z.eqb_spec c 0) as [->|Hne]; [intros [= <-]; by exists [], a|].
  destruct (str_len a) as [k|]; [|done]. intros [= <-]. destruct (IH k Hb eq_refl) as (s & rest & -> & Hs & ->).
  exists (c :: s), rest. split_and!; [done|constructor; [unfold is_char, is_byte in *; lia|done]|cbn; lia].
Qed.

Lemma str_append_some d a d' : Forall is_byte d → Forall is_byte a → str_append d a = Some d' →
  ∃ s t rd ra, d = s ++ 0 :: rd ∧ a = t ++ 0 :: ra ∧ Forall is_char s ∧ Forall is_char t ∧
    (length s + length t < length d)%nat ∧ d' = s ++ t ++ 0 :: drop (S (length s + length t)) d.
Proof.
  revert d'. induction d as [|c d IH]; intros d' Hd Ha; cbn [str_append]; [done|]. apply Forall_cons_1 in Hd as [Hc Hd].
  destruct (Z.eqb_spec c 0) as [->|Hne].
  - intros H. destruct (str_copy_some _ _ _ Ha H) as (t & ra & -> & Ht & Hl & ->). by exists [], t, d, ra.
  - destruct (str_append d a) as [r|]; [|done]. intros [= <-].
    destruct (IH r Hd Ha eq_refl) as (s & t & rd & ra & -> & -> & Hs & Ht & Hl & ->). exists (c :: s), t, rd, ra.
    split_and!; try done; [constructor; [unfold is_char, is_byte in *; lia|done]|cbn [length]; lia].
Qed.

(** The routines on arrays are those on memory.  Where two arrays lie apart in memory and
    the routine on arrays does not leave them, [str_len], [str_copy] and [str_append] of the
    string library return with the same length and the same bytes in the destination, and
    change no other memory. *)
Theorem arrays_refine_memory (d p : Z) (dst src : list Z) (m : mem)
    (Hd : bytes_at d dst m) (Hp : bytes_at p src m) (Hbd : Forall is_byte dst) (Hbs : Forall is_byte src)
    (Hdisj : disjoint p (Z.of_nat (length src)) d (Z.of_nat (length dst))) :
  (∀ n, str_len src = Some n → CString.str_len p m = Done n m) ∧
  (∀ dst', str_copy dst src = Some dst' → CString.str_copy d p m = Done tt (mem_write d dst' m)) ∧
  (∀ dst', str_append dst src = Some dst' → CString.str_append d p m = Done tt (mem_write d dst' m)).
Proof.
  split_and!.
  - intros n H. destruct (str_len_some _ _ Hbs H) as (s & rest & -> & Hs & ->).
    apply str_len_run. by eapply cstr_of_holds.
  - intros dst' H. destruct (str_copy_some _ _ _ Hbs H) as (s & rest & -> & Hs & Hl & ->).
    rewrite length_app in Hdisj. cbn [length] in Hdisj.
    rewrite (str_copy_run d p s m); [|by eapply cstr_of_holds|..].
    + f_equal. rewrite (app_cons_mid s 0 (drop _ _)). symmetry. apply (write_suffix d (s ++ [0])).
      rewrite length_app. cbn [length]. rewrite Nat.add_1_r. by apply bytes_at_drop.
    + eapply mapped_sub; [apply (bytes_at_mapped _ _ _ Hd)|lia|lia].
    + unfold disjoint in *. lia.
  - intros dst' H. destruct (str_append_some _ _ _ Hbd Hbs H) as (s & t & rd & ra & Ed & -> & Hs & Ht & Hl & ->).
    rewrite length_app in Hdisj. cbn [length] in Hdisj.
    assert (cstr_at d s m) as Hcs by (subst dst; by eapply cstr_of_holds).
    rewrite (str_append_run d s p t m Hcs); [|by eapply cstr_of_holds|..].
    + f_equal. rewrite (mem_write_app d s), (write_same d s m).
      2: { intros i b Hi. apply Hd. rewrite Ed. by rewrite lookup_app_l by (eapply lookup_lt_Some, Hi). }
      rewrite (app_cons_mid t 0 (drop _ _)). symmetry. apply (write_suffix _ (t ++ [0])).
      rewrite length_app. cbn [length].
      replace (d + Z.of_nat (length s) + Z.of_nat (length t + 1)) with (d + Z.of_nat (S (length s + length t))) by lia.
      by apply bytes_at_drop.
    + eapply mapped_sub; [apply (bytes_at_mapped _ _ _ Hd)|lia|lia].
    + unfold disjoint in *. lia.
Qed.

Lemma arrays_refine_memory_witness :
  let m := mem_write 100 [97; 98; 0; 7; 7; 7; 99; 0] ∅ in
  CString.str_append 100 106 m = Done tt (mem_write 100 [97; 98; 99; 0; 7; 7] m).
Proof.
  intros m. apply (arrays_refine_memory 100 106 [97; 98; 0; 7; 7; 7] [99; 0] m).
  - intros i b Hi. subst m. do 6 (destruct i as [|i]; [injection Hi as <-; by vm_compute|]). done.
  - intros i b Hi. subst m. do 2 (destruct i as [|i]; [injection Hi as <-; by vm_compute|]). done.
  - apply (bool_decide_unpack _). by vm_compute.
  - apply (bool_decide_unpack _). by vm_compute.
  - right. by vm_compute.
  - by vm_compute.
Defined.
