(* ===== verification/Display.v ===== *)
(** * The frame buffer, [core/kernel/display/visual.c] and [rendering.c]

    The pixels of the two buffers are lists of 32-bit words; [fb_pitch] is a length in bytes
    and a frame buffer whose rows are no whole number of words is outside the model.  An
    access outside a buffer is the outcome [Fault].  The second buffer comes from the
    allocator interface. *)

From Stdlib Require Import ZArith Lia String.
From stdpp Require Import base list numbers.
From S2P Require Import Prelude Alloc Font.
Open Scope Z_scope.
Set Default Goal Selector "!".

Definition CHAR_WIDTH : Z := 8.
Definition CHAR_HEIGHT : Z := 16.
Definition CONSOLE_BG_COLOR : Z := 0.

(** [framebuffer], [backbuffer] (null until it is allocated) and the other variables of
    [visual.c]; [d_arena] is the allocator. *)
Record display (A : Type) := mk_display {
  framebuffer : list Z;
  backbuffer : option (list Z);
  double_buffering_enabled : Z;
  graphics_kernel_memory : Z;
  fb_width : Z;
  fb_height : Z;
  fb_pitch : Z;
  cursor_x : Z;
  cursor_y : Z;
  font_scale : Z;
  d_arena : A;
}.
Arguments mk_display {A}.
Arguments framebuffer {A}.
Arguments backbuffer {A}.
Arguments double_buffering_enabled {A}.
Arguments graphics_kernel_memory {A}.
Arguments fb_width {A}.
Arguments fb_height {A}.
Arguments fb_pitch {A}.
Arguments cursor_x {A}.
Arguments cursor_y {A}.
Arguments font_scale {A}.
Arguments d_arena {A}.

(** A frame buffer of the boot loader: its pixels and its geometry. *)
Record boot_framebuffer := mk_boot_framebuffer {
  bf_pixels : list Z; bf_width : Z; bf_height : Z; bf_pitch : Z
}.

Section display.
  Context {A : Type} `{!AllocOps A}.
  Abbreviation S := (display A).

Definition set_buffers (front : list Z) (back : option (list Z)) (d : S) : S :=
  mk_display front back (double_buffering_enabled d) (graphics_kernel_memory d) (fb_width d)
    (fb_height d) (fb_pitch d) (cursor_x d) (cursor_y d) (font_scale d) (d_arena d).
Definition set_double (v : Z) (d : S) : S :=
  mk_display (framebuffer d) (backbuffer d) v (graphics_kernel_memory d) (fb_width d)
    (fb_height d) (fb_pitch d) (cursor_x d) (cursor_y d) (font_scale d) (d_arena d).
Definition put_cursor (x y : Z) (d : S) : S :=
  mk_display (framebuffer d) (backbuffer d) (double_buffering_enabled d) (graphics_kernel_memory d) (fb_width d)
    (fb_height d) (fb_pitch d) x y (font_scale d) (d_arena d).
Definition put_scale (v : Z) (d : S) : S :=
  mk_display (framebuffer d) (backbuffer d) (double_buffering_enabled d) (graphics_kernel_memory d) (fb_width d)
    (fb_height d) (fb_pitch d) (cursor_x d) (cursor_y d) v (d_arena d).
Definition put_arena (a : A) (d : S) : S :=
  mk_display (framebuffer d) (backbuffer d) (double_buffering_enabled d) (graphics_kernel_memory d) (fb_width d)
    (fb_height d) (fb_pitch d) (cursor_x d) (cursor_y d) (font_scale d) a.

Definition get_stride (d : S) : Z := fb_pitch d / 4.

(** The buffer that is drawn into, and its replacement. *)
Definition active (d : S) : option (list Z) :=
  if truthy (double_buffering_enabled d) then backbuffer d else Some (framebuffer d).
Definition set_active (l : list Z) (d : S) : S :=
  if truthy (double_buffering_enabled d) then set_buffers (framebuffer d) (Some l) d
  else set_buffers l (backbuffer d) d.

(** [buf[i] = color;] and [buf[i]] for the active buffer. *)
Definition buf_write (i color : Z) : M S unit := λ d,
  match active d with
  | Some l => if (0 <=? i) && (i <? Z.of_nat (length l)) then Done tt (set_active (<[Z.to_nat i := color]> l) d)
              else Stuck Fault
  | None => Stuck Fault
  end.
Definition buf_read (i : Z) : M S Z := λ d,
  match active d with
  | Some l => if (0 <=? i) && (i <? Z.of_nat (length l)) then Done (nth (Z.to_nat i) l 0) d else Stuck Fault
  | None => Stuck Fault
  end.

(** [n] words from [i] on set to [color], one after the other. *)
Definition buf_fill (n i color : Z) : M S unit := for_range (Z.to_nat n) i (λ k, buf_write k color).
(** [memcpy] of a row of words inside the active buffer. *)
Definition buf_copy_row (dst src n : Z) : M S unit :=
  for_range (Z.to_nat n) 0 (λ k, v ← buf_read (src + k); buf_write (dst + k) v).

Definition graphics_init (fb : boot_framebuffer) (kernel_memory_ptr : Z) : M S unit :=
  modify (λ d, mk_display (bf_pixels fb) (backbuffer d) (double_buffering_enabled d) kernel_memory_ptr
    (u32 (bf_width fb)) (u32 (bf_height fb)) (u32 (bf_pitch fb)) 0 0 1 (d_arena d)).

Definition putpixel (x y color : Z) : M S unit :=
  d ← get;
  if (fb_width d <=? x) || (fb_height d <=? y) then mret tt
  else buf_write (u32 (y * get_stride d + x)) color.

Definition getpixel (x y : Z) : M S Z :=
  d ← get;
  if (fb_width d <=? x) || (fb_height d <=? y) then mret 0
  else buf_read (u32 (y * get_stride d + x)).

(** Both branches fill the same words: [memset] with zero, or eight words at a time. *)
Definition clear (color : Z) : M S unit :=
  d ← get;
  let total_pixels := fb_height d * get_stride d in
  buf_fill total_pixels 0 color;;
  modify (put_cursor 0 0).

(** The copy of the bytes of the frame. *)
Definition graphics_swap_buffers : M S unit := λ d,
  if double_buffering_enabled d =? 0 then Done tt d else
  match backbuffer d with
  | None => Done tt d
  | Some back =>
      let n := Z.to_nat (fb_height d * fb_pitch d / 4) in
      if (fb_height d * fb_pitch d mod 4 =? 0) && (n <=? length back)%nat && (n <=? length (framebuffer d))%nat
      then Done tt (set_buffers (take n back ++ drop n (framebuffer d)) (Some back) d)
      else Stuck Fault
  end.

Definition scroll_up (lines : Z) : M S unit :=
  if lines =? 0 then mret tt else
  d ← get;
  let char_h := u32 (CHAR_HEIGHT * font_scale d) in
  let pixels := u32 (lines * char_h) in
  if fb_height d <=? pixels then
    clear CONSOLE_BG_COLOR;;
    modify (λ d, put_cursor (cursor_x d) 0 d)
  else
  match active d with
  | None => mret tt
  | Some _ =>
      let stride := get_stride d in
      (if fb_pitch d mod 4 =? 0 then mret tt else fault);;
      for_to 0 (fb_height d - pixels) (λ y,
        buf_copy_row (u32 (y * stride)) (u32 (u32 (y + pixels) * stride)) stride);;
      for_to (fb_height d - pixels) (fb_height d) (λ y, buf_fill stride (u32 (y * stride)) 0);;
      d' ← get;
      (if truthy (double_buffering_enabled d') then graphics_swap_buffers else mret tt)
  end.

Definition graphics_enable_double_buffering : M S unit :=
  d ← get;
  if truthy (double_buffering_enabled d) then mret tt else
  if (graphics_kernel_memory d =? NULL) || (fb_width d =? 0) || (fb_height d =? 0) then mret tt else
  let size_needed := u64 (fb_height d * fb_pitch d) in
  p ← zoom d_arena put_arena (al_alloc (graphics_kernel_memory d) size_needed 1);
  if p =? NULL then modify (λ d, set_buffers (framebuffer d) None d) else
  let n := Z.to_nat (size_needed / 4) in
  (if (size_needed mod 4 =? 0) && (n <=? length (framebuffer d))%nat then mret tt else fault);;
  modify (λ d, set_double 1 (set_buffers (framebuffer d) (Some (take n (framebuffer d))) d)).

Definition graphics_disable_double_buffering : M S unit := modify (set_double 0).
Definition graphics_is_double_buffering_enabled : M S Z := gets double_buffering_enabled.

(** The row of a glyph, its most significant bit to the left. *)
Definition glyph_row (row i color : Z) : M S unit :=
  for_range 8 0 (λ k, if Z.testbit row (7 - k) then buf_write (i + k) color else mret tt).

(** The rows of a glyph from [dy] on, with [n] to go. *)
Fixpoint text_rows (n : nat) (dy : Z) (glyph : list Z) (x y color : Z) : M S unit :=
  match n with
  | O => mret tt
  | Datatypes.S n' =>
      row ← of_option (glyph !! Z.to_nat dy);
      if row =? 0 then text_rows n' (dy + 1) glyph x y color else
      d ← get;
      let screen_y := u32 (y + dy * font_scale d) in
      if fb_height d <=? screen_y then mret tt else
      glyph_row row (u32 (screen_y * get_stride d + x)) color;;
      text_rows n' (dy + 1) glyph x y color
  end.

(** The loop over the characters; a character is a signed byte. *)
Fixpoint text_line (str : str) (curr_x y color : Z) : M S unit :=
  match str with
  | [] => mret tt
  | c :: str' =>
      d ← get;
      if u32 (curr_x + CHAR_WIDTH) <? fb_width d then
        (if (i8 c <? 32) || (126 <? i8 c) then mret tt
         else
           glyph ← of_option (font_8x16 !! Z.to_nat (u8 c));
           text_rows 16 0 glyph curr_x y color);;
        text_line str' (u32 (curr_x + CHAR_WIDTH)) y color
      else mret tt
  end.

Definition gui_draw_text_line_fast (str : option str) (x y color : Z) : M S unit :=
  match str with
  | None => mret tt
  | Some s => d ← get; if fb_height d <=? y then mret tt else text_line s x y color
  end.

Definition putpixels_horizontal (x y width color : Z) : M S unit :=
  d ← get;
  if (fb_width d <=? x) || (fb_height d <=? y) || (width =? 0) then mret tt else
  let width := if fb_width d <? u32 (x + width) then fb_width d - x else width in
  buf_fill width (u32 (y * get_stride d + x)) color.

Definition get_fb_width : M S Z := gets fb_width.
Definition get_fb_height : M S Z := gets fb_height.
Definition get_fb_pitch : M S Z := gets fb_pitch.
Definition set_font_scale (scale : Z) : M S unit :=
  if (1 <=? scale) && (scale <=? 4) then modify (put_scale scale) else mret tt.
Definition get_font_scale : M S Z := gets font_scale.

(** ** [rendering.c] *)

Definition draw_rect (x y width height color : Z) : M S unit :=
  for_range (Z.to_nat height) 0 (λ dy, putpixels_horizontal x (u32 (y + dy)) width color).

(** The four reflections of a point of the quarter disc. *)
Definition circle_point (cx cy x y color : Z) : M S unit :=
  putpixel (u32 (cx + x)) (u32 (cy + y)) color;;
  putpixel (u32 (cx - x)) (u32 (cy + y)) color;;
  putpixel (u32 (cx + x)) (u32 (cy - y)) color;;
  putpixel (u32 (cx - x)) (u32 (cy - y)) color.

Definition draw_circle (cx cy radius color : Z) : M S unit :=
  for_range (Z.to_nat (radius + 1)) 0 (λ y,
    for_range (Z.to_nat (radius + 1)) 0 (λ x,
      if u32 (x * x + y * y) <=? u32 (radius * radius) then circle_point cx cy x y color else mret tt)).

(** One pass of the loop of [draw_line]; the loop variables are [x0], [y0] and [err]. *)
Definition line_step (dx dy sx sy x1 y1 color : Z) (l : Z * Z * Z) : M S (Z * Z * Z + unit) :=
  let '(x0, y0, err) := l in
  putpixel x0 y0 color;;
  if (x0 =? x1) && (y0 =? y1) then mret (inr tt) else
  let e2 := i32 (2 * err) in
  let '(x0, err) := if - dy <? e2 then (u32 (x0 + sx), i32 (err - dy)) else (x0, err) in
  let '(y0, err) := if e2 <? dx then (u32 (y0 + sy), i32 (err + dx)) else (y0, err) in
  mret (inl (x0, y0, err)).

Definition draw_line (fuel : nat) (x0 y0 x1 y1 color : Z) : M S unit :=
  let dx := i32 (x1 - x0) in
  let dy := i32 (y1 - y0) in
  let dx := if dx <? 0 then i32 (- dx) else dx in
  let dy := if dy <? 0 then i32 (- dy) else dy in
  let sx := if x0 <? x1 then 1 else -1 in
  let sy := if y0 <? y1 then 1 else -1 in
  iterM fuel (line_step dx dy sx sy x1 y1 color) (x0, y0, i32 (dx - dy)).

(** ** What a drawing operation paints *)

(** A buffer to draw into: whole rows of words, at least as wide as the screen. *)
Record screen_ok (g : S) : Prop := {
  ok_pitch : fb_pitch g mod 4 = 0;
  ok_width : 0 < fb_width g ≤ get_stride g;
  ok_height : 0 < fb_height g;
  ok_size : fb_height g * get_stride g < 2 ^ 32;
  ok_active : is_Some (active g);
}.

Definition words (g : S) : Z := fb_height g * get_stride g.

(** On the screen [g], the operation sets the words [P] of the buffer to [c], and does
    nothing else. *)
Definition paints (g : S) (m : M S unit) (P : Z → bool) (c : Z) : Prop :=
  ∀ l, words g ≤ Z.of_nat (length l) → ∃ l', m (set_active l g) = Done tt (set_active l' g) ∧ length l' = length l ∧
    ∀ j, 0 ≤ j < Z.of_nat (length l) → l' !! Z.to_nat j = if P j then Some c else l !! Z.to_nat j.

Lemma active_set l g : is_Some (active g) → active (set_active l g) = Some l.
Proof. unfold active, set_active. intros H. by destruct (truthy (double_buffering_enabled g)) eqn:E; cbn; rewrite E. Qed.

Lemma set_set l1 l2 g : set_active l1 (set_active l2 g) = set_active l1 g.
Proof.
  unfold set_active. destruct (truthy (double_buffering_enabled g)) eqn:E; cbn; rewrite E; done.
Qed.

Lemma set_active_id l g : active g = Some l → set_active l g = g.
Proof.
  unfold active, set_active. destruct (truthy (double_buffering_enabled g)); intros H.
  - unfold set_buffers. rewrite <-H. by destruct g.
  - injection H as <-. by destruct g.
Qed.

Lemma set_active_geometry l g :
  fb_width (set_active l g) = fb_width g ∧ fb_height (set_active l g) = fb_height g ∧
  fb_pitch (set_active l g) = fb_pitch g ∧ font_scale (set_active l g) = font_scale g ∧
  cursor_x (set_active l g) = cursor_x g ∧ cursor_y (set_active l g) = cursor_y g ∧
  double_buffering_enabled (set_active l g) = double_buffering_enabled g.
Proof. unfold set_active. by destruct (truthy (double_buffering_enabled g)). Qed.

Lemma buf_write_run g l i c : is_Some (active g) → 0 ≤ i < Z.of_nat (length l) →
  buf_write i c (set_active l g) = Done tt (set_active (<[Z.to_nat i := c]> l) g).
Proof.
  intros Ha Hi. unfold buf_write. rewrite active_set by done.
  rewrite (proj2 (Z.leb_le 0 i)), (proj2 (Z.ltb_lt i _)) by lia. cbn [andb]. by rewrite set_set.
Qed.

Section paints.
  Context (g : S) (Hg : screen_ok g).

Lemma paints_ret c : paints g (mret tt) (λ _, false) c.
Proof. intros l Hl. by exists l. Qed.

Lemma paints_eq m P Q c : (∀ j, 0 ≤ j → P j = Q j) → paints g m P c → paints g m Q c.
Proof.
  intros HPQ H l Hl. destruct (H l Hl) as (l' & E & Hl' & HP). exists l'. split_and!; [done|done|].
  intros j Hj. rewrite <-HPQ by lia. auto.
Qed.

Lemma paints_bind m1 m2 P1 P2 c : paints g m1 P1 c → paints g m2 P2 c →
  paints g (m1;; m2) (λ j, P1 j || P2 j) c.
Proof.
  intros H1 H2 l Hl. destruct (H1 l Hl) as (l1 & E1 & Hl1 & HP1). mred. rewrite E1.
  destruct (H2 l1) as (l2 & E2 & Hl2 & HP2); [lia|]. exists l2. split_and!; [done|lia|].
  intros j Hj. rewrite HP2 by lia. destruct (P2 j); [by rewrite orb_true_r|]. rewrite orb_false_r. by apply HP1.
Qed.

(** A loop paints what its passes paint. *)
Lemma paints_for n lo body P c :
  (∀ i, lo ≤ i < lo + Z.of_nat n → paints g (body i) (P i) c) →
  paints g (for_range n lo body) (λ j, existsb (λ k, P (lo + Z.of_nat k) j) (seq 0 n)) c.
Proof.
  revert lo; induction n as [|n IH]; intros lo H; cbn [for_range]; [apply paints_ret|].
  eapply paints_eq; [|apply paints_bind; [apply H; lia|apply (IH (lo + 1)); intros i Hi; apply H; lia]].
  intros j _. cbn [seq existsb]. rewrite Z.add_0_r. f_equal. rewrite <-seq_shift.
  generalize (seq 0 n). intros ks. induction ks as [|k ks IHk]; [done|]. cbn [existsb map]. rewrite IHk. do 2 f_equal. lia.
Qed.

Lemma paints_when (b : bool) m P c : (b = true → paints g m P c) → paints g (if b then m else mret tt) (λ j, b && P j) c.
Proof. destruct b; intros H; [by apply H|apply paints_ret]. Qed.

Lemma paints_write i c : 0 ≤ i < words g → paints g (buf_write i c) (λ j, j =? i) c.
Proof.
  intros Hi l Hl. rewrite buf_write_run by (apply Hg || lia). eexists. split_and!; [done|by rewrite length_insert|].
  intros j Hj. destruct (Z.eqb_spec j i) as [->|Hne].
  - by rewrite list_lookup_insert_eq by lia.
  - by rewrite list_lookup_insert_ne by lia.
Qed.

Lemma paints_fill n i c : 0 ≤ i → 0 ≤ n → i + n ≤ words g →
  paints g (buf_fill n i c) (λ j, (i <=? j) && (j <? i + n)) c.
Proof.
  intros Hi Hn Hw. eapply paints_eq; [|apply (paints_for _ i _ (λ k j, j =? k)); intros k Hk; apply paints_write; lia].
  intros j Hj. apply eq_bool_prop_intro. rewrite !Is_true_true, existsb_exists, andb_true_iff, Z.leb_le, Z.ltb_lt.
  split.
  - intros (k & Hk & ->%Z.eqb_eq). apply in_seq in Hk. lia.
  - intros H. exists (Z.to_nat (j - i)). rewrite in_seq, Z.eqb_eq. lia.
Qed.

(** The state an operation looks at is the screen's. *)
Lemma paints_get (f : S → M S unit) P c : paints g (f g) P c → (∀ l, f (set_active l g) = f g) →
  paints g (d ← get; f d) P c.
Proof. intros H Hf l Hl. unfold get. mred. rewrite Hf. by apply H. Qed.

Lemma stride_pos : 0 < get_stride g.
Proof. pose proof (ok_width g Hg). lia. Qed.

(** The word of a pixel. *)
Lemma word_inside x y : 0 ≤ x < get_stride g → 0 ≤ y < fb_height g →
  0 ≤ y * get_stride g + x < words g ∧ u32 (y * get_stride g + x) = y * get_stride g + x.
Proof.
  intros Hx Hy. pose proof (ok_size g Hg). unfold words, u32.
  assert (0 ≤ y * get_stride g + x < fb_height g * get_stride g) by nia.
  split; [done|]. apply Z.mod_small. lia.
Qed.

Lemma paints_putpixel x y c : 0 ≤ x → 0 ≤ y →
  paints g (putpixel x y c) (λ j, (x <? fb_width g) && (y <? fb_height g) && (j =? y * get_stride g + x)) c.
Proof.
  intros Hx Hy. unfold putpixel. apply paints_get.
  2: { intros l. destruct (set_active_geometry l g) as (Ew & Eh & Ep & _). unfold get_stride. by rewrite Ew, Eh, Ep. }
  rewrite !Z.leb_antisym. destruct (Z.ltb_spec x (fb_width g)); cbn [negb orb andb]; [|apply paints_ret].
  destruct (Z.ltb_spec y (fb_height g)); cbn [negb andb]; [|apply paints_ret].
  destruct (word_inside x y) as [Hw ->]; [pose proof (ok_width g Hg); lia|lia|]. by apply paints_write.
Qed.

Lemma paints_horizontal x y width c : 0 ≤ x → 0 ≤ y → 0 ≤ width → x + width < 2 ^ 32 →
  paints g (putpixels_horizontal x y width c)
    (λ j, (y <? fb_height g) && (y * get_stride g + x <=? j) && (j <? y * get_stride g + Z.min (x + width) (fb_width g))) c.
Proof.
  intros Hx Hy Hw Hxw. unfold putpixels_horizontal. apply paints_get.
  2: { intros l. destruct (set_active_geometry l g) as (Ew & Eh & Ep & _). unfold get_stride. by rewrite Ew, Eh, Ep. }
  assert (∀ j, y * get_stride g + x <= j → fb_width g ≤ x ∨ width = 0 →
    (j <? y * get_stride g + Z.min (x + width) (fb_width g)) = false) as Hnone by (intros; apply Z.ltb_ge; lia).
  destruct (Z.leb_spec (fb_width g) x); cbn [orb].
  { eapply paints_eq; [|apply paints_ret]. intros j Hj. cbn beta.
    destruct (Z.leb_spec (y * get_stride g + x) j); [rewrite Hnone by auto|]; by rewrite ?andb_false_r. }
  rewrite (Z.leb_antisym y). destruct (Z.ltb_spec y (fb_height g)); cbn [negb orb andb]; [|apply paints_ret].
  destruct (Z.eqb_spec width 0).
  { eapply paints_eq; [|apply paints_ret]. intros j Hj. cbn beta.
    destruct (Z.leb_spec (y * get_stride g + x) j); [rewrite Hnone by auto|]; by rewrite ?andb_false_r. }
  pose proof (ok_width g Hg). unfold u32 at 1. rewrite (Z.mod_small (x + width)) by lia.
  destruct (word_inside x y) as [Hin ->]; [lia|lia|].
  set (len := if fb_width g <? x + width then fb_width g - x else width).
  assert (x + len = Z.min (x + width) (fb_width g)) as Hn by (subst len; destruct (Z.ltb_spec (fb_width g) (x + width)); lia).
  eapply paints_eq; [|apply paints_fill]; [|lia|lia|unfold words in *; nia].
  intros j Hj. cbn beta. do 2 f_equal. lia.
Qed.
End paints.

(** Rectangles.  On a screen whose rows are whole words [draw_rect] sets exactly the
    pixels of the rectangle that lie on the screen to the colour, and leaves every other word
    of the buffer and the rest of the state as they are; it never writes outside the buffer. *)
Theorem draw_rect_correct (g : S) (x y width height color : Z) (l : list Z)
    (Hg : screen_ok g) (Hl : words g ≤ Z.of_nat (length l))
    (Hx : 0 ≤ x) (Hy : 0 ≤ y) (Hw : 0 ≤ width) (Hh : 0 ≤ height)
    (Hxw : x + width < 2 ^ 32) (Hyh : y + height ≤ 2 ^ 32) :
  ∃ l', draw_rect x y width height color (set_active l g) = Done tt (set_active l' g) ∧ length l' = length l ∧
    ∀ px py, 0 ≤ px < get_stride g → 0 ≤ py < fb_height g →
      l' !! Z.to_nat (py * get_stride g + px) =
        if bool_decide (x ≤ px < x + width ∧ px < fb_width g ∧ y ≤ py < y + height) then Some color
        else l !! Z.to_nat (py * get_stride g + px).
Proof.
  destruct (paints_for g (Z.to_nat height) 0 (λ dy, putpixels_horizontal x (u32 (y + dy)) width color)
    (λ dy j, (y + dy <? fb_height g) && ((y + dy) * get_stride g + x <=? j) &&
       (j <? (y + dy) * get_stride g + Z.min (x + width) (fb_width g))) color) with (l := l) as (l' & E & Hl' & HP).
  { intros i Hi. unfold u32. rewrite Z.mod_small by lia. by apply paints_horizontal; try lia. }
  { done. }
  exists l'. split_and!; [exact E|done|]. intros px py Hpx Hpy.
  pose proof (stride_pos g Hg). destruct (word_inside g Hg px py Hpx Hpy) as [Hin _].
  rewrite HP by lia. pose proof (ok_width g Hg).
  apply (f_equal (λ b : bool, if b then _ else _)). apply eq_bool_prop_intro.
  rewrite !Is_true_true, existsb_exists, bool_decide_eq_true. split.
  - intros (k & Hk & Hb). apply in_seq in Hk. rewrite !andb_true_iff, Z.leb_le, !Z.ltb_lt in Hb.
    assert (y + (0 + Z.of_nat k) = py) by nia. nia.
  - intros (H1 & H2 & H3). exists (Z.to_nat (py - y)). rewrite in_seq, !andb_true_iff, Z.leb_le, !Z.ltb_lt.
    replace (y + (0 + Z.of_nat (Z.to_nat (py - y)))) with py by lia. lia.
Qed.

Lemma square_le a b r : 0 ≤ a → 0 ≤ b → 0 ≤ r → a * a + b * b ≤ r * r → a ≤ r ∧ b ≤ r.
Proof. intros. nia. Qed.

Lemma sub_wrap c x : 0 ≤ c < 2 ^ 31 → 0 ≤ x < 2 ^ 15 →
  u32 (c - x) = c - x ∧ x ≤ c ∨ c < x ∧ 2 ^ 31 ≤ u32 (c - x).
Proof.
  intros Hc Hx. unfold u32. destruct (Z.le_gt_cases x c); [left; split; [apply Z.mod_small|]; lia|right].
  split; [lia|]. rewrite <-(Z_mod_plus_full (c - x) 1 (2 ^ 32)), Z.mod_small by lia. lia.
Qed.

(** The pixels of [circle_point]. *)
Definition reflected (g : S) (cx cy x y j : Z) : bool :=
  let pixel px py := (px <? fb_width g) && (py <? fb_height g) && (j =? py * get_stride g + px) in
  pixel (u32 (cx + x)) (u32 (cy + y)) || (pixel (u32 (cx - x)) (u32 (cy + y)) ||
  (pixel (u32 (cx + x)) (u32 (cy - y)) || pixel (u32 (cx - x)) (u32 (cy - y)))).

Lemma paints_circle_point g cx cy x y c : screen_ok g →
  paints g (circle_point cx cy x y c) (reflected g cx cy x y) c.
Proof. intros Hg. repeat apply paints_bind; apply paints_putpixel; try done; apply u32_range. Qed.

(** On the screen, and where nothing wraps to the screen again, those are the points at the
    distances [x] and [y] from the centre. *)
Lemma reflected_pixel g cx cy x y px py : screen_ok g →
  fb_width g ≤ 2 ^ 31 → fb_height g ≤ 2 ^ 31 → 0 ≤ cx < 2 ^ 31 → 0 ≤ cy < 2 ^ 31 →
  0 ≤ x < 2 ^ 15 → 0 ≤ y < 2 ^ 15 → 0 ≤ px < get_stride g → 0 ≤ py < fb_height g →
  reflected g cx cy x y (py * get_stride g + px) = true ↔
    px < fb_width g ∧ Z.abs (px - cx) = x ∧ Z.abs (py - cy) = y.
Proof.
  intros Hg Hw Hh Hcx Hcy Hx Hy Hpx Hpy. pose proof (ok_width g Hg) as Hok.
  assert (Hpix : ∀ x y, 0 ≤ x → 0 ≤ y →
    (x <? fb_width g) && (y <? fb_height g) && (py * get_stride g + px =? y * get_stride g + x) = true
    ↔ x = px ∧ y = py ∧ px < fb_width g).
  { clear -Hok Hpx Hpy. intros x y Hx Hy. rewrite !andb_true_iff, !Z.ltb_lt, Z.eqb_eq. split.
    - intros [[H1 H2] H3]. assert (y = py) by nia. nia.
    - intros (-> & -> & H). lia. }
  unfold reflected. cbv zeta. rewrite !orb_true_iff, !Hpix by apply u32_range. clear Hpix Hok Hg.
  assert (Hadd : ∀ c x, 0 ≤ c < 2 ^ 31 → 0 ≤ x < 2 ^ 15 → u32 (c + x) = c + x)
    by (intros; unfold u32; apply Z.mod_small; lia).
  rewrite !Hadd by lia. clear Hadd.
  pose proof (sub_wrap cx x Hcx Hx) as Hsx. pose proof (sub_wrap cy y Hcy Hy) as Hsy.
  revert Hsx Hsy. generalize (u32 (cx - x)) (u32 (cy - y)). intros wx wy Hsx Hsy. split.
  - destruct Hsx as [[-> ?]|[? ?]], Hsy as [[-> ?]|[? ?]]; intros [Hp|[Hp|[Hp|Hp]]]; lia.
  - intros (Hp & H1 & H2).
    destruct (Z.le_gt_cases cx px), (Z.le_gt_cases cy py);
      [left|right; right; left|right; left|right; right; right]; lia.
Qed.

(** Circles.  [draw_circle] sets exactly the pixels of the disc that lie on the screen,
    also where the disc reaches over an edge of the screen and the unsigned coordinates wrap
    round; it never writes outside the buffer. *)
Theorem draw_circle_correct (g : S) (cx cy r color : Z) (l : list Z)
    (Hg : screen_ok g) (Hl : words g ≤ Z.of_nat (length l))
    (Hw : fb_width g ≤ 2 ^ 31) (Hh : fb_height g ≤ 2 ^ 31)
    (Hcx : 0 ≤ cx < 2 ^ 31) (Hcy : 0 ≤ cy < 2 ^ 31) (Hr : 0 ≤ r < 2 ^ 15) :
  ∃ l', draw_circle cx cy r color (set_active l g) = Done tt (set_active l' g) ∧ length l' = length l ∧
    ∀ px py, 0 ≤ px < get_stride g → 0 ≤ py < fb_height g →
      l' !! Z.to_nat (py * get_stride g + px) =
        if bool_decide (px < fb_width g ∧ (px - cx) * (px - cx) + (py - cy) * (py - cy) ≤ r * r) then Some color
        else l !! Z.to_nat (py * get_stride g + px).
Proof.
  set (near := λ y x j, (u32 (x * x + y * y) <=? u32 (r * r)) && reflected g cx cy x y j).
  destruct (paints_for g (Z.to_nat (r + 1)) 0
    (λ y, for_range (Z.to_nat (r + 1)) 0 (λ x,
      if u32 (x * x + y * y) <=? u32 (r * r) then circle_point cx cy x y color else mret tt))
    (λ y j, existsb (λ k, near y (0 + Z.of_nat k) j) (seq 0 (Z.to_nat (r + 1)))) color)
    with (l := l) as (l' & E & Hl' & HP); [|done|].
  { intros y Hy. apply (paints_for g (Z.to_nat (r + 1)) 0 _ (near y)). intros x Hx.
    apply paints_when. intros _. by apply paints_circle_point. }
  exists l'. split_and!; [exact E|done|]. intros px py Hpx Hpy.
  destruct (word_inside g Hg px py Hpx Hpy) as [Hin _]. rewrite HP by lia.
  apply (f_equal (λ b : bool, if b then _ else _)). apply eq_bool_prop_intro.
  rewrite !Is_true_true, existsb_exists, bool_decide_eq_true.
  assert (Hnear : ∀ x y, 0 ≤ x ≤ r → 0 ≤ y ≤ r → near y x (py * get_stride g + px) = true ↔
    x * x + y * y ≤ r * r ∧ px < fb_width g ∧ Z.abs (px - cx) = x ∧ Z.abs (py - cy) = y).
  { intros x y Hx Hy. subst near. cbn beta. rewrite andb_true_iff, reflected_pixel by (done || lia).
    unfold u32. rewrite !Z.mod_small by nia. by rewrite Z.leb_le. }
  split.
  - intros (k & Hk & (k' & Hk' & Hb)%existsb_exists). apply in_seq in Hk, Hk'.
    apply Hnear in Hb as (Hd & Hpw & Hx & Hy); [|lia|lia]. split; [done|]. rewrite <-(Z.abs_square (px - cx)), <-(Z.abs_square (py - cy)).
    by rewrite Hx, Hy.
  - intros (Hpw & Hdisc). rewrite <-(Z.abs_square (px - cx)), <-(Z.abs_square (py - cy)) in Hdisc.
    destruct (square_le (Z.abs (px - cx)) (Z.abs (py - cy)) r) as [H1 H2]; [lia..|done|].
    exists (Z.to_nat (Z.abs (py - cy))). rewrite in_seq. split; [lia|]. apply existsb_exists.
    exists (Z.to_nat (Z.abs (px - cx))). rewrite in_seq. split; [lia|].
    rewrite Hnear by lia. rewrite !Z2Nat.id, !Z.add_0_l by lia. split_and!; done || lia.
Qed.

(** ** Lines *)

(** After [i] steps along and [j] steps down a line with the extents [dx] and [dy], twice the
    distance from the ideal line stays below the larger extent. *)
Definition near_line (dx dy i j : Z) : Prop :=
  0 ≤ i ≤ dx ∧ 0 ≤ j ≤ dy ∧ - Z.max dx dy ≤ 2 * (j * dx - i * dy) ≤ Z.max dx dy.

Definition line_err (dx dy i j : Z) : Z := dx - dy + j * dx - i * dy.

(** The step of the algorithm stays near the line and gets closer to its end: it moves along
    the larger extent every time. *)
Lemma near_line_step dx dy i j :
  near_line dx dy i j → ¬ (i = dx ∧ j = dy) →
  let e2 := 2 * line_err dx dy i j in
  let i' := if - dy <? e2 then i + 1 else i in
  let j' := if e2 <? dx then j + 1 else j in
  near_line dx dy i' j' ∧ (if dy <=? dx then i' = i + 1 else j' = j + 1).
Proof.
  intros (Hi & Hj & Hc) Hend. cbv zeta. unfold near_line, line_err in *.
  assert (dy ≤ dx → i < dx) as Hx by (intros; destruct (Z.eq_dec i dx); [subst; assert (j < dy) by lia; nia|lia]).
  assert (dx < dy → j < dy) as Hy by (intros; destruct (Z.eq_dec j dy); [subst; assert (i < dx) by lia; nia|lia]).
  destruct (Z.leb_spec dy dx).
  - specialize (Hx ltac:(lia)).
    assert (- dy < 2 * (dx - dy + j * dx - i * dy)) as E.
    { destruct (Z.eq_dec dx dy); [subst; assert (i ≤ j) by nia; nia|lia]. }
    rewrite (proj2 (Z.ltb_lt _ _) E). destruct (Z.ltb_spec (2 * (dx - dy + j * dx - i * dy)) dx).
    + assert (j < dy) by (destruct (Z.eq_dec j dy); [subst; nia|lia]). lia.
    + lia.
  - specialize (Hy ltac:(lia)).
    rewrite (proj2 (Z.ltb_lt (2 * (dx - dy + j * dx - i * dy)) dx)) by lia.
    destruct (Z.ltb_spec (- dy) (2 * (dx - dy + j * dx - i * dy))).
    + assert (i < dx) by (destruct (Z.eq_dec i dx); [subst; nia|lia]). lia.
    + lia.
Qed.

(** Some words of the buffer are set to a colour. *)
Definition marks (c : Z) (l l' : list Z) : Prop :=
  length l' = length l ∧ ∀ k, l' !! k = l !! k ∨ l' !! k = Some c.

Lemma marks_trans c l1 l2 l3 : marks c l1 l2 → marks c l2 l3 → marks c l1 l3.
Proof.
  intros [H1 H2] [H3 H4]. split; [lia|]. intros k. destruct (H4 k) as [E|E]; [rewrite E; apply H2|by right].
Qed.

Lemma marks_refl c l : marks c l l.
Proof. split; auto. Qed.

(** A marked word stays marked. *)
Lemma marks_keep c l l' k : marks c l l' → l !! k = Some c → l' !! k = Some c.
Proof. intros [_ H] Hk. destruct (H k) as [E|E]; [by rewrite E|done]. Qed.

Lemma paints_marks g m P c : paints g m P c → ∀ l, words g ≤ Z.of_nat (length l) →
  ∃ l', m (set_active l g) = Done tt (set_active l' g) ∧ marks c l l' ∧
    ∀ j, 0 ≤ j < Z.of_nat (length l) → P j = true → l' !! Z.to_nat j = Some c.
Proof.
  intros H l Hl. destruct (H l Hl) as (l' & E & Hl' & HP). exists l'. split_and!; [done| |].
  - split; [done|]. intros k. destruct (Nat.lt_ge_cases k (length l)).
    + specialize (HP (Z.of_nat k) ltac:(lia)). rewrite Nat2Z.id in HP. rewrite HP. destruct (P _); auto.
    + left. by rewrite !lookup_ge_None_2 by lia.
  - intros j Hj Hp. by rewrite HP, Hp.
Qed.

(** Whether a pixel is on the screen, and the word it has there. *)
Definition on_screen (g : S) (x y : Z) : Prop := 0 ≤ x < fb_width g ∧ 0 ≤ y < fb_height g.
Definition word_at (g : S) (x y : Z) : nat := Z.to_nat (y * get_stride g + x).

Lemma putpixel_marks g x y c l : screen_ok g → words g ≤ Z.of_nat (length l) → 0 ≤ x → 0 ≤ y →
  ∃ l', putpixel x y c (set_active l g) = Done tt (set_active l' g) ∧ marks c l l' ∧
    (on_screen g x y → l' !! word_at g x y = Some c).
Proof.
  intros Hg Hl Hx Hy. destruct (paints_marks g _ _ c (paints_putpixel g Hg x y c Hx Hy) l Hl) as (l' & E & Hm & HP).
  exists l'. split_and!; [done|done|]. intros [H1 H2].
  destruct (word_inside g Hg x y) as [Hw _]; [pose proof (ok_width g Hg); lia|done|].
  apply HP; [lia|]. by rewrite (proj2 (Z.ltb_lt x _)), (proj2 (Z.ltb_lt y _)), Z.eqb_refl by lia.
Qed.

(** The point [i] steps from [a] on the way to [b]. *)
Lemma toward s a b i d : s = 1 ∨ s = -1 → b = a + s * d → 0 ≤ i ≤ d → 0 ≤ a < 2 ^ 28 → 0 ≤ b < 2 ^ 28 →
  0 ≤ a + s * i < 2 ^ 28 ∧ Z.abs (b - (a + s * i)) = d - i.
Proof. intros [-> | ->]; lia. Qed.

(** The extents and directions [draw_line] starts with. *)
Lemma line_setup x0 y0 x1 y1 color fuel :
  0 ≤ x0 < 2 ^ 28 → 0 ≤ y0 < 2 ^ 28 → 0 ≤ x1 < 2 ^ 28 → 0 ≤ y1 < 2 ^ 28 →
  ∃ dx dy sx sy, (sx = 1 ∨ sx = -1) ∧ (sy = 1 ∨ sy = -1) ∧ x1 = x0 + sx * dx ∧ y1 = y0 + sy * dy ∧
    dx = Z.abs (x1 - x0) ∧ dy = Z.abs (y1 - y0) ∧
    draw_line fuel x0 y0 x1 y1 color =
      iterM fuel (line_step dx dy sx sy x1 y1 color) (x0 + sx * 0, y0 + sy * 0, line_err dx dy 0 0).
Proof.
  intros Hx0 Hy0 Hx1 Hy1.
  exists (Z.abs (x1 - x0)), (Z.abs (y1 - y0)), (if x0 <? x1 then 1 else -1), (if y0 <? y1 then 1 else -1).
  split_and!; [by destruct (x0 <? x1); auto|by destruct (y0 <? y1); auto|destruct (Z.ltb_spec x0 x1); lia
    |destruct (Z.ltb_spec y0 y1); lia|done|done|].
  unfold draw_line, line_err. rewrite !(i32_id (x1 - x0)), !(i32_id (y1 - y0)), !(i32_id (- (x1 - x0))),
    !(i32_id (- (y1 - y0))) by lia.
  replace (if x1 - x0 <? 0 then _ else _) with (Z.abs (x1 - x0)) by (destruct (Z.ltb_spec (x1 - x0) 0); lia).
  replace (if y1 - y0 <? 0 then _ else _) with (Z.abs (y1 - y0)) by (destruct (Z.ltb_spec (y1 - y0) 0); lia).
  rewrite i32_id by lia. rewrite !Z.mul_0_r, !Z.add_0_r. do 2 f_equal. lia.
Qed.

(** The loop variables after [i] and [j] steps, and the next ones: still near the line, still
    without overflow, and one step closer to the end. *)
Section line.
  Context (x0 y0 x1 y1 dx dy sx sy : Z).
  Context (Hs1 : sx = 1 ∨ sx = -1) (Hs2 : sy = 1 ∨ sy = -1) (Hsx : x1 = x0 + sx * dx) (Hsy : y1 = y0 + sy * dy).
  Context (Hx0 : 0 ≤ x0 < 2 ^ 28) (Hy0 : 0 ≤ y0 < 2 ^ 28) (Hx1 : 0 ≤ x1 < 2 ^ 28) (Hy1 : 0 ≤ y1 < 2 ^ 28).

Definition line_at (i j : Z) : Z * Z * Z := (x0 + sx * i, y0 + sy * j, line_err dx dy i j).
(** How far the end is, along the larger extent. *)
Definition line_left (v : Z * Z * Z) : nat :=
  let '(x, y, _) := v in Z.to_nat (if dy <=? dx then Z.abs (x1 - x) else Z.abs (y1 - y)).

Lemma line_next i j :
  near_line dx dy i j → ¬ (i = dx ∧ j = dy) →
  ∃ i' j', near_line dx dy i' j' ∧ (line_left (line_at i' j') < line_left (line_at i j))%nat ∧
    (let e2 := i32 (2 * line_err dx dy i j) in
     let '(x, err) := if - dy <? e2 then (u32 (x0 + sx * i + sx), i32 (line_err dx dy i j - dy))
                      else (x0 + sx * i, line_err dx dy i j) in
     let '(y, err) := if e2 <? dx then (u32 (y0 + sy * j + sy), i32 (err + dx)) else (y0 + sy * j, err) in
     (x, y, err)) = line_at i' j'.
Proof.
  intros Hnear Hend. pose proof Hnear as (Hi & Hj & Hc).
  assert (0 ≤ dx < 2 ^ 28 ∧ 0 ≤ dy < 2 ^ 28) as [Hdx Hdy] by lia.
  destruct (toward sx x0 x1 i dx Hs1 Hsx Hi Hx0 Hx1) as [Hxi Ai].
  destruct (toward sy y0 y1 j dy Hs2 Hsy Hj Hy0 Hy1) as [Hyj Aj].
  pose proof (near_line_step dx dy i j Hnear Hend) as Hstep. cbv zeta in Hstep.
  assert (- 2 ^ 29 ≤ line_err dx dy i j ≤ 2 ^ 29) as He by (unfold line_err; lia).
  cbv zeta. rewrite (i32_id (2 * line_err dx dy i j)) by lia.
  set (i' := if - dy <? _ then i + 1 else i) in Hstep. set (j' := if _ <? dx then j + 1 else j) in Hstep.
  destruct Hstep as [Hnear' Hmove]. pose proof Hnear' as (Hi' & Hj' & _).
  destruct (toward sx x0 x1 i' dx Hs1 Hsx Hi' Hx0 Hx1) as [Hxi' Ai'].
  destruct (toward sy y0 y1 j' dy Hs2 Hsy Hj' Hy0 Hy1) as [Hyj' Aj'].
  exists i', j'. split_and!; [done| |].
  { unfold line_left, line_at. rewrite Ai, Aj, Ai', Aj'. clear -Hmove Hi' Hj'. destruct (dy <=? dx); lia. }
  replace (if - dy <? 2 * line_err dx dy i j then _ else _) with (x0 + sx * i', line_err dx dy i' j).
  2: { subst i'. destruct (- dy <? _); [|done].
       unfold u32. rewrite Z.mod_small, i32_id by lia. unfold line_err. f_equal; lia. }
  assert (- 2 ^ 30 ≤ line_err dx dy i' j ≤ 2 ^ 30) as He'
    by (subst i'; unfold line_err in *; destruct (- dy <? _); lia).
  subst j'. unfold line_at. destruct (_ <? dx); [|done].
  unfold u32. rewrite Z.mod_small, i32_id by lia. unfold line_err. f_equal; [f_equal|]; lia.
Qed.
End line.

(** C29: Lines.  [draw_line] ends after as many steps as the larger extent of the line has, so
    fuel above that extent suffices; it marks both end points, where they are on the screen,
    changes no word except to the colour, and never writes outside the buffer. *)
Theorem draw_line_terminates (g : S) (x0 y0 x1 y1 color : Z) (l : list Z) (fuel : nat)
    (Hg : screen_ok g) (Hl : words g ≤ Z.of_nat (length l))
    (Hx0 : 0 ≤ x0 < 2 ^ 28) (Hy0 : 0 ≤ y0 < 2 ^ 28) (Hx1 : 0 ≤ x1 < 2 ^ 28) (Hy1 : 0 ≤ y1 < 2 ^ 28)
    (Hfuel : Z.max (Z.abs (x1 - x0)) (Z.abs (y1 - y0)) < Z.of_nat fuel) :
  ∃ l', draw_line fuel x0 y0 x1 y1 color (set_active l g) = Done tt (set_active l' g) ∧ marks color l l' ∧
    (on_screen g x0 y0 → l' !! word_at g x0 y0 = Some color) ∧
    (on_screen g x1 y1 → l' !! word_at g x1 y1 = Some color).
Proof.
  destruct (line_setup x0 y0 x1 y1 color fuel Hx0 Hy0 Hx1 Hy1) as (dx & dy & sx & sy & Hs1 & Hs2 & Hsx & Hsy & Hdx & Hdy & ->).
  assert (Hwp : wp (iterM fuel (line_step dx dy sx sy x1 y1 color) (line_at x0 y0 dx dy sx sy 0 0))
    (λ _ d, ∃ l', d = set_active l' g ∧ marks color l l' ∧
       (on_screen g x0 y0 → l' !! word_at g x0 y0 = Some color) ∧
       (on_screen g x1 y1 → l' !! word_at g x1 y1 = Some color)) (set_active l g)).
  2: { apply wp_run in Hwp as ([] & d & E & l' & -> & H). exists l'. split; [exact E|done]. }
  apply (wp_iterM (λ v d, ∃ i j l', v = line_at x0 y0 dx dy sx sy i j ∧ near_line dx dy i j ∧
      d = set_active l' g ∧ marks color l l' ∧
      (i = 0 ∧ j = 0 ∨ (on_screen g x0 y0 → l' !! word_at g x0 y0 = Some color)))
    (line_left x1 y1 dx dy)).
  - exists 0, 0, l. split_and!; [done|unfold near_line; lia..|done|apply marks_refl|auto].
  - cbn. destruct (dy <=? dx); lia.
  - intros v d (i & j & l1 & -> & Hnear & -> & Hm & Hstart). unfold line_step, line_at at 1.
    assert (0 ≤ x0 + sx * i ∧ 0 ≤ y0 + sy * j) as [Hxi Hyj]
      by (destruct Hnear as (Hi & Hj & _), Hs1 as [-> | ->], Hs2 as [-> | ->]; lia).
    destruct (putpixel_marks g (x0 + sx * i) (y0 + sy * j) color l1) as (l2 & E2 & Hm2 & Hp2);
      [done|destruct Hm; lia|lia|lia|].
    apply wp_bind. unfold wp at 1. rewrite E2.
    assert (Hm' : marks color l l2) by by eapply marks_trans.
    assert (Hstart' : on_screen g x0 y0 → l2 !! word_at g x0 y0 = Some color).
    { intros Ho. destruct Hstart as [[-> ->]|Hs]; [|by eapply marks_keep, Hs].
      rewrite !Z.mul_0_r, !Z.add_0_r in Hp2. auto. }
    destruct ((x0 + sx * i =? x1) && (y0 + sy * j =? y1)) eqn:Eend.
    { apply andb_true_iff in Eend as [E3%Z.eqb_eq E4%Z.eqb_eq]. apply wp_ret. exists l2.
      rewrite E3, E4 in Hp2. split_and!; done. }
    destruct (line_next x0 y0 x1 y1 dx dy sx sy Hs1 Hs2 Hsx Hsy Hx0 Hy0 Hx1 Hy1 i j Hnear) as (i' & j' & Hn' & Hlt & Hv).
    { intros [-> ->]. rewrite <-Hsx, <-Hsy, !Z.eqb_refl in Eend. done. }
    revert Hv. cbv zeta. destruct (if - dy <? _ then _ else _) as [x e].
    destruct (if _ <? dx then _ else _) as [y e']. intros ->. apply wp_ret. split; [|done].
    exists i', j', l2. split_and!; auto.
Qed.

(** ** Text *)

Section text.
  Context (g : S) (Hg : screen_ok g).

Lemma paints_option {B} (o : option B) (f : B → M S unit) b P c : o = Some b →
  paints g (f b) P c → paints g (x ← of_option o; f x) P c.
Proof. intros -> H. exact H. Qed.

Lemma paints_glyph_row row i c : 0 ≤ i → i + 8 ≤ words g → ∃ P, paints g (glyph_row row i c) P c.
Proof.
  intros Hi Hw. eexists. apply paints_for. intros k Hk.
  apply (paints_when g (Z.testbit row (7 - k)) _ (λ j, j =? i + k)). intros _. apply paints_write; [done|lia].
Qed.

Lemma paints_text_rows n dy glyph x y c :
  length glyph = 16%nat → 0 ≤ dy → dy + Z.of_nat n ≤ 16 → 0 ≤ x → x + 8 ≤ fb_width g →
  ∃ P, paints g (text_rows n dy glyph x y c) P c.
Proof.
  intros Hlen. revert dy. induction n as [|n IH]; intros dy Hdy Hn Hx Hw; cbn [text_rows].
  { eexists. apply paints_ret. }
  destruct (lookup_lt_is_Some_2 glyph (Z.to_nat dy)) as [row Hrow]; [lia|].
  destruct (IH (dy + 1)) as [P2 H2]; [lia..|].
  destruct (row =? 0) eqn:E0. { exists P2. eapply paints_option; [done|]. by rewrite E0. }
  set (sy := u32 (y + dy * font_scale g)).
  destruct (fb_height g <=? sy) eqn:Eh.
  - exists (λ _, false). eapply paints_option; [done|]. rewrite E0. apply paints_get.
    + fold sy. rewrite Eh. apply paints_ret.
    + intros l. destruct (set_active_geometry l g) as (_ & -> & Ep & -> & _). unfold get_stride. by rewrite Ep.
  - apply Z.leb_gt in Eh. pose proof (ok_width g Hg). assert (0 ≤ sy) by apply u32_range.
    destruct (word_inside g Hg x sy) as [Hin Hu]; [lia|lia|].
    destruct (paints_glyph_row row (sy * get_stride g + x) c) as [P1 H1]; [lia|unfold words in *; nia|].
    exists (λ j, P1 j || P2 j). eapply paints_option; [done|]. rewrite E0. apply paints_get.
    + fold sy. rewrite (proj2 (Z.leb_gt (fb_height g) sy)), Hu by lia. by apply paints_bind.
    + intros l. destruct (set_active_geometry l g) as (_ & -> & Ep & -> & _). unfold get_stride. by rewrite Ep.
Qed.

Lemma paints_text_line s x y c : fb_width g ≤ 2 ^ 31 → 0 ≤ x < 2 ^ 32 - 8 → ∃ P, paints g (text_line s x y c) P c.
Proof.
  intros Hw. revert x. induction s as [|ch s IH]; intros x Hx; cbn [text_line]; [eexists; apply paints_ret|].
  assert (u32 (x + CHAR_WIDTH) = x + 8) as Hu by (unfold u32, CHAR_WIDTH; rewrite Z.mod_small; lia).
  destruct (Z.ltb_spec (x + 8) (fb_width g)) as [Hlt|Hge].
  - destruct (IH (x + 8)) as [P2 H2]; [lia|].
    destruct (glyph_lookup ch) as (glyph & Hgl & Hlen & _).
    destruct (paints_text_rows 16 0 glyph x y c) as [P1 H1]; [done|lia..|].
    exists (λ j, negb ((i8 ch <? 32) || (126 <? i8 ch)) && P1 j || P2 j). apply paints_get.
    + rewrite Hu, (proj2 (Z.ltb_lt _ _) Hlt). apply paints_bind; [|done].
      destruct ((i8 ch <? 32) || (126 <? i8 ch)); cbn [negb andb]; [apply paints_ret|].
      by eapply paints_option.
    + intros l. by destruct (set_active_geometry l g) as (-> & _).
  - eexists. apply paints_get.
    + rewrite Hu, (proj2 (Z.ltb_ge _ _) Hge). apply paints_ret.
    + intros l. by destruct (set_active_geometry l g) as (-> & _).
Qed.
End text.

(** Text.  A line of text that does not start within eight pixels of the largest
    coordinate is drawn without an access outside the buffer, wherever it starts and however
    long it is: it only sets words to the text's colour. *)
Theorem draw_text_stays_inside (g : S) (s : option str) (x y color : Z) (l : list Z)
    (Hg : screen_ok g) (Hl : words g ≤ Z.of_nat (length l)) (Hw : fb_width g ≤ 2 ^ 31)
    (Hx : 0 ≤ x < 2 ^ 32 - 8) :
  ∃ l', gui_draw_text_line_fast s x y color (set_active l g) = Done tt (set_active l' g) ∧ marks color l l'.
Proof.
  assert (∃ P, paints g (gui_draw_text_line_fast s x y color) P color) as [P HP].
  { destruct s as [s|]; cbn [gui_draw_text_line_fast]; [|eexists; apply paints_ret].
    destruct (paints_text_line g Hg s x y color Hw Hx) as [P HP].
    exists (λ j, negb (fb_height g <=? y) && P j). apply paints_get.
    - destruct (fb_height g <=? y); cbn [negb andb]; [apply paints_ret|done].
    - intros l'. by destruct (set_active_geometry l' g) as (_ & -> & _). }
  destruct (paints_marks g _ P color HP l Hl) as (l' & E & Hm & _). eauto.
Qed.

(** ** Scrolling *)

Lemma buf_read_run g l i : is_Some (active g) → 0 ≤ i < Z.of_nat (length l) →
  buf_read i (set_active l g) = Done (nth (Z.to_nat i) l 0) (set_active l g).
Proof.
  intros Ha Hi. unfold buf_read. rewrite active_set by done.
  by rewrite (proj2 (Z.leb_le 0 i)), (proj2 (Z.ltb_lt i _)) by lia.
Qed.

(** The buffer [l] was turned into the one [f] describes, word by word. *)
Definition turned (g : S) (l : list Z) (f : Z → option Z) (d : S) : Prop :=
  ∃ l', d = set_active l' g ∧ length l' = length l ∧ ∀ j, 0 ≤ j < Z.of_nat (length l) → l' !! Z.to_nat j = f j.

Lemma turned_ext g l f1 f2 d : (∀ j, 0 ≤ j < Z.of_nat (length l) → f1 j = f2 j) → turned g l f1 d → turned g l f2 d.
Proof. intros H (l' & -> & Hl & Hf). exists l'. split_and!; [done..|]. intros j Hj. by rewrite <-H, Hf. Qed.

(** A row that is copied to a place before it. *)
Lemma move_row_run g l f d dst src n : screen_ok g → turned g l f d →
  0 ≤ dst → 0 ≤ n → dst + n ≤ src → src + n ≤ Z.of_nat (length l) →
  wp (buf_copy_row dst src n)
    (λ _, turned g l (λ j, if (dst <=? j) && (j <? dst + n) then f (src + (j - dst)) else f j)) d.
Proof.
  intros Hg Hd Hdst Hn Hds Hs. unfold buf_copy_row.
  eapply wp_mono; [apply (wp_for_range (λ k, turned g l (λ j, if (dst <=? j) && (j <? dst + k) then f (src + (j - dst)) else f j)))|].
  - eapply turned_ext, Hd. intros j Hj. cbn beta.
    destruct (Z.leb_spec dst j), (Z.ltb_spec j (dst + 0)); cbn; done || lia.
  - intros k d' Hk (l1 & -> & Hl1 & Hf1). apply wp_bind.
    unfold wp at 1. rewrite buf_read_run by (apply Hg || lia).
    unfold wp. rewrite buf_write_run by (apply Hg || lia). eexists. split; [done|].
    split; [by rewrite length_insert|]. intros j Hj.
    assert (Hv : f (src + k) = Some (nth (Z.to_nat (src + k)) l1 0)).
    { specialize (Hf1 (src + k) ltac:(lia)). cbn beta in Hf1.
      rewrite (proj2 (Z.ltb_ge (src + k) (dst + k))), andb_false_r in Hf1 by lia. rewrite <-Hf1.
      destruct (lookup_lt_is_Some_2 l1 (Z.to_nat (src + k))) as [v Hv]; [lia|].
      by rewrite Hv, (nth_lookup_Some _ _ _ _ Hv). }
    destruct (Z.eq_dec j (dst + k)) as [->|Hne].
    + rewrite list_lookup_insert_eq by lia.
      rewrite (proj2 (Z.leb_le dst (dst + k))), (proj2 (Z.ltb_lt (dst + k) _)) by lia. cbn [andb].
      by replace (src + (dst + k - dst)) with (src + k) by lia.
    + rewrite list_lookup_insert_ne by lia. rewrite Hf1 by done. cbn beta.
      destruct (Z.leb_spec dst j), (Z.ltb_spec j (dst + k)), (Z.ltb_spec j (dst + (k + 1))); cbn; done || lia.
  - intros [] d' H. by rewrite Z.add_0_l, Z2Nat.id in H.
Qed.

Lemma fill_run g l f d i n c : screen_ok g → words g ≤ Z.of_nat (length l) → turned g l f d →
  0 ≤ i → 0 ≤ n → i + n ≤ words g →
  wp (buf_fill n i c) (λ _, turned g l (λ j, if (i <=? j) && (j <? i + n) then Some c else f j)) d.
Proof.
  intros Hg Hl (l1 & -> & Hl1 & Hf1) Hi Hn Hw.
  destruct (paints_fill g Hg n i c Hi Hn Hw l1) as (l2 & E & Hl2 & Hf2); [lia|].
  unfold wp. rewrite E. exists l2. split_and!; [done|lia|]. intros j Hj. rewrite Hf2 by lia. by rewrite Hf1.
Qed.

(** The two loops of [scroll_up]. *)
Lemma scroll_rows_run g l pixels : screen_ok g → words g ≤ Z.of_nat (length l) → 0 < pixels < fb_height g →
  wp (for_to 0 (fb_height g - pixels) (λ y,
        buf_copy_row (u32 (y * get_stride g)) (u32 (u32 (y + pixels) * get_stride g)) (get_stride g)))
    (λ _, turned g l (λ j, if j <? (fb_height g - pixels) * get_stride g
       then l !! Z.to_nat (j + pixels * get_stride g) else l !! Z.to_nat j)) (set_active l g).
Proof.
  intros Hg Hl Hp. pose proof (stride_pos g Hg) as Hst. pose proof (ok_size g Hg) as Hsz.
  unfold words in *. set (st := get_stride g) in *.
  apply (wp_for_to (λ y, turned g l (λ j, if j <? y * st then l !! Z.to_nat (j + pixels * st) else l !! Z.to_nat j))).
  - lia.
  - exists l. split_and!; [done..|]. intros j Hj. by rewrite (proj2 (Z.ltb_ge j _)) by lia.
  - intros y d Hy Hd. unfold u32. rewrite (Z.mod_small (y + pixels)) by nia. rewrite !(Z.mod_small (_ * st)) by nia.
    eapply wp_mono; [apply (move_row_run g l _ d _ _ st Hg Hd); nia|]. intros [] d'. apply turned_ext.
    intros j Hj. cbn beta. destruct (Z.leb_spec (y * st) j), (Z.ltb_spec j (y * st + st)); cbn [andb].
    + rewrite (proj2 (Z.ltb_ge _ _)), (proj2 (Z.ltb_lt _ _)) by nia. do 2 f_equal. lia.
    + by rewrite !(proj2 (Z.ltb_ge _ _)) by nia.
    + by rewrite !(proj2 (Z.ltb_lt _ _)) by nia.
    + nia.
Qed.

Lemma blank_rows_run g l f d pixels : screen_ok g → words g ≤ Z.of_nat (length l) → 0 < pixels < fb_height g →
  turned g l f d →
  wp (for_to (fb_height g - pixels) (fb_height g) (λ y, buf_fill (get_stride g) (u32 (y * get_stride g)) 0))
    (λ _, turned g l (λ j, if j <? (fb_height g - pixels) * get_stride g then f j
       else if j <? words g then Some 0 else f j)) d.
Proof.
  intros Hg Hl Hp Hd. pose proof (stride_pos g Hg) as Hst. pose proof (ok_size g Hg) as Hsz.
  unfold words in *. set (st := get_stride g) in *. set (lo := (fb_height g - pixels) * st).
  apply (wp_for_to (λ y, turned g l (λ j, if j <? lo then f j else if j <? y * st then Some 0 else f j))).
  - lia.
  - eapply turned_ext, Hd. intros j Hj. cbn beta. fold lo. by destruct (j <? lo).
  - intros y d' Hy Hd'. unfold u32. rewrite (Z.mod_small (y * st)) by nia.
    eapply wp_mono; [apply (fill_run g l _ d' (y * st) st 0 Hg Hl Hd'); unfold words; fold st; nia|]. intros [] d''. apply turned_ext.
    intros j Hj. cbn beta. destruct (Z.leb_spec (y * st) j), (Z.ltb_spec j (y * st + st)); cbn [andb].
    + by rewrite (proj2 (Z.ltb_ge j lo)), (proj2 (Z.ltb_lt _ _)) by (unfold lo; nia).
    + by rewrite !(proj2 (Z.ltb_ge _ _)) by (unfold lo; nia).
    + destruct (j <? lo); [done|]. by rewrite !(proj2 (Z.ltb_lt _ _)) by nia.
    + nia.
Qed.

Lemma scroll_up_wp (g : S) (lines : Z) (l : list Z) :
  screen_ok g → words g ≤ Z.of_nat (length l) → double_buffering_enabled g = 0 →
  0 < lines * (CHAR_HEIGHT * font_scale g) < fb_height g → 0 < lines → fb_height g < 2 ^ 32 →
  let rows := fb_height g - lines * (CHAR_HEIGHT * font_scale g) in
  wp (scroll_up lines) (λ _, turned g l (λ j,
    if j <? rows * get_stride g then l !! Z.to_nat (j + (fb_height g - rows) * get_stride g)
    else if j <? words g then Some 0 else l !! Z.to_nat j)) (set_active l g).
Proof.
  intros Hg Hl Hsingle Hpix Hlines Hh rows. pose proof (ok_size g Hg) as Hsz. fold (words g) in Hsz.
  set (pixels := lines * (CHAR_HEIGHT * font_scale g)) in *.
  replace (fb_height g - rows) with pixels by lia.
  unfold scroll_up. rewrite (proj2 (Z.eqb_neq lines 0)) by lia.
  destruct (set_active_geometry l g) as (_ & Eh & Ep & Es & _ & _ & Ed).
  apply wp_bind, wp_get. rewrite Eh, Es, Ep.
  assert (CHAR_HEIGHT * font_scale g < 2 ^ 32 ∧ 0 ≤ CHAR_HEIGHT * font_scale g) as Hch by nia.
  assert (u32 (lines * u32 (CHAR_HEIGHT * font_scale g)) = pixels) as Hu
    by (unfold u32; rewrite (Z.mod_small (CHAR_HEIGHT * _)), Z.mod_small by lia; done).
  rewrite Hu, (proj2 (Z.leb_gt (fb_height g) pixels)) by lia.
  rewrite active_set by apply Hg. unfold get_stride at 1 2 3 4 5. rewrite Ep. fold (get_stride g).
  rewrite (ok_pitch g Hg). apply wp_bind, wp_ret, wp_bind.
  eapply wp_mono; [apply (scroll_rows_run g l pixels); try done; lia|]. intros [] d Hd. apply wp_bind.
  eapply wp_mono; [eapply (blank_rows_run g l _ d pixels Hg Hl); [lia|exact Hd]|]. intros [] d' (l' & -> & Hl' & Hf).
  apply wp_bind, wp_get. destruct (set_active_geometry l' g) as (_ & _ & _ & _ & _ & _ & ->). rewrite Hsingle.
  apply wp_ret. exists l'. split_and!; [done..|]. intros j Hj. rewrite Hf by done.
  change (fb_height g - pixels) with rows. by destruct (j <? _).
Qed.

(** Scrolling.  With a single buffer [scroll_up] by fewer pixels than the screen is high
    moves every row up by that many pixels and blanks the rows that come in at the bottom;
    it keeps to the buffer. *)
Theorem scroll_up_correct (g : S) (lines : Z) (l : list Z)
    (Hg : screen_ok g) (Hl : words g ≤ Z.of_nat (length l)) (Hsingle : double_buffering_enabled g = 0)
    (Hpix : 0 < lines * (CHAR_HEIGHT * font_scale g) < fb_height g) (Hlines : 0 < lines) (Hh : fb_height g < 2 ^ 32) :
  let pixels := lines * (CHAR_HEIGHT * font_scale g) in
  ∃ l', scroll_up lines (set_active l g) = Done tt (set_active l' g) ∧ length l' = length l ∧
    ∀ px py, 0 ≤ px < get_stride g → 0 ≤ py < fb_height g →
      l' !! Z.to_nat (py * get_stride g + px) =
        if py + pixels <? fb_height g then l !! Z.to_nat ((py + pixels) * get_stride g + px) else Some 0.
Proof.
  intros pixels. pose proof (scroll_up_wp g lines l Hg Hl Hsingle Hpix Hlines Hh) as H. cbv zeta in H.
  apply wp_run in H as ([] & d & E & l' & -> & Hl' & Hf). fold pixels in Hf.
  exists l'. split_and!; [done..|]. intros px py Hpx Hpy. unfold words in *. set (st := get_stride g) in *.
  rewrite Hf by nia. destruct (Z.ltb_spec (py + pixels) (fb_height g)).
  - rewrite (proj2 (Z.ltb_lt _ _)) by nia. do 2 f_equal. lia.
  - rewrite (proj2 (Z.ltb_ge _ _)), (proj2 (Z.ltb_lt _ _)) by nia. done.
Qed.

(** ** Pixels *)

(** What is put is read back.  On the screen, [getpixel] returns the colour [putpixel] has
    set and leaves every other pixel as it was; off the screen the one changes nothing and
    the other returns zero. *)
Theorem putpixel_getpixel (g : S) (x y x' y' color : Z) (l : list Z)
    (Hg : screen_ok g) (Hl : words g ≤ Z.of_nat (length l))
    (Hx : 0 ≤ x) (Hy : 0 ≤ y) (Hx' : 0 ≤ x') (Hy' : 0 ≤ y') :
  ∃ l', putpixel x y color (set_active l g) = Done tt (set_active l' g) ∧ length l' = length l ∧
    getpixel x' y' (set_active l' g) =
      if bool_decide (x = x' ∧ y = y' ∧ x < fb_width g ∧ y < fb_height g) then Done color (set_active l' g)
      else match getpixel x' y' (set_active l g) with
           | Done v _ => Done v (set_active l' g)
           | Stuck w => Stuck w
           end.
Proof.
  destruct (paints_putpixel g Hg x y color Hx Hy l Hl) as (l' & E & Hl' & HP). exists l'. split_and!; [done..|].
  unfold getpixel, get. mred.
  destruct (set_active_geometry l g) as (Ew & Eh & Ep & _). destruct (set_active_geometry l' g) as (Ew' & Eh' & Ep' & _).
  unfold get_stride. rewrite Ew, Eh, Ep, Ew', Eh', Ep'. fold (get_stride g).
  destruct (Z.leb_spec (fb_width g) x'); cbn [orb]; [by rewrite bool_decide_eq_false_2 by lia|].
  destruct (Z.leb_spec (fb_height g) y'); [by rewrite bool_decide_eq_false_2 by lia|].
  destruct (word_inside g Hg x' y') as [Hin ->]; [pose proof (ok_width g Hg); lia|lia|].
  rewrite !buf_read_run by (apply Hg || lia).
  specialize (HP (y' * get_stride g + x') ltac:(lia)). pose proof (ok_width g Hg).
  destruct (lookup_lt_is_Some_2 l (Z.to_nat (y' * get_stride g + x'))) as [v Hv]; [lia|].
  rewrite (nth_lookup_Some _ _ _ _ Hv). rewrite Hv in HP.
  case_bool_decide as Hd.
  - destruct Hd as (-> & -> & ? & ?). rewrite (proj2 (Z.ltb_lt x' _)), (proj2 (Z.ltb_lt y' _)), Z.eqb_refl in HP by done.
    by rewrite (nth_lookup_Some _ _ _ _ HP).
  - replace ((x <? fb_width g) && (y <? fb_height g) && (y' * get_stride g + x' =? y * get_stride g + x)) with false in HP.
    { by rewrite (nth_lookup_Some _ _ _ _ HP). }
    symmetry. apply not_true_is_false. rewrite !andb_true_iff, !Z.ltb_lt, Z.eqb_eq. intros ((? & ?) & ?).
    apply Hd. assert (y' = y) by nia. split_and!; nia.
Qed.
End display.

(** ** A small screen *)

Definition demo_display (w h : Z) : display unit :=
  mk_display (replicate (Z.to_nat (w * h)) 7) None 0 0 w h (4 * w) 0 0 1 tt.

Lemma demo_display_ok w h : 0 < w < 2 ^ 10 → 0 < h < 2 ^ 10 → screen_ok (demo_display w h).
Proof.
  intros Hw Hh. assert (get_stride (demo_display w h) = w) as Es.
  { unfold get_stride. cbn [demo_display fb_pitch]. by rewrite Z.mul_comm, Z.div_mul. }
  split; cbn [fb_pitch fb_width fb_height demo_display]; rewrite ?Es; try lia.
  - by rewrite Z.mul_comm, Z.mod_mul.
  - nia.
  - by eexists.
Qed.

#[local] Instance no_alloc : AllocOps unit := {|
  al_create := λ _ _ a, Done NULL a;
  al_alloc := λ _ _ _ a, Done NULL a;
  al_free := λ _ _ a, Done tt a;
  al_ram := λ _, ∅;
  al_set_ram := λ _ a, a;
|}.

Lemma demo_active w h l : set_active l (demo_display w h) = set_buffers l None (demo_display w h).
Proof. done. Qed.

Lemma draw_rect_correct_witness :
  ∃ l', draw_rect 2 1 9 2 5 (demo_display 4 4) = Done tt (set_active l' (demo_display 4 4)) ∧
    l' !! 6%nat = Some 5 ∧ l' !! 5%nat = Some 7 ∧ l' !! 12%nat = Some 7.
Proof.
  destruct (draw_rect_correct (demo_display 4 4) 2 1 9 2 5 (replicate 16 7)) as (l' & E & Hl & H);
    [by apply demo_display_ok|by vm_compute|lia..|].
  exists l'. split; [exact E|]. change (get_stride (demo_display 4 4)) with 4 in H.
  split_and!; [apply (H 2 1)|apply (H 1 1)|apply (H 0 3)]; cbn; lia.
Defined.

Lemma draw_circle_correct_witness :
  ∃ l', draw_circle 0 2 1 5 (demo_display 3 3) = Done tt (set_active l' (demo_display 3 3)) ∧
    l' !! 3%nat = Some 5 ∧ l' !! 7%nat = Some 5 ∧ l' !! 4%nat = Some 7.
Proof.
  destruct (draw_circle_correct (demo_display 3 3) 0 2 1 5 (replicate 9 7)) as (l' & E & Hl & H);
    [by apply demo_display_ok|by vm_compute|cbn; lia..|].
  exists l'. split; [exact E|]. change (get_stride (demo_display 3 3)) with 3 in H.
  split_and!; [apply (H 0 1)|apply (H 1 2)|apply (H 1 1)]; cbn; lia.
Defined.

Lemma draw_line_terminates_witness :
  ∃ l', draw_line 4 3 1 0 0 5 (demo_display 4 4) = Done tt (set_active l' (demo_display 4 4)) ∧
    l' !! 7%nat = Some 5 ∧ l' !! 0%nat = Some 5.
Proof.
  destruct (draw_line_terminates (demo_display 4 4) 3 1 0 0 5 (replicate 16 7) 4) as (l' & E & _ & H1 & H2);
    [by apply demo_display_ok|by vm_compute|lia..|].
  exists l'. split; [exact E|]. split; [apply H1|apply H2]; unfold on_screen; cbn; lia.
Defined.

Lemma draw_text_stays_inside_witness :
  ∃ l', gui_draw_text_line_fast (Some (chars "Hi")) 2 3 5 (demo_display 16 16) = Done tt (set_active l' (demo_display 16 16)) ∧
    marks 5 (replicate 256 7) l'.
Proof.
  apply (draw_text_stays_inside (demo_display 16 16) (Some (chars "Hi")) 2 3 5 (replicate 256 7));
    [by apply demo_display_ok|by vm_compute|cbn; lia..].
Defined.

Lemma scroll_up_correct_witness :
  ∃ l', scroll_up 1 (set_active (seqZ 0 34) (demo_display 2 17)) = Done tt (set_active l' (demo_display 2 17)) ∧
    l' !! 1%nat = Some 33 ∧ l' !! 2%nat = Some 0.
Proof.
  destruct (scroll_up_correct (demo_display 2 17) 1 (seqZ 0 34)) as (l' & E & Hl & H);
    [by apply demo_display_ok|by vm_compute|done|unfold CHAR_HEIGHT; cbn; lia..|].
  exists l'. split; [exact E|]. change (get_stride (demo_display 2 17)) with 2 in H.
  split; [apply (H 1 0)|apply (H 0 1)]; cbn; lia.
Defined.

Lemma putpixel_getpixel_witness :
  ∃ l', putpixel 1 2 5 (demo_display 4 4) = Done tt (set_active l' (demo_display 4 4)) ∧
    getpixel 1 2 (set_active l' (demo_display 4 4)) = Done 5 (set_active l' (demo_display 4 4)).
Proof.
  destruct (putpixel_getpixel (demo_display 4 4) 1 2 1 2 5 (replicate 16 7)) as (l' & E & Hl & H);
    [by apply demo_display_ok|by vm_compute|lia..|].
  exists l'. split; [exact E|exact H].
Defined.

(** Text that starts four pixels to the left of the screen: the sum of the coordinate and the
    width of a character wraps, the test lets it pass, and a glyph with a pixel in its first
    row is written before the buffer. *)
Example text_left_of_screen :
  gui_draw_text_line_fast (Some (chars "$")) (2 ^ 32 - 4) 0 5 (demo_display 16 16) = Stuck Fault.
Proof. by vm_compute. Qed.
