(* ===== verification/Console.v ===== *)
(** * Console output, [common/outputs/print.c] and [print_b.c]

    Characters are drawn at the cursor of [Display.v]; while the desktop runs ([gui_mode])
    text is collected and handed to its terminal, whose state [X] and [terminal_print] are a
    parameter.  [console_window_get_start_y] is zero ([shell/commands/commands.c]). *)

From Stdlib Require Import ZArith Lia String.
From stdpp Require Import base list numbers.
From S2P Require Import Prelude Alloc CString Buffer Font Display.
Open Scope Z_scope.
Set Default Goal Selector "!".

Definition banner_get_height : Z := 0.
Definition console_window_get_start_y : Z := banner_get_height.
Definition console_window_get_max_y {A} (d : display A) : Z := fb_height d.

Section drawing.
  Context {A : Type} `{!AllocOps A}.
  Abbreviation S := (display A).

(** A row of a glyph at scale one. *)
Fixpoint fast_rows (n : nat) (glyph_y : Z) (glyph : list Z) (x y color : Z) : M S unit :=
  match n with
  | O => mret tt
  | Datatypes.S n' =>
      row ← of_option (glyph !! Z.to_nat glyph_y);
      d ← get;
      (if row =? 0 then mret tt else glyph_row row (u32 (u32 (y + glyph_y) * get_stride d + x)) color);;
      fast_rows n' (glyph_y + 1) glyph x y color
  end.

(** A row of a glyph, magnified: [scale] rows of the screen, up to its lower edge. *)
Fixpoint scaled_row (n : nat) (scale_y row glyph_y x y color : Z) : M S unit :=
  match n with
  | O => mret tt
  | Datatypes.S n' =>
      d ← get;
      let screen_y := u32 (y + glyph_y * font_scale d + scale_y) in
      if fb_height d <=? screen_y then mret tt else
      let dest := u32 (screen_y * get_stride d + x) in
      for_range 8 0 (λ glyph_x,
        if Z.testbit row (7 - glyph_x) then
          for_range (Z.to_nat (font_scale d)) 0 (λ scale_x,
            let pixel_x := glyph_x * font_scale d + scale_x in
            if u32 (x + pixel_x) <? fb_width d then buf_write (dest + pixel_x) color else mret tt)
        else mret tt);;
      scaled_row n' (scale_y + 1) row glyph_y x y color
  end.

Fixpoint scaled_rows (n : nat) (glyph_y : Z) (glyph : list Z) (x y color : Z) : M S unit :=
  match n with
  | O => mret tt
  | Datatypes.S n' =>
      row ← of_option (glyph !! Z.to_nat glyph_y);
      d ← get;
      (if row =? 0 then mret tt else scaled_row (Z.to_nat (font_scale d)) 0 row glyph_y x y color);;
      scaled_rows n' (glyph_y + 1) glyph x y color
  end.

Definition putchar_fast (c x y color : Z) : M S unit :=
  if (i8 c <? 32) || (126 <? i8 c) then mret tt else
  glyph ← of_option (fm_get_glyph (u8 c));
  d ← get;
  match active d with
  | None => mret tt
  | Some _ =>
      if font_scale d =? 1 then fast_rows 16 0 glyph x y color else scaled_rows 16 0 glyph x y color
  end.

(** The end of a line: the cursor goes down, and the screen scrolls when it would leave it. *)
Definition new_line : M S unit :=
  d ← get;
  let char_height := u32 (fm_get_char_height * font_scale d) in
  let cy := u32 (cursor_y d + char_height) in
  modify (put_cursor 0 cy);;
  if fb_height d <? u32 (cy + char_height) then
    scroll_up 1;;
    modify (λ d, put_cursor (cursor_x d) (u32 (cursor_y d - char_height)) d);;
    modify (λ d, put_cursor (cursor_x d)
      (if cursor_y d <? console_window_get_start_y then console_window_get_start_y else cursor_y d) d)
  else mret tt.

Definition putchar (c color : Z) : M S unit :=
  d ← get;
  let char_width := u32 (fm_get_char_width * font_scale d) in
  let char_height := u32 (fm_get_char_height * font_scale d) in
  if c =? 10 then new_line else
  if c =? 13 then modify (λ d, put_cursor 0 (cursor_y d) d) else
  if c =? 9 then
    for_range 4 0 (λ _,
      d ← get;
      (if fb_width d <=? u32 (cursor_x d + char_width) then new_line else mret tt);;
      modify (λ d, put_cursor (u32 (cursor_x d + char_width)) (cursor_y d) d))
  else
  if c =? 8 then
    if char_width <=? cursor_x d then
      modify (λ d, put_cursor (cursor_x d - char_width) (cursor_y d) d);;
      d ← get;
      draw_rect (cursor_x d) (cursor_y d) char_width char_height 0
    else mret tt
  else
    (if fb_width d <? u32 (cursor_x d + char_width) then new_line else mret tt);;
    (if (32 <=? i8 c) && (i8 c <=? 126) then d ← get; putchar_fast c (cursor_x d) (cursor_y d) color else mret tt);;
    modify (λ d, put_cursor (u32 (cursor_x d + char_width)) (cursor_y d) d).

Fixpoint putchars (s : str) (color : Z) : M S unit :=
  match s with [] => mret tt | c :: s' => putchar c color;; putchars s' color end.

(** ** Printing stays on the screen *)

(** A character fits on the screen, the cursor is at a row where one can be drawn, at or beyond
    the right edge perhaps; a single buffer. *)
Record console_ok (d : S) : Prop := {
  co_screen : screen_ok d;
  co_single : double_buffering_enabled d = 0;
  co_words : words d ≤ Z.of_nat (length (framebuffer d));
  co_scale : 1 ≤ font_scale d ≤ 4;
  co_width : 8 * font_scale d ≤ fb_width d < 2 ^ 31;
  co_height : 16 * font_scale d < fb_height d < 2 ^ 31;
  co_x : 0 ≤ cursor_x d < 2 ^ 31;
  co_y : 0 ≤ cursor_y d ∧ cursor_y d + 16 * font_scale d ≤ fb_height d;
}.

(** The screen is the same but for its pixels and the cursor. *)
Definition same_screen (d d' : S) : Prop :=
  fb_width d' = fb_width d ∧ fb_height d' = fb_height d ∧ fb_pitch d' = fb_pitch d ∧ font_scale d' = font_scale d ∧
  double_buffering_enabled d' = double_buffering_enabled d ∧ length (framebuffer d') = length (framebuffer d).

Lemma same_screen_trans d1 d2 d3 : same_screen d1 d2 → same_screen d2 d3 → same_screen d1 d3.
Proof. unfold same_screen. intuition congruence. Qed.

(** Moving the cursor of a screen that is in order. *)
Lemma console_ok_move d d' x y : console_ok d → same_screen d d' → cursor_x d' = x → cursor_y d' = y →
  0 ≤ x < 2 ^ 31 → 0 ≤ y → y + 16 * font_scale d ≤ fb_height d → console_ok d'.
Proof.
  intros [Hs Hd Hw Hsc Hwd Hh _ _] (E1 & E2 & E3 & E4 & E5 & E6) <- <- Hx Hy Hyh.
  destruct Hs as [Sp Sw Sh Ss _].
  split; unfold words, get_stride in *; rewrite ?E1, ?E2, ?E3, ?E4, ?E5, ?E6 in *; try done; try lia.
  split; unfold get_stride; rewrite ?E1, ?E2, ?E3; try done.
  unfold active. rewrite E5, Hd. by eexists.
Qed.

Lemma console_ok_put x y d : console_ok d → 0 ≤ x < 2 ^ 31 → 0 ≤ y → y + 16 * font_scale d ≤ fb_height d →
  console_ok (put_cursor x y d).
Proof. intros Hok Hx Hy Hh. by apply (console_ok_move d _ x y). Qed.

(** An operation that only sets pixels. *)
Lemma paints_same (m : M S unit) P c d : console_ok d → paints d m P c →
  wp m (λ _ d', same_screen d d' ∧ cursor_x d' = cursor_x d ∧ cursor_y d' = cursor_y d) d.
Proof.
  intros Hok Hp. destruct (Hp (framebuffer d) (co_words d Hok)) as (l' & E & Hl' & _).
  assert (Ha : active d = Some (framebuffer d)) by (unfold active; by rewrite (co_single d Hok)).
  rewrite (set_active_id _ _ Ha) in E. unfold wp. rewrite E.
  destruct (set_active_geometry l' d) as (E1 & E2 & E3 & E4 & E5 & E6 & E7).
  unfold same_screen. split_and!; try done. unfold set_active. by rewrite (co_single d Hok).
Qed.

Section glyphs.
  Context (g : S) (Hg : screen_ok g).

Lemma paints_fast_rows n gy glyph x y c : length glyph = 16%nat → 0 ≤ gy → gy + Z.of_nat n ≤ 16 →
  0 ≤ x → x + 8 ≤ fb_width g → 0 ≤ y → y + 16 ≤ fb_height g → fb_height g < 2 ^ 32 →
  ∃ P, paints g (fast_rows n gy glyph x y c) P c.
Proof.
  intros Hlen Hgy Hn Hx Hxw Hy Hyh Hh. revert gy Hgy Hn. induction n as [|n IH]; intros gy Hgy Hn; cbn [fast_rows].
  { eexists. apply paints_ret. }
  destruct (lookup_lt_is_Some_2 glyph (Z.to_nat gy)) as [row Hrow]; [lia|].
  destruct (IH (gy + 1)) as [P2 H2]; [lia..|].
  assert (u32 (y + gy) = y + gy) as Hu by (unfold u32; rewrite Z.mod_small; lia).
  pose proof (ok_width g Hg). destruct (word_inside g Hg x (y + gy)) as [Hin Hi]; [lia|lia|].
  destruct (paints_glyph_row g Hg row ((y + gy) * get_stride g + x) c) as [P1 H1]; [lia|unfold words in *; nia|].
  exists (λ j, negb (row =? 0) && P1 j || P2 j). eapply paints_option; [done|]. apply paints_get.
  - rewrite Hu, Hi. apply paints_bind; [|done]. destruct (row =? 0); [apply paints_ret|done].
  - intros l. destruct (set_active_geometry l g) as (_ & _ & Ep & _). unfold get_stride. by rewrite Ep.
Qed.

Lemma paints_scaled_row n sy row gy x y c : 0 ≤ x → fb_width g < 2 ^ 31 → 1 ≤ font_scale g ≤ 4 → x ≤ fb_width g →
  ∃ P, paints g (scaled_row n sy row gy x y c) P c.
Proof.
  intros Hx Hw Hs Hxw. revert sy. induction n as [|n IH]; intros sy; cbn [scaled_row].
  { eexists. apply paints_ret. }
  destruct (IH (sy + 1)) as [P2 H2].
  set (py := u32 (y + gy * font_scale g + sy)). assert (0 ≤ py) by apply u32_range.
  pose proof (ok_width g Hg) as Hok.
  destruct (Z.leb_spec (fb_height g) py) as [Hh|Hh].
  - eexists. apply paints_get.
    + fold py. rewrite (proj2 (Z.leb_le _ _)) by done. apply paints_ret.
    + intros l. by destruct (set_active_geometry l g) as (-> & -> & Ep & -> & _); unfold get_stride; rewrite Ep.
  - eexists. apply paints_get.
    + fold py. rewrite (proj2 (Z.leb_gt (fb_height g) py)) by lia. apply paints_bind; [|exact H2].
      apply (paints_for g 8 0 _ (λ gx j, Z.testbit row (7 - gx) &&
        existsb (λ k, (u32 (x + (gx * font_scale g + (0 + Z.of_nat k))) <? fb_width g) &&
          (j =? u32 (py * get_stride g + x) + (gx * font_scale g + (0 + Z.of_nat k)))) (seq 0 (Z.to_nat (font_scale g))))).
      intros gx Hgx. apply paints_when. intros _.
      apply (paints_for g _ 0 _ (λ sx j, (u32 (x + (gx * font_scale g + sx)) <? fb_width g) &&
        (j =? u32 (py * get_stride g + x) + (gx * font_scale g + sx)))).
      intros sx Hsx. apply (paints_when g _ _ (λ j, j =? u32 (py * get_stride g + x) + (gx * font_scale g + sx))).
      intros Hlt%Z.ltb_lt. unfold u32 in Hlt. rewrite Z.mod_small in Hlt by nia.
      destruct (word_inside g Hg x py) as [_ ->]; [lia|lia|].
      destruct (word_inside g Hg (x + (gx * font_scale g + sx)) py) as [Hin _]; [nia|lia|].
      apply paints_write; [done|lia].
    + intros l. by destruct (set_active_geometry l g) as (-> & -> & Ep & -> & _); unfold get_stride; rewrite Ep.
Qed.

Lemma paints_scaled_rows n gy glyph x y c : length glyph = 16%nat → 0 ≤ gy → gy + Z.of_nat n ≤ 16 →
  0 ≤ x → fb_width g < 2 ^ 31 → 1 ≤ font_scale g ≤ 4 → x ≤ fb_width g →
  ∃ P, paints g (scaled_rows n gy glyph x y c) P c.
Proof.
  intros Hlen Hgy Hn Hx Hw Hs Hxw. revert gy Hgy Hn. induction n as [|n IH]; intros gy Hgy Hn; cbn [scaled_rows].
  { eexists. apply paints_ret. }
  destruct (lookup_lt_is_Some_2 glyph (Z.to_nat gy)) as [row Hrow]; [lia|].
  destruct (IH (gy + 1)) as [P2 H2]; [lia..|].
  destruct (paints_scaled_row (Z.to_nat (font_scale g)) 0 row gy x y c Hx Hw Hs Hxw) as [P1 H1].
  exists (λ j, negb (row =? 0) && P1 j || P2 j). eapply paints_option; [done|]. apply paints_get.
  - apply paints_bind; [|done]. destruct (row =? 0); [apply paints_ret|done].
  - intros l. by destruct (set_active_geometry l g) as (_ & _ & _ & -> & _).
Qed.

Lemma paints_putchar_fast ch x y c : 0 ≤ x → x + 8 * font_scale g ≤ fb_width g < 2 ^ 31 → 1 ≤ font_scale g ≤ 4 →
  0 ≤ y → y + 16 * font_scale g ≤ fb_height g < 2 ^ 31 → ∃ P, paints g (putchar_fast ch x y c) P c.
Proof.
  intros Hx Hxw Hs Hy Hyh. unfold putchar_fast.
  destruct ((i8 ch <? 32) || (126 <? i8 ch)); [eexists; apply paints_ret|].
  destruct (glyph_lookup ch) as (glyph & Hgl & Hlen & _).
  assert (fm_get_glyph (u8 ch) = Some glyph) as Hfm.
  { unfold fm_get_glyph. rewrite Z.mod_small; [done|apply u8_range]. }
  destruct (font_scale g =? 1) eqn:E1.
  - apply Z.eqb_eq in E1. destruct (paints_fast_rows 16 0 glyph x y c) as [P HP]; [done|lia..|].
    exists P. eapply paints_option; [done|]. apply paints_get.
    + destruct (ok_active g Hg) as [l ->]. by rewrite E1.
    + intros l. rewrite active_set by apply Hg. destruct (ok_active g Hg) as [l0 ->].
      by destruct (set_active_geometry l g) as (_ & _ & _ & -> & _).
  - destruct (paints_scaled_rows 16 0 glyph x y c) as [P HP]; [done|lia..|].
    exists P. eapply paints_option; [done|]. apply paints_get.
    + destruct (ok_active g Hg) as [l ->]. by rewrite E1.
    + intros l. rewrite active_set by apply Hg. destruct (ok_active g Hg) as [l0 ->].
      by destruct (set_active_geometry l g) as (_ & _ & _ & -> & _).
Qed.
End glyphs.

Lemma scroll_same d : screen_ok d → double_buffering_enabled d = 0 →
  words d ≤ Z.of_nat (length (framebuffer d)) → 1 ≤ font_scale d ≤ 4 → 16 * font_scale d < fb_height d < 2 ^ 31 →
  wp (scroll_up 1) (λ _ d', same_screen d d' ∧ cursor_x d' = cursor_x d ∧ cursor_y d' = cursor_y d) d.
Proof.
  intros Hg Hd Hw Hs Hh.
  assert (Ha : active d = Some (framebuffer d)) by (unfold active; by rewrite Hd).
  pose proof (scroll_up_wp d 1 (framebuffer d) Hg Hw Hd) as H. unfold CHAR_HEIGHT in H.
  rewrite (set_active_id _ _ Ha) in H. eapply wp_mono; [apply H; lia|].
  intros [] d' (l' & -> & Hl' & _). destruct (set_active_geometry l' d) as (E1 & E2 & E3 & E4 & E5 & E6 & E7).
  unfold same_screen. split_and!; try done. unfold set_active. by rewrite Hd.
Qed.

Lemma screen_move x y d : same_screen d (put_cursor x y d).
Proof. by unfold same_screen. Qed.

Lemma new_line_run d : console_ok d → wp new_line (λ _ d', console_ok d' ∧ same_screen d d' ∧ cursor_x d' = 0) d.
Proof.
  intros Hok. pose proof Hok as [Hs Hd Hw Hsc Hwd Hh Hx Hy]. unfold new_line, fm_get_char_height, FONT_HEIGHT.
  assert (Hu : ∀ z, 0 ≤ z < 2 ^ 32 → u32 z = z) by (intros; apply Z.mod_small; lia).
  apply wp_bind, wp_get. rewrite (Hu (16 * font_scale d)), (Hu (cursor_y d + _)) by lia.
  apply wp_bind, wp_modify. rewrite (Hu (cursor_y d + _ + _)) by lia.
  set (d1 := put_cursor 0 (cursor_y d + 16 * font_scale d) d).
  destruct (Z.ltb_spec (fb_height d) (cursor_y d + 16 * font_scale d + 16 * font_scale d)).
  - apply wp_bind. eapply wp_mono.
    { apply (scroll_same d1); try done; [|subst d1; cbn; lia..].
      destruct Hs as [Sp Sw Sh Ss Sa]. split; done. }
    intros [] d2 (Hs2 & Hx2 & Hy2). apply wp_bind, wp_modify, wp_modify. cbn [cursor_y put_cursor cursor_x].
    rewrite Hy2, Hx2. subst d1. cbn [cursor_x cursor_y put_cursor].
    replace (cursor_y d + 16 * font_scale d - 16 * font_scale d) with (cursor_y d) by lia. rewrite Hu by lia.
    unfold console_window_get_start_y, banner_get_height. rewrite (proj2 (Z.ltb_ge (cursor_y d) 0)) by lia.
    assert (same_screen d (put_cursor 0 (cursor_y d) d2)) as Hss by (destruct Hs2 as (?&?&?&?&?&?); by unfold same_screen).
    split_and!; [|done..]. eapply (console_ok_move d _ 0 (cursor_y d)); try done; lia.
  - apply wp_ret. split_and!; [|apply screen_move|done].
    eapply (console_ok_move d _ 0 (cursor_y d + 16 * font_scale d)); try done; lia.
Qed.

(** The state of the console after an operation, its screen as before. *)
Definition still_ok (d : S) (_ : unit) (d' : S) : Prop :=
  console_ok d' ∧ same_screen d d' ∧ cursor_x d' ≤ Z.max (fb_width d) (cursor_x d).

(** The cursor goes right by a character, from where one fits. *)
Lemma advance_run d d0 : console_ok d → same_screen d0 d → cursor_x d + 8 * font_scale d ≤ fb_width d →
  wp (modify (λ d, put_cursor (u32 (cursor_x d + 8 * font_scale d0)) (cursor_y d) d)) (still_ok d0) d.
Proof.
  intros Hok Hs Hx. pose proof Hok as [_ _ _ Hsc Hwd _ Hcx Hcy]. apply wp_modify.
  destruct Hs as (E1 & E2 & E3 & E4 & E5 & E6). rewrite <-E4. unfold u32. rewrite Z.mod_small by lia. split_and!.
  - apply console_ok_put; done || lia.
  - by unfold same_screen.
  - cbn. rewrite <-E1. lia.
Qed.

(** An operation that may end the line first, when a character no longer fits. *)
Lemma fit_run (b : bool) d : console_ok d → (b = false → cursor_x d + 8 * font_scale d ≤ fb_width d) →
  wp (if b then new_line else mret tt)
    (λ _ d', console_ok d' ∧ same_screen d d' ∧ cursor_x d' + 8 * font_scale d' ≤ fb_width d') d.
Proof.
  intros Hok Hb. destruct b.
  - eapply wp_mono; [by apply new_line_run|]. intros [] d' (Hok' & Hs & Hx). split_and!; [done..|].
    rewrite Hx. pose proof (co_width d' Hok'). lia.
  - apply wp_ret. split_and!; [done|by unfold same_screen|auto].
Qed.

Lemma putchar_run c color d : console_ok d → wp (putchar c color) (still_ok d) d.
Proof.
  intros Hok. pose proof Hok as [Hs Hd Hw Hsc Hwd Hh Hx Hy]. unfold putchar.
  assert (Hu : ∀ z, 0 ≤ z < 2 ^ 32 → u32 z = z) by (intros; apply Z.mod_small; lia).
  assert (Hr : same_screen d d) by (by unfold same_screen).
  apply wp_bind, wp_get. unfold fm_get_char_width, fm_get_char_height, FONT_WIDTH, FONT_HEIGHT.
  rewrite (Hu (8 * font_scale d)), (Hu (16 * font_scale d)) by lia.
  destruct (c =? 10). { eapply wp_mono; [by apply new_line_run|]. intros [] d' (? & ? & Hx0). split_and!; [done|done|lia]. }
  destruct (c =? 13). { apply wp_modify. split_and!; [|done|cbn; lia]. apply console_ok_put; done || lia. }
  destruct (c =? 9).
  { apply (wp_for_range (λ _, still_ok d tt)); [split_and!; [done..|lia]|]. intros _ d1 _ (Hok1 & Hs1 & _).
    pose proof Hs1 as (E1 & E2 & E3 & E4 & E5 & E6). pose proof Hok1 as [_ _ _ _ Hwd1 _ Hx1 _].
    apply wp_bind, wp_get, wp_bind. rewrite Hu by lia. eapply wp_mono; [apply fit_run; [done|]|].
    { intros Hle%Z.leb_gt. lia. }
    intros [] d2 (Hok2 & Hs2 & Hx2). apply advance_run; [done|by eapply same_screen_trans|done]. }
  destruct (c =? 8).
  { destruct (Z.leb_spec (8 * font_scale d) (cursor_x d)); [|apply wp_ret; split_and!; done || lia].
    apply wp_bind, wp_modify. set (d1 := put_cursor _ _ d).
    assert (console_ok d1) as Hok1 by (apply console_ok_put; done || lia).
    apply wp_bind, wp_get. eapply wp_mono; [eapply (paints_same _ _ 0 d1 Hok1), paints_for|].
    - intros i Hi. apply paints_horizontal; [apply Hok1|subst d1; cbn; lia|apply u32_range|lia|subst d1; cbn; lia].
    - intros [] d2 (Hs2 & Hx2 & Hy2). assert (same_screen d d2) by (eapply same_screen_trans; [apply screen_move|exact Hs2]).
      split_and!; [|done|rewrite Hx2; subst d1; cbn; lia].
      eapply (console_ok_move d1); try done; subst d1; cbn; lia. }
  rewrite Hu by lia. apply wp_bind. eapply wp_mono; [apply fit_run; [done|]|].
  { intros Hle%Z.ltb_ge. lia. }
  intros [] d1 (Hok1 & Hs1 & Hx1). pose proof Hok1 as [Hg1 _ _ Hsc1 Hwd1 Hh1 Hcx1 Hcy1]. apply wp_bind.
  eapply (wp_mono _ (λ _ d2, console_ok d2 ∧ same_screen d d2 ∧ cursor_x d2 + 8 * font_scale d2 ≤ fb_width d2)).
  - destruct ((32 <=? i8 c) && (i8 c <=? 126)); [|by apply wp_ret]. apply wp_bind, wp_get.
    destruct (paints_putchar_fast d1 Hg1 c (cursor_x d1) (cursor_y d1) color) as [P HP]; [lia..|].
    eapply wp_mono; [by apply (paints_same _ P color d1)|]. intros [] d2 (Hs2 & Hx2 & Hy2).
    split_and!; [|by eapply same_screen_trans|].
    + eapply (console_ok_move d1); try done; lia.
    + destruct Hs2 as (-> & _ & _ & -> & _). lia.
  - intros [] d2 (Hok2 & Hs2 & Hx2). by apply advance_run.
Qed.

Lemma still_ok_trans d1 d2 d3 : still_ok d1 tt d2 → still_ok d2 tt d3 → still_ok d1 tt d3.
Proof.
  intros (_ & Hs1 & Hx1) (Hok & Hs2 & Hx2). split_and!; [done|by eapply same_screen_trans|].
  destruct Hs1 as (E & _). lia.
Qed.

Lemma putchars_run s color d : console_ok d → wp (putchars s color) (still_ok d) d.
Proof.
  revert d. induction s as [|c s IH]; intros d Hok; cbn [putchars].
  - apply wp_ret. split_and!; [done|by unfold same_screen|lia].
  - apply wp_bind. eapply wp_mono; [by apply putchar_run|]. intros [] d1 H1.
    eapply wp_mono; [by apply IH, H1|]. intros [] d2 H2. by eapply still_ok_trans.
Qed.

(** C38: Printing.  From a cursor on a screen that is a little larger than a character,
    printing any text, control characters included, at any of the four font scales, never
    accesses memory outside the frame buffer, and leaves the cursor where a character can
    be drawn or at the right edge, if it was not beyond that edge before. *)
Theorem print_stays_inside (s : str) (color : Z) (d : S) (Hok : console_ok d) :
  ∃ d', putchars s color d = Done tt d' ∧ console_ok d' ∧ same_screen d d' ∧
    cursor_x d' ≤ Z.max (fb_width d) (cursor_x d).
Proof. pose proof (putchars_run s color d Hok) as H. apply wp_run in H. destruct H as ([] & d' & E & H). by exists d'. Qed.
End drawing.

(** ** Text, numbers, and the two outputs *)

Definition GUI_BUFFER_SIZE : Z := 1024.

(** [c_outputs] is the state of the desktop's terminal and of the serial line. *)
Record console (A X : Type) := mk_console {
  c_display : display A;
  gui_mode : Z;
  gui_buffer : list Z;
  buffer_pos : Z;
  gui_buffer_color : Z;
  c_outputs : X;
}.
Arguments mk_console {A X}.
Arguments c_display {A X}.
Arguments gui_mode {A X}.
Arguments gui_buffer {A X}.
Arguments buffer_pos {A X}.
Arguments gui_buffer_color {A X}.
Arguments c_outputs {A X}.

(** What commands print with: [terminal_print], which writes to the desktop's terminal or to the
    screen, and [print], [print_int] and [print_hex]. *)
Class Printers (W : Type) := {
  pr_terminal : str → Z → M W unit;
  pr_print : str → Z → M W unit;
  pr_int : Z → Z → M W unit;
  pr_hex : Z → Z → M W unit;
}.

(** Where text goes besides the screen. *)
Class TextOutputs (X : Type) := {
  terminal_print : str → Z → M X unit;
  serial_print : str → M X unit;
}.

(** The string in an array of characters. *)
Fixpoint c_text (a : list Z) : str :=
  match a with [] => [] | c :: a' => if c =? 0 then [] else c :: c_text a' end.

(** [while (value > 0) { temp[n++] = value % 10 + '0'; value /= 10; }] for an array of twelve. *)
Fixpoint int_digits (fuel : nat) (value : Z) (temp : list Z) : option (list Z) :=
  match fuel with
  | O => None
  | S f =>
      if 0 <? value then
        if (length temp <? 12)%nat then int_digits f (value / 10) (temp ++ [value mod 10 + 48]) else None
      else Some temp
  end.

(** The text [IntToString] leaves in the buffer. *)
Definition IntToString (value : Z) : option str :=
  let is_negative := value <? 0 in
  let value := if is_negative then i32 (- value) else value in
  if value =? 0 then Some [48] else
  temp ← int_digits 13 value [];
  Some ((if is_negative then [45] else []) ++ reverse temp).

(** ["0123456789ABCDEF"]. *)
Definition hex_digit (n : Z) : Z := default 0 (chars "0123456789ABCDEF" !! Z.to_nat n).

(** The loop of [print_hex] and [print_hex64], [digits] digits into the array [buffer]. *)
Fixpoint hex_fill (n : nat) (digits digit_index num : Z) (buffer : list Z) : option (list Z) :=
  match n with
  | O => Some buffer
  | S n' =>
      b ← arr_set buffer (2 + digit_index) (hex_digit (Z.land (Z.shiftr num ((digits - 1 - digit_index) * 4)) 0xF));
      hex_fill n' digits (digit_index + 1) num b
  end.

Section console.
  Context {A X : Type} `{!AllocOps A} `{!TextOutputs X}.
  Abbreviation S := (console A X).

Definition on_display {B} (m : M (display A) B) : M S B :=
  zoom c_display (λ d s, mk_console d (gui_mode s) (gui_buffer s) (buffer_pos s) (gui_buffer_color s) (c_outputs s)) m.
Definition on_outputs {B} (m : M X B) : M S B :=
  zoom c_outputs (λ x s, mk_console (c_display s) (gui_mode s) (gui_buffer s) (buffer_pos s) (gui_buffer_color s) x) m.
Definition set_gui_buffer (b : list Z) (pos : Z) (s : S) : S :=
  mk_console (c_display s) (gui_mode s) b pos (gui_buffer_color s) (c_outputs s).
Definition set_gui_color (c : Z) (s : S) : S :=
  mk_console (c_display s) (gui_mode s) (gui_buffer s) (buffer_pos s) c (c_outputs s).
(** [gui_buffer[pos] = c;] *)
Definition put_gui_buffer (pos c : Z) : M S unit :=
  s ← get; b ← of_option (arr_set (gui_buffer s) pos c); modify (set_gui_buffer b (buffer_pos s)).

(** One character of [string] while the desktop runs. *)
Definition gui_char (c color : Z) : M S unit :=
  s ← get;
  if (c =? 10) || (GUI_BUFFER_SIZE - 1 <=? u64 (buffer_pos s)) then
    put_gui_buffer (buffer_pos s) 0;;
    s ← get;
    (if 0 <? buffer_pos s then
       on_outputs (terminal_print (c_text (gui_buffer s)) (gui_buffer_color s));;
       modify (λ s, set_gui_buffer (gui_buffer s) 0 s)
     else mret tt);;
    (if c =? 10 then s ← get; on_outputs (terminal_print [10] (gui_buffer_color s)) else mret tt)
  else
    put_gui_buffer (buffer_pos s) c;;
    modify (λ s, set_gui_buffer (gui_buffer s) (i32 (buffer_pos s + 1)) s);;
    modify (set_gui_color color).

Fixpoint gui_chars (str : str) (color : Z) : M S unit :=
  match str with [] => mret tt | c :: str' => gui_char c color;; gui_chars str' color end.

Definition string (str : str) (color : Z) : M S unit :=
  s ← get;
  if truthy (gui_mode s) then gui_chars str color else
  on_display (putchars str color);;
  d ← gets c_display;
  if truthy (double_buffering_enabled d) then on_display graphics_swap_buffers else mret tt.

Definition print (str : str) (color : Z) : M S unit := string str color.
Definition println (str : Prelude.str) (color : Z) : M S unit :=
  string str color;;
  on_display (putchar 10 color);;
  d ← gets c_display;
  if truthy (double_buffering_enabled d) then on_display graphics_swap_buffers else mret tt.
Definition printf_simple (fmt : Prelude.str) (color : Z) : M S unit := print fmt color.

Definition print_int (value color : Z) : M S unit :=
  t ← of_option (IntToString value); string t color.

Definition print_uint (num color : Z) : M S unit :=
  if num =? 0 then on_display (putchar 48 color) else
  t ← of_option (int_digits 13 num []); on_display (putchars (reverse t) color).

Definition print_hex (num color : Z) : M S unit :=
  b ← of_option (hex_fill 8 8 0 num ([48; 120] ++ replicate 8 0));
  b ← of_option (arr_set b 10 0);
  string (c_text b) color.
Definition print_hex64 (num color : Z) : M S unit :=
  b ← of_option (hex_fill 16 16 0 num ([48; 120] ++ replicate 16 0));
  b ← of_option (arr_set b 18 0);
  string (c_text b) color.

Fixpoint colored_chars (str : str) (fg_color bg_color : Z) : M (display A) unit :=
  match str with
  | [] => mret tt
  | c :: str' =>
      (if c =? 10 then putchar 10 fg_color
       else
         d ← get;
         (if truthy bg_color
          then draw_rect (cursor_x d) (cursor_y d) (u32 (fm_get_char_width * font_scale d))
                 (u32 (fm_get_char_height * font_scale d)) bg_color
          else mret tt);;
         putchar c fg_color);;
      colored_chars str' fg_color bg_color
  end.
Definition print_colored (str : option str) (fg_color bg_color : Z) : M S unit :=
  match str with
  | None => mret tt
  | Some s =>
      on_display (colored_chars s fg_color bg_color);;
      d ← gets c_display;
      if truthy (double_buffering_enabled d) then on_display graphics_swap_buffers else mret tt
  end.

Definition set_cursor (x y : Z) : M S unit := on_display (modify (put_cursor x y)).
Definition get_cursor : M S (Z * Z) := on_display (gets (λ d, (cursor_x d, cursor_y d))).
Definition reset_cursor : M S unit := on_display (modify (put_cursor 0 console_window_get_start_y)).

(** ** [print_b.c]: messages while the system starts *)

Definition putchar_bootstrap_at (c x y color : Z) : M (display A) unit :=
  glyph ← of_option (font_8x16 !! Z.to_nat (u8 c));
  d ← get;
  for_range 8 0 (λ glyph_y,
    row ← of_option (glyph !! Z.to_nat glyph_y);
    for_range 8 0 (λ glyph_x,
      if Z.testbit row (7 - glyph_x) then
        for_range (Z.to_nat (font_scale d)) 0 (λ scale_y,
          for_range (Z.to_nat (font_scale d)) 0 (λ scale_x,
            putpixel (u32 (x + glyph_x * font_scale d + scale_x)) (u32 (y + glyph_y * font_scale d + scale_y)) color))
      else mret tt)).

Definition putchar_bootstrap (c color : Z) : M (display A) unit :=
  d ← get;
  let char_width := u32 (8 * font_scale d) in
  let char_height := u32 (8 * font_scale d) in
  let line_height := u32 (char_height + 2 * font_scale d) in
  if c =? 10 then modify (λ d, put_cursor 0 (u32 (cursor_y d + line_height)) d) else
  (if fb_width d <=? u32 (cursor_x d + char_width)
   then modify (λ d, put_cursor 0 (u32 (cursor_y d + line_height)) d) else mret tt);;
  d ← get;
  putchar_bootstrap_at c (cursor_x d) (cursor_y d) color;;
  modify (λ d, put_cursor (u32 (cursor_x d + char_width)) (cursor_y d) d).

Fixpoint bootstrap_chars (str : str) (color : Z) : M (display A) unit :=
  match str with [] => mret tt | c :: str' => putchar_bootstrap c color;; bootstrap_chars str' color end.

Definition printbs (str : str) (color : Z) : M S unit :=
  on_display (bootstrap_chars str color);;
  on_outputs (serial_print str).

(** ** Numbers *)

Lemma int_digits_run k f v temp : 0 ≤ v < 10 ^ Z.of_nat k → (k < f)%nat → (length temp + k ≤ 12)%nat →
  int_digits f v temp = Some (temp ++ (if v =? 0 then [] else reverse (dec_digits k v))).
Proof.
  revert f v temp. induction k as [|k IH]; intros [|f] v temp Hv Hf Ht; try lia; cbn [int_digits].
  - assert (v = 0) as -> by (cbn in Hv; lia). cbn. by rewrite app_nil_r.
  - rewrite Nat2Z.inj_succ, Z.pow_succ_r in Hv by lia.
    destruct (Z.ltb_spec 0 v); [|replace v with 0 by lia; cbn; by rewrite app_nil_r].
    rewrite (proj2 (Nat.ltb_lt _ _)), (proj2 (Z.eqb_neq v 0)) by lia.
    rewrite IH; [|split; [apply Z.div_pos; lia|apply Z.div_lt_upper_bound; lia]|lia|rewrite length_app; cbn; lia].
    f_equal. rewrite <-app_assoc. f_equal. cbn [dec_digits]. rewrite reverse_app. cbn [reverse rev_append app].
    rewrite (Z.add_comm 48). f_equal.
    destruct (Z.leb_spec 10 v) as [H10|H10].
    + assert (0 < v / 10) by (apply Z.div_str_pos; lia). by rewrite (proj2 (Z.eqb_neq _ 0)) by lia.
    + by rewrite Z.div_small by lia.
Qed.

(** Numbers.  [IntToString] gives every [int] but the least its decimal numeral, the one
    [str_from_int] gives; for the least, whose negation overflows, it gives a lone minus
    sign.  [print_uint] draws the decimal digits of every unsigned number. *)
Theorem IntToString_correct (v : Z) (Hv : - 2 ^ 31 ≤ v < 2 ^ 31) :
  IntToString v = Some (if v =? - 2 ^ 31 then [45] else int_text v).
Proof.
  unfold IntToString. destruct (Z.eqb_spec v (- 2 ^ 31)) as [->|Hmin]; [by vm_compute|].
  set (w := if v <? 0 then i32 (- v) else v).
  assert (w = Z.abs v) as -> by (subst w; destruct (Z.ltb_spec v 0); rewrite ?i32_id; lia).
  destruct (Z.eqb_spec (Z.abs v) 0) as [E|E]; [replace v with 0 by lia; by vm_compute|].
  rewrite (int_digits_run 10) by (cbn; lia). rewrite (proj2 (Z.eqb_neq _ _)) by done. cbn [app option_bind mbind].
  unfold int_text. by rewrite reverse_involutive.
Qed.

(** [print_hex] writes the end of its string behind its array of ten characters, whatever the
    number. *)
Lemma hex_fill_length n digits i num b b' : hex_fill n digits i num b = Some b' → length b' = length b.
Proof.
  revert i b. induction n as [|n IH]; intros i b; cbn [hex_fill]; [by intros [= <-]|].
  destruct (arr_set b _ _) as [b1|] eqn:E; [|done]. cbn. intros H. rewrite (IH _ _ H). by eapply arr_set_length.
Qed.

(** [print_hex] and [print_hex64] never return without having written outside the arrays
    they build their text in, by one byte. *)
Theorem print_hex_overruns (num color : Z) (s : S) :
  print_hex num color s = Stuck Fault ∧ print_hex64 num color s = Stuck Fault.
Proof.
  assert (H : ∀ n d i b e, length b = e → (b' ← hex_fill n d i num b; arr_set b' (Z.of_nat e) 0) = None).
  { intros n d i b e He. destruct (hex_fill n d i num b) as [b'|] eqn:E; [|done]. apply hex_fill_length in E. cbn.
    unfold arr_set. by rewrite E, He, Z.ltb_irrefl, andb_false_r. }
  split; unfold print_hex, print_hex64.
  - specialize (H 8%nat 8 0 ([48; 120] ++ replicate 8 0) 10%nat eq_refl).
    destruct (hex_fill 8 8 0 num _) as [b|]; [|done]. cbn in H.
    change (Z.of_nat 10) with 10 in H. mred. cbn [of_option]. mred. by rewrite H.
  - specialize (H 16%nat 16 0 ([48; 120] ++ replicate 16 0) 18%nat eq_refl).
    destruct (hex_fill 16 16 0 num _) as [b|]; [|done]. cbn in H.
    change (Z.of_nat 18) with 18 in H. mred. cbn [of_option]. mred. by rewrite H.
Qed.

(** ** Text for the desktop's terminal *)

(** The text [p] waits in the buffer. *)
Definition waiting (s : S) (p : str) : Prop :=
  length (gui_buffer s) = 1024%nat ∧ buffer_pos s = Z.of_nat (length p) ∧ (length p ≤ 1023)%nat ∧
  Forall (λ c, c ≠ 0) p ∧ ∃ rest, gui_buffer s = p ++ rest.

(** No line grows longer than the buffer, with [n] characters waiting. *)
Fixpoint lines_fit (n : nat) (str : str) : Prop :=
  match str with
  | [] => True
  | c :: str' => if c =? 10 then lines_fit 0 str' else (n < 1023)%nat ∧ lines_fit (Datatypes.S n) str'
  end.

Lemma c_text_app p rest : Forall (λ c, c ≠ 0) p → c_text (p ++ 0 :: rest) = p.
Proof. induction 1 as [|c p Hc Hp IH]; [done|]. cbn [c_text app]. by rewrite (proj2 (Z.eqb_neq c 0)), IH. Qed.

Lemma waiting_nil s : length (gui_buffer s) = 1024%nat → buffer_pos s = 0 → waiting s [].
Proof. intros Hl Hp. split_and!; [done|done|cbn; lia|done|by eexists]. Qed.

Lemma waiting_set s p c : waiting s p → ∃ rest, gui_buffer s = p ++ rest ∧ length (p ++ c :: tail rest) = 1024%nat ∧
  arr_set (gui_buffer s) (buffer_pos s) c = Some (p ++ c :: tail rest).
Proof.
  intros (Hl & Hp & Hn & Hnz & rest & E). exists rest. split; [done|].
  rewrite E, length_app in Hl. destruct rest as [|x rest]; cbn [length] in Hl; [lia|]. cbn [tail].
  rewrite E, Hp, arr_set_app, length_app. cbn [length]. split; [lia|done].
Qed.

Section terminal.
  Context (received : X → str).
  Context (Hterm : ∀ t c x, ∃ x', terminal_print t c x = Done tt x' ∧ received x' = received x ++ t).

Lemma give_terminal t c (s : S) : ∃ x', on_outputs (terminal_print t c) s =
    Done tt (mk_console (c_display s) (gui_mode s) (gui_buffer s) (buffer_pos s) (gui_buffer_color s) x') ∧
  received x' = received (c_outputs s) ++ t.
Proof. destruct (Hterm t c (c_outputs s)) as (x' & E & Hr). exists x'. unfold on_outputs, zoom. by rewrite E. Qed.

Lemma gui_char_run c color s p : waiting s p → 0 < c → (c = 10 ∨ (length p < 1023)%nat) →
  ∃ s', gui_char c color s = Done tt s' ∧ gui_mode s' = gui_mode s ∧
    if c =? 10 then waiting s' [] ∧ received (c_outputs s') = received (c_outputs s) ++ p ++ [10]
    else waiting s' (p ++ [c]) ∧ c_outputs s' = c_outputs s.
Proof.
  intros Hw Hc Hfit. destruct (waiting_set s p (if c =? 10 then 0 else c) Hw) as (rest & Eb & Hlen & Eset).
  pose proof Hw as (Hl & Hp & Hn & Hnz & _). unfold gui_char, put_gui_buffer, get, modify. mred.
  unfold u64. rewrite Hp, Z.mod_small by lia. rewrite Hp in Eset.
  destruct (Z.eqb_spec c 10) as [->|Hne]; cbn [orb].
  - rewrite Eset. cbn [of_option mret M_ret]. cbn [set_gui_buffer buffer_pos gui_buffer gui_buffer_color].
    rewrite Hp. destruct (Z.ltb_spec 0 (Z.of_nat (length p))).
    + set (s1 := set_gui_buffer _ _ s). rewrite c_text_app by done. destruct (give_terminal p (gui_buffer_color s) s1) as (x1 & -> & Hx1).
      destruct (give_terminal [10] (gui_buffer_color s) (set_gui_buffer (p ++ 0 :: tail rest) 0
        (mk_console (c_display s1) (gui_mode s1) (gui_buffer s1) (buffer_pos s1) (gui_buffer_color s1) x1))) as (x2 & E2 & Hx2).
      eexists. split; [exact E2|]. split; [done|]. split.
      * by apply waiting_nil.
      * subst s1. cbn [c_outputs set_gui_buffer] in *. by rewrite Hx2, Hx1, <-app_assoc.
    + assert (p = []) as -> by (destruct p; [done|cbn in *; lia]).
      destruct (give_terminal [10] (gui_buffer_color s) (set_gui_buffer ([] ++ 0 :: tail rest) (Z.of_nat (length (A := Z) [])) s)) as (x2 & E2 & Hx2).
      eexists. split; [exact E2|]. split; [done|]. split; [|done].
      by apply waiting_nil.
  - destruct Hfit as [|Hfit]; [done|]. rewrite (proj2 (Z.leb_gt _ _)) by (unfold GUI_BUFFER_SIZE; lia).
    rewrite Eset. cbn [of_option mret M_ret]. eexists. split; [reflexivity|]. split; [done|]. split; [|done].
    cbn [set_gui_color set_gui_buffer gui_buffer buffer_pos]. rewrite Hp.
    split_and!; cbn [gui_buffer buffer_pos]; [done|rewrite i32_id by lia; rewrite length_app; cbn; lia|rewrite length_app; cbn; lia| |].
    + apply Forall_app. split; [done|]. by repeat constructor; lia.
    + exists (tail rest). by rewrite <-app_assoc.
Qed.

(** Text on the desktop.  While the desktop runs and no line is longer than the buffer,
    [string] loses nothing and changes no order: the terminal has been given everything up to
    the last newline, the rest waits in the buffer, and the buffer is never overrun. *)
Theorem gui_text_arrives (text : str) (color : Z) (s : S) (p : str)
    (Hgui : truthy (gui_mode s) = true) (Hw : waiting s p) (Htext : Forall (λ c, 0 < c) text)
    (Hfit : lines_fit (length p) text) :
  ∃ s' p', string text color s = Done tt s' ∧ waiting s' p' ∧
    received (c_outputs s') ++ p' = received (c_outputs s) ++ p ++ text.
Proof.
  unfold string, get. mred. rewrite Hgui. clear Hgui.
  revert s p Hw Hfit. induction Htext as [|c text Hc Ht IH]; intros s p Hw Hfit; cbn [gui_chars].
  - exists s, p. by rewrite app_nil_r.
  - cbn [lines_fit] in Hfit. destruct (gui_char_run c color s p Hw Hc) as (s1 & E1 & _ & H1).
    { destruct (Z.eqb_spec c 10); [by left|right; tauto]. }
    mrun E1. destruct (Z.eqb_spec c 10) as [->|Hne].
    + destruct H1 as [Hw1 Hr1]. destruct (IH s1 [] Hw1 Hfit) as (s' & p' & E & Hw' & Hr').
      exists s', p'. split_and!; [done..|]. rewrite Hr', Hr1. cbn [app]. by rewrite <-!app_assoc.
    + destruct H1 as [Hw1 Hr1]. destruct (IH s1 (p ++ [c]) Hw1) as (s' & p' & E & Hw' & Hr').
      { rewrite length_app. cbn. rewrite Nat.add_1_r. tauto. }
      exists s', p'. split_and!; [done..|]. rewrite Hr', Hr1. by rewrite <-!app_assoc.
Qed.
End terminal.
End console.

(** ** Examples *)

#[local] Instance no_arena : AllocOps unit := {|
  al_create := λ _ _ a, Done NULL a;
  al_alloc := λ _ _ _ a, Done NULL a;
  al_free := λ _ _ a, Done tt a;
  al_ram := λ _, ∅;
  al_set_ram := λ _ a, a;
|}.

(** A terminal that keeps what it is given. *)
#[local] Instance log_outputs : TextOutputs str := {|
  terminal_print := λ t _ x, Done tt (x ++ t);
  serial_print := λ t x, Done tt (x ++ t);
|}.

Definition demo_screen : display unit :=
  mk_display (replicate 680 7) None 0 0 20 34 80 0 0 1 tt.

Lemma demo_screen_ok : console_ok demo_screen.
Proof.
  assert (screen_ok demo_screen).
  { split; try (cbn; lia); [by vm_compute|by vm_compute|by vm_compute|by eexists]. }
  split; try done; try (cbn; lia).
Qed.

Lemma print_stays_inside_witness :
  ∃ d', putchars (chars "Hello" ++ [10; 9; 8] ++ chars "W") 5 demo_screen = Done tt d' ∧ console_ok d' ∧ same_screen demo_screen d' ∧
    cursor_x d' ≤ Z.max (fb_width demo_screen) (cursor_x demo_screen).
Proof. apply (print_stays_inside (chars "Hello" ++ [10; 9; 8] ++ chars "W") 5 demo_screen demo_screen_ok). Defined.

Definition demo_console (mode : Z) (buf : list Z) (pos : Z) : console unit str :=
  mk_console demo_screen mode buf pos 0 [].

Lemma IntToString_correct_witness : IntToString (-305) = Some (chars "-305").
Proof. rewrite (IntToString_correct (-305)) by lia. by vm_compute. Defined.

Lemma gui_text_arrives_witness :
  ∃ s' p', string (chars "ab" ++ [10] ++ chars "c") 5 (demo_console 1 (replicate 1024 0) 0) = Done tt s' ∧
    waiting s' p' ∧ c_outputs s' ++ p' = chars "ab" ++ [10] ++ chars "c".
Proof.
  apply (gui_text_arrives (λ x : str, x) ltac:(intros t c x; by exists (x ++ t))
    (chars "ab" ++ [10] ++ chars "c") 5 (demo_console 1 (replicate 1024 0) 0) []).
  - done.
  - by apply waiting_nil.
  - apply (bool_decide_unpack _). by vm_compute.
  - cbn. repeat split; lia.
Defined.

(** The character that finds the buffer full is lost. *)
Example long_line_loses :
  match string (chars "ab") 5 (demo_console 1 (replicate 1022 120 ++ [0; 0]) 1022) with
  | Done _ s => length (c_outputs s) = 1023%nat ∧ list.last (c_outputs s) = Some 97 ∧ buffer_pos s = 0
  | Stuck _ => False
  end.
Proof. by vm_compute. Qed.
