(* ===== verification/Mouse.v ===== *)
(** * The mouse, [core/drivers/ps2/mouse/mouse.c]

    Three bytes make a packet; the packets move the pointer, in hundredths of a pixel, within
    the screen.  The pointer is drawn over the picture, and what was under it is kept to be
    put back.  The world [W] is the devices, the screen, the interrupt controller, the files
    and the memory allocator, each an interface; the callback's code is a number whose effect
    is [call_back]. *)

From Stdlib Require Import ZArith Lia String.
From stdpp Require Import base list numbers.
From S2P Require Import Prelude Alloc Buffer Module Ports Interrupts Keyboard Display.
Open Scope Z_scope.
Set Default Goal Selector "!".

Definition MOUSE_PORT_DATA : Z := 0x60.
Definition MOUSE_PORT_STATUS : Z := 0x64.
Definition MOUSE_PORT_CMD : Z := 0x64.
Definition MOUSE_CURSOR_WIDTH : Z := 16.
Definition MOUSE_CURSOR_HEIGHT : Z := 16.

Record cursor_image := mk_cursor_image { ci_width : Z; ci_height : Z; ci_pixels : list Z }.

(** Black, white and transparent. *)
Abbreviation K := 0xFF000000.
Abbreviation Wh := 0xFFFFFFFF.
Abbreviation T := 0.
Definition embedded_cursor_pixels : list Z := concat [
  [K; T; T; T; T; T; T; T; T; T; T; T; T; T; T; T];
  [K; K; T; T; T; T; T; T; T; T; T; T; T; T; T; T];
  [K; Wh; K; T; T; T; T; T; T; T; T; T; T; T; T; T];
  [K; Wh; Wh; K; T; T; T; T; T; T; T; T; T; T; T; T];
  [K; Wh; Wh; Wh; K; T; T; T; T; T; T; T; T; T; T; T];
  [K; Wh; Wh; Wh; Wh; K; T; T; T; T; T; T; T; T; T; T];
  [K; Wh; Wh; Wh; Wh; Wh; K; T; T; T; T; T; T; T; T; T];
  [K; Wh; Wh; Wh; Wh; Wh; Wh; K; T; T; T; T; T; T; T; T];
  [K; Wh; Wh; Wh; Wh; K; T; T; T; T; T; T; T; T; T; T];
  [K; Wh; Wh; K; Wh; K; T; T; T; T; T; T; T; T; T; T];
  [K; Wh; K; T; K; Wh; K; T; T; T; T; T; T; T; T; T];
  [K; K; T; T; T; K; Wh; K; T; T; T; T; T; T; T; T];
  [T; T; T; T; T; T; K; Wh; K; T; T; T; T; T; T; T];
  [T; T; T; T; T; T; T; K; Wh; K; T; T; T; T; T; T];
  [T; T; T; T; T; T; T; T; K; Wh; K; T; T; T; T; T];
  [T; T; T; T; T; T; T; T; T; K; K; T; T; T; T; T]].
Definition embedded_cursor : cursor_image := mk_cursor_image 16 16 embedded_cursor_pixels.

(** Where the pointer is: in hundredths, before the last move, and now. *)
Record pointer := mk_pointer {
  mouse_x_accum : Z; mouse_y_accum : Z; prev_mouse_x : Z; prev_mouse_y : Z; mouse_x : Z; mouse_y : Z
}.

Record mouse (W : Type) := mk_mouse {
  mouse_cursor_image : option cursor_image;
  pos : pointer;
  mouse_cycle : Z;
  mouse_packet : list Z;
  mouse_buttons : Z;
  mouse_initialized : Z;
  mouse_interrupt_count : Z;
  mouse_cursor_needs_redraw : Z;
  cursor_bg : list Z;
  cursor_bg_valid : Z;
  mouse_sensitivity_factor : Z;
  mouse_callback : Z;
  m_world : W;
}.
Arguments mk_mouse {W}.
Arguments mouse_cursor_image {W}.
Arguments pos {W}.
Arguments mouse_cycle {W}.
Arguments mouse_packet {W}.
Arguments mouse_buttons {W}.
Arguments mouse_initialized {W}.
Arguments mouse_interrupt_count {W}.
Arguments mouse_cursor_needs_redraw {W}.
Arguments cursor_bg {W}.
Arguments cursor_bg_valid {W}.
Arguments mouse_sensitivity_factor {W}.
Arguments mouse_callback {W}.
Arguments m_world {W}.

(** The interrupt controller, as drivers see it. *)
Class IrqController (W : Type) := {
  pic_ack : Z → M W unit;
  pic_set_mask : Z → Z → M W unit;
}.
#[export] Instance interrupts_controller {D} `{!PortIO D} : IrqController (istate D) := {|
  pic_ack := irq_ack;
  pic_set_mask := irq_set_mask;
|}.

(** The screen. *)
Class Screen (W : Type) := {
  sc_width : W → Z;
  sc_height : W → Z;
  sc_putpixel : Z → Z → Z → M W unit;
  sc_getpixel : Z → Z → M W Z;
}.
#[export] Instance display_screen {A} : Screen (display A) := {|
  sc_width := fb_width;
  sc_height := fb_height;
  sc_putpixel := putpixel;
  sc_getpixel := getpixel;
|}.

Section mouse.
  Context {W : Type} `{!PortIO W, !IrqController W, !Screen W}.
  Abbreviation S := (mouse W).
  (** [callback(x, y, buttons)] *)
  Context (call_back : Z → Z → Z → Z → M S unit).

Definition on_world {B} (m : M W B) : M S B :=
  zoom m_world (λ w s, mk_mouse (mouse_cursor_image s) (pos s) (mouse_cycle s) (mouse_packet s) (mouse_buttons s)
    (mouse_initialized s) (mouse_interrupt_count s) (mouse_cursor_needs_redraw s) (cursor_bg s) (cursor_bg_valid s)
    (mouse_sensitivity_factor s) (mouse_callback s) w) m.
Definition set_image (i : option cursor_image) (s : S) : S :=
  mk_mouse i (pos s) (mouse_cycle s) (mouse_packet s) (mouse_buttons s)
    (mouse_initialized s) (mouse_interrupt_count s) (mouse_cursor_needs_redraw s) (cursor_bg s) (cursor_bg_valid s)
    (mouse_sensitivity_factor s) (mouse_callback s) (m_world s).
Definition set_pos (p : pointer) (s : S) : S :=
  mk_mouse (mouse_cursor_image s) p (mouse_cycle s) (mouse_packet s) (mouse_buttons s)
    (mouse_initialized s) (mouse_interrupt_count s) (mouse_cursor_needs_redraw s) (cursor_bg s) (cursor_bg_valid s)
    (mouse_sensitivity_factor s) (mouse_callback s) (m_world s).
Definition set_packet (cycle : Z) (packet : list Z) (s : S) : S :=
  mk_mouse (mouse_cursor_image s) (pos s) cycle packet (mouse_buttons s)
    (mouse_initialized s) (mouse_interrupt_count s) (mouse_cursor_needs_redraw s) (cursor_bg s) (cursor_bg_valid s)
    (mouse_sensitivity_factor s) (mouse_callback s) (m_world s).
Definition set_buttons (b : Z) (s : S) : S :=
  mk_mouse (mouse_cursor_image s) (pos s) (mouse_cycle s) (mouse_packet s) b
    (mouse_initialized s) (mouse_interrupt_count s) (mouse_cursor_needs_redraw s) (cursor_bg s) (cursor_bg_valid s)
    (mouse_sensitivity_factor s) (mouse_callback s) (m_world s).
Definition set_initialized (v : Z) (s : S) : S :=
  mk_mouse (mouse_cursor_image s) (pos s) (mouse_cycle s) (mouse_packet s) (mouse_buttons s)
    v (mouse_interrupt_count s) (mouse_cursor_needs_redraw s) (cursor_bg s) (cursor_bg_valid s)
    (mouse_sensitivity_factor s) (mouse_callback s) (m_world s).
Definition set_irqs (v : Z) (s : S) : S :=
  mk_mouse (mouse_cursor_image s) (pos s) (mouse_cycle s) (mouse_packet s) (mouse_buttons s)
    (mouse_initialized s) v (mouse_cursor_needs_redraw s) (cursor_bg s) (cursor_bg_valid s)
    (mouse_sensitivity_factor s) (mouse_callback s) (m_world s).
Definition set_redraw (v : Z) (s : S) : S :=
  mk_mouse (mouse_cursor_image s) (pos s) (mouse_cycle s) (mouse_packet s) (mouse_buttons s)
    (mouse_initialized s) (mouse_interrupt_count s) v (cursor_bg s) (cursor_bg_valid s)
    (mouse_sensitivity_factor s) (mouse_callback s) (m_world s).
Definition set_bg (bg : list Z) (valid : Z) (s : S) : S :=
  mk_mouse (mouse_cursor_image s) (pos s) (mouse_cycle s) (mouse_packet s) (mouse_buttons s)
    (mouse_initialized s) (mouse_interrupt_count s) (mouse_cursor_needs_redraw s) bg valid
    (mouse_sensitivity_factor s) (mouse_callback s) (m_world s).
Definition set_sensitivity (v : Z) (s : S) : S :=
  mk_mouse (mouse_cursor_image s) (pos s) (mouse_cycle s) (mouse_packet s) (mouse_buttons s)
    (mouse_initialized s) (mouse_interrupt_count s) (mouse_cursor_needs_redraw s) (cursor_bg s) (cursor_bg_valid s)
    v (mouse_callback s) (m_world s).
Definition set_callback (v : Z) (s : S) : S :=
  mk_mouse (mouse_cursor_image s) (pos s) (mouse_cycle s) (mouse_packet s) (mouse_buttons s)
    (mouse_initialized s) (mouse_interrupt_count s) (mouse_cursor_needs_redraw s) (cursor_bg s) (cursor_bg_valid s)
    (mouse_sensitivity_factor s) v (m_world s).

(** ** The controller *)

(** [while (timeout--) if ((inb(MOUSE_PORT_STATUS) & mask) == want) return;] *)
Fixpoint wait_for (timeout : nat) (mask want : Z) : M S unit :=
  match timeout with
  | O => mret tt
  | Datatypes.S n =>
      status ← on_world (inb MOUSE_PORT_STATUS);
      if Z.land status mask =? want then mret tt else wait_for n mask want
  end.
Definition mouse_wait (type : Z) : M S unit :=
  if type =? 0 then wait_for (Z.to_nat 100000) 1 1 else wait_for (Z.to_nat 100000) 2 0.

Definition mouse_write (write : Z) : M S unit :=
  mouse_wait 1;;
  on_world (outb MOUSE_PORT_CMD 0xD4);;
  mouse_wait 1;;
  on_world (outb MOUSE_PORT_DATA write).

Definition mouse_read : M S Z := mouse_wait 0;; on_world (inb MOUSE_PORT_DATA).

(** ** Packets *)

(** The result of an [int] computation, which has none outside the range of the type. *)
Definition int_ (z : Z) : option Z := if (- 2 ^ 31 <=? z) && (z <? 2 ^ 31) then Some z else None.
Definition computed {A} (o : option A) : M S A := match o with Some a => mret a | None => stuck_with Overflow end.

(** The pointer after a movement by [rel_x] and [rel_y] on a screen of the given size, with a
    pointer image of [cw] by [ch]. *)
Definition scaled (rel factor : Z) (fast : bool) : option Z :=
  d ← int_ (rel * factor);
  if fast then d ← int_ (d * 14); Some (Z.quot d 10) else Some d.

(** One coordinate: the position in hundredths and the pixel, kept on the screen. *)
Definition clamp (accum fb c : Z) : option (Z * Z) :=
  let new := Z.quot accum 100 in
  let '(new, accum) := if new <? 0 then (0, 0) else (new, accum) in
  if i32 (u32 (fb - c)) <=? new then
    let new := i32 (u32 (fb - c - 1)) in accum ← int_ (new * 100); Some (new, accum)
  else Some (new, accum).

Definition move_pointer (rel_x rel_y factor fbw fbh cw ch : Z) (p : pointer) : option pointer :=
  let fast := (5 <? rel_x) || (rel_x <? -5) || (5 <? rel_y) || (rel_y <? -5) in
  delta_x ← scaled rel_x factor fast;
  delta_y ← scaled rel_y factor fast;
  x_accum ← int_ (mouse_x_accum p + delta_x);
  y_accum ← int_ (mouse_y_accum p - delta_y);
  '(new_x, x_accum) ← (if (0 <? fbw) && (0 <? fbh) then clamp x_accum fbw cw else Some (Z.quot x_accum 100, x_accum));
  '(new_y, y_accum) ← (if (0 <? fbw) && (0 <? fbh) then clamp y_accum fbh ch else Some (Z.quot y_accum 100, y_accum));
  Some (mk_pointer x_accum y_accum (mouse_x p) (mouse_y p) new_x new_y).

Definition mouse_interrupt_handler (state : cpu_state_t) : M S unit :=
  s ← get;
  count ← computed (int_ (mouse_interrupt_count s + 1));
  modify (set_irqs count);;
  status ← on_world (inb MOUSE_PORT_CMD);
  if Z.land status 0x20 =? 0 then mret tt else
  b ← on_world (inb MOUSE_PORT_DATA);
  s ← get;
  if (mouse_cycle s =? 0) && (Z.land b 0x08 =? 0) then mret tt else
  (if mouse_cycle s <? Z.of_nat (length (mouse_packet s)) then mret tt else fault);;
  modify (λ s, set_packet (u8 (mouse_cycle s + 1)) (<[Z.to_nat (mouse_cycle s) := b]> (mouse_packet s)) s);;
  s ← get;
  (if mouse_cycle s =? 3 then
     let state := nth 0 (mouse_packet s) 0 in
     let rel_x := i8 (nth 1 (mouse_packet s) 0) in
     let rel_y := i8 (nth 2 (mouse_packet s) 0) in
     let cw := match mouse_cursor_image s with Some i => ci_width i | None => MOUSE_CURSOR_WIDTH end in
     let ch := match mouse_cursor_image s with Some i => ci_height i | None => MOUSE_CURSOR_HEIGHT end in
     modify (λ s, set_packet 0 (mouse_packet s) s);;
     p ← computed (move_pointer rel_x rel_y (mouse_sensitivity_factor s) (sc_width (m_world s)) (sc_height (m_world s)) cw ch (pos s));
     modify (set_pos p);;
     modify (set_buttons (Z.land state 0x07));;
     modify (set_redraw 1);;
     s ← get;
     if mouse_callback s =? NULL then mret tt
     else call_back (mouse_callback s) (mouse_x (pos s)) (mouse_y (pos s)) (mouse_buttons s)
   else mret tt);;
  on_world (pic_ack 12).

Definition centre (s : S) : S :=
  let w := sc_width (m_world s) in
  let h := sc_height (m_world s) in
  let p := pos s in
  let p := if (0 <? w) && (0 <? h)
    then mk_pointer (i32 (i32 (w / 2) * 100)) (i32 (i32 (h / 2) * 100)) (prev_mouse_x p) (prev_mouse_y p) (i32 (w / 2)) (i32 (h / 2))
    else p in
  set_pos (mk_pointer (mouse_x_accum p) (mouse_y_accum p) (mouse_x p) (mouse_y p) (mouse_x p) (mouse_y p)) s.

Definition mouse_init : M S Z :=
  s ← get;
  if truthy (mouse_initialized s) then mret 0 else
  mouse_wait 1;;
  on_world (outb MOUSE_PORT_CMD 0xA8);;
  mouse_wait 1;;
  on_world (outb MOUSE_PORT_CMD 0x20);;
  status ← mouse_read;
  let status := u8 (Z.land (Z.lor status 2) (Z.lnot 0x20)) in
  mouse_wait 1;;
  on_world (outb MOUSE_PORT_CMD 0x60);;
  mouse_wait 1;;
  on_world (outb MOUSE_PORT_DATA status);;
  mouse_write 0xF6;; mouse_read;;
  mouse_write 0xF3;; mouse_read;;
  mouse_write 200;; mouse_read;;
  mouse_write 0xE8;; mouse_read;;
  mouse_write 0x03;; mouse_read;;
  mouse_write 0xF4;; mouse_read;;
  on_world (pic_set_mask 2 0);;
  on_world (pic_set_mask 12 0);;
  modify (λ s, match mouse_cursor_image s with None => set_image (Some embedded_cursor) s | Some _ => s end);;
  modify centre;;
  modify (λ s, set_bg (cursor_bg s) 0 s);;
  modify (set_initialized 1);;
  mret 0.

(** ** Drawing *)

(** The arrow that is drawn when there is no image. *)
Definition cursor_bitmap : list Z :=
  [1; 3; 6; 12; 24; 48; 96; 192; 128; 0; 0; 0; 0; 0; 0; 0; 0; 0; 0].

Definition cursor_size (s : S) : Z * Z :=
  match mouse_cursor_image s with Some i => (ci_width i, ci_height i) | None => (8, 19) end.

(** [for (y = 0; y < h; y++) for (x = 0; x < w; x++) body(x, y);] *)
Definition for_box (w h : Z) (body : Z → Z → M S unit) : M S unit := for_to 0 h (λ y, for_to 0 w (λ x, body x y)).

Definition inside (s : S) (x y : Z) : bool :=
  (0 <=? x) && (x <? sc_width (m_world s)) && (0 <=? y) && (y <? sc_height (m_world s)).

(** What was under the pointer is put back where it was last drawn. *)
Definition restore_under (w h : Z) : M S unit :=
  s ← get;
  for_box w h (λ x y,
    if inside s (prev_mouse_x (pos s) + x) (prev_mouse_y (pos s) + y) then
      s' ← get;
      v ← of_option (arr_get (cursor_bg s') (y * w + x));
      on_world (sc_putpixel (prev_mouse_x (pos s) + x) (prev_mouse_y (pos s) + y) v)
    else mret tt).

Definition save_under (w h : Z) : M S unit :=
  s ← get;
  for_box w h (λ x y,
    v ← (if inside s (mouse_x (pos s) + x) (mouse_y (pos s) + y)
         then on_world (sc_getpixel (mouse_x (pos s) + x) (mouse_y (pos s) + y)) else mret 0);
    s' ← get;
    bg ← of_option (arr_set (cursor_bg s') (y * w + x) v);
    modify (set_bg bg (cursor_bg_valid s'))).

(** The pointer itself: [shape] gives the colour of a point of it, when it has one. *)
Definition draw_shape (w h : Z) (shape : Z → Z → M S (option Z)) : M S unit :=
  s ← get;
  let p := pos s in
  for_to (Z.max (mouse_y p) 0) (Z.min (mouse_y p + h) (sc_height (m_world s))) (λ screen_y,
    for_to (Z.max (mouse_x p) 0) (Z.min (mouse_x p + w) (sc_width (m_world s))) (λ screen_x,
      c ← shape (screen_x - mouse_x p) (screen_y - mouse_y p);
      match c with
      | Some color => on_world (sc_putpixel screen_x screen_y color)
      | None => mret tt
      end)).

Definition image_shape (i : cursor_image) (x y : Z) : M S (option Z) :=
  pixel ← of_option (arr_get (ci_pixels i) (y * ci_width i + x));
  mret (if 0 <? Z.land (Z.shiftr pixel 24) 0xFF then Some (Z.land pixel 0x00FFFFFF) else None).
Definition bitmap_shape (x y : Z) : M S (option Z) :=
  row ← of_option (arr_get cursor_bitmap y);
  mret (if truthy (Z.land row (Z.shiftr 0x80 x)) then Some 0xFF000000 else None).

Definition mouse_draw_cursor : M S unit :=
  s ← get;
  let '(w, h) := cursor_size s in
  (if truthy (cursor_bg_valid s) &&
      (negb (prev_mouse_x (pos s) =? mouse_x (pos s)) || negb (prev_mouse_y (pos s) =? mouse_y (pos s)))
   then restore_under w h else mret tt);;
  save_under w h;;
  modify (λ s, set_bg (cursor_bg s) 1 s);;
  modify (λ s, let p := pos s in
    set_pos (mk_pointer (mouse_x_accum p) (mouse_y_accum p) (mouse_x p) (mouse_y p) (mouse_x p) (mouse_y p)) s);;
  match mouse_cursor_image s with
  | Some i => draw_shape (ci_width i) (ci_height i) (image_shape i)
  | None => draw_shape 8 19 bitmap_shape
  end.

(** The report itself is not modelled, the redraw is. *)
Definition mouse_force_update : M S unit := mouse_draw_cursor.

Definition mouse_get_position : M S (Z * Z) := gets (λ s, (mouse_x (pos s), mouse_y (pos s))).
Definition mouse_set_position (x y : Z) : M S unit :=
  modify (λ s, set_pos (mk_pointer (i32 (x * 100)) (i32 (y * 100)) (prev_mouse_x (pos s)) (prev_mouse_y (pos s)) x y) s).
Definition mouse_get_buttons : M S Z := gets mouse_buttons.
Definition mouse_set_callback (callback : Z) : M S unit := modify (set_callback callback).
Definition mouse_unregister_callback : M S unit := modify (set_callback NULL).
Definition mouse_set_buttons (buttons : Z) : M S unit := modify (set_buttons (u8 buttons)).
Definition mouse_is_initialized : M S Z := gets mouse_initialized.
Definition mouse_reload_cursor : M S unit := modify (set_image (Some embedded_cursor)).
Definition mouse_has_scroll_wheel : M S Z := mret 0.
Definition mouse_get_scroll_delta : M S Z := mret 0.
Definition mouse_enable_test_mode : M S unit := mret tt.
Definition mouse_get_interrupt_count : M S Z := gets mouse_interrupt_count.
Definition mouse_cursor_needs_update : M S Z := gets mouse_cursor_needs_redraw.
Definition mouse_clear_cursor_redraw_flag : M S unit := modify (set_redraw 0).
Definition mouse_set_sensitivity (factor : Z) : M S unit :=
  let factor := if factor <? 10 then 10 else factor in
  let factor := if 500 <? factor then 500 else factor in
  modify (set_sensitivity factor).
Definition mouse_get_sensitivity : M S Z := gets mouse_sensitivity_factor.

Definition mouse_handler_startup : M S Z := mouse_init.
Definition mouse_handler_shutdown : M S unit := mret tt.
Definition mouse_handler : component_handler S :=
  mk_handler (Some (chars "ps2_mouse")) (Some (chars "/dev/mouse")) (BUILD_VERSION 0 1 0 0)
    (Some mouse_handler_startup) (Some mouse_handler_shutdown) None None None.

(** ** The pointer stays on the screen *)

(** The size of the pointer image. *)
Definition image_size (s : S) : Z * Z :=
  match mouse_cursor_image s with
  | Some i => (ci_width i, ci_height i)
  | None => (MOUSE_CURSOR_WIDTH, MOUSE_CURSOR_HEIGHT)
  end.

(** A coordinate and its hundredths on a screen of [fb] pixels, with an image of [c]. *)
Definition coordinate_ok (fb c accum x : Z) : Prop := 0 ≤ x < fb - c ∧ -100 < accum < 100 * (fb - c).

(** The screen is larger than the pointer and not absurdly large, the packet is in order, and
    the whole image of the pointer is on the screen. *)
Record pointer_ok (s : S) : Prop := {
  po_image : 0 < (image_size s).1 ∧ 0 < (image_size s).2;
  po_width : (image_size s).1 < sc_width (m_world s) ≤ 1000000;
  po_height : (image_size s).2 < sc_height (m_world s) ≤ 1000000;
  po_factor : 0 ≤ mouse_sensitivity_factor s ≤ 500;
  po_packet : 0 ≤ mouse_cycle s < 3 ∧ length (mouse_packet s) = 4%nat;
  po_x : coordinate_ok (sc_width (m_world s)) (image_size s).1 (mouse_x_accum (pos s)) (mouse_x (pos s));
  po_y : coordinate_ok (sc_height (m_world s)) (image_size s).2 (mouse_y_accum (pos s)) (mouse_y (pos s));
}.

Lemma int_in z : - 2 ^ 31 ≤ z < 2 ^ 31 → int_ z = Some z.
Proof. intros H. unfold int_. by rewrite (proj2 (Z.leb_le _ _)), (proj2 (Z.ltb_lt _ _)) by lia. Qed.

Lemma clamp_ok accum fb c : 0 < c < fb → fb ≤ 1000000 → - 2 ^ 30 ≤ accum ≤ 2 ^ 30 →
  ∃ x a, clamp accum fb c = Some (x, a) ∧ coordinate_ok fb c a x.
Proof.
  intros Hc Hfb Ha. unfold clamp, coordinate_ok. pose proof (Z.quot_rem' accum 100) as Hqr.
  assert (-100 < Z.rem accum 100 < 100) as Hrem by (pose proof (Z.rem_bound_abs accum 100 ltac:(lia)); lia).
  assert (i32 (u32 (fb - c)) = fb - c) as E1 by (unfold u32; rewrite Z.mod_small, i32_id by lia; done).
  assert (i32 (u32 (fb - c - 1)) = fb - c - 1) as E2 by (unfold u32; rewrite Z.mod_small, i32_id by lia; done).
  destruct (Z.ltb_spec (Z.quot accum 100) 0); cbv zeta; rewrite E1, E2.
  - rewrite (proj2 (Z.leb_gt (fb - c) 0)) by lia. do 2 eexists. split; [done|]. lia.
  - destruct (Z.leb_spec (fb - c) (Z.quot accum 100)).
    + rewrite int_in by lia. do 2 eexists. split; [done|]. lia.
    + do 2 eexists. split; [done|]. assert (0 ≤ Z.rem accum 100 ∨ accum < 0) by (pose proof (Z.rem_bound_pos_pos accum 100); lia). lia.
Qed.

Lemma scaled_bound rel factor fast : -128 ≤ rel ≤ 127 → 0 ≤ factor ≤ 500 → ∃ d, scaled rel factor fast = Some d ∧ - 100000 ≤ d ≤ 100000.
Proof.
  intros Hr Hf. unfold scaled. assert (-64000 ≤ rel * factor ≤ 64000) by nia.
  rewrite (int_in (rel * factor)) by lia. cbn [mbind option_bind]. destruct fast; [|eexists; split; [done|lia]].
  rewrite int_in by lia. eexists. split; [done|]. pose proof (Z.quot_rem' (rel * factor * 14) 10).
  pose proof (Z.rem_bound_abs (rel * factor * 14) 10 ltac:(lia)). lia.
Qed.

Lemma i8_range z : -128 ≤ i8 z ≤ 127.
Proof. unfold i8. pose proof (Z.mod_pos_bound (z + 2 ^ 7) (2 ^ 8)). lia. Qed.

Lemma move_pointer_ok rx ry factor fbw fbh cw ch p :
  -128 ≤ rx ≤ 127 → -128 ≤ ry ≤ 127 → 0 ≤ factor ≤ 500 → 0 < cw < fbw → 0 < ch < fbh → fbw ≤ 1000000 → fbh ≤ 1000000 →
  coordinate_ok fbw cw (mouse_x_accum p) (mouse_x p) → coordinate_ok fbh ch (mouse_y_accum p) (mouse_y p) →
  ∃ p', move_pointer rx ry factor fbw fbh cw ch p = Some p' ∧
    coordinate_ok fbw cw (mouse_x_accum p') (mouse_x p') ∧ coordinate_ok fbh ch (mouse_y_accum p') (mouse_y p').
Proof.
  intros Hrx Hry Hf Hcw Hch Hw Hh [_ Hx] [_ Hy]. unfold move_pointer. cbv zeta.
  set (fast := _ || _). destruct (scaled_bound rx factor fast Hrx Hf) as (dx & -> & ?). destruct (scaled_bound ry factor fast Hry Hf) as (dy & -> & ?).
  cbn [mbind option_bind]. rewrite !int_in by lia. cbn [mbind option_bind].
  rewrite (proj2 (Z.ltb_lt 0 fbw)), (proj2 (Z.ltb_lt 0 fbh)) by lia. cbn [andb].
  destruct (clamp_ok (mouse_x_accum p + dx) fbw cw Hcw Hw ltac:(lia)) as (nx & ax & -> & Cx).
  destruct (clamp_ok (mouse_y_accum p - dy) fbh ch Hch Hh ltac:(lia)) as (ny & ay & -> & Cy). by eexists.
Qed.

Section interrupts.
  (** Reading a port gives a byte, acknowledging an interrupt returns, and neither changes the
      size of the screen; a callback keeps the pointer in order and does not count interrupts. *)
  Context (Hread : ∀ p w, ∃ v w', inb p w = Done v w' ∧ sc_width w' = sc_width w ∧ sc_height w' = sc_height w).
  Context (Hack : ∀ n w, ∃ w', pic_ack n w = Done tt w' ∧ sc_width w' = sc_width w ∧ sc_height w' = sc_height w).
  Context (Hcall : ∀ c x y b s, pointer_ok s → wp (call_back c x y b) (λ _ s', pointer_ok s' ∧ mouse_interrupt_count s' = mouse_interrupt_count s) s).

Lemma pointer_ok_same s s' : pointer_ok s → mouse_cursor_image s' = mouse_cursor_image s →
  sc_width (m_world s') = sc_width (m_world s) → sc_height (m_world s') = sc_height (m_world s) →
  mouse_sensitivity_factor s' = mouse_sensitivity_factor s →
  0 ≤ mouse_cycle s' < 3 → length (mouse_packet s') = 4%nat → pos s' = pos s → pointer_ok s'.
Proof.
  intros [] Ei Ew Eh Ef Hc Hp Epos.
  split; unfold image_size in *; rewrite ?Ei, ?Ew, ?Eh, ?Ef, ?Epos; try done.
Qed.

(** The pointer is in order, and so many interrupts have been counted. *)
Definition counted (k : Z) (s : S) : Prop := pointer_ok s ∧ mouse_interrupt_count s = k.

Lemma read_world k p s : counted k s → wp (on_world (inb p)) (λ _, counted k) s.
Proof.
  intros [Hok Hk]. destruct (Hread p (m_world s)) as (v & w' & E & Hw & Hh). unfold wp, on_world, zoom. rewrite E.
  split; [|done]. apply (pointer_ok_same s); try done; apply Hok.
Qed.

Lemma ack_world k n s : counted k s → wp (on_world (pic_ack n)) (λ _, counted k) s.
Proof.
  intros [Hok Hk]. destruct (Hack n (m_world s)) as (w' & E & Hw & Hh). unfold wp, on_world, zoom. rewrite E.
  split; [|done]. apply (pointer_ok_same s); try done; apply Hok.
Qed.

(** A whole packet is taken. *)
Lemma packet_taken s p : pointer_ok s → ∀ pk b, length pk = 4%nat →
  coordinate_ok (sc_width (m_world s)) (image_size s).1 (mouse_x_accum p) (mouse_x p) →
  coordinate_ok (sc_height (m_world s)) (image_size s).2 (mouse_y_accum p) (mouse_y p) →
  pointer_ok (set_redraw 1 (set_buttons b (set_pos p (set_packet 0 pk s)))).
Proof.
  intros [Pi Pw Ph Pf _ _ _] pk b Hpk Mx My. unfold image_size in *. destruct (mouse_cursor_image s) eqn:Ei;
    split; unfold image_size; cbn; rewrite ?Ei; cbn in *; done || lia.
Qed.

Lemma handler_ok ctx s : pointer_ok s → - 2 ^ 31 ≤ mouse_interrupt_count s + 1 < 2 ^ 31 →
  wp (mouse_interrupt_handler ctx) (λ _, counted (mouse_interrupt_count s + 1)) s.
Proof.
  intros Hok Hcount. unfold mouse_interrupt_handler. apply wp_bind, wp_get. rewrite int_in by done. set (k := mouse_interrupt_count s + 1).
  apply wp_bind, wp_ret, wp_bind, wp_modify.
  assert (counted k (set_irqs k s)) as Hok1 by (split; [apply (pointer_ok_same s); try done; apply Hok|done]).
  apply wp_bind. eapply wp_mono; [by apply read_world|]. intros st s1 Hok2. cbv beta in Hok2.
  destruct (Z.land st 32 =? 0); [by apply wp_ret|].
  apply wp_bind. eapply wp_mono; [by apply read_world|]. intros b s2 Hs2. cbv beta in Hs2. destruct Hs2 as [Hok3 Hk3]. clearbody k. clear s Hok Hcount Hok1 Hok2.
  apply wp_bind, wp_get. destruct ((mouse_cycle s2 =? 0) && (Z.land b 8 =? 0)); [by apply wp_ret|].
  pose proof (po_packet s2 Hok3) as [Hc Hl]. rewrite (proj2 (Z.ltb_lt _ _)) by lia.
  apply wp_bind, wp_ret, wp_bind, wp_modify, wp_bind, wp_get. cbn [set_packet mouse_cycle mouse_packet].
  unfold u8. rewrite Z.mod_small by lia. set (pk := <[_ := b]> _). assert (length pk = 4%nat) as Hpk by (subst pk; by rewrite length_insert).
  apply wp_bind. eapply (wp_mono _ (λ _, counted k)); [|intros [] s3; apply ack_world].
  destruct (Z.eqb_spec (mouse_cycle s2 + 1) 3) as [E|E].
  2: { apply wp_ret. split; [apply (pointer_ok_same s2); try done; cbn; lia|done]. }
  apply wp_bind, wp_modify. cbn [mouse_sensitivity_factor m_world pos mouse_cursor_image set_packet].
  destruct (move_pointer_ok (i8 (nth 1 pk 0)) (i8 (nth 2 pk 0)) (mouse_sensitivity_factor s2)
    (sc_width (m_world s2)) (sc_height (m_world s2)) (image_size s2).1 (image_size s2).2 (pos s2)) as (p & Ep & Mx & My);
    try (apply i8_range || apply Hok3); [destruct Hok3; lia..|].
  unfold image_size in Ep.
  match goal with |- context [move_pointer ?a ?b ?c ?d ?e ?f ?g ?h] =>
    assert (E2 : move_pointer a b c d e f g h = Some p) by (rewrite <-Ep; by destruct (mouse_cursor_image s2)) end.
  rewrite E2. apply wp_bind, wp_ret. do 3 apply wp_bind, wp_modify. apply wp_bind, wp_get.
  pose proof (packet_taken s2 p Hok3 pk (Z.land (nth 0 pk 0) 7) Hpk Mx My) as Hok4. cbn [mouse_callback set_redraw set_buttons set_pos set_packet].
  destruct (mouse_callback s2 =? NULL); [by apply wp_ret|]. eapply wp_mono; [by apply Hcall|]. intros [] s4 [Hok5 Hk5]. split; [done|]. by rewrite Hk5.
Qed.

(** [n] interrupts, one after the other. *)
Fixpoint mouse_interrupts (n : nat) (ctx : cpu_state_t) : M S unit :=
  match n with O => mret tt | Datatypes.S n' => mouse_interrupt_handler ctx;; mouse_interrupts n' ctx end.

(** C37: The pointer.  Whatever bytes arrive, in whatever number of interrupts, the handler
    returns and the whole image of the pointer stays on the screen, its position in
    hundredths included, and no computation leaves the range of an [int]; only the interrupts
    themselves must not be more than the counter of the driver can count. *)
Theorem mouse_stays_on_screen (n : nat) (ctx : cpu_state_t) (s : S) (Hok : pointer_ok s)
    (Hcount : 0 ≤ mouse_interrupt_count s) (Hn : mouse_interrupt_count s + Z.of_nat n < 2 ^ 31) :
  ∃ s', mouse_interrupts n ctx s = Done tt s' ∧ pointer_ok s' ∧ mouse_interrupt_count s' = mouse_interrupt_count s + Z.of_nat n.
Proof.
  assert (H : wp (mouse_interrupts n ctx) (λ _, counted (mouse_interrupt_count s + Z.of_nat n)) s).
  2: { apply wp_run in H as ([] & s' & E & H). exists s'. split; [exact E|]. by destruct H. }
  revert s Hok Hcount Hn. induction n as [|n IH]; intros s Hok Hcount Hn; cbn [mouse_interrupts].
  - apply wp_ret. split; [done|lia].
  - apply wp_bind. eapply wp_mono; [apply handler_ok; [done|lia]|]. intros [] s1 [Hok1 Hk1].
    replace (mouse_interrupt_count s + Z.of_nat (Datatypes.S n)) with (mouse_interrupt_count s1 + Z.of_nat n) by lia. apply IH; [done|lia|lia].
Qed.
End interrupts.

(** The interrupt after 2^31 - 1 of them has no defined result. *)
Lemma count_overflows ctx s : mouse_interrupt_count s = 2 ^ 31 - 1 → mouse_interrupt_handler ctx s = Stuck Overflow.
Proof. intros E. unfold mouse_interrupt_handler, get. mred. by rewrite E. Qed.

(** A first byte without its mark, or a byte that is not the mouse's, ends the interrupt
    without an acknowledgement. *)
Lemma mouse_stray_byte ctx s st w1 b w2 :
  inb MOUSE_PORT_CMD (m_world s) = Done st w1 → Z.land st 0x20 ≠ 0 →
  inb MOUSE_PORT_DATA w1 = Done b w2 → mouse_cycle s = 0 → Z.land b 0x08 = 0 →
  - 2 ^ 31 ≤ mouse_interrupt_count s + 1 < 2 ^ 31 →
  ∃ s', mouse_interrupt_handler ctx s = Done tt s' ∧ m_world s' = w2.
Proof.
  intros E1 H1 E2 Hc Hb Hk. unfold mouse_interrupt_handler, modify, on_world, zoom, get. mred. rewrite int_in by done. cbn [computed]. mred. cbn [m_world set_irqs].
  rewrite E1, (proj2 (Z.eqb_neq _ _) H1). cbn [m_world]. rewrite E2. cbn [mouse_cycle set_irqs].
  rewrite Hc, Hb. cbn [andb Z.eqb]. eauto.
Qed.
End mouse.

(** ** A mouse to try *)

(** The bytes the mouse is about to send, on a screen of 640 by 480 that shows nothing. *)
#[local] Instance demo_ports : PortIO (list Z) := {|
  read_port_byte p := λ w, if p =? 0x60 then Done (hd 0 w) (tl w) else Done 0x21 w;
  read_port_word p := mret 0;
  read_port_dword p := mret 0;
  write_port_byte p v := mret tt;
  write_port_word p v := mret tt;
  write_port_dword p v := mret tt;
|}.
#[local] Instance demo_controller : IrqController (list Z) := {|
  pic_ack n := mret tt;
  pic_set_mask n m := mret tt;
|}.
#[local] Instance demo_screen : Screen (list Z) := {|
  sc_width w := 640;
  sc_height w := 480;
  sc_putpixel x y c := mret tt;
  sc_getpixel x y := mret 0;
|}.
Definition demo_call_back (c x y b : Z) : M (mouse (list Z)) unit := modify (set_redraw 0).
Definition demo_mouse (bytes : list Z) : mouse (list Z) :=
  mk_mouse (Some embedded_cursor) (mk_pointer 40000 30000 400 300 400 300) 0 [0; 0; 0; 0] 0 1 0 1
    (replicate 256 0) 0 120 7 bytes.

(** A packet that moves to the right and up: the pointer is where it should be. *)
Example demo_packet ctx :
  ∃ s, mouse_interrupts demo_call_back 3 ctx (demo_mouse [0x09; 20; 10]) = Done tt s ∧
    (mouse_x (pos s), mouse_y (pos s), mouse_buttons s) = (433, 283, 1).
Proof. eexists. split; [by vm_compute|done]. Qed.

Lemma mouse_stays_on_screen_witness :
  ∃ s', mouse_interrupts demo_call_back 9 (mk_cpu_state 0 0 0 0) (demo_mouse [0x09; 127; 10; 0x08; 127; 127; 0x08; 127; 127]) = Done tt s' ∧
    pointer_ok s' ∧ mouse_interrupt_count s' = 9.
Proof.
  refine (mouse_stays_on_screen demo_call_back _ _ _ 9 (mk_cpu_state 0 0 0 0) (demo_mouse [0x09; 127; 10; 0x08; 127; 127; 0x08; 127; 127]) _ _ _).
  - intros p w. unfold inb. cbn. destruct (_ =? _); eauto 10.
  - intros n w. cbn. eauto.
  - intros c x y b s H. split; [|done]. apply (pointer_ok_same s); try done; apply H.
  - split; try done; cbv; try (split; congruence || reflexivity); repeat split; congruence || reflexivity.
  - cbn. lia.
  - cbn. lia.
Defined.
