(* ===== verification/Window.v ===== *)
(** * The console's window and its cursor, [shell/cursor.c], [shell_screen.c] and the window of
      [commands/commands.c]

    What the shell and the editor draw with.  They are written against the class
    [TextScreen], whose laws say that drawing returns and keeps the screen in order; the
    console of [Console.v] with the cursor is its instance. *)

From Stdlib Require Import ZArith Lia String.
From stdpp Require Import base list numbers.
From S2P Require Import Prelude Alloc CString Buffer Font Display Console.
Open Scope Z_scope.
Set Default Goal Selector "!".

Definition black : Z := 0xFF000000.
Definition red : Z := 0xFF8B0000.
Definition green : Z := 0xFF00FF00.
Definition yellow : Z := 0xFFFACC15.
Definition blue : Z := 0xFF0000FF.
Definition purple : Z := 0xFFC084FC.
Definition cyan : Z := 0x0000FFFF.
Definition white : Z := 0xFFD0D0D0.
Definition gray_20 : Z := 0xFF404040.
Definition gray_70 : Z := 0xFFD0D0D0.
Definition CONSOLESCREEN_BG_COLOR : Z := 0x000000.
Definition CONSOLESCREEN_COLOR : Z := 0xFFFFFF.
Definition CONSOLE_PADDING_X : Z := 0.
Definition CURSOR_BLINK_RATE : Z := 300.
Definition CURSOR_HEIGHT : Z := 2.

(** The console with the variables of [cursor.c]. *)
Record window (A X : Type) := mk_window {
  w_console : console A X;
  cursor_visible : Z;
  cursor_blink_counter : Z;
  cursor_enabled : Z;
}.
Arguments mk_window {A X}.
Arguments w_console {A X}.
Arguments cursor_visible {A X}.
Arguments cursor_blink_counter {A X}.
Arguments cursor_enabled {A X}.

(** The timer, as the cursor uses it. *)
Class TimerEvents (X : Type) := {
  subscribe_event : Z → Z → Z → M X Z;  (** handler, interval in milliseconds, repeat *)
}.
(** The number that stands for [cursor_timer_callback]. *)
Definition CURSOR_TIMER_CALLBACK : Z := 1.

Section window.
  Context {A X : Type} `{!AllocOps A} `{!TextOutputs X} `{!TimerEvents X}.
  Abbreviation S := (window A X).

Definition on_console {B} (m : M (console A X) B) : M S B :=
  zoom w_console (λ c s, mk_window c (cursor_visible s) (cursor_blink_counter s) (cursor_enabled s)) m.
Definition on_screen {B} (m : M (display A) B) : M S B := on_console (on_display m).
Definition set_blink (visible counter enabled : Z) (s : S) : S := mk_window (w_console s) visible counter enabled.
Definition screen (s : S) : display A := c_display (w_console s).

(** [fm_get_char_width() * font_scale] and [fm_get_char_height() * font_scale] *)
Definition char_width (d : display A) : Z := u32 (fm_get_char_width * font_scale d).
Definition char_height (d : display A) : Z := u32 (fm_get_char_height * font_scale d).

(** ** [cursor.c] *)

Definition cursor_bar (color : Z) : M S unit :=
  s ← get;
  let d := screen s in
  let cursor_y_pos := u32 (cursor_y d + char_height d - CURSOR_HEIGHT * font_scale d) in
  on_screen (draw_rect (cursor_x d) cursor_y_pos (char_width d) (u32 (CURSOR_HEIGHT * font_scale d)) color).

Definition cursor_draw : M S unit :=
  s ← get;
  if negb (truthy (cursor_visible s)) || negb (truthy (cursor_enabled s)) then mret tt
  else cursor_bar CONSOLESCREEN_COLOR.
Definition cursor_c : M S unit := cursor_bar CONSOLESCREEN_BG_COLOR.
Definition cursor_redraw : M S unit := cursor_c;; cursor_draw.
Definition cursor_enable : M S unit := modify (set_blink 1 0 1).
Definition cursor_disable : M S unit :=
  cursor_c;; modify (λ s, set_blink (cursor_visible s) (cursor_blink_counter s) 0 s).
Definition cursor_reset_blink : M S unit := modify (λ s, set_blink 1 0 (cursor_enabled s) s).

Definition cursor_timer_callback : M S unit :=
  s ← get;
  if negb (truthy (cursor_enabled s)) then mret tt else
  let counter := u32 (cursor_blink_counter s + 1) in
  if CURSOR_BLINK_RATE <=? counter then
    modify (set_blink (b2z (negb (truthy (cursor_visible s)))) 0 (cursor_enabled s));;
    cursor_redraw
  else modify (set_blink (cursor_visible s) counter (cursor_enabled s)).

Definition cursor_ : M S unit :=
  modify (set_blink 1 0 1);;
  on_console (on_outputs (subscribe_event CURSOR_TIMER_CALLBACK 1 1));;
  mret tt.

(** ** The window of [commands.c] *)

Definition console_window_clear (color : Z) : M S unit :=
  d ← gets screen;
  let banner_h := banner_get_height in
  on_screen (draw_rect 0 banner_h (fb_width d) (u32 (fb_height d - banner_h)) color;;
             modify (put_cursor CONSOLE_PADDING_X banner_h)).
Definition console_window_update_layout : M S unit :=
  on_screen (modify (λ d, if cursor_y d <? banner_get_height then put_cursor (cursor_x d) banner_get_height d else d)).
Definition console_window_scroll_lines (lines : Z) : M S unit :=
  if lines =? 0 then mret tt else
  d ← gets screen;
  on_screen (
    scroll_up lines;;
    let scroll_pixels := u32 (lines * char_height d) in
    modify (λ d, put_cursor (cursor_x d)
      (if scroll_pixels <=? cursor_y d then cursor_y d - scroll_pixels else banner_get_height) d);;
    d ← get;
    if truthy (double_buffering_enabled d) then graphics_swap_buffers else mret tt).
Definition console_window_get_visible_lines : M S Z :=
  gets (λ s, u32 (fb_height (screen s) - banner_get_height) / char_height (screen s)).
Definition console_window_needs_scroll : M S Z :=
  gets (λ s, b2z (fb_height (screen s) <? u32 (cursor_y (screen s) + char_height (screen s)))).

(** ** [shell_screen.c] *)

Definition User : str := chars "kernix".
Definition Host : str := chars "host".

Definition shell_clear_screen (color : Z) : M S unit := console_window_clear color.
(** [cwd] is the array of [acsh.c]. *)
Definition shell_print_prompt (cwd : list Z) : M S unit :=
  let text t c := on_console (string t c) in
  text [10] white;;
  text User green;;
  text (chars "@") green;;
  text Host green;;
  text (chars ":") white;;
  n ← of_option (str_len cwd);
  l ← of_option (if 1 <? n then arr_get cwd (n - 1) else Some 0);
  (if (1 <? n) && (l =? 47) then
     prompt_cwd ← of_option (str_copy (replicate 256 0) cwd);
     prompt_cwd ← of_option (arr_set prompt_cwd (n - 1) 0);
     text (c_text prompt_cwd) gray_70
   else mret tt);;
  text (chars "# ") gray_70.
End window.

(** ** What the shell and the editor draw with *)

Class TextScreen (W : Type) := {
  tx_width : W → Z;
  tx_height : W → Z;
  tx_scale : W → Z;                            (** [font_scale] *)
  tx_cursor : W → Z * Z;                       (** [cursor_x], [cursor_y] *)
  tx_double : W → Z;                           (** [graphics_is_double_buffering_enabled()] *)
  tx_move : Z → Z → M W unit;                  (** [cursor_x = x; cursor_y = y;] *)
  tx_string : str → Z → M W unit;              (** [string], [print] *)
  tx_putchar : Z → Z → M W unit;
  tx_rect : Z → Z → Z → Z → Z → M W unit;      (** [draw_rect] *)
  tx_clear : Z → M W unit;                     (** [shell_clear_screen] *)
  tx_prompt : list Z → M W unit;               (** [shell_print_prompt] *)
  tx_swap : M W unit;                          (** [graphics_swap_buffers] *)
  tx_cursor_draw : M W unit;
  tx_cursor_c : M W unit;
  tx_reset_blink : M W unit;
}.

(** The operation returns from a screen in order and leaves it in order, with its size. *)
Definition screen_keeps {W} `{!TextScreen W} (ok : W → Prop) {B} (m : M W B) : Prop :=
  ∀ w, ok w → wp m (λ _ w', ok w' ∧ tx_width w' = tx_width w ∧ tx_height w' = tx_height w ∧ tx_scale w' = tx_scale w) w.

Class TextScreenLaws (W : Type) `{!TextScreen W} := {
  tx_ok : W → Prop;
  tx_size : ∀ w, tx_ok w → 1 ≤ tx_scale w ≤ 4 ∧ 8 * tx_scale w ≤ tx_width w < 2 ^ 31 ∧ 16 * tx_scale w < tx_height w < 2 ^ 31;
  tx_move_ok : ∀ x y w, tx_ok w → 0 ≤ x < 2 ^ 31 → 0 ≤ y → y + 16 * tx_scale w ≤ tx_height w →
    wp (tx_move x y) (λ _ w', tx_ok w' ∧ tx_width w' = tx_width w ∧ tx_height w' = tx_height w ∧ tx_scale w' = tx_scale w) w;
  tx_cursor_ok : ∀ w, tx_ok w → 0 ≤ (tx_cursor w).1 < 2 ^ 31 ∧ 0 ≤ (tx_cursor w).2 ∧ (tx_cursor w).2 + 16 * tx_scale w ≤ tx_height w;
  tx_string_ok : ∀ s c, screen_keeps tx_ok (tx_string s c);
  tx_putchar_ok : ∀ a c, screen_keeps tx_ok (tx_putchar a c);
  tx_rect_ok : ∀ x y w h c, 0 ≤ x → 0 ≤ w → x + w < 2 ^ 32 → screen_keeps tx_ok (tx_rect x y w h c);
  tx_clear_ok : ∀ c, screen_keeps tx_ok (tx_clear c);
  tx_prompt_ok : ∀ cwd s, holds cwd s → (length cwd ≤ 256)%nat → screen_keeps tx_ok (tx_prompt cwd);
  tx_swap_ok : screen_keeps tx_ok tx_swap;
  tx_cursor_draw_ok : screen_keeps tx_ok tx_cursor_draw;
  tx_cursor_c_ok : screen_keeps tx_ok tx_cursor_c;
  tx_reset_blink_ok : screen_keeps tx_ok tx_reset_blink;
}.

(** Where the cursor is: drawing it does not move it, and the prompt begins a line. *)
Class TextCursorLaws (W : Type) `{!TextScreen W} `{!TextScreenLaws W} := {
  tc_move : ∀ x y w, tx_ok w → wp (tx_move x y) (λ _ w', tx_cursor w' = (x, y)) w;
  tc_swap : ∀ w, tx_ok w → wp tx_swap (λ _ w', tx_cursor w' = tx_cursor w) w;
  tc_draw : ∀ w, tx_ok w → wp tx_cursor_draw (λ _ w', tx_cursor w' = tx_cursor w) w;
  tc_hide : ∀ w, tx_ok w → wp tx_cursor_c (λ _ w', tx_cursor w' = tx_cursor w) w;
  tc_blink : ∀ w, tx_ok w → wp tx_reset_blink (λ _ w', tx_cursor w' = tx_cursor w) w;
  tc_prompt : ∀ cwd t w, holds cwd t → (length cwd ≤ 256)%nat → tx_ok w →
    wp (tx_prompt cwd) (λ _ w', (tx_cursor w').1 ≤ tx_width w') w;
}.

Lemma c_text_holds a t : holds a t → c_text a = t.
Proof.
  intros (Hs & rest & ->). induction Hs as [|c t Hc Hs IH]; [done|]. cbn [c_text app]. rewrite char_nonzero by done. by rewrite IH.
Qed.

Section instance.
  Context {A X : Type} `{!AllocOps A} `{!TextOutputs X} `{!TimerEvents X}.
  Abbreviation S := (window A X).

#[export] Instance window_screen : TextScreen S := {|
  tx_width s := fb_width (screen s);
  tx_height s := fb_height (screen s);
  tx_scale s := font_scale (screen s);
  tx_cursor s := (cursor_x (screen s), cursor_y (screen s));
  tx_double s := double_buffering_enabled (screen s);
  tx_move x y := on_screen (modify (put_cursor x y));
  tx_string t c := on_console (string t c);
  tx_putchar a c := on_screen (putchar a c);
  tx_rect x y w h c := on_screen (draw_rect x y w h c);
  tx_clear c := shell_clear_screen c;
  tx_prompt cwd := shell_print_prompt cwd;
  tx_swap := on_screen graphics_swap_buffers;
  tx_cursor_draw := cursor_draw;
  tx_cursor_c := cursor_c;
  tx_reset_blink := cursor_reset_blink;
|}.

(** The console draws on the screen, which is in order. *)
Definition window_ok (s : S) : Prop := console_ok (screen s) ∧ gui_mode (w_console s) = 0.

Lemma keeps_ret {W} `{!TextScreen W} (ok : W → Prop) {B} (b : B) : screen_keeps ok (mret b).
Proof. intros w H. by apply wp_ret. Qed.

Lemma keeps_bind {W} `{!TextScreen W} (ok : W → Prop) {B C} (m : M W B) (f : B → M W C) :
  screen_keeps ok m → (∀ b, screen_keeps ok (f b)) → screen_keeps ok (m ≫= f).
Proof.
  intros Hm Hf w Hw. apply wp_bind. eapply wp_mono; [by apply Hm|]. intros b w1 (H1 & E1 & E2 & E3).
  eapply wp_mono; [by apply Hf|]. intros c w2 (H2 & F1 & F2 & F3). split_and!; congruence.
Qed.

(** A step that looks at the state, and a choice. *)
Lemma keeps_gets {W} `{!TextScreen W} (ok : W → Prop) {B C} (g : W → B) (f : B → M W C) :
  (∀ w, ok w → wp (f (g w)) (λ _ w', ok w' ∧ tx_width w' = tx_width w ∧ tx_height w' = tx_height w ∧ tx_scale w' = tx_scale w) w) →
  screen_keeps ok (x ← gets g; f x).
Proof. intros H w Hw. apply wp_bind, wp_gets. auto. Qed.

Lemma keeps_if {W} `{!TextScreen W} (ok : W → Prop) {B} (b : bool) (m1 m2 : M W B) :
  screen_keeps ok m1 → screen_keeps ok m2 → screen_keeps ok (if b then m1 else m2).
Proof. by destruct b. Qed.

(** An operation on the display. *)
Lemma on_screen_keeps {B} (m : M (display A) B) (s : S) : window_ok s →
  wp m (λ _ d', console_ok d' ∧ same_screen (screen s) d') (screen s) →
  wp (on_screen m) (λ _ s', window_ok s' ∧ tx_width s' = tx_width s ∧ tx_height s' = tx_height s ∧ tx_scale s' = tx_scale s) s.
Proof.
  intros [Hok Hg]. unfold wp, on_screen, on_console, on_display, zoom, screen in *.
  destruct (m (c_display (w_console s))) as [b d'|]; [|done].
  intros (Hok' & E1 & E2 & E3 & E4 & E5 & E6). cbn. unfold window_ok, screen. cbn. by split_and!.
Qed.

(** A rectangle, wherever it is. *)
Lemma rect_run x y w h c (d : display A) : console_ok d → 0 ≤ x → 0 ≤ w → x + w < 2 ^ 32 →
  wp (draw_rect x y w h c) (λ _ d', console_ok d' ∧ same_screen d d' ∧ cursor_x d' = cursor_x d ∧ cursor_y d' = cursor_y d) d.
Proof.
  intros Hok Hx Hw Hxw. eapply wp_mono; [eapply (paints_same _ _ c d Hok), paints_for|].
  - intros i Hi. apply paints_horizontal; [apply Hok|done|apply u32_range|done|done].
  - intros [] d' (Hs & Ex & Ey). split_and!; try done. pose proof Hok as [].
    apply (console_ok_move d _ (cursor_x d) (cursor_y d)); done || lia.
Qed.

Lemma rect_keeps x y w h c : 0 ≤ x → 0 ≤ w → x + w < 2 ^ 32 → screen_keeps window_ok (on_screen (draw_rect x y w h c)).
Proof.
  intros Hx Hw Hxw s Hs. apply on_screen_keeps; [done|]. eapply wp_mono; [by apply rect_run; [apply Hs|..]|].
  intros [] d' (? & ? & _). done.
Qed.

Lemma char_size (d : display A) : console_ok d → char_width d = 8 * font_scale d ∧ char_height d = 16 * font_scale d.
Proof.
  intros []. unfold char_width, char_height, fm_get_char_width, fm_get_char_height, FONT_WIDTH, FONT_HEIGHT, u32.
  rewrite !Z.mod_small by lia. done.
Qed.

Lemma cursor_bar_keeps c : screen_keeps window_ok (cursor_bar c).
Proof.
  intros s Hs. unfold cursor_bar. apply wp_bind, wp_get. pose proof Hs as [[] _].
  apply rect_keeps; [lia|apply u32_range| |done].
  rewrite (proj1 (char_size _ (proj1 Hs))). lia.
Qed.

Lemma string_run t c s (Q : unit → S → Prop) : window_ok s →
  (∀ s', window_ok s' → still_ok (screen s) tt (screen s') → (∀ d, putchars t c (screen s) = Done tt d → screen s' = d) → Q tt s') →
  wp (on_console (string t c)) Q s.
Proof.
  intros [Hok Hg] HQ. pose proof (putchars_run t c (screen s) Hok) as H. apply wp_run in H as ([] & d & E & H & Hs & Hx).
  unfold wp, on_console, zoom, string, get, gets, on_display, zoom. mred. unfold screen in *. rewrite Hg.
  cbn [truthy Z.eqb negb]. rewrite E. cbn [c_display]. rewrite (co_single d H).
  cbn [truthy Z.eqb negb]. unfold mret, M_ret. cbn. apply HQ; [done|done|]. intros d' Ed. cbn. congruence.
Qed.

Lemma string_keeps t c : screen_keeps window_ok (on_console (string t c)).
Proof.
  intros s Hs. apply string_run; [done|]. intros s' Hok (_ & (? & ? & ? & ? & _) & _) _. by split_and!.
Qed.

(** A string leaves the cursor inside the screen when it was there. *)
Lemma string_inside t c (s : S) : window_ok s ∧ cursor_x (screen s) ≤ fb_width (screen s) →
  wp (on_console (string t c)) (λ _ s', window_ok s' ∧ cursor_x (screen s') ≤ fb_width (screen s')) s.
Proof.
  intros [Hs Hx]. apply string_run; [done|]. intros s' Hok (_ & (E & _) & Hx') _. split; [done|]. rewrite E. lia.
Qed.

Lemma newline_inside c (s : S) : window_ok s →
  wp (on_console (string [10] c)) (λ _ s', window_ok s' ∧ cursor_x (screen s') ≤ fb_width (screen s')) s.
Proof.
  intros Hs. apply string_run; [done|]. intros s' Hok (_ & (E & _) & _) Hd. split; [done|].
  pose proof (new_line_run (screen s) (proj1 Hs)) as H. apply wp_run in H as ([] & d & Ed & _ & _ & Hx).
  assert (screen s' = d) as Es; [|rewrite E, Es, Hx; destruct Hs as [[] _]; lia].
  apply Hd. cbn [putchars]. unfold mbind, M_bind. change (putchar 10 c (screen s)) with (new_line (screen s)). by rewrite Ed.
Qed.

Lemma clear_keeps c : screen_keeps window_ok (shell_clear_screen c).
Proof.
  unfold shell_clear_screen, console_window_clear, banner_get_height. apply keeps_gets. intros s Hs.
  apply on_screen_keeps; [done|]. pose proof Hs as [Hok _]. pose proof Hok as [].
  apply wp_bind. eapply wp_mono; [apply rect_run; [done|lia..]|]. intros [] d (Hok' & Hs' & Ex & Ey).
  apply wp_modify. pose proof Hs' as (E1 & E2 & E3 & E4 & E5 & E6). split; [|done].
  apply console_ok_put; [done|unfold CONSOLE_PADDING_X; lia|done|]. rewrite E2, E4. lia.
Qed.

Lemma prompt_keeps cwd t : holds cwd t → (length cwd ≤ 256)%nat → screen_keeps window_ok (shell_print_prompt cwd).
Proof.
  intros Hc Hl. pose proof (holds_length _ _ Hc). unfold shell_print_prompt. rewrite (str_len_holds _ _ Hc).
  do 5 (apply keeps_bind; [apply string_keeps|intros _]). set (n := Z.of_nat (length t)).
  intros w Hw. apply wp_bind, (wp_of_option _ n); [done|].
  assert (∃ l, (if 1 <? n then arr_get cwd (n - 1) else Some 0) = Some l) as [l El].
  { destruct (Z.ltb_spec 1 n); [|eauto]. destruct (arr_get_inside cwd (n - 1)) as (v & E & _); [lia|eauto]. }
  apply wp_bind, (wp_of_option _ l); [done|]. revert w Hw.
  apply keeps_bind; [|intros _; apply string_keeps].
  destruct (Z.ltb_spec 1 n); [|apply keeps_ret]. apply keeps_if; [|apply keeps_ret]. intros w Hw.
  apply wp_bind. eapply wp_of_option; [apply str_copy_holds; [done|rewrite length_replicate; lia]|].
  apply wp_bind. eapply wp_of_option; [apply arr_set_inside|by apply string_keeps].
  rewrite length_app. cbn [length]. rewrite length_drop, length_replicate. subst n. lia.
Qed.

(** The bar of the cursor does not move it. *)
Lemma bar_cursor c (s : S) : window_ok s → wp (cursor_bar c) (λ _ s', tx_cursor s' = tx_cursor s) s.
Proof.
  intros Hs. unfold cursor_bar. apply wp_bind, wp_get. pose proof Hs as [[] _]. unfold wp, on_screen, on_console, on_display, zoom.
  assert (H : wp (draw_rect (cursor_x (screen s)) (u32 (cursor_y (screen s) + char_height (screen s) - CURSOR_HEIGHT * font_scale (screen s)))
    (char_width (screen s)) (u32 (CURSOR_HEIGHT * font_scale (screen s))) c)
    (λ _ d', cursor_x d' = cursor_x (screen s) ∧ cursor_y d' = cursor_y (screen s)) (screen s)).
  { eapply wp_mono; [apply rect_run; [apply Hs|lia|apply u32_range|rewrite (proj1 (char_size _ (proj1 Hs))); lia]|].
    by intros [] d' (_ & _ & H). }
  unfold screen in *. unfold wp in H. destruct (draw_rect _ _ _ _ _ _) as [b d'|]; [|done]. destruct H as [E1 E2].
  cbn. unfold screen. cbn. by rewrite E1, E2.
Qed.

Lemma prompt_inside cwd t w : holds cwd t → (length cwd ≤ 256)%nat → window_ok w →
  wp (shell_print_prompt cwd) (λ _ w', cursor_x (screen w') ≤ fb_width (screen w')) w.
Proof.
  intros Hc Hl Hw. pose proof (holds_length _ _ Hc). unfold shell_print_prompt. rewrite (str_len_holds _ _ Hc). set (n := Z.of_nat (length t)).
  apply wp_bind. eapply wp_mono; [by apply newline_inside|]. cbv beta. intros _ w1 H1. clear w Hw.
  do 4 (apply wp_bind; eapply wp_mono; [apply string_inside, H1|]; cbv beta; clear w1 H1; intros _ w1 H1).
  apply wp_bind, (wp_of_option _ n); [done|].
  assert (∃ l, (if 1 <? n then arr_get cwd (n - 1) else Some 0) = Some l) as [l El].
  { destruct (Z.ltb_spec 1 n); [|eauto]. destruct (arr_get_inside cwd (n - 1)) as (v & E & _); [lia|eauto]. }
  apply wp_bind, (wp_of_option _ l); [done|]. apply wp_bind.
  eapply (wp_mono _ (λ _ w2, window_ok w2 ∧ cursor_x (screen w2) ≤ fb_width (screen w2))).
  - destruct (Z.ltb_spec 1 n); [|by apply wp_ret]. destruct (l =? 47); [|by apply wp_ret]. cbn [andb].
    apply wp_bind. eapply wp_of_option; [apply str_copy_holds; [done|rewrite length_replicate; lia]|].
    apply wp_bind. eapply wp_of_option; [apply arr_set_inside|by apply string_inside].
    rewrite length_app. cbn [length]. rewrite length_drop, length_replicate. subst n. lia.
  - intros _ w2 H2. eapply wp_mono; [apply string_inside, H2|]. by intros _ w3 [_ ?].
Qed.

(** The console with its cursor is such a screen. *)
#[export] Instance window_screen_laws : TextScreenLaws S.
Proof.
  refine {| tx_ok := window_ok |}.
  - intros w [[] _]. cbn. lia.
  - intros x y w Hw Hx Hy Hyh. apply on_screen_keeps; [done|]. apply wp_modify. split; [|done].
    by apply console_ok_put; try apply Hw.
  - intros w [[] _]. cbn. lia.
  - intros s c. apply string_keeps.
  - intros a c w Hw. apply on_screen_keeps; [done|]. eapply wp_mono; [apply putchar_run, Hw|].
    by intros [] d' (? & ? & _).
  - intros. by apply rect_keeps.
  - apply clear_keeps.
  - apply prompt_keeps.
  - intros w Hw. apply on_screen_keeps; [done|]. unfold wp, graphics_swap_buffers.
    rewrite (co_single _ (proj1 Hw)). cbn. split; [apply Hw|by unfold same_screen].
  - intros w Hw. unfold tx_cursor_draw; cbn. unfold cursor_draw. apply wp_bind, wp_get.
    destruct (negb _ || _); [by apply wp_ret|by apply cursor_bar_keeps].
  - apply cursor_bar_keeps.
  - intros w Hw. apply wp_modify. by destruct Hw.
Defined.
#[export] Instance window_cursor_laws : TextCursorLaws S.
Proof.
  split.
  - intros x y w Hw. by apply wp_modify.
  - intros w Hw. cbn. unfold wp, on_screen, on_console, on_display, zoom, graphics_swap_buffers.
    pose proof (co_single _ (proj1 (Hw : window_ok w))) as E. unfold screen in E. by rewrite E.
  - intros w Hw. cbn. unfold cursor_draw. apply wp_bind, wp_get. destruct (negb _ || _); [by apply wp_ret|]. by apply bar_cursor.
  - intros w Hw. by apply bar_cursor.
  - intros w Hw. by apply wp_modify.
  - intros cwd t w Hc Hl Hw. by eapply prompt_inside.
Qed.
End instance.

(** The files, as programs use them. *)
Class Files (W : Type) := {
  f_open : str → Z → M W Z;             (** [fs_open] *)
  f_read : Z → Z → M W (Z * list Z);    (** [fs_read]: what it returns and the bytes it has put *)
  f_write : Z → list Z → M W Z;         (** [fs_write] *)
  f_close : Z → M W Z;                  (** [fs_close] *)
}.
