(* ===== verification/Kedit.v ===== *)
(** * The text editor, [shell/commands/kedit.c]

    A hundred lines of 255 characters and a cursor.  Every key refines a step of an editor on
    lists of strings, and what is loaded from a file is what is saved. *)

From Stdlib Require Import ZArith Lia String.
From stdpp Require Import base list numbers.
From S2P Require Import Prelude CString Buffer Vfs Console Window.
Open Scope Z_scope.
Set Default Goal Selector "!".

Definition MAX_LINES : Z := 100.
Definition MAX_LINE_LEN : Z := 256.

(** [e_world] is the screen and the files. *)
Record editor (W : Type) := mk_editor {
  lines : list (list Z);
  line_count : Z;
  edit_cursor_x : Z;
  edit_cursor_y : Z;
  filename : list Z;
  modified : Z;
  in_kedit : Z;
  e_world : W;
}.
Arguments mk_editor {W}.
Arguments lines {W}.
Arguments line_count {W}.
Arguments edit_cursor_x {W}.
Arguments edit_cursor_y {W}.
Arguments filename {W}.
Arguments modified {W}.
Arguments in_kedit {W}.
Arguments e_world {W}.

(** ** An editor on lists of strings *)

Record text := mk_text { t_lines : list str; t_x : nat; t_y : nat }.

Definition line_at (t : text) : str := t_lines t !!! t_y t.

(** A character goes in at the cursor while the line has room. *)
Definition text_insert (c : Z) (t : text) : text :=
  let l := line_at t in
  if (255 <=? length l)%nat then t
  else mk_text (<[t_y t := take (t_x t) l ++ c :: drop (t_x t) l]> (t_lines t)) (S (t_x t)) (t_y t).

(** The character before the cursor goes; at the start of a line it is joined to the one
    before when the two fit in one. *)
Definition text_delete (t : text) : text :=
  let l := line_at t in
  match t_x t, t_y t with
  | S x, _ => mk_text (<[t_y t := take x l ++ drop (S x) l]> (t_lines t)) x (t_y t)
  | O, O => t
  | O, S y =>
      let p := t_lines t !!! y in
      if (length p + length l <? 255)%nat
      then mk_text (<[y := p ++ l]> (delete (S y) (t_lines t))) (length p) y else t
  end.

(** A line is split at the cursor while there are lines left. *)
Definition text_newline (t : text) : text :=
  let l := line_at t in
  if (100 <=? length (t_lines t))%nat then t
  else mk_text (take (t_y t) (t_lines t) ++ take (t_x t) l :: drop (t_x t) l :: drop (S (t_y t)) (t_lines t)) 0 (S (t_y t)).

Definition text_move (dx dy : Z) (t : text) : text :=
  let y := Z.to_nat (Z.min (Z.max (Z.of_nat (t_y t) + dy) 0) (Z.of_nat (length (t_lines t)) - 1)) in
  let x := Z.to_nat (Z.min (Z.max (Z.of_nat (t_x t) + dx) 0) (Z.of_nat (length (t_lines t !!! y : str)))) in
  mk_text (t_lines t) x y.

(** What a key does. *)
Definition text_key (key : Z) (t : text) : text :=
  if (key =? 10) || (key =? 13) then text_newline t
  else if (key =? 8) || (key =? 127) then text_delete t
  else if (32 <=? key) && (key <=? 126) then text_insert key t
  else if key =? 0x80 then text_move 0 (-1) t
  else if key =? 0x81 then text_move 0 1 t
  else if key =? 0x82 then text_move (-1) 0 t
  else if key =? 0x83 then text_move 1 0 t
  else t.

(** The complete lines and the one begun after some more characters, and the lines of a file. *)
Fixpoint scan (ls : list str) (cur : str) (buf : str) : list str * str :=
  match buf with
  | [] => (ls, cur)
  | c :: buf' => if c =? 10 then scan (ls ++ [cur]) [] buf' else scan ls (cur ++ [c]) buf'
  end.
Definition file_lines (content : str) : list str :=
  match scan [] [] content with
  | ([], []) => [[]]
  | (ls, []) => ls
  | (ls, cur) => ls ++ [cur]
  end.

(** Ninety-nine lines of 255 characters: what is loaded in full. *)
Fixpoint fits (n k : nat) (buf : str) : bool :=
  match buf with
  | [] => true
  | c :: buf' => (n <=? 98)%nat && if c =? 10 then fits (S n) 0 buf' else (k <=? 254)%nat && fits n (S k) buf'
  end.

Fixpoint join (ls : list str) : str :=
  match ls with
  | [] => []
  | [l] => l
  | l :: ls' => l ++ 10 :: join ls'
  end.

Definition unlines (ls : list str) : str := concat (map (λ l, l ++ [10]) ls).

Lemma join_snoc ls x : join (ls ++ [x]) = unlines ls ++ x.
Proof.
  induction ls as [|l ls IH]; [done|]. unfold unlines in *. cbn [map List.concat app]. rewrite <-!app_assoc, <-IH.
  cbn [join app]. by destruct ls.
Qed.

Lemma unlines_snoc ls x : unlines (ls ++ [x]) = unlines ls ++ x ++ [10].
Proof. unfold unlines. rewrite map_app, concat_app. cbn. by rewrite app_nil_r. Qed.

Lemma scan_app ls cur a b : scan ls cur (a ++ b) = scan (scan ls cur a).1 (scan ls cur a).2 b.
Proof. revert ls cur. induction a as [|c a IH]; intros ls cur; cbn; [done|]. by destruct (c =? 10). Qed.

Lemma scan_text ls cur buf : let '(ls', cur') := scan ls cur buf in unlines ls' ++ cur' = unlines ls ++ cur ++ buf.
Proof.
  revert ls cur. induction buf as [|c buf IH]; intros ls cur; cbn [scan]; [by rewrite app_nil_r|].
  destruct (Z.eqb_spec c 10) as [->|_].
  - specialize (IH (ls ++ [cur]) []). destruct (scan _ _ _) as [ls' cur']. rewrite IH, unlines_snoc, <-!app_assoc. done.
  - specialize (IH ls (cur ++ [c])). destruct (scan _ _ _) as [ls' cur']. by rewrite IH, <-!app_assoc.
Qed.

(** What is saved of what was loaded: the file, but for a newline at its end. *)
Lemma join_file_lines content : content = join (file_lines content) ∨ content = join (file_lines content) ++ [10].
Proof.
  pose proof (scan_text [] [] content) as H. unfold file_lines. destruct (scan [] [] content) as [ls cur].
  cbn in H. rewrite <-H. destruct cur as [|c cur].
  - destruct ls as [|x ls _] using rev_ind; [by left|]. right. rewrite app_nil_r, unlines_snoc, app_assoc, <-join_snoc.
    by destruct ls.
  - left. destruct ls as [|l ls]; symmetry; [done|]. apply (join_snoc (l :: ls)).
Qed.

Lemma fits_app n k a b : fits n k (a ++ b) = true → ∀ ls cur, length ls = n → length cur = k →
  fits n k a = true ∧ fits (length (scan ls cur a).1) (length (scan ls cur a).2) b = true.
Proof.
  revert n k. induction a as [|c a IH]; intros n k H ls cur <- <-; cbn in *; [done|].
  apply andb_prop in H as [-> H]. destruct (c =? 10).
  - apply (IH _ _ H); [rewrite length_app; cbn; lia|done].
  - apply andb_prop in H as [-> H]. apply (IH _ _ H); [done|rewrite length_app; cbn; lia].
Qed.

Section kedit.
  Context {W : Type} `{!TextScreen W} `{!Files W}.
  Abbreviation S := (editor W).

Definition on_world {B} (m : M W B) : M S B :=
  zoom e_world (λ w e, mk_editor (lines e) (line_count e) (edit_cursor_x e) (edit_cursor_y e) (filename e)
    (modified e) (in_kedit e) w) m.
Definition set_lines (l : list (list Z)) (e : S) : S :=
  mk_editor l (line_count e) (edit_cursor_x e) (edit_cursor_y e) (filename e) (modified e) (in_kedit e) (e_world e).
Definition set_count (n : Z) (e : S) : S :=
  mk_editor (lines e) n (edit_cursor_x e) (edit_cursor_y e) (filename e) (modified e) (in_kedit e) (e_world e).
Definition set_edit_cursor (x y : Z) (e : S) : S :=
  mk_editor (lines e) (line_count e) x y (filename e) (modified e) (in_kedit e) (e_world e).
Definition set_filename (f : list Z) (e : S) : S :=
  mk_editor (lines e) (line_count e) (edit_cursor_x e) (edit_cursor_y e) f (modified e) (in_kedit e) (e_world e).
Definition set_modified (v : Z) (e : S) : S :=
  mk_editor (lines e) (line_count e) (edit_cursor_x e) (edit_cursor_y e) (filename e) v (in_kedit e) (e_world e).
Definition set_in_kedit (v : Z) (e : S) : S :=
  mk_editor (lines e) (line_count e) (edit_cursor_x e) (edit_cursor_y e) (filename e) (modified e) v (e_world e).

(** [lines[i]] as an array, its replacement, and [lines[i][j] = c;]. *)
Definition get_line (i : Z) : M S (list Z) := e ← get; of_option (if 0 <=? i then lines e !! Z.to_nat i else None).
Definition put_line (i : Z) (a : list Z) : M S unit := modify (λ e, set_lines (<[Z.to_nat i := a]> (lines e)) e).
Definition put_char (i j c : Z) : M S unit := a ← get_line i; a ← of_option (arr_set a j c); put_line i a.
Definition line_len (i : Z) : M S Z := a ← get_line i; of_option (str_len a).
(** [str_copy(lines[i], source)] *)
Definition copy_line (i : Z) (source : list Z) : M S unit :=
  a ← get_line i; a ← of_option (str_copy a source); put_line i a.

(** ** Drawing *)

Definition char_height (w : W) : Z := u32 (16 * tx_scale w).

Definition kedit_clear_screen : M S unit := on_world (tx_clear CONSOLESCREEN_BG_COLOR).

Definition status_text (e : S) : option (list Z) :=
  s ← str_copy (replicate 256 0) (lit "KEDIT - ");
  s ← str_append s (filename e);
  s ← (if truthy (modified e) then str_append s (lit " *") else Some s);
  s ← str_append s (lit " | Line: ");
  s ← str_append_uint s (edit_cursor_y e + 1);
  s ← str_append s (lit " Col: ");
  s ← str_append_uint s (edit_cursor_x e + 1);
  str_append s (lit " | Ctrl+S Save, Ctrl+Q Quit").

Definition kedit_draw_status : M S unit :=
  e ← get;
  let w := e_world e in
  let status_y := u32 (tx_height w - char_height w) in
  on_world (tx_rect 0 status_y (tx_width w) (char_height w) gray_20);;
  status ← of_option (status_text e);
  w' ← gets e_world;
  let '(cursor_x_save, cursor_y_save) := tx_cursor w' in
  on_world (tx_move 0 (status_y / char_height w));;
  on_world (tx_string (c_text status) white);;
  on_world (tx_move cursor_x_save cursor_y_save).

(** [start_y] is [banner_get_height()], zero. *)
Definition kedit_draw : M S unit :=
  kedit_clear_screen;;
  h ← gets (λ e, char_height (e_world e));
  let start_y := banner_get_height in
  n ← gets line_count;
  for_to 0 n (λ i,
    on_world (tx_move 0 (u32 (start_y / h + i + 1)));;
    a ← get_line i;
    on_world (tx_string (c_text a) gray_70));;
  kedit_draw_status;;
  e ← get;
  on_world (tx_move (u32 (edit_cursor_x e)) (u32 (start_y / h + edit_cursor_y e + 1)));;
  on_world tx_cursor_draw.

(** ** Files *)

(** The body of the loop over the characters read, with [line_idx] and [buf_pos]; the last
    component says that the loop was left. *)
Fixpoint load_chars (buf : list Z) (line_idx buf_pos : Z) : M S (Z * Z * bool) :=
  match buf with
  | [] => mret (line_idx, buf_pos, false)
  | c :: buf' =>
      if (c =? 10) || (MAX_LINES - 1 <=? line_idx) then
        put_char line_idx buf_pos 0;;
        if MAX_LINES <=? line_idx + 1 then mret (line_idx + 1, 0, true) else load_chars buf' (line_idx + 1) 0
      else if buf_pos <? MAX_LINE_LEN - 1 then
        put_char line_idx buf_pos c;;
        load_chars buf' line_idx (buf_pos + 1)
      else load_chars buf' line_idx buf_pos
  end.

(** [while ((bytes_read = fs_read(fd, buf, 1024)) > 0)] *)
Definition load_step (fd : Z) (v : Z * Z) : M S (Z * Z + Z * Z) :=
  '(bytes_read, buf) ← on_world (f_read fd 1024);
  let bytes_read := i32 bytes_read in
  if bytes_read <=? 0 then mret (inr v) else
  '(line_idx, buf_pos, stop) ← load_chars (take (Z.to_nat bytes_read) buf) (fst v) (snd v);
  mret (if stop || (MAX_LINES <=? line_idx) then inr (line_idx, buf_pos) else inl (line_idx, buf_pos)).

Definition kedit_load (fuel : nat) (fname : list Z) : M S unit :=
  e ← get;
  f ← of_option (str_copy (filename e) fname);
  modify (set_filename f);;
  fd ← on_world (f_open (c_text fname) O_RDONLY);
  if fd <? 0 then
    modify (set_count 1);;
    copy_line 0 (lit "")
  else
    '(line_idx, buf_pos) ← iterM fuel (load_step fd) (0, 0);
    line_idx ← (if (0 <? buf_pos) && (line_idx <? MAX_LINES) then
                  put_char line_idx buf_pos 0;; mret (line_idx + 1)
                else mret line_idx);
    modify (set_count line_idx);;
    (if line_idx =? 0 then modify (set_count 1);; copy_line 0 (lit "") else mret tt);;
    on_world (f_close fd);;
    modify (set_modified 0).

Definition kedit_save : M S unit :=
  e ← get;
  c ← of_option (arr_get (filename e) 0);
  if c =? 0 then mret tt else
  fd ← on_world (f_open (c_text (filename e)) (Z.lor O_WRONLY O_CREAT));
  if fd <? 0 then on_world (tx_string (chars "Error: Cannot save file" ++ [10]) red) else
  for_to 0 (line_count e) (λ i,
    a ← get_line i;
    n ← of_option (str_len a);
    on_world (f_write fd (take (Z.to_nat n) a));;
    if i <? line_count e - 1 then on_world (f_write fd [10]);; mret tt else mret tt);;
  on_world (f_close fd);;
  modify (set_modified 0);;
  w ← gets e_world;
  on_world (tx_move 0 (u32 (tx_height w / char_height w - 2)));;
  on_world (tx_string (chars "File saved successfully") green).

(** ** Editing *)

Definition kedit_insert_char (c : Z) : M S unit :=
  e ← get;
  let x := edit_cursor_x e in
  let y := edit_cursor_y e in
  if MAX_LINE_LEN - 1 <=? x then mret tt else
  len ← line_len y;
  if MAX_LINE_LEN - 1 <=? len then mret tt else
  for_to 0 (len - x + 1) (λ k,
    a ← get_line y; v ← of_option (arr_get a (len - k)); put_char y (len - k + 1) v);;
  put_char y x c;;
  modify (set_edit_cursor (x + 1) y);;
  modify (set_modified 1).

Definition kedit_delete_char : M S unit :=
  e ← get;
  let x := edit_cursor_x e in
  let y := edit_cursor_y e in
  len ← line_len y;
  (if (0 <? x) && (0 <? len) then
     for_to (x - 1) len (λ i, a ← get_line y; v ← of_option (arr_get a (i + 1)); put_char y i v);;
     modify (set_edit_cursor (x - 1) y)
   else if (x =? 0) && (0 <? y) then
     prev_len ← line_len (y - 1);
     if prev_len + len <? MAX_LINE_LEN - 1 then
       line ← get_line y;
       prev ← get_line (y - 1);
       prev ← of_option (str_append prev line);
       put_line (y - 1) prev;;
       for_to y (line_count e - 1) (λ i, next ← get_line (i + 1); copy_line i next);;
       modify (set_count (line_count e - 1));;
       modify (set_edit_cursor prev_len (y - 1))
     else mret tt
   else mret tt);;
  modify (set_modified 1).

Definition kedit_new_line : M S unit :=
  e ← get;
  let x := edit_cursor_x e in
  let y := edit_cursor_y e in
  if MAX_LINES <=? line_count e then mret tt else
  current_len ← line_len y;
  if current_len <? x then mret tt else
  for_to 0 (line_count e - (y + 1)) (λ k, prev ← get_line (line_count e - k - 1); copy_line (line_count e - k) prev);;
  current ← get_line y;
  rest ← of_option (str_copy (replicate 256 0) (drop (Z.to_nat x) current));
  put_char y x 0;;
  copy_line (y + 1) rest;;
  modify (set_count (line_count e + 1));;
  modify (set_edit_cursor 0 (y + 1));;
  modify (set_modified 1).

Definition kedit_move_cursor (dx dy : Z) : M S unit :=
  e ← get;
  let x := edit_cursor_x e + dx in
  let y := edit_cursor_y e + dy in
  let y := if y <? 0 then 0 else y in
  let y := if line_count e <=? y then line_count e - 1 else y in
  let x := if x <? 0 then 0 else x in
  modify (set_edit_cursor x y);;
  n ← line_len y;
  if n <? x then modify (set_edit_cursor n y) else mret tt.

(** [cwd] is the working directory the prompt shows. *)
Definition kedit_handle_key (cwd : list Z) (key : Z) : M S unit :=
  if key =? 17 then
    modify (set_in_kedit 0);;
    on_world (tx_clear CONSOLESCREEN_BG_COLOR);;
    on_world (tx_prompt cwd)
  else if key =? 19 then kedit_save;; kedit_draw
  else if (key =? 10) || (key =? 13) then kedit_new_line;; kedit_draw
  else if (key =? 8) || (key =? 127) then kedit_delete_char;; kedit_draw
  else if (32 <=? key) && (key <=? 126) then kedit_insert_char (u8 key);; kedit_draw
  else if key =? 0x80 then kedit_move_cursor 0 (-1);; kedit_draw
  else if key =? 0x81 then kedit_move_cursor 0 1;; kedit_draw
  else if key =? 0x82 then kedit_move_cursor (-1) 0;; kedit_draw
  else if key =? 0x83 then kedit_move_cursor 1 0;; kedit_draw
  else mret tt.

(** [s] is the array with the arguments. *)
Definition cmd_kedit (fuel : nat) (s : list Z) : M S unit :=
  c ← of_option (arr_get s 0);
  if c =? 0 then on_world (tx_string (chars "Usage: kedit <filename>" ++ [10]) red) else
  on_world (tx_clear CONSOLESCREEN_BG_COLOR);;
  modify (set_edit_cursor 0 0);;
  modify (set_modified 0);;
  kedit_load fuel s;;
  kedit_draw;;
  modify (set_in_kedit 1).

(** ** Steps of the operations *)

Lemma wp_on_world {B} (m : M W B) (Q : B → S → Prop) e :
  wp m (λ b w, Q b (mk_editor (lines e) (line_count e) (edit_cursor_x e) (edit_cursor_y e) (filename e)
    (modified e) (in_kedit e) w)) (e_world e) → wp (on_world m) Q e.
Proof. unfold wp, on_world, zoom. by destruct (m (e_world e)). Qed.

Lemma get_line_run f i s e (Q : list Z → S → Prop) : rows (lines e) f → f i = Some s →
  (∀ a, lines e !! i = Some a → text_in 256 a s → Q a e) → wp (get_line (Z.of_nat i)) Q e.
Proof.
  intros Hr Hi HQ. destruct (rows_row _ _ _ _ Hr Hi) as (a & Ha & Ht). unfold get_line. apply wp_bind, wp_get.
  rewrite (proj2 (Z.leb_le _ _)), Nat2Z.id by lia. eapply wp_of_option; [done|auto].
Qed.

Lemma line_len_run f i s e (Q : Z → S → Prop) : rows (lines e) f → f i = Some s →
  Q (Z.of_nat (length s)) e → wp (line_len (Z.of_nat i)) Q e.
Proof.
  intros Hr Hi HQ. unfold line_len. apply wp_bind, (get_line_run f i s); [done..|]. intros a _ [_ Ha].
  eapply wp_of_option; [by apply str_len_holds|done].
Qed.

Lemma copy_line_run f i src s e (Q : unit → S → Prop) : rows (lines e) f → (i < 100)%nat → holds src s →
  (length s < 256)%nat → (∀ L, rows L (upd f i s) → Q tt (set_lines L e)) → wp (copy_line (Z.of_nat i) src) Q e.
Proof.
  intros Hr Hi Hs Hl HQ. pose proof Hr as [Hc Hsz _]. destruct (lookup_lt_is_Some_2 (lines e) i) as [a Ha]; [lia|].
  unfold copy_line, get_line. apply wp_bind, wp_bind, wp_get. rewrite (proj2 (Z.leb_le _ _)), Nat2Z.id by lia.
  eapply wp_of_option; [done|]. rewrite Forall_lookup in Hsz.
  destruct (text_in_copy 256 a src s) as (a' & E & Ht); [by eapply Hsz|done..|].
  apply wp_bind. eapply wp_of_option; [done|]. unfold put_line. apply wp_modify. rewrite Nat2Z.id.
  by apply HQ, rows_put.
Qed.

(** One character of a row. *)
Lemma put_char_run L i a j c e (Q : unit → S → Prop) : lines e = <[i := a]> L → (i < length L)%nat →
  0 ≤ j < Z.of_nat (length a) → Q tt (set_lines (<[i := <[Z.to_nat j := c]> a]> L) e) → wp (put_char (Z.of_nat i) j c) Q e.
Proof.
  intros He Hi Hj HQ. unfold put_char, get_line. apply wp_bind, wp_bind, wp_get.
  rewrite (proj2 (Z.leb_le _ _)), Nat2Z.id, He, list_lookup_insert_eq by lia. eapply wp_of_option; [done|].
  apply wp_bind. eapply wp_of_option; [by apply arr_set_inside|]. unfold put_line. apply wp_modify.
  rewrite Nat2Z.id, He, list_insert_insert_eq. done.
Qed.

Lemma get_arr_run L i b e (Q : list Z → S → Prop) : lines e = <[i := b]> L → (i < length L)%nat →
  Q b e → wp (get_line (Z.of_nat i)) Q e.
Proof.
  intros He Hi HQ. unfold get_line. apply wp_bind, wp_get.
  rewrite (proj2 (Z.leb_le _ _)), Nat2Z.id, He, list_lookup_insert_eq by lia. by apply wp_of_option with b.
Qed.

(** [a[dst] = a[src]] in a row. *)
Lemma move_char_run L i b src dst e (Q : unit → S → Prop) v : lines e = <[i := b]> L → (i < length L)%nat →
  b !! src = Some v → (dst < length b)%nat → Q tt (set_lines (<[i := <[dst := v]> b]> L) e) →
  wp (a ← get_line (Z.of_nat i); v ← of_option (arr_get a (Z.of_nat src)); put_char (Z.of_nat i) (Z.of_nat dst) v) Q e.
Proof.
  intros He Hi Hv Hd HQ. apply wp_bind, (get_arr_run L i b); [done..|]. apply wp_bind, (wp_of_option _ v).
  { unfold arr_get. by rewrite (proj2 (Z.leb_le _ _)), Nat2Z.id by lia. }
  apply (put_char_run L i b); [done..|lia|]. by rewrite Nat2Z.id.
Qed.

(** The shift to the right that makes room for a character, and the one to the left. *)
Lemma shift_right_run L i a len x e : lines e = <[i := a]> L → (i < length L)%nat → (x ≤ len)%nat → (Datatypes.S len < length a)%nat →
  wp (for_to 0 (Z.of_nat len - Z.of_nat x + 1) (λ k,
        a ← get_line (Z.of_nat i); v ← of_option (arr_get a (Z.of_nat len - k)); put_char (Z.of_nat i) (Z.of_nat len - k + 1) v))
    (λ _ e', ∃ b, e' = set_lines (<[i := b]> L) e ∧ length b = length a ∧
       ∀ j, b !! j = if bool_decide (x < j ≤ Datatypes.S len)%nat then a !! (j - 1)%nat else a !! j) e.
Proof.
  intros He Hi Hx Hlen. eapply wp_mono.
  - apply (wp_for_to (λ k e', ∃ b, e' = set_lines (<[i := b]> L) e ∧ length b = length a ∧
       ∀ j, b !! j = if bool_decide (Z.of_nat len + 1 - k < Z.of_nat j ≤ Z.of_nat len + 1) then a !! (j - 1)%nat else a !! j)); [lia|..].
    + exists a. split_and!; [by destruct e; cbn in *; subst|done|]. intros j. by rewrite bool_decide_eq_false_2 by lia.
    + intros k e' Hk (b & -> & Hb & Hj). destruct (lookup_lt_is_Some_2 a (len - Z.to_nat k)) as [v Hv]; [lia|].
      replace (Z.of_nat len - k) with (Z.of_nat (len - Z.to_nat k)) by lia.
      replace (Z.of_nat (len - Z.to_nat k) + 1) with (Z.of_nat (Datatypes.S (len - Z.to_nat k))) by lia.
      eapply (move_char_run L i b _ _ _ _ v); [done|done| |lia|].
      { by rewrite Hj, bool_decide_eq_false_2 by lia. }
      eexists. split_and!; [done|by rewrite length_insert|]. intros j.
      destruct (decide (j = Datatypes.S (len - Z.to_nat k))) as [->|Hne].
      * rewrite list_lookup_insert_eq, bool_decide_eq_true_2 by lia. rewrite <-Hv. f_equal. lia.
      * rewrite list_lookup_insert_ne, Hj by done. repeat case_bool_decide; done || lia.
  - intros _ e' (b & -> & Hb & Hj). exists b. split_and!; [done..|]. intros j. rewrite Hj.
    repeat case_bool_decide; done || lia.
Qed.

Lemma shift_left_run L i a len x e : lines e = <[i := a]> L → (i < length L)%nat → (x ≤ len)%nat → (len < length a)%nat →
  wp (for_to (Z.of_nat x) (Z.of_nat len) (λ k,
        a ← get_line (Z.of_nat i); v ← of_option (arr_get a (k + 1)); put_char (Z.of_nat i) k v))
    (λ _ e', ∃ b, e' = set_lines (<[i := b]> L) e ∧ length b = length a ∧
       ∀ j, b !! j = if bool_decide (x ≤ j < len)%nat then a !! (Datatypes.S j) else a !! j) e.
Proof.
  intros He Hi Hx Hlen. eapply wp_mono.
  - apply (wp_for_to (λ k e', ∃ b, e' = set_lines (<[i := b]> L) e ∧ length b = length a ∧
       ∀ j, b !! j = if bool_decide (Z.of_nat x ≤ Z.of_nat j < k) then a !! (Datatypes.S j) else a !! j)); [lia|..].
    + exists a. split_and!; [by destruct e; cbn in *; subst|done|]. intros j. by rewrite bool_decide_eq_false_2 by lia.
    + intros k e' Hk (b & -> & Hb & Hj). assert (∃ n : nat, k = Z.of_nat n) as [n ->] by (exists (Z.to_nat k); lia).
      destruct (lookup_lt_is_Some_2 a (Datatypes.S n)) as [v Hv]; [lia|].
      replace (Z.of_nat n + 1) with (Z.of_nat (Datatypes.S n)) by lia.
      eapply (move_char_run L i b _ _ _ _ v); [done|done| |lia|].
      { by rewrite Hj, bool_decide_eq_false_2 by lia. }
      eexists. split_and!; [done|by rewrite length_insert|]. intros j.
      destruct (decide (j = n)) as [->|Hne].
      * rewrite list_lookup_insert_eq, bool_decide_eq_true_2 by lia. by rewrite Hv.
      * rewrite list_lookup_insert_ne, Hj by done. repeat case_bool_decide; done || lia.
  - intros _ e' (b & -> & Hb & Hj). exists b. split_and!; [done..|]. intros j. rewrite Hj.
    repeat case_bool_decide; done || lia.
Qed.

(** ** The editor on strings *)

Context `{!TextScreenLaws W}.

(** The state [e] shows the text [t] on a screen with room for it. *)
Record editing (e : S) (t : text) : Prop := {
  ed_rows : rows (lines e) (λ i, t_lines t !! i);
  ed_count : line_count e = Z.of_nat (length (t_lines t));
  ed_max : (length (t_lines t) ≤ 100)%nat;
  ed_y : edit_cursor_y e = Z.of_nat (t_y t) ∧ (t_y t < length (t_lines t))%nat;
  ed_x : edit_cursor_x e = Z.of_nat (t_x t) ∧ (t_x t ≤ length (line_at t))%nat;
  ed_name : ∃ f, text_in 256 (filename e) f ∧ (length f ≤ 180)%nat;
  ed_world : tx_ok (e_world e) ∧ 101 + 16 * tx_scale (e_world e) ≤ tx_height (e_world e);
}.

Lemma editing_line e t : editing e t → t_lines t !! t_y t = Some (line_at t).
Proof. intros []. unfold line_at. apply list_lookup_lookup_total_lt. tauto. Qed.

Lemma editing_row e t : editing e t → ∃ a, lines e !! t_y t = Some a ∧ text_in 256 a (line_at t) ∧
  (t_y t < length (lines e))%nat.
Proof.
  intros H. destruct (rows_row _ _ _ _ (ed_rows e t H) (editing_line e t H)) as (a & Ha & Ht).
  exists a. split_and!; [done..|]. by eapply lookup_lt_Some.
Qed.

(** The line of the cursor is replaced, and the cursor moves in it. *)
Lemma editing_update e t b l x m : editing e t → text_in 256 b l → (x ≤ length l)%nat →
  editing (set_modified m (set_edit_cursor (Z.of_nat x) (edit_cursor_y e) (set_lines (<[t_y t := b]> (lines e)) e)))
    (mk_text (<[t_y t := l]> (t_lines t)) x (t_y t)).
Proof.
  intros [Hr Hc Hm [Hy Hyl] [Hx Hxl] Hn Hw] Hb Hxb. split; cbn; rewrite ?length_insert; try done.
  - eapply rows_ext; [apply rows_put; [done|lia|done]|]. intros i s. unfold upd. cbn.
    destruct (decide (i = t_y t)) as [->|Hne]; [by rewrite list_lookup_insert_eq by lia|by rewrite list_lookup_insert_ne].
  - split; [done|]. unfold line_at. cbn. by rewrite list_lookup_total_insert_eq by lia.
Qed.

Lemma insert_run c e t : editing e t → is_char c → wp (kedit_insert_char c) (λ _ e', editing e' (text_insert c t)) e.
Proof.
  intros H Hc. pose proof H as [Hr _ Hm [Hy Hyl] [Hx Hxl] _ _].
  destruct (editing_row e t H) as (a & Ha & Ht & HyL). pose proof (text_in_fits _ _ _ Ht) as Hfit.
  unfold kedit_insert_char, text_insert, MAX_LINE_LEN. apply wp_bind, wp_get. rewrite Hx, Hy.
  destruct (Z.leb_spec (256 - 1) (Z.of_nat (t_x t))).
  { apply wp_ret. by rewrite (proj2 (Nat.leb_le 255 _)) by lia. }
  apply wp_bind, (line_len_run _ _ (line_at t) _ _ Hr); [by apply (editing_line e)|].
  destruct (Z.leb_spec (256 - 1) (Z.of_nat (length (line_at t)))).
  { apply wp_ret. by rewrite (proj2 (Nat.leb_le 255 _)) by lia. }
  rewrite (proj2 (Nat.leb_gt 255 _)) by lia. apply wp_bind.
  assert (lines e = <[t_y t := a]> (lines e)) as He by (by rewrite list_insert_id).
  destruct Ht as [Hla Hha]. eapply wp_mono; [apply (shift_right_run (lines e) (t_y t) a); done || lia|].
  intros [] e' (b & -> & Hb & Hj). apply wp_bind, (put_char_run (lines e) (t_y t) b); [done|done|lia|].
  rewrite Nat2Z.id. apply wp_bind, wp_modify, wp_modify. replace (Z.of_nat (t_x t) + 1) with (Z.of_nat (Datatypes.S (t_x t))) by lia.
  rewrite <-Hy. apply (editing_update e t); [done| |rewrite length_app; cbn; rewrite length_take, length_drop; lia].
  split; [rewrite length_insert; lia|]. apply holds_lookup in Hha as (Hs & Hi & Hend). apply holds_lookup.
  assert (length (take (t_x t) (line_at t) ++ c :: drop (t_x t) (line_at t)) = Datatypes.S (length (line_at t))) as El
    by (rewrite length_app; cbn; rewrite length_take, length_drop; lia).
  rewrite El. split_and!.
  - apply Forall_app_2; [by apply Forall_take|]. constructor; [done|by apply Forall_drop].
  - intros i Hil. destruct (lt_eq_lt_dec i (t_x t)) as [[Hlt| ->]|Hgt].
    + rewrite list_lookup_insert_ne, Hj, bool_decide_eq_false_2, lookup_app_l, lookup_take_lt by (rewrite ?length_take; lia).
      apply Hi. lia.
    + rewrite list_lookup_insert_eq by lia. rewrite lookup_app_r, length_take by (rewrite length_take; lia).
      by replace (t_x t - _)%nat with 0%nat by lia.
    + rewrite list_lookup_insert_ne, Hj, bool_decide_eq_true_2, lookup_app_r, length_take by (rewrite ?length_take; lia).
      replace (i - _ `min` _)%nat with (Datatypes.S (i - t_x t - 1)) by lia. rewrite lookup_cons, lookup_drop, Hi by lia. f_equal. lia.
  - rewrite list_lookup_insert_ne, Hj, bool_decide_eq_true_2 by lia. by rewrite Nat.sub_1_r.
Qed.

(** A row copied to another. *)
Lemma copy_line_from_run f i j s e (Q : unit → S → Prop) : rows (lines e) f → f j = Some s → (i < 100)%nat →
  (∀ L, rows L (upd f i s) → Q tt (set_lines L e)) →
  wp (next ← get_line (Z.of_nat j); copy_line (Z.of_nat i) next) Q e.
Proof.
  intros Hr Hj Hi HQ. apply wp_bind, (get_line_run f j s); [done..|]. intros a _ Ht.
  apply (copy_line_run f _ _ s); [done|done|apply Ht|by eapply text_in_fits|done].
Qed.

(** The rows below a joined line go up, those below a split one go down. *)
Lemma rows_up_run f y n e : rows (lines e) f → (∀ j, (j < n)%nat → is_Some (f j)) → (y < n ≤ 100)%nat →
  wp (for_to (Z.of_nat y) (Z.of_nat n - 1) (λ i, next ← get_line (i + 1); copy_line i next))
    (λ _ e', ∃ L, e' = set_lines L e ∧ rows L (λ j, if bool_decide (y ≤ j ∧ Datatypes.S j < n)%nat then f (Datatypes.S j) else f j)) e.
Proof.
  intros Hr Hf Hy. eapply wp_mono.
  - apply (wp_for_to (λ i e', ∃ L, e' = set_lines L e ∧
      rows L (λ j, if bool_decide (Z.of_nat y ≤ Z.of_nat j < i) then f (Datatypes.S j) else f j))); [lia|..].
    + exists (lines e). split; [by destruct e|]. eapply rows_ext; [done|]. intros j s.
      by rewrite bool_decide_eq_false_2 by lia.
    + intros i e' Hi (L & -> & HL). assert (∃ k : nat, i = Z.of_nat k) as [k ->] by (exists (Z.to_nat i); lia).
      destruct (Hf (Datatypes.S k)) as [s Hs]; [lia|]. replace (Z.of_nat k + 1) with (Z.of_nat (Datatypes.S k)) by lia.
      eapply copy_line_from_run; [exact HL| |lia|].
      { cbn. rewrite bool_decide_eq_false_2 by lia. exact Hs. }
      intros L' HL'. exists L'. split; [done|]. eapply rows_ext; [done|]. intros j t. unfold upd.
      destruct (decide (j = k)) as [->|Hne].
      * rewrite bool_decide_eq_true_2 by lia. congruence.
      * repeat case_bool_decide; done || lia.
  - intros [] e' (L & -> & HL). exists L. split; [done|]. eapply rows_ext; [done|]. intros j s.
    repeat case_bool_decide; done || lia.
Qed.

Lemma rows_down_run f y n e : rows (lines e) f → (∀ j, (j < n)%nat → is_Some (f j)) → (y < n < 100)%nat →
  wp (for_to 0 (Z.of_nat n - (Z.of_nat y + 1)) (λ k, prev ← get_line (Z.of_nat n - k - 1); copy_line (Z.of_nat n - k) prev))
    (λ _ e', ∃ L, e' = set_lines L e ∧ rows L (λ j, if bool_decide (Datatypes.S y < j ≤ n)%nat then f (j - 1)%nat else f j)) e.
Proof.
  intros Hr Hf Hy. eapply wp_mono.
  - apply (wp_for_to (λ k e', ∃ L, e' = set_lines L e ∧
      rows L (λ j, if bool_decide (Z.of_nat n - k < Z.of_nat j ≤ Z.of_nat n) then f (j - 1)%nat else f j))); [lia|..].
    + exists (lines e). split; [by destruct e|]. eapply rows_ext; [done|]. intros j s.
      by rewrite bool_decide_eq_false_2 by lia.
    + intros k e' Hk (L & -> & HL). set (i := (n - Z.to_nat k)%nat).
      destruct (Hf (i - 1)%nat) as [s Hs]; [lia|]. replace (Z.of_nat n - k - 1) with (Z.of_nat (i - 1)) by lia.
      replace (Z.of_nat n - k) with (Z.of_nat i) by lia.
      eapply copy_line_from_run; [exact HL| |lia|].
      { cbn. rewrite bool_decide_eq_false_2 by lia. exact Hs. }
      intros L' HL'. exists L'. split; [done|]. eapply rows_ext; [done|]. intros j t. unfold upd.
      destruct (decide (j = i)) as [->|Hne].
      * rewrite bool_decide_eq_true_2 by lia. congruence.
      * repeat case_bool_decide; done || lia.
  - intros [] e' (L & -> & HL). exists L. split; [done|]. eapply rows_ext; [done|]. intros j s.
    repeat case_bool_decide; done || lia.
Qed.

(** A character of the line goes. *)
Lemma remove_run e t x : editing e t → t_x t = Datatypes.S x →
  wp ((for_to (Z.of_nat x) (Z.of_nat (length (line_at t)))
         (λ i, a ← get_line (Z.of_nat (t_y t)); v ← of_option (arr_get a (i + 1)); put_char (Z.of_nat (t_y t)) i v);;
       modify (set_edit_cursor (Z.of_nat x) (Z.of_nat (t_y t))));; modify (set_modified 1))
    (λ _ e', editing e' (text_delete t)) e.
Proof.
  intros H Ex. pose proof H as [_ _ _ [Hy _] [_ Hxl] _ _]. rewrite Ex in Hxl.
  destruct (editing_row e t H) as (a & Ha & Ht & HyL). pose proof (text_in_fits _ _ _ Ht) as Hfit. destruct Ht as [Hla Hha].
  apply wp_bind, wp_bind. eapply wp_mono; [apply (shift_left_run (lines e) (t_y t) a); [by rewrite list_insert_id|done|lia..]|].
  intros [] e' (b & -> & Hb & Hj). apply wp_modify, wp_modify. rewrite <-Hy.
  unfold text_delete. rewrite Ex. set (l := line_at t) in *.
  assert (length (take x l ++ drop (Datatypes.S x) l) = (length l - 1)%nat) as El
    by (rewrite length_app, length_take, length_drop; lia).
  apply (editing_update e t); [done| |lia]. split; [lia|].
  apply holds_lookup in Hha as (Hs & Hi & Hend). apply holds_lookup. rewrite El. split_and!.
  - apply Forall_app_2; [by apply Forall_take|by apply Forall_drop].
  - intros i Hil. rewrite Hj. destruct (decide (i < x)%nat).
    + rewrite bool_decide_eq_false_2, lookup_app_l, lookup_take_lt by (rewrite ?length_take; lia). apply Hi. lia.
    + rewrite bool_decide_eq_true_2, lookup_app_r, length_take, lookup_drop, Hi by (rewrite ?length_take; lia). f_equal. lia.
  - rewrite Hj, bool_decide_eq_true_2 by lia. rewrite <-Hend. f_equal. lia.
Qed.

Lemma delete_run e t : editing e t → wp kedit_delete_char (λ _ e', editing e' (text_delete t)) e.
Proof.
  intros H. pose proof H as [Hr Hc Hm [Hy Hyl] [Hx Hxl] Hn Hw].
  destruct (editing_row e t H) as (a & Ha & Ht & HyL). pose proof (text_in_fits _ _ _ Ht) as Hfit.
  unfold kedit_delete_char. apply wp_bind, wp_get. rewrite Hx, Hy, Hc.
  apply wp_bind, (line_len_run _ _ (line_at t) _ _ Hr); [by apply (editing_line e)|].
  destruct (t_x t) as [|x] eqn:Ex.
  2: { rewrite (proj2 (Z.ltb_lt _ _)), (proj2 (Z.ltb_lt _ _)) by lia. cbn [andb].
    replace (Z.of_nat (Datatypes.S x) - 1) with (Z.of_nat x) by lia.
    by apply remove_run. }
  change (Z.of_nat 0) with 0. change (0 <? 0) with false. change (0 =? 0) with true. cbn [andb].
  assert (Hsame : ∀ t', t' = t → wp (mret tt;; modify (set_modified 1)) (λ _ e', editing e' t') e).
  { intros t' ->. apply wp_bind, wp_ret, wp_modify. destruct H. by split. }
  unfold text_delete. rewrite Ex. destruct (t_y t) as [|y] eqn:Ey; [by apply Hsame|].
  rewrite (proj2 (Z.ltb_lt 0 _)) by lia. replace (Z.of_nat (Datatypes.S y) - 1) with (Z.of_nat y) by lia.
  set (p := t_lines t !!! y). assert (t_lines t !! y = Some p) as Hp by (apply list_lookup_lookup_total_lt; lia).
  apply wp_bind, wp_bind, (line_len_run _ _ p _ _ Hr); [done|]. set (l := line_at t) in *.
  destruct (Nat.ltb_spec (length p + length l) 255) as [Hfits|Hfits].
  2: { rewrite (proj2 (Z.ltb_ge _ _)) by (unfold MAX_LINE_LEN; lia).
       specialize (Hsame t eq_refl). unfold wp in *. done. }
  rewrite (proj2 (Z.ltb_lt _ _)) by (unfold MAX_LINE_LEN; lia).
  assert (t_lines t !! Datatypes.S y = Some l) as Hl by (rewrite <-Ey; by apply (editing_line e)).
  apply wp_bind, (get_line_run _ _ l _ _ Hr Hl). intros al _ Hal.
  apply wp_bind, (get_line_run _ _ p _ _ Hr Hp). intros ap _ Hap.
  destruct (text_in_append 256 ap al p l) as (ap' & E & Hap'); [done|apply Hal|lia|].
  apply wp_bind. eapply wp_of_option; [done|]. unfold put_line. apply wp_bind, wp_modify. rewrite Nat2Z.id.
  apply wp_bind. eapply wp_mono.
  { apply (rows_up_run (upd (λ i, t_lines t !! i) y (p ++ l)) (Datatypes.S y) (length (t_lines t))); [|intros j Hj|lia].
    - apply rows_put; [done|lia|done].
    - unfold upd. case_decide; [eauto|by apply lookup_lt_is_Some_2]. }
  intros [] e' (L & -> & HL). apply wp_bind, wp_modify, wp_modify, wp_modify.
  assert (length (delete (Datatypes.S y) (t_lines t)) = (length (t_lines t) - 1)%nat) as Ed by (rewrite length_delete; [lia|eauto]).
  split; cbn; rewrite ?length_insert, ?Ed; try done; try lia.
  - eapply rows_ext; [done|]. intros i s. unfold upd. destruct (decide (i = y)) as [->|Hne].
    + rewrite list_lookup_insert_eq by lia. rewrite bool_decide_eq_false_2 by lia. by destruct (decide (y = y)).
    + rewrite list_lookup_insert_ne by done. intros Hi. pose proof (lookup_lt_Some _ _ _ Hi) as Hli. rewrite Ed in Hli.
      destruct (decide (Datatypes.S y ≤ i)%nat).
      * rewrite bool_decide_eq_true_2 by lia. destruct (decide (Datatypes.S i = y)); [lia|].
        by rewrite list_lookup_delete_ge in Hi by lia.
      * rewrite bool_decide_eq_false_2 by lia. by rewrite list_lookup_delete_lt in Hi by lia.
  - split; [done|]. unfold line_at. cbn. rewrite list_lookup_total_insert_eq by lia. rewrite length_app. lia.
Qed.

Lemma newline_run e t : editing e t → wp kedit_new_line (λ _ e', editing e' (text_newline t)) e.
Proof.
  intros H. pose proof H as [Hr Hc Hm [Hy Hyl] [Hx Hxl] Hn Hw]. pose proof (editing_line e t H) as Hl.
  unfold kedit_new_line, text_newline. apply wp_bind, wp_get. rewrite Hx, Hy, Hc. unfold MAX_LINES.
  destruct (Nat.leb_spec 100 (length (t_lines t))).
  { rewrite (proj2 (Z.leb_le _ _)) by lia. by apply wp_ret. }
  rewrite (proj2 (Z.leb_gt _ _)) by lia. set (l := line_at t) in *. set (x := t_x t) in *. set (y := t_y t) in *.
  apply wp_bind, (line_len_run _ _ l _ _ Hr); [done|]. rewrite (proj2 (Z.ltb_ge _ _)) by lia.
  apply wp_bind. eapply wp_mono; [apply (rows_down_run _ y _ _ Hr); [intros; by apply lookup_lt_is_Some_2|lia]|].
  intros [] e' (L & -> & HL). apply wp_bind, (get_line_run _ _ l (set_lines L e) _ HL).
  { cbn. by rewrite bool_decide_eq_false_2 by lia. }
  intros cur Hcur [Hcl Hch]. cbn in Hcur. pose proof (holds_length _ _ Hch). rewrite Nat2Z.id.
  destruct (text_in_copy 256 (replicate 256 0) (drop x cur) (drop x l)) as (rest & E & Hrest);
    [done|by apply holds_drop|rewrite length_drop; lia|].
  apply wp_bind. eapply wp_of_option; [done|]. apply wp_bind, (put_char_run L y cur); [by rewrite list_insert_id|by eapply lookup_lt_Some|lia|].
  rewrite Nat2Z.id. replace (Z.of_nat y + 1) with (Z.of_nat (Datatypes.S y)) by lia.
  assert (text_in 256 (<[x := 0]> cur) (take x l)) as Hcut by (split; [by rewrite length_insert|by apply holds_take]).
  apply wp_bind. eapply copy_line_run; [apply (rows_put _ _ y (<[x := 0]> cur) (take x l) HL); [lia|exact Hcut]|lia|apply Hrest|by eapply text_in_fits|].
  intros L' HL'. apply wp_bind, wp_modify, wp_bind, wp_modify, wp_modify.
  set (ls := take y (t_lines t) ++ _). assert (length ls = Datatypes.S (length (t_lines t))) as El.
  { subst ls. rewrite length_app. cbn. rewrite length_take, length_drop. lia. }
  assert (Hat : ∀ j, ls !! j = if decide (j = Datatypes.S y) then Some (drop x l) else if decide (j = y) then Some (take x l)
    else if bool_decide (Datatypes.S y < j)%nat then t_lines t !! (j - 1)%nat else t_lines t !! j).
  { intros j. subst ls. destruct (decide (j < y)%nat).
    { rewrite lookup_app_l, lookup_take_lt by (rewrite ?length_take; lia).
      destruct (decide (j = Datatypes.S y)), (decide (j = y)); try lia. by rewrite bool_decide_eq_false_2 by lia. }
    rewrite lookup_app_r, length_take, Nat.min_l by (rewrite ?length_take; lia).
    destruct (decide (j = Datatypes.S y)) as [->|]; [by replace (Datatypes.S y - y)%nat with 1%nat by lia|].
    destruct (decide (j = y)) as [->|]; [by rewrite Nat.sub_diag|]. rewrite bool_decide_eq_true_2 by lia.
    replace (j - y)%nat with (Datatypes.S (Datatypes.S (j - y - 2))) by lia. rewrite !lookup_cons, lookup_drop. f_equal. lia. }
  split; cbn; rewrite ?El; try done; try lia.
  eapply rows_ext; [done|]. intros j s. rewrite Hat. unfold upd. repeat case_decide; try done.
  repeat case_bool_decide; try done; try lia.
  intros Hj%lookup_lt_Some. lia.
Qed.

Lemma move_run dx dy e t : editing e t → wp (kedit_move_cursor dx dy) (λ _ e', editing e' (text_move dx dy t)) e.
Proof.
  intros H. pose proof H as [Hr Hc Hm [Hy Hyl] [Hx Hxl] Hn Hw].
  unfold kedit_move_cursor, text_move. apply wp_bind, wp_get. rewrite Hx, Hy, Hc.
  set (y := Z.to_nat (Z.min (Z.max (Z.of_nat (t_y t) + dy) 0) _)). set (p := t_lines t !!! y).
  assert (∀ b : bool, b = (Z.of_nat (t_y t) + dy <? 0) →
    (if Z.of_nat (length (t_lines t)) <=? (if b then 0 else Z.of_nat (t_y t) + dy)
     then Z.of_nat (length (t_lines t)) - 1 else if b then 0 else Z.of_nat (t_y t) + dy) = Z.of_nat y) as Ey.
  { intros b ->. subst y. clear p. destruct (Z.ltb_spec (Z.of_nat (t_y t) + dy) 0); case_match eqn:Hle; lia. }
  rewrite (Ey _ eq_refl). clear Ey. assert (y < length (t_lines t))%nat as Hyn by (subst y; lia).
  assert (t_lines t !! y = Some p) as Hp by (by apply list_lookup_lookup_total_lt).
  apply wp_bind, wp_modify, wp_bind, (line_len_run (λ i, t_lines t !! i) y p); [done|done|].
  set (x := Z.to_nat (Z.min (Z.max (Z.of_nat (t_x t) + dx) 0) _)).
  destruct (Z.ltb_spec (Z.of_nat (length p)) (if Z.of_nat (t_x t) + dx <? 0 then 0 else Z.of_nat (t_x t) + dx)).
  - apply wp_modify. split; cbn; try done. unfold line_at. cbn. fold p.
    destruct (Z.ltb_spec (Z.of_nat (t_x t) + dx) 0); subst x; lia.
  - apply wp_ret. split; cbn; try done. unfold line_at. cbn. fold p.
    destruct (Z.ltb_spec (Z.of_nat (t_x t) + dx) 0); subst x; lia.
Qed.

(** ** Drawing changes nothing *)

Definition with_world (w : W) (e : S) : S :=
  mk_editor (lines e) (line_count e) (edit_cursor_x e) (edit_cursor_y e) (filename e) (modified e) (in_kedit e) w.

Definition same_size (w w' : W) : Prop :=
  tx_width w' = tx_width w ∧ tx_height w' = tx_height w ∧ tx_scale w' = tx_scale w.

(** Only the screen is different, and it is still in order. *)
Definition drawn (e e' : S) : Prop := ∃ w, e' = with_world w e ∧ tx_ok w ∧ same_size (e_world e) w.

Lemma redrawn_refl e : tx_ok (e_world e) → drawn e e.
Proof. intros H. exists (e_world e). by destruct e. Qed.

Lemma redrawn_trans e1 e2 e3 : drawn e1 e2 → drawn e2 e3 → drawn e1 e3.
Proof.
  intros (w2 & -> & _ & ? & ? & ?) (w3 & -> & Hok & ? & ? & ?). exists w3. unfold same_size in *. cbn in *.
  split_and!; [done|done|congruence..].
Qed.

Lemma editing_drawn e e' t : editing e t → drawn e e' → editing e' t.
Proof. intros [] (w & -> & Hw & E1 & E2 & E3). split; cbn; try done. rewrite E2, E3. tauto. Qed.

Lemma draw_op {B} (m : M W B) e :
  wp m (λ _ w', tx_ok w' ∧ tx_width w' = tx_width (e_world e) ∧ tx_height w' = tx_height (e_world e) ∧
    tx_scale w' = tx_scale (e_world e)) (e_world e) → wp (on_world m) (λ _ e', drawn e e') e.
Proof.
  intros H. apply wp_on_world. eapply wp_mono; [exact H|]. intros b w (? & ? & ? & ?). exists w. by split_and!.
Qed.

(** Two steps of drawing. *)
Lemma draw_then {B C} (m : M S B) (f : B → M S C) e : wp m (λ _ e', drawn e e') e →
  (∀ b e1, drawn e e1 → wp (f b) (λ _ e', drawn e1 e') e1) → wp (m ≫= f) (λ _ e', drawn e e') e.
Proof.
  intros Hm Hf. apply wp_bind. eapply wp_mono; [done|]. intros b e1 H1. eapply wp_mono; [by apply Hf|].
  intros c e2 H2. exact (redrawn_trans _ _ _ H1 H2).
Qed.

Lemma status_some e t : editing e t → is_Some (status_text e).
Proof.
  intros [_ _ _ _ _ (f & Hf & Hfl) _]. unfold status_text.
  destruct (text_in_copy 256 (replicate 256 0) (lit "KEDIT - ") (chars "KEDIT - ")) as (s1 & -> & H1);
    [done|apply holds_lit; eval_decide|cbn; lia|]. cbn [mbind option_bind].
  destruct (text_in_append 256 s1 (filename e) _ f H1) as (s2 & -> & H2); [apply Hf|cbn; lia|]. cbn [mbind option_bind].
  assert (∃ s3 u, (if truthy (modified e) then str_append s2 (lit " *") else Some s2) = Some s3 ∧ text_in 256 s3 u ∧
    (length u ≤ 190)%nat) as (s3 & u3 & -> & H3 & L3).
  { destruct (truthy (modified e)).
    - destruct (text_in_append 256 s2 (lit " *") _ (chars " *") H2) as (s3 & -> & H3);
        [apply holds_lit; eval_decide|rewrite length_app; cbn; lia|].
      eexists _, _. split_and!; [done|done|rewrite !length_app; cbn; lia].
    - eexists _, _. split_and!; [done|done|rewrite !length_app; cbn; lia]. }
  cbn [mbind option_bind].
  destruct (text_in_append 256 s3 (lit " | Line: ") _ (chars " | Line: ") H3) as (s4 & -> & H4);
    [apply holds_lit; eval_decide|cbn; lia|]. cbn [mbind option_bind].
  destruct (text_in_append_uint 256 s4 _ (edit_cursor_y e + 1) H4) as (s5 & u5 & -> & H5 & L5); [rewrite length_app; cbn; lia|].
  cbn [mbind option_bind].
  destruct (text_in_append 256 s5 (lit " Col: ") _ (chars " Col: ") H5) as (s6 & -> & H6);
    [apply holds_lit; eval_decide|rewrite !length_app; cbn; lia|]. cbn [mbind option_bind].
  destruct (text_in_append_uint 256 s6 _ (edit_cursor_x e + 1) H6) as (s7 & u7 & -> & H7 & L7); [rewrite !length_app; cbn; lia|].
  cbn [mbind option_bind].
  destruct (text_in_append 256 s7 (lit " | Ctrl+S Save, Ctrl+Q Quit") _ (chars " | Ctrl+S Save, Ctrl+Q Quit") H7) as (s8 & -> & _);
    [apply holds_lit; eval_decide|rewrite !length_app; cbn; lia|]. eauto.
Qed.

(** The height of a character on the screen of the editor. *)
Lemma height_run e t : editing e t → let w := e_world e in
  char_height w = 16 * tx_scale w ∧ 0 < char_height w ∧ tx_ok w ∧ 1 ≤ tx_scale w ≤ 4 ∧
  101 + 16 * tx_scale w ≤ tx_height w < 2 ^ 31 ∧ 0 ≤ tx_width w < 2 ^ 31.
Proof.
  intros [_ _ _ _ _ _ [Hw Hh]]. pose proof (tx_size _ Hw). cbv zeta. unfold char_height, u32. rewrite Z.mod_small by lia.
  split_and!; done || lia.
Qed.

Lemma draw_status_run e t : editing e t → wp kedit_draw_status (λ _ e', drawn e e') e.
Proof.
  intros H. destruct (height_run e t H) as (Hch & Hpos & Hw & Hs & Hh & Hwd). cbv zeta in *.
  destruct (status_some e t H) as [status Est]. unfold kedit_draw_status. apply wp_bind, wp_get.
  apply draw_then. { apply draw_op, tx_rect_ok; [done|lia..|done]. }
  intros _ e1 D1. pose proof (editing_drawn _ _ _ H D1) as H1. destruct (status_some e1 t H1) as [st1 Est1].
  destruct D1 as (w1 & -> & Hw1 & E1 & E2 & E3). change (status_text (with_world w1 e)) with (status_text e). rewrite Est.
  apply wp_bind, (wp_of_option _ status); [done|]. apply wp_bind, wp_gets. cbn [e_world with_world].
  pose proof (tx_cursor_ok w1 Hw1) as Hcur. destruct (tx_cursor w1) as [sx sy]. cbn [fst snd] in Hcur.
  assert (0 ≤ u32 (tx_height (e_world e) - char_height (e_world e)) / char_height (e_world e) ≤ tx_height (e_world e) - char_height (e_world e)) as Hsy.
  { unfold u32. rewrite Z.mod_small by lia. split; [apply Z.div_pos; lia|]. apply Z.div_le_upper_bound; nia. }
  apply draw_then. { apply draw_op. cbn. apply tx_move_ok; try done; lia. }
  intros _ e2 (w2 & -> & Hw2 & F1 & F2 & F3). cbn in F1, F2, F3.
  apply draw_then. { apply draw_op, tx_string_ok. done. }
  intros _ e3 (w3 & -> & Hw3 & G1 & G2 & G3). cbn in G1, G2, G3.
  apply draw_op. cbn. apply tx_move_ok; [done|lia..].
Qed.

Lemma draw_run e t : editing e t → wp kedit_draw (λ _ e', drawn e e') e.
Proof.
  intros H. destruct (height_run e t H) as (Hch & Hpos & Hw & Hs & Hh & Hwd). cbv zeta in *.
  unfold kedit_draw, kedit_clear_screen. apply draw_then. { by apply draw_op, tx_clear_ok. }
  intros _ e1 D1. pose proof (editing_drawn _ _ _ H D1) as H1. destruct D1 as (w1 & -> & Hw1 & E1 & E2 & E3).
  destruct (height_run _ t H1) as (_ & Hpos1 & _). cbv zeta in Hpos1. cbn [e_world with_world] in Hpos1.
  apply wp_bind, wp_gets. cbn [e_world with_world]. unfold banner_get_height. rewrite Z.div_0_l by lia.
  apply wp_bind, wp_gets. cbn [line_count with_world]. pose proof (ed_count e t H) as Hc. pose proof (ed_max e t H) as Hm.
  destruct (ed_y e t H) as [Hy Hyl]. destruct (ed_x e t H) as [Hx Hxl].
  assert (length (line_at t) < 256)%nat as Hfit by (destruct (editing_row e t H) as (? & _ & ? & _); by eapply text_in_fits).
  apply draw_then.
  { eapply wp_mono; [apply (wp_for_to (λ _, drawn (with_world w1 e)))|done]; [lia|by apply redrawn_refl|].
    intros i e2 Hi D2. pose proof (editing_drawn _ _ _ H1 D2) as H2.
    enough (wp (on_world (tx_move 0 (u32 (0 + i + 1)));; a ← get_line i; on_world (tx_string (c_text a) gray_70))
      (λ _ e3, drawn e2 e3) e2) as G by (eapply wp_mono; [exact G|]; intros [] e3 D3; by eapply redrawn_trans).
    destruct (height_run _ t H2) as (_ & _ & Hw2 & Hs2 & Hh2 & _). cbv zeta in *. rewrite Hc in Hi.
    apply draw_then. { apply draw_op, tx_move_ok; [done|lia|apply u32_range|]. unfold u32. rewrite Z.mod_small by lia. lia. }
    intros _ e3 D3. pose proof (editing_drawn _ _ _ H2 D3) as H3.
    destruct (lookup_lt_is_Some_2 (t_lines t) (Z.to_nat i)) as [s Hi']; [lia|].
    rewrite <-(Z2Nat.id i) by lia. apply wp_bind, (get_line_run _ _ s _ _ (ed_rows _ _ H3) Hi'). intros a _ _.
    apply draw_op, tx_string_ok. apply (ed_world _ _ H3). }
  intros _ e2 D2. pose proof (editing_drawn _ _ _ H1 D2) as H2. apply draw_then; [by apply (draw_status_run _ t)|].
  intros _ e3 D3. pose proof (editing_drawn _ _ _ H2 D3) as H3.
  destruct (height_run _ t H3) as (_ & _ & Hw3 & Hs3 & Hh3 & _). cbv zeta in *.
  destruct (ed_y e3 t H3) as [Hy3 _]. destruct (ed_x e3 t H3) as [Hx3 _].
  apply wp_bind, wp_get. rewrite Hy3, Hx3. apply draw_then.
  { apply draw_op, tx_move_ok; [done| |apply u32_range|]; unfold u32; rewrite Z.mod_small; lia. }
  intros _ e4 D4. apply draw_op, tx_cursor_draw_ok. apply (ed_world _ _ (editing_drawn _ _ _ H3 D4)).
Qed.

(** ** Loading and saving *)

(** [k] characters of a line that is not yet complete, in row [i]. *)
Definition partial (L : list (list Z)) (i : nat) (cur : str) : Prop :=
  ∃ a, L !! i = Some a ∧ ∀ j, (j < length cur)%nat → a !! j = cur !! j.

(** The lines [ls] and the line begun [cur] are in the array. *)
Record loading (L : list (list Z)) (ls : list str) (cur : str) : Prop := {
  lo_rows : rows L (λ i, ls !! i);
  lo_partial : partial L (length ls) cur;
  lo_chars : Forall is_char cur;
  lo_room : (length ls ≤ 99)%nat ∧ (length cur ≤ 255)%nat;
}.

Lemma loading_char L ls cur c e : loading L ls cur → lines e = L → is_char c → (length cur ≤ 254)%nat →
  wp (put_char (Z.of_nat (length ls)) (Z.of_nat (length cur)) c) (λ _ e', ∃ L', e' = set_lines L' e ∧ loading L' ls (cur ++ [c])) e.
Proof.
  intros [Hr (a & Ha & Hp) Hcs [Hn Hk]] <- Hc Hlt. pose proof Hr as [Hl Hsz Ht].
  assert (length a = 256%nat) as Hla by (rewrite Forall_lookup in Hsz; eauto).
  eapply (put_char_run (lines e) _ a); [by rewrite list_insert_id|lia|lia|]. rewrite Nat2Z.id. eexists. split; [done|]. split.
  - split; [by rewrite length_insert|apply Forall_insert; [done|by rewrite length_insert]|].
    intros i s Hi. rewrite list_lookup_insert_ne by (apply lookup_lt_Some in Hi; lia). auto.
  - eexists. split; [by rewrite list_lookup_insert_eq by lia|]. intros j Hj. rewrite length_app in Hj. cbn in Hj.
    destruct (decide (j = length cur)) as [->|Hne].
    + rewrite list_lookup_insert_eq by lia. symmetry. by apply list_lookup_middle.
    + rewrite list_lookup_insert_ne, lookup_app_l by lia. apply Hp. lia.
  - apply Forall_app_2; [done|by constructor].
  - rewrite length_app. cbn. lia.
Qed.

Lemma loading_end L ls cur e : loading L ls cur → lines e = L →
  wp (put_char (Z.of_nat (length ls)) (Z.of_nat (length cur)) 0) (λ _ e', ∃ L', e' = set_lines L' e ∧ rows L' (λ i, (ls ++ [cur]) !! i)) e.
Proof.
  intros [Hr (a & Ha & Hp) Hcs [Hn Hk]] <-. pose proof Hr as [Hl Hsz Ht].
  assert (length a = 256%nat) as Hla by (rewrite Forall_lookup in Hsz; eauto).
  eapply (put_char_run (lines e) _ a); [by rewrite list_insert_id|lia|lia|]. rewrite Nat2Z.id. eexists. split; [done|].
  eapply rows_ext; [apply (rows_put _ _ (length ls) _ cur Hr); [lia|]|].
  - split; [by rewrite length_insert|]. apply holds_lookup. split_and!; [done| |by rewrite list_lookup_insert_eq by lia].
    intros j Hj. rewrite list_lookup_insert_ne by lia. auto.
  - intros i s Hi. unfold upd. destruct (decide (i = length ls)) as [->|Hne].
    + by rewrite list_lookup_middle in Hi.
    + rewrite lookup_app_l in Hi; [done|]. apply lookup_lt_Some in Hi. rewrite length_app in Hi. cbn in Hi. lia.
Qed.

Lemma load_chars_run buf ls cur e : loading (lines e) ls cur → Forall is_char buf → fits (length ls) (length cur) buf = true →
  wp (load_chars buf (Z.of_nat (length ls)) (Z.of_nat (length cur))) (λ r e', let '(ls', cur') := scan ls cur buf in
    r = (Z.of_nat (length ls'), Z.of_nat (length cur'), false) ∧ ∃ L, e' = set_lines L e ∧ loading L ls' cur') e.
Proof.
  revert ls cur e. induction buf as [|c buf IH]; intros ls cur e Hlo Hb Hf; cbn [load_chars scan].
  { apply wp_ret. split; [done|]. exists (lines e). by destruct e. }
  apply Forall_cons_1 in Hb as [Hc Hb]. cbn [fits] in Hf. apply andb_prop in Hf as [Hn%Nat.leb_le Hf]. unfold MAX_LINES, MAX_LINE_LEN.
  rewrite (proj2 (Z.leb_gt (100 - 1) _)), orb_false_r by lia. destruct (c =? 10).
  - apply wp_bind. eapply wp_mono; [by apply (loading_end (lines e))|]. intros [] e1 (L & -> & HL).
    rewrite (proj2 (Z.leb_gt 100 _)) by lia.
    replace (Z.of_nat (length ls) + 1) with (Z.of_nat (length (ls ++ [cur]))) by (rewrite length_app; cbn; lia).
    change 0 with (Z.of_nat (@length Z [])). eapply wp_mono; [apply IH; [|done|by rewrite length_app, Nat.add_1_r]|].
    + destruct HL as [Hl Hs Ht]. assert (length (ls ++ [cur]) ≤ 99)%nat by (rewrite length_app; cbn; lia).
      split; [done| |done|cbn; lia]. destruct (lookup_lt_is_Some_2 L (length (ls ++ [cur]))) as [a Ha]; [lia|].
      exists a. split; [done|]. intros j Hj. cbn in Hj. lia.
    + intros r e'. destruct (scan _ _ _) as [ls' cur']. intros (-> & L' & -> & HL'). split; [done|]. by exists L'.
  - apply andb_prop in Hf as [Hk%Nat.leb_le Hf]. rewrite (proj2 (Z.ltb_lt _ (256 - 1))) by lia.
    apply wp_bind. eapply wp_mono; [by apply (loading_char (lines e))|]. intros [] e1 (L & -> & HL).
    replace (Z.of_nat (length cur) + 1) with (Z.of_nat (length (cur ++ [c]))) by (rewrite length_app; cbn; lia).
    eapply wp_mono; [apply IH; [done..|by rewrite length_app, Nat.add_1_r]|].
    intros r e'. destruct (scan _ _ _) as [ls' cur']. intros (-> & L' & -> & HL'). split; [done|]. by exists L'.
Qed.

(** What the editor relies on of the files: an open file is read from its position on, in any
    portions, and written over at its position. *)
Class FileLaws := {
  fl_file : W → str → option str;
  fl_pos : W → Z → option (str * nat);
  fl_open_ok : ∀ p flags c w, tx_ok w → fl_file w p = Some c → ∃ fd w', f_open p flags w = Done fd w' ∧ 0 ≤ fd ∧
    tx_ok w' ∧ same_size w w' ∧ fl_pos w' fd = Some (p, 0%nat) ∧ fl_file w' = fl_file w;
  fl_read_ok : ∀ fd n p i c w, tx_ok w → fl_pos w fd = Some (p, i) → fl_file w p = Some c → 0 < n → (i ≤ length c)%nat →
    ∃ k w', f_read fd n w = Done (Z.of_nat k, take k (drop i c)) w' ∧ Z.of_nat k ≤ n ∧ (i + k ≤ length c)%nat ∧
    (k = 0%nat → i = length c) ∧ tx_ok w' ∧ same_size w w' ∧ fl_pos w' fd = Some (p, (i + k)%nat) ∧ fl_file w' = fl_file w;
  fl_write_ok : ∀ fd bs p i c w, tx_ok w → fl_pos w fd = Some (p, i) → fl_file w p = Some c → (i ≤ length c)%nat →
    ∃ r w', f_write fd bs w = Done r w' ∧ tx_ok w' ∧ same_size w w' ∧ fl_pos w' fd = Some (p, (i + length bs)%nat) ∧
    fl_file w' p = Some (take i c ++ bs ++ drop (i + length bs) c);
  fl_close_ok : ∀ fd w, tx_ok w → ∃ r w', f_close fd w = Done r w' ∧ tx_ok w' ∧ same_size w w' ∧ fl_file w' = fl_file w;
  fl_string_ok : ∀ t c w r w', tx_string t c w = Done r w' → fl_file w' = fl_file w;
  fl_move_ok : ∀ x y w r w', tx_move x y w = Done r w' → fl_file w' = fl_file w;
}.
Context `{FL : !FileLaws}.

Lemma on_world_done {B} (m : M W B) b w e : m (e_world e) = Done b w → on_world m e = Done b (with_world w e).
Proof. unfold on_world, zoom. by intros ->. Qed.

Lemma load_loop_run fuel fd p i c ls cur e : loading (lines e) ls cur → tx_ok (e_world e) →
  fl_pos (e_world e) fd = Some (p, i) → fl_file (e_world e) p = Some c → Forall is_char c → (i ≤ length c)%nat →
  fits (length ls) (length cur) (drop i c) = true → (length c - i < fuel)%nat →
  wp (iterM fuel (load_step fd) (Z.of_nat (length ls), Z.of_nat (length cur))) (λ r e', let '(ls', cur') := scan ls cur (drop i c) in
    r = (Z.of_nat (length ls'), Z.of_nat (length cur')) ∧ ∃ L w, e' = with_world w (set_lines L e) ∧ loading L ls' cur' ∧
    tx_ok w ∧ same_size (e_world e) w ∧ fl_file w = fl_file (e_world e)) e.
Proof.
  revert i ls cur e. induction fuel as [|fuel IH]; intros i ls cur e Hlo Hw Hpos Hfile Hc Hi Hf Hfuel; [lia|].
  destruct (fl_read_ok fd 1024 p i c (e_world e)) as (k & w1 & E & Hk & Hik & Hk0 & Hw1 & Hsz1 & Hpos1 & Hfile1); [done..|].
  cbn [iterM]. apply wp_bind. unfold load_step. apply wp_bind. unfold wp at 1. rewrite (on_world_done _ _ _ _ E).
  replace (i32 (Z.of_nat k)) with (Z.of_nat k) by (symmetry; apply i32_id; lia).
  destruct (Z.leb_spec (Z.of_nat k) 0).
  { apply wp_ret, wp_ret. rewrite (drop_ge c i) by lia. cbn [scan]. split; [done|]. exists (lines e), w1. by destruct e. }
  rewrite Nat2Z.id, take_take, Nat.min_id. cbn [fst snd]. rewrite <-(take_drop k (drop i c)) in Hf.
  destruct (fits_app _ _ _ _ Hf ls cur eq_refl eq_refl) as [Hf1 Hf2]. pose proof (scan_app ls cur (take k (drop i c)) (drop k (drop i c))) as Es.
  rewrite take_drop in Es. rewrite Es. clear Es. apply wp_bind.
  eapply wp_mono; [apply (load_chars_run _ ls cur (with_world w1 e)); [done|by apply Forall_take, Forall_drop|done]|].
  intros r e1. destruct (scan ls cur (take k (drop i c))) as [ls1 cur1]. intros (-> & L & -> & HL). cbn [fst snd] in *.
  destruct (lo_room _ _ _ HL) as [Hl1 _]. unfold MAX_LINES. cbn [orb]. rewrite (proj2 (Z.leb_gt 100 _)) by lia.
  apply wp_ret. rewrite drop_drop in *. eapply wp_mono; [apply (IH (i + k)%nat ls1 cur1); cbn; try done; [by rewrite Hfile1|lia]|].
  intros r e2. destruct (scan ls1 cur1 _) as [ls2 cur2]. intros (-> & L2 & w2 & -> & HL2 & Hw2 & Hsz2 & Hfile2). split; [done|].
  exists L2, w2. split_and!; try done; [|cbn in Hfile2; congruence]. unfold same_size in *. cbn in Hsz2.
  destruct Hsz1 as (? & ? & ?), Hsz2 as (? & ? & ?). split_and!; congruence.
Qed.

(** The array before a file is loaded. *)
Record blank (e : S) : Prop := {
  bl_lines : length (lines e) = 100%nat ∧ Forall (λ a : list Z, length a = 256%nat) (lines e);
  bl_name : length (filename e) = 256%nat;
  bl_cursor : edit_cursor_x e = 0 ∧ edit_cursor_y e = 0;
  bl_world : tx_ok (e_world e) ∧ 101 + 16 * tx_scale (e_world e) ≤ tx_height (e_world e);
}.

(** The text of a file, as it is after loading. *)
Lemma load_run fuel fname p c e : blank e → holds fname p → (length p ≤ 180)%nat → fl_file (e_world e) p = Some c →
  Forall is_char c → fits 0 0 c = true → (length c < fuel)%nat →
  wp (kedit_load fuel fname) (λ _ e', editing e' (mk_text (file_lines c) 0 0) ∧ text_in 256 (filename e') p ∧
    fl_file (e_world e') = fl_file (e_world e)) e.
Proof.
  intros [[Hl Hsz] Hname [Hx Hy] [Hw Hh]] Hp Hpl Hfile Hc Hf Hfuel. unfold kedit_load. apply wp_bind, wp_get.
  destruct (text_in_copy 256 (filename e) fname p) as (f & E & Hfn); [done|done|lia|].
  apply wp_bind. eapply wp_of_option; [done|]. apply wp_bind, wp_modify. rewrite (c_text_holds _ _ Hp).
  destruct (fl_open_ok p O_RDONLY c (e_world e)) as (fd & w1 & Eo & Hfd & Hw1 & Hsz1 & Hpos & Hfile1); [done..|].
  apply wp_bind. unfold wp at 1. rewrite (on_world_done _ _ _ (set_filename f e) Eo). rewrite (proj2 (Z.ltb_ge fd 0)) by lia.
  apply wp_bind. change (0, 0) with (Z.of_nat (@length str []), Z.of_nat (@length Z [])).
  eapply wp_mono; [apply (load_loop_run fuel fd p 0 c [] []); cbn; try done; [|by rewrite Hfile1|lia|lia]|].
  { destruct (lookup_lt_is_Some_2 (lines e) 0) as [a Ha]; [lia|].
    split; [split; done|exists a; split; [done|intros j Hj; cbn in Hj; lia]|done|cbn; lia]. }
  intros r e1. rewrite drop_0. pose proof (eq_refl (scan [] [] c)) as Escan. destruct (scan [] [] c) as [ls cur] eqn:Esc.
  intros (-> & L & w2 & -> & HL & Hw2 & Hsz2 & Hfile2). cbn in Hsz2, Hfile2. destruct (lo_room _ _ _ HL) as [Hn Hk].
  set (e1 := with_world w2 _).
  apply wp_bind. eapply (wp_mono _ (λ n e', ∃ L' ls', n = Z.of_nat (length ls') ∧ e' = set_lines L' e1 ∧ rows L' (λ i, ls' !! i) ∧
    (length ls' ≤ 100)%nat ∧ file_lines c = match ls' with [] => [[]] | _ => ls' end)).
  { unfold MAX_LINES. rewrite (proj2 (Z.ltb_lt _ 100)), andb_true_r by lia. unfold file_lines. rewrite Esc. destruct cur as [|x cur].
    - apply wp_ret. exists L, ls. split_and!; done || apply HL || lia || by destruct ls.
    - cbn [length Z.of_nat Z.ltb]. apply wp_bind. eapply wp_mono; [by apply (loading_end L ls (x :: cur))|].
      intros [] e2 (L' & -> & HL'). apply wp_ret. exists L', (ls ++ [x :: cur]).
      split_and!; try done; try (rewrite length_app; cbn; lia). by destruct ls. }
  intros n e2 (L' & ls' & -> & -> & HL' & Hn' & Efl). apply wp_bind, wp_modify.
  apply wp_bind. eapply (wp_mono _ (λ _ e', ∃ L'', e' = set_count (Z.of_nat (length (file_lines c))) (set_lines L'' e1) ∧
     rows L'' (λ i, file_lines c !! i) ∧ (0 < length (file_lines c) ≤ 100)%nat)).
  { rewrite Efl. destruct ls' as [|l ls'].
    - apply wp_bind, wp_modify. change 0 with (Z.of_nat 0). eapply (copy_line_run (λ i, ([] : list str) !! i) 0 (lit "") []); [exact HL'|lia|apply (holds_lit ""); constructor|cbn; lia|].
      intros L'' HL''. exists L''. split_and!; [done| |cbn; lia..]. eapply rows_ext; [done|]. intros i s. unfold upd. by destruct i.
    - rewrite (proj2 (Z.eqb_neq _ 0)) by (cbn; lia). apply wp_ret. exists L'. split_and!; done || (cbn; lia). }
  intros [] e3 (L'' & -> & HL'' & Hn''). destruct (fl_close_ok fd w2 Hw2) as (r & w3 & Ec & Hw3 & Hsz3 & Hfile3).
  apply wp_bind. unfold wp at 1. erewrite on_world_done by exact Ec. apply wp_modify.
  assert (same_size (e_world e) w3) as (E1 & E2 & E3).
  { unfold same_size in *. destruct Hsz1 as (? & ? & ?), Hsz2 as (? & ? & ?), Hsz3 as (? & ? & ?). split_and!; congruence. }
  split_and!; [|done|cbn; congruence]. split; cbn; try done; try lia.
  - by exists p.
  - rewrite E2, E3. done.
Qed.

(** More text is written behind what was written. *)
Lemma write_next fd p c s bs e : tx_ok (e_world e) → fl_pos (e_world e) fd = Some (p, length s) →
  fl_file (e_world e) p = Some (s ++ drop (length s) c) →
  wp (on_world (f_write fd bs)) (λ _ e', ∃ w, e' = with_world w e ∧ tx_ok w ∧ same_size (e_world e) w ∧
    fl_pos w fd = Some (p, length (s ++ bs)) ∧ fl_file w p = Some ((s ++ bs) ++ drop (length (s ++ bs)) c)) e.
Proof.
  intros Hw Hpos Hfile. destruct (fl_write_ok fd bs p (length s) _ (e_world e) Hw Hpos Hfile) as (r & w & E & Hw' & Hsz & Hpos' & Hfile').
  { rewrite length_app. lia. }
  unfold wp. rewrite (on_world_done _ _ _ _ E). exists w. rewrite length_app. split_and!; try done. rewrite Hfile'. f_equal.
  rewrite <-app_assoc, take_app_length. do 2 f_equal.
  rewrite drop_app, (drop_ge s) by lia. cbn [app]. rewrite drop_drop. f_equal. lia.
Qed.

(** What is written after [i] lines. *)
Definition written (ls : list str) (i : nat) : str := if (i <? length ls)%nat then unlines (take i ls) else join ls.

Lemma written_step ls i l : ls !! i = Some l →
  written ls i ++ l ++ (if (Datatypes.S i <? length ls)%nat then [10] else []) = written ls (Datatypes.S i).
Proof.
  intros Hl. pose proof (lookup_lt_Some _ _ _ Hl) as Hi. unfold written. rewrite (proj2 (Nat.ltb_lt i _)) by done.
  destruct (Nat.ltb_spec (Datatypes.S i) (length ls)).
  - by rewrite (take_S_r _ _ _ Hl), unlines_snoc.
  - rewrite app_nil_r, <-join_snoc, <-(take_S_r _ _ _ Hl). f_equal. apply take_ge. lia.
Qed.

Lemma save_run e t p c : editing e t → text_in 256 (filename e) p → p ≠ [] → fl_file (e_world e) p = Some c →
  wp kedit_save (λ _ e', editing e' t ∧
    fl_file (e_world e') p = Some (join (t_lines t) ++ drop (length (join (t_lines t))) c)) e.
Proof.
  intros H [_ Hp] Hne Hfile. destruct (height_run e t H) as (Hch & Hpos & Hw & Hs & Hh & Hwd). cbv zeta in *.
  unfold kedit_save. apply wp_bind, wp_get. destruct p as [|ch p]; [done|]. pose proof Hp as (Hcs & rest & Ef).
  apply Forall_cons_1 in Hcs as [Hch0 _]. apply wp_bind, (wp_of_option _ ch); [by rewrite Ef|].
  rewrite char_nonzero by done. rewrite (c_text_holds _ _ Hp). set (p' := ch :: p) in *.
  destruct (fl_open_ok p' (Z.lor O_WRONLY O_CREAT) c (e_world e)) as (fd & w1 & Eo & Hfd & Hw1 & Hsz1 & Hpos1 & Hfile1); [done..|].
  apply wp_bind. unfold wp at 1. rewrite (on_world_done _ _ _ _ Eo), (proj2 (Z.ltb_ge fd 0)) by lia.
  pose proof (ed_count e t H) as Hc. rewrite Hc. set (ls := t_lines t) in *.
  assert (0 < length ls)%nat as Hls by (pose proof (ed_y e t H); subst ls; lia).
  apply wp_bind. eapply wp_mono; [apply (wp_for_to (λ i e', ∃ w, e' = with_world w e ∧ tx_ok w ∧ same_size (e_world e) w ∧
    fl_pos w fd = Some (p', length (written ls (Z.to_nat i))) ∧
    fl_file w p' = Some (written ls (Z.to_nat i) ++ drop (length (written ls (Z.to_nat i))) c))); [lia|..]|].
  - exists w1. unfold written. rewrite (proj2 (Nat.ltb_lt _ _)) by done. rewrite take_0. cbn [unlines map List.concat length app].
    rewrite drop_0. split_and!; try done. by rewrite Hfile1.
  - intros i e' Hi (w & -> & Hwi & Hsz & Hposi & Hfilei). assert (∃ k, i = Z.of_nat k) as [k ->] by (exists (Z.to_nat i); lia).
    rewrite Nat2Z.id in *. destruct (lookup_lt_is_Some_2 ls k) as [l Hl]; [lia|].
    apply wp_bind, (get_line_run _ _ l (with_world w e) _ (ed_rows e t H) Hl). intros a _ [_ Ha].
    apply wp_bind, (wp_of_option _ (Z.of_nat (length l))); [by apply str_len_holds|].
    assert (take (Z.to_nat (Z.of_nat (length l))) a = l) as -> by (destruct Ha as (_ & r & ->); by rewrite Nat2Z.id, take_app_length).
    apply wp_bind. eapply wp_mono; [by apply (write_next fd p' c (written ls k))|]. intros _ e1 (w2 & -> & Hw2 & Hsz2 & Hpos2 & Hfile2).
    pose proof (written_step ls k l Hl) as Est. replace (Z.to_nat (Z.of_nat k + 1)) with (Datatypes.S k) by lia.
    destruct (Nat.ltb_spec (Datatypes.S k) (length ls)).
    + rewrite (proj2 (Z.ltb_lt _ _)) by lia. rewrite app_assoc in Est. apply wp_bind.
      eapply wp_mono; [by apply (write_next fd p' c (written ls k ++ l))|]. intros _ e2 (w3 & -> & Hw3 & Hsz3 & Hpos3 & Hfile3).
      apply wp_ret. rewrite Est in *. exists w3. split_and!; try done. unfold same_size in *. cbn in *. intuition congruence.
    + rewrite (proj2 (Z.ltb_ge _ _)) by lia. rewrite app_nil_r in Est. apply wp_ret. rewrite Est in *. exists w2. split_and!; try done.
      unfold same_size in *. cbn in *. intuition congruence.
  - rewrite Nat2Z.id. unfold written. rewrite Nat.ltb_irrefl. intros [] e' (w & -> & Hw2 & Hsz2 & _ & Hfile2).
    destruct (fl_close_ok fd w Hw2) as (r & w3 & Ec & Hw3 & Hsz3 & Hfile3).
    apply wp_bind. unfold wp at 1. erewrite on_world_done by exact Ec. apply wp_bind, wp_modify, wp_bind, wp_gets. cbn.
    set (e3 := set_modified 0 (with_world w3 (with_world w e))).
    assert (editing e3 t) as H3.
    { unfold same_size in *. destruct Hsz2 as (? & E1 & E2), Hsz3 as (? & E3 & E4). destruct H. split; try done. cbn.
      rewrite E4, E3, E1, E2. tauto. }
    destruct (height_run e3 t H3) as (Hch3 & Hpos3 & _ & Hs3 & Hh3 & Hwd3). cbv zeta in *. change (e_world e3) with w3 in *.
    assert (2 ≤ tx_height w3 / char_height w3 ≤ tx_height w3 / 16) as Hdiv.
    { rewrite Hch3. split; [apply Z.div_le_lower_bound; lia|]. apply Z.div_le_compat_l; lia. }
    assert (16 * (tx_height w3 / 16) ≤ tx_height w3) by (pose proof (Z.mul_div_le (tx_height w3) 16); lia).
    set (row := tx_height w3 / char_height w3) in *. set (q := tx_height w3 / 16) in *. clearbody row q.
    replace (u32 (row - 2)) with (row - 2) by (unfold u32; rewrite Z.mod_small; lia).
    assert (wp (tx_move 0 (row - 2)) (λ _ w', tx_ok w' ∧ tx_width w' = tx_width w3 ∧ tx_height w' = tx_height w3 ∧
      tx_scale w' = tx_scale w3) w3) as Hm by (apply tx_move_ok; [done|lia..]). apply wp_run in Hm as ([] & w4 & Em & Hw4 & Em1 & Em2 & Em3).
    destruct (proj1 (wp_run _ _ _) (tx_string_ok (chars "File saved successfully") green w4 Hw4)) as ([] & w5 & Et & Hw5 & Et1 & Et2 & Et3).
    apply wp_bind. unfold wp at 1. erewrite on_world_done by exact Em. unfold wp. erewrite on_world_done by exact Et.
    split; [apply (editing_drawn e3); [done|]|].
    + exists w5. split_and!; [done..|]. unfold same_size. cbn. split_and!; congruence.
    + cbn. rewrite (fl_string_ok _ _ _ _ _ Et), (fl_move_ok _ _ _ _ _ Em), Hfile3. done.
Qed.

(** C27: Files survive the editor.  A file of at most 99 lines of at most 255 characters, which is
    loaded in whatever portions the file system gives and saved again, is as before to the
    last byte, and the editor shows its lines. *)
Theorem kedit_load_save (fuel : nat) (fname : list Z) (p c : str) (e : S) (Hb : blank e) (Hp : holds fname p)
    (Hlen : (0 < length p ≤ 180)%nat) (Hfile : fl_file (e_world e) p = Some c) (Hc : Forall is_char c)
    (Hfits : fits 0 0 c = true) (Hfuel : (length c < fuel)%nat) :
  ∃ e', (kedit_load fuel fname;; kedit_save) e = Done tt e' ∧ editing e' (mk_text (file_lines c) 0 0) ∧
    fl_file (e_world e') p = Some c.
Proof.
  assert (wp (kedit_load fuel fname;; kedit_save) (λ _ e', editing e' (mk_text (file_lines c) 0 0) ∧ fl_file (e_world e') p = Some c) e) as G.
  2: { apply wp_run in G as ([] & e' & E & G). eauto. }
  apply wp_bind. eapply wp_mono; [apply (load_run fuel fname p c); done || lia|]. intros [] e1 (H1 & Hn1 & Hf1).
  eapply wp_mono; [apply (save_run e1 _ p c H1 Hn1); [by intros ->; cbn in *; lia|by rewrite Hf1]|].
  intros [] e2 (H2 & Hf2). split; [done|]. rewrite Hf2. cbn [t_lines]. f_equal.
  destruct (join_file_lines c) as [E|E].
  - rewrite <-E, drop_all. apply app_nil_r.
  - revert E. generalize (join (file_lines c)). intros J ->. by rewrite drop_app_length.
Qed.

(** Saving.  The text is written over the file from its start, its lines parted by newlines;
    what the file has behind them stays. *)
Theorem kedit_save_overwrites (e : S) (t : text) (p c : str) (H : editing e t) (Hp : text_in 256 (filename e) p) (Hne : p ≠ [])
    (Hfile : fl_file (e_world e) p = Some c) :
  ∃ e', kedit_save e = Done tt e' ∧ editing e' t ∧
    fl_file (e_world e') p = Some (join (t_lines t) ++ drop (length (join (t_lines t))) c).
Proof. pose proof (save_run e t p c H Hp Hne Hfile) as G. apply wp_run in G as ([] & e' & E & G). eauto. Qed.

(** C21: The keys of the editor.  From a text in the array on a screen of at least 165 lines, every
    key but Ctrl+S and Ctrl+Q returns, and the array then holds the text on which an editor of
    strings has made that step: characters go in and out at the cursor, lines are joined
    when they fit, split while there is a line left, and the cursor stays in the text.  No
    access leaves the array. *)
Theorem kedit_refines (cwd : list Z) (key : Z) (e : S) (t : text) (H : editing e t) (Hkey : key ≠ 17 ∧ key ≠ 19) :
  ∃ e', kedit_handle_key cwd key e = Done tt e' ∧ editing e' (text_key key t).
Proof.
  assert (Hdraw : ∀ (m : M S unit) t', wp m (λ _ e', editing e' t') e → wp (m;; kedit_draw) (λ _ e', editing e' t') e).
  { intros m t' Hm. apply wp_bind. eapply wp_mono; [exact Hm|]. intros [] e1 H1.
    eapply wp_mono; [by apply (draw_run _ t')|]. intros [] e2. by apply editing_drawn. }
  enough (wp (kedit_handle_key cwd key) (λ _ e', editing e' (text_key key t)) e) as G.
  { apply wp_run in G as ([] & e' & E & G). eauto. }
  unfold kedit_handle_key, text_key. rewrite !(proj2 (Z.eqb_neq key _)) by tauto.
  repeat (case_match; [apply Hdraw|]).
  - by apply newline_run.
  - by apply delete_run.
  - replace (u8 key) with key by (unfold u8; rewrite Z.mod_small; lia). apply insert_run; [done|]. unfold is_char. lia.
  - by apply move_run.
  - by apply move_run.
  - by apply move_run.
  - by apply move_run.
  - by apply wp_ret.
Qed.
End kedit.

(** ** An editor to try *)

(** One file with a position in it, read at most seven bytes at a time, and a screen of 640 by 480
    that shows nothing. *)
Record demo_world := mk_demo { dw_name : str; dw_text : str; dw_pos : nat }.
#[local] Instance demo_screen : TextScreen demo_world := {|
  tx_width w := 640; tx_height w := 480; tx_scale w := 1; tx_cursor w := (0, 0); tx_double w := 0;
  tx_move x y := mret tt; tx_string t c := mret tt; tx_putchar a c := mret tt; tx_rect x y w h c := mret tt;
  tx_clear c := mret tt; tx_prompt cwd := mret tt; tx_swap := mret tt; tx_cursor_draw := mret tt;
  tx_cursor_c := mret tt; tx_reset_blink := mret tt;
|}.
#[local] Instance demo_screen_laws : TextScreenLaws demo_world.
Proof. refine {| tx_ok w := True |}; try done; cbn; lia. Defined.
#[local] Instance demo_files : Files demo_world := {|
  f_open p flags := λ w, if decide (p = dw_name w) then Done 0 (mk_demo (dw_name w) (dw_text w) 0) else Done (-1) w;
  f_read fd n := λ w, let k := Nat.min 7 (Nat.min (Z.to_nat n) (length (dw_text w) - dw_pos w)) in
    Done (Z.of_nat k, take k (drop (dw_pos w) (dw_text w))) (mk_demo (dw_name w) (dw_text w) (dw_pos w + k));
  f_write fd bs := λ w, Done (Z.of_nat (length bs)) (mk_demo (dw_name w)
    (take (dw_pos w) (dw_text w) ++ bs ++ drop (dw_pos w + length bs) (dw_text w)) (dw_pos w + length bs));
  f_close fd := mret 0;
|}.
#[local] Instance demo_file_laws : FileLaws.
Proof.
  refine {| fl_file w p := if decide (p = dw_name w) then Some (dw_text w) else None; fl_pos w fd := Some (dw_name w, dw_pos w) |}.
  - intros p flags c w _ H. case_decide as Hp; [|done]. subst p. exists 0, (mk_demo (dw_name w) (dw_text w) 0). cbn.
    by rewrite decide_True.
  - intros fd n p i c w _ [= <- <-] H Hn Hi. rewrite decide_True in H by done. injection H as <-.
    set (k := Nat.min 7 (Nat.min (Z.to_nat n) (length (dw_text w) - dw_pos w))).
    exists k, (mk_demo (dw_name w) (dw_text w) (dw_pos w + k)). split_and!; try done; lia.
  - intros fd bs p i c w _ [= <- <-] H Hi. rewrite decide_True in H by done. injection H as <-.
    eexists _, _. split_and!; [done|done|done|done|]. cbn. by rewrite decide_True.
  - intros fd w _. by exists 0, w.
  - by intros t c w r w' [= <- <-].
  - by intros x y w r w' [= <- <-].
Defined.

Definition demo_editor (content : str) : editor demo_world :=
  mk_editor (replicate 100 (replicate 256 0)) 0 0 0 (replicate 256 0) 0 0 (mk_demo (chars "/a") content 0).

Lemma demo_blank content : blank (demo_editor content).
Proof. split; cbn; try done. split; [done|]. apply (bool_decide_unpack _). by vm_compute. Qed.

Definition demo_content : str := chars "ab" ++ [10; 10] ++ chars "a line of text" ++ [10].

Lemma kedit_load_save_witness :
  ∃ e', (kedit_load 100 (lit "/a");; kedit_save) (demo_editor demo_content) = Done tt e' ∧
    editing e' (mk_text [chars "ab"; []; chars "a line of text"] 0 0) ∧
    fl_file (e_world e') (chars "/a") = Some demo_content.
Proof.
  apply (kedit_load_save 100 (lit "/a") (chars "/a") demo_content (demo_editor demo_content));
    [apply demo_blank|apply holds_lit; eval_decide|cbn; lia|by vm_compute|eval_decide|by vm_compute|cbn; lia].
Defined.

(** An editor with the text [l] in its first line. *)
Definition demo_text (l content : str) : editor demo_world :=
  mk_editor (<[0%nat := l ++ replicate (256 - length l) 0]> (replicate 100 (replicate 256 0))) 1 0 0
    (chars "/a" ++ replicate 254 0) 0 1 (mk_demo (chars "/a") content 0).

Lemma demo_editing content : editing (demo_text (chars "ab") content) (mk_text [chars "ab"] 0 0).
Proof.
  split; cbn [demo_text t_lines lines line_count t_x t_y edit_cursor_x edit_cursor_y filename e_world length];
    try (split; cbn; lia); try lia.
  - split; [done|apply (bool_decide_unpack _); by vm_compute|].
    intros i s Hi. destruct i as [|i]; [|done]. injection Hi as <-. eexists. split; [done|].
    apply (holds_intro (chars "ab") (replicate 253 0)). eval_decide.
  - exists (chars "/a"). split; [|cbn; lia]. split; [done|]. apply (holds_intro (chars "/a") (replicate 253 0)). eval_decide.
Qed.

Lemma kedit_refines_witness :
  ∃ e', kedit_handle_key [] 0x83 (demo_text (chars "ab") []) = Done tt e' ∧ editing e' (mk_text [chars "ab"] 1 0).
Proof.
  apply (kedit_refines [] 0x83 (demo_text (chars "ab") []) (mk_text [chars "ab"] 0 0)); [apply demo_editing|lia].
Defined.

(** A shorter text leaves the end of the old one in the file. *)
Lemma kedit_save_overwrites_witness :
  ∃ e', kedit_save (demo_text (chars "ab") (chars "long text")) = Done tt e' ∧ editing e' (mk_text [chars "ab"] 0 0) ∧
    fl_file (e_world e') (chars "/a") = Some (chars "abng text").
Proof.
  apply (kedit_save_overwrites (demo_text (chars "ab") (chars "long text")) (mk_text [chars "ab"] 0 0) (chars "/a") (chars "long text"));
    [apply demo_editing| |done|by vm_compute].
  split; [done|]. apply (holds_intro (chars "/a") (replicate 253 0)). eval_decide.
Defined.

(** Keys typed one after the other. *)
Fixpoint type_keys {W} `{!TextScreen W, !Files W} (keys : list Z) : M (editor W) unit :=
  match keys with [] => mret tt | k :: keys' => kedit_handle_key [] k;; type_keys keys' end.
Example demo_typing :
  match type_keys (chars "on" ++ [10] ++ chars "x" ++ [0x82; 8; 0x83; 8] ++ chars "e") (demo_text (chars "") []) with
  | Done _ e => c_text <$> lines e !! 0%nat = Some (chars "one") ∧ (line_count e, edit_cursor_x e) = (1, 3)
  | Stuck _ => False
  end.
Proof. by vm_compute. Qed.

(** A file of a hundred lines: the last of them is lost. *)
Example long_file :
  match kedit_load 1000 (lit "/a") (demo_editor (concat (replicate 100 (chars "ab" ++ [10])))) with
  | Done _ e => line_count e = 100 ∧ c_text <$> lines e !! 98%nat = Some (chars "ab") ∧ c_text <$> lines e !! 99%nat = Some []
  | Stuck _ => False
  end.
Proof. by vm_compute. Qed.
