(* ===== verification/Desktop.v ===== *)
(** * The state of the desktop, [core/gui/gui.h] and [gui/programs]

    The window manager and its programs share one state, [desk W]: the ten slots of the window
    list, the buttons, what is dirty, and the states of the programs.  A pointer to a window
    or to a program's state is the index of its slot, [NONE] the null pointer.  Coordinates
    are [int]s, whose sums [⊕] and differences [⊖] wrap around at 32 bits; they are converted to
    unsigned words where they are drawn.  [W] is the screen and the rest of the kernel, by the classes below. *)

From Stdlib Require Import ZArith Lia String.
From stdpp Require Import base list numbers.
From S2P Require Import Prelude Alloc CString Buffer Font Display.
Open Scope Z_scope.
Set Default Goal Selector "!".

Definition MAX_WINDOWS : Z := 10.
Definition MAX_BUTTONS : Z := 20.
Definition MAX_DIRTY_RECTS : Z := 32.
Definition WINDOW_TITLE_HEIGHT : Z := 25.
Definition WINDOW_BORDER_WIDTH : Z := 0.
Definition WINDOW_MIN_WIDTH : Z := 100.
Definition WINDOW_MIN_HEIGHT : Z := 50.
Definition TASKBAR_HEIGHT : Z := 35.
Definition TASKBAR_BUTTON_WIDTH : Z := 120.
Definition TASKBAR_BUTTON_HEIGHT : Z := 25.
Definition TASKBAR_BUTTON_SPACING : Z := 5.
Definition BUTTON_HEIGHT : Z := 30.
Definition DESKTOP_COLOR : Z := 0xFF3F8077.
Definition GUI_OUTPUT_LINES : Z := 100.
Definition GUI_OUTPUT_COLS : Z := 256.
Definition MAX_LINE_LENGTH : Z := 512.
Definition GUI_TEXT_EDITOR_LINES : Z := 100.
Definition GUI_TEXT_EDITOR_COLS : Z := 80.
Definition GUI_FILE_MANAGER_MAX_ENTRIES : Z := 100.

(** The null pointer of the slots. *)
Definition NONE : Z := -1.

Inductive window_state_t := WINDOW_STATE_NORMAL | WINDOW_STATE_MINIMIZED | WINDOW_STATE_MAXIMIZED.
#[export] Instance window_state_eq : EqDecision window_state_t.
Proof. solve_decision. Defined.
Inductive button_state_t := BUTTON_STATE_NORMAL | BUTTON_STATE_HOVER | BUTTON_STATE_PRESSED.
#[export] Instance button_state_eq : EqDecision button_state_t.
Proof. solve_decision. Defined.

Record rect := mk_rect {
  rx : Z;
  ry : Z;
  rw : Z;
  rh : Z;
}.

(** What a window shows. *)
Record program := mk_program {
  is_terminal : Z;
  terminal_state : Z;
  is_text_editor : Z;
  text_editor_state : Z;
  is_file_manager : Z;
  file_manager_state : Z;
}.

Record gui_window := mk_gui_window {
  w_id : Z;
  w_rect : rect;  (** [x], [y], [width], [height] *)
  w_title : list Z;  (** [char[64]] *)
  w_focused : Z;
  w_state : window_state_t;
  w_visible : Z;
  w_minimized : Z * Z;  (** [minimized_x], [minimized_y] *)
  w_maximized : rect;
  w_content : list Z;  (** [char[1024]] *)
  w_program : program;
}.

(** The scroll bar of a terminal. *)
Record bar := mk_bar {
  scrollbar_visible : Z;
  scrollbar : rect;  (** [scrollbar_x] to [scrollbar_height] *)
  scrollbar_thumb_y : Z;
  scrollbar_thumb_height : Z;
  scrollbar_dragging : Z;
  scrollbar_drag_start_y : Z;
}.

(** [gui_terminal_state_t]; its [input_buffer] and [show_prompt] are not used. *)
Record terminal := mk_terminal {
  input_pos : Z;
  output_buffer : list (list Z);  (** 100 arrays of 256 *)
  output_colors : list Z;
  output_line_count : Z;
  cursor_visible : Z;
  window_width_chars : Z;
  window_height_lines : Z;
  scroll_offset : Z;
  t_bar : bar;
  cursor_blink_timer : Z;
}.

(** [gui_text_editor_state_t] *)
Record text_editor := mk_text_editor {
  te_lines : list (list Z);  (** 100 arrays of 80 *)
  te_line_count : Z;
  cursor_line : Z;
  cursor_col : Z;
  te_scroll_offset : Z;
}.

(** [gui_file_manager_state_t] *)
Record file_manager := mk_file_manager {
  current_path : list Z;  (** [char[256]] *)
  entries : list (list Z);  (** 100 arrays of 256 *)
  entry_count : Z;
  selected_index : Z;
  fm_scroll_offset : Z;
}.

Record taskbar_button := mk_taskbar_button {
  tb_window_id : Z;
  tb_text : list Z;  (** [char[32]] *)
  tb_state : button_state_t;
}.

Record gui_button := mk_gui_button {
  b_rect : rect;
  b_text : list Z;  (** [char[32]] *)
  b_state : button_state_t;
  on_click : Z;  (** the number of the function, or 0 *)
}.

Record drag_state_t := mk_drag_state {
  dragging : Z;
  drag_start : Z * Z;
  drag_offset : Z * Z;
  dragged_window : Z;
  resizing : Z;
  resize_start : Z * Z;
  resize_start_size : Z * Z;
  resized_window : Z;
}.

(** The flags and counters of [gui.c]. *)
Record gui_flags := mk_gui_flags {
  gui_running : Z;
  gui_mode : Z;
  gui_needs_redraw : Z;
  mouse_cursor_needs_redraw : Z;
  gui_initialized : Z;
  gui_frame_count : Z;
  last_frame_time : Z;
  swap_counter : Z;
  last_buttons : Z;
}.

(** [gui_state] and the static variables of [gui.c] and [terminal.c]. *)
Record desk (W : Type) := mk_desk {
  windows : list gui_window;  (** ten *)
  window_count : Z;
  focused_window_id : Z;
  next_window_id : Z;
  taskbar_buttons : list taskbar_button;  (** ten *)
  taskbar_button_count : Z;
  buttons : list gui_button;  (** twenty *)
  button_count : Z;
  drag_state : drag_state_t;
  gui_cursor : Z * Z;  (** [cursor_x], [cursor_y] *)
  dirty_rects : list rect;  (** thirty-two *)
  dirty_rect_count : Z;
  terminal_states : list terminal;  (** ten *)
  terminal_state_used : list Z;
  text_editor_states : list text_editor;
  text_editor_state_used : list Z;
  file_manager_states : list file_manager;
  file_manager_state_used : list Z;
  current_terminal_state : Z;  (** the terminal that takes output, or -1 *)
  cwd : list Z;  (** of the shell *)
  flags : gui_flags;
  g_world : W;
}.
Arguments mk_desk {W}.
Arguments windows {W}.
Arguments window_count {W}.
Arguments focused_window_id {W}.
Arguments next_window_id {W}.
Arguments taskbar_buttons {W}.
Arguments taskbar_button_count {W}.
Arguments buttons {W}.
Arguments button_count {W}.
Arguments drag_state {W}.
Arguments gui_cursor {W}.
Arguments dirty_rects {W}.
Arguments dirty_rect_count {W}.
Arguments terminal_states {W}.
Arguments terminal_state_used {W}.
Arguments text_editor_states {W}.
Arguments text_editor_state_used {W}.
Arguments file_manager_states {W}.
Arguments file_manager_state_used {W}.
Arguments current_terminal_state {W}.
Arguments cwd {W}.
Arguments flags {W}.
Arguments g_world {W}.

(** ** Changing one member *)

Definition with_is_terminal (v : Z) (r : program) : program :=
  mk_program v (terminal_state r) (is_text_editor r) (text_editor_state r) (is_file_manager r)
    (file_manager_state r).
Definition with_terminal_state (v : Z) (r : program) : program :=
  mk_program (is_terminal r) v (is_text_editor r) (text_editor_state r) (is_file_manager r)
    (file_manager_state r).
Definition with_is_text_editor (v : Z) (r : program) : program :=
  mk_program (is_terminal r) (terminal_state r) v (text_editor_state r) (is_file_manager r)
    (file_manager_state r).
Definition with_text_editor_state (v : Z) (r : program) : program :=
  mk_program (is_terminal r) (terminal_state r) (is_text_editor r) v (is_file_manager r) (file_manager_state
    r).
Definition with_is_file_manager (v : Z) (r : program) : program :=
  mk_program (is_terminal r) (terminal_state r) (is_text_editor r) (text_editor_state r) v (file_manager_state
    r).
Definition with_file_manager_state (v : Z) (r : program) : program :=
  mk_program (is_terminal r) (terminal_state r) (is_text_editor r) (text_editor_state r) (is_file_manager r)
    v.
Definition with_w_rect (v : rect) (r : gui_window) : gui_window :=
  mk_gui_window (w_id r) v (w_title r) (w_focused r) (w_state r) (w_visible r) (w_minimized r) (w_maximized r)
    (w_content r) (w_program r).
Definition with_w_title (v : list Z) (r : gui_window) : gui_window :=
  mk_gui_window (w_id r) (w_rect r) v (w_focused r) (w_state r) (w_visible r) (w_minimized r) (w_maximized r)
    (w_content r) (w_program r).
Definition with_w_focused (v : Z) (r : gui_window) : gui_window :=
  mk_gui_window (w_id r) (w_rect r) (w_title r) v (w_state r) (w_visible r) (w_minimized r) (w_maximized r)
    (w_content r) (w_program r).
Definition with_w_state (v : window_state_t) (r : gui_window) : gui_window :=
  mk_gui_window (w_id r) (w_rect r) (w_title r) (w_focused r) v (w_visible r) (w_minimized r) (w_maximized r)
    (w_content r) (w_program r).
Definition with_w_minimized (v : Z * Z) (r : gui_window) : gui_window :=
  mk_gui_window (w_id r) (w_rect r) (w_title r) (w_focused r) (w_state r) (w_visible r) v (w_maximized r)
    (w_content r) (w_program r).
Definition with_w_maximized (v : rect) (r : gui_window) : gui_window :=
  mk_gui_window (w_id r) (w_rect r) (w_title r) (w_focused r) (w_state r) (w_visible r) (w_minimized r) v
    (w_content r) (w_program r).
Definition with_w_program (v : program) (r : gui_window) : gui_window :=
  mk_gui_window (w_id r) (w_rect r) (w_title r) (w_focused r) (w_state r) (w_visible r) (w_minimized r)
    (w_maximized r) (w_content r) v.
Definition with_scrollbar_dragging (v : Z) (r : bar) : bar :=
  mk_bar (scrollbar_visible r) (scrollbar r) (scrollbar_thumb_y r) (scrollbar_thumb_height r) v
    (scrollbar_drag_start_y r).
Definition with_input_pos (v : Z) (r : terminal) : terminal :=
  mk_terminal v (output_buffer r) (output_colors r) (output_line_count r) (cursor_visible r)
    (window_width_chars r) (window_height_lines r) (scroll_offset r) (t_bar r) (cursor_blink_timer r).
Definition with_output_buffer (v : list (list Z)) (r : terminal) : terminal :=
  mk_terminal (input_pos r) v (output_colors r) (output_line_count r) (cursor_visible r) (window_width_chars
    r) (window_height_lines r) (scroll_offset r) (t_bar r) (cursor_blink_timer r).
Definition with_output_colors (v : list Z) (r : terminal) : terminal :=
  mk_terminal (input_pos r) (output_buffer r) v (output_line_count r) (cursor_visible r) (window_width_chars
    r) (window_height_lines r) (scroll_offset r) (t_bar r) (cursor_blink_timer r).
Definition with_output_line_count (v : Z) (r : terminal) : terminal :=
  mk_terminal (input_pos r) (output_buffer r) (output_colors r) v (cursor_visible r) (window_width_chars r)
    (window_height_lines r) (scroll_offset r) (t_bar r) (cursor_blink_timer r).
Definition with_cursor_visible (v : Z) (r : terminal) : terminal :=
  mk_terminal (input_pos r) (output_buffer r) (output_colors r) (output_line_count r) v (window_width_chars r)
    (window_height_lines r) (scroll_offset r) (t_bar r) (cursor_blink_timer r).
Definition with_window_width_chars (v : Z) (r : terminal) : terminal :=
  mk_terminal (input_pos r) (output_buffer r) (output_colors r) (output_line_count r) (cursor_visible r) v
    (window_height_lines r) (scroll_offset r) (t_bar r) (cursor_blink_timer r).
Definition with_window_height_lines (v : Z) (r : terminal) : terminal :=
  mk_terminal (input_pos r) (output_buffer r) (output_colors r) (output_line_count r) (cursor_visible r)
    (window_width_chars r) v (scroll_offset r) (t_bar r) (cursor_blink_timer r).
Definition with_scroll_offset (v : Z) (r : terminal) : terminal :=
  mk_terminal (input_pos r) (output_buffer r) (output_colors r) (output_line_count r) (cursor_visible r)
    (window_width_chars r) (window_height_lines r) v (t_bar r) (cursor_blink_timer r).
Definition with_t_bar (v : bar) (r : terminal) : terminal :=
  mk_terminal (input_pos r) (output_buffer r) (output_colors r) (output_line_count r) (cursor_visible r)
    (window_width_chars r) (window_height_lines r) (scroll_offset r) v (cursor_blink_timer r).
Definition with_cursor_blink_timer (v : Z) (r : terminal) : terminal :=
  mk_terminal (input_pos r) (output_buffer r) (output_colors r) (output_line_count r) (cursor_visible r)
    (window_width_chars r) (window_height_lines r) (scroll_offset r) (t_bar r) v.
Definition with_te_lines (v : list (list Z)) (r : text_editor) : text_editor :=
  mk_text_editor v (te_line_count r) (cursor_line r) (cursor_col r) (te_scroll_offset r).
Definition with_te_line_count (v : Z) (r : text_editor) : text_editor :=
  mk_text_editor (te_lines r) v (cursor_line r) (cursor_col r) (te_scroll_offset r).
Definition with_cursor_line (v : Z) (r : text_editor) : text_editor :=
  mk_text_editor (te_lines r) (te_line_count r) v (cursor_col r) (te_scroll_offset r).
Definition with_cursor_col (v : Z) (r : text_editor) : text_editor :=
  mk_text_editor (te_lines r) (te_line_count r) (cursor_line r) v (te_scroll_offset r).
Definition with_te_scroll_offset (v : Z) (r : text_editor) : text_editor :=
  mk_text_editor (te_lines r) (te_line_count r) (cursor_line r) (cursor_col r) v.
Definition with_current_path (v : list Z) (r : file_manager) : file_manager :=
  mk_file_manager v (entries r) (entry_count r) (selected_index r) (fm_scroll_offset r).
Definition with_entries (v : list (list Z)) (r : file_manager) : file_manager :=
  mk_file_manager (current_path r) v (entry_count r) (selected_index r) (fm_scroll_offset r).
Definition with_entry_count (v : Z) (r : file_manager) : file_manager :=
  mk_file_manager (current_path r) (entries r) v (selected_index r) (fm_scroll_offset r).
Definition with_selected_index (v : Z) (r : file_manager) : file_manager :=
  mk_file_manager (current_path r) (entries r) (entry_count r) v (fm_scroll_offset r).
Definition with_fm_scroll_offset (v : Z) (r : file_manager) : file_manager :=
  mk_file_manager (current_path r) (entries r) (entry_count r) (selected_index r) v.
Definition with_tb_text (v : list Z) (r : taskbar_button) : taskbar_button :=
  mk_taskbar_button (tb_window_id r) v (tb_state r).
Definition with_tb_state (v : button_state_t) (r : taskbar_button) : taskbar_button :=
  mk_taskbar_button (tb_window_id r) (tb_text r) v.
Definition with_b_state (v : button_state_t) (r : gui_button) : gui_button :=
  mk_gui_button (b_rect r) (b_text r) v (on_click r).
Definition with_gui_running (v : Z) (r : gui_flags) : gui_flags :=
  mk_gui_flags v (gui_mode r) (gui_needs_redraw r) (mouse_cursor_needs_redraw r) (gui_initialized r)
    (gui_frame_count r) (last_frame_time r) (swap_counter r) (last_buttons r).
Definition with_gui_mode (v : Z) (r : gui_flags) : gui_flags :=
  mk_gui_flags (gui_running r) v (gui_needs_redraw r) (mouse_cursor_needs_redraw r) (gui_initialized r)
    (gui_frame_count r) (last_frame_time r) (swap_counter r) (last_buttons r).
Definition with_gui_needs_redraw (v : Z) (r : gui_flags) : gui_flags :=
  mk_gui_flags (gui_running r) (gui_mode r) v (mouse_cursor_needs_redraw r) (gui_initialized r)
    (gui_frame_count r) (last_frame_time r) (swap_counter r) (last_buttons r).
Definition with_mouse_cursor_needs_redraw (v : Z) (r : gui_flags) : gui_flags :=
  mk_gui_flags (gui_running r) (gui_mode r) (gui_needs_redraw r) v (gui_initialized r) (gui_frame_count r)
    (last_frame_time r) (swap_counter r) (last_buttons r).
Definition with_gui_initialized (v : Z) (r : gui_flags) : gui_flags :=
  mk_gui_flags (gui_running r) (gui_mode r) (gui_needs_redraw r) (mouse_cursor_needs_redraw r) v
    (gui_frame_count r) (last_frame_time r) (swap_counter r) (last_buttons r).
Definition with_gui_frame_count (v : Z) (r : gui_flags) : gui_flags :=
  mk_gui_flags (gui_running r) (gui_mode r) (gui_needs_redraw r) (mouse_cursor_needs_redraw r)
    (gui_initialized r) v (last_frame_time r) (swap_counter r) (last_buttons r).
Definition with_last_frame_time (v : Z) (r : gui_flags) : gui_flags :=
  mk_gui_flags (gui_running r) (gui_mode r) (gui_needs_redraw r) (mouse_cursor_needs_redraw r)
    (gui_initialized r) (gui_frame_count r) v (swap_counter r) (last_buttons r).
Definition with_swap_counter (v : Z) (r : gui_flags) : gui_flags :=
  mk_gui_flags (gui_running r) (gui_mode r) (gui_needs_redraw r) (mouse_cursor_needs_redraw r)
    (gui_initialized r) (gui_frame_count r) (last_frame_time r) v (last_buttons r).
Definition with_last_buttons (v : Z) (r : gui_flags) : gui_flags :=
  mk_gui_flags (gui_running r) (gui_mode r) (gui_needs_redraw r) (mouse_cursor_needs_redraw r)
    (gui_initialized r) (gui_frame_count r) (last_frame_time r) (swap_counter r) v.

(** ** Coordinates *)

(** Sums and differences of [int]s. *)
Definition iadd (a b : Z) : Z := i32 (a + b).
Definition isub (a b : Z) : Z := i32 (a - b).
Notation "a ⊕ b" := (iadd a b) (at level 50, left associativity) : Z_scope.
Notation "a ⊖ b" := (isub a b) (at level 50, left associativity) : Z_scope.

Lemma iadd_id a b : - 2 ^ 31 ≤ a + b < 2 ^ 31 → a ⊕ b = a + b.
Proof. apply i32_id. Qed.
Lemma isub_id a b : - 2 ^ 31 ≤ a - b < 2 ^ 31 → a ⊖ b = a - b.
Proof. apply i32_id. Qed.
(** Sums that are in range are sums. *)
Ltac in_range := repeat first [rewrite iadd_id by lia|rewrite isub_id by lia].

(** ** What the desktop uses *)

(** The screen. *)
Class Painter (W : Type) := {
  p_width : W → Z;
  p_height : W → Z;
  p_rect : Z → Z → Z → Z → Z → M W unit;          (** [draw_rect] *)
  p_circle : Z → Z → Z → Z → M W unit;            (** [draw_circle] *)
  p_line : Z → Z → Z → Z → Z → M W unit;          (** [draw_line] *)
  p_text : str → Z → Z → Z → M W unit;            (** [gui_draw_text_line_fast] *)
  p_double : W → Z;                               (** [graphics_is_double_buffering_enabled()] *)
  p_enable_double : M W unit;
  p_disable_double : M W unit;
  p_swap : M W unit;                              (** [graphics_swap_buffers] *)
}.

(** The frame buffer is a screen; a line has at most as many steps as the coordinates allow. *)
#[export] Instance display_painter {A} `{!AllocOps A} : Painter (display A) := {|
  p_width := fb_width;
  p_height := fb_height;
  p_rect := draw_rect;
  p_circle := draw_circle;
  p_line x0 y0 x1 y1 c := draw_line (S (Z.to_nat (Z.max (Z.abs (x1 - x0)) (Z.abs (y1 - y0))))) x0 y0 x1 y1 c;
  p_text t x y c := gui_draw_text_line_fast (Some t) x y c;
  p_double := double_buffering_enabled;
  p_enable_double := graphics_enable_double_buffering;
  p_disable_double := graphics_disable_double_buffering;
  p_swap := graphics_swap_buffers;
|}.

(** The rest of the kernel. *)
Class Kernel (W : Type) := {
  k_ticks : M W Z;                                (** [timer_retrieve_current_ticks] *)
  k_subscribe : Z → Z → M W unit;                 (** [timer_subscribe_event], the interval and whether it repeats *)
  k_time : M W (Z * Z * Z * Z * Z);               (** [cmos_read_time]: hour, minute, month, day, year *)
  k_draw_cursor : M W unit;                       (** [mouse_draw_cursor] *)
  k_set_mouse : Z → Z → M W unit;                 (** the position, to the mouse that is there *)
  k_mouse_events : bool → M W unit;               (** the desktop's handlers for mouse and keyboard, or the shell's *)
  k_load_wallpaper : str → M W unit;              (** [gui_load_wallpaper], whose result the desktop drops *)
  k_directory : str → M W (option (list str));    (** [fs_resolve]: the names in a directory *)
  k_cursor_draw : M W unit;                       (** [cursor_draw] of the shell *)
  k_string : str → Z → M W unit;                  (** [string] on the screen *)
}.

Section desk.
  Context {W : Type}.
  Abbreviation D := (desk W).

Definition with_windows (v : list gui_window) (d : D) : D :=
  mk_desk v (window_count d) (focused_window_id d) (next_window_id d) (taskbar_buttons d)
    (taskbar_button_count d) (buttons d) (button_count d) (drag_state d) (gui_cursor d) (dirty_rects d)
    (dirty_rect_count d) (terminal_states d) (terminal_state_used d) (text_editor_states d)
    (text_editor_state_used d) (file_manager_states d) (file_manager_state_used d) (current_terminal_state d)
    (cwd d) (flags d) (g_world d).
Definition with_window_count (v : Z) (d : D) : D :=
  mk_desk (windows d) v (focused_window_id d) (next_window_id d) (taskbar_buttons d) (taskbar_button_count d)
    (buttons d) (button_count d) (drag_state d) (gui_cursor d) (dirty_rects d) (dirty_rect_count d)
    (terminal_states d) (terminal_state_used d) (text_editor_states d) (text_editor_state_used d)
    (file_manager_states d) (file_manager_state_used d) (current_terminal_state d) (cwd d) (flags d) (g_world
    d).
Definition with_focused_window_id (v : Z) (d : D) : D :=
  mk_desk (windows d) (window_count d) v (next_window_id d) (taskbar_buttons d) (taskbar_button_count d)
    (buttons d) (button_count d) (drag_state d) (gui_cursor d) (dirty_rects d) (dirty_rect_count d)
    (terminal_states d) (terminal_state_used d) (text_editor_states d) (text_editor_state_used d)
    (file_manager_states d) (file_manager_state_used d) (current_terminal_state d) (cwd d) (flags d) (g_world
    d).
Definition with_next_window_id (v : Z) (d : D) : D :=
  mk_desk (windows d) (window_count d) (focused_window_id d) v (taskbar_buttons d) (taskbar_button_count d)
    (buttons d) (button_count d) (drag_state d) (gui_cursor d) (dirty_rects d) (dirty_rect_count d)
    (terminal_states d) (terminal_state_used d) (text_editor_states d) (text_editor_state_used d)
    (file_manager_states d) (file_manager_state_used d) (current_terminal_state d) (cwd d) (flags d) (g_world
    d).
Definition with_taskbar_buttons (v : list taskbar_button) (d : D) : D :=
  mk_desk (windows d) (window_count d) (focused_window_id d) (next_window_id d) v (taskbar_button_count d)
    (buttons d) (button_count d) (drag_state d) (gui_cursor d) (dirty_rects d) (dirty_rect_count d)
    (terminal_states d) (terminal_state_used d) (text_editor_states d) (text_editor_state_used d)
    (file_manager_states d) (file_manager_state_used d) (current_terminal_state d) (cwd d) (flags d) (g_world
    d).
Definition with_taskbar_button_count (v : Z) (d : D) : D :=
  mk_desk (windows d) (window_count d) (focused_window_id d) (next_window_id d) (taskbar_buttons d) v (buttons
    d) (button_count d) (drag_state d) (gui_cursor d) (dirty_rects d) (dirty_rect_count d) (terminal_states d)
    (terminal_state_used d) (text_editor_states d) (text_editor_state_used d) (file_manager_states d)
    (file_manager_state_used d) (current_terminal_state d) (cwd d) (flags d) (g_world d).
Definition with_buttons (v : list gui_button) (d : D) : D :=
  mk_desk (windows d) (window_count d) (focused_window_id d) (next_window_id d) (taskbar_buttons d)
    (taskbar_button_count d) v (button_count d) (drag_state d) (gui_cursor d) (dirty_rects d)
    (dirty_rect_count d) (terminal_states d) (terminal_state_used d) (text_editor_states d)
    (text_editor_state_used d) (file_manager_states d) (file_manager_state_used d) (current_terminal_state d)
    (cwd d) (flags d) (g_world d).
Definition with_button_count (v : Z) (d : D) : D :=
  mk_desk (windows d) (window_count d) (focused_window_id d) (next_window_id d) (taskbar_buttons d)
    (taskbar_button_count d) (buttons d) v (drag_state d) (gui_cursor d) (dirty_rects d) (dirty_rect_count d)
    (terminal_states d) (terminal_state_used d) (text_editor_states d) (text_editor_state_used d)
    (file_manager_states d) (file_manager_state_used d) (current_terminal_state d) (cwd d) (flags d) (g_world
    d).
Definition with_drag_state (v : drag_state_t) (d : D) : D :=
  mk_desk (windows d) (window_count d) (focused_window_id d) (next_window_id d) (taskbar_buttons d)
    (taskbar_button_count d) (buttons d) (button_count d) v (gui_cursor d) (dirty_rects d) (dirty_rect_count
    d) (terminal_states d) (terminal_state_used d) (text_editor_states d) (text_editor_state_used d)
    (file_manager_states d) (file_manager_state_used d) (current_terminal_state d) (cwd d) (flags d) (g_world
    d).
Definition with_gui_cursor (v : Z * Z) (d : D) : D :=
  mk_desk (windows d) (window_count d) (focused_window_id d) (next_window_id d) (taskbar_buttons d)
    (taskbar_button_count d) (buttons d) (button_count d) (drag_state d) v (dirty_rects d) (dirty_rect_count
    d) (terminal_states d) (terminal_state_used d) (text_editor_states d) (text_editor_state_used d)
    (file_manager_states d) (file_manager_state_used d) (current_terminal_state d) (cwd d) (flags d) (g_world
    d).
Definition with_dirty_rects (v : list rect) (d : D) : D :=
  mk_desk (windows d) (window_count d) (focused_window_id d) (next_window_id d) (taskbar_buttons d)
    (taskbar_button_count d) (buttons d) (button_count d) (drag_state d) (gui_cursor d) v (dirty_rect_count d)
    (terminal_states d) (terminal_state_used d) (text_editor_states d) (text_editor_state_used d)
    (file_manager_states d) (file_manager_state_used d) (current_terminal_state d) (cwd d) (flags d) (g_world
    d).
Definition with_dirty_rect_count (v : Z) (d : D) : D :=
  mk_desk (windows d) (window_count d) (focused_window_id d) (next_window_id d) (taskbar_buttons d)
    (taskbar_button_count d) (buttons d) (button_count d) (drag_state d) (gui_cursor d) (dirty_rects d) v
    (terminal_states d) (terminal_state_used d) (text_editor_states d) (text_editor_state_used d)
    (file_manager_states d) (file_manager_state_used d) (current_terminal_state d) (cwd d) (flags d) (g_world
    d).
Definition with_terminal_states (v : list terminal) (d : D) : D :=
  mk_desk (windows d) (window_count d) (focused_window_id d) (next_window_id d) (taskbar_buttons d)
    (taskbar_button_count d) (buttons d) (button_count d) (drag_state d) (gui_cursor d) (dirty_rects d)
    (dirty_rect_count d) v (terminal_state_used d) (text_editor_states d) (text_editor_state_used d)
    (file_manager_states d) (file_manager_state_used d) (current_terminal_state d) (cwd d) (flags d) (g_world
    d).
Definition with_terminal_state_used (v : list Z) (d : D) : D :=
  mk_desk (windows d) (window_count d) (focused_window_id d) (next_window_id d) (taskbar_buttons d)
    (taskbar_button_count d) (buttons d) (button_count d) (drag_state d) (gui_cursor d) (dirty_rects d)
    (dirty_rect_count d) (terminal_states d) v (text_editor_states d) (text_editor_state_used d)
    (file_manager_states d) (file_manager_state_used d) (current_terminal_state d) (cwd d) (flags d) (g_world
    d).
Definition with_text_editor_states (v : list text_editor) (d : D) : D :=
  mk_desk (windows d) (window_count d) (focused_window_id d) (next_window_id d) (taskbar_buttons d)
    (taskbar_button_count d) (buttons d) (button_count d) (drag_state d) (gui_cursor d) (dirty_rects d)
    (dirty_rect_count d) (terminal_states d) (terminal_state_used d) v (text_editor_state_used d)
    (file_manager_states d) (file_manager_state_used d) (current_terminal_state d) (cwd d) (flags d) (g_world
    d).
Definition with_text_editor_state_used (v : list Z) (d : D) : D :=
  mk_desk (windows d) (window_count d) (focused_window_id d) (next_window_id d) (taskbar_buttons d)
    (taskbar_button_count d) (buttons d) (button_count d) (drag_state d) (gui_cursor d) (dirty_rects d)
    (dirty_rect_count d) (terminal_states d) (terminal_state_used d) (text_editor_states d) v
    (file_manager_states d) (file_manager_state_used d) (current_terminal_state d) (cwd d) (flags d) (g_world
    d).
Definition with_file_manager_states (v : list file_manager) (d : D) : D :=
  mk_desk (windows d) (window_count d) (focused_window_id d) (next_window_id d) (taskbar_buttons d)
    (taskbar_button_count d) (buttons d) (button_count d) (drag_state d) (gui_cursor d) (dirty_rects d)
    (dirty_rect_count d) (terminal_states d) (terminal_state_used d) (text_editor_states d)
    (text_editor_state_used d) v (file_manager_state_used d) (current_terminal_state d) (cwd d) (flags d)
    (g_world d).
Definition with_file_manager_state_used (v : list Z) (d : D) : D :=
  mk_desk (windows d) (window_count d) (focused_window_id d) (next_window_id d) (taskbar_buttons d)
    (taskbar_button_count d) (buttons d) (button_count d) (drag_state d) (gui_cursor d) (dirty_rects d)
    (dirty_rect_count d) (terminal_states d) (terminal_state_used d) (text_editor_states d)
    (text_editor_state_used d) (file_manager_states d) v (current_terminal_state d) (cwd d) (flags d) (g_world
    d).
Definition with_current_terminal_state (v : Z) (d : D) : D :=
  mk_desk (windows d) (window_count d) (focused_window_id d) (next_window_id d) (taskbar_buttons d)
    (taskbar_button_count d) (buttons d) (button_count d) (drag_state d) (gui_cursor d) (dirty_rects d)
    (dirty_rect_count d) (terminal_states d) (terminal_state_used d) (text_editor_states d)
    (text_editor_state_used d) (file_manager_states d) (file_manager_state_used d) v (cwd d) (flags d)
    (g_world d).
Definition with_cwd (v : list Z) (d : D) : D :=
  mk_desk (windows d) (window_count d) (focused_window_id d) (next_window_id d) (taskbar_buttons d)
    (taskbar_button_count d) (buttons d) (button_count d) (drag_state d) (gui_cursor d) (dirty_rects d)
    (dirty_rect_count d) (terminal_states d) (terminal_state_used d) (text_editor_states d)
    (text_editor_state_used d) (file_manager_states d) (file_manager_state_used d) (current_terminal_state d)
    v (flags d) (g_world d).
Definition with_flags (v : gui_flags) (d : D) : D :=
  mk_desk (windows d) (window_count d) (focused_window_id d) (next_window_id d) (taskbar_buttons d)
    (taskbar_button_count d) (buttons d) (button_count d) (drag_state d) (gui_cursor d) (dirty_rects d)
    (dirty_rect_count d) (terminal_states d) (terminal_state_used d) (text_editor_states d)
    (text_editor_state_used d) (file_manager_states d) (file_manager_state_used d) (current_terminal_state d)
    (cwd d) v (g_world d).
Definition with_g_world (v : W) (d : D) : D :=
  mk_desk (windows d) (window_count d) (focused_window_id d) (next_window_id d) (taskbar_buttons d)
    (taskbar_button_count d) (buttons d) (button_count d) (drag_state d) (gui_cursor d) (dirty_rects d)
    (dirty_rect_count d) (terminal_states d) (terminal_state_used d) (text_editor_states d)
    (text_editor_state_used d) (file_manager_states d) (file_manager_state_used d) (current_terminal_state d)
    (cwd d) (flags d) v.

Definition on_world {B} (m : M W B) : M D B := zoom g_world with_g_world m.
Definition set_flag (f : gui_flags → gui_flags) : M D unit := modify (λ d, with_flags (f (flags d)) d).
Definition needs_redraw : M D unit := set_flag (with_gui_needs_redraw 1).

(** [a[i]] and [a[i] = v;] of an array of records. *)
Definition slot {A} (l : list A) (i : Z) : option A := if 0 <=? i then l !! Z.to_nat i else None.
Definition set_slot {A} (l : list A) (i : Z) (v : A) : option (list A) :=
  if (0 <=? i) && (i <? Z.of_nat (length l)) then Some (<[Z.to_nat i := v]> l) else None.

Definition get_window (i : Z) : M D gui_window := d ← get; of_option (slot (windows d) i).
Definition put_window (i : Z) (w : gui_window) : M D unit :=
  d ← get; l ← of_option (set_slot (windows d) i w); modify (with_windows l).
Definition upd_window (i : Z) (f : gui_window → gui_window) : M D unit := w ← get_window i; put_window i (f w).
Definition get_terminal (i : Z) : M D terminal := d ← get; of_option (slot (terminal_states d) i).
Definition put_terminal (i : Z) (t : terminal) : M D unit :=
  d ← get; l ← of_option (set_slot (terminal_states d) i t); modify (with_terminal_states l).
Definition upd_terminal (i : Z) (f : terminal → terminal) : M D unit := t ← get_terminal i; put_terminal i (f t).
Definition get_editor (i : Z) : M D text_editor := d ← get; of_option (slot (text_editor_states d) i).
Definition put_editor (i : Z) (t : text_editor) : M D unit :=
  d ← get; l ← of_option (set_slot (text_editor_states d) i t); modify (with_text_editor_states l).
Definition upd_editor (i : Z) (f : text_editor → text_editor) : M D unit := t ← get_editor i; put_editor i (f t).
Definition get_manager (i : Z) : M D file_manager := d ← get; of_option (slot (file_manager_states d) i).
Definition put_manager (i : Z) (t : file_manager) : M D unit :=
  d ← get; l ← of_option (set_slot (file_manager_states d) i t); modify (with_file_manager_states l).

(** Drawing, with the conversion of the arguments. *)
Context `{!Painter W}.
Definition rect_at (x y w h color : Z) : M D unit := on_world (p_rect (u32 x) (u32 y) (u32 w) (u32 h) color).
Definition circle_at (x y r color : Z) : M D unit := on_world (p_circle (u32 x) (u32 y) (u32 r) color).
Definition line_at (x0 y0 x1 y1 color : Z) : M D unit := on_world (p_line (u32 x0) (u32 y0) (u32 x1) (u32 y1) color).
Definition text_at (t : str) (x y color : Z) : M D unit := on_world (p_text t (u32 x) (u32 y) color).
End desk.
