(* ===== verification/Terminal.v ===== *)
(** * The desktop's terminal, [core/gui/programs/terminal.c]

    A hundred lines of 255 characters with the prompt in the last one, a scroll bar, and the
    commands that run in it.  What a command does is a parameter of [gui_execute], as its
    output comes back through [terminal_print]. *)

From Stdlib Require Import ZArith Lia String.
From stdpp Require Import base list numbers.
From S2P Require Import Prelude CString Buffer Display Desktop.
Open Scope Z_scope.
Set Default Goal Selector "!".

Definition TERM_COLOR : Z := 0xFFFFFFFF.
Definition TERM_COLOR_ERROR : Z := 0xFFFF0000.
Definition TERM_COLOR_PROMPT : Z := TERM_COLOR.
Definition TERM_COLOR_INPUT : Z := TERM_COLOR.

(** The array [prompt[64]]; [cwd] is the shell's array. *)
Definition gui_generate_prompt (cwd : list Z) : option (list Z) :=
  b ← str_copy (replicate 64 0) (lit "kernix");
  b ← str_append b (lit "@");
  b ← str_append b (lit "host");
  b ← str_append b (lit ":");
  n ← str_len cwd;
  b ← (if 0 <? n then
         last ← arr_get cwd (n - 1);
         if (1 <? n) && (last =? 47) then
           prompt_cwd ← str_copy (replicate 256 0) cwd;
           prompt_cwd ← arr_set prompt_cwd (n - 1) 0;
           str_append b prompt_cwd
         else str_append b cwd
       else str_append b (lit "/"));
  str_append b (lit "$ ").

(** ** One terminal *)

Section terminal.
  Abbreviation T := (M terminal).

(** [output_buffer[i]] and its replacement. *)
Definition get_row (i : Z) : T (list Z) := t ← get; of_option (slot (output_buffer t) i).
Definition put_row (i : Z) (row : list Z) : T unit :=
  t ← get; b ← of_option (set_slot (output_buffer t) i row); modify (with_output_buffer b).
Definition put_color (i color : Z) : T unit :=
  t ← get; c ← of_option (arr_set (output_colors t) i color); modify (with_output_colors c).

Definition gui_terminal_update_window_size (win : rect) (screen_bottom : Z) : T unit :=
  modify (λ t, with_window_width_chars (if 10 <? rw win then Z.quot (rw win ⊖ 10) CHAR_WIDTH else 1) t);;
  let effective_height := if screen_bottom <? ry win ⊕ rh win then screen_bottom ⊖ ry win else rh win in
  let effective_height := if effective_height <? WINDOW_TITLE_HEIGHT ⊕ 10 then WINDOW_TITLE_HEIGHT ⊕ 10 else effective_height in
  modify (λ t, with_window_height_lines
    (if WINDOW_TITLE_HEIGHT ⊕ 5 <? effective_height then Z.quot (effective_height ⊖ WINDOW_TITLE_HEIGHT ⊖ 10) CHAR_HEIGHT else 1) t);;
  modify (λ t,
    let total_lines := output_line_count t in
    let visible_lines := window_height_lines t in
    let b := t_bar t in
    if negb (visible_lines <? total_lines) then
      with_t_bar (mk_bar 0 (scrollbar b) (scrollbar_thumb_y b) (scrollbar_thumb_height b) (scrollbar_dragging b) (scrollbar_drag_start_y b)) t
    else
      let h := effective_height ⊖ WINDOW_TITLE_HEIGHT ⊖ 10 in
      let r := mk_rect (rx win ⊕ rw win ⊖ 15 ⊖ 5) (ry win ⊕ WINDOW_TITLE_HEIGHT ⊕ 5) 15 h in
      let '(thumb_y, thumb_height) :=
        if 0 <? total_lines then
          let th := Z.quot (i32 (h * visible_lines)) total_lines in
          let th := if th <? 20 then 20 else th in
          let th := if h <? th then h else th in
          let scrollable_lines := total_lines ⊖ visible_lines in
          ((if 0 <? scrollable_lines then ry r ⊕ Z.quot (i32 ((h ⊖ th) * scroll_offset t)) scrollable_lines else ry r), th)
        else (scrollbar_thumb_y b, scrollbar_thumb_height b) in
      with_t_bar (mk_bar 1 r thumb_y thumb_height (scrollbar_dragging b) (scrollbar_drag_start_y b)) t).

(** [line] is an array. *)
Definition gui_terminal_add_line (line : list Z) (color : Z) : T unit :=
  t ← get;
  (if GUI_OUTPUT_LINES <=? output_line_count t then
     for_to 0 (GUI_OUTPUT_LINES - 1) (λ i,
       src ← get_row (i + 1);
       dst ← get_row i;
       dst ← of_option (str_copy dst src);
       put_row i dst;;
       t ← get;
       c ← of_option (arr_get (output_colors t) (i + 1));
       put_color i c);;
     modify (with_output_line_count (GUI_OUTPUT_LINES - 1))
   else mret tt);;
  n ← of_option (str_len line);
  let copy_len := if GUI_OUTPUT_COLS <=? n then GUI_OUTPUT_COLS - 1 else n in
  t ← get;
  row ← get_row (output_line_count t);
  row ← of_option (copy_chars (Z.to_nat copy_len) 0 0 row line);
  row ← of_option (arr_set row copy_len 0);
  put_row (output_line_count t) row;;
  put_color (output_line_count t) color;;
  modify (λ t, with_output_line_count (output_line_count t + 1) t);;
  modify (with_scroll_offset 0).

(** The characters collected, in pieces of the window's width; [pos] is where the next begins. *)
Definition wrap_step (current_line : list Z) (current_pos color pos : Z) : T (Z + unit) :=
  if negb (pos <? current_pos) then mret (inr tt) else
  t ← get;
  let len := current_pos - pos in
  let len := if window_width_chars t <? len then window_width_chars t else len in
  line ← of_option (copy_chars (Z.to_nat len) 0 pos (replicate 512 0) current_line);
  line ← of_option (arr_set line len 0);
  gui_terminal_add_line line color;;
  mret (inl (pos + len)).
Definition wrap_lines (current_line : list Z) (current_pos color : Z) : T unit :=
  iterM (S (Z.to_nat current_pos)) (wrap_step current_line current_pos color) 0.

(** [current_line] and [current_pos] are the array and the characters in it. *)
Fixpoint print_chars (text : str) (current_line : list Z) (current_pos color : Z) : T unit :=
  match text with
  | [] =>
      if 0 <? current_pos then
        l ← of_option (arr_set current_line current_pos 0);
        wrap_lines l current_pos color
      else mret tt
  | c :: text' =>
      if c =? 10 then
        l ← of_option (arr_set current_line current_pos 0);
        wrap_lines l current_pos color;;
        print_chars text' l 0 color
      else
        l ← of_option (arr_set current_line current_pos c);
        print_chars text' l (current_pos + 1) color
  end.
Definition gui_terminal_print (text : str) (color : Z) : T unit := print_chars text (replicate 512 0) 0 color.

(** The prompt, as a line of its own. *)
Definition new_prompt (cwd : list Z) : T unit :=
  prompt ← of_option (gui_generate_prompt cwd);
  gui_terminal_add_line prompt TERM_COLOR_PROMPT;;
  n ← of_option (str_len prompt);
  modify (with_input_pos n).

Definition gui_terminal_clear (cwd : list Z) : T unit :=
  modify (with_output_line_count 0);;
  modify (with_scroll_offset 0);;
  modify (with_cursor_blink_timer 0);;
  new_prompt cwd.

Definition gui_terminal_init (cwd : list Z) : T unit :=
  modify (with_output_line_count 0);;
  modify (with_cursor_visible 1);;
  modify (with_window_width_chars 80);;
  modify (with_window_height_lines 25);;
  modify (with_scroll_offset 0);;
  modify (with_cursor_blink_timer 0);;
  new_prompt cwd.

Definition gui_terminal_handle_scroll (delta : Z) : T unit :=
  modify (λ t,
    let max_scroll := output_line_count t - window_height_lines t in
    let max_scroll := if max_scroll <? 0 then 0 else max_scroll in
    let up := scroll_offset t + 3 in
    let down := scroll_offset t - 3 in
    with_scroll_offset (if 0 <? delta then (if max_scroll <? up then max_scroll else up)
                        else if down <? 0 then 0 else down) t).

(** A position of the thumb or of a click as a number of lines. *)
Definition scroll_to (pos track_height : Z) (t : terminal) : option terminal :=
  let scrollable_lines := output_line_count t ⊖ window_height_lines t in
  if track_height =? 0 then None else
  let off := Z.quot (i32 (pos * scrollable_lines)) track_height in
  let off := if off <? 0 then 0 else off in
  Some (with_scroll_offset (if scrollable_lines <? off then scrollable_lines else off) t).

Definition gui_terminal_handle_scrollbar_click (x y : Z) : T unit :=
  t ← get;
  let b := t_bar t in
  let r := scrollbar b in
  if scrollbar_visible b =? 0 then mret tt else
  if (rx r <=? x) && (x <? rx r ⊕ rw r) && (scrollbar_thumb_y b <=? y) && (y <? scrollbar_thumb_y b ⊕ scrollbar_thumb_height b) then
    put (with_t_bar (mk_bar (scrollbar_visible b) r (scrollbar_thumb_y b) (scrollbar_thumb_height b) 1 (y ⊖ scrollbar_thumb_y b)) t)
  else if (rx r <=? x) && (x <? rx r ⊕ rw r) && (ry r <=? y) && (y <? ry r ⊕ rh r) then
    if 0 <? output_line_count t ⊖ window_height_lines t then
      t' ← of_option (scroll_to (y ⊖ ry r) (rh r) t); put t'
    else mret tt
  else mret tt.

Definition gui_terminal_handle_scrollbar_drag (y : Z) : T unit :=
  t ← get;
  let b := t_bar t in
  if (scrollbar_dragging b =? 0) || (scrollbar_visible b =? 0) then mret tt else
  if output_line_count t ⊖ window_height_lines t <=? 0 then mret tt else
  let track_height := rh (scrollbar b) ⊖ scrollbar_thumb_height b in
  let drag_pos := y ⊖ scrollbar_drag_start_y b ⊖ ry (scrollbar b) in
  let drag_pos := if drag_pos <? 0 then 0 else drag_pos in
  let drag_pos := if track_height <? drag_pos then track_height else drag_pos in
  t' ← of_option (scroll_to drag_pos track_height t); put t'.

Definition gui_terminal_handle_scrollbar_release : T unit := modify (λ t, with_t_bar (with_scrollbar_dragging 0 (t_bar t)) t).
End terminal.

(** ** The terminals of the desktop *)

(** The names of [system_commands]; [exit] is [gui_cmd_exit], the others are the shell's. *)
Definition system_commands : list string :=
  ["echo"; "clear"; "help"; "modules"; "fetch"; "cpuinfo"; "calendar"; "date"; "uptime"; "time"; "cat"; "ls"; "cd";
   "mkdir"; "touch"; "poweroff"; "reboot"; "shutdown"; "gui"; "cls"; "exit"]%string.
Definition CMD_EXIT : Z := 20.

Definition gui_find_system_cmd (name : list Z) : option (option Z) := find_cmd 0 system_commands name.

Section desk.
  Context {W : Type} `{!Painter W} `{!Kernel W}.
  Abbreviation D := (desk W).

Definition on_terminal {B} (i : Z) (m : M terminal B) : M D B :=
  t ← get_terminal i;
  match m t with
  | Done b t' => put_terminal i t';; mret b
  | Stuck w => stuck_with w
  end.

(** [console_window_init] does nothing. *)
Definition gui_cmd_exit : M D unit :=
  set_flag (with_gui_running 0);;
  on_world p_disable_double;;
  on_world k_cursor_draw;;
  on_world (k_mouse_events false).

Definition terminal_print (text : str) (color : Z) : M D unit :=
  d ← get;
  if negb (current_terminal_state d =? NONE) then on_terminal (current_terminal_state d) (gui_terminal_print text color)
  else
    let saved_gui_mode := truthy (gui_mode (flags d)) in
    (if saved_gui_mode then set_flag (with_gui_mode 0) else mret tt);;
    on_world (k_string text color);;
    (if saved_gui_mode then set_flag (with_gui_mode 1) else mret tt).

(** [gui_init] comes with the window manager. *)
Definition cmd_gui (gui_init : M D unit) : M D unit :=
  d ← get;
  if truthy (gui_running (flags d)) then terminal_print (chars "GUI is already running!" ++ [10]) TERM_COLOR_ERROR
  else gui_init.

(** ** Drawing *)

(** The bar and its thumb, cut off at the bottom of the window. *)
Definition draw_scrollbar (b : bar) (bottom : Z) : M D unit :=
  let r := scrollbar b in
  if negb (truthy (scrollbar_visible b)) || (bottom <=? ry r) then mret tt else
  let visible_scrollbar_height := if bottom <? ry r ⊕ rh r then bottom ⊖ ry r else rh r in
  if visible_scrollbar_height <=? 0 then mret tt else
  rect_at (rx r) (ry r) (rw r) visible_scrollbar_height 0xFF2C2C2C;;
  if (bottom <=? scrollbar_thumb_y b) || (scrollbar_thumb_y b ⊕ scrollbar_thumb_height b <=? ry r) then mret tt else
  let '(y, h) := if scrollbar_thumb_y b <? ry r
    then (ry r, scrollbar_thumb_height b ⊖ (ry r ⊖ scrollbar_thumb_y b)) else (scrollbar_thumb_y b, scrollbar_thumb_height b) in
  let h := if bottom <? y ⊕ h then bottom ⊖ y else h in
  if h <=? 0 then mret tt
  else rect_at (rx r ⊕ 2) y (rw r ⊖ 4) h (if truthy (scrollbar_dragging b) then 0xFF666666 else 0xFF888888).

(** [n] characters of a line from [from] on, as an array of [size]. *)
Definition part_of (line : list Z) (from n size : Z) : option str :=
  part ← copy_chars (Z.to_nat n) 0 from (replicate (Z.to_nat size) 0) line;
  part ← arr_set part n 0;
  Some (take (Z.to_nat n) part).

(** The last line: the prompt, and the input in as many rows as it needs.  The loop variables are
    the characters drawn, [y_offset], [cur_y] and [line_idx]. *)
Definition input_step (line : list Z) (prompt_len input_len display_chars text_x bottom max_lines : Z)
    (v : Z * Z * Z * Z) : M D (Z * Z * Z * Z + Z * Z) :=
  let '(input_pos, y_offset, cur_y, line_idx) := v in
  if negb (((y_offset =? 0) || (input_pos <? input_len)) && (line_idx <? max_lines)) || (bottom <? cur_y + 16)
  then mret (inr (cur_y, line_idx)) else
  let shown := if (y_offset =? 0) && (0 <? prompt_len) then (if display_chars <? prompt_len then display_chars else prompt_len) else 0 in
  (if (y_offset =? 0) && (0 <? prompt_len) then
     p ← of_option (part_of line 0 shown (shown + 1));
     text_at p text_x cur_y TERM_COLOR_PROMPT
   else mret tt);;
  let available_chars := display_chars - shown in
  let start_x := text_x + shown * CHAR_WIDTH in
  let len := input_len - input_pos in
  let len := if available_chars <? len then available_chars else len in
  (if 0 <? len then
     p ← of_option (part_of line (prompt_len + input_pos) len (len + 1));
     text_at p start_x cur_y TERM_COLOR_INPUT
   else mret tt);;
  mret (inl (if 0 <? len then input_pos + len else input_pos, y_offset + 1, cur_y + 16, line_idx + 1)).

(** Another line, in rows of the width of the window. *)
Definition output_step (line : list Z) (line_len display_chars color text_x bottom max_lines : Z)
    (v : Z * Z * Z) : M D (Z * Z * Z + Z * Z) :=
  let '(pos, cur_y, line_idx) := v in
  if negb ((pos <? line_len) && (line_idx <? max_lines)) then mret (inr (cur_y, line_idx)) else
  let len := line_len - pos in
  let len := if display_chars <? len then display_chars else len in
  p ← of_option (part_of line pos len (display_chars + 1));
  text_at p text_x cur_y color;;
  if bottom <? cur_y + 16 + 16 then mret (inr (cur_y + 16, line_idx + 1))
  else mret (inl (pos + len, cur_y + 16, line_idx + 1)).

Definition line_step (t : terminal) (display_chars text_x bottom max_lines : Z) (v : Z * Z * Z) : M D (Z * Z * Z + unit) :=
  let '(i, cur_y, line_idx) := v in
  if negb ((i <? output_line_count t) && (line_idx <? max_lines)) || (bottom <? cur_y + 16) then mret (inr tt) else
  line ← of_option (slot (output_buffer t) i);
  color ← of_option (arr_get (output_colors t) i);
  line_len ← of_option (str_len line);
  '(cur_y, line_idx) ← (
    if i =? output_line_count t - 1 then
      d ← get;
      prompt ← of_option (gui_generate_prompt (cwd d));
      prompt_len ← of_option (str_len prompt);
      iterM (S (Z.to_nat max_lines)) (input_step line prompt_len (line_len - prompt_len) display_chars text_x bottom max_lines)
        (0, 0, cur_y, line_idx)
    else
      iterM (S (Z.to_nat max_lines)) (output_step line line_len display_chars color text_x bottom max_lines) (0, cur_y, line_idx));
  mret (inl (i + 1, cur_y, line_idx)).

Definition gui_terminal_draw (state : Z) (win : rect) (text_x text_y : Z) : M D unit :=
  d ← get;
  let screen_bottom := i32 (p_height (g_world d)) in
  on_terminal state (gui_terminal_update_window_size win screen_bottom);;
  needs_redraw;;
  on_terminal state (
    modify (λ t, with_cursor_blink_timer (cursor_blink_timer t + 1) t);;
    modify (λ t, if Z.rem (cursor_blink_timer t) 30 =? 0 then with_cursor_visible (b2z (cursor_visible t =? 0)) t else t));;
  t ← get_terminal state;
  let visible_lines := window_height_lines t in
  let start_idx := if visible_lines <? output_line_count t
    then Z.max 0 (output_line_count t ⊖ visible_lines ⊖ scroll_offset t) else 0 in
  let window_bottom := ry win ⊕ rh win in
  let bottom := if screen_bottom <? window_bottom then screen_bottom else window_bottom in
  let available_height := Z.max 0 (bottom ⊖ ry win ⊖ WINDOW_TITLE_HEIGHT ⊖ 10) in
  let max_lines := Z.max 1 (Z.quot available_height CHAR_HEIGHT) in
  draw_scrollbar (t_bar t) bottom;;
  let display_chars := if truthy (scrollbar_visible (t_bar t)) then window_width_chars t ⊖ 2 else window_width_chars t in
  iterM (S (Z.to_nat (output_line_count t))) (line_step t display_chars text_x bottom max_lines) (start_idx, text_y, 0).

(** ** Commands *)

(** What the commands of the shell do, by their number and their arguments.  The arguments are
    passed as they are when the command begins; they lie in the last line of the terminal. *)
Context (command : Z → list Z → M D unit).

(** [state] is the terminal's number, [input] the array from the command on. *)
Definition gui_execute (state : Z) (input : list Z) : M D unit :=
  input ← of_option (skip_blanks input);
  c ← of_option (arr_get input 0);
  if c =? 0 then mret tt else
  n ← of_option (word_len input);
  let len := if 64 <=? n then 63 else n in
  cmd_name ← of_option (copy_chars (Z.to_nat len) 0 0 (replicate 64 0) input);
  cmd_name ← of_option (arr_set cmd_name len 0);
  args ← of_option (skip_blanks (drop (Z.to_nat n) input));
  sys_cmd ← of_option (gui_find_system_cmd cmd_name);
  match sys_cmd with
  | Some k =>
      modify (with_current_terminal_state state);;
      (if k =? CMD_EXIT then gui_cmd_exit else command k args);;
      modify (with_current_terminal_state NONE)
  | None =>
      name_len ← of_option (str_len cmd_name);
      on_terminal state (gui_terminal_print (take (Z.to_nat name_len) cmd_name) TERM_COLOR_ERROR);;
      on_terminal state (gui_terminal_print (chars ": command not found" ++ [10]) TERM_COLOR_ERROR)
  end.

(** The key is a [char]. *)
Definition gui_terminal_handle_key (state key : Z) : M D unit :=
  let key := i8 key in
  on_terminal state (modify (with_scroll_offset 0));;
  d ← get;
  prompt ← of_option (gui_generate_prompt (cwd d));
  prompt_len ← of_option (str_len prompt);
  t ← get_terminal state;
  let last := output_line_count t - 1 in
  if key =? 8 then
    if prompt_len <? input_pos t then
      on_terminal state (
        modify (with_input_pos (input_pos t - 1));;
        row ← get_row last;
        row ← of_option (arr_set row (input_pos t - 1) 0);
        put_row last row)
    else mret tt
  else if key =? 10 then
    row ← of_option (slot (output_buffer t) last);
    let command := drop (Z.to_nat prompt_len) row in
    n ← of_option (str_len command);
    (if 0 <? n then gui_execute state command else mret tt);;
    d ← get;
    on_terminal state (new_prompt (cwd d);; modify (with_scroll_offset 0))
  else if (32 <=? key) && (key <=? 126) then
    on_terminal state (
      row ← get_row last;
      row ← of_option (arr_set row (input_pos t) key);
      row ← of_option (arr_set row (input_pos t + 1) 0);
      put_row last row;;
      modify (with_input_pos (input_pos t + 1)))
  else mret tt.
End desk.

(** ** What the terminal shows *)

(** The lines [ls], with the last width the window had. *)
Record shows (t : terminal) (ls : list str) : Prop := {
  sh_rows : rows (output_buffer t) (λ i, ls !! i);
  sh_count : output_line_count t = Z.of_nat (length ls);
  sh_max : (length ls ≤ 100)%nat;
  sh_colors : length (output_colors t) = 100%nat;
}.

(** The last hundred lines. *)
Definition newest (ls : list str) : list str := drop (length ls - 100) ls.

(** The lines of a text, the first of which begins with [cur]: what is between the newlines. *)
Fixpoint lines_of (cur text : str) : list str :=
  match text with
  | [] => [cur]
  | c :: text' => if c =? 10 then cur :: lines_of [] text' else lines_of (cur ++ [c]) text'
  end.
(** No line is longer than 511 characters. *)
Definition all_short (ls : list str) : bool := forallb (λ l, (length l <? 512)%nat) ls.

(** A line in pieces of [w] characters; an empty line gives none. *)
Fixpoint pieces (fuel w : nat) (s : str) : list str :=
  match fuel, s with
  | S n, _ :: _ => take w s :: pieces n w (drop w s)
  | _, _ => []
  end.
Definition wrapped (w : nat) (ls : list str) : list str := concat (map (λ l, pieces (length l) w l) ls).

Lemma newest_snoc ls s : (length ls ≤ 100)%nat →
  newest (ls ++ [s]) = if (100 <=? length ls)%nat then drop 1 ls ++ [s] else ls ++ [s].
Proof.
  intros Hl. unfold newest. rewrite length_app. cbn [length]. destruct (Nat.leb_spec 100 (length ls)).
  - replace (length ls + 1 - 100)%nat with 1%nat by lia. by rewrite drop_app_le by lia.
  - by replace (length ls + 1 - 100)%nat with 0%nat by lia.
Qed.

Lemma newest_app a b : newest (newest a ++ b) = newest (a ++ b).
Proof.
  unfold newest. destruct (decide (length a ≤ 100)%nat).
  { replace (length a - 100)%nat with 0%nat by lia. done. }
  rewrite !length_app, length_drop. destruct (decide (length b ≤ 100)%nat).
  - rewrite !drop_app_le by (rewrite ?length_drop; lia). rewrite drop_drop. f_equal. f_equal. lia.
  - rewrite !drop_app_ge by (rewrite ?length_drop; lia). rewrite length_drop. f_equal. lia.
Qed.

Lemma newest_short ls : (length ls ≤ 100)%nat → newest ls = ls.
Proof. intros H. unfold newest. by replace (length ls - 100)%nat with 0%nat by lia. Qed.

Lemma length_newest ls : (length (newest ls) ≤ 100)%nat.
Proof. unfold newest. rewrite length_drop. lia. Qed.

Lemma slot_nat {A} (l : list A) (i : nat) : slot l (Z.of_nat i) = l !! i.
Proof. unfold slot. by rewrite (proj2 (Z.leb_le _ _)), Nat2Z.id by lia. Qed.

Lemma set_slot_nat {A} (l : list A) (i : nat) v : (i < length l)%nat → set_slot l (Z.of_nat i) v = Some (<[i := v]> l).
Proof. intros H. unfold set_slot. by rewrite (proj2 (Z.leb_le _ _)), (proj2 (Z.ltb_lt _ _)), Nat2Z.id by lia. Qed.

Lemma term_row_run i a t (Q : list Z → terminal → Prop) : output_buffer t !! i = Some a → Q a t → wp (get_row (Z.of_nat i)) Q t.
Proof. intros Ha HQ. unfold get_row. apply wp_bind, wp_get. rewrite slot_nat. by eapply wp_of_option. Qed.

Lemma put_row_run i row t (Q : unit → terminal → Prop) : (i < length (output_buffer t))%nat →
  Q tt (with_output_buffer (<[i := row]> (output_buffer t)) t) → wp (put_row (Z.of_nat i) row) Q t.
Proof.
  intros Hi HQ. unfold put_row. apply wp_bind, wp_get. rewrite set_slot_nat by done.
  apply wp_bind, (wp_of_option _ (<[i := row]> (output_buffer t))); [done|]. by apply wp_modify.
Qed.

Lemma put_color_run i c t (Q : unit → terminal → Prop) : (i < length (output_colors t))%nat →
  Q tt (with_output_colors (<[i := c]> (output_colors t)) t) → wp (put_color (Z.of_nat i) c) Q t.
Proof.
  intros Hi HQ. unfold put_color. apply wp_bind, wp_get. apply wp_bind.
  eapply wp_of_option; [apply arr_set_inside; lia|]. rewrite Nat2Z.id. by apply wp_modify.
Qed.

(** The loop that makes room for a line. *)
Lemma shift_lines_run t ls : shows t ls → length ls = 100%nat →
  wp (for_to 0 (GUI_OUTPUT_LINES - 1) (λ i,
       src ← get_row (i + 1);
       dst ← get_row i;
       dst ← of_option (str_copy dst src);
       put_row i dst;;
       t ← get;
       c ← of_option (arr_get (output_colors t) (i + 1));
       put_color i c))
    (λ _ t', ∃ L C, t' = with_output_colors C (with_output_buffer L t) ∧ length C = 100%nat ∧
       rows L (λ i, if bool_decide (i < 99)%nat then ls !! S i else ls !! i)) t.
Proof.
  intros [Hr Hc Hm Hcol] Hl. eapply wp_mono.
  - apply (wp_for_to (λ k t', ∃ L C, t' = with_output_colors C (with_output_buffer L t) ∧ length C = 100%nat ∧
       rows L (λ i, if bool_decide (Z.of_nat i < k) then ls !! S i else ls !! i))); [unfold GUI_OUTPUT_LINES; lia|..].
    + exists (output_buffer t), (output_colors t). split_and!; [by destruct t|done|].
      eapply rows_ext; [done|]. intros i s. by rewrite bool_decide_eq_false_2 by lia.
    + intros k t' Hk (L & C & -> & HC & HL). unfold GUI_OUTPUT_LINES in Hk.
      assert (∃ n : nat, k = Z.of_nat n) as [n ->] by (exists (Z.to_nat k); lia).
      replace (Z.of_nat n + 1) with (Z.of_nat (S n)) by lia.
      destruct (lookup_lt_is_Some_2 ls (S n)) as [s Hs]; [lia|]. destruct (lookup_lt_is_Some_2 ls n) as [s0 Hs0]; [lia|].
      destruct (rows_row L _ (S n) s HL) as (a & Ha & Hta); [cbn; by rewrite bool_decide_eq_false_2 by lia|].
      destruct (rows_row L _ n s0 HL) as (b & Hb & Htb); [cbn; by rewrite bool_decide_eq_false_2 by lia|].
      destruct (text_in_copy 256 b a s) as (b' & E & Hb'); [apply Htb|apply Hta|by eapply text_in_fits|].
      apply wp_bind, (term_row_run _ a); [done|]. apply wp_bind, (term_row_run _ b); [done|].
      apply wp_bind, (wp_of_option _ b'); [done|].
      apply wp_bind, put_row_run; [by eapply lookup_lt_Some|]. apply wp_bind, wp_get. cbn [output_colors with_output_colors with_output_buffer output_buffer].
      destruct (arr_get_inside C (Z.of_nat (S n))) as (c & Ec & _); [lia|]. apply wp_bind, (wp_of_option _ c); [done|].
      apply put_color_run; [cbn; lia|]. eexists _, _. split_and!; [done|by rewrite length_insert|].
      eapply rows_ext; [apply (rows_put _ _ n b' s HL); [lia|done]|]. intros i u. unfold upd.
      destruct (decide (i = n)) as [->|Hne].
      * rewrite bool_decide_eq_true_2 by lia. congruence.
      * repeat case_bool_decide; done || lia.
  - intros [] t' (L & C & -> & HC & HL). exists L, C. split_and!; [done..|]. eapply rows_ext; [done|].
    intros i s. unfold GUI_OUTPUT_LINES. repeat case_bool_decide; done || lia.
Qed.

(** A line is put behind the others, and the oldest goes when there are a hundred. *)
Lemma add_line_run line s color t ls : shows t ls → holds line s →
  wp (gui_terminal_add_line line color) (λ _ t', shows t' (newest (ls ++ [take 255 s])) ∧
    window_width_chars t' = window_width_chars t ∧ input_pos t' = input_pos t ∧ scroll_offset t' = 0) t.
Proof.
  intros Hsh Hs. pose proof Hsh as [Hr Hc Hm Hcol]. unfold gui_terminal_add_line. apply wp_bind, wp_get, wp_bind.
  rewrite newest_snoc by done.
  set (ls' := if (100 <=? length ls)%nat then drop 1 ls else ls).
  apply (wp_mono _ (λ _ t', ∃ L C, t' = with_output_line_count (Z.of_nat (length ls')) (with_output_colors C (with_output_buffer L t)) ∧
    length C = 100%nat ∧ rows L (λ i, ls' !! i) ∧ (length ls' ≤ 99)%nat)).
  { unfold GUI_OUTPUT_LINES at 1. rewrite Hc. subst ls'. destruct (Nat.leb_spec 100 (length ls)).
    - rewrite (proj2 (Z.leb_le _ _)) by lia. apply wp_bind. eapply wp_mono; [apply (shift_lines_run t ls Hsh); lia|].
      intros [] t' (L & C & -> & HC & HL). apply wp_modify. exists L, C. rewrite length_drop. split_and!; [|done| |lia].
      + unfold GUI_OUTPUT_LINES. do 2 f_equal. lia.
      + eapply rows_ext; [done|]. intros i u Hi. rewrite lookup_drop in Hi. pose proof (lookup_lt_Some _ _ _ Hi).
        cbv beta. by rewrite bool_decide_eq_true_2 by lia.
    - rewrite (proj2 (Z.leb_gt _ _)) by lia. apply wp_ret. exists (output_buffer t), (output_colors t).
      split_and!; [rewrite <-Hc; by destruct t|done|done|lia]. }
  intros [] t' (L & C & -> & HC & HL & Hl99).
  apply wp_bind, (wp_of_option _ (Z.of_nat (length s))); [by apply str_len_holds|].
  set (n := length (take 255 s)). assert ((if GUI_OUTPUT_COLS <=? Z.of_nat (length s) then GUI_OUTPUT_COLS - 1 else Z.of_nat (length s)) = Z.of_nat n) as ->.
  { subst n. rewrite length_take. unfold GUI_OUTPUT_COLS. destruct (Z.leb_spec 256 (Z.of_nat (length s))); lia. }
  apply wp_bind, wp_get. cbn [output_line_count with_output_line_count].
  pose proof HL as [HLl HLs _]. destruct (lookup_lt_is_Some_2 L (length ls')) as [row Hrow]; [lia|].
  assert (length row = 256%nat) as Hrl by (rewrite Forall_lookup in HLs; eauto).
  apply wp_bind, (term_row_run _ row); [done|]. pose proof Hs as (Hsc & rest & Eline).
  assert (n ≤ 255)%nat as Hn by (subst n; rewrite length_take; lia).
  assert (n ≤ length s)%nat as Hns by (subst n; rewrite length_take; lia).
  apply wp_bind. eapply wp_of_option.
  { rewrite Nat2Z.id. apply (copy_chars_run n 0 0 row line (take 255 s)); [|done|lia]. intros j Hj. cbn.
    rewrite Eline, lookup_app_l, lookup_take_lt by (subst n; rewrite ?length_take in *; lia). done. }
  rewrite take_0, app_nil_l. set (row' := take 255 s ++ drop (0 + n) row).
  assert (length row' = 256%nat) as Hr' by (subst row'; rewrite length_app, length_drop; lia).
  apply wp_bind. eapply wp_of_option; [apply arr_set_inside; lia|]. rewrite Nat2Z.id.
  apply wp_bind, put_row_run; [cbn; lia|]. apply wp_bind, put_color_run; [cbn; lia|].
  apply wp_bind, wp_modify, wp_modify. split_and!; [|done..].
  assert (text_in 256 (<[n := 0]> row') (take 255 s)) as Ht.
  { split; [by rewrite length_insert|]. apply holds_lookup. fold n. split_and!; [by apply Forall_take| |by rewrite list_lookup_insert_eq by lia].
    intros i Hi. rewrite list_lookup_insert_ne by lia. subst row'. by rewrite lookup_app_l by done. }
  assert (length (ls' ++ [take 255 s]) = S (length ls')) as El by (rewrite length_app; cbn; lia).
  replace (if (100 <=? length ls)%nat then drop 1 ls ++ [take 255 s] else ls ++ [take 255 s]) with (ls' ++ [take 255 s])
    by (subst ls'; by destruct (100 <=? length ls)%nat).
  split; [|rewrite El; cbn; lia|lia|by etransitivity; [apply length_insert|]].
  eapply rows_ext; [apply (rows_put _ _ (length ls') (<[n := 0]> row') (take 255 s) HL); [lia|exact Ht]|]. intros i u Hi. unfold upd.
  destruct (decide (i = length ls')) as [->|Hne]; [by rewrite list_lookup_middle in Hi|].
  rewrite lookup_app_l in Hi; [done|]. apply lookup_lt_Some in Hi. lia.
Qed.

(** A collected line in pieces. *)
Lemma wrap_run cl s color w t ls : shows t ls → window_width_chars t = Z.of_nat w → (0 < w)%nat →
  (∃ rest, cl = s ++ 0 :: rest) → Forall is_char s → (length s ≤ 511)%nat → ∀ k fuel, (k ≤ length s)%nat → (length s - k < fuel)%nat →
  wp (iterM fuel (wrap_step cl (Z.of_nat (length s)) color) (Z.of_nat k)) (λ _ t',
    shows t' (newest (ls ++ map (take 255) (pieces (length s - k) w (drop k s)))) ∧ window_width_chars t' = Z.of_nat w) t.
Proof.
  intros Hsh Hw Hwpos (rest & ->) Hs Hl k fuel. revert k t ls Hsh Hw. induction fuel as [|fuel IH]; intros k t ls Hsh Hw Hk Hf; [lia|].
  cbn [iterM]. apply wp_bind. unfold wrap_step at 1. destruct (Z.ltb_spec (Z.of_nat k) (Z.of_nat (length s))); cbn [negb].
  2: { apply wp_ret, wp_ret. replace (length s - k)%nat with 0%nat by lia. cbn. rewrite app_nil_r, newest_short by apply Hsh. done. }
  apply wp_bind, wp_get. rewrite Hw. set (n := Nat.min w (length s - k)).
  assert ((if Z.of_nat w <? Z.of_nat (length s) - Z.of_nat k then Z.of_nat w else Z.of_nat (length s) - Z.of_nat k) = Z.of_nat n) as ->
    by (subst n; destruct (Z.ltb_spec (Z.of_nat w) (Z.of_nat (length s) - Z.of_nat k)); lia).
  rewrite Nat2Z.id. set (p := take w (drop k s)). assert (length p = n) as Hp by (subst p n; rewrite length_take, length_drop; lia).
  apply wp_bind. eapply wp_of_option.
  { apply (copy_chars_run n 0 k (replicate 512 0) _ p); [|done|rewrite length_replicate; lia]. intros j Hj. subst p.
    rewrite Nat.add_0_r, lookup_app_l, lookup_take_lt, lookup_drop by (subst n; lia). done. }
  rewrite take_0, app_nil_l. apply wp_bind. eapply wp_of_option.
  { apply arr_set_inside. rewrite length_app, length_drop, length_replicate. lia. }
  rewrite Nat2Z.id. apply wp_bind. eapply wp_mono; [apply (add_line_run _ p _ _ ls Hsh)|].
  { apply holds_lookup. split_and!; [by apply Forall_take, Forall_drop| |].
    - intros i Hi. rewrite list_lookup_insert_ne by lia. by rewrite lookup_app_l.
    - rewrite Hp, list_lookup_insert_eq by (rewrite length_app, length_drop, length_replicate; lia). done. }
  intros [] t1 (Hsh1 & Hw1 & _ & _). apply wp_ret. replace (Z.of_nat k + Z.of_nat n) with (Z.of_nat (k + n)) by lia.
  eapply wp_mono; [apply (IH (k + n)%nat t1 _ Hsh1); [congruence|lia|lia]|]. intros [] t2 [Hsh2 Hw2]. split; [|done].
  rewrite newest_app, <-app_assoc in Hsh2. replace (length s - k)%nat with (S (length s - k - 1)) by lia.
  destruct (drop k s) as [|x r] eqn:Ed; [apply (f_equal length) in Ed; rewrite length_drop in Ed; cbn in Ed; lia|].
  cbn [pieces map]. subst p. rewrite ?Ed in Hsh2. cbn [app] in Hsh2.
  assert (pieces (length s - (k + n)) w (drop (k + n) s) = pieces (length s - k - 1) w (drop w (x :: r))) as <-; [|done].
  rewrite <-Ed, drop_drop. assert (Hpf : ∀ m m' u, (length u ≤ m)%nat → (length u ≤ m')%nat → pieces m w u = pieces m' w u).
  { induction m as [|m IHm]; intros [|m'] [|y u] Hm Hm'; cbn in *; try done; try lia. f_equal.
    apply IHm; rewrite length_drop; cbn; lia. }
  destruct (decide (w ≤ length s - k)%nat).
  - replace (k + n)%nat with (k + w)%nat by lia. apply Hpf; rewrite length_drop; lia.
  - rewrite !drop_ge by lia. by destruct (length s - (k + n))%nat, (length s - k - 1)%nat.
Qed.

Lemma lines_of_head cur text : ∃ l ls, lines_of cur text = (cur ++ l) :: ls.
Proof.
  revert cur. induction text as [|c text IH]; intros cur; cbn [lines_of].
  - exists [], []. by rewrite app_nil_r.
  - destruct (c =? 10); [exists [], (lines_of [] text); by rewrite app_nil_r|].
    destruct (IH (cur ++ [c])) as (l & ls & ->). exists (c :: l), ls. by rewrite <-app_assoc.
Qed.

Lemma all_short_head cur text : all_short (lines_of cur text) = true → (length cur ≤ 511)%nat.
Proof.
  destruct (lines_of_head cur text) as (l & ls & ->). cbn. intros [H%Nat.leb_le _]%andb_prop. rewrite length_app in H. lia.
Qed.

(** The line collected is ended, cut and shown. *)
Lemma wrap_collected cl cur color w t ls : shows t ls → window_width_chars t = Z.of_nat w → (0 < w)%nat →
  length cl = 512%nat → take (length cur) cl = cur → Forall is_char cur → (length cur ≤ 511)%nat →
  wp (wrap_lines (<[length cur := 0]> (cl : list Z)) (Z.of_nat (length cur)) color) (λ _ t',
    shows t' (newest (ls ++ map (take 255) (pieces (length cur) w cur))) ∧ window_width_chars t' = Z.of_nat w) t.
Proof.
  intros Hsh Hw Hwpos Hcl Hcur Hc Hlen. unfold wrap_lines. rewrite Nat2Z.id.
  eapply wp_mono; [apply (wrap_run _ cur color w t ls Hsh Hw Hwpos) with (k := 0%nat); [|done|done|lia|lia]|].
  - exists (drop (S (length cur)) cl). rewrite insert_take_drop by lia. by rewrite Hcur.
  - intros [] t'. by rewrite Nat.sub_0_r.
Qed.

Lemma collect_char cl cur c : length cl = 512%nat → take (length cur) cl = cur → (length cur ≤ 511)%nat →
  take (length (cur ++ [c])) (<[length cur := c]> (cl : list Z)) = cur ++ [c].
Proof.
  intros Hcl Hcur Hlen. rewrite length_app, Nat.add_1_r. rewrite (take_S_r _ _ c) by (apply list_lookup_insert_eq; lia).
  rewrite take_insert_ge by lia. congruence.
Qed.

Lemma print_run text color w cl cur t ls : shows t ls → window_width_chars t = Z.of_nat w → (0 < w)%nat →
  length cl = 512%nat → take (length cur) cl = cur → Forall is_char cur →
  Forall is_char text → all_short (lines_of cur text) = true →
  wp (print_chars text cl (Z.of_nat (length cur)) color) (λ _ t',
    shows t' (newest (ls ++ map (take 255) (wrapped w (lines_of cur text)))) ∧ window_width_chars t' = Z.of_nat w) t.
Proof.
  intros Hsh Hw Hwpos. revert cl cur t ls Hsh Hw. induction text as [|c text IH]; intros cl cur t ls Hsh Hw Hcl Hcur Hc Ht Hsl;
    pose proof (all_short_head _ _ Hsl) as Hlen; cbn [print_chars lines_of] in *.
  - unfold wrapped. cbn [map concat]. rewrite app_nil_r. destruct cur as [|x cur].
    { apply wp_ret. cbn. rewrite app_nil_r, newest_short by apply Hsh. done. }
    rewrite (proj2 (Z.ltb_lt 0 _)) by (cbn; lia). apply wp_bind. eapply wp_of_option; [apply arr_set_inside; lia|]. rewrite Nat2Z.id.
    by apply wrap_collected.
  - apply Forall_cons_1 in Ht as [Hch Ht]. destruct (c =? 10).
    + apply wp_bind. eapply wp_of_option; [apply arr_set_inside; lia|]. rewrite Nat2Z.id. apply wp_bind.
      eapply wp_mono; [by apply (wrap_collected cl cur color w t ls)|].
      intros [] t1 [Hsh1 Hw1]. change 0 with (Z.of_nat (@length Z [])). cbn [all_short forallb] in Hsl. apply andb_prop in Hsl as [_ Hsl].
      eapply wp_mono; [apply (IH _ [] t1 _ Hsh1 Hw1); [by rewrite length_insert|done|constructor|done|done]|].
      intros [] t2 [Hsh2 Hw2]. split; [|done]. by rewrite newest_app, <-app_assoc, <-map_app in Hsh2.
    + apply wp_bind. eapply wp_of_option; [apply arr_set_inside; lia|]. rewrite Nat2Z.id.
      replace (Z.of_nat (length cur) + 1) with (Z.of_nat (length (cur ++ [c]))) by (rewrite length_app; cbn; lia).
      apply (IH _ (cur ++ [c])); try done; [by rewrite length_insert|by apply collect_char|].
      apply Forall_app_2; [done|by constructor].
Qed.

(** With 512 characters collected, the next one and the end of the line are both written behind the array. *)
Lemma full_line_faults text color cl t : length cl = 512%nat → print_chars text cl 512 color t = Stuck Fault.
Proof.
  intros Hcl. assert (∀ v, arr_set cl 512 v = None) as H.
  { intros v. unfold arr_set. rewrite Hcl. done. }
  destruct text as [|c text]; cbn [print_chars].
  - change (0 <? 512) with true. cbv iota. mred. by rewrite H.
  - destruct (c =? 10); mred; by rewrite H.
Qed.

Lemma print_overruns text color w cl cur t ls : shows t ls → window_width_chars t = Z.of_nat w → (0 < w)%nat →
  length cl = 512%nat → take (length cur) cl = cur → Forall is_char cur → (length cur ≤ 511)%nat →
  Forall is_char text → all_short (lines_of cur text) = false →
  print_chars text cl (Z.of_nat (length cur)) color t = Stuck Fault.
Proof.
  intros Hsh Hw Hwpos. revert cl cur t ls Hsh Hw. induction text as [|c text IH]; intros cl cur t ls Hsh Hw Hcl Hcur Hc Hlen Ht Hsl;
    cbn [print_chars lines_of all_short forallb] in *.
  { rewrite andb_true_r in Hsl. apply Nat.ltb_ge in Hsl. lia. }
  apply Forall_cons_1 in Ht as [Hch Ht]. destruct (c =? 10).
  - cbn [all_short forallb] in Hsl. rewrite (proj2 (Nat.ltb_lt _ _)) in Hsl by lia. cbn [andb] in Hsl.
    rewrite arr_set_inside, Nat2Z.id by lia. unfold of_option at 1. mred.
    destruct (proj1 (wp_run _ _ _) (wrap_collected cl cur color w t ls Hsh Hw Hwpos Hcl Hcur Hc Hlen)) as ([] & t1 & -> & Hsh1 & Hw1).
    change 0 with (Z.of_nat (@length Z [])). eapply (IH _ [] t1); try done; [by rewrite length_insert|cbn; lia].
  - rewrite arr_set_inside, Nat2Z.id by lia. unfold of_option at 1. mred.
    replace (Z.of_nat (length cur) + 1) with (Z.of_nat (length (cur ++ [c]))) by (rewrite length_app; cbn; lia).
    destruct (decide (length cur = 511%nat)) as [E|].
    + rewrite length_app, E. apply full_line_faults. by rewrite length_insert.
    + eapply (IH _ (cur ++ [c])); try done; [by rewrite length_insert|by apply collect_char| |rewrite length_app; cbn; lia].
      apply Forall_app_2; [done|by constructor].
Qed.

(** Nothing but the newlines is lost by cutting into pieces. *)
Lemma pieces_whole w fuel s : (0 < w)%nat → (length s ≤ fuel)%nat → concat (pieces fuel w s) = s.
Proof.
  intros Hw. revert s. induction fuel as [|n IH]; intros [|x s] Hf; cbn in Hf; try done; [lia|]. cbn [pieces concat].
  rewrite IH; [by rewrite take_drop|]. rewrite length_drop. cbn. lia.
Qed.

Lemma lines_whole cur text : concat (lines_of cur text) = cur ++ filter (λ c, c ≠ 10) text.
Proof.
  revert cur. induction text as [|c text IH]; intros cur; cbn [lines_of concat]; [done|].
  destruct (Z.eqb_spec c 10) as [->|H].
  - cbn [concat]. rewrite IH, filter_cons_False by (intros ?; done). done.
  - rewrite IH, filter_cons_True, <-app_assoc by done. done.
Qed.

Lemma wrapped_whole w ls : (0 < w)%nat → concat (wrapped w ls) = concat ls.
Proof.
  intros Hw. unfold wrapped. induction ls as [|l ls IH]; cbn [map concat]; [done|]. by rewrite concat_app, IH, pieces_whole.
Qed.

Lemma pieces_width w fuel s : Forall (λ l, length l ≤ w)%nat (pieces fuel w s).
Proof. revert s. induction fuel as [|n IH]; intros [|x s]; constructor; [rewrite length_take; lia|apply IH]. Qed.

Lemma wrapped_width w ls : Forall (λ l, length l ≤ w)%nat (wrapped w ls).
Proof. unfold wrapped. induction ls as [|l ls IH]; cbn [map concat]; [constructor|]. apply Forall_app_2; [apply pieces_width|done]. Qed.

Lemma cut_nothing w ls : (w ≤ 255)%nat → map (take 255) (wrapped w ls) = wrapped w ls.
Proof.
  intros Hw. pose proof (wrapped_width w ls) as H. induction H as [|l rest Hl _ IH]; [done|]. cbn. rewrite IH, take_ge by lia. done.
Qed.

(** C39: Output in a terminal whose window is at least a character wide.  The text is taken line by
    line; each line is cut into pieces of the width of the window, an empty line gives none, and of
    each piece the first 255 characters are put behind the lines that were there, of which the
    newest hundred stay.  With a window of at most 255 characters nothing but the newlines is lost:
    the pieces joined are the text without them.  A text with a line of 512 characters or more is
    written behind the array its lines are collected in. *)
Theorem terminal_print_wraps (text : str) (color : Z) (w : nat) (t : terminal) (ls : list str) (Hsh : shows t ls)
    (Hw : window_width_chars t = Z.of_nat w) (Hpos : (0 < w)%nat) (Ht : Forall is_char text) :
  let shown := map (take 255) (wrapped w (lines_of [] text)) in
  (if all_short (lines_of [] text) then
    ∃ t', gui_terminal_print text color t = Done tt t' ∧ shows t' (newest (ls ++ shown)) ∧ window_width_chars t' = Z.of_nat w
   else gui_terminal_print text color t = Stuck Fault) ∧
  Forall (λ l, length l ≤ w)%nat shown ∧ ((w ≤ 255)%nat → concat shown = filter (λ c, c ≠ 10) text).
Proof.
  intros shown. split; [|split].
  - unfold gui_terminal_print. change 0 with (Z.of_nat (@length Z [])) at 2 4.
    destruct (all_short (lines_of [] text)) eqn:Hsl.
    + destruct (proj1 (wp_run _ _ _) (print_run text color w (replicate 512 0) [] t ls Hsh Hw Hpos eq_refl eq_refl ltac:(constructor) Ht Hsl))
        as ([] & t' & E & H). by exists t'.
    + apply (print_overruns text color w _ [] t ls); try (done || (cbn; lia)).
  - unfold shown. rewrite Forall_fmap. eapply Forall_impl; [|apply wrapped_width]. intros l H. cbn in *. rewrite length_take. lia.
  - intros H. unfold shown. rewrite cut_nothing, wrapped_whole, lines_whole by done. done.
Qed.

(** ** A terminal to try *)

Definition blank_bar : bar := mk_bar 0 (mk_rect 0 0 0 0) 0 0 0 0.
Definition demo_terminal (width : Z) : terminal :=
  mk_terminal 0 (replicate 100 (replicate 256 0)) (replicate 100 0) 0 1 width 25 0 blank_bar 0.

Lemma demo_shows width : shows (demo_terminal width) [].
Proof.
  split; cbn [output_buffer demo_terminal output_line_count length output_colors]; try done; try lia.
  split; [done|apply (bool_decide_unpack _); by vm_compute|done].
Qed.

Definition demo_output : str := chars "abcdefg" ++ [10; 10] ++ chars "xyz" ++ [10].

Lemma terminal_print_wraps_witness :
  ((∃ t', gui_terminal_print demo_output 5 (demo_terminal 4) = Done tt t' ∧
    shows t' [chars "abcd"; chars "efg"; chars "xyz"] ∧ window_width_chars t' = 4) ∧
   Forall (λ l, length l ≤ 4)%nat [chars "abcd"; chars "efg"; chars "xyz"] ∧
   ((4 ≤ 255)%nat → chars "abcdefgxyz" = filter (λ c, c ≠ 10) demo_output)).
Proof.
  apply (terminal_print_wraps demo_output 5 4 (demo_terminal 4) []);
    [apply demo_shows|done|lia|apply (bool_decide_unpack _); by vm_compute].
Defined.

(** A line of 512 characters leaves the array it is collected in. *)
Example long_line_overruns :
  gui_terminal_print (replicate 512 120) 5 (demo_terminal 4) = Stuck Fault.
Proof. by vm_compute. Qed.
