(* ===== verification/GuiPrograms.v ===== *)
(** * The desktop's programs, [gui/programs/text_editor.c], [file_manager.c] and [settings.c] *)

From Stdlib Require Import ZArith Lia String.
From stdpp Require Import base list numbers.
From S2P Require Import Prelude CString Buffer Display Desktop.
Open Scope Z_scope.
Set Default Goal Selector "!".

Definition ENTRY_HEIGHT : Z := 20.
Definition ICON_SIZE : Z := 16.

(** ** The text editor *)

Section editor.
  Abbreviation E := (M text_editor).

(** [lines[i]], its replacement, and [str_copy(lines[i], source)]. *)
Definition te_row (i : Z) : E (list Z) := t ← get; of_option (slot (te_lines t) i).
Definition te_put (i : Z) (row : list Z) : E unit :=
  t ← get; l ← of_option (set_slot (te_lines t) i row); modify (with_te_lines l).
Definition te_copy (i : Z) (source : list Z) : E unit := row ← te_row i; row ← of_option (str_copy row source); te_put i row.

Definition gui_text_editor_init : E unit :=
  modify (with_te_line_count 1);;
  modify (with_cursor_line 0);;
  modify (with_cursor_col 0);;
  modify (with_te_scroll_offset 0);;
  te_copy 0 (lit "").

Definition te_backspace : E unit :=
  t ← get;
  let line := cursor_line t in
  if 0 <? cursor_col t then
    let col := cursor_col t - 1 in
    modify (with_cursor_col col);;
    for_to col (GUI_TEXT_EDITOR_COLS - 1) (λ i,
      row ← te_row line; v ← of_option (arr_get row (i + 1)); row ← of_option (arr_set row i v); te_put line row)
  else if 0 <? line then
    prev ← te_row (line - 1);
    prev_len ← of_option (str_len prev);
    row ← te_row line;
    prev ← of_option (str_append prev row);
    te_put (line - 1) prev;;
    modify (with_cursor_line (line - 1));;
    modify (with_cursor_col prev_len);;
    for_to line (te_line_count t - 1) (λ i, next ← te_row (i + 1); te_copy i next);;
    modify (with_te_line_count (te_line_count t - 1))
  else mret tt.

Definition te_newline : E unit :=
  t ← get;
  let line := cursor_line t in
  let n := te_line_count t in
  if n <? GUI_TEXT_EDITOR_LINES - 1 then
    for_to 0 (n - (line + 1)) (λ k, prev ← te_row (n - k - 1); te_copy (n - k) prev);;
    row ← te_row line;
    te_copy (line + 1) (drop (Z.to_nat (cursor_col t)) row);;
    row ← te_row line;
    row ← of_option (arr_set row (cursor_col t) 0);
    te_put line row;;
    modify (with_cursor_line (line + 1));;
    modify (with_cursor_col 0);;
    modify (with_te_line_count (n + 1))
  else mret tt.

Definition te_insert (key : Z) : E unit :=
  t ← get;
  let line := cursor_line t in
  if cursor_col t <? GUI_TEXT_EDITOR_COLS - 1 then
    for_to 0 (GUI_TEXT_EDITOR_COLS - 1 - cursor_col t) (λ k,
      let i := GUI_TEXT_EDITOR_COLS - 1 - k in
      row ← te_row line; v ← of_option (arr_get row (i - 1)); row ← of_option (arr_set row i v); te_put line row);;
    row ← te_row line;
    row ← of_option (arr_set row (cursor_col t) (u8 key));
    te_put line row;;
    modify (with_cursor_col (cursor_col t + 1))
  else mret tt.

Definition gui_text_editor_handle_key (key : Z) : E unit :=
  (if key =? 8 then te_backspace
   else if key =? 10 then te_newline
   else if (32 <=? key) && (key <=? 126) then te_insert key
   else mret tt);;
  modify (λ t, if cursor_line t <? te_scroll_offset t then with_te_scroll_offset (cursor_line t) t
               else if te_scroll_offset t + 10 <=? cursor_line t then with_te_scroll_offset (cursor_line t - 9) t else t).
End editor.

(** ** The file manager *)

(** The names go into the entries one after the other while there is room. *)
Fixpoint put_entries (names : list str) (n : Z) (entries : list (list Z)) : option (Z * list (list Z)) :=
  match names with
  | [] => Some (n, entries)
  | name :: names' =>
      if n <? GUI_FILE_MANAGER_MAX_ENTRIES then
        row ← slot entries n;
        row ← str_copy row (name ++ [0]);
        entries ← set_slot entries n row;
        put_entries names' (n + 1) entries
      else Some (n, entries)
  end.

(** The path of the directory above, in the array [path]. *)
Fixpoint last_slash_from (fuel : nat) (path : list Z) (len : Z) : option Z :=
  match fuel with
  | O => None
  | S n => if 1 <? len then c ← arr_get path (len - 1); if c =? 47 then Some len else last_slash_from n path (len - 1)
           else Some len
  end.
Definition parent_of (current_path : list Z) : option (option (list Z)) :=
  parent_path ← str_copy (replicate 256 0) current_path;
  len ← str_len parent_path;
  if 1 <? len then
    len ← last_slash_from (S (Z.to_nat len)) parent_path len;
    let len := if 1 <? len then len - 1 else len in
    parent_path ← arr_set parent_path len 0;
    if len =? 0 then p ← str_copy parent_path (lit "/"); Some (Some p) else Some (Some parent_path)
  else Some None.

(** [current_path/name], in an array of 512. *)
Definition full_path_of (current_path name : list Z) : option (list Z) :=
  full_path ← str_copy (replicate 512 0) current_path;
  root ← str_equals current_path (lit "/");
  full_path ← (if (root : bool) then Some full_path else str_append full_path (lit "/"));
  str_append full_path name.

Section desk.
  Context {W : Type} `{!Painter W} `{!Kernel W}.
  Abbreviation D := (desk W).

Definition gui_file_manager_load_directory (state : Z) (path : list Z) : M D unit :=
  m ← get_manager state;
  p ← of_option (str_copy (current_path m) path);
  put_manager state (with_fm_scroll_offset 0 (with_selected_index (-1) (with_entry_count 0 (with_current_path p m))));;
  n ← of_option (str_len path);
  dir ← on_world (k_directory (take (Z.to_nat n) path));
  match dir with
  | None => mret tt
  | Some names =>
      m ← get_manager state;
      '(count, l) ← of_option (put_entries (if 1 <? n then chars ".." :: names else names) 0 (entries m));
      put_manager state (with_entry_count count (with_entries l m))
  end.

Definition gui_file_manager_init (state : Z) : M D unit :=
  m ← get_manager state;
  p ← of_option (str_copy (current_path m) (lit "/"));
  put_manager state (with_fm_scroll_offset 0 (with_selected_index (-1) (with_entry_count 0 (with_current_path p m))));;
  gui_file_manager_load_directory state (lit "/").

Definition gui_file_manager_handle_click (state y : Z) (win : rect) : M D unit :=
  m ← get_manager state;
  let clicked_y := y ⊖ (ry win ⊕ 50) in
  if clicked_y <? 0 then mret tt else
  let clicked_index := Z.quot clicked_y ENTRY_HEIGHT ⊕ fm_scroll_offset m in
  if entry_count m <=? clicked_index then mret tt else
  put_manager state (with_selected_index clicked_index m);;
  selected_name ← of_option (slot (entries m) clicked_index);
  up ← of_option (str_equals selected_name (lit ".."));
  if (up : bool) then
    parent ← of_option (parent_of (current_path m));
    match parent with Some p => gui_file_manager_load_directory state p | None => mret tt end
  else
    full_path ← of_option (full_path_of (current_path m) selected_name);
    n ← of_option (str_len full_path);
    dir ← on_world (k_directory (take (Z.to_nat n) full_path));
    match dir with Some _ => gui_file_manager_load_directory state full_path | None => mret tt end.

(** ** Drawing *)

(** A string in an array, up to its end. *)
Definition text_of (a : list Z) : option str := n ← str_len a; Some (take (Z.to_nat n) a).

Definition gui_draw_text_editor (state : Z) (win : rect) : M D unit :=
  t ← get_editor state;
  let bg_y := ry win ⊕ 25 in
  let bg_h := rh win ⊖ 25 in
  (if (0 <=? rx win) && (0 <=? bg_y) && (0 <? rw win) && (0 <? bg_h)
   then rect_at (rx win) bg_y (rw win) bg_h 0xFFFFFFFF else mret tt);;
  let text_x := rx win ⊕ 50 in
  let text_y := bg_y ⊕ 10 in
  let visible_lines := Z.quot (bg_h ⊖ 20) 16 in
  let start_line := te_scroll_offset t in
  let end_line := if te_line_count t <? start_line ⊕ visible_lines then te_line_count t else start_line ⊕ visible_lines in
  for_to start_line end_line (λ i,
    num ← of_option (n ← str_copy (replicate 10 0) (lit ""); n ← str_append_uint n (i + 1); n ← str_append n (lit ": "); text_of n);
    text_at num (rx win ⊕ 10) (text_y ⊕ 16 * (i - start_line)) 0xFF888888;;
    line ← of_option (row ← slot (te_lines t) i; text_of row);
    text_at line text_x (text_y ⊕ 16 * (i - start_line)) 0xFF000000);;
  let cursor_x := text_x ⊕ i32 (cursor_col t * 8) in
  let cursor_y := text_y ⊕ i32 ((cursor_line t ⊖ start_line) * 16) in
  if (text_y <=? cursor_y) && (cursor_y <? bg_y ⊕ bg_h ⊖ 10) then rect_at cursor_x cursor_y 2 16 0xFF000000 else mret tt.

Definition gui_draw_file_manager (state : Z) (win : rect) : M D unit :=
  m ← get_manager state;
  let mx := rx win in
  let my := ry win in
  let mw := rw win in
  rect_at mx (my ⊕ 25) mw (rh win ⊖ 25) 0xFFFFFFFF;;
  rect_at mx (my ⊕ 25) mw 25 0xFFE0E0E0;;
  path ← of_option (text_of (current_path m));
  text_at path (mx ⊕ 10) (my ⊕ 30) 0xFF000000;;
  let content_y := my ⊕ 50 in
  let visible_entries := Z.quot (rh win ⊖ 50) ENTRY_HEIGHT in
  for_to (fm_scroll_offset m) (Z.min (entry_count m) (fm_scroll_offset m ⊕ visible_entries)) (λ i,
    let entry_y := content_y ⊕ i32 ((i - fm_scroll_offset m) * ENTRY_HEIGHT) in
    rect_at mx entry_y mw ENTRY_HEIGHT (if i =? selected_index m then 0xFFADD8E6 else 0xFFFFFFFF);;
    rect_at (mx ⊕ 5) (entry_y ⊕ 2) ICON_SIZE ICON_SIZE 0xFF808080;;
    name ← of_option (row ← slot (entries m) i; text_of row);
    text_at name (mx ⊕ 30) (entry_y ⊕ 4) 0xFF000000).

Definition gui_draw_settings (win : rect) : M D unit :=
  let bg_y := ry win ⊕ 25 in
  let bg_h := rh win ⊖ 25 in
  if (0 <=? rx win) && (0 <=? bg_y) && (0 <? rw win) && (0 <? bg_h)
  then rect_at (rx win) bg_y (rw win) bg_h 0xFFFFFFFF else mret tt.
End desk.

(** ** Down and up again *)

(** The name of an entry behind the path of its directory. *)
Definition below (p name : str) : str := if bool_decide (p = [47]) then 47 :: name else p ++ 47 :: name.

(** The path of a directory: the root, or a longer one. *)
Definition dir_path (p : str) : Prop := p = [47] ∨ (2 ≤ length p)%nat.

Lemma full_path_run cp p en name : holds cp p → holds en name → (length p + length name < 510)%nat →
  ∃ fp, full_path_of cp en = Some fp ∧ holds fp (below p name).
Proof.
  intros Hp Hn Hl. unfold full_path_of, below.
  destruct (text_in_copy 512 (replicate 512 0) cp p) as (f1 & -> & H1); [done|done|lia|]. cbn [mbind option_bind].
  assert (holds (lit "/") [47]) as Hroot by (apply (holds_lit "/"); eval_decide).
  rewrite (str_equals_holds cp (lit "/") p [47] Hp Hroot). cbn [mbind option_bind].
  destruct (bool_decide (p = [47])) eqn:E; cbn [mbind option_bind].
  - apply bool_decide_eq_true in E as ->. cbn in Hl. destruct (text_in_append 512 f1 en _ name H1 Hn) as (f2 & -> & H2); [cbn; lia|].
    exists f2. split; [done|apply H2].
  - destruct (text_in_append 512 f1 (lit "/") p [47] H1 Hroot) as (f2 & -> & H2); [cbn; lia|]. cbn [mbind option_bind].
    destruct (text_in_append 512 f2 en _ name H2 Hn) as (f3 & -> & H3); [rewrite length_app; cbn; lia|].
    exists f3. split; [done|]. rewrite <-app_assoc in H3. apply H3.
Qed.

Lemma last_slash_run path a name : (∀ i, (i < length a + 1 + length name)%nat → path !! i = (a ++ 47 :: name) !! i) → 47 ∉ name →
  ∀ k fuel, (k ≤ length name)%nat → (k < fuel)%nat →
  last_slash_from fuel path (Z.of_nat (length a + 1 + k)) = Some (Z.of_nat (length a + 1)).
Proof.
  intros Hp Hn k. induction k as [|k IH]; intros [|fuel] Hk Hf; try lia; cbn [last_slash_from].
  - rewrite Nat.add_0_r. destruct (Z.ltb_spec 1 (Z.of_nat (length a + 1))); [|done].
    unfold arr_get. rewrite (proj2 (Z.leb_le _ _)) by lia. replace (Z.to_nat _) with (length a) by lia.
    rewrite Hp by lia. rewrite list_lookup_middle by done. done.
  - rewrite (proj2 (Z.ltb_lt _ _)) by lia. destruct (lookup_lt_is_Some_2 name k) as [c Hc]; [lia|].
    unfold arr_get. rewrite (proj2 (Z.leb_le _ _)) by lia. replace (Z.to_nat (Z.of_nat (length a + 1 + S k) - 1)) with (length a + S k)%nat by lia.
    rewrite Hp, lookup_app_r by lia. replace (length a + S k - length a)%nat with (S k) by lia. rewrite lookup_cons, Hc.
    cbn [mbind option_bind]. rewrite (proj2 (Z.eqb_neq c 47)) by (intros ->; by apply Hn, list_elem_of_lookup_2 with k).
    replace (Z.of_nat (length a + 1 + S k) - 1) with (Z.of_nat (length a + 1 + k)) by lia. apply IH; lia.
Qed.

(** The file manager's paths.  The path made for an entry of a directory is the directory's,
    a slash and the name, and going up from there gives the directory's path again, at any
    depth, the root included, while the path fits its array. *)
Theorem up_undoes_down (cp en : list Z) (p name : str) (Hp : holds cp p) (Hn : holds en name) (Hdir : dir_path p)
    (Hne : name ≠ []) (Hslash : 47 ∉ name) (Hlen : (length p + length name < 255)%nat) :
  ∃ fp, full_path_of cp en = Some fp ∧ holds fp (below p name) ∧
    ∀ cp', holds cp' (below p name) → ∃ pp, parent_of cp' = Some (Some pp) ∧ holds pp p.
Proof.
  destruct (full_path_run cp p en name Hp Hn) as (fp & E & Hfp); [lia|]. exists fp. split_and!; [done..|]. clear fp E Hfp.
  intros cp' Hc. set (a := if bool_decide (p = [47]) then [] else p).
  assert (Hb : below p name = a ++ 47 :: name) by (subst a; unfold below; by destruct (bool_decide (p = [47]))).
  assert (length name ≠ 0)%nat as Hn0 by (by destruct name).
  assert (length a ≤ length p)%nat as Ha by (subst a; destruct (bool_decide (p = [47])); cbn; lia).
  rewrite Hb in Hc. unfold parent_of.
  assert (length (a ++ 47 :: name) = (length a + 1 + length name)%nat) as El by (rewrite length_app; cbn; lia).
  destruct (text_in_copy 256 (replicate 256 0) cp' (a ++ 47 :: name)) as (f & -> & [Hfl Hf]); [done|done|lia|]. cbn [mbind option_bind].
  rewrite (str_len_holds _ _ Hf). cbn [mbind option_bind]. rewrite El, (proj2 (Z.ltb_lt 1 _)) by lia.
  pose proof (holds_take f (a ++ 47 :: name)) as Hcut. pose proof Hf as (_ & Hi & _)%holds_lookup. rewrite El in Hi.
  rewrite (last_slash_run f a name Hi Hslash (length name)) by lia. cbn [mbind option_bind].
  destruct (decide (p = [47])) as [->|Hr].
  - subst a. rewrite bool_decide_eq_true_2 in * by done. cbn [length Nat.add app] in *. change (1 <? Z.of_nat 1) with false. cbn iota.
    rewrite arr_set_inside by lia. cbn [mbind option_bind]. change (Z.of_nat 1 =? 0) with false. cbn iota.
    eexists. split; [done|]. apply (Hcut 1%nat Hf). cbn. lia.
  - subst a. rewrite bool_decide_eq_false_2 in * by done. destruct Hdir as [|Hdir]; [done|].
    rewrite (proj2 (Z.ltb_lt 1 _)) by lia. replace (Z.of_nat (length p + 1) - 1) with (Z.of_nat (length p)) by lia.
    rewrite arr_set_inside by lia. cbn [mbind option_bind]. rewrite (proj2 (Z.eqb_neq _ 0)) by lia.
    eexists. split; [done|]. rewrite Nat2Z.id. specialize (Hcut (length p) Hf). rewrite take_app_length in Hcut. apply Hcut. rewrite El. lia.
Qed.

(** ** Programs to try *)

Lemma up_undoes_down_witness :
  ∃ fp, full_path_of (lit "/boot") (lit "fonts") = Some fp ∧ holds fp (chars "/boot/fonts") ∧
    ∀ cp', holds cp' (chars "/boot/fonts") → ∃ pp, parent_of cp' = Some (Some pp) ∧ holds pp (chars "/boot").
Proof.
  apply (up_undoes_down (lit "/boot") (lit "fonts") (chars "/boot") (chars "fonts"));
    [apply holds_lit; eval_decide|apply holds_lit; eval_decide|right; cbn; lia|done|eval_decide|cbn; lia].
Defined.

(** An editor of the desktop with its first two lines. *)
Definition demo_te (l0 l1 : str) (line col : Z) : text_editor :=
  let row s := s ++ replicate (80 - length s) 0 in
  mk_text_editor (row l0 :: row l1 :: replicate 98 (replicate 80 0)) 2 line col 0.

(** Two lines that do not fit in one are joined beyond the end of the first. *)
Example join_overruns :
  gui_text_editor_handle_key 8 (demo_te (replicate 50 97) (replicate 50 98) 1 0) = Stuck Fault.
Proof. by vm_compute. Qed.

(** A character put into a line of 79 pushes the end of the string out of the array. *)
Example full_line_unterminated :
  match gui_text_editor_handle_key 99 (demo_te (replicate 79 97) [] 0 10) with
  | Done _ t => default None (str_len <$> te_lines t !! 0%nat) = None
  | Stuck _ => False
  end.
Proof. by vm_compute. Qed.
