(* ===== verification/Gui.v ===== *)
(** * The window manager, [core/gui/gui.c]

    The list of windows is ordered from the back to the front; the window list moves under the
    pointers to its slots when a window is brought to the front or destroyed. *)

From Stdlib Require Import ZArith Lia String.
From stdpp Require Import base list numbers.
From S2P Require Import Prelude CString Buffer Display Desktop Terminal GuiPrograms.
Open Scope Z_scope.
Set Default Goal Selector "!".

Definition FRAME_TIME_MS : Z := 16.
(** The number of [on_start_button_click]. *)
Definition ON_START : Z := 1.

Definition gui_is_point_in_rect (px py : Z) (r : rect) : bool :=
  (rx r <=? px) && (px <? rx r ⊕ rw r) && (ry r <=? py) && (py <? ry r ⊕ rh r).

(** ** What is dirty *)

(** The test of [gui_mark_dirty] for a rectangle that touches another, and their union. *)
Definition touches (r s : rect) : bool :=
  (rx r <=? rx s ⊕ rw s ⊕ 2) && (rx s <=? rx r ⊕ rw r ⊕ 2) && (ry r <=? ry s ⊕ rh s ⊕ 2) && (ry s <=? ry r ⊕ rh r ⊕ 2).
Definition union (r s : rect) : rect :=
  let new_x := if rx r <? rx s then rx r else rx s in
  let new_y := if ry r <? ry s then ry r else ry s in
  let new_right := if rx s ⊕ rw s <? rx r ⊕ rw r then rx r ⊕ rw r else rx s ⊕ rw s in
  let new_bottom := if ry s ⊕ rh s <? ry r ⊕ rh r then ry r ⊕ rh r else ry s ⊕ rh s in
  mk_rect new_x new_y (new_right ⊖ new_x) (new_bottom ⊖ new_y).

(** The first of the rectangles that touches [s] grows. *)
Fixpoint merge_dirty (rs : list rect) (s : rect) : option (list rect) :=
  match rs with
  | [] => None
  | r :: rs' => if touches r s then Some (union r s :: rs') else l ← merge_dirty rs' s; Some (r :: l)
  end.

(** A position where a window of the given size is on the screen and below the taskbar. *)
Definition place (x y width height fb_w fb_h : Z) : Z * Z :=
  let x := if x <? 0 then 0 else x in
  let y := if y <? TASKBAR_HEIGHT then TASKBAR_HEIGHT else y in
  let x := if fb_w <? x ⊕ width then fb_w ⊖ width else x in
  let y := if fb_h <? y ⊕ height then fb_h ⊖ height else y in
  (x, y).

Section gui.
  Context {W : Type} `{!Painter W} `{!Kernel W}.
  Abbreviation D := (desk W).

Definition gui_mark_dirty (x y width height : Z) : M D unit :=
  d ← get;
  if MAX_DIRTY_RECTS <=? dirty_rect_count d then needs_redraw else
  let s := mk_rect x y width height in
  let n := Z.to_nat (dirty_rect_count d) in
  match merge_dirty (take n (dirty_rects d)) s with
  | Some l => modify (with_dirty_rects (l ++ drop n (dirty_rects d)))
  | None =>
      l ← of_option (set_slot (dirty_rects d) (dirty_rect_count d) s);
      modify (with_dirty_rects l);;
      modify (with_dirty_rect_count (dirty_rect_count d + 1))
  end.
Definition gui_clear_dirty_rects : M D unit := modify (with_dirty_rect_count 0).

(** [get_fb_width()], [get_fb_height()] as [int]s. *)
Definition screen_size : M D (Z * Z) := gets (λ d, (i32 (p_width (g_world d)), i32 (p_height (g_world d)))).

(** ** Windows *)

(** The [n] first windows lose the focus. *)
Definition unfocus (n : Z) : M D unit := for_to 0 n (λ i, upd_window i (with_w_focused 0)).

Definition gui_create_window (title : string) (x y width height : Z) : M D Z :=
  d ← get;
  if MAX_WINDOWS <=? window_count d then mret NONE else
  '(fb_w, fb_h) ← screen_size;
  let '(x, y) := place x y width height fb_w fb_h in
  let i := window_count d in
  modify (with_window_count (i + 1));;
  old ← get_window i;
  modify (with_next_window_id (i32 (next_window_id d + 1)));;
  t ← of_option (str_copy (w_title old) (lit title));
  put_window i (mk_gui_window (next_window_id d) (mk_rect x y width height) t 1 (w_state old) 1 (w_minimized old)
    (mk_rect x y width height) (w_content old) (with_is_terminal 0 (w_program old)));;
  unfocus i;;
  needs_redraw;;
  mret i.

(** [used[k] = 0;] for the state [k] of a program. *)
Definition release (used : list Z) (k : Z) : list Z := default used (arr_set used k 0).

(** The elements behind [i] move down by one, of the first [n]. *)
Fixpoint shift_down {A} (l : list A) (i n : nat) : list A :=
  match l, n with
  | x :: l', S n' =>
      match i with
      | O => match l', n' with y :: _, S _ => y :: shift_down l' 0 n' | _, _ => x :: l' end
      | S i' => x :: shift_down l' i' n'
      end
  | _, _ => l
  end.

Definition gui_destroy_window (i : Z) : M D unit :=
  if i =? NONE then mret tt else
  w ← get_window i;
  let p := w_program w in
  (if terminal_state p =? NONE then mret tt else
     modify (λ d, with_terminal_state_used (release (terminal_state_used d) (terminal_state p)) d));;
  upd_window i (λ w, with_w_program (with_terminal_state NONE (w_program w)) w);;
  (if text_editor_state p =? NONE then mret tt else
     modify (λ d, with_text_editor_state_used (release (text_editor_state_used d) (text_editor_state p)) d));;
  upd_window i (λ w, with_w_program (with_text_editor_state NONE (w_program w)) w);;
  (if file_manager_state p =? NONE then mret tt else
     modify (λ d, with_file_manager_state_used (release (file_manager_state_used d) (file_manager_state p)) d));;
  upd_window i (λ w, with_w_program (with_file_manager_state NONE (w_program w)) w);;
  d ← get;
  (let n := Z.to_nat (taskbar_button_count d) in
   match list_find (λ b, tb_window_id b = w_id w) (take n (taskbar_buttons d)) with
   | Some (k, _) =>
       modify (with_taskbar_buttons (shift_down (taskbar_buttons d) k n));;
       modify (with_taskbar_button_count (taskbar_button_count d - 1))
   | None => mret tt
   end);;
  d ← get;
  (if (0 <=? i) && (i <? window_count d) then
     modify (with_windows (shift_down (windows d) (Z.to_nat i) (Z.to_nat (window_count d))));;
     modify (with_window_count (window_count d - 1))
   else mret tt);;
  needs_redraw.

Definition gui_focus_window (i : Z) : M D unit :=
  if i =? NONE then mret tt else
  w ← get_window i;
  d ← get;
  if focused_window_id d =? w_id w then mret tt else
  (if (0 <=? i) && (i <? window_count d - 1) then
     modify (with_windows (shift_down (windows d) (Z.to_nat i) (Z.to_nat (window_count d))));;
     put_window (window_count d - 1) w
   else mret tt);;
  unfocus (window_count d);;
  upd_window i (with_w_focused 1);;
  w ← get_window i;
  modify (with_focused_window_id (w_id w));;
  needs_redraw.

Definition gui_minimize_window (i : Z) : M D unit :=
  if i =? NONE then mret tt else
  upd_window i (λ w,
    if decide (w_state w = WINDOW_STATE_MINIMIZED) then
      with_w_rect (mk_rect (fst (w_minimized w)) (snd (w_minimized w)) (rw (w_rect w)) (rh (w_rect w)))
        (with_w_state WINDOW_STATE_NORMAL w)
    else with_w_state WINDOW_STATE_MINIMIZED (with_w_minimized (rx (w_rect w), ry (w_rect w)) w));;
  needs_redraw.

Definition gui_maximize_window (i : Z) : M D unit :=
  if i =? NONE then mret tt else
  '(fb_w, fb_h) ← screen_size;
  upd_window i (λ w,
    if decide (w_state w = WINDOW_STATE_MAXIMIZED) then with_w_rect (w_maximized w) (with_w_state WINDOW_STATE_NORMAL w)
    else with_w_state WINDOW_STATE_MAXIMIZED
           (with_w_rect (mk_rect 0 TASKBAR_HEIGHT fb_w (fb_h ⊖ TASKBAR_HEIGHT)) (with_w_maximized (w_rect w) w)));;
  needs_redraw.

Definition gui_resize_window (i width height : Z) : M D unit :=
  if i =? NONE then mret tt else
  w ← get_window i;
  let r := w_rect w in
  upd_window i (with_w_rect (mk_rect (rx r) (ry r) width height));;
  let max_x := rx r ⊕ (if width <? rw r then rw r else width) in
  let max_y := ry r ⊕ (if height <? rh r then rh r else height) in
  gui_mark_dirty (rx r) (ry r) (max_x ⊖ rx r) (max_y ⊖ ry r).

Definition gui_move_window (i x y : Z) : M D unit :=
  if i =? NONE then mret tt else
  w ← get_window i;
  let r := w_rect w in
  '(fb_w, fb_h) ← screen_size;
  let '(x, y) := place x y (rw r) (rh r) fb_w fb_h in
  upd_window i (with_w_rect (mk_rect x y (rw r) (rh r)));;
  let dx := x ⊖ rx r in
  let dy := y ⊖ ry r in
  if (-5 <=? dx) && (dx <=? 5) && (-5 <=? dy) && (dy <=? 5) then
    (if 0 <? dx then gui_mark_dirty (rx r) (ry r) dx (rh r)
     else if dx <? 0 then gui_mark_dirty (rx r ⊕ rw r ⊕ dx) (ry r) (- dx) (rh r) else mret tt);;
    (if 0 <? dy then gui_mark_dirty x (ry r) (rw r) dy
     else if dy <? 0 then gui_mark_dirty x (ry r ⊕ rh r ⊕ dy) (rw r) (- dy) else mret tt)
  else
    let min_x := if rx r <? x then rx r else x in
    let min_y := if ry r <? y then ry r else y in
    let max_x := if x ⊕ rw r <? rx r ⊕ rw r then rx r ⊕ rw r else x ⊕ rw r in
    let max_y := if y ⊕ rh r <? ry r ⊕ rh r then ry r ⊕ rh r else y ⊕ rh r in
    gui_mark_dirty min_x min_y (max_x ⊖ min_x) (max_y ⊖ min_y).

(** ** Buttons, and what is at a point *)

Definition gui_create_button (text : string) (x y width height on_click : Z) : M D Z :=
  d ← get;
  if 20 <=? button_count d then mret NONE else
  let i := button_count d in
  old ← of_option (slot (buttons d) i);
  t ← of_option (str_copy (b_text old) (lit text));
  l ← of_option (set_slot (buttons d) i (mk_gui_button (mk_rect x y width height) t BUTTON_STATE_NORMAL on_click));
  modify (with_buttons l);;
  modify (with_button_count (i + 1));;
  needs_redraw;;
  mret i.

(** The last index below [n] that satisfies [f], and the first. *)
Fixpoint last_such (n : nat) (f : nat → bool) : option nat :=
  match n with O => None | S n' => if f n' then Some n' else last_such n' f end.

Definition on_window (x y : Z) (w : gui_window) : bool :=
  truthy (w_visible w) && negb (bool_decide (w_state w = WINDOW_STATE_MINIMIZED)) && gui_is_point_in_rect x y (w_rect w).
Definition gui_get_window_at_point (x y : Z) : M D Z :=
  gets (λ d, match last_such (Z.to_nat (window_count d)) (λ i, from_option (on_window x y) false (windows d !! i)) with
             | Some i => Z.of_nat i
             | None => NONE
             end).
Definition gui_get_button_at_point (x y : Z) : M D Z :=
  gets (λ d, match list_find (λ b, gui_is_point_in_rect x y (b_rect b) = true) (take (Z.to_nat (button_count d)) (buttons d)) with
             | Some (i, _) => Z.of_nat i
             | None => NONE
             end).

(** The [n] buttons of the taskbar from the [i]-th on, which is at [button_x] and [button_y]. *)
Definition TIME_WIDTH : Z := 14 * 8 + 10.
Fixpoint taskbar_hit (n : nat) (i button_x button_y x y fb_w : Z) : Z :=
  match n with
  | O => NONE
  | S n' =>
      let '(button_x, button_y) :=
        if fb_w ⊖ TIME_WIDTH <? button_x ⊕ TASKBAR_BUTTON_WIDTH then (100, button_y ⊕ (TASKBAR_BUTTON_HEIGHT ⊕ 2)) else (button_x, button_y) in
      if gui_is_point_in_rect x y (mk_rect button_x button_y TASKBAR_BUTTON_WIDTH TASKBAR_BUTTON_HEIGHT) then i
      else taskbar_hit n' (i + 1) (button_x ⊕ (TASKBAR_BUTTON_WIDTH + TASKBAR_BUTTON_SPACING)) button_y x y fb_w
  end.
Definition gui_get_taskbar_button_at_point (x y : Z) : M D Z :=
  '(fb_w, _) ← screen_size;
  d ← get;
  mret (if TASKBAR_HEIGHT <? y then NONE else taskbar_hit (Z.to_nat (taskbar_button_count d)) 0 85 5 x y fb_w).

(** ** Programs and the start menu *)

(** The first entry that is not used, or [NONE]. *)
Definition first_unused (used : list Z) : Z :=
  match list_find (λ u, u = 0) used with Some (i, _) => Z.of_nat i | None => NONE end.

(** A button of the taskbar for the window in slot [i]; [text] is 32 characters long. *)
Definition add_taskbar_button (i : Z) : M D unit :=
  d ← get;
  if taskbar_button_count d <? MAX_WINDOWS then
    w ← get_window i;
    old ← of_option (slot (taskbar_buttons d) (taskbar_button_count d));
    t ← of_option (str_copy (tb_text old) (w_title w));
    l ← of_option (set_slot (taskbar_buttons d) (taskbar_button_count d) (mk_taskbar_button (w_id w) t (tb_state old)));
    modify (with_taskbar_buttons l);;
    modify (with_taskbar_button_count (taskbar_button_count d + 1))
  else mret tt.

Definition launch_terminal_new : M D unit :=
  win ← gui_create_window "Terminal" 50 50 600 400;
  if win =? NONE then mret tt else
  upd_window win (λ w, with_w_program (with_is_terminal 1 (w_program w)) w);;
  d ← get;
  let index := first_unused (terminal_state_used d) in
  if 0 <=? index then
    modify (with_terminal_state_used (<[Z.to_nat index := 1]> (terminal_state_used d)));;
    upd_window win (λ w, with_w_program (with_terminal_state index (w_program w)) w);;
    on_terminal index (gui_terminal_init (cwd d));;
    add_taskbar_button win
  else gui_destroy_window win.

Definition launch_text_editor_new : M D unit :=
  win ← gui_create_window "Text Editor" 300 100 500 400;
  if win =? NONE then mret tt else
  upd_window win (λ w, with_w_program (with_is_text_editor 1 (w_program w)) w);;
  d ← get;
  let index := first_unused (text_editor_state_used d) in
  if 0 <=? index then
    modify (with_text_editor_state_used (<[Z.to_nat index := 1]> (text_editor_state_used d)));;
    upd_window win (λ w, with_w_program (with_text_editor_state index (w_program w)) w);;
    t ← get_editor index;
    match gui_text_editor_init t with
    | Done _ t' => put_editor index t'
    | Stuck e => stuck_with e
    end;;
    add_taskbar_button win
  else gui_destroy_window win.

Definition launch_file_manager_new : M D unit :=
  win ← gui_create_window "File Manager" 200 150 600 400;
  if win =? NONE then mret tt else
  upd_window win (λ w, with_w_program (with_is_file_manager 1 (w_program w)) w);;
  d ← get;
  let index := first_unused (file_manager_state_used d) in
  if 0 <=? index then
    modify (with_file_manager_state_used (<[Z.to_nat index := 1]> (file_manager_state_used d)));;
    upd_window win (λ w, with_w_program (with_file_manager_state index (w_program w)) w);;
    gui_file_manager_init index;;
    add_taskbar_button win
  else gui_destroy_window win.

Definition launch_shutdown_new : M D unit := gui_create_window "Shutdown" 400 300 300 200;; mret tt.
Definition launch_settings_new : M D unit := gui_create_window "Settings" 100 100 300 200;; mret tt.
(** Not reached from the menu. *)
Definition launch_calculator_new : M D unit := gui_create_window "Calculator" 200 200 300 400;; mret tt.
Definition launch_paint_new : M D unit := gui_create_window "Paint" 300 100 500 400;; mret tt.

(** A title is the given string. *)
Definition titled (w : gui_window) (t : string) : option bool := str_equals (w_title w) (lit t).

(** The entries of the start menu from top to bottom: the space above each and what it does. *)
Definition menu_items : list (Z * M D unit) :=
  let item_h := 30 in
  let item_spacing := 2 in
  let section_padding := 8 in
  [(10 + section_padding, launch_terminal_new);
   (item_h + item_spacing, launch_file_manager_new);
   (item_h + item_spacing, launch_shutdown_new);
   (item_h + item_spacing + section_padding + section_padding, launch_settings_new);
   (item_h + item_spacing + section_padding + section_padding, launch_text_editor_new);
   (item_h + item_spacing, launch_shutdown_new);
   (item_h + item_spacing + section_padding + section_padding, launch_shutdown_new)].
Fixpoint menu_click (items : list (Z * M D unit)) (r : rect) (current_y x y : Z) : M D unit :=
  match items with
  | [] => mret tt
  | (gap, launch) :: items' =>
      let current_y := current_y ⊕ gap in
      if gui_is_point_in_rect x y (mk_rect (rx r ⊕ 20) (current_y ⊕ 8) (rw r ⊖ 40) 30) then launch
      else menu_click items' r current_y x y
  end.

Fixpoint find_titled (ws : list gui_window) (t : string) (i : Z) : option Z :=
  match ws with
  | [] => Some NONE
  | w :: ws' => b ← titled w t; if (b : bool) then Some i else find_titled ws' t (i + 1)
  end.

Definition on_start_button_click : M D unit :=
  d ← get;
  i ← of_option (find_titled (take (Z.to_nat (window_count d)) (windows d)) "" 0);
  if negb (i =? NONE) then gui_destroy_window i;; needs_redraw
  else
    w ← gui_create_window "" 10 (TASKBAR_HEIGHT + 10) 220 380;
    if w =? NONE then mret tt else needs_redraw.

(** ** The mouse *)

Definition no_drag (d : drag_state_t) : drag_state_t :=
  mk_drag_state 0 (drag_start d) (drag_offset d) NONE 0 (resize_start d) (resize_start_size d) NONE.

(** A click on a window with a title; [i] is its slot when it was clicked. *)
Definition window_click (i x y : Z) : M D unit :=
  w ← get_window i;
  let r := w_rect w in
  let button k := gui_is_point_in_rect x y (mk_rect (rx r ⊕ rw r ⊖ k) (ry r ⊕ 4) 16 16) in
  if button 80 then gui_minimize_window i else
  if button 55 then gui_maximize_window i else
  if button 30 then gui_destroy_window i else
  let p := w_program w in
  (if truthy (is_terminal p) && negb (terminal_state p =? NONE)
   then on_terminal (terminal_state p) (gui_terminal_handle_scrollbar_click x y) else mret tt);;
  (if truthy (is_file_manager p) && negb (file_manager_state p =? NONE)
   then gui_file_manager_handle_click (file_manager_state p) y r else mret tt);;
  if (ry r ⊕ WINDOW_BORDER_WIDTH <=? y) && (y <=? ry r ⊕ WINDOW_BORDER_WIDTH ⊕ WINDOW_TITLE_HEIGHT) then
    (if decide (w_state w = WINDOW_STATE_MAXIMIZED) then gui_maximize_window i else mret tt);;
    w ← get_window i;
    modify (λ d, with_drag_state (let s := drag_state d in
      mk_drag_state 1 (x, y) (x ⊖ rx (w_rect w), y ⊖ ry (w_rect w)) i (resizing s) (resize_start s) (resize_start_size s) (resized_window s)) d);;
    needs_redraw
  else if (rx r ⊕ rw r ⊖ 20 <=? x) && (ry r ⊕ rh r ⊖ 20 <=? y) && (x <=? rx r ⊕ rw r) && (y <=? ry r ⊕ rh r) then
    modify (λ d, with_drag_state (let s := drag_state d in
      mk_drag_state (dragging s) (drag_start s) (drag_offset s) (dragged_window s) 1 (x, y) (rw r, rh r) i) d);;
    needs_redraw
  else mret tt.

Definition gui_handle_mouse_click (x y : Z) : M D unit :=
  modify (with_gui_cursor (x, y));;
  modify (λ d, with_drag_state (no_drag (drag_state d)) d);;
  taskbar_button ← gui_get_taskbar_button_at_point x y;
  if 0 <=? taskbar_button then gui_minimize_window taskbar_button;; needs_redraw else
  window ← gui_get_window_at_point x y;
  if negb (window =? NONE) then
    gui_focus_window window;;
    w ← get_window window;
    menu ← of_option (titled w "");
    (if (menu : bool) then menu_click menu_items (w_rect w) (ry (w_rect w)) x y else window_click window x y);;
    needs_redraw
  else
    b ← gui_get_button_at_point x y;
    (if b =? NONE then mret tt else
       d ← get;
       gui_button ← of_option (slot (buttons d) b);
       if on_click gui_button =? ON_START then on_start_button_click else mret tt);;
    needs_redraw.

(** The buttons under the mouse are marked; the result says that one has changed. *)
Definition hover (inside : bool) (b : button_state_t) : button_state_t := if inside then BUTTON_STATE_HOVER else BUTTON_STATE_NORMAL.
Definition hover_all (x y taskbar_button : Z) : M D unit :=
  d ← get;
  let bs := imap (λ i b, if (i <? Z.to_nat (button_count d))%nat
    then with_b_state (hover (gui_is_point_in_rect x y (b_rect b)) (b_state b)) b else b) (buttons d) in
  let ts := imap (λ i b, if (i <? Z.to_nat (taskbar_button_count d))%nat
    then with_tb_state (hover (Z.of_nat i =? taskbar_button) (tb_state b)) b else b) (taskbar_buttons d) in
  modify (with_buttons bs);;
  modify (with_taskbar_buttons ts);;
  if bool_decide (map b_state bs = map b_state (buttons d) ∧ map tb_state ts = map tb_state (taskbar_buttons d))
  then mret tt else needs_redraw.

Definition cursor_redraw_flag : M D unit := set_flag (with_mouse_cursor_needs_redraw 1).

Definition gui_handle_mouse_move (x y buttons : Z) : M D unit :=
  modify (with_gui_cursor (x, y));;
  window ← gui_get_window_at_point x y;
  (if window =? NONE then mret tt else
     w ← get_window window;
     let p := w_program w in
     if truthy (is_terminal p) && negb (terminal_state p =? NONE)
     then on_terminal (terminal_state p) (gui_terminal_handle_scrollbar_drag y) else mret tt);;
  d ← get;
  let s := drag_state d in
  if truthy (Z.land buttons 1) && truthy (dragging s) && negb (dragged_window s =? NONE) then
    gui_move_window (dragged_window s) (x ⊖ fst (drag_offset s)) (y ⊖ snd (drag_offset s));;
    w ← get_window (dragged_window s);
    (if truthy (is_terminal (w_program w)) then needs_redraw else mret tt);;
    cursor_redraw_flag
  else if truthy (Z.land buttons 1) && truthy (resizing s) && negb (resized_window s =? NONE) then
    '(fb_w, fb_h) ← screen_size;
    w ← get_window (resized_window s);
    let r := w_rect w in
    let new_width := fst (resize_start_size s) ⊕ (x ⊖ fst (resize_start s)) in
    let new_height := snd (resize_start_size s) ⊕ (y ⊖ snd (resize_start s)) in
    let new_width := if new_width <? WINDOW_MIN_WIDTH then WINDOW_MIN_WIDTH else new_width in
    let new_height := if new_height <? WINDOW_MIN_HEIGHT then WINDOW_MIN_HEIGHT else new_height in
    let new_width := if fb_w <? rx r ⊕ new_width then fb_w ⊖ rx r else new_width in
    let new_height := if fb_h <? ry r ⊕ new_height then fb_h ⊖ ry r else new_height in
    gui_resize_window (resized_window s) new_width new_height;;
    needs_redraw;;
    cursor_redraw_flag
  else
    taskbar_button ← gui_get_taskbar_button_at_point x y;
    hover_all x y taskbar_button;;
    cursor_redraw_flag.

Definition gui_handle_mouse_release (x y : Z) : M D unit :=
  modify (with_gui_cursor (x, y));;
  window ← gui_get_window_at_point x y;
  (if window =? NONE then mret tt else
     w ← get_window window;
     let p := w_program w in
     if truthy (is_terminal p) && negb (terminal_state p =? NONE)
     then on_terminal (terminal_state p) gui_terminal_handle_scrollbar_release else mret tt);;
  modify (λ d, if truthy (dragging (drag_state d)) then with_drag_state (no_drag (drag_state d)) d else d).

Definition gui_mouse_event_handler (x y buttons : Z) : M D unit :=
  on_world (k_set_mouse x y);;
  modify (with_gui_cursor (x, y));;
  d ← get;
  let changed_buttons := Z.lxor buttons (last_buttons (flags d)) in
  (if truthy (Z.land changed_buttons 1) then
     (if truthy (Z.land buttons 1) then gui_handle_mouse_click x y else gui_handle_mouse_release x y)
   else mret tt);;
  gui_handle_mouse_move x y buttons;;
  (if truthy (Z.land buttons 8) || truthy (Z.land buttons 0x10) then
     window ← gui_get_window_at_point x y;
     if window =? NONE then mret tt else
     w ← get_window window;
     let p := w_program w in
     if truthy (is_terminal p) && negb (terminal_state p =? NONE)
     then on_terminal (terminal_state p) (gui_terminal_handle_scroll (if truthy (Z.land buttons 8) then 1 else -1)) else mret tt
   else mret tt);;
  needs_redraw;;
  set_flag (with_last_buttons buttons);;
  cursor_redraw_flag.

(** ** The keyboard *)

(** What the commands of a terminal do. *)
Context (command : Z → list Z → M D unit).

Definition gui_handle_key (key : Z) : M D unit :=
  d ← get;
  (match list_find (λ w, truthy (w_focused w) = true) (take (Z.to_nat (window_count d)) (windows d)) with
   | Some (_, w) =>
       let p := w_program w in
       if truthy (is_terminal p) && negb (terminal_state p =? NONE) then
         gui_terminal_handle_key command (terminal_state p) key;; mret true
       else if truthy (is_text_editor p) && negb (text_editor_state p =? NONE) then
         t ← get_editor (text_editor_state p);
         match gui_text_editor_handle_key key t with
         | Done _ t' => put_editor (text_editor_state p) t';; mret true
         | Stuck e => stuck_with e
         end
       else mret false
   | None => mret false
   end ≫= λ done,
   if (done : bool) then mret tt else
   i ← of_option (find_titled (take (Z.to_nat (window_count d)) (windows d)) "Terminal" 0);
   if i =? NONE then mret tt else
   gui_focus_window i;;
   w ← get_window i;
   if terminal_state (w_program w) =? NONE then mret tt
   else gui_terminal_handle_key command (terminal_state (w_program w)) key);;
  needs_redraw.

(** ** Start-up *)

(** The members of the pictures are in Bitmaps.v. *)
Definition gui_init : M D unit :=
  d ← get;
  let fb_w := p_width (g_world d) in
  let fb_h := p_height (g_world d) in
  if (fb_w =? 0) || (fb_h =? 0) || (10000 <? fb_w) || (10000 <? fb_h) then mret tt else
  modify (λ d, with_window_count 0 (with_button_count 0 (with_taskbar_button_count 0 (with_focused_window_id 0
    (with_next_window_id 1 (with_gui_cursor (0, 0) d))))));;
  modify (λ d, with_drag_state (let s := drag_state d in
    mk_drag_state 0 (drag_start s) (drag_offset s) NONE (resizing s) (resize_start s) (resize_start_size s) (resized_window s)) d);;
  on_world p_enable_double;;
  set_flag (with_gui_running 1);;
  set_flag (with_gui_mode 1);;
  needs_redraw;;
  cursor_redraw_flag;;
  gui_create_button "Start" 0 0 80 BUTTON_HEIGHT ON_START;;
  on_world (k_load_wallpaper (chars "/boot/wallpaper.bmp"));;
  set_flag (with_gui_initialized 1);;
  on_world (k_mouse_events true);;
  modify (with_gui_cursor (fb_w / 2, fb_h / 2));;
  on_world (k_subscribe FRAME_TIME_MS 1).

Definition gui_set_needs_redraw (v : Z) : M D unit := set_flag (with_gui_needs_redraw v).
End gui.

(** ** The stack of windows *)

(** What is seen of a window, and of the window manager: the windows from the back to the
    front, the next identifier, the window that has the focus and the size of the screen. *)
Record awin := mk_awin {
  a_id : Z;
  a_rect : rect;
  a_title : option str;
}.
Definition view (w : gui_window) : awin := mk_awin (w_id w) (w_rect w) (text_of (w_title w)).
(** A window is moved to where all of it is seen: not to the left of the screen or under the
    taskbar, then not beyond the right or the lower edge. *)
Definition place_rect (r : rect) (size : Z * Z) : rect :=
  mk_rect (Z.min (Z.max (rx r) 0) (fst size - rw r)) (Z.min (Z.max (ry r) TASKBAR_HEIGHT) (snd size - rh r)) (rw r) (rh r).

Record stack := mk_stack {
  st_windows : list awin;
  st_next : Z;
  st_focus : Z;
  st_size : Z * Z;
}.
Inductive window_op :=
  | Create (title : string) (r : rect)
  | Destroy (i : nat)
  | Focus (i : nat)
  | Move (i : nat) (x y : Z)
  | Resize (i : nat) (width height : Z).

(** The operations on the stack.  The focus goes to the window that comes into the place of the
    one that is brought to the front. *)
Definition stack_op (o : window_op) (s : stack) : stack :=
  let l := st_windows s in
  match o with
  | Create title r =>
      if (10 <=? length l)%nat then s
      else mk_stack (l ++ [mk_awin (st_next s) (place_rect r (st_size s)) (Some (chars title))]) (st_next s + 1) (st_focus s) (st_size s)
  | Destroy i => mk_stack (delete i l) (st_next s) (st_focus s) (st_size s)
  | Focus i =>
      match l !! i with
      | Some w =>
          if st_focus s =? a_id w then s else
          let l' := delete i l ++ [w] in
          mk_stack l' (st_next s) (from_option a_id (st_focus s) (l' !! i)) (st_size s)
      | None => s
      end
  | Move i x y =>
      mk_stack (alter (λ w, mk_awin (a_id w) (place_rect (mk_rect x y (rw (a_rect w)) (rh (a_rect w))) (st_size s)) (a_title w)) i l)
        (st_next s) (st_focus s) (st_size s)
  | Resize i width height =>
      mk_stack (alter (λ w, mk_awin (a_id w) (mk_rect (rx (a_rect w)) (ry (a_rect w)) width height) (a_title w)) i l)
        (st_next s) (st_focus s) (st_size s)
  end.
(** Coordinates whose sums are in the range of an [int], and those of a rectangle. *)
Definition small (z : Z) : Prop := - 2 ^ 28 ≤ z ≤ 2 ^ 28.
Definition small_rect (r : rect) : Prop := small (rx r) ∧ small (ry r) ∧ small (rw r) ∧ small (rh r).
(** The operation is on a window of the stack, its coordinates are small, and its title fits. *)
Definition op_ok (o : window_op) (s : stack) : Prop :=
  match o with
  | Create title r => Forall is_char (chars title) ∧ (length (chars title) < 64)%nat ∧ st_next s + 1 < 2 ^ 31 ∧ small_rect r
  | Destroy i | Focus i => (i < length (st_windows s))%nat
  | Move i x y => (i < length (st_windows s))%nat ∧ small x ∧ small y
  | Resize i width height => (i < length (st_windows s))%nat ∧ small width ∧ small height
  end.
Fixpoint ops_ok (os : list window_op) (s : stack) : Prop :=
  match os with [] => True | o :: os' => op_ok o s ∧ ops_ok os' (stack_op o s) end.

Lemma shift_down_spec {A} (l : list A) (i n : nat) y : (i < n)%nat → l !! (n - 1)%nat = Some y →
  shift_down l i n = delete i (take n l) ++ y :: drop n l.
Proof.
  revert i n. induction l as [|x l IH]; intros i n Hi Hy; [done|]. destruct n as [|n]; [lia|]. destruct i as [|i]; cbn [shift_down].
  - destruct l as [|z l]; destruct n as [|n]; cbn in Hy; try (injection Hy as ->; done).
    { assert (Hn : [] !! n = Some y) by exact Hy. by rewrite lookup_nil in Hn. }
    pose proof (IH 0%nat (S n)) as E. rewrite Nat.sub_succ, Nat.sub_0_r in E. cbn in E |- *. f_equal. apply E; [lia|done].
  - destruct n as [|n]; [lia|]. cbn in Hy. cbn [take delete list_delete app drop]. f_equal. apply IH; [lia|].
    cbn. by rewrite Nat.sub_0_r.
Qed.

Section facts.
  Context {W : Type} `{!Painter W} `{!Kernel W}.
  Abbreviation D := (desk W).

Definition shown (d : D) : list gui_window := take (Z.to_nat (window_count d)) (windows d).
Definition stack_of (d : D) : stack :=
  mk_stack (view <$> shown d) (next_window_id d) (focused_window_id d) (i32 (p_width (g_world d)), i32 (p_height (g_world d))).

(** The arrays have their sizes and the counters are inside them. *)
Record arrays_ok (d : D) : Prop := {
  ok_windows : length (windows d) = 10%nat;
  ok_count : 0 ≤ window_count d ≤ 10;
  ok_titles : Forall (λ w, length (w_title w) = 64%nat) (windows d);
  ok_dirty : length (dirty_rects d) = 32%nat;
  ok_dirty_count : 0 ≤ dirty_rect_count d ≤ 32;
}.
(** The windows have different identifiers, all of them given out. *)
Definition ids_ok (s : stack) : Prop :=
  NoDup (a_id <$> st_windows s) ∧ Forall (λ w, 0 < a_id w < st_next s) (st_windows s) ∧ 0 < st_next s < 2 ^ 31.

(** The screen has a size that [gui_init] accepts, and the windows have small sizes and
    positions that are twice as large at most. *)
Definition window_small (w : awin) : Prop :=
  small (rw (a_rect w)) ∧ small (rh (a_rect w)) ∧ Z.abs (rx (a_rect w)) ≤ 2 ^ 29 ∧ Z.abs (ry (a_rect w)) ≤ 2 ^ 29.
Definition sizes_ok (s : stack) : Prop :=
  0 < fst (st_size s) ≤ 10000 ∧ 0 < snd (st_size s) ≤ 10000 ∧ Forall window_small (st_windows s).

Definition do_op (o : window_op) : M D unit :=
  match o with
  | Create title r => gui_create_window title (rx r) (ry r) (rw r) (rh r);; mret tt
  | Destroy i => gui_destroy_window (Z.of_nat i)
  | Focus i => gui_focus_window (Z.of_nat i)
  | Move i x y => gui_move_window (Z.of_nat i) x y
  | Resize i width height => gui_resize_window (Z.of_nat i) width height
  end.
Fixpoint do_ops (os : list window_op) : M D unit :=
  match os with [] => mret tt | o :: os' => do_op o;; do_ops os' end.

Lemma shown_length d : arrays_ok d → length (shown d) = Z.to_nat (window_count d).
Proof. intros []. unfold shown. rewrite length_take. lia. Qed.

Lemma shown_lookup d i w : shown d !! i = Some w ↔ windows d !! i = Some w ∧ (i < Z.to_nat (window_count d))%nat.
Proof. unfold shown. by rewrite lookup_take_Some. Qed.

Lemma get_window_run i w d (Q : gui_window → D → Prop) : windows d !! i = Some w → Q w d → wp (get_window (Z.of_nat i)) Q d.
Proof. intros H HQ. unfold get_window. apply wp_bind, wp_get. rewrite slot_nat. by eapply wp_of_option. Qed.

Lemma put_window_run i w d (Q : unit → D → Prop) : (i < length (windows d))%nat →
  Q tt (with_windows (<[i := w]> (windows d)) d) → wp (put_window (Z.of_nat i) w) Q d.
Proof.
  intros H HQ. unfold put_window. apply wp_bind, wp_get. rewrite set_slot_nat by done.
  eapply wp_bind, wp_of_option; [done|]. by apply wp_modify.
Qed.

Lemma upd_window_run i f w d (Q : unit → D → Prop) : windows d !! i = Some w →
  Q tt (with_windows (<[i := f w]> (windows d)) d) → wp (upd_window (Z.of_nat i) f) Q d.
Proof.
  intros H HQ. eapply wp_bind, get_window_run; [done|]. apply put_window_run; [|done]. by eapply lookup_lt_Some.
Qed.

Lemma unfocus_run n d (Q : unit → D → Prop) : (n ≤ length (windows d))%nat →
  Q tt (with_windows ((with_w_focused 0 <$> take n (windows d)) ++ drop n (windows d)) d) → wp (unfocus (Z.of_nat n)) Q d.
Proof.
  intros Hn HQ. unfold unfocus.
  eapply wp_mono.
  { apply (wp_for_to (λ k d', d' = with_windows ((with_w_focused 0 <$> take (Z.to_nat k) (windows d)) ++ drop (Z.to_nat k) (windows d)) d)).
    - lia.
    - cbn. by destruct d.
    - intros k d' Hk ->. destruct (lookup_lt_is_Some_2 (windows d) (Z.to_nat k)) as [w Hw]; [lia|].
      set (l := (with_w_focused 0 <$> take (Z.to_nat k) (windows d)) ++ drop (Z.to_nat k) (windows d)).
      assert (Hl : l !! Z.to_nat k = Some w).
      { subst l. rewrite lookup_app_r by (rewrite length_fmap, length_take; lia). rewrite length_fmap, length_take, lookup_drop.
        by replace (_ + _)%nat with (Z.to_nat k) by lia. }
      replace k with (Z.of_nat (Z.to_nat k)) at 1 by lia. eapply upd_window_run; [apply Hl|].
      change (windows (with_windows l d)) with l. unfold with_windows at 1. cbn. f_equal.
      replace (Z.to_nat (k + 1)) with (S (Z.to_nat k)) by lia. rewrite (take_S_r _ _ w), fmap_app, <-app_assoc by done. subst l.
      rewrite insert_app_r_alt by (rewrite length_fmap, length_take; lia). rewrite length_fmap, length_take.
      replace (_ - _)%nat with 0%nat by lia. rewrite (drop_S _ w) by done. done. }
  intros [] d' ->. by rewrite Nat2Z.id.
Qed.

(** The windows, their order and the world are the same. *)
Definition same_windows (d d' : D) : Prop :=
  windows d' = windows d ∧ window_count d' = window_count d ∧ next_window_id d' = next_window_id d ∧
  focused_window_id d' = focused_window_id d ∧ g_world d' = g_world d.

(** Everything at this point is drawn again with the next frame. *)
Definition covered (px py : Z) (d : D) : Prop :=
  gui_needs_redraw (flags d) = 1 ∨
  Exists (λ r, gui_is_point_in_rect px py r = true) (take (Z.to_nat (dirty_rect_count d)) (dirty_rects d)).

(** The edges of a rectangle are far from the ends of an [int]. *)
Definition edges (r : rect) : Prop :=
  - 2 ^ 30 ≤ rx r < 2 ^ 30 ∧ - 2 ^ 30 ≤ ry r < 2 ^ 30 ∧ - 2 ^ 30 ≤ rx r + rw r < 2 ^ 30 ∧ - 2 ^ 30 ≤ ry r + rh r < 2 ^ 30.

Lemma in_rect_true px py r : edges r →
  gui_is_point_in_rect px py r = true ↔ rx r ≤ px < rx r + rw r ∧ ry r ≤ py < ry r + rh r.
Proof. intros (? & ? & ? & ?). unfold gui_is_point_in_rect. in_range. rewrite !andb_true_iff, !Z.leb_le, !Z.ltb_lt. lia. Qed.

(** The union is the smallest rectangle around both. *)
Lemma union_exact r s : edges r → edges s →
  union r s = mk_rect (Z.min (rx r) (rx s)) (Z.min (ry r) (ry s))
    (Z.max (rx r + rw r) (rx s + rw s) - Z.min (rx r) (rx s)) (Z.max (ry r + rh r) (ry s + rh s) - Z.min (ry r) (ry s)).
Proof.
  intros (? & ? & ? & ?) (? & ? & ? & ?). unfold union. rewrite !iadd_id by lia.
  destruct (Z.ltb_spec (rx r) (rx s)), (Z.ltb_spec (ry r) (ry s)), (Z.ltb_spec (rx s + rw s) (rx r + rw r)),
    (Z.ltb_spec (ry s + rh s) (ry r + rh r)); in_range; f_equal; lia.
Qed.

Lemma union_covers r s : edges r → edges s → edges (union r s) ∧
  ∀ px py, gui_is_point_in_rect px py r = true ∨ gui_is_point_in_rect px py s = true → gui_is_point_in_rect px py (union r s) = true.
Proof.
  intros Hr Hs. rewrite union_exact by done. set (u := mk_rect _ _ _ _).
  assert (Hu : edges u) by (destruct Hr as (? & ? & ? & ?), Hs as (? & ? & ? & ?); unfold edges, u; cbn [rx ry rw rh]; lia).
  split; [done|]. intros px py. rewrite !in_rect_true by done. unfold u. cbn [rx ry rw rh]. lia.
Qed.

Lemma merge_dirty_length rs s l : merge_dirty rs s = Some l → length l = length rs.
Proof.
  revert l. induction rs as [|r rs IH]; intros l E; cbn in E; [done|]. destruct (touches r s); [by injection E as <-|].
  destruct (merge_dirty rs s) as [l'|] eqn:E'; [|done]. injection E as <-. cbn. f_equal. by apply IH.
Qed.

Lemma merge_dirty_run rs s l : merge_dirty rs s = Some l → Forall edges rs → edges s →
  ∀ px py, gui_is_point_in_rect px py s = true ∨ Exists (λ r, gui_is_point_in_rect px py r = true) rs →
    Exists (λ r, gui_is_point_in_rect px py r = true) l.
Proof.
  intros E Hrs Hs px py. revert l E. induction Hrs as [|r rs Hr Hrs IH]; intros l E; cbn in E; [done|]. destruct (touches r s).
  - injection E as <-. destruct (union_covers r s Hr Hs) as [_ Hc]. intros [H|[H|H]%Exists_cons].
    + apply Exists_cons_hd, Hc. by right.
    + apply Exists_cons_hd, Hc. by left.
    + by apply Exists_cons_tl.
  - destruct (merge_dirty rs s) as [l'|] eqn:E'; [|done]. injection E as <-. intros [H|[H|H]%Exists_cons].
    + apply Exists_cons_tl, (IH l'); [done|by left].
    + by apply Exists_cons_hd.
    + apply Exists_cons_tl, (IH l'); [done|by right].
Qed.

Definition dirty (d : D) : list rect := take (Z.to_nat (dirty_rect_count d)) (dirty_rects d).

Lemma mark_dirty_run x y w h d : arrays_ok d →
  wp (gui_mark_dirty x y w h) (λ _ d', arrays_ok d' ∧ same_windows d d' ∧
    (Forall edges (dirty d) → edges (mk_rect x y w h) →
     ∀ px py, covered px py d ∨ gui_is_point_in_rect px py (mk_rect x y w h) = true → covered px py d')) d.
Proof.
  intros [Hw Hc Ht Hd Hdc]. unfold gui_mark_dirty, dirty. apply wp_bind, wp_get. unfold MAX_DIRTY_RECTS.
  destruct (Z.leb_spec 32 (dirty_rect_count d)).
  { apply wp_modify. split_and!; [by constructor|done|]. intros _ _ px py _. by left. }
  set (n := Z.to_nat (dirty_rect_count d)).
  destruct (merge_dirty (take n (dirty_rects d)) (mk_rect x y w h)) as [l|] eqn:E.
  - pose proof (merge_dirty_length _ _ _ E) as El. rewrite length_take in El. apply wp_modify. split_and!; [|done|].
    + constructor; cbn; [done..| |done]. rewrite length_app, length_drop. lia.
    + intros Hrs Hs px py [[|]|]; [by left|right..]; cbn; fold n; rewrite take_app_length' by lia;
        (eapply merge_dirty_run; [done..|]); [by right|by left].
  - unfold set_slot. rewrite (proj2 (Z.leb_le 0 _)), (proj2 (Z.ltb_lt _ (Z.of_nat _))) by lia. eapply wp_bind, wp_of_option; [done|].
    apply wp_bind, wp_modify, wp_modify. split_and!; [|done|].
    + constructor; cbn; [done..|by rewrite length_insert|lia].
    + intros _ _ px py Hp. destruct Hp as [[Hp|Hp]|Hp]; [by left|right..]; cbn; fold n;
        replace (Z.to_nat (dirty_rect_count d + 1)) with (S n) by lia;
        (rewrite (take_S_r _ n (mk_rect x y w h)); [|apply list_lookup_insert_eq; lia]); rewrite take_insert_ge by lia;
        apply Exists_app; [by left|right; by apply Exists_cons_hd].
Qed.

(** The position that the code computes is the specified one. *)
Lemma place_exact r fb_w fb_h : small_rect r → 0 < fb_w ≤ 10000 → 0 < fb_h ≤ 10000 →
  place (rx r) (ry r) (rw r) (rh r) fb_w fb_h = (rx (place_rect r (fb_w, fb_h)), ry (place_rect r (fb_w, fb_h))).
Proof.
  intros (Hx & Hy & Hw & Hh) ? ?. unfold small in *. unfold place, place_rect, TASKBAR_HEIGHT. cbn [rx ry fst snd].
  destruct (Z.ltb_spec (rx r) 0), (Z.ltb_spec (ry r) 35); cbn zeta; rewrite !iadd_id, !isub_id by lia; (f_equal; [|]);
    match goal with |- context [?a <? ?b] => destruct (Z.ltb_spec a b) end; lia.
Qed.

Lemma view_unfocus (l : list gui_window) : view <$> (with_w_focused 0 <$> l) = view <$> l.
Proof. rewrite <-list_fmap_compose. by apply list_fmap_ext. Qed.

Lemma stack_intro d s : view <$> shown d = st_windows s → next_window_id d = st_next s → focused_window_id d = st_focus s →
  (i32 (p_width (g_world d)), i32 (p_height (g_world d))) = st_size s → stack_of d = s.
Proof. destruct s. unfold stack_of. cbn. by intros -> -> -> ->. Qed.

Lemma titles_insert (l : list gui_window) (i : nat) w : Forall (λ w, length (w_title w) = 64%nat) l → length (w_title w) = 64%nat →
  Forall (λ w, length (w_title w) = 64%nat) (<[i := w]> l).
Proof. intros Hl Hw. by apply Forall_insert. Qed.

Lemma titles_unfocus n (l : list gui_window) : Forall (λ w, length (w_title w) = 64%nat) l →
  Forall (λ w, length (w_title w) = 64%nat) ((with_w_focused 0 <$> take n l) ++ drop n l).
Proof.
  intros H. rewrite <-(take_drop n l) in H. apply Forall_app in H as [H1 H2]. apply Forall_app. split; [|done].
  apply Forall_fmap. by eapply Forall_impl.
Qed.

Lemma create_run title r d : arrays_ok d → ids_ok (stack_of d) → sizes_ok (stack_of d) → op_ok (Create title r) (stack_of d) →
  wp (do_op (Create title r)) (λ _ d', arrays_ok d' ∧ stack_of d' = stack_op (Create title r) (stack_of d)) d.
Proof.
  intros Hok (_ & _ & Hnext) (Hfw & Hfh & _) (Hchars & Hlen & Hnext' & Hr). pose proof (shown_length d Hok) as Hshown. destruct Hok as [Hw Hc Ht Hd Hdc].
  assert (Hold : window_count d < 10 → ∃ old, windows d !! Z.to_nat (window_count d) = Some old)
    by (intros; apply lookup_lt_is_Some_2; lia).
  unfold do_op. apply wp_bind. unfold gui_create_window. apply wp_bind, wp_get. unfold MAX_WINDOWS, stack_op.
  assert (Hfull : (10 <=? length (st_windows (stack_of d)))%nat = (10 <=? window_count d)).
  { change (st_windows _) with (view <$> shown d). rewrite length_fmap, Hshown. apply Bool.eq_iff_eq_true. rewrite Nat.leb_le, Z.leb_le. lia. }
  rewrite Hfull.
  destruct (Z.leb_spec 10 (window_count d)). { apply wp_ret, wp_ret. split; [by constructor|done]. }
  destruct Hold as [old Hold]; [lia|]. set (i := Z.to_nat (window_count d)) in *.
  assert (Hi : window_count d = Z.of_nat i) by lia. clearbody i.
  cbn [stack_of st_size fst snd] in Hfw, Hfh. apply wp_bind, wp_gets. rewrite (place_exact r _ _ Hr Hfw Hfh). cbn [stack_of st_size].
  set (x := rx (place_rect _ _)). set (y := ry (place_rect _ _)). rewrite Hi. apply wp_bind, wp_modify, wp_bind.
  eapply get_window_run; [apply Hold|]. apply wp_bind, wp_modify.
  assert (length (w_title old) = 64%nat) as Hol by (by eapply (Forall_lookup_1 _ _ _ _ Ht)).
  destruct (text_in_copy 64 (w_title old) (lit title) (chars title)) as (t & Et & Htl & Hth); [done|by apply holds_lit|done|].
  eapply wp_bind, wp_of_option; [exact Et|]. apply wp_bind, put_window_run; [cbn; lia|]. apply wp_bind, unfocus_run; [cbn; rewrite length_insert; lia|].
  apply wp_bind, wp_modify, wp_ret, wp_ret. cbn. set (new := mk_gui_window _ _ _ _ _ _ _ _ _ _).
  rewrite take_insert_ge, (drop_S _ new), drop_insert_lt by (lia || (apply list_lookup_insert_eq; lia)). split.
  - constructor; cbn; [|lia| |done..].
    + rewrite length_app, length_fmap, length_take. cbn. rewrite length_drop. lia.
    + rewrite <-(take_drop i (windows d)) in Ht. apply Forall_app in Ht as [H1 H2]. apply Forall_app.
      split; [apply Forall_fmap; by eapply Forall_impl|]. constructor; [done|].
      replace (S i) with (i + 1)%nat by lia. rewrite <-drop_drop. by apply Forall_drop.
  - apply stack_intro; cbn.
    + unfold shown. cbn. replace (Z.to_nat (Z.of_nat i + 1)) with (i + 1)%nat by lia.
      rewrite take_app_add' by (rewrite length_fmap, length_take; lia). rewrite fmap_app, view_unfocus, Hi, Nat2Z.id. f_equal. cbn. unfold view. cbn.
      do 2 f_equal. unfold text_of. rewrite (str_len_holds _ _ Hth). cbn. rewrite Nat2Z.id. destruct Hth as (_ & rest & ->). by rewrite take_app_length.
    + apply i32_id. cbn in Hnext, Hnext'. lia.
    + done.
    + done.
Qed.

(** Nothing is changed but the window in slot [i], and what is not a window. *)
Definition slot_changed (i : nat) (d d' : D) : Prop :=
  (∃ w', windows d' = <[i := w']> (windows d) ∧ length (w_title w') = 64%nat) ∧ window_count d' = window_count d ∧
  next_window_id d' = next_window_id d ∧ focused_window_id d' = focused_window_id d ∧ g_world d' = g_world d ∧
  dirty_rects d' = dirty_rects d ∧ dirty_rect_count d' = dirty_rect_count d.

Lemma slot_changed_refl i w d : windows d !! i = Some w → length (w_title w) = 64%nat → slot_changed i d d.
Proof. intros Hw Hl. split_and!; [|done..]. exists w. by rewrite list_insert_id. Qed.

Lemma slot_changed_upd i f d d' : (i < length (windows d))%nat → (∀ w, w_title (f w) = w_title w) → slot_changed i d d' →
  wp (upd_window (Z.of_nat i) f) (λ _ d'', slot_changed i d d'') d'.
Proof.
  intros Hi Hf ((w' & Hw & Hl) & H). eapply upd_window_run; [rewrite Hw; by apply list_lookup_insert_eq|].
  split; [|done]. exists (f w'). cbn. by rewrite Hw, list_insert_insert_eq, Hf.
Qed.

(** The state of a program is given back. *)
Lemma release_run i p (h : D → D) d d' : (∀ e, slot_changed i d e → slot_changed i d (h e)) → slot_changed i d d' →
  wp (if p =? NONE then mret tt else modify h) (λ _ d'', slot_changed i d d'') d'.
Proof. intros Hh Hd. destruct (p =? NONE); [by apply wp_ret|]. by apply wp_modify, Hh. Qed.

(** The slot is taken out of the list. *)
Lemma remove_slot_run i d d' : arrays_ok d → (i < Z.to_nat (window_count d))%nat → slot_changed i d d' →
  wp (e ← get;
      (if (0 <=? Z.of_nat i) && (Z.of_nat i <? window_count e) then
         modify (with_windows (shift_down (windows e) (Z.to_nat (Z.of_nat i)) (Z.to_nat (window_count e))));;
         modify (with_window_count (window_count e - 1))
       else mret tt);;
      needs_redraw)
    (λ _ d'', arrays_ok d'' ∧ stack_of d'' = stack_op (Destroy i) (stack_of d)) d'.
Proof.
  intros [Hw Hc Ht Hd Hdc] Hi ((w' & Ew & Hl) & Ec & En & Ef & Eg & Er & Erc). apply wp_bind, wp_get. rewrite Ec, Ew, Nat2Z.id.
  rewrite (proj2 (Z.leb_le _ _)), (proj2 (Z.ltb_lt _ _)) by lia. cbn [andb].
  apply wp_bind, wp_bind, wp_modify, wp_modify, wp_modify. set (n := Z.to_nat (window_count d)) in *.
  destruct (lookup_lt_is_Some_2 (<[i := w']> (windows d)) (n - 1)) as [y Hy]; [rewrite length_insert; lia|].
  rewrite (shift_down_spec _ i n y Hi Hy).
  assert (Hdel : delete i (take n (<[i := w']> (windows d))) = delete i (take n (windows d))).
  { rewrite take_insert_lt by lia. rewrite !delete_take_drop. rewrite take_insert_ge, drop_insert_lt by lia. done. }
  assert (Hlen : length (delete i (take n (windows d))) = (n - 1)%nat).
  { rewrite length_delete by (apply lookup_lt_is_Some_2; rewrite length_take; lia). rewrite length_take. lia. }
  assert (Ht' : Forall (λ w, length (w_title w) = 64%nat) (<[i := w']> (windows d))) by (by apply titles_insert).
  rewrite Hdel. split.
  - constructor; cbn; rewrite ?Er, ?Erc, ?Ec; [|lia| |done..].
    + rewrite length_app, Hlen. cbn. rewrite length_drop, length_insert. lia.
    + apply Forall_app. split; [by apply Forall_delete, Forall_take|]. constructor; [by eapply (Forall_lookup_1 _ _ _ _ Ht')|by apply Forall_drop].
  - apply stack_intro; cbn; [|by rewrite En|by rewrite Ef|by rewrite Eg]. unfold shown. cbn.
    replace (Z.to_nat (window_count d - 1)) with (n - 1)%nat by lia. rewrite take_app_le, take_ge by lia.
    by rewrite list_fmap_delete.
Qed.

Lemma destroy_run i d : arrays_ok d → op_ok (Destroy i) (stack_of d) →
  wp (do_op (Destroy i)) (λ _ d', arrays_ok d' ∧ stack_of d' = stack_op (Destroy i) (stack_of d)) d.
Proof.
  intros Hok Hi. cbn in Hi. rewrite length_fmap, shown_length in Hi by done. pose proof Hok as [Hw Hc Ht Hd Hdc].
  destruct (lookup_lt_is_Some_2 (windows d) i) as [w Hwi]; [lia|].
  assert (length (w_title w) = 64%nat) as Hwt by (by eapply (Forall_lookup_1 _ _ _ _ Ht)).
  unfold do_op, gui_destroy_window. rewrite (proj2 (Z.eqb_neq _ NONE)) by (unfold NONE; lia).
  eapply wp_bind, get_window_run; [done|]. cbv zeta.
  pose proof (slot_changed_refl i w d Hwi Hwt) as H0.
  do 3 (eapply wp_bind, wp_mono; [apply release_run; [|exact H0]; intros e He; exact He|clear H0; try clear d'; intros [] d' H0];
        eapply wp_bind, wp_mono; [apply (slot_changed_upd i _ d); [lia|done|exact H0]|clear d' H0; intros [] d' H0]).
  apply wp_bind, wp_get, wp_bind. eapply wp_mono with (λ _ e, slot_changed i d e).
  { destruct (list_find _ _) as [[k b]|]; [|by apply wp_ret]. by apply wp_bind, wp_modify, wp_modify. }
  intros [] e He. by apply remove_slot_run.
Qed.

Lemma fmap_view_insert (l : list gui_window) i w w' : l !! i = Some w → view w' = view w → view <$> <[i := w']> l = view <$> l.
Proof. intros Hw E. rewrite list_fmap_insert, E. apply list_insert_id. by rewrite list_lookup_fmap, Hw. Qed.

(** The windows when the one in slot [i] has been brought to the front. *)
Definition to_front (i n : nat) (w : gui_window) (l : list gui_window) : list gui_window := delete i (take n l) ++ w :: drop n l.

Lemma to_front_run i w d : arrays_ok d → (i < Z.to_nat (window_count d))%nat → windows d !! i = Some w →
  wp (if (0 <=? Z.of_nat i) && (Z.of_nat i <? window_count d - 1) then
        modify (with_windows (shift_down (windows d) (Z.to_nat (Z.of_nat i)) (Z.to_nat (window_count d))));;
        put_window (window_count d - 1) w
      else mret tt)
    (λ _ d', d' = with_windows (to_front i (Z.to_nat (window_count d)) w (windows d)) d) d.
Proof.
  intros [Hw Hc Ht Hd Hdc] Hi Hwi. rewrite (proj2 (Z.leb_le 0 _)), Nat2Z.id by lia. cbn [andb]. unfold to_front.
  set (n := Z.to_nat (window_count d)) in *.
  destruct (lookup_lt_is_Some_2 (windows d) (n - 1)) as [y Hy]; [lia|].
  assert (Hlen : length (delete i (take n (windows d))) = (n - 1)%nat).
  { rewrite length_delete by (apply lookup_lt_is_Some_2; rewrite length_take; lia). rewrite length_take. lia. }
  destruct (Z.ltb_spec (Z.of_nat i) (window_count d - 1)).
  - apply wp_bind, wp_modify. replace (window_count d - 1) with (Z.of_nat (n - 1)) by lia.
    rewrite (shift_down_spec _ i n y Hi Hy). apply put_window_run; cbn.
    + rewrite length_app, Hlen. cbn. lia.
    + unfold with_windows. cbn. f_equal. rewrite insert_app_r_alt by lia. by rewrite Hlen, Nat.sub_diag.
  - apply wp_ret. replace i with (n - 1)%nat in * by lia.
    assert (E : delete (n - 1)%nat (take n (windows d)) ++ w :: drop n (windows d) = windows d).
    { rewrite delete_take_drop, take_take, (drop_ge (take n _)), app_nil_r by (rewrite length_take; lia).
      replace ((n - 1) `min` n)%nat with (n - 1)%nat by lia. replace n with (S (n - 1)) at 2 by lia. by apply take_drop_middle. }
    rewrite E. by destruct d.
Qed.

Lemma focus_run i d : arrays_ok d → op_ok (Focus i) (stack_of d) →
  wp (do_op (Focus i)) (λ _ d', arrays_ok d' ∧ stack_of d' = stack_op (Focus i) (stack_of d)) d.
Proof.
  intros Hok Hi. cbn in Hi. rewrite length_fmap, shown_length in Hi by done.
  pose proof Hok as [Hw Hc Ht Hd Hdc]. destruct (lookup_lt_is_Some_2 (windows d) i) as [w Hwi]; [lia|].
  unfold do_op, gui_focus_window, stack_op. rewrite (proj2 (Z.eqb_neq _ NONE)) by (unfold NONE; lia).
  eapply wp_bind, get_window_run; [done|]. apply wp_bind, wp_get.
  assert (Hs : st_windows (stack_of d) !! i = Some (view w)).
  { cbn [stack_of st_windows]. rewrite list_lookup_fmap. by rewrite (proj2 (shown_lookup d i w)). }
  rewrite Hs. cbn [stack_of st_focus a_id view]. destruct (focused_window_id d =? w_id w); [by apply wp_ret|].
  eapply wp_bind, wp_mono; [by apply to_front_run|]. intros [] d' ->. set (n := Z.to_nat (window_count d)) in *.
  set (l := to_front i n w (windows d)).
  assert (Hlen : length (delete i (take n (windows d))) = (n - 1)%nat).
  { rewrite length_delete by (apply lookup_lt_is_Some_2; rewrite length_take; lia). rewrite length_take. lia. }
  assert (Hl : length l = 10%nat) by (unfold l, to_front; rewrite length_app, Hlen; cbn; rewrite length_drop; lia).
  assert (Hlt : Forall (λ w, length (w_title w) = 64%nat) l).
  { apply Forall_app. split; [by apply Forall_delete, Forall_take|]. constructor; [by eapply (Forall_lookup_1 _ _ _ _ Ht)|by apply Forall_drop]. }
  assert (Hv : view <$> take n l = delete i (view <$> shown d) ++ [view w]).
  { unfold l, to_front. rewrite take_app_ge by lia. rewrite Hlen. replace (n - (n - 1))%nat with 1%nat by lia. cbn.
    by rewrite fmap_app, list_fmap_delete. }
  destruct (lookup_lt_is_Some_2 l i) as [v Hvi]; [lia|].
  replace (window_count d) with (Z.of_nat n) by lia. apply wp_bind, unfocus_run; [cbn; lia|]. cbn [windows with_windows].
  assert (Hui : ((with_w_focused 0 <$> take n l) ++ drop n l) !! i = Some (with_w_focused 0 v)).
  { rewrite lookup_app_l by (rewrite length_fmap, length_take; lia). rewrite list_lookup_fmap, lookup_take_lt by lia. by rewrite Hvi. }
  eapply wp_bind, upd_window_run; [exact Hui|]. cbn [windows with_windows].
  eapply wp_bind, get_window_run; [apply list_lookup_insert_eq; by eapply lookup_lt_Some|]. apply wp_bind, wp_modify, wp_modify. split.
  - constructor; cbn; [|lia| |done..].
    + rewrite length_insert, length_app, length_fmap, length_take, length_drop. lia.
    + apply titles_insert; [by apply titles_unfocus|]. exact (Forall_lookup_1 _ _ _ _ Hlt Hvi).
  - apply stack_intro; cbn; [|done|..|done].
    + unfold shown. cbn. fold n. rewrite take_insert_lt by lia. rewrite take_app_length' by (rewrite length_fmap, length_take; lia).
      erewrite fmap_view_insert; [by rewrite view_unfocus|by rewrite list_lookup_fmap, lookup_take_lt, Hvi by lia|done].
    + fold n. change (take n (windows d)) with (shown d). rewrite <-Hv.
      rewrite list_lookup_fmap, lookup_take_lt, Hvi by lia. done.
Qed.

Lemma list_alter_some {A} (f : A → A) (l : list A) i x : l !! i = Some x → alter f i l = <[i := f x]> l.
Proof.
  intros H. apply list_eq. intros j. destruct (decide (i = j)) as [->|Hj].
  - rewrite list_lookup_alter_eq, H, list_lookup_insert_eq by (by apply (lookup_lt_Some _ _ _ H)). done.
  - by rewrite list_lookup_alter_ne, list_lookup_insert_ne.
Qed.

(** An operation that changes the rectangle of a window and marks what it shows. *)
Lemma alter_run i w r f d d' : arrays_ok d → shown d !! i = Some w → f (view w) = mk_awin (w_id w) r (text_of (w_title w)) →
  d' = with_windows (<[i := with_w_rect r w]> (windows d)) d →
  arrays_ok d' ∧ stack_of d' = mk_stack (alter f i (st_windows (stack_of d))) (next_window_id d) (focused_window_id d) (st_size (stack_of d)).
Proof.
  intros [Hw Hc Ht Hd Hdc] Hs Hf ->. pose proof Hs as [Hwi Hi]%shown_lookup. split.
  - constructor; cbn; [by rewrite length_insert|done| |done..]. apply titles_insert; [done|]. exact (Forall_lookup_1 _ _ _ _ Ht Hwi).
  - unfold stack_of, shown. cbn. f_equal. rewrite take_insert_lt, list_fmap_insert by done.
    assert (Hv : (view <$> take (Z.to_nat (window_count d)) (windows d)) !! i = Some (view w)) by (fold (shown d); by rewrite list_lookup_fmap, Hs).
    rewrite (list_alter_some _ _ _ _ Hv), Hf. done.
Qed.

Lemma same_windows_stack d d' s : same_windows d d' → stack_of d = s → stack_of d' = s.
Proof. intros (E1 & E2 & E3 & E4 & E5) <-. unfold stack_of, shown. by rewrite E1, E2, E3, E4, E5. Qed.

Lemma shown_slot d i : arrays_ok d → (i < length (st_windows (stack_of d)))%nat → ∃ w, windows d !! i = Some w ∧ shown d !! i = Some w.
Proof.
  intros Hok Hi. cbn in Hi. rewrite length_fmap in Hi. destruct (lookup_lt_is_Some_2 (shown d) i Hi) as [w Hw].
  exists w. split; [|done]. by apply shown_lookup in Hw as [? _].
Qed.

Lemma resize_run i width height d : arrays_ok d → op_ok (Resize i width height) (stack_of d) →
  wp (do_op (Resize i width height)) (λ _ d', arrays_ok d' ∧ stack_of d' = stack_op (Resize i width height) (stack_of d)) d.
Proof.
  intros Hok [(w & Hwi & Hs)%shown_slot _]; [|done]. unfold do_op, gui_resize_window. rewrite (proj2 (Z.eqb_neq _ NONE)) by (unfold NONE; lia).
  eapply wp_bind, get_window_run; [done|]. eapply wp_bind, upd_window_run; [done|].
  edestruct (alter_run i w) as [Hok' Hst]; [done|done| |done|].
  2: { eapply wp_mono; [apply mark_dirty_run, Hok'|]. intros [] d' (Ha & Hsame & _). split; [done|].
       eapply same_windows_stack; [done|]. by rewrite Hst. }
  done.
Qed.

Lemma shown_small d i w : sizes_ok (stack_of d) → shown d !! i = Some w → window_small (view w).
Proof. intros (_ & _ & H) Hw. eapply (Forall_lookup_1 _ _ i); [exact H|]. cbn. by rewrite list_lookup_fmap, Hw. Qed.

Lemma place_shown d i w x y : sizes_ok (stack_of d) → shown d !! i = Some w → small x → small y →
  place x y (rw (w_rect w)) (rh (w_rect w)) (i32 (p_width (g_world d))) (i32 (p_height (g_world d))) =
  (let r := place_rect (mk_rect x y (rw (w_rect w)) (rh (w_rect w))) (st_size (stack_of d)) in (rx r, ry r)).
Proof.
  intros Hsz Hw Hx Hy. destruct (shown_small d i w Hsz Hw) as (Hww & Hwh & _). destruct Hsz as (Hfw & Hfh & _).
  exact (place_exact (mk_rect x y _ _) _ _ (conj Hx (conj Hy (conj Hww Hwh))) Hfw Hfh).
Qed.

Lemma move_op_run i x y d : arrays_ok d → sizes_ok (stack_of d) → op_ok (Move i x y) (stack_of d) →
  wp (do_op (Move i x y)) (λ _ d', arrays_ok d' ∧ stack_of d' = stack_op (Move i x y) (stack_of d)) d.
Proof.
  intros Hok Hsz [(w & Hwi & Hs)%shown_slot [Hx Hy]]; [|done]. unfold do_op, gui_move_window. rewrite (proj2 (Z.eqb_neq _ NONE)) by (unfold NONE; lia).
  eapply wp_bind, get_window_run; [done|]. apply wp_bind, wp_gets. rewrite (place_shown d i w) by done. cbv zeta.
  eapply wp_bind, upd_window_run; [done|]. set (r := place_rect _ _).
  destruct (alter_run i w r
    (λ w, mk_awin (a_id w) (place_rect (mk_rect x y (rw (a_rect w)) (rh (a_rect w))) (st_size (stack_of d))) (a_title w)) d (with_windows (<[i := with_w_rect r w]> (windows d)) d) Hok Hs) as [Hok' Hst];
    [done..|]. change (mk_rect (rx r) (ry r) (rw (w_rect w)) (rh (w_rect w))) with r.
  set (d1 := with_windows _ d) in *. clearbody d1. change (stack_op _ _) with (mk_stack (alter (λ w, mk_awin (a_id w)
    (place_rect (mk_rect x y (rw (a_rect w)) (rh (a_rect w))) (st_size (stack_of d))) (a_title w)) i (st_windows (stack_of d)))
    (next_window_id d) (focused_window_id d) (st_size (stack_of d))).
  rewrite <-Hst. clear Hst Hok. set (P d2 := arrays_ok d2 ∧ stack_of d2 = stack_of d1).
  assert (Hmark : ∀ a b c e d2, P d2 → wp (gui_mark_dirty a b c e) (λ _, P) d2).
  { intros a b c e d2 [Ha Hst]. eapply wp_mono; [by apply mark_dirty_run|]. intros [] d3 (Ha' & Hsame & _). split; [done|].
    by eapply same_windows_stack. }
  destruct (_ && _); [|by apply Hmark].
  apply wp_bind. eapply wp_mono with (λ _, P).
  - repeat destruct (_ <? _); (by apply Hmark) || by apply wp_ret.
  - intros [] d2 Hd2. repeat destruct (_ <? _); (by apply Hmark) || by apply wp_ret.
Qed.

Lemma op_run o d : arrays_ok d → ids_ok (stack_of d) → sizes_ok (stack_of d) → op_ok o (stack_of d) →
  wp (do_op o) (λ _ d', arrays_ok d' ∧ stack_of d' = stack_op o (stack_of d)) d.
Proof.
  intros Ha Hi Hs Ho. destruct o.
  - by apply create_run.
  - by apply destroy_run.
  - by apply focus_run.
  - by apply move_op_run.
  - by apply resize_run.
Qed.

Lemma ids_alter f (i : nat) (l : list awin) : (∀ w, a_id (f w) = a_id w) → a_id <$> alter f i l = a_id <$> l.
Proof.
  intros Hf. apply list_eq. intros j. rewrite !list_lookup_fmap. destruct (decide (i = j)) as [->|Hj].
  - rewrite list_lookup_alter_eq. destruct (l !! j); [|done]. cbn. by rewrite Hf.
  - by rewrite list_lookup_alter_ne.
Qed.

(** The identifiers of a stack, without its windows. *)
Definition ids_fit (l : list Z) (next : Z) : Prop := NoDup l ∧ Forall (λ k, 0 < k < next) l ∧ 0 < next < 2 ^ 31.
Lemma ids_ok_fit s : ids_ok s ↔ ids_fit (a_id <$> st_windows s) (st_next s).
Proof. unfold ids_ok, ids_fit. by rewrite Forall_fmap. Qed.

Lemma ids_fit_perm l l' next : l ≡ₚ l' → ids_fit l next → ids_fit l' next.
Proof. intros H (H1 & H2 & H3). unfold ids_fit. by rewrite <-H. Qed.

Lemma op_keeps_ids o s : ids_ok s → op_ok o s → ids_ok (stack_op o s).
Proof.
  rewrite !ids_ok_fit. intros (Hd & Hb & Hn) Ho. destruct o as [title r|i|i|i x y|i width height]; unfold stack_op; cbn [op_ok st_windows st_next] in *.
  - destruct (10 <=? length (st_windows s))%nat; [done|]. destruct Ho as (_ & _ & Ho & _). cbn [st_windows st_next]. rewrite fmap_app. cbn [fmap list_fmap a_id]. split_and!; [|..|lia|lia].
    + apply list.NoDup_app. split_and!; [done| |apply NoDup_singleton]. intros k Hk ->%list_elem_of_singleton.
      rewrite list.Forall_forall in Hb. specialize (Hb _ Hk). lia.
    + apply Forall_app. split; [|constructor; [lia|done]]. eapply list.Forall_impl; [exact Hb|]. cbn. lia.
  - rewrite list_fmap_delete. split_and!; [|by apply Forall_delete|lia..]. eapply sublist_NoDup; [exact Hd|apply sublist_delete].
  - destruct (st_windows s !! i) as [w|] eqn:E; [|done]. destruct (st_focus s =? a_id w); [done|]. cbn.
    eapply ids_fit_perm; [|done]. rewrite fmap_app. cbn. rewrite list_fmap_delete.
    rewrite (delete_Permutation _ i (a_id w)) at 1 by (by rewrite list_lookup_fmap, E). apply Permutation_cons_append.
  - by rewrite ids_alter.
  - by rewrite ids_alter.
Qed.

Lemma place_small r s : sizes_ok s → small_rect r → let r' := place_rect r (st_size s) in
  small (rw r') ∧ small (rh r') ∧ Z.abs (rx r') ≤ 2 ^ 29 ∧ Z.abs (ry r') ≤ 2 ^ 29.
Proof. intros (? & ? & _) (? & ? & ? & ?). unfold small, place_rect, TASKBAR_HEIGHT in *. cbn. lia. Qed.

Lemma op_keeps_sizes o s : sizes_ok s → op_ok o s → sizes_ok (stack_op o s).
Proof.
  intros Hs Ho. pose proof Hs as (Hw & Hh & Hl). destruct o as [title r|i|i|i x y|i width height]; cbn [stack_op op_ok] in *.
  - destruct (10 <=? _)%nat; [done|]. split; [done|split; [done|]]. apply Forall_app. split; [done|]. constructor; [|done].
    destruct Ho as (_ & _ & _ & Hr). by apply place_small.
  - split; [done|split; [done|]]. by apply Forall_delete.
  - destruct (st_windows s !! i) as [w|] eqn:E; [|done]. destruct (st_focus s =? a_id w); [done|]. split; [done|split; [done|]].
    apply Forall_app. split; [by apply Forall_delete|]. constructor; [exact (Forall_lookup_1 _ _ _ _ Hl E)|done].
  - split; [done|split; [done|]]. apply Forall_alter; [done|]. intros w Hwi (? & ? & _). apply place_small; [done|]. by destruct Ho as (_ & ? & ?).
  - split; [done|split; [done|]]. apply Forall_alter; [done|]. intros w Hwi (_ & _ & ?). by destruct Ho as (_ & ? & ?).
Qed.

(** C9: the windows of the desktop.  Any sequence of creating, destroying, focusing, moving and
    resizing windows, with coordinates of at most 2^28, keeps the arrays in order, gives no
    identifier twice, keeps all coordinates small enough for sums in an [int], and does on the
    window list what the same operations do on a plain stack of windows: a new window goes on
    top of the others, a destroyed one leaves the rest in their order, a focused one comes to
    the top, and a new or moved window is put at the place nearest to the one asked for, not
    left of the screen or under the taskbar, and in the end not beyond the right and the lower edge. *)
Theorem window_stack_refines (os : list window_op) (d : desk W) (Hok : arrays_ok d) (Hids : ids_ok (stack_of d))
    (Hsizes : sizes_ok (stack_of d)) (Hops : ops_ok os (stack_of d)) :
  wp (do_ops os) (λ _ d', arrays_ok d' ∧ ids_ok (stack_of d') ∧ sizes_ok (stack_of d') ∧ stack_of d' = foldl (flip stack_op) (stack_of d) os) d.
Proof.
  revert d Hok Hids Hsizes Hops. induction os as [|o os IH]; intros d Hok Hids Hsizes Hops; cbn [do_ops ops_ok] in *; [by apply wp_ret|].
  destruct Hops as [Ho Hops]. eapply wp_bind, wp_mono; [by apply op_run|]. intros [] d' [Hok' E].
  pose proof (op_keeps_ids o _ Hids Ho) as Hids'. pose proof (op_keeps_sizes o _ Hsizes Ho) as Hsizes'. rewrite <-E in Hids', Hsizes', Hops.
  change (foldl _ _ (o :: os)) with (foldl (flip stack_op) (stack_op o (stack_of d)) os). rewrite <-E. by apply IH.
Qed.

(** ** What is under the mouse, and what is drawn again *)

Lemma last_such_some n f i : last_such n f = Some i ↔ (i < n)%nat ∧ f i = true ∧ ∀ j, (i < j < n)%nat → f j = false.
Proof.
  induction n as [|n IH]; cbn; [split; [done|lia]|]. destruct (f n) eqn:E.
  - split; [intros [= <-]; split_and!; [lia|done|lia]|]. intros (Hi & Hf & Hj). f_equal. destruct (decide (i = n)); [done|].
    rewrite Hj in E by lia. done.
  - rewrite IH. split; intros (Hi & Hf & Hj); (split_and!; [|done|]); try lia.
    + intros j Hn. destruct (decide (j = n)) as [->|]; [done|]. apply Hj. lia.
    + destruct (decide (i = n)) as [->|]; [congruence|lia].
    + intros j Hn. apply Hj. lia.
Qed.

Lemma last_such_none n f : last_such n f = None ↔ ∀ j, (j < n)%nat → f j = false.
Proof.
  induction n as [|n IH]; cbn; [split; [lia|done]|]. destruct (f n) eqn:E.
  - split; [done|]. intros H. rewrite H in E by lia. done.
  - rewrite IH. split; intros H j Hj; [|apply H; lia]. destruct (decide (j = n)) as [->|]; [done|]. apply H. lia.
Qed.

(** A click goes to the window that is seen there: the window found at a point is shown,
    contains the point, and no window above it is shown and contains the point; when none is
    found, no window that is shown contains the point.  Looking changes nothing. *)
Theorem window_at_point_topmost (d : desk W) (x y : Z) :
  ∃ k, gui_get_window_at_point x y d = Done k d ∧
    ((k = NONE ∧ ∀ w, w ∈ shown d → on_window x y w = false) ∨
     (∃ i w, k = Z.of_nat i ∧ shown d !! i = Some w ∧ on_window x y w = true ∧
        ∀ j w', (i < j)%nat → shown d !! j = Some w' → on_window x y w' = false)).
Proof.
  unfold gui_get_window_at_point, gets. set (f := λ i, from_option (on_window x y) false (windows d !! i)).
  destruct (last_such _ f) as [i|] eqn:E; eexists; (split; [done|]).
  - apply last_such_some in E as (Hi & Hf & Hj). subst f. cbn in Hf. destruct (windows d !! i) as [w|] eqn:Ew; [|done].
    right. exists i, w. split_and!; [done|by apply shown_lookup|done|]. intros j w' Hij [Hw' Hj']%shown_lookup.
    specialize (Hj j ltac:(lia)). cbn in Hj. by rewrite Hw' in Hj.
  - left. split; [done|]. intros w (i & [Hw Hi]%shown_lookup)%list_elem_of_lookup. rewrite last_such_none in E.
    specialize (E i Hi). subst f. cbn in E. by rewrite Hw in E.
Qed.

(** A window that is dragged by more than five pixels is drawn again, where it was and where
    it is: every point of both rectangles is marked, next to all that was marked before, and a
    window that fits the screen is placed on it, below the taskbar. *)
Theorem moved_window_redrawn (i : nat) (w : gui_window) (x y : Z) (d : desk W) (Hok : arrays_ok d) (Hsizes : sizes_ok (stack_of d))
    (Hs : shown d !! i = Some w) (Hdirty : Forall edges (dirty d)) (Hx : small x) (Hy : small y) :
  let old := w_rect w in
  let new := place_rect (mk_rect x y (rw old) (rh old)) (st_size (stack_of d)) in
  5 < Z.abs (rx new - rx old) ∨ 5 < Z.abs (ry new - ry old) →
  (rw old ≤ fst (st_size (stack_of d)) → rh old + TASKBAR_HEIGHT ≤ snd (st_size (stack_of d)) →
    0 ≤ rx new ∧ rx new + rw new ≤ fst (st_size (stack_of d)) ∧ TASKBAR_HEIGHT ≤ ry new ∧ ry new + rh new ≤ snd (st_size (stack_of d))) ∧
  wp (gui_move_window (Z.of_nat i) x y) (λ _ d',
    w_rect <$> windows d' !! i = Some new ∧
    ∀ px py, covered px py d ∨ gui_is_point_in_rect px py old = true ∨ gui_is_point_in_rect px py new = true → covered px py d') d.
Proof.
  intros old new Hfar. split. { intros Hw Hh. unfold new, place_rect, TASKBAR_HEIGHT in *. cbn [rx ry rw rh]. lia. }
  pose proof Hs as [Hwi _]%shown_lookup. unfold gui_move_window. rewrite (proj2 (Z.eqb_neq _ NONE)) by (unfold NONE; lia).
  eapply wp_bind, get_window_run; [done|]. apply wp_bind, wp_gets.
  rewrite (place_shown d i w) by done. fold old. fold new.
  destruct (shown_small d i w Hsizes Hs) as (Hww & Hwh & Hwx & Hwy). cbn [view a_rect] in Hww, Hwh, Hwx, Hwy. fold old in Hww, Hwh, Hwx, Hwy.
  destruct (place_small (mk_rect x y (rw old) (rh old)) (stack_of d) Hsizes (conj Hx (conj Hy (conj Hww Hwh)))) as (_ & _ & Hnx & Hny).
  fold new in Hnx, Hny. unfold small in Hww, Hwh. cbv zeta.
  eapply wp_bind, upd_window_run; [done|]. change (mk_rect (rx new) (ry new) (rw old) (rh old)) with new.
  destruct (alter_run i w new (λ a, mk_awin (a_id a) new (a_title a)) d _ Hok Hs eq_refl eq_refl) as [Hok' _].
  assert (Ew : rw new = rw old) by done. assert (Eh : rh new = rh old) by done. clearbody new.
  assert (Heo : edges old) by (unfold edges; lia). assert (Hen : edges new) by (unfold edges; lia).
  rewrite !isub_id by lia. destruct (_ && _) eqn:Ec.
  { rewrite !andb_true_iff, !Z.leb_le in Ec. lia. }
  destruct (union_covers old new Heo Hen) as [Heu Hcu]. set (m := union old new) in *.
  match goal with |- wp (gui_mark_dirty ?a ?b ?c ?e) _ _ => assert (Em : mk_rect a b c e = m) end.
  { unfold m, union. by rewrite Ew, Eh. }
  eapply wp_mono; [apply mark_dirty_run, Hok'|]. intros [] d' (_ & (E & _) & Hcov). split.
  { rewrite E. cbn. by rewrite list_lookup_insert_eq by (by eapply lookup_lt_Some). }
  rewrite Em in Hcov. intros px py H. apply Hcov; [done..|]. destruct H as [H|H]; [by left|right]. by apply Hcu.
Qed.
End facts.

(** ** A desktop to try *)

(** A screen of 800 by 600 on which nothing is seen, and a kernel without files. *)
#[local] Instance demo_painter : Painter unit := {|
  p_width _ := 800;
  p_height _ := 600;
  p_rect _ _ _ _ _ := mret tt;
  p_circle _ _ _ _ := mret tt;
  p_line _ _ _ _ _ := mret tt;
  p_text _ _ _ _ := mret tt;
  p_double _ := 0;
  p_enable_double := mret tt;
  p_disable_double := mret tt;
  p_swap := mret tt;
|}.
#[local] Instance demo_kernel : Kernel unit := {|
  k_ticks := mret 0;
  k_subscribe _ _ := mret tt;
  k_time := mret (0, 0, 0, 0, 0);
  k_draw_cursor := mret tt;
  k_set_mouse _ _ := mret tt;
  k_mouse_events _ := mret tt;
  k_load_wallpaper _ := mret tt;
  k_directory _ := mret None;
  k_cursor_draw := mret tt;
  k_string _ _ := mret tt;
|}.
Definition no_program : program := mk_program 0 NONE 0 NONE 0 NONE.
Definition demo_window : gui_window :=
  mk_gui_window 0 (mk_rect 0 0 0 0) (replicate 64 0) 0 WINDOW_STATE_NORMAL 0 (0, 0) (mk_rect 0 0 0 0) (replicate 16 0) no_program.
Definition demo_desk : desk unit :=
  mk_desk (replicate 10 demo_window) 0 0 1 (replicate 10 (mk_taskbar_button 0 (replicate 32 0) BUTTON_STATE_NORMAL)) 0
    (replicate 20 (mk_gui_button (mk_rect 0 0 0 0) (replicate 32 0) BUTTON_STATE_NORMAL 0)) 0
    (mk_drag_state 0 (0, 0) (0, 0) NONE 0 (0, 0) (0, 0) NONE) (400, 300) (replicate 32 (mk_rect 0 0 0 0)) 0
    (replicate 10 (demo_terminal 80)) (replicate 10 0) (replicate 10 (demo_te [] [] 0 0)) (replicate 10 0)
    (replicate 10 (mk_file_manager (replicate 256 0) (replicate 100 (replicate 256 0)) 0 (-1) 0)) (replicate 10 0)
    (-1) (lit "/") (mk_gui_flags 1 1 0 0 1 0 0 0 0) tt.

(** Two windows, of which the lower one is brought to the front, moved and resized; then one is closed. *)
Definition demo_ops : list window_op :=
  [Create "Paint" (mk_rect 700 10 200 100); Create "Settings" (mk_rect 50 50 300 200); Focus 0; Move 1 10 100; Resize 1 210 110; Destroy 0].

Lemma demo_arrays : arrays_ok demo_desk.
Proof. split; [done|cbn; lia|eval_decide|done|cbn; lia]. Qed.

Lemma window_stack_refines_witness :
  wp (do_ops demo_ops) (λ _ d', arrays_ok d' ∧ ids_ok (stack_of d') ∧ sizes_ok (stack_of d') ∧
    stack_of d' = mk_stack [mk_awin 1 (mk_rect 10 100 210 110) (Some (chars "Paint"))] 3 2 (800, 600)) demo_desk.
Proof.
  refine (wp_mono _ _ _ _ (window_stack_refines demo_ops demo_desk demo_arrays _ _ _) _).
  - split; [constructor|split; [constructor|cbn; lia]].
  - split; [|split; [|constructor]]; vm_compute; split; by discriminate || reflexivity.
  - vm_compute. repeat split; eval_decide || lia.
  - intros [] d' (Ha & Hi & Hs & E). split_and!; [done..|]. rewrite E. reflexivity.
Defined.

(** The desktop after an action. *)
Definition after {A} (m : M (desk unit) A) (d : desk unit) : desk unit := match m d with Done _ d' => d' | Stuck _ => d end.
Definition two_windows : desk unit := after (do_ops (take 2 demo_ops)) demo_desk.

(** The window that is brought to the front is not the one that is marked as focused. *)
Example focus_marks_next :
  map (λ w, (w_id w, w_focused w)) (shown (after (gui_focus_window 0) two_windows)) = [(2, 1); (1, 0)].
Proof. by vm_compute. Qed.

(** A window opened where a minimized one has been is minimized. *)
Example new_window_minimized :
  let d := after (gui_minimize_window 1;; gui_destroy_window 0;; launch_settings_new) two_windows in
  map (λ w, (w_id w, w_state w)) (shown d) = [(2, WINDOW_STATE_MINIMIZED); (3, WINDOW_STATE_MINIMIZED)].
Proof. by vm_compute. Qed.

(** Two terminals, of which the lower one is closed; the settings are opened in the slot of the
    other and closed, which gives its state back: the second terminal opened then shares the
    state of the one still open. *)
Example terminals_share_state :
  let d := after (launch_terminal_new;; launch_terminal_new;; gui_destroy_window 0;; launch_settings_new;;
                  gui_destroy_window 1;; launch_terminal_new;; launch_terminal_new) demo_desk in
  map (λ w, (w_id w, terminal_state (w_program w))) (shown d) = [(2, 1); (4, 0); (5, 1)].
Proof. by vm_compute. Qed.

(** A window dragged to the left by three pixels, without the redrawing that the mouse handler
    asks for: a strip is marked, the rest of the window is not. *)
Example small_move_not_covered :
  let d := after (gui_move_window 0 597 35) (with_flags (with_gui_needs_redraw 0 (flags two_windows)) two_windows) in
  w_rect <$> windows d !! 0%nat = Some (mk_rect 597 35 200 100) ∧ dirty_rect_count d = 1 ∧ gui_needs_redraw (flags d) = 0 ∧
  dirty_rects d !! 0%nat = Some (mk_rect 797 35 3 100).
Proof. by vm_compute. Qed.

Definition lower_window : gui_window := default demo_window (shown two_windows !! 0%nat).
Lemma moved_window_redrawn_witness : w_rect lower_window = mk_rect 600 35 200 100 ∧
  wp (gui_move_window (Z.of_nat 0) 100 100) (λ _ d',
    w_rect <$> windows d' !! 0%nat = Some (mk_rect 100 100 (rw (w_rect lower_window)) (rh (w_rect lower_window))) ∧
    ∀ px py, covered px py two_windows ∨ gui_is_point_in_rect px py (w_rect lower_window) = true ∨
      gui_is_point_in_rect px py (mk_rect 100 100 (rw (w_rect lower_window)) (rh (w_rect lower_window))) = true →
      covered px py d') two_windows.
Proof.
  split; [by vm_compute|]. refine (proj2 (moved_window_redrawn 0 lower_window 100 100 two_windows _ _ _ _ _ _ _)).
  - split; [by vm_compute|vm_compute; split; discriminate|eval_decide|by vm_compute|vm_compute; split; discriminate].
  - split; [|split]; [vm_compute; split; by discriminate || reflexivity..|]. repeat constructor; by vm_compute.
  - by vm_compute.
  - constructor.
  - by vm_compute.
  - by vm_compute.
  - left. by vm_compute.
Defined.
