(* ===== verification/GuiDraw.v ===== *)
(** * What the window manager draws, [core/gui/gui.c]

    The wallpaper, the taskbar, the windows from the back to the front and the buttons; a frame
    draws all of it again, or the regions that are dirty.  The messages to the debugging
    console are not modelled. *)

From Stdlib Require Import ZArith Lia String.
From stdpp Require Import base list numbers.
From S2P Require Import Prelude CString Buffer Display Desktop Terminal GuiPrograms Gui.
Open Scope Z_scope.
Set Default Goal Selector "!".

Definition MENU_BG_WHITE : Z := 0xFFFFFFFF.
Definition MENU_TEXT_MAIN : Z := 0xFF333333.
Definition MENU_BORDER : Z := 0xFFCCCCCC.
Definition MENU_SEPARATOR : Z := 0xFFDDDDDD.
Definition MENU_SECTION_BG : Z := 0xFFF8F8F8.

(** The sections of the start menu: the height of the background of each in entries, and its
    entries with their colours. *)
Definition menu_sections : list (Z * list (string * Z)) :=
  [(4, [("Terminal", 0xFF2E86C1); ("File Manager", 0xFF27AE60); ("Web Browser", 0xFFE74C3C)]);
   (1, [("Settings", 0xFF9B59B6)]);
   (2, [("Text Editor", 0xFF3498DB); ("Media Player", 0xFFF1C40F)]);
   (1, [("Log out", 0xFFE67E22)])]%string.

(** The rectangles [r] and [s] share a point. *)
Definition overlap (r s : rect) : bool :=
  (rx r <? rx s ⊕ rw s) && (rx s <? rx r ⊕ rw r) && (ry r <? ry s ⊕ rh s) && (ry s <? ry r ⊕ rh r).

(** The lines of a text as [gui_draw_text_fast] takes them apart: a line feed at the end of the
    text is followed by no line. *)
Fixpoint text_lines (text : str) : list str :=
  match text with
  | [] => []
  | c :: text' =>
      if c =? 10 then [] :: text_lines text'
      else match text_lines text' with
           | l :: ls => (c :: l) :: ls
           | [] => [[c]]
           end
  end.

(** Two digits of the clock. *)
Definition two_digits (buf : list Z) (n : Z) : option (list Z) :=
  buf ← (if n <? 10 then str_append buf (lit "0") else Some buf);
  str_append_uint buf n.
Definition time_string (hour minute month day year : Z) : option (list Z) :=
  s ← str_copy (replicate 20 0) (lit "");
  s ← two_digits s hour;
  s ← str_append s (lit ":");
  s ← two_digits s minute;
  s ← str_append s (lit " ");
  s ← two_digits s month;
  s ← str_append s (lit "/");
  s ← two_digits s day;
  s ← str_append s (lit "/");
  str_append_uint s (Z.rem year 100).

Section draw.
  Context {W : Type} `{!Painter W} `{!Kernel W}.
  Abbreviation D := (desk W).

Definition rounded_rect (x y w h r color : Z) : M D unit :=
  rect_at (x ⊕ r) y (w ⊖ 2 * r) h color;;
  rect_at x (y ⊕ r) w (h ⊖ 2 * r) color;;
  circle_at (x ⊕ r) (y ⊕ r) r color;;
  circle_at (x ⊕ w ⊖ r) (y ⊕ r) r color;;
  circle_at (x ⊕ r) (y ⊕ h ⊖ r) r color;;
  circle_at (x ⊕ w ⊖ r) (y ⊕ h ⊖ r) r color.

(** The lines one under the other; nothing is drawn for an empty one. *)
Fixpoint draw_text_lines (ls : list str) (x y color : Z) : M D unit :=
  match ls with
  | [] => mret tt
  | l :: ls' => (if bool_decide (l = []) then mret tt else text_at l x y color);; draw_text_lines ls' x (y ⊕ 18) color
  end.
Definition gui_draw_text_fast (a : list Z) (x y color : Z) : M D unit :=
  t ← of_option (text_of a); draw_text_lines (text_lines t) x y color.

Fixpoint draw_entries (items : list (string * Z)) (mx current_y : Z) : M D Z :=
  match items with
  | [] => mret current_y
  | (label, color) :: items' =>
      text_at (chars label) (mx ⊕ 45) (current_y ⊕ 8) MENU_TEXT_MAIN;;
      rect_at (mx ⊕ 10) (current_y ⊕ 5) 20 20 color;;
      draw_entries items' mx (current_y ⊕ 32)
  end.
Fixpoint draw_sections (sections : list (Z * list (string * Z))) (mx mw current_y : Z) : M D unit :=
  match sections with
  | [] => mret tt
  | (n, items) :: sections' =>
      rect_at (mx ⊕ 5) current_y (mw ⊖ 10) (n * 30 ⊕ 2 * 8) MENU_SECTION_BG;;
      rect_at (mx ⊕ 5) (current_y ⊕ 8 ⊖ 2) (mw ⊖ 10) 1 MENU_SEPARATOR;;
      current_y ← draw_entries items mx (current_y ⊕ 8);
      draw_sections sections' mx mw (current_y ⊕ 8)
  end.
Definition gui_draw_start_menu (r : rect) : M D unit :=
  let mx := rx r in
  let my := ry r in
  let mw := rw r in
  let mh := rh r in
  rect_at mx my mw mh MENU_BG_WHITE;;
  rect_at mx my mw 1 MENU_BORDER;;
  rect_at mx my 1 mh MENU_BORDER;;
  rect_at (mx ⊕ mw ⊖ 1) my 1 mh MENU_BORDER;;
  rect_at mx (my ⊕ mh ⊖ 1) mw 1 MENU_BORDER;;
  draw_sections menu_sections mx mw (my ⊕ 10).

Definition gui_draw_wallpaper : M D unit :=
  d ← get; rect_at 0 0 (p_width (g_world d)) (p_height (g_world d)) DESKTOP_COLOR.

(** The button [i] of the taskbar, which takes its text from the window in slot [i]. *)
Definition draw_taskbar_button (i fb_w : Z) (at_ : Z * Z) : M D (Z * Z) :=
  d ← get;
  button ← of_option (slot (taskbar_buttons d) i);
  w ← get_window i;
  text ← of_option (str_copy (tb_text button) (w_title w));
  l ← of_option (set_slot (taskbar_buttons d) i (with_tb_text text button));
  modify (with_taskbar_buttons l);;
  let button_color := match tb_state button with
    | BUTTON_STATE_NORMAL => 0x60000000 | BUTTON_STATE_HOVER => 0x80000000 | BUTTON_STATE_PRESSED => 0xA0000000 end in
  let '(button_x, button_y) :=
    if fb_w ⊖ TIME_WIDTH <? fst at_ ⊕ TASKBAR_BUTTON_WIDTH then (100, snd at_ ⊕ (TASKBAR_BUTTON_HEIGHT ⊕ 2)) else at_ in
  rect_at (button_x ⊕ 1) (button_y ⊕ 1) (TASKBAR_BUTTON_WIDTH ⊖ 2) (TASKBAR_BUTTON_HEIGHT ⊖ 2) button_color;;
  rect_at button_x button_y TASKBAR_BUTTON_WIDTH 1 0x80000000;;
  rect_at button_x button_y 1 TASKBAR_BUTTON_HEIGHT 0x80000000;;
  rect_at (button_x ⊕ TASKBAR_BUTTON_WIDTH ⊖ 1) button_y 1 TASKBAR_BUTTON_HEIGHT 0x40000000;;
  rect_at button_x (button_y ⊕ TASKBAR_BUTTON_HEIGHT ⊖ 1) TASKBAR_BUTTON_WIDTH 1 0x40000000;;
  gui_draw_text_fast text (button_x ⊕ 5) (button_y ⊕ 2) 0xFFFFFFFF;;
  mret (button_x ⊕ (TASKBAR_BUTTON_WIDTH ⊕ TASKBAR_BUTTON_SPACING), button_y).
Fixpoint draw_taskbar_buttons (n : nat) (i fb_w : Z) (at_ : Z * Z) : M D unit :=
  match n with
  | O => mret tt
  | S n' => at_ ← draw_taskbar_button i fb_w at_; draw_taskbar_buttons n' (i + 1) fb_w at_
  end.
Definition gui_draw_taskbar : M D unit :=
  d ← get;
  let fb_w := p_width (g_world d) in
  rect_at 0 0 fb_w 30 0x80000000;;
  draw_taskbar_buttons (Z.to_nat (taskbar_button_count d)) 0 (i32 fb_w) (85, 5);;
  '(hour, minute, month, day, year) ← on_world k_time;
  time_str ← of_option (time_string hour minute month day year);
  n ← of_option (str_len time_str);
  gui_draw_text_fast time_str (i32 fb_w - n * 8 - 10) (5 + 2) 0xFFFFFFFF.

(** The three buttons in the title of a window. *)
Definition title_button (x y normal below_cursor : Z) : M D unit :=
  d ← get;
  circle_at (x ⊕ 8) (y ⊕ 8) 8
    (if gui_is_point_in_rect (fst (gui_cursor d)) (snd (gui_cursor d)) (mk_rect x y 16 16) then below_cursor else normal).
Definition draw_title (w : gui_window) : M D unit :=
  let r := w_rect w in
  let x := rx r in
  let y := ry r in
  rect_at x y (rw r) WINDOW_TITLE_HEIGHT (if truthy (w_focused w) then 0xFF1A252F else 0xFF2C3E50);;
  rect_at x (y ⊕ WINDOW_TITLE_HEIGHT) (rw r) 1 0xFF000000;;
  n ← of_option (str_len (w_title w));
  gui_draw_text_fast (w_title w) (x ⊕ Z.quot (rw r ⊖ n * 8) 2) (y ⊕ 8) 0xFFF0F0F0;;
  let minimize_x := x ⊕ rw r ⊖ 80 in
  let button_y := y ⊕ 4 in
  title_button minimize_x button_y 0xFF3498DB 0xFF2980B9;;
  line_at (minimize_x ⊕ 3) (button_y ⊕ 11) (minimize_x ⊕ 13) (button_y ⊕ 11) 0xFFFFFFFF;;
  let maximize_x := x ⊕ rw r ⊖ 55 in
  title_button maximize_x button_y 0xFF2ECC71 0xFF27AE60;;
  (if decide (w_state w = WINDOW_STATE_MAXIMIZED) then
     rect_at (maximize_x ⊕ 3) (button_y ⊕ 3) 6 6 0xFFFFFFFF;;
     rect_at (maximize_x ⊕ 7) (button_y ⊕ 7) 6 6 0xFFFFFFFF
   else
     rect_at (maximize_x ⊕ 4) (button_y ⊕ 4) 8 8 0xFFFFFFFF;;
     line_at (maximize_x ⊕ 6) (button_y ⊕ 6) (maximize_x ⊕ 10) (button_y ⊕ 2) 0xFFFFFFFF;;
     line_at (maximize_x ⊕ 10) (button_y ⊕ 2) (maximize_x ⊕ 12) (button_y ⊕ 4) 0xFFFFFFFF);;
  let close_x := x ⊕ rw r ⊖ 30 in
  title_button close_x button_y 0xFFE74C3C 0xFFC0392B;;
  let center_x := close_x ⊕ 8 in
  let center_y := button_y ⊕ 8 in
  line_at (center_x ⊖ 3) (center_y ⊖ 3) (center_x ⊕ 3) (center_y ⊕ 3) 0xFFFFFFFF;;
  line_at (center_x ⊕ 3) (center_y ⊖ 3) (center_x ⊖ 3) (center_y ⊕ 3) 0xFFFFFFFF.

(** What a window shows below its title, by the title. *)
Definition draw_content (w : gui_window) (bg : rect) : M D unit :=
  let p := w_program w in
  terminal_ ← of_option (titled w "Terminal");
  if (terminal_ : bool) then
    rounded_rect (rx bg) (ry bg) (rw bg) (rh bg) 5 0xFF1E1E1E;;
    (if terminal_state p =? NONE then mret tt
     else gui_terminal_draw (terminal_state p) (w_rect w) (rx bg ⊕ 12) (ry bg ⊕ 12));;
    needs_redraw
  else
    menu ← of_option (titled w "");
    if (menu : bool) then gui_draw_start_menu (w_rect w) else
    settings ← of_option (titled w "Settings");
    if (settings : bool) then gui_draw_settings (w_rect w) else
    editor ← of_option (titled w "Text Editor");
    if (editor : bool) then
      (if text_editor_state p =? NONE then mret tt else gui_draw_text_editor (text_editor_state p) (w_rect w)) else
    manager ← of_option (titled w "File Manager");
    if (manager : bool) then
      (if file_manager_state p =? NONE then mret tt else gui_draw_file_manager (file_manager_state p) (w_rect w))
    else gui_draw_text_fast (w_content w) (rx bg ⊕ 10) (ry bg ⊕ 10) 0xFF333333.

Definition gui_draw_window (i : Z) : M D unit :=
  if i =? NONE then mret tt else
  w ← get_window i;
  if negb (truthy (w_visible w)) || bool_decide (w_state w = WINDOW_STATE_MINIMIZED) then mret tt else
  let r := w_rect w in
  rounded_rect (rx r) (ry r) (rw r) (rh r) 12 0xFFADD8E6;;
  menu ← of_option (titled w "");
  (if (menu : bool) then mret tt else draw_title w);;
  draw_content w (if (menu : bool) then mk_rect (rx r ⊕ 1) (ry r ⊕ 1) (rw r ⊖ 2) (rh r ⊖ 2)
                  else mk_rect (rx r) (ry r ⊕ WINDOW_TITLE_HEIGHT) (rw r) (rh r ⊖ WINDOW_TITLE_HEIGHT));;
  if (menu : bool) then mret tt else
    rect_at (rx r) (ry r) (rw r) 3 0xFFA0A0C0;;
    rect_at (rx r) (ry r) 3 (rh r) 0xFFA0A0C0;;
    rect_at (rx r ⊕ rw r ⊖ 3) (ry r) 3 (rh r) 0xFFA0A0C0;;
    rect_at (rx r) (ry r ⊕ rh r ⊖ 3) (rw r) 3 0xFFA0A0C0.

Definition gui_draw_button (i : Z) : M D unit :=
  d ← get;
  b ← of_option (slot (buttons d) i);
  let '(button_color, button_text_color) := match b_state b with
    | BUTTON_STATE_PRESSED => (0xFFBDC3C7, 0xFF1A252F)
    | BUTTON_STATE_HOVER => (0xFFD5DBDB, 0xFF2C3E50)
    | BUTTON_STATE_NORMAL => (0xFFECF0F1, 0xFF2C3E50)
    end in
  let r := b_rect b in
  start ← of_option (str_equals (b_text b) (lit "Start"));
  (if (start : bool) then rect_at (rx r) (ry r) (rw r) (rh r) button_color
   else rounded_rect (rx r) (ry r) (rw r) (rh r) 6 button_color);;
  n ← of_option (str_len (b_text b));
  gui_draw_text_fast (b_text b) (rx r ⊕ Z.quot (rw r ⊖ n * 8) 2) (ry r ⊕ Z.quot (rh r ⊖ 16) 2) button_text_color.

Definition gui_redraw_region (region : rect) : M D unit :=
  rect_at (rx region) (ry region) (rw region) (rh region) DESKTOP_COLOR;;
  d ← get;
  for_to 0 (window_count d) (λ i,
    w ← get_window i;
    if truthy (w_visible w) && negb (bool_decide (w_state w = WINDOW_STATE_MINIMIZED)) && overlap (w_rect w) region
    then gui_draw_window i else mret tt);;
  for_to 0 (button_count d) (λ i,
    d ← get;
    b ← of_option (slot (buttons d) i);
    if overlap (b_rect b) region then gui_draw_button i else mret tt).

(** A frame, and the timer's call. *)
Definition draw_frame : M D unit :=
  d ← get;
  if truthy (gui_needs_redraw (flags d)) then
    gui_draw_wallpaper;;
    gui_draw_taskbar;;
    for_to 0 (window_count d) gui_draw_window;;
    for_to 0 (button_count d) gui_draw_button;;
    set_flag (with_gui_needs_redraw 0)
  else if 0 <? dirty_rect_count d then
    for_to 0 (dirty_rect_count d) (λ i, r ← of_option (slot (dirty_rects d) i); gui_redraw_region r);;
    gui_clear_dirty_rects
  else mret tt.

Definition gui_run : M D unit :=
  d ← get;
  if negb (truthy (gui_running (flags d))) then mret tt else
  current_time ← on_world k_ticks;
  if u64 (current_time - last_frame_time (flags d)) <? FRAME_TIME_MS then mret tt else
  set_flag (with_last_frame_time current_time);;
  set_flag (with_gui_frame_count (i32 (gui_frame_count (flags d) + 1)));;
  if negb (truthy (gui_needs_redraw (flags d)) || truthy (mouse_cursor_needs_redraw (flags d)) || (0 <? dirty_rect_count d))
  then mret tt else
  draw_frame;;
  on_world k_draw_cursor;;
  d ← get;
  (if truthy (p_double (g_world d)) then
     on_world p_swap;;
     set_flag (with_swap_counter (if 60 <=? swap_counter (flags d) + 1 then 0 else swap_counter (flags d) + 1))
   else mret tt);;
  set_flag (with_gui_needs_redraw 0);;
  set_flag (with_mouse_cursor_needs_redraw 0).

Definition gui_timer_callback : M D unit :=
  d ← get; if truthy (gui_running (flags d)) then gui_run else mret tt.

(** Not called. *)
Definition gui_draw_start_menu_old (w : gui_window) : M D unit :=
  menu ← of_option (titled w "");
  let r := w_rect w in
  if negb menu then mret tt else
  rect_at (rx r) (ry r) (rw r) (rh r) 0xFF202020;;
  rect_at (rx r ⊕ 1) (ry r ⊕ 1) (rw r ⊖ 2) (rh r ⊖ 2) 0xFF303030.
End draw.
