(* ===== verification/Shell.v ===== *)
(** * The shell: its line editor and its parser, [shell/acsh.c] and [shell/parser.c]

    The line is an array of 256 characters with a position in it, the history an array of
    fifty such arrays.  The commands, the editor and the desktop are the class [Session]; the
    arguments of a command are passed as a string. *)

From Stdlib Require Import ZArith Lia String.
From stdpp Require Import base list numbers.
From S2P Require Import Prelude CString Buffer Font Display Console Window.
Open Scope Z_scope.
Set Default Goal Selector "!".

Definition MAX_INPUT_LEN : Z := 256.
Definition MAX_HISTORY : Z := 50.
Definition MAX_CHAINED_CMDS : Z := 8.

(** The names of [commands]; [history] is run here. *)
Definition command_names : list String.string :=
  ["echo"; "clear"; "help"; "modules"; "fetch"; "cpuinfo"; "calendar"; "date"; "uptime"; "time"; "cat"; "ls"; "cd";
   "mkdir"; "touch"; "mount"; "poweroff"; "reboot"; "shutdown"; "gui"; "history"; "cls"; "kedit"; "ping"; "insmod"; "rmmod"]%string.
Definition CMD_HISTORY : Z := 20.
Definition console_find_cmd (name : list Z) : option (option Z) := find_cmd 0 command_names name.

(** The colours by their names. *)
Definition color_names : list (String.string * Z) :=
  [("black", black); ("white", white); ("red", red); ("green", green); ("blue", blue); ("cyan", cyan); ("yellow", yellow);
   ("purple", purple)]%string.
Fixpoint find_color (l : list (String.string * Z)) (a : list Z) : option (option Z) :=
  match l with
  | [] => Some None
  | (n, c) :: l' => b ← begins a (lit n); if (b : bool) then Some (Some c) else find_color l' a
  end.
Definition parse_color (color_str : list Z) : option (option Z) := p ← skip_blanks color_str; find_color color_names p.

(** ** Moving characters in the line *)

(** [for (i = j; n > 0; i--, n--) a[i + 1] = a[i];] *)
Fixpoint open_gap (n : nat) (j : Z) (a : list Z) : option (list Z) :=
  match n with
  | O => Some a
  | S n' => v ← arr_get a j; a ← arr_set a (j + 1) v; open_gap n' (j - 1) a
  end.
(** [for (; i <= str_len(a); i++) a[i] = a[i + 1];] *)
Fixpoint close_gap (fuel : nat) (i : Z) (a : list Z) : option (list Z) :=
  match fuel with
  | O => None
  | S n =>
      len ← str_len a;
      if i <=? len then v ← arr_get a (i + 1); a ← arr_set a i v; close_gap n (i + 1) a else Some a
  end.
(** A character goes into the line when it has room. *)
Definition insert_at (c : Z) (a : list Z) (pos : Z) : option (list Z * Z) :=
  len ← str_len a;
  if len <? MAX_INPUT_LEN - 1 then
    a ← open_gap (Z.to_nat (len - pos + 1)) len a;
    a ← arr_set a pos c;
    Some (a, pos + 1)
  else Some (a, pos).

(** There is [&&] among these characters. *)
Fixpoint has_and (s : list Z) : bool :=
  match s with
  | x :: s' => match s' with y :: _ => ((x =? 38) && (y =? 38)) || has_and s' | [] => false end
  | [] => false
  end.

(** ** Taking a line apart at [&&] *)

(** A command goes into [row] up to the next [&&]: what is left, the row, the number of
    characters and whether it ended with [&&]. *)
Fixpoint chain_row (p row : list Z) (pos : Z) : option (list Z * list Z * Z * bool) :=
  match p with
  | [] => None
  | c :: p' =>
      if (c =? 0) || (MAX_INPUT_LEN - 1 <=? pos) then Some (p, row, pos, false) else
      d ← (if c =? 38 then arr_get p' 0 else Some 0);
      if (c =? 38) && (d =? 38) then row ← arr_set row pos 0; Some (drop 1 p', row, pos, true)
      else row ← arr_set row pos c; chain_row p' row (pos + 1)
  end.
(** The number of commands and the rows; [n] is the number of rows left. *)
Fixpoint chain_rows (n : nat) (rows : list (list Z)) (count : Z) (p : list Z) : option (Z * list (list Z)) :=
  match n with
  | O => Some (count, rows)
  | S n' =>
      c ← arr_get p 0;
      if c =? 0 then Some (count, rows) else
      p ← skip_blanks p;
      row ← rows !! Z.to_nat count;
      '(p, row, pos, ended) ← chain_row p row 0;
      let rows := <[Z.to_nat count := row]> rows in
      let count := if (ended : bool) then count + 1 else count in
      c ← arr_get p 0;
      if (c =? 0) || (MAX_INPUT_LEN - 1 <=? pos) then
        row ← rows !! Z.to_nat count;
        row ← arr_set row pos 0;
        Some (count + 1, <[Z.to_nat count := row]> rows)
      else chain_rows n' rows count p
  end.
(** The blanks at the end of a row are cut off, from the [n]-th character down. *)
Fixpoint trim_row (n : nat) (row : list Z) : option (list Z) :=
  match n with
  | O => Some row
  | S n' => c ← row !! n'; if c =? 32 then trim_row n' (<[n' := 0]> row) else Some row
  end.

(** What the shell uses: whether the desktop runs, the editor, the working directory, and the
    commands by their number and arguments. *)
Class Session (W : Type) := {
  sn_gui_running : W → Z;
  sn_in_kedit : W → Z;
  sn_kedit_key : Z → M W unit;      (** [kedit_handle_key] *)
  sn_cwd : W → list Z;
  sn_command : Z → str → M W unit;
}.

Record shell (W : Type) := mk_shell {
  input_buffer : list Z;
  input_pos : Z;
  input_start_x : Z;
  boot_completed : Z;
  command_history : list (list Z);
  history_count : Z;
  history_pos : Z;
  sh_world : W;
}.
Arguments mk_shell {W}.
Arguments input_buffer {W}.
Arguments input_pos {W}.
Arguments input_start_x {W}.
Arguments boot_completed {W}.
Arguments command_history {W}.
Arguments history_count {W}.
Arguments history_pos {W}.
Arguments sh_world {W}.

Section shell.
  Context {W : Type} `{!TextScreen W} `{!Session W}.
  Abbreviation S := (shell W).

Definition with_line (buf : list Z) (pos : Z) (s : S) : S :=
  mk_shell buf pos (input_start_x s) (boot_completed s) (command_history s) (history_count s) (history_pos s) (sh_world s).
Definition with_start (x : Z) (s : S) : S :=
  mk_shell (input_buffer s) (input_pos s) x (boot_completed s) (command_history s) (history_count s) (history_pos s) (sh_world s).
Definition with_history (h : list (list Z)) (n : Z) (s : S) : S :=
  mk_shell (input_buffer s) (input_pos s) (input_start_x s) (boot_completed s) h n (history_pos s) (sh_world s).
Definition with_history_pos (n : Z) (s : S) : S :=
  mk_shell (input_buffer s) (input_pos s) (input_start_x s) (boot_completed s) (command_history s) (history_count s) n (sh_world s).
Definition with_sh_world (w : W) (s : S) : S :=
  mk_shell (input_buffer s) (input_pos s) (input_start_x s) (boot_completed s) (command_history s) (history_count s) (history_pos s) w.
Definition on_world {B} (m : M W B) : M S B := zoom sh_world with_sh_world m.
Definition print (t : str) (color : Z) : M S unit := on_world (tx_string t color).

(** ** The history *)

(** [for (i = i; i < 50; i++) str_copy(h[i - 1], h[i]);], [n] times *)
Fixpoint shift_history (n : nat) (i : nat) (h : list (list Z)) : option (list (list Z)) :=
  match n with
  | O => Some h
  | Datatypes.S n' =>
      dst ← h !! (i - 1)%nat; src ← h !! i; row ← str_copy dst src;
      shift_history n' (i + 1) (<[(i - 1)%nat := row]> h)
  end.
Definition add_to_history (command : list Z) : M S unit :=
  n ← of_option (str_len command);
  if n =? 0 then mret tt else
  s ← get;
  let h := command_history s in
  let count := history_count s in
  same ← of_option (if 0 <? count then last ← h !! Z.to_nat (count - 1); str_equals last command else Some false);
  if (same : bool) then mret tt else
  if count <? MAX_HISTORY then
    row ← of_option (row ← h !! Z.to_nat count; str_copy row command);
    modify (with_history (<[Z.to_nat count := row]> h) (count + 1))
  else
    h ← of_option (shift_history 49 1 h);
    row ← of_option (row ← h !! 49%nat; str_copy row command);
    modify (with_history (<[49%nat := row]> h) count).
Definition get_history_command (pos : Z) (s : S) : option (list Z) :=
  if (0 <=? pos) && (pos <? history_count s) then command_history s !! Z.to_nat pos else None.
Definition reset_history_pos : M S unit := modify (with_history_pos (-1)).

Definition cmd_history : M S unit :=
  s ← get;
  if history_count s =? 0 then print (chars "No commands in history." ++ [10]) yellow else
  print (chars "Command history:" ++ [10]) cyan;;
  for_to 0 (history_count s) (λ i,
    num_buf ← of_option (b ← str_copy (replicate 8 0) (lit ""); b ← str_append_uint b (i + 1); str_append b (lit ": "));
    print (c_text num_buf) green;;
    row ← of_option (command_history s !! Z.to_nat i);
    print (c_text row) gray_70;;
    print [10] gray_70).

(** ** Commands *)

Definition swap_unless_gui : M S unit :=
  s ← get; if truthy (sn_gui_running (sh_world s)) then mret tt else on_world tx_swap.
Definition swap_if_double : M S unit :=
  s ← get;
  if negb (truthy (sn_gui_running (sh_world s))) && truthy (tx_double (sh_world s)) then on_world tx_swap else mret tt.

Definition console_execute (input : list Z) : M S unit :=
  input ← of_option (skip_blanks input);
  c ← of_option (arr_get input 0);
  if c =? 0 then mret tt else
  n ← of_option (word_len input);
  let len := if 64 <=? n then 63 else n in
  cmd_name ← of_option (copy_chars (Z.to_nat len) 0 0 (replicate 64 0) input);
  cmd_name ← of_option (arr_set cmd_name len 0);
  args ← of_option (skip_blanks (drop (Z.to_nat n) input));
  cmd ← of_option (console_find_cmd cmd_name);
  match cmd with
  | Some k =>
      on_world (tx_putchar 10 gray_70);;
      on_world (tx_putchar 10 gray_70);;
      (if k =? CMD_HISTORY then cmd_history else on_world (sn_command k (c_text args)));;
      swap_unless_gui
  | None =>
      on_world (tx_putchar 10 gray_70);;
      print (c_text cmd_name) red;;
      print (chars ": command not found") red;;
      swap_unless_gui
  end.

(** The array of rows is on the stack, which holds what was there before. *)
Context (stack : list (list Z)).

Definition run_rows (count : Z) (rows : list (list Z)) : M S unit :=
  for_to 0 count (λ i,
    row ← of_option (row ← rows !! Z.to_nat i; n ← str_len row; trim_row (Z.to_nat n) row);
    c ← of_option (arr_get row 0);
    if c =? 0 then mret tt else
    console_execute row;;
    if i <? count - 1 then print [10] gray_70 else mret tt).
Definition parse_and_execute_chained (input : list Z) : M S unit :=
  c ← of_option (arr_get input 0);
  if c =? 0 then mret tt else
  '(count, rows) ← of_option (chain_rows (Z.to_nat MAX_CHAINED_CMDS) stack 0 input);
  run_rows count rows.

(** ** The line editor *)

Definition redraw_input_line : M S unit :=
  s ← get;
  let w := sh_world s in
  let x := u32 (input_start_x s) in
  on_world (tx_move x (snd (tx_cursor w)));;
  on_world (tx_rect x (snd (tx_cursor w)) (u32 (tx_width w - x)) (u32 (fm_get_char_height * tx_scale w)) CONSOLESCREEN_BG_COLOR);;
  print (c_text (input_buffer s)) gray_70;;
  t ← get;
  on_world (tx_move (u32 (input_start_x s + input_pos s * fm_get_char_width * tx_scale w)) (snd (tx_cursor (sh_world t))));;
  on_world tx_cursor_draw;;
  swap_if_double.

(** The cursor goes by [d] characters on the screen. *)
Definition shift_cursor (d : Z) : M S unit :=
  s ← get;
  let w := sh_world s in
  on_world (tx_move (u32 (fst (tx_cursor w) + d * (fm_get_char_width * tx_scale w))) (snd (tx_cursor w)));;
  on_world tx_cursor_draw;;
  swap_if_double.

(** A command of the history takes the place of the line. *)
Definition recall (pos : Z) : M S unit :=
  modify (with_history_pos pos);;
  s ← get;
  match get_history_command pos s with
  | None => mret tt
  | Some cmd =>
      buf ← of_option (str_copy (input_buffer s) cmd);
      n ← of_option (str_len cmd);
      modify (with_line buf n);;
      redraw_input_line
  end.

Definition key_enter : M S unit :=
  s ← get;
  (if 0 <? input_pos s then
     buf ← of_option (arr_set (input_buffer s) (input_pos s) 0);
     modify (with_line buf (input_pos s));;
     add_to_history buf;;
     reset_history_pos;;
     (if has_and (take (Z.to_nat (input_pos s)) buf) then parse_and_execute_chained buf else console_execute buf);;
     s ← get;
     buf ← of_option (arr_set (input_buffer s) 0 0);
     modify (with_line buf 0)
   else mret tt);;
  on_world tx_reset_blink;;
  s ← get;
  (if negb (truthy (sn_gui_running (sh_world s))) && truthy (boot_completed s)
   then on_world (tx_prompt (sn_cwd (sh_world s))) else mret tt);;
  s ← get;
  modify (with_start (i32 (fst (tx_cursor (sh_world s)))));;
  swap_if_double;;
  swap_unless_gui.

Definition key_tab : M S unit :=
  for_to 0 4 (λ _,
    s ← get;
    '(buf, pos) ← of_option (insert_at 32 (input_buffer s) (input_pos s));
    modify (with_line buf pos));;
  redraw_input_line;;
  on_world tx_reset_blink.

Definition key_char (c : Z) : M S unit :=
  s ← get;
  len ← of_option (str_len (input_buffer s));
  (if len <? MAX_INPUT_LEN - 1 then
     '(buf, pos) ← of_option (insert_at c (input_buffer s) (input_pos s));
     modify (with_line buf pos);;
     redraw_input_line
   else on_world (tx_putchar c gray_70));;
  on_world tx_reset_blink.

Definition console_handle_key (c : Z) : M S unit :=
  s ← get;
  if truthy (sn_gui_running (sh_world s)) then mret tt else
  if truthy (sn_in_kedit (sh_world s)) then on_world (sn_kedit_key c) else
  on_world tx_cursor_c;;
  s ← get;
  if c =? 10 then key_enter else
  if c =? 13 then
    on_world (tx_putchar 10 gray_70);;
    buf ← of_option (arr_set (input_buffer s) (input_pos s) 10);
    modify (with_line buf (input_pos s + 1));;
    on_world tx_cursor_draw
  else if c =? 3 then
    buf ← of_option (arr_set (input_buffer s) 0 0);
    modify (with_line buf 0);;
    on_world tx_reset_blink;;
    s ← get;
    on_world (tx_prompt (sn_cwd (sh_world s)))
  else if c =? 8 then
    (if 0 <? input_pos s then
       buf ← of_option (close_gap 300 (input_pos s - 1) (input_buffer s));
       modify (with_line buf (input_pos s - 1));;
       redraw_input_line
     else mret tt);;
    on_world tx_reset_blink
  else if c =? 9 then key_tab
  else if c =? 0x80 then
    (if history_pos s =? -1 then
       buf ← of_option (arr_set (input_buffer s) (input_pos s) 0);
       modify (with_line buf (input_pos s))
     else mret tt);;
    (if history_pos s <? history_count s - 1 then recall (history_pos s + 1) else mret tt);;
    on_world tx_cursor_draw
  else if c =? 0x81 then
    (if 0 <? history_pos s then recall (history_pos s - 1)
     else if history_pos s =? 0 then
       modify (with_history_pos (-1));;
       buf ← of_option (arr_set (input_buffer s) 0 0);
       modify (with_line buf 0);;
       redraw_input_line
     else mret tt);;
    on_world tx_cursor_draw
  else if c =? 0x82 then
    if 0 <? input_pos s then modify (with_line (input_buffer s) (input_pos s - 1));; shift_cursor (-1) else mret tt
  else if c =? 0x83 then
    len ← of_option (str_len (input_buffer s));
    if input_pos s <? len then modify (with_line (input_buffer s) (input_pos s + 1));; shift_cursor 1 else mret tt
  else if c =? 0x84 then modify (with_line (input_buffer s) 0);; redraw_input_line
  else if c =? 0x85 then
    len ← of_option (str_len (input_buffer s));
    modify (with_line (input_buffer s) len);;
    redraw_input_line
  else if (32 <=? c) && (c <=? 126) then
    (if history_pos s =? -1 then mret tt else reset_history_pos);;
    key_char c
  else mret tt.

Definition console_set_input_start_x : M S unit := modify (λ s, with_start (i32 (fst (tx_cursor (sh_world s)))) s).
End shell.

(** ** The line as a string *)

Lemma open_gap_run n lo (a : list Z) : (lo + n < length a)%nat →
  ∃ a', open_gap n (Z.of_nat (lo + n) - 1) a = Some a' ∧ length a' = length a ∧
    ∀ k, a' !! k = if decide (lo < k ≤ lo + n)%nat then a !! (k - 1)%nat else a !! k.
Proof.
  revert a. induction n as [|n IH]; intros a Hl; cbn [open_gap].
  - exists a. split_and!; [done..|]. intros k. by rewrite decide_False by lia.
  - replace (Z.of_nat (lo + S n) - 1) with (Z.of_nat (lo + n)) by lia.
    destruct (arr_get_inside a (Z.of_nat (lo + n))) as (v & -> & Hv); [lia|]. cbn [mbind option_bind]. rewrite Nat2Z.id in Hv.
    rewrite arr_set_inside by lia. cbn [mbind option_bind]. replace (Z.to_nat (Z.of_nat (lo + n) + 1)) with (lo + S n)%nat by lia.
    destruct (IH (<[(lo + S n)%nat := v]> a)) as (a' & -> & Hl' & Hk); [rewrite length_insert; lia|].
    exists a'. split_and!; [done|by rewrite Hl', length_insert|]. intros k. rewrite Hk. destruct (decide (k = lo + S n)%nat) as [->|].
    + rewrite decide_False, decide_True, list_lookup_insert_eq by lia. rewrite <-Hv. f_equal. lia.
    + destruct (decide (lo < k ≤ lo + n)%nat).
      * rewrite decide_True, list_lookup_insert_ne by lia. done.
      * rewrite decide_False, list_lookup_insert_ne by lia. done.
Qed.

Lemma insert_at_run c (a s : list Z) pos : text_in 256 a s → (pos ≤ length s)%nat → (length s < 255)%nat → is_char c →
  ∃ a', insert_at c a (Z.of_nat pos) = Some (a', Z.of_nat (S pos)) ∧ text_in 256 a' (take pos s ++ c :: drop pos s).
Proof.
  intros [Hl Ha] Hp Hs Hc. unfold insert_at. rewrite (str_len_holds _ _ Ha). cbn [mbind option_bind].
  unfold MAX_INPUT_LEN. rewrite (proj2 (Z.ltb_lt _ _)) by lia.
  destruct (open_gap_run (length s + 1 - pos) pos a) as (a1 & E & Hl1 & Hk); [lia|].
  replace (Z.to_nat (Z.of_nat (length s) - Z.of_nat pos + 1)) with (length s + 1 - pos)%nat by lia.
  replace (Z.of_nat (length s)) with (Z.of_nat (pos + (length s + 1 - pos)) - 1) by lia. rewrite E. cbn [mbind option_bind].
  rewrite arr_set_inside, Nat2Z.id by lia. cbn [mbind option_bind]. eexists. split; [do 2 f_equal; lia|].
  split; [rewrite length_insert; lia|]. apply holds_lookup in Ha as (Hf & Hi & H0). apply holds_lookup.
  rewrite length_app, length_take, Nat.min_l by done. cbn [length]. rewrite length_drop. split_and!.
  - apply Forall_app. split; [by apply Forall_take|]. constructor; [done|by apply Forall_drop].
  - intros i Hlt. destruct (decide (i = pos)) as [->|].
    + rewrite list_lookup_insert_eq, lookup_app_r by (rewrite ?length_take; lia). rewrite length_take, Nat.min_l, Nat.sub_diag by done. done.
    + rewrite list_lookup_insert_ne, Hk by done. destruct (decide (i < pos)%nat).
      * rewrite decide_False, lookup_app_l, lookup_take_lt by (rewrite ?length_take; lia). apply Hi. lia.
      * rewrite decide_True, lookup_app_r by (rewrite ?length_take; lia). rewrite length_take, Nat.min_l by done.
        destruct (i - pos)%nat as [|k] eqn:Ek; [lia|]. rewrite lookup_cons, lookup_drop, Hi by lia. f_equal. lia.
  - replace (pos + S (length s - pos))%nat with (length s + 1)%nat by lia. rewrite list_lookup_insert_ne, Hk by lia. rewrite decide_True by lia.
    by replace (length s + 1 - 1)%nat with (length s) by lia.
Qed.

Lemma close_gap_run v : ∀ fuel u x (a : list Z), text_in 256 a (u ++ x :: v) → (length v + 1 < fuel)%nat →
  ∃ a', close_gap fuel (Z.of_nat (length u)) a = Some a' ∧ text_in 256 a' (u ++ v).
Proof.
  induction v as [|y v IH]; intros fuel u x a Hin Hf; (destruct fuel as [|fuel]; [cbn in Hf; lia|]); cbn [close_gap];
    pose proof Hin as [Hl Ha]; pose proof (text_in_fits _ _ _ Hin) as Hfit; rewrite length_app in Hfit; cbn [length] in Hfit;
    rewrite (str_len_holds _ _ Ha); cbn [mbind option_bind]; rewrite length_app; cbn [length];
    rewrite (proj2 (Z.leb_le _ _)) by lia; apply holds_lookup in Ha as (Hc & Hi & H0); rewrite length_app in Hi, H0; cbn [length] in Hi, H0.
  - destruct (arr_get_inside a (Z.of_nat (length u) + 1)) as (w & -> & Hw); [lia|].
    replace (Z.to_nat (Z.of_nat (length u) + 1)) with (length u + 1)%nat in Hw by lia. rewrite Hw in H0. injection H0 as ->.
    cbn [mbind option_bind]. rewrite arr_set_inside, Nat2Z.id by lia. cbn [mbind option_bind].
    assert (Hh : holds (<[length u := 0]> a) u).
    { apply Forall_app in Hc as [Hc _]. apply holds_lookup. split_and!; [done| |by rewrite list_lookup_insert_eq by lia].
      intros i Hlt. rewrite list_lookup_insert_ne, Hi by lia. by rewrite lookup_app_l. }
    destruct fuel as [|fuel]; [cbn in Hf; lia|]. cbn [close_gap]. rewrite (str_len_holds _ _ Hh). cbn [mbind option_bind].
    rewrite (proj2 (Z.leb_gt _ _)) by lia. eexists. split; [done|]. rewrite app_nil_r. split; [by rewrite length_insert|done].
  - destruct (arr_get_inside a (Z.of_nat (length u) + 1)) as (w & -> & Hw); [lia|].
    replace (Z.to_nat (Z.of_nat (length u) + 1)) with (length u + 1)%nat in Hw by lia.
    rewrite Hi, lookup_app_r in Hw by lia. replace (length u + 1 - length u)%nat with 1%nat in Hw by lia. injection Hw as <-.
    cbn [mbind option_bind]. rewrite arr_set_inside, Nat2Z.id by lia. cbn [mbind option_bind].
    destruct (IH fuel (u ++ [y]) y (<[length u := y]> a)) as (a' & E & Hin').
    + split; [by rewrite length_insert|]. rewrite <-app_assoc. cbn [app]. apply Forall_app in Hc as [Hu Hv].
      apply list.Forall_cons in Hv as [_ [Hy Hv]%list.Forall_cons]. apply holds_lookup. rewrite length_app. cbn [length]. split_and!.
      * apply Forall_app. split; [done|]. constructor; [done|by constructor].
      * intros i Hlt. destruct (decide (i = length u)) as [->|].
        -- rewrite list_lookup_insert_eq, lookup_app_r, Nat.sub_diag by lia. done.
        -- rewrite list_lookup_insert_ne, Hi by lia. destruct (decide (i < length u)%nat); [by rewrite !lookup_app_l by lia|].
           rewrite !lookup_app_r by lia. by replace (i - length u)%nat with (S (i - length u - 1)) by lia.
      * by rewrite list_lookup_insert_ne by lia.
    + cbn [length] in Hf. lia.
    + rewrite length_app in E. cbn [length] in E. replace (Z.of_nat (length u) + 1) with (Z.of_nat (length u + 1)) by lia.
      rewrite E. exists a'. split; [done|]. by rewrite <-app_assoc in Hin'.
Qed.

(** ** The history as a list *)

(** The rows hold the commands of the list. *)
Definition history_in (h : list (list Z)) (l : list str) : Prop :=
  length h = 50%nat ∧ Forall (λ a : list Z, length a = 256%nat) h ∧ (length l ≤ 50)%nat ∧ Forall2 holds (take (length l) h) l.

Lemma history_row h l i t : history_in h l → l !! i = Some t → ∃ a, h !! i = Some a ∧ text_in 256 a t.
Proof.
  intros (Hh & Hs & Hl & H2) Ht. pose proof (lookup_lt_Some _ _ _ Ht).
  destruct (Forall2_lookup_r _ _ _ _ _ H2 Ht) as (a & Ha & Hhold). rewrite lookup_take_lt in Ha by done.
  exists a. split; [done|]. split; [|done]. by eapply (Forall_lookup_1 _ _ _ _ Hs).
Qed.

Lemma history_snoc h l row t : history_in h l → (length l < 50)%nat → text_in 256 row t →
  history_in (<[length l := row]> h) (l ++ [t]).
Proof.
  intros (Hh & Hs & Hl & H2) Hlt [Hrow Ht]. split_and!; [by rewrite length_insert|by apply Forall_insert|rewrite length_app; cbn; lia|].
  rewrite length_app. cbn [length]. replace (length l + 1)%nat with (S (length l)) by lia.
  rewrite (take_S_r _ _ row), take_insert_ge by (lia || (apply list_lookup_insert_eq; lia)).
  apply Forall2_app; [done|]. by constructor.
Qed.

(** Moving the rows from [x :: v] on up by one; the last of them stays twice. *)
Lemma shift_history_run v : ∀ u x h, history_in h (u ++ x :: v) → (length u + S (length v) = 50)%nat →
  ∃ h' z, shift_history (length v) (S (length u)) h = Some h' ∧ history_in h' (u ++ v ++ [z]).
Proof.
  induction v as [|y v IH]; intros u x h Hh Hl; cbn [length shift_history].
  - by exists h, x.
  - rewrite Nat.sub_succ, Nat.sub_0_r. destruct (history_row h _ (length u) x Hh) as (dst & -> & Hd); [by rewrite lookup_app_r, Nat.sub_diag by lia|].
    destruct (history_row h _ (S (length u)) y Hh) as (src & -> & Hsrc).
    { rewrite lookup_app_r by lia. by replace (S (length u) - length u)%nat with 1%nat by lia. }
    cbn [mbind option_bind]. destruct (text_in_copy 256 dst src y) as (row & -> & Hrow); [apply Hd|apply Hsrc|eapply text_in_fits, Hsrc|].
    cbn [mbind option_bind]. destruct (IH (u ++ [y]) y (<[length u := row]> h)) as (h' & z & E & Hh').
    + rewrite <-app_assoc. cbn [app]. destruct Hh as (Hh & Hs & Hle & H2). cbn [length] in *.
      assert (El : length (u ++ y :: y :: v) = length (u ++ x :: y :: v)) by (by rewrite !length_app).
      split_and!; [by rewrite length_insert|by apply Forall_insert; [|apply Hrow]|by rewrite El|]. rewrite El.
      rewrite take_insert_lt by (rewrite length_app; cbn; lia).
      replace (u ++ y :: y :: v) with (<[length u := y]> (u ++ x :: y :: v)) by (rewrite insert_app_r_alt, Nat.sub_diag by lia; done).
      apply Forall2_insert; [done|apply Hrow].
    + rewrite length_app. cbn [length] in *. lia.
    + rewrite length_app in E. cbn [length] in E. rewrite <-app_assoc in Hh'. exists h', z. split; [|done].
      rewrite <-E. f_equal; lia.
Qed.

(** The command goes behind the others, in the place of the oldest when there are fifty; not
    again when it is the last one. *)
Definition hist_add (t : str) (l : list str) : list str :=
  if bool_decide (t = []) || bool_decide (l !! (length l - 1)%nat = Some t) then l
  else if (length l <? 50)%nat then l ++ [t] else drop 1 l ++ [t].

(** ** Commands as strings *)

(** Without the blanks at the end, and at both ends. *)
Definition strip_end (s : str) : str := reverse (strip (reverse s)).
Definition trim (s : str) : str := strip_end (strip s).

Lemma cmd_match_run a b s t : holds a s → holds b t → cmd_match a b = Some (bool_decide (s = t)).
Proof.
  intros (Hs & ra & ->) (Ht & rb & ->). revert t Ht. induction Hs as [|x s Hx Hs IH]; intros [|y t] Ht; cbn [app cmd_match].
  - done.
  - apply list.Forall_cons in Ht as [Hy _]. cbn. rewrite (char_nonzero y Hy). done.
  - unfold truthy. rewrite (char_nonzero x Hx). done.
  - apply list.Forall_cons in Ht as [Hy Ht]. unfold truthy. rewrite (char_nonzero x Hx), (char_nonzero y Hy). cbn [negb andb].
    destruct (Z.eqb_spec x y) as [->|Hne]; cbn [negb].
    + rewrite IH by done. f_equal. apply bool_decide_ext. split; [by intros ->|by intros [= ->]].
    + symmetry. f_equal. apply bool_decide_eq_false_2. by intros [= -> _].
Qed.

(** The number of a name in a list. *)
Fixpoint index_of (i : Z) (names : list String.string) (t : str) : option Z :=
  match names with [] => None | n :: names' => if bool_decide (t = chars n) then Some i else index_of (i + 1) names' t end.

Lemma find_cmd_run a t names i : holds a t → Forall (λ n, Forall is_char (chars n)) names → find_cmd i names a = Some (index_of i names t).
Proof.
  intros Ha Hn. revert i. induction Hn as [|n names Hc Hn IH]; intros i; cbn; [done|].
  rewrite (cmd_match_run a (lit n) t (chars n)) by (done || by apply holds_lit). cbn. by destruct (bool_decide _).
Qed.

(** The text up to the first [&&], and what follows it; the pieces between them. *)
Fixpoint break_and (s : str) : str * option str :=
  match s with
  | [] => ([], None)
  | c :: s' =>
      match s' with
      | d :: s'' => if (c =? 38) && (d =? 38) then ([], Some s'') else let '(a, r) := break_and s' in (c :: a, r)
      | [] => ([c], None)
      end
  end.
Fixpoint split_and (n : nat) (s : str) : list str :=
  match n with
  | O => []
  | S n' => match break_and s with (a, Some r) => a :: split_and n' r | (a, None) => [a] end
  end.
Definition commands_of (s : str) : list str := split_and (S (length s)) s.

Lemma break_and_cons c d s : break_and (c :: d :: s) =
  if (c =? 38) && (d =? 38) then ([], Some s) else let '(a, r) := break_and (d :: s) in (c :: a, r).
Proof. done. Qed.

Lemma break_and_length s a r : break_and s = (a, Some r) → length s = (length a + 2 + length r)%nat.
Proof.
  revert a r. induction s as [|c s IH]; intros a r E; cbn in E; [done|]. destruct s as [|d s'']; [done|].
  destruct ((c =? 38) && (d =? 38)); [injection E as <- <-; done|]. destruct (break_and (d :: s'')) as [a' r'].
  injection E as <- ->. cbn [length]. specialize (IH a' r eq_refl). cbn [length] in IH. lia.
Qed.

Lemma break_and_none s a : break_and s = (a, None) → a = s.
Proof.
  revert a. induction s as [|c s IH]; intros a E; cbn in E; [congruence|]. destruct s as [|d s'']; [congruence|].
  destruct ((c =? 38) && (d =? 38)); [done|]. destruct (break_and (d :: s'')) as [a' r']. injection E as <- ->.
  f_equal. by apply IH.
Qed.

Lemma split_and_enough n s : (length s < n)%nat → split_and n s = commands_of s.
Proof.
  unfold commands_of. generalize (Nat.lt_succ_diag_r (length s)). generalize (S (length s)) as m. revert s.
  induction n as [|n IH]; intros s m Hm Hn; [lia|]. destruct m as [|m]; [lia|]. cbn. destruct (break_and s) as [a [r|]] eqn:E; [|done].
  apply break_and_length in E. f_equal. apply IH; lia.
Qed.

(** Leading blanks belong to the first piece. *)
Lemma strip_cons c s : c ≠ 32 → strip (c :: s) = c :: s.
Proof. intros H. cbn [strip]. by rewrite (proj2 (Z.eqb_neq c 32) H). Qed.

Lemma break_and_strip s : break_and (strip s) = (strip (break_and s).1, (break_and s).2).
Proof.
  induction s as [|c s IH]; [done|]. destruct (Z.eqb_spec c 32) as [->|Hc].
  - change (strip (32 :: s)) with (strip s). rewrite IH. destruct s as [|d s2]; [done|]. rewrite (break_and_cons 32).
    cbn [Z.eqb Pos.eqb andb]. by destruct (break_and (d :: s2)).
  - rewrite strip_cons by done. destruct s as [|d s2]; [by cbn [break_and fst snd]; rewrite strip_cons|]. rewrite break_and_cons.
    destruct ((c =? 38) && (d =? 38)); [done|]. destruct (break_and (d :: s2)) as [a r]. cbn [fst snd]. by rewrite strip_cons.
Qed.

(** A row takes the characters up to [&&], or all of them. *)
Lemma chain_row_run s : ∀ p row pos, holds p s → length row = 256%nat → (pos + length s ≤ 255)%nat →
  ∃ p' row', chain_row p row (Z.of_nat pos) = Some (p', row', Z.of_nat (pos + length (break_and s).1), bool_decide (is_Some (break_and s).2)) ∧
    length row' = 256%nat ∧ take (pos + length (break_and s).1) row' = take pos row ++ (break_and s).1 ∧
    match (break_and s).2 with
    | Some r => holds p' r ∧ row' !! (pos + length (break_and s).1)%nat = Some 0
    | None => p' !! 0%nat = Some 0
    end.
Proof.
  induction s as [|c s IH]; intros p row pos Hp Hrow Hpos; pose proof Hp as (Hs & rest & ->).
  - cbn. exists (0 :: rest), row. rewrite Nat.add_0_r, app_nil_r. by split_and!.
  - apply list.Forall_cons in Hs as [Hc Hs]. cbn [app chain_row]. cbn [length] in Hpos.
    rewrite (char_nonzero c Hc), (proj2 (Z.leb_gt _ _)) by (unfold MAX_INPUT_LEN; lia). cbn [orb].
    assert (Hnext : ∃ d, (if c =? 38 then arr_get (s ++ 0 :: rest) 0 else Some 0) = Some d ∧
      ((c =? 38) && (d =? 38) = match s with d' :: _ => (c =? 38) && (d' =? 38) | [] => false end)).
    { destruct (c =? 38); [|exists 0; split; [done|by destruct s]]. destruct s as [|d' s']; [by exists 0|]. by exists d'. }
    destruct Hnext as (d & -> & Hd). cbn [mbind option_bind]. rewrite Hd.
    assert (Hstep : ∀ v, arr_set row (Z.of_nat pos) v = Some (<[pos := v]> row)) by (intros; rewrite arr_set_inside, Nat2Z.id by lia; done).
    assert (Hgo : match s with d' :: _ => (c =? 38) && (d' =? 38) | [] => false end = false →
      break_and (c :: s) = (c :: (break_and s).1, (break_and s).2)).
    { cbn [break_and]. destruct s as [|d' s']; [done|]. intros ->. by destruct (break_and (d' :: s')). }
    destruct (match s with d' :: _ => (c =? 38) && (d' =? 38) | [] => false end) eqn:Eand.
    + destruct s as [|d' s']; [done|]. cbn [break_and]. rewrite Eand, Hstep. cbn [mbind option_bind fst snd length].
      rewrite Nat.add_0_r. do 2 eexists. split; [done|]. rewrite length_insert. split_and!; [done|by rewrite take_insert_ge, app_nil_r by lia|..].
      * apply holds_intro. by apply list.Forall_cons in Hs as [_ Hs].
      * apply list_lookup_insert_eq. lia.
    + rewrite Hgo, Hstep by done. cbn [mbind option_bind fst snd length].
      destruct (IH (s ++ 0 :: rest) (<[pos := c]> row) (pos + 1)%nat) as (p' & row' & E & Hl & Ht & Hm);
        [by apply holds_intro|by rewrite length_insert|lia|]. replace (Z.of_nat pos + 1) with (Z.of_nat (pos + 1)) by lia. rewrite E.
      replace (pos + S (length (break_and s).1))%nat with (pos + 1 + length (break_and s).1)%nat by lia.
      do 2 eexists. split; [done|]. split_and!; [done| |done]. rewrite Ht. replace (pos + 1)%nat with (S pos) by lia.
      rewrite (take_S_r _ _ c), take_insert_ge, <-app_assoc by (lia || (apply list_lookup_insert_eq; lia)). done.
Qed.

(** No [&&] is the last thing in the line. *)
Fixpoint no_end (n : nat) (s : str) : Prop :=
  match n with O => True | S n' => match break_and s with (_, Some r) => r ≠ [] ∧ no_end n' r | _ => True end end.

Lemma holds_prefix row t n : take n row = t → length t = n → row !! n = Some 0 → Forall is_char t → holds row t.
Proof.
  intros Ht Hl H0 Hf. split; [done|]. exists (drop (S n) row). rewrite <-Ht. symmetry. by apply take_drop_middle.
Qed.

Lemma break_and_chars s : Forall is_char s → Forall is_char (break_and s).1 ∧ match (break_and s).2 with Some r => Forall is_char r | None => True end.
Proof.
  induction s as [|c s IH]; intros H; [by split|]. apply list.Forall_cons in H as [Hc Hs]. specialize (IH Hs).
  destruct s as [|d s'']; [split; [by constructor|done]|]. rewrite break_and_cons. destruct ((c =? 38) && (d =? 38)).
  - split; [done|]. by apply list.Forall_cons in Hs as [_ Hs].
  - destruct (break_and (d :: s'')) as [a r]. cbn in *. split; [constructor; [done|apply IH]|apply IH].
Qed.

(** The rows hold the pieces without the blanks before them; the others are as they were. *)
Lemma chain_rows_run m : ∀ n rows k p s, holds p s → s ≠ [] → (length s ≤ 255)%nat → length rows = 8%nat →
  Forall (λ a : list Z, length a = 256%nat) rows → (length s < m)%nat → no_end m s → (k + length (split_and m s) ≤ 8)%nat → (length (split_and m s) ≤ n)%nat →
  ∃ rows', chain_rows n rows (Z.of_nat k) p = Some (Z.of_nat (k + length (split_and m s)), rows') ∧
    Forall (λ a : list Z, length a = 256%nat) rows' ∧ length rows' = 8%nat ∧ take k rows' = take k rows ∧
    Forall2 holds (take (length (split_and m s)) (drop k rows')) (strip <$> split_and m s).
Proof.
  induction m as [|m IH]; intros n rows k p s Hp Hne Hlen Hrows Hsize Hm Hend Hk Hn; [lia|].
  destruct n as [|n]; [cbn in Hn; destruct (break_and s) as [? [?|]]; cbn in Hn; lia|]. cbn [chain_rows].
  pose proof Hp as (Hf & rest & Ep). destruct s as [|c s]; [done|].
  assert (E0 : arr_get p 0 = Some c) by (by rewrite Ep). rewrite E0. cbn [mbind option_bind].
  rewrite (char_nonzero c) by (by apply list.Forall_cons in Hf as [? _]). set (t := c :: s) in *. clearbody t. clear E0 Ep rest Hne.
  destruct (skip_blanks_run p t Hp) as (p1 & -> & Hp1). cbn [mbind option_bind]. rewrite Nat2Z.id.
  assert (Hkb : (k < 8)%nat) by (cbn [split_and] in Hk; destruct (break_and t) as [? [?|]]; cbn in Hk; lia).
  destruct (lookup_lt_is_Some_2 rows k) as [row Hrow]; [lia|]. rewrite Hrow. cbn [mbind option_bind].
  assert (Hst : (length (strip t) ≤ length t)%nat).
  { clear. induction t as [|c t IH]; cbn; [lia|]. destruct (c =? 32); cbn; lia. }
  destruct (chain_row_run (strip t) p1 row 0) as (p' & row' & E & Hl & Ht & Hmatch); [done|by eapply (Forall_lookup_1 _ _ _ _ Hsize)|lia|].
  rewrite break_and_strip in E, Ht, Hmatch. cbn [fst snd Nat.add] in E, Ht, Hmatch. cbn [take app] in Ht. change (Z.of_nat 0) with 0 in E. rewrite E.
  cbn [mbind option_bind]. destruct (break_and_chars t Hf) as [Hfa Hfr].
  assert (Hrows1 : Forall (λ a : list Z, length a = 256%nat) (<[k := row']> rows)) by (by apply Forall_insert).
  assert (Hfst : ∀ u : str, Forall is_char u → Forall is_char (strip u)).
  { intros u Hu. induction Hu as [|x u Hx Hu IHu]; cbn; [done|]. destruct (x =? 32); [done|by constructor]. }
  cbn [split_and no_end] in *. destruct (break_and t) as [a [r|]] eqn:Eb; cbn [fst snd] in *.
  - rewrite bool_decide_eq_true_2 by done. destruct Hmatch as [Hp' H0]. destruct Hend as [Hr Hend].
    pose proof (break_and_length _ _ _ Eb) as Hbl. destruct r as [|x r]; [done|].
    assert (Ex : arr_get p' 0 = Some x) by (by destruct Hp' as (_ & ? & ->)). rewrite Ex. cbn [mbind option_bind].
    rewrite (char_nonzero x) by (by apply list.Forall_cons in Hfr as [? _]). rewrite (proj2 (Z.leb_gt _ _)).
    2: { unfold MAX_INPUT_LEN. enough (length (strip a) ≤ length a)%nat by lia. clear. induction a as [|y a IH]; cbn; [lia|]. destruct (y =? 32); cbn; lia. }
    cbn [orb]. replace (Z.of_nat k + 1) with (Z.of_nat (S k)) by lia. cbn [length] in *.
    destruct (IH n (<[k := row']> rows) (S k) p' (x :: r)) as (rows' & E' & Hs' & Hl' & Htk & H2);
      [done|done|cbn; lia|by rewrite length_insert|done|cbn; lia|done|lia|lia|].
    rewrite E'. exists rows'. split_and!; [do 2 f_equal; lia|done|done| |].
    + apply (f_equal (take k)) in Htk. rewrite !take_take in Htk. replace (k `min` S k)%nat with k in Htk by lia. by rewrite Htk, take_insert_ge by lia.
    + assert (Hk' : rows' !! k = Some row').
      { rewrite <-(lookup_take_lt _ (S k)), Htk, lookup_take_lt by lia. apply list_lookup_insert_eq. lia. }
      rewrite (drop_S _ _ _ Hk'). cbn [take fmap list_fmap]. constructor; [|done].
      eapply holds_prefix; [exact Ht|done|done|by apply Hfst].
  - rewrite bool_decide_eq_false_2 by (by intros [? ?]). assert (E0 : arr_get p' 0 = Some 0) by exact Hmatch. rewrite E0. cbn [mbind option_bind Z.eqb orb].
    rewrite Nat2Z.id, list_lookup_insert_eq by lia. cbn [mbind option_bind]. apply break_and_none in Eb as ->.
    rewrite arr_set_inside, Nat2Z.id by lia. cbn [mbind option_bind length]. rewrite list_insert_insert_eq.
    eexists. split; [do 2 f_equal; lia|]. split_and!.
    + apply Forall_insert; [done|by rewrite length_insert].
    + by rewrite length_insert.
    + by rewrite take_insert_ge by lia.
    + rewrite (drop_S _ (<[length (strip t) := 0]> row')) by (apply list_lookup_insert_eq; lia). cbn [take fmap list_fmap]. constructor; [|by constructor].
      apply (holds_prefix _ _ (length (strip t))); [by rewrite take_insert_ge by lia|done|apply list_lookup_insert_eq; lia|by apply Hfst].
Qed.

Lemma trim_row_run t : ∀ row, holds row t → ∃ row', trim_row (length t) row = Some row' ∧ holds row' (strip_end t).
Proof.
  induction t as [|c t IH] using rev_ind; intros row Hrow; [by exists row|]. rewrite length_app, Nat.add_comm. cbn [length Nat.add trim_row].
  pose proof Hrow as (_ & Hi & _)%holds_lookup. rewrite Hi, list_lookup_middle by (rewrite ?length_app; cbn; lia || done). cbn [mbind option_bind].
  unfold strip_end. rewrite reverse_app. change (reverse [c]) with [c]. cbn [app]. destruct (Z.eqb_spec c 32) as [->|Hc].
  - change (strip (32 :: reverse t)) with (strip (reverse t)). apply IH.
    pose proof (holds_take row (t ++ [32]) (length t) Hrow) as H. rewrite take_app_length in H. apply H. rewrite length_app. lia.
  - rewrite strip_cons, reverse_cons, reverse_involutive by done. by exists row.
Qed.

Section execution.
  Context {W : Type} `{!TextScreen W} `{!Session W}.
  Abbreviation S := (shell W).

(** What a command line does: the first 63 characters of its first word are the command. *)
Definition execute (t : str) : M S unit :=
  let '(name, rest) := word (strip t) in
  if bool_decide (strip t = []) then mret tt else
  match index_of 0 command_names (take 63 name) with
  | Some k =>
      on_world (tx_putchar 10 gray_70);;
      on_world (tx_putchar 10 gray_70);;
      (if k =? CMD_HISTORY then cmd_history else on_world (sn_command k (strip rest)));;
      swap_unless_gui
  | None =>
      on_world (tx_putchar 10 gray_70);;
      print (take 63 name) red;;
      print (chars ": command not found") red;;
      swap_unless_gui
  end.

Lemma bind_option {B C} (o : option B) (f : B → M S C) b s : o = Some b → (x ← of_option o; f x) s = f b s.
Proof. by intros ->. Qed.

Lemma names_chars : Forall (λ n, Forall is_char (chars n)) command_names.
Proof. eval_decide. Qed.

(** [execute] on the command that the shell cuts out. *)
Lemma execute_run a t s : holds a t → console_execute a s = execute t s.
Proof.
  intros Ha. unfold console_execute, execute. destruct (skip_blanks_run a t Ha) as (a1 & E & H1).
  rewrite (bind_option _ _ _ _ E). clear E.
  destruct (word_len_run a1 _ H1) as [Hn Hsplit]. pose proof H1 as (Hc & tail & E1).
  destruct (word (strip t)) as [name more] eqn:Ew. cbn [fst snd] in Hn, Hsplit.
  destruct (strip t) as [|c t'] eqn:Et; cbn [bool_decide decide_rel].
  { by rewrite (bind_option _ _ 0) by (by rewrite E1). }
  rewrite (bind_option _ _ c) by (by rewrite E1). apply list.Forall_cons in Hc as [Hc Hct]. rewrite (char_nonzero c Hc), bool_decide_eq_false_2 by done.
  rewrite (bind_option _ _ _ _ Hn). set (len := if 64 <=? Z.of_nat (length name) then 63 else Z.of_nat (length name)).
  pose proof (holds_length _ _ H1) as Hlen. rewrite Hsplit in Hlen. rewrite length_app in Hlen.
  assert (Hk : len = Z.of_nat (length (take 63 name))).
  { rewrite length_take. unfold len. destruct (Z.leb_spec 64 (Z.of_nat (length name))); lia. }
  pose proof H1 as (Hc1 & Hi & _)%holds_lookup. rewrite Hsplit in Hc1, Hi.
  assert (Hcopy : copy_chars (Z.to_nat len) 0 0 (replicate 64 0) a1 = Some (take 63 name ++ drop (length (take 63 name)) (replicate 64 0))).
  { rewrite Hk, Nat2Z.id. apply (copy_chars_run _ 0 0); [|done|rewrite length_take, length_replicate; lia].
    intros j Hj. cbn. rewrite length_take in Hj. rewrite Hi by (rewrite length_app; lia). by rewrite lookup_app_l, lookup_take_lt by lia. }
  rewrite (bind_option _ _ _ _ Hcopy), (bind_option _ _ (take 63 name ++ 0 :: drop (Datatypes.S (length (take 63 name))) (replicate 64 0))).
  2: { assert (length (take 63 name) < 64)%nat by (rewrite length_take; lia). rewrite (drop_S _ 0) by (apply lookup_replicate; lia). rewrite Hk. apply arr_set_app. }
  assert (Hname : holds (take 63 name ++ 0 :: drop (Datatypes.S (length (take 63 name))) (replicate 64 0)) (take 63 name)).
  { apply holds_intro, Forall_take. by apply list.Forall_app in Hc1 as [? _]. }
  assert (Hmore : holds (drop (Z.to_nat (Z.of_nat (length name))) a1) more).
  { rewrite Nat2Z.id. replace more with (drop (length name) (c :: t')) by (by rewrite Hsplit, drop_app_length).
    apply holds_drop; [done|]. rewrite Hsplit, length_app. lia. }
  destruct (skip_blanks_run _ _ Hmore) as (args & E & Hargs). rewrite (bind_option _ _ _ _ E). clear E.
  rewrite (bind_option _ _ _ _ (find_cmd_run _ _ _ 0 Hname names_chars)), (c_text_holds _ _ Hname), (c_text_holds _ _ Hargs). done.
Qed.

Context (stack : list (list Z)).

(** The commands one after the other; an empty one is left out. *)
Fixpoint run_pieces (ps : list str) : M S unit :=
  match ps with
  | [] => mret tt
  | p :: ps' =>
      (if bool_decide (p = []) then mret tt else execute p;; (if bool_decide (ps' = []) then mret tt else print [10] gray_70));;
      run_pieces ps'
  end.

Lemma bind_ext {B C} (m m' : M S B) (f g : B → M S C) s : (∀ s, m s = m' s) → (∀ b s, f b s = g b s) → (m ≫= f) s = (m' ≫= g) s.
Proof. intros Hm Hf. unfold mbind, M_bind. rewrite Hm. destruct (m' s); [apply Hf|done]. Qed.

Definition row_step (rows : list (list Z)) (count i : Z) : M S unit :=
  row ← of_option (row ← rows !! Z.to_nat i; n ← str_len row; trim_row (Z.to_nat n) row);
  c ← of_option (arr_get row 0);
  if c =? 0 then mret tt else
  console_execute row;;
  if i <? count - 1 then print [10] gray_70 else mret tt.

Lemma row_step_run rows count i row t s : rows !! i = Some row → holds row t →
  row_step rows count (Z.of_nat i) s =
  (if bool_decide (strip_end t = []) then mret tt
   else execute (strip_end t);; (if Z.of_nat i <? count - 1 then print [10] gray_70 else mret tt)) s.
Proof.
  intros Hr Ht. unfold row_step. destruct (trim_row_run t row Ht) as (row' & E & Hh). pose proof Hh as (Hf & tail & E').
  rewrite (bind_option _ _ row'). 2: { by rewrite Nat2Z.id, Hr; cbn; rewrite (str_len_holds _ _ Ht); cbn; rewrite Nat2Z.id. }
  destruct (strip_end t) as [|c u] eqn:Eu.
  - by rewrite (bind_option _ _ 0) by (by rewrite E').
  - rewrite (bind_option _ _ c) by (by rewrite E'). apply list.Forall_cons in Hf as [Hc _]. rewrite (char_nonzero c Hc), bool_decide_eq_false_2 by done.
    apply bind_ext; [|done]. intros s1. by apply execute_run.
Qed.

Lemma run_rows_run n : ∀ k rows ps s, Forall2 holds (take n (drop k rows)) ps → length ps = n →
  for_range n (Z.of_nat k) (row_step rows (Z.of_nat (k + n))) s = run_pieces (strip_end <$> ps) s.
Proof.
  induction n as [|n IH]; intros k rows ps s H2 Hl; [by destruct ps|]. destruct ps as [|t ps]; [done|]. injection Hl as Hl.
  destruct (drop k rows) as [|row rest] eqn:Ed; [by inversion H2|].
  cbn [take] in H2. apply Forall2_cons_1 in H2 as [Hrow H2].
  assert (Hr : rows !! k = Some row) by (rewrite <-(Nat.add_0_r k), <-lookup_drop, Ed; done).
  assert (rest = drop (Datatypes.S k) rows) as -> by (replace (Datatypes.S k) with (k + 1)%nat by lia; rewrite <-drop_drop, Ed; done).
  cbn [for_range fmap list_fmap run_pieces]. apply bind_ext.
  - intros s1. rewrite (row_step_run _ _ _ _ _ _ Hr Hrow). destruct (bool_decide _); [done|]. apply bind_ext; [done|]. intros _ s2.
    replace (Z.of_nat k <? Z.of_nat (k + Datatypes.S n) - 1) with (negb (bool_decide (strip_end <$> ps = []))); [by destruct (bool_decide _)|].
    destruct ps as [|t' ps]; cbn [length] in Hl.
    + rewrite bool_decide_eq_true_2 by done. symmetry. apply Z.ltb_ge. lia.
    + rewrite bool_decide_eq_false_2 by done. symmetry. apply Z.ltb_lt. lia.
  - intros _ s2. replace (Z.of_nat k + 1) with (Z.of_nat (Datatypes.S k)) by lia. replace (k + Datatypes.S n)%nat with (Datatypes.S k + n)%nat by lia.
    by apply IH.
Qed.

Lemma chained_run (a t : list Z) (s : S) : holds a t → t ≠ [] → (length t ≤ 255)%nat → no_end (Datatypes.S (length t)) t →
  (length (commands_of t) ≤ 8)%nat → length stack = 8%nat → Forall (λ r : list Z, length r = 256%nat) stack →
  parse_and_execute_chained stack a s = run_pieces (trim <$> commands_of t) s.
Proof.
  intros Ha Hne Hlen Hend Hk Hl Hs. unfold parse_and_execute_chained. pose proof Ha as (Hf & rest & Ea). destruct t as [|c t]; [done|].
  rewrite (bind_option _ _ c) by (by rewrite Ea). rewrite (char_nonzero c) by (by apply list.Forall_cons in Hf as [? _]).
  unfold commands_of in *. set (u := c :: t) in *.
  destruct (chain_rows_run (Datatypes.S (length u)) 8 stack 0 a u) as (rows & E & _ & _ & _ & H2); [done..|lia|done|lia|lia|].
  rewrite (bind_option _ _ _ _ E). unfold run_rows. fold (row_step rows (Z.of_nat (0 + length (split_and (Datatypes.S (length u)) u)))).
  cbn [drop] in H2. set (n := length (split_and _ u)) in *. unfold for_to. rewrite Z.sub_0_r, Nat2Z.id.
  change 0 with (Z.of_nat 0) at 1. etransitivity; [|etransitivity; [apply (run_rows_run n 0 rows _ s H2); by rewrite length_fmap|]].
  - done.
  - by rewrite <-list_fmap_compose.
Qed.

(** Command lines with [&&].  Whatever was on the stack, the shell runs the pieces between
    the [&&] one after the other, each without the blanks around it: it calls the command of
    that name with the rest of the piece as arguments, or says that there is none. *)
Theorem chained_commands (a t : list Z) (s : S) (Ha : holds a t) (Hne : t ≠ []) (Hlen : (length t ≤ 255)%nat)
    (Hend : no_end (Datatypes.S (length t)) t) (Hk : (length (commands_of t) ≤ 8)%nat) (Hl : length stack = 8%nat)
    (Hs : Forall (λ r : list Z, length r = 256%nat) stack) :
  parse_and_execute_chained stack a s = run_pieces (trim <$> commands_of t) s.
Proof. by apply chained_run. Qed.
End execution.

(** ** A line editor on strings *)

Record line := mk_line {
  l_text : str;
  l_pos : nat;
  l_history : list str;
  l_recalled : option nat;  (** the command of the history that was taken *)
}.

Definition line_insert (c : Z) (l : line) : line :=
  if (length (l_text l) <? 255)%nat
  then mk_line (take (l_pos l) (l_text l) ++ c :: drop (l_pos l) (l_text l)) (S (l_pos l)) (l_history l) (l_recalled l)
  else l.
Definition line_recall (i : nat) (l : line) : line :=
  match l_history l !! i with Some t => mk_line t (length t) (l_history l) (Some i) | None => l end.

(** What a key does.  The end of a line runs, and keeps, what is before the cursor; the first
    way up through the history cuts the line there. *)
Definition line_key (c : Z) (l : line) : line :=
  let '(mk_line t p h r) := l in
  if c =? 10 then match p with O => l | _ => mk_line [] 0 (hist_add (take p t) h) None end
  else if c =? 3 then mk_line [] 0 h r
  else if c =? 8 then match p with O => l | S p' => mk_line (take p' t ++ drop p t) p' h r end
  else if c =? 9 then Nat.iter 4 (line_insert 32) l
  else if c =? 0x80 then
    line_recall (match r with Some i => S i | None => 0%nat end)
      (match r with Some _ => l | None => mk_line (take p t) p h r end)
  else if c =? 0x81 then
    match r with Some (S i) => line_recall i l | Some O => mk_line [] 0 h None | None => l end
  else if c =? 0x82 then mk_line t (p - 1) h r
  else if c =? 0x83 then mk_line t (if (p <? length t)%nat then S p else p) h r
  else if c =? 0x84 then mk_line t 0 h r
  else if c =? 0x85 then mk_line t (length t) h r
  else if (32 <=? c) && (c <=? 126) then line_insert c (mk_line t p h None)
  else l.

(** The line that is run can be taken apart: it is simple, or has at most eight commands, the
    last of which is there. *)
Definition runs (t : str) : Prop :=
  has_and t = true → no_end (S (length t)) t ∧ (length (commands_of t) ≤ 8)%nat.

Section refinement.
  Context {W : Type} `{!TextScreen W} `{!Session W} `{!TextScreenLaws W} `{!TextCursorLaws W}.
  Abbreviation S := (shell W).

(** What the shell relies on of the rest: the commands return and leave the screen in order,
    and the working directory is a string. *)
Class SessionLaws := {
  sl_command : ∀ k args, screen_keeps tx_ok (sn_command k args);
  sl_cwd : ∀ w, tx_ok w → ∃ t, holds (sn_cwd w) t ∧ (length (sn_cwd w) ≤ 256)%nat;
}.
Context `{SL : !SessionLaws}.

Definition same_size (w w' : W) : Prop := tx_width w' = tx_width w ∧ tx_height w' = tx_height w ∧ tx_scale w' = tx_scale w.

(** The variables hold the line. *)
Definition line_in (s : S) (l : line) : Prop :=
  text_in 256 (input_buffer s) (l_text l) ∧ input_pos s = Z.of_nat (l_pos l) ∧ (l_pos l ≤ length (l_text l))%nat ∧
  history_in (command_history s) (l_history l) ∧ history_count s = Z.of_nat (length (l_history l)) ∧
  history_pos s = from_option Z.of_nat (-1) (l_recalled l) ∧ from_option (λ i, (i < length (l_history l))%nat) True (l_recalled l) ∧
  truthy (boot_completed s) = true.
(** The line begins inside the screen, and the cursor is that many characters from there. *)
Definition cursor_in (s : S) (l : line) : Prop :=
  tx_ok (sh_world s) ∧ 0 ≤ input_start_x s ≤ tx_width (sh_world s) ∧
  Z.of_nat (l_pos l) * (8 * tx_scale (sh_world s)) ≤ (tx_cursor (sh_world s)).1 ≤ tx_width (sh_world s) + Z.of_nat (l_pos l) * (8 * tx_scale (sh_world s)).

(** Only the world has changed. *)
Definition world_only (s s' : S) : Prop := ∃ w', s' = with_sh_world w' s ∧ tx_ok w' ∧ same_size (sh_world s) w'.
Definition shell_keeps (l : line) {B} (m : M S B) : Prop :=
  ∀ s, line_in s l → tx_ok (sh_world s) → wp m (λ _ s', world_only s s') s.

Lemma same_size_trans w1 w2 w3 : same_size w1 w2 → same_size w2 w3 → same_size w1 w3.
Proof. unfold same_size. intuition congruence. Qed.

Lemma on_world_run {B} (m : M W B) P (Q : B → S → Prop) s : wp m P (sh_world s) →
  (∀ b w', P b w' → Q b (with_sh_world w' s)) → wp (on_world m) Q s.
Proof. unfold wp, on_world, zoom. destruct (m (sh_world s)); naive_solver. Qed.

Lemma world_keeps l {B} (m : M W B) : screen_keeps tx_ok m → shell_keeps l (on_world m).
Proof. intros Hm s _ Hok. eapply on_world_run; [by apply Hm|]. intros b w' (H1 & H2). by exists w'. Qed.

Lemma shell_bind l {B C} (m : M S B) (f : B → M S C) : shell_keeps l m → (∀ b, shell_keeps l (f b)) → shell_keeps l (m ≫= f).
Proof.
  intros Hm Hf s Hl Hok. apply wp_bind. eapply wp_mono; [by apply Hm|]. intros b s1 (w1 & -> & Hok1 & Hs1).
  eapply wp_mono; [by apply Hf|]. intros c s2 (w2 & -> & Hok2 & Hs2). exists w2. split_and!; [done|done|by eapply same_size_trans].
Qed.

Lemma shell_ret l {B} (b : B) : shell_keeps l (mret b).
Proof. intros s _ Hok. apply wp_ret. exists (sh_world s). split_and!; [by destruct s|done|done]. Qed.

Lemma shell_get l {C} (f : S → M S C) : (∀ s, line_in s l → tx_ok (sh_world s) → wp (f s) (λ _ s', world_only s s') s) → shell_keeps l (s ← get; f s).
Proof. intros Hf s Hl Hok. apply wp_bind, wp_get. by apply Hf. Qed.

Lemma swap_gui_keeps l : shell_keeps l swap_unless_gui.
Proof. apply shell_get. intros s Hl Hok. destruct (truthy _); [by apply (shell_ret l)|]. apply (world_keeps l); [apply tx_swap_ok|done..]. Qed.

Lemma swap_double_keeps l : shell_keeps l swap_if_double.
Proof. apply shell_get. intros s Hl Hok. destruct (_ && _); [|by apply (shell_ret l)]. apply (world_keeps l); [apply tx_swap_ok|done..]. Qed.

Lemma history_number i : 0 ≤ i < 50 →
  ∃ b, (b ← str_copy (replicate 8 0) (lit ""); b ← str_append_uint b (i + 1); str_append b (lit ": ")) = Some b.
Proof.
  set (f := λ i, b ← str_copy (replicate 8 0) (lit ""); b ← str_append_uint b (i + 1); str_append b (lit ": ")). intros Hi.
  assert (Hall : Forall (λ k, f (Z.of_nat k) ≠ None) (seq 0 50)) by eval_decide.
  rewrite list.Forall_forall in Hall. specialize (Hall (Z.to_nat i)). rewrite Z2Nat.id in Hall by lia.
  change (∃ b, f i = Some b). destruct (f i) as [b|]; [by exists b|]. destruct Hall; [|done]. apply elem_of_seq. lia.
Qed.

Lemma cmd_history_keeps l : shell_keeps l cmd_history.
Proof.
  apply shell_get. intros s Hl Hok. pose proof Hl as (_ & _ & _ & Hh & Hc & _).
  destruct (history_count s =? 0). { by apply (world_keeps l); [apply tx_string_ok|..]. }
  assert (Hbody : ∀ i, 0 ≤ i < history_count s → shell_keeps l (
    num_buf ← of_option (b ← str_copy (replicate 8 0) (lit ""); b ← str_append_uint b (i + 1); str_append b (lit ": "));
    print (c_text num_buf) green;;
    row ← of_option (command_history s !! Z.to_nat i);
    print (c_text row) gray_70;;
    print [10] gray_70)).
  { intros i Hi. destruct (history_number i) as [b Hb]; [destruct Hh as (_ & _ & ? & _); lia|].
    intros s1 Hl1 Hok1. apply wp_bind. eapply wp_of_option; [exact Hb|]. revert s1 Hl1 Hok1. change (shell_keeps l (print (c_text b) green;;
      row ← of_option (command_history s !! Z.to_nat i); print (c_text row) gray_70;; print [10] gray_70)).
    apply shell_bind; [apply world_keeps, tx_string_ok|]. intros _ s1 Hl1 Hok1.
    destruct (lookup_lt_is_Some_2 (command_history s) (Z.to_nat i)) as [row Hrow]; [destruct Hh as (-> & _ & ? & _); lia|].
    apply wp_bind. eapply wp_of_option; [exact Hrow|]. revert s1 Hl1 Hok1.
    apply (shell_bind l); [apply world_keeps, tx_string_ok|]. intros _. apply world_keeps, tx_string_ok. }
  apply (shell_bind l); [by apply world_keeps, tx_string_ok| |done|done].
  intros _ s1 Hl1 Hok1. eapply wp_mono; [apply (wp_for_to (λ _ s2, world_only s1 s2))|by intros [] ? ?].
  - lia.
  - exists (sh_world s1). by destruct s1.
  - intros i s2 Hi (w2 & -> & Hok2 & Hs2). eapply wp_mono; [by apply (Hbody i Hi)|]. intros [] s3 (w3 & -> & Hok3 & Hs3).
    exists w3. split_and!; [done|done|by eapply same_size_trans].
Qed.

Lemma execute_keeps l t : shell_keeps l (execute t).
Proof.
  unfold execute. destruct (word (strip t)) as [name rest]. destruct (bool_decide _); [apply shell_ret|].
  destruct (index_of _ _ _) as [k|].
  - do 2 (apply shell_bind; [apply world_keeps, tx_putchar_ok|intros _]). apply shell_bind; [|intros _; apply swap_gui_keeps].
    destruct (k =? CMD_HISTORY); [apply cmd_history_keeps|]. apply world_keeps, sl_command.
  - apply shell_bind; [apply world_keeps, tx_putchar_ok|intros _]. do 2 (apply shell_bind; [apply world_keeps, tx_string_ok|intros _]). apply swap_gui_keeps.
Qed.

Lemma pieces_keeps l ps : shell_keeps l (run_pieces ps).
Proof.
  induction ps as [|p ps IH]; cbn; [apply shell_ret|]. apply shell_bind; [|intros _; apply IH].
  destruct (bool_decide _); [apply shell_ret|]. apply shell_bind; [apply execute_keeps|intros _].
  destruct (bool_decide _); [apply shell_ret|apply world_keeps, tx_string_ok].
Qed.

Context (stack : list (list Z)) (Hstack : length stack = 8%nat) (Hrows : Forall (λ r : list Z, length r = 256%nat) stack).

(** The command line is run. *)
Lemma run_keeps l a t : holds a t → t ≠ [] → (length t ≤ 255)%nat → runs t →
  shell_keeps l (if has_and t then parse_and_execute_chained stack a else console_execute a).
Proof.
  intros Ha Hne Hlen Hruns s Hl Hok. unfold wp. destruct (has_and t) eqn:E.
  - destruct (Hruns E) as [Hend Hk]. rewrite (chained_run stack a t) by done. by apply (pieces_keeps l).
  - rewrite (execute_run a t) by done. by apply (execute_keeps l).
Qed.

Lemma wp_and {T B} (m : M T B) P Q (s : T) : wp m P s → wp m Q s → wp m (λ b s', P b s' ∧ Q b s') s.
Proof. unfold wp. by destruct (m s). Qed.

(** A step that keeps the screen in order and the cursor where it is. *)
Lemma still_run (m : M W unit) (s : S) (Q : unit → S → Prop) : screen_keeps tx_ok m →
  (∀ w, tx_ok w → wp m (λ _ w', tx_cursor w' = tx_cursor w) w) → tx_ok (sh_world s) →
  (∀ w', tx_ok w' → same_size (sh_world s) w' → tx_cursor w' = tx_cursor (sh_world s) → Q tt (with_sh_world w' s)) → wp (on_world m) Q s.
Proof.
  intros H1 H2 Hok HQ. eapply on_world_run; [apply wp_and; [by apply H1|by apply H2]|]. intros [] w' ((H & E) & Hc). by apply HQ.
Qed.

Lemma move_cursor_run x y (s : S) (Q : unit → S → Prop) : tx_ok (sh_world s) → 0 ≤ x < 2 ^ 31 → y = (tx_cursor (sh_world s)).2 →
  (∀ w', tx_ok w' → same_size (sh_world s) w' → tx_cursor w' = (x, y) → Q tt (with_sh_world w' s)) → wp (on_world (tx_move x y)) Q s.
Proof.
  intros Hok Hx -> HQ. pose proof (tx_cursor_ok _ Hok) as (_ & Hy & Hyh).
  eapply on_world_run; [apply wp_and; [by apply tx_move_ok|by apply tc_move]|]. intros [] w' ((H & E) & Hc). by apply HQ.
Qed.

Lemma swap_still (s : S) (Q : unit → S → Prop) : tx_ok (sh_world s) →
  (∀ w', tx_ok w' → same_size (sh_world s) w' → tx_cursor w' = tx_cursor (sh_world s) → Q tt (with_sh_world w' s)) → wp swap_if_double Q s.
Proof.
  intros Hok HQ. apply wp_bind, wp_get. destruct (_ && _); [apply still_run; [apply tx_swap_ok|apply tc_swap|done|done]|].
  apply wp_ret. replace s with (with_sh_world (sh_world s) s) by (by destruct s). by apply HQ.
Qed.

(** The screen is narrow enough for a line of 256 characters from any of its columns. *)
Definition narrow (w : W) : Prop := tx_width w < 2 ^ 30.

Lemma char_step (w : W) : tx_ok w → fm_get_char_width * tx_scale w = 8 * tx_scale w ∧ fm_get_char_height * tx_scale w = 16 * tx_scale w.
Proof. done. Qed.

(** After the line is drawn again the cursor is at its place. *)
Lemma redraw_run l (s : S) (Q : unit → S → Prop) : line_in s l → tx_ok (sh_world s) → narrow (sh_world s) →
  0 ≤ input_start_x s ≤ tx_width (sh_world s) →
  (∀ w', line_in (with_sh_world w' s) l → cursor_in (with_sh_world w' s) l → same_size (sh_world s) w' → Q tt (with_sh_world w' s)) →
  wp redraw_input_line Q s.
Proof.
  intros Hl Hok Hn Hx HQ. unfold redraw_input_line. apply wp_bind, wp_get. pose proof (tx_size _ Hok) as (Hsc & Hw & _). unfold narrow in Hn.
  assert (E : u32 (input_start_x s) = input_start_x s) by (apply Z.mod_small; lia). rewrite E. cbv zeta.
  pose proof Hl as (Hin & Hp & Hple & _). pose proof (text_in_fits _ _ _ Hin) as Hfit.
  apply wp_bind, move_cursor_run; [done|lia|done|]. intros w1 Hok1 (S1 & S2 & S3) _.
  apply wp_bind. eapply on_world_run; [apply tx_rect_ok; [lia|apply u32_range| |exact Hok1]|].
  { unfold u32. rewrite Z.mod_small by lia. lia. }
  intros _ w2 (Hok2 & T1 & T2 & T3). apply wp_bind. eapply on_world_run; [apply tx_string_ok, Hok2|]. intros _ w3 (Hok3 & U1 & U2 & U3).
  apply wp_bind, wp_get. cbn [sh_world with_sh_world input_start_x input_pos] in *.
  assert (E3 : u32 (input_start_x s + input_pos s * fm_get_char_width * tx_scale (sh_world s)) = input_start_x s + Z.of_nat (l_pos l) * (8 * tx_scale (sh_world s))).
  { rewrite Hp. change fm_get_char_width with 8. rewrite <-Z.mul_assoc. apply Z.mod_small. nia. }
  rewrite E3. apply wp_bind, move_cursor_run; [done|nia|done|]. intros w4 Hok4 (V1 & V2 & V3) Hc4. cbn [sh_world with_sh_world] in *.
  apply wp_bind, still_run; [apply tx_cursor_draw_ok|apply tc_draw|done|]. intros w5 Hok5 (X1 & X2 & X3) Hc5. cbn [sh_world with_sh_world] in *.
  apply swap_still; [done|]. intros w6 Hok6 (Y1 & Y2 & Y3) Hc6. cbn [sh_world with_sh_world] in *.
  assert (Hsize : same_size (sh_world s) w6) by (unfold same_size; split_and!; congruence). pose proof Hsize as (Z1 & Z2 & Z3).
  apply (HQ w6); [done| |done]. split; [done|]. cbn [sh_world with_sh_world input_start_x]. rewrite Z1, Z3. split; [done|].
  rewrite Hc6, Hc5, Hc4. cbn [fst]. lia.
Qed.

(** The invariant between two keys. *)
Definition typing (s : S) (l : line) : Prop :=
  line_in s l ∧ tx_ok (sh_world s) ∧ narrow (sh_world s) ∧ (truthy (sn_gui_running (sh_world s)) = false → cursor_in s l).

Lemma cursor_typing (s : S) l : line_in s l → narrow (sh_world s) → cursor_in s l → typing s l.
Proof. intros Hl Hn Hc. split_and!; [done|apply Hc|done|done]. Qed.

Lemma narrow_same w w' : narrow w → same_size w w' → narrow w'.
Proof. unfold narrow. by intros H (-> & _). Qed.

Lemma add_history_run a u (s : S) h : text_in 256 a u → u ≠ [] → history_in (command_history s) h → history_count s = Z.of_nat (length h) →
  wp (add_to_history a) (λ _ s', ∃ h', s' = with_history h' (Z.of_nat (length (hist_add u h))) s ∧ history_in h' (hist_add u h)) s.
Proof.
  intros [Hal Ha] Hu Hh Hc. unfold add_to_history, hist_add. rewrite (bool_decide_eq_false_2 (u = [])) by done. cbn [orb].
  apply wp_bind, (wp_of_option _ (Z.of_nat (length u))); [by apply str_len_holds|]. rewrite (proj2 (Z.eqb_neq _ 0)) by (destruct u; [done|cbn; lia]).
  apply wp_bind, wp_get. rewrite Hc. apply wp_bind, (wp_of_option _ (bool_decide (h !! (length h - 1)%nat = Some u))).
  { destruct h as [|t0 h']; [done|]. rewrite (proj2 (Z.ltb_lt _ _)) by (cbn; lia).
    destruct (lookup_lt_is_Some_2 (t0 :: h') (length (t0 :: h') - 1)) as [t Ht]; [cbn; lia|].
    destruct (history_row _ _ _ _ Hh Ht) as (row & Hrow & _ & Hr). replace (Z.to_nat _) with (length (t0 :: h') - 1)%nat by lia.
    rewrite Hrow. cbn [mbind option_bind]. rewrite (str_equals_holds row a t u Hr Ha), Ht. f_equal. apply bool_decide_ext.
    split; [by intros ->|by intros [= ->]]. }
  destruct (bool_decide _). { apply wp_ret. exists (command_history s). split; [|done]. rewrite <-Hc. by destruct s. }
  pose proof Hh as (Hl & Hs & Hle & _).
  assert (Hrow : ∀ k b, length b = 50%nat → Forall (λ r : list Z, length r = 256%nat) b → (k < 50)%nat →
    ∃ row, (row ← b !! k; str_copy row a) = Some row ∧ text_in 256 row u).
  { intros k b Hb Hbs Hk. destruct (lookup_lt_is_Some_2 b k) as [r Hr]; [lia|]. rewrite Hr. cbn [mbind option_bind].
    destruct (text_in_copy 256 r a u) as (row & E & Hrow); [by eapply (Forall_lookup_1 _ _ _ _ Hbs)|done|by apply holds_length in Ha; lia|]. by exists row. }
  unfold MAX_HISTORY. destruct (Nat.ltb_spec (length h) 50).
  - rewrite (proj2 (Z.ltb_lt _ _)), Nat2Z.id by lia. destruct (Hrow (length h) _ Hl Hs) as (row & E & Hr); [done|].
    apply wp_bind. eapply wp_of_option; [exact E|]. apply wp_modify. eexists. split; [|by apply history_snoc].
    f_equal. rewrite length_app. cbn. lia.
  - rewrite (proj2 (Z.ltb_ge _ _)) by lia. destruct h as [|x v]; [cbn in *; lia|]. cbn [length] in *.
    destruct (shift_history_run v [] x (command_history s) Hh) as (h' & z & E & Hh'); [cbn; lia|].
    cbn [length] in E. replace (length v) with 49%nat in E by lia. apply wp_bind. eapply wp_of_option; [exact E|].
    pose proof Hh' as (Hl' & Hs' & Hle' & H2'). destruct (Hrow 49%nat h' Hl' Hs') as (row & E' & Hr); [lia|].
    apply wp_bind. eapply wp_of_option; [exact E'|]. apply wp_modify. change (drop 1 (x :: v)) with v. eexists. split.
    { f_equal. rewrite length_app. cbn. lia. }
    cbn [app] in *. rewrite length_app in *. cbn [length] in *. replace 49%nat with (length v) by lia. apply history_snoc; [|lia|done].
    split_and!; [done|done|lia|]. apply (Forall2_take _ _ _ (length v)) in H2'.
    rewrite take_take, take_app_length, Nat.min_l in H2' by lia. done.
Qed.

(** The end of a line, after the command: a new prompt unless the desktop has started. *)
Lemma enter_tail l (s : S) : line_in s l → l_pos l = 0%nat → tx_ok (sh_world s) → narrow (sh_world s) →
  wp (on_world tx_reset_blink;;
      s ← get;
      (if negb (truthy (sn_gui_running (sh_world s))) && truthy (boot_completed s)
       then on_world (tx_prompt (sn_cwd (sh_world s))) else mret tt);;
      s ← get;
      modify (with_start (i32 (fst (tx_cursor (sh_world s)))));;
      swap_if_double;;
      swap_unless_gui) (λ _ s', typing s' l) s.
Proof.
  intros Hl Hp Hok Hn. pose proof Hl as (H1 & H2 & H3 & H4 & H5 & H6 & H7 & Hboot).
  apply wp_bind, still_run; [apply tx_reset_blink_ok|apply tc_blink|done|]. intros w1 Hok1 S1 _. apply wp_bind, wp_get. cbn [sh_world with_sh_world boot_completed] in *.
  rewrite Hboot, andb_true_r. pose proof (narrow_same _ _ Hn S1) as Hn1. destruct (truthy (sn_gui_running w1)) eqn:Eg; cbn [negb].
  - apply wp_bind, wp_ret, wp_bind, wp_get, wp_bind, wp_modify. unfold swap_if_double, swap_unless_gui.
    apply wp_bind, wp_bind, wp_get. cbn [sh_world with_sh_world with_start]. rewrite Eg. cbn [negb andb]. apply wp_ret, wp_bind, wp_get.
    cbn [sh_world with_sh_world with_start]. rewrite Eg. apply wp_ret. split_and!; [done..|]. cbn [sh_world with_sh_world with_start]. by rewrite Eg.
  - destruct (sl_cwd w1 Hok1) as (t & Ht & Hcl). apply wp_bind. eapply on_world_run; [apply wp_and; [by eapply tx_prompt_ok|by eapply tc_prompt]|].
    intros [] w2 ((Hok2 & S2) & Hx). cbn [sh_world with_sh_world]. apply wp_bind, wp_get, wp_bind, wp_modify. cbn [sh_world with_sh_world].
    pose proof (tx_cursor_ok _ Hok2) as (Hx0 & _). rewrite i32_id by lia.
    apply wp_bind, swap_still; [done|]. cbn [sh_world with_sh_world with_start]. intros w3 Hok3 S3 Hc3.
    assert (Hgoal : ∀ w4 : W, tx_ok w4 → same_size w3 w4 → tx_cursor w4 = tx_cursor w3 → typing (with_sh_world w4 (with_start (tx_cursor w2).1 (with_sh_world w2 (with_sh_world w1 s)))) l).
    { intros w4 Hok4 S4 Hc4. assert (same_size w2 w4) as (E1 & E2 & E3) by (by eapply same_size_trans).
      apply cursor_typing; [done|eapply narrow_same; [exact Hn1|]; eapply same_size_trans; [exact S2|done]|].
      split; [done|]. cbn [sh_world with_sh_world with_start input_start_x]. rewrite Hc4, Hc3, E1, E3, Hp. cbn. lia. }
    unfold swap_unless_gui. apply wp_bind, wp_get. cbn [sh_world with_sh_world with_start]. destruct (truthy (sn_gui_running w3)).
    + apply wp_ret. by apply Hgoal.
    + apply still_run; [apply tx_swap_ok|apply tc_swap|done|]. cbn [sh_world with_sh_world with_start]. intros w4 Hok4 S4 Hc4. by apply Hgoal.
Qed.

(** The array with another text and position. *)
Lemma line_set t p h r (s : S) t' p' a : line_in s (mk_line t p h r) → text_in 256 a t' → (p' ≤ length t')%nat →
  line_in (with_line a (Z.of_nat p') s) (mk_line t' p' h r).
Proof. intros (_ & _ & _ & H) Ha Hp. repeat (split; [done|]). exact H. Qed.

Lemma line_cut t p h r (s : S) k : line_in s (mk_line t p h r) → (k ≤ length t)%nat →
  ∃ a, arr_set (input_buffer s) (Z.of_nat k) 0 = Some a ∧ text_in 256 a (take k t).
Proof.
  intros ([Hl Ha] & _) Hk. pose proof (holds_length _ _ Ha). cbn [l_text] in *. rewrite arr_set_inside, Nat2Z.id by lia. eexists. split; [done|].
  split; [by rewrite length_insert|by apply holds_take].
Qed.

(** After the line has changed it is drawn again. *)
Lemma redraw_typing l (s : S) : line_in s l → tx_ok (sh_world s) → narrow (sh_world s) → 0 ≤ input_start_x s ≤ tx_width (sh_world s) →
  wp redraw_input_line (λ _ s', typing s' l) s.
Proof.
  intros Hl Hok Hn Hx. eapply redraw_run; [done..|]. intros w' Hl' Hc Hs. apply cursor_typing; [done| |done]. by eapply narrow_same.
Qed.

Lemma cursor_still l (s : S) w' : typing s l → tx_ok w' → same_size (sh_world s) w' → tx_cursor w' = tx_cursor (sh_world s) →
  cursor_in s l → typing (with_sh_world w' s) l.
Proof.
  intros (Hl & _ & Hn & _) Hok Hs Hc (_ & Hx & Hcx). pose proof Hs as (E1 & E2 & E3). apply cursor_typing; [done|by eapply narrow_same|].
  split; [done|]. cbn [sh_world with_sh_world input_start_x]. by rewrite E1, E3, Hc.
Qed.

(** The screen is in order and the line begins inside it, whatever the line is. *)
Definition ready (s : S) : Prop := tx_ok (sh_world s) ∧ narrow (sh_world s) ∧ 0 ≤ input_start_x s ≤ tx_width (sh_world s).

Lemma redraw_then l (s : S) (m : M W unit) : line_in s l → ready s → screen_keeps tx_ok m →
  (∀ w, tx_ok w → wp m (λ _ w', tx_cursor w' = tx_cursor w) w) → wp (redraw_input_line;; on_world m) (λ _ s', typing s' l) s.
Proof.
  intros Hl (Hok & Hn & Hx) H1 H2. apply wp_bind. eapply redraw_run; [done..|]. intros w' Hl' Hc Hs.
  pose proof Hc as (Hok' & _). apply still_run; [done|done|done|]. intros w2 Hok2 Hs2 Hc2.
  apply (cursor_still _ (with_sh_world w' s)); [|done..]. apply cursor_typing; [done|by eapply narrow_same|done].
Qed.

Lemma enter_run t p h r (s : S) : line_in s (mk_line t p h r) → ready s → (0 < p → runs (take p t))%nat →
  wp (key_enter stack) (λ _ s', typing s' (line_key 10 (mk_line t p h r))) s.
Proof.
  intros Hl (Hok & Hn & _) Hruns. pose proof Hl as (Hin & Hp & Hple & Hh & Hc & Hr & Hrb & Hboot). cbn [l_text l_pos l_history l_recalled] in *.
  unfold key_enter. apply wp_bind, wp_get. rewrite Hp. change (line_key 10 (mk_line t p h r)) with
    (match p with O => mk_line t p h r | _ => mk_line [] 0 (hist_add (take p t) h) None end).
  destruct p as [|p]; [apply wp_bind, wp_ret; by apply enter_tail|]. rewrite (proj2 (Z.ltb_lt 0 _)) by lia. set (k := Datatypes.S p) in *.
  destruct (line_cut _ _ _ _ _ k Hl Hple) as (a & Ea & Ha). pose proof Ha as [Hal Hah]. set (u := take k t) in *.
  assert (Hlen : length u = k) by (unfold u; rewrite length_take; lia). assert (Hu : u ≠ []) by (destruct u; [cbn in Hlen; lia|done]).
  apply wp_bind, wp_bind, (wp_of_option _ a); [done|]. apply wp_bind, wp_modify.
  apply wp_bind. eapply wp_mono; [by apply (add_history_run a u _ h)|]. intros [] s1 (h' & -> & Hh').
  apply wp_bind, wp_modify. set (s2 := with_history_pos _ _).
  assert (Hl2 : line_in s2 (mk_line u k (hist_add u h) None)) by (split_and!; done || (cbn [l_pos l_text]; lia)).
  assert (Etake : take (Z.to_nat (Z.of_nat k)) a = u).
  { rewrite Nat2Z.id. apply holds_lookup in Hah as (_ & Hi & _). apply list_eq_same_length with k; [done|rewrite length_take; apply Nat.min_l|].
    { pose proof (text_in_fits _ _ _ Ha). lia. }
    intros i x y Hik Hx Hy. rewrite lookup_take_lt, Hi in Hx by lia. congruence. }
  rewrite Etake. apply wp_bind.
  eapply wp_mono; [apply (run_keeps (mk_line u k (hist_add u h) None) a u Hah Hu); [pose proof (text_in_fits _ _ _ Ha); lia|apply Hruns; lia|exact Hl2|exact Hok]|].
  intros [] s3 (w3 & -> & Hok3 & Hs3). apply wp_bind, wp_get.
  assert (Hl3 : line_in (with_sh_world w3 s2) (mk_line u k (hist_add u h) None)) by exact Hl2.
  destruct (line_cut _ _ _ _ _ 0%nat Hl3) as (b & Eb & Hb); [lia|]. apply wp_bind. eapply wp_of_option; [exact Eb|]. apply wp_modify.
  apply enter_tail; [|done|exact Hok3|]. { exact (line_set _ _ _ _ _ [] 0%nat b Hl3 Hb (le_n _)). }
  eapply narrow_same; [|exact Hs3]. exact Hn.
Qed.

Lemma insert_line c t p h r (s : S) : line_in s (mk_line t p h r) → is_char c →
  ∃ a q, insert_at c (input_buffer s) (input_pos s) = Some (a, q) ∧ line_in (with_line a q s) (line_insert c (mk_line t p h r)).
Proof.
  intros Hl Hc. pose proof Hl as (Hin & Hp & Hple & _). cbn [l_text l_pos] in *. rewrite Hp. unfold line_insert. cbn [l_text l_pos l_history l_recalled].
  destruct (Nat.ltb_spec (length t) 255).
  - destruct (insert_at_run c _ t p Hin Hple) as (a & E & Ha); [done|done|]. rewrite E. do 2 eexists. split; [done|].
    eapply line_set; [done..|]. rewrite length_app, length_take. cbn. lia.
  - unfold insert_at. rewrite (str_len_holds _ _ (proj2 Hin)). cbn [mbind option_bind]. rewrite (proj2 (Z.ltb_ge _ _)) by (unfold MAX_INPUT_LEN; lia).
    do 2 eexists. split; [done|]. by eapply line_set.
Qed.

Lemma recall_run i t p h r (s : S) : line_in s (mk_line t p h r) → ready s → (i < length h)%nat →
  wp (recall (Z.of_nat i);; on_world tx_cursor_draw) (λ _ s', typing s' (line_recall i (mk_line t p h r))) s.
Proof.
  intros Hl Hready Hi. pose proof Hl as (Hin & _ & _ & Hh & Hc & _ & _ & Hb). cbn [l_text l_pos l_history l_recalled] in *.
  destruct (lookup_lt_is_Some_2 h i Hi) as [u Hu]. destruct (history_row _ _ _ _ Hh Hu) as (cmd & Hcmd & Hcin).
  unfold line_recall. cbn [l_history]. rewrite Hu. unfold recall. apply wp_bind, wp_bind, wp_modify, wp_bind, wp_get.
  unfold get_history_command. cbn [history_count command_history with_history_pos]. rewrite Hc, Nat2Z.id.
  rewrite (proj2 (Z.leb_le _ _)), (proj2 (Z.ltb_lt _ _)) by lia. cbn [andb]. rewrite Hcmd.
  destruct (text_in_copy 256 (input_buffer s) cmd u) as (b & Eb & Hbin); [apply Hin|apply Hcin|eapply text_in_fits, Hcin|].
  apply wp_bind. eapply wp_of_option; [exact Eb|]. apply wp_bind, (wp_of_option _ (Z.of_nat (length u))); [by apply str_len_holds, Hcin|].
  apply wp_bind, wp_modify.
  assert (Hl2 : line_in (with_line b (Z.of_nat (length u)) (with_history_pos (Z.of_nat i) s)) (mk_line u (length u) h (Some i))) by (by split_and!).
  pose proof (redraw_then _ _ tx_cursor_draw Hl2 Hready tx_cursor_draw_ok tc_draw) as H. by unfold wp, mbind, M_bind in *; destruct (redraw_input_line _).
Qed.

Lemma key_interrupt t p h r (s : S) : line_in s (mk_line t p h r) → ready s →
  wp (buf ← of_option (arr_set (input_buffer s) 0 0);
      modify (with_line buf 0);;
      on_world tx_reset_blink;;
      s ← get;
      on_world (tx_prompt (sn_cwd (sh_world s)))) (λ _ s', typing s' (mk_line [] 0 h r)) s.
Proof.
  intros Hl (Hok & Hn & Hx). destruct (line_cut _ _ _ _ _ 0%nat Hl) as (b & Eb & Hb); [lia|].
  apply wp_bind. eapply wp_of_option; [exact Eb|]. apply wp_bind, wp_modify. pose proof (line_set _ _ _ _ _ [] 0%nat b Hl Hb (le_n _)) as Hl2.
  apply wp_bind, still_run; [apply tx_reset_blink_ok|apply tc_blink|done|]. intros w1 Hok1 Hs1 _. apply wp_bind, wp_get.
  destruct (sl_cwd _ Hok1) as (c & Hc & Hcl). eapply on_world_run; [apply wp_and; [by eapply tx_prompt_ok|by eapply tc_prompt]|].
  intros [] w2 ((Hok2 & Hs2) & Hcx). cbn [sh_world with_sh_world with_line] in *. pose proof (same_size_trans _ _ _ Hs1 Hs2) as (E1 & E2 & E3).
  apply cursor_typing; [done|by eapply narrow_same|]. split; [done|]. cbn [sh_world with_sh_world with_line input_start_x l_pos].
  pose proof (tx_cursor_ok _ Hok2) as (? & _). rewrite E1. cbn in Hcx. lia.
Qed.

Lemma backspace_run t p h r (s : S) : line_in s (mk_line t p h r) → ready s → cursor_in s (mk_line t p h r) →
  wp ((if 0 <? input_pos s then
         buf ← of_option (close_gap 300 (input_pos s - 1) (input_buffer s));
         modify (with_line buf (input_pos s - 1));;
         redraw_input_line
       else mret tt);;
      on_world tx_reset_blink) (λ _ s', typing s' (line_key 8 (mk_line t p h r))) s.
Proof.
  intros Hl Hready Hcur. pose proof Hl as (Hin & Hp & Hple & _). cbn [l_text l_pos] in *. rewrite Hp.
  change (line_key 8 (mk_line t p h r)) with (match p with O => mk_line t p h r | Datatypes.S p' => mk_line (take p' t ++ drop p t) p' h r end).
  assert (Hty : typing s (mk_line t p h r)) by (apply cursor_typing; [done|apply Hready|done]).
  destruct p as [|p]. { apply wp_bind, wp_ret, still_run; [apply tx_reset_blink_ok|apply tc_blink|apply Hready|]. intros w' Hok' Hs Hc. by apply (cursor_still _ s). }
  rewrite (proj2 (Z.ltb_lt 0 _)) by lia. destruct (lookup_lt_is_Some_2 t p) as [x Hxp]; [lia|].
  assert (Et : t = take p t ++ x :: drop (Datatypes.S p) t) by (symmetry; by apply take_drop_middle).
  destruct (close_gap_run (drop (Datatypes.S p) t) 300 (take p t) x (input_buffer s)) as (a & Ea & Ha).
  { by rewrite <-Et. }
  { rewrite length_drop. pose proof (text_in_fits _ _ _ Hin). lia. }
  rewrite length_take, Nat.min_l in Ea by lia. replace (Z.of_nat (Datatypes.S p) - 1) with (Z.of_nat p) by lia.
  assert (Hl2 : line_in (with_line a (Z.of_nat p) s) (mk_line (take p t ++ drop (Datatypes.S p) t) p h r)).
  { eapply line_set; [done..|]. rewrite length_app, length_take, length_drop. lia. }
  apply wp_bind, wp_bind. eapply wp_of_option; [exact Ea|]. apply wp_bind, wp_modify.
  pose proof (redraw_then _ _ tx_reset_blink Hl2 Hready tx_reset_blink_ok tc_blink) as H. by unfold wp, mbind, M_bind in *; destruct (redraw_input_line _).
Qed.

Lemma tab_run l (s : S) : line_in s l → ready s → wp key_tab (λ _ s', typing s' (Nat.iter 4 (line_insert 32) l)) s.
Proof.
  intros Hl Hready. unfold key_tab.
  apply wp_bind. eapply wp_mono.
  { apply (wp_for_to (λ k s', line_in s' (Nat.iter (Z.to_nat k) (line_insert 32) l) ∧ ready s')); [lia|done|].
    intros k s' Hk (Hl' & Hr'). apply wp_bind, wp_get. replace (Z.to_nat (k + 1)) with (Datatypes.S (Z.to_nat k)) by lia.
    change (Nat.iter (Datatypes.S (Z.to_nat k)) (line_insert 32) l) with (line_insert 32 (Nat.iter (Z.to_nat k) (line_insert 32) l)).
    destruct (Nat.iter (Z.to_nat k) (line_insert 32) l) as [t p h r]. destruct (insert_line 32 _ _ _ _ _ Hl') as (a & q & E & Hl2); [eval_decide|].
    apply wp_bind. eapply wp_of_option; [exact E|]. by apply wp_modify. }
  intros [] s' (Hl' & Hr'). by apply redraw_then; [| |apply tx_reset_blink_ok|apply tc_blink].
Qed.

Lemma char_run c t p h r (s : S) : line_in s (mk_line t p h r) → ready s → is_char c → (length t < 255)%nat →
  wp (key_char c) (λ _ s', typing s' (line_insert c (mk_line t p h r))) s.
Proof.
  intros Hl Hready Hc Ht. pose proof Hl as (Hin & _). cbn [l_text] in Hin. unfold key_char. apply wp_bind, wp_get.
  apply wp_bind, (wp_of_option _ (Z.of_nat (length t))); [apply str_len_holds, Hin|]. rewrite (proj2 (Z.ltb_lt _ _)) by (unfold MAX_INPUT_LEN; lia).
  destruct (insert_line c _ _ _ _ _ Hl Hc) as (a & q & E & Hl2). apply wp_bind, wp_bind. eapply wp_of_option; [exact E|]. apply wp_bind, wp_modify.
  pose proof (redraw_then _ _ tx_reset_blink Hl2 Hready tx_reset_blink_ok tc_blink) as H. by unfold wp, mbind, M_bind in *; destruct (redraw_input_line _).
Qed.

(** The cursor goes along the line. *)
Lemma cursor_shift_run d t p h r (s : S) q : line_in s (mk_line t p h r) → ready s → cursor_in s (mk_line t p h r) → (q ≤ length t)%nat →
  Z.of_nat q = Z.of_nat p + d →
  wp (modify (with_line (input_buffer s) (Z.of_nat q));; shift_cursor d) (λ _ s', typing s' (mk_line t q h r)) s.
Proof.
  intros Hl (Hok & Hn & Hx) (_ & _ & Hcx) Hq Hd. pose proof Hl as (Hin & _ & Hple & _). cbn [l_text l_pos] in *.
  pose proof (line_set _ _ _ _ _ t q _ Hl Hin Hq) as Hl2. pose proof (text_in_fits _ _ _ Hin). pose proof (tx_size _ Hok) as (Hsc & Hw & _). unfold narrow in Hn.
  apply wp_bind, wp_modify. unfold shift_cursor. apply wp_bind, wp_get. cbn [sh_world with_line].
  assert (E : u32 ((tx_cursor (sh_world s)).1 + d * (fm_get_char_width * tx_scale (sh_world s))) = (tx_cursor (sh_world s)).1 + d * (8 * tx_scale (sh_world s))).
  { change fm_get_char_width with 8. apply Z.mod_small. nia. }
  rewrite E. apply wp_bind, move_cursor_run; [done|cbn [sh_world with_line]; nia|done|]. cbn [sh_world with_line]. intros w1 Hok1 S1 Hc1.
  apply wp_bind, still_run; [apply tx_cursor_draw_ok|apply tc_draw|done|]. cbn [sh_world with_sh_world with_line]. intros w2 Hok2 S2 Hc2.
  apply swap_still; [done|]. cbn [sh_world with_sh_world with_line]. intros w3 Hok3 S3 Hc3.
  pose proof (same_size_trans _ _ _ S1 (same_size_trans _ _ _ S2 S3)) as (E1 & E2 & E3).
  apply cursor_typing; [done|unfold narrow; cbn [sh_world with_sh_world with_line]; lia|]. split; [done|].
  cbn [sh_world with_sh_world with_line input_start_x l_pos]. rewrite E1, E3, Hc3, Hc2, Hc1. cbn [fst]. nia.
Qed.

Lemma up_run t p h r (s : S) : line_in s (mk_line t p h r) → ready s → cursor_in s (mk_line t p h r) →
  wp ((if history_pos s =? -1 then
         buf ← of_option (arr_set (input_buffer s) (input_pos s) 0);
         modify (with_line buf (input_pos s))
       else mret tt);;
      (if history_pos s <? history_count s - 1 then recall (history_pos s + 1) else mret tt);;
      on_world tx_cursor_draw) (λ _ s', typing s' (line_key 0x80 (mk_line t p h r))) s.
Proof.
  intros Hl Hready Hcur. pose proof Hl as (Hin & Hp & Hple & Hh & Hc & Hr & Hrb & _). cbn [l_text l_pos l_history l_recalled] in *.
  change (line_key 0x80 (mk_line t p h r)) with (line_recall (match r with Some i => Datatypes.S i | None => 0%nat end)
    (match r with Some _ => mk_line t p h r | None => mk_line (take p t) p h r end)).
  set (i := match r with Some i => Datatypes.S i | None => 0%nat end). assert (Hi : history_pos s + 1 = Z.of_nat i) by (rewrite Hr; unfold i; destruct r; cbn; lia).
  assert (Hcut : wp (if history_pos s =? -1 then buf ← of_option (arr_set (input_buffer s) (input_pos s) 0); modify (with_line buf (input_pos s)) else mret tt)
    (λ _ s', ∃ t', match r with Some _ => mk_line t p h r | None => mk_line (take p t) p h r end = mk_line t' p h r ∧ line_in s' (mk_line t' p h r) ∧ ready s' ∧
       cursor_in s' (mk_line t' p h r) ∧ input_start_x s' = input_start_x s ∧ history_pos s' = history_pos s ∧ history_count s' = history_count s) s).
  { rewrite Hr. destruct r as [j|]; cbn [from_option].
    - rewrite (proj2 (Z.eqb_neq _ _)) by lia. apply wp_ret. by exists t.
    - cbn [Z.eqb Z.opp]. rewrite Hp. destruct (line_cut _ _ _ _ _ p Hl Hple) as (a & Ea & Ha). apply wp_bind. eapply wp_of_option; [exact Ea|]. apply wp_modify.
      exists (take p t). split_and!; try done. eapply line_set; [done..|]. rewrite length_take. lia. }
  apply wp_bind. eapply wp_mono; [exact Hcut|]. intros [] s1 (t' & -> & Hl1 & Hr1 & Hc1 & _ & E1 & E2). rewrite Hi.
  destruct (Z.ltb_spec (history_pos s) (history_count s - 1)).
  - apply recall_run; [done|done|lia].
  - apply wp_bind, wp_ret. unfold line_recall. cbn [l_history]. rewrite lookup_ge_None_2 by lia.
    apply still_run; [apply tx_cursor_draw_ok|apply tc_draw|apply Hr1|]. intros w' Hok' Hs' Hcw. apply (cursor_still _ s1); [|done..].
    apply cursor_typing; [done|apply Hr1|done].
Qed.

Lemma down_run t p h r (s : S) : line_in s (mk_line t p h r) → ready s → cursor_in s (mk_line t p h r) →
  wp ((if 0 <? history_pos s then recall (history_pos s - 1)
       else if history_pos s =? 0 then
         modify (with_history_pos (-1));;
         buf ← of_option (arr_set (input_buffer s) 0 0);
         modify (with_line buf 0);;
         redraw_input_line
       else mret tt);;
      on_world tx_cursor_draw) (λ _ s', typing s' (line_key 0x81 (mk_line t p h r))) s.
Proof.
  intros Hl Hready Hcur. pose proof Hl as (Hin & Hp & Hple & Hh & Hc & Hr & Hrb & _). cbn [l_text l_pos l_history l_recalled] in *.
  change (line_key 0x81 (mk_line t p h r)) with (match r with Some (Datatypes.S i) => line_recall i (mk_line t p h r) | Some O => mk_line [] 0 h None | None => mk_line t p h r end).
  rewrite Hr. destruct r as [[|i]|]; cbn [from_option].
  - cbn [Z.of_nat Z.ltb Z.compare Z.eqb]. destruct (line_cut _ _ _ _ _ 0%nat Hl) as (b & Eb & Hb); [lia|]. change (Z.of_nat 0) with 0 in Eb.
    assert (Hl2 : line_in (with_line b 0 (with_history_pos (-1) s)) (mk_line [] 0 h None)).
    { pose proof (line_set _ _ _ _ _ [] 0%nat b Hl Hb (le_n _)) as (G1 & G2 & G3 & G4 & G5 & _ & _ & G8). by split_and!. }
    pose proof (redraw_then _ _ tx_cursor_draw Hl2 Hready tx_cursor_draw_ok tc_draw) as H.
    apply wp_bind, wp_bind, wp_modify, wp_bind. eapply wp_of_option; [exact Eb|]. apply wp_bind, wp_modify.
    by unfold wp, mbind, M_bind in *; destruct (redraw_input_line _).
  - rewrite (proj2 (Z.ltb_lt 0 _)) by lia. replace (Z.of_nat (Datatypes.S i) - 1) with (Z.of_nat i) by lia. cbn [from_option] in Hrb. apply recall_run; [done|done|lia].
  - cbn [Z.ltb Z.compare Z.eqb Z.opp]. apply wp_bind, wp_ret, still_run; [apply tx_cursor_draw_ok|apply tc_draw|apply Hready|].
    intros w' Hok' Hs' Hcw. apply (cursor_still _ s); [|done..]. apply cursor_typing; [done|apply Hready|done].
Qed.

Lemma left_run t p h r (s : S) : line_in s (mk_line t p h r) → ready s → cursor_in s (mk_line t p h r) → typing s (mk_line t p h r) →
  wp (if 0 <? input_pos s then modify (with_line (input_buffer s) (input_pos s - 1));; shift_cursor (-1) else mret tt)
    (λ _ s', typing s' (line_key 0x82 (mk_line t p h r))) s.
Proof.
  intros Hl Hready Hcur Hty. pose proof Hl as (Hin & Hp & Hple & _). cbn [l_text l_pos] in *.
  change (line_key 0x82 (mk_line t p h r)) with (mk_line t (p - 1) h r). rewrite Hp. destruct (Z.ltb_spec 0 (Z.of_nat p)).
  - replace (Z.of_nat p - 1) with (Z.of_nat (p - 1)) by lia. by apply (cursor_shift_run _ t p h r); [| | |lia|lia].
  - apply wp_ret. by replace p with 0%nat in * by lia.
Qed.

Lemma right_run t p h r (s : S) : line_in s (mk_line t p h r) → ready s → cursor_in s (mk_line t p h r) → typing s (mk_line t p h r) →
  wp (len ← of_option (str_len (input_buffer s));
      if input_pos s <? len then modify (with_line (input_buffer s) (input_pos s + 1));; shift_cursor 1 else mret tt)
    (λ _ s', typing s' (line_key 0x83 (mk_line t p h r))) s.
Proof.
  intros Hl Hready Hcur Hty. pose proof Hl as (Hin & Hp & Hple & _). cbn [l_text l_pos] in *.
  change (line_key 0x83 (mk_line t p h r)) with (mk_line t (if (p <? length t)%nat then Datatypes.S p else p) h r).
  apply wp_bind, (wp_of_option _ (Z.of_nat (length t))); [apply str_len_holds, Hin|]. rewrite Hp.
  destruct (Nat.ltb_spec p (length t)).
  - rewrite (proj2 (Z.ltb_lt _ _)) by lia. replace (Z.of_nat p + 1) with (Z.of_nat (Datatypes.S p)) by lia.
    by apply (cursor_shift_run _ t p h r); [| | |lia|lia].
  - rewrite (proj2 (Z.ltb_ge _ _)) by lia. by apply wp_ret.
Qed.

(** What is known after a key.  The carriage return is no key of the editor: its code is put
    into the array at the cursor, over a character of the line or over its end.  A character
    for a line that is full is only shown. *)
Definition after_key (c : Z) (l : line) (s s' : S) : Prop :=
  if c =? 13 then
    input_buffer s' = <[l_pos l := 10]> (input_buffer s) ∧ input_pos s' = Z.of_nat (l_pos l + 1) ∧
    command_history s' = command_history s ∧ history_count s' = history_count s
  else if (32 <=? c) && (c <=? 126) && (255 <=? length (l_text l))%nat then
    line_in s' (mk_line (l_text l) (l_pos l) (l_history l) None) ∧ tx_ok (sh_world s')
  else typing s' (line_key c l).

Lemma return_run l (s s1 : S) : line_in s l → line_in s1 l → tx_ok (sh_world s1) →
  input_buffer s1 = input_buffer s → command_history s1 = command_history s → history_count s1 = history_count s →
  wp (on_world (tx_putchar 10 gray_70);;
      buf ← of_option (arr_set (input_buffer s1) (input_pos s1) 10);
      modify (with_line buf (input_pos s1 + 1));;
      on_world tx_cursor_draw) (λ _, after_key 13 l s) s1.
Proof.
  intros Hl Hl1 Hok Eb Eh Ec. pose proof Hl1 as (Hin & Hp & Hple & _). pose proof (text_in_fits _ _ _ Hin). destruct Hin as [Hlen _].
  apply wp_bind. eapply on_world_run; [by apply tx_putchar_ok|]. intros [] w1 (Hok1 & _). rewrite Hp, arr_set_inside, Nat2Z.id by lia.
  apply wp_bind. eapply wp_of_option; [done|]. apply wp_bind, wp_modify. eapply on_world_run; [by apply tx_cursor_draw_ok|]. intros [] w2 _.
  unfold after_key. cbn. rewrite Eb, Eh, Ec. split_and!; [done|lia|done|done].
Qed.

Lemma full_run c t p h r (s : S) : line_in s (mk_line t p h r) → tx_ok (sh_world s) → (255 ≤ length t)%nat →
  wp (key_char c) (λ _ s', line_in s' (mk_line t p h r) ∧ tx_ok (sh_world s')) s.
Proof.
  intros Hl Hok Ht. pose proof Hl as (Hin & _). cbn [l_text] in Hin. unfold key_char. apply wp_bind, wp_get.
  apply wp_bind, (wp_of_option _ (Z.of_nat (length t))); [apply str_len_holds, Hin|]. rewrite (proj2 (Z.ltb_ge _ _)) by (unfold MAX_INPUT_LEN; lia).
  apply wp_bind. eapply on_world_run; [by apply tx_putchar_ok|]. intros [] w1 (Hok1 & _).
  eapply on_world_run; [by apply tx_reset_blink_ok|]. intros [] w2 (Hok2 & _). by split.
Qed.

(** C12: the line editor.  While the shell takes the keys, no key makes an access outside an
    array, and every key but two kinds does on the arrays what it does in a line editor on
    strings with a history: characters and blanks go in at the cursor, the character before it
    goes, the cursor moves, the commands of the history are taken up and down, the end of the
    line leaves what was before the cursor in the history, unless it is the last one already, and
    begins a new line.  The two: a character for a line of 255 characters changes nothing but
    the screen, and the carriage return puts its code over what is at the cursor.
    For the end of a line the commands must return, and a line with [&&] must not end with one
    and have at most eight commands. *)
Theorem console_key_refines (c : Z) (l : line) (s : S) (Hl : typing s l) (Hgui : truthy (sn_gui_running (sh_world s)) = false)
    (Hedit : truthy (sn_in_kedit (sh_world s)) = false)
    (Hrun : c = 10 → (0 < l_pos l)%nat → runs (take (l_pos l) (l_text l))) :
  wp (console_handle_key stack c) (λ _ s', after_key c l s s') s.
Proof.
  destruct Hl as (Hl & Hok & Hn & Hcur). specialize (Hcur Hgui). unfold console_handle_key. apply wp_bind, wp_get. rewrite Hgui, Hedit.
  apply wp_bind, still_run; [apply tx_cursor_c_ok|apply tc_hide|done|]. intros w1 Hok1 Hs1 Hc1. clear Hgui Hedit.
  assert (Hcur1 : cursor_in (with_sh_world w1 s) l).
  { destruct Hcur as (_ & Hx & Hcx). pose proof Hs1 as (E1 & _ & E3). split; [done|]. cbn [sh_world with_sh_world input_start_x]. by rewrite E1, E3, Hc1. }
  apply wp_bind, wp_get. assert (Hl1 : line_in (with_sh_world w1 s) l) by exact Hl.
  destruct (Z.eqb_spec c 10) as [->|H10].
  { change (after_key 10 l s) with (λ s', typing s' (line_key 10 l)). destruct l as [t p h r]. cbn [l_text l_pos] in Hrun.
    apply enter_run; [exact Hl|split; [exact Hok1|split; [by eapply narrow_same|apply Hcur1]]|]. intros; by apply Hrun. }
  destruct (Z.eqb_spec c 13) as [->|H13]; [by apply return_run|].
  assert (Hpost : ∀ (m : M S unit) s1, wp m (λ _ s', if (32 <=? c) && (c <=? 126) && (255 <=? length (l_text l))%nat
      then line_in s' (mk_line (l_text l) (l_pos l) (l_history l) None) ∧ tx_ok (sh_world s') else typing s' (line_key c l)) s1 →
    wp m (λ _ s', after_key c l s s') s1) by (unfold after_key; by rewrite (proj2 (Z.eqb_neq c 13) H13)).
  apply Hpost. clear Hpost.
  assert (Hn1 : narrow (sh_world (with_sh_world w1 s))) by (by eapply narrow_same). revert Hl1 Hcur1 Hn1. generalize (with_sh_world w1 s).
  clear s Hl Hok Hn Hcur w1 Hok1 Hs1 Hc1. intros s Hl Hcur Hn.
  assert (Hready : ready s) by (split; [apply Hcur|split; [done|apply Hcur]]).
  assert (Hty : typing s l) by (by apply cursor_typing). destruct l as [t p h r]. cbn [l_text l_pos] in *.
  pose proof Hl as (Hin & Hp & Hple & Hh & Hc0 & Hr & Hrb & Hb). cbn [l_text l_pos l_history l_recalled] in *.
  destruct (Z.eqb_spec c 3) as [->|]; [by apply (key_interrupt t p h r)|].
  destruct (Z.eqb_spec c 8) as [->|]; [by apply backspace_run|].
  destruct (Z.eqb_spec c 9) as [->|]; [by apply tab_run|].
  destruct (Z.eqb_spec c 0x80) as [->|]; [by apply up_run|].
  destruct (Z.eqb_spec c 0x81) as [->|]; [by apply down_run|].
  destruct (Z.eqb_spec c 0x82) as [->|]; [by apply left_run|].
  destruct (Z.eqb_spec c 0x83) as [->|]; [by apply right_run|].
  assert (Hmove : ∀ q, (q ≤ length t)%nat → wp (modify (with_line (input_buffer s) (Z.of_nat q));; redraw_input_line) (λ _ s', typing s' (mk_line t q h r)) s).
  { intros q Hq. apply wp_bind, wp_modify. apply redraw_typing; [by apply (line_set t p h r)|apply Hready..]. }
  destruct (Z.eqb_spec c 0x84) as [->|]; [by apply (Hmove 0%nat); lia|].
  destruct (Z.eqb_spec c 0x85) as [->|].
  { apply wp_bind, (wp_of_option _ (Z.of_nat (length t))); [apply str_len_holds, Hin|]. by apply Hmove. }
  unfold line_key. repeat (rewrite (proj2 (Z.eqb_neq c _)) by done).
  destruct ((32 <=? c) && (c <=? 126)) eqn:Ec; cbn [andb]; [|by apply wp_ret]. apply andb_true_iff in Ec as [E1%Z.leb_le E2%Z.leb_le].
  apply wp_bind. apply (wp_mono _ (λ _ s', line_in s' (mk_line t p h None) ∧ ready s')).
  - rewrite Hr. destruct r as [i|]; cbn [from_option].
    + rewrite (proj2 (Z.eqb_neq _ _)) by lia. apply wp_modify. split; [by split_and!|done].
    + by apply wp_ret.
  - intros [] s2 [Hl2 Hr2]. cbn [l_text l_pos l_history]. destruct (Nat.leb_spec 255 (length t)); [by apply (full_run c); [|apply Hr2|]|].
    apply char_run; [done|done|unfold is_char; lia|done].
Qed.
End refinement.

(** ** A shell to try *)

(** The screen is a cursor; the commands that were called are kept. *)
Record demo_world := mk_demo { dw_cursor : Z * Z; dw_called : list (Z * str) }.
#[local] Instance demo_screen : TextScreen demo_world := {|
  tx_width w := 640; tx_height w := 480; tx_scale w := 1; tx_cursor w := dw_cursor w; tx_double w := 1;
  tx_move x y := modify (λ w, mk_demo (x, y) (dw_called w)); tx_string s c := mret tt; tx_putchar a c := mret tt;
  tx_rect x y w h c := mret tt; tx_clear c := mret tt; tx_prompt cwd := modify (λ w, mk_demo (8, (dw_cursor w).2) (dw_called w));
  tx_swap := mret tt; tx_cursor_draw := mret tt; tx_cursor_c := mret tt; tx_reset_blink := mret tt;
|}.
#[local] Instance demo_session : Session demo_world := {|
  sn_gui_running w := 0; sn_in_kedit w := 0; sn_kedit_key c := mret tt; sn_cwd w := lit "/";
  sn_command k args := modify (λ w, mk_demo (dw_cursor w) (dw_called w ++ [(k, args)]));
|}.
#[local] Instance demo_screen_laws : TextScreenLaws demo_world.
Proof.
  refine {| tx_ok w := 0 ≤ (dw_cursor w).1 < 2 ^ 31 ∧ 0 ≤ (dw_cursor w).2 ∧ (dw_cursor w).2 + 16 ≤ 480 |}; try done.
  intros cwd s _ _ w H. cbn in *. lia.
Defined.
#[local] Instance demo_cursor_laws : TextCursorLaws demo_world.
Proof. split; try done. Defined.
#[local] Instance demo_session_laws : SessionLaws (W := demo_world).
Proof. split; [done|]. intros w _. exists (chars "/"). split; [apply holds_lit; eval_decide|cbn; lia]. Defined.

(** Eight rows that still hold a command of before. *)
Definition demo_stack : list (list Z) := replicate 8 (chars "poweroff" ++ replicate 248 0).
Definition demo_row (t : str) : list Z := t ++ replicate (256 - length t) 0.
Definition demo_shell (t : str) (pos : Z) (h : list str) : shell demo_world :=
  mk_shell (demo_row t) pos 8 1 (map demo_row h ++ replicate (50 - length h) (demo_row [])) (Z.of_nat (length h)) (-1)
    (mk_demo (8 + 8 * pos, 32) []).

(** Keys typed one after the other: what was called, what is in the line, and the position. *)
Fixpoint press (keys : list Z) : M (shell demo_world) unit :=
  match keys with [] => mret tt | k :: keys' => console_handle_key demo_stack k;; press keys' end.
Definition after_keys (keys : list Z) (s : shell demo_world) : option (list (Z * str) * str * Z) :=
  match press keys s with
  | Done _ s' => Some (dw_called (sh_world s'), c_text (input_buffer s'), input_pos s')
  | Stuck _ => None
  end.

Example line_typed : after_keys (chars "ls  /tmp" ++ [10]) (demo_shell [] 0 []) = Some ([(11, chars "/tmp")], [], 0).
Proof. by vm_compute. Qed.
Example line_chained : after_keys (chars "cd /a && ls&&echo x " ++ [10]) (demo_shell [] 0 []) =
  Some ([(12, chars "/a"); (11, []); (0, chars "x")], [], 0).
Proof. by vm_compute. Qed.

(** A line that ends with [&&] runs as many characters of the row left on the stack as its last
    command has; a blank behind the [&&] prevents it.  The eighth [&&] at the end of a line is
    outside the array. *)
Example open_end : after_keys (chars "mkdir /x&&" ++ [10]) (demo_shell [] 0 []) = Some ([(13, chars "/x"); (16, [])], [], 0).
Proof. by vm_compute. Qed.
Example open_end_blank : after_keys (chars "mkdir /x&& " ++ [10]) (demo_shell [] 0 []) = Some ([(13, chars "/x")], [], 0).
Proof. by vm_compute. Qed.
Example open_end_eight : after_keys (concat (replicate 8 (chars "ls&&")) ++ [10]) (demo_shell [] 0 []) = None.
Proof. by vm_compute. Qed.

(** The first way up gives the oldest command, and the line that was begun is lost. *)
Example up_is_oldest : after_keys (chars "mk" ++ [0x80; 0x81]) (demo_shell [] 0 [chars "ls"; chars "date"]) = Some ([], [], 0) ∧
  after_keys (chars "mk" ++ [0x80]) (demo_shell [] 0 [chars "ls"; chars "date"]) = Some ([], chars "ls", 2).
Proof. by vm_compute. Qed.

(** The end of a line runs what is before the cursor; at its start it runs nothing and the text stays. *)
Example enter_inside : after_keys (chars "ls /tmp" ++ [0x82; 0x82; 0x82; 0x82; 10]) (demo_shell [] 0 []) = Some ([(11, [])], [], 0).
Proof. by vm_compute. Qed.
Example enter_at_start : after_keys (chars "ls" ++ [0x84; 10]) (demo_shell [] 0 []) = Some ([], chars "ls", 0).
Proof. by vm_compute. Qed.

(** The carriage return is put behind a full line: outside the array after the last place. *)
Example return_outside : after_keys [13] (demo_shell (replicate 255 97) 255 []) ≠ None ∧
  after_keys [13; 13] (demo_shell (replicate 255 97) 255 []) = None.
Proof. by vm_compute. Qed.

Lemma demo_stack_rows : length demo_stack = 8%nat ∧ Forall (λ r : list Z, length r = 256%nat) demo_stack.
Proof. split; [done|]. apply (bool_decide_unpack _). by vm_compute. Qed.

Lemma chained_commands_witness :
  parse_and_execute_chained demo_stack (lit "cd /a && ls") (demo_shell [] 0 []) =
  run_pieces (trim <$> commands_of (chars "cd /a && ls")) (demo_shell [] 0 []).
Proof.
  apply (chained_commands demo_stack (lit "cd /a && ls") (chars "cd /a && ls") (demo_shell [] 0 []));
    [apply holds_lit; eval_decide|done|cbn; lia|vm_compute; by split_and!|vm_compute; lia|apply demo_stack_rows..].
Defined.

(** A shell with [ls] typed and [date] in the history. *)
Lemma demo_typing_line : typing (demo_shell (chars "ls") 2 [chars "date"]) (mk_line (chars "ls") 2 [chars "date"] None).
Proof.
  assert (Hl : line_in (demo_shell (chars "ls") 2 [chars "date"]) (mk_line (chars "ls") 2 [chars "date"] None)).
  { split_and!; try done; try (cbn; lia).
    - split; [by vm_compute|]. apply (holds_intro (chars "ls") (replicate 253 0)). eval_decide.
    - split_and!; [by vm_compute|apply (bool_decide_unpack _); by vm_compute|cbn; lia|].
      apply Forall2_cons_2; [|done]. apply (holds_intro (chars "date") (replicate 251 0)). eval_decide. }
  apply cursor_typing; [done|done|]. split; [|split]; cbn; lia.
Qed.

Lemma console_key_refines_witness :
  wp (console_handle_key demo_stack 10) (λ _ s', typing s' (mk_line [] 0 [chars "date"; chars "ls"] None)) (demo_shell (chars "ls") 2 [chars "date"]).
Proof.
  apply (console_key_refines demo_stack (proj1 demo_stack_rows) (proj2 demo_stack_rows) 10 (mk_line (chars "ls") 2 [chars "date"] None)
    (demo_shell (chars "ls") 2 [chars "date"])); [apply demo_typing_line|done|done|done].
Defined.
