(* ===== verification/FileCommands.v ===== *)
(** * The commands for files, [shell/commands/fs.c]

    The commands work on the working directory [cwd], an array of 256 characters, and on the
    files, the directories, the output and the pointing devices, which are classes.  The
    argument of a command is an array that holds a string. *)

From Stdlib Require Import ZArith Lia String.
From stdpp Require Import base list numbers.
From S2P Require Import Prelude CString Vfs Buffer Font Console Window.
Open Scope Z_scope.
Set Default Goal Selector "!".

Definition MAX_PATH_LEN : Z := 256.
Definition TERM_DEFAULT : Z := 0xFFFFFFFF.
Definition TERM_ERROR : Z := 0xFFFF0000.
Definition TERM_COMMAND : Z := 0xFFFFFFFF.
Definition TERM_SUCCESS : Z := 0xFFFFFFFF.
Definition TERM_INFO : Z := 0xFFFFFFFF.

(** A child of a directory. *)
Record entry := mk_entry { en_name : str; en_type : Z; en_size : Z }.

Class Directories (W : Type) := {
  dr_resolve : str → M W (option (Z * list entry));  (** [fs_resolve]: the type of a node, its children *)
  dr_mkdir : str → M W Z;                            (** [fs_mkdir] *)
  dr_mount : str → str → str → M W Z;                (** [fs_mount] *)
}.
(** The keyboard and the mice; [true] is the one on the USB. *)
Class Pointers (W : Type) := {
  kb_interrupt_count : M W Z;
  kb_has_key : M W Z;
  pd_initialized : bool → M W Z;
  pd_interrupt_count : bool → M W Z;
  pd_position : bool → M W (Z * Z);
  pd_buttons : bool → M W Z;
  pd_test_mode : bool → M W unit;
  pd_force_update : bool → M W unit;
  pd_set_position : Z → Z → M W unit;
  pd_reload_cursor : M W unit;
  pd_sensitivity : M W Z;
  pd_set_sensitivity : Z → M W unit;
}.

Record commands (W : Type) := mk_commands { cwd : list Z; cm_world : W }.
Arguments mk_commands {W}.
Arguments cwd {W}.
Arguments cm_world {W}.

(** [full_path]: the path itself when it begins with a slash, and otherwise from [cwd] on. *)
Definition path_from (cwd path : list Z) : option (list Z) :=
  c ← arr_get path 0;
  if c =? 47 then str_copy (replicate 256 0) path else
  full_path ← str_copy (replicate 256 0) cwd;
  n ← str_len cwd;
  l ← arr_get cwd (n - 1);
  full_path ← (if l =? 47 then Some full_path else str_append full_path (lit "/"));
  str_append full_path path.

(** [for (p = cwd; *p; p++) if ( *p == '/') last_slash = p;] *)
Fixpoint last_slash (a : list Z) (i last : Z) : option Z :=
  match a with
  | [] => None
  | c :: a' => if c =? 0 then Some last else last_slash a' (i + 1) (if c =? 47 then i else last)
  end.

(** A word goes into an array of 64: the array, and what is left of the arguments. *)
Fixpoint take_word (args word : list Z) (i : Z) : option (list Z * list Z) :=
  match args with
  | [] => None
  | c :: args' =>
      if (c =? 0) || (c =? 32) then w ← arr_set word i 0; Some (w, args)
      else w ← arr_set word i c; take_word args' w (i + 1)
  end.

(** [new_div] from the digits of the argument, whatever is between them. *)
Fixpoint digits_value (a : list Z) (v : Z) : option Z :=
  match a with
  | [] => None
  | c :: a' =>
      if c =? 0 then Some v
      else digits_value a' (if (48 <=? c) && (c <=? 57) then i32 (v * 10 + (c - 48)) else v)
  end.
(** The digits at the start: their value and what follows. *)
Fixpoint digits_prefix (a : list Z) (v : Z) : option (Z * list Z) :=
  match a with
  | [] => None
  | c :: a' => if (48 <=? c) && (c <=? 57) then digits_prefix a' (i32 (v * 10 + (c - 48))) else Some (v, a)
  end.

Section commands.
  Context {W : Type} `{!Window.Files W} `{!Directories W} `{!Printers W} `{!Pointers W}.
  Abbreviation S := (commands W).

Definition with_cwd (d : list Z) (s : S) : S := mk_commands d (cm_world s).
Definition on_world {B} (m : M W B) : M S B := zoom cm_world (λ w s, mk_commands (cwd s) w) m.
Definition term (t : str) (color : Z) : M S unit := on_world (pr_terminal t color).
Definition print (t : str) (color : Z) : M S unit := on_world (pr_print t color).
Definition full_path (path : list Z) : M S (list Z) := s ← get; of_option (path_from (cwd s) path).
(** The numeral of a number, through an array of [n] characters. *)
Definition term_uint (n : nat) (v color : Z) : M S unit :=
  b ← of_option (b ← str_copy (replicate n 0) (lit ""); str_append_uint b (u32 v));
  term (c_text b) color.

Definition cat_step (fd : Z) (buf : list Z) : M S (list Z + unit) :=
  '(bytes, got) ← on_world (f_read fd 255);
  if bytes <=? 0 then mret (inr tt) else
  buf ← of_option (if (length got <=? length buf)%nat then Some (got ++ drop (length got) buf) else None);
  buf ← of_option (arr_set buf bytes 0);
  term (c_text buf) TERM_DEFAULT;;
  mret (inl buf).
Definition cmd_cat (fuel : nat) (s : list Z) : M S unit :=
  c ← of_option (arr_get s 0);
  if c =? 0 then term (chars "cat: missing file operand" ++ [10]) TERM_ERROR else
  p ← full_path s;
  fd ← on_world (f_open (c_text p) O_RDONLY);
  if fd <? 0 then
    term (chars "error: cannot open file: ") TERM_ERROR;;
    term (c_text p) TERM_ERROR;;
    term [10] TERM_ERROR
  else
    iterM fuel (cat_step fd) (replicate 256 0);;
    on_world (f_close fd);;
    term [10] TERM_DEFAULT.

Definition ls_entry (child : entry) : M S unit :=
  let dir := en_type child =? FS_DIR in
  let color := if dir then TERM_INFO else TERM_DEFAULT in
  term (en_name child) color;;
  term (if dir then [47] else if en_type child =? FS_DEV then [42] else []) color;;
  (if (en_type child =? FS_FILE) && (0 <? en_size child) then
     buf ← of_option (b ← str_copy (replicate 32 0) (lit " | "); b ← str_append_uint b (u32 (en_size child)); str_append b (lit " bytes"));
     term (c_text buf) TERM_INFO
   else mret tt);;
  term [32; 32] TERM_DEFAULT.
Fixpoint ls_entries (l : list entry) : M S unit :=
  match l with [] => mret tt | e :: l' => ls_entry e;; ls_entries l' end.
Definition cmd_ls (s : list Z) : M S unit :=
  c ← of_option (arr_get s 0);
  st ← get;
  dir ← on_world (dr_resolve (c_text (if c =? 0 then cwd st else s)));
  match dir with
  | None => term (chars "error: directory not found" ++ [10]) TERM_ERROR
  | Some (type, children) =>
      if negb (type =? FS_DIR) then term (chars "error: not a directory" ++ [10]) TERM_ERROR
      else ls_entries children;; term [10] TERM_DEFAULT
  end.

Definition cd_up : M S unit :=
  s ← get;
  i ← of_option (last_slash (cwd s) 0 0);
  d ← of_option (if i =? 0 then str_copy (cwd s) (lit "/") else arr_set (cwd s) i 0);
  modify (with_cwd d).
Definition cd_to (path : list Z) : M S unit :=
  p ← full_path path;
  dir ← on_world (dr_resolve (c_text p));
  match dir with
  | None => print (chars "cd: directory not found: ") red;; print (c_text p) red;; print [10] red
  | Some (type, _) =>
      if negb (type =? FS_DIR) then print (chars "cd: not a directory: ") red;; print (c_text p) red;; print [10] red
      else
        s ← get;
        d ← of_option (str_copy (cwd s) p);
        n ← of_option (str_len d);
        l ← of_option (if 1 <? n then arr_get d (n - 1) else Some 47);
        d ← of_option (if l =? 47 then Some d else str_append d (lit "/"));
        modify (with_cwd d)
  end.
Definition cmd_cd (s : list Z) : M S unit :=
  c ← of_option (arr_get s 0);
  let path := if c =? 0 then lit "/" else s in
  up ← of_option (str_equals path (lit ".."));
  if (up : bool) then cd_up else cd_to path.

Definition cmd_mkdir (s : list Z) : M S unit :=
  c ← of_option (arr_get s 0);
  if c =? 0 then term (chars "mkdir: missing directory name" ++ [10]) TERM_ERROR else
  p ← full_path s;
  r ← on_world (dr_mkdir (c_text p));
  if r <? 0 then
    term (chars "mkdir: cannot create directory: ") TERM_ERROR;; term (c_text p) TERM_ERROR;; term [10] TERM_ERROR
  else mret tt.

Definition cmd_touch (s : list Z) : M S unit :=
  c ← of_option (arr_get s 0);
  if c =? 0 then term (chars "touch: missing file name" ++ [10]) TERM_ERROR else
  p ← full_path s;
  fd ← on_world (f_open (c_text p) (Z.lor O_CREAT O_WRONLY));
  if fd <? 0 then
    term (chars "touch: cannot create file: ") TERM_ERROR;; term (c_text p) TERM_ERROR;; term [10] TERM_ERROR
  else on_world (f_close fd);; mret tt.

(** The three words of [mount]. *)
Definition mount_words (args : list Z) : option (list Z * list Z * list Z) :=
  '(src, args) ← take_word args (replicate 64 0) 0;
  args ← skip_blanks args;
  '(tgt, args) ← take_word args (replicate 64 0) 0;
  args ← skip_blanks args;
  '(type, _) ← take_word args (replicate 64 0) 0;
  Some (src, tgt, type).
Definition mount_message (head src tgt type : str) (color : Z) : M S unit :=
  term head color;; term src color;; term (chars " to ") color;; term tgt color;; term (chars " as ") color;;
  term type color;; term [10] color.
Definition cmd_mount (s : list Z) : M S unit :=
  c ← of_option (arr_get s 0);
  if c =? 0 then term (chars "mount: usage: mount <src> <tgt> <type>" ++ [10]) TERM_ERROR else
  '(src, tgt, type) ← of_option (mount_words s);
  r ← on_world (dr_mount (c_text src) (c_text tgt) (c_text type));
  if r <? 0 then mount_message (chars "mount: failed to mount ") (c_text src) (c_text tgt) (c_text type) TERM_ERROR
  else mount_message (chars "mounted ") (c_text src) (c_text tgt) (c_text type) TERM_SUCCESS.

(** ** The mice *)

Definition mouse_report (name : str) (usb : bool) : M S unit :=
  init ← on_world (pd_initialized usb);
  if truthy init then
    interrupts ← on_world (pd_interrupt_count usb);
    '(x, y) ← on_world (pd_position usb);
    buttons ← on_world (pd_buttons usb);
    term (name ++ chars " Mouse position: X=") TERM_DEFAULT;;
    term_uint 16 x TERM_INFO;;
    term (chars " Y=") TERM_DEFAULT;;
    term_uint 16 y TERM_INFO;;
    term [10] TERM_DEFAULT;;
    term (name ++ chars " Buttons: ") TERM_DEFAULT;;
    (if truthy (Z.land buttons 1) then term (chars "LEFT ") TERM_SUCCESS else mret tt);;
    (if truthy (Z.land buttons 2) then term (chars "RIGHT ") TERM_SUCCESS else mret tt);;
    (if truthy (Z.land buttons 4) then term (chars "MIDDLE ") TERM_SUCCESS else mret tt);;
    (if truthy buttons then mret tt else term (chars "NONE") TERM_INFO);;
    term [10] TERM_DEFAULT;;
    term (name ++ chars " Mouse interrupts: ") TERM_DEFAULT;;
    term_uint 16 interrupts TERM_COMMAND;;
    term [10] TERM_DEFAULT
  else term (name ++ chars " Mouse not initialized" ++ [10]) TERM_ERROR.

Definition on_word (s : list Z) (w : String.string) (m : M S unit) : M S unit :=
  b ← of_option (str_equals s (lit w)); if (b : bool) then m else mret tt.
Definition cmd_mouse (s : list Z) : M S unit :=
  n ← on_world kb_interrupt_count;
  term (chars "Keyboard interrupts: ") TERM_DEFAULT;;
  term_uint 16 n TERM_COMMAND;;
  term [10] TERM_DEFAULT;;
  k ← on_world kb_has_key;
  term (chars "Keyboard buffer: ") TERM_DEFAULT;;
  (if truthy k then term (chars "HAS DATA") TERM_SUCCESS else term (chars "EMPTY") TERM_ERROR);;
  term [10] TERM_DEFAULT;;
  mouse_report (chars "PS/2") false;;
  mouse_report (chars "USB") true;;
  on_word s "test" (on_world (pd_test_mode false);; on_world (pd_test_mode true);;
    term (chars "Test mode enabled - mice will move automatically" ++ [10]) TERM_SUCCESS);;
  on_word s "force" (on_world (pd_force_update false);; on_world (pd_force_update true);;
    term (chars "Forced mouse cursor update" ++ [10]) TERM_SUCCESS);;
  on_word s "usbtest" (on_world (pd_test_mode true);; term (chars "USB mouse test mode enabled" ++ [10]) TERM_INFO);;
  on_word s "ps2test" (on_world (pd_test_mode false);; term (chars "PS/2 mouse test mode enabled" ++ [10]) TERM_SUCCESS);;
  on_word s "cursor" (term (chars "Reloading mouse cursor to arrow..." ++ [10]) TERM_INFO;; on_world pd_reload_cursor;;
    term (chars "Cursor reloaded! Switch to GUI to see the arrow." ++ [10]) TERM_SUCCESS);;
  on_word s "sensitivity" (
    d ← on_world pd_sensitivity;
    b ← of_option (b ← str_copy (replicate 16 0) (lit ""); str_append_uint b (u32 d));
    term (chars "Current mouse sensitivity divider: ") TERM_DEFAULT;;
    term (c_text b) TERM_INFO;;
    term (chars " (higher = slower)" ++ [10]) TERM_DEFAULT;;
    term (chars "Use 'mouse sensitivity <1-4>' to change" ++ [10]) TERM_INFO);;
  p ← of_option (begins s (chars "sensitivity "));
  if (p : bool) then
    new_div ← of_option (digits_value (drop 12 s) 0);
    if (1 <=? new_div) && (new_div <=? 4) then
      on_world (pd_set_sensitivity new_div);;
      term (chars "Mouse sensitivity divider set to ") TERM_SUCCESS;;
      term_uint 16 new_div TERM_INFO;;
      term [10] TERM_SUCCESS
    else term (chars "Invalid sensitivity value. Use 1-4 (higher = slower)" ++ [10]) TERM_ERROR
  else mret tt.

Definition cmd_mousemove (args : list Z) : M S unit :=
  init ← on_world (pd_initialized false);
  if negb (truthy init) then term (chars "Mouse not initialized" ++ [10]) TERM_ERROR else
  p ← of_option (skip_blanks args);
  '(x, p) ← of_option (digits_prefix p 0);
  p ← of_option (skip_blanks p);
  '(y, p) ← of_option (digits_prefix p 0);
  let x := if x <? 0 then 0 else x in
  let y := if y <? 0 then 0 else y in
  on_world (pd_set_position x y);;
  term (chars "Mouse moved to: X=") TERM_DEFAULT;;
  term_uint 16 x TERM_INFO;;
  term (chars " Y=") TERM_DEFAULT;;
  term_uint 16 y TERM_INFO;;
  term [10] TERM_DEFAULT.

Definition cmd_cursor : M S unit :=
  term (chars "Reloading mouse cursor from BMP files..." ++ [10]) TERM_INFO;;
  on_world pd_reload_cursor;;
  term (chars "Cursor reloaded! Switch to GUI to see changes." ++ [10]) TERM_SUCCESS.
End commands.

(** ** Paths as strings *)

Definition path_of (p t : str) : str :=
  if bool_decide (list.head t = Some 47) then t else p ++ (if bool_decide (list.last p = Some 47) then [] else [47]) ++ t.

(** What is before the last slash; the directory above, as [cd ..] finds it. *)
Fixpoint cut_slash (r : str) : str := match r with [] => [] | c :: r' => if c =? 47 then r' else cut_slash r' end.
Definition above (p : str) : str := reverse (cut_slash (reverse p)).
Definition up (p : str) : str := if bool_decide (above p = []) then [47] else above p.

Lemma arr_get_first a t : holds a t → arr_get a 0 = Some (default 0 (list.head t)).
Proof. intros (_ & rest & ->). by destruct t. Qed.

Lemma first_zero a t : holds a t → ∃ c, arr_get a 0 = Some c ∧ (c =? 0) = bool_decide (t = []) ∧ (c =? 47) = bool_decide (list.head t = Some 47).
Proof.
  intros H. exists (default 0 (list.head t)). split; [by apply arr_get_first|]. destruct H as (Hc & _). destruct t as [|c t]; [done|].
  cbn. apply list.Forall_cons in Hc as [Hc _]. split; [by apply char_nonzero|].
  destruct (Z.eqb_spec c 47) as [->|Hne]; symmetry; [by apply bool_decide_eq_true|]. apply bool_decide_eq_false. by intros [= ->].
Qed.

Lemma last_char a p : holds a p → p ≠ [] → ∃ l, arr_get a (Z.of_nat (length p) - 1) = Some l ∧ list.last p = Some l.
Proof.
  intros (_ & rest & ->) Hne. destruct (exists_last Hne) as (q & l & ->). exists l. rewrite last_snoc. split; [|done].
  rewrite length_app, <-app_assoc. cbn [length app]. rewrite <-(arr_get_app q l (0 :: rest)). f_equal. lia.
Qed.

Lemma path_from_run cw a p t : holds cw p → p ≠ [] → holds a t → (length (path_of p t) ≤ 255)%nat →
  ∃ d, path_from cw a = Some d ∧ text_in 256 d (path_of p t).
Proof.
  intros Hp Hne Ha Hl. unfold path_from, path_of in *. destruct (first_zero a t Ha) as (c & -> & _ & Hc). cbn [mbind option_bind]. rewrite Hc.
  assert (E0 : length (replicate 256 0) = 256%nat) by apply length_replicate.
  revert Hl. case_bool_decide as Hh; intros Hl; [by apply text_in_copy; [| |lia]|].
  rewrite !length_app in Hl. destruct (text_in_copy 256 (replicate 256 0) cw p) as (d & -> & Hd); [done|done|lia|]. cbn [mbind option_bind].
  rewrite (str_len_holds _ _ Hp). cbn [mbind option_bind]. destruct (last_char cw p Hp Hne) as (l & -> & El). cbn [mbind option_bind]. rewrite El in *.
  destruct (Z.eqb_spec l 47) as [->|Hn].
  - rewrite bool_decide_eq_true_2 in Hl |- * by done. cbn in Hl |- *. by apply text_in_append; [| |lia].
  - rewrite bool_decide_eq_false_2 in Hl |- * by congruence. cbn [length] in Hl.
    destruct (text_in_append 256 d (lit "/") p [47] Hd) as (d1 & -> & Hd1); [by apply (holds_lit "/"); eval_decide|cbn; lia|].
    cbn [mbind option_bind]. rewrite (app_assoc p). apply text_in_append; [done|done|]. rewrite length_app. cbn. lia.
Qed.

Lemma above_app q r : 47 ∉ r → above (q ++ 47 :: r) = q.
Proof.
  intros Hr. unfold above. rewrite reverse_app, reverse_cons, <-app_assoc. assert (Hr' : 47 ∉ reverse r) by (by rewrite elem_of_reverse).
  induction (reverse r) as [|x l IH]; cbn [app cut_slash]; [by rewrite Z.eqb_refl, reverse_involutive|]. apply not_elem_of_cons in Hr' as [Hx Hl].
  rewrite (proj2 (Z.eqb_neq x 47)) by done. by apply IH.
Qed.

Lemma above_none p : 47 ∉ p → above p = [].
Proof.
  intros Hp. unfold above. assert (Hr : 47 ∉ reverse p) by (by rewrite elem_of_reverse).
  induction (reverse p) as [|x l IH]; [done|]. apply not_elem_of_cons in Hr as [Hx Hl]. cbn [cut_slash]. rewrite (proj2 (Z.eqb_neq x 47)) by done. by apply IH.
Qed.

Lemma split_slash (p : str) : 47 ∈ p → ∃ q r, p = q ++ 47 :: r ∧ 47 ∉ r.
Proof.
  induction p as [|c p IH]; [by intros H%elem_of_nil|]. destruct (decide (47 ∈ p)) as [Hp|Hp].
  - intros _. destruct (IH Hp) as (q & r & -> & Hr). by exists (c :: q), r.
  - intros [<-|Hc]%elem_of_cons; [by exists [], p|done].
Qed.

Lemma last_slash_none a p : holds a p → 47 ∉ p → ∀ i l, last_slash a i l = Some l.
Proof.
  intros (Hc & rest & ->). induction Hc as [|c p Hc Hcs IH]; intros Hp i l; cbn; [done|]. apply not_elem_of_cons in Hp as [Hx Hp].
  rewrite (char_nonzero c) by done. rewrite (proj2 (Z.eqb_neq c 47)) by done. by apply IH.
Qed.

Lemma word_slash_run q : ∀ a r i l, holds a (q ++ 47 :: r) → 47 ∉ r → last_slash a i l = Some (i + Z.of_nat (length q)).
Proof.
  induction q as [|c q IH]; intros a r i l (Hc & rest & ->) Hr; cbn [app] in *; apply list.Forall_cons in Hc as [Hc Hcs]; cbn [last_slash].
  - change (47 =? 0) with false. cbn. rewrite (last_slash_none _ r) by (done || by apply holds_intro). f_equal. lia.
  - rewrite (char_nonzero c) by done. rewrite (IH _ r) by (done || by apply holds_intro). cbn [length]. f_equal. lia.
Qed.

(** The array after [cd ..]. *)
Lemma cd_up_run a p : text_in 256 a p → p ≠ [] →
  ∃ i d, last_slash a 0 0 = Some i ∧ (if i =? 0 then str_copy a (lit "/") else arr_set a i 0) = Some d ∧ text_in 256 d (up p).
Proof.
  intros [Hl Ha] Hne. pose proof (holds_length _ _ Ha) as Hlen.
  assert (Hroot : ∃ d, str_copy a (lit "/") = Some d ∧ text_in 256 d [47]).
  { apply text_in_copy; [done|by apply (holds_lit "/"); eval_decide|cbn; lia]. }
  destruct (decide (47 ∈ p)) as [Hp|Hp].
  - destruct (split_slash p Hp) as (q & r & -> & Hr). exists (Z.of_nat (length q)). rewrite (word_slash_run q a r) by done.
    unfold up. rewrite above_app by done. destruct q as [|c q].
    + rewrite bool_decide_eq_true_2 by done. destruct Hroot as (d & E & Hd). by exists d.
    + rewrite bool_decide_eq_false_2 by done. rewrite (proj2 (Z.eqb_neq _ 0)) by (cbn; lia). rewrite length_app in Hlen.
      eexists. split; [done|]. rewrite arr_set_inside by lia. split; [done|]. rewrite Nat2Z.id. split; [by rewrite length_insert|].
      replace (c :: q) with (take (length (c :: q)) ((c :: q) ++ 47 :: r)) at 2 by (by rewrite take_app_length).
      apply holds_take; [done|]. rewrite length_app. lia.
  - exists 0. rewrite (last_slash_none a p) by done. unfold up. rewrite above_none by done. rewrite bool_decide_eq_true_2 by done.
    destruct Hroot as (d & E & Hd). by exists d.
Qed.

(** A word of the arguments goes into its array. *)
Lemma take_word_run t : ∀ args w i, holds args t → (i + length (word t).1 < length w)%nat →
  ∃ args', take_word args w (Z.of_nat i) = Some (take i w ++ (word t).1 ++ 0 :: drop (S (i + length (word t).1)) w, args') ∧ holds args' (word t).2.
Proof.
  induction t as [|c t IH]; intros args w i Ha Hl; destruct Ha as (Hc & rest & ->); cbn [word app take_word] in *.
  - cbn in *. rewrite arr_set_inside, Nat2Z.id by lia. cbn. eexists. split; [|by apply (holds_intro [])]. repeat f_equal.
    rewrite Nat.add_0_r, insert_take_drop by lia. done.
  - apply list.Forall_cons in Hc as [Hc Hcs]. rewrite (char_nonzero c Hc). cbn [orb]. destruct (c =? 32); cbn in Hl.
    + cbn. rewrite arr_set_inside, Nat2Z.id by lia. cbn. eexists. split; [|by apply (holds_intro (c :: t)); constructor]. repeat f_equal.
      rewrite Nat.add_0_r, insert_take_drop by lia. done.
    + destruct (word t) as [u r] eqn:Eu. cbn in *. rewrite arr_set_inside, Nat2Z.id by lia. cbn.
      destruct (IH (t ++ 0 :: rest) (<[i := c]> w) (S i)) as (args' & E & Hr); [by apply holds_intro|rewrite length_insert; lia|].
      replace (Z.of_nat i + 1) with (Z.of_nat (S i)) by lia. rewrite E. exists args'. split; [|done]. f_equal. f_equal.
      rewrite (take_S_r _ _ c) by (rewrite list_lookup_insert_eq; [done|lia]). rewrite take_insert_ge, <-app_assoc by lia. cbn [app].
      rewrite drop_insert_lt by lia. do 5 f_equal. lia.
Qed.

Section laws.
  Context {W : Type} `{FI : !Window.Files W} `{DI : !Directories W} `{PR : !Printers W} `{PO : !Pointers W}.
  Abbreviation S := (commands W).

(** What the commands rely on: what is printed is shown in order, a path names the same node
    as long as nothing is made, an open file is read from its position on in any portions. *)
Class CommandLaws := {
  cl_shown : W → str;
  cl_dir : W → str → option (Z * list entry);
  cl_file : W → str → option str;
  cl_pos : W → Z → option (str * nat);
  cl_terminal : ∀ t c w, ∃ w', pr_terminal t c w = Done tt w' ∧ cl_shown w' = cl_shown w ++ t ∧
    cl_dir w' = cl_dir w ∧ cl_file w' = cl_file w ∧ cl_pos w' = cl_pos w;
  cl_print : ∀ t c w, ∃ w', pr_print t c w = Done tt w' ∧ cl_dir w' = cl_dir w;
  cl_resolve : ∀ p w, ∃ w', dr_resolve p w = Done (cl_dir w p) w' ∧ cl_dir w' = cl_dir w ∧ cl_shown w' = cl_shown w;
  cl_open : ∀ p c w, cl_file w p = Some c → ∃ fd w', f_open p O_RDONLY w = Done fd w' ∧ 0 ≤ fd ∧
    cl_pos w' fd = Some (p, 0%nat) ∧ cl_file w' = cl_file w ∧ cl_shown w' = cl_shown w;
  cl_read : ∀ fd n p i c w, cl_pos w fd = Some (p, i) → cl_file w p = Some c → 0 < n → (i ≤ length c)%nat →
    ∃ k w', f_read fd n w = Done (Z.of_nat k, take k (drop i c)) w' ∧ Z.of_nat k ≤ n ∧ (i + k ≤ length c)%nat ∧
    (k = 0%nat → i = length c) ∧ cl_pos w' fd = Some (p, (i + k)%nat) ∧ cl_file w' = cl_file w ∧ cl_shown w' = cl_shown w;
  cl_close : ∀ fd w, ∃ r w', f_close fd w = Done r w' ∧ cl_shown w' = cl_shown w;
}.
Context `{CL : !CommandLaws}.

Lemma commands_on_world {B} (m : M W B) b w' (s : S) (Q : B → S → Prop) : m (cm_world s) = Done b w' → Q b (mk_commands (cwd s) w') → wp (on_world m) Q s.
Proof. intros E HQ. unfold wp, on_world, zoom. by rewrite E. Qed.

(** ** The working directory *)

Definition cwd_in (s : S) (p : str) : Prop := text_in 256 (cwd s) p ∧ list.head p = Some 47.

(** The directory after [cd t]. *)
Definition cd_path (dir : str → option (Z * list entry)) (p t : str) : str :=
  let t := if bool_decide (t = []) then [47] else t in
  if bool_decide (t = [46; 46]) then up p else
  let q := path_of p t in
  match dir q with
  | Some (type, _) => if type =? FS_DIR then q ++ (if bool_decide (list.last q = Some 47) then [] else [47]) else p
  | None => p
  end.

Lemma path_of_head p t : list.head p = Some 47 → list.head (path_of p t) = Some 47.
Proof. intros H. unfold path_of. case_bool_decide; [done|]. by destruct p. Qed.

Lemma up_head p : list.head p = Some 47 → list.head (up p) = Some 47.
Proof.
  intros H. unfold up. case_bool_decide as Hn; [done|]. destruct (decide (47 ∈ p)) as [Hp|Hp]; [|by rewrite above_none in Hn].
  destruct (split_slash p Hp) as (q & r & -> & Hr). rewrite above_app in * by done. by destruct q.
Qed.

Lemma refuse_run (m1 m2 m3 : str * Z) (s : S) p dir : cwd_in s p → cl_dir (cm_world s) = dir →
  wp (print m1.1 m1.2;; print m2.1 m2.2;; print m3.1 m3.2) (λ _ s', cwd_in s' p ∧ cl_dir (cm_world s') = dir) s.
Proof.
  intros Hp Hd. destruct (cl_print m1.1 m1.2 (cm_world s)) as (w1 & E1 & F1). apply wp_bind. eapply commands_on_world; [exact E1|].
  destruct (cl_print m2.1 m2.2 w1) as (w2 & E2 & F2). apply wp_bind. eapply commands_on_world; [exact E2|].
  destruct (cl_print m3.1 m3.2 w2) as (w3 & E3 & F3). eapply commands_on_world; [exact E3|]. split; [exact Hp|]. cbn. congruence.
Qed.

Lemma cd_run a p t (s : S) : cwd_in s p → holds a t → (length (path_of p t) ≤ 254)%nat →
  wp (cmd_cd a) (λ _ s', cwd_in s' (cd_path (cl_dir (cm_world s)) p t) ∧ cl_dir (cm_world s') = cl_dir (cm_world s)) s.
Proof.
  intros [Hp Hhead] Ha Hlen. unfold cmd_cd, cd_path. assert (Hne : p ≠ []) by (by destruct p).
  destruct (first_zero a t Ha) as (c & E & Hc & _). apply wp_bind. eapply wp_of_option; [exact E|]. rewrite Hc. clear c E Hc.
  set (t' := if bool_decide (t = []) then [47] else t). set (a' := if bool_decide (t = []) then lit "/" else a).
  assert (Ha' : holds a' t'). { unfold a', t'. case_bool_decide; [by apply (holds_lit "/"); eval_decide|done]. }
  assert (Hl' : (length (path_of p t') ≤ 254)%nat). { unfold t'. case_bool_decide; [|done]. unfold path_of. rewrite bool_decide_eq_true_2 by done. cbn. lia. }
  clearbody a' t'. clear a t Ha Hlen. apply wp_bind, (wp_of_option _ (bool_decide (t' = [46; 46]))); [apply str_equals_holds; [done|apply (holds_lit ".."); eval_decide]|].
  case_bool_decide as Hup.
  - unfold cd_up. apply wp_bind, wp_get. destruct (cd_up_run (cwd s) p Hp Hne) as (i & d & E1 & E2 & Hd).
    apply wp_bind. eapply wp_of_option; [exact E1|]. apply wp_bind. eapply wp_of_option; [exact E2|]. apply wp_modify.
    split; [|done]. split; [done|by apply up_head].
  - unfold cd_to, full_path. apply wp_bind, wp_bind, wp_get. destruct (path_from_run (cwd s) a' p t') as (d & E1 & Hd); [apply Hp|done|done|lia|].
    eapply wp_of_option; [exact E1|]. rewrite (c_text_holds _ _ (proj2 Hd)). set (q := path_of p t') in *.
    destruct (cl_resolve q (cm_world s)) as (w1 & E2 & F1 & _). apply wp_bind. eapply commands_on_world; [exact E2|].
    destruct (cl_dir (cm_world s) q) as [[type l]|] eqn:Eq; [|by apply (refuse_run (_, _) (_, _) (_, _))].
    destruct (type =? FS_DIR); cbn [negb]; [|by apply (refuse_run (_, _) (_, _) (_, _))].
    apply wp_bind, wp_get. cbn [cwd]. destruct (text_in_copy 256 (cwd s) d q) as (d1 & E3 & Hd1); [apply Hp|apply Hd|lia|].
    apply wp_bind. eapply wp_of_option; [exact E3|]. apply wp_bind. eapply wp_of_option; [apply str_len_holds, Hd1|].
    pose proof (path_of_head p t' Hhead) as Hq. fold q in Hq. assert (Hqne : q ≠ []) by (by destruct q).
    assert (El : (if 1 <? Z.of_nat (length q) then arr_get d1 (Z.of_nat (length q) - 1) else Some 47) = list.last q).
    { destruct (last_char d1 q (proj2 Hd1) Hqne) as (l' & -> & El'). destruct (Z.ltb_spec 1 (Z.of_nat (length q))); [done|].
      destruct q as [|x [|y q']]; [done|by rewrite <-Hq|cbn in *; lia]. }
    destruct (last_char d1 q (proj2 Hd1) Hqne) as (l' & _ & E4). apply wp_bind, (wp_of_option _ l'); [by rewrite El|]. rewrite E4.
    destruct (Z.eqb_spec l' 47) as [->|Hn].
    + rewrite bool_decide_eq_true_2, app_nil_r by done. apply wp_bind, wp_ret, wp_modify. by split; [split|].
    + rewrite bool_decide_eq_false_2 by congruence. destruct (text_in_append 256 d1 (lit "/") q [47] Hd1) as (d2 & E5 & Hd2); [by apply (holds_lit "/"); eval_decide|cbn; lia|].
      apply wp_bind. eapply wp_of_option; [exact E5|]. apply wp_modify. split; [|done]. split; [done|]. by destruct q.
Qed.

(** C16: [cd].  From an absolute working directory, every [cd] whose path fits the array returns,
    and leaves an absolute working directory: the one [cd_path] gives, which is the path asked
    for, with a slash at its end, when a directory is there, and the old one when not. *)
Theorem cd_correct (a : list Z) (p t : str) (s : S) (Hp : cwd_in s p) (Ha : holds a t) (Hl : (length (path_of p t) ≤ 254)%nat) :
  wp (cmd_cd a) (λ _ s', cwd_in s' (cd_path (cl_dir (cm_world s)) p t) ∧ cl_dir (cm_world s') = cl_dir (cm_world s)) s.
Proof. by apply cd_run. Qed.

Lemma up_slash q r : 47 ∉ r → q ≠ [] → up (q ++ 47 :: r) = q.
Proof. intros Hr Hq. unfold up. rewrite above_app by done. by rewrite bool_decide_eq_false_2. Qed.

Lemma last_slash_snoc p : list.last (p ++ [47]) = Some 47.
Proof. by rewrite last_snoc. Qed.

Lemma cd_name_path dir p n l : list.head n ≠ Some 47 → n ≠ [] → n ≠ [46; 46] → 47 ∉ n →
  dir (p ++ 47 :: n) = Some (FS_DIR, l) → cd_path dir (p ++ [47]) n = p ++ 47 :: n ++ [47].
Proof.
  intros Hh Hn Hd H47 Hdir. unfold cd_path. rewrite (bool_decide_eq_false_2 (n = [])) by done. rewrite (bool_decide_eq_false_2 (n = [46; 46])) by done.
  assert (E : path_of (p ++ [47]) n = p ++ 47 :: n).
  { unfold path_of. rewrite bool_decide_eq_false_2 by done. rewrite bool_decide_eq_true_2 by apply last_slash_snoc. by rewrite app_nil_l, <-app_assoc. }
  rewrite E, Hdir, Z.eqb_refl. rewrite bool_decide_eq_false_2; [by rewrite <-app_assoc|].
  destruct (exists_last Hn) as (n' & x & ->). rewrite app_comm_cons, app_assoc, last_snoc. intros [= ->]. apply H47, elem_of_app. right. by constructor.
Qed.

Lemma up_name p n : 47 ∉ n → n ≠ [] → up (p ++ 47 :: n ++ [47]) = p ++ 47 :: n ∧ up (p ++ 47 :: n) = if bool_decide (p = []) then [47] else p.
Proof.
  intros H47 Hn. split.
  - rewrite app_comm_cons, app_assoc. apply up_slash; [by intros H%elem_of_nil|]. by destruct p.
  - unfold up. by rewrite above_app.
Qed.

(** [cd] into a directory and out of it.  After [cd name] the first [cd ..] takes away the
    slash at the end only, the second one leads back to where the name was given. *)
Theorem cd_up_takes_two (a dd : list Z) (p n : str) (l : list entry) (s : S) (Hp : cwd_in s (p ++ [47])) (Ha : holds a n)
    (Hdd : holds dd [46; 46]) (Hn : n ≠ []) (Hh : list.head n ≠ Some 47) (Hd : n ≠ [46; 46]) (H47 : 47 ∉ n)
    (Hdir : cl_dir (cm_world s) (p ++ 47 :: n) = Some (FS_DIR, l)) (Hl : (length p + length n ≤ 240)%nat) :
  wp (cmd_cd a;; cmd_cd dd) (λ _ s1, cwd_in s1 (p ++ 47 :: n) ∧
    wp (cmd_cd dd) (λ _ s2, cwd_in s2 (if bool_decide (p = []) then [47] else p)) s1) s.
Proof.
  destruct (up_name p n H47 Hn) as [U1 U2].
  assert (Hdots : ∀ q dir, cd_path dir q [46; 46] = up q) by done.
  assert (Hlen : ∀ q u, (length (path_of q u) ≤ length q + 1 + length u)%nat).
  { intros q u. unfold path_of. repeat case_bool_decide; rewrite ?length_app; cbn; lia. }
  apply wp_bind. eapply wp_mono; [apply (cd_run a (p ++ [47]) n s); [done|done|]|].
  { pose proof (Hlen (p ++ [47]) n). rewrite length_app in *. cbn in *. lia. }
  intros [] s1 [H1 Hd1]. rewrite (cd_name_path _ _ _ _ Hh Hn Hd H47 Hdir) in H1.
  eapply wp_mono; [apply (cd_run dd _ [46; 46] s1 H1 Hdd)|].
  { pose proof (Hlen (p ++ 47 :: n ++ [47]) [46; 46]). rewrite length_app in *. cbn [length] in *. rewrite length_app in *. cbn [length] in *. lia. }
  intros [] s2 [H2 Hd2]. rewrite Hdots, U1 in H2. split; [done|].
  eapply wp_mono; [apply (cd_run dd _ [46; 46] s2 H2 Hdd)|].
  { pose proof (Hlen (p ++ 47 :: n) [46; 46]). rewrite length_app in *. cbn [length] in *. lia. }
  intros [] s3 [H3 _]. by rewrite Hdots, U2 in H3.
Qed.

(** ** Output *)

Lemma term_run t c (s : S) (Q : unit → S → Prop) :
  (∀ w, cl_shown w = cl_shown (cm_world s) ++ t → cl_dir w = cl_dir (cm_world s) → cl_file w = cl_file (cm_world s) →
    cl_pos w = cl_pos (cm_world s) → Q tt (mk_commands (cwd s) w)) → wp (term t c) Q s.
Proof. intros HQ. destruct (cl_terminal t c (cm_world s)) as (w & E & H1 & H2 & H3 & H4). eapply commands_on_world; [exact E|]. by apply HQ. Qed.

Lemma cat_loop_run fuel fd q i c buf (s : S) : cl_pos (cm_world s) fd = Some (q, i) → cl_file (cm_world s) q = Some c → Forall is_char c →
  (i ≤ length c)%nat → length buf = 256%nat → (length c - i < fuel)%nat →
  wp (iterM fuel (cat_step fd) buf) (λ _ s', cwd s' = cwd s ∧ cl_shown (cm_world s') = cl_shown (cm_world s) ++ drop i c) s.
Proof.
  revert i buf s. induction fuel as [|fuel IH]; intros i buf s Hpos Hfile Hc Hi Hbuf Hf; [lia|]. cbn [iterM]. apply wp_bind. unfold cat_step.
  destruct (cl_read fd 255 q i c (cm_world s)) as (k & w1 & E & Hk & Hik & Hk0 & Hpos1 & Hfile1 & Hs1); [done|done|lia|done|].
  apply wp_bind. eapply commands_on_world; [exact E|]. cbv beta iota. destruct (Z.leb_spec (Z.of_nat k) 0).
  { apply wp_ret, wp_ret. cbn [cwd cm_world]. rewrite (drop_ge c i), app_nil_r by lia. done. }
  assert (El : length (take k (drop i c)) = k) by (rewrite length_take, length_drop; lia).
  rewrite El, Hbuf, (proj2 (Nat.leb_le k 256)) by lia. apply wp_bind, wp_ret. apply wp_bind.
  eapply wp_of_option; [rewrite arr_set_inside; [done|]; rewrite length_app, El, length_drop; lia|]. rewrite Nat2Z.id.
  set (buf1 := <[k := 0]> _). assert (Hb1 : holds buf1 (take k (drop i c))).
  { unfold buf1. rewrite insert_app_r_alt, El, Nat.sub_diag by lia. destruct (drop k buf) as [|x rest] eqn:Ed.
    - apply (f_equal length) in Ed. rewrite length_drop in Ed. cbn in Ed. lia.
    - cbn. apply holds_intro. by apply Forall_take, Forall_drop. }
  rewrite (c_text_holds _ _ Hb1). apply wp_bind, term_run. cbn [cwd cm_world]. intros w2 T1 T2 T3 T4. apply wp_ret.
  eapply wp_mono; [apply (IH (i + k)%nat buf1)|]; cbn [cm_world].
  - by rewrite T4.
  - by rewrite T3, Hfile1.
  - done.
  - done.
  - unfold buf1. rewrite length_insert, length_app, El, length_drop. lia.
  - lia.
  - intros [] s' [H1 H2]. split; [done|]. rewrite H2. cbn [cm_world]. rewrite T1, Hs1, <-app_assoc, <-drop_drop, take_drop. done.
Qed.

(** [cat].  Of a file that is there, [cat] shows the whole text, whatever the portions are in
    which it is read, and a new line, and returns. *)
Theorem cat_shows (fuel : nat) (a : list Z) (p t c : str) (s : S) (Hp : text_in 256 (cwd s) p) (Hne : p ≠ []) (Ha : holds a t) (Ht : t ≠ [])
    (Hl : (length (path_of p t) ≤ 255)%nat) (Hfile : cl_file (cm_world s) (path_of p t) = Some c) (Hc : Forall is_char c) (Hf : (length c < fuel)%nat) :
  wp (cmd_cat fuel a) (λ _ s', cwd s' = cwd s ∧ cl_shown (cm_world s') = cl_shown (cm_world s) ++ c ++ [10]) s.
Proof.
  unfold cmd_cat. destruct (first_zero a t Ha) as (x & E & Hx & _). apply wp_bind. eapply wp_of_option; [exact E|]. rewrite Hx, bool_decide_eq_false_2 by done.
  unfold full_path. apply wp_bind, wp_bind, wp_get. destruct (path_from_run (cwd s) a p t) as (d & E1 & Hd); [apply Hp|done..|].
  eapply wp_of_option; [exact E1|]. rewrite (c_text_holds _ _ (proj2 Hd)).
  destruct (cl_open _ _ _ Hfile) as (fd & w1 & E2 & Hfd & Hpos & Hf1 & Hs1). apply wp_bind. eapply commands_on_world; [exact E2|].
  rewrite (proj2 (Z.ltb_ge fd 0)) by done. apply wp_bind. eapply wp_mono.
  { apply (cat_loop_run fuel fd (path_of p t) 0 c); cbn [cm_world]; [done|by rewrite Hf1|done|lia|apply length_replicate|lia]. }
  intros [] s2 [H1 H2]. cbn [cwd cm_world] in *. destruct (cl_close fd (cm_world s2)) as (r & w3 & E3 & H3).
  apply wp_bind. eapply commands_on_world; [exact E3|]. apply term_run. cbn [cwd cm_world]. intros w4 T1 _ _ _. split; [done|].
  rewrite T1, H3, H2, Hs1, drop_0, <-app_assoc. done.
Qed.

(** What [ls] shows of a child. *)
Definition entry_text (e : entry) : str :=
  en_name e ++ (if en_type e =? FS_DIR then [47] else if en_type e =? FS_DEV then [42] else []) ++
  (if (en_type e =? FS_FILE) && (0 <? en_size e) then chars " | " ++ u32_digits (u32 (en_size e)) ++ chars " bytes" else []) ++ [32; 32].

Lemma size_text n : ∃ b, (b ← str_copy (replicate 32 0) (lit " | "); b ← str_append_uint b (u32 n); str_append b (lit " bytes")) = Some b ∧
  c_text b = chars " | " ++ u32_digits (u32 n) ++ chars " bytes".
Proof.
  destruct (text_in_copy 32 (replicate 32 0) (lit " | ") (chars " | ")) as (b1 & -> & H1); [done|apply holds_lit; eval_decide|cbn; lia|]. cbn [mbind option_bind].
  assert (E : u32 (u32 n) = u32 n) by (unfold u32; by rewrite Z.mod_mod by lia). unfold str_append_uint. rewrite E.
  pose proof (length_dec_digits 10 (u32 n)) as Hl. fold (u32_digits (u32 n)) in Hl.
  destruct (text_in_append 32 b1 (u32_digits (u32 n) ++ [0]) (chars " | ") (u32_digits (u32 n)) H1) as (b2 & -> & H2);
    [apply (holds_intro _ []), digits_chars, dec_digits_digits|change (length (chars " | ")) with 3%nat; lia|]. cbn [mbind option_bind].
  destruct (text_in_append 32 b2 (lit " bytes") _ (chars " bytes") H2) as (b3 & -> & H3);
    [apply holds_lit; eval_decide|rewrite length_app; change (length (chars " | ")) with 3%nat; change (length (chars " bytes")) with 6%nat; lia|]. exists b3. split; [done|]. rewrite (c_text_holds _ _ (proj2 H3)). by rewrite <-app_assoc.
Qed.

Lemma ls_entry_run e (s : S) (Q : unit → S → Prop) :
  (∀ w, cl_shown w = cl_shown (cm_world s) ++ entry_text e → Q tt (mk_commands (cwd s) w)) → wp (ls_entry e) Q s.
Proof.
  intros HQ. unfold ls_entry. apply wp_bind, term_run. intros w1 T1 _ _ _. apply wp_bind, term_run. intros w2 T2 _ _ _.
  apply wp_bind. cbn [cwd cm_world] in *. unfold entry_text in HQ. destruct (_ && _).
  - destruct (size_text (en_size e)) as (b & E & Hb). apply wp_bind. eapply wp_of_option; [exact E|]. rewrite Hb. apply term_run. intros w3 T3 _ _ _.
    apply term_run. intros w4 T4 _ _ _. apply HQ. cbn [cm_world] in *. rewrite T4, T3, T2, T1. by rewrite <-!app_assoc.
  - apply wp_ret, term_run. intros w4 T4 _ _ _. apply HQ. cbn [cm_world] in *. rewrite T4, T2, T1. by rewrite <-!app_assoc.
Qed.

Lemma ls_entries_run l (s : S) : wp (ls_entries l) (λ _ s', cwd s' = cwd s ∧ cl_shown (cm_world s') = cl_shown (cm_world s) ++ concat (entry_text <$> l)) s.
Proof.
  revert s. induction l as [|e l IH]; intros s; cbn [ls_entries fmap list_fmap concat].
  - apply wp_ret. by rewrite app_nil_r.
  - apply wp_bind, ls_entry_run. intros w T. eapply wp_mono; [apply IH|]. intros [] s' [H1 H2]. split; [done|]. rewrite H2. cbn [cm_world].
    by rewrite T, <-app_assoc.
Qed.

(** [ls].  Of a directory [ls] shows the children in their order, each with a sign for its
    kind and the size of a file that is not empty. *)
Theorem ls_shows (a : list Z) (p t : str) (l : list entry) (s : S) (Hp : holds (cwd s) p) (Ha : holds a t)
    (Hdir : cl_dir (cm_world s) (if bool_decide (t = []) then p else t) = Some (FS_DIR, l)) :
  wp (cmd_ls a) (λ _ s', cwd s' = cwd s ∧ cl_shown (cm_world s') = cl_shown (cm_world s) ++ concat (entry_text <$> l) ++ [10]) s.
Proof.
  unfold cmd_ls. destruct (first_zero a t Ha) as (x & E & Hx & _). apply wp_bind. eapply wp_of_option; [exact E|]. rewrite Hx.
  apply wp_bind, wp_get. assert (Ec : c_text (if bool_decide (t = []) then cwd s else a) = if bool_decide (t = []) then p else t) by (case_bool_decide; by apply c_text_holds).
  rewrite Ec. destruct (cl_resolve (if bool_decide (t = []) then p else t) (cm_world s)) as (w1 & E1 & _ & Hs1). rewrite Hdir in E1.
  apply wp_bind. eapply commands_on_world; [exact E1|]. cbv beta iota. rewrite Z.eqb_refl. cbn [negb]. apply wp_bind. eapply wp_mono; [apply ls_entries_run|].
  intros [] s2 [H1 H2]. apply term_run. intros w3 T _ _ _. cbn [cwd cm_world] in *. split; [done|]. by rewrite T, H2, Hs1, <-app_assoc.
Qed.

(** [mount] takes its argument apart at the blanks: its three words, of at most 63
    characters each, go into the three arrays. *)
Theorem mount_words_correct (a : list Z) (t : str) (Ha : holds a t) :
  let '(w1, r1) := word t in let '(w2, r2) := word (strip r1) in let w3 := (word (strip r2)).1 in
  (length w1 ≤ 63)%nat → (length w2 ≤ 63)%nat → (length w3 ≤ 63)%nat →
  ∃ src tgt type, mount_words a = Some (src, tgt, type) ∧ c_text src = w1 ∧ c_text tgt = w2 ∧ c_text type = w3.
Proof.
  assert (Hrow : ∀ args u, holds args u → (length (word u).1 ≤ 63)%nat →
    ∃ w args', take_word args (replicate 64 0) 0 = Some (w, args') ∧ c_text w = (word u).1 ∧ holds args' (word u).2).
  { intros args u Hu Hl. destruct (take_word_run u args (replicate 64 0) 0 Hu) as (args' & E & Hr); [rewrite length_replicate; lia|].
    eexists _, args'. split; [exact E|]. split; [|done]. apply c_text_holds. cbn [take app]. apply holds_intro.
    destruct Hu as (Hc & _). pose proof (word_len_run (u ++ [0]) u (holds_intro u [] Hc)) as [_ Hs]. rewrite Hs in Hc. by apply list.Forall_app in Hc as [? _]. }
  destruct (word t) as [w1 r1] eqn:E1. destruct (word (strip r1)) as [w2 r2] eqn:E2. intros w3 L1 L2 L3. unfold mount_words.
  destruct (Hrow a t Ha) as (src & a1 & -> & Es & H1); [by rewrite E1|]. rewrite E1 in *. cbn [mbind option_bind fst snd] in *.
  destruct (skip_blanks_run a1 r1 H1) as (a2 & -> & H2). cbn [mbind option_bind].
  destruct (Hrow a2 _ H2) as (tgt & a3 & -> & Et & H3); [by rewrite E2|]. rewrite E2 in *. cbn [mbind option_bind fst snd] in *.
  destruct (skip_blanks_run a3 r2 H3) as (a4 & -> & H4). cbn [mbind option_bind].
  destruct (Hrow a4 _ H4 L3) as (type & a5 & -> & Ety & H5). cbn [mbind option_bind]. by exists src, tgt, type.
Qed.
End laws.

(** ** A directory to try *)

(** What was shown, and the position in the only file, [/a/f]; a portion has at most seven bytes. *)
Record demo_world := mk_demo { dw_shown : str; dw_pos : nat }.
Definition demo_content : str := chars "some text".
Definition demo_children : list entry := [mk_entry (chars "f") FS_FILE 9; mk_entry (chars "b") FS_DIR 0; mk_entry (chars "tty") FS_DEV 0].
Definition demo_dir (p : str) : option (Z * list entry) :=
  if bool_decide (p = [47]) then Some (FS_DIR, [mk_entry (chars "a") FS_DIR 0])
  else if bool_decide (p = chars "/a") || bool_decide (p = chars "/a/") then Some (FS_DIR, demo_children)
  else if bool_decide (p = chars "/a/b") then Some (FS_DIR, []) else None.
Definition demo_file (p : str) : option str := if bool_decide (p = chars "/a/f") then Some demo_content else None.
#[local] Instance demo_files : Window.Files demo_world := {|
  f_open p flags := λ w, match demo_file p with Some _ => Done 3 (mk_demo (dw_shown w) 0) | None => Done (-1) w end;
  f_read fd n := λ w, let k := Nat.min 7 (Nat.min (Z.to_nat n) (length demo_content - dw_pos w)) in
    Done (Z.of_nat k, take k (drop (dw_pos w) demo_content)) (mk_demo (dw_shown w) (dw_pos w + k));
  f_write fd bs := mret (-1);
  f_close fd := mret 0;
|}.
#[local] Instance demo_directories : Directories demo_world := {|
  dr_resolve p := mret (demo_dir p); dr_mkdir p := mret (-1); dr_mount src tgt type := mret 0;
|}.
#[local] Instance demo_printers : Printers demo_world := {|
  pr_terminal t c := modify (λ w, mk_demo (dw_shown w ++ t) (dw_pos w)); pr_print t c := modify (λ w, mk_demo (dw_shown w ++ t) (dw_pos w));
  pr_int _ _ := mret tt; pr_hex _ _ := mret tt;
|}.
#[local] Instance demo_pointers : Pointers demo_world := {|
  kb_interrupt_count := mret 5; kb_has_key := mret 0; pd_initialized usb := mret (b2z usb); pd_interrupt_count _ := mret 7;
  pd_position _ := mret (12, 34); pd_buttons _ := mret 5; pd_test_mode _ := mret tt; pd_force_update _ := mret tt;
  pd_set_position _ _ := mret tt; pd_reload_cursor := mret tt; pd_sensitivity := mret 2; pd_set_sensitivity _ := mret tt;
|}.
#[local] Instance demo_laws : CommandLaws (W := demo_world).
Proof.
  refine {| cl_shown := dw_shown; cl_dir _ := demo_dir; cl_file _ := demo_file; cl_pos w fd := Some (chars "/a/f", dw_pos w) |}.
  - intros t c w. by eexists.
  - intros t c w. by eexists.
  - intros p w. by eexists.
  - intros p c w Hf. cbn. rewrite Hf. exists 3. eexists. split; [done|]. unfold demo_file in Hf. case_bool_decide as Hp; [|done]. by rewrite Hp.
  - intros fd n p i c w [= <- <-] Hf Hn Hi. injection Hf as <-. cbn [f_read demo_files].
    set (k := Nat.min 7 (Nat.min (Z.to_nat n) (length demo_content - dw_pos w))).
    eexists k, _. split; [done|]. split_and!; try done; lia.
  - intros fd w. by eexists 0, w.
Defined.

Definition demo_cwd (p : str) : list Z := p ++ replicate (256 - length p) 0.
Definition demo_commands (p : str) : commands demo_world := mk_commands (demo_cwd p) (mk_demo [] 0).
Definition after (m : M (commands demo_world) unit) (p : str) : option (str * str) :=
  match m (demo_commands p) with Done _ s => Some (c_text (cwd s), dw_shown (cm_world s)) | Stuck _ => None end.

Example cat_runs : after (cmd_cat 100 (lit "f")) (chars "/a/") = Some (chars "/a/", chars "some text" ++ [10]).
Proof. by vm_compute. Qed.
Example ls_runs : after (cmd_ls (lit "")) (chars "/a") = Some (chars "/a", chars "f | 9 bytes  b/  tty*  " ++ [10]).
Proof. by vm_compute. Qed.
Example cd_runs : after (cmd_cd (lit "b");; cmd_cd (lit "..")) (chars "/a/") = Some (chars "/a/b", []).
Proof. by vm_compute. Qed.

(** The dots are names like any other when more follows: the path is resolved with them in it. *)
Example cd_up_and_on : cd_path demo_dir (chars "/a/b/") (chars "../..") = chars "/a/b/".
Proof. by vm_compute. Qed.
(** [ls] takes its path as it is, the other commands take it from the working directory. *)
Example ls_relative : after (cmd_ls (lit "b")) (chars "/a/") = Some (chars "/a/", chars "error: directory not found" ++ [10]).
Proof. by vm_compute. Qed.
(** A word of 64 characters does not fit the arrays of [mount]. *)
Example mount_overruns : mount_words (replicate 64 97 ++ chars " /t tmpfs" ++ [0]) = None.
Proof. by vm_compute. Qed.
(** A path longer than the array. *)
Example path_overruns : path_from (demo_cwd (47 :: replicate 200 97)) (replicate 60 98 ++ [0]) = None.
Proof. by vm_compute. Qed.

Lemma demo_cwd_in p : list.head p = Some 47 → Forall is_char p → (length p < 256)%nat → cwd_in (demo_commands p) p.
Proof.
  intros Hh Hc Hl. split; [|done]. cbn [demo_commands cwd]. unfold demo_cwd. replace (256 - length p)%nat with (S (255 - length p)) by lia.
  apply text_in_intro; [done|]. rewrite length_app. cbn [length]. rewrite length_replicate. lia.
Qed.

Lemma cd_correct_witness : wp (cmd_cd (lit "b")) (λ _ s', cwd_in s' (chars "/a/b/") ∧ cl_dir (cm_world s') = cl_dir (cm_world (demo_commands (chars "/a/")))) (demo_commands (chars "/a/")).
Proof.
  replace (chars "/a/b/") with (cd_path (cl_dir (cm_world (demo_commands (chars "/a/")))) (chars "/a/") (chars "b")) by (by vm_compute).
  apply (cd_correct (lit "b") (chars "/a/") (chars "b") (demo_commands (chars "/a/")));
    [apply demo_cwd_in; [done|eval_decide|cbn; lia]|apply holds_lit; eval_decide|vm_compute; lia].
Defined.

Lemma cd_up_takes_two_witness :
  wp (cmd_cd (lit "b");; cmd_cd (lit "..")) (λ _ s1, cwd_in s1 (chars "/a" ++ 47 :: chars "b") ∧
    wp (cmd_cd (lit "..")) (λ _ s2, cwd_in s2 (if bool_decide (chars "/a" = []) then [47] else chars "/a")) s1) (demo_commands (chars "/a" ++ [47])).
Proof.
  apply (cd_up_takes_two (lit "b") (lit "..") (chars "/a") (chars "b") [] (demo_commands (chars "/a" ++ [47])));
    [apply demo_cwd_in; [done|eval_decide|cbn; lia]|apply holds_lit; eval_decide|apply (holds_lit ".."); eval_decide|done|done|done|eval_decide|done|cbn; lia].
Defined.

Lemma cat_shows_witness :
  wp (cmd_cat 10 (lit "f")) (λ _ s', cwd s' = cwd (demo_commands (chars "/a/")) ∧ cl_shown (cm_world s') = cl_shown (cm_world (demo_commands (chars "/a/"))) ++ demo_content ++ [10])
    (demo_commands (chars "/a/")).
Proof.
  apply (cat_shows 10 (lit "f") (chars "/a/") (chars "f") demo_content (demo_commands (chars "/a/")));
    [apply demo_cwd_in; [done|eval_decide|cbn; lia]|done|apply holds_lit; eval_decide|done|vm_compute; lia|by vm_compute|eval_decide|vm_compute; lia].
Defined.

Lemma ls_shows_witness :
  wp (cmd_ls (lit "")) (λ _ s', cwd s' = cwd (demo_commands (chars "/a/")) ∧
    cl_shown (cm_world s') = cl_shown (cm_world (demo_commands (chars "/a/"))) ++ concat (entry_text <$> demo_children) ++ [10]) (demo_commands (chars "/a/")).
Proof.
  apply (ls_shows (lit "") (chars "/a/") [] demo_children (demo_commands (chars "/a/")));
    [apply demo_cwd_in; [done|eval_decide|cbn; lia]|apply holds_lit; eval_decide|by vm_compute].
Defined.

Lemma mount_words_correct_witness :
  ∃ src tgt type, mount_words (lit "/dev/hda  /mnt ext4") = Some (src, tgt, type) ∧ c_text src = chars "/dev/hda" ∧ c_text tgt = chars "/mnt" ∧ c_text type = chars "ext4".
Proof.
  apply (mount_words_correct (lit "/dev/hda  /mnt ext4") (chars "/dev/hda  /mnt ext4")); [apply holds_lit; eval_decide|vm_compute; lia..].
Defined.
