(* ===== verification/Serial.v ===== *)
(** * The serial line, [kernel/communication/serial.c]

    The controller is behind the ports; the format of [serial_printf] is an array that holds a
    string, the arguments are a list of words and strings. *)

From Stdlib Require Import ZArith Lia String.
From stdpp Require Import base list numbers.
From S2P Require Import Prelude CString Buffer Ports.
Open Scope Z_scope.
Set Default Goal Selector "!".

Definition COM1 : Z := 0x3F8.

(** [digit] as a character, in lower case. *)
Definition digit_char (digit : Z) : Z := if digit <? 10 then 48 + digit else 97 + digit - 10.

(** [while (num > 0) ...] into an array with [room] places. *)
Fixpoint collect_digits (room : nat) (num base : Z) : option (list Z) :=
  if num <=? 0 then Some [] else
  match room with
  | O => None
  | S room' => buf ← collect_digits room' (num / base) base; Some (digit_char (num mod base) :: buf)
  end.
(** [for (i = n - 1; i >= 0; i--) buf[n - 1 - i] = ...;] *)
Fixpoint hex_loop (n : nat) (num : Z) : list Z :=
  match n with
  | O => []
  | S n' => digit_char (Z.land (Z.shiftr num (Z.of_nat n' * 4)) 0xF) :: hex_loop n' num
  end.

(** An argument: what [va_arg] takes as a word, or as a pointer to a string. *)
Inductive va := VInt (z : Z) | VStr (s : str).

Definition va_word (args : list va) : option (Z * list va) :=
  match args with VInt z :: args' => Some (z, args') | _ => None end.
Definition va_string (args : list va) : option (str * list va) :=
  match args with VStr s :: args' => Some (s, args') | _ => None end.

Section serial.
  Context {D : Type} `{!PortIO D} (polls : nat).

Definition serial_init : M D unit :=
  outb (COM1 + 1) 0x00;;
  outb (COM1 + 3) 0x80;;
  outb (COM1 + 0) 0x03;;
  outb (COM1 + 1) 0x00;;
  outb (COM1 + 3) 0x03;;
  outb (COM1 + 2) 0xC7;;
  outb (COM1 + 4) 0x0B.
Definition serial_ready : M D Z := v ← inb (COM1 + 5); mret (Z.land v 0x20).
(** [polls] is enough for the line to get ready. *)
Definition serial_putchar (c : Z) : M D unit :=
  iterM polls (λ _ : unit, r ← serial_ready; mret (if truthy r then inr tt else inl tt)) tt;;
  outb COM1 c.
Fixpoint serial_puts (s : str) : M D unit :=
  match s with [] => mret tt | c :: s' => serial_putchar c;; serial_puts s' end.

Definition print_number (room : nat) (num base : Z) : M D unit :=
  if num =? 0 then serial_putchar 48 else
  buf ← of_option (collect_digits room num base);
  serial_puts (reverse buf).
Definition print_uint32 (num base : Z) : M D unit := print_number 32 num base.
Definition print_uint64 (num base : Z) : M D unit := print_number 64 num base.
Definition print_int32 (num : Z) : M D unit :=
  if num <? 0 then serial_putchar 45;; print_uint32 (u32 (i32 (- num))) 10 else print_uint32 (u32 num) 10.
Definition print_int64 (num : Z) : M D unit :=
  if num <? 0 then serial_putchar 45;; print_uint64 (u64 (i64 (- num))) 10 else print_uint64 (u64 num) 10.
Definition print_hex32 (num : Z) : M D unit := serial_puts (chars "0x");; serial_puts (hex_loop 8 num).
Definition serial_print_hex64 (num : Z) : M D unit := serial_puts (chars "0x");; serial_puts (hex_loop 16 num).

(** What a [%] and the letter [k] print; [long] is the number of [l] before it. *)
Definition directive (long : Z) (k : Z) (args : list va) : M D (list va) :=
  if (k =? 100) || (k =? 105) then
    '(z, args) ← of_option (va_word args);
    (if 0 <? long then print_int64 (i64 z) else print_int32 (i32 z));; mret args
  else if k =? 117 then
    '(z, args) ← of_option (va_word args);
    (if 0 <? long then print_uint64 (u64 z) 10 else print_uint32 (u32 z) 10);; mret args
  else if (k =? 120) || (k =? 88) then
    '(z, args) ← of_option (va_word args);
    (if 0 <? long then serial_print_hex64 (u64 z) else print_hex32 (u32 z));; mret args
  else if k =? 112 then
    '(z, args) ← of_option (va_word args); serial_print_hex64 (u64 z);; mret args
  else if k =? 115 then
    '(s, args) ← of_option (va_string args); serial_puts s;; mret args
  else if k =? 99 then
    '(z, args) ← of_option (va_word args); serial_putchar (i8 z);; mret args
  else if k =? 37 then serial_putchar 37;; mret args
  else
    serial_putchar 37;;
    (if long =? 2 then serial_puts [108; 108] else if long =? 1 then serial_putchar 108 else mret tt);;
    serial_putchar k;;
    mret args.

(** The [l] at the start: their number, up to two, and the rest. *)
Definition length_mark (format : list Z) : Z * list Z :=
  match format with
  | a :: f => if a =? 108 then match f with b :: f' => if b =? 108 then (2, f') else (1, f) | [] => (1, f) end else (0, format)
  | [] => (0, format)
  end.
Fixpoint printf_loop (n : nat) (format : list Z) (args : list va) : M D unit :=
  match n with
  | O => stuck_with NoFuel
  | S n' =>
      match format with
      | [] => fault
      | c :: f =>
          if c =? 0 then mret tt else
          if c =? 37 then
            match length_mark f with
            | (long, k :: f') => args ← directive long k args; printf_loop n' f' args
            | (_, []) => fault
            end
          else serial_putchar c;; printf_loop n' f args
      end
  end.
Definition serial_printf (format : list Z) (args : list va) : M D unit := printf_loop (S (length format)) format args.
End serial.

(** ** Formats and what they print *)

(** The places of a format, each with the value for it. *)
Inductive piece :=
| Text (c : Z)
| Percent
| Signed (long : bool) (z : Z)
| Unsigned (long : bool) (z : Z)
| Hex (long : bool) (z : Z)
| Pointer (z : Z)
| Str (s : str)
| Char (c : Z).

Definition mark (long : bool) : str := if long then [108] else [].
Definition spell (p : piece) : str :=
  match p with
  | Text c => [c]
  | Percent => [37; 37]
  | Signed l _ => 37 :: mark l ++ [100]
  | Unsigned l _ => 37 :: mark l ++ [117]
  | Hex l _ => 37 :: mark l ++ [120]
  | Pointer _ => [37; 112]
  | Str _ => [37; 115]
  | Char _ => [37; 99]
  end.
Definition value_of (p : piece) : list va :=
  match p with
  | Text _ | Percent => []
  | Signed _ z | Unsigned _ z | Hex _ z | Pointer z | Char z => [VInt z]
  | Str s => [VStr s]
  end.

(** Numerals: [n] digits in base 16, and as many as needed in base 10. *)
Fixpoint hex_digits (n : nat) (v : Z) : str :=
  match n with O => [] | S n' => hex_digits n' (v / 16) ++ [digit_char (v mod 16)] end.
Definition signed_digits (v : Z) : str := if v <? 0 then 45 :: dec_digits 20 (- v) else dec_digits 20 v.
Definition render (p : piece) : str :=
  match p with
  | Text c => [u8 c]
  | Percent => [37]
  | Signed l z => signed_digits (if l then i64 z else i32 z)
  | Unsigned l z => dec_digits 20 (if l then u64 z else u32 z)
  | Hex l z => chars "0x" ++ if l then hex_digits 16 (u64 z) else hex_digits 8 (u32 z)
  | Pointer z => chars "0x" ++ hex_digits 16 (u64 z)
  | Str s => u8 <$> s
  | Char c => [u8 c]
  end.
Definition plain (p : piece) : Prop := match p with Text c => c ≠ 0 ∧ c ≠ 37 | _ => True end.

(** ** The line *)

(** A line gets ready after some polls; what is written to it then is sent. *)
Class SerialLine (D : Type) `{!PortIO D} := {
  sl_sent : D → str;
  sl_busy : D → nat;
  sl_limit : nat;
  sl_busy_limit : ∀ d, (sl_busy d ≤ sl_limit)%nat;
  sl_poll : ∀ d, ∃ v d', inb (COM1 + 5) d = Done v d' ∧ sl_sent d' = sl_sent d ∧
    match sl_busy d with O => Z.land v 0x20 ≠ 0 ∧ sl_busy d' = 0%nat | S n => Z.land v 0x20 = 0 ∧ sl_busy d' = n end;
  sl_write : ∀ c d, sl_busy d = 0%nat → ∃ d', outb COM1 c d = Done tt d' ∧ sl_sent d' = sl_sent d ++ [u8 c];
}.

Lemma digit_char_small d : 0 ≤ d < 10 → digit_char d = 48 + d.
Proof. intros H. unfold digit_char. by rewrite (proj2 (Z.ltb_lt d 10)) by lia. Qed.

Lemma collect_run k : ∀ room num, 0 ≤ num < 10 ^ Z.of_nat k → (k ≤ room)%nat →
  collect_digits room num 10 = Some (if num =? 0 then [] else reverse (dec_digits k num)).
Proof.
  induction k as [|k IH]; intros room num Hn Hk.
  - cbn in Hn. assert (num = 0) as -> by lia. by destruct room.
  - rewrite Nat2Z.inj_succ, Z.pow_succ_r in Hn by lia. destruct room as [|room]; [lia|]. cbn [collect_digits].
    destruct (Z.eqb_spec num 0) as [->|Hne]; [done|]. rewrite (proj2 (Z.leb_gt num 0)) by lia.
    rewrite IH; [|split; [apply Z.div_pos; lia|apply Z.div_lt_upper_bound; lia]|lia]. cbn [mbind option_bind dec_digits].
    rewrite digit_char_small by (apply Z.mod_pos_bound; lia). f_equal. rewrite reverse_app. cbn [reverse rev_append].
    change (reverse [48 + num mod 10]) with [48 + num mod 10]. cbn [app]. f_equal. destruct (Z.leb_spec 10 num) as [H|H].
    + rewrite (proj2 (Z.eqb_neq _ 0)); [done|]. assert (1 ≤ num / 10) by (apply Z.div_le_lower_bound; lia). lia.
    + by rewrite Z.div_small by lia.
Qed.

Lemma shiftr_digit n v : 0 ≤ v → Z.land (Z.shiftr v (Z.of_nat n * 4)) 0xF = v / 16 ^ Z.of_nat n mod 16.
Proof.
  intros Hv. change 0xF with (Z.ones 4). rewrite Z.land_ones, Z.shiftr_div_pow2 by lia. rewrite (Z.mul_comm _ 4), Z.pow_mul_r by lia. done.
Qed.

Lemma hex_loop_run n v : 0 ≤ v → hex_loop n v = hex_digits n v.
Proof.
  intros Hv. assert (Hs : ∀ n v, hex_digits (S n) v = digit_char (v / 16 ^ Z.of_nat n mod 16) :: hex_digits n v).
  { clear. intros n. induction n as [|n IH]; intros v; [by cbn; rewrite Z.div_1_r|]. cbn [hex_digits app] in *. rewrite IH.
    rewrite Nat2Z.inj_succ, Z.pow_succ_r, Z.div_div by lia. done. }
  induction n as [|n IH]; [done|]. cbn [hex_loop]. by rewrite Hs, IH, shiftr_digit.
Qed.

Lemma digit_char_u8 d : 0 ≤ d < 16 → u8 (digit_char d) = digit_char d.
Proof. intros H. apply Z.mod_small. unfold digit_char. destruct (Z.ltb_spec d 10); lia. Qed.

Lemma hex_digits_u8 n v : u8 <$> hex_digits n v = hex_digits n v.
Proof.
  revert v. induction n as [|n IH]; intros v; [done|]. cbn [hex_digits]. rewrite fmap_app, IH. cbn.
  by rewrite digit_char_u8 by (apply Z.mod_pos_bound; lia).
Qed.

Lemma digits_u8 s : Forall is_digit s → u8 <$> s = s.
Proof. induction 1 as [|c s Hc Hs IH]; [done|]. cbn. rewrite IH. f_equal. apply Z.mod_small. unfold is_digit in Hc. lia. Qed.

Section line.
  Context {D : Type} `{!PortIO D} `{!SerialLine D} (polls : nat) (Hpolls : (sl_limit < polls)%nat).

(** The operation sends this text. *)
Definition sends (m : M D unit) (t : str) : Prop := ∀ d, wp m (λ _ d', sl_sent d' = sl_sent d ++ t) d.

Lemma putchar_sends c : sends (serial_putchar polls c) [u8 c].
Proof.
  intros d. unfold serial_putchar. apply wp_bind.
  apply (wp_mono _ (λ _ d', sl_sent d' = sl_sent d ∧ sl_busy d' = 0%nat)).
  - pose proof (sl_busy_limit d) as Hb. assert (Hf : (sl_busy d < polls)%nat) by lia. clear Hb Hpolls. revert d Hf.
    induction polls as [|n IH]; intros d Hf; [lia|]. cbn [iterM]. apply wp_bind. unfold serial_ready. apply wp_bind, wp_bind.
    destruct (sl_poll d) as (v & d' & E & Hs & Hm). unfold wp at 1. rewrite E. apply wp_ret, wp_ret. destruct (sl_busy d) as [|k].
    + rewrite (proj2 (truthy_true _)) by apply Hm. apply wp_ret. by split; [|apply Hm].
    + destruct Hm as [-> Hk]. cbn. eapply wp_mono; [apply IH; lia|]. intros [] d2 [H1 H2]. by rewrite H1, Hs.
  - intros [] d1 [H1 H2]. destruct (sl_write c d1 H2) as (d2 & E & Hs). unfold wp. by rewrite E, Hs, H1.
Qed.

Lemma sends_bind m1 m2 t1 t2 : sends m1 t1 → sends m2 t2 → sends (m1;; m2) (t1 ++ t2).
Proof. intros H1 H2 d. apply wp_bind. eapply wp_mono; [apply H1|]. intros [] d1 E1. eapply wp_mono; [apply H2|]. intros [] d2 E2. by rewrite E2, E1, <-app_assoc. Qed.

Lemma puts_sends s : sends (serial_puts polls s) (u8 <$> s).
Proof.
  induction s as [|c s IH]; [intros d; apply wp_ret; by rewrite app_nil_r|]. exact (sends_bind _ _ _ _ (putchar_sends c) IH).
Qed.

Lemma number_sends room num : 0 ≤ num < 2 ^ 64 → (20 ≤ room)%nat → sends (print_number polls room num 10) (dec_digits 20 num).
Proof.
  intros Hn Hr. unfold print_number. destruct (Z.eqb_spec num 0) as [->|Hne]; [apply putchar_sends|].
  intros d. apply wp_bind. eapply wp_of_option; [apply (collect_run 20); [lia|done]|]. rewrite (proj2 (Z.eqb_neq num 0)), reverse_involutive by done.
  pose proof (puts_sends (dec_digits 20 num) d) as H. by rewrite digits_u8 in H by apply dec_digits_digits.
Qed.

Lemma sends_ext m t t' : sends m t → t = t' → sends m t'.
Proof. by intros H <-. Qed.

Lemma signed_sends32 z : sends (print_int32 polls (i32 z)) (signed_digits (i32 z)).
Proof.
  unfold print_int32, signed_digits. assert (Hb : - 2 ^ 31 ≤ i32 z < 2 ^ 31) by (unfold i32; pose proof (Z.mod_pos_bound (z + 2 ^ 31) (2 ^ 32)); lia).
  destruct (Z.ltb_spec (i32 z) 0) as [H|H].
  - apply (sends_bind _ _ [45]); [apply putchar_sends|]. assert (E : u32 (i32 (- i32 z)) = - i32 z).
    { unfold u32, i32 at 1. generalize (i32 z) Hb H. intros y Hy Hy0. destruct (decide (y = - 2 ^ 31)) as [->|]; [done|]. rewrite (Z.mod_small (- y + 2 ^ 31)) by lia. rewrite Z.mod_small; lia. }
    rewrite E. apply number_sends; lia.
  - replace (u32 (i32 z)) with (i32 z) by (symmetry; apply Z.mod_small; lia). apply number_sends; lia.
Qed.

Lemma signed_sends64 z : sends (print_int64 polls (i64 z)) (signed_digits (i64 z)).
Proof.
  unfold print_int64, signed_digits. assert (Hb : - 2 ^ 63 ≤ i64 z < 2 ^ 63) by (unfold i64; pose proof (Z.mod_pos_bound (z + 2 ^ 63) (2 ^ 64)); lia).
  destruct (Z.ltb_spec (i64 z) 0) as [H|H].
  - apply (sends_bind _ _ [45]); [apply putchar_sends|]. assert (E : u64 (i64 (- i64 z)) = - i64 z).
    { unfold u64, i64 at 1. generalize (i64 z) Hb H. intros y Hy Hy0. destruct (decide (y = - 2 ^ 63)) as [->|]; [done|]. rewrite (Z.mod_small (- y + 2 ^ 63)) by lia. rewrite Z.mod_small; lia. }
    rewrite E. apply number_sends; lia.
  - replace (u64 (i64 z)) with (i64 z) by (symmetry; apply Z.mod_small; lia). apply number_sends; lia.
Qed.

Lemma hex_sends n z : 0 ≤ z → sends (serial_puts polls (chars "0x");; serial_puts polls (hex_loop n z)) (chars "0x" ++ hex_digits n z).
Proof.
  intros Hz. apply sends_bind; [by apply (sends_ext _ _ _ (puts_sends _))|]. rewrite hex_loop_run by done.
  apply (sends_ext _ _ _ (puts_sends _)), hex_digits_u8.
Qed.

(** A directive sends this text and leaves these arguments. *)
Definition sends_arg (m : M D (list va)) (t : str) (args : list va) : Prop :=
  ∀ d, wp m (λ a d', a = args ∧ sl_sent d' = sl_sent d ++ t) d.

Lemma sends_arg_intro m t args : sends m t → sends_arg (m;; mret args) t args.
Proof. intros H d. apply wp_bind. eapply wp_mono; [apply H|]. intros [] d' E. by apply wp_ret. Qed.

Lemma u8_i8 z : u8 (i8 z) = u8 z.
Proof. unfold u8, i8. rewrite Zminus_mod_idemp_l. f_equal. lia. Qed.

Lemma piece_run p n rest args : plain p → (length (spell p ++ rest) < n)%nat →
  ∃ n', (length rest < n')%nat ∧ ∀ (Q : unit → D → Prop) d, (∀ d', sl_sent d' = sl_sent d ++ render p → wp (printf_loop polls n' rest args) Q d') →
    wp (printf_loop polls n (spell p ++ rest) (value_of p ++ args)) Q d.
Proof.
  intros Hp Hn. destruct n as [|n]; [cbn in Hn; lia|]. exists n. split; [rewrite length_app in Hn; destruct p as [| |[]|[]|[]| | |]; cbn in Hn; lia|].
  intros Q d HQ.
  assert (Hdir : ∀ m, sends_arg m (render p) args → wp (args' ← m; printf_loop polls n rest args') Q d).
  { intros m Hm. apply wp_bind. eapply wp_mono; [apply Hm|]. intros a d' [-> E]. by apply HQ. }
  destruct p as [c| |l z|l z|l z|z|s|c]; cbn [spell app value_of printf_loop].
  - destruct Hp as [H0 H37]. rewrite (proj2 (Z.eqb_neq c 0)), (proj2 (Z.eqb_neq c 37)) by done. apply wp_bind.
    eapply wp_mono; [apply putchar_sends|]. intros [] d' E. by apply HQ.
  - by apply Hdir, sends_arg_intro, putchar_sends.
  - destruct l; apply Hdir, sends_arg_intro; [apply signed_sends64|apply signed_sends32].
  - destruct l; apply Hdir, sends_arg_intro; (apply number_sends; [|lia]); [apply u64_range|pose proof (u32_range z); cbn [render]; lia].
  - destruct l; apply Hdir, sends_arg_intro, hex_sends; [apply u64_range|apply u32_range].
  - apply Hdir, sends_arg_intro, hex_sends, u64_range.
  - apply Hdir, sends_arg_intro, puts_sends.
  - apply Hdir, sends_arg_intro. apply (sends_ext _ _ _ (putchar_sends _)). by rewrite u8_i8.
Qed.

(** C17: [serial_printf].  On a line that gets ready within the polls, a format of any number of
    places with arguments of their kinds is sent with each place replaced by its value: signed
    and unsigned numbers of 32 and 64 bits in decimal, words in lower-case hexadecimal of full
    width, strings and characters; then [serial_printf] returns. *)
Theorem serial_printf_correct (ps : list piece) (rest : list Z) (d : D) (Hp : Forall plain ps) :
  wp (serial_printf polls (concat (spell <$> ps) ++ 0 :: rest) (concat (value_of <$> ps))) (λ _ d', sl_sent d' = sl_sent d ++ concat (render <$> ps)) d.
Proof.
  unfold serial_printf. set (n := S (length _)). assert (Hn : (length (concat (spell <$> ps) ++ 0%Z :: rest) < n)%nat) by (unfold n; lia).
  clearbody n. revert n d Hn. induction Hp as [|p ps Hp Hps IH]; intros n d Hn; cbn [fmap list_fmap concat app] in *.
  - destruct n as [|n]; [lia|]. cbn [printf_loop Z.eqb]. apply wp_ret. by rewrite app_nil_r.
  - rewrite <-app_assoc in *. destruct (piece_run p n (concat (spell <$> ps) ++ 0 :: rest) (concat (value_of <$> ps)) Hp Hn) as (n' & Hn' & H).
    apply H. intros d' E. eapply wp_mono; [by apply IH|]. intros [] d2 E2. by rewrite E2, E, <-app_assoc.
Qed.
End line.

(** A line to try: it is busy for one poll after every character. *)
Record demo_line := mk_line { dl_sent : str; dl_busy : bool }.
#[local] Instance demo_ports : PortIO demo_line := {|
  read_port_byte p := λ d, if p =? COM1 + 5 then Done (if dl_busy d then 0x40 else 0x60) (mk_line (dl_sent d) false) else Done 0 d;
  read_port_word p := mret 0; read_port_dword p := mret 0;
  write_port_byte p v := λ d, if p =? COM1 then Done tt (mk_line (dl_sent d ++ [v]) true) else Done tt d;
  write_port_word p v := mret tt; write_port_dword p v := mret tt;
|}.
#[local] Instance demo_serial : SerialLine demo_line.
Proof.
  refine {| sl_sent := dl_sent; sl_busy d := if dl_busy d then 1%nat else 0%nat; sl_limit := 1 |}.
  - intros d. destruct (dl_busy d); lia.
  - intros d. unfold inb. cbn. eexists _, _. split; [done|]. split; [done|]. by destruct (dl_busy d).
  - intros c d H. unfold outb. cbn. by eexists.
Defined.

Definition demo_pieces : list piece :=
  [Text 120; Text 61; Signed false (2 ^ 32 - 5); Text 32; Hex false 0xBEEF; Percent; Unsigned true (2 ^ 64 - 1); Str (chars "ok"); Char 33].
Example demo_text : concat (render <$> demo_pieces) = chars "x=-5 0x0000beef%18446744073709551615ok!".
Proof. by vm_compute. Qed.
Lemma serial_printf_correct_witness :
  wp (serial_printf 2 (chars "x=%d %x%%%lu%s%c" ++ [0]) (concat (value_of <$> demo_pieces)))
    (λ _ d', dl_sent d' = [] ++ concat (render <$> demo_pieces)) (mk_line [] true).
Proof.
  assert (Hl : (sl_limit (D := demo_line) < 2)%nat) by (cbn; lia).
  apply (serial_printf_correct 2 Hl demo_pieces [] (mk_line [] true)). unfold demo_pieces. repeat constructor; lia.
Defined.

(** A format that ends with a percent sign is read beyond its end. *)
Example percent_at_end : serial_printf 2 (chars "100%" ++ [0]) [] (mk_line [] true) = Stuck Fault.
Proof. by vm_compute. Qed.
(** The smallest number. *)
Example smallest : ∃ d, serial_printf 2 (lit "%d") [VInt (- 2 ^ 31)] (mk_line [] true) = Done tt d ∧ dl_sent d = chars "-2147483648".
Proof. eexists. split; [by vm_compute|done]. Qed.
