(* ===== verification/Cmos.v ===== *)
(** * The clock, [drivers/cmos/cmos.c]

    A register of the CMOS memory is selected with a write to port 0x70 and read at port 0x71. *)

From Stdlib Require Import ZArith Lia String.
From stdpp Require Import base list numbers.
From S2P Require Import Prelude CString Buffer Ports Font Display Console Mouse Window.
Open Scope Z_scope.
Set Default Goal Selector "!".

Record cmos_time_t := mk_time { second : Z; minute : Z; hour : Z; day : Z; month : Z; year : Z }.

Definition bcd_to_binary (bcd : Z) : Z := u8 (bcd / 16 * 10 + Z.land bcd 0x0F).

(** The seconds since 1970, with years of 365 days and months of 30. *)
Definition unix_timestamp (t : cmos_time_t) : Z :=
  let timestamp := 946684800 in
  let timestamp := u64 (timestamp + u64 (year t) * 365 * 24 * 3600) in
  let timestamp := u64 (timestamp + u64 (month t - 1) * 30 * 24 * 3600) in
  let timestamp := u64 (timestamp + u64 (day t - 1) * 24 * 3600) in
  let timestamp := u64 (timestamp + u64 (hour t) * 3600) in
  let timestamp := u64 (timestamp + u64 (minute t) * 60) in
  u64 (timestamp + u64 (second t)).

Section cmos.
  Context {W : Type} `{!PortIO W} `{!Printers W} (polls : nat).

Definition cmos_read_register (reg : Z) : M W Z := outb 0x70 reg;; inb 0x71.
Definition GetCMOSMem : M W Z :=
  low ← cmos_read_register 0x30;
  high ← cmos_read_register 0x31;
  mret (u16 (Z.lor low (Z.shiftl high 8))).
(** [while (inb(0x71) & 0x80);] after the choice of the status register; [polls] is enough. *)
Definition wait_update : M W unit :=
  outb 0x70 0x0A;;
  iterM polls (λ _ : unit, v ← inb 0x71; mret (if truthy (Z.land v 0x80) then inl tt else inr tt)) tt.
Definition GetCMOSDate : M W unit :=
  wait_update;;
  day ← cmos_read_register 0x07;
  month ← cmos_read_register 0x08;
  year ← cmos_read_register 0x09;
  pr_int (bcd_to_binary month) white;;
  pr_print (chars "/") white;;
  pr_int (bcd_to_binary day) white;;
  pr_print (chars "/") white;;
  pr_int (bcd_to_binary year) white.
Definition cmos_read_time : M W cmos_time_t :=
  wait_update;;
  second ← cmos_read_register 0x00;
  minute ← cmos_read_register 0x02;
  hour ← cmos_read_register 0x04;
  day ← cmos_read_register 0x07;
  month ← cmos_read_register 0x08;
  year ← cmos_read_register 0x09;
  mret (mk_time (bcd_to_binary second) (bcd_to_binary minute) (bcd_to_binary hour) (bcd_to_binary day)
    (bcd_to_binary month) (bcd_to_binary year)).
Definition cmos_get_unix_timestamp : M W Z := t ← cmos_read_time; mret (unix_timestamp t).
Definition print_two (v : Z) : M W unit := (if v <? 10 then pr_print (chars "0") white else mret tt);; pr_int v white.
Definition GetCMOSTime : M W unit :=
  t ← cmos_read_time;
  print_two (hour t);;
  pr_print (chars ":") white;;
  print_two (minute t);;
  pr_print (chars ":") white;;
  print_two (second t).
End cmos.

(** ** The clock as it is *)

(** The registers, of which one is selected; while an update goes on, for some polls, the
    status register has its highest bit set. *)
Class RealTimeClock (D : Type) `{!PortIO D} := {
  rc_reg : D → Z → Z;
  rc_selected : D → Z;
  rc_busy : D → nat;
  rc_limit : nat;
  rc_busy_limit : ∀ d, (rc_busy d ≤ rc_limit)%nat;
  rc_select : ∀ r d, 0 ≤ r < 0x80 → ∃ d', outb 0x70 r d = Done tt d' ∧ rc_selected d' = r ∧ rc_reg d' = rc_reg d;
  rc_status : ∀ d, rc_selected d = 0x0A → ∃ v d', inb 0x71 d = Done v d' ∧ rc_selected d' = 0x0A ∧ rc_reg d' = rc_reg d ∧
    match rc_busy d with O => Z.land v 0x80 = 0 | S n => Z.land v 0x80 ≠ 0 ∧ rc_busy d' = n end;
  rc_read : ∀ d, rc_selected d ≠ 0x0A → ∃ d', inb 0x71 d = Done (rc_reg d (rc_selected d)) d' ∧ rc_reg d' = rc_reg d;
}.

(** Two decimal digits, four bits each. *)
Definition bcd (v : Z) : Z := 16 * (v / 10) + v mod 10.

Lemma bcd_binary v : 0 ≤ v < 100 → bcd_to_binary (bcd v) = v.
Proof.
  intros Hv. assert (Hall : Forall (λ v, bcd_to_binary (bcd v) = v) (seqZ 0 100)) by eval_decide.
  rewrite list.Forall_forall in Hall. apply Hall, elem_of_seqZ. lia.
Qed.

(** What the registers of the clock hold of a time. *)
Definition shows (reg : Z → Z) (t : cmos_time_t) : Prop :=
  reg 0x00 = bcd (second t) ∧ reg 0x02 = bcd (minute t) ∧ reg 0x04 = bcd (hour t) ∧
  reg 0x07 = bcd (day t) ∧ reg 0x08 = bcd (month t) ∧ reg 0x09 = bcd (year t).
Definition valid_time (t : cmos_time_t) : Prop :=
  0 ≤ second t < 60 ∧ 0 ≤ minute t < 60 ∧ 0 ≤ hour t < 24 ∧ 1 ≤ day t ≤ 31 ∧ 1 ≤ month t ≤ 12 ∧ 0 ≤ year t < 100.

Section clock.
  Context {D : Type} `{!PortIO D} `{!RealTimeClock D} (polls : nat) (Hpolls : (rc_limit < polls)%nat).

Lemma wait_run d : wp (wait_update polls) (λ _ d', rc_reg d' = rc_reg d) d.
Proof.
  unfold wait_update. apply wp_bind. destruct (rc_select 0x0A d) as (d1 & E1 & S1 & R1); [lia|]. unfold wp at 1. rewrite E1, <-R1.
  pose proof (rc_busy_limit d1) as Hb. assert (Hf : (rc_busy d1 < polls)%nat) by lia. clear Hb Hpolls E1 R1 d. revert d1 S1 Hf.
  induction polls as [|n IH]; intros d S1 Hf; [lia|]. cbn [iterM]. apply wp_bind, wp_bind.
  destruct (rc_status d S1) as (v & d' & E & S2 & R2 & Hm). unfold wp at 1. rewrite E. apply wp_ret. destruct (rc_busy d) as [|k].
  - rewrite Hm. by apply wp_ret.
  - destruct Hm as [Hv Hk]. rewrite (proj2 (truthy_true _)) by done. rewrite <-R2. apply IH; [done|lia].
Qed.

Lemma register_run r d : 0 ≤ r < 0x80 → r ≠ 0x0A → wp (cmos_read_register r) (λ v d', v = rc_reg d r ∧ rc_reg d' = rc_reg d) d.
Proof.
  intros Hr Hne. unfold cmos_read_register. apply wp_bind. destruct (rc_select r d) as (d1 & E1 & S1 & R1); [done|]. unfold wp at 1. rewrite E1.
  destruct (rc_read d1) as (d2 & E2 & R2); [by rewrite S1|]. unfold wp. by rewrite E2, S1, R2, R1.
Qed.

Lemma time_run t d : shows (rc_reg d) t → valid_time t → wp (cmos_read_time polls) (λ t' d', t' = t ∧ rc_reg d' = rc_reg d) d.
Proof.
  intros (R1 & R2 & R3 & R4 & R5 & R6) (V1 & V2 & V3 & V4 & V5 & V6). unfold cmos_read_time.
  apply wp_bind. eapply wp_mono; [apply wait_run|]. intros [] d1 E1. rewrite <-E1 in *. clear E1.
  apply wp_bind. eapply wp_mono; [by apply register_run|]. intros v1 d2 [-> E2]. rewrite R1, <-E2 in *.
  apply wp_bind. eapply wp_mono; [by apply register_run|]. intros v2 d3 [-> E3]. rewrite R2, <-E3 in *.
  apply wp_bind. eapply wp_mono; [by apply register_run|]. intros v3 d4 [-> E4]. rewrite R3, <-E4 in *.
  apply wp_bind. eapply wp_mono; [by apply register_run|]. intros v4 d5 [-> E5]. rewrite R4, <-E5 in *.
  apply wp_bind. eapply wp_mono; [by apply register_run|]. intros v5 d6 [-> E6]. rewrite R5, <-E6 in *.
  apply wp_bind. eapply wp_mono; [by apply register_run|]. intros v6 d7 [-> E7]. rewrite R6, <-E7 in *.
  apply wp_ret. split; [|done]. rewrite !bcd_binary by lia. by destruct t.
Qed.

(** ** The calendar *)

(** Days from the first of March of year 0 to a date, and from 1970-01-01. *)
Definition civil_days (y m d : Z) : Z :=
  let y := if m <=? 2 then y - 1 else y in
  365 * y + y / 4 - y / 100 + y / 400 + (153 * (if 2 <? m then m - 3 else m + 9) + 2) / 5 + (d - 1).
Definition true_time (t : cmos_time_t) : Z :=
  86400 * (civil_days (2000 + year t) (month t) (day t) - civil_days 1970 1 1) + 3600 * hour t + 60 * minute t + second t.

Lemma u64_small z : 0 ≤ z < 2 ^ 64 → u64 z = z.
Proof. apply Z.mod_small. Qed.

Lemma stamp_days t : valid_time t → unix_timestamp t =
  946684800 + 86400 * (365 * year t + 30 * (month t - 1) + (day t - 1)) + 3600 * hour t + 60 * minute t + second t.
Proof.
  intros (V1 & V2 & V3 & V4 & V5 & V6). unfold unix_timestamp.
  rewrite (u64_small (year t)), (u64_small (month t - 1)), (u64_small (day t - 1)), (u64_small (hour t)), (u64_small (minute t)), (u64_small (second t)) by lia.
  rewrite (u64_small (946684800 + _)) by lia. rewrite (u64_small (946684800 + _ + _)) by lia. rewrite (u64_small (946684800 + _ + _ + _)) by lia.
  rewrite (u64_small (946684800 + _ + _ + _ + _)) by lia. rewrite (u64_small (946684800 + _ + _ + _ + _ + _)) by lia. rewrite u64_small by lia. lia.
Qed.

Lemma month_lag y m : 0 ≤ y < 100 → 1 ≤ m ≤ 12 → 0 ≤ civil_days (2000 + y) m 1 - civil_days 2000 1 1 - (365 * y + 30 * (m - 1)) ≤ 30.
Proof.
  intros Hy Hm. set (ok := λ y m, bool_decide (0 ≤ civil_days (2000 + y) m 1 - civil_days 2000 1 1 - (365 * y + 30 * (m - 1)) ≤ 30)).
  assert (Hall : forallb (λ y, forallb (ok y) (seqZ 1 12)) (seqZ 0 100) = true) by (by vm_compute).
  rewrite forallb_forall in Hall. specialize (Hall y). rewrite forallb_forall in Hall. apply (bool_decide_unpack _), Is_true_true.
  apply (Hall ltac:(apply list_elem_of_In, elem_of_seqZ; lia) m). apply list_elem_of_In, elem_of_seqZ. lia.
Qed.

(** The time stamp.  From a clock that shows a valid time in this century the driver reads
    that time, however long the update takes; the time stamp does not wrap, is never ahead of
    the true one and at most thirty days behind it. *)
Theorem timestamp_behind (t : cmos_time_t) (d : D) (Hr : shows (rc_reg d) t) (Hv : valid_time t) :
  wp (cmos_get_unix_timestamp polls) (λ v d', rc_reg d' = rc_reg d ∧ v ≤ true_time t ≤ v + 30 * 86400) d.
Proof.
  unfold cmos_get_unix_timestamp. apply wp_bind. eapply wp_mono; [by apply (time_run t)|]. intros t' d' [-> E]. apply wp_ret. split; [done|].
  rewrite stamp_days by done. destruct Hv as (V1 & V2 & V3 & V4 & V5 & V6). pose proof (month_lag (year t) (month t) V6 V5) as H.
  unfold true_time. assert (E1 : civil_days (2000 + year t) (month t) (day t) = civil_days (2000 + year t) (month t) 1 + (day t - 1)) by (unfold civil_days; lia).
  assert (E2 : civil_days 2000 1 1 - civil_days 1970 1 1 = 10957) by done. lia.
Qed.
End clock.

(** Two days with the same time stamp. *)
Example same_stamp : unix_timestamp (mk_time 0 0 12 31 1 24) = unix_timestamp (mk_time 0 0 12 1 2 24).
Proof. done. Qed.

(** A clock to try: the registers, the one selected, and an update that goes on for two polls. *)
Record demo_clock := mk_clock { dc_selected : Z; dc_busy : bool }.
Definition demo_time : cmos_time_t := mk_time 56 34 12 29 2 24.
Definition demo_reg (r : Z) : Z :=
  if r =? 0 then 0x56 else if r =? 2 then 0x34 else if r =? 4 then 0x12 else if r =? 7 then 0x29 else if r =? 8 then 0x02 else if r =? 9 then 0x24 else 0.
#[local] Instance demo_ports : PortIO demo_clock := {|
  read_port_byte p := λ d, if dc_selected d =? 0x0A then Done (if dc_busy d then 0xA6 else 0x26) (mk_clock (dc_selected d) false)
    else Done (demo_reg (dc_selected d)) d;
  read_port_word p := mret 0; read_port_dword p := mret 0;
  write_port_byte p v := λ d, if p =? 0x70 then Done tt (mk_clock v (dc_busy d)) else Done tt d;
  write_port_word p v := mret tt; write_port_dword p v := mret tt;
|}.
#[local] Instance demo_rtc : RealTimeClock demo_clock.
Proof.
  refine {| rc_reg _ := demo_reg; rc_selected := dc_selected; rc_busy d := if dc_busy d then 1%nat else 0%nat; rc_limit := 1 |}.
  - intros d. destruct (dc_busy d); lia.
  - intros r d Hr. unfold outb. cbn. eexists. split; [done|]. cbn. split; [|done]. apply Z.mod_small. lia.
  - intros d E. unfold inb. cbn. rewrite E. cbn. eexists _, _. split; [done|]. split; [done|]. split; [done|]. by destruct (dc_busy d).
  - intros d E. unfold inb. cbn. rewrite (proj2 (Z.eqb_neq _ _)) by done. by eexists.
Defined.
Lemma timestamp_behind_witness :
  wp (cmos_get_unix_timestamp 2) (λ v d', rc_reg d' = rc_reg (mk_clock 0 true) ∧ v ≤ true_time demo_time ≤ v + 30 * 86400) (mk_clock 0 true).
Proof.
  assert (Hl : (rc_limit (D := demo_clock) < 2)%nat) by (cbn; lia).
  apply (timestamp_behind 2 Hl demo_time (mk_clock 0 true)); [by split_and!|unfold valid_time; cbn; lia].
Defined.
Example demo_stamp : (unix_timestamp demo_time, true_time demo_time) = (1708605296, 1709210096).
Proof. by vm_compute. Qed.
