(* ===== verification/Cpu.v ===== *)
(** * The properties of the processor, [kernel/cpu/cpu.c]

    The instruction [cpuid] is hardware and a parameter: a function from the leaf and the
    subleaf to the four registers. *)

From Stdlib Require Import ZArith Lia String.
From stdpp Require Import base list numbers.
From S2P Require Import Prelude CString Buffer Font Console Window.
Open Scope Z_scope.
Set Default Goal Selector "!".

Record regs := mk_regs { eax : Z; ebx : Z; ecx : Z; edx : Z }.

Record cpu_info_t := mk_cpu_info {
  vendor : list Z;  (* char[13] *)
  brand : list Z;   (* char[49] *)
  features_edx : Z;
  features_ecx : Z;
  extended_features_ebx : Z;
  extended_features_ecx : Z;
  family : Z;
  model : Z;
  stepping : Z;
  cache_line_size : Z;
  cores : Z;
  threads : Z;
  cache_l1d : Z;
  cache_l1i : Z;
  cache_l2 : Z;
  cache_l3 : Z;
}.

(** A register as the four bytes it stores. *)
Definition reg_bytes (v : Z) : list Z := le_split 4 (u32 v).
Definition bits (v lo n : Z) : Z := Z.land (Z.shiftr v lo) (Z.ones n).

(** [while (start[i]) { brand[i] = start[i]; i++; } brand[i] = 0;] where [start] is [k] behind. *)
Fixpoint shift_down (fuel : nat) (a : list Z) (k i : Z) : option (list Z) :=
  match fuel with
  | O => None
  | S n =>
      c ← arr_get a (k + i);
      if c =? 0 then arr_set a i 0 else a ← arr_set a i c; shift_down n a k (i + 1)
  end.
(** The blanks at the start are taken away. *)
Definition trim_brand (a : list Z) : option (list Z) :=
  start ← skip_blanks a;
  let k := Z.of_nat (length a - length start) in
  if k =? 0 then Some a else shift_down (length a) a k 0.

Section cpuid.
  Context (cpuid : Z → Z → regs).

Definition cpu_brand : option (list Z) :=
  let zero := replicate 49 0 in
  if 0x80000004 <=? eax (cpuid 0x80000000 0) then
    let words leaf := let r := cpuid leaf 0 in reg_bytes (eax r) ++ reg_bytes (ebx r) ++ reg_bytes (ecx r) ++ reg_bytes (edx r) in
    trim_brand (words 0x80000002 ++ words 0x80000003 ++ words 0x80000004 ++ [0])
  else Some zero.

(** Family, model and stepping from leaf 1. *)
Definition cpu_signature (a : Z) : Z * Z * Z :=
  let family := bits a 8 4 in
  let family := if family =? 0xF then family + bits a 20 8 else family in
  let model := bits a 4 4 in
  let model := if (family =? 0x6) || (family =? 0xF) then model + Z.shiftl (bits a 16 4) 4 else model in
  (family, model, Z.land a 0xF).

(** The size in KB of a cache that leaf 4 describes, when it is of the kind asked for. *)
Definition cache_size (sub kind old : Z) : Z :=
  let r := cpuid 4 sub in
  if Z.land (eax r) 0x1F =? kind then
    let ways := bits (ebx r) 22 10 + 1 in
    let partitions := bits (ebx r) 12 10 + 1 in
    let line_size := Z.land (ebx r) 0xFFF + 1 in
    let sets := u32 (ecx r + 1) in
    u32 (ways * partitions * line_size * sets) / 1024
  else old.

(** The four cache sizes; [v] is the first letter of the vendor. *)
Definition cpu_caches (v : Z) : Z * Z * Z * Z :=
  if v =? 71 then (cache_size 0 1 0, cache_size 1 2 0, cache_size 2 3 0, cache_size 3 3 0)
  else if v =? 65 then
    let r := cpuid 0x80000005 0 in
    let s := cpuid 0x80000006 0 in
    (bits (ecx r) 24 8, bits (edx r) 24 8, bits (ecx s) 16 16, bits (edx s) 18 14 * 512)
  else (0, 0, 0, 0).

Definition cpu_detect : option cpu_info_t :=
  let r0 := cpuid 0 0 in
  let vendor := reg_bytes (ebx r0) ++ reg_bytes (edx r0) ++ reg_bytes (ecx r0) ++ [0] in
  let r1 := cpuid 1 0 in
  let '(family, model, stepping) := cpu_signature (eax r1) in
  let r7 := cpuid 7 0 in
  brand ← cpu_brand;
  v ← arr_get vendor 0;
  let '(l1d, l1i, l2, l3) := cpu_caches v in
  Some (mk_cpu_info vendor brand (edx r1) (ecx r1) (ebx r7) (ecx r7) family model stepping (bits (ebx r1) 8 8 * 8)
    (Z.land (ecx (cpuid 0x80000008 0)) 0xFF + 1) (bits (ebx r1) 16 8) l1d l1i l2 l3).
End cpuid.

Definition cpu_get_vendor (i : cpu_info_t) : list Z := vendor i.
Definition cpu_get_brand (i : cpu_info_t) : option (list Z) :=
  c ← arr_get (brand i) 0; Some (if truthy c then brand i else vendor i).
Definition cpu_has_feature (i : cpu_info_t) (feature : Z) : Z := b2z (truthy (Z.land (features_edx i) feature)).

(** ** The brand *)

Lemma shift_down_run v : ∀ fuel u m rest k, length m = S k → (length v < fuel)%nat → Forall is_char u → Forall is_char v →
  ∃ a', shift_down fuel (u ++ m ++ v ++ 0 :: rest) (Z.of_nat (S k)) (Z.of_nat (length u)) = Some a' ∧ holds a' (u ++ v) ∧
    length a' = length (u ++ m ++ v ++ 0%Z :: rest).
Proof.
  induction v as [|y v IH]; intros fuel u m rest k Hm Hf Hu Hv; (destruct fuel as [|fuel]; [cbn in Hf; lia|]); cbn [shift_down];
    destruct m as [|x m]; try done; injection Hm as Hm.
  - assert (E : arr_get (u ++ (x :: m) ++ [] ++ 0 :: rest) (Z.of_nat (S k) + Z.of_nat (length u)) = Some 0).
    { cbn [app]. replace (u ++ x :: m ++ 0 :: rest) with ((u ++ x :: m) ++ 0 :: rest) by (by rewrite <-app_assoc).
      replace (Z.of_nat (S k) + Z.of_nat (length u)) with (Z.of_nat (length (u ++ x :: m))) by (rewrite length_app; cbn; lia). apply arr_get_app. }
    rewrite E. cbn [mbind option_bind Z.eqb app]. rewrite arr_set_app. eexists. split; [done|]. split; [|by rewrite !length_app].
    rewrite app_nil_r. by apply holds_intro.
  - apply list.Forall_cons in Hv as [Hy Hv].
    assert (E : arr_get (u ++ (x :: m) ++ (y :: v) ++ 0 :: rest) (Z.of_nat (S k) + Z.of_nat (length u)) = Some y).
    { cbn [app]. replace (u ++ x :: m ++ y :: v ++ 0 :: rest) with ((u ++ x :: m) ++ y :: v ++ 0 :: rest) by (by rewrite <-app_assoc).
      replace (Z.of_nat (S k) + Z.of_nat (length u)) with (Z.of_nat (length (u ++ x :: m))) by (rewrite length_app; cbn; lia). apply arr_get_app. }
    rewrite E. cbn [mbind option_bind]. rewrite char_nonzero by done. cbn [app]. rewrite arr_set_app. cbn [mbind option_bind].
    destruct (IH fuel (u ++ [y]) (m ++ [y]) rest k) as (a' & Ea & Ha & Hl); [rewrite length_app; cbn; lia|cbn in Hf; lia|by apply Forall_app_2; [|constructor]|done|].
    exists a'. replace (Z.of_nat (length u) + 1) with (Z.of_nat (length (u ++ [y]))) by (rewrite length_app; cbn; lia).
    rewrite <-!app_assoc in Ea. cbn [app] in Ea. rewrite Ea. split; [done|]. rewrite <-app_assoc in Ha. split; [done|]. rewrite Hl. repeat (rewrite length_app || cbn [length app]). lia.
Qed.

Lemma strip_split t : ∃ b, t = b ++ strip t ∧ Forall (λ c, c = 32) b.
Proof.
  induction t as [|c t (b & E & Hb)]; [by exists []|]. cbn [strip]. destruct (Z.eqb_spec c 32) as [->|]; [|by exists []].
  exists (32 :: b). split; [by rewrite E at 1|by constructor].
Qed.

Lemma skip_blanks_app b a : Forall (λ c, c = 32) b → skip_blanks (b ++ a) = skip_blanks a.
Proof. induction 1 as [|c b -> Hb IH]; [done|]. exact IH. Qed.

Lemma skip_strip t rest : Forall is_char t → skip_blanks (strip t ++ 0 :: rest) = Some (strip t ++ 0 :: rest).
Proof.
  induction 1 as [|c t Hc Ht IH]; [done|]. cbn [strip]. destruct (c =? 32) eqn:E; [done|]. cbn [app skip_blanks]. by rewrite E.
Qed.

(** The name of the processor, as [cpuid] gives it, loses the blanks at its start. *)
Lemma trim_brand_run n a t : text_in n a t → ∃ a', trim_brand a = Some a' ∧ text_in n a' (strip t).
Proof.
  intros [Hl (Hc & rest & ->)]. destruct (strip_split t) as (b & E & Hb). unfold trim_brand.
  assert (Ea : t ++ 0 :: rest = b ++ strip t ++ 0 :: rest) by (by rewrite E at 1; rewrite <-app_assoc).
  assert (Hcs : Forall is_char (strip t)) by (rewrite E in Hc; by apply Forall_app in Hc as [_ ?]).
  rewrite Ea, skip_blanks_app, skip_strip by done. cbn [mbind option_bind]. rewrite length_app.
  replace (Z.of_nat _) with (Z.of_nat (length b)) by lia. rewrite Ea in Hl. destruct b as [|x b].
  - cbn. eexists. split; [done|]. split; [done|]. by apply holds_intro.
  - rewrite (proj2 (Z.eqb_neq _ 0)) by (cbn; lia). cbn [length].
    destruct (shift_down_run (strip t) (S (length b) + length (strip t ++ 0%Z :: rest)) [] (x :: b) rest (length b)) as (a' & E1 & H1 & H2); [done| |constructor|done|].
    { rewrite length_app. cbn [length]. lia. }
    cbn [app] in *. exists a'. split; [exact E1|]. split; [|done]. by rewrite H2.
Qed.

(** What is known of the processor.  Whatever [cpuid] says, the detection ends without leaving
    its arrays; the brand is the string in the twelve registers without the blanks at its start,
    when the processor has one. *)
Theorem cpu_detect_brand (cpuid : Z → Z → regs) (t : str)
    (Ht : text_in 49 (concat ((λ leaf, let r := cpuid leaf 0 in reg_bytes (eax r) ++ reg_bytes (ebx r) ++ reg_bytes (ecx r) ++ reg_bytes (edx r)) <$>
      [0x80000002; 0x80000003; 0x80000004]) ++ [0]) t) :
  ∃ i, cpu_detect cpuid = Some i ∧ text_in 49 (brand i) (if 0x80000004 <=? eax (cpuid 0x80000000 0) then strip t else []) ∧ length (vendor i) = 13%nat.
Proof.
  assert (Hb : ∃ b, cpu_brand cpuid = Some b ∧ text_in 49 b (if 0x80000004 <=? eax (cpuid 0x80000000 0) then strip t else [])).
  { unfold cpu_brand. destruct (0x80000004 <=? _).
    - apply trim_brand_run. cbn [fmap list_fmap concat] in Ht. by rewrite app_nil_r, <-!(app_assoc (_ ++ _)) in Ht.
    - eexists. split; [done|]. split; [done|]. by apply (holds_intro [] (replicate 48 0)). }
  destruct Hb as (b & E & Hb). unfold cpu_detect. destruct (cpu_signature _) as [[family model] stepping]. rewrite E. cbn [mbind option_bind].
  destruct (arr_get_inside (reg_bytes (ebx (cpuid 0 0)) ++ reg_bytes (edx (cpuid 0 0)) ++ reg_bytes (ecx (cpuid 0 0)) ++ [0]) 0) as (v & -> & _).
  { rewrite !length_app. unfold reg_bytes. rewrite !length_le_split. cbn. lia. }
  cbn [mbind option_bind]. destruct (cpu_caches cpuid v) as [[[l1d l1i] l2] l3]. eexists. split; [done|]. split; [done|].
  cbn [vendor]. rewrite !length_app. unfold reg_bytes. by rewrite !length_le_split.
Qed.

(** The signature of a processor of family 0x17, model 0x71: the upper half of the model is lost,
    since the family has changed when it is asked for. *)
Example model_lost : cpu_signature 0x870F10 = (0x17, 1, 0).
Proof. done. Qed.
Example model_kept : cpu_signature 0x906EA = (6, 0x9E, 10).
Proof. done. Qed.

Definition demo_cpuid (leaf sub : Z) : regs :=
  if leaf =? 0 then mk_regs 0x16 0x756E6547 0x6C65746E 0x49656E69
  else if leaf =? 1 then mk_regs 0x906EA 0x100800 0x7FFAFBBF 0xBFEBFBFF
  else if leaf =? 4 then (if sub =? 0 then mk_regs 0x1C004121 0x01C0003F 63 0 else mk_regs 0 0 0 0)
  else if leaf =? 0x80000000 then mk_regs 0x80000008 0 0 0
  else if leaf =? 0x80000002 then mk_regs 0x20202020 0x65746E49 0x6F43206C 0x69206572
  else if leaf =? 0x80000003 then mk_regs 0x37 0 0 0
  else mk_regs 0 0 0 0.
Lemma cpu_detect_brand_witness :
  ∃ i, cpu_detect demo_cpuid = Some i ∧ text_in 49 (brand i) (if 0x80000004 <=? eax (demo_cpuid 0x80000000 0) then strip (chars "    Intel Core i7") else []) ∧
    length (vendor i) = 13%nat.
Proof.
  apply (cpu_detect_brand demo_cpuid (chars "    Intel Core i7")). split; [by vm_compute|]. split; [eval_decide|].
  exists (replicate 31 0). by vm_compute.
Defined.
Example demo_cpu : (λ i, (c_text (vendor i), c_text (brand i), (family i, model i, stepping i), (cache_line_size i, cache_l1d i, threads i))) <$> cpu_detect demo_cpuid =
  Some (chars "GenuineIntel", chars "Intel Core i7", (6, 0x9E, 10), (64, 32, 16)).
Proof. by vm_compute. Qed.
