(* ===== verification/SystemCommands.v ===== *)
(** * The other commands, [shell/commands/commands.c], [cmos.c], [system.c], [poweroff.c], [insmod.c] and [rmmod.c]

    They print what other parts know: the class [SystemInfo].  The argument of a command is an
    array that holds a string. *)

From Stdlib Require Import ZArith Lia String.
From stdpp Require Import base list numbers.
From S2P Require Import Prelude CString Ports Buffer Font Display Console Mouse Window Shell Cmos Cpu.
Open Scope Z_scope.
Set Default Goal Selector "!".

Class SystemInfo (W : Type) := {
  si_gui_running : W → Z;
  si_gui_clear : M W unit;                   (** [gui_terminal_clear] *)
  si_clear_screen : Z → M W unit;            (** [shell_clear_screen] *)
  si_font_scale : W → Z;
  si_uptime : M W unit;                      (** [timer_display_uptime_information] *)
  si_components : W → list (option (str * Z)); (** the registry: attachment point and build number *)
  si_fb_size : W → Z * Z;
  si_cpu : W → cpu_info_t;
  si_lkm_load : str → M W Z;
  si_lkm_unload : str → M W Z;
  si_interrupt : Z → M W unit;               (** the instruction [int] *)
  si_no_idt : M W unit;                      (** [lidt 0] *)
}.

(** The numeral of a number in an array of [n], after the text [t]. *)
Definition num_text (n : nat) (t : String.string) (v : Z) (u : String.string) : option (list Z) :=
  b ← str_copy (replicate n 0) (lit t); b ← str_append_uint b (u32 v); str_append b (lit u).

(** ** Addresses and checksums *)

(** The parts of an address; nothing is read behind a character that is not one of an address,
    and the shift of the last part must not be negative. *)
Fixpoint parse_ip_loop (p : list Z) (ip part shift : Z) : option Z :=
  match p with
  | [] => None
  | c :: p' =>
      if negb (c =? 0) && (0 <=? shift) then
        if (48 <=? c) && (c <=? 57) then parse_ip_loop p' ip (i32 (part * 10 + (c - 48))) shift
        else if c =? 46 then parse_ip_loop p' (Z.lor ip (u32 (Z.shiftl part shift))) 0 (shift - 8)
        else Some 0
      else if 0 <=? shift then Some (Z.lor ip (u32 (Z.shiftl part shift))) else None
  end.
Definition parse_ip (str : list Z) : option Z := parse_ip_loop str 0 0 24.

(** The sum of the words of a buffer, and of the byte that may be left, in a word of 32 bits. *)
Fixpoint sum_words (bs : list Z) (sum : Z) : Z :=
  match bs with
  | a :: b :: bs' => sum_words bs' (u32 (sum + (a + 2 ^ 8 * b)))
  | [a] => u32 (sum + a)
  | [] => sum
  end.
(** [while (sum >> 16) sum = (sum & 0xFFFF) + (sum >> 16);], of which two turns are enough. *)
Fixpoint fold_sum (n : nat) (sum : Z) : Z :=
  match n with
  | O => sum
  | S n' => if truthy (Z.shiftr sum 16) then fold_sum n' (Z.land sum 0xFFFF + Z.shiftr sum 16) else sum
  end.
Definition checksum (bs : list Z) : Z := unot 16 (fold_sum 3 (sum_words bs 0)).

Section commands.
  Context {W : Type} `{!PortIO W} `{!Printers W} `{!SystemInfo W} (polls : nat).

(** Most commands refuse an argument. *)
Definition no_option (out : str → Z → M W unit) (color : Z) (s : list Z) (m : M W unit) : M W unit :=
  c ← of_option (arr_get s 0);
  if c =? 0 then m else
  out (chars "Error: invalid option: ") color;; out (c_text s) color;; out [10] color.

(** ** [commands.c] *)

Definition cmd_echo (s : list Z) : M W unit :=
  c ← of_option (arr_get s 0);
  if c =? 0 then pr_print [10] gray_70 else pr_print (c_text s) gray_70.
Definition cmd_clear (s : list Z) : M W unit :=
  no_option pr_print red s (
    w ← get;
    if truthy (si_gui_running w)
    then pr_print (chars "Clear command is disabled in GUI mode. Use 'cls' instead." ++ [10]) yellow
    else si_clear_screen CONSOLESCREEN_BG_COLOR).
Definition cmd_cls (s : list Z) : M W unit :=
  no_option pr_print red s (w ← get; if truthy (si_gui_running w) then si_gui_clear else cmd_clear s).
(** What follows these two returns in [cmd_fsize] and [cmd_help] cannot be reached. *)
Definition cmd_fsize (s : list Z) : M W unit :=
  no_option pr_print red s (
    w ← get;
    b ← of_option (b ← str_copy (replicate 64 0) (lit "Current font size: "); str_append_uint b (si_font_scale w));
    pr_print (c_text b) gray_70).
Definition help_text : M W unit :=
  pr_print (chars "acsh, version 1.0.0.0-release" ++ [10]) gray_70;;
  pr_print (chars "  echo [text]    - echo [text]" ++ [10]) gray_70;;
  pr_print (chars "  clear [color]  - clear screen" ++ [10]) gray_70;;
  pr_print (chars "  gui            - Launch the GUI" ++ [10]) gray_70;;
  pr_print (chars "  cls            - clear screen (works in GUI)" ++ [10]) gray_70;;
  pr_print (chars "  help [command] - displays this list" ++ [10]) gray_70;;
  pr_print (chars "  scale [1-4]    - change screen size" ++ [10]) gray_70;;
  pr_print (chars "  date           - show current date" ++ [10]) gray_70;;
  pr_print (chars "  time           - show current time" ++ [10]) gray_70;;
  pr_print (chars "  calendar       - show date & time" ++ [10]) gray_70;;
  pr_print (chars "  uptime         - displays the uptime" ++ [10]) gray_70;;
  pr_print (chars "  fetch          - KernixOS system info" ++ [10]) gray_70;;
  pr_print (chars "  cat <file>     - show file content" ++ [10]) gray_70;;
  pr_print (chars "  cd [path]      - Change the current directory" ++ [10]) gray_70;;
  pr_print (chars "  ls [path]      - list directory contents" ++ [10]) gray_70;;
  pr_print (chars "  mkdir          - Create the directory" ++ [10]) gray_70;;
  pr_print (chars "  touch          - Create the file" ++ [10]) gray_70;;
  pr_print (chars "  reboot         - reboot the system" ++ [10]) gray_70;;
  pr_print (chars "  meminfo        - heap memory information" ++ [10]) gray_70;;
  pr_print (chars "  cpuinfo        - heap cpu information" ++ [10]) gray_70;;
  pr_print (chars "  modules        - shows all modules in fs" ++ [10]) gray_70;;
  pr_print (chars "  history        - show command history" ++ [10]) gray_70;;
  pr_print (chars "Type 'help <command>' for details") cyan.
Definition cmd_help (s : list Z) : M W unit := no_option pr_print red s help_text.

(** ** [cmos.c] *)

Definition cmd_cal (s : list Z) : M W unit :=
  no_option pr_print red s (GetCMOSDate polls;; pr_print [32] gray_70;; GetCMOSTime polls).
Definition cmd_date (s : list Z) : M W unit := no_option pr_print red s (GetCMOSDate polls;; pr_print [10] white).
Definition cmd_time (s : list Z) : M W unit := no_option pr_print red s (GetCMOSTime polls).
Definition cmd_uptime (s : list Z) : M W unit := no_option pr_print red s (pr_print (chars "Uptime: ") gray_70;; si_uptime).

(** ** [system.c] *)

Definition module_version (ver : Z) : option (list Z) :=
  b ← str_copy (replicate 128 0) (lit " [v");
  b ← str_append_uint b (bits ver 24 8);
  b ← str_append b (lit ".");
  b ← str_append_uint b (bits ver 16 8);
  b ← str_append b (lit ".");
  b ← str_append_uint b (bits ver 8 8);
  str_append b (lit "]").
Fixpoint list_modules (l : list (option (str * Z))) : M W unit :=
  match l with
  | [] => mret tt
  | None :: l' => list_modules l'
  | Some (attachment_point, ver) :: l' =>
      pr_terminal attachment_point 0xFFFFFFFF;;
      b ← of_option (module_version ver);
      pr_terminal (c_text b) 0xFFFFFFFF;;
      pr_terminal [10] 0xFFFFFFFF;;
      list_modules l'
  end.
Definition cmd_modules (s : list Z) : M W unit :=
  no_option pr_terminal 0xFFFF0000 s (
    pr_terminal (chars "Loaded Modules:" ++ [10]) 0xFFFFFFFF;;
    w ← get;
    let l := si_components w in
    if bool_decide (l = []) then pr_terminal (chars "No modules loaded" ++ [10]) 0xFFFF0000 else
    list_modules l;;
    b ← of_option (b ← str_copy (replicate 128 0) ([10] ++ lit "Total: "); b ← str_append_uint b (Z.of_nat (length l)); str_append b (lit " module(s)"));
    pr_terminal (c_text b) 0xFFFFFFFF).
Definition print_res : M W unit :=
  w ← get;
  b ← of_option (b ← str_copy (replicate 128 0) (lit ""); b ← str_append_uint b (fst (si_fb_size w)); b ← str_append b (lit "x");
                 b ← str_append_uint b (snd (si_fb_size w)); str_append b ([10; 0]));
  pr_print (c_text b) gray_70.
Definition ShowCPUName : M W unit :=
  w ← get;
  cpu_name ← of_option (cpu_get_brand (si_cpu w));
  c ← of_option (arr_get cpu_name 0);
  if truthy c then pr_print (c_text cpu_name) gray_70 else pr_print (chars "Unknown CPU") gray_70.
Definition fetch_text : M W unit :=
  pr_print (chars " 			   ..,oONMMMMMMMMMMN0o,.." ++ [10]) red;;
  pr_print (chars "			  ..lKMMMMMMMMMMMMMMMMMMKl..        ") red;;
  pr_print Host green;;
  pr_print (chars "@") green;;
  pr_print User green;;
  pr_print [10] green;;
  pr_print (chars "		     .lNMMMMMMMMMMMMMMMMMMMMMMNl..      ") red;;
  pr_print (chars "OS: ") green;;
  pr_print (chars "KernixOS-64bit" ++ [10]) gray_70;;
  pr_print (chars "		   ..xMMMMMMMMMMMMMMMMMMMMMMMMMMk..     ") red;;
  pr_print (chars "Kernel: ") green;;
  pr_print (chars "AC-0099" ++ [10]) gray_70;;
  pr_print (chars "	       .oMMMMMMMMMMMMMMMMMMMMMMMMMMMMo.     ") red;;
  pr_print (chars "Shell: ") green;;
  pr_print (chars "acsh 1.0.0.0" ++ [10]) gray_70;;
  pr_print (chars "	      ..NMMMMMMMMMMMMMMMMMMMMMMMMMMMMN..    ") red;;
  pr_print (chars "Resolution: ") green;;
  print_res;;
  pr_print (chars "          .,MMMMMMMMMMMMMMMMMMMMMMMMMMMMMM,.    ") red;;
  pr_print (chars "Bootloader: ") green;;
  pr_print (chars "Limine " ++ [10]) gray_70;;
  pr_print (chars "          ..KMMMMMMMMMMMMMMMMMMMMMMMMMMMM0..    ") red;;
  pr_print (chars "CPU: ") green;;
  ShowCPUName;;
  pr_print [10] gray_70;;
  pr_print (chars "           .;WMMMMMMMMMMMMMMMMMMMMMMMMMMN,.     ") red;;
  pr_print (chars "Date: ") green;;
  GetCMOSDate polls;;
  pr_print [10] gray_70;;
  pr_print (chars "            .:NMMMMMMMMMMMMMMMMMMMMMMMMN;.      ") red;;
  pr_print (chars "Uptime: ") green;;
  si_uptime;;
  pr_print [10] gray_70;;
  pr_print (chars "             .'kWMMMMMMMMMMMMMMMMMMMMWx.." ++ [10]) red;;
  pr_print (chars "               .'dNMMMMMMMMMMMMMMMMXd.." ++ [10]) red;;
  pr_print (chars "                 ..,lkKXWMMMMWNKkl,.." ++ [10]) red;;
  pr_print (chars "R ") red;;
  pr_print (chars "G ") green;;
  pr_print (chars "B ") blue;;
  pr_print (chars "Y ") yellow;;
  pr_print (chars "M ") purple;;
  pr_print (chars "C ") cyan;;
  pr_print (chars "W ") gray_70;;
  pr_print (chars "K " ++ [10]) black;;
  pr_print (chars "                        ") green.
Definition cmd_sysinfo (s : list Z) : M W unit := no_option pr_print red s fetch_text.

(** A line of [cmd_cpuinfo]: its name, and the number with what follows it. *)
Definition cpu_line (name : String.string) (v : Z) (unit_ : String.string) : M W unit :=
  pr_print (chars name) green;;
  b ← of_option (num_text 128 "" v unit_);
  pr_print (c_text b) gray_70;;
  pr_print [10] gray_70.
Definition cache_line (name : String.string) (v : Z) : M W unit := if truthy v then cpu_line name v " KB" else mret tt.
Definition feature_line (name : String.string) (v : Z) : M W unit :=
  pr_print (chars name) green;; pr_hex v gray_70;; pr_print [10] gray_70.
Definition cmd_cpuinfo (s : list Z) : M W unit :=
  no_option pr_print red s (
    w ← get;
    let info := si_cpu w in
    pr_print (chars "CPU Information:" ++ [10]) cyan;;
    pr_print (chars "Vendor: ") green;;
    pr_print (c_text (vendor info)) gray_70;;
    pr_print [10] gray_70;;
    pr_print (chars "Brand: ") green;;
    c ← of_option (arr_get (brand info) 0);
    pr_print (if truthy c then c_text (brand info) else chars "Unknown") gray_70;;
    pr_print [10] gray_70;;
    cpu_line "Family: " (family info) "";;
    cpu_line "Model: " (model info) "";;
    cpu_line "Stepping: " (stepping info) "";;
    cpu_line "Cores: " (cores info) "";;
    cpu_line "Threads: " (threads info) "";;
    cpu_line "Cache Line Size: " (cache_line_size info) " bytes";;
    cache_line "L1 Data Cache: " (cache_l1d info);;
    cache_line "L1 Instruction Cache: " (cache_l1i info);;
    cache_line "L2 Cache: " (cache_l2 info);;
    cache_line "L3 Cache: " (cache_l3 info);;
    feature_line "Features (EDX): " (features_edx info);;
    feature_line "Features (ECX): " (features_ecx info);;
    feature_line "Extended Features (EBX): " (extended_features_ebx info);;
    feature_line "Extended Features (ECX): " (extended_features_ecx info)).

(** ** [insmod.c] and [rmmod.c] *)

Definition cmd_insmod (s : list Z) : M W unit :=
  c ← of_option (arr_get s 0);
  if c =? 0 then pr_print (chars "Usage: insmod <module_path>" ++ [10]) yellow else
  path ← of_option (skip_blanks s);
  r ← si_lkm_load (c_text path);
  if r =? 0 then pr_print (chars "Module loaded successfully" ++ [10]) green
  else pr_print (chars "Failed to load module" ++ [10]) red.
Definition cmd_rmmod (s : list Z) : M W unit :=
  c ← of_option (arr_get s 0);
  if c =? 0 then pr_print (chars "Usage: rmmod <module_name>" ++ [10]) yellow else
  name ← of_option (skip_blanks s);
  r ← si_lkm_unload (c_text name);
  if r =? 0 then pr_print (chars "Module unloaded successfully" ++ [10]) green
  else pr_print (chars "Failed to unload module or module not found" ++ [10]) red.

(** ** [poweroff.c], as it is built without [QEMU_BUILD] *)

Definition POWEROFF_SHUTDOWN : Z := 0.
Definition POWEROFF_REBOOT : Z := 1.
Definition x86_poweroff : M W unit := outw 0x604 0x2000.
Definition x86_restart : M W unit :=
  outb 0x64 0xFE;;
  v ← inb 0xCF9;
  outb 0xCF9 (Z.lor v 0x6);;
  si_no_idt;;
  si_interrupt 3.
Definition x86_shutdown : M W unit := outw 0x604 0x2000;; si_interrupt 0x15;; x86_poweroff.
Definition poweroff (operation : Z) : M W Z :=
  if operation =? POWEROFF_REBOOT then x86_restart;; mret 0
  else if operation =? POWEROFF_SHUTDOWN then x86_shutdown;; mret 0
  else mret (-1).
Definition power_command (message failed : str) (operation : Z) : M W unit :=
  pr_print message yellow;;
  pr_print (chars "Note: May not work on all hardware configurations" ++ [10]) red;;
  result ← poweroff operation;
  if result =? -1 then pr_print failed red else mret tt.
Definition cmd_poweroff : M W unit :=
  power_command (chars "Shutting down system..." ++ [10]) (chars "Shutdown failed" ++ [10]) POWEROFF_SHUTDOWN.
Definition cmd_reboot : M W unit :=
  power_command (chars "Restarting system..." ++ [10]) (chars "Restart failed" ++ [10]) POWEROFF_REBOOT.
Definition cmd_shutdown : M W unit :=
  power_command (chars "Shutting down system..." ++ [10]) (chars "Shutdown failed" ++ [10]) POWEROFF_SHUTDOWN.
End commands.

(** ** The checksum of the internet protocols *)

Lemma land_ffff s : Z.land s 0xFFFF = s mod 65536.
Proof. change 0xFFFF with (Z.ones 16). by rewrite Z.land_ones. Qed.

Lemma fold_step s : 0 ≤ s → 2 ^ 16 ≤ s → let r := Z.land s 0xFFFF + Z.shiftr s 16 in
  0 < r < s ∧ r mod 65535 = s mod 65535 ∧ r ≤ 65535 + s / 65536.
Proof.
  intros Hs Hb. cbv zeta. rewrite land_ffff, Z.shiftr_div_pow2 by lia. change (2 ^ 16) with 65536 in *.
  pose proof (Z.div_mod s 65536 ltac:(lia)) as E. pose proof (Z.mod_pos_bound s 65536 ltac:(lia)) as Hm.
  assert (1 ≤ s / 65536) by (apply Z.div_le_lower_bound; lia). split_and!; [lia|lia| |lia].
  rewrite E at 3. replace (65536 * (s / 65536) + s mod 65536) with (s mod 65536 + s / 65536 + s / 65536 * 65535) by lia. by rewrite Z_mod_plus_full.
Qed.

Lemma truthy_shift s : 0 ≤ s → truthy (Z.shiftr s 16) = (2 ^ 16 <=? s).
Proof.
  intros Hs. rewrite Z.shiftr_div_pow2 by lia. destruct (Z.leb_spec (2 ^ 16) s) as [H|H].
  - apply truthy_true. assert (1 ≤ s / 2 ^ 16) by (apply Z.div_le_lower_bound; lia). lia.
  - apply truthy_false, Z.div_small. lia.
Qed.

Lemma fold_small n s : 0 ≤ s < 2 ^ 16 → fold_sum n s = s.
Proof. intros H. destruct n as [|n]; [done|]. cbn [fold_sum]. rewrite truthy_shift by lia. by rewrite (proj2 (Z.leb_gt _ _)) by lia. Qed.

(** The sum as a number of 16 bits, with the carries added again. *)
Lemma fold_sum_run s : 0 ≤ s < 2 ^ 32 → let r := fold_sum 3 s in 0 ≤ r < 2 ^ 16 ∧ r mod 65535 = s mod 65535 ∧ (r = 0 ↔ s = 0).
Proof.
  intros Hs. cbv zeta. destruct (Z.lt_ge_cases s (2 ^ 16)) as [H|H]; [rewrite fold_small by lia; split_and!; (lia || done)|].
  cbn [fold_sum]. rewrite truthy_shift, (proj2 (Z.leb_le _ _)) by lia. destruct (fold_step s) as (B1 & M1 & U1); [lia|done|].
  set (s1 := Z.land s 0xFFFF + Z.shiftr s 16) in *. assert (s / 65536 < 65536) by (apply Z.div_lt_upper_bound; lia).
  rewrite truthy_shift by lia. destruct (Z.leb_spec (2 ^ 16) s1) as [H1|H1]; [|by split_and!; try lia].
  destruct (fold_step s1) as (B2 & M2 & U2); [lia|done|]. set (s2 := Z.land s1 0xFFFF + Z.shiftr s1 16) in *.
  assert (s1 / 65536 < 2) by (apply Z.div_lt_upper_bound; lia).
  assert (s2 < 65536).
  { unfold s2. rewrite land_ffff, Z.shiftr_div_pow2 by lia. change (2 ^ 16) with 65536 in *.
    pose proof (Z.div_mod s1 65536 ltac:(lia)). pose proof (Z.mod_pos_bound s1 65536 ltac:(lia)). lia. }
  rewrite truthy_shift, (proj2 (Z.leb_gt _ _)) by lia. split_and!; [lia|lia|congruence|lia].
Qed.

(** The sum of the 16-bit words of a buffer. *)
Fixpoint word_sum (bs : list Z) : Z :=
  match bs with a :: b :: bs' => a + 2 ^ 8 * b + word_sum bs' | [a] => a | [] => 0 end.

Lemma word_sum_bound n : ∀ bs, (length bs ≤ n)%nat → Forall is_byte bs → 0 ≤ word_sum bs ≤ 65535 * Z.of_nat (length bs).
Proof.
  induction n as [|n IH]; intros [|a [|b bs]] Hl Hb; cbn [word_sum length] in *; try lia.
  - apply list.Forall_cons in Hb as [Ha _]. unfold is_byte in Ha. lia.
  - apply list.Forall_cons in Hb as [Ha [Hb Hbs]%list.Forall_cons]. unfold is_byte in *. pose proof (IH bs ltac:(lia) Hbs). lia.
Qed.

Lemma sum_words_run n : ∀ bs s, (length bs ≤ n)%nat → Forall is_byte bs → 0 ≤ s → s + 65535 * Z.of_nat (length bs) < 2 ^ 32 →
  sum_words bs s = s + word_sum bs.
Proof.
  induction n as [|n IH]; intros [|a [|b bs]] s Hl Hb Hs Hlt; cbn [word_sum sum_words length] in *; try lia.
  - apply list.Forall_cons in Hb as [Ha _]. unfold is_byte in Ha. apply Z.mod_small. lia.
  - apply list.Forall_cons in Hb as [Ha [Hb Hbs]%list.Forall_cons]. unfold is_byte in *. unfold u32. rewrite Z.mod_small by lia.
    rewrite IH by (done || lia). lia.
Qed.

Lemma word_sum_app n : ∀ xs ys, length xs = (2 * n)%nat → word_sum (xs ++ ys) = word_sum xs + word_sum ys.
Proof.
  induction n as [|n IH]; intros [|a [|b xs]] ys Hl; cbn [length] in Hl; try lia; [done|]. cbn [app word_sum]. rewrite IH by lia. lia.
Qed.

Lemma unot_16 z : 0 ≤ z < 2 ^ 16 → unot 16 z = 65535 - z.
Proof. intros Hz. unfold unot. rewrite Z.land_ones by lia. replace (Z.lnot z) with (65535 - z + -1 * 2 ^ 16) by (unfold Z.lnot; lia). rewrite Z_mod_plus_full. apply Z.mod_small. lia. Qed.

Lemma checksum_run bs : Forall is_byte bs → Z.of_nat (length bs) ≤ 65535 → checksum bs = 65535 - fold_sum 3 (word_sum bs) ∧ 0 ≤ word_sum bs < 2 ^ 32.
Proof.
  intros Hb Hl. pose proof (word_sum_bound _ bs (le_n _) Hb). unfold checksum. rewrite (sum_words_run _ bs 0 (le_n _)) by (done || lia). rewrite Z.add_0_l.
  split; [|lia]. apply unot_16. apply fold_sum_run. lia.
Qed.

Lemma checksum_fill (xs ys : list Z) (Hx : Forall is_byte xs) (Hy : Forall is_byte ys) (n : nat) (He : length xs = (2 * n)%nat)
    (Hl : Z.of_nat (length xs + length ys) ≤ 65533) :
  let ck := checksum (xs ++ [0; 0] ++ ys) in
  0 ≤ ck < 2 ^ 16 ∧ checksum (xs ++ [ck mod 2 ^ 8; ck / 2 ^ 8] ++ ys) = 0.
Proof.
  cbv zeta. assert (Hz : Forall is_byte [0; 0]) by eval_decide.
  destruct (checksum_run (xs ++ [0; 0] ++ ys)) as [E B]; [by repeat apply Forall_app_2|rewrite !length_app; cbn; lia|].
  destruct (fold_sum_run _ B) as (R & M & Z0). rewrite E in *. set (S := word_sum (xs ++ [0; 0] ++ ys)) in *. set (f := fold_sum 3 S) in *.
  set (ck := 65535 - f). assert (Hck : 0 ≤ ck < 2 ^ 16) by (unfold ck; lia). split; [done|].
  assert (Hcb : Forall is_byte [ck mod 2 ^ 8; ck / 2 ^ 8]).
  { apply Forall_cons_2; [apply Z.mod_pos_bound; lia|]. apply Forall_cons_2; [|done]. split; [apply Z.div_pos; lia|apply Z.div_lt_upper_bound; lia]. }
  destruct (checksum_run (xs ++ [ck mod 2 ^ 8; ck / 2 ^ 8] ++ ys)) as [E2 B2]; [by repeat apply Forall_app_2|rewrite !length_app; cbn; lia|].
  rewrite E2. destruct (fold_sum_run _ B2) as (R2 & M2 & Z2).
  assert (ES : word_sum (xs ++ [ck mod 2 ^ 8; ck / 2 ^ 8] ++ ys) = S + ck).
  { unfold S. rewrite (word_sum_app n xs ([0; 0] ++ ys)), (word_sum_app n) by done. clearbody ck. change (word_sum ([0; 0] ++ ys)) with (0 + 2 ^ 8 * 0 + word_sum ys).
    change (word_sum ([ck mod 2 ^ 8; ck / 2 ^ 8] ++ ys)) with (ck mod 2 ^ 8 + 2 ^ 8 * (ck / 2 ^ 8) + word_sum ys).
    pose proof (Z.div_mod ck (2 ^ 8) ltac:(lia)). lia. }
  rewrite ES in *. assert (M3 : (S + ck) mod 65535 = 0).
  { unfold ck. rewrite <-Zplus_mod_idemp_l, <-M, Zplus_mod_idemp_l. replace (f + (65535 - f)) with (1 * 65535) by lia. apply Z_mod_mult. }
  set (g := fold_sum 3 (S + ck)) in *. rewrite M3 in M2.
  destruct (decide (g = 0)) as [G|G].
  - apply Z2 in G. assert (S = 0) by lia. assert (f = 0) by (by apply Z0). lia.
  - destruct (decide (g = 65535)) as [->|]; [done|]. rewrite Z.mod_small in M2 by lia. lia.
Qed.

(** The checksum.  A header whose checksum was computed with zero in its place, and put there
    in the byte order of the machine, has the checksum zero: what a receiver tests. *)
Theorem checksum_verifies (xs ys : list Z) (Hx : Forall is_byte xs) (Hy : Forall is_byte ys) (n : nat) (He : length xs = (2 * n)%nat)
    (Hl : Z.of_nat (length xs + length ys) ≤ 65533) :
  let ck := checksum (xs ++ [0; 0] ++ ys) in
  0 ≤ ck < 2 ^ 16 ∧ checksum (xs ++ [ck mod 2 ^ 8; ck / 2 ^ 8] ++ ys) = 0.
Proof. by apply (checksum_fill xs ys Hx Hy n). Qed.

(** ** Addresses *)

Definition dotted (a b c d : Z) : str := dec_digits 3 a ++ 46 :: dec_digits 3 b ++ 46 :: dec_digits 3 c ++ 46 :: dec_digits 3 d.

Lemma parse_digits ds : Forall is_digit ds → ∀ p ip part shift, 0 ≤ shift → 0 ≤ part → (∀ m, 0 ≤ m → m ≤ dec_from part ds → m < 2 ^ 31) →
  parse_ip_loop (ds ++ p) ip part shift = parse_ip_loop p ip (dec_from part ds) shift.
Proof.
  induction 1 as [|c ds Hc Hds IH]; intros p ip part shift Hs Hp Hb; [done|]. unfold is_digit in Hc. cbn [app parse_ip_loop].
  rewrite (proj2 (Z.eqb_neq c 0)), (proj2 (Z.leb_le 0 shift)), (proj2 (Z.leb_le 48 c)), (proj2 (Z.leb_le c 57)) by lia. cbn [negb andb].
  change (dec_from part (c :: ds)) with (dec_from (part * 10 + (c - 48)) ds) in *.
  assert (Hm : part * 10 + (c - 48) ≤ dec_from (part * 10 + (c - 48)) ds) by (by apply dec_from_mono; [lia|]).
  assert (Hv : part * 10 + (c - 48) < 2 ^ 31) by (apply Hb; lia).
  rewrite i32_id by lia. apply IH; [done|lia|done].
Qed.

Lemma parse_part v p ip shift : 0 ≤ v < 256 → 0 ≤ shift → parse_ip_loop (dec_digits 3 v ++ p) ip 0 shift = parse_ip_loop p ip v shift.
Proof.
  intros Hv Hs. pose proof (dec_digits_value 3 v ltac:(cbn; lia)) as E. unfold dec_value in E. rewrite parse_digits; [by rewrite E|apply dec_digits_digits|done|lia|].
  rewrite E. lia.
Qed.

(** [parse_ip] reads back the dotted form of every address. *)
Theorem parse_ip_dotted (a b c d : Z) (rest : list Z) (Ha : 0 ≤ a < 256) (Hb : 0 ≤ b < 256) (Hc : 0 ≤ c < 256) (Hd : 0 ≤ d < 256) :
  parse_ip (dotted a b c d ++ 0 :: rest) = Some (2 ^ 24 * a + 2 ^ 16 * b + 2 ^ 8 * c + d).
Proof.
  unfold parse_ip, dotted. repeat (rewrite <-app_assoc; cbn [app]).
  assert (Hdot : ∀ v p ip shift, 0 ≤ shift → parse_ip_loop (46 :: p) ip v shift = parse_ip_loop p (Z.lor ip (u32 (Z.shiftl v shift))) 0 (shift - 8)).
  { intros v p ip shift Hs. cbn [parse_ip_loop]. by rewrite (proj2 (Z.leb_le 0 shift)). }
  assert (Hsh : ∀ v k, 0 ≤ v < 256 → 0 ≤ k ≤ 24 → u32 (Z.shiftl v k) = v * 2 ^ k).
  { intros v k Hv Hk. rewrite Z.shiftl_mul_pow2 by lia. apply Z.mod_small. pose proof (Z.pow_le_mono_r 2 k 24 ltac:(lia) ltac:(lia)).
    pose proof (Z.pow_pos_nonneg 2 k ltac:(lia) ltac:(lia)). nia. }
  assert (Hor : ∀ hi v k, 0 ≤ v < 256 → 0 ≤ k → 0 ≤ hi → Z.lor (hi * 2 ^ (k + 8)) (v * 2 ^ k) = (hi * 2 ^ 8 + v) * 2 ^ k).
  { intros hi v k Hv Hk Hh. replace (hi * 2 ^ (k + 8)) with (Z.shiftl (hi * 2 ^ 8) k) by (rewrite Z.shiftl_mul_pow2, Z.pow_add_r by lia; ring).
    rewrite <-(Z.shiftl_mul_pow2 v k), <-Z.shiftl_lor, Z.shiftl_mul_pow2 by lia. f_equal.
    rewrite Z.lor_comm, <-(Z.shiftl_mul_pow2 hi 8), lor_shiftl_add by lia. rewrite Z.shiftl_mul_pow2 by lia. lia. }
  rewrite parse_part, Hdot, Hsh by lia. rewrite Z.lor_0_l. change (24 - 8) with 16.
  rewrite parse_part, Hdot, Hsh by lia. pose proof (Hor a b 16 Hb ltac:(lia) ltac:(lia)) as H1. change (16 + 8) with 24 in H1. rewrite H1. change (16 - 8) with 8.
  rewrite parse_part, Hdot, Hsh by lia. pose proof (Hor (a * 2 ^ 8 + b) c 8 Hc ltac:(lia) ltac:(lia)) as H2. change (8 + 8) with 16 in H2. rewrite H2. change (8 - 8) with 0.
  rewrite parse_part by lia. cbn [parse_ip_loop Z.eqb negb andb Z.leb Z.compare]. rewrite Hsh by lia.
  pose proof (Hor ((a * 2 ^ 8 + b) * 2 ^ 8 + c) d 0 Hd ltac:(lia) ltac:(lia)) as H3. change (0 + 8) with 8 in H3. rewrite H3. f_equal. lia.
Qed.

(** Parts that are left out or too large. *)
Example parse_one_part : parse_ip (lit "7") = Some (7 * 2 ^ 24).
Proof. done. Qed.
Example parse_large_part : parse_ip (lit "1.256.0.1") = parse_ip (lit "1.0.0.1").
Proof. done. Qed.
(** A dot behind the last part makes the last shift negative. *)
Example parse_dot_at_end : parse_ip (lit "1.2.3.4.") = None.
Proof. done. Qed.

Lemma checksum_verifies_witness :
  let ck := checksum ([0x45; 0; 0; 0x3C; 0x12; 0x34; 0; 0; 64; 1] ++ [0; 0] ++ [1; 1; 168; 192; 8; 8; 8; 8]) in
  0 ≤ ck < 2 ^ 16 ∧ checksum ([0x45; 0; 0; 0x3C; 0x12; 0x34; 0; 0; 64; 1] ++ [ck mod 2 ^ 8; ck / 2 ^ 8] ++ [1; 1; 168; 192; 8; 8; 8; 8]) = 0.
Proof.
  apply (checksum_verifies [0x45; 0; 0; 0x3C; 0x12; 0x34; 0; 0; 64; 1] [1; 1; 168; 192; 8; 8; 8; 8]) with (n := 5%nat); [eval_decide|eval_decide|done|cbn; lia].
Defined.
Lemma parse_ip_dotted_witness : parse_ip (lit "192.168.1.1") = Some 0xC0A80101.
Proof. apply (parse_ip_dotted 192 168 1 1 []); lia. Defined.
