(* ===== verification/E1000.v ===== *)
(** * The network card, [drivers/ethernet/e1000.c]

    The registers of the card are behind the ports.  The descriptors and buffers are memory
    that the card shares: the state holds them as they are when the driver looks. *)

From Stdlib Require Import ZArith Lia String.
From stdpp Require Import base list numbers.
From S2P Require Import Prelude Buffer Ports Alloc.
Open Scope Z_scope.
Set Default Goal Selector "!".

Definition RX_DESC_COUNT : Z := 32.
Definition TX_DESC_COUNT : Z := 32.
Definition RX_BUFFER_SIZE : Z := 2048.
Definition TX_BUFFER_SIZE : Z := 2048.
Definition E1000_REG_CTRL : Z := 0x0000.
Definition E1000_REG_EERD : Z := 0x0014.
Definition E1000_REG_RCTL : Z := 0x0100.
Definition E1000_REG_TCTL : Z := 0x0400.
Definition E1000_REG_TIPG : Z := 0x0410.
Definition E1000_REG_RDBAL : Z := 0x2800.
Definition E1000_REG_RDBAH : Z := 0x2804.
Definition E1000_REG_RDRLEN : Z := 0x2808.
Definition E1000_REG_RDH : Z := 0x2810.
Definition E1000_REG_RDT : Z := 0x2818.
Definition E1000_REG_TDBAL : Z := 0x3800.
Definition E1000_REG_TDBAH : Z := 0x3804.
Definition E1000_REG_TDLEN : Z := 0x3808.
Definition E1000_REG_TDH : Z := 0x3810.
Definition E1000_REG_TDT : Z := 0x3818.
Definition E1000_REG_RAL : Z := 0x5400.
Definition E1000_REG_RAH : Z := 0x5404.

Record e1000_rx_desc_t := mk_rx { rx_addr : Z; rx_length : Z; rx_status : Z }.
Record e1000_tx_desc_t := mk_tx { tx_addr : Z; tx_length : Z; tx_cmd : Z; tx_status : Z }.
Definition SIZEOF_DESC : Z := 16.

(** [e1000_dev]: the rings and buffers are there when their pointers are not null. *)
Record e1000_device_t := mk_dev {
  io_base : Z;
  dev_mac : list Z;
  rx_descs : option (list e1000_rx_desc_t);
  tx_descs : option (list e1000_tx_desc_t);
  rx_buffers : option (list Z);
  tx_buffers : option (list Z);
  rx_cur : Z;
  tx_cur : Z;
}.
Definition no_card : e1000_device_t := mk_dev 0 (replicate 6 0) None None None None 0 0.

Record card (W : Type) := mk_card { e1000_dev : e1000_device_t; c_world : W }.
Arguments mk_card {W}.
Arguments e1000_dev {W}.
Arguments c_world {W}.

Section e1000.
  Context {W : Type} `{!PortIO W} `{!AllocOps W} (fs_kernel_memory : Z).
  Abbreviation S := (card W).

Definition on_world {B} (m : M W B) : M S B := zoom c_world (λ w s, mk_card (e1000_dev s) w) m.
Definition set_dev (d : e1000_device_t) : M S unit := modify (λ s, mk_card d (c_world s)).
Definition upd_dev (f : e1000_device_t → e1000_device_t) : M S unit := modify (λ s, mk_card (f (e1000_dev s)) (c_world s)).
Definition set_mac (m : list Z) (d : e1000_device_t) : e1000_device_t :=
  mk_dev (io_base d) m (rx_descs d) (tx_descs d) (rx_buffers d) (tx_buffers d) (rx_cur d) (tx_cur d).
Definition set_memory rx tx rxb txb (d : e1000_device_t) : e1000_device_t :=
  mk_dev (io_base d) (dev_mac d) rx tx rxb txb (rx_cur d) (tx_cur d).
Definition set_cursors (rx tx : Z) (d : e1000_device_t) : e1000_device_t :=
  mk_dev (io_base d) (dev_mac d) (rx_descs d) (tx_descs d) (rx_buffers d) (tx_buffers d) rx tx.

Definition e1000_read_reg (reg : Z) : M S Z := s ← get; on_world (inl_ (u32 (io_base (e1000_dev s) + reg))).
Definition e1000_write_reg (reg value : Z) : M S unit := s ← get; on_world (outl (u32 (io_base (e1000_dev s) + reg)) value).

(** [while (busy(v = read(reg)) && timeout-- > 0);]: the last value and what is left of the time. *)
Fixpoint poll (n : nat) (reg : Z) (busy : Z → bool) (timeout : Z) : M S (Z * Z) :=
  match n with
  | O => stuck_with NoFuel
  | Datatypes.S n' =>
      v ← e1000_read_reg reg;
      if busy v then if 0 <? timeout then poll n' reg busy (timeout - 1) else mret (v, timeout - 1)
      else mret (v, timeout)
  end.
Definition POLLS : nat := Z.to_nat 10001.

Definition e1000_read_eeprom (addr : Z) : M S Z :=
  e1000_write_reg E1000_REG_EERD (Z.lor (Z.shiftl addr 8) 1);;
  '(tmp, timeout) ← poll POLLS E1000_REG_EERD (λ v, negb (truthy (Z.land v 0x10))) 10000;
  if timeout <=? 0 then mret 0 else mret (Z.land (Z.shiftr tmp 16) 0xFFFF).
Fixpoint detect_loop (n : nat) : M S unit :=
  match n with
  | O => mret tt
  | Datatypes.S n' => v ← e1000_read_reg E1000_REG_EERD; if truthy (Z.land v 0x10) then mret tt else detect_loop n'
  end.
Definition e1000_detect_eeprom : M S unit := e1000_write_reg E1000_REG_EERD 1;; detect_loop 1000.
Definition mac_bytes (low high : Z) : list Z :=
  [Z.land low 0xFF; Z.land (Z.shiftr low 8) 0xFF; Z.land (Z.shiftr low 16) 0xFF; Z.land (Z.shiftr low 24) 0xFF;
   Z.land high 0xFF; Z.land (Z.shiftr high 8) 0xFF].
Definition e1000_read_mac : M S unit :=
  v ← e1000_read_reg E1000_REG_EERD;
  if truthy (Z.land v 0x10) then
    mac_low ← e1000_read_eeprom 0;
    mac_high ← e1000_read_eeprom 1;
    upd_dev (set_mac (mac_bytes mac_low mac_high))
  else
    ral ← e1000_read_reg E1000_REG_RAL;
    rah ← e1000_read_reg E1000_REG_RAH;
    upd_dev (set_mac (mac_bytes ral rah)).

Definition e1000_init (base : Z) : M S unit :=
  upd_dev (λ d, mk_dev base (dev_mac d) (rx_descs d) (tx_descs d) (rx_buffers d) (tx_buffers d) 0 0);;
  rx ← on_world (al_alloc fs_kernel_memory (SIZEOF_DESC * RX_DESC_COUNT) 1);
  tx ← on_world (al_alloc fs_kernel_memory (SIZEOF_DESC * TX_DESC_COUNT) 1);
  rxb ← on_world (al_alloc fs_kernel_memory (RX_BUFFER_SIZE * RX_DESC_COUNT) 1);
  txb ← on_world (al_alloc fs_kernel_memory (TX_BUFFER_SIZE * TX_DESC_COUNT) 1);
  let have {T} (p : Z) (v : T) := if truthy p then Some v else None in
  upd_dev (set_memory (have rx (replicate 32 (mk_rx 0 0 0))) (have tx (replicate 32 (mk_tx 0 0 0 0)))
    (have rxb (replicate (Z.to_nat (RX_BUFFER_SIZE * RX_DESC_COUNT)) 0)) (have txb (replicate (Z.to_nat (TX_BUFFER_SIZE * TX_DESC_COUNT)) 0)));;
  if negb (truthy rx) || negb (truthy tx) || negb (truthy rxb) || negb (truthy txb) then mret tt else
  v ← e1000_read_reg E1000_REG_CTRL;
  e1000_write_reg E1000_REG_CTRL (Z.lor v 0x4000000);;
  '(_, timeout) ← poll POLLS E1000_REG_CTRL (λ v, truthy (Z.land v 0x4000000)) 10000;
  if timeout <=? 0 then mret tt else
  e1000_read_mac;;
  upd_dev (λ d, set_memory (imap (λ i r, mk_rx (rxb + Z.of_nat i * RX_BUFFER_SIZE) (rx_length r) 0) <$> rx_descs d) (tx_descs d) (rx_buffers d) (tx_buffers d) d);;
  e1000_write_reg E1000_REG_RDBAL (Z.land rx 0xFFFFFFFF);;
  e1000_write_reg E1000_REG_RDBAH (u32 (Z.shiftr rx 32));;
  e1000_write_reg E1000_REG_RDRLEN (RX_DESC_COUNT * SIZEOF_DESC);;
  e1000_write_reg E1000_REG_RDH 0;;
  e1000_write_reg E1000_REG_RDT (RX_DESC_COUNT - 1);;
  e1000_write_reg E1000_REG_RCTL 0x400801C2;;
  upd_dev (λ d, set_memory (rx_descs d) (imap (λ i t, mk_tx (txb + Z.of_nat i * TX_BUFFER_SIZE) (tx_length t) 0 1) <$> tx_descs d) (rx_buffers d) (tx_buffers d) d);;
  e1000_write_reg E1000_REG_TDBAL (Z.land tx 0xFFFFFFFF);;
  e1000_write_reg E1000_REG_TDBAH (u32 (Z.shiftr tx 32));;
  e1000_write_reg E1000_REG_TDLEN (TX_DESC_COUNT * SIZEOF_DESC);;
  e1000_write_reg E1000_REG_TDH 0;;
  e1000_write_reg E1000_REG_TDT 0;;
  e1000_write_reg E1000_REG_TCTL 0x4010A;;
  e1000_write_reg E1000_REG_TIPG 0x60100A.

(** The bytes of the packet go into the buffer of the current descriptor. *)
Definition e1000_send_packet (data : list Z) (len : Z) : M S unit :=
  if TX_BUFFER_SIZE <? len then mret tt else
  s ← get;
  let d := e1000_dev s in
  let cur := tx_cur d in
  txb ← of_option (tx_buffers d);
  txb ← of_option (copy_chars (Z.to_nat len) (cur * TX_BUFFER_SIZE) (- (cur * TX_BUFFER_SIZE)) txb data);
  tx ← of_option (tx_descs d);
  t ← of_option (tx !! Z.to_nat cur);
  set_dev (set_memory (rx_descs d) (Some (<[Z.to_nat cur := mk_tx (tx_addr t) (u16 len) 0xB 0]> tx)) (rx_buffers d) (Some txb)
    (set_cursors (rx_cur d) ((cur + 1) mod TX_DESC_COUNT) d));;
  e1000_write_reg E1000_REG_TDT ((cur + 1) mod TX_DESC_COUNT).

(** What it returns and the buffer of the caller. *)
Definition e1000_receive_packet (buffer : list Z) (max_len : Z) : M S (Z * list Z) :=
  s ← get;
  let d := e1000_dev s in
  let cur := rx_cur d in
  rx ← of_option (rx_descs d);
  r ← of_option (rx !! Z.to_nat cur);
  if negb (truthy (Z.land (rx_status r) 0x1)) then mret (0, buffer) else
  let len := if max_len <? rx_length r then max_len else rx_length r in
  rxb ← of_option (rx_buffers d);
  buffer ← of_option (copy_chars (Z.to_nat len) 0 (cur * RX_BUFFER_SIZE) buffer rxb);
  let next := (cur + 1) mod RX_DESC_COUNT in
  set_dev (set_memory (Some (<[Z.to_nat cur := mk_rx (rx_addr r) (rx_length r) 0]> rx)) (tx_descs d) (Some rxb) (tx_buffers d)
    (set_cursors next (tx_cur d) d));;
  e1000_write_reg E1000_REG_RDT ((next + RX_DESC_COUNT - 1) mod RX_DESC_COUNT);;
  mret (len, buffer).
End e1000.

(** ** The rings *)

Record card_ok (d : e1000_device_t) : Prop := {
  co_rx : ∃ l, rx_descs d = Some l ∧ length l = 32%nat;
  co_tx : ∃ l, tx_descs d = Some l ∧ length l = 32%nat;
  co_rxb : ∃ b, rx_buffers d = Some b ∧ Z.of_nat (length b) = 65536;
  co_txb : ∃ b, tx_buffers d = Some b ∧ Z.of_nat (length b) = 65536;
  co_cur : 0 ≤ rx_cur d < 32 ∧ 0 ≤ tx_cur d < 32;
}.

(** The bytes of the [i]-th buffer. *)
Definition buffer_of (b : list Z) (i : Z) (n : nat) : list Z := take n (drop (Z.to_nat (i * 2048)) b).

Lemma copy_to i dst src n : (n ≤ length src)%nat → (i + n ≤ length dst)%nat →
  copy_chars n (Z.of_nat i) (- Z.of_nat i) dst src = Some (take i dst ++ take n src ++ drop (i + n) dst).
Proof.
  intros Hn Hd. revert i dst src Hn Hd.
  assert (H : ∀ n i j dst src, (j + n ≤ length src)%nat → (i + j + n ≤ length dst)%nat →
    copy_chars n (Z.of_nat (i + j)) (- Z.of_nat i) dst src = Some (take (i + j) dst ++ take n (drop j src) ++ drop (i + j + n) dst)).
  { clear n. intros n. induction n as [|n IH]; intros i j dst src Hn Hd; cbn [copy_chars].
    - by rewrite take_0, Nat.add_0_r, app_nil_l, take_drop.
    - destruct (lookup_lt_is_Some_2 src j) as [v Hv]; [lia|]. unfold arr_get. rewrite (proj2 (Z.leb_le 0 _)) by lia.
      replace (Z.to_nat (- Z.of_nat i + Z.of_nat (i + j))) with j by lia. rewrite Hv. cbn [mbind option_bind].
      rewrite arr_set_inside, Nat2Z.id by lia. cbn [mbind option_bind]. replace (Z.of_nat (i + j) + 1) with (Z.of_nat (i + S j)) by lia.
      rewrite (IH i (S j)) by (rewrite ?length_insert; lia). f_equal.
      replace (i + S j)%nat with (S (i + j)) by lia. rewrite (take_S_r _ _ v) by (rewrite list_lookup_insert_eq; [done|lia]).
      rewrite take_insert_ge, drop_insert_lt, <-app_assoc by lia. f_equal. rewrite (drop_S _ _ _ Hv). cbn [firstn app]. do 2 f_equal. f_equal. lia. }
  intros i dst src Hn Hd. pose proof (H n i 0%nat dst src) as E. rewrite Nat.add_0_r in E. rewrite E by lia. by rewrite drop_0.
Qed.

Section rings.
  Context {W : Type} `{PI : !PortIO W} `{AO : !AllocOps W}.
  Context (Hports : ∀ p v (w : W), ∃ w', outl p v w = Done tt w').

Lemma write_reg_run reg v (s : card W) (Q : unit → card W → Prop) :
  (∀ w', outl (u32 (io_base (e1000_dev s) + reg)) v (c_world s) = Done tt w' → Q tt (mk_card (e1000_dev s) w')) → wp (e1000_write_reg reg v) Q s.
Proof.
  intros HQ. unfold e1000_write_reg. apply wp_bind, wp_get. unfold wp, on_world, zoom.
  destruct (Hports (u32 (io_base (e1000_dev s) + reg)) v (c_world s)) as [w' E]. rewrite E. by apply HQ.
Qed.

(** The packet [data] is in the buffer of the descriptor [c], which tells the card its length and
    that it is the whole packet, is to get its checksum and to be reported when sent; the other
    buffers and descriptors are as they were. *)
Definition handed_over (data : list Z) (c : Z) (d d' : e1000_device_t) : Prop :=
  ∃ b l b' l' t, tx_buffers d = Some b ∧ tx_descs d = Some l ∧ l !! Z.to_nat c = Some t ∧ tx_buffers d' = Some b' ∧ tx_descs d' = Some l' ∧
    length b' = length b ∧ buffer_of b' c (length data) = data ∧ (∀ j, 0 ≤ j < 32 → j ≠ c → buffer_of b' j 2048 = buffer_of b j 2048) ∧
    l' = <[Z.to_nat c := mk_tx (tx_addr t) (Z.of_nat (length data)) 0x0B 0]> l.

Lemma send_run (data : list Z) (s : card W) (Hok : card_ok (e1000_dev s)) (Hl : (length data ≤ 2048)%nat) :
  let d := e1000_dev s in
  wp (e1000_send_packet data (Z.of_nat (length data))) (λ _ s', let d' := e1000_dev s' in
    card_ok d' ∧ handed_over data (tx_cur d) d d' ∧ tx_cur d' = (tx_cur d + 1) mod 32 ∧
    (io_base d', dev_mac d', rx_cur d') = (io_base d, dev_mac d, rx_cur d) ∧ rx_descs d' = rx_descs d ∧ rx_buffers d' = rx_buffers d ∧
    outl (u32 (io_base d + 0x3818)) ((tx_cur d + 1) mod 32) (c_world s) = Done tt (c_world s')) s.
Proof.
  cbv zeta. destruct Hok as [(rl & Hrl & Hrn) (l & Hd & Hn) (rb & Hrb & Hrbn) (b & Hb & Hbn) [Hrc Hc]]. unfold e1000_send_packet.
  rewrite (proj2 (Z.ltb_ge TX_BUFFER_SIZE _)) by (unfold TX_BUFFER_SIZE; lia). apply wp_bind, wp_get. rewrite Hb, Hd. apply wp_bind, wp_ret.
  set (c := tx_cur (e1000_dev s)) in *. set (i := Z.to_nat (c * 2048)).
  assert (Ei : c * TX_BUFFER_SIZE = Z.of_nat i) by (unfold i, TX_BUFFER_SIZE; lia). rewrite Ei, Nat2Z.id.
  assert (Hi : (i + length data ≤ length b)%nat) by (unfold i; lia).
  apply wp_bind. eapply wp_of_option; [by apply copy_to|]. set (b' := take i b ++ take (length data) data ++ drop (i + length data) b).
  assert (Hb' : length b' = length b) by (unfold b'; rewrite !length_app, !length_take, length_drop; lia).
  apply wp_bind, wp_ret. destruct (lookup_lt_is_Some_2 l (Z.to_nat c)) as [t Ht]; [lia|]. apply wp_bind. eapply wp_of_option; [exact Ht|].
  apply wp_bind, wp_modify, write_reg_run. intros w' Hw. cbn [e1000_dev c_world set_memory set_cursors tx_cur rx_descs rx_buffers tx_buffers tx_descs].
  split; [|split; [|split; [done|split; [done|split; [done|split; [done|exact Hw]]]]]].
  - split; cbn [rx_descs tx_descs rx_buffers tx_buffers rx_cur tx_cur set_memory set_cursors]; [by exists rl|eexists; split; [done|by rewrite length_insert]|by exists rb|eexists; split; [done|by rewrite Hb']|].
    split; [done|]. apply Z.mod_pos_bound. by unfold TX_DESC_COUNT.
  - exists b, l, b', (<[Z.to_nat c := mk_tx (tx_addr t) (u16 (Z.of_nat (length data))) 0xB 0]> l), t. split_and!; try done.
    + unfold buffer_of. fold i. unfold b'. rewrite drop_app_ge by (rewrite length_take; lia). rewrite length_take, Nat.min_l, Nat.sub_diag, drop_0 by lia.
      rewrite take_app_le, take_ge by (rewrite ?length_take; lia). rewrite take_ge by done. done.
    + intros j Hj Hne. unfold buffer_of. set (k := Z.to_nat (j * 2048)). destruct (decide (j < c)) as [H|H].
      * assert (Hk : (k + 2048 ≤ i)%nat) by (unfold k, i; lia). unfold b'. rewrite drop_app_le by (rewrite length_take; lia).
        rewrite take_app_le by (rewrite length_drop, length_take; lia). rewrite skipn_firstn_comm, take_take, Nat.min_l by lia. done.
      * assert (Hk : (i + 2048 ≤ k)%nat) by (unfold k, i; lia). f_equal. unfold b'. rewrite (app_assoc (take i b)), drop_app_ge by (rewrite length_app, !length_take; lia).
        rewrite length_app, !length_take, drop_drop. f_equal. lia.
    + do 2 f_equal. apply Z.mod_small. cbn. lia.
Qed.

(** The descriptors have the addresses of the buffers, which begin at [txb]; [e1000_init] sets them. *)
Definition ring_of (txb : Z) (d : e1000_device_t) : Prop := ∀ l i t, tx_descs d = Some l → l !! i = Some t → tx_addr t = txb + 2048 * Z.of_nat i.

(** C34: sending.  A packet of at most 2048 bytes goes into the buffer of the current descriptor;
    the descriptor has the address of that buffer, the length of the packet, the command to send
    it as a whole with a checksum and to report it, and no status; the other descriptors and
    buffers, and all that belongs to receiving, stay as they are.  The ring goes on to the next
    descriptor and round, and the card is told: the one access to its ports is the write of the
    number of the next descriptor to the register of the ring's tail, at 0x3818. *)
Theorem e1000_send_correct (data : list Z) (txb : Z) (s : card W) (Hok : card_ok (e1000_dev s)) (Hring : ring_of txb (e1000_dev s)) (Hl : (length data ≤ 2048)%nat) :
  let d := e1000_dev s in
  wp (e1000_send_packet data (Z.of_nat (length data))) (λ _ s', let d' := e1000_dev s' in
    card_ok d' ∧ ring_of txb d' ∧ handed_over data (tx_cur d) d d' ∧
    (∃ l', tx_descs d' = Some l' ∧ l' !! Z.to_nat (tx_cur d) = Some (mk_tx (txb + 2048 * tx_cur d) (Z.of_nat (length data)) 0x0B 0)) ∧
    tx_cur d' = (tx_cur d + 1) mod 32 ∧
    (io_base d', dev_mac d', rx_cur d') = (io_base d, dev_mac d, rx_cur d) ∧ rx_descs d' = rx_descs d ∧ rx_buffers d' = rx_buffers d ∧
    outl (u32 (io_base d + 0x3818)) ((tx_cur d + 1) mod 32) (c_world s) = Done tt (c_world s')) s.
Proof.
  cbv zeta. eapply wp_mono; [by apply send_run|]. intros [] s' H. cbv beta zeta in H. destruct H as (H1 & H2 & H3). split; [exact H1|].
  pose proof (co_cur _ Hok) as [_ Hc]. destruct H2 as (b & l & b' & l' & t & Hb & Hd & Ht & Hb' & Hd' & H2 & H4 & H5 & El).
  pose proof (Hring _ _ _ Hd Ht) as Ea. rewrite Z2Nat.id in Ea by lia.
  assert (Hi : l' !! Z.to_nat (tx_cur (e1000_dev s)) = Some (mk_tx (txb + 2048 * tx_cur (e1000_dev s)) (Z.of_nat (length data)) 0x0B 0)).
  { rewrite El, <-Ea. apply list_lookup_insert_eq. by eapply lookup_lt_Some. }
  split; [|split; [by exists b, l, b', l', t|split; [by exists l'|exact H3]]].
  intros l1 i t1 E1 E2. rewrite Hd' in E1. injection E1 as <-. rewrite El in E2. apply list_lookup_insert_Some in E2 as [(<- & <- & _)|(_ & E2)].
  - cbn [tx_addr]. rewrite Z2Nat.id by lia. exact Ea.
  - by apply (Hring l).
Qed.

(** Receiving.  Without a packet nothing happens.  A packet that the card has put into the
    current buffer is given to the caller, as much of it as fits; the descriptor goes back to the
    card and the ring goes on. *)
Theorem e1000_receive_correct (buffer : list Z) (s : card W) (r : e1000_rx_desc_t) (l : list e1000_rx_desc_t) (b : list Z) (Hok : card_ok (e1000_dev s))
    (Hd : rx_descs (e1000_dev s) = Some l) (Hr : l !! Z.to_nat (rx_cur (e1000_dev s)) = Some r) (Hb : rx_buffers (e1000_dev s) = Some b)
    (Hlen : 0 ≤ rx_length r ≤ 2048) :
  let d := e1000_dev s in
  let len := Nat.min (Z.to_nat (rx_length r)) (length buffer) in
  wp (e1000_receive_packet buffer (Z.of_nat (length buffer))) (λ '(n, buf) s',
    if truthy (Z.land (rx_status r) 1) then
      n = Z.of_nat len ∧ buf = buffer_of b (rx_cur d) len ++ drop len buffer ∧ card_ok (e1000_dev s') ∧
      rx_cur (e1000_dev s') = (rx_cur d + 1) mod 32 ∧ tx_descs (e1000_dev s') = tx_descs d ∧ tx_buffers (e1000_dev s') = tx_buffers d ∧
      rx_descs (e1000_dev s') = Some (<[Z.to_nat (rx_cur d) := mk_rx (rx_addr r) (rx_length r) 0]> l)
    else n = 0 ∧ buf = buffer ∧ s' = s) s.
Proof.
  cbv zeta. destruct Hok as [(rl & Hrl & Hrn) (tl & Htl & Htn) (rb & Hrb & Hrbn) (tb & Htb & Htbn) [Hrc Hc]]. rewrite Hrl in Hd. injection Hd as ->. rewrite Hrb in Hb. injection Hb as ->.
  unfold e1000_receive_packet. apply wp_bind, wp_get. apply wp_bind. eapply wp_of_option; [exact Hrl|]. apply wp_bind. eapply wp_of_option; [exact Hr|].
  destruct (truthy (Z.land (rx_status r) 1)); cbn [negb]; [|by apply wp_ret].
  set (len := Nat.min (Z.to_nat (rx_length r)) (length buffer)).
  assert (El : (if Z.of_nat (length buffer) <? rx_length r then Z.of_nat (length buffer) else rx_length r) = Z.of_nat len).
  { unfold len. destruct (Z.ltb_spec (Z.of_nat (length buffer)) (rx_length r)); lia. }
  rewrite El, Nat2Z.id, Hrb. apply wp_bind, wp_ret. set (c := rx_cur (e1000_dev s)) in *. set (i := Z.to_nat (c * 2048)).
  assert (Ei : c * RX_BUFFER_SIZE = Z.of_nat i) by (unfold i, RX_BUFFER_SIZE; lia). rewrite Ei.
  apply wp_bind. eapply wp_of_option.
  { change 0 with (Z.of_nat 0). apply (copy_chars_run len 0 i buffer b (buffer_of b c len)).
    - intros j Hj. unfold buffer_of. fold i. rewrite lookup_take_lt, lookup_drop by lia. f_equal. lia.
    - unfold buffer_of. fold i. rewrite length_take, length_drop. unfold len, i in *. lia.
    - unfold len. lia. }
  cbn [take app Nat.add]. apply wp_bind, wp_modify. apply wp_bind, write_reg_run. intros w' _. apply wp_ret.
  cbn [e1000_dev c_world set_memory set_cursors rx_cur rx_descs tx_buffers tx_descs]. split_and!; try done.
  split; cbn [rx_descs tx_descs rx_buffers tx_buffers rx_cur tx_cur set_memory set_cursors]; [eexists; split; [done|by rewrite length_insert]|by exists tl|by exists b|by exists tb|].
  split; [|done]. apply Z.mod_pos_bound. by unfold RX_DESC_COUNT.
Qed.
End rings.

(** Without a card the descriptors are not there, and looking for a packet faults. *)
Example receive_without_card : ∀ W (w : W) `{PI : !PortIO W}, e1000_receive_packet (replicate 2048 0) 2048 (mk_card no_card w) = Stuck Fault.
Proof. done. Qed.

(** A card to try. *)
#[local] Instance demo_ports : PortIO (list (Z * Z)) := {|
  read_port_byte _ := mret 0; read_port_word _ := mret 0; read_port_dword _ := mret 0;
  write_port_byte _ _ := mret tt; write_port_word _ _ := mret tt; write_port_dword p v := modify (λ w, w ++ [(p, v)]);
|}.
Definition demo_card : card (list (Z * Z)) := mk_card (mk_dev 0xC000 [0x52; 0x54; 0; 0x12; 0x34; 0x56] (Some (mk_rx 0 3 1 :: replicate 31 (mk_rx 0 0 0)))
  (Some ((λ i, mk_tx (0x100000 + 2048 * Z.of_nat i) 0 0 1) <$> seq 0 32)) (Some ([7; 8; 9] ++ replicate (Z.to_nat 65533) 0)) (Some (replicate (Z.to_nat 65536) 0)) 0 31) [].
Lemma demo_ok : card_ok (e1000_dev demo_card).
Proof.
  split; [by eexists|by eexists| | |cbn; lia].
  - eexists. split; [done|]. rewrite length_app, length_replicate. cbn [length]. lia.
  - eexists. split; [done|]. rewrite length_replicate. lia.
Qed.
Lemma e1000_send_correct_witness :
  wp (e1000_send_packet [1; 2; 3] (Z.of_nat (length [1; 2; 3]))) (λ _ s', tx_cur (e1000_dev s') = 0 ∧
    (∃ l', tx_descs (e1000_dev s') = Some l' ∧ l' !! 31%nat = Some (mk_tx (0x100000 + 2048 * 31) 3 0x0B 0)) ∧ c_world s' = [(0xF818, 0)]) demo_card.
Proof.
  assert (Hp : ∀ p v (w : list (Z * Z)), ∃ w', outl p v w = Done tt w') by (by eexists).
  assert (Hr : ring_of 0x100000 (e1000_dev demo_card)).
  { intros l i t E H. change (Some ((λ i, mk_tx (0x100000 + 2048 * Z.of_nat i) 0 0 1) <$> seq 0 32) = Some l) in E.
    apply (inj Some) in E as <-. rewrite list_lookup_fmap in H. destruct (seq 0 32 !! i) as [k|] eqn:Ek; [|done]. apply lookup_seq in Ek as [-> _]. by injection H as <-. }
  eapply wp_mono; [apply (e1000_send_correct Hp [1; 2; 3] 0x100000 demo_card demo_ok Hr); cbn; lia|]. intros [] s' H. cbv beta zeta in H.
  destruct H as (_ & _ & _ & H1 & H2 & _ & _ & _ & H3). split; [exact H2|]. split; [exact H1|]. by injection H3 as <-.
Defined.
Lemma e1000_receive_correct_witness :
  wp (e1000_receive_packet [0; 0] (Z.of_nat (length [0; 0]))) (λ '(n, buf) s', n = 2 ∧ buf = [7; 8]) demo_card.
Proof.
  assert (Hp : ∀ p v (w : list (Z * Z)), ∃ w', outl p v w = Done tt w') by (by eexists).
  eapply wp_mono; [apply (e1000_receive_correct Hp [0; 0] demo_card (mk_rx 0 3 1) (mk_rx 0 3 1 :: replicate 31 (mk_rx 0 0 0)) ([7; 8; 9] ++ replicate (Z.to_nat 65533) 0) demo_ok); cbn; (done || lia)|].
  intros [n buf] s' (H1 & H2 & _). split; [exact H1|]. rewrite H2. by vm_compute.
Defined.
