(* ===== verification/Network.v ===== *)
(** * The network, [shell/commands/network.c]

    Packets are arrays of bytes; a field of a header is read and written in the byte order of
    the machine, as the code does.  The card is that of [E1000.v]. *)

From Stdlib Require Import ZArith Lia String.
From stdpp Require Import base list numbers.
From S2P Require Import Prelude Buffer Ports Alloc Pci Font Console Window E1000 SystemCommands.
Open Scope Z_scope.
Set Default Goal Selector "!".

Record arp_entry_t := mk_arp { ae_ip : Z; ae_mac : list Z; ae_valid : Z }.
Record network_config_t := mk_config {
  nc_mac : list Z;
  nc_ip : Z;
  nc_gateway : Z;
  nc_subnet : Z;
  nc_dns : Z;
  arp_table : list arp_entry_t;
}.
Record network (W : Type) := mk_network { net_config : network_config_t; nw_card : card W }.
Arguments mk_network {W}.
Arguments net_config {W}.
Arguments nw_card {W}.

Definition SIZEOF_ETHERNET : nat := 14.
Definition SIZEOF_ARP : nat := 28.
Definition SIZEOF_IPV4 : nat := 20.
Definition SIZEOF_ICMP : nat := 8.
Definition BROADCAST : list Z := replicate 6 0xFF.

(** [n] bytes from [off] on, and bytes put there. *)
Definition slice (off n : nat) (a : list Z) : option (list Z) :=
  if (off + n <=? length a)%nat then Some (take n (drop off a)) else None.
Definition put_at (off : nat) (bs a : list Z) : option (list Z) :=
  if (off + length bs <=? length a)%nat then Some (take off a ++ bs ++ drop (off + length bs) a) else None.
Definition put16 (off : nat) (v : Z) : list Z → option (list Z) := put_at off (le_split 2 (u16 v)).
Definition put32 (off : nat) (v : Z) : list Z → option (list Z) := put_at off (le_split 4 (u32 v)).

(** The checksum of [len] bytes from [off] on; a negative length leaves one byte. *)
Definition network_checksum (a : list Z) (off : nat) (len : Z) : option Z :=
  bs ← slice off (if len <? 0 then 1 else Z.to_nat len) a; Some (checksum bs).

(** An answer goes into the first entry that is free or has the address. *)
Fixpoint arp_learn (t : list arp_entry_t) (ip : Z) (mac : list Z) : list arp_entry_t :=
  match t with
  | [] => []
  | e :: t' => if negb (truthy (ae_valid e)) || (ae_ip e =? ip) then mk_arp ip mac 1 :: t' else e :: arp_learn t' ip mac
  end.
Fixpoint arp_find (t : list arp_entry_t) (ip : Z) : option (list Z) :=
  match t with
  | [] => None
  | e :: t' => if truthy (ae_valid e) && (ae_ip e =? ip) then Some (ae_mac e) else arp_find t' ip
  end.

Definition is_e1000 (d : pci_device_t) : bool :=
  (manufacturer_id d =? 0x8086) && existsb (Z.eqb (product_id d)) [0x100E; 0x100F; 0x1011; 0x1010; 0x1004; 0x1000].

Section network.
  Context {W : Type} `{!PortIO W} `{!AllocOps W} `{!Printers W} (fs_kernel_memory : Z).
  Abbreviation S := (network W).

Definition on_card {B} (m : M (card W) B) : M S B := zoom nw_card (λ c s, mk_network (net_config s) c) m.
Definition set_config (c : network_config_t) (s : S) : S := mk_network c (nw_card s).
Definition term (t : str) (color : Z) : M S unit := on_card (E1000.on_world (pr_terminal t color)).

(** The first device of the bus that is such a card, has an address and tells its own. *)
Fixpoint find_card (l : list (option pci_device_t)) : M S unit :=
  match l with
  | [] => mret tt
  | None :: l' => find_card l'
  | Some dev :: l' =>
      if negb (is_e1000 dev) then find_card l' else
      base ← of_option (base_addresses dev !! 0%nat);
      let io_base := u32 (Z.land base (Z.lnot 0xF)) in
      if io_base =? 0 then find_card l' else
      on_card (e1000_init fs_kernel_memory io_base);;
      s ← get;
      let mac := dev_mac (e1000_dev (nw_card s)) in
      if forallb (Z.eqb 0) mac then find_card l' else
      modify (set_config (mk_config mac 0xC0A80101 0xC0A80101 0xFFFFFF00 0x08080808 (arp_table (net_config s))))
  end.
Definition network_init (devices : list (option pci_device_t)) : M S unit := find_card (take 100 devices).

(** The header and [len] bytes of the data are sent, from an array of 2048. *)
Definition network_send_packet (data : list Z) (len : Z) (dest_mac : list Z) (ethertype : Z) : M S unit :=
  s ← get;
  let header := dest_mac ++ nc_mac (net_config s) ++ le_split 2 (u16 ethertype) in
  body ← of_option (slice 0 (Z.to_nat len) data);
  if (2048 <? length (header ++ body))%nat then fault else
  on_card (e1000_send_packet (header ++ body) (len + 14)).
Definition network_receive_packet (buffer : list Z) (max_len : Z) : M S (Z * list Z) := on_card (e1000_receive_packet buffer max_len).

Definition handle_arp (packet : list Z) : M S unit :=
  s ← get;
  let c := net_config s in
  oper ← of_option (field 2 20 packet);
  if oper =? 0x0100 then
    tpa ← of_option (field 4 38 packet);
    if tpa =? nc_ip c then
      sha ← of_option (slice 22 6 packet);
      spa ← of_option (field 4 28 packet);
      packet ← of_option (p ← put16 20 0x0200 packet; p ← put_at 32 sha p; p ← put32 38 spa p;
                          p ← put_at 22 (nc_mac c) p; put32 28 (nc_ip c) p);
      src_mac ← of_option (slice 6 6 packet);
      network_send_packet (drop SIZEOF_ETHERNET packet) 28 src_mac 0x0806
    else mret tt
  else if oper =? 0x0200 then
    sha ← of_option (slice 22 6 packet);
    spa ← of_option (field 4 28 packet);
    modify (set_config (mk_config (nc_mac c) (nc_ip c) (nc_gateway c) (nc_subnet c) (nc_dns c) (arp_learn (arp_table c) spa sha)))
  else mret tt.

Definition handle_echo (packet : list Z) (len : Z) : M S unit :=
  version_ihl ← of_option (packet !! 14%nat);
  let ihl := Z.land version_ihl 0xF * 4 in
  let icmp := (SIZEOF_ETHERNET + Z.to_nat ihl)%nat in
  type ← of_option (packet !! icmp);
  if type =? 8 then
    packet ← of_option (
      p ← put_at icmp [0] packet;
      p ← put16 (icmp + 2) 0 p;
      ck ← network_checksum p icmp (i32 (len - 14 - ihl));
      p ← put16 (icmp + 2) ck p;
      src ← slice 26 4 p; dst ← slice 30 4 p;
      p ← put_at 26 dst p;
      p ← put_at 30 src p;
      p ← put16 24 0 p;
      ck ← network_checksum p SIZEOF_ETHERNET ihl;
      put16 24 ck p);
    src_mac ← of_option (slice 6 6 packet);
    network_send_packet (drop SIZEOF_ETHERNET packet) (i32 (len - 14)) src_mac 0x0800
  else if type =? 0 then term (chars "ICMP echo reply received" ++ [10]) 0xFFFFFFFF
  else mret tt.

Definition network_handle_packet (packet : list Z) (len : Z) : M S unit :=
  ethertype ← of_option (field 2 12 packet);
  if ethertype =? 0x0806 then handle_arp packet
  else if ethertype =? 0x0800 then
    s ← get;
    dest_ip ← of_option (field 4 30 packet);
    if (dest_ip =? nc_ip (net_config s)) || (dest_ip =? 0xFFFFFFFF) then
      protocol ← of_option (packet !! 23%nat);
      if protocol =? 1 then handle_echo packet len else mret tt
    else mret tt
  else mret tt.

Definition arp_request (target_ip : Z) : M S unit :=
  s ← get;
  let c := net_config s in
  network_send_packet (le_split 2 0x0100 ++ le_split 2 0x0008 ++ [6; 4] ++ le_split 2 0x0100 ++ nc_mac c ++ le_split 4 (u32 (nc_ip c)) ++
    BROADCAST ++ le_split 4 (u32 target_ip)) 28 BROADCAST 0x0806.
Definition arp_lookup (ip : Z) : M S (option (list Z)) := gets (λ s, arp_find (arp_table (net_config s)) ip).

(** The request that [ping] sends: the two headers and 32 bytes. *)
Definition echo_request (src dst : Z) : option (list Z) :=
  let ip := [0x45; 0] ++ le_split 2 60 ++ le_split 2 0x1234 ++ le_split 2 0 ++ [64; 1] ++ le_split 2 0 ++ le_split 4 (u32 src) ++ le_split 4 (u32 dst) in
  ck ← network_checksum ip 0 20;
  ip ← put16 10 ck ip;
  let icmp := [8; 0; 0; 0] ++ le_split 2 0x1234 ++ le_split 2 0 ++ seqZ 0 32 in
  ck ← network_checksum icmp 0 40;
  icmp ← put16 2 ck icmp;
  Some (ip ++ icmp).
Definition cmd_ping (s : list Z) : M S unit :=
  c ← of_option (arr_get s 0);
  if c =? 0 then term (chars "ping: missing host" ++ [10]) 0xFFFF0000 else
  target_ip ← of_option (parse_ip s);
  if target_ip =? 0 then term (chars "Invalid IP address" ++ [10]) 0xFFFF0000 else
  term (chars "Pinging ") 0xFFFFFFFF;;
  term (c_text s) 0xFFFFFFFF;;
  term (chars "..." ++ [10]) 0xFFFFFFFF;;
  m ← arp_lookup target_ip;
  dest_mac ← (match m with
    | Some mac => mret mac
    | None =>
        arp_request target_ip;;
        m ← arp_lookup target_ip;
        match m with
        | Some mac => mret mac
        | None => term (chars "ARP failed, using broadcast" ++ [10]) 0xFFFFFFFF;; mret BROADCAST
        end
    end);
  st ← get;
  packet ← of_option (echo_request (nc_ip (net_config st)) target_ip);
  network_send_packet packet 60 dest_mac 0x0800;;
  term (chars "ICMP echo request sent" ++ [10]) 0xFFFFFFFF.
End network.

(** ** Frames *)

(** The headers as the code reads them. *)
Definition eth (dst src : list Z) (ethertype : Z) : list Z := dst ++ src ++ le_split 2 ethertype.
Definition arp (oper : Z) (sha spa tha tpa : list Z) : list Z :=
  [0; 1; 8; 0; 6; 4] ++ le_split 2 oper ++ sha ++ spa ++ tha ++ tpa.

(** The current buffer of the card now holds this frame, and is the card's. *)
Definition queued {W} (s s' : network W) (frame : list Z) : Prop :=
  let d := e1000_dev (nw_card s) in let d' := e1000_dev (nw_card s') in
  net_config s' = net_config s ∧ card_ok d' ∧ tx_cur d' = (tx_cur d + 1) mod 32 ∧
  ∃ b l t, tx_buffers d' = Some b ∧ buffer_of b (tx_cur d) (length frame) = frame ∧
    tx_descs d' = Some l ∧ l !! Z.to_nat (tx_cur d) = Some t ∧ tx_length t = Z.of_nat (length frame).

Lemma slice_inside off n (a : list Z) : (off + n ≤ length a)%nat → slice off n a = Some (take n (drop off a)).
Proof. intros H. unfold slice. by rewrite (proj2 (Nat.leb_le _ _)). Qed.

Lemma put_inside u v w bs : length v = length bs → put_at (length u) bs (u ++ v ++ w) = Some (u ++ bs ++ w).
Proof.
  intros H. unfold put_at. rewrite (proj2 (Nat.leb_le _ _)) by (rewrite !length_app; lia). f_equal.
  rewrite take_app_length. do 2 f_equal. rewrite <-H, (app_assoc u), drop_app_ge by (rewrite length_app; lia). by rewrite length_app, Nat.sub_diag, drop_0.
Qed.

Lemma le_split_word (bs : list Z) : length bs = 4%nat → Forall is_byte bs → le_split 4 (u32 (le_combine bs)) = bs.
Proof.
  intros Hl Hb. pose proof (le_combine_bound bs Hb) as H. rewrite Hl in H. unfold u32. rewrite Z.mod_small by (cbn in *; lia). rewrite <-Hl. by apply le_split_combine.
Qed.

Lemma le_split_half v : 0 ≤ v < 2 ^ 16 → le_split 2 (u16 v) = [v mod 2 ^ 8; v / 2 ^ 8].
Proof.
  intros H. unfold u16. rewrite (Z.mod_small v) by done. cbn [le_split]. rewrite (Z.mod_small (v / 2 ^ 8)); [done|].
  split; [apply Z.div_pos; lia|apply Z.div_lt_upper_bound; lia].
Qed.

Lemma bind_some {A B} (o : option A) x (f : A → option B) y : o = Some x → f x = y → (o ≫= f) = y.
Proof. by intros -> <-. Qed.

Ltac six l := destruct l as [|? [|? [|? [|? [|? [|? [|? ?]]]]]]]; try discriminate.
Ltac four l := destruct l as [|? [|? [|? [|? [|? ?]]]]]; try discriminate.

(** ** The table of addresses *)

Lemma learn_find t ip mac : existsb (λ e, negb (truthy (ae_valid e)) || (ae_ip e =? ip)) t = true → arp_find (arp_learn t ip mac) ip = Some mac.
Proof.
  induction t as [|e t IH]; [done|]. cbn. destruct (negb (truthy (ae_valid e)) || (ae_ip e =? ip)) eqn:E; cbn.
  - intros _. by rewrite Z.eqb_refl.
  - intros H. apply orb_false_iff in E as [_ E]. by rewrite E, andb_false_r, IH.
Qed.

Lemma learn_other t ip mac ip' : ip' ≠ ip → arp_find (arp_learn t ip mac) ip' = arp_find t ip'.
Proof.
  intros Hne. induction t as [|e t IH]; [done|]. cbn. destruct (negb (truthy (ae_valid e)) || (ae_ip e =? ip)) eqn:E; cbn; [|by rewrite IH].
  rewrite (proj2 (Z.eqb_neq ip ip')) by done. apply orb_true_iff in E as [E|E].
  - apply negb_true_iff in E. by rewrite E.
  - apply Z.eqb_eq in E. by rewrite E, (proj2 (Z.eqb_neq ip ip')), andb_false_r by done.
Qed.

Section handling.
  Context {W : Type} `{PI : !PortIO W} `{AO : !AllocOps W} `{PR : !Printers W}.
  Context (Hports : ∀ p v (w : W), ∃ w', outl p v w = Done tt w').

Lemma send_packet_run (data : list Z) n dst ethertype (s : network W) : card_ok (e1000_dev (nw_card s)) → (n ≤ length data)%nat → (n + 14 ≤ 2048)%nat →
  length dst = 6%nat → length (nc_mac (net_config s)) = 6%nat →
  wp (network_send_packet data (Z.of_nat n) dst ethertype) (λ _ s', queued s s' (dst ++ nc_mac (net_config s) ++ le_split 2 (u16 ethertype) ++ take n data)) s.
Proof.
  intros Hok Hn Hl Hd Hm. unfold network_send_packet. apply wp_bind, wp_get. rewrite Nat2Z.id. apply wp_bind. eapply wp_of_option; [by apply slice_inside|]. rewrite drop_0.
  set (frame := dst ++ nc_mac (net_config s) ++ le_split 2 (u16 ethertype) ++ take n data). cbv zeta.
  assert (Ef : (dst ++ nc_mac (net_config s) ++ le_split 2 (u16 ethertype)) ++ take n data = frame) by (unfold frame; by rewrite <-!app_assoc). rewrite Ef.
  assert (El : length frame = (n + 14)%nat) by (unfold frame; rewrite !length_app, length_take, length_le_split; lia).
  rewrite (proj2 (Nat.ltb_ge 2048 _)) by lia. replace (Z.of_nat n + 14) with (Z.of_nat (length frame)) by lia.
  unfold wp, on_card, zoom. pose proof (send_run Hports frame (nw_card s) Hok ltac:(lia)) as H. unfold wp in H.
  destruct (e1000_send_packet frame _ _) as [[] c|]; [|done]. cbv beta zeta in H. destruct H as (H1 & (b & l & b' & l' & t & _ & _ & Ht & Hb & Hl' & _ & Hf & _ & El') & H2 & _).
  cbv zeta. unfold queued. cbn [net_config nw_card]. split_and!; [done|done|done|].
  exists b', l', (mk_tx (tx_addr t) (Z.of_nat (length frame)) 0x0B 0). split_and!; [done|done|done| |done]. rewrite El'. apply list_lookup_insert_eq. by eapply lookup_lt_Some.
Qed.

(** An ARP answer is learned.  After the packet the address is found with the hardware address
    of the sender, when the table had room for it, and every other address as before. *)
Theorem arp_learned (dst src sha spa tha tpa rest : list Z) (len : Z) (s : network W)
    (H1 : length dst = 6%nat) (H2 : length src = 6%nat) (H3 : length sha = 6%nat) (H4 : length spa = 4%nat)
    (Hroom : existsb (λ e, negb (truthy (ae_valid e)) || (ae_ip e =? le_combine spa)) (arp_table (net_config s)) = true) :
  wp (network_handle_packet (eth dst src 0x0806 ++ arp 0x0200 sha spa tha tpa ++ rest) len) (λ _ s', nw_card s' = nw_card s ∧
    arp_find (arp_table (net_config s')) (le_combine spa) = Some sha ∧
    ∀ ip, ip ≠ le_combine spa → arp_find (arp_table (net_config s')) ip = arp_find (arp_table (net_config s)) ip) s.
Proof.
  six dst. six src. six sha. four spa. unfold network_handle_packet, handle_arp. apply wp_bind, (wp_of_option _ 0x0806); [done|]. cbn [Z.eqb Pos.eqb].
  apply wp_bind, wp_get, wp_bind, (wp_of_option _ 0x0200); [done|]. cbn [Z.eqb Pos.eqb]. apply wp_bind. eapply wp_of_option; [done|].
  apply wp_bind. eapply wp_of_option; [done|]. apply wp_modify. cbn [net_config nw_card set_config arp_table]. split; [done|].
  split; [by apply learn_find|]. intros ip Hip. by apply learn_other.
Qed.

(** An ARP request for the own address is answered with the own hardware address, to the one who asks. *)
Theorem arp_answered (dst src sha spa tha tpa rest : list Z) (len : Z) (s : network W)
    (H1 : length dst = 6%nat) (H2 : length src = 6%nat) (H3 : length sha = 6%nat) (H4 : length spa = 4%nat) (H5 : length tha = 6%nat) (H6 : length tpa = 4%nat)
    (Hb : Forall is_byte spa) (Htpa : le_combine tpa = nc_ip (net_config s)) (Hbt : Forall is_byte tpa)
    (Hm : length (nc_mac (net_config s)) = 6%nat) (Hok : card_ok (e1000_dev (nw_card s))) :
  wp (network_handle_packet (eth dst src 0x0806 ++ arp 0x0100 sha spa tha tpa ++ rest) len)
    (λ _ s', queued s s' (eth src (nc_mac (net_config s)) 0x0806 ++ arp 0x0200 (nc_mac (net_config s)) tpa sha spa)) s.
Proof.
  pose proof (le_split_word spa H4 Hb) as Es. pose proof (le_split_word tpa H6 Hbt) as Et. rewrite Htpa in Et.
  destruct (nc_mac (net_config s)) as [|m0 [|m1 [|m2 [|m3 [|m4 [|m5 [|? ?]]]]]]] eqn:Emac; try discriminate.
  destruct dst as [|d0 [|d1 [|d2 [|d3 [|d4 [|d5 [|? ?]]]]]]]; try discriminate. destruct src as [|s0 [|s1 [|s2 [|s3 [|s4 [|s5 [|? ?]]]]]]]; try discriminate.
  destruct sha as [|h0 [|h1 [|h2 [|h3 [|h4 [|h5 [|? ?]]]]]]]; try discriminate. destruct tha as [|t0 [|t1 [|t2 [|t3 [|t4 [|t5 [|? ?]]]]]]]; try discriminate.
  destruct spa as [|p0 [|p1 [|p2 [|p3 [|? ?]]]]]; try discriminate. destruct tpa as [|q0 [|q1 [|q2 [|q3 [|? ?]]]]]; try discriminate.
  unfold network_handle_packet, handle_arp. apply wp_bind, (wp_of_option _ 0x0806); [done|]. cbn [Z.eqb Pos.eqb].
  apply wp_bind, wp_get, wp_bind, (wp_of_option _ 0x0100); [done|]. cbn [Z.eqb Pos.eqb].
  apply wp_bind, (wp_of_option _ (nc_ip (net_config s))); [by rewrite <-Htpa|]. rewrite Z.eqb_refl.
  apply wp_bind, (wp_of_option _ [h0; h1; h2; h3; h4; h5]); [done|]. apply wp_bind, (wp_of_option _ (le_combine [p0; p1; p2; p3])); [done|]. rewrite Emac.
  unfold put32. rewrite Es, Et. apply wp_bind, (wp_of_option _ (eth [d0; d1; d2; d3; d4; d5] [s0; s1; s2; s3; s4; s5] 0x0806 ++
    arp 0x0200 [m0; m1; m2; m3; m4; m5] [q0; q1; q2; q3] [h0; h1; h2; h3; h4; h5] [p0; p1; p2; p3] ++ rest)); [done|].
  apply wp_bind, (wp_of_option _ [s0; s1; s2; s3; s4; s5]); [done|].
  pose proof (send_packet_run (drop SIZEOF_ETHERNET (eth [d0; d1; d2; d3; d4; d5] [s0; s1; s2; s3; s4; s5] 0x0806 ++
    arp 0x0200 [m0; m1; m2; m3; m4; m5] [q0; q1; q2; q3] [h0; h1; h2; h3; h4; h5] [p0; p1; p2; p3] ++ rest)) 28 [s0; s1; s2; s3; s4; s5] 0x0806 s Hok) as H.
  rewrite Emac in H. apply H; cbn; lia.
Qed.

(** The answer to an echo request, as the code sends it. *)
Lemma answer_run (dst src h ck sip dip ck2 body rest : list Z) (code : Z) (s : network W)
    (H1 : length dst = 6%nat) (H2 : length src = 6%nat) (Hh : length h = 8%nat) (Hck : length ck = 2%nat) (H3 : length sip = 4%nat) (H4 : length dip = 4%nat)
    (Hck2 : length ck2 = 2%nat) (Hbytes : Forall is_byte (h ++ sip ++ dip ++ code :: body)) (Hip : le_combine dip = nc_ip (net_config s))
    (Hl : (length body ≤ 2000)%nat) (Hm : length (nc_mac (net_config s)) = 6%nat) (Hok : card_ok (e1000_dev (nw_card s))) :
  let ip c a b := 0x45 :: h ++ [1] ++ c ++ a ++ b in
  let icmp t c := [t; code] ++ c ++ body in
  wp (network_handle_packet (dst ++ src ++ [0x00; 0x08] ++ ip ck sip dip ++ icmp 8 ck2 ++ rest) (14 + 20 + 4 + Z.of_nat (length body))) (λ _ s', ∃ c1 c2,
    queued s s' (src ++ nc_mac (net_config s) ++ [0x00; 0x08] ++ ip c1 dip sip ++ icmp 0 c2) ∧
    length c1 = 2%nat ∧ length c2 = 2%nat ∧ checksum (ip c1 dip sip) = 0 ∧ checksum (icmp 0 c2) = 0) s.
Proof.
  cbv zeta. destruct dst as [|d0 [|d1 [|d2 [|d3 [|d4 [|d5 [|? ?]]]]]]]; try discriminate. destruct src as [|s0 [|s1 [|s2 [|s3 [|s4 [|s5 [|? ?]]]]]]]; try discriminate.
  destruct h as [|h0 [|h1 [|h2 [|h3 [|h4 [|h5 [|h6 [|h7 [|? ?]]]]]]]]]; try discriminate. destruct ck as [|k0 [|k1 [|? ?]]]; try discriminate.
  destruct ck2 as [|l0 [|l1 [|? ?]]]; try discriminate.
  destruct sip as [|p0 [|p1 [|p2 [|p3 [|? ?]]]]]; try discriminate. destruct dip as [|q0 [|q1 [|q2 [|q3 [|? ?]]]]]; try discriminate.
  set (E := eth [d0; d1; d2; d3; d4; d5] [s0; s1; s2; s3; s4; s5] 0x0800). set (ip := λ c a b : list Z, 0x45 :: [h0; h1; h2; h3; h4; h5; h6; h7] ++ [1] ++ c ++ a ++ b).
  set (icmp := λ t (c : list Z), [t; code] ++ c ++ body).
  apply Forall_app in Hbytes as [Bh [Bs [Bd Bb]%Forall_app]%Forall_app].
  (* the two checksums *)
  set (v2 := checksum (icmp 0 [0; 0])). set (c2 := le_split 2 (u16 v2)).
  assert (F2 : 0 ≤ v2 < 2 ^ 16 ∧ checksum (icmp 0 c2) = 0).
  { destruct (checksum_fill [0; code] body) with (n := 1%nat) as [R V]; [|by apply Forall_cons_1 in Bb as []|done|cbn; lia|].
    { apply Forall_cons_2; [unfold is_byte; lia|]. apply Forall_cons_2; [by apply Forall_cons_1 in Bb as []|done]. }
    split; [exact R|]. unfold c2. rewrite le_split_half by exact R. exact V. }
  set (v1 := checksum (ip [0; 0] [q0; q1; q2; q3] [p0; p1; p2; p3])). set (c1 := le_split 2 (u16 v1)).
  assert (F1 : 0 ≤ v1 < 2 ^ 16 ∧ checksum (ip c1 [q0; q1; q2; q3] [p0; p1; p2; p3]) = 0).
  { destruct (checksum_fill (0x45 :: [h0; h1; h2; h3; h4; h5; h6; h7] ++ [1]) ([q0; q1; q2; q3] ++ [p0; p1; p2; p3])) with (n := 5%nat) as [R V]; [| |done|cbn; lia|].
    { apply Forall_cons_2; [unfold is_byte; lia|]. apply Forall_app_2; [done|]. apply Forall_cons_2; [unfold is_byte; lia|done]. }
    { by apply Forall_app_2. }
    split; [exact R|]. unfold c1. rewrite le_split_half by exact R. exact V. }
  unfold network_handle_packet. apply wp_bind, (wp_of_option _ 0x0800); [done|]. cbn [Z.eqb Pos.eqb]. apply wp_bind, wp_get.
  apply wp_bind, (wp_of_option _ (le_combine [q0; q1; q2; q3])); [done|]. rewrite Hip, Z.eqb_refl. cbn [orb].
  apply wp_bind, (wp_of_option _ 1); [done|]. cbn [Z.eqb Pos.eqb]. unfold handle_echo. apply wp_bind, (wp_of_option _ 0x45); [done|].
  change (Z.land 0x45 0xF * 4) with 20. cbv zeta. change (SIZEOF_ETHERNET + Z.to_nat 20)%nat with 34%nat.
  apply wp_bind, (wp_of_option _ 8); [done|]. cbn [Z.eqb Pos.eqb].
  assert (El : i32 (14 + 20 + 4 + Z.of_nat (length body) - 14 - 20) = Z.of_nat (length (icmp 0 [0; 0]))) by (rewrite i32_id by lia; unfold icmp; rewrite !length_app; cbn [length]; lia).
  rewrite El. assert (Eck2 : ∀ u, u = E ++ ip [k0; k1] [p0; p1; p2; p3] [q0; q1; q2; q3] → network_checksum (u ++ icmp 0 [0; 0] ++ rest) 34 (Z.of_nat (length (icmp 0 [0; 0]))) = Some v2).
  { intros u ->. unfold network_checksum. rewrite (proj2 (Z.ltb_ge _ 0)), Nat2Z.id by lia. rewrite slice_inside by (rewrite !length_app; cbn [length]; unfold E, eth; cbn; lia).
    cbn [mbind option_bind]. f_equal. unfold v2. f_equal. rewrite drop_app_length' by done. by rewrite take_app_length. }
  specialize (Eck2 _ eq_refl).
  apply wp_bind, (wp_of_option _ (E ++ ip c1 [q0; q1; q2; q3] [p0; p1; p2; p3] ++ icmp 0 c2 ++ rest)).
  { set (P := [p0; p1; p2; p3]) in *. set (Q := [q0; q1; q2; q3]) in *.
    apply (bind_some _ ((E ++ ip [k0; k1] P Q) ++ icmp 0 [l0; l1] ++ rest)); [done|].
    apply (bind_some _ ((E ++ ip [k0; k1] P Q) ++ icmp 0 [0; 0] ++ rest)); [done|].
    apply (bind_some _ v2); [exact Eck2|]. apply (bind_some _ (E ++ ip [k0; k1] P Q ++ icmp 0 c2 ++ rest)); [done|].
    apply (bind_some _ P); [done|]. apply (bind_some _ Q); [done|].
    apply (bind_some _ (E ++ ip [k0; k1] Q Q ++ icmp 0 c2 ++ rest)); [done|]. apply (bind_some _ (E ++ ip [k0; k1] Q P ++ icmp 0 c2 ++ rest)); [done|].
    apply (bind_some _ (E ++ ip [0; 0] Q P ++ icmp 0 c2 ++ rest)); [done|]. apply (bind_some _ v1); done. }
  apply wp_bind, (wp_of_option _ [s0; s1; s2; s3; s4; s5]); [done|].
  assert (El2 : i32 (14 + 20 + 4 + Z.of_nat (length body) - 14) = Z.of_nat (24 + length body)) by (rewrite i32_id; lia). rewrite El2.
  eapply wp_mono; [apply send_packet_run; [done| |lia|done|done]|].
  { unfold E, eth, ip, icmp. cbn. rewrite length_app. lia. }
  intros [] s' Hq. exists c1, c2. split_and!; [|done|done|apply F1|apply F2].
  assert (Et : take (24 + length body) (drop SIZEOF_ETHERNET (E ++ ip c1 [q0; q1; q2; q3] [p0; p1; p2; p3] ++ icmp 0 c2 ++ rest)) =
    ip c1 [q0; q1; q2; q3] [p0; p1; p2; p3] ++ icmp 0 c2).
  { unfold E, eth, ip, icmp. cbn. do 24 f_equal. by rewrite take_app_length. }
  rewrite Et in Hq. exact Hq.
Qed.
(** C13: What becomes of an echo request.  One as the standard has it, with the type 08 00 in its
    frame, is ignored like every frame with that type, and nothing changes.  It is the type 00 08
    that the code takes for IP: with it, and the own address in the order of the machine, the
    request is answered.  The answer goes to the sender in a frame of that type, has the
    addresses exchanged, type zero and the same data, and both of its checksums are right: a
    receiver that sums up gets zero. *)
Theorem echo_handled (dst src h ck sip dip ck2 body rest : list Z) (code : Z) (s : network W)
    (H1 : length dst = 6%nat) (H2 : length src = 6%nat) (Hh : length h = 8%nat) (Hck : length ck = 2%nat) (H3 : length sip = 4%nat) (H4 : length dip = 4%nat)
    (Hck2 : length ck2 = 2%nat) (Hbytes : Forall is_byte (h ++ sip ++ dip ++ code :: body)) (Hip : le_combine dip = nc_ip (net_config s))
    (Hl : (length body ≤ 2000)%nat) (Hm : length (nc_mac (net_config s)) = 6%nat) (Hok : card_ok (e1000_dev (nw_card s))) :
  let ip c a b := 0x45 :: h ++ [1] ++ c ++ a ++ b in
  let icmp t c := [t; code] ++ c ++ body in
  let len := 14 + 20 + 4 + Z.of_nat (length body) in
  (∀ data n, network_handle_packet (dst ++ src ++ [0x08; 0x00] ++ data) n s = Done tt s) ∧
  wp (network_handle_packet (dst ++ src ++ [0x00; 0x08] ++ ip ck sip dip ++ icmp 8 ck2 ++ rest) len) (λ _ s', ∃ c1 c2,
    queued s s' (src ++ nc_mac (net_config s) ++ [0x00; 0x08] ++ ip c1 dip sip ++ icmp 0 c2) ∧
    length c1 = 2%nat ∧ length c2 = 2%nat ∧ checksum (ip c1 dip sip) = 0 ∧ checksum (icmp 0 c2) = 0) s.
Proof. cbv zeta. split; [intros data n; six dst; by six src|by apply answer_run]. Qed.
End handling.

(** ** A network to try: the world is the text that was shown *)

#[local] Instance demo_ports : PortIO str := {|
  read_port_byte _ := mret 0; read_port_word _ := mret 0; read_port_dword _ := mret 0;
  write_port_byte _ _ := mret tt; write_port_word _ _ := mret tt; write_port_dword _ _ := mret tt;
|}.
#[local] Instance demo_printers : Printers str := {|
  pr_terminal t c := modify (λ w, w ++ t); pr_print _ _ := mret tt; pr_int _ _ := mret tt; pr_hex _ _ := mret tt;
|}.
Definition demo_mac : list Z := [0x52; 0x54; 0; 0x12; 0x34; 0x56].
Definition demo_peer : list Z := [2; 0; 0; 0; 0; 1].
Definition demo_device : e1000_device_t := mk_dev 0xC000 demo_mac (Some (replicate 32 (mk_rx 0 0 0))) (Some (replicate 32 (mk_tx 0 0 0 1)))
  (Some (replicate (Z.to_nat 65536) 0)) (Some (replicate (Z.to_nat 65536) 0)) 0 0.
Definition demo_network (t : list arp_entry_t) : network str := mk_network (mk_config demo_mac 0xC0A80101 0xC0A80101 0xFFFFFF00 0x08080808 t) (mk_card demo_device []).
Definition free_entry : arp_entry_t := mk_arp 0 (replicate 6 0) 0.
Definition own_ip : list Z := [1; 1; 0xA8; 0xC0].
Definition peer_ip : list Z := [2; 1; 0xA8; 0xC0].

Lemma demo_device_ok : card_ok demo_device.
Proof. split; [by eexists|by eexists| | |cbn; lia]; (eexists; split; [done|]; rewrite length_replicate; lia). Qed.
Lemma demo_out : ∀ p v (w : str), ∃ w', outl p v w = Done tt w'.
Proof. by eexists. Qed.

Lemma arp_learned_witness :
  wp (network_handle_packet (eth demo_mac demo_peer 0x0806 ++ arp 0x0200 demo_peer peer_ip demo_mac own_ip ++ []) 42) (λ _ s',
    nw_card s' = nw_card (demo_network [free_entry]) ∧ arp_find (arp_table (net_config s')) (le_combine peer_ip) = Some demo_peer ∧
    ∀ ip, ip ≠ le_combine peer_ip → arp_find (arp_table (net_config s')) ip = arp_find (arp_table (net_config (demo_network [free_entry]))) ip) (demo_network [free_entry]).
Proof. by apply (arp_learned demo_mac demo_peer demo_peer peer_ip demo_mac own_ip [] 42 (demo_network [free_entry])). Defined.

Lemma arp_answered_witness :
  wp (network_handle_packet (eth BROADCAST demo_peer 0x0806 ++ arp 0x0100 demo_peer peer_ip (replicate 6 0) own_ip ++ []) 42) (λ _ s',
    queued (demo_network []) s' (eth demo_peer (nc_mac (net_config (demo_network []))) 0x0806 ++ arp 0x0200 (nc_mac (net_config (demo_network []))) own_ip demo_peer peer_ip)) (demo_network []).
Proof.
  apply (arp_answered demo_out BROADCAST demo_peer demo_peer peer_ip (replicate 6 0) own_ip [] 42 (demo_network [])); try done; [eval_decide|eval_decide|apply demo_device_ok].
Defined.

Lemma echo_handled_witness :
  let ip c a b := 0x45 :: [0; 0; 34; 0x12; 0x34; 0; 0; 64] ++ [1] ++ c ++ a ++ b in
  let icmp t c := [t; 0] ++ c ++ chars "0123456789" in
  let len := 14 + 20 + 4 + Z.of_nat (length (chars "0123456789")) in
  (∀ data n, network_handle_packet (demo_mac ++ demo_peer ++ [0x08; 0x00] ++ data) n (demo_network []) = Done tt (demo_network [])) ∧
  wp (network_handle_packet (demo_mac ++ demo_peer ++ [0x00; 0x08] ++ ip [7; 7] peer_ip own_ip ++ icmp 8 [9; 9] ++ []) len) (λ _ s', ∃ c1 c2,
    queued (demo_network []) s' (demo_peer ++ nc_mac (net_config (demo_network [])) ++ [0x00; 0x08] ++ ip c1 own_ip peer_ip ++ icmp 0 c2) ∧
    length c1 = 2%nat ∧ length c2 = 2%nat ∧ checksum (ip c1 own_ip peer_ip) = 0 ∧ checksum (icmp 0 c2) = 0) (demo_network []).
Proof.
  apply (echo_handled demo_out demo_mac demo_peer [0; 0; 34; 0x12; 0x34; 0; 0; 64] [7; 7] peer_ip own_ip [9; 9] (chars "0123456789") [] 0 (demo_network [])); try done;
    [eval_decide|cbn; lia|apply demo_device_ok].
Defined.

(** In the byte order of the wire the types of ARP and IP are other numbers: such frames are passed over. *)
Example wire_order_ignored : ∀ rest len, network_handle_packet (demo_mac ++ demo_peer ++ [0x08; 0x06] ++ rest) len (demo_network []) = Done tt (demo_network []) ∧
  network_handle_packet (demo_mac ++ demo_peer ++ [0x08; 0x00] ++ rest) len (demo_network []) = Done tt (demo_network []).
Proof. done. Qed.
(** A full table learns nothing. *)
Example table_full : arp_learn (replicate 16 (mk_arp 1 demo_mac 1)) 2 demo_peer = replicate 16 (mk_arp 1 demo_mac 1).
Proof. by vm_compute. Qed.
(** Nothing is received while [ping] waits: an address that is not known goes to everyone. *)
Example first_ping : match cmd_ping (lit "192.168.1.2") (demo_network [free_entry]) with
  | Done _ s => c_world (nw_card s) = chars "Pinging 192.168.1.2..." ++ [10] ++ chars "ARP failed, using broadcast" ++ [10] ++ chars "ICMP echo request sent" ++ [10]
      ∧ tx_cur (e1000_dev (nw_card s)) = 2
  | Stuck _ => False end.
Proof. by vm_compute. Qed.
