(* ===== verification/UsbInput.v ===== *)
(** * The USB keyboard and mouse, [core/drivers/usb/usb_keyboard.c] and [usb_mouse.c]

    The controllers hand over the reports of the devices; a report of the keyboard says which
    keys are down, one of the mouse how far it moved.  What the callbacks do is a parameter:
    a callback is a number, 0 when there is none. *)

From Stdlib Require Import ZArith Lia String.
From stdpp Require Import base list numbers.
From S2P Require Import Prelude Alloc Buffer Module Ports Interrupts Keyboard Display Mouse.
Open Scope Z_scope.
Set Default Goal Selector "!".

(** ** The keyboard *)

Definition hid_to_ascii : list Z :=
  [0; 0; 0; 0] ++ chars "abcdefghijklmnopqrstuvwxyz1234567890" ++ [10; 27; 8; 9] ++ chars " -=[]\" ++ [0] ++
  chars ";'`,./" ++ replicate 199 0.

Record usb_kb_report_t := mk_report { modifiers : Z; keys : list Z }.

Record usb_keyboard (W : Type) := mk_usb_keyboard {
  usb_kb_callback : Z;
  usb_kb_initialized : Z;
  prev_keys : list Z;
  prev_modifiers : Z;
  uk_world : W;
}.
Arguments mk_usb_keyboard {W}.
Arguments usb_kb_callback {W}.
Arguments usb_kb_initialized {W}.
Arguments prev_keys {W}.
Arguments prev_modifiers {W}.
Arguments uk_world {W}.

(** The characters of the shift key, where there is a [case] for them. *)
Definition shifted_sign (ascii : Z) : Z :=
  if ascii =? 96 then 126 else if ascii =? 45 then 95 else if ascii =? 61 then 43
  else if ascii =? 91 then 123 else if ascii =? 93 then 125 else if ascii =? 92 then 124
  else if ascii =? 59 then 58 else if ascii =? 39 then 34 else if ascii =? 44 then 60
  else if ascii =? 46 then 62 else if ascii =? 47 then 63 else ascii.
Definition usb_shift (ascii : Z) : option Z :=
  if (97 <=? ascii) && (ascii <=? 122) then Some (ascii - 32)
  else if (49 <=? ascii) && (ascii <=? 57) then chars "!@#$%^&*()" !! Z.to_nat (ascii - 49)
  else Some (shifted_sign ascii).
(** What a key gives to the callback; nothing when it stands for no character and no arrow. *)
Definition key_value (shift : bool) (key : Z) : option (option Z) :=
  ascii ← hid_to_ascii !! Z.to_nat key;
  if truthy ascii then
    if shift then c ← usb_shift ascii; Some (Some c) else Some (Some ascii)
  else
    Some (if key =? 0x52 then Some 0x80 else if key =? 0x51 then Some 0x81
          else if key =? 0x50 then Some 0x82 else if key =? 0x4F then Some 0x83 else None).

Section usb_keyboard.
  Context {W : Type}.
  Abbreviation S := (usb_keyboard W).
  (** [usb_kb_callback(ascii)] *)
  Context (key_back : Z → Z → M W unit).

Definition uk_on_world {B} (m : M W B) : M S B :=
  zoom uk_world (λ w s, mk_usb_keyboard (usb_kb_callback s) (usb_kb_initialized s) (prev_keys s) (prev_modifiers s) w) m.
Definition set_prev_keys (k : list Z) (s : S) : S :=
  mk_usb_keyboard (usb_kb_callback s) (usb_kb_initialized s) k (prev_modifiers s) (uk_world s).
Definition set_prev_modifiers (m : Z) (s : S) : S :=
  mk_usb_keyboard (usb_kb_callback s) (usb_kb_initialized s) (prev_keys s) m (uk_world s).

Definition usb_keyboard_init : M S Z :=
  modify (λ s, mk_usb_keyboard (usb_kb_callback s) 1 (prev_keys s) (prev_modifiers s) (uk_world s));; mret 0.
Definition usb_keyboard_set_callback (cb : Z) : M S unit :=
  modify (λ s, mk_usb_keyboard cb (usb_kb_initialized s) (prev_keys s) (prev_modifiers s) (uk_world s)).
Definition usb_keyboard_is_initialized : M S Z := gets usb_kb_initialized.

(** The first loop: the slots whose key changed. *)
Definition press_slot (shift : bool) (report : usb_kb_report_t) (i : Z) : M S unit :=
  key ← of_option (keys report !! Z.to_nat i);
  s ← get;
  prev ← of_option (prev_keys s !! Z.to_nat i);
  if key =? prev then mret tt else
  modify (set_prev_keys (<[Z.to_nat i := key]> (prev_keys s)));;
  if key =? 0 then mret tt else
  v ← of_option (key_value shift key);
  match v with Some c => uk_on_world (key_back (usb_kb_callback s) c) | None => mret tt end.
(** The second loop: forget the keys that are up. *)
Definition release_slot (report : usb_kb_report_t) (i : Z) : M S unit :=
  s ← get;
  prev ← of_option (prev_keys s !! Z.to_nat i);
  if existsb (λ k, (k =? prev) && truthy k) (take 6 (keys report)) then mret tt
  else modify (set_prev_keys (<[Z.to_nat i := 0]> (prev_keys s))).
Definition usb_keyboard_handle_report (report : option usb_kb_report_t) : M S unit :=
  match report with
  | None => mret tt
  | Some report =>
      s ← get;
      if usb_kb_callback s =? NULL then mret tt else
      let shift := truthy (Z.land (modifiers report) 0x22) in
      whenM (negb (modifiers report =? prev_modifiers s)) (modify (set_prev_modifiers (modifiers report)));;
      for_to 0 6 (press_slot shift report);;
      for_to 0 6 (release_slot report)
  end.
End usb_keyboard.

(** ** The mouse *)

Definition i16 (z : Z) : Z := (z + 2 ^ 15) mod 2 ^ 16 - 2 ^ 15.

(** Sixteen words whose bits draw an arrow; the other pixels of the image are 0. *)
Definition usb_embedded_cursor_pixels : list Z :=
  [0; 0x100; 0x180; 0x1C0; 0x1E0; 0x1F0; 0x1F8; 0x1FC; 0x1FE; 0x1F8; 0x1B0; 0x130; 0x30; 0x30; 0; 0] ++ replicate 240 0.
Definition usb_embedded_cursor : cursor_image := mk_cursor_image 16 16 usb_embedded_cursor_pixels.
Definition USB_MOUSE_CURSOR_WIDTH : Z := 16.
Definition USB_MOUSE_CURSOR_HEIGHT : Z := 16.

Record usb_pointer := mk_usb_pointer { usb_mouse_x : Z; usb_mouse_y : Z; usb_mouse_x_accum : Z; usb_mouse_y_accum : Z }.
Record usb_mouse (W : Type) := mk_usb_mouse {
  usb_mouse_cursor_image : option cursor_image;
  up : usb_pointer;
  usb_mouse_buttons : Z;
  usb_mouse_initialized : Z;
  usb_mouse_interrupt_count : Z;
  usb_mouse_test_mode : Z;
  usb_mouse_callback : Z;
  counter : Z;
  um_world : W;
}.
Arguments mk_usb_mouse {W}.
Arguments usb_mouse_cursor_image {W}.
Arguments up {W}.
Arguments usb_mouse_buttons {W}.
Arguments usb_mouse_initialized {W}.
Arguments usb_mouse_interrupt_count {W}.
Arguments usb_mouse_test_mode {W}.
Arguments usb_mouse_callback {W}.
Arguments counter {W}.
Arguments um_world {W}.

(** How far a report of [size] bytes says the mouse moved, doubled when it is fast. *)
Definition speed (d : Z) : Z := if (10 <? d) || (d <? -10) then i16 (d * 2) else d.
Definition report_deltas (report : list Z) (size : Z) : option (Z * Z) :=
  r1 ← report !! 1%nat; r2 ← report !! 2%nat;
  if 5 <=? size then
    r3 ← report !! 3%nat; r4 ← report !! 4%nat;
    Some (speed (i16 (Z.lor r1 (Z.shiftl r2 8))), speed (i16 (Z.lor r3 (Z.shiftl r4 8))))
  else Some (speed (i8 r1), speed (i8 r2)).
(** One axis: the position in hundredths and in pixels, within a screen of [size] pixels. *)
Definition move_axis (accum delta size cursor : Z) : Z * Z :=
  let accum := i32 (accum + delta * 100) in
  let next := Z.quot accum 100 in
  let '(next, accum) := if next <? 0 then (0, 0) else (next, accum) in
  if i32 (size - cursor) <=? next then (i32 (u32 (size - cursor - 1)), i32 (i32 (u32 (size - cursor - 1)) * 100))
  else (next, accum).

Section usb_mouse.
  Context {W : Type} `{!Screen W}.
  Abbreviation S := (usb_mouse W).
  (** [usb_mouse_callback(x, y, buttons)] *)
  Context (move_back : Z → Z → Z → Z → M W unit).

Definition um_on_world {B} (m : M W B) : M S B :=
  zoom um_world (λ w s, mk_usb_mouse (usb_mouse_cursor_image s) (up s) (usb_mouse_buttons s) (usb_mouse_initialized s)
    (usb_mouse_interrupt_count s) (usb_mouse_test_mode s) (usb_mouse_callback s) (counter s) w) m.
Definition um_pointer (p : usb_pointer) (s : S) : S :=
  mk_usb_mouse (usb_mouse_cursor_image s) p (usb_mouse_buttons s) (usb_mouse_initialized s)
    (usb_mouse_interrupt_count s) (usb_mouse_test_mode s) (usb_mouse_callback s) (counter s) (um_world s).
Definition um_buttons (b : Z) (s : S) : S :=
  mk_usb_mouse (usb_mouse_cursor_image s) (up s) b (usb_mouse_initialized s)
    (usb_mouse_interrupt_count s) (usb_mouse_test_mode s) (usb_mouse_callback s) (counter s) (um_world s).
Definition um_count (s : S) : S :=
  mk_usb_mouse (usb_mouse_cursor_image s) (up s) (usb_mouse_buttons s) (usb_mouse_initialized s)
    (i32 (usb_mouse_interrupt_count s + 1)) (usb_mouse_test_mode s) (usb_mouse_callback s) (counter s) (um_world s).
Definition um_test (v : Z) (s : S) : S :=
  mk_usb_mouse (usb_mouse_cursor_image s) (up s) (usb_mouse_buttons s) (usb_mouse_initialized s)
    (usb_mouse_interrupt_count s) v (usb_mouse_callback s) (counter s) (um_world s).
Definition um_callback (v : Z) (s : S) : S :=
  mk_usb_mouse (usb_mouse_cursor_image s) (up s) (usb_mouse_buttons s) (usb_mouse_initialized s)
    (usb_mouse_interrupt_count s) (usb_mouse_test_mode s) v (counter s) (um_world s).
Definition um_counter (v : Z) (s : S) : S :=
  mk_usb_mouse (usb_mouse_cursor_image s) (up s) (usb_mouse_buttons s) (usb_mouse_initialized s)
    (usb_mouse_interrupt_count s) (usb_mouse_test_mode s) (usb_mouse_callback s) v (um_world s).
Definition um_start (i : option cursor_image) (s : S) : S :=
  mk_usb_mouse i (up s) (usb_mouse_buttons s) 1
    (usb_mouse_interrupt_count s) (usb_mouse_test_mode s) (usb_mouse_callback s) (counter s) (um_world s).

(** [if (usb_mouse_callback) usb_mouse_callback(...);] *)
Definition um_call_back : M S unit :=
  s ← get;
  if usb_mouse_callback s =? NULL then mret tt
  else um_on_world (move_back (usb_mouse_callback s) (usb_mouse_x (up s)) (usb_mouse_y (up s)) (usb_mouse_buttons s)).

Definition usb_mouse_interrupt_handler (report : list Z) (report_size : Z) : M S unit :=
  modify um_count;;
  if report_size <? 4 then mret tt else
  r0 ← of_option (report !! 0%nat);
  modify (um_buttons (Z.land r0 0x07));;
  '(delta_x, delta_y) ← of_option (report_deltas report report_size);
  s ← get;
  let fb_width := if sc_width (um_world s) =? 0 then 800 else sc_width (um_world s) in
  let fb_height := if sc_height (um_world s) =? 0 then 600 else sc_height (um_world s) in
  let '(next_x, x_accum) := move_axis (usb_mouse_x_accum (up s)) delta_x fb_width USB_MOUSE_CURSOR_WIDTH in
  let '(next_y, y_accum) := move_axis (usb_mouse_y_accum (up s)) delta_y fb_height USB_MOUSE_CURSOR_HEIGHT in
  modify (um_pointer (mk_usb_pointer next_x next_y x_accum y_accum));;
  um_call_back.

(** The position and its hundredths. *)
Definition at_position (x y : Z) : usb_pointer := mk_usb_pointer x y (i32 (x * 100)) (i32 (y * 100)).

Definition usb_mouse_simulate_interrupt : M S unit :=
  modify (λ s, um_counter (i32 (counter s + 1)) s);;
  s ← get;
  if truthy (usb_mouse_test_mode s) && (Z.rem (counter s) 50 =? 0) then
    let x := i32 (usb_mouse_x (up s) + 5) in
    let x := if 700 <? x then 50 else x in
    let y := i32 (usb_mouse_y (up s) + 3) in
    let y := if 500 <? y then 50 else y in
    modify (um_pointer (at_position x y));;
    um_call_back
  else mret tt.

Definition usb_mouse_init : M S Z :=
  s ← get;
  if truthy (usb_mouse_initialized s) then mret 0 else
  let fb_width := sc_width (um_world s) in
  let fb_height := sc_height (um_world s) in
  (if (0 <? fb_width) && (0 <? fb_height) then
     modify (um_pointer (at_position (i32 (fb_width / 2)) (i32 (fb_height / 2))))
   else mret tt);;
  modify (λ s, um_start (match usb_mouse_cursor_image s with None => Some usb_embedded_cursor | i => i end) s);;
  mret 0.
Definition usb_mouse_get_position : M S (Z * Z) := gets (λ s, (usb_mouse_x (up s), usb_mouse_y (up s))).
Definition usb_mouse_set_position (x y : Z) : M S unit := modify (um_pointer (at_position x y)).
Definition usb_mouse_get_buttons : M S Z := gets usb_mouse_buttons.
Definition usb_mouse_set_callback (cb : Z) : M S unit := modify (um_callback cb).
Definition usb_mouse_unregister_callback : M S unit := modify (um_callback NULL).

Definition usb_cursor_pixel (image : cursor_image) (fb_width fb_height y x : Z) : M S unit :=
  s ← get;
  let screen_x := i32 (usb_mouse_x (up s) + x) in
  let screen_y := i32 (usb_mouse_y (up s) + y) in
  if (0 <=? screen_x) && (screen_x <? i32 fb_width) && (0 <=? screen_y) && (screen_y <? i32 fb_height) then
    pixel ← of_option (ci_pixels image !! Z.to_nat (u32 (y * ci_width image + x)));
    let alpha := Z.land (Z.shiftr pixel 24) 0xFF in
    if 0 <? alpha then um_on_world (sc_putpixel screen_x screen_y (Z.land pixel 0x00FFFFFF)) else mret tt
  else mret tt.
Definition usb_mouse_draw_cursor : M S unit :=
  s ← get;
  if usb_mouse_initialized s =? 0 then mret tt else
  match usb_mouse_cursor_image s with
  | None => mret tt
  | Some image =>
      for_to 0 (ci_height image) (λ y, for_to 0 (ci_width image) (λ x,
        usb_cursor_pixel image (sc_width (um_world s)) (sc_height (um_world s)) y x))
  end.
Definition usb_mouse_is_initialized : M S Z := gets usb_mouse_initialized.
Definition usb_mouse_get_interrupt_count : M S Z := gets usb_mouse_interrupt_count.
Definition usb_mouse_cursor_needs_update : M S Z := mret 0.
Definition usb_mouse_force_update : M S unit :=
  s ← get; if usb_mouse_initialized s =? 0 then mret tt else usb_mouse_draw_cursor.
Definition usb_mouse_enable_test_mode : M S unit := modify (um_test 1).
End usb_mouse.

(** ** What the keyboard types *)

(** What a slot gives whose key was [p] and is [k], and what a report gives after another. *)
Definition slot_typed (shift : bool) (k p : Z) : list Z :=
  if (k =? p) || (k =? 0) then []
  else match key_value shift k with Some (Some c) => [c] | _ => [] end.
Definition typed (shift : bool) (prev ks : list Z) : list Z := concat (zip_with (slot_typed shift) ks prev).
Definition shift_of (r : usb_kb_report_t) : bool := truthy (Z.land (modifiers r) 0x22).
Fixpoint reports_typed (prev : list Z) (rs : list usb_kb_report_t) : list Z :=
  match rs with
  | [] => []
  | r :: rs' => typed (shift_of r) prev (keys r) ++ reports_typed (keys r) rs'
  end.
(** A report as the keyboard sends it. *)
Definition report_ok (r : usb_kb_report_t) : Prop := length (keys r) = 6%nat ∧ Forall is_byte (keys r).

Lemma key_value_total shift k : is_byte k → is_Some (key_value shift k).
Proof.
  intros Hk. apply (byte_ind (λ k, bool_decide (is_Some (key_value shift k)))) in Hk; [by apply bool_decide_eq_true in Hk|].
  destruct shift; by vm_compute.
Qed.

Lemma typed_snoc shift prev ks i k p : ks !! i = Some k → prev !! i = Some p →
  typed shift (take (Datatypes.S i) prev) (take (Datatypes.S i) ks) = typed shift (take i prev) (take i ks) ++ slot_typed shift k p.
Proof.
  intros Hk Hp. unfold typed. rewrite (take_S_r _ _ _ Hk), (take_S_r _ _ _ Hp).
  rewrite zip_with_app by (rewrite !length_take; apply lookup_lt_Some in Hk, Hp; lia).
  rewrite concat_app. cbn. by rewrite app_nil_r.
Qed.

Lemma insert_mixed {A} (a b : list A) (i : nat) x : a !! i = Some x → (i < length b)%nat →
  <[i := x]> (take i a ++ drop i b) = take (Datatypes.S i) a ++ drop (Datatypes.S i) b.
Proof.
  intros Ha Hb. assert (length (take i a) = i) as Hl by (rewrite length_take; apply lookup_lt_Some in Ha; lia).
  destruct (lookup_lt_is_Some_2 b i Hb) as [y Hy].
  rewrite (drop_S b y i Hy), insert_app_r_alt by lia. rewrite Hl, Nat.sub_diag. cbn [insert list_insert].
  by rewrite (take_S_r _ _ _ Ha), <-app_assoc.
Qed.

Lemma mixed_lookup {A} (a b : list A) (i : nat) : (i ≤ length a)%nat → (take i a ++ drop i b) !! i = b !! i.
Proof.
  intros Hi. rewrite lookup_app_r by (rewrite length_take; lia).
  rewrite length_take, lookup_drop. f_equal. lia.
Qed.

Lemma reports_typed_app prev rs1 rs2 :
  reports_typed prev (rs1 ++ rs2) = reports_typed prev rs1 ++ reports_typed (default prev (keys <$> list.last rs1)) rs2.
Proof.
  revert prev. induction rs1 as [|r rs1 IH]; intros prev; [done|]. cbn [reports_typed app].
  rewrite IH, <-app_assoc, last_cons. by destruct (list.last rs1).
Qed.

(** Someone who takes note of what the callback is given. *)
Class KeyLog (W : Type) (key_back : Z → Z → M W unit) := {
  heard : W → list Z;
  kl_call : ∀ cb c w, cb ≠ NULL → ∃ w', key_back cb c w = Done tt w' ∧ heard w' = heard w ++ [c];
}.

Section key_reports.
  Context {W : Type} (key_back : Z → Z → M W unit) `{!KeyLog W key_back}.
  Abbreviation S := (usb_keyboard W).
  Abbreviation handle_report := (usb_keyboard_handle_report key_back).

Lemma press_slot_run r (prev : list Z) (h : list Z) (cb : Z) (i : Z) (s : S) :
  report_ok r → length prev = 6%nat → cb ≠ NULL → 0 ≤ i < 6 →
  usb_kb_callback s = cb ∧ prev_keys s = take (Z.to_nat i) (keys r) ++ drop (Z.to_nat i) prev ∧
    heard (uk_world s) = h ++ typed (shift_of r) (take (Z.to_nat i) prev) (take (Z.to_nat i) (keys r)) →
  wp (press_slot key_back (shift_of r) r i) (λ _ s',
    usb_kb_callback s' = cb ∧ prev_keys s' = take (Z.to_nat (i + 1)) (keys r) ++ drop (Z.to_nat (i + 1)) prev ∧
    heard (uk_world s') = h ++ typed (shift_of r) (take (Z.to_nat (i + 1)) prev) (take (Z.to_nat (i + 1)) (keys r))) s.
Proof.
  intros [Hl Hb] Hp Hcb Hi (Hc & Hk & Hh). rewrite (Z2Nat.inj_add i 1) by lia. rewrite Nat.add_1_r.
  destruct (lookup_lt_is_Some_2 (keys r) (Z.to_nat i) ltac:(lia)) as [k Ek].
  destruct (lookup_lt_is_Some_2 prev (Z.to_nat i) ltac:(lia)) as [p Ep].
  rewrite (typed_snoc _ _ _ _ _ _ Ek Ep), (assoc_L (++)), <-Hh.
  assert (is_byte k) as Hkb by (by eapply Forall_lookup_1).
  pose proof (insert_mixed (keys r) prev _ k Ek ltac:(lia)) as Hins.
  assert (prev_keys s !! Z.to_nat i = Some p) as Hprev by (rewrite Hk, mixed_lookup by lia; done).
  unfold press_slot. apply wp_bind. eapply wp_of_option; [done|]. apply wp_bind, wp_get, wp_bind.
  eapply wp_of_option; [done|]. unfold slot_typed. destruct (Z.eqb_spec k p) as [->|Hne]; cbn [orb].
  { apply wp_ret. rewrite app_nil_r, Hk. split_and!; [done| |done]. rewrite <-Hins, list_insert_id; [done|].
    rewrite mixed_lookup by lia. done. }
  apply wp_bind, wp_modify. destruct (k =? 0).
  { apply wp_ret. cbn. rewrite app_nil_r. split_and!; [done| |done]. by rewrite Hk. }
  destruct (key_value_total (shift_of r) k Hkb) as [v Ev]. rewrite Ev.
  apply wp_bind. eapply wp_of_option; [done|]. destruct v as [c|].
  - destruct (kl_call cb c (uk_world s) Hcb) as (w' & E & Hw). rewrite Hc.
    unfold uk_on_world, zoom, wp. cbn. rewrite E. cbn. rewrite Hk. split_and!; done.
  - apply wp_ret. cbn. rewrite app_nil_r. split_and!; [done| |done]. by rewrite Hk.
Qed.

Lemma release_slot_run r (i : Z) (s : S) : report_ok r → 0 ≤ i < 6 → prev_keys s = keys r →
  wp (release_slot r i) (λ _ s', s' = s) s.
Proof.
  intros [Hl _] Hi Hk. destruct (lookup_lt_is_Some_2 (keys r) (Z.to_nat i) ltac:(lia)) as [k Ek].
  unfold release_slot. apply wp_bind, wp_get, wp_bind. eapply wp_of_option; [by rewrite Hk|].
  rewrite take_ge by lia. destruct (existsb _ _) eqn:E; [by apply wp_ret|].
  apply wp_modify. unfold set_prev_keys. destruct s as [? ? pk ? ?]. cbn in *. subst pk. f_equal.
  apply list_insert_id. rewrite Ek. f_equal. destruct (Z.eqb_spec k 0) as [|Hk0]; [done|]. exfalso.
  apply not_true_iff_false in E. apply E. apply existsb_exists. exists k. split.
  - apply list_elem_of_In. by eapply list_elem_of_lookup_2.
  - rewrite Z.eqb_refl. by apply truthy_true.
Qed.

(** Both loops, from any state. *)
Lemma slots_run r (s : S) : report_ok r → length (prev_keys s) = 6%nat → usb_kb_callback s ≠ NULL →
  wp (for_to 0 6 (press_slot key_back (shift_of r) r);; for_to 0 6 (release_slot r)) (λ _ s',
    usb_kb_callback s' = usb_kb_callback s ∧ prev_keys s' = keys r ∧
    heard (uk_world s') = heard (uk_world s) ++ typed (shift_of r) (prev_keys s) (keys r)) s.
Proof.
  intros Hr Hp Hcb. apply wp_bind. eapply wp_mono.
  - apply (wp_for_to (λ i s', usb_kb_callback s' = usb_kb_callback s ∧
      prev_keys s' = take (Z.to_nat i) (keys r) ++ drop (Z.to_nat i) (prev_keys s) ∧
      heard (uk_world s') = heard (uk_world s) ++ typed (shift_of r) (take (Z.to_nat i) (prev_keys s)) (take (Z.to_nat i) (keys r))) 0 6);
      [lia|cbn; by rewrite app_nil_r|intros; by apply press_slot_run].
  - intros _ s1 (Hc & Hk & Hh). destruct Hr as [Hl Hb]. change (Z.to_nat 6) with 6%nat in *.
    rewrite !take_ge in Hh by lia. rewrite take_ge, drop_ge, app_nil_r in Hk by lia.
    eapply wp_mono; [apply (wp_for_to (λ _ s', s' = s1) 0 6)|]; [lia|done| |].
    + intros i s2 Hi ->. by apply release_slot_run.
    + by intros _ s2 ->.
Qed.

Lemma report_run r (s : S) : report_ok r → length (prev_keys s) = 6%nat → usb_kb_callback s ≠ NULL →
  wp (handle_report (Some r)) (λ _ s', usb_kb_callback s' = usb_kb_callback s ∧ prev_keys s' = keys r ∧
    heard (uk_world s') = heard (uk_world s) ++ typed (shift_of r) (prev_keys s) (keys r)) s.
Proof.
  intros Hr Hp Hcb. apply wp_bind, wp_get. destruct (Z.eqb_spec (usb_kb_callback s) NULL) as [|_]; [done|].
  apply wp_bind, wp_whenM; intros _.
  - apply wp_modify. by apply (slots_run r (set_prev_modifiers (modifiers r) s)).
  - by apply slots_run.
Qed.

Fixpoint handle_reports (rs : list usb_kb_report_t) : M S unit :=
  match rs with [] => mret tt | r :: rs' => handle_report (Some r);; handle_reports rs' end.

(** After any sequence of reports the driver remembers the keys that are down, and the
    callback was given the characters of the keys that went down, one report after the other. *)
Lemma reports_run rs (s : S) : Forall report_ok rs → length (prev_keys s) = 6%nat → usb_kb_callback s ≠ NULL →
  wp (handle_reports rs) (λ _ s', prev_keys s' = default (prev_keys s) (keys <$> list.last rs) ∧
    heard (uk_world s') = heard (uk_world s) ++ reports_typed (prev_keys s) rs) s.
Proof.
  revert s. induction rs as [|r rs IH]; intros s Hrs Hp Hcb.
  { apply wp_ret. cbn. by rewrite app_nil_r. }
  apply Forall_cons_1 in Hrs as [Hr Hrs]. apply wp_bind. eapply wp_mono; [by apply report_run|].
  intros _ s1 (Hc & Hk & Hh). eapply wp_mono; [apply IH; [done| |]; [by rewrite Hk; destruct Hr|by rewrite Hc]|].
  intros _ s2 [Hk2 Hh2]. rewrite Hk2, Hh2, Hh, Hk, <-app_assoc. split; [|done].
  rewrite last_cons. by destruct (list.last rs).
Qed.

(** The report of a key with the shift key up or down, and of no key. *)
Definition key_report (m k : Z) : usb_kb_report_t := mk_report m [k; 0; 0; 0; 0; 0].
(** The keyboard page of the HID usage tables with the American layout: the usage of a key, what
    it types, and what it types with a shift key.  The arrows have the codes of the shell. *)
Definition us_layout : list (Z * (Z * Z)) :=
  ((λ i, (0x04 + i, (97 + i, 65 + i))) <$> seqZ 0 26) ++
  zip (seqZ 0x1E 10) (zip (chars "1234567890") (chars "!@#$%^&*()")) ++
  [(0x28, (10, 10)); (0x29, (27, 27)); (0x2A, (8, 8)); (0x2B, (9, 9)); (0x2C, (32, 32))] ++
  zip (seqZ 0x2D 5) (zip (chars "-=[]\") (chars "_+{}|")) ++
  zip (seqZ 0x33 6) (zip (chars ";'`,./") ([58; 34] ++ chars "~<>?")) ++
  [(0x4F, (0x83, 0x83)); (0x50, (0x82, 0x82)); (0x51, (0x81, 0x81)); (0x52, (0x80, 0x80))].
(** The key for a character goes down, with the shift key when it needs it, and up again. *)
Definition usb_stroke (shift_key c : Z) : option (list usb_kb_report_t) :=
  match list.head (filter (λ u, u.2.1 = c) us_layout) with
  | Some (k, _) => Some [key_report 0 k; key_report 0 0]
  | None => match list.head (filter (λ u, u.2.2 = c) us_layout) with
            | Some (k, _) => Some [key_report shift_key k; key_report 0 0]
            | None => None
            end
  end.

(** The driver's tables agree with the layout, but for the closing parenthesis. *)
Lemma layout_agrees : forallb (λ u, bool_decide (4 ≤ u.1 < 83) && bool_decide (key_value false u.1 = Some (Some u.2.1)) &&
  (bool_decide (u.2.2 = 41) || bool_decide (key_value true u.1 = Some (Some u.2.2)))) us_layout = true.
Proof. by vm_compute. Qed.

Lemma layout_key u : u ∈ us_layout → 4 ≤ u.1 < 83 ∧ key_value false u.1 = Some (Some u.2.1) ∧ (u.2.2 ≠ 41 → key_value true u.1 = Some (Some u.2.2)).
Proof.
  intros Hu%list_elem_of_In. pose proof layout_agrees as H. rewrite forallb_forall in H. specialize (H u Hu).
  rewrite !andb_true_iff, orb_true_iff, !bool_decide_eq_true in H. tauto.
Qed.

Lemma stroke_key sh c rs : sh = 0x02 ∨ sh = 0x20 → c ≠ 41 → usb_stroke sh c = Some rs →
  ∃ m k, rs = [key_report m k; key_report 0 0] ∧ 4 ≤ k < 83 ∧ key_value (truthy (Z.land m 0x22)) k = Some (Some c).
Proof.
  intros Hsh Hc H. unfold usb_stroke in H. destruct (list.head (filter (λ u, u.2.1 = c) us_layout)) as [[k v]|] eqn:E1.
  - injection H as <-. apply head_Some_elem_of, list_elem_of_filter in E1 as [Hv Hin]. apply layout_key in Hin as (Hk & Hp & _). cbn in *. subst c.
    by exists 0, k.
  - destruct (list.head (filter (λ u, u.2.2 = c) us_layout)) as [[k v]|] eqn:E2; [|done]. injection H as <-.
    apply head_Some_elem_of, list_elem_of_filter in E2 as [Hv Hin]. apply layout_key in Hin as (Hk & _ & Hs). cbn in *. subst c.
    exists sh, k. split_and!; [done|lia|lia|]. destruct Hsh as [->| ->]; by apply Hs.
Qed.

Lemma usb_stroke_spec sh c rs : sh = 0x02 ∨ sh = 0x20 → c ≠ 41 → usb_stroke sh c = Some rs →
  Forall report_ok rs ∧ list.last rs = Some (key_report 0 0) ∧ reports_typed (replicate 6 0) rs = [c].
Proof.
  intros Hsh Hc H. apply stroke_key in H as (m & k & -> & Hk & Hv); [|done..]. split_and!; [|done|].
  - assert (is_byte 0) by done. assert (is_byte k) by (unfold is_byte; lia).
    apply Forall_cons_2; [|apply Forall_cons_2; [|by apply Forall_nil_2]]; (split; [done|]);
      repeat (apply Forall_cons_2; [done|]); by apply Forall_nil_2.
  - unfold reports_typed, typed, shift_of, key_report. cbn -[key_value]. unfold slot_typed at 1.
    rewrite (proj2 (Z.eqb_neq k 0)) by lia. cbn [orb]. rewrite Hv. unfold slot_typed. by rewrite orb_true_r.
Qed.

(** Typing.  When all keys were up, the reports of the strokes that type a text give exactly
    that text to the callback, and all keys are up again. *)
Lemma usb_types_text (sh : Z) (text : list Z) (strokes : list (list usb_kb_report_t)) (s : S) : sh = 0x02 ∨ sh = 0x20 → 41 ∉ text →
  mapM (usb_stroke sh) text = Some strokes → prev_keys s = replicate 6 0 → usb_kb_callback s ≠ NULL →
  wp (handle_reports (concat strokes)) (λ _ s', heard (uk_world s') = heard (uk_world s) ++ text ∧
    prev_keys s' = replicate 6 0) s.
Proof.
  intros Hsh Hno Ht Hp Hcb. assert (Forall report_ok (concat strokes) ∧ reports_typed (replicate 6 0) (concat strokes) = text ∧
    default (replicate 6 0) (keys <$> list.last (concat strokes)) = replicate 6 0) as (Hok & Ht' & Hl).
  { clear s Hp Hcb. apply mapM_Some in Ht. induction Ht as [|c rs text strokes Hc _ IH]; [done|].
    apply list.not_elem_of_cons in Hno as [Hc41 Hno]. destruct (IH Hno) as (IH1 & IH2 & IH3).
    apply usb_stroke_spec in Hc as (Hc1 & Hc2 & Hc3); [|done|congruence]. cbn [concat]. split_and!.
    - by apply Forall_app_2.
    - rewrite reports_typed_app, Hc3.
      replace (default (replicate 6 0) (keys <$> list.last rs)) with (replicate 6 0) by (by rewrite Hc2).
      by rewrite IH2.
    - rewrite last_app. destruct (list.last (concat strokes)) as [r|]; [done|]. by rewrite Hc2. }
  eapply wp_mono; [apply reports_run; [done|by rewrite Hp|done]|].
  intros _ s' [H1 H2]. by rewrite H1, H2, Hp, Ht', Hl.
Qed.

(** C30: typing on the USB keyboard.  When all keys were up, the reports of a keyboard with the
    American layout on which a text is typed, with either shift key, give exactly that text, in
    order, to the callback, and all keys are up again; the text may be of all printable
    characters but the closing parenthesis, for which the driver has no entry, newlines, tabulators,
    backspaces, escapes and the arrow keys. *)
Theorem usb_keyboard_types_text (sh : Z) (text : list Z) (strokes : list (list usb_kb_report_t)) (s : S)
    (Hsh : sh = 0x02 ∨ sh = 0x20) (Hno : 41 ∉ text)
    (Ht : mapM (usb_stroke sh) text = Some strokes) (Hp : prev_keys s = replicate 6 0) (Hcb : usb_kb_callback s ≠ NULL) :
  wp (handle_reports (concat strokes)) (λ _ s', heard (uk_world s') = heard (uk_world s) ++ text ∧
    prev_keys s' = replicate 6 0) s.
Proof. by eapply usb_types_text. Qed.
End key_reports.

(** ** Where the mouse goes *)

(** A coordinate after a move by [d], within a screen of [size] pixels and a cursor of 16. *)
Definition clamped (size x d : Z) : Z := Z.max 0 (Z.min (size - 17) (x + d)).

Lemma move_axis_correct x d size : 17 ≤ size ≤ 2 ^ 20 → 0 ≤ x ≤ size - 17 → - 2 ^ 15 ≤ d < 2 ^ 15 →
  move_axis (100 * x) d size 16 = (clamped size x d, 100 * clamped size x d).
Proof.
  intros Hs Hx Hd. unfold move_axis, clamped. rewrite (i32_id (100 * x + d * 100)) by lia.
  replace (100 * x + d * 100) with ((x + d) * 100) by lia. rewrite Z.quot_mul by lia.
  rewrite (i32_id (size - 16)) by lia.
  assert (i32 (u32 (size - 16 - 1)) = size - 17) as -> by (unfold u32; rewrite Z.mod_small by lia; rewrite i32_id; lia).
  rewrite (i32_id ((size - 17) * 100)) by lia.
  destruct (Z.ltb_spec (x + d) 0).
  - rewrite (proj2 (Z.leb_gt (size - 16) 0)) by lia. f_equal; lia.
  - destruct (Z.leb_spec (size - 16) (x + d)); f_equal; lia.
Qed.

Lemma i16_range z : - 2 ^ 15 ≤ i16 z < 2 ^ 15.
Proof. unfold i16. pose proof (Z.mod_pos_bound (z + 2 ^ 15) (2 ^ 16) ltac:(lia)). lia. Qed.
Lemma speed_range d : - 2 ^ 15 ≤ d < 2 ^ 15 → - 2 ^ 15 ≤ speed d < 2 ^ 15.
Proof. unfold speed. destruct (_ || _); [intros _; apply i16_range|done]. Qed.
Lemma report_deltas_range report size dx dy : report_deltas report size = Some (dx, dy) →
  - 2 ^ 15 ≤ dx < 2 ^ 15 ∧ - 2 ^ 15 ≤ dy < 2 ^ 15.
Proof.
  assert (∀ z, - 2 ^ 15 ≤ i8 z < 2 ^ 15) by (intros z; pose proof (i8_range z); lia).
  unfold report_deltas. intros E. destruct (report !! 1%nat), (report !! 2%nat); try done. cbn in E.
  destruct (5 <=? size); [destruct (report !! 3%nat), (report !! 4%nat); try done|]; injection E as <- <-;
    split; apply speed_range; first [apply i16_range|done].
Qed.

(** The positions a pointer is told of: a report that is too short says nothing. *)
Definition point_after (w h : Z) (p : Z * Z) (report : list Z) : Z * Z :=
  match report_deltas report (Z.of_nat (length report)) with
  | Some (dx, dy) => (clamped w p.1 dx, clamped h p.2 dy)
  | None => p
  end.
Fixpoint path_of_pointer (w h : Z) (p : Z * Z) (reports : list (list Z)) : list (Z * Z) :=
  match reports with
  | [] => []
  | r :: rs => point_after w h p r :: path_of_pointer w h (point_after w h p r) rs
  end.
Definition inside (w h : Z) (p : Z * Z) : Prop := 0 ≤ p.1 ≤ w - 17 ∧ 0 ≤ p.2 ≤ h - 17.

Class PointerLog (W : Type) `{!Screen W} (move_back : Z → Z → Z → Z → M W unit) := {
  told : W → list (Z * Z);
  pl_call : ∀ cb x y b w, cb ≠ NULL → ∃ w', move_back cb x y b w = Done tt w' ∧
    told w' = told w ++ [(x, y)] ∧ sc_width w' = sc_width w ∧ sc_height w' = sc_height w;
}.

Section mouse_reports.
  Context {W : Type} `{!Screen W} (move_back : Z → Z → Z → Z → M W unit) `{!PointerLog W move_back}.
  Context (w h : Z) (Hw : 17 ≤ w ≤ 2 ^ 20) (Hh : 17 ≤ h ≤ 2 ^ 20).
  Abbreviation S := (usb_mouse W).

(** The pointer is at [p], and its hundredths agree. *)
Definition pointing (p : Z * Z) (s : S) : Prop :=
  up s = mk_usb_pointer p.1 p.2 (100 * p.1) (100 * p.2) ∧ usb_mouse_callback s ≠ NULL ∧
  sc_width (um_world s) = w ∧ sc_height (um_world s) = h.

Lemma point_after_inside p r : inside w h p → inside w h (point_after w h p r).
Proof.
  unfold inside, point_after, clamped. intros H. destruct (report_deltas _ _) as [[dx dy]|]; [cbn; lia|done].
Qed.

Lemma usb_handler_run p r (s : S) : (4 ≤ length r)%nat → inside w h p → pointing p s →
  wp (usb_mouse_interrupt_handler move_back r (Z.of_nat (length r))) (λ _ s',
    pointing (point_after w h p r) s' ∧ told (um_world s') = told (um_world s) ++ [point_after w h p r]) s.
Proof.
  intros Hl [Hx Hy] (Hup & Hcb & Hsw & Hsh). apply wp_bind, wp_modify.
  rewrite (proj2 (Z.ltb_ge (Z.of_nat (length r)) 4)) by lia.
  destruct (lookup_lt_is_Some_2 r 0 ltac:(lia)) as [r0 E0]. apply wp_bind. eapply wp_of_option; [done|].
  apply wp_bind, wp_modify.
  assert (∃ dx dy, report_deltas r (Z.of_nat (length r)) = Some (dx, dy)) as (dx & dy & Ed).
  { unfold report_deltas. destruct (lookup_lt_is_Some_2 r 1 ltac:(lia)) as [r1 ->].
    destruct (lookup_lt_is_Some_2 r 2 ltac:(lia)) as [r2 ->]. cbn. destruct (Z.leb_spec 5 (Z.of_nat (length r))); [|eauto].
    destruct (lookup_lt_is_Some_2 r 3 ltac:(lia)) as [r3 ->].
    destruct (lookup_lt_is_Some_2 r 4 ltac:(lia)) as [r4 ->]. cbn. eauto. }
  unfold point_after. rewrite Ed. destruct (report_deltas_range _ _ _ _ Ed) as [Hdx Hdy].
  apply wp_bind. eapply wp_of_option; [done|]. cbv beta iota. apply wp_bind, wp_get.
  cbn [um_buttons um_count um_world up]. rewrite Hsw, Hsh, Hup.
  rewrite (proj2 (Z.eqb_neq w 0)), (proj2 (Z.eqb_neq h 0)) by lia. cbn [usb_mouse_x_accum usb_mouse_y_accum].
  unfold USB_MOUSE_CURSOR_WIDTH, USB_MOUSE_CURSOR_HEIGHT. rewrite !move_axis_correct by lia. cbv beta iota.
  apply wp_bind, wp_modify. unfold um_call_back. apply wp_bind, wp_get.
  cbn [um_pointer usb_mouse_callback up usb_mouse_x usb_mouse_y].
  destruct (pl_call (usb_mouse_callback s) (clamped w p.1 dx) (clamped h p.2 dy) (Z.land r0 7) (um_world s) Hcb)
    as (w' & E & Ht & H1 & H2).
  unfold um_on_world, zoom, wp. cbn. rewrite (proj2 (Z.eqb_neq _ _) Hcb). cbn. rewrite E. cbn. split; [|done]. split; [done|]. split; [done|].
  cbn. by rewrite H1, H2, Hsw, Hsh.
Qed.

Fixpoint mouse_reports (rs : list (list Z)) : M S unit :=
  match rs with
  | [] => mret tt
  | r :: rs' => usb_mouse_interrupt_handler move_back r (Z.of_nat (length r));; mouse_reports rs'
  end.

(** The path of the USB mouse.  After any sequence of reports of four bytes or more the
    pointer went through the positions that the movements add up to, each cut off at the
    edges of the screen, so it never leaves the screen; the callback was told of every one. *)
Theorem usb_mouse_follows (rs : list (list Z)) (p : Z * Z) (s : S)
    (Hrs : Forall (λ r, 4 ≤ length r)%nat rs) (Hp : inside w h p) (Hs : pointing p s) :
  wp (mouse_reports rs) (λ _ s',
    told (um_world s') = told (um_world s) ++ path_of_pointer w h p rs ∧
    Forall (inside w h) (path_of_pointer w h p rs) ∧
    pointing (default p (list.last (path_of_pointer w h p rs))) s') s.
Proof.
  revert p s Hp Hs. induction rs as [|r rs IH]; intros p s Hp Hs; cbn [mouse_reports path_of_pointer].
  { apply wp_ret. rewrite app_nil_r. split_and!; [done|by apply Forall_nil_2|done]. }
  apply Forall_cons_1 in Hrs as [Hr Hrs]. apply wp_bind. eapply wp_mono; [by apply usb_handler_run|].
  intros _ s1 [H1 H2]. eapply wp_mono; [apply (IH Hrs); [by apply point_after_inside|exact H1]|].
  intros _ s2 (H3 & H4 & H5). rewrite H3, H2, <-app_assoc. split_and!; [done| |].
  - apply Forall_cons_2; [by apply point_after_inside|done].
  - rewrite last_cons. by destruct (list.last _).
Qed.
End mouse_reports.

(** ** The cursor of the USB mouse *)

Lemma embedded_transparent : Forall (λ pixel, Z.land (Z.shiftr pixel 24) 0xFF = 0) usb_embedded_cursor_pixels.
Proof. apply (bool_decide_unpack _). by vm_compute. Qed.

(** No pixel of the image has an opacity, so drawing the cursor draws nothing. *)
Lemma usb_cursor_never_drawn {W} `{!Screen W} (s : usb_mouse W) :
  usb_mouse_cursor_image s = Some usb_embedded_cursor → wp usb_mouse_draw_cursor (λ _ s', s' = s) s.
Proof.
  intros Hi. apply wp_bind, wp_get. destruct (_ =? 0); [by apply wp_ret|]. rewrite Hi.
  apply (wp_for_to (λ _ s', s' = s)); [done|done|]. intros y ? Hy ->.
  apply (wp_for_to (λ _ s', s' = s)); [done|done|]. intros x ? Hx ->.
  cbn [usb_embedded_cursor ci_height ci_width] in Hx, Hy.
  apply wp_bind, wp_get. cbv zeta. destruct (_ && _); [|by apply wp_ret].
  assert (u32 (y * 16 + x) = y * 16 + x) as Hu by (apply Z.mod_small; lia).
  destruct (lookup_lt_is_Some_2 usb_embedded_cursor_pixels (Z.to_nat (y * 16 + x))) as [pixel Ep].
  { change (length usb_embedded_cursor_pixels) with 256%nat. lia. }
  apply wp_bind. eapply wp_of_option; [cbn [usb_embedded_cursor ci_pixels ci_width]; by rewrite Hu|].
  pose proof (Forall_lookup_1 _ _ _ _ embedded_transparent Ep) as Hp. cbv beta in Hp. rewrite Hp. by apply wp_ret.
Qed.

(** ** A desk with both *)

Record usb_desk := mk_usb_desk { ud_keys : list Z; ud_points : list (Z * Z) }.
Definition desk_key (cb c : Z) : M usb_desk unit := modify (λ d, mk_usb_desk (ud_keys d ++ [c]) (ud_points d)).
Definition desk_move (cb x y b : Z) : M usb_desk unit := modify (λ d, mk_usb_desk (ud_keys d) (ud_points d ++ [(x, y)])).
#[local] Instance usb_desk_screen : Screen usb_desk := {|
  sc_width _ := 640; sc_height _ := 480; sc_putpixel _ _ _ := mret tt; sc_getpixel _ _ := mret 0;
|}.
#[local] Instance usb_desk_keys : KeyLog usb_desk desk_key.
Proof. refine {| heard := ud_keys |}. eauto. Defined.
#[local] Instance usb_desk_points : PointerLog usb_desk desk_move.
Proof. refine {| told := ud_points |}. eauto 10. Defined.
Definition desk_keyboard : usb_keyboard usb_desk := mk_usb_keyboard 7 1 (replicate 6 0) 0 (mk_usb_desk [] []).
Definition desk_mouse : usb_mouse usb_desk :=
  mk_usb_mouse (Some usb_embedded_cursor) (mk_usb_pointer 320 240 32000 24000) 0 1 0 0 7 0 (mk_usb_desk [] []).

Definition desk_strokes : list (list usb_kb_report_t) :=
  (λ mk, [key_report mk.1 mk.2; key_report 0 0]) <$> [(2, 0x0B); (0, 0x0C); (2, 0x1E); (0, 0x28)].
Lemma usb_keyboard_types_text_witness :
  wp (handle_reports desk_key (concat desk_strokes)) (λ _ s',
    heard (uk_world s') = heard (uk_world desk_keyboard) ++ chars "Hi!" ++ [10] ∧
    prev_keys s' = replicate 6 0) desk_keyboard.
Proof.
  apply (usb_keyboard_types_text desk_key 0x02 (chars "Hi!" ++ [10]) desk_strokes desk_keyboard);
    [by left|apply (bool_decide_unpack _); by vm_compute|by vm_compute|done|done].
Defined.

Definition desk_reports : list (list Z) := [[1; 5; 0xFB; 0]; [0; 100; 0; 0]; [0; 0x88; 0x13; 0; 0]].
Example desk_path : path_of_pointer 640 480 (320, 240) desk_reports = [(325, 235); (525, 235); (623, 235)].
Proof. by vm_compute. Qed.
Lemma usb_mouse_follows_witness :
  wp (mouse_reports desk_move desk_reports) (λ _ s',
    told (um_world s') = told (um_world desk_mouse) ++ path_of_pointer 640 480 (320, 240) desk_reports ∧
    Forall (inside 640 480) (path_of_pointer 640 480 (320, 240) desk_reports) ∧
    pointing 640 480 (default (320, 240) (list.last (path_of_pointer 640 480 (320, 240) desk_reports))) s') desk_mouse.
Proof.
  apply (usb_mouse_follows desk_move 640 480 ltac:(lia) ltac:(lia) desk_reports (320, 240) desk_mouse).
  - apply (bool_decide_unpack _). by vm_compute.
  - unfold inside. cbn. lia.
  - by split_and!.
Defined.

(** Every printable character is on the keyboard. *)
Example all_on_keyboard : forallb (λ c, bool_decide (is_Some (usb_stroke 0x02 c))) (seqZ 32 95) = true.
Proof. by vm_compute. Qed.
(** The closing parenthesis is on the key of the 0, which shift does not change. *)
Example no_closing_parenthesis : reports_typed (replicate 6 0) <$> usb_stroke 0x02 41 = Some (chars "0").
Proof. by vm_compute. Qed.
(** A key that is held is typed again when one before it goes up, since the keyboard moves it
    to another place of the report. *)
Example held_key_repeats : reports_typed (replicate 6 0) [mk_report 0 [4; 5; 0; 0; 0; 0]; mk_report 0 [5; 0; 0; 0; 0; 0]] = chars "abb".
Proof. by vm_compute. Qed.
(** The shortest reports of a mouse have three bytes, and are ignored. *)
Example short_report : usb_mouse_interrupt_handler desk_move [1; 5; 5] 3 desk_mouse = Done tt (um_count desk_mouse).
Proof. by vm_compute. Qed.
