(* ===== verification/Acpi.v ===== *)
(** * The firmware's tables, [core/kernel/cpu/acpi.c] and [mp.c]

    The tables lie in memory; what the boot loader answers, where the root of the tables is,
    which memory there is and by how much physical addresses are shifted, is the record
    [boot_info].  The lists of processors are only printed: here they are what is returned. *)

From Stdlib Require Import ZArith Lia String.
From stdpp Require Import base gmap list numbers.
From S2P Require Import Prelude Memory PhysMem.
Open Scope Z_scope.
Set Default Goal Selector "!".

Definition SIZEOF_ACPI_HEADER : Z := 36.
Definition SIZEOF_MADT : Z := 44.
Definition MADT_TYPE_LOCAL_APIC : Z := 0.
Definition SIZEOF_MP_CONFIG : Z := 44.
Definition SIZEOF_MP_PROCESSOR : Z := 20.
Definition MP_ENTRY_PROCESSOR : Z := 0.

Record boot_info := mk_boot_info {
  bi_rsdp : Z;                              (** [rsdp_request.response->address], 0 without an answer *)
  bi_memmap : option (list memmap_entry);   (** [memmap_request.response] *)
  bi_hhdm : Z;                              (** [hhdm_request.response->offset] *)
}.

(** ** Reading memory *)

Definition load_le (n : nat) (a : Z) : M mem Z := bs ← load_bytes n a; mret (le_combine bs).
(** [memcmp(p, text, length)] is 0: nothing is read behind the first byte that differs. *)
Fixpoint same_bytes (p : Z) (text : list Z) : M mem bool :=
  match text with
  | [] => mret true
  | c :: text' => b ← load8 p; if b =? c then same_bytes (p + 1) text' else mret false
  end.
Fixpoint checksum_from (n : nat) (p sum : Z) : M mem Z :=
  match n with
  | O => mret sum
  | S n' => b ← load8 p; checksum_from n' (p + 1) (u8 (sum + b))
  end.
Definition acpi_checksum (p len : Z) : M mem Z := checksum_from (Z.to_nat len) p 0.
Definition mp_checksum (p len : Z) : M mem Z := checksum_from (Z.to_nat len) p 0.

(** An address lies in memory that may be used. *)
Definition in_usable (i : boot_info) (a : Z) : bool :=
  match bi_memmap i with
  | None => false
  | Some mpr => existsb (λ e, is_usable e && (base_ e <=? a) && (a <? u64 (base_ e + length_ e))) mpr
  end.

(** ** ACPI *)

Record acpi := mk_acpi { rsdp : Z; madt : Z; a_mem : mem }.
Definition on_mem {A} (m : M mem A) : M acpi A := zoom a_mem (λ w s, mk_acpi (rsdp s) (madt s) w) m.

Definition rsdp_revision (p : Z) : M mem Z := load8 (p + 15).
Definition rsdp_rsdt_address (p : Z) : M mem Z := load_le 4 (p + 16).
Definition rsdp_length (p : Z) : M mem Z := load_le 4 (p + 20).
Definition rsdp_xsdt_address (p : Z) : M mem Z := load_le 8 (p + 24).
Definition header_length (p : Z) : M mem Z := load_le 4 (p + 4).

(** [for (u32 i = 0; i < entry_count; i++)]: the pointers [sdt[i+1]], of [w] bytes each. *)
Fixpoint search_entries (n : nat) (w : nat) (sdt : Z) (i : Z) (signature : str) : M mem (option Z) :=
  match n with
  | O => mret None
  | S n' =>
      table ← load_le w (sdt + Z.of_nat w * (i + 1));
      same ← same_bytes table signature;
      if (same : bool) then
        len ← header_length table;
        sum ← acpi_checksum table len;
        if sum =? 0 then mret (Some table) else search_entries n' w sdt (i + 1) signature
      else search_entries n' w sdt (i + 1) signature
  end.
(** The root table with pointers of [w] bytes at a physical address. *)
Definition search_sdt (i : boot_info) (w : nat) (address : Z) (signature : str) : M mem (option Z) :=
  if in_usable i address then
    let sdt := u64 (address + bi_hhdm i) in
    len ← header_length sdt;
    search_entries (Z.to_nat (u32 (u64 (len - SIZEOF_ACPI_HEADER) / Z.of_nat w))) w sdt 0 signature
  else mret None.
Definition acpi_find_table (i : boot_info) (rsdp : Z) (signature : str) : M mem Z :=
  if rsdp =? NULL then mret NULL else
  revision ← rsdp_revision rsdp;
  xsdt ← (if 2 <=? revision then rsdp_xsdt_address rsdp else mret 0);
  found ← (if truthy xsdt then search_sdt i 8 xsdt signature else mret None);
  match found with
  | Some table => mret table
  | None =>
      rsdt ← rsdp_rsdt_address rsdp;
      if truthy rsdt then found ← search_sdt i 4 rsdt signature; mret (default NULL found) else mret NULL
  end.

Definition RSD_PTR : str := chars "RSD PTR ".
Definition acpi_init (i : boot_info) : M acpi Z :=
  if bi_rsdp i =? NULL then mret (-1) else
  if negb (in_usable i (bi_rsdp i)) then mret (-1) else
  let p := u64 (bi_rsdp i + bi_hhdm i) in
  modify (λ s, mk_acpi p (madt s) (a_mem s));;
  same ← on_mem (same_bytes p RSD_PTR);
  if negb same then mret (-1) else
  sum ← on_mem (acpi_checksum p 20);
  if negb (sum =? 0) then mret (-1) else
  revision ← on_mem (rsdp_revision p);
  sum ← (if 2 <=? revision then len ← on_mem (rsdp_length p); on_mem (acpi_checksum p len) else mret 0);
  if negb (sum =? 0) then mret (-1) else mret 0.

Definition acpi_get_madt (i : boot_info) : M acpi Z :=
  s ← get;
  if madt s =? NULL then
    p ← on_mem (acpi_find_table i (rsdp s) (chars "APIC"));
    modify (λ s, mk_acpi (rsdp s) p (a_mem s));; mret p
  else mret (madt s).

(** One entry: a processor that is enabled is listed. *)
Definition madt_step (madt_end : Z) (l : Z * list (Z * Z)) : M mem (Z * list (Z * Z) + list (Z * Z)) :=
  let '(p, cpus) := l in
  if p <? madt_end then
    type ← load8 p;
    cpus ← (if type =? MADT_TYPE_LOCAL_APIC then
              flags ← load_le 4 (p + 4);
              if truthy (Z.land flags 1) then
                processor_id ← load8 (p + 2); apic_id ← load8 (p + 3); mret (cpus ++ [(processor_id, apic_id)])
              else mret cpus
            else mret cpus);
    len ← load8 (p + 1);
    mret (inl (p + len, cpus))
  else mret (inr cpus).
Definition madt_cpus (fuel : nat) (madt : Z) : M mem (list (Z * Z)) :=
  len ← header_length madt;
  iterM fuel (madt_step (madt + len)) (madt + SIZEOF_MADT, []).
Definition acpi_parse_madt_cpus (i : boot_info) (fuel : nat) : M acpi (list (Z * Z)) :=
  madt ← acpi_get_madt i;
  if madt =? NULL then mret [] else on_mem (madt_cpus fuel madt).

(** ** The tables of the MP specification *)

Record mp := mk_mp { mp_fp : Z; mp_config : Z; p_mem : mem }.
Definition mp_on_mem {A} (m : M mem A) : M mp A := zoom p_mem (λ w s, mk_mp (mp_fp s) (mp_config s) w) m.

Definition MP_SIGNATURE : str := chars "_MP_".
(** [for (u32 addr = ...; addr < end; addr += 16)] *)
Fixpoint mp_search (n : nat) (addr : Z) : M mem (option Z) :=
  match n with
  | O => mret None
  | S n' =>
      same ← same_bytes addr MP_SIGNATURE;
      if (same : bool) then
        len ← load8 (addr + 8);
        sum ← mp_checksum addr (len * 16);
        if sum =? 0 then mret (Some addr) else mp_search n' (addr + 16)
      else mp_search n' (addr + 16)
  end.
Definition mp_find_floating_pointer : M mem Z :=
  ebda_segment ← load_le 2 0x40E;
  found ← mp_search 64 (Z.shiftl ebda_segment 4);
  match found with
  | Some fp => mret fp
  | None => found ← mp_search 4096 0xF0000; mret (default NULL found)
  end.
Definition mp_init (i : boot_info) : M mp Z :=
  fp ← mp_on_mem mp_find_floating_pointer;
  modify (λ s, mk_mp fp (mp_config s) (p_mem s));;
  if fp =? NULL then mret (-1) else
  table ← mp_on_mem (load_le 4 (fp + 4));
  if table =? 0 then mret (-1) else
  if negb (in_usable i table) then mret (-1) else
  let config := u64 (table + bi_hhdm i) in
  modify (λ s, mk_mp (mp_fp s) config (p_mem s));;
  same ← mp_on_mem (same_bytes config (chars "PCMP"));
  if negb same then mret (-1) else
  len ← mp_on_mem (load_le 2 (config + 4));
  sum ← mp_on_mem (mp_checksum config len);
  if negb (sum =? 0) then mret (-1) else mret 0.

Definition mp_step (table_end : Z) (l : Z * list Z) : M mem (Z * list Z + list Z) :=
  let '(p, cpus) := l in
  if p <? table_end then
    type ← load8 p;
    if type =? MP_ENTRY_PROCESSOR then
      cpu_flags ← load8 (p + 3);
      cpus ← (if truthy (Z.land cpu_flags 1) then id ← load8 (p + 1); mret (cpus ++ [id]) else mret cpus);
      mret (inl (p + SIZEOF_MP_PROCESSOR, cpus))
    else mret (inl (p + 8, cpus))
  else mret (inr cpus).
Definition mp_parse_cpus (fuel : nat) : M mp (list Z) :=
  s ← get;
  if mp_config s =? NULL then mret [] else
  len ← mp_on_mem (load_le 2 (mp_config s + 4));
  mp_on_mem (iterM fuel (mp_step (mp_config s + len)) (mp_config s + SIZEOF_MP_CONFIG, [])).

(** ** What reading memory gives *)

Definition sum_bytes (bs : list Z) : Z := foldr Z.add 0 bs.

Lemma load_le_run (n : nat) p bs m : bytes_at p bs m → length bs = n → load_le n p m = Done (le_combine bs) m.
Proof. intros H <-. unfold load_le. mred. by rewrite (load_bytes_run p bs m H). Qed.

Lemma load_le_split (n : nat) p v m : bytes_at p (le_split n v) m → 0 ≤ v < 2 ^ (8 * Z.of_nat n) → load_le n p m = Done v m.
Proof.
  intros H Hv. rewrite (load_le_run n p _ m H) by apply length_le_split.
  by rewrite le_combine_split, Z.mod_small.
Qed.

Lemma same_bytes_run p text bs m : bytes_at p bs m → (length text ≤ length bs)%nat →
  same_bytes p text m = Done (bool_decide (take (length text) bs = text)) m.
Proof.
  revert p bs. induction text as [|c text IH]; intros p bs Hb Hl; [done|].
  destruct bs as [|b bs]; [cbn in Hl; lia|]. apply bytes_at_cons in Hb as [Hb Hbs].
  cbn [same_bytes length take]. mrun (load8_run _ _ _ Hb). destruct (Z.eqb_spec b c) as [->|Hne].
  - rewrite (IH (p + 1) bs Hbs) by (cbn in Hl; lia). f_equal. apply bool_decide_ext.
    split; [by intros ->|by intros [= ->]].
  - unfold mret, M_ret. f_equal. symmetry. apply bool_decide_eq_false. congruence.
Qed.

Lemma checksum_from_run bs p sum m : bytes_at p bs m → 0 ≤ sum < 2 ^ 8 →
  checksum_from (length bs) p sum m = Done (u8 (sum + sum_bytes bs)) m.
Proof.
  revert p sum. induction bs as [|b bs IH]; intros p sum Hb Hs; cbn [checksum_from length sum_bytes foldr].
  { unfold u8. by rewrite Z.add_0_r, Z.mod_small. }
  apply bytes_at_cons in Hb as [Hb Hbs]. mrun (load8_run _ _ _ Hb). rewrite IH; [|done|apply u8_range].
  f_equal. fold (sum_bytes bs). unfold u8. rewrite Zplus_mod_idemp_l. f_equal. lia.
Qed.

Lemma acpi_checksum_run bs p m : bytes_at p bs m →
  acpi_checksum p (Z.of_nat (length bs)) m = Done (u8 (sum_bytes bs)) m.
Proof. intros H. unfold acpi_checksum. rewrite Nat2Z.id. by apply checksum_from_run. Qed.

(** ** The search of a root table *)

(** A table with its length in its header. *)
Definition table_of (p : Z) (c : list Z) (m : mem) : Prop :=
  bytes_at p c m ∧ (8 ≤ length c)%nat ∧ le_combine (take 4 (drop 4 c)) = Z.of_nat (length c).
Definition wanted (signature c : list Z) : Prop := take (length signature) c = signature ∧ u8 (sum_bytes c) = 0.
#[export] Instance wanted_dec signature c : Decision (wanted signature c).
Proof. unfold wanted. apply _. Defined.

Lemma bytes_at_slice p (c : list Z) (i n : nat) m : bytes_at p c m → (i + n ≤ length c)%nat →
  bytes_at (p + Z.of_nat i) (take n (drop i c)) m.
Proof.
  intros H Hl. rewrite <-(take_drop i c) in H. apply bytes_at_app in H as [_ H].
  rewrite length_take, Nat.min_l in H by lia. rewrite <-(take_drop n (drop i c)) in H. by apply bytes_at_app in H as [H _].
Qed.

Lemma header_length_run p c m : table_of p c m → header_length p m = Done (Z.of_nat (length c)) m.
Proof.
  intros (Hb & Hl & Hc). unfold header_length. rewrite <-Hc. apply load_le_run.
  - by apply (bytes_at_slice p c 4 4).
  - rewrite length_take, length_drop. lia.
Qed.

(** The first of the tables that the words [sdt[1]], [sdt[2]], ... point at which has the
    signature and a checksum of 0. *)
Lemma search_entries_run (w : nat) (sdt : Z) (signature : str) (tabs : list (Z * list Z)) (i : Z) (m : mem) :
  (length signature ≤ 8)%nat →
  (∀ (k : nat) p c, tabs !! k = Some (p, c) →
     load_le w (sdt + Z.of_nat w * (i + 1 + Z.of_nat k)) m = Done p m ∧ table_of p c m) →
  search_entries (length tabs) w sdt i signature m = Done (fst <$> list.head (filter (λ t, wanted signature t.2) tabs)) m.
Proof.
  intros Hs. revert i. induction tabs as [|[p c] tabs IH]; intros i Ht; [done|].
  destruct (Ht 0%nat p c eq_refl) as [Hp Hc]. rewrite Z.add_0_r in Hp.
  assert (search_entries (length tabs) w sdt (i + 1) signature m =
    Done (fst <$> list.head (filter (λ t, wanted signature t.2) tabs)) m) as Hrest.
  { apply IH. intros k p' c' Hk. 
    replace (i + 1 + 1 + Z.of_nat k) with (i + 1 + Z.of_nat (Datatypes.S k)) by lia.
    by apply (Ht (Datatypes.S k)). }
  cbn [search_entries length]. mrun Hp. rewrite filter_cons. cbn [snd].
  mrun (same_bytes_run p signature c m (proj1 Hc) ltac:(destruct Hc; lia)).
  destruct (bool_decide_reflect (take (length signature) c = signature)) as [E|E].
  - mrun (header_length_run p c m Hc). mrun (acpi_checksum_run c p m (proj1 Hc)).
    destruct (Z.eqb_spec (u8 (sum_bytes c)) 0) as [E0|E0].
    + by rewrite decide_True.
    + rewrite decide_False by (by intros [_ ?]). exact Hrest.
  - rewrite decide_False by (by intros [? _]). exact Hrest.
Qed.

(** A walk over entries that have their own lengths, each of which adds to a list. *)
Section walk.
  Context {E A : Type} (step : Z → Z * list A → M mem (Z * list A + list A)).
  Context (bytes : E → list Z) (adds : E → list A) (ok : E → Prop).
  Context (Hstep : ∀ e p table_end l m, ok e → bytes_at p (bytes e) m → p < table_end →
    step table_end (p, l) m = Done (inl (p + Z.of_nat (length (bytes e)), l ++ adds e)) m).
  Context (Hend : ∀ p l m, step p (p, l) m = Done (inr l) m).
  Context (Hpos : ∀ e, ok e → (0 < length (bytes e))%nat).

Lemma walk_run es p l m fuel : Forall ok es → bytes_at p (concat (bytes <$> es)) m → (length es < fuel)%nat →
  iterM fuel (step (p + Z.of_nat (length (concat (bytes <$> es))))) (p, l) m = Done (l ++ concat (adds <$> es)) m.
Proof.
  revert p l fuel. induction es as [|e es IH]; intros p l fuel Hes Hb Hf; (destruct fuel as [|fuel]; [lia|]); cbn [iterM].
  - rewrite Z.add_0_r. mrun Hend. by rewrite app_nil_r.
  - apply Forall_cons_1 in Hes as [He Hes]. cbn [fmap list_fmap concat] in *. apply bytes_at_app in Hb as [Hb Hbs].
    rewrite length_app, Nat2Z.inj_add, Z.add_assoc. pose proof (Hpos e He).
    mrun (Hstep e p (p + Z.of_nat (length (bytes e)) + Z.of_nat (length (concat (bytes <$> es)))) l m He Hb ltac:(lia)).
    rewrite IH by (done || (cbn in Hf; lia)). by rewrite <-app_assoc.
Qed.
End walk.

(** ** The processors of the table *)

(** An entry for a processor, or another one. *)
Inductive madt_entry := LocalApic (processor_id apic_id flags : Z) | OtherEntry (type : Z) (body : list Z).
Definition entry_bytes (e : madt_entry) : list Z :=
  match e with
  | LocalApic p a f => [MADT_TYPE_LOCAL_APIC; 8; p; a] ++ le_split 4 f
  | OtherEntry t body => t :: (2 + Z.of_nat (length body)) :: body
  end.
Definition entry_ok (e : madt_entry) : Prop :=
  match e with LocalApic _ _ f => 0 ≤ f < 2 ^ 32 | OtherEntry t _ => t ≠ MADT_TYPE_LOCAL_APIC end.
(** The processors that are enabled. *)
Definition entry_cpus (e : madt_entry) : list (Z * Z) :=
  match e with LocalApic p a f => if truthy (Z.land f 1) then [(p, a)] else [] | OtherEntry _ _ => [] end.

Lemma madt_step_run e p madt_end cpus m : entry_ok e → bytes_at p (entry_bytes e) m → p < madt_end →
  madt_step madt_end (p, cpus) m = Done (inl (p + Z.of_nat (length (entry_bytes e)), cpus ++ entry_cpus e)) m.
Proof.
  intros He Hb Hp. unfold madt_step. rewrite (proj2 (Z.ltb_lt _ _) Hp). destruct e as [pid aid f|t body]; cbn [entry_bytes entry_cpus] in *.
  - apply bytes_at_app in Hb as [Hb Hf]. cbn [length] in Hf. change (Z.of_nat 4) with 4 in Hf.
    pose proof (load_le_split 4 _ f m Hf He) as Hload.
    repeat (apply bytes_at_cons in Hb as [?%load8_run Hb]). 
    replace (p + 1 + 1) with (p + 2) in * by lia. replace (p + 2 + 1) with (p + 3) in * by lia.
    mrun H. rewrite Z.eqb_refl. mrun Hload. destruct (truthy (Z.land f 1)).
    + mrun H1. mrun H2. mrun H0. by rewrite length_app, length_le_split.
    + mrun H0. by rewrite length_app, length_le_split, app_nil_r.
  - repeat (apply bytes_at_cons in Hb as [?%load8_run Hb]). mrun H. rewrite (proj2 (Z.eqb_neq t _) He).
    mrun H0. rewrite app_nil_r. cbn [length]. do 3 f_equal. lia.
Qed.

(** C28: the processors of the interrupt controller table.  For a table whose entries have
    their lengths in them, walking it ends after as many steps as there are entries, reads
    nothing outside it, and lists the enabled processors, all of them and in order. *)
Theorem madt_cpus_listed (head : list Z) (es : list madt_entry) (p : Z) (m : mem) (fuel : nat)
    (Hes : Forall entry_ok es) (Hh : length head = 44%nat)
    (Ht : table_of p (head ++ concat (entry_bytes <$> es)) m) (Hf : (length es < fuel)%nat) :
  madt_cpus fuel p m = Done (concat (entry_cpus <$> es)) m.
Proof.
  unfold madt_cpus. mrun (header_length_run _ _ _ Ht). destruct Ht as (Hb & _ & _).
  apply bytes_at_app in Hb as [_ Hb]. rewrite Hh in Hb. rewrite length_app, Hh, Nat2Z.inj_add, Z.add_assoc.
  apply (walk_run madt_step entry_bytes entry_cpus entry_ok madt_step_run); try done.
  - intros q l m'. unfold madt_step. by rewrite Z.ltb_irrefl.
  - intros [] _; cbn; lia.
Qed.

(** An entry of length 0 stops the walk for ever. *)
Lemma zero_entry_loops t p madt_end cpus m fuel : t ≠ MADT_TYPE_LOCAL_APIC → bytes_at p [t; 0] m → p < madt_end →
  iterM fuel (madt_step madt_end) (p, cpus) m = Stuck NoFuel.
Proof.
  intros Ht Hb Hp. repeat (apply bytes_at_cons in Hb as [?%load8_run Hb]).
  assert (madt_step madt_end (p, cpus) m = Done (inl (p, cpus)) m) as Hstep.
  { unfold madt_step. rewrite (proj2 (Z.ltb_lt _ _) Hp). mrun H. rewrite (proj2 (Z.eqb_neq t _) Ht). mrun H0.
    by rewrite Z.add_0_r. }
  induction fuel as [|fuel IH]; [done|]. cbn [iterM]. by mrun Hstep.
Qed.

(** ** The search for the floating pointer *)

(** At the start of the bytes there is a floating pointer, of a length in paragraphs. *)
Definition floating (bs : list Z) : Prop :=
  take 4 bs = MP_SIGNATURE ∧ u8 (sum_bytes (take (Z.to_nat (default 0 (bs !! 8%nat) * 16)) bs)) = 0.
#[export] Instance floating_dec bs : Decision (floating bs).
Proof. unfold floating. apply _. Defined.
(** What is needed to look at the bytes: a floating pointer is there as a whole. *)
Definition readable (bs : list Z) : Prop :=
  (4 ≤ length bs)%nat ∧
  (take 4 bs = MP_SIGNATURE → is_Some (bs !! 8%nat) ∧ 0 ≤ default 0 (bs !! 8%nat) * 16 ≤ Z.of_nat (length bs)).
#[export] Instance readable_dec bs : Decision (readable bs).
Proof. unfold readable. apply _. Defined.

Lemma mp_search_step n bs addr m : readable bs → bytes_at addr bs m →
  mp_search (Datatypes.S n) addr m = if bool_decide (floating bs) then Done (Some addr) m else mp_search n (addr + 16) m.
Proof.
  intros [Hl Hr] Hb. cbn [mp_search]. mrun (same_bytes_run addr MP_SIGNATURE bs m Hb Hl).
  change (length MP_SIGNATURE) with 4%nat.
  destruct (bool_decide_reflect (take 4 bs = MP_SIGNATURE)) as [E|E].
  - destruct (Hr E) as ([len H8] & Hle). rewrite H8 in Hle. change (default 0 (Some len)) with len in Hle. 
    assert (load8 (addr + 8) m = Done len m) as H8' by exact (load8_run _ _ _ (Hb 8%nat _ H8)). mrun H8'.
    assert (mp_checksum addr (len * 16) m = Done (u8 (sum_bytes (take (Z.to_nat (len * 16)) bs))) m) as Hsum.
    { unfold mp_checksum. rewrite <-(take_drop (Z.to_nat (len * 16)) bs) in Hb. apply bytes_at_app in Hb as [Hb _].
      pose proof (checksum_from_run _ addr 0 m Hb ltac:(lia)) as H.
      rewrite length_take, Nat.min_l in H by lia. exact H. }
    mrun Hsum. destruct (Z.eqb_spec (u8 (sum_bytes (take (Z.to_nat (len * 16)) bs))) 0) as [E0|E0].
    + rewrite bool_decide_eq_true_2; [done|]. split; [done|]. by rewrite H8.
    + rewrite bool_decide_eq_false_2; [done|]. intros [_ H]. rewrite H8 in H. done.
  - rewrite bool_decide_eq_false_2; [done|]. by intros [? _].
Qed.

(** The search for the floating pointer.  Among the [n] paragraphs from an address the
    first that starts a floating pointer with the checksum 0 is found; when none does, none is. *)
Theorem mp_search_first (n : nat) (bs : list Z) (addr : Z) (m : mem) (Hb : bytes_at addr bs m)
    (Hr : ∀ k, (k < n)%nat → readable (drop (16 * k) bs)) :
  match mp_search n addr m with
  | Done (Some a) m' => m' = m ∧ ∃ k, (k < n)%nat ∧ a = addr + 16 * Z.of_nat k ∧ floating (drop (16 * k) bs) ∧
      ∀ j, (j < k)%nat → ¬ floating (drop (16 * j) bs)
  | Done None m' => m' = m ∧ ∀ j, (j < n)%nat → ¬ floating (drop (16 * j) bs)
  | Stuck _ => False
  end.
Proof.
  revert bs addr Hb Hr. induction n as [|n IH]; intros bs addr Hb Hr; [split; [done|lia]|].
  rewrite (mp_search_step n bs addr m (Hr 0%nat ltac:(lia)) Hb).
  destruct (bool_decide_reflect (floating bs)) as [E|E].
  - split; [done|]. exists 0%nat. split_and!; [lia|lia|done|lia].
  - destruct (decide (16 ≤ length bs)%nat) as [Hl|Hl].
    + rewrite <-(take_drop 16 bs) in Hb. apply bytes_at_app in Hb as [_ Hb].
      rewrite length_take, Nat.min_l in Hb by lia. change (Z.of_nat 16) with 16 in Hb.
      assert (∀ k, drop (16 * k) (drop 16 bs) = drop (16 * Datatypes.S k) bs) as Hd by (intros k; rewrite drop_drop; f_equal; lia).
      assert (∀ j, (j < n)%nat → readable (drop (16 * j) (drop 16 bs))) as Hr' by (intros j Hj; rewrite Hd; apply Hr; lia).
      specialize (IH (drop 16 bs) (addr + 16) Hb Hr').
      destruct (mp_search n (addr + 16) m) as [[a|] m'|]; [|  |done].
      * destruct IH as [-> (k & Hk & -> & Hfl & Hmin)]. split; [done|]. exists (Datatypes.S k). rewrite <-Hd.
        split_and!; [lia|lia|done|]. intros [|j] Hj; [done|]. rewrite <-Hd. apply Hmin. lia.
      * destruct IH as [-> Hnone]. split; [done|]. intros [|j] Hj; [done|]. rewrite <-Hd. apply Hnone. lia.
    + destruct n as [|n].
      * split; [done|]. intros [|j] Hj; [done|lia].
      * exfalso. destruct (Hr 1%nat ltac:(lia)) as [H _]. rewrite length_drop in H. lia.
Qed.

(** ** The processors of the MP table *)

Inductive mp_entry := MpProcessor (apic_id version cpu_flags : Z) (body : list Z) | MpOther (type : Z) (body : list Z).
Definition mp_entry_bytes (e : mp_entry) : list Z :=
  match e with
  | MpProcessor a v f body => [MP_ENTRY_PROCESSOR; a; v; f] ++ body
  | MpOther t body => t :: body
  end.
Definition mp_entry_ok (e : mp_entry) : Prop :=
  match e with MpProcessor _ _ _ body => length body = 16%nat | MpOther t body => t ≠ MP_ENTRY_PROCESSOR ∧ length body = 7%nat end.
Definition mp_entry_cpus (e : mp_entry) : list Z :=
  match e with MpProcessor a _ f _ => if truthy (Z.land f 1) then [a] else [] | MpOther _ _ => [] end.

Lemma mp_step_run e p table_end cpus m : mp_entry_ok e → bytes_at p (mp_entry_bytes e) m → p < table_end →
  mp_step table_end (p, cpus) m = Done (inl (p + Z.of_nat (length (mp_entry_bytes e)), cpus ++ mp_entry_cpus e)) m.
Proof.
  intros He Hb Hp. unfold mp_step. rewrite (proj2 (Z.ltb_lt _ _) Hp).
  destruct e as [a v f body|t body]; cbn [mp_entry_bytes mp_entry_cpus mp_entry_ok] in *.
  - assert (load8 p m = Done MP_ENTRY_PROCESSOR m) as L0.
    { apply load8_run. rewrite <-(Z.add_0_r p). by apply (Hb 0%nat). }
    pose proof (load8_run _ _ _ (Hb 1%nat a eq_refl)) as L1. pose proof (load8_run _ _ _ (Hb 3%nat f eq_refl)) as L3.
    change (Z.of_nat 1) with 1 in L1. change (Z.of_nat 3) with 3 in L3.
    mrun L0. rewrite Z.eqb_refl. mrun L3. rewrite length_app, He.
    destruct (truthy (Z.land f 1)); [by mrun L1|]. mred. by rewrite app_nil_r.
  - destruct He as [Ht Hl]. apply bytes_at_cons in Hb as [?%load8_run _]. mrun H.
    rewrite (proj2 (Z.eqb_neq t _) Ht). rewrite app_nil_r. cbn [length]. by rewrite Hl.
Qed.

(** The processors of the MP table.  Walking a table of well-formed entries lists the
    enabled processors, all of them and in order, and ends. *)
Theorem mp_cpus_listed (head : list Z) (es : list mp_entry) (s : mp) (fuel : nat)
    (Hes : Forall mp_entry_ok es) (Hh : length head = 44%nat) (Hp : mp_config s ≠ NULL)
    (Hb : bytes_at (mp_config s) (head ++ concat (mp_entry_bytes <$> es)) (p_mem s))
    (Hl : le_combine (take 2 (drop 4 head)) = Z.of_nat (length (head ++ concat (mp_entry_bytes <$> es))))
    (Hf : (length es < fuel)%nat) :
  mp_parse_cpus fuel s = Done (concat (mp_entry_cpus <$> es)) s.
Proof.
  destruct s as [fp config m]. cbn [mp_config p_mem] in *. unfold mp_parse_cpus, get. mred. cbn [mp_config].
  rewrite (proj2 (Z.eqb_neq config _) Hp).
  assert (load_le 2 (config + 4) m = Done (Z.of_nat (length (head ++ concat (mp_entry_bytes <$> es)))) m) as Hload.
  { rewrite <-Hl. apply load_le_run.
    - apply bytes_at_app in Hb as [Hb _]. apply (bytes_at_slice config head 4 2 m Hb). lia.
    - rewrite length_take, length_drop. lia. }
  unfold mp_on_mem at 1, zoom. cbn [p_mem]. rewrite Hload. unfold mp_on_mem, zoom. cbn [p_mem mp_fp mp_config].
  apply bytes_at_app in Hb as [_ Hb]. rewrite Hh in Hb. rewrite length_app, Hh, Nat2Z.inj_add, Z.add_assoc.
  change (config + Z.of_nat 44) with (config + SIZEOF_MP_CONFIG) in *.
  rewrite (walk_run mp_step mp_entry_bytes mp_entry_cpus mp_entry_ok mp_step_run); try done.
  - intros q l m'. unfold mp_step. by rewrite Z.ltb_irrefl.
  - intros [] _; cbn; lia.
Qed.

(** ** Tables in memory *)

(** A table of a signature and a length, with the checksum that makes the sum 0. *)
Definition demo_table (signature : str) (size : nat) (body : list Z) : list Z :=
  let c := signature ++ le_split 4 (Z.of_nat size) ++ [1; 0] ++ replicate 26 32 ++ body in
  <[9%nat := u8 (- sum_bytes c)]> c.
Definition demo_madt : list Z :=
  demo_table (chars "APIC") 60 (replicate 8 0 ++ entry_bytes (LocalApic 0 5 1) ++ entry_bytes (LocalApic 1 6 0)).
Definition demo_entries : list madt_entry := [LocalApic 0 5 1; OtherEntry 1 [1; 2; 3; 4]; LocalApic 1 6 0; LocalApic 2 7 1].
Definition demo_head : list Z := chars "APIC" ++ le_split 4 74 ++ replicate 36 0.
Lemma madt_cpus_listed_witness :
  madt_cpus 10 0x5000 (mem_write 0x5000 (demo_head ++ concat (entry_bytes <$> demo_entries)) ∅) = Done [(0, 5); (2, 7)] (mem_write 0x5000 (demo_head ++ concat (entry_bytes <$> demo_entries)) ∅).
Proof.
  apply (madt_cpus_listed demo_head demo_entries).
  - repeat apply Forall_cons_2; cbn; [lia|done|lia|lia|by apply Forall_nil_2].
  - done.
  - split; [apply bytes_at_write|]. split; [cbn; lia|by vm_compute].
  - cbn. lia.
Defined.

Definition demo_floating : list Z := replicate 32 0 ++ MP_SIGNATURE ++ [0; 0x40; 0; 0; 1; 4; u8 (- (sum_bytes MP_SIGNATURE + 0x45)); 0; 0; 0; 0; 0] ++ replicate 16 0.
Lemma mp_search_first_witness :
  mp_search 4 0xF0000 (mem_write 0xF0000 demo_floating ∅) = Done (Some 0xF0020) (mem_write 0xF0000 demo_floating ∅).
Proof.
  pose proof (mp_search_first 4 demo_floating 0xF0000 (mem_write 0xF0000 demo_floating ∅) (bytes_at_write _ _ _)) as H.
  assert (∀ k, (k < 4)%nat → readable (drop (16 * k) demo_floating)) as Hr.
  { intros k Hk. destruct k as [|[|[|[|k]]]]; [eval_decide..|lia]. }
  specialize (H Hr). destruct (mp_search 4 0xF0000 _) as [[a|] m'|]; [| |done].
  - destruct H as [-> (k & Hk & -> & Hfl & _)].
    assert (k = 2%nat) as -> by (destruct k as [|[|[|[|k]]]]; [| |done| |lia];
      exfalso; revert Hfl; apply (bool_decide_unpack (¬ _)); vm_compute; exact I). done.
  - destruct H as [_ H]. exfalso. apply (H 2%nat ltac:(lia)). apply (bool_decide_unpack _). by vm_compute.
Defined.

Definition demo_mp_entries : list mp_entry := [MpProcessor 3 20 1 (replicate 16 0); MpOther 1 (replicate 7 0); MpProcessor 4 20 0 (replicate 16 0)].
Definition demo_mp_head : list Z := chars "PCMP" ++ le_split 2 92 ++ replicate 38 0.
Lemma mp_cpus_listed_witness :
  let s := mk_mp 0xF0020 0x4000 (mem_write 0x4000 (demo_mp_head ++ concat (mp_entry_bytes <$> demo_mp_entries)) ∅) in
  mp_parse_cpus 10 s = Done [3] s.
Proof.
  apply (mp_cpus_listed demo_mp_head demo_mp_entries).
  - repeat apply Forall_cons_2; [done|done|done|by apply Forall_nil_2].
  - done.
  - done.
  - apply bytes_at_write.
  - by vm_compute.
  - cbn. lia.
Defined.

(** An entry of length 0: the walk never ends. *)
Example madt_zero_length fuel :
  iterM fuel (madt_step 0x5040) (0x5030, []) (mem_write 0x5030 [1; 0] ∅) = Stuck NoFuel.
Proof. apply (zero_entry_loops 1); [done|apply bytes_at_write|done]. Qed.

(** A table of pointers that names the interrupt controller table: the search starts at the
    second word of the header, takes the length of the table for a pointer, and reads what is there. *)
Definition demo_rsdt : list Z := demo_table (chars "RSDT") 40 (le_split 4 0x5000).
Definition demo_boot : boot_info := mk_boot_info 0x1000 (Some [mk_entry 0x1000 0x8000 MEMMAP_USABLE]) 0.
Definition demo_memory : mem := mem_write 0x5000 demo_madt (mem_write 0x2000 demo_rsdt ∅).
Example rsdt_reads_header : search_sdt demo_boot 4 0x2000 (chars "APIC") demo_memory = Stuck Fault.
Proof. by vm_compute. Qed.
(** With bytes to read at that address, the only entry is still not looked at. *)
Example rsdt_misses_entry :
  match search_sdt demo_boot 4 0x2000 (chars "APIC") (mem_write 40 (replicate 8 0) demo_memory) with Done r _ => r = None | _ => False end.
Proof. by vm_compute. Qed.
Example madt_is_good : wanted (chars "APIC") demo_madt.
Proof. eval_decide. Qed.
(** The tables of a firmware lie in memory that may not be used, and are refused. *)
Example reserved_refused :
  match acpi_init (mk_boot_info 0xE0000 (Some [mk_entry 0x1000 0x8000 MEMMAP_USABLE; mk_entry 0xE0000 0x10000 MEMMAP_OTHER]) 0)
    (mk_acpi 0 0 (mem_write 0xE0000 RSD_PTR ∅)) with Done r _ => r = -1 | _ => False end.
Proof. by vm_compute. Qed.
