(* ===== verification/FontFiles.v ===== *)
(** * The files of fonts, [common/outputs/psf.c] and [pcf.c]

    Both read a file into a static buffer and keep where in it the glyphs are.  A pointer into
    the buffer is its offset. *)

From Stdlib Require Import ZArith Lia String.
From stdpp Require Import base list numbers.
From S2P Require Import Prelude CString Buffer Font Display Console Mouse Window.
Open Scope Z_scope.
Set Default Goal Selector "!".

Record font_file (W : Type) := mk_font_file { font_buffer : list Z; ff_world : W }.
Arguments mk_font_file {W}.
Arguments font_buffer {W}.
Arguments ff_world {W}.

(** Bytes put into an array; nothing fits behind its end. *)
Definition put_bytes (off : Z) (bs a : list Z) : option (list Z) :=
  if (off + Z.of_nat (length bs) <=? Z.of_nat (length a)) then
    Some (take (Z.to_nat off) a ++ bs ++ drop (Z.to_nat off + length bs) a)
  else None.
(** [n] bytes of an array, as a number; [None] when they are not all in it. *)
Definition read_le (n : nat) (a : list Z) (off : Z) : option Z :=
  if (0 <=? off) && (off + Z.of_nat n <=? Z.of_nat (length a)) then Some (le_combine (take n (drop (Z.to_nat off) a))) else None.

Section reading.
  Context {W : Type} `{FI : !Files W}.
  Abbreviation S := (font_file W).

Definition ff_on_world {B} (m : M W B) : M S B := zoom ff_world (λ w s, mk_font_file (font_buffer s) w) m.
(** [while ((read_bytes = fs_read(fd, font_buffer + total_read, max - total_read)) > 0)], where
    [read_bytes] is unsigned. *)
Definition read_step (fd max total_read : Z) : M S (Z + Z) :=
  '(r, bs) ← ff_on_world (f_read fd (max - total_read));
  let read_bytes := u32 r in
  s ← get;
  b ← of_option (put_bytes total_read bs (font_buffer s));
  modify (λ s, mk_font_file b (ff_world s));;
  if 0 <? read_bytes then
    let total_read := u32 (total_read + read_bytes) in
    if max <=? total_read then mret (inr total_read) else mret (inl total_read)
  else mret (inr total_read).
(** The length read, or nothing when the file cannot be opened. *)
Definition read_file (fuel : nat) (name : str) (max : Z) : M S (option Z) :=
  fd ← ff_on_world (f_open name 0);
  if fd <? 0 then mret None else
  total_read ← iterM fuel (read_step fd max) 0;
  ff_on_world (f_close fd);;
  mret (Some total_read).
End reading.

(** ** PSF *)

Definition PSF_MAX_FONT_SIZE : Z := 65536.
Definition PSF1_MAGIC : Z := 0x0436.
Definition PSF2_MAGIC : Z := 0x864ab572.
Definition SIZEOF_PSF1 : Z := 4.

Record psf_font_t := mk_psf {
  psf_data : bool;      (** the buffer, or null *)
  psf_size : Z; psf_version : Z; psf_num_chars : Z; psf_char_size : Z; psf_height : Z; psf_width : Z; psf_loaded : Z;
}.
Definition psf_none : psf_font_t := mk_psf false 0 0 0 0 0 0 0.

(** What the header says, in the buffer. *)
Definition psf_header (b : list Z) (size : Z) : option (Z * psf_font_t) :=
  magic ← read_le 4 b 0;
  if magic =? PSF2_MAGIC then
    num_chars ← read_le 4 b 16; char_size ← read_le 4 b 20; height ← read_le 4 b 24; width ← read_le 4 b 28;
    Some (0, mk_psf true size 2 num_chars char_size height width 1)
  else if Z.land magic 0xFFFF =? PSF1_MAGIC then
    mode ← read_le 1 b 2; charsize ← read_le 1 b 3;
    Some (0, mk_psf true size 1 (if truthy (Z.land mode 0x01) then 512 else 256) charsize charsize 8 1)
  else Some (-1, mk_psf true size 0 0 0 0 0 0).
Definition psf_load {W} `{!Files W} (fuel : nat) (filename : str) : M (font_file W) (Z * psf_font_t) :=
  total_read ← read_file fuel filename PSF_MAX_FONT_SIZE;
  match total_read with
  | None => mret (-1, psf_none)
  | Some total_read =>
      if total_read <? SIZEOF_PSF1 then mret (-1, psf_none)
      else s ← get; of_option (psf_header (font_buffer s) total_read)
  end.
Definition psf_unload (font : psf_font_t) : psf_font_t := psf_none.
Definition psf_get_glyph_bitmap (b : list Z) (font : psf_font_t) (charcode : Z) : option (option Z) :=
  if (psf_loaded font =? 0) || (psf_num_chars font <=? charcode) then Some None else
  offset ← (if psf_version font =? 2 then
              headersize ← read_le 4 b 8; Some (u32 (headersize + u32 (charcode * psf_char_size font)))
            else Some (u32 (SIZEOF_PSF1 + u32 (charcode * psf_char_size font))));
  if psf_size font <? u32 (offset + psf_char_size font) then Some None else Some (Some offset).
Definition psf_get_glyph_width (font : psf_font_t) : Z := if psf_loaded font =? 0 then 8 else psf_width font.
Definition psf_get_glyph_height (font : psf_font_t) : Z := if psf_loaded font =? 0 then 16 else psf_height font.

(** ** PCF *)

Definition PCF_MAX_FONT_SIZE : Z := 16384.
Definition PCF_MAGIC : Z := 0x70636601.
Definition SIZEOF_PCF_HEADER : Z := 8.
Definition SIZEOF_PCF_TABLE : Z := 16.
Definition PCF_METRICS : Z := 4.
Definition PCF_BITMAPS : Z := 8.
Definition PCF_BDF_ENCODING : Z := 32.

Record pcf_font_t := mk_pcf {
  pcf_data : bool; pcf_metrics : option Z; pcf_bitmaps : option Z; pcf_encoding : option Z;
  pcf_glyph_count : Z; pcf_default_char : Z; pcf_font_ascent : Z; pcf_font_descent : Z;
  pcf_bounds_width : Z; pcf_bounds_height : Z; pcf_bytes_per_row : Z; pcf_loaded : Z;
}.
Definition pcf_none : pcf_font_t := mk_pcf false None None None 0 0 0 0 0 0 0 0.

Definition set_metrics (glyphs metrics : Z) (f : pcf_font_t) : pcf_font_t :=
  mk_pcf (pcf_data f) (Some metrics) (pcf_bitmaps f) (pcf_encoding f) glyphs (pcf_default_char f) (pcf_font_ascent f)
    (pcf_font_descent f) (pcf_bounds_width f) (pcf_bounds_height f) (pcf_bytes_per_row f) (pcf_loaded f).
Definition set_bitmaps (bitmaps : Z) (f : pcf_font_t) : pcf_font_t :=
  mk_pcf (pcf_data f) (pcf_metrics f) (Some bitmaps) (pcf_encoding f) (pcf_glyph_count f) (pcf_default_char f) (pcf_font_ascent f)
    (pcf_font_descent f) (pcf_bounds_width f) (pcf_bounds_height f) (pcf_bytes_per_row f) (pcf_loaded f).
Definition set_encoding (encoding min_char : Z) (f : pcf_font_t) : pcf_font_t :=
  mk_pcf (pcf_data f) (pcf_metrics f) (pcf_bitmaps f) (Some encoding) (pcf_glyph_count f) min_char (pcf_font_ascent f)
    (pcf_font_descent f) (pcf_bounds_width f) (pcf_bounds_height f) (pcf_bytes_per_row f) (pcf_loaded f).
(** The end of the load: the bounds, which are fixed, and the ascent of the first glyph. *)
Definition finish (glyphs ascent descent : Z) (f : pcf_font_t) : pcf_font_t :=
  mk_pcf (pcf_data f) (pcf_metrics f) (pcf_bitmaps f) (pcf_encoding f) glyphs (pcf_default_char f) ascent descent 7 14 1 1.

(** A number of 16 bits in the order that the format says. *)
Definition read_u16_as (format : Z) (b : list Z) (off : Z) : option Z :=
  b0 ← read_le 1 b off; b1 ← read_le 1 b (off + 1);
  Some (if truthy (Z.land format 0x0200) then Z.lor (Z.shiftl b0 8) b1 else Z.lor b0 (Z.shiftl b1 8)).

Definition on_metrics (b : list Z) (off : Z) (f : pcf_font_t) : option pcf_font_t :=
  format ← read_le 4 b off; glyphs ← read_u16_as format b (off + 4);
  Some (set_metrics glyphs (off + 6) f).
(** The four sizes are read and not used. *)
Definition on_bitmaps (b : list Z) (off : Z) (f : pcf_font_t) : option pcf_font_t :=
  format ← read_le 4 b off; sizes ← read_le 16 b (off + 4);
  Some (set_bitmaps (off + 20) f).
Definition on_encoding (b : list Z) (off : Z) (f : pcf_font_t) : option pcf_font_t :=
  format ← read_le 4 b off; min_char ← read_u16_as format b (off + 4);
  Some (set_encoding (off + 8) min_char f).
(** [if (type & bit) ...], for a table at an offset. *)
Definition if_type (type bit : Z) (m : pcf_font_t → option pcf_font_t) (f : pcf_font_t) : option pcf_font_t :=
  if truthy (Z.land type bit) then m f else Some f.
Fixpoint pcf_tables (n : nat) (b : list Z) (i : Z) (f : pcf_font_t) : option pcf_font_t :=
  match n with
  | O => Some f
  | Datatypes.S n' =>
      type ← read_le 4 b (SIZEOF_PCF_HEADER + SIZEOF_PCF_TABLE * i);
      off ← (if truthy (Z.land type (Z.lor PCF_METRICS (Z.lor PCF_BITMAPS PCF_BDF_ENCODING))) then
               read_le 4 b (SIZEOF_PCF_HEADER + SIZEOF_PCF_TABLE * i + 12) else Some 0);
      f ← if_type type PCF_METRICS (on_metrics b off) f;
      f ← if_type type PCF_BITMAPS (on_bitmaps b off) f;
      f ← if_type type PCF_BDF_ENCODING (on_encoding b off) f;
      pcf_tables n' b (i + 1) f
  end.
Definition pcf_header (b : list Z) : option (Z * pcf_font_t) :=
  let font := mk_pcf true None None None 0 0 0 0 0 0 0 0 in
  magic ← read_le 4 b 0;
  if negb (magic =? PCF_MAGIC) then Some (-1, font) else
  table_count ← read_le 4 b 4;
  font ← pcf_tables (Z.to_nat table_count) b 0 font;
  match pcf_metrics font with
  | Some metrics =>
      if 0 <? pcf_glyph_count font then
        ascent ← read_le 2 b (metrics + 6); descent ← read_le 2 b (metrics + 8);
        Some (0, finish (pcf_glyph_count font) ascent descent font)
      else Some (0, finish 256 11 3 font)
  | None => Some (0, finish 256 11 3 font)
  end.
Definition pcf_load {W} `{!Files W} (fuel : nat) (filename : str) : M (font_file W) (Z * pcf_font_t) :=
  total_read ← read_file fuel filename PCF_MAX_FONT_SIZE;
  match total_read with
  | None => mret (-1, pcf_none)
  | Some total_read =>
      if total_read <? SIZEOF_PCF_HEADER then mret (-1, pcf_none)
      else s ← get; of_option (pcf_header (font_buffer s))
  end.
Definition pcf_unload (font : pcf_font_t) : pcf_font_t := pcf_none.
(** Null, a place in the buffer, or an address that is none: the distance from null. *)
Inductive glyph_ptr := Null | At (off : Z) | Astray (a : Z).
Definition pcf_get_glyph_bitmap (font : pcf_font_t) (charcode : Z) : glyph_ptr :=
  if (pcf_loaded font =? 0) || (pcf_glyph_count font <=? charcode) then Null else
  let offset := u32 (charcode * 14) in
  match pcf_bitmaps font with
  | None => Astray offset
  | Some bitmaps => if PCF_MAX_FONT_SIZE <=? bitmaps + offset then Null else At (bitmaps + offset)
  end.
Definition pcf_get_glyph_width (font : pcf_font_t) (charcode : Z) : Z := if pcf_loaded font =? 0 then 8 else pcf_bounds_width font.
Definition pcf_get_glyph_height (font : pcf_font_t) : Z :=
  if pcf_loaded font =? 0 then 8 else u32 (pcf_font_ascent font + pcf_font_descent font).
Definition pcf_get_font_height (font : pcf_font_t) : Z := pcf_get_glyph_height font.

(** ** Reading a file into the buffer *)

(** What is relied on of the files: an open file is read from its position on, in any portions. *)
Class ReadLaws (W : Type) `{!Files W} := {
  rl_file : W → str → option str;
  rl_pos : W → Z → option (str * nat);
  rl_open : ∀ p c w, rl_file w p = Some c → ∃ fd w', f_open p 0 w = Done fd w' ∧ 0 ≤ fd ∧ rl_pos w' fd = Some (p, 0%nat) ∧ rl_file w' = rl_file w;
  rl_read : ∀ fd n p i c w, rl_pos w fd = Some (p, i) → rl_file w p = Some c → 0 < n → (i ≤ length c)%nat →
    ∃ k w', f_read fd n w = Done (Z.of_nat k, take k (drop i c)) w' ∧ Z.of_nat k ≤ n ∧ (i + k ≤ length c)%nat ∧
    (k = 0%nat → i = length c) ∧ rl_pos w' fd = Some (p, (i + k)%nat) ∧ rl_file w' = rl_file w;
  rl_close : ∀ fd w, ∃ r w', f_close fd w = Done r w' ∧ rl_file w' = rl_file w;
}.

Section reading_laws.
  Context {W : Type} `{FI : !Files W} `{RL : !ReadLaws W}.
  Abbreviation S := (font_file W).

Lemma ff_world_run {B} (m : M W B) b w' (s : S) (Q : B → S → Prop) : m (ff_world s) = Done b w' →
  Q b (mk_font_file (font_buffer s) w') → wp (ff_on_world m) Q s.
Proof. intros E HQ. unfold wp, ff_on_world, zoom. by rewrite E. Qed.

(** The buffer after [i] bytes of the file. *)
Definition filled_with (c old : list Z) (i : nat) : list Z := take i c ++ drop i old.

Lemma put_filled c old i k : (i + k ≤ length c)%nat → (length c ≤ length old)%nat →
  put_bytes (Z.of_nat i) (take k (drop i c)) (filled_with c old i) = Some (filled_with c old (i + k)).
Proof.
  intros Hik Hc. unfold put_bytes, filled_with.
  assert (length (take k (drop i c)) = k) as Hk by (rewrite length_take, length_drop; lia).
  assert (length (take i c ++ drop i old) = length old) as Hl by (rewrite length_app, length_take, length_drop; lia).
  rewrite Hk, Hl, (proj2 (Z.leb_le _ _)) by lia. rewrite Nat2Z.id.
  assert (length (take i c) = i) as Hi by (rewrite length_take; lia).
  rewrite take_app_length' by done. rewrite drop_app, (drop_ge (take i c)) by lia. cbn [app].
  rewrite Hi, drop_drop. replace (i + (i + k - i))%nat with (i + k)%nat by lia.
  rewrite (assoc_L (++)). f_equal. f_equal. by rewrite take_take_drop.
Qed.

Lemma read_loop_run fd p c old max i fuel (s : S) : 0 < max ≤ 2 ^ 16 → length old = Z.to_nat max → Z.of_nat (length c) ≤ max →
  (i ≤ length c)%nat → Z.of_nat i < max → (length c - i < fuel)%nat → font_buffer s = filled_with c old i →
  rl_pos (ff_world s) fd = Some (p, i) → rl_file (ff_world s) p = Some c →
  wp (iterM fuel (read_step fd max) (Z.of_nat i)) (λ t s', t = Z.of_nat (length c) ∧ font_buffer s' = filled_with c old (length c)) s.
Proof.
  intros Hmax Hold Hc. revert i s. induction fuel as [|fuel IH]; intros i s Hi Him Hf Hb Hpos Hfile; [lia|].
  destruct (rl_read fd (max - Z.of_nat i) p i c (ff_world s) Hpos Hfile ltac:(lia) Hi) as (k & w' & E & Hk & Hik & Hk0 & Hpos' & Hfile').
  cbn [iterM]. apply wp_bind. unfold read_step. apply wp_bind. eapply ff_world_run; [exact E|]. cbv beta iota zeta.
  assert (u32 (Z.of_nat k) = Z.of_nat k) as -> by (apply Z.mod_small; lia).
  apply wp_bind, wp_get, wp_bind. cbn [font_buffer]. eapply wp_of_option; [rewrite Hb; apply put_filled; lia|].
  apply wp_bind, wp_modify. cbn [ff_world]. destruct (Z.ltb_spec 0 (Z.of_nat k)).
  - assert (u32 (Z.of_nat i + Z.of_nat k) = Z.of_nat (i + k)) as -> by (unfold u32; rewrite Z.mod_small; lia).
    destruct (Z.leb_spec max (Z.of_nat (i + k))).
    + apply wp_ret, wp_ret. cbn [font_buffer]. replace (i + k)%nat with (length c) by lia. done.
    + apply wp_ret. cbn beta iota. apply IH; cbn [ff_world font_buffer]; first [done|lia|by rewrite Hfile'].
  - assert (k = 0%nat) as -> by lia. rewrite (Hk0 eq_refl) at 1 2. apply wp_ret, wp_ret. cbn [font_buffer].
    rewrite <-(Hk0 eq_refl), Nat.add_0_r. done.
Qed.

Lemma read_file_run p c max fuel (s : S) : 0 < max ≤ 2 ^ 16 → length (font_buffer s) = Z.to_nat max → Z.of_nat (length c) ≤ max →
  (length c < fuel)%nat → rl_file (ff_world s) p = Some c →
  wp (read_file fuel p max) (λ t s', t = Some (Z.of_nat (length c)) ∧ font_buffer s' = filled_with c (font_buffer s) (length c)) s.
Proof.
  intros Hmax Hl Hc Hf Hfile. destruct (rl_open p c (ff_world s) Hfile) as (fd & w1 & E & Hfd & Hpos & Hfile1).
  apply wp_bind. eapply ff_world_run; [exact E|]. rewrite (proj2 (Z.ltb_ge fd 0)) by lia. apply wp_bind.
  eapply wp_mono; [apply (read_loop_run fd p c (font_buffer s) max 0 fuel); try done; cbn; [lia|lia|lia|by rewrite Hfile1]|].
  intros t s1 [-> Hb]. destruct (rl_close fd (ff_world s1)) as (r & w2 & E2 & _).
  apply wp_bind. eapply ff_world_run; [exact E2|]. by apply wp_ret.
Qed.
End reading_laws.

(** ** Files of the PSF formats *)

(** A font of either version: what its header says besides, and the bitmaps of its glyphs, all
    of a size.  [gap] is what a header of version 2 may have behind its fields. *)
Inductive psf_file :=
  | Psf1 (mode charsize : Z) (glyphs : list (list Z))
  | Psf2 (version flags height width : Z) (charsize : nat) (gap : list Z) (glyphs : list (list Z)).
Definition psf_glyphs (f : psf_file) : list (list Z) := match f with Psf1 _ _ g => g | Psf2 _ _ _ _ _ _ g => g end.
Definition glyph_size (f : psf_file) : nat := match f with Psf1 _ c _ => Z.to_nat c | Psf2 _ _ _ _ c _ _ => c end.
Definition psf_head (f : psf_file) : list Z :=
  match f with
  | Psf1 mode charsize _ => le_split 2 PSF1_MAGIC ++ [mode; charsize]
  | Psf2 version flags height width charsize gap glyphs =>
      le_split 4 PSF2_MAGIC ++ le_split 4 version ++ le_split 4 (Z.of_nat (32 + length gap)) ++ le_split 4 flags ++
      le_split 4 (Z.of_nat (length glyphs)) ++ le_split 4 (Z.of_nat charsize) ++ le_split 4 height ++ le_split 4 width ++ gap
  end.
Definition psf_bytes (f : psf_file) : list Z := psf_head f ++ concat (psf_glyphs f).
Definition psf_ok (f : psf_file) : Prop :=
  Forall (λ g, length g = glyph_size f) (psf_glyphs f) ∧ Z.of_nat (length (psf_bytes f)) ≤ PSF_MAX_FONT_SIZE ∧
  match f with
  | Psf1 mode charsize glyphs => is_byte mode ∧ is_byte charsize ∧ length glyphs = (if truthy (Z.land mode 1) then 512%nat else 256%nat)
  | Psf2 _ _ height width charsize _ glyphs => 0 ≤ height < 2 ^ 32 ∧ 0 ≤ width < 2 ^ 32 ∧ Z.of_nat charsize < 2 ^ 16 ∧ Z.of_nat (length glyphs) < 2 ^ 16
  end.
(** The size that is meant. *)
Definition psf_cell (f : psf_file) : Z * Z :=
  match f with Psf1 _ charsize _ => (8, charsize) | Psf2 _ _ height width _ _ _ => (width, height) end.

Lemma read_le_field (n i : nat) fields y v off : fields !! i = Some y → off = Z.of_nat (length (concat (take i fields))) →
  length y = n → le_combine y = v → read_le n (concat fields) off = Some v.
Proof.
  intros Hi -> <- <-. rewrite <-(take_drop_middle _ _ _ Hi) at 1. rewrite concat_app. cbn [concat].
  unfold read_le. rewrite !length_app, Nat2Z.id. rewrite (proj2 (Z.leb_le 0 _)), (proj2 (Z.leb_le _ _)) by lia. cbn [andb].
  by rewrite drop_app_length, take_app_length.
Qed.

Lemma le_combine_le_split n v : 0 ≤ v < 2 ^ (8 * Z.of_nat n) → le_combine (le_split n v) = v.
Proof. intros H. by rewrite le_combine_split, Z.mod_small. Qed.

(** The font that a file loads as. *)
Definition psf_of (f : psf_file) : psf_font_t :=
  mk_psf true (Z.of_nat (length (psf_bytes f))) (match f with Psf1 _ _ _ => 1 | _ => 2 end) (Z.of_nat (length (psf_glyphs f)))
    (Z.of_nat (glyph_size f)) (psf_cell f).2 (psf_cell f).1 1.

(** The fields of the headers, and what comes after them. *)
Definition psf1_fields (mode charsize : Z) (after : list Z) : list (list Z) := [le_split 2 PSF1_MAGIC; [mode]; [charsize]; after].
Definition psf2_fields (version headersize flags num charsize height width : Z) (after : list Z) : list (list Z) :=
  (le_split 4 <$> [PSF2_MAGIC; version; headersize; flags; num; charsize; height; width]) ++ [after].

Lemma psf1_header mode charsize after size : is_byte mode → is_byte charsize →
  psf_header (concat (psf1_fields mode charsize after)) size
  = Some (0, mk_psf true size 1 (if truthy (Z.land mode 1) then 512 else 256) charsize charsize 8 1).
Proof.
  unfold is_byte. intros Hm Hc. unfold psf_header.
  assert (read_le 4 (concat (psf1_fields mode charsize after)) 0 = Some (PSF1_MAGIC + 2 ^ 16 * (mode + 2 ^ 8 * charsize))) as ->.
  { apply (read_le_field 4 0 [le_split 2 PSF1_MAGIC ++ [mode; charsize]; after] (le_split 2 PSF1_MAGIC ++ [mode; charsize])); try done.
    change (le_split 2 PSF1_MAGIC ++ [mode; charsize]) with [0x36; 4; mode; charsize]. unfold le_combine, PSF1_MAGIC. lia. }
  cbn [mbind option_bind]. rewrite (proj2 (Z.eqb_neq _ PSF2_MAGIC)) by (unfold PSF1_MAGIC, PSF2_MAGIC; lia).
  assert (Z.land (PSF1_MAGIC + 2 ^ 16 * (mode + 2 ^ 8 * charsize)) 0xFFFF = PSF1_MAGIC) as ->.
  { rewrite (Z.land_ones _ 16) by lia. rewrite Z.mul_comm, Z.mod_add by lia. done. }
  rewrite Z.eqb_refl. rewrite (read_le_field 1 1 (psf1_fields mode charsize after) [mode] mode 2) by (done || (cbn; lia)).
  rewrite (read_le_field 1 2 (psf1_fields mode charsize after) [charsize] charsize 3) by (done || (cbn; lia)).
  done.
Qed.

Lemma psf2_field (i : nat) version headersize flags num charsize height width after v off :
  [PSF2_MAGIC; version; headersize; flags; num; charsize; height; width] !! i = Some v → off = 4 * Z.of_nat i → 0 ≤ v < 2 ^ 32 →
  read_le 4 (concat (psf2_fields version headersize flags num charsize height width after)) off = Some v.
Proof.
  intros Hi -> Hv. apply (read_le_field 4 i _ (le_split 4 v)).
  - unfold psf2_fields. by apply lookup_app_l_Some; rewrite list_lookup_fmap, Hi.
  - do 8 (destruct i as [|i]; [done|]). done.
  - apply length_le_split.
  - by apply le_combine_le_split.
Qed.

Lemma psf2_header version headersize flags num charsize height width after size :
  0 ≤ num < 2 ^ 32 → 0 ≤ charsize < 2 ^ 32 → 0 ≤ height < 2 ^ 32 → 0 ≤ width < 2 ^ 32 →
  psf_header (concat (psf2_fields version headersize flags num charsize height width after)) size
  = Some (0, mk_psf true size 2 num charsize height width 1).
Proof.
  intros. unfold psf_header. rewrite (psf2_field 0 _ _ _ _ _ _ _ _ PSF2_MAGIC 0) by done. cbn [mbind option_bind]. rewrite Z.eqb_refl.
  by rewrite (psf2_field 4 _ _ _ _ _ _ _ _ num 16), (psf2_field 5 _ _ _ _ _ _ _ _ charsize 20),
    (psf2_field 6 _ _ _ _ _ _ _ _ height 24), (psf2_field 7 _ _ _ _ _ _ _ _ width 28).
Qed.

(** The bytes of a file, by fields. *)
Lemma psf_bytes_fields f rest : psf_bytes f ++ rest = concat
  match f with
  | Psf1 mode charsize glyphs => psf1_fields mode charsize (concat glyphs ++ rest)
  | Psf2 version flags height width charsize gap glyphs =>
      psf2_fields version (Z.of_nat (32 + length gap)) flags (Z.of_nat (length glyphs)) (Z.of_nat charsize) height width (gap ++ concat glyphs ++ rest)
  end.
Proof.
  unfold psf_bytes. destruct f; cbn -[le_split]; by rewrite <-!app_assoc, ?app_nil_r.
Qed.

Lemma psf_header_run f rest : psf_ok f →
  psf_header (psf_bytes f ++ rest) (Z.of_nat (length (psf_bytes f))) = Some (0, psf_of f).
Proof.
  intros (_ & _ & Hf). rewrite psf_bytes_fields. destruct f as [mode charsize glyphs|version flags height width charsize gap glyphs].
  - destruct Hf as (Hm & Hc & Hn). rewrite psf1_header by done. unfold psf_of, is_byte in *. cbn [psf_glyphs glyph_size psf_cell fst snd].
    rewrite Hn, Z2Nat.id by lia. by destruct (truthy (Z.land mode 1)).
  - destruct Hf as (Hh & Hw & Hc & Hn). rewrite psf2_header by lia. done.
Qed.

(** Where a glyph is, and that it is there. *)
Definition glyph_at (b : list Z) (f : psf_file) (off : Z) : list Z := take (glyph_size f) (drop (Z.to_nat off) b).

Lemma glyph_of_font (glyphs : list (list Z)) (n k : nat) g rest : Forall (λ g, length g = n) glyphs → glyphs !! k = Some g →
  take n (drop (k * n) (concat glyphs ++ rest)) = g.
Proof.
  intros Hg Hk. revert k Hk. induction Hg as [|g' glyphs Hn _ IH]; intros k Hk; [done|].
  cbn [concat]. rewrite <-app_assoc. destruct k as [|k].
  - injection Hk as ->. cbn [Nat.mul]. rewrite drop_0. by apply take_app_length'.
  - cbn [Nat.mul]. rewrite <-Hn at 2. rewrite <-drop_drop, drop_app_length. by apply IH.
Qed.

Lemma length_concat_glyphs (glyphs : list (list Z)) (n : nat) : Forall (λ g, length g = n) glyphs → length (concat glyphs) = (length glyphs * n)%nat.
Proof. induction 1 as [|g glyphs Hn _ IH]; [done|]. cbn. rewrite length_app, IH. lia. Qed.

Lemma glyph_offset f rest c : psf_ok f → 0 ≤ c < Z.of_nat (length (psf_glyphs f)) →
  psf_get_glyph_bitmap (psf_bytes f ++ rest) (psf_of f) c = Some (Some (Z.of_nat (length (psf_head f)) + c * Z.of_nat (glyph_size f))).
Proof.
  intros (Hg & Hl & Hf) Hc. unfold psf_get_glyph_bitmap, psf_of, PSF_MAX_FONT_SIZE in *. cbn [psf_loaded psf_num_chars psf_version psf_char_size psf_size].
  rewrite (proj2 (Z.leb_gt _ _)) by lia. cbn [orb Z.eqb].
  assert (Z.of_nat (length (psf_head f)) + (c + 1) * Z.of_nat (glyph_size f) ≤ Z.of_nat (length (psf_bytes f))) as Hin.
  { unfold psf_bytes. rewrite length_app, (length_concat_glyphs _ _ Hg). nia. }
  assert (0 ≤ c * Z.of_nat (glyph_size f)) by nia.
  assert (u32 (c * Z.of_nat (glyph_size f)) = c * Z.of_nat (glyph_size f)) as -> by (apply Z.mod_small; lia).
  assert (mbind (M := option) (λ offset, if Z.of_nat (length (psf_bytes f)) <? u32 (offset + Z.of_nat (glyph_size f)) then Some None else Some (Some offset))
    (Some (Z.of_nat (length (psf_head f)) + c * Z.of_nat (glyph_size f))) = Some (Some (Z.of_nat (length (psf_head f)) + c * Z.of_nat (glyph_size f)))) as Hlast.
  { cbn [mbind option_bind]. assert (u32 (Z.of_nat (length (psf_head f)) + c * Z.of_nat (glyph_size f) + Z.of_nat (glyph_size f)) =
      Z.of_nat (length (psf_head f)) + c * Z.of_nat (glyph_size f) + Z.of_nat (glyph_size f)) as -> by (apply Z.mod_small; lia).
    by rewrite (proj2 (Z.ltb_ge _ _)) by lia. }
  rewrite <-Hlast. f_equal. rewrite psf_bytes_fields. destruct f as [mode charsize glyphs|version flags height width charsize gap glyphs].
  - assert (length (psf_head (Psf1 mode charsize glyphs)) = 4%nat) as E by done. rewrite E in *.
    cbn [Z.eqb Pos.eqb]. f_equal. apply Z.mod_small. lia.
  - assert (length (psf_head (Psf2 version flags height width charsize gap glyphs)) = (32 + length gap)%nat) as E by (cbn [psf_head]; by rewrite !length_app, !length_le_split).
    rewrite E in *. cbn [Z.eqb Pos.eqb]. rewrite (psf2_field 2 _ _ _ _ _ _ _ _ (Z.of_nat (32 + length gap))) by (done || lia).
    cbn [mbind option_bind]. f_equal. apply Z.mod_small. lia.
Qed.

Section psf_round_trip.
  Context {W : Type} `{FI : !Files W} `{RL : !ReadLaws W}.

(** C24: fonts survive being saved and loaded.  From a file of either version of the format
    whose glyphs all have the size that the header says, and that fits into the buffer, the
    loader gives a font of the right cell, in which every glyph is found with its own bitmap,
    and no character beyond the last. *)
Theorem psf_load_roundtrip (f : psf_file) (name : str) (fuel : nat) (s : font_file W)
    (Hf : psf_ok f) (Hb : length (font_buffer s) = Z.to_nat PSF_MAX_FONT_SIZE)
    (Hfile : rl_file (ff_world s) name = Some (psf_bytes f)) (Hfuel : (length (psf_bytes f) < fuel)%nat) :
  wp (psf_load fuel name) (λ r s', ∃ font, r = (0, font) ∧
    (psf_get_glyph_width font, psf_get_glyph_height font) = psf_cell f ∧
    (∀ (c : nat) g, psf_glyphs f !! c = Some g → ∃ off,
       psf_get_glyph_bitmap (font_buffer s') font (Z.of_nat c) = Some (Some off) ∧ glyph_at (font_buffer s') f off = g) ∧
    (∀ c, Z.of_nat (length (psf_glyphs f)) ≤ c → psf_get_glyph_bitmap (font_buffer s') font c = Some None)) s.
Proof.
  pose proof Hf as (Hg & Hl & _). apply wp_bind. eapply wp_mono.
  { apply (read_file_run name (psf_bytes f) PSF_MAX_FONT_SIZE fuel); [done|done|exact Hl|done|done]. }
  intros t s' [-> Hbuf]. cbv beta iota.
  assert (4 ≤ Z.of_nat (length (psf_head f))) as H4.
  { destruct f; cbn [psf_head]; rewrite !length_app, ?length_le_split; cbn [length]; lia. }
  rewrite (proj2 (Z.ltb_ge _ _)).
  2: { unfold psf_bytes, SIZEOF_PSF1. rewrite length_app. lia. }
  apply wp_bind, wp_get. unfold filled_with in Hbuf. rewrite take_ge in Hbuf by lia.
  eapply wp_of_option; [rewrite Hbuf; by apply psf_header_run|]. exists (psf_of f). split; [done|]. rewrite Hbuf. split_and!.
  - unfold psf_get_glyph_width, psf_get_glyph_height, psf_of. cbn. by destruct (psf_cell f).
  - intros c g Hc. eexists. split; [apply glyph_offset; [done|apply lookup_lt_Some in Hc; lia]|].
    unfold glyph_at, psf_bytes. rewrite <-app_assoc.
    replace (Z.to_nat _) with (length (psf_head f) + c * glyph_size f)%nat by lia.
    rewrite <-drop_drop, drop_app_length. by apply glyph_of_font.
  - intros c Hc. unfold psf_get_glyph_bitmap, psf_of. cbn [psf_loaded psf_num_chars]. by rewrite (proj2 (Z.leb_le _ _)).
Qed.
End psf_round_trip.

(** ** Where the pointers of a PCF font point *)

Lemma read_le_inside n b off v : read_le n b off = Some v → 0 ≤ off ∧ off + Z.of_nat n ≤ Z.of_nat (length b).
Proof. unfold read_le. destruct (_ && _) eqn:E; [|done]. intros _. apply andb_true_iff in E as [?%Z.leb_le ?%Z.leb_le]. done. Qed.

Definition pointers_inside (b : list Z) (f : pcf_font_t) : Prop :=
  ∀ o, pcf_metrics f = Some o ∨ pcf_bitmaps f = Some o ∨ pcf_encoding f = Some o → 0 ≤ o ≤ Z.of_nat (length b) + 4.

Lemma on_metrics_inside b off f g : pointers_inside b f → on_metrics b off f = Some g → pointers_inside b g.
Proof.
  unfold on_metrics, pointers_inside. intros Hf H. destruct (read_le 4 b off) eqn:E; [|done]. apply read_le_inside in E.
  cbn [mbind option_bind] in H. destruct (read_u16_as _ _ _); [|done]. injection H as <-. cbn.
  intros o [[= <-]|Ho]; [lia|]. apply Hf. tauto.
Qed.
Lemma on_bitmaps_inside b off f g : pointers_inside b f → on_bitmaps b off f = Some g → pointers_inside b g.
Proof.
  unfold on_bitmaps, pointers_inside. intros Hf H. destruct (read_le 4 b off) eqn:E; [|done]. apply read_le_inside in E.
  cbn [mbind option_bind] in H. destruct (read_le 16 b _) eqn:E16; [|done]. apply read_le_inside in E16. injection H as <-. cbn.
  intros o [Ho|[[= <-]|Ho]]; [|lia|]; apply Hf; tauto.
Qed.
Lemma on_encoding_inside b off f g : pointers_inside b f → on_encoding b off f = Some g → pointers_inside b g.
Proof.
  unfold on_encoding, pointers_inside. intros Hf H. destruct (read_le 4 b off) eqn:E; [|done]. apply read_le_inside in E.
  cbn [mbind option_bind] in H. destruct (read_u16_as _ _ _); [|done]. injection H as <-. cbn.
  intros o [Ho|[Ho|[= <-]]]; [..|lia]; apply Hf; tauto.
Qed.
Lemma if_type_inside b type bit m f g : (∀ g, m f = Some g → pointers_inside b g) → pointers_inside b f →
  if_type type bit m f = Some g → pointers_inside b g.
Proof. unfold if_type. destruct (truthy _); [by eauto|]. by intros _ ? [= <-]. Qed.

Lemma pcf_tables_inside n b i f g : pointers_inside b f → pcf_tables n b i f = Some g → pointers_inside b g.
Proof.
  revert i f. induction n as [|n IH]; intros i f Hf H; cbn [pcf_tables] in H; [by injection H as <-|].
  destruct (read_le 4 b (SIZEOF_PCF_HEADER + SIZEOF_PCF_TABLE * i)) as [type|]; [|done]. cbn [mbind option_bind] in H.
  destruct (if truthy _ then _ else _) as [off|]; [|done]. cbn [mbind option_bind] in H.
  destruct (if_type type PCF_METRICS _ f) as [f1|] eqn:E1; [|done]. cbn [mbind option_bind] in H.
  destruct (if_type type PCF_BITMAPS _ f1) as [f2|] eqn:E2; [|done]. cbn [mbind option_bind] in H.
  destruct (if_type type PCF_BDF_ENCODING _ f2) as [f3|] eqn:E3; [|done]. cbn [mbind option_bind] in H.
  assert (pointers_inside b f1) by (eapply if_type_inside; [|exact Hf|exact E1]; intros; by eapply on_metrics_inside).
  assert (pointers_inside b f2) by (eapply if_type_inside; [|done|exact E2]; intros; by eapply on_bitmaps_inside).
  eapply IH; [|exact H]. eapply if_type_inside; [|done|exact E3]. intros. by eapply on_encoding_inside.
Qed.

(** Whatever a file says, the glyphs of a font that was loaded from it start inside the
    buffer, if it has a table of bitmaps. *)
Lemma pcf_glyphs_start_inside (b : list Z) (f : pcf_font_t) (charcode : Z) :
  Z.of_nat (length b) = PCF_MAX_FONT_SIZE → pcf_header b = Some (0, f) →
  match pcf_get_glyph_bitmap f charcode with
  | At off => 0 ≤ off < PCF_MAX_FONT_SIZE
  | Astray _ => pcf_bitmaps f = None
  | Null => True
  end.
Proof.
  intros Hb H. assert (pointers_inside b f) as Hin.
  { unfold pcf_header in H. destruct (read_le 4 b 0) as [magic|]; [|done]. cbn [mbind option_bind] in H.
    destruct (negb _); [done|]. destruct (read_le 4 b 4) as [count|]; [|done]. cbn [mbind option_bind] in H.
    destruct (pcf_tables _ _ _ _) as [g|] eqn:E; [|done]. cbn [mbind option_bind] in H.
    assert (pointers_inside b g) as Hg by (eapply pcf_tables_inside; [|exact E]; intros o [Ho|[Ho|Ho]]; cbn in Ho; discriminate).
    assert (∃ n a d, f = finish n a d g) as (n & a & d & ->); [|exact Hg].
    destruct (pcf_metrics g) as [o|]; [|injection H as <-; eauto]. destruct (0 <? _); [|injection H as <-; eauto].
    destruct (read_le 2 b (o + 6)); [|done]. cbn [mbind option_bind] in H.
    destruct (read_le 2 b (o + 8)); [|done]. injection H as <-. eauto. }
  unfold pcf_get_glyph_bitmap. destruct (_ || _); [done|]. destruct (pcf_bitmaps f) as [o|] eqn:Eo; [|done].
  destruct (Z.leb_spec PCF_MAX_FONT_SIZE (o + u32 (charcode * 14))); [done|].
  pose proof (Hin o (or_intror (or_introl Eo))). pose proof (u32_range (charcode * 14)). lia.
Qed.

(** ** A file to load *)

Record one_file := mk_one_file { of_content : str; of_pos : nat }.
#[local] Instance one_files : Files one_file := {|
  f_open p flags := λ w, Done 3 (mk_one_file (of_content w) 0);
  f_read fd n := λ w, let k := Nat.min 100 (Nat.min (Z.to_nat n) (length (of_content w) - of_pos w)) in
    Done (Z.of_nat k, take k (drop (of_pos w) (of_content w))) (mk_one_file (of_content w) (of_pos w + k));
  f_write fd bs := mret (-1);
  f_close fd := mret 0;
|}.
Definition the_name : str := chars "/font".
#[local] Instance one_laws : ReadLaws one_file.
Proof.
  refine {| rl_file w p := if bool_decide (p = the_name) then Some (of_content w) else None; rl_pos w fd := Some (the_name, of_pos w) |}.
  - intros p c w H. case_bool_decide as Hp; [|done]. injection H as <-. rewrite Hp. by exists 3, (mk_one_file (of_content w) 0).
  - intros fd n p i c w [= <- <-] H Hn Hi. injection H as <-. cbn [f_read one_files].
    set (k := Nat.min 100 (Nat.min (Z.to_nat n) (length (of_content w) - of_pos w))).
    exists k. eexists. split; [done|]. split_and!; try done; lia.
  - intros fd w. by exists 0, w.
Defined.

Definition demo_font : psf_file := Psf2 0 0 2 8 2 [7; 7; 7; 7] [[0x18; 0x24]; [0x42; 0x81]; [0xFF; 0x00]].
Definition demo_psf : font_file one_file := mk_font_file (replicate (Z.to_nat PSF_MAX_FONT_SIZE) 0) (mk_one_file (psf_bytes demo_font) 0).
Lemma psf_load_roundtrip_witness :
  wp (psf_load 100 the_name) (λ r s', ∃ font, r = (0, font) ∧
    (psf_get_glyph_width font, psf_get_glyph_height font) = psf_cell demo_font ∧
    (∀ (c : nat) g, psf_glyphs demo_font !! c = Some g → ∃ off,
       psf_get_glyph_bitmap (font_buffer s') font (Z.of_nat c) = Some (Some off) ∧ glyph_at (font_buffer s') demo_font off = g) ∧
    (∀ c, Z.of_nat (length (psf_glyphs demo_font)) ≤ c → psf_get_glyph_bitmap (font_buffer s') font c = Some None)) demo_psf.
Proof.
  apply (psf_load_roundtrip demo_font the_name 100 demo_psf).
  - split; [repeat (apply Forall_cons_2; [done|]); by apply Forall_nil_2|]. split; [by vm_compute|]. cbn. lia.
  - apply length_replicate.
  - done.
  - cbn. lia.
Defined.

(** A read that fails gives -1, which the loop takes for a length: what was in the buffer
    before is loaded, as a font of almost four gigabytes. *)
Inductive broken := mk_broken.
#[local] Instance broken_files : Files broken := {|
  f_open p flags := mret 3; f_read fd n := mret (-1, []); f_write fd bs := mret (-1); f_close fd := mret 0;
|}.
Example read_error_loads :
  match psf_load 10 the_name (mk_font_file (le_split 2 PSF1_MAGIC ++ [0; 16] ++ replicate 12 0) mk_broken) with
  | Done r _ => r = (0, mk_psf true (2 ^ 32 - 1) 1 256 16 16 8 1) | _ => False end.
Proof. by vm_compute. Qed.

(** The last glyph of a buffer can begin inside it and end behind it, and a font without bitmaps
    has glyphs at addresses near null. *)
Definition demo_pcf : list Z :=
  le_split 4 PCF_MAGIC ++ le_split 4 1 ++ le_split 4 PCF_BITMAPS ++ replicate 8 0 ++ le_split 4 16360 ++ replicate (Z.to_nat 16360) 0.
Example pcf_glyph_cut :
  (Z.of_nat (length demo_pcf), option_map (λ r, pcf_get_glyph_bitmap r.2 0) (pcf_header demo_pcf)) = (PCF_MAX_FONT_SIZE, Some (At 16380)).
Proof. by vm_compute. Qed.
Example pcf_glyph_astray :
  option_map (λ r, pcf_get_glyph_bitmap r.2 65) (pcf_header (le_split 4 PCF_MAGIC ++ le_split 4 0)) = Some (Astray 910).
Proof. by vm_compute. Qed.
