(* ===== verification/Lkm.v ===== *)
(** * Loadable modules, [core/kernel/module/elf_loader.c] and [lkm.c]

    A module is a relocatable ELF file of 32 bits.  What the loader copies into arrays of its
    own is a list; sections are read into memory, at addresses cut to 32 bits.  The world [W]
    is the files, the allocator, and the processor that runs the module's functions. *)

From Stdlib Require Import ZArith Lia String.
From stdpp Require Import base gmap list numbers.
From S2P Require Import Prelude Memory Alloc CString Buffer Font Display Console Mouse Window Vfs.
Open Scope Z_scope.
Set Default Goal Selector "!".

Definition ET_REL : Z := 1.
Definition EM_386 : Z := 3.
Definition SHT_SYMTAB : Z := 2.
Definition SHT_REL : Z := 9.
Definition SHF_ALLOC : Z := 2.
Definition R_386_32 : Z := 1.
Definition R_386_PC32 : Z := 2.
Definition SIZEOF_EHDR : Z := 52.
Definition SIZEOF_SHDR : Z := 40.
Definition SIZEOF_SYM : nat := 16.
Definition SIZEOF_REL : Z := 8.
Definition ELF32_R_SYM (i : Z) : Z := Z.shiftr i 8.
Definition ELF32_R_TYPE (i : Z) : Z := u8 i.

Record Elf32_Ehdr := mk_ehdr { e_ident : list Z; e_type : Z; e_machine : Z; e_entry : Z; e_shoff : Z; e_shnum : Z; e_shstrndx : Z }.
Record Elf32_Shdr := mk_shdr { sh_type : Z; sh_flags : Z; sh_addr : Z; sh_offset : Z; sh_size : Z; sh_link : Z }.
Record Elf32_Sym := mk_sym { st_name : Z; st_value : Z; st_shndx : Z }.

(** The structures, as their bytes say; [None] when bytes are missing. *)
Definition ehdr_of (bs : list Z) : option Elf32_Ehdr :=
  type ← field 2 16 bs; machine ← field 2 18 bs; entry ← field 4 24 bs; shoff ← field 4 32 bs;
  shnum ← field 2 48 bs; shstrndx ← field 2 50 bs;
  Some (mk_ehdr (take 16 bs) type machine entry shoff shnum shstrndx).
Definition shdr_of (bs : list Z) : option Elf32_Shdr :=
  type ← field 4 4 bs; flags ← field 4 8 bs; addr ← field 4 12 bs; offset ← field 4 16 bs; size ← field 4 20 bs; link ← field 4 24 bs;
  Some (mk_shdr type flags addr offset size link).
Fixpoint shdrs_of (n : nat) (bs : list Z) : option (list Elf32_Shdr) :=
  match n with
  | O => Some []
  | S n' => s ← shdr_of (take 40 bs); l ← shdrs_of n' (drop 40 bs); Some (s :: l)
  end.
Definition sym_of (bs : list Z) : option Elf32_Sym :=
  name ← field 4 0 bs; value ← field 4 4 bs; shndx ← field 2 14 bs; Some (mk_sym name value shndx).

Class ModuleWorld (W : Type) := {
  mw_lseek : Z → Z → M W unit;        (** [fs_lseek(fd, off, SEEK_SET)] *)
  mw_kmalloc : Z → M W Z;
  mw_kfree : Z → M W unit;
  mw_print : str → M W unit;
}.

Record loader (W : Type) := mk_loader { l_mem : mem; l_world : W }.
Arguments mk_loader {W}.
Arguments l_mem {W}.
Arguments l_world {W}.

(** [kernel_symbol_lookup] knows no symbol. *)
Definition kernel_symbol_lookup (name : option str) : Z := NULL.
Definition elf_lookup_symbol (name : option str) : Z := u32 (kernel_symbol_lookup name).
Definition is_alloc (s : Elf32_Shdr) : bool := truthy (Z.land (sh_flags s) SHF_ALLOC).
(** The string at an offset of the table of names, for the messages. *)
Definition name_at (symstr : list Z) (off : Z) : option str :=
  if off <=? Z.of_nat (length symstr) then Some (c_text (drop (Z.to_nat off) symstr)) else None.

Section loader.
  Context {W : Type} `{FI : !Files W} `{MW : !ModuleWorld W}.
  Abbreviation S := (loader W).

Definition lo_world {B} (m : M W B) : M S B := zoom l_world (λ w s, mk_loader (l_mem s) w) m.
Definition lo_mem {B} (m : M mem B) : M S B := zoom l_mem (λ m s, mk_loader m (l_world s)) m.

(** A message, and the failure. *)
Definition refuse (t : String.string) (frees : list Z) (fd : option Z) : M S (option (Z * Z * Z)) :=
  lo_world (mw_print (chars t ++ [10]));;
  foldr (λ p m, lo_world (mw_kfree p);; m) (mret tt) frees;;
  match fd with Some fd => lo_world (f_close fd);; mret None | None => mret None end.

(** One relocation; [false] when it is refused. *)
Definition relocate (module_base : Z) (syms symstr : list Z) (rel : Z) : M S bool :=
  r_offset ← lo_mem (load32 rel);
  r_info ← lo_mem (load32 (rel + 4));
  sym ← of_option (sym_of (take SIZEOF_SYM (drop (Z.to_nat (ELF32_R_SYM r_info) * SIZEOF_SYM) syms)));
  let sym_addr := if truthy (st_shndx sym) then st_value sym else elf_lookup_symbol (name_at symstr (st_name sym)) in
  if (st_shndx sym =? 0) && (sym_addr =? 0) then
    lo_world (mw_print (chars "Unresolved symbol: " ++ default [] (name_at symstr (st_name sym)) ++ [10]));; mret false
  else
    let target := module_base + r_offset in
    if ELF32_R_TYPE r_info =? R_386_32 then
      v ← lo_mem (load32 target); lo_mem (store32 target (u32 (v + sym_addr)));; mret true
    else if ELF32_R_TYPE r_info =? R_386_PC32 then
      v ← lo_mem (load32 target); lo_mem (store32 target (u32 (v + u32 (sym_addr - u32 target))));; mret true
    else lo_world (mw_print (chars "Unsupported relocation type" ++ [10]));; mret false.
(** [for (int i = 0; i < rel_num; i++)], and the same for the sections. *)
Fixpoint relocate_all (n : nat) (module_base : Z) (syms symstr : list Z) (rel : Z) : M S bool :=
  match n with
  | O => mret true
  | Datatypes.S n' =>
      ok ← relocate module_base syms symstr rel;
      if (ok : bool) then relocate_all n' module_base syms symstr (rel + SIZEOF_REL) else mret false
  end.
Fixpoint relocate_sections (module_base : Z) (syms symstr : list Z) (rels : list Elf32_Shdr) : M S bool :=
  match rels with
  | [] => mret true
  | r :: rels' =>
      ok ← relocate_all (Z.to_nat (sh_size r / SIZEOF_REL)) module_base syms symstr (sh_addr r);
      if (ok : bool) then relocate_sections module_base syms symstr rels' else mret false
  end.
Definition elf_resolve_symbols (module_base : Z) (symtab strtab : Elf32_Shdr) (rels : list Elf32_Shdr) : M S Z :=
  syms_p ← lo_world (mw_kmalloc (sh_size symtab));
  if syms_p =? NULL then mret (-1) else
  syms ← lo_mem (load_bytes (Z.to_nat (sh_size symtab)) (sh_addr symtab));
  symstr_p ← lo_world (mw_kmalloc (sh_size strtab));
  if symstr_p =? NULL then lo_world (mw_kfree syms_p);; mret (-1) else
  symstr ← lo_mem (load_bytes (Z.to_nat (sh_size strtab)) (sh_addr strtab));
  ok ← relocate_sections module_base syms symstr rels;
  lo_world (mw_kfree symstr_p);; lo_world (mw_kfree syms_p);;
  mret (if (ok : bool) then 0 else -1).

(** The sections that are to be in memory, one behind the other from an address. *)
Fixpoint place_sections (fd : Z) (shdrs : list Elf32_Shdr) (current_addr : Z) : M S (list Elf32_Shdr) :=
  match shdrs with
  | [] => mret []
  | s :: rest =>
      if is_alloc s then
        lo_world (mw_lseek fd (sh_offset s));;
        '(r, bs) ← lo_world (f_read fd (sh_size s));
        lo_mem (store_bytes current_addr bs);;
        l ← place_sections fd rest (u32 (current_addr + sh_size s));
        mret (mk_shdr (sh_type s) (sh_flags s) current_addr (sh_offset s) (sh_size s) (sh_link s) :: l)
      else l ← place_sections fd rest current_addr; mret (s :: l)
  end.
Definition total_of (shdrs : list Elf32_Shdr) : Z :=
  foldl (λ t s, if is_alloc s then u64 (t + sh_size s) else t) 0 shdrs.
(** The last table of symbols, and the relocations, of which an array holds ten. *)
Definition symtab_of (shdrs : list Elf32_Shdr) : option Elf32_Shdr :=
  list.last (filter (λ s, sh_type s = SHT_SYMTAB) shdrs).
Definition rels_of (shdrs : list Elf32_Shdr) : option (list Elf32_Shdr) :=
  let l := filter (λ s, sh_type s = SHT_REL) shdrs in if (length l <=? 10)%nat then Some l else None.

(** The base, the size and the entry, when the module could be loaded. *)
Definition elf_load_module (path : str) : M S (option (Z * Z * Z)) :=
  fd ← lo_world (f_open path O_RDONLY);
  if fd <? 0 then refuse "Failed to open module file" [] None else
  '(r, bs) ← lo_world (f_read fd SIZEOF_EHDR);
  if negb (r =? SIZEOF_EHDR) then refuse "Failed to read ELF header" [] (Some fd) else
  ehdr ← of_option (ehdr_of bs);
  if negb (bool_decide (take 4 (e_ident ehdr) = [0x7f; 69; 76; 70])) then refuse "Invalid ELF magic" [] (Some fd) else
  if negb ((e_type ehdr =? ET_REL) && (e_machine ehdr =? EM_386)) then refuse "Unsupported ELF type/machine" [] (Some fd) else
  shdrs_p ← lo_world (mw_kmalloc (e_shnum ehdr * SIZEOF_SHDR));
  if shdrs_p =? NULL then refuse "Failed to allocate section headers" [] (Some fd) else
  lo_world (mw_lseek fd (e_shoff ehdr));;
  '(_, bs) ← lo_world (f_read fd (e_shnum ehdr * SIZEOF_SHDR));
  shdrs ← of_option (shdrs_of (Z.to_nat (e_shnum ehdr)) bs);
  strtab_sh ← of_option (shdrs !! Z.to_nat (e_shstrndx ehdr));
  strtab ← lo_world (mw_kmalloc (sh_size strtab_sh));
  if strtab =? NULL then refuse "Failed to allocate string table" [shdrs_p] (Some fd) else
  lo_world (mw_lseek fd (sh_offset strtab_sh));;
  lo_world (f_read fd (sh_size strtab_sh));;
  let total_size := total_of shdrs in
  base ← lo_world (mw_kmalloc total_size);
  if base =? NULL then refuse "Failed to allocate module memory" [strtab; shdrs_p] (Some fd) else
  shdrs ← place_sections fd shdrs (u32 base);
  rels ← of_option (rels_of shdrs);
  r ← (match symtab_of shdrs with
       | Some symtab =>
           if (0 <? length rels)%nat then
             strtab ← of_option (shdrs !! Z.to_nat (sh_link symtab));
             elf_resolve_symbols base symtab strtab rels
           else mret 0
       | None => mret 0
       end);
  if negb (r =? 0) then refuse "Failed to resolve symbols" [base; strtab; shdrs_p] (Some fd) else
  lo_world (mw_kfree strtab);; lo_world (mw_kfree shdrs_p);; lo_world (f_close fd);;
  mret (Some (base, total_size, e_entry ehdr)).
End loader.

(** ** The table of modules *)

Definition MAX_LKMS : Z := 256.
(** Of the fields the version and the dependencies are nowhere read. *)
Record lkm_module := mk_lkm { lm_name : option str; lm_init : Z; lm_exit : Z; lm_core : Z; lm_size : Z }.
Definition no_lkm : lkm_module := mk_lkm None 0 0 0 0.

Record lkms (W : Type) := mk_lkms { loaded_lkms : list lkm_module; lkm_count : Z; lk_loader : loader W }.
Arguments mk_lkms {W}.
Arguments loaded_lkms {W}.
Arguments lkm_count {W}.
Arguments lk_loader {W}.

Section lkm.
  Context {W : Type} `{FI : !Files W} `{MW : !ModuleWorld W}.
  Abbreviation S := (lkms W).
  (** Running the function at an address. *)
  Context (run_init : Z → M (loader W) Z) (run_exit : Z → M (loader W) unit).

Definition on_loader {B} (m : M (loader W) B) : M S B := zoom lk_loader (λ l s, mk_lkms (loaded_lkms s) (lkm_count s) l) m.
Definition set_table (t : list lkm_module) (n : Z) : M S unit := modify (λ s, mk_lkms t n (lk_loader s)).

Definition lkm_init : M S Z :=
  on_loader (lo_world (mw_print (chars "[LKM] ")));;
  on_loader (lo_world (mw_print (chars "init loadable kernel modules system" ++ [10])));;
  set_table (replicate 256 no_lkm) 0;; mret 0.
(** [loaded_lkms[lkm_count++]], with the fields that are assigned. *)
Definition lkm_load (path : str) : M S Z :=
  s ← get;
  if MAX_LKMS <=? lkm_count s then mret (-1) else
  r ← on_loader (elf_load_module path);
  match r with
  | None => mret (-1)
  | Some (module_base, module_size, entry_point) =>
      r ← on_loader (run_init entry_point);
      if negb (r =? 0) then on_loader (lo_world (mw_kfree module_base));; mret (-1) else
      s ← get;
      slot ← of_option (loaded_lkms s !! Z.to_nat (lkm_count s));
      set_table (<[Z.to_nat (lkm_count s) := mk_lkm (Some (chars "unknown")) entry_point (lm_exit slot) module_base module_size]> (loaded_lkms s))
        (lkm_count s + 1);;
      mret 0
  end.
(** The first module of a name among the next [n]; a module without a name cannot be compared. *)
Fixpoint lkm_search (n : nat) (t : list lkm_module) (i : Z) (name : str) : option (option Z) :=
  match n with
  | O => Some None
  | Datatypes.S n' =>
      m ← t !! Z.to_nat i; nm ← lm_name m;
      if bool_decide (nm = name) then Some (Some i) else lkm_search n' t (i + 1) name
  end.
(** [for (int j = i; j < lkm_count - 1; j++) loaded_lkms[j] = loaded_lkms[j + 1];] *)
Fixpoint move_down (n : nat) (t : list lkm_module) (j : Z) : option (list lkm_module) :=
  match n with
  | O => Some t
  | Datatypes.S n' => m ← t !! Z.to_nat (j + 1); move_down n' (<[Z.to_nat j := m]> t) (j + 1)
  end.
Definition lkm_unload (name : str) : M S Z :=
  s ← get;
  found ← of_option (lkm_search (Z.to_nat (lkm_count s)) (loaded_lkms s) 0 name);
  match found with
  | None => mret (-1)
  | Some i =>
      m ← of_option (loaded_lkms s !! Z.to_nat i);
      (if truthy (lm_exit m) then on_loader (run_exit (lm_exit m)) else mret tt);;
      (if truthy (lm_core m) then on_loader (lo_world (mw_kfree (lm_core m))) else mret tt);;
      t ← of_option (move_down (Z.to_nat (lkm_count s - 1 - i)) (loaded_lkms s) i);
      set_table t (lkm_count s - 1);;
      mret 0
  end.
Definition lkm_find (name : str) : M S (option Z) :=
  s ← get; of_option (lkm_search (Z.to_nat (lkm_count s)) (loaded_lkms s) 0 name).
Definition lkm_register_builtin (mod_ : option lkm_module) : M S Z :=
  s ← get;
  match mod_ with
  | None => mret (-1)
  | Some m =>
      if MAX_LKMS <=? lkm_count s then mret (-1) else
      set_table (<[Z.to_nat (lkm_count s) := m]> (loaded_lkms s)) (lkm_count s + 1);; mret 0
  end.
End lkm.

(** ** Relocation *)

(** The word of 32 bits at an address. *)
Definition word_at (m : mem) (a : Z) : Z := le_combine ((λ i, default 0 (m !! (a + i))) <$> [0; 1; 2; 3]).

Lemma mapped_bytes p m : mapped p 4 m → bytes_at p ((λ i, default 0 (m !! (p + i))) <$> [0; 1; 2; 3]) m.
Proof.
  intros Hm i b Hi. apply list_lookup_fmap_Some in Hi as (k & -> & Hk).
  destruct (Hm (p + Z.of_nat i)) as [v Hv].
  { apply lookup_lt_Some in Hk. cbn in Hk. lia. }
  assert (k = Z.of_nat i) as -> by (do 4 (destruct i as [|i]; [cbn in Hk; injection Hk as <-; lia|]); done).
  by rewrite Hv.
Qed.
Lemma load32_run p m : mapped p 4 m → load32 p m = Done (word_at m p) m.
Proof. intros H. pose proof (load_bytes_run p _ m (mapped_bytes p m H)) as E. change (length _) with 4%nat in E.
  unfold load32. by mrun E.
Qed.
Lemma store32_run p v m : mapped p 4 m → store32 p v m = Done tt (mem_write p (le_split 4 v) m).
Proof. intros H. apply store_bytes_run; [by rewrite length_le_split|apply le_split_bytes]. Qed.
Lemma load32_at p v m : bytes_at p (le_split 4 v) m → 0 ≤ v < 2 ^ 32 → load32 p m = Done v m.
Proof.
  intros H Hv. pose proof (load_bytes_run p _ m H) as E. change (length _) with 4%nat in E. unfold load32. mrun E. by rewrite le_combine_split, Z.mod_small.
Qed.

(** A relocation, its bytes, and the table of symbols that the loader has copied. *)
Record rel := mk_rel { re_offset : Z; re_type : Z; re_sym : nat }.
Definition rel_bytes (r : rel) : list Z := le_split 4 (re_offset r) ++ le_split 4 (re_type r + 2 ^ 8 * Z.of_nat (re_sym r)).
Definition sym_bytes (s : Elf32_Sym) : list Z := le_split 4 (st_name s) ++ le_split 4 (st_value s) ++ replicate 6 0 ++ le_split 2 (st_shndx s).
Definition sym_ok (s : Elf32_Sym) : Prop := 0 ≤ st_name s < 2 ^ 32 ∧ 0 ≤ st_value s < 2 ^ 32 ∧ 0 ≤ st_shndx s < 2 ^ 16.

Lemma field_of (n i : nat) fields y off : fields !! i = Some y → off = length (concat (take i fields)) → length y = n →
  field n off (concat fields) = Some (le_combine y).
Proof.
  intros Hi -> <-. rewrite <-(take_drop_middle _ _ _ Hi) at 2. rewrite concat_app. cbn [concat]. unfold field.
  rewrite !length_app, (proj2 (Nat.leb_le _ _)) by lia. by rewrite drop_app_length, take_app_length.
Qed.

Lemma sym_of_bytes s : sym_ok s → sym_of (sym_bytes s) = Some s.
Proof.
  intros (Hn & Hv & Hx). destruct s as [n v x]. cbn [st_name st_value st_shndx] in *.
  assert (∀ k z, 0 ≤ z < 2 ^ (8 * Z.of_nat k) → le_combine (le_split k z) = z) as E.
  { intros k z Hz. by rewrite le_combine_split, Z.mod_small. }
  set (fields := [le_split 4 n; le_split 4 v; replicate 6 0; le_split 2 x]).
  assert (sym_bytes (mk_sym n v x) = concat fields) as -> by (unfold sym_bytes; cbn -[le_split]; by rewrite app_nil_r).
  unfold sym_of. rewrite (field_of 4 0 fields (le_split 4 n) 0) by done. cbn [mbind option_bind].
  rewrite (field_of 4 1 fields (le_split 4 v) 4) by done. cbn [mbind option_bind].
  rewrite (field_of 2 3 fields (le_split 2 x) 14) by done. cbn [mbind option_bind]. by rewrite (E 4%nat), (E 4%nat), (E 2%nat).
Qed.

Lemma syms_lookup syms (i : nat) s : Forall sym_ok syms → syms !! i = Some s →
  sym_of (take SIZEOF_SYM (drop (i * SIZEOF_SYM) (concat (sym_bytes <$> syms)))) = Some s.
Proof.
  unfold SIZEOF_SYM. intros Hs. revert i. induction Hs as [|s' syms Hs' _ IH]; intros i Hi; [done|].
  cbn [fmap list_fmap concat]. assert (length (sym_bytes s') = 16%nat) as Hl by (unfold sym_bytes; by rewrite !length_app, !length_le_split, length_replicate).
  destruct i as [|i].
  - injection Hi as ->. cbn [Nat.mul]. rewrite drop_0, take_app_length' by done. by apply sym_of_bytes.
  - cbn [Nat.mul]. rewrite <-drop_drop, drop_app_length' by done. by apply IH.
Qed.

(** What the loader does for a relocation, at the base of the module: it takes the symbol's value as it
    is in the table and the place from the start of the module.  In a relocatable object both count
    from the start of their section, so that this is what R_386_32 and R_386_PC32 mean only for an
    object whose sections all begin where the module does. *)
Definition apply_rel (base : Z) (syms : list Elf32_Sym) (m : mem) (r : rel) : mem :=
  let s := default 0 (st_value <$> syms !! re_sym r) in
  let p := base + re_offset r in
  let v := word_at m p in
  mem_write p (le_split 4 (u32 (if re_type r =? R_386_32 then v + s else v + (s - p)))) m.
Definition rel_ok (size : Z) (syms : list Elf32_Sym) (r : rel) : Prop :=
  0 ≤ re_offset r ∧ re_offset r + 4 ≤ size ∧ size ≤ 2 ^ 32 ∧ (re_type r = R_386_32 ∨ re_type r = R_386_PC32) ∧ Z.of_nat (re_sym r) < 2 ^ 24 ∧
  ∃ s, syms !! re_sym r = Some s ∧ st_shndx s ≠ 0.

Section relocation.
  Context {W : Type} `{FI : !Files W} `{MW : !ModuleWorld W}.
  Context (base size : Z) (syms : list Elf32_Sym) (symstr : list Z) (Hsyms : Forall sym_ok syms).

Lemma rel_fields a r m : bytes_at a (rel_bytes r) m → rel_ok size syms r →
  load32 a m = Done (re_offset r) m ∧ load32 (a + 4) m = Done (re_type r + 2 ^ 8 * Z.of_nat (re_sym r)) m ∧
  ELF32_R_SYM (re_type r + 2 ^ 8 * Z.of_nat (re_sym r)) = Z.of_nat (re_sym r) ∧
  ELF32_R_TYPE (re_type r + 2 ^ 8 * Z.of_nat (re_sym r)) = re_type r.
Proof.
  intros Hb (Ho1 & Ho2 & Hs & Ht & Hk & _). apply bytes_at_app in Hb as [Hb1 Hb2]. rewrite length_le_split in Hb2.
  assert (0 ≤ re_type r < 2 ^ 8) as Htr by (destruct Ht as [-> | ->]; done).
  split; [apply load32_at; [done|lia]|]. split; [apply (load32_at (a + 4)); [done|lia]|].
  unfold ELF32_R_SYM, ELF32_R_TYPE, u8. rewrite Z.shiftr_div_pow2, (Z.mul_comm (2 ^ 8)) by lia.
  rewrite Z.div_add, Z.mod_add, Z.div_small, Z.mod_small by lia. split; lia.
Qed.

Lemma relocate_run a r (s : loader W) : bytes_at a (rel_bytes r) (l_mem s) → rel_ok size syms r → mapped base size (l_mem s) →
  relocate base (concat (sym_bytes <$> syms)) symstr a s = Done true (mk_loader (apply_rel base syms (l_mem s) r) (l_world s)).
Proof.
  intros Hb Hr Hm. destruct (rel_fields a r _ Hb Hr) as (E1 & E2 & E3 & E4).
  destruct Hr as (Ho1 & Ho2 & Hsz & Ht & Hk & (sy & Hsy & Hx)).
  assert (mapped (base + re_offset r) 4 (l_mem s)) as Hmt by (eapply mapped_sub; [exact Hm|lia|lia]).
  destruct s as [m w]. cbn [l_mem l_world] in *. unfold relocate, lo_mem, zoom. mred. cbn [l_mem l_world].
  rewrite E1. cbn [l_mem l_world]. rewrite E2. cbn [l_mem l_world]. rewrite E3, E4, Nat2Z.id, (syms_lookup syms _ sy Hsyms Hsy).
  unfold of_option. mred. rewrite (proj2 (Z.eqb_neq (st_shndx sy) 0) Hx). cbn [andb].
  rewrite (proj2 (truthy_true _) Hx). unfold apply_rel. rewrite Hsy. cbn [fmap option_fmap option_map default].
  destruct Ht as [-> | ->].
  - rewrite Z.eqb_refl. cbn [l_mem l_world]. rewrite (load32_run _ _ Hmt). cbn [l_mem l_world].
    by rewrite (store32_run _ _ _ Hmt).
  - change (R_386_PC32 =? R_386_32) with false. cbn [l_mem l_world]. rewrite Z.eqb_refl. cbn [l_mem l_world]. rewrite (load32_run _ _ Hmt). cbn [l_mem l_world].
    rewrite (store32_run _ _ _ Hmt). cbn [l_mem l_world]. do 3 f_equal. unfold u32.
    rewrite Z.add_mod_idemp_r by lia. apply (f_equal (λ x, le_split 4 x)).
    rewrite <-(Z.add_mod_idemp_r _ (st_value sy - (base + re_offset r) mod 2 ^ 32)), Zminus_mod_idemp_r, Z.add_mod_idemp_r by lia. done.
Qed.

(** The table stays as it is when it lies outside the module. *)
Lemma apply_rel_frame r q cs m : rel_ok size syms r → base + size ≤ q ∨ q + Z.of_nat (length cs) ≤ base →
  bytes_at q cs m → bytes_at q cs (apply_rel base syms m r).
Proof.
  intros (Ho1 & Ho2 & _) Hq Hb. unfold apply_rel. apply bytes_at_frame; [done|]. rewrite length_le_split. lia.
Qed.

Lemma relocate_all_run a rs (s : loader W) : bytes_at a (concat (rel_bytes <$> rs)) (l_mem s) → Forall (rel_ok size syms) rs →
  mapped base size (l_mem s) → base + size ≤ a ∨ a + Z.of_nat (length (concat (rel_bytes <$> rs))) ≤ base →
  relocate_all (length rs) base (concat (sym_bytes <$> syms)) symstr a s
  = Done true (mk_loader (foldl (apply_rel base syms) (l_mem s) rs) (l_world s)).
Proof.
  revert a s. induction rs as [|r rs IH]; intros a s Hb Hrs Hm Hd; cbn [relocate_all length foldl]; [by destruct s|].
  apply Forall_cons_1 in Hrs as [Hr Hrs]. cbn [fmap list_fmap concat] in *. rewrite length_app, Nat2Z.inj_add in Hd.
  apply bytes_at_app in Hb as [Hb1 Hb2]. assert (length (rel_bytes r) = 8%nat) as Hl by (unfold rel_bytes; by rewrite length_app, !length_le_split).
  rewrite Hl in *. mrun (relocate_run a r s Hb1 Hr Hm).
  rewrite (IH (a + SIZEOF_REL)); cbn [l_mem l_world]; [done| |done| |unfold SIZEOF_REL; lia].
  - apply apply_rel_frame; [done|unfold SIZEOF_REL; lia|done].
  - unfold apply_rel. by apply mapped_write.
Qed.

(** The relocations of a table that lies outside the module, names only symbols the module defines and
    has only the two known types are applied one after the other as [apply_rel] has it, and nothing
    outside the module changes. *)
Lemma relocate_all_frame (a : Z) (rs : list rel) (s : loader W)
    (Hb : bytes_at a (concat (rel_bytes <$> rs)) (l_mem s)) (Hrs : Forall (rel_ok size syms) rs) (Hm : mapped base size (l_mem s))
    (Hd : base + size ≤ a ∨ a + Z.of_nat (length (concat (rel_bytes <$> rs))) ≤ base) :
  relocate_all (length rs) base (concat (sym_bytes <$> syms)) symstr a s
    = Done true (mk_loader (foldl (apply_rel base syms) (l_mem s) rs) (l_world s)) ∧
  ∀ q, q < base ∨ base + size ≤ q → foldl (apply_rel base syms) (l_mem s) rs !! q = l_mem s !! q.
Proof.
  split; [by apply relocate_all_run|]. intros q Hq. clear Hb Hd Hm. generalize (l_mem s). induction Hrs as [|r rs Hr _ IH]; intros m; [done|].
  cbn [foldl]. rewrite IH. unfold apply_rel. destruct Hr as (Ho1 & Ho2 & _). apply lookup_mem_write_out. rewrite length_le_split. lia.
Qed.
End relocation.

(** A relocation that names a symbol of the kernel is refused, whatever the symbol. *)
Lemma undefined_refused {W} `{FI : !Files W} `{MW : !ModuleWorld W} (base a : Z) (syms : list Elf32_Sym) (symstr : list Z)
    (off type : Z) (k : nat) (s : loader W) sy :
  Forall sym_ok syms → bytes_at a (le_split 4 off ++ le_split 4 (type + 2 ^ 8 * Z.of_nat k)) (l_mem s) →
  0 ≤ off < 2 ^ 32 → 0 ≤ type < 2 ^ 8 → Z.of_nat k < 2 ^ 24 → syms !! k = Some sy → st_shndx sy = 0 →
  (∀ t w, ∃ w', mw_print t w = Done tt w') →
  ∃ w', relocate base (concat (sym_bytes <$> syms)) symstr a s = Done false (mk_loader (l_mem s) w').
Proof.
  intros Hsyms Hb Ho Ht Hk Hsy Hx Hprint. apply bytes_at_app in Hb as [Hb1 Hb2]. rewrite length_le_split in Hb2.
  pose proof (load32_at _ _ _ Hb1 Ho) as E1. pose proof (load32_at _ _ _ Hb2 ltac:(lia)) as E2. change (Z.of_nat 4) with 4 in E2.
  destruct s as [m w]. cbn [l_mem l_world] in *.
  destruct (Hprint (chars "Unresolved symbol: " ++ default [] (name_at symstr (st_name sy)) ++ [10]) w) as [w' Ew].
  exists w'. unfold relocate, lo_mem, lo_world, zoom. mred. cbn [l_mem l_world]. rewrite E1. cbn [l_mem l_world]. rewrite E2. cbn [l_mem l_world].
  assert (ELF32_R_SYM (type + 2 ^ 8 * Z.of_nat k) = Z.of_nat k) as ->.
  { unfold ELF32_R_SYM. rewrite Z.shiftr_div_pow2, (Z.mul_comm (2 ^ 8)) by lia. rewrite Z.div_add, Z.div_small by lia. lia. }
  rewrite Nat2Z.id, (syms_lookup syms _ sy Hsyms Hsy). unfold of_option. mred. rewrite Hx. cbn [truthy Z.eqb negb andb].
  unfold elf_lookup_symbol, kernel_symbol_lookup. change (u32 NULL =? 0) with true. cbn [l_world]. by rewrite Ew.
Qed.

(** ** The table of modules as a list *)

Definition modules {W} (s : lkms W) : list lkm_module := take (Z.to_nat (lkm_count s)) (loaded_lkms s).
Definition named (m : lkm_module) : Prop := lm_name m ≠ None.
Definition table_ok {W} (s : lkms W) : Prop :=
  length (loaded_lkms s) = 256%nat ∧ 0 ≤ lkm_count s ≤ 256 ∧ Forall named (modules s).

(** The place of the first module of a name. *)
Definition place_of (name : str) (l : list lkm_module) : option nat := fst <$> list_find (λ m, lm_name m = Some name) l.

Lemma search_run n t i name : Forall named (take n (drop i t)) → (i + n ≤ length t)%nat →
  lkm_search n t (Z.of_nat i) name = Some ((λ k, Z.of_nat (i + k)) <$> place_of name (take n (drop i t))).
Proof.
  revert i. induction n as [|n IH]; intros i Hn Hl; [done|].
  destruct (lookup_lt_is_Some_2 t i ltac:(lia)) as [m Hm]. rewrite (drop_S t m i Hm) in *. cbn [take lkm_search] in *.
  apply Forall_cons_1 in Hn as [Hm0 Hn]. rewrite Nat2Z.id, Hm. cbn [mbind option_bind].
  destruct (lm_name m) as [nm|] eqn:En; [|by destruct Hm0]. cbn [mbind option_bind]. unfold place_of. cbn [list_find].
  destruct (decide (lm_name m = Some name)) as [Hd|Hd]; rewrite En in Hd.
  - injection Hd as ->. rewrite bool_decide_eq_true_2 by done. cbn. by rewrite Nat.add_0_r.
  - rewrite bool_decide_eq_false_2 by congruence. replace (Z.of_nat i + 1) with (Z.of_nat (Datatypes.S i)) by lia.
    rewrite IH by (done || lia). f_equal. unfold place_of. destruct (list_find _ (take n _)) as [[k x]|]; [|done]. cbn. f_equal. lia.
Qed.

Lemma move_down_run n t j : (j + n < length t)%nat →
  ∃ t', move_down n t (Z.of_nat j) = Some t' ∧ length t' = length t ∧
    take (j + n) t' = take j t ++ take n (drop (Datatypes.S j) t).
Proof.
  revert t j. induction n as [|n IH]; intros t j Hl; cbn [move_down].
  { exists t. rewrite Nat.add_0_r, app_nil_r. done. }
  replace (Z.of_nat j + 1) with (Z.of_nat (Datatypes.S j)) by lia. rewrite !Nat2Z.id.
  destruct (lookup_lt_is_Some_2 t (Datatypes.S j) ltac:(lia)) as [m Hm]. rewrite Hm. cbn [mbind option_bind].
  destruct (IH (<[j := m]> t) (Datatypes.S j)) as (t' & E & Hl' & Ht); [rewrite length_insert; lia|].
  exists t'. split; [exact E|]. rewrite length_insert in Hl'. split; [done|].
  replace (j + Datatypes.S n)%nat with (Datatypes.S j + n)%nat by lia. rewrite Ht.
  rewrite (drop_insert_lt t) by lia. rewrite (drop_S t m (Datatypes.S j) Hm). cbn [take].
  rewrite (take_S_r _ _ m) by (rewrite list_lookup_insert_eq by lia; done).
  rewrite take_insert_ge, <-app_assoc by lia. done.
Qed.

(** ** What is asked of the table, and what it means on the list *)

Inductive lkm_op := Register (m : lkm_module) | Find (name : str) | Unload (name : str).
Definition op_ok (o : lkm_op) : Prop := match o with Register m => named m | _ => True end.
Definition spec_op (o : lkm_op) (l : list lkm_module) : Z * list lkm_module :=
  match o with
  | Register m => if (length l <? 256)%nat then (0, l ++ [m]) else (-1, l)
  | Find name => (default (-1) (Z.of_nat <$> place_of name l), l)
  | Unload name => match place_of name l with Some k => (0, delete k l) | None => (-1, l) end
  end.
Fixpoint spec_ops (os : list lkm_op) (l : list lkm_module) : list Z * list lkm_module :=
  match os with
  | [] => ([], l)
  | o :: os' => let '(r, l) := spec_op o l in let '(rs, l) := spec_ops os' l in (r :: rs, l)
  end.

Section table.
  Context {W : Type} `{FI : !Files W} `{MW : !ModuleWorld W}.
  Context (run_exit : Z → M (loader W) unit).
  Context (Hexit : ∀ p l, ∃ l', run_exit p l = Done tt l') (Hfree : ∀ p w, ∃ w', mw_kfree p w = Done tt w').
  Abbreviation S := (lkms W).

Definition run_op (o : lkm_op) : M S Z :=
  match o with
  | Register m => lkm_register_builtin (Some m)
  | Find name => r ← lkm_find name; mret (default (-1) r)
  | Unload name => lkm_unload run_exit name
  end.
Fixpoint run_ops (os : list lkm_op) : M S (list Z) :=
  match os with [] => mret [] | o :: os' => r ← run_op o; rs ← run_ops os'; mret (r :: rs) end.

Lemma modules_length (s : S) : table_ok s → length (modules s) = Z.to_nat (lkm_count s).
Proof. intros (Hl & Hc & _). unfold modules. rewrite length_take. lia. Qed.

Lemma lkm_register_run m (s : S) : table_ok s → named m →
  wp (lkm_register_builtin (Some m)) (λ r s', table_ok s' ∧ (r, modules s') = spec_op (Register m) (modules s)) s.
Proof.
  intros Hok Hm. pose proof (modules_length s Hok) as Hlen. destruct Hok as (Hl & Hc & Hn). apply wp_bind, wp_get. cbn [spec_op].
  unfold MAX_LKMS. destruct (Z.leb_spec 256 (lkm_count s)).
  - apply wp_ret. rewrite (proj2 (Nat.ltb_ge _ _)) by lia. done.
  - apply wp_bind, wp_modify, wp_ret. rewrite (proj2 (Nat.ltb_lt _ _)) by lia.
    assert (modules (mk_lkms (<[Z.to_nat (lkm_count s) := m]> (loaded_lkms s)) (lkm_count s + 1) (lk_loader s)) = modules s ++ [m]) as E.
    { unfold modules. cbn [lkm_count loaded_lkms]. replace (Z.to_nat (lkm_count s + 1)) with (Datatypes.S (Z.to_nat (lkm_count s))) by lia.
      rewrite (take_S_r _ _ m) by (rewrite list_lookup_insert_eq by lia; done). by rewrite take_insert_ge by lia. }
    split; [|by rewrite E]. split; cbn [loaded_lkms lkm_count]; [by rewrite length_insert|]. split; [lia|].
    rewrite E. apply Forall_app_2; [done|]. by apply Forall_singleton.
Qed.

Lemma table_search name (s : S) : table_ok s →
  lkm_search (Z.to_nat (lkm_count s)) (loaded_lkms s) 0 name = Some (Z.of_nat <$> place_of name (modules s)).
Proof.
  intros (Hl & Hc & Hn). unfold modules in *. pose proof (search_run (Z.to_nat (lkm_count s)) (loaded_lkms s) 0 name Hn ltac:(lia)) as E.
  rewrite drop_0 in E. exact E.
Qed.

(** Whatever is run, the table stays. *)
Definition same_table (s s' : S) : Prop := loaded_lkms s' = loaded_lkms s ∧ lkm_count s' = lkm_count s.
Lemma loader_run (m : M (loader W) unit) (b : bool) (s : S) : (∀ l, ∃ l', m l = Done tt l') →
  wp (if b then on_loader m else mret tt) (λ _, same_table s) s.
Proof.
  intros Hm. destruct b; [|by apply wp_ret]. destruct (Hm (lk_loader s)) as [l' E]. unfold wp, on_loader, zoom. by rewrite E.
Qed.

Lemma unload_run name (s : S) : table_ok s →
  wp (lkm_unload run_exit name) (λ r s', table_ok s' ∧ (r, modules s') = spec_op (Unload name) (modules s)) s.
Proof.
  intros Hok. pose proof (modules_length s Hok) as Hlen. apply wp_bind, wp_get, wp_bind. eapply wp_of_option; [by apply table_search|].
  cbn [spec_op]. destruct (place_of name (modules s)) as [k|] eqn:Ek; [|by apply wp_ret]. cbn [fmap option_fmap option_map].
  unfold place_of in Ek. destruct (list_find _ _) as [[k' m]|] eqn:Ef; [|done]. injection Ek as ->. apply list_find_Some in Ef as (Hk & _ & _).
  pose proof (lookup_lt_Some _ _ _ Hk) as Hlt. unfold modules in Hk. rewrite lookup_take_Some in Hk. destruct Hk as [Hk _].
  destruct Hok as (Hl & Hc & Hn). apply wp_bind. eapply wp_of_option; [by rewrite Nat2Z.id|].
  apply wp_bind. eapply wp_mono; [apply loader_run, Hexit|]. intros _ s1 [T1 C1].
  apply wp_bind. eapply wp_mono.
  { apply (loader_run (lo_world (mw_kfree (lm_core m))) (truthy (lm_core m)) s1). intros l. unfold lo_world, zoom.
    destruct (Hfree (lm_core m) (l_world l)) as [w' ->]. eauto. }
  intros _ s2 [T2 C2]. apply wp_bind.
  destruct (move_down_run (Z.to_nat (lkm_count s - 1 - Z.of_nat k)) (loaded_lkms s) k ltac:(lia)) as (t & Et & Hlt' & Ht).
  eapply wp_of_option; [exact Et|]. apply wp_bind, wp_modify, wp_ret.
  assert (modules (mk_lkms t (lkm_count s - 1) (lk_loader s2)) = delete k (modules s)) as E.
  { unfold modules. cbn [loaded_lkms lkm_count]. replace (Z.to_nat (lkm_count s - 1)) with (k + Z.to_nat (lkm_count s - 1 - Z.of_nat k))%nat by lia.
    rewrite Ht, delete_take_drop, take_take, Nat.min_l by lia. f_equal. rewrite skipn_firstn_comm. f_equal. lia. }
  split; [|by rewrite E]. split; cbn [loaded_lkms lkm_count]; [by rewrite Hlt'|]. split; [lia|].
  rewrite E. rewrite delete_take_drop. apply Forall_app_2; [by apply Forall_take|by apply Forall_drop].
Qed.

Lemma lkm_op_run o (s : S) : table_ok s → op_ok o →
  wp (run_op o) (λ r s', table_ok s' ∧ (r, modules s') = spec_op o (modules s)) s.
Proof.
  intros Hok Ho. destruct o as [m|name|name]; cbn [run_op].
  - by apply lkm_register_run.
  - apply wp_bind. unfold lkm_find. apply wp_bind, wp_get. eapply wp_of_option; [by apply table_search|]. by apply wp_ret.
  - by apply unload_run.
Qed.

(** C14: The table of modules is a list.  Any sequence of registrations, searches and removals gives
    the results, and leaves the modules, that the same sequence does on a list that holds at most
    256: modules are added at the end, found by the first of a name, and removed without disturbing
    the order of the others; no element outside the table is read or written.  The modules
    registered have names, and the functions called when they leave return. *)
Theorem lkms_refine_list (os : list lkm_op) (s : S) (Hos : Forall op_ok os) (Hok : table_ok s) :
  wp (run_ops os) (λ rs s', table_ok s' ∧ (rs, modules s') = spec_ops os (modules s)) s.
Proof.
  revert s Hok. induction Hos as [|o os Ho _ IH]; intros s Hok; [by apply wp_ret|]. cbn [run_ops spec_ops].
  apply wp_bind. eapply wp_mono; [by apply lkm_op_run|]. intros r s1 [Hok1 E1]. rewrite <-E1. cbv beta iota.
  apply wp_bind. eapply wp_mono; [by apply IH|]. intros rs s2 [Hok2 E2]. rewrite <-E2. cbv beta iota. by apply wp_ret.
Qed.
End table.

(** ** A world of modules *)

Record lkm_world := mk_lkm_world { kw_file : str; kw_pos : nat; kw_next : Z; kw_said : str }.
#[local] Instance kw_files : Files lkm_world := {|
  f_open p flags := λ w, Done 3 (mk_lkm_world (kw_file w) 0 (kw_next w) (kw_said w));
  f_read fd n := λ w, let bs := take (Z.to_nat n) (drop (kw_pos w) (kw_file w)) in
    Done (Z.of_nat (length bs), bs) (mk_lkm_world (kw_file w) (kw_pos w + length bs) (kw_next w) (kw_said w));
  f_write fd bs := mret (-1);
  f_close fd := mret 0;
|}.
#[local] Instance kw_modules : ModuleWorld lkm_world := {|
  mw_lseek fd off := modify (λ w, mk_lkm_world (kw_file w) (Z.to_nat off) (kw_next w) (kw_said w));
  mw_kmalloc n := λ w, Done (kw_next w) (mk_lkm_world (kw_file w) (kw_pos w) (kw_next w + n) (kw_said w));
  mw_kfree p := mret tt;
  mw_print t := modify (λ w, mk_lkm_world (kw_file w) (kw_pos w) (kw_next w) (kw_said w ++ t));
|}.
Definition kw_loader (file : str) (m : mem) : loader lkm_world := mk_loader m (mk_lkm_world file 0 0x100000 []).
Definition kw_exit (p : Z) : M (loader lkm_world) unit := mret tt.
Definition demo_lkm (name : String.string) (p : Z) : lkm_module := mk_lkm (Some (chars name)) p 0 p 64.
Definition demo_lkms : lkms lkm_world := mk_lkms (replicate 256 no_lkm) 0 (kw_loader [] ∅).
Definition demo_ops : list lkm_op :=
  [Register (demo_lkm "a" 1); Register (demo_lkm "b" 2); Register (demo_lkm "c" 3); Unload (chars "b"); Find (chars "c"); Unload (chars "x")].
Example demo_ops_spec : spec_ops demo_ops [] = ([0; 0; 0; 0; 1; -1], [demo_lkm "a" 1; demo_lkm "c" 3]).
Proof. by vm_compute. Qed.
Lemma lkms_refine_list_witness :
  wp (run_ops kw_exit demo_ops) (λ rs s', table_ok s' ∧ (rs, modules s') = spec_ops demo_ops (modules demo_lkms)) demo_lkms.
Proof.
  apply (lkms_refine_list kw_exit).
  - intros p l. by exists l.
  - intros p w. by exists w.
  - repeat (apply Forall_cons_2; [done|]). by apply Forall_nil_2.
  - split; [by vm_compute|]. split; [done|]. by apply Forall_nil_2.
Defined.

(** Two relocations of a word of code. *)
Definition demo_syms : list Elf32_Sym := [mk_sym 0 0 0; mk_sym 1 0x40 1; mk_sym 5 0 0].
Definition demo_rels : list rel := [mk_rel 0 R_386_32 1; mk_rel 4 R_386_PC32 1].
Definition demo_code : mem := mem_write 0x2000 (concat (rel_bytes <$> demo_rels)) (mem_write 0x1000 (replicate 16 1) ∅).
Example demo_relocated :
  relocate_all 2 0x1000 (concat (sym_bytes <$> demo_syms)) [] 0x2000 (kw_loader [] demo_code)
    = Done true (mk_loader (foldl (apply_rel 0x1000 demo_syms) demo_code demo_rels) (mk_lkm_world [] 0 0x100000 [])) ∧
  ∀ q, q < 0x1000 ∨ 0x1000 + 16 ≤ q → foldl (apply_rel 0x1000 demo_syms) demo_code demo_rels !! q = demo_code !! q.
Proof.
  apply (relocate_all_frame 0x1000 16 demo_syms [] ltac:(repeat (apply Forall_cons_2; [done|]); by apply Forall_nil_2) 0x2000 demo_rels (kw_loader [] demo_code)).
  - apply bytes_at_write.
  - repeat (apply Forall_cons_2; [split_and!; [done|done|done|by (left + right)|done|by eexists]|]). by apply Forall_nil_2.
  - cbn [l_mem kw_loader]. apply mapped_write. intros q Hq. apply (bytes_at_mapped 0x1000 (replicate 16 1)); [apply bytes_at_write|done].
  - left. done.
Defined.
Example demo_words : (λ m, (word_at m 0x1000, word_at m 0x1004)) (foldl (apply_rel 0x1000 demo_syms) demo_code demo_rels)
  = (0x01010141, u32 (0x01010101 + 0x40 - 0x1004)).
Proof. by vm_compute. Qed.

(** A file with a section of code, and the memory it is loaded to. *)
Definition elf_header (shoff shnum : Z) : list Z :=
  [0x7f; 69; 76; 70] ++ replicate 12 0 ++ le_split 2 ET_REL ++ le_split 2 EM_386 ++ replicate 12 0 ++ le_split 4 shoff ++
  replicate 12 0 ++ le_split 2 shnum ++ le_split 2 0.
Definition section_header (type flags offset size link : Z) : list Z :=
  replicate 4 0 ++ le_split 4 type ++ le_split 4 flags ++ replicate 4 0 ++ le_split 4 offset ++ le_split 4 size ++ le_split 4 link ++ replicate 12 0.
Definition demo_elf : str :=
  elf_header 60 2 ++ [1; 2; 3; 4; 5; 6; 7; 8] ++ section_header 0 0 0 0 0 ++ section_header 1 SHF_ALLOC 52 8 0.
Definition load_area (p : Z) : mem := mem_write p (replicate 16 0) ∅.
(** What it gives: the entry is the offset in the file's header, 0, and not an address of the module. *)
Example elf_loads :
  match elf_load_module (chars "/m.ko") (kw_loader demo_elf (load_area 0x100050)) with
  | Done r s => (r, word_at (l_mem s) 0x100050) = (Some (0x100050, 8, 0), 0x04030201)
  | _ => False end.
Proof. by vm_compute. Qed.
(** Memory above four gigabytes: the section is read to the address cut to 32 bits. *)
Example elf_truncated :
  elf_load_module (chars "/m.ko") (mk_loader (load_area (2 ^ 32 + 0x50)) (mk_lkm_world demo_elf 0 (2 ^ 32) [])) = Stuck Fault.
Proof. by vm_compute. Qed.
(** The table of symbols is not loaded, so its address is 0: the first relocation reads there. *)
Definition demo_elf_rel : str :=
  elf_header 60 4 ++ [1; 2; 3; 4; 5; 6; 7; 8] ++ section_header 0 0 0 0 0 ++ section_header 1 SHF_ALLOC 52 8 0 ++
  section_header SHT_SYMTAB 0 52 8 0 ++ section_header SHT_REL 0 52 8 2.
Example symbols_not_loaded : elf_load_module (chars "/m.ko") (kw_loader demo_elf_rel (load_area 0x1000A0)) = Stuck Fault.
Proof. by vm_compute. Qed.
(** A module that is loaded where another was keeps that one's function for the end. *)
Example stale_exit :
  match (lkm_register_builtin (Some (mk_lkm (Some (chars "a")) 1 0x77 0 0));; lkm_unload kw_exit (chars "a");;
         lkm_load (λ p, mret 0) (chars "/m.ko")) (mk_lkms (replicate 256 no_lkm) 0 (kw_loader demo_elf (load_area 0x100050))) with
  | Done r s => (r, modules s) = (0, [mk_lkm (Some (chars "unknown")) 0 0x77 0x100050 8])
  | _ => False end.
Proof. by vm_compute. Qed.
