(* ===== verification/Boot.v ===== *)
(** * Start-up, [core/kernel/kernel.c]

    The kernel starts its parts one after the other, says so, and then serves the devices for
    ever.  The parts are the other files of this library; what the start asks of them is the
    type [call], and the world [W] answers.  What the boot loader hands over is [boot_facts]. *)

From Stdlib Require Import ZArith Lia String.
From stdpp Require Import base gmap list numbers.
From S2P Require Import Prelude Memory CString PhysMem KernelMemory Ports Pci Buffer Font Display Console Mouse Window Cmos Cpu.
Open Scope Z_scope.
Set Default Goal Selector "!".

Definition HEAP_START : Z := 0xFFFF800000000000.
Definition GRAPHICS_START : Z := HEAP_START + HEAP_SIZE.
Definition GRAPHICS_SIZE : Z := 1024 * 1024 * 32.
Definition ULIME_START : Z := GRAPHICS_START + GRAPHICS_SIZE.
Definition ULIME_META_SIZE : Z := 1024 * 1024 * 2.

Record limine_framebuffer := mk_fb { fb_address : Z; fb_w : Z; fb_h : Z; fb_pitch : Z; fb_bpp : Z }.
Record boot_facts := mk_facts {
  bf_framebuffers : option (list limine_framebuffer);
  bf_memmap : option (list memmap_entry);
}.

Inductive usb := Ehci | Ohci | Uhci | Xhci.
Inductive theme := ThemeBootup | ThemeConsole.
Inductive handler := ConsoleHandler | KeyboardHandler | MouseHandler.
Inductive call :=
  | SystemPrint (text : str) (color : Z) | Printf (text : str)
  | theme_init | setcontext (t : theme) | sbootup_theme | sconsole_theme | spanic_theme | clear
  | fm_init | physmem_init_ | paging_init | map_region_alloc (start size : Z)
  | kernel_memory_init_ (start size : Z) | graphics_manager_init (fb : limine_framebuffer) (start size : Z)
  | graphics_init (fb : limine_framebuffer) (kernel_memory : Z) | graphics_disable_double_buffering
  | user_space_init (kernel_memory graphics_manager phys : Z) | fs_system_init (kernel_memory : Z)
  | cpu_detect_ | gdt_init | idt_init | smp_init | smp_get_cpu_count | per_cpu_init | initialize_scheduler
  | timer_system_initialize (freq : Z) | timer_record_boot_timestamp
  | bus_pci_initialize_ | bus_pci_device_total_
  | usb_init (u : usb) (base_addr : Z) | usb_start (u : usb) | usb_enumerate (u : usb)
  | ata_init | network_init | lkm_init | lkm_register_builtin (h : handler) | enroll_component (h : handler)
  | count_components | fs_register_mods | fs_create_test_file | fs_close (fd : Z)
  | usb_mouse_init | usb_keyboard_init | usb_keyboard_is_initialized | usb_keyboard_set_callback | keyboard_init
  | usb_mouse_is_initialized | usb_mouse_set_callback | mouse_init | usb_mouse_enable_test_mode
  | console_init | putchar (c color : Z) | shell_print_prompt | console_set_input_start_x | cursor_enable
  | usb_handle (u : usb) | network_handle_packet (packet : list Z) (len : Z) | hlt
  | mouse_set_position (x y : Z) | mouse_set_buttons (b : Z)
  | kernel_memory_alloc_ (memory size : Z) | kernel_memory_free_ (memory ptr : Z).

Class Kernel (W : Type) := {
  perform : call → M W Z;
  k_device : W → Z → option pci_device_t;          (** [bus_pci_device_at] *)
  k_mac : W → list Z;                               (** [net_config.mac] *)
  k_cpu : W → cpu_info_t;                           (** [cpu_get_info] *)
  k_time : M W cmos_time_t;                         (** [cmos_read_time] *)
  k_receive : Z → M W (Z * list Z);                 (** [network_receive_packet] *)
}.

Record boot (W : Type) := mk_boot {
  global_kernel_memory : Z;
  init_boot_log : Z;
  font_scale : Z;
  boot_completed : Z;
  bt_world : W;
}.
Arguments mk_boot {W}.
Arguments global_kernel_memory {W}.
Arguments init_boot_log {W}.
Arguments font_scale {W}.
Arguments boot_completed {W}.
Arguments bt_world {W}.

(** A message put together in an array of [n]. *)
Inductive part := Txt (t : String.string) | Num (v : Z) | Str (t : str).
Definition add_part (a : option (list Z)) (p : part) : option (list Z) :=
  b ← a; match p with Txt t => str_append b (lit t) | Num v => str_append_uint b (u32 v) | Str t => str_append b (t ++ [0]) end.
Definition compose (n : nat) (first : String.string) (parts : list part) : option (list Z) :=
  foldl add_part (str_copy (replicate n 0) (lit first)) parts.

Definition fb_info (fb : limine_framebuffer) : option (list Z) :=
  compose 64 "Resolution: " [Num (fb_w fb); Txt "x"; Num (fb_h fb); Txt " BPP: "; Num (fb_bpp fb)].
Definition mem_info (total_memory : Z) : option (list Z) :=
  compose 128 "Physical memory manager initialized - " [Num (total_memory / 1024 / 1024 / 1024); Txt "GB usable memory detected"].
Definition kernel_memory_info : option (list Z) := compose 64 "Allocated " [Num (HEAP_SIZE / 1024 / 1024); Txt "MB for kernel heap"].
Definition graphics_info : option (list Z) := compose 64 "Graphics buffer: " [Num (GRAPHICS_SIZE / 1024 / 1024); Txt "MB allocated"].
Definition cpu_detail (i : cpu_info_t) : option (list Z) :=
  compose 256 "CPU: " [Str (c_text (if nth 0 (brand i) 0 =? 0 then vendor i else brand i)); Txt " ("; Num (cores i); Txt " cores, "; Num (threads i); Txt " threads)"].
Definition smp_detail (count : Z) : option (list Z) := compose 64 "Detected " [Num count; Txt " CPUs via Limine SMP"].
Definition timer_info (freq : Z) : option (list Z) :=
  compose 64 "System timer initialized at " [Num freq; Txt "Hz ("; Num (1000 / freq); Txt "ms ticks)"].
Definition ap_detail (count : Z) : option (list Z) := compose 64 "Attempted to start " [Num (count - 1); Txt " application processors"].
Definition pci_info (count : Z) : option (list Z) := compose 64 "PCI/PCIe subsystem initialized - " [Num count; Txt " devices enumerated"].
Definition components_info (count : Z) : option (list Z) := compose 64 "" [Num count; Txt " core components registered"].
Definition time_buf (t : cmos_time_t) : option (list Z) :=
  compose 128 "Current system time: " [Num (hour t); Txt ":"; Num (minute t); Txt ":"; Num (second t); Txt " "; Num (day t); Txt "/";
    Num (month t); Txt "/20"; Num (year t)].

Definition usable_memory (mpr : option (list memmap_entry)) : Z :=
  foldl (λ t e, if is_usable e then u64 (t + length_ e) else t) 0 (default [] mpr).
(** The controllers: class, subclass and interface, and the register that holds the base. *)
Definition usb_interface (u : usb) : Z := match u with Ehci => 0x20 | Ohci => 0x10 | Uhci => 0x00 | Xhci => 0x30 end.
Definition is_controller (u : usb) (d : pci_device_t) : bool :=
  (device_class d =? 0x0C) && (device_subclass d =? 0x03) && (prog_interface d =? usb_interface u).
Definition usb_base (u : usb) (d : pci_device_t) : option Z :=
  match u with Uhci => b ← base_addresses d !! 4%nat; Some (Z.land b (unot 32 0xF)) | _ => base_addresses d !! 0%nat end.
Definition usb_text (u : usb) : String.string := match u with Ehci => "EHCI" | Ohci => "OHCI" | Uhci => "UHCI" | Xhci => "XHCI" end.
Definition usb_version (u : usb) : String.string := match u with Ehci => "USB 2.0" | Xhci => "USB 3.0" | _ => "USB 1.1" end.

Section boot.
  Context {W : Type} `{KW : !Kernel W}.
  Abbreviation S := (boot W).

Definition on_kernel {B} (m : M W B) : M S B :=
  zoom bt_world (λ w s, mk_boot (global_kernel_memory s) (init_boot_log s) (font_scale s) (boot_completed s) w) m.
Definition do_ (c : call) : M S unit := on_kernel (perform c);; mret tt.
Definition ask (c : call) : M S Z := on_kernel (perform c).

Definition kmalloc (size : Z) : M S Z :=
  s ← get; if global_kernel_memory s =? NULL then mret NULL else ask (kernel_memory_alloc_ (global_kernel_memory s) size).
Definition kfree (ptr : Z) : M S unit :=
  s ← get; if global_kernel_memory s =? NULL then mret tt else do_ (kernel_memory_free_ (global_kernel_memory s) ptr).
Definition mouse_callback (x y buttons : Z) : M S unit := do_ (mouse_set_position x y);; do_ (mouse_set_buttons buttons).

Definition boot_log_component (component : str) (success : bool) (details : str) : M S unit :=
  let details_ := if bool_decide (details = []) then mret tt
                  else do_ (SystemPrint (chars " - ") gray_70);; do_ (SystemPrint details gray_70) in
  (if success then do_ (SystemPrint (chars "[ OK ] ") green) else do_ (SystemPrint (chars "[FAILED] ") red));;
  do_ (SystemPrint component gray_70);;
  details_;;
  do_ (SystemPrint [10] gray_70).
Definition boot_log_info (message : str) : M S unit :=
  do_ (SystemPrint (chars "[INFO] ") gray_70);; do_ (SystemPrint message gray_70);; do_ (SystemPrint [10] gray_70).
Definition boot_log_print (message : str) : M S unit := do_ (SystemPrint message gray_70);; do_ (SystemPrint [10] gray_70).
Definition boot_log_error (component error : str) : M S unit :=
  do_ (SystemPrint (chars "[ERROR] ") red);; do_ (SystemPrint component gray_70);; do_ (SystemPrint (chars " - ") gray_70);;
  do_ (SystemPrint error red);; do_ (SystemPrint [10] gray_70).
Definition info (t : String.string) : M S unit := boot_log_info (chars t).
Definition ok (c d : String.string) : M S unit := boot_log_component (chars c) true (chars d).
Definition ok_with (c : String.string) (d : option (list Z)) : M S unit :=
  d ← of_option d; boot_log_component (chars c) true (c_text d).

(** [for (int i = 0; i < pci_count; i++)] of a controller: the first that can be started. *)
Fixpoint find_controller (n : nat) (u : usb) (i : Z) : M S bool :=
  match n with
  | O => mret false
  | Datatypes.S n' =>
      s ← get;
      dev ← of_option (k_device (bt_world s) i);
      if is_controller u dev then
        base_addr ← of_option (usb_base u dev);
        r ← ask (usb_init u base_addr);
        if r =? 0 then
          do_ (usb_start u);; do_ (usb_enumerate u);;
          boot_log_component (chars (usb_text u)) true (chars (usb_version u) ++ chars " controller initialized and devices enumerated");;
          mret true
        else find_controller n' u (i + 1)
      else find_controller n' u (i + 1)
  end.
Definition start_controller (pci_count : Z) (u : usb) : M S unit :=
  boot_log_info (chars "Initializing " ++ chars (usb_text u) ++ chars " USB controller...");;
  found ← find_controller (Z.to_nat pci_count) u 0;
  if (found : bool) then mret tt
  else boot_log_component (chars (usb_text u)) false (chars "No " ++ chars (usb_text u) ++ chars " controller found").

(** From the themes to the frame buffer: lines 89 to 119. *)
Definition start_display (f : boot_facts) : M S limine_framebuffer :=
  info "Initializing theme system...";;
  do_ theme_init;; do_ (setcontext ThemeBootup);; do_ sbootup_theme;; do_ sconsole_theme;; do_ spanic_theme;;
  ok "Themes" "Color themes and contexts initialized";;
  do_ clear;;
  ok "Display" "Screen cleared and ready for boot logs";;
  info "Starting AC-0099 initialization...";;
  info "Boot sequence initiated";;
  info "Checking graphics hardware...";;
  match bf_framebuffers f with
  | Some (fb :: _) =>
      ok_with "Graphics" (fb_info fb);;
      info "Setting up font rendering...";;
      do_ fm_init;;
      ok "Font Manager" "Font rendering system ready with PSF/PCF support";;
      mret fb
  | _ =>
      boot_log_error (chars "Graphics") (chars "No framebuffer response from bootloader");;
      do_ (Printf (chars "no response"));;
      stuck_with Halted
  end.
(** Memory, as far as the files: lines 120 to 191. *)
Definition start_memory (f : boot_facts) (fb : limine_framebuffer) : M S unit :=
  info "Setting up memory management subsystems...";;
  info "Initializing physical memory manager...";;
  do_ physmem_init_;;
  ok_with "Physical Memory" (mem_info (usable_memory (bf_memmap f)));;
  info "Setting up virtual memory and paging...";;
  do_ paging_init;;
  ok "Virtual Memory" "Paging system initialized with page tables";;
  info "Allocating kernel heap memory...";;
  do_ (map_region_alloc HEAP_START HEAP_SIZE);;
  kernel_memory ← ask (kernel_memory_init_ HEAP_START HEAP_SIZE);
  modify (λ s, mk_boot kernel_memory (init_boot_log s) (font_scale s) (boot_completed s) (bt_world s));;
  ok_with "Kernel Memory (KERNEL_MEMORY)" kernel_memory_info;;
  info "Setting up graphics memory management...";;
  match bf_framebuffers f with
  | None =>
      boot_log_error (chars "Graphics Memory") (chars "Limine response NULL");;
      panic "Cant initialize graphics limine response NULL"
  | Some [] =>
      boot_log_error (chars "Graphics Memory") (chars "No framebuffers available");;
      panic "Cant initialize graphics limine framebuffer_count 0"
  | Some (fb_graphics :: _) =>
      do_ (map_region_alloc GRAPHICS_START GRAPHICS_SIZE);;
      graphics_manager ← ask (graphics_manager_init fb_graphics GRAPHICS_START GRAPHICS_SIZE);
      ok_with "Graphics Memory (GRAPHICS)" graphics_info;;
      info "Initializing 2D graphics rendering...";;
      do_ (graphics_init fb kernel_memory);;
      do_ graphics_disable_double_buffering;;
      ok "Graphics System" "2D graphics rendering initialized with drawing primitives";;
      info "Setting up userspace memory management...";;
      phys_user_space ← ask (map_region_alloc ULIME_START ULIME_META_SIZE);
      user_space ← ask (user_space_init kernel_memory graphics_manager phys_user_space);
      (if user_space =? NULL then
         boot_log_error (chars "Userspace Memory (USER_SPACE)") (chars "Failed to initialize userspace memory manager");;
         do_ (Printf (chars "Errorcode 1101: user_space is not initialized."));;
         panic "Errorcode 1011: user_space is not initialized."
       else mret tt);;
      ok "Userspace Memory (USER_SPACE)" "Userspace memory manager ready with process isolation";;
      info "Initializing virtual filesystem...";;
      do_ (fs_system_init kernel_memory);;
      ok "Filesystem" "Virtual filesystem initialized with VFS layer";;
      info "Setting up display cursor...";;
      ok "Cursor" "Display cursor positioned for boot logs"
  end.
(** The processors and the time: lines 192 to 245. *)
Definition start_processors : M S unit :=
  info "Detecting CPU features and capabilities...";;
  do_ cpu_detect_;;
  s ← get;
  ok_with "CPU Detection" (cpu_detail (k_cpu (bt_world s)));;
  info "Setting up Global Descriptor Table...";;
  do_ gdt_init;;
  ok "GDT" "Global Descriptor Table initialized with segments";;
  info "Configuring Interrupt Descriptor Table...";;
  do_ idt_init;;
  ok "IDT" "Interrupt Descriptor Table initialized with exception handlers";;
  info "Initializing Symmetric Multi-Processing...";;
  do_ smp_init;;
  count ← ask smp_get_cpu_count;
  ok_with "SMP Initialization" (smp_detail count);;
  info "Initializing per-CPU data structures...";;
  do_ per_cpu_init;;
  ok "Per-CPU Data" "Per-CPU data structures initialized";;
  info "Initializing task scheduler...";;
  do_ initialize_scheduler;;
  ok "Task Scheduler" "Task scheduler initialized with idle task";;
  info "Setting up system timer...";;
  do_ (timer_system_initialize 1000);;
  ok_with "Timer" (timer_info 1000);;
  info "Starting application processors...";;
  count ← ask smp_get_cpu_count;
  ok_with "AP Startup" (ap_detail count);;
  info "Starting system uptime tracking...";;
  do_ timer_record_boot_timestamp;;
  ok "Uptime Counter" "System uptime tracking started with CMOS sync".
Definition has_mac (mac : list Z) : bool := existsb truthy (take 6 mac).
(** The devices and the modules: lines 246 to 394. *)
Definition start_devices : M S unit :=
  info "Scanning PCI/PCIe devices...";;
  do_ bus_pci_initialize_;;
  pci_count ← ask bus_pci_device_total_;
  ok_with "PCI" (pci_info pci_count);;
  start_controller pci_count Ehci;;
  start_controller pci_count Ohci;;
  start_controller pci_count Uhci;;
  start_controller pci_count Xhci;;
  info "Initializing ATA driver...";;
  do_ ata_init;;
  ok "ATA" "ATA/IDE driver initialized";;
  info "Initializing network stack...";;
  do_ network_init;;
  s ← get;
  (if has_mac (k_mac (bt_world s)) then ok "Network Stack" "Basic network stack initialized"
   else boot_log_component (chars "Network Stack") false (chars "No Ethernet device found"));;
  info "Setting up loadable kernel module system...";;
  do_ lkm_init;;
  ok "LKM System" "Loadable kernel module system ready";;
  do_ (lkm_register_builtin ConsoleHandler);; do_ (lkm_register_builtin KeyboardHandler);; do_ (lkm_register_builtin MouseHandler);;
  info "Loading core system components as LKM...";;
  do_ (enroll_component ConsoleHandler);; do_ (enroll_component KeyboardHandler);; do_ (enroll_component MouseHandler);;
  count ← ask count_components;
  ok_with "Core Components" (components_info count);;
  info "Loading filesystem drivers...";;
  do_ fs_register_mods;;
  ok "Filesystem Modules" "Filesystem drivers registered and mounted";;
  info "Creating test filesystem entries...";;
  do_ fs_create_test_file;;
  ok "Test Files" "Test filesystem entries created for validation";;
  info "Configuring display scaling...";;
  modify (λ s, mk_boot (global_kernel_memory s) (init_boot_log s) 1 (boot_completed s) (bt_world s));;
  ok "Font Scaling" "Display scaling set to 1x for optimal readability";;
  info "Finalizing boot logging...";;
  s ← get;
  (if 0 <=? init_boot_log s then
     do_ (fs_close (init_boot_log s));;
     modify (λ s, mk_boot (global_kernel_memory s) (-1) (font_scale s) (boot_completed s) (bt_world s));;
     ok "Boot Log" "Boot log saved to persistent filesystem storage"
   else mret tt).
(** The input devices: lines 395 to 422. *)
Definition start_input : M S unit :=
  info "Initializing input devices...";;
  info "Setting up USB mouse support...";;
  r ← ask usb_mouse_init;
  (if r =? 0 then ok "USB Mouse" "USB mouse driver initialized with HID protocol support"
   else boot_log_component (chars "USB Mouse") false (chars "USB mouse initialization failed - no USB devices detected"));;
  info "Setting up USB keyboard support...";;
  r ← ask usb_keyboard_init;
  (if r =? 0 then ok "USB Keyboard" "USB keyboard driver initialized with HID protocol support"
   else boot_log_component (chars "USB Keyboard") false (chars "USB keyboard initialization failed - no USB devices detected"));;
  info "Setting input device priorities...";;
  r ← ask usb_keyboard_is_initialized;
  (if truthy r then do_ usb_keyboard_set_callback else do_ keyboard_init);;
  r ← ask usb_mouse_is_initialized;
  (if truthy r then do_ usb_mouse_set_callback else do_ mouse_init;; do_ usb_mouse_enable_test_mode);;
  info "Input devices initialization completed".
(** The last messages and the prompt: lines 423 to 469. *)
Definition start_console : M S unit :=
  info "";; info "System initialization complete.";; info "AC-0099 Launched Successfully!";; info "All core subsystems operational";;
  info "Synchronizing system clock...";;
  t ← on_kernel k_time;
  b ← of_option (time_buf t);
  boot_log_info (c_text b);;
  info "System Status: [ OK ]";; info "All hardware interfaces initialized";; info "Filesystem: Mounted.";; info "Input devices: [ OK ]";;
  s ← get;
  (if has_mac (k_mac (bt_world s)) then info "Network: CONFIGURED" else info "Network: NOT AVAILABLE");;
  boot_log_print (chars "acsh: [ OK ]");; boot_log_print (chars "System ready for user interaction");;
  boot_log_print [];; boot_log_print [];; boot_log_print [];;
  boot_log_print (chars "Kernel(AC-0099) version: 1.2.6 - release.");;
  boot_log_print (chars "KernixOS: Welcome.");;
  boot_log_print (chars "Type 'help' for available commands");;
  do_ console_init;; do_ (setcontext ThemeConsole);; do_ (putchar 10 gray_70);;
  do_ shell_print_prompt;; do_ console_set_input_start_x;; do_ cursor_enable;;
  modify (λ s, mk_boot (global_kernel_memory s) (init_boot_log s) (font_scale s) 1 (bt_world s)).
Definition _start (f : boot_facts) : M S unit :=
  fb ← start_display f;
  start_memory f fb;;
  start_processors;;
  start_devices;;
  start_input;;
  start_console.

(** [while (1)]: one turn. *)
Definition main_turn : M S unit :=
  do_ (usb_handle Ehci);; do_ (usb_handle Ohci);; do_ (usb_handle Uhci);; do_ (usb_handle Xhci);;
  '(len, packet) ← on_kernel (k_receive 2048);
  (if 0 <? len then do_ (network_handle_packet packet len) else mret tt);;
  do_ hlt.
End boot.

(** ** The messages fit *)

Definition part_size (p : part) : nat := match p with Txt t => length (chars t) | Num _ => 10 | Str t => length t end.
Definition part_ok (p : part) : Prop := match p with Txt t => Forall is_char (chars t) | Num _ => True | Str t => Forall is_char t end.
#[export] Instance part_ok_dec p : Decision (part_ok p).
Proof. destruct p; cbn; apply _. Defined.

Lemma holds_chars t : Forall is_char t → holds (t ++ [0]) t.
Proof. intros H. by apply (holds_intro t []). Qed.

Lemma parts_fit n parts a s : Forall part_ok parts → text_in n a s → (length s + sum_list (part_size <$> parts) < n)%nat →
  is_Some (foldl add_part (Some a) parts).
Proof.
  intros Hok. revert a s. induction Hok as [|p parts Hp _ IH]; intros a s Ha Hn; [by eexists|]. cbn [foldl].
  change (sum_list (part_size <$> p :: parts)) with (part_size p + sum_list (part_size <$> parts))%nat in Hn.
  assert (∃ a' t, add_part (Some a) p = Some a' ∧ text_in n a' (s ++ t) ∧ (length t ≤ part_size p)%nat) as (a' & t & -> & Ha' & Ht).
  { destruct p as [t|v|t]; cbn [add_part mbind option_bind part_size part_ok] in *.
    - destruct (text_in_append n a (lit t) s (chars t) Ha) as (a' & E & H); [by apply holds_chars|lia|]. eauto.
    - destruct (text_in_append_uint n a s (u32 v) Ha) as (a' & t & E & H & Hl); [lia|]. eauto.
    - destruct (text_in_append n a (t ++ [0]) s t Ha) as (a' & E & H); [by apply holds_chars|lia|]. eauto. }
  apply (IH a' (s ++ t) Ha'). rewrite length_app. lia.
Qed.

Lemma compose_fits (n : nat) first parts : Forall is_char (chars first) → Forall part_ok parts →
  (length (chars first) + sum_list (part_size <$> parts) < n)%nat → is_Some (compose n first parts).
Proof.
  intros Hf Hp Hn. unfold compose.
  destruct (text_in_copy n (replicate n 0) (lit first) (chars first)) as (a & -> & Ha); [apply length_replicate|by apply holds_chars|lia|].
  by apply (parts_fit n parts a (chars first)).
Qed.
(** For messages without a text that is not known beforehand everything is computed. *)
Definition fits_by_size (n : nat) (first : String.string) (parts : list part) : bool :=
  bool_decide (Forall is_char (chars first)) && bool_decide (Forall part_ok parts) &&
  (length (chars first) + sum_list (part_size <$> parts) <? n)%nat.
Lemma fits_by_size_ok n first parts : fits_by_size n first parts = true → is_Some (compose n first parts).
Proof.
  intros H. apply andb_true_iff in H as [[H1%bool_decide_eq_true H2%bool_decide_eq_true]%andb_true_iff H3%Nat.ltb_lt].
  by apply compose_fits.
Qed.

(** What cpuid can leave in the two texts. *)
Definition cpu_ok (i : cpu_info_t) : Prop :=
  Forall is_char (c_text (vendor i)) ∧ (length (c_text (vendor i)) ≤ 48)%nat ∧ Forall is_char (c_text (brand i)) ∧ (length (c_text (brand i)) ≤ 48)%nat.

Lemma messages_fit (fb : limine_framebuffer) (i : cpu_info_t) (t : cmos_time_t) (total cpus freq devices components : Z) :
  cpu_ok i →
  Forall is_Some [fb_info fb; mem_info total; kernel_memory_info; graphics_info; cpu_detail i; smp_detail cpus; timer_info freq;
    ap_detail cpus; pci_info devices; components_info components; time_buf t].
Proof.
  intros Hi.
  repeat (apply Forall_cons_2; [try (apply fits_by_size_ok; vm_compute; reflexivity)|]); [|by apply Forall_nil_2].
  destruct Hi as (H1 & H2 & H3 & H4). apply compose_fits; [eval_decide| |].
  - repeat (apply Forall_cons_2; [try done; cbn; try (by destruct (_ =? _)); eval_decide|]). by apply Forall_nil_2.
  - cbn [fmap list_fmap sum_list part_size]. change (length (chars "CPU: ")) with 5%nat. change (length (chars " (")) with 2%nat.
    change (length (chars " cores, ")) with 8%nat. change (length (chars " threads)")) with 9%nat.
    unfold id. destruct (nth 0 (brand i) 0 =? 0); lia.
Qed.

(** The messages of the start fit into their arrays, whatever numbers they tell. *)
Theorem boot_messages_fit (fb : limine_framebuffer) (i : cpu_info_t) (t : cmos_time_t) (total cpus freq devices components : Z) (Hi : cpu_ok i) :
  Forall is_Some [fb_info fb; mem_info total; kernel_memory_info; graphics_info; cpu_detail i; smp_detail cpus; timer_info freq;
    ap_detail cpus; pci_info devices; components_info components; time_buf t].
Proof. by apply messages_fit. Qed.

(** ** What the start does *)

#[export] Instance usb_eq : EqDecision usb.
Proof. solve_decision. Defined.

(** A world that keeps the calls it was asked for; the answers may depend on all of them. *)
Section calls.
  Context (ans : call → list call → Z) (devs : list pci_device_t) (mac : list Z) (cpu : cpu_info_t) (now : cmos_time_t).

Definition recording : Kernel (list call) := {|
  perform c := λ tr, Done (ans c tr) (tr ++ [c]);
  k_device _ i := devs !! Z.to_nat i;
  k_mac _ := mac;
  k_cpu _ := cpu;
  k_time := mret now;
  k_receive n := mret (0, []);
|}.
#[local] Existing Instance recording.
Abbreviation S := (boot (list call)).


Abbreviation any := (λ _, True).



(** ** Messages *)




(** The answer the start relies on: the user space can be made. *)
Context (Huser : ∀ km gm phys tr, ans (user_space_init km gm phys) tr ≠ NULL).



(** ** The controllers *)

(** What a controller at a base address answers to [usb_init] does not change. *)
Context (starts : usb → Z → Z) (Hstarts : ∀ u b tr, ans (usb_init u b) tr = starts u b).
Context (Hdevs : Forall (λ d, length (base_addresses d) = 6%nat) devs).
Context (Hcount : ∀ tr, ans bus_pci_device_total_ tr = Z.of_nat (length devs)).






(** What the two USB input drivers say. *)
Context (keyboard pointer : Z) (Hkeyboard : ∀ tr, ans usb_keyboard_is_initialized tr = keyboard) (Hpointer : ∀ tr, ans usb_mouse_is_initialized tr = pointer).



End calls.

(** ** A start *)

(** The first EHCI controller does not answer, the second does; there is no USB mouse. *)
Definition demo_starts (u : usb) (base : Z) : Z := if base =? 0xF000 then -1 else 0.
Definition demo_answer (c : call) (tr : list call) : Z :=
  match c with
  | usb_init u base => demo_starts u base
  | bus_pci_device_total_ => 3
  | usb_mouse_is_initialized => 0
  | _ => 1
  end.
Definition demo_devices : list pci_device_t :=
  [mk_pci_device 0x8086 0x24CD 0 1 1 0x0C 0x03 0x20 0 0 0 [0xF000; 0; 0; 0; 0; 0];
   mk_pci_device 0x8086 0x24CD 0 1 2 0x0C 0x03 0x20 0 0 0 [0xE000; 0; 0; 0; 0; 0];
   mk_pci_device 0x8086 0x7020 0 1 3 0x0C 0x03 0x00 0 0 0 [0; 0; 0; 0; 0xC041; 0]].
Definition demo_cpu_info : cpu_info_t := default (mk_cpu_info [] [] 0 0 0 0 0 0 0 0 0 0 0 0 0 0) (cpu_detect demo_cpuid).
Definition demo_fb : limine_framebuffer := mk_fb 0xFD000000 1024 768 4096 32.
Definition demo_start : boot (list call) := mk_boot 0 5 2 0 [].
Definition demo_kernel : Kernel (list call) := recording demo_answer demo_devices [] demo_cpu_info demo_time.

Lemma boot_messages_fit_witness :
  Forall is_Some [fb_info demo_fb; mem_info 0x7000000; kernel_memory_info; graphics_info; cpu_detail demo_cpu_info; smp_detail 4; timer_info 1000;
    ap_detail 4; pci_info 7; components_info 3; time_buf demo_time].
Proof.
  apply (boot_messages_fit demo_fb demo_cpu_info demo_time 0x7000000 4 1000 7 3).
  split_and!; eval_decide.
Defined.

(** Without a frame buffer the start stops. *)
Example no_framebuffer : @_start _ demo_kernel (mk_facts None None) demo_start = Stuck Halted.
Proof. by vm_compute. Qed.
