(* ===== verification/LocalApic.v ===== *)
(** * The local interrupt controllers, [core/kernel/cpu/apic.c], [ioapic.c] and the rest of [smp.c]

    The registers of the controllers are memory the hardware answers for ([RegIO]), the
    processor's own registers are behind [rdmsr] and [wrmsr] ([MsrIO]); what [paging_map_page]
    does is a parameter.  Messages are left out. *)

From Stdlib Require Import ZArith Lia.
From stdpp Require Import base list numbers.
From S2P Require Import Prelude Ports Cpu Sched.
Open Scope Z_scope.
Set Default Goal Selector "!".

Definition APIC_BASE_MSR : Z := 0x1B.
Definition APIC_BASE_MSR_ENABLE : Z := 0x800.
Definition APIC_ID : Z := 0x20.
Definition APIC_EOI : Z := 0xB0.
Definition APIC_SPURIOUS : Z := 0xF0.
Definition APIC_ICR_LOW : Z := 0x300.
Definition APIC_ICR_HIGH : Z := 0x310.
Definition IOAPIC_IOREGSEL : Z := 0x00.
Definition IOAPIC_IOREGWIN : Z := 0x10.
Definition IOAPIC_VER : Z := 0x01.
Definition IOAPIC_REDIRECT_BASE : Z := 0x10.
Definition CPU_FEATURE_MSR : Z := Z.shiftl 1 5.
Definition CPU_FEATURE_APIC : Z := Z.shiftl 1 9.
Definition CPU_FEATURE_X2APIC : Z := Z.shiftl 1 21.
Definition DEVICE_PAGE : Z := 0x13.   (** [PTE_PRESENT | PTE_WRITABLE | PTE_PCD] *)

(** A model-specific register is two words, the low one first. *)
Class MsrIO (W : Type) := {
  rdmsr : Z → M W (Z * Z);
  wrmsr : Z → Z * Z → M W unit;
}.

Record apics (W : Type) := mk_apics { apic_base : Z; x2apic : Z; ioapic_base : Z; la_world : W }.
Arguments mk_apics {W}.
Arguments apic_base {W}.
Arguments x2apic {W}.
Arguments ioapic_base {W}.
Arguments la_world {W}.

Section apic.
  Context {W : Type} `{!RegIO W} `{!MsrIO W}.
  (** [paging_map_page(hhdm, virt, phys, flags)] *)
  Context (paging_map_page : Z → Z → Z → M W unit).
  Abbreviation S := (apics W).

Definition la_on {B} (m : M W B) : M S B := zoom la_world (λ w s, mk_apics (apic_base s) (x2apic s) (ioapic_base s) w) m.
Definition set_apic_base (b : Z) (s : S) : S := mk_apics b (x2apic s) (ioapic_base s) (la_world s).
Definition set_x2apic (x : Z) (s : S) : S := mk_apics (apic_base s) x (ioapic_base s) (la_world s).
Definition set_ioapic_base (b : Z) (s : S) : S := mk_apics (apic_base s) (x2apic s) b (la_world s).

Definition apic_read_reg (reg : Z) : M S Z :=
  s ← get; if apic_base s =? NULL then mret 0 else la_on (reg_read (apic_base s + 4 * (reg / 4))).
Definition apic_write_reg (reg value : Z) : M S unit :=
  s ← get; if apic_base s =? NULL then mret tt else la_on (reg_write (apic_base s + 4 * (reg / 4)) value).

(** [cpu] is what [cpu_detect] found, [hhdm] the boot loader's answer. *)
Definition apic_init (cpu : cpu_info_t) (hhdm : option Z) : M S unit :=
  if cpu_has_feature cpu CPU_FEATURE_APIC =? 0 then mret tt else
  if cpu_has_feature cpu CPU_FEATURE_MSR =? 0 then mret tt else
  match hhdm with
  | None => mret tt
  | Some offset =>
      '(low, high) ← la_on (rdmsr APIC_BASE_MSR);
      let base_addr := Z.ldiff (Z.lor (Z.shiftl high 32) low) 0xFFF in
      low ← (if truthy (cpu_has_feature cpu CPU_FEATURE_X2APIC) then
               if truthy (Z.land low (Z.shiftl 1 10)) then modify (set_x2apic 1);; mret low
               else modify (set_x2apic 1);; mret (Z.lor low (Z.shiftl 1 10))
             else modify (set_x2apic 0);; mret low);
      if base_addr =? 0 then mret tt else
      modify (set_apic_base (u64 (base_addr + offset)));;
      la_on (paging_map_page (u64 (base_addr + offset)) base_addr DEVICE_PAGE);;
      la_on (wrmsr APIC_BASE_MSR (Z.lor low APIC_BASE_MSR_ENABLE, high));;
      apic_write_reg APIC_SPURIOUS 0x1FF;;
      spurious ← apic_read_reg APIC_SPURIOUS;
      apic_write_reg APIC_SPURIOUS (Z.lor spurious 0x100)
  end.

Definition apic_get_id : M S Z :=
  s ← get;
  if truthy (x2apic s) then '(low, _) ← la_on (rdmsr 0x802); mret low
  else if apic_base s =? NULL then mret 0
  else id ← apic_read_reg APIC_ID; mret (Z.shiftr id 24).

(** The three kinds of interrupt to another processor. *)
Definition apic_command (apic_id command : Z) : M S unit :=
  s ← get;
  if apic_base s =? NULL then mret tt else
  apic_write_reg APIC_ICR_HIGH (u32 (Z.shiftl apic_id 24));;
  apic_write_reg APIC_ICR_LOW command.
Definition apic_send_ipi (apic_id vector : Z) : M S unit := apic_command apic_id vector.
Definition apic_send_init (apic_id : Z) : M S unit := apic_command apic_id 0xC500.
Definition apic_send_sipi (apic_id vector : Z) : M S unit := apic_command apic_id (Z.lor 0x600 (Z.shiftr vector 12)).
Definition apic_eoi : M S unit := s ← get; if apic_base s =? NULL then mret tt else apic_write_reg APIC_EOI 0.
Definition smp_send_ipi (apic_id vector : Z) : M S unit := apic_send_ipi apic_id vector.

(** ** The controller of the interrupt lines *)

Definition ioapic_write (reg value : Z) : M S unit :=
  s ← get;
  if ioapic_base s =? NULL then mret tt else
  la_on (reg_write (ioapic_base s + 4 * (IOAPIC_IOREGSEL / 4)) reg);;
  la_on (reg_write (ioapic_base s + 4 * (IOAPIC_IOREGWIN / 4)) value).
Definition ioapic_read (reg : Z) : M S Z :=
  s ← get;
  if ioapic_base s =? NULL then mret 0 else
  la_on (reg_write (ioapic_base s + 4 * (IOAPIC_IOREGSEL / 4)) reg);;
  la_on (reg_read (ioapic_base s + 4 * (IOAPIC_IOREGWIN / 4))).
Definition ioapic_init (offset address : Z) : M S unit :=
  modify (set_ioapic_base (u64 (address + offset)));;
  la_on (paging_map_page (u64 (address + offset)) address DEVICE_PAGE);;
  ioapic_read IOAPIC_VER;;
  mret tt.
(** The low word of an entry before it is unmasked. *)
Definition redirect_low (vector flags : Z) : Z :=
  let low := Z.lor vector (Z.shiftl 1 16) in
  let low := if Z.land flags 0xC =? 0x4 then Z.lor low (Z.shiftl 1 13) else low in
  if Z.land flags 0x3 =? 0x1 then Z.lor low (Z.shiftl 1 15) else low.
Definition ioapic_set_redirect (irq apic_id vector flags : Z) : M S unit :=
  let low := redirect_low vector flags in
  let high := u32 (Z.shiftl apic_id 24) in
  ioapic_write (u32 (IOAPIC_REDIRECT_BASE + irq * 2)) low;;
  ioapic_write (u32 (IOAPIC_REDIRECT_BASE + irq * 2 + 1)) high;;
  ioapic_write (u32 (IOAPIC_REDIRECT_BASE + irq * 2)) (Z.ldiff low (Z.shiftl 1 16)).
End apic.

(** ** The start of another processor *)

Section ap.
  (** [start_function()] of the task with this entry. *)
  Context (run_task : Z → M sched unit).

(** What [ap_main] does up to the call that does not return. *)
Definition ap_prepare : M sched (option Z) :=
  initialize_ap_scheduler;;
  pcpu ← per_cpu_current;
  match pcpu with
  | None => mret None
  | Some i =>
      c ← get_pcpu i;
      match current_task c with
      | None => mret None
      | Some t => x ← get_task t; mret (Some (start_function x))
      end
  end.
Definition ap_main : M sched unit :=
  e ← ap_prepare;
  match e with Some entry => run_task entry | None => mret tt end;;
  stuck_with Halted.

(** The entry of [cpu_list] with this number. *)
Fixpoint cpu_index (i : Z) (l : list cpu_t) (apic : Z) : option Z :=
  match l with
  | [] => None
  | c :: l' => if c_apic_id c =? apic then Some i else cpu_index (i + 1) l' apic
  end.
Definition ap_entry (lapic_id : Z) : M sched unit :=
  s ← get;
  match cpu_index 0 (cpu_list s) lapic_id with
  | None => stuck_with Halted
  | Some i => per_cpu_set_online i 1;; ap_main
  end.
(** Which processors of the boot loader's list are sent to [ap_entry]: all but the first. *)
Definition smp_start_aps {A} (entry : A) (response : option (list (Z * option A))) : option (list (Z * option A)) :=
  match response with
  | None => None
  | Some [] => Some []
  | Some (c :: cpus) => Some (c :: ((λ '(id, _), (id, Some entry)) <$> cpus))
  end.
End ap.

(** ** What an entry of the controller says *)

Record redirection := mk_redirection {
  rd_vector : Z; rd_mode : Z; rd_active_low : bool; rd_level : bool; rd_masked : bool; rd_destination : Z }.
(** The format of the hardware: vector, delivery mode, polarity, trigger, mask, destination. *)
Definition redirection_of (low high : Z) : redirection :=
  mk_redirection (Z.land low 0xFF) (Z.land (Z.shiftr low 8) 7) (Z.testbit low 13) (Z.testbit low 15)
    (Z.testbit low 16) (Z.land (Z.shiftr high 24) 0xFF).

(** The window of the controller: a register is chosen by its number, then read or written.
    Two bits of an entry, the delivery status and the remote acknowledge, are the hardware's. *)
Class IoApicHw (W : Type) `{!RegIO W} := {
  io_at : Z → W → Prop;
  io_index : W → Z;
  io_reg : W → Z → Z;
  io_select : ∀ b v w, io_at b w →
    ∃ w', reg_write b v w = Done tt w' ∧ io_at b w' ∧ io_index w' = v ∧ io_reg w' = io_reg w;
  io_store : ∀ b v w, io_at b w →
    ∃ w', reg_write (b + 0x10) v w = Done tt w' ∧ io_at b w' ∧
      (∀ r, r ≠ io_index w → io_reg w' r = io_reg w r) ∧
      (∀ k, k ≠ 12 → k ≠ 14 → Z.testbit (io_reg w' (io_index w)) k = Z.testbit v k);
}.

(** A local controller: its base and mode are in a model-specific register, its registers
    show at the page mapped to the base while it is enabled and not in the x2APIC mode; a
    write of the low command word sends the command to the destination of the high one. *)
Definition msr_base (m : Z * Z) : Z := Z.ldiff (Z.lor (Z.shiftl m.2 32) m.1) 0xFFF.
Definition xapic_on (m : Z * Z) : Prop := Z.testbit m.1 11 = true ∧ Z.testbit m.1 10 = false.
Class LocalApicHw (W : Type) `{!RegIO W} `{!MsrIO W} (paging_map_page : Z → Z → Z → M W unit) := {
  la_msr : W → Z * Z;
  la_reg : W → Z → Z;
  la_sent : W → list (Z * Z);
  la_maps : Z → Z → W → Prop;
  la_rdmsr : ∀ w, rdmsr APIC_BASE_MSR w = Done (la_msr w) w;
  la_wrmsr : ∀ v w, ∃ w', wrmsr APIC_BASE_MSR v w = Done tt w' ∧ la_msr w' = v ∧
    la_reg w' = la_reg w ∧ la_sent w' = la_sent w ∧ (∀ v p, la_maps v p w → la_maps v p w');
  la_map_page : ∀ v p w, v mod 4096 = 0 → ∃ w', paging_map_page v p DEVICE_PAGE w = Done tt w' ∧ la_maps v p w' ∧
    la_msr w' = la_msr w ∧ la_reg w' = la_reg w ∧ la_sent w' = la_sent w;
  la_read : ∀ v r w, la_maps v (msr_base (la_msr w)) w → xapic_on (la_msr w) →
    r ∈ [APIC_SPURIOUS; APIC_ICR_HIGH] → reg_read (v + r) w = Done (la_reg w r) w;
  la_write : ∀ v r x w, la_maps v (msr_base (la_msr w)) w → xapic_on (la_msr w) →
    r ∈ [APIC_SPURIOUS; APIC_ICR_HIGH] →
    ∃ w', reg_write (v + r) x w = Done tt w' ∧ la_msr w' = la_msr w ∧ la_sent w' = la_sent w ∧
      la_reg w' r = x ∧ (∀ v p, la_maps v p w → la_maps v p w');
  la_send : ∀ v x w, la_maps v (msr_base (la_msr w)) w → xapic_on (la_msr w) →
    ∃ w', reg_write (v + APIC_ICR_LOW) x w = Done tt w' ∧ la_msr w' = la_msr w ∧
      la_sent w' = la_sent w ++ [(Z.shiftr (la_reg w APIC_ICR_HIGH) 24, x)] ∧
      (∀ v p, la_maps v p w → la_maps v p w');
}.

(** Whatever the two bits of the hardware are, the entry reads the same. *)
Lemma redirection_ext low low' high high' :
  (∀ k, k ≠ 12 → k ≠ 14 → Z.testbit low k = Z.testbit low' k) →
  (∀ k, k ≠ 12 → k ≠ 14 → Z.testbit high k = Z.testbit high' k) →
  redirection_of low high = redirection_of low' high'.
Proof.
  intros Hl Hh. unfold redirection_of.
  assert (∀ z z' s m, (∀ k, k ≠ 12 → k ≠ 14 → Z.testbit z k = Z.testbit z' k) → 0 ≤ s →
    (∀ k, 0 ≤ k → Z.testbit m k = true → k + s ≠ 12 ∧ k + s ≠ 14) →
    Z.land (Z.shiftr z s) m = Z.land (Z.shiftr z' s) m) as Hf.
  { intros z z' s m H Hs Hm. apply Z.bits_inj'. intros k Hk.
    rewrite !Z.land_spec, !Z.shiftr_spec by done. destruct (Z.testbit m k) eqn:E; [|by rewrite !andb_false_r].
    destruct (Hm k Hk E). by rewrite H. }
  assert (∀ m n, m = Z.ones n → 0 ≤ n → ∀ k, 0 ≤ k → Z.testbit m k = true → k < n) as Hones.
  { intros m n -> Hn k Hk E. destruct (Z.lt_ge_cases k n); [done|]. by rewrite Z.ones_spec_high in E. }
  f_equal.
  - apply (Hf _ _ 0 0xFF Hl); [done|]. intros k Hk E. apply (Hones _ 8) in E; [lia|done..].
  - apply Hf; [done..|]. intros k Hk E. apply (Hones _ 3) in E; [lia|done..].
  - by apply Hl.
  - by apply Hl.
  - by apply Hl.
  - apply Hf; [done..|]. intros k Hk E. apply (Hones _ 8) in E; [lia|done..].
Qed.

(** ** The flags of an interrupt source, as the MultiProcessor and ACPI specifications give them *)

Inductive polarity_t := PolarityOfBus | ActiveHigh | ReservedPolarity | ActiveLow.
Inductive trigger_t := TriggerOfBus | EdgeTriggered | ReservedTrigger | LevelTriggered.
#[export] Instance polarity_eq : EqDecision polarity_t.
Proof. solve_decision. Defined.
#[export] Instance trigger_eq : EqDecision trigger_t.
Proof. solve_decision. Defined.
Definition polarity_of (flags : Z) : polarity_t := nth (Z.to_nat (flags mod 4)) [PolarityOfBus; ActiveHigh; ReservedPolarity; ActiveLow] ActiveLow.
Definition trigger_of (flags : Z) : trigger_t := nth (Z.to_nat (flags / 4 mod 4)) [TriggerOfBus; EdgeTriggered; ReservedTrigger; LevelTriggered] LevelTriggered.
(** The bits of an entry that the flags ask for; the ISA bus is active high and edge-triggered. *)
Definition wants_low (flags : Z) : bool := bool_decide (polarity_of flags = ActiveLow).
Definition wants_level (flags : Z) : bool := bool_decide (trigger_of flags = LevelTriggered).

(** What the code makes of the flags. *)
Definition flags_active_low (flags : Z) : bool := Z.land flags 0xC =? 0x4.
Definition flags_level (flags : Z) : bool := Z.land flags 0x3 =? 0x1.

#[export] Instance redirection_eq_dec : EqDecision redirection.
Proof. solve_decision. Defined.

Definition all_flags_read : bool := forallb (λ f,
  bool_decide (flags_active_low f = bool_decide (trigger_of f = EdgeTriggered)) && bool_decide (flags_level f = bool_decide (polarity_of f = ActiveHigh))) (seqZ 0 16).
Lemma flags_read flags : 0 ≤ flags →
  flags_active_low flags = bool_decide (trigger_of flags = EdgeTriggered) ∧ flags_level flags = bool_decide (polarity_of flags = ActiveHigh).
Proof.
  intros Hf. assert (E : all_flags_read = true) by (vm_compute; reflexivity). unfold all_flags_read in E. rewrite forallb_forall in E.
  assert (Hm : 0 ≤ flags mod 16 < 16) by (apply Z.mod_pos_bound; lia).
  specialize (E (flags mod 16) ltac:(apply list_elem_of_In, elem_of_seqZ; lia)). apply andb_true_iff in E as [E1%bool_decide_eq_true E2%bool_decide_eq_true].
  assert (Hl : ∀ m, Z.land 15 m = m → Z.land flags m = Z.land (flags mod 16) m).
  { intros m <-. change 16 with (2 ^ 4). rewrite <-(Z.land_ones flags 4) by done. change (Z.ones 4) with 15.
    apply Z.bits_inj'. intros k _. rewrite !Z.land_spec. by destruct (Z.testbit flags k), (Z.testbit 15 k). }
  assert (Hp : polarity_of flags = polarity_of (flags mod 16)) by (unfold polarity_of; do 2 f_equal; Z.div_mod_to_equations; lia).
  assert (Ht : trigger_of flags = trigger_of (flags mod 16)) by (unfold trigger_of; do 2 f_equal; Z.div_mod_to_equations; lia).
  unfold flags_active_low, flags_level in *. rewrite (Hl 0xC), (Hl 0x3), Hp, Ht by done. by split.
Qed.

(** A word with the bits of a vector, as [redirect_low] builds it. *)
Definition low_word (vector : Z) (active_low level masked : bool) : Z :=
  let low := Z.lor vector (Z.shiftl 1 16) in
  let low := if active_low then Z.lor low (Z.shiftl 1 13) else low in
  let low := if level then Z.lor low (Z.shiftl 1 15) else low in
  if masked then low else Z.ldiff low (Z.shiftl 1 16).
Definition low_words_decode : bool :=
  forallb (λ v, forallb (λ a, forallb (λ l, forallb (λ m,
    bool_decide (redirection_of (low_word (Z.of_nat v) a l m) 0 = mk_redirection (Z.of_nat v) 0 a l m 0))
    [true; false]) [true; false]) [true; false]) (seq 0 256).

Lemma low_word_decodes v a l m : 0 ≤ v < 256 → redirection_of (low_word v a l m) 0 = mk_redirection v 0 a l m 0.
Proof.
  intros Hv. assert (low_words_decode = true) as E by (vm_compute; reflexivity).
  unfold low_words_decode in E. rewrite forallb_forall in E.
  assert (∀ b : bool, In b [true; false]) as Hb by (intros []; simpl; tauto).
  specialize (E (Z.to_nat v)). rewrite Z2Nat.id in E by lia.
  assert (In (Z.to_nat v) (seq 0 256)) as Hin by (apply in_seq; lia). specialize (E Hin).
  rewrite forallb_forall in E. specialize (E a (Hb a)).
  rewrite forallb_forall in E. specialize (E l (Hb l)).
  rewrite forallb_forall in E. specialize (E m (Hb m)). by apply bool_decide_eq_true in E.
Qed.

Lemma redirection_of_split low high : redirection_of low high =
  let r := redirection_of low 0 in
  mk_redirection (rd_vector r) (rd_mode r) (rd_active_low r) (rd_level r) (rd_masked r) (Z.land (Z.shiftr high 24) 0xFF).
Proof. reflexivity. Qed.

Lemma redirect_low_decodes vector flags apic_id (masked : bool) : 0 ≤ vector < 256 → 0 ≤ apic_id < 256 →
  redirection_of (if masked then redirect_low vector flags else Z.ldiff (redirect_low vector flags) (Z.shiftl 1 16))
    (u32 (Z.shiftl apic_id 24)) =
  mk_redirection vector 0 (flags_active_low flags) (flags_level flags) masked apic_id.
Proof.
  intros Hv Ha. pose proof (low_word_decodes vector (flags_active_low flags) (flags_level flags) masked Hv) as E.
  change (if masked then redirect_low vector flags else Z.ldiff (redirect_low vector flags) (Z.shiftl 1 16))
    with (low_word vector (flags_active_low flags) (flags_level flags) masked).
  rewrite redirection_of_split, E. cbn. f_equal.
  unfold u32. rewrite Z.shiftl_mul_pow2, Z.shiftr_div_pow2, Z.mod_small by lia. rewrite Z.div_mul by done.
  change 0xFF with (Z.ones 8). rewrite Z.land_ones by done. by apply Z.mod_small.
Qed.

Section ioapic_theorems.
  Context {W : Type} `{!RegIO W} `{!IoApicHw W}.
  Abbreviation S := (apics W).

(** The entry of a line. *)
Definition entry_of (irq : Z) (s : S) : redirection :=
  redirection_of (io_reg (la_world s) (0x10 + irq * 2)) (io_reg (la_world s) (0x10 + irq * 2 + 1)).
Definition io_ready (s : S) : Prop := ioapic_base s ≠ NULL ∧ io_at (ioapic_base s) (la_world s).

(** A write changes the register it names, but for the bits of the hardware. *)
Lemma ioapic_write_run r v s : io_ready s →
  ∃ s', ioapic_write r v s = Done tt s' ∧ io_ready s' ∧
    (∀ q, q ≠ r → io_reg (la_world s') q = io_reg (la_world s) q) ∧
    (∀ k, k ≠ 12 → k ≠ 14 → Z.testbit (io_reg (la_world s') r) k = Z.testbit v k).
Proof.
  intros [Hb Hat]. unfold ioapic_write, la_on, zoom, get, mbind, M_bind.
  rewrite (proj2 (Z.eqb_neq _ _)) by done. change (IOAPIC_IOREGSEL / 4) with 0. rewrite Z.add_0_r.
  destruct (io_select _ r _ Hat) as (w1 & -> & Hat1 & Hi & Hr).
  change (4 * (IOAPIC_IOREGWIN / 4)) with 0x10. cbn [la_world].
  destruct (io_store _ v _ Hat1) as (w2 & -> & Hat2 & Ho & Hk).
  eexists. split; [done|]. rewrite Hi in *. rewrite Hr in Ho. done.
Qed.

Lemma entry_of_ext irq s low high :
  (∀ k, k ≠ 12 → k ≠ 14 → Z.testbit (io_reg (la_world s) (0x10 + irq * 2)) k = Z.testbit low k) →
  (∀ k, k ≠ 12 → k ≠ 14 → Z.testbit (io_reg (la_world s) (0x10 + irq * 2 + 1)) k = Z.testbit high k) →
  entry_of irq s = redirection_of low high.
Proof. apply redirection_ext. Qed.

(** ** The properties *)

(** C35: Where [ioapic_set_redirect] sends a line.  The entry of the line is written in three
    steps, low word, high word, low word, and is masked after the first two, so that no
    interrupt goes to half an entry; in the end it is unmasked, fixed, and has the vector and the
    destination that were asked for, and the entries of the other lines are what they were.  The
    flags are not obeyed: the entry is active low when the source is declared edge-triggered, and
    level-triggered when it is declared active high.  That is what the flags ask for when they leave both
    to the bus, or say active low and edge, or active high and level, and is not in the other
    documented cases. *)
Theorem ioapic_set_redirect_routes irq apic_id vector flags (s : S) :
  io_ready s → 0 ≤ irq < 120 → 0 ≤ apic_id < 256 → 0 ≤ vector < 256 → 0 ≤ flags < 2 ^ 16 →
  ∃ low high low' s1 s2 s3,
    ioapic_write (0x10 + irq * 2) low s = Done tt s1 ∧ rd_masked (entry_of irq s1) = true ∧
    ioapic_write (0x10 + irq * 2 + 1) high s1 = Done tt s2 ∧ rd_masked (entry_of irq s2) = true ∧
    ioapic_set_redirect irq apic_id vector flags s = ioapic_write (0x10 + irq * 2) low' s2 ∧
    ioapic_write (0x10 + irq * 2) low' s2 = Done tt s3 ∧
    entry_of irq s3 = mk_redirection vector 0 (bool_decide (trigger_of flags = EdgeTriggered)) (bool_decide (polarity_of flags = ActiveHigh)) false apic_id ∧
    (polarity_of flags ≠ ReservedPolarity → trigger_of flags ≠ ReservedTrigger →
      (rd_active_low (entry_of irq s3) = wants_low flags ∧ rd_level (entry_of irq s3) = wants_level flags) ↔
      (polarity_of flags, trigger_of flags) ∈ [(PolarityOfBus, TriggerOfBus); (ActiveLow, EdgeTriggered); (ActiveHigh, LevelTriggered)]) ∧
    (∀ other, other ≠ irq → entry_of other s3 = entry_of other s).
Proof.
  intros Hs Hi Ha Hv Hf. set (low := redirect_low vector flags). set (high := u32 (Z.shiftl apic_id 24)). set (low' := Z.ldiff low (Z.shiftl 1 16)).
  destruct (ioapic_write_run (0x10 + irq * 2) low s Hs) as (s1 & E1 & Hs1 & Ho1 & Hk1).
  destruct (ioapic_write_run (0x10 + irq * 2 + 1) high s1 Hs1) as (s2 & E2 & Hs2 & Ho2 & Hk2).
  destruct (ioapic_write_run (0x10 + irq * 2) low' s2 Hs2) as (s3 & E3 & Hs3 & Ho3 & Hk3).
  pose proof (redirect_low_decodes vector flags apic_id true Hv Ha) as D1. pose proof (redirect_low_decodes vector flags apic_id false Hv Ha) as D2.
  cbv beta iota in D1, D2. fold low high in D1, D2. fold low' in D2. destruct (flags_read flags) as [Fl Fv]; [lia|]. rewrite Fl, Fv in D2.
  assert (Hentry : entry_of irq s3 = mk_redirection vector 0 (bool_decide (trigger_of flags = EdgeTriggered)) (bool_decide (polarity_of flags = ActiveHigh)) false apic_id).
  { erewrite entry_of_ext; [exact D2|done|]. intros k ? ?. rewrite Ho3 by lia. by apply Hk2. }
  exists low, high, low', s1, s2, s3. split; [done|]. split.
  { apply (f_equal rd_masked) in D1. cbn [rd_masked] in D1. rewrite <-D1. unfold entry_of, redirection_of, rd_masked. by apply Hk1. }
  split; [done|]. split.
  { erewrite entry_of_ext; [by rewrite D1| |done]. intros k ? ?. rewrite Ho2 by lia. by apply Hk1. }
  split.
  { unfold ioapic_set_redirect. change IOAPIC_REDIRECT_BASE with 0x10.
    assert (∀ z, 0 ≤ z < 2 ^ 32 → u32 z = z) as Hu by (intros z Hz; by apply Z.mod_small).
    rewrite (Hu (0x10 + irq * 2)), (Hu (0x10 + irq * 2 + 1)) by lia. mred. fold low high low'. by rewrite E1, E2. }
  split; [done|]. split; [done|]. rewrite Hentry. split.
  - cbn [rd_active_low rd_level]. unfold wants_low, wants_level. destruct (polarity_of flags), (trigger_of flags); intros H1 H2; try done;
      rewrite !elem_of_cons, elem_of_nil; (split; [intros [H3 H4]; by try discriminate H3; try discriminate H4; tauto|naive_solver]).
  - intros other Hne. unfold entry_of. by rewrite !Ho3, !Ho2, !Ho1 by lia.
Qed.
End ioapic_theorems.

(** ** A controller of interrupt lines *)

Record io_board := mk_io_board { ib_index : Z; ib_regs : Z → Z }.
Definition IO_BOARD : Z := 0xFFFF8000FEC00000.
#[local] Instance io_board_regs : RegIO io_board := {|
  reg_read := λ a w, if a =? IO_BOARD + 0x10 then Done (ib_regs w (ib_index w)) w else Stuck Fault;
  reg_write := λ a v w,
    if a =? IO_BOARD then Done tt (mk_io_board v (ib_regs w))
    else if a =? IO_BOARD + 0x10 then Done tt (mk_io_board (ib_index w) (λ r, if r =? ib_index w then v else ib_regs w r))
    else Stuck Fault;
|}.
#[local] Program Instance io_board_hw : IoApicHw io_board := {|
  io_at b w := b = IO_BOARD;
  io_index := ib_index;
  io_reg := ib_regs;
|}.
Next Obligation. intros b v w ->. eexists. done. Qed.
Next Obligation.
  intros b v w ->. eexists. split; [reflexivity|]. split; [done|]. split; cbn.
  - intros r Hr. by rewrite (proj2 (Z.eqb_neq _ _)).
  - intros k _ _. by rewrite Z.eqb_refl.
Qed.
Definition demo_io : apics io_board := mk_apics NULL 0 IO_BOARD (mk_io_board 0 (λ _, 0x10000)).

(** The line of the keyboard goes to processor 2 as vector 33, as an edge; line 2 stays. *)
Lemma ioapic_set_redirect_routes_witness : ∃ low high low' s1 s2 s3,
  ioapic_write (0x10 + 1 * 2) low demo_io = Done tt s1 ∧ rd_masked (entry_of 1 s1) = true ∧
  ioapic_write (0x10 + 1 * 2 + 1) high s1 = Done tt s2 ∧ rd_masked (entry_of 1 s2) = true ∧
  ioapic_set_redirect 1 2 33 0 demo_io = ioapic_write (0x10 + 1 * 2) low' s2 ∧
  ioapic_write (0x10 + 1 * 2) low' s2 = Done tt s3 ∧
  entry_of 1 s3 = mk_redirection 33 0 false false false 2 ∧
  (polarity_of 0 ≠ ReservedPolarity → trigger_of 0 ≠ ReservedTrigger →
    (rd_active_low (entry_of 1 s3) = wants_low 0 ∧ rd_level (entry_of 1 s3) = wants_level 0) ↔
    (polarity_of 0, trigger_of 0) ∈ [(PolarityOfBus, TriggerOfBus); (ActiveLow, EdgeTriggered); (ActiveHigh, LevelTriggered)]) ∧
  (∀ other, other ≠ 1 → entry_of other s3 = entry_of other demo_io).
Proof. apply (ioapic_set_redirect_routes 1 2 33 0 demo_io); [split; done|lia..]. Defined.

Section apic_theorems.
  Context {W : Type} `{!RegIO W} `{!MsrIO W} (paging_map_page : Z → Z → Z → M W unit).
  Context `{!LocalApicHw W paging_map_page}.
  Abbreviation S := (apics W).

(** The registers of the controller can be reached. *)
Record apic_ready (s : S) : Prop := {
  ar_base : apic_base s ≠ NULL;
  ar_maps : la_maps (apic_base s) (msr_base (la_msr (la_world s))) (la_world s);
  ar_on : xapic_on (la_msr (la_world s));
}.

Lemma apic_write_run r x s : apic_ready s → r ∈ [APIC_SPURIOUS; APIC_ICR_HIGH] →
  ∃ s', apic_write_reg r x s = Done tt s' ∧ apic_ready s' ∧ apic_base s' = apic_base s ∧
    la_msr (la_world s') = la_msr (la_world s) ∧
    la_sent (la_world s') = la_sent (la_world s) ∧ la_reg (la_world s') r = x.
Proof.
  intros [Hb Hm Ho] Hr. unfold apic_write_reg, la_on, zoom, get. mred.
  rewrite (proj2 (Z.eqb_neq _ _)) by done.
  assert (4 * (r / 4) = r) as -> by (apply list_elem_of_In in Hr as [<-|[<-|[]]]; reflexivity).
  destruct (la_write _ r x _ Hm Ho Hr) as (w' & -> & Hmsr & Hs & Hx & Hk).
  eexists. split; [done|]. split; [|done]. constructor; cbn; [done| |by rewrite Hmsr].
  rewrite Hmsr. by apply Hk.
Qed.

Lemma apic_read_run r s : apic_ready s → r ∈ [APIC_SPURIOUS; APIC_ICR_HIGH] →
  apic_read_reg r s = Done (la_reg (la_world s) r) s.
Proof.
  intros [Hb Hm Ho] Hr. unfold apic_read_reg, la_on, zoom, get. mred.
  rewrite (proj2 (Z.eqb_neq _ _)) by done.
  assert (4 * (r / 4) = r) as -> by (apply list_elem_of_In in Hr as [<-|[<-|[]]]; reflexivity).
  rewrite (la_read _ r _ Hm Ho Hr). by destruct s.
Qed.

(** A command goes to the processor it names. *)
Lemma apic_command_run id x s : apic_ready s → 0 ≤ id < 256 →
  ∃ s', apic_command id x s = Done tt s' ∧ apic_ready s' ∧
    la_sent (la_world s') = la_sent (la_world s) ++ [(id, x)].
Proof.
  intros Hs Hid. unfold apic_command, get. mred. rewrite (proj2 (Z.eqb_neq _ _)) by apply Hs.
  destruct (apic_write_run APIC_ICR_HIGH (u32 (Z.shiftl id 24)) s Hs) as (s1 & -> & [Hb1 Hm1 Ho1] & _ & _ & Hs1 & Hr1);
    [by right; left|].
  unfold apic_write_reg, la_on, zoom, get. mred. rewrite (proj2 (Z.eqb_neq _ _)) by done.
  change (4 * (APIC_ICR_LOW / 4)) with APIC_ICR_LOW.
  destruct (la_send _ x _ Hm1 Ho1) as (w' & -> & Hmsr & Hw & Hk). eexists. split; [done|]. split.
  - constructor; cbn; [done|rewrite Hmsr; by apply Hk|by rewrite Hmsr].
  - cbn. rewrite Hw, Hs1, Hr1. do 3 f_equal.
    unfold u32. rewrite Z.shiftl_mul_pow2, Z.shiftr_div_pow2, Z.mod_small by lia. by rewrite Z.div_mul.
Qed.

(** Enabling changes nothing of the base. *)
Lemma msr_base_enable low high :
  Z.ldiff (Z.lor (Z.shiftl high 32) (Z.lor low APIC_BASE_MSR_ENABLE)) 0xFFF =
  Z.ldiff (Z.lor (Z.shiftl high 32) low) 0xFFF.
Proof.
  rewrite Z.lor_assoc. apply Z.bits_inj'. intros k Hk. rewrite !Z.ldiff_spec, !Z.lor_spec.
  destruct (Z.testbit 0xFFF k) eqn:E; [by rewrite !andb_false_r|].
  change APIC_BASE_MSR_ENABLE with (2 ^ 11). rewrite Z.pow2_bits_eqb by done.
  destruct (Z.eqb_spec 11 k) as [<-|_]; [done|by rewrite orb_false_r].
Qed.

Lemma page_aligned m offset : offset mod 4096 = 0 → u64 (msr_base m + offset) mod 4096 = 0.
Proof.
  intros H. unfold u64, msr_base. change (2 ^ 64) with (4096 * 2 ^ 52). rewrite Z.rem_mul_r by done.
  rewrite (Z.mul_comm 4096), Z_mod_plus_full, Z.mod_mod by done. change 0xFFF with (Z.ones 12).
  rewrite Z.ldiff_ones_r by done. rewrite Z.shiftl_mul_pow2 by done. change (2 ^ 12) with 4096.
  by rewrite Z.add_comm, Z_mod_plus_full.
Qed.

(** On a processor with an APIC that is not switched to the x2APIC mode, [apic_init] maps the registers and
    enables the controller with the spurious vector 255; after it an INIT and a start-up
    request reach exactly the processor they are sent to, the latter with the page of the
    code it is to run.  Without an APIC, its registers or the boot loader's answer
    [apic_init] does nothing. *)
Theorem apic_wakes_processor cpu hhdm low high id page (s : S) :
  la_msr (la_world s) = (low, high) → 0 ≤ id < 256 → 0 ≤ page < 256 →
  let usable := truthy (cpu_has_feature cpu CPU_FEATURE_APIC) && truthy (cpu_has_feature cpu CPU_FEATURE_MSR) in
  match hhdm with
  | Some offset =>
      if usable then
        truthy (cpu_has_feature cpu CPU_FEATURE_X2APIC) = false → Z.testbit low 10 = false →
        msr_base (low, high) ≠ 0 → offset mod 4096 = 0 → u64 (msr_base (low, high) + offset) ≠ NULL →
        ∃ s1 s2 s3,
          apic_init paging_map_page cpu hhdm s = Done tt s1 ∧
          la_msr (la_world s1) = (Z.lor low APIC_BASE_MSR_ENABLE, high) ∧ la_reg (la_world s1) APIC_SPURIOUS = 0x1FF ∧
          apic_send_init id s1 = Done tt s2 ∧ apic_send_sipi id (page * 4096) s2 = Done tt s3 ∧
          la_sent (la_world s3) = la_sent (la_world s) ++ [(id, 0xC500); (id, 0x600 + page)]
      else apic_init paging_map_page cpu hhdm s = Done tt s
  | None => apic_init paging_map_page cpu hhdm s = Done tt s
  end.
Proof.
  intros Hmsr Hid Hpage usable.
  assert (usable = false ∨ hhdm = None → apic_init paging_map_page cpu hhdm s = Done tt s) as Hnone.
  { unfold usable, apic_init, truthy. intros H. destruct (_ =? 0); [done|]. destruct (_ =? 0); [done|].
    destruct H as [H| ->]; done. }
  destruct hhdm as [offset|]; [|by apply Hnone; right].
  destruct usable eqn:Hu; [|by apply Hnone; left]. intros Hx Hlow Hbase Hoff Haddr.
  apply andb_true_iff in Hu as [Ha Hm]. unfold truthy in Ha, Hm. apply negb_true_iff in Ha, Hm.
  unfold apic_init. rewrite Ha, Hm, Hx. unfold la_on, zoom, modify. mred. rewrite la_rdmsr, Hmsr.
  cbv beta iota. rewrite (proj2 (Z.eqb_neq _ _)) by exact Hbase. cbn [la_world set_x2apic set_apic_base].
  destruct (la_map_page (u64 (msr_base (low, high) + offset)) (msr_base (low, high)) (la_world s))
    as (w1 & E1 & Hmap & Hm1 & Hr1 & Hs1); [by apply page_aligned|].
  unfold msr_base in E1 at 1 2. cbn [fst snd] in E1. rewrite E1.
  cbn [la_world]. destruct (la_wrmsr (Z.lor low APIC_BASE_MSR_ENABLE, high) w1) as (w2 & -> & Hm2 & Hr2 & Hs2 & Hk2).
  match goal with |- context [apic_write_reg APIC_SPURIOUS 0x1FF ?t] => set (s0 := t) end.
  assert (apic_ready s0) as H0.
  { constructor; cbn; [done| |].
    - rewrite Hm2. unfold msr_base. cbn [fst snd]. rewrite msr_base_enable. by apply Hk2.
    - rewrite Hm2. split; cbn [fst]; rewrite Z.lor_spec; [apply orb_true_r|by rewrite Hlow]. }
  destruct (apic_write_run APIC_SPURIOUS 0x1FF s0 H0) as (s1 & -> & Hs1' & Hb1 & Hq1 & Hw1 & Hx1); [by left|].
  rewrite (apic_read_run APIC_SPURIOUS s1 Hs1') by (by left). rewrite Hx1.
  change (Z.lor 0x1FF 0x100) with 0x1FF.
  destruct (apic_write_run APIC_SPURIOUS 0x1FF s1 Hs1') as (s2 & -> & Hs2' & Hb2 & Hq2 & Hw2 & Hx2); [by left|].
  destruct (apic_command_run id 0xC500 s2 Hs2' Hid) as (s3 & E3 & Hs3 & Hw3).
  destruct (apic_command_run id (0x600 + page) s3 Hs3 Hid) as (s4 & E4 & Hs4 & Hw4).
  exists s2, s3, s4. split; [done|]. split; [by rewrite Hq2, Hq1|]. split; [done|]. split; [exact E3|]. split.
  - unfold apic_send_sipi. rewrite Z.shiftr_div_pow2 by done. rewrite Z.div_mul by done.
    rewrite <-E4. change 0x600 with (Z.shiftl 6 8). rewrite Z.lor_comm, lor_shiftl_add by lia.
    f_equal. change (Z.shiftl 6 8) with (2 ^ 8 * 6). lia.
  - rewrite Hw4, Hw3, Hw2, Hw1. cbn. rewrite Hs2, Hs1, <-app_assoc. done.
Qed.
End apic_theorems.

(** ** A processor with an APIC *)

Record apic_board := mk_apic_board { ab_msr : Z * Z; ab_regs : Z → Z; ab_sent : list (Z * Z); ab_maps : list (Z * Z) }.
Definition ab_shows (a : Z) (w : apic_board) : bool :=
  bool_decide ((a / 4096 * 4096, msr_base (ab_msr w)) ∈ ab_maps w) && Z.testbit (ab_msr w).1 11 && negb (Z.testbit (ab_msr w).1 10).
#[local] Instance apic_board_regs : RegIO apic_board := {|
  reg_read := λ a w, if ab_shows a w then Done (ab_regs w (a mod 4096)) w else Stuck Fault;
  reg_write := λ a v w,
    if ab_shows a w then
      if a mod 4096 =? APIC_ICR_LOW
      then Done tt (mk_apic_board (ab_msr w) (ab_regs w) (ab_sent w ++ [(Z.shiftr (ab_regs w APIC_ICR_HIGH) 24, v)]) (ab_maps w))
      else Done tt (mk_apic_board (ab_msr w) (λ r, if r =? a mod 4096 then v else ab_regs w r) (ab_sent w) (ab_maps w))
    else Stuck Fault;
|}.
#[local] Instance apic_board_msr : MsrIO apic_board := {|
  rdmsr := λ n w, if n =? APIC_BASE_MSR then Done (ab_msr w) w else Stuck Fault;
  wrmsr := λ n v w, if n =? APIC_BASE_MSR then Done tt (mk_apic_board v (ab_regs w) (ab_sent w) (ab_maps w)) else Stuck Fault;
|}.
Definition board_map (v p flags : Z) : M apic_board unit := modify (λ w,
  mk_apic_board (ab_msr w) (ab_regs w) (ab_sent w) ((v, p) :: ab_maps w)).

Lemma board_page v r : v mod 4096 = 0 → 0 ≤ r < 4096 → (v + r) / 4096 * 4096 = v ∧ (v + r) mod 4096 = r.
Proof.
  intros Hv Hr. pose proof (Z.div_mod v 4096 ltac:(done)) as E. rewrite Hv, Z.add_0_r in E.
  pose proof (Z.div_add_l (v / 4096) 4096 r ltac:(done)) as Ed. rewrite (Z.div_small r), Z.add_0_r in Ed by done.
  pose proof (Z_mod_plus_full r (v / 4096) 4096) as Em. rewrite (Z.mod_small r) in Em by done.
  replace (v / 4096 * 4096 + r) with (v + r) in Ed by lia. replace (r + v / 4096 * 4096) with (v + r) in Em by lia. lia.
Qed.

Lemma board_shows v r w : v mod 4096 = 0 → (v, msr_base (ab_msr w)) ∈ ab_maps w → xapic_on (ab_msr w) → 0 ≤ r < 4096 →
  ab_shows (v + r) w = true ∧ (v + r) mod 4096 = r.
Proof.
  intros Hv Hm [H1 H2] Hr. destruct (board_page v r Hv Hr) as [Hp ->]. split; [|done].
  unfold ab_shows. rewrite Hp, bool_decide_eq_true_2, H1, H2 by done. done.
Qed.

#[local] Program Instance apic_board_hw : LocalApicHw apic_board board_map := {|
  la_msr := ab_msr;
  la_reg := ab_regs;
  la_sent := ab_sent;
  la_maps v p w := v mod 4096 = 0 ∧ (v, p) ∈ ab_maps w;
|}.
Next Obligation. done. Qed.
Next Obligation. intros v w. by eexists. Qed.
Next Obligation. intros v p w Hv. eexists. split; [done|]. split; [|done]. split; [done|by left]. Qed.
Next Obligation.
  intros v r w [Hv Hm] Ho Hr. cbn. assert (0 ≤ r < 4096) as Hr'.
  { apply list_elem_of_In in Hr as [<-|[<-|[]]]; done. }
  destruct (board_shows v r w Hv Hm Ho Hr') as [-> ->]. done.
Qed.
Next Obligation.
  intros v r x w [Hv Hm] Ho Hr. cbn. assert (0 ≤ r < 4096 ∧ r ≠ APIC_ICR_LOW) as [Hr' Hne].
  { apply list_elem_of_In in Hr as [<-|[<-|[]]]; done. }
  destruct (board_shows v r w Hv Hm Ho Hr') as [-> ->]. rewrite (proj2 (Z.eqb_neq _ _)) by done.
  eexists. split; [done|]. cbn. by rewrite Z.eqb_refl.
Qed.
Next Obligation.
  intros v x w [Hv Hm] Ho. cbn. destruct (board_shows v APIC_ICR_LOW w Hv Hm Ho) as [-> ->]; [done|]. by eexists.
Qed.

Definition demo_cpu (edx : Z) : cpu_info_t := mk_cpu_info [] [] edx 0 0 0 0 0 0 0 0 0 0 0 0 0.
Definition demo_lapic : apics apic_board :=
  mk_apics NULL 0 NULL (mk_apic_board (0xFEE00100, 0) (λ _, 0) [] []).

(** Processor 3 is told to start at page 8. *)
Lemma apic_wakes_processor_witness : ∃ s1 s2 s3,
  apic_init board_map (demo_cpu 0x220) (Some 0xFFFF800000000000) demo_lapic = Done tt s1 ∧
  ab_msr (la_world s1) = (Z.lor 0xFEE00100 APIC_BASE_MSR_ENABLE, 0) ∧ ab_regs (la_world s1) APIC_SPURIOUS = 0x1FF ∧
  apic_send_init 3 s1 = Done tt s2 ∧ apic_send_sipi 3 (8 * 4096) s2 = Done tt s3 ∧
  ab_sent (la_world s3) = [] ++ [(3, 0xC500); (3, 0x600 + 8)].
Proof.
  pose proof (apic_wakes_processor board_map (demo_cpu 0x220) (Some 0xFFFF800000000000) 0xFEE00100 0 3 8 demo_lapic
    eq_refl ltac:(lia) ltac:(lia)) as H.
  assert (truthy (cpu_has_feature (demo_cpu 0x220) CPU_FEATURE_APIC) &&
          truthy (cpu_has_feature (demo_cpu 0x220) CPU_FEATURE_MSR) = true) as E by reflexivity.
  cbv beta iota zeta in H. rewrite E in H.
  apply H; [reflexivity|reflexivity|vm_compute; discriminate|reflexivity|vm_compute; discriminate].
Defined.
