(* ===== verification/Panic.v ===== *)
(** * The end of the kernel, [core/kernel/interrupts/panic/panic.c]

    What is shown before the processor is halted for good.  The text of the two lines of the
    processor's state is put together in an array of 256 bytes. *)

From Stdlib Require Import ZArith Lia String.
From stdpp Require Import base list numbers.
From S2P Require Import Prelude CString Buffer Interrupts.
Open Scope Z_scope.
Set Default Goal Selector "!".

Definition panic_black : Z := 0xFF000000.
Definition theme_white : Z := 0xFFFFFF.
Definition theme_red : Z := 0xFF8B0000.

(** What the report does, in order. *)
Inductive act := SetPanicTheme | Clear (color : Z) | Cli | Print (text : str) (color : Z).
Definition act_ (a : act) : M (list act) unit := modify (λ l, l ++ [a]).
Definition say (text : string) (color : Z) : M (list act) unit := act_ (Print (chars text) color).
(** [print("\n", theme_white)] *)
Definition end_line : M (list act) unit := act_ (Print [10] theme_white).
Definition print_array (a : list Z) : M (list act) unit := n ← of_option (Buffer.str_len a); act_ (Print (take (Z.to_nat n) a) theme_white).

(** [str_append_hex] of [common/string/string.c] on arrays: the digits without leading zeros. *)
Fixpoint hex_from (n : nat) (number : Z) (started : bool) : str :=
  match n with
  | O => []
  | Datatypes.S shift =>
      let digit_value := Z.land (Z.shiftr number (Z.of_nat shift * 4)) 15 in
      if truthy digit_value || started
      then (if digit_value <? 10 then 48 + digit_value else 97 + (digit_value - 10)) :: hex_from shift number true
      else hex_from shift number false
  end.
Definition hex_text (number : Z) : str := if number =? 0 then [48] else hex_from 16 number false.
Definition append_hex (destination : list Z) (number : Z) : option (list Z) := str_append destination (hex_text number ++ [0]).

Definition display_panic_header : M (list act) unit :=
  act_ SetPanicTheme;; act_ (Clear panic_black);; act_ Cli;;
  end_line;; say "*** SYSTEM FAILURE DETECTED ***" theme_red;; end_line.
(** The three texts of the state, each put into the same array. *)
Definition state_line (buffer : list Z) (ctx : cpu_state_t) : option (list Z) :=
  b ← str_copy buffer (lit "Vector: ");
  b ← Buffer.str_append_uint b (u32 (int_no ctx));
  b ← str_append b (lit " | Error: ");
  Buffer.str_append_uint b (u32 (err_code ctx)).
Definition address_line (buffer : list Z) (title : string) (address : Z) : option (list Z) :=
  b ← str_copy buffer (lit title); append_hex b address.
Definition display_cpu_state (buffer : list Z) (ctx : option cpu_state_t) : M (list act) unit :=
  match ctx with
  | None => mret tt
  | Some ctx =>
      b ← of_option (state_line buffer ctx); print_array b;; end_line;;
      b ← of_option (address_line b "Instruction Pointer: 0x" (rip ctx)); print_array b;; end_line;;
      b ← of_option (address_line b "Stack Pointer: 0x" (rsp ctx)); print_array b;; end_line
  end.
Definition reason (title : string) (message : option str) : M (list act) unit :=
  match message with
  | None => mret tt
  | Some text => say title theme_red;; act_ (Print text theme_red);; end_line
  end.
(** What is shown, up to the message of [halt_system]. *)
Definition panic_report (message : option str) : M (list act) unit :=
  display_panic_header;;
  reason "Reason: " message;;
  act_ (Print (chars "Critical system error occurred." ++ [10]) theme_white);;
  act_ (Print ([10] ++ chars "System halted. Manual restart required." ++ [10]) theme_white).
(** [buffer] is what the array of [display_cpu_state] holds beforehand. *)
Definition fault_report (buffer : list Z) (ctx : option cpu_state_t) (message : option str) : M (list act) unit :=
  display_panic_header;;
  reason "Exception Type: " message;;
  display_cpu_state buffer ctx;;
  act_ (Print (chars "Processor exception triggered system shutdown." ++ [10]) theme_white);;
  act_ (Print ([10] ++ chars "System halted. Manual restart required." ++ [10]) theme_white).
Definition initiate_panic (message : option str) : M (list act) unit := panic_report message;; stuck_with Halted.
Definition initiate_fault_panic (buffer : list Z) (ctx : option cpu_state_t) (message : option str) : M (list act) unit :=
  fault_report buffer ctx message;; stuck_with Halted.

(** ** Hexadecimal numbers *)

Definition hex_value (c : Z) : Z := if c <? 58 then c - 48 else c - 87.
Definition hex_read (l : str) : Z := fold_left (λ v c, 16 * v + hex_value c) l 0.
Definition is_hex (c : Z) : Prop := 48 ≤ c < 58 ∨ 97 ≤ c < 103.

Lemma nibble_range v s : 0 ≤ Z.land (Z.shiftr v s) 15 < 16.
Proof. change 15 with (Z.ones 4). rewrite Z.land_ones by done. apply Z.mod_pos_bound. lia. Qed.

(** The value of the rest of the digits, added to what was read. *)
Lemma hex_from_run n number started acc : 0 ≤ number →
  Forall is_hex (hex_from n number started) ∧ (length (hex_from n number started) ≤ n)%nat ∧
  (started = true ∨ acc = 0 →
   fold_left (λ v c, 16 * v + hex_value c) (hex_from n number started) acc = acc * 16 ^ Z.of_nat n + number mod 16 ^ Z.of_nat n).
Proof.
  intros Hn. revert started acc. induction n as [|n IH]; intros started acc; cbn [hex_from].
  - split; [done|]. split; [done|]. intros _. cbn [fold_left]. change (16 ^ Z.of_nat 0) with 1. rewrite Z.mod_1_r. lia.
  - pose proof (nibble_range number (Z.of_nat n * 4)) as Hd. set (d := Z.land _ 15) in *.
    assert (number mod 16 ^ Z.of_nat (Datatypes.S n) = d * 16 ^ Z.of_nat n + number mod 16 ^ Z.of_nat n) as Hsplit.
    { unfold d. change 15 with (Z.ones 4). rewrite Z.land_ones, Z.shiftr_div_pow2 by lia.
      replace (2 ^ (Z.of_nat n * 4)) with (16 ^ Z.of_nat n) by (rewrite Z.mul_comm, Z.pow_mul_r by lia; done).
      change (2 ^ 4) with 16. rewrite Nat2Z.inj_succ, Z.pow_succ_r by lia. rewrite (Z.mul_comm 16).
      rewrite Z.rem_mul_r by lia. lia. }
    destruct (truthy d || started) eqn:E.
    + set (c := if d <? 10 then _ else _). assert (is_hex c ∧ hex_value c = d) as [Hc Hv].
      { unfold c, is_hex, hex_value. destruct (Z.ltb_spec d 10).
        - replace (48 + d <? 58) with true by lia. lia.
        - replace (97 + (d - 10) <? 58) with false by lia. lia. }
      destruct (IH true (16 * acc + d)) as (H1 & H2 & H3). split; [by constructor|]. split; [cbn; lia|].
      intros _. cbn [fold_left]. rewrite Hv, H3 by (by left). rewrite Hsplit.
      rewrite Nat2Z.inj_succ, Z.pow_succ_r by lia. lia.
    + apply orb_false_iff in E as [E ->]. unfold truthy in E. apply negb_false_iff, Z.eqb_eq in E.
      destruct (IH false acc) as (H1 & H2 & H3). split; [done|]. split; [lia|].
      intros [|Ha]; [done|]. rewrite H3 by (by right). rewrite Hsplit, E, Ha. lia.
Qed.

Lemma hex_text_run v : 0 ≤ v < 2 ^ 64 → Forall is_hex (hex_text v) ∧ (length (hex_text v) ≤ 16)%nat ∧ hex_read (hex_text v) = v.
Proof.
  intros Hv. unfold hex_text. destruct (Z.eqb_spec v 0) as [->|Hne].
  - split; [|split; [cbn; lia|done]]. constructor; [left; lia|done].
  - destruct (hex_from_run 16 v false 0) as (H1 & H2 & H3); [lia|]. split; [done|]. split; [done|].
    unfold hex_read. rewrite H3 by (by right). change (16 ^ Z.of_nat 16) with (2 ^ 64). rewrite Z.mod_small by lia. lia.
Qed.

Lemma u32_in z : 0 ≤ z < 2 ^ 32 → u32 z = z.
Proof. apply Z.mod_small. Qed.

Lemma hex_chars l : Forall is_hex l → Forall is_char l.
Proof. apply Forall_impl. intros c. unfold is_hex, is_char. lia. Qed.

(** ** The report *)

Definition text_of_state (ctx : cpu_state_t) : str :=
  chars "Vector: " ++ u32_digits (u32 (int_no ctx)) ++ chars " | Error: " ++ u32_digits (u32 (err_code ctx)).

Lemma lit_holds (t : string) : bool_decide (Forall is_char (chars t)) = true → holds (lit t) (chars t).
Proof. intros H%bool_decide_eq_true. by apply holds_lit. Qed.

Lemma append_number n d s v : text_in n d s → (length s + 10 < n)%nat →
  ∃ d', Buffer.str_append_uint d v = Some d' ∧ text_in n d' (s ++ u32_digits (u32 v)).
Proof.
  intros Hd Hs. unfold Buffer.str_append_uint. pose proof (length_dec_digits 10 (u32 v)) as Hl. fold (u32_digits (u32 v)) in Hl.
  apply (text_in_append n d _ s); [done| |lia]. apply (holds_intro _ []), digits_chars, dec_digits_digits.
Qed.

Lemma state_line_run buffer ctx : length buffer = 256%nat →
  ∃ b, state_line buffer ctx = Some b ∧ text_in 256 b (text_of_state ctx).
Proof.
  intros Hb. unfold state_line, text_of_state.
  assert (length (chars "Vector: ") = 8%nat ∧ length (chars " | Error: ") = 10%nat) as [L1 L2] by done.
  destruct (text_in_copy 256 buffer (lit "Vector: ") (chars "Vector: ") Hb) as (b1 & -> & H1); [by apply lit_holds|cbn; lia|].
  cbn [mbind option_bind].
  destruct (append_number 256 b1 _ (u32 (int_no ctx)) H1) as (b2 & -> & H2); [cbn; lia|]. cbn [mbind option_bind].
  rewrite (u32_in (u32 _)) in H2 by apply u32_range. pose proof (length_dec_digits 10 (u32 (int_no ctx))) as Hl. fold (u32_digits (u32 (int_no ctx))) in Hl.
  destruct (text_in_append 256 b2 (lit " | Error: ") _ (chars " | Error: ") H2) as (b3 & -> & H3);
    [by apply lit_holds|rewrite !length_app; lia|]. cbn [mbind option_bind].
  destruct (append_number 256 b3 _ (u32 (err_code ctx)) H3) as (b4 & -> & H4); [rewrite !length_app; lia|].
  rewrite (u32_in (u32 _)) in H4 by apply u32_range. exists b4. split; [done|]. by rewrite <-!app_assoc in H4.
Qed.

Lemma address_line_run buffer title v : length buffer = 256%nat → 0 ≤ v < 2 ^ 64 →
  bool_decide (Forall is_char (chars title)) = true → (length (chars title) < 200)%nat →
  ∃ b, address_line buffer title v = Some b ∧ text_in 256 b (chars title ++ hex_text v).
Proof.
  intros Hb Hv Ht Hl. unfold address_line, append_hex. destruct (hex_text_run v Hv) as (Hh & Hn & _).
  destruct (text_in_copy 256 buffer (lit title) (chars title) Hb) as (b1 & -> & H1); [by apply lit_holds|lia|].
  cbn [mbind option_bind]. apply (text_in_append 256 b1 _ (chars title)); [done| |lia].
  apply (holds_intro _ []). by apply hex_chars.
Qed.

Lemma print_array_run b s l : text_in 256 b s → print_array b l = Done tt (l ++ [Print s theme_white]).
Proof.
  intros [_ H]. unfold print_array. rewrite (str_len_holds _ _ H). cbn [of_option]. mred. rewrite Nat2Z.id.
  destruct H as [_ [rest ->]]. by rewrite take_app_length.
Qed.

(** The report of a fault names the exception and shows, without running over its array of 256
    bytes, the vector and the error code in decimal and the addresses of the instruction and
    of the stack in hexadecimal, which read back as the registers; then the processor halts
    and nothing runs any more. *)
Theorem fault_report_tells buffer ctx message shown :
  length buffer = 256%nat → 0 ≤ rip ctx < 2 ^ 64 → 0 ≤ rsp ctx < 2 ^ 64 →
  ∃ before after,
    fault_report buffer (Some ctx) message shown =
      Done tt (shown ++ before ++
        [Print (text_of_state ctx) theme_white; Print [10] theme_white;
         Print (chars "Instruction Pointer: 0x" ++ hex_text (rip ctx)) theme_white; Print [10] theme_white;
         Print (chars "Stack Pointer: 0x" ++ hex_text (rsp ctx)) theme_white; Print [10] theme_white] ++ after) ∧
    (∀ text, message = Some text → Print text theme_red ∈ before) ∧
    dec_value (u32_digits (u32 (int_no ctx))) = u32 (int_no ctx) ∧ dec_value (u32_digits (u32 (err_code ctx))) = u32 (err_code ctx) ∧
    hex_read (hex_text (rip ctx)) = rip ctx ∧ hex_read (hex_text (rsp ctx)) = rsp ctx ∧
    initiate_fault_panic buffer (Some ctx) message shown = Stuck Halted.
Proof.
  intros Hb Hip Hsp.
  destruct (state_line_run buffer ctx Hb) as (b1 & E1 & H1).
  destruct (address_line_run b1 "Instruction Pointer: 0x" (rip ctx) (proj1 H1) Hip) as (b2 & E2 & H2); [done|cbn; lia|].
  destruct (address_line_run b2 "Stack Pointer: 0x" (rsp ctx) (proj1 H2) Hsp) as (b3 & E3 & H3); [done|cbn; lia|].
  assert (∀ l, display_cpu_state buffer (Some ctx) l = Done tt (l ++
    [Print (text_of_state ctx) theme_white; Print [10] theme_white;
     Print (chars "Instruction Pointer: 0x" ++ hex_text (rip ctx)) theme_white; Print [10] theme_white;
     Print (chars "Stack Pointer: 0x" ++ hex_text (rsp ctx)) theme_white; Print [10] theme_white])) as Hd.
  { intros l. cbn [display_cpu_state]. rewrite E1. mred. cbn [of_option]. mred. rewrite (print_array_run _ _ _ H1).
    unfold end_line, act_, modify. cbv beta iota. rewrite E2. cbn [of_option]. mred. rewrite (print_array_run _ _ _ H2).
    cbv beta iota. rewrite E3. cbn [of_option]. mred. rewrite (print_array_run _ _ _ H3). cbv beta iota.
    by rewrite <-!app_assoc. }
  pose proof (u32_range (int_no ctx)). pose proof (u32_range (err_code ctx)).
  assert (∃ before, ∀ l, (display_panic_header;; reason "Exception Type: " message) l = Done tt (l ++ before) ∧
    (∀ text, message = Some text → Print text theme_red ∈ before)) as [before Hbef].
  { destruct message as [text|]; cbn [reason]; eexists; intros l; mred; unfold display_panic_header, say, end_line, act_, modify; mred;
      rewrite <-?app_assoc; (split; [reflexivity|]); [|done].
    intros text' [= <-]. cbn. do 7 right. by left. }
  exists before, [Print (chars "Processor exception triggered system shutdown." ++ [10]) theme_white;
    Print ([10] ++ chars "System halted. Manual restart required." ++ [10]) theme_white].
  match goal with |- ?P ∧ _ => assert P as Hrun end.
  2: { split; [exact Hrun|]. split; [by apply (Hbef [])|]. split; [by apply u32_digits_canonical|]. split; [by apply u32_digits_canonical|].
       split; [by apply hex_text_run|]. split; [by apply hex_text_run|]. unfold initiate_fault_panic. mred. by rewrite Hrun. }
  unfold fault_report. destruct (Hbef shown) as [E _]. mred. unfold mbind, M_bind in E.
  destruct (display_panic_header shown) as [[] s1|]; [|done]. rewrite E, Hd. unfold act_, modify. rewrite <-!app_assoc. reflexivity.
Qed.

(** A page fault. *)
Lemma fault_report_tells_witness : ∃ before after,
    fault_report (replicate 256 0) (Some (mk_cpu_state 14 2 0xFFFFFFFF80001234 0xFFFF800000000FF0)) (Some (chars "Page Fault")) [] =
      Done tt ([] ++ before ++
        [Print (text_of_state (mk_cpu_state 14 2 0xFFFFFFFF80001234 0xFFFF800000000FF0)) theme_white; Print [10] theme_white;
         Print (chars "Instruction Pointer: 0x" ++ hex_text 0xFFFFFFFF80001234) theme_white; Print [10] theme_white;
         Print (chars "Stack Pointer: 0x" ++ hex_text 0xFFFF800000000FF0) theme_white; Print [10] theme_white] ++ after) ∧
    (∀ text, Some (chars "Page Fault") = Some text → Print text theme_red ∈ before) ∧
    dec_value (u32_digits (u32 14)) = u32 14 ∧ dec_value (u32_digits (u32 2)) = u32 2 ∧
    hex_read (hex_text 0xFFFFFFFF80001234) = 0xFFFFFFFF80001234 ∧ hex_read (hex_text 0xFFFF800000000FF0) = 0xFFFF800000000FF0 ∧
    initiate_fault_panic (replicate 256 0) (Some (mk_cpu_state 14 2 0xFFFFFFFF80001234 0xFFFF800000000FF0)) (Some (chars "Page Fault")) [] = Stuck Halted.
Proof.
  apply (fault_report_tells (replicate 256 0) (mk_cpu_state 14 2 0xFFFFFFFF80001234 0xFFFF800000000FF0) (Some (chars "Page Fault")) []);
    [reflexivity|cbn; lia|cbn; lia].
Defined.
