(* ===== verification/VgaText.v ===== *)
(** * The window of the text screen, [core/gui/vga_gui.c]

    The text screen is 25 lines of 80 cells, a character and its colours each.  The kernel
    does not call this file; it is a part of its own. *)

From Stdlib Require Import ZArith Lia String.
From stdpp Require Import base list numbers.
From S2P Require Import Prelude.
Open Scope Z_scope.
Set Default Goal Selector "!".

Definition VGA_WIDTH : Z := 80.
Definition VGA_HEIGHT : Z := 25.
Definition VGA_BLACK : Z := 0x0.
Definition VGA_BLUE : Z := 0x1.
Definition VGA_DARK_GRAY : Z := 0x8.
Definition VGA_YELLOW : Z := 0xE.
Definition VGA_WHITE : Z := 0xF.
Definition VGA_ATTR (fg bg : Z) : Z := Z.lor fg (Z.shiftl bg 4).

Record text_screen := mk_text_screen { vga_buffer : list Z; frame_count : Z }.
#[local] Abbreviation S := text_screen.
Definition set_cell (i : nat) (v : Z) (s : S) : S := mk_text_screen (<[i := v]> (vga_buffer s)) (frame_count s).

(** A plain [char] is signed. *)
Definition vga_char (c attr : Z) : Z := Z.lor (u16 (i8 c)) (Z.shiftl (u8 attr) 8).
Definition on_screen (x y : Z) : bool := (0 <=? x) && (x <? VGA_WIDTH) && (0 <=? y) && (y <? VGA_HEIGHT).
Definition vga_gui_put_char (x y c attr : Z) : M S unit :=
  if on_screen x y then
    s ← get;
    let i := Z.to_nat (y * VGA_WIDTH + x) in
    if bool_decide (i < length (vga_buffer s))%nat then modify (set_cell i (vga_char c attr)) else fault
  else mret tt.
Definition vga_gui_clear (color : Z) : M S unit :=
  let clear_char := vga_char 32 (VGA_ATTR VGA_WHITE color) in
  for_to 0 (VGA_WIDTH * VGA_HEIGHT) (λ i,
    s ← get;
    if bool_decide (Z.to_nat i < length (vga_buffer s))%nat then modify (set_cell (Z.to_nat i) clear_char) else fault).
Definition vga_set_text_mode : M S unit := vga_gui_clear VGA_BLACK.
Definition vga_gui_init : M S unit := vga_set_text_mode;; vga_gui_clear VGA_BLACK.
Definition vga_strlen (str : str) : Z := Z.of_nat (length str).
Fixpoint vga_gui_put_string (x y : Z) (str : str) (attr : Z) : M S unit :=
  match str with
  | [] => mret tt
  | c :: str' =>
      if x <? VGA_WIDTH then vga_gui_put_char x y c attr;; vga_gui_put_string (x + 1) y str' attr else mret tt
  end.

Definition in_width (x : Z) : bool := (0 <=? x) && (x <? VGA_WIDTH).
Definition in_height (y : Z) : bool := (0 <=? y) && (y <? VGA_HEIGHT).
(** The edges and the corners of a frame. *)
Definition rect_rows (x y width height attr : Z) : M S unit :=
  for_to x (Z.min (x + width) VGA_WIDTH) (λ i,
    whenM (in_height y) (vga_gui_put_char i y 45 attr);;
    whenM (in_height (y + height - 1)) (vga_gui_put_char i (y + height - 1) 45 attr)).
Definition rect_columns (x y width height attr : Z) : M S unit :=
  for_to y (Z.min (y + height) VGA_HEIGHT) (λ i,
    whenM (in_width x) (vga_gui_put_char x i 124 attr);;
    whenM (in_width (x + width - 1)) (vga_gui_put_char (x + width - 1) i 124 attr)).
Definition corner (x y attr : Z) : M S unit := whenM (in_width x && in_height y) (vga_gui_put_char x y 43 attr).
Definition vga_gui_draw_rect (x y width height attr : Z) : M S unit :=
  rect_rows x y width height attr;;
  rect_columns x y width height attr;;
  corner x y attr;;
  corner (x + width - 1) y attr;;
  corner x (y + height - 1) attr;;
  corner (x + width - 1) (y + height - 1) attr.
(** [for (dy = lo; dy < hi_y; dy++) for (dx = lo; dx < hi_x; dx++)] a blank. *)
Definition blank_box (x y lo hi_x hi_y attr : Z) : M S unit :=
  for_to lo hi_y (λ dy, for_to lo hi_x (λ dx, vga_gui_put_char (x + dx) (y + dy) 32 attr)).
Definition vga_gui_draw_window (x y width height : Z) (title : str) : M S unit :=
  vga_gui_draw_rect x y width height (VGA_ATTR VGA_WHITE VGA_BLUE);;
  vga_gui_put_string (x + 2) y title (VGA_ATTR VGA_YELLOW VGA_BLUE);;
  blank_box x y 1 (width - 1) (height - 1) (VGA_ATTR VGA_WHITE VGA_BLACK).
Definition vga_gui_draw_button (x y width height : Z) (text : str) (pressed : bool) : M S unit :=
  let attr := if pressed then VGA_ATTR VGA_BLACK VGA_WHITE else VGA_ATTR VGA_WHITE VGA_BLUE in
  let shadow_attr := VGA_ATTR VGA_BLACK VGA_DARK_GRAY in
  blank_box x y 0 width height attr;;
  let text_x := x + Z.quot (width - vga_strlen text) 2 in
  let text_y := y + Z.quot height 2 in
  vga_gui_put_string text_x text_y text attr;;
  if pressed then mret tt else
  for_to 1 (Z.min (width + 1) (VGA_WIDTH - x)) (λ dx,
    whenM (y + height <? VGA_HEIGHT) (vga_gui_put_char (x + dx) (y + height) 32 shadow_attr));;
  for_to 1 (Z.min (height + 1) (VGA_HEIGHT - y)) (λ dy,
    whenM (x + width <? VGA_WIDTH) (vga_gui_put_char (x + width) (y + dy) 32 shadow_attr)).
(** [Frame: ] and the last four digits of the count. *)
Definition frame_status (n : Z) : str :=
  chars "Frame: " ++ [48 + Z.rem (Z.quot n 1000) 10; 48 + Z.rem (Z.quot n 100) 10; 48 + Z.rem (Z.quot n 10) 10; 48 + Z.rem n 10].
Definition vga_gui_run : M S unit :=
  modify (λ s, mk_text_screen (vga_buffer s) (i32 (frame_count s + 1)));;
  s ← get;
  whenM (Z.rem (frame_count s) 1000 =? 0) (vga_gui_clear VGA_BLUE);;
  vga_gui_draw_window 10 5 60 15 (chars "Terminal");;
  vga_gui_draw_button 20 10 12 3 (chars "OK") false;;
  vga_gui_draw_button 35 10 12 3 (chars "Cancel") false;;
  vga_gui_put_string 10 2 (frame_status (frame_count s)) (VGA_ATTR VGA_YELLOW VGA_BLUE).

(** ** What is painted *)

(** The cell at a place of the screen. *)
Definition cell (s : S) (x y : Z) : option Z := vga_buffer s !! Z.to_nat (y * VGA_WIDTH + x).
(** The cells where [f] has a value have it, the others what they had; nothing else changes. *)
Record painted (f : Z → Z → option Z) (s s' : S) : Prop := {
  pa_cells : ∀ x y, on_screen x y = true → cell s' x y = match f x y with Some v => Some v | None => cell s x y end;
  pa_length : length (vga_buffer s') = length (vga_buffer s);
  pa_count : frame_count s' = frame_count s;
}.
Definition whole (s : S) : Prop := length (vga_buffer s) = 2000%nat.
Definition paints (m : M S unit) (f : Z → Z → option Z) : Prop := ∀ s, whole s → wp m (λ _, painted f s) s.
Definition nothing (x y : Z) : option Z := None.
(** What comes later covers what comes first. *)
Definition over (g f : Z → Z → option Z) (x y : Z) : option Z := match g x y with Some v => Some v | None => f x y end.
(** One value where a condition holds. *)
Definition where_ (p : Z → Z → bool) (v : Z) (x y : Z) : option Z := if p x y then Some v else None.

Lemma painted_over f g s s1 s2 : painted f s s1 → painted g s1 s2 → painted (over g f) s s2.
Proof.
  intros [H1 L1 C1] [H2 L2 C2]. split; [|congruence..]. intros x y Hxy. unfold over.
  rewrite H2 by done. destruct (g x y); [done|by apply H1].
Qed.

Lemma painted_ext f g s s' : (∀ x y, on_screen x y = true → f x y = g x y) → painted f s s' → painted g s s'.
Proof. intros E [H L C]. split; [|done..]. intros x y Hxy. by rewrite <-E, H. Qed.

Lemma painted_whole f s s' : painted f s s' → whole s → whole s'.
Proof. unfold whole. intros [_ L _]. by rewrite L. Qed.

Lemma cells_ext f g m : (∀ x y, on_screen x y = true → f x y = g x y) → paints m f → paints m g.
Proof. intros E H s Hs. eapply wp_mono; [by apply H|]. intros [] s'. by apply painted_ext. Qed.

Lemma cells_ret : paints (mret tt) nothing.
Proof. intros s Hs. apply wp_ret. by split. Qed.

Lemma paints_seq m1 m2 f g : paints m1 f → paints m2 g → paints (m1;; m2) (over g f).
Proof.
  intros H1 H2 s Hs. apply wp_bind. eapply wp_mono; [by apply H1|]. intros [] s1 P1. cbv beta in P1.
  eapply wp_mono; [apply H2; by eapply painted_whole|]. intros [] s2 P2. by eapply painted_over.
Qed.

Lemma cells_when (b : bool) m f : (b = true → paints m f) → paints (whenM b m) (if b then f else nothing).
Proof. destruct b; intros H; [by apply H|apply cells_ret]. Qed.

Lemma paints_put x y c attr : paints (vga_gui_put_char x y c attr)
  (where_ (λ cx cy, (cx =? x) && (cy =? y)) (vga_char c attr)).
Proof.
  intros s Hs. unfold vga_gui_put_char. destruct (on_screen x y) eqn:E.
  - apply wp_bind, wp_get. unfold on_screen, VGA_WIDTH, VGA_HEIGHT in *.
    rewrite bool_decide_eq_true_2 by (rewrite Hs; lia). apply wp_modify. split; [|apply length_insert|done].
    intros cx cy Hc. unfold where_, cell, set_cell, on_screen, VGA_WIDTH, VGA_HEIGHT in *. cbn [vga_buffer].
    destruct (Z.eqb_spec cx x), (Z.eqb_spec cy y); cbn [andb]; subst;
      [apply list_lookup_insert_eq; rewrite Hs; lia|apply list_lookup_insert_ne; lia..].
  - apply wp_ret. split; [|done..]. intros cx cy Hc. unfold where_.
    destruct (Z.eqb_spec cx x), (Z.eqb_spec cy y); [|done..]. subst. by rewrite E in Hc.
Qed.

(** A loop each of whose turns paints the same value. *)
Lemma cells_for lo hi body p q v :
  (∀ i, lo ≤ i < hi → paints (body i) (where_ (p i) v)) →
  (∀ x y, on_screen x y = true → q x y = true ↔ ∃ i, lo ≤ i < hi ∧ p i x y = true) →
  paints (for_to lo hi body) (where_ q v).
Proof.
  intros Hb Hq s Hs.
  set (upto := λ k x y, bool_decide (Exists (λ i, p i x y = true) (seqZ lo (k - lo)))).
  assert (∀ k x y, upto k x y = true ↔ ∃ i, lo ≤ i < k ∧ p i x y = true) as Hu.
  { intros k x y. unfold upto. rewrite bool_decide_eq_true, Exists_exists. split.
    - intros (i & Hi%list_elem_of_In%elem_of_seqZ & Hp). exists i. split; [lia|done].
    - intros (i & Hi & Hp). exists i. split; [apply list_elem_of_In, elem_of_seqZ; lia|done]. }
  assert (∀ b c : bool, (b = true ↔ c = true) → b = c) as Hbool by (intros [] []; naive_solver).
  destruct (decide (lo ≤ hi)) as [Hle|Hgt].
  - eapply wp_mono.
    { apply (wp_for_to (λ k s', painted (where_ (upto k) v) s s')); [done| |].
      - split; [|done..]. intros x y _. unfold where_. destruct (upto lo x y) eqn:E; [|done].
        apply Hu in E as (i & ? & _). lia.
      - intros i s1 Hi P1. eapply wp_mono; [apply Hb; [lia|by eapply painted_whole]|]. intros [] s2 P2.
        eapply painted_ext; [|by eapply painted_over]. intros x y _. unfold over, where_.
        assert (upto (i + 1) x y = p i x y || upto i x y) as ->; [|by destruct (p i x y)].
        apply Hbool. rewrite orb_true_iff, !Hu. split.
        + intros (j & Hj & Hp). destruct (decide (j = i)) as [->|]; [by left|right]. exists j. split; [lia|done].
        + intros [Hp|(j & Hj & Hp)]; [exists i|exists j]; (split; [lia|done]). }
    intros [] s' P. eapply painted_ext; [|exact P]. intros x y Hxy. unfold where_.
    assert (upto hi x y = q x y) as ->; [|done]. apply Hbool. by rewrite Hu, Hq.
  - unfold for_to. replace (Z.to_nat (hi - lo)) with O by lia. cbn. apply wp_ret. split; [|done..].
    intros x y Hxy. unfold where_. destruct (q x y) eqn:E; [|done]. apply Hq in E as (i & ? & _); [lia|done].
Qed.

(** ** What the operations draw *)

(** A box of cells. *)
Definition in_box (x y width height cx cy : Z) : bool :=
  (x <=? cx) && (cx <? x + width) && (y <=? cy) && (cy <? y + height).

Lemma paints_string str x y attr : 0 ≤ y < VGA_HEIGHT →
  paints (vga_gui_put_string x y str attr)
    (λ cx cy, if (cy =? y) && (x <=? cx) then (λ c, vga_char c attr) <$> str !! Z.to_nat (cx - x) else None).
Proof.
  intros Hy. revert x; induction str as [|c str IH]; intros x; cbn [vga_gui_put_string].
  - eapply cells_ext; [|apply cells_ret]. intros cx cy _. by destruct (_ && _).
  - destruct (Z.ltb_spec x VGA_WIDTH).
    + eapply cells_ext; [|eapply paints_seq; [apply paints_put|apply IH]]. intros cx cy _. unfold over, where_.
      destruct (Z.eqb_spec cy y) as [->|]; cbn [andb]; [|by rewrite andb_false_r].
      rewrite andb_true_r. destruct (Z.leb_spec (x + 1) cx).
      * replace (cx =? x) with false by lia. replace (x <=? cx) with true by lia.
        replace (Z.to_nat (cx - x)) with (Datatypes.S (Z.to_nat (cx - (x + 1)))) by lia. cbn. by destruct (str !! _).
      * destruct (Z.eqb_spec cx x) as [->|]; [by rewrite Z.leb_refl, Z.sub_diag|]. by replace (x <=? cx) with false by lia.
    + eapply cells_ext; [|apply cells_ret]. intros cx cy Hc. unfold on_screen in Hc.
      by replace (x <=? cx) with false by lia; rewrite andb_false_r.
Qed.

Lemma paints_blank x y lo hi_x hi_y attr : paints (blank_box x y lo hi_x hi_y attr)
  (where_ (in_box (x + lo) (y + lo) (hi_x - lo) (hi_y - lo)) (vga_char 32 attr)).
Proof.
  apply (cells_for _ _ _ (λ dy, in_box (x + lo) (y + dy) (hi_x - lo) 1)).
  - intros dy _. apply (cells_for _ _ _ (λ dx cx cy, (cx =? x + dx) && (cy =? y + dy))); [intros; apply paints_put|].
    intros cx cy _. unfold in_box. split; [intros H; exists (cx - x); lia|intros (dx & ? & ?); lia].
  - intros cx cy _. unfold in_box. split; [intros H; exists (cy - y); lia|intros (dy & ? & ?); lia].
Qed.

(** The frame of a box: corners, sides, top and bottom. *)
Definition frame_of (x y width height attr cx cy : Z) : option Z :=
  let side := (cx =? x) || (cx =? x + width - 1) in
  let edge := (cy =? y) || (cy =? y + height - 1) in
  if in_box x y width height cx cy then
    if side && edge then Some (vga_char 43 attr)
    else if side then Some (vga_char 124 attr)
    else if edge then Some (vga_char 45 attr) else None
  else None.

Lemma paints_corner x y attr : paints (corner x y attr) (where_ (λ cx cy, (cx =? x) && (cy =? y)) (vga_char 43 attr)).
Proof.
  eapply cells_ext; [|apply cells_when; intros _; apply paints_put]. intros cx cy Hc.
  destruct (_ && in_height y) eqn:E; [done|]. unfold nothing, where_.
  destruct (Z.eqb_spec cx x), (Z.eqb_spec cy y); [|done..]. subst. unfold on_screen, in_width, in_height in *. lia.
Qed.

(** The two cells of a turn of the loops. *)
Lemma paints_pair (b1 b2 : bool) x1 y1 x2 y2 c attr :
  (b1 = false → on_screen x1 y1 = false) → (b2 = false → on_screen x2 y2 = false) →
  paints (whenM b1 (vga_gui_put_char x1 y1 c attr);; whenM b2 (vga_gui_put_char x2 y2 c attr))
    (where_ (λ cx cy, (cx =? x1) && (cy =? y1) || (cx =? x2) && (cy =? y2)) (vga_char c attr)).
Proof.
  intros H1 H2.
  eapply cells_ext; [|eapply paints_seq; apply cells_when; intros _; apply paints_put].
  intros cx cy Hc. unfold over, where_, nothing. destruct b1, b2; cbv beta;
  destruct (Z.eqb_spec cx x1), (Z.eqb_spec cy y1), (Z.eqb_spec cx x2), (Z.eqb_spec cy y2); cbn; try done;
    subst; try specialize (H1 eq_refl); try specialize (H2 eq_refl); congruence.
Qed.

Lemma paints_rect x y width height attr : 0 < width → 0 < height →
  paints (vga_gui_draw_rect x y width height attr) (frame_of x y width height attr).
Proof.
  intros Hw Hh. eapply cells_ext; [|repeat eapply paints_seq].
  2: { apply (cells_for _ _ _ (λ i cx cy, (cx =? i) && (cy =? y) || (cx =? i) && (cy =? y + height - 1))
         (λ cx cy, (x <=? cx) && (cx <? x + width) && ((cy =? y) || (cy =? y + height - 1)))).
       - intros i _. apply paints_pair; unfold in_height, on_screen; lia.
       - intros cx cy Hc. unfold on_screen in Hc. split; [intros H; exists cx; lia|intros (i & ? & ?); lia]. }
  2: { apply (cells_for _ _ _ (λ i cx cy, (cx =? x) && (cy =? i) || (cx =? x + width - 1) && (cy =? i))
         (λ cx cy, (y <=? cy) && (cy <? y + height) && ((cx =? x) || (cx =? x + width - 1)))).
       - intros i _. apply paints_pair; unfold in_width, on_screen; lia.
       - intros cx cy Hc. unfold on_screen in Hc. split; [intros H; exists cy; lia|intros (i & ? & ?); lia]. }
  2-5: apply paints_corner.
  intros cx cy Hc. unfold over, where_, frame_of, in_box.
  repeat match goal with |- context [if ?b then _ else _] => destruct b eqn:? end; lia || done.
Qed.

(** ** The properties *)

(** [vga_gui_draw_window] shows the title over the frame of the window and blanks its inside; nothing outside
    the window changes but what a title longer than the window covers, and nothing is
    written outside the screen wherever the window is. *)
Theorem vga_gui_draw_window_correct x y width height title s :
  whole s → 0 < width → 0 < height → 0 ≤ y < VGA_HEIGHT →
  wp (vga_gui_draw_window x y width height title) (λ _ s', painted (λ cx cy,
      if in_box (x + 1) (y + 1) (width - 2) (height - 2) cx cy then Some (vga_char 32 (VGA_ATTR VGA_WHITE VGA_BLACK))
      else match (if (cy =? y) && (x + 2 <=? cx) then title !! Z.to_nat (cx - (x + 2)) else None) with
           | Some c => Some (vga_char c (VGA_ATTR VGA_YELLOW VGA_BLUE))
           | None => frame_of x y width height (VGA_ATTR VGA_WHITE VGA_BLUE) cx cy
           end) s s') s.
Proof.
  intros Hs Hw Hh Hy. revert s Hs.
  eapply (cells_ext _ _ (vga_gui_draw_window x y width height title));
    [|eapply paints_seq; [by apply paints_rect|eapply paints_seq; [by apply paints_string|apply paints_blank]]].
  intros cx cy _. unfold over, where_. replace (width - 1 - 1) with (width - 2) by lia.
  replace (height - 1 - 1) with (height - 2) by lia. destruct (in_box _ _ _ _ _ _); [done|].
  destruct (_ && _); [|done]. by destruct (title !! _).
Qed.

Definition demo_text_screen : text_screen := mk_text_screen (replicate 2000 0) 0.

(** A window at the right edge, cut by it. *)
Lemma vga_gui_draw_window_correct_witness :
  wp (vga_gui_draw_window 70 20 20 10 (chars "Log")) (λ _ s', painted (λ cx cy,
      if in_box (70 + 1) (20 + 1) (20 - 2) (10 - 2) cx cy then Some (vga_char 32 (VGA_ATTR VGA_WHITE VGA_BLACK))
      else match (if (cy =? 20) && (70 + 2 <=? cx) then chars "Log" !! Z.to_nat (cx - (70 + 2)) else None) with
           | Some c => Some (vga_char c (VGA_ATTR VGA_YELLOW VGA_BLUE))
           | None => frame_of 70 20 20 10 (VGA_ATTR VGA_WHITE VGA_BLUE) cx cy
           end) demo_text_screen s') demo_text_screen.
Proof.
  apply (vga_gui_draw_window_correct 70 20 20 10 (chars "Log") demo_text_screen);
    [reflexivity|lia|lia|unfold VGA_HEIGHT; lia].
Defined.
