(* ===== verification/UsbHost.v ===== *)
(** * What the USB host drivers share, [core/drivers/usb/ehci.h] and the common code of the four drivers

    A driver keeps its devices in an array of 256 structures in memory, where the controller
    writes what the devices answer.  Each driver has its own copy of the search through a
    configuration and of the reader of HID reports, written alike; they are here once, and
    each driver's file says how it uses them.  The controller is hardware: its registers, and
    what it does to memory while the code waits, are a parameter. *)

From Stdlib Require Import ZArith Lia String.
From stdpp Require Import base gmap list numbers.
From S2P Require Import Prelude Memory Ports Alloc.
Open Scope Z_scope.
Set Default Goal Selector "!".

(** The packed structures, by the offsets of their members. *)
Definition SIZEOF_DEVICE_DESC : Z := 18.
Definition SIZEOF_CONFIG_DESC : Z := 9.
Definition SIZEOF_INTERFACE_DESC : Z := 9.
Definition SIZEOF_ENDPOINT_DESC : Z := 7.
Definition SIZEOF_HID_DESC : Z := 9.
Definition bMaxPacketSize0 : Z := 7.
Definition wTotalLength : Z := 2.
Definition bNumInterfaces : Z := 4.
Definition bNumEndpoints : Z := 4.
Definition bInterfaceClass : Z := 5.
Definition bInterfaceSubClass : Z := 6.
Definition bInterfaceProtocol : Z := 7.
Definition bEndpointAddress : Z := 2.
Definition wMaxPacketSize : Z := 4.
Definition wReportDescriptorLength : Z := 7.

(** The members of a device: [type], [slot_id] and so on; the pointer at the end is the
    driver's own. *)
Definition d_type : Z := 0.
Definition d_slot_id : Z := 1.
Definition d_port_id : Z := 2.
Definition d_speed : Z := 3.
Definition d_class : Z := 4.
Definition d_subclass : Z := 5.
Definition d_protocol : Z := 6.
Definition d_max_packet_size : Z := 7.
Definition d_device_desc : Z := 8.
Definition d_config_desc : Z := 26.
Definition d_interface_desc : Z := 35.
Definition d_ep_desc : Z := 44.
Definition d_hid_desc : Z := 156.
Definition d_report_desc : Z := 165.
Definition d_report_desc_len : Z := 422.
Definition d_pointer : Z := 424.

Definition load_le (n : nat) (a : Z) : M mem Z := bs ← load_bytes n a; mret (le_combine bs).
Definition store_le (n : nat) (a v : Z) : M mem unit := store_bytes a (le_split n v).
(** [*to = *from;] of a structure. *)
Definition copy_struct (n : nat) (to from : Z) : M mem unit := bs ← load_bytes n from; store_bytes to bs.

(** What the controller does in the time of [n] turns of a waiting loop. *)
Class Controller (D : Type) := hw_run : Z → D → mem → D * mem.
(** It writes to memory, but takes none away. *)
Class ControllerLaw (D : Type) `{!Controller D} :=
  hw_keeps : ∀ n d m a, is_Some (m !! a) → is_Some ((hw_run n d m).2 !! a).

(** The state a driver works on: the heap, the hardware, its own variables, how many devices
    it has, and the keyboard and mouse it hands reports to. *)
Record host (A D C I : Type) := mk_host {
  h_heap : A;
  h_hw : D;
  h_ctrl : C;
  device_count : Z;
  h_input : I;
}.
Arguments mk_host {A D C I}.
Arguments h_heap {A D C I}.
Arguments h_hw {A D C I}.
Arguments h_ctrl {A D C I}.
Arguments device_count {A D C I}.
Arguments h_input {A D C I}.

(** ** The reader of HID reports *)

(** [for (j = 0; j < bSize; j++) data |= p[j] << (j * 8);] *)
Fixpoint item_data (n : nat) (p shift data : Z) : M mem Z :=
  match n with
  | O => mret data
  | Datatypes.S n' => b ← load8 p; item_data n' (p + 1) (shift + 8) (Z.lor data (Z.shiftl b shift))
  end.
Definition hid_step (dev report_desc len i : Z) : M mem (Z + unit) :=
  if i <? len then
    b ← load8 (report_desc + i);
    let bSize := Z.land b 0x03 in
    let bType := Z.land (Z.shiftr b 2) 0x03 in
    let bTag := Z.land (Z.shiftr b 4) 0x0F in
    data ← item_data (Z.to_nat bSize) (report_desc + i + 1) 0 0;
    (if (bType =? 1) && (bTag =? 9) then
       if data =? 0x04 then store8 (dev + d_type) 1
       else if data =? 0x02 then store8 (dev + d_type) 2 else mret tt
     else mret tt);;
    mret (inl (u16 (i + (1 + bSize))))
  else mret (inr tt).
(** The index has 16 bits; a report that ends before it wraps is read in as many turns as it has bytes. *)
Definition HID_FUEL : nat := Z.to_nat 65536.
Definition parse_hid_report (dev report_desc len : Z) : M mem unit := iterM HID_FUEL (hid_step dev report_desc len) 0.

Section host.
  Context {A D C I : Type} `{!AllocOps A} `{!HeapData A} `{!Controller D} (fs_kernel_memory : Z).
  Abbreviation S := (host A D C I).

Definition on_heap {B} (m : M A B) : M S B := zoom h_heap (λ a s, mk_host a (h_hw s) (h_ctrl s) (device_count s) (h_input s)) m.
Definition on_hw {B} (m : M D B) : M S B := zoom h_hw (λ d s, mk_host (h_heap s) d (h_ctrl s) (device_count s) (h_input s)) m.
Definition on_input {B} (m : M I B) : M S B := zoom h_input (λ i s, mk_host (h_heap s) (h_hw s) (h_ctrl s) (device_count s) i) m.
Definition set_ctrl (c : C) : M S unit := modify (λ s, mk_host (h_heap s) (h_hw s) c (device_count s) (h_input s)).
Definition one_more_device : M S unit := modify (λ s, mk_host (h_heap s) (h_hw s) (h_ctrl s) (u8 (device_count s + 1)) (h_input s)).
Definition on_ram {B} (m : M mem B) : M S B := on_heap (zoom al_ram (λ r a, al_set_ram r a) m).
Definition ld (n : nat) (a : Z) : M S Z := on_ram (load_le n a).
Definition st (n : nat) (a v : Z) : M S unit := on_ram (store_le n a v).
(** [kernel_memory_alloc(fs_kernel_memory, size, 1)], [kernel_memory_free(fs_kernel_memory, p)] *)
Definition halloc (size : Z) : M S Z := on_heap (al_alloc fs_kernel_memory size 1).
Definition hfree (p : Z) : M S unit := on_heap (al_free fs_kernel_memory p).
(** No byte of the allocator's own data has changed from [m] to [m']. *)
Definition spares (a : A) (m m' : mem) : bool := bool_decide (map_Forall (λ x b, al_held a x = true → m' !! x = Some b) m).
(** A waiting loop, in which the controller runs.  The headers of the heap are in the memory
    it writes to; a controller that changes one of them has destroyed the heap. *)
Definition wait_ms (ms : Z) : M S unit := λ s,
  let '(d, m) := hw_run (ms * 1000) (h_hw s) (al_ram (h_heap s)) in
  if spares (h_heap s) (al_ram (h_heap s)) m
  then Done tt (mk_host (al_set_ram m (h_heap s)) d (h_ctrl s) (device_count s) (h_input s))
  else Stuck Overwritten.
(** [for (i = 0; i < n; i++) { if ((read() & bit) == (set ? bit : 0)) return 1; }] *)
Fixpoint poll_bit (n : nat) (read : M S Z) (bit want : Z) : M S Z :=
  match n with
  | O => mret 0
  | Datatypes.S n' => v ← read; if Z.land v bit =? want then mret 1 else poll_bit n' read bit want
  end.
Definition wait_for_bit (read : M S Z) (bit set timeout_ms : Z) : M S Z :=
  poll_bit (Z.to_nat (timeout_ms * 1000)) read bit (if truthy set then bit else 0).

(** ** The configuration of a device *)

(** [get_descriptor(slot, type, index, language, buffer, length)] of the driver; [config_buf]
    is the array on the stack. *)
Context (get_descriptor : Z → Z → Z → Z → Z → Z → M S Z) (config_buf : Z).

(** The endpoints from the [j]-th on; the offset behind them. *)
Definition endpoint_step (dev iface : Z) (l : Z * Z) : M S (Z * Z + Z) :=
  let '(j, offset) := l in
  n ← ld 1 (iface + bNumEndpoints);
  if j <? n then
    len ← ld 1 (config_buf + offset);
    on_ram (copy_struct 7 (dev + d_ep_desc + SIZEOF_ENDPOINT_DESC * j) (config_buf + offset));;
    mret (inl (j + 1, u16 (offset + len)))
  else mret (inr offset).
(** The interface at [offset] is a HID device: what the driver keeps of it. *)
Definition take_interface (slot dev iface offset : Z) : M S unit :=
  c ← ld 1 (iface + bInterfaceClass); st 1 (dev + d_class) c;;
  c ← ld 1 (iface + bInterfaceSubClass); st 1 (dev + d_subclass) c;;
  c ← ld 1 (iface + bInterfaceProtocol); st 1 (dev + d_protocol) c;;
  on_ram (copy_struct 9 (dev + d_interface_desc) iface);;
  offset ← iterM 256 (endpoint_step dev iface) (0, offset);
  let hid := config_buf + offset in
  on_ram (copy_struct 9 (dev + d_hid_desc) hid);;
  n ← ld 2 (hid + wReportDescriptorLength);
  get_descriptor slot 0x22 0 0 (dev + d_report_desc) n;;
  n ← ld 2 (hid + wReportDescriptorLength);
  st 2 (dev + d_report_desc_len) n;;
  on_ram (parse_hid_report dev (dev + d_report_desc) n).
(** The interfaces from the [i]-th on, up to the first HID device. *)
Definition interface_step (slot dev : Z) (l : Z * Z) : M S (Z * Z + unit) :=
  let '(i, offset) := l in
  n ← ld 1 (dev + d_config_desc + bNumInterfaces);
  if i <? n then
    let iface := config_buf + offset in
    len ← ld 1 iface;
    let offset := u16 (offset + len) in
    c ← ld 1 (iface + bInterfaceClass);
    if c =? 0x03 then take_interface slot dev iface offset;; mret (inr tt)
    else mret (inl (i + 1, offset))
  else mret (inr tt).
(** The whole configuration: its length first, then all of it, then its interfaces. *)
Definition read_configuration (slot dev : Z) : M S unit :=
  get_descriptor slot 2 0 0 (dev + d_config_desc) SIZEOF_CONFIG_DESC;;
  n ← ld 2 (dev + d_config_desc + wTotalLength);
  get_descriptor slot 2 0 0 config_buf n;;
  iterM 257 (interface_step slot dev) (0, SIZEOF_CONFIG_DESC).
(** [usb_keyboard_handle_report(data)] or [usb_mouse_interrupt_handler(data, size)], as the
    device is; the bytes of the report they read come from memory. *)
Context (keyboard_report : option (list Z) → M I unit) (mouse_report : list Z → Z → M I unit).
Definition mouse_bytes (size : Z) : nat := if size <? 4 then 0 else if size =? 4 then 3 else 5.
Definition hand_over (kind data size : Z) : M S unit :=
  if kind =? 1 then
    if data =? NULL then on_input (keyboard_report None)
    else r ← on_ram (load_bytes 8 data); on_input (keyboard_report (Some r))
  else if kind =? 2 then r ← on_ram (load_bytes (mouse_bytes size) data); on_input (mouse_report r size)
  else mret tt.
End host.

(** ** The reader, on items *)

(** An item of a report: its type, its tag, and the bytes of its data. *)
Record hid_item := mk_item { it_type : Z; it_tag : Z; it_data : list Z }.
Definition item_ok (it : hid_item) : Prop :=
  0 ≤ it_type it < 4 ∧ 0 ≤ it_tag it < 16 ∧ (length (it_data it) ≤ 3)%nat ∧ Forall is_byte (it_data it).
#[export] Instance item_ok_dec it : Decision (item_ok it).
Proof. unfold item_ok, is_byte. apply _. Defined.
Definition item_bytes (it : hid_item) : list Z :=
  (Z.of_nat (length (it_data it)) + 4 * it_type it + 16 * it_tag it) :: it_data it.
Definition report_bytes (l : list hid_item) : list Z := concat (item_bytes <$> l).
(** What an item makes of the kind of the device: 1 is a keyboard, 2 a mouse. *)
Definition item_kind (it : hid_item) (kind : Z) : Z :=
  if (it_type it =? 1) && (it_tag it =? 9) then
    if le_combine (it_data it) =? 4 then 1 else if le_combine (it_data it) =? 2 then 2 else kind
  else kind.
Definition report_kind (l : list hid_item) (kind : Z) : Z := fold_left (λ k it, item_kind it k) l kind.

Lemma length_item it : length (item_bytes it) = Datatypes.S (length (it_data it)).
Proof. done. Qed.

(** The first byte of an item says what it is. *)
Definition prefix_fields : bool :=
  forallb (λ n, forallb (λ t, forallb (λ g,
    let b := Z.of_nat n + 4 * Z.of_nat t + 16 * Z.of_nat g in
    (Z.land b 0x03 =? Z.of_nat n) && (Z.land (Z.shiftr b 2) 0x03 =? Z.of_nat t) && (Z.land (Z.shiftr b 4) 0x0F =? Z.of_nat g))
    (seq 0 16)) (seq 0 4)) (seq 0 4).

Lemma item_prefix n t g : (n ≤ 3)%nat → 0 ≤ t < 4 → 0 ≤ g < 16 →
  let b := Z.of_nat n + 4 * t + 16 * g in
  Z.land b 0x03 = Z.of_nat n ∧ Z.land (Z.shiftr b 2) 0x03 = t ∧ Z.land (Z.shiftr b 4) 0x0F = g.
Proof.
  intros Hn Ht Hg b. assert (prefix_fields = true) as E by (vm_compute; reflexivity).
  unfold prefix_fields in E. rewrite forallb_forall in E. specialize (E n ltac:(apply in_seq; lia)).
  rewrite forallb_forall in E. specialize (E (Z.to_nat t) ltac:(apply in_seq; lia)).
  rewrite forallb_forall in E. specialize (E (Z.to_nat g) ltac:(apply in_seq; lia)).
  rewrite !Z2Nat.id in E by lia. fold b in E. lia.
Qed.

Lemma item_data_run bs p shift data m : bytes_at p bs m → Forall is_byte bs → 0 ≤ shift → 0 ≤ data < 2 ^ shift →
  item_data (length bs) p shift data m = Done (data + 2 ^ shift * le_combine bs) m.
Proof.
  intros Hm Hb. revert p shift data Hm. induction Hb as [|b bs Hb _ IH]; intros p shift data Hm Hs Hd; cbn [item_data length le_combine].
  - unfold mret, M_ret. f_equal. lia.
  - apply bytes_at_cons in Hm as [Hb0 Hm]. unfold load8 at 1. mred. rewrite Hb0. unfold is_byte in Hb.
    rewrite lor_shiftl_add by lia. rewrite IH; [| done|lia|].
    + f_equal. rewrite Z.pow_add_r by lia. lia.
    + rewrite Z.pow_add_r by lia. nia.
Qed.

(** One turn reads one item. *)
Lemma hid_step_run dev p len i it kind m :
  item_ok it → bytes_at (p + i) (item_bytes it) m → m !! dev = Some kind → 0 ≤ i < len →
  i + Z.of_nat (length (item_bytes it)) < 2 ^ 16 →
  hid_step dev p len i m = Done (inl (i + Z.of_nat (length (item_bytes it)))) (<[dev := item_kind it kind]> m).
Proof.
  intros (Ht & Hg & Hl & Hb) Hm Hk Hi Hw. unfold hid_step. rewrite (proj2 (Z.ltb_lt _ _)) by lia.
  unfold item_bytes in Hm. apply bytes_at_cons in Hm as [Hm0 Hm]. unfold load8 at 1. mred. rewrite Hm0.
  destruct (item_prefix _ _ _ Hl Ht Hg) as (E1 & E2 & E3). rewrite E1, E2, E3, Nat2Z.id.
  replace (p + i + 1) with (p + i + 1) by lia. rewrite item_data_run by (done || lia).
  change (2 ^ 0) with 1. rewrite Z.add_0_l, Z.mul_1_l. rewrite length_item in *.
  assert (u16 (i + (1 + Z.of_nat (length (it_data it)))) = i + Z.of_nat (Datatypes.S (length (it_data it)))) as ->.
  { unfold u16. rewrite Z.mod_small; lia. }
  unfold item_kind. assert (∀ v, store8 (dev + d_type) v m = Done tt (<[dev := u8 v]> m)) as Hst.
  { intros v. unfold d_type, store8. by rewrite Z.add_0_r, Hk. }
  destruct (_ && _); [|by rewrite insert_id].
  destruct (_ =? 4); [by rewrite Hst|]. destruct (_ =? 2); [by rewrite Hst|by rewrite insert_id].
Qed.

Lemma hid_loop_run items fuel dev p i kind m :
  Forall item_ok items → bytes_at (p + i) (report_bytes items) m → m !! dev = Some kind →
  ¬ (p + i ≤ dev < p + i + Z.of_nat (length (report_bytes items))) → 0 ≤ i →
  i + Z.of_nat (length (report_bytes items)) < 2 ^ 16 → (length items < fuel)%nat →
  iterM fuel (hid_step dev p (i + Z.of_nat (length (report_bytes items)))) i m = Done tt (<[dev := report_kind items kind]> m).
Proof.
  set (len := i + Z.of_nat (length (report_bytes items))). intros Hok.
  assert (i + Z.of_nat (length (report_bytes items)) = len) as Hlen by done. clearbody len.
  revert fuel i kind m Hlen. induction Hok as [|it items Hit _ IH]; intros [|fuel] i kind m Hlen Hm Hk Hd Hi Hw Hf; try (simpl in Hf; lia).
  - change (length (report_bytes [])) with 0%nat in *. rewrite iterM_S. unfold hid_step.
    rewrite (proj2 (Z.ltb_ge _ _)) by lia. mred. cbn. by rewrite insert_id.
  - unfold report_bytes in *. cbn [fmap list_fmap concat] in *. rewrite length_app in *.
    apply bytes_at_app in Hm as [Hm1 Hm2]. pose proof (length_item it) as Hl1.
    rewrite iterM_S, (hid_step_run dev p len i it kind m) by (done || lia). cbn [length] in Hf.
    rewrite (IH fuel (i + Z.of_nat (length (item_bytes it))) (item_kind it kind)); try lia.
    + by rewrite insert_insert_eq.
    + intros j b Hj. pose proof (lookup_lt_Some _ _ _ Hj). rewrite lookup_insert_ne by lia.
      replace (p + (i + Z.of_nat (length (item_bytes it))) + Z.of_nat j)
        with (p + i + Z.of_nat (length (item_bytes it)) + Z.of_nat j) by lia. by apply Hm2.
    + apply lookup_insert_eq.
Qed.

Lemma items_few items : (length items ≤ length (report_bytes items))%nat.
Proof.
  induction items as [|it items IH]; [done|]. unfold report_bytes in *. cbn [fmap list_fmap concat length].
  rewrite length_app, length_item. lia.
Qed.

(** The reader of the four drivers. *)
Lemma parse_hid_report_run items dev p kind m :
  Forall item_ok items → bytes_at p (report_bytes items) m → m !! dev = Some kind →
  ¬ (p ≤ dev < p + Z.of_nat (length (report_bytes items))) → Z.of_nat (length (report_bytes items)) < 2 ^ 16 →
  parse_hid_report dev p (Z.of_nat (length (report_bytes items))) m = Done tt (<[dev := report_kind items kind]> m).
Proof.
  intros Hok Hm Hk Hd Hl. pose proof (items_few items).
  pose proof (hid_loop_run items HID_FUEL dev p 0 kind m Hok) as H'. rewrite Z.add_0_r, Z.add_0_l in H'.
  apply H'; [done|done|lia|lia|lia|unfold HID_FUEL; lia].
Qed.

(** ** The properties *)

(** The reader of HID reports takes a report apart into its items and stops at its end: whatever the items of a
    report are, it reads only their bytes, it returns, and the kind of the device is what
    the last item the reader looks for says; no other byte of memory changes. *)
Theorem parse_hid_report_correct items dev p kind m :
  Forall item_ok items → bytes_at p (report_bytes items) m → m !! dev = Some kind →
  ¬ (p ≤ dev < p + Z.of_nat (length (report_bytes items))) → Z.of_nat (length (report_bytes items)) < 2 ^ 16 →
  parse_hid_report dev p (Z.of_nat (length (report_bytes items))) m = Done tt (<[dev := report_kind items kind]> m).
Proof. apply parse_hid_report_run. Qed.

(** The start of the report of a keyboard, as the HID specification gives it: usage page 1,
    usage 6, a collection.  Usages are items of type 2, so that the device stays unknown;
    the reader knows the item of type 1 with tag 9, which the specification reserves. *)
Definition boot_keyboard : list hid_item := [mk_item 1 0 [1]; mk_item 2 0 [6]; mk_item 0 10 [1]; mk_item 1 0 [7]].
Definition as_expected : list hid_item := [mk_item 1 0 [1]; mk_item 1 9 [4]; mk_item 0 10 [1]].
Definition report_memory (items : list hid_item) : mem := <[0x2000 := 0]> (mem_write 0x1000 (report_bytes items) ∅).

Example boot_keyboard_unknown :
  report_bytes boot_keyboard = [0x05; 0x01; 0x09; 0x06; 0xA1; 0x01; 0x05; 0x07] ∧ report_kind boot_keyboard 0 = 0.
Proof. split; reflexivity. Qed.

Lemma parse_hid_report_correct_witness :
  parse_hid_report 0x2000 0x1000 6 (report_memory as_expected) = Done tt (<[0x2000 := 1]> (report_memory as_expected)).
Proof.
  apply (parse_hid_report_correct as_expected 0x2000 0x1000 0 (report_memory as_expected));
    [|apply (bytes_at_frame _ _ 0x2000 [0]); [apply bytes_at_write|left; vm_compute; discriminate]|reflexivity|cbn; lia|cbn; lia].
  eval_decide.
Defined.

(** ** Steps that keep the heap *)

Lemma load_bytes_mapped n a m : mapped a (Z.of_nat n) m → ∃ bs, load_bytes n a m = Done bs m.
Proof.
  revert a; induction n as [|n IH]; intros a Hm; [by eexists|]. destruct (Hm a) as [b Hb]; [lia|].
  destruct (IH (a + 1)) as [bs Hbs]; [intros x Hx; apply Hm; lia|]. exists (b :: bs).
  cbn [load_bytes]. unfold load8. mred. by rewrite Hb, Hbs.
Qed.

(** The postcondition, unless the controller has destroyed the heap. *)
Definition wpu {S B} (m : M S B) (Q : B → S → Prop) (s : S) : Prop :=
  match m s with Done b s' => Q b s' | Stuck w => w = Overwritten end.

Lemma wpu_ret {S B} (b : B) (Q : B → S → Prop) s : Q b s → wpu (mret b) Q s.
Proof. done. Qed.
Lemma wpu_bind {S B B'} (m : M S B) (f : B → M S B') Q s : wpu m (λ b, wpu (f b) Q) s → wpu (m ≫= f) Q s.
Proof. unfold wpu, mbind, M_bind. by destruct (m s). Qed.
Lemma wpu_wp {S B} (m : M S B) (Q : B → S → Prop) s : wp m Q s → wpu m Q s.
Proof. unfold wp, wpu. by destruct (m s). Qed.
Lemma wpu_get {S} (Q : S → S → Prop) s : Q s s → wpu get Q s.
Proof. done. Qed.

Section heap_rules.
  Context {A D C I : Type} `{!AllocOps A} `{!Allocator A} `{!HeapData A} `{!Controller D} `{!ControllerLaw D}.
  Context (fs_kernel_memory : Z) (Hfs : fs_kernel_memory ≠ NULL).
  Abbreviation S := (host A D C I).
  Abbreviation ram_of s := (al_ram (h_heap s)).

(** From [s0] on: the live blocks are those of [L], no memory went away, and the variables of
    the driver are what they were. *)
Record keeps (s0 : S) (L : gmap Z Z) (s : S) : Prop := {
  kp_live : al_live (h_heap s) L;
  kp_mapped : ∀ x, is_Some (ram_of s0 !! x) → is_Some (ram_of s !! x);
  kp_ctrl : h_ctrl s = h_ctrl s0;
  kp_count : device_count s = device_count s0;
  kp_input : h_input s = h_input s0;
}.

Lemma keeps_start L s : al_live (h_heap s) L → keeps s L s.
Proof. intros H. by constructor. Qed.

Lemma keeps_of_heap s0 L s a L' : keeps s0 L s → al_live a L' →
  (∀ x, is_Some (ram_of s !! x) → is_Some (al_ram a !! x)) →
  keeps s0 L' (mk_host a (h_hw s) (h_ctrl s) (device_count s) (h_input s)).
Proof. intros [H1 H2 H3 H4 H5] Ha Hm. constructor; cbn; auto. Qed.

Lemma wp_halloc size s0 L (Q : Z → S → Prop) s : keeps s0 L s → 0 < size ≤ AL_MAX →
  (∀ s', keeps s0 L s' → Q NULL s') →
  (∀ p n s', p ≠ NULL → size ≤ n → L !! p = None → keeps s0 (<[p := n]> L) s' → Q p s') →
  wpu (halloc fs_kernel_memory size) Q s.
Proof.
  intros HI Hs H0 H1. unfold wpu, halloc, on_heap, zoom.
  destruct (alloc_spec (h_heap s) L fs_kernel_memory size 1 (kp_live _ _ _ HI) Hfs)
    as [->|(p & n & a' & -> & Hp & Hn & Hf & Hl & Hr)]; [lia|lia|lia| |].
  - apply H0. eapply keeps_of_heap; [done|apply HI|done].
  - apply (H1 p n); [done|lia|done|]. eapply keeps_of_heap; [done|done|].
    intros x Hx. rewrite Hr. by apply is_Some_write.
Qed.

Lemma wp_hfree p n s0 L (Q : unit → S → Prop) s : keeps s0 L s → L !! p = Some n →
  (∀ s', keeps s0 (delete p L) s' → Q tt s') → wpu (hfree fs_kernel_memory p) Q s.
Proof.
  intros HI Hp HQ. unfold wpu, hfree, on_heap, zoom.
  destruct (free_spec (h_heap s) L fs_kernel_memory p n (kp_live _ _ _ HI) Hfs Hp) as (a' & -> & Hl & Hr).
  apply HQ. eapply keeps_of_heap; [done|done|]. by rewrite Hr.
Qed.

(** Stores and loads of memory that is there. *)
Lemma wp_st_mapped n a v s0 L (Q : unit → S → Prop) s : keeps s0 L s → mapped a (Z.of_nat n) (ram_of s) →
  (∀ s', keeps s0 L s' → Q tt s') → wpu (st n a v) Q s.
Proof.
  intros HI Hm HQ. unfold wpu, st, on_ram, on_heap, zoom, store_le.
  pose proof (store_bytes_run a (le_split n v) (ram_of s)) as E. rewrite length_le_split in E.
  rewrite E by (done || apply le_split_bytes). apply HQ.
  assert (∀ x, is_Some (ram_of s !! x) → is_Some (mem_write a (le_split n v) (ram_of s) !! x)) as Hx
    by (intros x; apply is_Some_write).
  eapply keeps_of_heap; [done|by apply live_set_ram; [apply HI|]|]. intros x. rewrite al_ram_set. apply Hx.
Qed.

Lemma wp_st p k n a v s0 L (Q : unit → S → Prop) s : keeps s0 L s → L !! p = Some k →
  p ≤ a → a + Z.of_nat n ≤ p + k → (∀ s', keeps s0 L s' → Q tt s') → wpu (st n a v) Q s.
Proof.
  intros HI Hp H1 H2. apply wp_st_mapped; [done|].
  destruct (live_range _ _ _ _ (kp_live _ _ _ HI) Hp) as (_ & _ & _ & Hm). by eapply mapped_sub.
Qed.

Lemma wp_ld n a s0 L (Q : Z → S → Prop) s : keeps s0 L s → mapped a (Z.of_nat n) (ram_of s0) →
  (∀ v s', keeps s0 L s' → Q v s') → wpu (ld n a) Q s.
Proof.
  intros HI Hm HQ. unfold wpu, ld, on_ram, on_heap, zoom, load_le.
  assert (∃ bs, load_bytes n a (ram_of s) = Done bs (ram_of s)) as [bs E].
  { apply load_bytes_mapped. intros x Hx. by apply (kp_mapped _ _ _ HI), Hm. }
  mred. rewrite E. apply HQ. eapply keeps_of_heap; [done| |]; rewrite al_set_ram_id; [apply HI|done].
Qed.

(** Whatever the controller does in the meantime to memory that is not the heap's own. *)
Lemma wp_wait ms s0 L (Q : unit → S → Prop) s : keeps s0 L s → (∀ s', keeps s0 L s' → Q tt s') → wpu (wait_ms ms) Q s.
Proof.
  intros HI HQ. unfold wpu, wait_ms. pose proof (hw_keeps (ms * 1000) (h_hw s) (ram_of s)) as Hk.
  destruct (hw_run (ms * 1000) (h_hw s) (ram_of s)) as [d m]. cbn in Hk. destruct (spares _ _ _); [|done].
  apply HQ. destruct HI as [H1 H2 H3 H4 H5]. constructor; cbn; [by apply live_set_ram| |done..].
  intros x Hx. rewrite al_ram_set. auto.
Qed.

Lemma wp_on_hw {B} (m : M D B) s0 L (Q : B → S → Prop) s : keeps s0 L s → (∃ v d, m (h_hw s) = Done v d) →
  (∀ v s', keeps s0 L s' → Q v s') → wpu (on_hw m) Q s.
Proof.
  intros [H1 H2 H3 H4 H5] (v & d & E) HQ. unfold wpu, on_hw, zoom. rewrite E. apply HQ. by constructor.
Qed.

(** A controller that writes only to blocks in use destroys nothing. *)
Lemma spares_live `{!HeapDataLaw A} (a : A) L m' : al_live a L →
  (∀ x b, al_ram a !! x = Some b → m' !! x ≠ Some b → ∃ p n, L !! p = Some n ∧ p ≤ x < p + n) → spares a (al_ram a) m' = true.
Proof.
  intros HL Hw. apply bool_decide_eq_true. intros x b Hx Hh. destruct (decide (m' !! x = Some b)) as [|Hn]; [done|].
  destruct (Hw x b Hx Hn) as (p & n & Hp & Hr). by rewrite (held_not_live a L p n x HL Hp Hr) in Hh.
Qed.
End heap_rules.

(** A store to, a release of and the request of a block of the heap, in the proofs about the drivers. *)
Ltac block_of a := lazymatch a with (?x + _)%Z => block_of x | _ => a end.
Ltac st_step :=
  apply wpu_bind;
  lazymatch goal with |- wpu (st _ ?a _) _ _ =>
    let p := block_of a in eapply (wp_st p); [eassumption|by simplify_map_eq|lia|lia|]; intros ? ?; cbv beta
  end.
Ltac free_step := apply wpu_bind; eapply wp_hfree; [done|eassumption|by simplify_map_eq|]; intros ? ?; cbv beta.
Ltac alloc_step p n :=
  let HI := fresh "HI" in let Hp := fresh "Hp" in let Hn := fresh "Hn" in let Hf := fresh "Hf" in
  apply wpu_bind; eapply wp_halloc; [done|eassumption|unfold AL_MAX; lia|intros ? HI; cbv beta; rewrite Z.eqb_refl
    |intros p n ? Hp Hn Hf HI; cbv beta; rewrite (proj2 (Z.eqb_neq p NULL)) by done].
