(* ===== verification/Uhci.v ===== *)
(** * The UHCI driver, [core/drivers/usb/uhci.c]

    The controller's registers are behind the ports.  A transfer descriptor is 24 bytes of the
    heap; the schedule is the array of 1024 words [frame_list], also of the heap. *)

From Stdlib Require Import ZArith Lia String.
From stdpp Require Import base gmap list numbers.
From S2P Require Import Prelude Memory Ports Alloc UsbHost.
Open Scope Z_scope.
Set Default Goal Selector "!".

Definition UHCI_USBCMD : Z := 0x00.
Definition UHCI_USBSTS : Z := 0x02.
Definition UHCI_FLBASEADD : Z := 0x08.
Definition UHCI_PORTSC1 : Z := 0x10.

(** The members of [uhci_td_t] and its size. *)
Definition td_link : Z := 0.
Definition td_status : Z := 4.
Definition td_token : Z := 8.
Definition td_buffer : Z := 12.
Definition td_buffer_virt : Z := 16.
Definition SIZEOF_TD : Z := 24.
Definition SIZEOF_DEVICE : Z := 432.

Record uhci_controller_t := mk_uhci { io_base : Z; ctrl_td : Z; frame_list : Z; initialized : Z }.

Section uhci.
  Context {A D I : Type} `{!AllocOps A} `{!HeapData A} `{!Controller D} `{!PortIO D} (fs_kernel_memory hhdm_offset : Z).
  (** The addresses of [devices] and of the array on the stack. *)
  Context (devices config_buf : Z) (keyboard_report : option (list Z) → M I unit) (mouse_report : list Z → Z → M I unit).
  Abbreviation S := (host A D uhci_controller_t I).
  Abbreviation halloc := (halloc fs_kernel_memory).
  Abbreviation hfree := (hfree fs_kernel_memory).

Definition device_at (slot : Z) : Z := devices + SIZEOF_DEVICE * slot.
Definition uhci_write16 (port val : Z) : M S unit := on_hw (outw port val).
Definition uhci_read16 (port : Z) : M S Z := on_hw (inw port).
Definition uhci_write32 (port val : Z) : M S unit := on_hw (outl port val).
Definition uhci_wait_ms (ms : Z) : M S unit := wait_ms ms.
Definition uhci_wait_for_bit (port bit set timeout_ms : Z) : M S Z := wait_for_bit (uhci_read16 port) bit set timeout_ms.
Definition uhci_alloc_td : M S Z := halloc SIZEOF_TD.
Definition uhci_free_td (td : Z) : M S unit := hfree td.

(** The words of the two descriptors that name a direction. *)
Definition pid_in_out (bmRequestType : Z) : Z := if truthy (Z.land bmRequestType 0x80) then 0x69 else 0xE9.
Definition pid_status (bmRequestType : Z) : Z := if truthy (Z.land bmRequestType 0x80) then 0xE9 else 0x69.
Definition setup_words (bmRequestType bRequest wValue wIndex wLength : Z) : Z * Z :=
  (u32 (Z.lor (Z.lor bmRequestType (Z.shiftl bRequest 8)) (Z.shiftl wValue 16)), u32 (Z.lor wIndex (Z.shiftl wLength 16))).
(** What is freed on every way out. *)
Definition drop_setup (setup_td : Z) : M S unit := b ← ld 8 (setup_td + td_buffer_virt); hfree b;; uhci_free_td setup_td.

(** The descriptor of the data, when there are any: 0 when there are none, nothing when
    there is no memory for it. *)
Definition data_stage (slot_id bmRequestType wLength data setup_td : Z) : M S (option Z) :=
  if 0 <? wLength then
    data_td ← uhci_alloc_td;
    if data_td =? NULL then mret None else
    st 4 (data_td + td_link) 1;;
    st 4 (data_td + td_status) 0x80;;
    ep ← ld 1 (device_at slot_id + d_ep_desc + bEndpointAddress);
    st 4 (data_td + td_token) (u32 (Z.lor (Z.lor (Z.lor (Z.shiftl wLength 21) (pid_in_out bmRequestType)) (Z.shiftl slot_id 8)) (Z.land ep 0xF)));;
    st 8 (data_td + td_buffer_virt) data;;
    st 4 (data_td + td_buffer) (u32 (data - hhdm_offset));;
    st 4 (setup_td + td_link) (u32 data_td);;
    mret (Some data_td)
  else mret (Some 0).
Definition uhci_control_transfer (slot_id bmRequestType bRequest wValue wIndex wLength data : Z) : M S Z :=
  setup_td ← uhci_alloc_td;
  if setup_td =? NULL then mret (-1) else
  st 4 (setup_td + td_link) 1;;
  st 4 (setup_td + td_status) 0x80;;
  st 4 (setup_td + td_token) (u32 (Z.lor (Z.lor (Z.lor (Z.shiftl 8 21) (Z.shiftl 0x2D 16)) (Z.shiftl slot_id 8)) 0xE1));;
  setup_buffer_virt ← halloc 8;
  if setup_buffer_virt =? NULL then uhci_free_td setup_td;; mret (-1) else
  st 8 (setup_td + td_buffer_virt) setup_buffer_virt;;
  st 4 (setup_td + td_buffer) (u32 (setup_buffer_virt - hhdm_offset));;
  let '(w1, w2) := setup_words bmRequestType bRequest wValue wIndex wLength in
  st 4 setup_buffer_virt w1;;
  st 4 (setup_buffer_virt + 4) w2;;
  data_td ← data_stage slot_id bmRequestType wLength data setup_td;
  match data_td with
  | None => drop_setup setup_td;; mret (-1)
  | Some data_td =>
      status_td ← uhci_alloc_td;
      if status_td =? NULL then
        whenM (truthy data_td) (uhci_free_td data_td);; drop_setup setup_td;; mret (-1)
      else
      st 4 (status_td + td_link) 1;;
      st 4 (status_td + td_status) 0x80;;
      st 4 (status_td + td_token) (Z.lor (Z.lor (pid_status bmRequestType) (Z.shiftl slot_id 8)) 0xE1);;
      st 4 (status_td + td_buffer) 0;;
      st 8 (status_td + td_buffer_virt) 0;;
      (if truthy data_td then st 4 (data_td + td_link) (u32 (Z.lor status_td 1))
       else st 4 (setup_td + td_link) (u32 (Z.lor status_td 1)));;
      s ← get;
      st 4 (frame_list (h_ctrl s)) (u32 (Z.lor setup_td 1));;
      st 4 (ctrl_td (h_ctrl s) + td_status) 0x80;;
      uhci_wait_ms 10;;
      b ← ld 8 (setup_td + td_buffer_virt); hfree b;;
      uhci_free_td status_td;;
      whenM (truthy data_td) (uhci_free_td data_td);;
      uhci_free_td setup_td;;
      mret 0
  end.
Definition uhci_get_descriptor (slot_id desc_type desc_index lang_id buffer length : Z) : M S Z :=
  uhci_control_transfer slot_id 0x80 6 (Z.lor (Z.shiftl desc_type 8) desc_index) lang_id length buffer.
Definition uhci_set_configuration (slot_id config_value : Z) : M S Z := uhci_control_transfer slot_id 0x00 9 config_value 0 0 NULL.
Definition uhci_set_address (slot_id address : Z) : M S Z := uhci_control_transfer slot_id 0x00 5 address 0 0 NULL.
Definition uhci_parse_hid_report (slot_id report_desc len : Z) : M mem unit := parse_hid_report (device_at slot_id) report_desc len.

(** The descriptor that waits for the reports of a keyboard or mouse. *)
Definition watch_device (slot_id : Z) : M S unit :=
  let dev := device_at slot_id in
  td ← uhci_alloc_td; st 8 (dev + d_pointer) td;;
  if td =? NULL then mret tt else
  st 4 (td + td_link) 1;;
  st 4 (td + td_status) 0x80;;
  packet_size ← ld 2 (dev + d_ep_desc + wMaxPacketSize);
  ep ← ld 1 (dev + d_ep_desc + bEndpointAddress);
  st 4 (td + td_token) (u32 (Z.lor (Z.lor (Z.lor (Z.shiftl packet_size 21) 0x69) (Z.shiftl slot_id 8)) (Z.land ep 0xF)));;
  b ← halloc packet_size;
  st 8 (td + td_buffer_virt) b;;
  st 4 (td + td_buffer) (u32 (b - hhdm_offset));;
  s ← get;
  st 4 (frame_list (h_ctrl s)) (u32 (Z.lor td 1)).
Definition uhci_enumerate_device (slot_id port_id : Z) : M S unit :=
  let dev := device_at slot_id in
  st 1 (dev + d_slot_id) slot_id;;
  st 1 (dev + d_port_id) port_id;;
  st 1 (dev + d_speed) 1;;
  uhci_get_descriptor slot_id 1 0 0 (dev + d_device_desc) SIZEOF_DEVICE_DESC;;
  p ← ld 1 (dev + d_device_desc + bMaxPacketSize0); st 1 (dev + d_max_packet_size) p;;
  uhci_set_address slot_id slot_id;;
  read_configuration uhci_get_descriptor config_buf slot_id dev;;
  uhci_set_configuration slot_id 1;;
  kind ← ld 1 (dev + d_type);
  whenM ((kind =? 1) || (kind =? 2)) (watch_device slot_id);;
  one_more_device.
Definition uhci_enumerate_port (port : Z) : M S unit :=
  s ← get;
  let portsc := io_base (h_ctrl s) + UHCI_PORTSC1 + (port - 1) * 2 in
  status ← uhci_read16 portsc;
  if truthy (Z.land status 1) then
    uhci_write16 portsc (Z.lor status (Z.shiftl 1 9));;
    uhci_wait_ms 100;;
    status ← uhci_read16 portsc;
    if Z.land status 1 =? 0 then s ← get; uhci_enumerate_device (device_count s) port else mret tt
  else mret tt.
Definition uhci_enumerate_devices : M S unit := for_to 1 3 uhci_enumerate_port.
Definition uhci_get_device (slot_id : Z) : Z := device_at slot_id.

Definition uhci_init (base_addr : Z) : M S Z :=
  if (fs_kernel_memory =? NULL) || (base_addr =? 0) then mret (-1) else
  s ← get; set_ctrl (mk_uhci (u16 base_addr) (ctrl_td (h_ctrl s)) (frame_list (h_ctrl s)) (initialized (h_ctrl s)));;
  test ← uhci_read16 (u16 base_addr + UHCI_USBCMD);
  if test =? 0xFFFF then mret (-1) else
  td ← uhci_alloc_td;
  s ← get; set_ctrl (mk_uhci (io_base (h_ctrl s)) td (frame_list (h_ctrl s)) (initialized (h_ctrl s)));;
  if td =? NULL then mret (-1) else
  l ← halloc (1024 * 4);
  s ← get; set_ctrl (mk_uhci (io_base (h_ctrl s)) td l (initialized (h_ctrl s)));;
  if l =? NULL then uhci_free_td td;; mret (-1) else
  for_to 0 1024 (λ i, st 4 (l + 4 * i) 1);;
  s ← get;
  uhci_write32 (io_base (h_ctrl s) + UHCI_FLBASEADD) (u32 l);;
  st 4 (td + td_status) 0;;
  s ← get; set_ctrl (mk_uhci (io_base (h_ctrl s)) td l 1);;
  mret 0.
Definition uhci_start : M S unit := s ← get; uhci_write16 (io_base (h_ctrl s) + UHCI_USBCMD) 1.
Definition uhci_stop : M S unit := s ← get; uhci_write16 (io_base (h_ctrl s) + UHCI_USBCMD) 0.
Definition uhci_reset : M S Z :=
  s ← get;
  uhci_write16 (io_base (h_ctrl s) + UHCI_USBCMD) (Z.shiftl 1 1);;
  uhci_wait_for_bit (io_base (h_ctrl s) + UHCI_USBSTS) (Z.shiftl 1 1) 0 100;;
  mret 0.

(** The first of the devices from the [i]-th on whose descriptor is done. *)
Fixpoint serve_done (n : nat) (i : Z) : M S unit :=
  match n with
  | O => mret tt
  | Datatypes.S n' =>
      let dev := device_at i in
      td ← ld 8 (dev + d_pointer);
      done ← (if td =? NULL then mret false else status ← ld 4 (td + td_status); mret (Z.land status 0x80 =? 0));
      if (done : bool) then
        data ← ld 8 (td + td_buffer_virt);
        kind ← ld 1 (dev + d_type);
        hand_over keyboard_report mouse_report kind data 4;;
        td ← ld 8 (dev + d_pointer);
        st 4 (td + td_status) 0x80
      else serve_done n' (i + 1)
  end.
Definition uhci_handle_interrupt : M S unit :=
  s ← get;
  if initialized (h_ctrl s) =? 0 then mret tt else
  status ← uhci_read16 (io_base (h_ctrl s) + UHCI_USBSTS);
  if truthy (Z.land status 1) then
    uhci_write16 (io_base (h_ctrl s) + UHCI_USBSTS) status;;
    s ← get;
    serve_done (Z.to_nat (device_count s)) 0
  else mret tt.
End uhci.
