(* ===== verification/Ohci.v ===== *)
(** * The OHCI driver, [core/drivers/usb/ohci.c]

    The controller's registers are memory it answers for; an endpoint and a transfer
    descriptor are 16 bytes of the heap each, the communication area 1024. *)

From Stdlib Require Import ZArith Lia String.
From stdpp Require Import base gmap list numbers.
From S2P Require Import Prelude Memory Ports Alloc UsbHost.
Open Scope Z_scope.
Set Default Goal Selector "!".

(** The registers of [ohci_regs_t], by their offsets. *)
Definition HcControl : Z := 0x04.
Definition HcCommandStatus : Z := 0x08.
Definition HcInterruptStatus : Z := 0x0C.
Definition HcHCCA : Z := 0x18.
Definition HcControlHeadED : Z := 0x20.
Definition HcDoneHead : Z := 0x30.
Definition HcRhStatus : Z := 0x50.
Definition HcRhPortStatus : Z := 0x54.
(** The members of [ohci_ed_t] and [ohci_td_t]. *)
Definition ed_flags : Z := 0.
Definition ed_tailp : Z := 4.
Definition ed_headp : Z := 8.
Definition ed_nexted : Z := 12.
Definition SIZEOF_ED : Z := 16.
Definition otd_flags : Z := 0.
Definition otd_cbp : Z := 4.
Definition otd_nexttd : Z := 8.
Definition otd_be : Z := 12.
Definition SIZEOF_OTD : Z := 16.
Definition SIZEOF_HCCA : Z := 1024.
Definition SIZEOF_OHCI_DEVICE : Z := 432.

Record ohci_controller_t := mk_ohci { oregs : Z; ohcca : Z; oinitialized : Z }.

Section ohci.
  Context {A D I : Type} `{!AllocOps A} `{!HeapData A} `{!Controller D} `{!RegIO D} (fs_kernel_memory hhdm_offset : Z).
  Context (devices config_buf : Z) (keyboard_report : option (list Z) → M I unit) (mouse_report : list Z → Z → M I unit).
  Abbreviation S := (host A D ohci_controller_t I).
  Abbreviation halloc := (halloc fs_kernel_memory).
  Abbreviation hfree := (hfree fs_kernel_memory).

Definition ohci_device_at (slot : Z) : Z := devices + SIZEOF_OHCI_DEVICE * slot.
Definition ohci_write32 (reg val : Z) : M S unit := s ← get; on_hw (reg_write (oregs (h_ctrl s) + reg) val).
Definition ohci_read32 (reg : Z) : M S Z := s ← get; on_hw (reg_read (oregs (h_ctrl s) + reg)).
Definition ohci_wait_ms (ms : Z) : M S unit := wait_ms ms.
Definition ohci_wait_for_bit (reg bit set timeout_ms : Z) : M S Z := wait_for_bit (ohci_read32 reg) bit set timeout_ms.
Definition ohci_alloc_ed : M S Z := halloc SIZEOF_ED.
Definition ohci_alloc_td : M S Z := halloc SIZEOF_OTD.
Definition ohci_free_ed (ed : Z) : M S unit := hfree ed.
Definition ohci_free_td (td : Z) : M S unit := hfree td.

Definition opid_data (bmRequestType : Z) : Z := if truthy (Z.land bmRequestType 0x80) then 0x69 else 0xE9.
Definition opid_status (bmRequestType : Z) : Z := if truthy (Z.land bmRequestType 0x80) then 0xE9 else 0x69.
(** What is freed on the ways out: the buffer by the address that is in the descriptor. *)
Definition drop_osetup (ed setup_td : Z) : M S unit :=
  b ← ld 4 (setup_td + otd_cbp); hfree b;; ohci_free_td setup_td;; ohci_free_ed ed.
Definition ohci_data_stage (bmRequestType wLength data setup_td : Z) : M S (option Z) :=
  if 0 <? wLength then
    data_td ← ohci_alloc_td;
    if data_td =? NULL then mret None else
    st 4 (data_td + otd_flags) (u32 (Z.lor (Z.shiftl wLength 21) (opid_data bmRequestType)));;
    st 4 (data_td + otd_cbp) (u32 data);;
    st 4 (data_td + otd_nexttd) 0;;
    st 4 (data_td + otd_be) (u32 (u32 data + wLength - 1));;
    st 4 (setup_td + otd_nexttd) (u32 data_td);;
    mret (Some data_td)
  else mret (Some 0).
Definition ohci_control_transfer (slot_id bmRequestType bRequest wValue wIndex wLength data : Z) : M S Z :=
  let dev := ohci_device_at slot_id in
  ed ← ohci_alloc_ed;
  if ed =? NULL then mret (-1) else
  size ← ld 1 (dev + d_max_packet_size);
  st 4 (ed + ed_flags) (Z.lor (Z.lor (Z.lor (Z.shiftl size 16) (Z.shiftl 1 15)) (Z.shiftl slot_id 8)) 0x40);;
  st 4 (ed + ed_tailp) 0;; st 4 (ed + ed_headp) 0;; st 4 (ed + ed_nexted) 0;;
  setup_td ← ohci_alloc_td;
  if setup_td =? NULL then ohci_free_ed ed;; mret (-1) else
  st 4 (setup_td + otd_flags) (Z.lor (Z.lor (Z.shiftl 8 21) (Z.shiftl 0x2D 16)) 0xE000);;
  setup_cbp_virt ← halloc 8;
  if setup_cbp_virt =? NULL then ohci_free_td setup_td;; ohci_free_ed ed;; mret (-1) else
  st 4 (setup_td + otd_cbp) (u32 (setup_cbp_virt - hhdm_offset));;
  st 4 setup_cbp_virt (u32 (Z.lor (Z.lor bmRequestType (Z.shiftl bRequest 8)) (Z.shiftl wValue 16)));;
  st 4 (setup_cbp_virt + 4) (u32 (Z.lor wIndex (Z.shiftl wLength 16)));;
  st 4 (setup_td + otd_nexttd) 0;;
  cbp ← ld 4 (setup_td + otd_cbp); st 4 (setup_td + otd_be) (u32 (cbp + 7));;
  st 4 (ed + ed_headp) (u32 (setup_td - hhdm_offset));;
  data_td ← ohci_data_stage bmRequestType wLength data setup_td;
  match data_td with
  | None => drop_osetup ed setup_td;; mret (-1)
  | Some data_td =>
      status_td ← ohci_alloc_td;
      if status_td =? NULL then
        whenM (truthy data_td) (ohci_free_td data_td);; drop_osetup ed setup_td;; mret (-1)
      else
      st 4 (status_td + otd_flags) (opid_status bmRequestType);;
      st 4 (status_td + otd_cbp) 0;; st 4 (status_td + otd_nexttd) 0;; st 4 (status_td + otd_be) 0;;
      (if truthy data_td then st 4 (data_td + otd_nexttd) (u32 status_td)
       else st 4 (setup_td + otd_nexttd) (u32 status_td));;
      st 4 (ed + ed_tailp) (u32 status_td);;
      ohci_write32 HcControlHeadED (u32 ed);;
      ohci_write32 HcCommandStatus 1;;
      ohci_wait_ms 10;;
      b ← ld 4 (setup_td + otd_cbp); hfree b;;
      ohci_free_td status_td;;
      whenM (truthy data_td) (ohci_free_td data_td);;
      ohci_free_td setup_td;;
      ohci_free_ed ed;;
      mret 0
  end.
Definition ohci_get_descriptor (slot_id desc_type desc_index lang_id buffer length : Z) : M S Z :=
  ohci_control_transfer slot_id 0x80 6 (Z.lor (Z.shiftl desc_type 8) desc_index) lang_id length buffer.
Definition ohci_set_configuration (slot_id config_value : Z) : M S Z := ohci_control_transfer slot_id 0x00 9 config_value 0 0 NULL.
Definition ohci_set_address (slot_id address : Z) : M S Z := ohci_control_transfer slot_id 0x00 5 address 0 0 NULL.
Definition ohci_parse_hid_report (slot_id report_desc len : Z) : M mem unit := parse_hid_report (ohci_device_at slot_id) report_desc len.

Definition ohci_watch_device (slot_id : Z) : M S unit :=
  let dev := ohci_device_at slot_id in
  ed ← ohci_alloc_ed; st 8 (dev + d_pointer) ed;;
  if ed =? NULL then mret tt else
  size ← ld 1 (dev + d_max_packet_size);
  ep ← ld 1 (dev + d_ep_desc + bEndpointAddress);
  st 4 (ed + ed_flags) (Z.lor (Z.lor (Z.lor (Z.shiftl size 16) (Z.shiftl 1 15)) (Z.shiftl slot_id 8)) (Z.land ep 0xF));;
  st 4 (ed + ed_tailp) 0;; st 4 (ed + ed_headp) 0;; st 4 (ed + ed_nexted) 0;;
  td ← ohci_alloc_td;
  (if td =? NULL then mret tt else
   st 4 (td + otd_flags) (Z.lor (Z.shiftl 4 21) 0xE1);;
   b ← halloc 4;
   st 4 (td + otd_cbp) (u32 b);;
   st 4 (td + otd_nexttd) 0;;
   st 4 (td + otd_be) (u32 (u32 b + 3));;
   st 4 (ed + ed_headp) (u32 td);;
   st 4 (ed + ed_tailp) (u32 td));;
  ed ← ld 8 (dev + d_pointer);
  ohci_write32 HcControlHeadED (u32 ed).
Definition ohci_enumerate_device (slot_id port_id : Z) : M S unit :=
  let dev := ohci_device_at slot_id in
  st 1 (dev + d_slot_id) slot_id;;
  st 1 (dev + d_port_id) port_id;;
  st 1 (dev + d_speed) 1;;
  ohci_get_descriptor slot_id 1 0 0 (dev + d_device_desc) SIZEOF_DEVICE_DESC;;
  p ← ld 1 (dev + d_device_desc + bMaxPacketSize0); st 1 (dev + d_max_packet_size) p;;
  ohci_set_address slot_id slot_id;;
  read_configuration ohci_get_descriptor config_buf slot_id dev;;
  ohci_set_configuration slot_id 1;;
  kind ← ld 1 (dev + d_type);
  whenM ((kind =? 1) || (kind =? 2)) (ohci_watch_device slot_id);;
  one_more_device.
Definition ohci_enumerate_port (port : Z) : M S unit :=
  let portsc := HcRhPortStatus + 4 * (port - 1) in
  status ← ohci_read32 portsc;
  if truthy (Z.land status 1) then
    ohci_write32 portsc (Z.lor status (Z.shiftl 1 9));;
    ohci_wait_ms 100;;
    status ← ohci_read32 portsc;
    if Z.land status 1 =? 0 then s ← get; ohci_enumerate_device (device_count s) port else mret tt
  else mret tt.
Definition ohci_enumerate_devices : M S unit := for_to 1 3 ohci_enumerate_port.
Definition ohci_get_device (slot_id : Z) : Z := ohci_device_at slot_id.

Definition ohci_init (base_addr : Z) : M S Z :=
  s ← get; set_ctrl (mk_ohci base_addr (ohcca (h_ctrl s)) (oinitialized (h_ctrl s)));;
  h ← halloc SIZEOF_HCCA;
  s ← get; set_ctrl (mk_ohci base_addr h (oinitialized (h_ctrl s)));;
  if h =? NULL then mret (-1) else
  ohci_write32 HcHCCA (u32 h);;
  ohci_write32 HcControl 0;;
  ohci_write32 HcCommandStatus 1;;
  ohci_wait_for_bit HcCommandStatus 1 0 100;;
  s ← get; set_ctrl (mk_ohci (oregs (h_ctrl s)) (ohcca (h_ctrl s)) 1);;
  mret 0.
Definition ohci_start : M S unit :=
  ohci_write32 HcControl (Z.lor (Z.lor (Z.shiftl 1 0) (Z.shiftl 1 2)) (Z.shiftl 1 3));;
  ohci_write32 HcRhStatus (Z.shiftl 1 15).
Definition ohci_stop : M S unit := ohci_write32 HcControl 0.
Definition ohci_reset : M S Z :=
  ohci_write32 HcCommandStatus (Z.shiftl 1 1);;
  ohci_wait_for_bit HcCommandStatus (Z.shiftl 1 1) 0 100;;
  mret 0.

(** The device, from the [i]-th on, whose endpoint has this descriptor. *)
Fixpoint ohci_serve (n : nat) (i td data : Z) : M S unit :=
  match n with
  | O => mret tt
  | Datatypes.S n' =>
      let dev := ohci_device_at i in
      ed ← ld 8 (dev + d_pointer);
      mine ← (if ed =? NULL then mret false else head ← ld 4 (ed + ed_headp); mret (head =? u32 td));
      if (mine : bool) then kind ← ld 1 (dev + d_type); hand_over keyboard_report mouse_report kind data 4
      else ohci_serve n' (i + 1) td data
  end.
(** One descriptor of the list of those that are done. *)
Definition done_step (done_head : Z) : M S (Z + unit) :=
  if Z.ldiff done_head 1 =? 0 then mret (inr tt) else
  let td := Z.ldiff done_head 0xF in
  cbp ← ld 4 (td + otd_cbp);
  (if cbp =? 0 then mret tt else s ← get; ohci_serve (Z.to_nat (device_count s)) 0 td cbp);;
  next ← ld 4 (td + otd_nexttd);
  mret (inl next).
(** [fuel] is more than the descriptors the controller put on the list. *)
Definition ohci_handle_interrupt (fuel : nat) : M S unit :=
  s ← get;
  if oinitialized (h_ctrl s) =? 0 then mret tt else
  status ← ohci_read32 HcInterruptStatus;
  if truthy (Z.land status 1) then
    ohci_write32 HcInterruptStatus status;;
    done_head ← ohci_read32 HcDoneHead;
    iterM fuel done_step done_head;;
    ohci_write32 HcDoneHead 0
  else mret tt.
End ohci.
