(* ===== verification/Ehci.v ===== *)
(** * The EHCI driver, [core/drivers/usb/ehci.c]

    A queue head is 68 bytes of the heap, a transfer descriptor 32; the periodic schedule is
    the array of 1024 words [frame_list].  Messages are left out. *)

From Stdlib Require Import ZArith Lia String.
From stdpp Require Import base gmap list numbers.
From S2P Require Import Prelude Memory Heap KernelMemory Ports Alloc KernelAlloc UsbHost.
Open Scope Z_scope.
Set Default Goal Selector "!".

(** The registers of [ehci_regs_t], by their offsets. *)
Definition EHCI_USBCMD : Z := 0x00.
Definition EHCI_USBSTS : Z := 0x04.
Definition EHCI_USBINTR : Z := 0x08.
Definition EHCI_PERIODICLISTBASE : Z := 0x14.
Definition EHCI_ASYNCLISTADDR : Z := 0x18.
Definition EHCI_CONFIGFLAG : Z := 0x40.
Definition EHCI_PORTS : Z := 0x44.
(** The members of [ehci_qtd_t] and [ehci_qh_t]. *)
Definition qtd_next : Z := 0.
Definition qtd_alt_next : Z := 4.
Definition qtd_token : Z := 8.
Definition qtd_buffer : Z := 12.
Definition SIZEOF_QTD : Z := 32.
Definition qh_horizontal_link : Z := 0.
Definition qh_characteristics : Z := 4.
Definition qh_capabilities : Z := 8.
Definition qh_current_qtd : Z := 12.
Definition qh_next_qtd : Z := 16.
Definition SIZEOF_QH : Z := 68.
Definition SIZEOF_EHCI_DEVICE : Z := 432.

(** Of [periodic_qh] the code only sets the first entry. *)
Record ehci_controller_t := mk_ehci {
  eregs : Z; async_qh : Z; periodic_qh0 : Z; eframe_list : Z; max_ports : Z; einitialized : Z }.
Definition with_ctrl (f : ehci_controller_t → ehci_controller_t) {A D I} : M (host A D ehci_controller_t I) unit :=
  s ← get; set_ctrl (f (h_ctrl s)).

Section ehci.
  Context {A D I : Type} `{!AllocOps A} `{!HeapData A} `{!Controller D} `{!RegIO D} (fs_kernel_memory : Z).
  Context (devices config_buf : Z) (keyboard_report : option (list Z) → M I unit) (mouse_report : list Z → Z → M I unit).
  (** [usb_keyboard_init()] and [usb_mouse_init()], with the flags set behind them. *)
  Context (keyboard_init mouse_init : M I unit).
  Abbreviation S := (host A D ehci_controller_t I).
  Abbreviation halloc := (halloc fs_kernel_memory).
  Abbreviation hfree := (hfree fs_kernel_memory).

Definition ehci_device_at (slot : Z) : Z := devices + SIZEOF_EHCI_DEVICE * slot.
Definition ehci_write32 (reg val : Z) : M S unit := s ← get; on_hw (reg_write (eregs (h_ctrl s) + reg) val).
Definition ehci_read32 (reg : Z) : M S Z := s ← get; on_hw (reg_read (eregs (h_ctrl s) + reg)).
Definition ehci_wait_ms (ms : Z) : M S unit := wait_ms ms.
Definition ehci_wait_for_bit (reg bit set timeout_ms : Z) : M S Z := wait_for_bit (ehci_read32 reg) bit set timeout_ms.
Definition ehci_alloc_qtd : M S Z := halloc SIZEOF_QTD.
Definition ehci_alloc_qh : M S Z := halloc SIZEOF_QH.
Definition ehci_free_qtd (qtd : Z) : M S unit := hfree qtd.
Definition ehci_free_qh (qh : Z) : M S unit := hfree qh.

Definition epid_data (bmRequestType : Z) : Z := if truthy (Z.land bmRequestType 0x80) then 0x69 else 0xE9.
Definition epid_status (bmRequestType : Z) : Z := if truthy (Z.land bmRequestType 0x80) then 0xE9 else 0x69.
(** [usbcmd] with bits set or cleared. *)
Definition set_command (bits : Z) : M S unit := v ← ehci_read32 EHCI_USBCMD; ehci_write32 EHCI_USBCMD (Z.lor v bits).
Definition clear_command (bits : Z) : M S unit := v ← ehci_read32 EHCI_USBCMD; ehci_write32 EHCI_USBCMD (Z.ldiff v bits).

Definition ehci_data_stage (bmRequestType wLength data setup_qtd : Z) : M S (option Z) :=
  if 0 <? wLength then
    data_qtd ← ehci_alloc_qtd;
    if data_qtd =? NULL then mret None else
    st 4 (data_qtd + qtd_next) 1;;
    st 4 (data_qtd + qtd_alt_next) 1;;
    st 4 (data_qtd + qtd_token) (u32 (Z.lor (Z.shiftl wLength 16) (epid_data bmRequestType)));;
    st 4 (data_qtd + qtd_buffer) (u32 data);;
    st 4 (setup_qtd + qtd_next) (u32 data_qtd);;
    mret (Some data_qtd)
  else mret (Some 0).
(** The queue is handed to the controller for ten milliseconds. *)
Definition run_queue (qh : Z) : M S unit :=
  ehci_write32 EHCI_ASYNCLISTADDR (Z.lor (u32 qh) 2);;
  set_command (Z.shiftl 1 5);;
  ehci_wait_ms 10;;
  clear_command (Z.shiftl 1 5).
Definition ehci_control_transfer (slot_id bmRequestType bRequest wValue wIndex wLength data : Z) : M S Z :=
  let dev := ehci_device_at slot_id in
  qh ← ehci_alloc_qh;
  if qh =? NULL then mret (-1) else
  st 4 (qh + qh_horizontal_link) 1;;
  size ← ld 1 (dev + d_max_packet_size);
  speed ← ld 1 (dev + d_speed);
  st 4 (qh + qh_characteristics)
    (Z.lor (Z.lor (Z.lor (Z.lor (Z.shiftl size 16) (Z.shiftl speed 12)) (Z.shiftl 1 15)) (Z.shiftl slot_id 8)) 0x40);;
  st 4 (qh + qh_capabilities) (Z.lor (Z.shiftl 3 28) (Z.shiftl 1 30));;
  st 4 (qh + qh_current_qtd) 0;;
  setup_qtd ← ehci_alloc_qtd;
  if setup_qtd =? NULL then ehci_free_qh qh;; mret (-1) else
  st 4 (setup_qtd + qtd_next) 1;;
  st 4 (setup_qtd + qtd_alt_next) 1;;
  st 4 (setup_qtd + qtd_token) (Z.lor (Z.lor (Z.shiftl 8 16) (Z.shiftl 0x2D 8)) 0x80);;
  st 4 (setup_qtd + qtd_buffer) (u32 (Z.lor (Z.lor bmRequestType (Z.shiftl bRequest 8)) (Z.shiftl wValue 16)));;
  st 4 (setup_qtd + qtd_buffer + 4) (u32 (Z.lor wIndex (Z.shiftl wLength 16)));;
  st 4 (qh + qh_next_qtd) (u32 setup_qtd);;
  data_qtd ← ehci_data_stage bmRequestType wLength data setup_qtd;
  match data_qtd with
  | None => ehci_free_qtd setup_qtd;; ehci_free_qh qh;; mret (-1)
  | Some data_qtd =>
      status_qtd ← ehci_alloc_qtd;
      if status_qtd =? NULL then
        whenM (truthy data_qtd) (ehci_free_qtd data_qtd);;
        ehci_free_qtd setup_qtd;; ehci_free_qh qh;; mret (-1)
      else
      st 4 (status_qtd + qtd_next) 1;;
      st 4 (status_qtd + qtd_alt_next) 1;;
      st 4 (status_qtd + qtd_token) (epid_status bmRequestType);;
      (if truthy data_qtd then st 4 (data_qtd + qtd_next) (u32 status_qtd)
       else st 4 (setup_qtd + qtd_next) (u32 status_qtd));;
      run_queue qh;;
      ehci_free_qtd status_qtd;;
      whenM (truthy data_qtd) (ehci_free_qtd data_qtd);;
      ehci_free_qtd setup_qtd;;
      ehci_free_qh qh;;
      mret 0
  end.
Definition ehci_get_descriptor (slot_id desc_type desc_index lang_id buffer length : Z) : M S Z :=
  ehci_control_transfer slot_id 0x80 6 (Z.lor (Z.shiftl desc_type 8) desc_index) lang_id length buffer.
Definition ehci_set_configuration (slot_id config_value : Z) : M S Z := ehci_control_transfer slot_id 0x00 9 config_value 0 0 NULL.
Definition ehci_set_address (slot_id address : Z) : M S Z := ehci_control_transfer slot_id 0x00 5 address 0 0 NULL.
Definition ehci_parse_hid_report (slot_id report_desc len : Z) : M mem unit := parse_hid_report (ehci_device_at slot_id) report_desc len.

(** The descriptor that waits for a report of four bytes, and its queue head. *)
Definition interrupt_qtd (qh : Z) : M S unit :=
  qtd ← ehci_alloc_qtd;
  if qtd =? NULL then mret tt else
  st 4 (qtd + qtd_next) 1;;
  st 4 (qtd + qtd_alt_next) 1;;
  st 4 (qtd + qtd_token) (Z.lor (Z.shiftl 4 16) 0x80);;
  b ← halloc 4;
  st 4 (qtd + qtd_buffer) (u32 b);;
  st 4 (qh + qh_next_qtd) (u32 qtd).
Definition ehci_watch_device (slot_id : Z) : M S unit :=
  let dev := ehci_device_at slot_id in
  qh ← ehci_alloc_qh; st 8 (dev + d_pointer) qh;;
  if qh =? NULL then mret tt else
  st 4 (qh + qh_horizontal_link) 1;;
  size ← ld 1 (dev + d_max_packet_size);
  speed ← ld 1 (dev + d_speed);
  ep ← ld 1 (dev + d_ep_desc + bEndpointAddress);
  st 4 (qh + qh_characteristics)
    (Z.lor (Z.lor (Z.lor (Z.lor (Z.shiftl size 16) (Z.shiftl speed 12)) (Z.shiftl 1 15)) (Z.shiftl slot_id 8)) (Z.land ep 0xF));;
  st 4 (qh + qh_capabilities) (Z.lor (Z.shiftl 3 28) (Z.shiftl 1 30));;
  interrupt_qtd qh;;
  with_ctrl (λ c, mk_ehci (eregs c) (async_qh c) qh (eframe_list c) (max_ports c) (einitialized c));;
  s ← get;
  st 4 (eframe_list (h_ctrl s)) (Z.lor (u32 qh) 2).
Definition ehci_enumerate_device (slot_id port_id : Z) : M S unit :=
  let dev := ehci_device_at slot_id in
  st 1 (dev + d_slot_id) slot_id;;
  st 1 (dev + d_port_id) port_id;;
  v ← ehci_read32 (EHCI_PORTS + 4 * (port_id - 1));
  let speed := Z.land (Z.shiftr v 26) 0x3 in
  st 1 (dev + d_speed) speed;;
  whenM (speed =? 0) (st 1 (dev + d_speed) 2);;
  ehci_get_descriptor slot_id 1 0 0 (dev + d_device_desc) SIZEOF_DEVICE_DESC;;
  p ← ld 1 (dev + d_device_desc + bMaxPacketSize0); st 1 (dev + d_max_packet_size) p;;
  ehci_set_address slot_id slot_id;;
  read_configuration ehci_get_descriptor config_buf slot_id dev;;
  ehci_set_configuration slot_id 1;;
  kind ← ld 1 (dev + d_type);
  (if kind =? 1 then on_input keyboard_init else if kind =? 2 then on_input mouse_init else mret tt);;
  kind ← ld 1 (dev + d_type);
  whenM ((kind =? 1) || (kind =? 2)) (ehci_watch_device slot_id);;
  one_more_device.
Definition ehci_enumerate_port (port : Z) : M S unit :=
  let portsc := EHCI_PORTS + 4 * (port - 1) in
  status ← ehci_read32 portsc;
  if truthy (Z.land status 1) then
    ehci_write32 portsc (Z.lor status (Z.shiftl 1 9));;
    ehci_wait_ms 100;;
    status ← ehci_read32 portsc;
    if Z.land status 1 =? 0 then s ← get; ehci_enumerate_device (device_count s) port else mret tt
  else mret tt.
Definition ehci_enumerate_devices : M S unit := s ← get; for_to 1 (max_ports (h_ctrl s) + 1) ehci_enumerate_port.
Definition ehci_get_device (slot_id : Z) : Z := ehci_device_at slot_id.

Definition ehci_init (base_addr : Z) : M S Z :=
  with_ctrl (λ c, mk_ehci base_addr (async_qh c) (periodic_qh0 c) (eframe_list c) 15 (einitialized c));;
  l ← halloc (1024 * 4);
  with_ctrl (λ c, mk_ehci (eregs c) (async_qh c) (periodic_qh0 c) l (max_ports c) (einitialized c));;
  if l =? NULL then mret (-1) else
  for_to 0 1024 (λ i, st 4 (l + 4 * i) 1);;
  qh ← ehci_alloc_qh;
  with_ctrl (λ c, mk_ehci (eregs c) qh (periodic_qh0 c) (eframe_list c) (max_ports c) (einitialized c));;
  if qh =? NULL then mret (-1) else
  st 4 (qh + qh_horizontal_link) (Z.lor (u32 qh) 1);;
  st 4 (qh + qh_characteristics) 0x40000000;;
  st 4 (qh + qh_current_qtd) 0;;
  st 4 (qh + qh_next_qtd) 1;;
  ehci_write32 EHCI_ASYNCLISTADDR (Z.lor (u32 qh) 2);;
  ehci_write32 EHCI_PERIODICLISTBASE (u32 l);;
  ehci_write32 EHCI_USBINTR 0;;
  with_ctrl (λ c, mk_ehci (eregs c) (async_qh c) (periodic_qh0 c) (eframe_list c) (max_ports c) 1);;
  mret 0.
Definition ehci_start : M S unit :=
  set_command (Z.lor (Z.lor (Z.shiftl 1 0) (Z.shiftl 1 4)) (Z.shiftl 1 5));;
  ehci_write32 EHCI_CONFIGFLAG 1.
Definition ehci_stop : M S unit := clear_command (Z.shiftl 1 0).
Definition ehci_reset : M S Z :=
  set_command (Z.shiftl 1 1);; ehci_wait_for_bit EHCI_USBSTS (Z.shiftl 1 11) 0 100;; mret 0.

(** One device of the interrupt: a report that is there is handed over and the next awaited. *)
Definition ehci_serve (i : Z) : M S unit :=
  let dev := ehci_device_at i in
  qh ← ld 8 (dev + d_pointer);
  if qh =? NULL then mret tt else
  qtd ← ld 4 (qh + qh_current_qtd);
  if qtd =? 0 then mret tt else
  token ← ld 4 (qtd + qtd_token);
  if truthy (Z.land token 1) then
    data ← ld 4 (qtd + qtd_buffer);
    kind ← ld 1 (dev + d_type);
    hand_over keyboard_report mouse_report kind data 4;;
    qh ← ld 8 (dev + d_pointer);
    st 4 (qh + qh_current_qtd) 0;;
    interrupt_qtd qh
  else mret tt.
Definition ehci_handle_interrupt : M S unit :=
  s ← get;
  if einitialized (h_ctrl s) =? 0 then mret tt else
  status ← ehci_read32 EHCI_USBSTS;
  if truthy (Z.land status 1) then
    ehci_write32 EHCI_USBSTS status;;
    s ← get;
    for_to 0 (device_count s) ehci_serve
  else mret tt.
End ehci.

(** ** Transfers keep the heap *)

Section ehci_theorems.
  Context {A D I : Type} `{!AllocOps A} `{!Allocator A} `{!HeapData A} `{!Controller D} `{!ControllerLaw D} `{!RegIO D}.
  Context (fs_kernel_memory : Z) (Hfs : fs_kernel_memory ≠ NULL) (devices : Z).
  Abbreviation S := (host A D ehci_controller_t I).
  Abbreviation ram_of s := (al_ram (h_heap s)).

(** The registers answer. *)
Definition answers : Prop :=
  (∀ r (d : D), ∃ v d', reg_read r d = Done v d') ∧ (∀ r v (d : D), ∃ d', reg_write r v d = Done tt d').
Context (Hreg : answers).

Lemma wp_ewrite r v (s0 s : S) L (Q : unit → S → Prop) : keeps s0 L s → (∀ s', keeps s0 L s' → Q tt s') → wpu (ehci_write32 r v) Q s.
Proof.
  intros HI HQ. apply wpu_bind, wpu_get. eapply wp_on_hw; [done| |intros []; apply HQ].
  destruct (proj2 Hreg (eregs (h_ctrl s) + r) v (h_hw s)) as [d ->]. eauto.
Qed.
Lemma wp_eread r (s0 s : S) L (Q : Z → S → Prop) : keeps s0 L s → (∀ v s', keeps s0 L s' → Q v s') → wpu (ehci_read32 r) Q s.
Proof. intros HI HQ. apply wpu_bind, wpu_get. eapply wp_on_hw; [done|apply Hreg|done]. Qed.

Lemma run_queue_keeps qh (s0 s : S) L (Q : unit → S → Prop) : keeps s0 L s → (∀ s', keeps s0 L s' → Q tt s') → wpu (run_queue qh) Q s.
Proof.
  intros HI HQ. unfold run_queue, set_command, clear_command, ehci_wait_ms.
  apply wpu_bind. eapply wp_ewrite; [done|]. intros ? ?. apply wpu_bind, wpu_bind. eapply wp_eread; [done|]. intros ? ? ?.
  eapply wp_ewrite; [done|]. intros ? ?. apply wpu_bind. eapply wp_wait; [done|]. intros ? ?. apply wpu_bind.
  eapply wp_eread; [done|]. intros ? ? ?. by eapply wp_ewrite.
Qed.

Lemma data_stage_keeps bm wl data setup n (s0 s : S) L (Q : option Z → S → Prop) :
  keeps s0 L s → L !! setup = Some n → 32 ≤ n →
  (∀ s', keeps s0 L s' → Q None s') → (∀ s', keeps s0 L s' → Q (Some 0) s') →
  (∀ p k s', p ≠ NULL → 32 ≤ k → L !! p = None → keeps s0 (<[p := k]> L) s' → Q (Some p) s') →
  wpu (ehci_data_stage fs_kernel_memory bm wl data setup) Q s.
Proof.
  intros HI Hs Hn H0 H1 H2. unfold ehci_data_stage, ehci_alloc_qtd, qtd_next, qtd_alt_next, qtd_token, qtd_buffer, SIZEOF_QTD.
  destruct (0 <? wl); [|by apply wpu_ret, H1]. alloc_step p k; [by apply wpu_ret, H0|].
  assert (p ≠ setup) by (intros ->; congruence). do 5 st_step. apply wpu_ret. by eapply H2.
Qed.

(** What is loaded of the device is there. *)
Lemma device_member off slot (s0 : S) : mapped (ehci_device_at devices slot) SIZEOF_EHCI_DEVICE (ram_of s0) → 0 ≤ off < SIZEOF_EHCI_DEVICE →
  mapped (ehci_device_at devices slot + off) (Z.of_nat 1) (ram_of s0).
Proof. intros H Hoff. eapply mapped_sub; [done|lia|lia]. Qed.

(** The way back: what was taken is freed, the last first. *)
Lemma release_keeps (r : Z) qh setup kq ks (s0 s : S) L (Q : Z → S → Prop) :
  keeps s0 (<[setup := ks]> (<[qh := kq]> L)) s → setup ≠ qh → L !! qh = None → L !! setup = None →
  (∀ s', keeps s0 L s' → Q r s') →
  wpu (ehci_free_qtd fs_kernel_memory setup;; ehci_free_qh fs_kernel_memory qh;; mret r) Q s.
Proof.
  intros HI Hne Hq Hs HQ. unfold ehci_free_qtd, ehci_free_qh. free_step. rewrite delete_insert_id in * by (by simplify_map_eq).
  free_step. rewrite delete_insert_id in * by done. by apply wpu_ret, HQ.
Qed.

Lemma ehci_transfer_run slot bm br wv wi wl data (s : S) L :
  al_live (h_heap s) L → mapped (ehci_device_at devices slot) SIZEOF_EHCI_DEVICE (ram_of s) →
  wpu (ehci_control_transfer fs_kernel_memory devices slot bm br wv wi wl data) (λ r s', (r = 0 ∨ r = -1) ∧ keeps s L s') s.
Proof.
  intros Hl Hdev. pose proof (keeps_start L s Hl) as HI.
  unfold ehci_control_transfer, ehci_alloc_qh, ehci_alloc_qtd, qh_horizontal_link, qh_characteristics, qh_capabilities, qh_current_qtd,
    qh_next_qtd, qtd_next, qtd_alt_next, qtd_token, qtd_buffer, SIZEOF_QTD, SIZEOF_QH.
  alloc_step qh kq; [by apply wpu_ret; split; [right|]|]. st_step.
  apply wpu_bind. eapply wp_ld; [eassumption|by apply device_member|]. intros size ? ?. cbv beta.
  apply wpu_bind. eapply wp_ld; [eassumption|by apply device_member|]. intros speed ? ?. cbv beta. do 3 st_step.
  alloc_step setup ks.
  { unfold ehci_free_qh. free_step. rewrite delete_insert_id in * by done. apply wpu_ret. by split; [right|]. }
  assert (setup ≠ qh ∧ L !! setup = None) as [Hne Hfs'].
  { split; [intros ->; by rewrite lookup_insert_eq in *|]. destruct (decide (setup = qh)) as [->|]; [done|by rewrite lookup_insert_ne in * by done]. }
  do 6 st_step. apply wpu_bind.
  eapply (data_stage_keeps _ _ _ setup ks); [eassumption|by simplify_map_eq|lia| | |].
  - intros s1 H1'. eapply release_keeps; [exact H1'|done..|]. intros s2 H2'. by split; [right|].
  - intros s1 H1'. alloc_step status kst.
    + cbn [truthy Z.eqb negb whenM]. apply wpu_bind, wpu_ret. eapply release_keeps; [eassumption|done..|]. intros s2 H2'. by split; [right|].
    + assert (status ≠ setup) by (intros ->; by rewrite lookup_insert_eq in * ). do 3 st_step. cbn [truthy Z.eqb negb whenM].
      st_step. apply wpu_bind. eapply run_queue_keeps; [eassumption|]. intros ? ?. unfold ehci_free_qtd at 1. free_step.
      rewrite delete_insert_id in * by done. apply wpu_bind, wpu_ret. eapply release_keeps; [eassumption|done..|].
      intros s2 H2'. by split; [left|].
  - intros dq kd s1 Hdq Hkd Hfd H1'. assert (truthy dq = true) as Ht by (unfold truthy; by rewrite (proj2 (Z.eqb_neq dq 0))).
    rewrite Ht. cbn [whenM]. alloc_step status kst.
    + unfold ehci_free_qtd at 1. free_step. rewrite delete_insert_id in * by done. eapply release_keeps; [eassumption|done..|].
      intros s2 H2'. by split; [right|].
    + assert (status ≠ dq) by (intros ->; by rewrite lookup_insert_eq in * ). do 3 st_step. st_step.
      apply wpu_bind. eapply run_queue_keeps; [eassumption|]. intros ? ?. unfold ehci_free_qtd at 1. free_step.
      rewrite delete_insert_id in * by done. unfold ehci_free_qtd at 1. free_step. rewrite delete_insert_id in * by done.
      eapply release_keeps; [eassumption|done..|]. intros s2 H2'. by split; [left|].
Qed.

(** ** The properties *)

(** C10: A control transfer gives back all the memory it takes, on every way out: whichever of its allocations
    fails, and whatever the controller writes to memory while the driver waits, short of
    changing the headers that the heap keeps in the same memory, it returns 0 or -1, the live
    blocks of the heap are those of before, and no byte of memory has gone away.  The driver's own
    stores stay inside its blocks: nothing but the controller can destroy the heap. *)
Theorem ehci_control_transfer_keeps_heap slot bm br wv wi wl data (s : S) L :
  al_live (h_heap s) L → mapped (ehci_device_at devices slot) SIZEOF_EHCI_DEVICE (ram_of s) →
  match ehci_control_transfer fs_kernel_memory devices slot bm br wv wi wl data s with
  | Done r s' => (r = 0 ∨ r = -1) ∧ al_live (h_heap s') L ∧ h_ctrl s' = h_ctrl s ∧ h_input s' = h_input s ∧
      ∀ x, is_Some (ram_of s !! x) → is_Some (ram_of s' !! x)
  | Stuck w => w = Overwritten
  end.
Proof.
  intros Hl Hm. pose proof (ehci_transfer_run slot bm br wv wi wl data s L Hl Hm) as H. unfold wpu in H.
  destruct (ehci_control_transfer _ _ _ _ _ _ _ _ _ s) as [r s'|w]; [|done]. destruct H as [Hr HI]. split; [done|]. by destruct HI.
Qed.
End ehci_theorems.

(** ** An example *)

(** A controller that answers with the eighteen bytes of a device descriptor at 4144, which is
    in a block in use, and one that clears all of memory. *)
Definition a_descriptor : list Z := [18; 1; 0; 2; 0; 0; 0; 8; 0x6D; 4; 0x1C; 0xC3; 0; 1; 1; 2; 0; 1].
Definition answering : Controller unit := λ _ d m, (d, mem_write 4144 a_descriptor m).
Definition wiping : Controller unit := λ _ d m, (d, (λ _, 0) <$> m).
#[local] Instance answering_law : @ControllerLaw unit answering.
Proof. intros n d m a Hb. exact (is_Some_write 4144 a_descriptor m a Hb). Qed.
#[local] Instance silent_registers : RegIO unit := {| reg_read _ := mret 0; reg_write _ _ := mret tt |}.
Definition demo_ehci : host kernel_memory unit ehci_controller_t unit := mk_host demo_used tt (mk_ehci 0x1000 0 0 0 15 1) 0 tt.
(** Reading a device descriptor. *)
Definition demo_transfer (hw : Controller unit) : outcome (host kernel_memory unit ehci_controller_t unit) Z :=
  ehci_control_transfer (Controller0 := hw) 1 4136 0 0x80 6 0x100 0 18 4144 demo_ehci.

Lemma ehci_control_transfer_keeps_heap_witness : ∃ s',
  demo_transfer answering = Done 0 s' ∧ load_bytes 18 4144 (al_ram (h_heap s')) = Done a_descriptor (al_ram (h_heap s')) ∧
  al_live (h_heap s') (live_blocks 4096 demo_blocks) ∧ h_ctrl s' = h_ctrl demo_ehci ∧ h_input s' = tt.
Proof.
  pose proof (ehci_control_transfer_keeps_heap (Controller0 := answering) 1 ltac:(done) 4136 ltac:(split; intros; eexists; [eexists|]; reflexivity)
    0 0x80 6 0x100 0 18 4144 demo_ehci (live_blocks 4096 demo_blocks) demo_used_live) as H.
  specialize (H ltac:(intros x Hx; apply demo_ram_mapped; unfold SIZEOF_EHCI_DEVICE, ehci_device_at in Hx; lia)).
  fold (demo_transfer answering) in H. assert (Hr : match demo_transfer answering with
    | Done r s' => (r = 0 ∧ load_bytes 18 4144 (al_ram (h_heap s')) = Done a_descriptor (al_ram (h_heap s'))) | Stuck _ => False end)
    by (vm_compute; split; reflexivity).
  destruct (demo_transfer answering) as [r s'|w]; [|done]. destruct Hr as [-> Hr]. exists s'. split; [done|]. split; [exact Hr|].
  destruct H as (_ & H1 & H2 & H3 & _). split; [exact H1|]. split; [exact H2|exact H3].
Defined.

Example wiped_heap : demo_transfer wiping = Stuck Overwritten.
Proof. vm_compute. reflexivity. Qed.
