(* ===== verification/Xhci.v ===== *)
(** * The xHCI driver, [core/drivers/usb/xhci.c]

    Commands are written to a ring of 256 requests in memory, events read from another; the
    structures of the registers are taken as the code declares them.  Messages are left out. *)

From Stdlib Require Import ZArith Lia String.
From stdpp Require Import base gmap list numbers.
From S2P Require Import Prelude Memory Heap KernelMemory Ports Alloc KernelAlloc UsbHost.
Open Scope Z_scope.
Set Default Goal Selector "!".

Definition XHCI_TRB_TYPE_NORMAL : Z := 1.
Definition XHCI_TRB_TYPE_SETUP_STAGE : Z := 2.
Definition XHCI_TRB_TYPE_DATA_STAGE : Z := 3.
Definition XHCI_TRB_TYPE_STATUS_STAGE : Z := 4.
Definition XHCI_TRB_TYPE_ENABLE_SLOT : Z := 9.
Definition XHCI_TRB_TYPE_DISABLE_SLOT : Z := 10.
Definition XHCI_TRB_TYPE_ADDRESS_DEVICE : Z := 11.
Definition XHCI_TRB_TYPE_CONFIGURE_ENDPOINT : Z := 12.
Definition XHCI_TRB_TYPE_TRANSFER_EVENT : Z := 32.
Definition XHCI_SLOT_STATE_DEFAULT : Z := 2.
Definition XHCI_ENDPOINT_STATE_RUNNING : Z := 1.
Definition XHCI_PORTSC (n : Z) : Z := 0x400 + n * 0x10.

(** The registers, by their offsets in the packed structures. *)
Definition cap_caplength : Z := 0.
Definition cap_hcsparams1 : Z := 8.
Definition cap_hccparams1 : Z := 20.
Definition cap_dboff : Z := 24.
Definition cap_rtsoff : Z := 28.
Definition op_usbcmd : Z := 0.
Definition op_usbsts : Z := 4.
Definition op_pagesize : Z := 8.
Definition op_dcbaap : Z := 60.
Definition op_config : Z := 68.
Definition rt_erstsz : Z := 8196.
Definition rt_erstba : Z := 12292.
Definition rt_erdp : Z := 20484.

(** A request, and what is in memory of a device. *)
Record xhci_trb_t := mk_trb { trb_parameter : Z; trb_status : Z; trb_command : Z; trb_control : Z }.
Definition SIZEOF_TRB : Z := 16.
Definition RING_SIZE : Z := 256.
Definition SIZEOF_CONTEXT : Z := 1024.
Definition SIZEOF_ERST : Z := 16.
Definition SIZEOF_XHCI_DEVICE : Z := 424.
Definition trb_bytes (t : xhci_trb_t) : list Z :=
  le_split 4 (trb_parameter t) ++ le_split 4 (trb_status t) ++ le_split 4 (trb_command t) ++ le_split 4 (trb_control t).

Record xhci_controller_t := mk_xhci {
  dcbaap : Z;
  contexts : Z;
  cmd_ring : Z;
  cmd_ring_index : Z;
  event_ring : Z;
  event_ring_index : Z;
  erst : Z;
  max_slots : Z;
  xmax_ports : Z;
  context_size : Z;
  page_size : Z;
  cap_regs : Z;
  op_regs : Z;
  rt_regs : Z;
  db_regs : Z;
  xhci_initialized : Z;
}.
Definition set_cmd_index (i : Z) (c : xhci_controller_t) : xhci_controller_t :=
  mk_xhci (dcbaap c) (contexts c) (cmd_ring c) i (event_ring c) (event_ring_index c) (erst c) (max_slots c) (xmax_ports c)
    (context_size c) (page_size c) (cap_regs c) (op_regs c) (rt_regs c) (db_regs c) (xhci_initialized c).
Definition set_event_index (i : Z) (c : xhci_controller_t) : xhci_controller_t :=
  mk_xhci (dcbaap c) (contexts c) (cmd_ring c) (cmd_ring_index c) (event_ring c) i (erst c) (max_slots c) (xmax_ports c)
    (context_size c) (page_size c) (cap_regs c) (op_regs c) (rt_regs c) (db_regs c) (xhci_initialized c).
Definition set_areas (d x r e t : Z) (c : xhci_controller_t) : xhci_controller_t :=
  mk_xhci d x r (cmd_ring_index c) e (event_ring_index c) t (max_slots c) (xmax_ports c)
    (context_size c) (page_size c) (cap_regs c) (op_regs c) (rt_regs c) (db_regs c) (xhci_initialized c).
Definition set_registers (cap op rt db slots ports size page : Z) (c : xhci_controller_t) : xhci_controller_t :=
  mk_xhci (dcbaap c) (contexts c) (cmd_ring c) (cmd_ring_index c) (event_ring c) (event_ring_index c) (erst c) slots ports
    size page cap op rt db (xhci_initialized c).
Definition set_xinitialized (c : xhci_controller_t) : xhci_controller_t :=
  mk_xhci (dcbaap c) (contexts c) (cmd_ring c) (cmd_ring_index c) (event_ring c) (event_ring_index c) (erst c) (max_slots c)
    (xmax_ports c) (context_size c) (page_size c) (cap_regs c) (op_regs c) (rt_regs c) (db_regs c) 1.

Section xhci.
  Context {A D I : Type} `{!AllocOps A} `{!HeapData A} `{!Controller D} `{!RegIO D} (fs_kernel_memory : Z).
  (** A register of 64 bits. *)
  Context (reg_write64 : Z → Z → M D unit).
  (** The addresses of [devices], of the array and of the request on the stack, and what the
      byte of the stack holds that is taken for the number of a slot. *)
  Context (devices config_buf setup_trb_addr stack_slot : Z).
  Context (keyboard_report : option (list Z) → M I unit) (mouse_report : list Z → Z → M I unit).
  Abbreviation S := (host A D xhci_controller_t I).
  Abbreviation halloc := (halloc fs_kernel_memory).
  Abbreviation hfree := (hfree fs_kernel_memory).

Definition xhci_device_at (slot : Z) : Z := devices + SIZEOF_XHCI_DEVICE * slot.
Definition with_xhci (f : xhci_controller_t → xhci_controller_t) : M S unit := s ← get; set_ctrl (f (h_ctrl s)).
Definition xhci_read32 (reg : Z) : M S Z := on_hw (reg_read reg).
Definition xhci_write32 (reg val : Z) : M S unit := on_hw (reg_write reg val).
Definition xhci_write64 (reg val : Z) : M S unit := on_hw (reg_write64 reg val).
Definition xhci_wait_ms (ms : Z) : M S unit := wait_ms ms.
Definition xhci_wait_for_bit (reg bit set timeout_ms : Z) : M S Z := wait_for_bit (xhci_read32 reg) bit set timeout_ms.
Definition xhci_ring_doorbell (slot ep : Z) : M S unit := s ← get; xhci_write32 (db_regs (h_ctrl s) + 4 * slot) ep.

(** The next place of the ring of commands. *)
Definition xhci_get_next_trb (ring index size : Z) : Z * Z := (ring + SIZEOF_TRB * index, u32 (index + 1) mod size).
Definition xhci_submit_command (trb : xhci_trb_t) : M S unit :=
  s ← get;
  let '(cmd_trb, index) := xhci_get_next_trb (cmd_ring (h_ctrl s)) (cmd_ring_index (h_ctrl s)) RING_SIZE in
  with_xhci (set_cmd_index index);;
  on_ram (store_bytes cmd_trb (trb_bytes trb));;
  control ← ld 4 (cmd_trb + 12);
  st 4 (cmd_trb + 12) (Z.lor control 1);;
  xhci_ring_doorbell 0 0.

Definition xhci_alloc_device_context (slot_id : Z) : M S Z :=
  s ← get;
  if max_slots (h_ctrl s) <=? slot_id then mret (-1) else
  p ← halloc SIZEOF_CONTEXT;
  st 8 (contexts (h_ctrl s) + 8 * slot_id) p;;
  if p =? NULL then mret (-1) else
  st 8 (dcbaap (h_ctrl s) + 8 * (slot_id + 1)) p;;
  mret 0.
Definition xhci_free_device_context (slot_id : Z) : M S unit :=
  s ← get;
  if slot_id <? max_slots (h_ctrl s) then
    p ← ld 8 (contexts (h_ctrl s) + 8 * slot_id);
    if p =? NULL then mret tt else
    hfree p;;
    st 8 (contexts (h_ctrl s) + 8 * slot_id) 0;;
    st 8 (dcbaap (h_ctrl s) + 8 * (slot_id + 1)) 0
  else mret tt.

Definition setup_trb (bmRequestType bRequest wValue wIndex wLength : Z) : xhci_trb_t :=
  mk_trb (u32 setup_trb_addr) (u32 (Z.lor (Z.lor (Z.shiftl bmRequestType 24) (Z.shiftl bRequest 16)) wValue))
    (u32 (Z.lor (Z.shiftl wIndex 16) wLength)) XHCI_TRB_TYPE_SETUP_STAGE.
Definition data_trb (bmRequestType wLength data : Z) : xhci_trb_t :=
  mk_trb (u32 data) wLength 0 (Z.lor XHCI_TRB_TYPE_DATA_STAGE (if truthy (Z.land bmRequestType 0x80) then 0 else Z.shiftl 1 16)).
Definition status_trb (bmRequestType : Z) : xhci_trb_t :=
  mk_trb 0 0 0 (Z.lor XHCI_TRB_TYPE_STATUS_STAGE (if truthy (Z.land bmRequestType 0x80) then Z.shiftl 1 16 else 0)).
Definition xhci_control_transfer (slot_id ep bmRequestType bRequest wValue wIndex wLength data : Z) : M S Z :=
  xhci_submit_command (setup_trb bmRequestType bRequest wValue wIndex wLength);;
  whenM (0 <? wLength) (xhci_submit_command (data_trb bmRequestType wLength data));;
  xhci_submit_command (status_trb bmRequestType);;
  mret 0.
Definition xhci_get_descriptor (slot_id desc_type desc_index lang_id buffer length : Z) : M S Z :=
  xhci_control_transfer slot_id 0 0x80 6 (Z.lor (Z.shiftl desc_type 8) desc_index) lang_id length buffer.
Definition xhci_set_configuration (slot_id config_value : Z) : M S Z := xhci_control_transfer slot_id 0 0x00 9 config_value 0 0 NULL.
Definition xhci_set_interface (slot_id interface alt_setting : Z) : M S Z :=
  xhci_control_transfer slot_id 0 0x01 11 alt_setting interface 0 NULL.
Definition xhci_parse_hid_report (slot_id report_desc len : Z) : M mem unit := parse_hid_report (xhci_device_at slot_id) report_desc len.

Definition xhci_enable_slot : M S Z := xhci_submit_command (mk_trb 0 0 0 XHCI_TRB_TYPE_ENABLE_SLOT);; mret 0.
Definition xhci_disable_slot (slot_id : Z) : M S Z := xhci_submit_command (mk_trb slot_id 0 0 XHCI_TRB_TYPE_DISABLE_SLOT);; mret 0.
(** The context of an endpoint. *)
Definition ep_context (ctx i : Z) : Z := ctx + 32 + 32 * i.
Definition set_endpoint (ctx i type ring : Z) : M S unit :=
  st 4 (ep_context ctx i) XHCI_ENDPOINT_STATE_RUNNING;;
  st 4 (ep_context ctx i + 4) type;;
  st 4 (ep_context ctx i + 8) (u32 ring).
Definition xhci_address_device (slot_id port_id : Z) : M S Z :=
  xhci_alloc_device_context slot_id;;
  s ← get;
  ctx ← ld 8 (contexts (h_ctrl s) + 8 * slot_id);
  st 4 ctx 0;;
  speed ← ld 1 (xhci_device_at slot_id + d_speed);
  st 4 (ctx + 4) speed;;
  st 4 (ctx + 28) XHCI_SLOT_STATE_DEFAULT;;
  set_endpoint ctx 0 4 (cmd_ring (h_ctrl s));;
  xhci_submit_command (mk_trb slot_id 0 0 XHCI_TRB_TYPE_ADDRESS_DEVICE);;
  mret 0.
Definition xhci_configure_endpoint (slot_id ep_index ep_type max_packet_size interval : Z) : M S Z :=
  s ← get;
  ctx ← ld 8 (contexts (h_ctrl s) + 8 * slot_id);
  set_endpoint ctx ep_index ep_type (event_ring (h_ctrl s));;
  xhci_submit_command (mk_trb slot_id 0 0 XHCI_TRB_TYPE_CONFIGURE_ENDPOINT);;
  mret 0.
Definition xhci_setup_interrupt_transfer (slot_id ep_index buffer length : Z) : M S Z :=
  xhci_submit_command (mk_trb (u32 buffer) length 0 XHCI_TRB_TYPE_NORMAL);; mret 0.

Definition xhci_enumerate_device (slot_id port_id : Z) : M S unit :=
  let dev := xhci_device_at slot_id in
  st 1 (dev + d_slot_id) slot_id;;
  st 1 (dev + d_port_id) port_id;;
  s ← get;
  v ← xhci_read32 (op_regs (h_ctrl s) + op_usbsts);
  st 1 (dev + d_speed) (Z.land (Z.shiftr v 20) 0xF);;
  xhci_get_descriptor slot_id 1 0 0 (dev + d_device_desc) SIZEOF_DEVICE_DESC;;
  read_configuration xhci_get_descriptor config_buf slot_id dev;;
  xhci_set_configuration slot_id 1;;
  kind ← ld 1 (dev + d_type);
  whenM ((kind =? 1) || (kind =? 2)) (
    max_packet ← ld 2 (dev + d_ep_desc + wMaxPacketSize);
    xhci_configure_endpoint slot_id 1 3 max_packet 8;;
    buffer ← halloc 64;
    if buffer =? NULL then mret tt else xhci_setup_interrupt_transfer slot_id 1 buffer 64;; mret tt);;
  one_more_device.
Definition xhci_enumerate_port (port : Z) : M S unit :=
  s ← get;
  let portsc := op_regs (h_ctrl s) + XHCI_PORTSC port in
  status ← xhci_read32 portsc;
  if truthy (Z.land status 1) then
    xhci_enable_slot;;
    xhci_address_device stack_slot port;;
    xhci_enumerate_device stack_slot port;;
    xhci_write32 portsc (Z.lor status (Z.shiftl 1 9))
  else mret tt.
Definition xhci_enumerate_devices : M S unit := s ← get; for_to 1 (xmax_ports (h_ctrl s) + 1) xhci_enumerate_port.
Definition xhci_get_device (slot_id : Z) : Z := xhci_device_at slot_id.
Definition xhci_get_max_slots : M S Z := gets (λ s, max_slots (h_ctrl s)).
Definition xhci_get_max_ports : M S Z := gets (λ s, xmax_ports (h_ctrl s)).

(** The registers of the controller, found through its capabilities. *)
Definition find_registers (base_addr : Z) : M S unit :=
  caplength ← xhci_read32 (base_addr + cap_caplength);
  rtsoff ← xhci_read32 (base_addr + cap_rtsoff);
  dboff ← xhci_read32 (base_addr + cap_dboff);
  p1 ← xhci_read32 (base_addr + cap_hcsparams1);
  p2 ← xhci_read32 (base_addr + cap_hcsparams1);
  h ← xhci_read32 (base_addr + cap_hccparams1);
  page ← xhci_read32 (base_addr + caplength + op_pagesize);
  with_xhci (set_registers base_addr (base_addr + caplength) (base_addr + rtsoff) (base_addr + dboff)
    (Z.land p1 0xFF) (Z.land (Z.shiftr p2 24) 0xFF) (if truthy (Z.land h (Z.shiftl 1 2)) then 64 else 32) (Z.land page 0xFFFF)).
(** The five areas; nothing is given back when one cannot be had. *)
Definition alloc_areas : M S bool :=
  s ← get;
  let c := h_ctrl s in
  d ← halloc ((max_slots c + 1) * 8);
  with_xhci (set_areas d (contexts c) (cmd_ring c) (event_ring c) (erst c));;
  if d =? NULL then mret false else
  x ← halloc (max_slots c * 8);
  with_xhci (set_areas d x (cmd_ring c) (event_ring c) (erst c));;
  if x =? NULL then mret false else
  r ← halloc (RING_SIZE * SIZEOF_TRB);
  with_xhci (set_areas d x r (event_ring c) (erst c));;
  if r =? NULL then mret false else
  e ← halloc (RING_SIZE * SIZEOF_TRB);
  with_xhci (set_areas d x r e (erst c));;
  if e =? NULL then mret false else
  t ← halloc SIZEOF_ERST;
  with_xhci (set_areas d x r e t);;
  mret (negb (t =? NULL)).
Definition xhci_init (base_addr : Z) : M S Z :=
  find_registers base_addr;;
  ok ← alloc_areas;
  if negb ok then mret (-1) else
  s ← get;
  let c := h_ctrl s in
  st 8 (dcbaap c) (dcbaap c);;
  xhci_write64 (op_regs c + op_dcbaap) (dcbaap c);;
  with_xhci (set_cmd_index 0);;
  with_xhci (set_event_index 0);;
  st 8 (erst c) (event_ring c);;
  st 4 (erst c + 8) 256;;
  xhci_write32 (rt_regs c + rt_erstsz) 1;;
  xhci_write64 (rt_regs c + rt_erstba) (erst c);;
  xhci_write64 (rt_regs c + rt_erdp) (event_ring c);;
  xhci_write32 (op_regs c + op_config) (max_slots c);;
  with_xhci set_xinitialized;;
  mret 0.
(** [cmd = read(usbcmd)] with a bit set or cleared, and the wait for the controller to follow. *)
Definition xhci_command (change : Z → Z) (bit set : Z) : M S unit :=
  s ← get;
  cmd ← xhci_read32 (op_regs (h_ctrl s) + op_usbcmd);
  xhci_write32 (op_regs (h_ctrl s) + op_usbcmd) (change cmd);;
  xhci_wait_for_bit (op_regs (h_ctrl s) + op_usbsts) bit set 100;;
  mret tt.
Definition xhci_start : M S unit := xhci_command (λ cmd, Z.lor cmd 1) 1 0.
Definition xhci_stop : M S unit := xhci_command (λ cmd, Z.ldiff cmd 1) 1 1.
Definition xhci_reset : M S Z := xhci_command (λ cmd, Z.lor cmd (Z.shiftl 1 1)) (Z.shiftl 1 11) 0;; mret 0.

Definition xhci_handle_event : M S unit :=
  s ← get;
  let c := h_ctrl s in
  if (xhci_initialized c =? 0) || (event_ring c =? NULL) then mret tt else
  let event := event_ring c + SIZEOF_TRB * event_ring_index c in
  control ← ld 4 (event + 12);
  if truthy (Z.land control 1) then
    (if Z.land (Z.shiftr control 10) 0x3F =? XHCI_TRB_TYPE_TRANSFER_EVENT then
       kind ← ld 1 (xhci_device_at (Z.land (Z.shiftr control 24) 0xFF) + d_type);
       data ← ld 4 event;
       status ← ld 4 (event + 4);
       hand_over keyboard_report mouse_report kind data (Z.land status 0xFFFF)
     else mret tt);;
    let index := u32 (event_ring_index c + 1) mod RING_SIZE in
    with_xhci (set_event_index index);;
    xhci_write64 (rt_regs c + rt_erdp) (event_ring c + SIZEOF_TRB * index)
  else mret tt.
End xhci.

(** ** The ring of commands *)

(** A request as it is posted: with the cycle bit. *)
Definition with_cycle (t : xhci_trb_t) : xhci_trb_t := mk_trb (trb_parameter t) (trb_status t) (trb_command t) (Z.lor (trb_control t) 1).
(** Where the [k]-th request after the index [i] goes. *)
Definition ring_slot (ring i k : Z) : Z := ring + SIZEOF_TRB * ((i + k) mod RING_SIZE).
(** The ring holds these requests from the index [i] on. *)
Definition posted (ring i : Z) (l : list xhci_trb_t) (m : mem) : Prop :=
  ∀ k t, l !! k = Some t → bytes_at (ring_slot ring i (Z.of_nat k)) (trb_bytes (with_cycle t)) m.

Lemma length_trb t : length (trb_bytes t) = 16%nat.
Proof. reflexivity. Qed.
Lemma trb_are_bytes t : Forall is_byte (trb_bytes t).
Proof. unfold trb_bytes. rewrite !Forall_app. split_and!; apply le_split_bytes. Qed.

Lemma slot_range ring i k : ring ≤ ring_slot ring i k ∧ ring_slot ring i k + 16 ≤ ring + 4096.
Proof. unfold ring_slot, SIZEOF_TRB, RING_SIZE. pose proof (Z.mod_pos_bound (i + k) 256). lia. Qed.

(** Slots of fewer than 256 requests are apart. *)
Lemma slots_apart ring i j k : 0 ≤ j < k → k - j < 256 →
  ring_slot ring i j + 16 ≤ ring_slot ring i k ∨ ring_slot ring i k + 16 ≤ ring_slot ring i j.
Proof.
  intros Hj Hk. unfold ring_slot, SIZEOF_TRB, RING_SIZE.
  assert ((i + j) mod 256 ≠ (i + k) mod 256) as Hne; [|lia].
  intros E. pose proof (Z.div_mod (i + j) 256 ltac:(done)). pose proof (Z.div_mod (i + k) 256 ltac:(done)). lia.
Qed.

Lemma lookup_same_front {B} (xs ys zs : list B) j : (j < length xs)%nat → (xs ++ ys) !! j = (xs ++ zs) !! j.
Proof. intros H. by rewrite !lookup_app_l. Qed.

(** The two steps of a request are one. *)
Lemma write_cycle p t m :
  mem_write (p + 12) (le_split 4 (Z.lor (u32 (trb_control t)) 1)) (mem_write p (trb_bytes t) m) = mem_write p (trb_bytes (with_cycle t)) m.
Proof.
  assert (le_split 4 (Z.lor (u32 (trb_control t)) 1) = le_split 4 (Z.lor (trb_control t) 1)) as ->.
  { assert (∀ z, u32 z = Z.land z (Z.ones 32)) as Hu by (intros z; by rewrite Z.land_ones).
    assert (∀ z, le_split 4 z = le_split 4 (u32 z)) as Hs 
      by (intros z; rewrite <-(le_split_combine (le_split 4 z) (le_split_bytes 4 z)) at 1; by rewrite length_le_split, le_combine_split).
    rewrite (Hs (Z.lor (u32 _) 1)), (Hs (Z.lor (trb_control t) 1)). f_equal. rewrite !Hu.
    rewrite !Z.land_lor_distr_l. rewrite <-Z.land_assoc, Z.land_diag. done. }
  apply map_eq. intros x. rewrite !lookup_mem_write, !length_trb, length_le_split.
  repeat case_bool_decide; try lia; try done.
  - unfold trb_bytes. cbn [with_cycle trb_parameter trb_status trb_command trb_control]. rewrite !(assoc_L (++)). rewrite lookup_app_r by (rewrite !length_app, !length_le_split; lia).
    rewrite !length_app, !length_le_split. f_equal. lia.
  - unfold trb_bytes. cbn [with_cycle trb_parameter trb_status trb_command trb_control].
    rewrite !(assoc_L (++)). apply lookup_same_front. rewrite !length_app, !length_le_split. lia.
Qed.

Section xhci_theorems.
  Context {A D I : Type} `{!AllocOps A} `{!Allocator A} `{!RegIO D} (setup_trb_addr : Z).
  Abbreviation S := (host A D xhci_controller_t I).
  Abbreviation ram_of s := (al_ram (h_heap s)).
  Context (Hwrite : ∀ r v (d : D), ∃ d', reg_write r v d = Done tt d').

(** The ring of commands is in memory and the index inside it. *)
Definition ring_ready (s : S) : Prop :=
  mapped (cmd_ring (h_ctrl s)) 4096 (ram_of s) ∧ 0 ≤ cmd_ring_index (h_ctrl s) < RING_SIZE.

(** What no request changes: the devices counted, the input and the payloads of the heap in use. *)
Definition rest_kept (s s' : S) : Prop :=
  h_input s' = h_input s ∧ device_count s' = device_count s ∧ (∀ L, al_live (h_heap s) L → al_live (h_heap s') L).

(** The doorbell of the ring of commands is rung [n] times and no other register is used. *)
Fixpoint rung (n : nat) (doorbell : Z) : M D unit :=
  match n with O => mret tt | Datatypes.S k => reg_write doorbell 0;; rung k doorbell end.

Lemma xhci_submit_run t s : ring_ready s →
  ∃ s', xhci_submit_command t s = Done tt s' ∧ ring_ready s' ∧
    ram_of s' = mem_write (ring_slot (cmd_ring (h_ctrl s)) (cmd_ring_index (h_ctrl s)) 0) (trb_bytes (with_cycle t)) (ram_of s) ∧
    h_ctrl s' = set_cmd_index ((cmd_ring_index (h_ctrl s) + 1) mod RING_SIZE) (h_ctrl s) ∧ rest_kept s s' ∧
    reg_write (db_regs (h_ctrl s)) 0 (h_hw s) = Done tt (h_hw s').
Proof.
  intros [Hm Hi]. unfold RING_SIZE in Hi.
  set (p := ring_slot (cmd_ring (h_ctrl s)) (cmd_ring_index (h_ctrl s)) 0).
  assert (cmd_ring (h_ctrl s) + SIZEOF_TRB * cmd_ring_index (h_ctrl s) = p) as Hp.
  { unfold p, ring_slot, RING_SIZE. by rewrite Z.add_0_r, Z.mod_small. }
  pose proof (slot_range (cmd_ring (h_ctrl s)) (cmd_ring_index (h_ctrl s)) 0) as Hr. fold p in Hr.
  assert (mapped p 16 (ram_of s)) as Hmp by (eapply mapped_sub; [done|lia|lia]).
  unfold xhci_submit_command, xhci_get_next_trb, with_xhci, get, set_ctrl, modify. mred. rewrite Hp.
  unfold on_ram at 1, on_heap at 1, zoom. cbn [h_heap h_ctrl].
  rewrite store_bytes_run by (rewrite ?length_trb; (done || apply trb_are_bytes)). cbn [h_heap h_hw h_ctrl device_count h_input].
  set (m1 := mem_write p (trb_bytes t) (ram_of s)).
  assert (bytes_at (p + 12) (le_split 4 (trb_control t)) m1) as Hc.
  { pose proof (bytes_at_write p (trb_bytes t) (ram_of s)) as H. unfold trb_bytes in H at 1. rewrite !(assoc_L (++)) in H.
    apply bytes_at_app in H as [_ H]. exact H. }
  unfold ld, on_ram at 1, on_heap at 1, zoom, load_le. cbn [h_heap]. rewrite al_ram_set. mred.
  pose proof (load_bytes_run (p + 12) (le_split 4 (trb_control t)) m1 Hc) as El. rewrite length_le_split in El. rewrite El. cbn [h_heap h_hw h_ctrl device_count h_input].
  rewrite le_combine_split. change ((trb_control t) mod 2 ^ (8 * Z.of_nat 4)) with (u32 (trb_control t)).
  unfold st, on_ram, on_heap, zoom, store_le. cbn [h_heap]. rewrite !al_ram_set.
  rewrite (store_bytes_run (p + 12)).
  2: { rewrite length_le_split. eapply mapped_sub; [by apply mapped_write|lia|lia]. }
  2: { apply le_split_bytes. }
  unfold xhci_ring_doorbell, get, xhci_write32, on_hw, zoom. mred. cbn [h_heap h_hw h_ctrl device_count h_input].
  cbn [set_cmd_index db_regs]. rewrite Z.mul_0_r, Z.add_0_r.
  destruct (Hwrite (db_regs (h_ctrl s)) 0 (h_hw s)) as [d' Ed]. rewrite Ed.
  eexists. split; [reflexivity|]. unfold m1. rewrite write_cycle. unfold ring_ready, rest_kept. cbn [h_heap h_hw h_ctrl device_count h_input].
  rewrite !al_ram_set.
  assert (u32 (cmd_ring_index (h_ctrl s) + 1) mod RING_SIZE = (cmd_ring_index (h_ctrl s) + 1) mod RING_SIZE) as ->.
  { unfold u32. by rewrite (Z.mod_small _ (2 ^ 32)) by lia. }
  split; [split; [by apply mapped_write|apply Z.mod_pos_bound; done]|]. split; [done|]. split; [done|].
  split; [|done]. split; [done|]. split; [done|]. intros L HL.
  apply live_set_ram; [apply live_set_ram; [apply live_set_ram|]|]; [done|intros x Hx..]; rewrite ?al_ram_set in Hx.
  - by apply is_Some_write.
  - done.
  - rewrite <-write_cycle. by apply is_Some_write.
Qed.

(** Requests one after the other: what is posted stays. *)
Fixpoint submit_all (l : list xhci_trb_t) : M S unit :=
  match l with [] => mret tt | t :: l' => xhci_submit_command t;; submit_all l' end.

Lemma submit_all_run l s : ring_ready s → (length l < 256)%nat →
  let ring := cmd_ring (h_ctrl s) in let i := cmd_ring_index (h_ctrl s) in
  ∃ s', submit_all l s = Done tt s' ∧ ring_ready s' ∧ posted ring i l (ram_of s') ∧
    h_ctrl s' = set_cmd_index ((i + Z.of_nat (length l)) mod RING_SIZE) (h_ctrl s) ∧ rest_kept s s' ∧
    rung (length l) (db_regs (h_ctrl s)) (h_hw s) = Done tt (h_hw s') ∧
    (∀ x, (∀ k, 0 ≤ k < Z.of_nat (length l) → ¬ (ring_slot ring i k ≤ x < ring_slot ring i k + 16)) → ram_of s' !! x = ram_of s !! x).
Proof.
  revert s. induction l as [|t l IH]; intros s Hs Hl ring i.
  - exists s. split; [done|]. split; [done|]. split; [by intros k t Hk|]. split; [|done].
    destruct Hs as [_ Hi]. cbn [length]. change (Z.of_nat 0) with 0. rewrite Z.add_0_r, Z.mod_small by done.
    destruct s as [? ? c ? ?]. by destruct c.
  - destruct (xhci_submit_run t s Hs) as (s1 & E1 & Hs1 & Hr1 & Hc1 & (Hi1 & Hn1 & HL1) & Hd1). cbn [length] in Hl.
    destruct (IH s1 Hs1 ltac:(lia)) as (s2 & E2 & Hs2 & Hp2 & Hc2 & (Hi2 & Hn2 & HL2) & Hd2 & Ho2).
    rewrite Hc1 in *. cbn [cmd_ring cmd_ring_index db_regs set_cmd_index] in *. fold ring i in Hp2, Hc2, Ho2, Hr1, Hc1 |- *.
    assert (∀ k, ring_slot ring ((i + 1) mod RING_SIZE) k = ring_slot ring i (k + 1)) as Hshift.
    { intros k. unfold ring_slot. rewrite Zplus_mod_idemp_l. do 3 f_equal. lia. }
    exists s2. cbn [submit_all]. mred. rewrite E1. split; [done|]. split; [done|].
    split; [|split; [|split; [|split; [cbn [length rung]; mred; by rewrite Hd1|]]]].
    + intros [|k] t' Ht'; cbn [lookup list_lookup] in Ht'.
      * injection Ht' as <-. intros j b Hj. pose proof (lookup_lt_Some _ _ _ Hj) as Hlt. rewrite length_trb in Hlt.
        change (Z.of_nat 0) with 0. rewrite Ho2.
        -- rewrite Hr1. by apply lookup_mem_write_in.
        -- intros k Hk. rewrite Hshift. pose proof (slots_apart ring i 0 (k + 1)). lia.
      * specialize (Hp2 k t' Ht'). rewrite Hshift in Hp2. by replace (Z.of_nat (Datatypes.S k)) with (Z.of_nat k + 1) by lia.
    + rewrite Hc2. unfold set_cmd_index. cbn. rewrite Zplus_mod_idemp_l. do 2 f_equal. lia.
    + split; [by rewrite Hi2|]. split; [by rewrite Hn2|]. auto.
    + intros x Hx. rewrite Ho2.
      * rewrite Hr1. apply lookup_mem_write_out. rewrite length_trb. apply (Hx 0). cbn [length]. lia.
      * intros k Hk. rewrite Hshift. apply Hx. cbn [length]. lia.
Qed.

(** The requests of a control transfer, as the driver builds them. *)
Definition transfer_trbs (bm br wv wi wl data : Z) : list xhci_trb_t :=
  setup_trb setup_trb_addr bm br wv wi wl :: (if 0 <? wl then [data_trb bm wl data] else []) ++ [status_trb bm].

(** What the ring holds after a transfer, word by word: four words of 32 bits for each request.
    The control word of a setup stage is 3, of a data stage 3 and of a status stage 5, with bit 16
    set in the data stage towards the device and in the status stage of a transfer towards the
    host; requests towards the host are those from 128 on. *)
Definition transfer_words (bm br wv wi wl data : Z) : list (list Z) :=
  [setup_trb_addr; 2 ^ 24 * bm + 2 ^ 16 * br + wv; 2 ^ 16 * wi + wl; 3] ::
  (if decide (wl = 0) then [] else [[data; wl; 0; if decide (128 ≤ bm) then 3 else 2 ^ 16 + 3]]) ++
  [[0; 0; 0; if decide (128 ≤ bm) then 2 ^ 16 + 5 else 5]].
Definition words_posted (ring i : Z) (l : list (list Z)) (m : mem) : Prop :=
  ∀ k ws, l !! k = Some ws → bytes_at (ring_slot ring i (Z.of_nat k)) (concat (map (le_split 4) ws)) m.

Lemma setup_word a b c : 0 ≤ b < 256 → 0 ≤ c < 2 ^ 16 → Z.lor (Z.lor (Z.shiftl a 24) (Z.shiftl b 16)) c = 2 ^ 24 * a + 2 ^ 16 * b + c.
Proof.
  intros Hb Hc. rewrite <-Z.lor_assoc, (Z.lor_comm (Z.shiftl b 16)), (lor_shiftl_add c b 16) by lia.
  rewrite Z.lor_comm, (lor_shiftl_add _ a 24) by lia. lia.
Qed.

Lemma to_host bm : 0 ≤ bm < 256 → truthy (Z.land bm 0x80) = bool_decide (128 ≤ bm).
Proof.
  intros H. apply eqb_true_iff. revert bm H.
  apply (byte_ind (λ bm, eqb (truthy (Z.land bm 0x80)) (bool_decide (128 ≤ bm)))). by vm_compute.
Qed.

Lemma le_split_u32 z : le_split 4 (u32 z) = le_split 4 z.
Proof.
  pose proof (le_split_combine (le_split 4 z) (le_split_bytes 4 z)) as H. by rewrite length_le_split, le_combine_split in H.
Qed.

(** The requests of the driver are these words. *)
Lemma transfer_bytes bm br wv wi wl data :
  0 ≤ bm < 256 → 0 ≤ br < 256 → 0 ≤ wv < 2 ^ 16 → 0 ≤ wi < 2 ^ 16 → 0 ≤ wl < 2 ^ 16 →
  map (λ t, trb_bytes (with_cycle t)) (transfer_trbs bm br wv wi wl data) =
  map (λ ws, concat (map (le_split 4) ws)) (transfer_words bm br wv wi wl data).
Proof.
  intros Hbm Hbr Hwv Hwi Hwl. unfold transfer_trbs, transfer_words, setup_trb, data_trb, status_trb.
  rewrite setup_word, to_host, (Z.lor_comm (Z.shiftl wi 16)), (lor_shiftl_add wl wi 16), (Z.add_comm wl) by lia.
  assert ((0 <? wl) = negb (bool_decide (wl = 0))) as ->.
  { case_bool_decide; cbn [negb]; [by subst|]. apply Z.ltb_lt. lia. }
  unfold trb_bytes, with_cycle.
  do 2 case_bool_decide; repeat case_decide; try lia;
    cbn [map negb app concat trb_parameter trb_status trb_command trb_control]; rewrite ?le_split_u32, ?app_nil_r; reflexivity.
Qed.

Lemma posted_words ring i (l : list xhci_trb_t) ws m :
  map (λ t, trb_bytes (with_cycle t)) l = map (λ ws, concat (map (le_split 4) ws)) ws →
  posted ring i l m → words_posted ring i ws m.
Proof.
  intros E Hp k w Hw. pose proof (f_equal (lookup k) E) as H. rewrite !list_lookup_fmap, Hw in H.
  destruct (l !! k) as [t|] eqn:Et; [|done]. apply (inj Some) in H. rewrite <-H. by apply Hp.
Qed.

Lemma transfer_submits slot ep bm br wv wi wl data s s' :
  submit_all (transfer_trbs bm br wv wi wl data) s = Done tt s' →
  xhci_control_transfer setup_trb_addr slot ep bm br wv wi wl data s = Done 0 s'.
Proof.
  intros E. unfold xhci_control_transfer. unfold transfer_trbs in E. destruct (0 <? wl); cbn [app submit_all] in E; cbn [whenM].
  - unfold mbind, M_bind in *. destruct (xhci_submit_command _ s) as [[] s1|]; [|done]. destruct (xhci_submit_command _ s1) as [[] s2|]; [|done].
    destruct (xhci_submit_command _ s2) as [[] s3|]; [|done]. by injection E as <-.
  - unfold mbind, M_bind in *. destruct (xhci_submit_command _ s) as [[] s1|]; [|done]. unfold mret at 1, M_ret at 1.
    destruct (xhci_submit_command _ s1) as [[] s2|]; [|done]. by injection E as <-.
Qed.

(** ** The properties *)

(** C36: A control transfer puts the words of its setup stage, of its data stage when data are asked
    for and of its status stage into the places of the ring that are next, in this order and across
    the end of the ring too: the address, the five fields of the request in two words, the buffer
    and the length, and the direction and stage of each control word.  The index advances by as
    many; the doorbell is rung once for each and no other register is written; no byte outside these
    places changes, and nothing else of the controller's state, of the input or of the heap in use.
    The words are those the code means to post; where the specification of the controller has
    others is among the findings. *)
Theorem xhci_control_transfer_posts slot ep bm br wv wi wl data (s : S) : ring_ready s →
  0 ≤ bm < 256 → 0 ≤ br < 256 → 0 ≤ wv < 2 ^ 16 → 0 ≤ wi < 2 ^ 16 → 0 ≤ wl < 2 ^ 16 →
  let ring := cmd_ring (h_ctrl s) in let i := cmd_ring_index (h_ctrl s) in
  let l := transfer_words bm br wv wi wl data in
  ∃ s', xhci_control_transfer setup_trb_addr slot ep bm br wv wi wl data s = Done 0 s' ∧ ring_ready s' ∧
    words_posted ring i l (ram_of s') ∧ h_ctrl s' = set_cmd_index ((i + Z.of_nat (length l)) mod 256) (h_ctrl s) ∧
    rung (length l) (db_regs (h_ctrl s)) (h_hw s) = Done tt (h_hw s') ∧ rest_kept s s' ∧
    (∀ x, (∀ k, 0 ≤ k < Z.of_nat (length l) → ¬ (ring_slot ring i k ≤ x < ring_slot ring i k + 16)) → ram_of s' !! x = ram_of s !! x).
Proof.
  intros Hs Hbm Hbr Hwv Hwi Hwl ring i l. pose proof (transfer_bytes bm br wv wi wl data Hbm Hbr Hwv Hwi Hwl) as Eb.
  assert (length l = length (transfer_trbs bm br wv wi wl data)) as El.
  { unfold l. by rewrite <-(length_map (λ ws, concat (map (le_split 4) ws))), <-Eb, length_map. }
  destruct (submit_all_run (transfer_trbs bm br wv wi wl data) s Hs) as (s' & E & Hs' & Hp & Hc & Hr & Hd & Ho).
  { rewrite <-El. unfold l, transfer_words. case_decide; cbn; lia. }
  rewrite <-El in *. exists s'. split; [by apply transfer_submits|]. split; [done|].
  split; [by eapply posted_words|]. done.
Qed.
End xhci_theorems.

(** ** An example *)

#[local] Instance counting_registers : RegIO (list (Z * Z)) :=
  {| reg_read _ := mret 0; reg_write r v := modify (λ w, w ++ [(r, v)]) |}.
Definition demo_xhci : host kernel_memory (list (Z * Z)) xhci_controller_t unit :=
  mk_host (al_set_ram (demo_ram 4096 4096) demo_used) [] (mk_xhci 0 0 4096 254 0 0 0 8 4 32 1 0 0 0 0x9000 1) 0 tt.

(** Reading a descriptor with two places left before the end of the ring: the status is at its start,
    and the doorbell has been rung three times. *)
Lemma xhci_control_transfer_posts_witness :
  let l := [[0x7000; 0x80060100; 18; 3]; [0x5000; 18; 0; 3]; [0; 0; 0; 0x10005]] in
  ∃ s', xhci_control_transfer 0x7000 1 0 0x80 6 0x100 0 18 0x5000 demo_xhci = Done 0 s' ∧ ring_ready s' ∧
    words_posted 4096 254 l (al_ram (h_heap s')) ∧ h_ctrl s' = set_cmd_index 1 (h_ctrl demo_xhci) ∧
    rung 3 0x9000 [] = Done tt (h_hw s') ∧ rest_kept demo_xhci s' ∧
    (∀ x, (∀ k, 0 ≤ k < 3 → ¬ (ring_slot 4096 254 k ≤ x < ring_slot 4096 254 k + 16)) →
      al_ram (h_heap s') !! x = al_ram (h_heap demo_xhci) !! x).
Proof.
  apply (xhci_control_transfer_posts 0x7000 ltac:(intros; eexists; reflexivity) 1 0 0x80 6 0x100 0 18 0x5000 demo_xhci); [|lia..].
  split; [apply demo_ram_mapped|cbn; unfold RING_SIZE; lia].
Defined.
