(* ===== verification/Bitmaps.v ===== *)
(** * Pictures from files, [core/gui/gui.c] and [core/drivers/ps2/mouse/mouse.c]

    The two loaders of bitmaps, for the desktop and for the pointer.  Files are the interface
    [Files], memory comes from the allocator; the pixels of a picture are kept with it.
    Messages are left out. *)

From Stdlib Require Import ZArith Lia String.
From stdpp Require Import base gmap list numbers.
From S2P Require Import Prelude Memory Alloc Desktop Window.
Open Scope Z_scope.
Set Default Goal Selector "!".

(** The members of the two headers that are read: the file's are 14 bytes, the picture's 40. *)
Definition SIZEOF_BMP_FILE_HEADER : Z := 14.
Definition SIZEOF_BMP_INFO_HEADER : Z := 40.
Definition SIZEOF_BMP_IMAGE : Z := 16.
Definition BMP_TYPE : Z := 0x4D42.
Record bmp_file_header_t := mk_file_header { bf_type : Z; bf_offset : Z }.
Record bmp_info_header_t := mk_info_header { bi_width : Z; bi_height : Z; bi_bpp : Z }.
Definition file_header_of (bs : list Z) : option bmp_file_header_t :=
  t ← field 2 0 bs; o ← field 4 10 bs; Some (mk_file_header t o).
Definition info_header_of (bs : list Z) : option bmp_info_header_t :=
  w ← field 4 4 bs; h ← field 4 8 bs; b ← field 2 14 bs; Some (mk_info_header (i32 w) (i32 h) b).

(** [bmp_image_t] and [cursor_image_t]: where the structure and its pixels are, and the pixels. *)
Record bmp_image_t := mk_image { im_addr : Z; im_pixels_addr : Z; im_width : Z; im_height : Z; im_pixels : list Z }.

(** An array of 32-bit words from its bytes. *)
Fixpoint words_of (bs : list Z) : list Z :=
  match bs with
  | a :: b :: c :: d :: bs' => le_combine [a; b; c; d] :: words_of bs'
  | _ => []
  end.
(** The four channels of a pixel, taken apart and put together again. *)
Definition rgba (p : Z) : Z :=
  let b := Z.land (Z.shiftr p 0) 0xFF in
  let g := Z.land (Z.shiftr p 8) 0xFF in
  let r := Z.land (Z.shiftr p 16) 0xFF in
  let a := Z.land (Z.shiftr p 24) 0xFF in
  u32 (Z.lor (Z.lor (Z.lor (Z.shiftl a 24) (Z.shiftl r 16)) (Z.shiftl g 8)) b).
(** The rows of the file from the last to the first. *)
Definition upright_row (px : list Z) (width height y : Z) : option (list Z) :=
  mapM (λ x, rgba <$> px !! Z.to_nat ((height - 1 - y) * width + x)) (seqZ 0 width).
Definition upright (px : list Z) (width height : Z) : option (list Z) :=
  (λ rows, concat rows) <$> mapM (upright_row px width height) (seqZ 0 height).

Section loaders.
  Context {W : Type} `{!Files W} `{!AllocOps W} (fs_kernel_memory : Z).

Definition kalloc (size count : Z) : M W Z := al_alloc fs_kernel_memory size count.
Definition kfree (p : Z) : M W unit := al_free fs_kernel_memory p.
(** [fs_close(fd); return NULL;] *)
Definition close_none (fd : Z) : M W (option bmp_image_t) := f_close fd;; mret None.
(** [while (data_offset > 0)]: what is before the pixels is read and dropped. *)
Definition skip_step (fd data_offset : Z) : M W (Z + unit) :=
  if 0 <? data_offset then
    '(read_bytes, _) ← f_read fd (if 1024 <? data_offset then 1024 else data_offset);
    if read_bytes <=? 0 then mret (inr tt) else mret (inl (u32 (data_offset - read_bytes)))
  else mret (inr tt).
Definition skip_to (fd data_offset : Z) : M W unit := iterM (S (Z.to_nat data_offset)) (skip_step fd) data_offset.
(** The two headers: nothing when the file has none. *)
Definition read_headers (fd : Z) : M W (option (bmp_file_header_t * bmp_info_header_t)) :=
  '(n, bs) ← f_read fd SIZEOF_BMP_FILE_HEADER;
  if negb (n =? SIZEOF_BMP_FILE_HEADER) then mret None else
  fh ← of_option (file_header_of bs);
  if negb (bf_type fh =? BMP_TYPE) then mret None else
  '(n, bs) ← f_read fd SIZEOF_BMP_INFO_HEADER;
  if negb (n =? SIZEOF_BMP_INFO_HEADER) then mret None else
  ih ← of_option (info_header_of bs);
  mret (Some (fh, ih)).

Definition gui_free_bmp (image : option bmp_image_t) : M W unit :=
  match image with
  | None => mret tt
  | Some i => whenM (truthy (im_pixels_addr i)) (kfree (im_pixels_addr i));; kfree (im_addr i)
  end.
(** The pixels, and the picture upright. *)
Definition read_pixels (fd image pixels width height : Z) (undo : M W unit) : M W (option bmp_image_t) :=
  let n := i32 (width * height) in
  if n <? 0 then fault else
  '(read_bytes, bs) ← f_read fd (u64 (u64 width * height * 4));
  f_close fd;;
  if negb (read_bytes =? i64 (u64 width * height * 4)) then undo;; mret None else
  px ← of_option (upright (words_of bs) width height);
  mret (Some (mk_image image pixels width height px)).
Definition gui_load_bmp (path : str) : M W (option bmp_image_t) :=
  fd ← f_open path 0;
  if fd <? 0 then mret None else
  h ← read_headers fd;
  match h with
  | None => close_none fd
  | Some (fh, ih) =>
      if negb (bi_bpp ih =? 32) then close_none fd else
      image ← kalloc SIZEOF_BMP_IMAGE 1;
      if image =? NULL then close_none fd else
      pixels ← kalloc 4 (u64 (i32 (bi_width ih * bi_height ih)));
      if pixels =? NULL then kfree image;; close_none fd else
      skip_to fd (bf_offset fh);;
      read_pixels fd image pixels (bi_width ih) (bi_height ih)
        (gui_free_bmp (Some (mk_image image pixels (bi_width ih) (bi_height ih) [])))
  end.

(** The loader of the pointer, which opens the file again before it skips to the pixels. *)
Definition load_cursor_bmp (path : str) : M W (option bmp_image_t) :=
  fd ← f_open path 0;
  if fd <? 0 then mret None else
  h ← read_headers fd;
  match h with
  | None => close_none fd
  | Some (fh, ih) =>
      if negb (bi_width ih =? 16) || negb (bi_height ih =? 16) || negb (bi_bpp ih =? 32) then close_none fd else
      cursor ← kalloc SIZEOF_BMP_IMAGE 1;
      if cursor =? NULL then close_none fd else
      pixels ← kalloc 4 (16 * 16);
      if pixels =? NULL then kfree cursor;; close_none fd else
      f_close fd;;
      fd ← f_open path 0;
      if fd <? 0 then mret None else
      skip_to fd (bf_offset fh);;
      read_pixels fd cursor pixels 16 16 (kfree pixels;; kfree cursor)
  end.
End loaders.

(** ** The pictures of the desktop and of the pointer *)

Inductive pointer_image := EmbeddedCursor | LoadedCursor (i : bmp_image_t).
Record pictures (W : Type) := mk_pictures {
  wallpaper : option bmp_image_t;
  gui_cursor_image : option bmp_image_t;
  gui_needs_redraw : Z;
  mouse_cursor_image : option pointer_image;
  background_color : Z;
  gui_cursor_visible : Z;
  pi_world : W;
}.
Arguments mk_pictures {W}.
Arguments wallpaper {W}.
Arguments gui_cursor_image {W}.
Arguments gui_needs_redraw {W}.
Arguments mouse_cursor_image {W}.
Arguments background_color {W}.
Arguments gui_cursor_visible {W}.
Arguments pi_world {W}.

Section pictures.
  Context {W : Type} `{!Files W} `{!AllocOps W} (fs_kernel_memory : Z).
  Abbreviation S := (pictures W).

Definition pi_on {B} (m : M W B) : M S B :=
  zoom pi_world (λ w s, mk_pictures (wallpaper s) (gui_cursor_image s) (gui_needs_redraw s) (mouse_cursor_image s) (background_color s) (gui_cursor_visible s) w) m.
Definition gui_set_background_color (color : Z) : M S unit :=
  modify (λ s, mk_pictures (wallpaper s) (gui_cursor_image s) (match wallpaper s with None => 1 | Some _ => gui_needs_redraw s end)
    (mouse_cursor_image s) color (gui_cursor_visible s) (pi_world s)).
Definition gui_set_cursor_visible (visible : Z) : M S unit :=
  modify (λ s, mk_pictures (wallpaper s) (gui_cursor_image s) 1 (mouse_cursor_image s) (background_color s) visible (pi_world s)).
Definition gui_load_wallpaper (path : str) : M S Z :=
  image ← pi_on (gui_load_bmp fs_kernel_memory path);
  match image with
  | None => mret 0
  | Some i =>
      s ← get;
      pi_on (gui_free_bmp fs_kernel_memory (wallpaper s));;
      modify (λ s, mk_pictures (Some i) (gui_cursor_image s) 1 (mouse_cursor_image s) (background_color s) (gui_cursor_visible s) (pi_world s));;
      mret 1
  end.
Definition gui_load_cursor (path : str) : M S Z :=
  image ← pi_on (gui_load_bmp fs_kernel_memory path);
  match image with
  | None => mret 0
  | Some i =>
      s ← get;
      pi_on (gui_free_bmp fs_kernel_memory (gui_cursor_image s));;
      modify (λ s, mk_pictures (wallpaper s) (Some i) 1 (mouse_cursor_image s) (background_color s) (gui_cursor_visible s) (pi_world s));;
      mret 1
  end.
(** The lines of [gui_init] about pictures. *)
Definition gui_init_pictures : M S Z :=
  modify (λ s, mk_pictures None None (gui_needs_redraw s) (mouse_cursor_image s) DESKTOP_COLOR 1 (pi_world s));;
  modify (λ s, mk_pictures (wallpaper s) (gui_cursor_image s) 1 (mouse_cursor_image s) (background_color s) (gui_cursor_visible s) (pi_world s));;
  gui_load_wallpaper (chars "/boot/wallpaper.bmp").
Definition load_cursor_from_file (path : str) : M S (option bmp_image_t) :=
  cursor ← pi_on (load_cursor_bmp fs_kernel_memory path);
  match cursor with
  | None => mret None
  | Some i =>
      s ← get;
      match mouse_cursor_image s with
      | Some (LoadedCursor old) => pi_on (gui_free_bmp fs_kernel_memory (Some old))
      | _ => mret tt
      end;;
      modify (λ s, mk_pictures (wallpaper s) (gui_cursor_image s) (gui_needs_redraw s) (Some (LoadedCursor i)) (background_color s) (gui_cursor_visible s) (pi_world s));;
      mret (Some i)
  end.
End pictures.

(** ** Files that hold a bitmap *)

(** What is before the pixels: the headers with the members that are not read, and the bytes
    up to the offset the header gives; then the rows, the last one first; then anything. *)
Record bmp_file := mk_bmp_file {
  bm_width : Z; bm_height : Z; bm_reserved : list Z; bm_planes : list Z; bm_info : list Z; bm_filler : list Z;
  bm_pixels : list (list Z); bm_rest : list Z }.
Definition bm_offset (f : bmp_file) : Z := 54 + Z.of_nat (length (bm_filler f)).
Definition pixel_bytes (px : list Z) : list Z := px ≫= le_split 4.
Definition bmp_bytes (f : bmp_file) : list Z :=
  (le_split 2 BMP_TYPE ++ bm_reserved f ++ le_split 4 (bm_offset f)) ++
  (le_split 4 40 ++ le_split 4 (bm_width f) ++ le_split 4 (bm_height f) ++ bm_planes f ++ le_split 2 32 ++ bm_info f) ++
  bm_filler f ++ pixel_bytes (concat (reverse (bm_pixels f))) ++ bm_rest f.
Definition bmp_ok (f : bmp_file) : Prop :=
  length (bm_reserved f) = 8%nat ∧ length (bm_planes f) = 2%nat ∧ length (bm_info f) = 24%nat ∧
  0 ≤ bm_width f < 2 ^ 15 ∧ 0 ≤ bm_height f < 2 ^ 15 ∧ bm_offset f < 2 ^ 32 ∧
  Z.of_nat (length (bm_pixels f)) = bm_height f ∧
  Forall (λ r, Z.of_nat (length r) = bm_width f ∧ Forall (λ p, 0 ≤ p < 2 ^ 32) r) (bm_pixels f).

(** What is relied on of the files: an open file is read from its position on, as far as it goes. *)
Class FullReads (W : Type) `{!Files W} := {
  fr_file : W → str → option str;
  fr_pos : W → Z → option (str * nat);
  fr_open : ∀ p c w, fr_file w p = Some c →
    ∃ fd w', f_open p 0 w = Done fd w' ∧ 0 ≤ fd ∧ fr_pos w' fd = Some (p, 0%nat) ∧ fr_file w' = fr_file w;
  fr_read : ∀ fd n p i c w, fr_pos w fd = Some (p, i) → fr_file w p = Some c → 0 < n → (i ≤ length c)%nat →
    ∃ w', f_read fd n w = Done (Z.of_nat (length (take (Z.to_nat n) (drop i c))), take (Z.to_nat n) (drop i c)) w' ∧
      fr_pos w' fd = Some (p, (i + length (take (Z.to_nat n) (drop i c)))%nat) ∧ fr_file w' = fr_file w;
  fr_close : ∀ fd w, ∃ r w', f_close fd w = Done r w' ∧ fr_file w' = fr_file w;
}.

Lemma length_pixel_bytes px : length (pixel_bytes px) = (4 * length px)%nat.
Proof. unfold pixel_bytes. induction px as [|p px IH]; [done|]. cbn [mbind list_bind length]. rewrite length_app, IH, length_le_split. lia. Qed.

Lemma words_of_pixels px : Forall (λ p, 0 ≤ p < 2 ^ 32) px → words_of (pixel_bytes px) = px.
Proof.
  unfold pixel_bytes. induction 1 as [|p px Hp _ IH]; [done|]. cbn [mbind list_bind].
  assert (∃ a b c d, le_split 4 p = [a; b; c; d]) as (a & b & c & d & E) by (do 4 eexists; reflexivity).
  pose proof (le_combine_split 4 p) as Hc. rewrite E in *. cbn [app words_of]. rewrite Hc, IH.
  f_equal. apply Z.mod_small. change (8 * Z.of_nat 4) with 32. done.
Qed.

Lemma rgba_id p : 0 ≤ p < 2 ^ 32 → rgba p = p.
Proof.
  intros Hp. unfold rgba. change 0xFF with (Z.ones 8). rewrite !Z.land_ones, !Z.shiftr_div_pow2, !Z.shiftl_mul_pow2 by lia.
  apply Z.bits_inj'. intros n Hn. unfold u32. destruct (Z.lt_ge_cases n 32) as [H|H].
  - rewrite Z.mod_pow2_bits_low by done. rewrite !Z.lor_spec, !Z.mul_pow2_bits by done.
    rewrite !(Z.testbit_mod_pow2 _ 8) by lia.
    assert (∀ k, 0 ≤ k → k ≤ n → Z.testbit (p / 2 ^ k) (n - k) = Z.testbit p n) as Hd.
    { intros k Hk Hkn. rewrite Z.div_pow2_bits by lia. f_equal. lia. }
    destruct (Z.lt_ge_cases n 8); [|destruct (Z.lt_ge_cases n 16); [|destruct (Z.lt_ge_cases n 24)]].
    + replace (n - 24 <? 8) with true by lia. rewrite !(Z.testbit_neg_r _ (n - _)) by lia. rewrite Z.div_1_r. replace (n <? 8) with true by lia. by rewrite !andb_false_r.
    + replace (n <? 8) with false by lia. replace (n - 8 <? 8) with true by lia. rewrite !(Z.testbit_neg_r _ (n - 16)), !(Z.testbit_neg_r _ (n - 24)) by lia.
      rewrite Hd by lia. by rewrite !andb_false_r, orb_false_r.
    + replace (n <? 8) with false by lia. replace (n - 8 <? 8) with false by lia. replace (n - 16 <? 8) with true by lia.
      rewrite !(Z.testbit_neg_r _ (n - 24)) by lia. rewrite Hd by lia. cbn. by rewrite andb_false_r, !orb_false_r.
    + replace (n <? 8) with false by lia. replace (n - 8 <? 8) with false by lia. replace (n - 16 <? 8) with false by lia.
      replace (n - 24 <? 8) with true by lia. rewrite Hd by lia. cbn. by rewrite !orb_false_r.
  - rewrite Z.mod_pow2_bits_high by lia. symmetry. apply Z.bits_above_log2; [lia|].
    destruct (decide (p = 0)) as [->|]; [cbn; lia|]. apply Z.log2_lt_pow2; [lia|].
    eapply Z.lt_le_trans; [apply Hp|]. apply Z.pow_le_mono_r; lia.
Qed.

Lemma concat_uniform {B} (w : nat) (L : list (list B)) k x : Forall (λ r, length r = w) L → (x < w)%nat →
  concat L !! (k * w + x)%nat = L !! k ≫= λ r, r !! x.
Proof.
  intros HL Hx. revert k. induction HL as [|r L Hr _ IH]; intros k; [done|]. cbn [concat]. destruct k as [|k].
  - rewrite lookup_app_l by lia. done.
  - rewrite lookup_app_r by lia. rewrite Hr. replace (S k * w + x - w)%nat with (k * w + x)%nat by lia. apply IH.
Qed.

(** Collecting what a function gives for every number. *)
Lemma mapM_seqZ {B} (f : Z → option B) (l : list B) n : Z.of_nat (length l) = n →
  (∀ (i : nat) b, l !! i = Some b → f (Z.of_nat i) = Some b) → mapM f (seqZ 0 n) = Some l.
Proof.
  intros Hn Hf. apply mapM_Some. apply Forall2_same_length_lookup. split; [rewrite length_seqZ; lia|].
  intros i z b Hz Hb. apply lookup_seqZ in Hz as [-> _]. rewrite Z.add_0_l. by apply Hf.
Qed.

Lemma upright_rows rows width height :
  Z.of_nat (length rows) = height → Forall (λ r, Z.of_nat (length r) = width ∧ Forall (λ p, 0 ≤ p < 2 ^ 32) r) rows →
  upright (concat (reverse rows)) width height = Some (concat rows).
Proof.
  intros Hh Hr. assert (Forall (λ r, length r = Z.to_nat width) (reverse rows)) as Hrev.
  { apply Forall_reverse. eapply Forall_impl; [|exact Hr]. intros r [H _]. lia. }
  unfold upright. erewrite mapM_seqZ; [done|done|]. intros y r Hy. pose proof (lookup_lt_Some _ _ _ Hy) as Hlt.
  rewrite Forall_lookup in Hr. destruct (Hr y r Hy) as [Hw Hp]. apply mapM_seqZ; [done|].
  intros x p Hx. pose proof (lookup_lt_Some _ _ _ Hx) as Hltx.
  replace (Z.to_nat ((height - 1 - Z.of_nat y) * width + Z.of_nat x)) with ((length rows - S y) * Z.to_nat width + x)%nat by nia.
  rewrite concat_uniform by (done || lia). rewrite reverse_lookup by lia.
  replace (length rows - S (length rows - S y))%nat with y by lia. rewrite Hy. cbn. rewrite Hx. cbn. f_equal.
  rewrite Forall_lookup in Hp. apply rgba_id. by eapply Hp.
Qed.

(** A member of a header, by what is before it. *)
Lemma field_app n (xs ys zs : list Z) off : length xs = off → length ys = n → field n off (xs ++ ys ++ zs) = Some (le_combine ys).
Proof.
  intros <- <-. unfold field. rewrite (proj2 (Nat.leb_le _ _)) by (rewrite !length_app; lia). by rewrite drop_app_length, take_app_length.
Qed.

Definition file_header_bytes (f : bmp_file) : list Z := le_split 2 BMP_TYPE ++ bm_reserved f ++ le_split 4 (bm_offset f).
Definition info_header_bytes (f : bmp_file) : list Z :=
  le_split 4 40 ++ le_split 4 (bm_width f) ++ le_split 4 (bm_height f) ++ bm_planes f ++ le_split 2 32 ++ bm_info f.

Lemma file_header_read f : bmp_ok f → length (file_header_bytes f) = 14%nat ∧
  file_header_of (file_header_bytes f) = Some (mk_file_header BMP_TYPE (bm_offset f)).
Proof.
  intros (H1 & _ & _ & _ & _ & Ho & _). unfold file_header_bytes. split; [rewrite !length_app, !length_le_split, H1; done|].
  unfold file_header_of. pose proof (field_app 2 [] (le_split 2 BMP_TYPE) (bm_reserved f ++ le_split 4 (bm_offset f)) 0 eq_refl eq_refl) as E1.
  cbn [app] in E1. rewrite E1. cbn [mbind option_bind].
  pose proof (field_app 4 (le_split 2 BMP_TYPE ++ bm_reserved f) (le_split 4 (bm_offset f)) [] 10) as E2.
  rewrite app_nil_r, <-app_assoc in E2. rewrite E2 by (try done; rewrite length_app, length_le_split, H1; done). cbn [mbind option_bind].
  rewrite !le_combine_split. f_equal. f_equal. change (8 * Z.of_nat 4) with 32. apply Z.mod_small. unfold bm_offset in *. lia.
Qed.

Lemma info_header_read f : bmp_ok f → length (info_header_bytes f) = 40%nat ∧
  info_header_of (info_header_bytes f) = Some (mk_info_header (bm_width f) (bm_height f) 32).
Proof.
  intros (_ & H2 & H3 & Hw & Hh & _). unfold info_header_bytes. split; [rewrite !length_app, !length_le_split, H2, H3; done|].
  unfold info_header_of. rewrite (field_app 4 (le_split 4 40) (le_split 4 (bm_width f)) _ 4 eq_refl eq_refl). cbn [mbind option_bind].
  pose proof (field_app 4 (le_split 4 40 ++ le_split 4 (bm_width f)) (le_split 4 (bm_height f)) (bm_planes f ++ le_split 2 32 ++ bm_info f) 8) as E2.
  rewrite <-app_assoc in E2. rewrite E2 by done. cbn [mbind option_bind].
  pose proof (field_app 2 (le_split 4 40 ++ le_split 4 (bm_width f) ++ le_split 4 (bm_height f) ++ bm_planes f) (le_split 2 32) (bm_info f) 14) as E3.
  rewrite <-!app_assoc in E3. rewrite E3 by (try done; rewrite !length_app, !length_le_split, H2; done). cbn [mbind option_bind].
  rewrite !le_combine_split. change (8 * Z.of_nat 4) with 32. rewrite !Z.mod_small by lia.
  rewrite !i32_id by lia. done.
Qed.

(** Memory can be had, and having it leaves the files alone. *)
Class Roomy (W : Type) `{!Files W} `{!FullReads W} `{!AllocOps W} (fs_kernel_memory : Z) := {
  ro_alloc : ∀ size count w, ∃ p w', al_alloc fs_kernel_memory size count w = Done p w' ∧ p ≠ NULL ∧
    fr_file w' = fr_file w ∧ fr_pos w' = fr_pos w;
  ro_free : ∀ p w, ∃ w', al_free fs_kernel_memory p w = Done tt w' ∧ fr_file w' = fr_file w;
}.

Section bitmap_theorems.
  Context {W : Type} `{!Files W} `{!FullReads W} `{!AllocOps W} (fs_kernel_memory : Z) `{!Roomy W fs_kernel_memory}.

(** An open file: how far it is read. *)
Definition reading (p : str) (c : list Z) (fd : Z) (i : nat) (w : W) : Prop :=
  fr_pos w fd = Some (p, i) ∧ fr_file w p = Some c ∧ (i ≤ length c)%nat.

Lemma wp_read p c fd i (n : nat) (Q : Z * list Z → W → Prop) w : reading p c fd i w → (0 < n)%nat →
  (∀ w', reading p c fd (i + length (take n (drop i c))) w' → Q (Z.of_nat (length (take n (drop i c))), take n (drop i c)) w') →
  wp (f_read fd (Z.of_nat n)) Q w.
Proof.
  intros (Hp & Hf & Hi) Hn HQ. destruct (fr_read fd (Z.of_nat n) p i c w Hp Hf ltac:(lia) Hi) as (w' & E & Hp' & Hf').
  rewrite Nat2Z.id in *. unfold wp. rewrite E. apply HQ. split; [done|]. rewrite Hf'. split; [done|].
  rewrite length_take, length_drop. lia.
Qed.

(** Skipping goes to the byte it says, when the file is that long. *)
Lemma wp_skip p c fd (n i d : nat) (Q : unit → W → Prop) w : reading p c fd i w → (i + d ≤ length c)%nat → (d < n)%nat → Z.of_nat d < 2 ^ 32 →
  (∀ w', reading p c fd (i + d) w' → Q tt w') → wp (iterM n (skip_step fd) (Z.of_nat d)) Q w.
Proof.
  revert i d w. induction n as [|n IH]; intros i d w Hr Hd Hn Hb HQ; [lia|]. cbn [iterM]. apply wp_bind. unfold skip_step.
  destruct (Z.ltb_spec 0 (Z.of_nat d)) as [Hpos|Hz].
  - set (k := if (1024 <? Z.of_nat d) then 1024%nat else d).
    assert ((if 1024 <? Z.of_nat d then 1024 else Z.of_nat d) = Z.of_nat k) as -> by (unfold k; destruct (Z.ltb_spec 1024 (Z.of_nat d)); lia).
    assert (0 < k ≤ d)%nat as Hk by (unfold k; destruct (Z.ltb_spec 1024 (Z.of_nat d)); lia).
    apply wp_bind. eapply wp_read; [exact Hr|lia|]. intros w1 Hr1. cbv beta iota.
    assert (length (take k (drop i c)) = k) as El by (rewrite length_take, length_drop; lia). rewrite El in *.
    rewrite (proj2 (Z.leb_gt (Z.of_nat k) 0)) by lia. apply wp_ret.
    assert (u32 (Z.of_nat d - Z.of_nat k) = Z.of_nat (d - k)) as -> by (unfold u32; rewrite Z.mod_small; lia).
    apply (IH (i + k)%nat); [done|lia|lia|lia|]. intros w2 Hr2. apply HQ. by replace (i + d)%nat with (i + k + (d - k))%nat by lia.
  - apply wp_ret. cbv beta iota. apply wp_ret. assert (d = 0)%nat as -> by lia. rewrite Nat.add_0_r in HQ. by apply HQ.
Qed.

(** The headers of a bitmap are read whole. *)
Lemma wp_headers p f fd (Q : option (bmp_file_header_t * bmp_info_header_t) → W → Prop) w : bmp_ok f → reading p (bmp_bytes f) fd 0 w →
  (∀ w', reading p (bmp_bytes f) fd 54 w' → Q (Some (mk_file_header BMP_TYPE (bm_offset f), mk_info_header (bm_width f) (bm_height f) 32)) w') →
  wp (read_headers fd) Q w.
Proof.
  intros Hf Hr HQ. destruct (file_header_read f Hf) as [L1 E1]. destruct (info_header_read f Hf) as [L2 E2].
  assert (bmp_bytes f = file_header_bytes f ++ info_header_bytes f ++ (bm_filler f ++ pixel_bytes (concat (reverse (bm_pixels f))) ++ bm_rest f)) as Eb by done.
  unfold read_headers, SIZEOF_BMP_FILE_HEADER, SIZEOF_BMP_INFO_HEADER. apply wp_bind.
  change 14 with (Z.of_nat 14). eapply wp_read; [exact Hr|lia|]. intros w1 Hr1. cbv beta iota.
  assert (take 14 (drop 0 (bmp_bytes f)) = file_header_bytes f) as Et.
  { rewrite drop_0, Eb, <-L1. by rewrite take_app_length. }
  rewrite Et in *. rewrite L1 in *. rewrite Z.eqb_refl. cbn [negb]. apply wp_bind. eapply wp_of_option; [exact E1|]. cbn [bf_type].
  rewrite Z.eqb_refl. cbn [negb]. apply wp_bind. change 40 with (Z.of_nat 40). eapply wp_read; [exact Hr1|lia|]. intros w2 Hr2. cbv beta iota.
  assert (take 40 (drop (0 + 14) (bmp_bytes f)) = info_header_bytes f) as Et2.
  { rewrite Eb, Nat.add_0_l, drop_app_length' by done. by rewrite take_app_length'. }
  rewrite Et2 in *. rewrite L2 in *. rewrite Z.eqb_refl. cbn [negb]. apply wp_bind. eapply wp_of_option; [exact E2|].
  apply wp_ret. apply HQ. exact Hr2.
Qed.

Lemma wp_kalloc p c fd i size count (Q : Z → W → Prop) w : reading p c fd i w →
  (∀ a w', a ≠ NULL → reading p c fd i w' → Q a w') → wp (kalloc fs_kernel_memory size count) Q w.
Proof.
  intros (H1 & H2 & H3) HQ. destruct (ro_alloc size count w) as (a & w' & E & Ha & Hf & Hp). unfold wp, kalloc. rewrite E.
  apply HQ; [done|]. unfold reading. by rewrite Hf, Hp.
Qed.

Lemma wp_reopen p c (Q : Z → W → Prop) w : fr_file w p = Some c → (∀ (fd : Z) w', 0 ≤ fd → reading p c fd 0 w' → Q fd w') → wp (f_open p 0) Q w.
Proof.
  intros Hf HQ. destruct (fr_open p c w Hf) as (fd' & w' & E & Hfd & Hp & Hf'). unfold wp. rewrite E. apply HQ; [done|].
  split; [done|]. rewrite Hf'. split; [done|lia].
Qed.

(** The pixels are where the offset says. *)
Lemma pixels_there f : bmp_ok f →
  take (length (pixel_bytes (concat (reverse (bm_pixels f))))) (drop (Z.to_nat (bm_offset f)) (bmp_bytes f)) = pixel_bytes (concat (reverse (bm_pixels f))) ∧
  (Z.to_nat (bm_offset f) ≤ length (bmp_bytes f))%nat.
Proof.
  intros Hf. destruct (file_header_read f Hf) as [L1 _]. destruct (info_header_read f Hf) as [L2 _].
  assert (bmp_bytes f = (file_header_bytes f ++ info_header_bytes f ++ bm_filler f) ++ pixel_bytes (concat (reverse (bm_pixels f))) ++ bm_rest f) as ->
    by (unfold bmp_bytes, file_header_bytes, info_header_bytes; by rewrite <-!app_assoc).
  assert (Z.to_nat (bm_offset f) = length (file_header_bytes f ++ info_header_bytes f ++ bm_filler f)) as -> by (rewrite !length_app, L1, L2; unfold bm_offset; lia).
  split; [rewrite drop_app_length; apply take_app_length|rewrite !length_app; lia].
Qed.

(** ** The properties *)

(** A pointer saved as a bitmap of 16 by 16 pixels is loaded as it was: when memory can be had, the rows come
    the right way up, every pixel with all of its channels, whatever the headers hold
    besides, and wherever the pixels begin. *)
Theorem load_cursor_bmp_roundtrip (path : str) (f : bmp_file) (w : W) :
  bmp_ok f → bm_width f = 16 → bm_height f = 16 → fr_file w path = Some (bmp_bytes f) →
  wp (load_cursor_bmp fs_kernel_memory path) (λ r w', ∃ a p, r = Some (mk_image a p 16 16 (concat (bm_pixels f)))) w.
Proof.
  intros Hf Hw Hh Hfile. pose proof Hf as (_ & _ & _ & _ & _ & Ho & Hn & Hrows). rewrite Hh in Hn. rewrite Hw in Hrows.
  unfold load_cursor_bmp. apply wp_bind. eapply (wp_reopen path); [exact Hfile|]. intros fd w1 Hfd Hr1. cbv beta.
  rewrite (proj2 (Z.ltb_ge fd 0)) by lia. apply wp_bind. eapply wp_headers; [exact Hf|exact Hr1|]. intros w2 Hr2. cbv beta iota.
  cbn [bi_width bi_height bi_bpp bf_offset]. rewrite Hw, Hh. change (negb (16 =? 16) || negb (16 =? 16) || negb (32 =? 32)) with false. cbv iota.
  apply wp_bind. eapply wp_kalloc; [exact Hr2|]. intros a w3 Ha Hr3. rewrite (proj2 (Z.eqb_neq a NULL)) by done.
  apply wp_bind. eapply wp_kalloc; [exact Hr3|]. intros px w4 Hpx Hr4. rewrite (proj2 (Z.eqb_neq px NULL)) by done.
  apply wp_bind. destruct (fr_close fd w4) as (r & w5 & E5 & Hf5). unfold wp at 1. rewrite E5.
  apply wp_bind. eapply (wp_reopen path); [rewrite Hf5; apply Hr4|]. intros fd2 w6 Hfd2 Hr6. cbv beta. rewrite (proj2 (Z.ltb_ge fd2 0)) by lia.
  destruct (pixels_there f Hf) as [Ep Hl]. apply wp_bind. unfold skip_to.
  replace (bm_offset f) with (Z.of_nat (Z.to_nat (bm_offset f))) by (unfold bm_offset; lia).
  eapply wp_skip; [exact Hr6|lia|lia|unfold bm_offset in *; lia|]. intros w7 Hr7. rewrite Nat.add_0_l in Hr7.
  assert (length (concat (reverse (bm_pixels f))) = 256%nat) as H256.
  { assert (∀ L : list (list Z), Forall (λ r, Z.of_nat (length r) = 16 ∧ Forall (λ p, 0 ≤ p < 2 ^ 32) r) L → length (concat L) = (16 * length L)%nat) as Hc.
    { induction 1 as [|r0 L [Hr0 _] _ IH]; [done|]. cbn [concat length]. rewrite length_app, IH. lia. }
    rewrite Hc by by apply Forall_reverse. rewrite length_reverse. lia. }
  unfold read_pixels. change (i32 (16 * 16) <? 0) with false. cbv iota. change (u64 (u64 16 * 16 * 4)) with (Z.of_nat 1024).
  assert (length (pixel_bytes (concat (reverse (bm_pixels f)))) = 1024%nat) as H1024 by (rewrite length_pixel_bytes, H256; done).
  rewrite H1024 in Ep. apply wp_bind. eapply wp_read; [exact Hr7|lia|]. intros w8 Hr8. cbv beta iota. rewrite Ep, H1024.
  apply wp_bind. destruct (fr_close fd2 w8) as (r2 & w9 & E9 & _). unfold wp at 1. rewrite E9.
  change (negb (Z.of_nat 1024 =? i64 (u64 16 * 16 * 4))) with false. cbv iota.
  rewrite words_of_pixels.
  2: { apply Forall_concat, Forall_reverse. eapply Forall_impl; [|exact Hrows]. by intros r0 []. }
  apply wp_bind. eapply wp_of_option; [by apply (upright_rows (bm_pixels f) 16 16)|]. apply wp_ret. by eexists _, _.
Qed.
End bitmap_theorems.

Section wallpaper.
  Context {W : Type} `{!Files W} `{!FullReads W} `{!AllocOps W} (fs_kernel_memory : Z) `{!Roomy W fs_kernel_memory}.

Lemma length_rows (w : Z) (L : list (list Z)) : Forall (λ r, Z.of_nat (length r) = w ∧ Forall (λ p, 0 ≤ p < 2 ^ 32) r) L →
  Z.of_nat (length (concat L)) = w * Z.of_nat (length L).
Proof. induction 1 as [|r L [Hr _] _ IH]; [cbn; lia|]. cbn [concat length]. rewrite length_app. lia. Qed.

(** The desktop's loader skips to the pixels from behind the headers, not from the start of
    the file: the picture it reads starts 54 bytes too late, and a file that ends with its
    pixels is refused after all of it was read. *)
Lemma gui_load_bmp_refuses (path : str) (f : bmp_file) (w : W) :
  bmp_ok f → 14 ≤ bm_width f * bm_height f < 2 ^ 28 → (length (bm_rest f) < 54)%nat → fr_file w path = Some (bmp_bytes f) →
  wp (gui_load_bmp fs_kernel_memory path) (λ r _, r = None) w.
Proof.
  intros Hf Hwh Hrest Hfile. pose proof Hf as (_ & _ & _ & Hw & Hh & Ho & Hn & Hrows).
  unfold gui_load_bmp. apply wp_bind. eapply (wp_reopen path); [exact Hfile|]. intros fd w1 Hfd Hr1. cbv beta.
  rewrite (proj2 (Z.ltb_ge fd 0)) by lia. apply wp_bind. eapply wp_headers; [exact Hf|exact Hr1|]. intros w2 Hr2. cbv beta iota.
  cbn [bi_width bi_height bi_bpp bf_offset]. change (negb (32 =? 32)) with false. cbv iota.
  apply wp_bind. eapply (wp_kalloc fs_kernel_memory); [exact Hr2|]. intros a w3 Ha Hr3. rewrite (proj2 (Z.eqb_neq a NULL)) by done.
  apply wp_bind. eapply (wp_kalloc fs_kernel_memory); [exact Hr3|]. intros px w4 Hpx Hr4. rewrite (proj2 (Z.eqb_neq px NULL)) by done.
  assert (Z.of_nat (length (bmp_bytes f)) = bm_offset f + 4 * (bm_width f * bm_height f) + Z.of_nat (length (bm_rest f))) as Hlen.
  { destruct (file_header_read f Hf) as [L1 _]. destruct (info_header_read f Hf) as [L2 _].
    assert (bmp_bytes f = file_header_bytes f ++ info_header_bytes f ++ bm_filler f ++ pixel_bytes (concat (reverse (bm_pixels f))) ++ bm_rest f) as -> by done.
    pose proof (length_rows (bm_width f) (reverse (bm_pixels f)) ltac:(by apply Forall_reverse)) as Hc. rewrite length_reverse in Hc.
    rewrite !length_app, L1, L2, length_pixel_bytes. unfold bm_offset. lia. }
  apply wp_bind. unfold skip_to. assert (bm_offset f = Z.of_nat (Z.to_nat (bm_offset f))) as Eo by (unfold bm_offset; lia). rewrite Eo at 2.
  eapply wp_skip; [exact Hr4|lia|lia|lia|]. intros w5 Hr5. unfold read_pixels.
  set (n := bm_width f * bm_height f) in *.
  assert (i32 n = n) as -> by (apply i32_id; lia). rewrite (proj2 (Z.ltb_ge n 0)) by lia.
  assert (u64 (u64 (bm_width f) * bm_height f * 4) = 4 * n) as ->.
  { unfold u64. rewrite (Z.mod_small (bm_width f)) by lia. rewrite Z.mod_small; unfold n in *; lia. }
  apply wp_bind. replace (4 * n) with (Z.of_nat (Z.to_nat (4 * n))) by lia. eapply wp_read; [exact Hr5|lia|]. intros w6 Hr6. cbv beta iota.
  apply wp_bind. destruct (fr_close fd w6) as (r & w7 & E7 & _). unfold wp at 1. rewrite E7.
  assert (i64 (u64 (bm_width f) * bm_height f * 4) = 4 * n) as ->.
  { unfold i64, u64. rewrite (Z.mod_small (bm_width f)) by lia. rewrite Z.mod_small; unfold n in *; lia. }
  rewrite (proj2 (Z.eqb_neq _ (4 * n))) by (rewrite length_take, length_drop; lia). cbn [negb].
  unfold gui_free_bmp, kfree. cbn [im_pixels_addr im_addr]. apply wp_bind, wp_bind.
  assert (truthy px = true) as -> by (unfold truthy; by rewrite (proj2 (Z.eqb_neq px 0))). cbn [whenM].
  destruct (ro_free px w7) as (w8 & E8 & _). unfold wp at 1. rewrite E8.
  destruct (ro_free a w8) as (w9 & E9 & _). unfold wp at 1. rewrite E9. by apply wp_ret.
Qed.
End wallpaper.

(** ** An example *)

(** One file, read from where it stands; memory is never short. *)
Record one_picture := mk_one_picture { op_content : list Z; op_pos : nat }.
Definition picture_name : str := chars "/cursor.bmp".
#[local] Instance picture_files : Files one_picture := {|
  f_open p flags := λ w, if bool_decide (p = picture_name) then Done 3 (mk_one_picture (op_content w) 0) else Done (-1) w;
  f_read fd n := λ w, let bs := take (Z.to_nat n) (drop (op_pos w) (op_content w)) in
    Done (Z.of_nat (length bs), bs) (mk_one_picture (op_content w) (op_pos w + length bs));
  f_write fd bs := mret 0;
  f_close fd := mret 0;
|}.
#[local] Instance picture_memory : AllocOps one_picture := {|
  al_create self size := mret 0x1000; al_alloc self size count := mret 0x1000; al_free self p := mret tt;
  al_ram w := ∅; al_set_ram m w := w;
|}.
#[local] Instance picture_reads : FullReads one_picture.
Proof.
  refine {| fr_file w p := if bool_decide (p = picture_name) then Some (op_content w) else None; fr_pos w fd := Some (picture_name, op_pos w) |}.
  - intros p c w H. case_bool_decide as Hp; [|done]. injection H as <-. rewrite Hp. by exists 3, (mk_one_picture (op_content w) 0).
  - intros fd n p i c w [= <- <-] Hc Hn Hi. rewrite bool_decide_eq_true_2 in Hc by done. injection Hc as <-. by eexists.
  - intros fd w. by eexists _, w.
Defined.
#[local] Instance picture_room : Roomy one_picture 1.
Proof.
  split; [intros size count w; by exists 0x1000, w|intros p w; by exists w].
Qed.
(** A pointer whose rows count up, with ten bytes before its pixels. *)
Definition demo_pixels : list (list Z) := (λ y, replicate 16 (Z.of_nat y * 0x01020304)) <$> seq 0 16.
Definition demo_bmp : bmp_file := mk_bmp_file 16 16 (replicate 8 0) [1; 0] (replicate 24 0) (replicate 10 7) demo_pixels [].
Lemma load_cursor_bmp_roundtrip_witness :
  wp (load_cursor_bmp 1 picture_name) (λ r w', ∃ a p, r = Some (mk_image a p 16 16 (concat demo_pixels))) (mk_one_picture (bmp_bytes demo_bmp) 0).
Proof.
  apply (load_cursor_bmp_roundtrip 1 picture_name demo_bmp (mk_one_picture (bmp_bytes demo_bmp) 0)); [|done|done|reflexivity].
  unfold bmp_ok. split_and!; try done. eval_decide.
Defined.
